(* ===== verification/_CoqProject ===== *)
-Q . S2P
Prelude.v
Mmu.v
Mem.v
Bytes.v
State.v
Kernel.v
Cprintf.v
Kalloc.v
Vm.v
VmSample.v
VmCow.v
VmAlloc.v
VmFork.v
VmShare.v
VmUser.v
UserMem.v
Sched.v
Sleeplock.v
Bio.v
Log.v
FsInode.v
Console.v
Kbd.v
FsFile.v
Pipe.v
File.v
Wmap.v
Proc.v
Exec.v
Syscall.v
Sysfile.v
Sysproc.v
Trap.v
Devices.v
WmapTable.v
WmapUnmap.v
WmapFault.v
Spinlock.v
BioCache.v
LogCrash.v
LogOps.v
PipeQueue.v
Ide.v
Grep.v
FsAlloc.v
FsContents.v
FsWrite.v
Umalloc.v
UmallocHeap.v
Sh.v
ShRun.v
Mkfs.v
MkfsImage.v
Ulib.v
UserIo.v
UserProgs.v
UserDirs.v
DevicesSpec.v
Mp.v
Boot.v
X86.v
X86Exec.v
Segments.v
Switch.v
TrapEntry.v
TrapPath.v
BootAsm.v
StartOthers.v
Backtrace.v
FirstProc.v
Startup.v
