(* ===== verification/Prelude.v ===== *)
(** * xv6 with memory mappings: a verification development

    The program is xv6, a Unix-like teaching kernel for x86 in C
    (src/xv6-public/), extended with memory mappings (the system calls wmap,
    wunmap, va2pa and getwmapinfo) and with copy-on-write fork, together with
    its user programs.  The development translates the C functions into
    executable Rocq functions and proves what they do.

    ** The model

    Kernel code is a shallow embedding in the state monad [M S A] of this
    file.  A run ends with a value, a panic, going to sleep on a channel, an
    access that C leaves undefined, or with a loop whose fuel is used up
    ([outcome]).  [wp m Q s] says that [m] returns from [s] and establishes [Q];
    so a theorem stated with [wp], or with [= Ret ..], includes that there is no
    panic, no undefined access and that the loops end.  Machine integers are
    [Z] with the wrap-around written out ([u32], [s32], [u8]).  Loops run on
    fuel computed from the state, and [wp_iter] asks for a measure below the
    fuel.  The kernel runs on one CPU, except in Spinlock.v, whose subject is
    the interleaving of CPUs.  A process that sleeps ends the run of the
    operation with [Sleep]; the code after the sleep is a definition of its own
    where the C code loops over it (iderw, sys_sleep, trap).

    The physical memory is a finite map from addresses to bytes (Mem.v); page
    tables, the free list of pages and the headers of malloc live in it.
    Statically allocated tables (processes, inodes, buffers, open files) are
    lists of records, and pointers into them are indices (State.v).  Code
    outside the repository is a parameter: the place of the kernel image, the
    size of the disk and the code of initcode ([KernelImage] in Kernel.v), the
    ATA drive ([AtaDisk] with its laws in Ide.v), the other devices ([Machine]
    in Devices.v, [Clock] in DevicesSpec.v), and the kernel's free memory for
    sbrk in Umalloc.v.  Each has an instance that the witnesses use.

    The assembly files are lists of instructions, executed by a model of the
    processor (X86.v): registers, segments, privilege levels, gates, the task
    state and paging as far as the files use them, after the processor's manual.
    A theorem about them says which state the processor [reaches].  Where the
    assembler and the linker put an instruction is a parameter ([Code]).  In the
    files on processes and traps the trap frame and the saved context are
    records; TrapEntry.v and Switch.v relate the records to the words on the
    kernel stack.

    ** The files

    - Prelude, Mmu, Mem, Bytes, State, Kernel: integers, the monad and its
      rules; mmu.h, memlayout.h; memory and string.c; the structs; the state of
      the kernel with spin locks as one CPU sees them.
    - Cprintf, Console, Kbd: console.c and kbd.c.
    - Kalloc: kalloc.c and the reference counts of the copy-on-write pages.
      The allocator refines a stack of pages (kalloc_kfree_refine), and boot
      puts every page on it once (boot_frees_all_pages).
    - Vm: vm.c.  VmCow: handle_cow_fault copies a shared page, takes over a page
      with one reference, and refuses other faults.  VmAlloc: mappages,
      allocuvm, deallocuvm.  VmFork: setupkvm, freevm.  VmShare: copyuvm shares
      the pages of the parent.  VmUser: copyout.  UserMem: accesses to user
      memory through the page tables.  VmSample: a small address space for the
      witnesses.  The invariant [vm_inv] (page directories are well formed, and
      no frame has two uses) is kept by all of them.
    - Wmap: the mapping table of vm.c.  WmapTable: wmap is insertion into a map
      of disjoint intervals (wmap_refines); the ranges that sys_wmap accepts.
      WmapUnmap: wunmap deletes a mapping and frees its pages.  WmapFault: lazy
      allocation in the page-fault handler.
    - Sched, Sleeplock, Proc, Exec, Syscall, Sysfile, Sysproc, Trap: proc.c,
      sleeplock.c, exec.c, syscall.c, sysfile.c, sysproc.c and trap.c.
    - Spinlock: spinlock.c for any number of CPUs as a step relation over
      single reads and writes; mutual exclusion and the exact conditions of the
      panics by rule induction.
    - Bio, Log: bio.c, memide.c and log.c.  BioCache: the buffer cache as a view
      of the blocks ([cache]).  LogCrash: commit is atomic under crashes at any
      disk write, and recovery can be interrupted and repeated.  LogOps:
      log_write, and the log space that begin_op reserves, which is too small for
      any three full operations.
    - Ide: ide.c with its queue and interrupts over an abstract drive; it serves
      every request and does the same as memide.c.
    - FsInode, FsFile: fs.c.  FsAlloc: balloc gives out free blocks only.
      FsContents: readi returns the contents of a file.  FsWrite: writei changes
      exactly its range, allocates free blocks, leaves other files alone, and
      what it wrote is read back.
    - Pipe, File: pipe.c and file.c.  PipeQueue: pipes are bounded queues.
    - Umalloc, UmallocHeap: umalloc.c; malloc and free keep a row of blocks
      without overlap, and free merges neighbours.
    - Grep: grep.c; the matcher decides the language of the pattern.
    - Sh: the parser of sh.c; it reads back every command tree that is printed
      and terminates on every line.  ShRun: the shell as a program over
      system calls with the descriptor tables of its processes; every program
      it starts has the descriptors that the command line asks for.
    - Mkfs, MkfsImage: mkfs.c; the image it builds is read back by the
      functions of the kernel with the files that were put in.
    - Ulib: ulib.c and printf.c.  UserIo: user programs as trees of system
      calls, and what they rely on of the kernel (the class [UserKernel], with
      an instance).  UserProgs, UserDirs: cat, wc, grep, ls, echo, init and the
      other small programs; what they write for any sizes of the reads.
    - Devices, DevicesSpec: lapic.c, ioapic.c, picirq.c and uart.c over an
      abstract machine; the clock is read in one piece, interrupts are routed
      as asked for.  Mp: the search of the BIOS tables in mp.c.
    - Boot: bootmain.c; the kernel is loaded from the disk as its file says.
    - X86, X86Exec: the processor and rules for running instructions.
      Segments: the descriptors of mmu.h and asm.h, seginit, tvinit, idtinit and
      the task state in switchuvm; decoded as the processor does, the tables
      they build are those of flat segments and of gates that user programs can
      call for system calls only (tables_installed).  Switch: swtch.S.
      TrapEntry: vectors.pl, trapasm.S, usys.S and initcode.S.  TrapPath: a
      system call from the user program to trap and back, what a user program
      cannot do, interrupts of the kernel, and the first instructions of a new
      process.
    - BootAsm: bootasm.S from the BIOS to bootmain, entry.S from bootmain to main,
      and entryother.S.  StartOthers: startothers in main.c with mycpu; every
      other processor gets to mpenter on a stack of its own.
    - Backtrace: panic and getcallerpcs; the first panic is reported whatever locks
      are held, and after it every processor that prints stops.
    - FirstProc: allocproc, inituvm and userinit.  Startup: the calls of main that
      build the kernel's memory, from the empty allocator to the first process
      (startup_creates_init); the pages that the kernel's page tables need are
      counted in VmFork.

    ** Bounds and fuel

    Loops over tables have the length of the table as fuel.  The loops of
    readi and writei have one turn for each block of the range, those of
    mappages, allocuvm, deallocuvm and copyuvm one for each page, the searches
    of malloc and free one for each free block; the fuel expressions of the
    definitions are shown to be enough by the theorems about them, which say
    that the functions return.  The theorems on writei ask for room in the
    log for six blocks per block written, which holds for the pieces in which
    filewrite calls it.  The loops of user programs over their input take fuel
    as an argument, and their theorems ask for more fuel than bytes of input;
    loops that wait for a device take it from how long the device lets them
    wait.

    ** Not modelled

    main, mpenter and mpmain of main.c, which call the initialisation functions
    one after the other, are not composed to one definition: every function they
    call is modelled with its component, on the part of the machine it works on, and
    Startup.v puts together those that build the kernel's memory.  What the other
    processors do between mpenter and setting started is not interleaved with
    startothers.  The processor model does not check the write and user bits
    of page-table entries; the fault handlers get the faults as traps.  The kernel's
    state has no interrupt flag: cli, pushcli and popcli are in Spinlock.v and
    Backtrace.v, and the task state that switchuvm writes between them is in
    Segments.v.  trap is modelled for the build with memide.c, whose ideintr does
    nothing; the ideintr of ide.c is in Ide.v.  The constructors of sh.c do not fail:
    a null pointer from malloc, which they do not check for, is left out.  The test
    programs t12test.c and usertests.c are not modelled: they exercise the system
    calls whose definitions are here. *)

From stdpp Require Export prelude gmap strings.
From Stdlib Require Export ZArith Lia.

#[global] Open Scope Z_scope.

(** ** Machine integers

    A C [uint] is a [Z] in [0, 2^32), a C [int] a [Z] in [-2^31, 2^31).
    [u32]/[s32] are the conversions (and the wrap-around of arithmetic). *)

Definition u32 (x : Z) : Z := x mod 4294967296.
Definition s32 (x : Z) : Z :=
  let y := u32 x in if y <? 2147483648 then y else y - 4294967296.
Definition u8 (x : Z) : Z := x mod 256.
Definition u16 (x : Z) : Z := x mod 65536.

Lemma u32_range x : 0 <= u32 x < 4294967296.
Proof. apply Z.mod_pos_bound; lia. Qed.

Lemma u32_small x : 0 <= x < 4294967296 -> u32 x = x.
Proof. apply Z.mod_small. Qed.

Lemma s32_range x : -2147483648 <= s32 x < 2147483648.
Proof. unfold s32. pose proof (u32_range x). destruct (Z.ltb_spec (u32 x) 2147483648); lia. Qed.

Lemma s32_small x : -2147483648 <= x < 2147483648 -> s32 x = x.
Proof.
  intros H. unfold s32. destruct (decide (0 <= x)).
  - rewrite u32_small by lia. destruct (Z.ltb_spec x 2147483648); lia.
  - assert (u32 x = x + 4294967296) as ->.
    { unfold u32. symmetry. apply Z.mod_unique with (-1); lia. }
    destruct (Z.ltb_spec (x + 4294967296) 2147483648); lia.
Qed.

(** Storing a [uint] in an [int] and reading it back loses nothing. *)
Lemma u32_s32 x : u32 (s32 x) = u32 x.
Proof.
  unfold s32. destruct (Z.ltb_spec (u32 x) 2147483648).
  - apply u32_small, u32_range.
  - unfold u32. rewrite <- (Z_mod_plus_full _ 1 4294967296).
    replace (x mod 4294967296 - 4294967296 + 1 * 4294967296) with (x mod 4294967296) by lia.
    apply Z.mod_mod. lia.
Qed.

Lemma u32_idem x : u32 (u32 x) = u32 x.
Proof. apply u32_small, u32_range. Qed.

Lemma u32_add_l x y : u32 (u32 x + y) = u32 (x + y).
Proof. apply Zplus_mod_idemp_l. Qed.

(** ** Outcomes of a kernel operation

    Kernel code runs in the state monad [M S A].  A run returns a value,
    stops in [panic], goes to sleep on a channel, or performs an access that C
    leaves undefined ([Crash]: a null dereference, an index out of bounds).
    [Diverge] is what a loop gives when its fuel runs out, and what an endless
    loop gives; the theorems on the other loops show that the fuel given is never
    exhausted. *)

Inductive outcome (S A : Type) : Type :=
| Ret (a : A) (s : S)
| Panic (msg : string) (s : S)
| Sleep (s : S)
| Crash (why : string)
| Diverge.
Arguments Ret {S A} _ _.
Arguments Panic {S A} _ _.
Arguments Sleep {S A} _.
Arguments Crash {S A} _.
Arguments Diverge {S A}.

Definition M (S A : Type) : Type := S -> outcome S A.

#[global] Instance M_ret {S} : MRet (M S) := fun A a s => Ret a s.

#[global] Instance M_bind {S} : MBind (M S) := fun A B f m s =>
  match m s with
  | Ret a s' => f a s'
  | Panic e s' => Panic e s'
  | Sleep s' => Sleep s'
  | Crash w => Crash w
  | Diverge => Diverge
  end.

Section prims.
Context {S : Type}.

Definition gets {A} (f : S -> A) : M S A := fun s => Ret (f s) s.
Definition modify (f : S -> S) : M S unit := fun s => Ret tt (f s).
Definition panic {A} (msg : string) : M S A := fun s => Panic msg s.
Definition crash {A} (why : string) : M S A := fun _ => Crash why.
(** [for(;;);] *)
Definition spin {A} : M S A := fun _ => Diverge.
Definition from_option {A} (why : string) (o : option A) : M S A :=
  match o with Some a => mret a | None => crash why end.

(** [iter fuel body a] runs [body], which either continues with a new loop
    state ([inl]) or leaves the loop with its result ([inr]). *)
Fixpoint iter {A R} (fuel : nat) (body : A -> M S (A + R)) (a : A) : M S R :=
  match fuel with
  | O => fun _ => Diverge
  | Datatypes.S fuel =>
      body a ≫= fun r =>
      match r with
      | inl a' => iter fuel body a'
      | inr x => mret x
      end
  end.

(** [for_each xs body]: a [for] over the elements of an array, in order. *)
Fixpoint for_each {A} (xs : list A) (body : A -> M S unit) : M S unit :=
  match xs with
  | [] => mret tt
  | x :: xs => body x ≫= fun _ => for_each xs body
  end.

(** ** Weakest preconditions

    [wp m Q s]: from [s], [m] returns (no panic, no sleep, no undefined
    access, no exhausted fuel) and its result and final state satisfy [Q]. *)
Definition wp {A} (m : M S A) (Q : A -> S -> Prop) (s : S) : Prop :=
  match m s with Ret a s' => Q a s' | _ => False end.

Lemma wp_ret {A} (a : A) Q s : Q a s -> wp (mret a) Q s.
Proof. done. Qed.

Lemma wp_bind {A B} (m : M S A) (f : A -> M S B) Q s :
  wp m (fun a s' => wp (f a) Q s') s -> wp (m ≫= f) Q s.
Proof. unfold wp, mbind, M_bind. by destruct (m s). Qed.

Lemma wp_bind_inv {A B} (m : M S A) (f : A -> M S B) Q s :
  wp (m ≫= f) Q s -> wp m (fun a s' => wp (f a) Q s') s.
Proof. unfold wp, mbind, M_bind. by destruct (m s). Qed.

Lemma wp_bind_assoc {A B C} (m : M S A) (f : A -> M S B) (g : B -> M S C) Q s :
  wp ((m ≫= f) ≫= g) Q s -> wp (m ≫= fun a => f a ≫= g) Q s.
Proof. unfold wp, mbind, M_bind. by destruct (m s). Qed.

Lemma wp_mono {A} (m : M S A) (Q Q' : A -> S -> Prop) s :
  wp m Q s -> (forall a s', Q a s' -> Q' a s') -> wp m Q' s.
Proof. unfold wp. destruct (m s); naive_solver. Qed.

Lemma wp_and {A} (m : M S A) (Q Q' : A -> S -> Prop) s :
  wp m Q s -> wp m Q' s -> wp m (fun a s' => Q a s' /\ Q' a s') s.
Proof. unfold wp. by destruct (m s). Qed.

Lemma wp_gets {A} (f : S -> A) Q s : Q (f s) s -> wp (gets f) Q s.
Proof. done. Qed.

Lemma wp_modify f Q s : Q tt (f s) -> wp (modify f) Q s.
Proof. done. Qed.

(** What a [wp] says of the run itself. *)
Lemma wp_inv {A} (m : M S A) Q s :
  wp m Q s -> exists a s', m s = Ret a s' /\ Q a s'.
Proof. unfold wp. destruct (m s); [eauto|done..]. Qed.

(** The same for a postcondition that is an existential over further values. *)
Lemma wp_inv' {A B} (m : M S A) (P : A -> S -> B -> Prop) s :
  wp m (fun a s' => exists b, P a s' b) s -> exists a s' b, m s = Ret a s' /\ P a s' b.
Proof. intros (a & s' & Hrun & b & Hb)%wp_inv. by exists a, s', b. Qed.

Lemma wp_inv_tt {B} (m : M S unit) (P : S -> B -> Prop) s :
  wp m (fun _ s' => exists b, P s' b) s -> exists s' b, m s = Ret tt s' /\ P s' b.
Proof. intros ([] & s' & Hrun & b & Hb)%wp_inv. by exists s', b. Qed.

Lemma wp_of_run {A} (m : M S A) Q s a s' : m s = Ret a s' -> Q a s' -> wp m Q s.
Proof. unfold wp. by intros ->. Qed.

Lemma bind_run {A B} (m : M S A) (f : A -> M S B) s a s' :
  m s = Ret a s' -> (m ≫= f) s = f a s'.
Proof. unfold mbind, M_bind. by intros ->. Qed.

Lemma run_of_wp {A} (m : M S A) s a s' :
  wp m (fun b t => b = a /\ t = s') s -> m s = Ret a s'.
Proof. unfold wp. destruct (m s); [by intros [-> ->]|done..]. Qed.

(** The loop rule: an invariant [I] and a measure that decreases on every
    iteration; fuel above the initial measure is enough. *)
Lemma wp_iter {A R} (I : A -> S -> Prop) (mu : A -> nat) (body : A -> M S (A + R)) Q fuel a s :
  (forall a s, I a s ->
     wp (body a) (fun r s' =>
       match r with
       | inl a' => I a' s' /\ (mu a' < mu a)%nat
       | inr x => Q x s'
       end) s) ->
  I a s -> (mu a < fuel)%nat -> wp (iter fuel body a) Q s.
Proof.
  intros Hbody. revert a s. induction fuel as [|fuel IH]; intros a s HI Hmu; [lia|].
  simpl. apply wp_bind. eapply wp_mono; [by apply Hbody|].
  intros [a'|x] s'; simpl; [|done]. intros [? ?]. apply IH; [done|lia].
Qed.

(** A [for] loop over an index range, with an invariant on the index. *)
Lemma wp_for_each_seq (I : nat -> S -> Prop) n (body : nat -> M S unit) Q s :
  (forall i s, (i < n)%nat -> I i s -> wp (body i) (fun _ s' => I (Datatypes.S i) s') s) ->
  I 0%nat s -> (forall s', I n s' -> Q tt s') -> wp (for_each (seq 0 n) body) Q s.
Proof.
  intros Hb H0 HQ. assert (forall k i s, (i + k = n)%nat -> I i s -> wp (for_each (seq i k) body) Q s) as Hk.
  { induction k as [|k IH]; intros i s' Hn Hi; simpl.
    - apply wp_ret, HQ. by replace n with i by lia.
    - apply wp_bind. eapply wp_mono; [apply Hb; [lia|done]|]. intros [] s'' Hi'. apply IH; [lia|done]. }
  by apply Hk.
Qed.

(** [panics m e s]: from [s], [m] stops with the panic [e]. *)
Definition panics {A} (m : M S A) (e : string) (s : S) : Prop := exists s', m s = Panic e s'.

Lemma panics_panic {A} e s : panics (panic e : M S A) e s.
Proof. by exists s. Qed.

Lemma panics_bind {A B} (m : M S A) (f : A -> M S B) e s : panics m e s -> panics (m ≫= f) e s.
Proof. intros [s' Hs]. exists s'. unfold mbind, M_bind. by rewrite Hs. Qed.

Lemma panics_after {A B} (m : M S A) (f : A -> M S B) e s :
  wp m (fun a s' => panics (f a) e s') s -> panics (m ≫= f) e s.
Proof. intros (a & s1 & Hrun & s' & Hs)%wp_inv. exists s'. by rewrite (bind_run _ _ _ _ _ Hrun). Qed.

Lemma panics_iter {A R} (I : A -> S -> Prop) (mu : A -> nat) (body : A -> M S (A + R)) e fuel a s :
  (forall a s, I a s -> panics (body a) e s \/
     wp (body a) (fun r s' => exists a', r = inl a' /\ I a' s' /\ (mu a' < mu a)%nat) s) ->
  I a s -> (mu a < fuel)%nat -> panics (iter fuel body a) e s.
Proof.
  intros Hbody. revert a s. induction fuel as [|fuel IH]; intros a s HI Hmu; [lia|]. simpl.
  destruct (Hbody a s HI) as [Hp|Hw]; [by apply panics_bind|]. apply panics_after.
  eapply wp_mono; [done|]. intros r s' (a' & -> & ? & ?). apply IH; [done|lia].
Qed.

(** [Frame f m]: however [m] ends, the part [f] of the state is as it was. *)
Definition Frame {A X} (f : S -> X) (m : M S A) : Prop :=
  forall s, match m s with
            | Ret _ s' | Panic _ s' | Sleep s' => f s' = f s
            | Crash _ | Diverge => True
            end.

Lemma Frame_ret {A X} (f : S -> X) (a : A) : Frame f (mret a).
Proof. by intros s. Qed.

Lemma Frame_bind {A B X} (f : S -> X) (m : M S A) (k : A -> M S B) :
  Frame f m -> (forall a, Frame f (k a)) -> Frame f (m ≫= k).
Proof.
  intros Hm Hk s. unfold mbind, M_bind. specialize (Hm s).
  destruct (m s) as [a s'| | | |]; try done.
  specialize (Hk a s'). destruct (k a s'); congruence.
Qed.

Lemma Frame_gets {A X} (f : S -> X) (g : S -> A) : Frame f (gets g).
Proof. by intros s. Qed.

Lemma Frame_modify {X} (f : S -> X) g : (forall s, f (g s) = f s) -> Frame f (modify g).
Proof. by intros H s; simpl. Qed.

Lemma Frame_panic {A X} (f : S -> X) e : Frame f (panic e : M S A).
Proof. by intros s. Qed.

Lemma Frame_crash {A X} (f : S -> X) e : Frame f (crash e : M S A).
Proof. by intros s. Qed.

Lemma Frame_spin {A X} (f : S -> X) : Frame f (spin : M S A).
Proof. by intros s. Qed.

Lemma Frame_from_option {A X} (f : S -> X) e (o : option A) : Frame f (from_option e o).
Proof. destruct o; by intros s. Qed.

Lemma Frame_iter {A R X} (f : S -> X) (body : A -> M S (A + R)) :
  (forall a, Frame f (body a)) -> forall fuel a, Frame f (iter fuel body a).
Proof.
  intros Hb fuel. induction fuel as [|fuel IH]; intros a; [by intros s|].
  simpl. apply Frame_bind; [done|]. intros [?|?]; [done|apply Frame_ret].
Qed.

Lemma Frame_for_each {A X} (f : S -> X) (body : A -> M S unit) xs :
  (forall a, Frame f (body a)) -> Frame f (for_each xs body).
Proof.
  intros Hb. induction xs; simpl; [apply Frame_ret|]. apply Frame_bind; auto.
Qed.

Lemma wp_frame {A X} (f : S -> X) (m : M S A) Q s :
  Frame f m -> wp m Q s -> wp m (fun a s' => Q a s' /\ f s' = f s) s.
Proof. intros Hf. unfold wp. specialize (Hf s). by destruct (m s). Qed.

Lemma wp_keep {A X} (f : S -> X) (m : M S A) Q s :
  Frame f m -> wp m (fun a s' => f s' = f s -> Q a s') s -> wp m Q s.
Proof. intros Hf Hm. eapply wp_mono; [by apply (wp_frame f)|]. cbv beta. intros a s' [HQ E]. by apply HQ. Qed.

End prims.

(** A computation on a part of the state. *)
Definition lift {S T A} (get : S -> T) (set : T -> S -> S) (m : M T A) : M S A := fun s =>
  match m (get s) with
  | Ret a t => Ret a (set t s)
  | Panic e t => Panic e (set t s)
  | Sleep t => Sleep (set t s)
  | Crash w => Crash w
  | Diverge => Diverge
  end.

Lemma wp_lift {S T A} (get : S -> T) set (m : M T A) Q s : wp m (fun a t => Q a (set t s)) (get s) -> wp (lift get set m) Q s.
Proof. intros (a & t & Hm & HQ)%wp_inv. unfold wp, lift. rewrite Hm. exact HQ. Qed.

Arguments iter : simpl never.
Arguments u32 : simpl never.
Arguments s32 : simpl never.

(** ** Automation *)

(** The database [frame] holds the [Frame] lemmas of named operations;
    [frame_solve] follows the structure of the code and unfolds what has no
    lemma. *)
Create HintDb frame.

Ltac unfold_head t :=
  lazymatch t with
  | ?f _ => unfold_head f
  | _ => unfold t
  end.

Ltac frame_step :=
  cbv beta;
  lazymatch goal with
  | |- forall _, _ => intro
  | |- Frame _ (mret _) => apply Frame_ret
  | |- Frame _ (_ ≫= _) => apply Frame_bind
  | |- Frame _ (gets _) => apply Frame_gets
  | |- Frame _ (panic _) => apply Frame_panic
  | |- Frame _ (crash _) => apply Frame_crash
  | |- Frame _ spin => apply Frame_spin
  | |- Frame _ (from_option _ _) => apply Frame_from_option
  | |- Frame _ (modify _) => apply Frame_modify; intros []; reflexivity
  | |- Frame _ (iter _ _ _) => apply Frame_iter
  | |- Frame _ (for_each _ _) => apply Frame_for_each
  | |- Frame _ (if ?b then _ else _) => destruct b
  | |- Frame _ (match ?b with _ => _ end) => destruct b
  | |- Frame _ (let _ := _ in _) => cbv zeta
  | |- Frame _ ?m => first [ solve [auto 2 with frame nocore] | unfold_head m ]
  end.
Ltac frame_solve := solve [repeat frame_step].

(** One step of symbolic execution on a [wp] goal. *)
Ltac wp_step :=
  lazymatch goal with
  | |- wp (mret _) _ _ => apply wp_ret
  | |- wp (gets _) _ _ => apply wp_gets
  | |- wp (modify _) _ _ => apply wp_modify
  | |- wp (from_option _ (Some _)) _ _ => unfold from_option; apply wp_ret
  | |- wp (_ ≫= _) _ _ => apply wp_bind
  | |- wp (let _ := _ in _) _ _ => cbv zeta
  | |- wp ((fun _ => _) _) _ _ => cbv beta
  end.
Ltac wp_steps := repeat (wp_step; cbv beta).

(** Rewrite a boolean comparison that [lia] decides. *)
Ltac zb :=
  repeat match goal with
  | |- context [?a <? ?b] =>
      first [ rewrite (proj2 (Z.ltb_lt a b)) by lia | rewrite (proj2 (Z.ltb_ge a b)) by lia ]
  | |- context [?a <=? ?b] =>
      first [ rewrite (proj2 (Z.leb_le a b)) by lia | rewrite (proj2 (Z.leb_gt a b)) by lia ]
  | |- context [?a =? ?b] =>
      first [ rewrite (proj2 (Z.eqb_eq a b)) by lia | rewrite (proj2 (Z.eqb_neq a b)) by lia ]
  end.

(** Case split on a boolean comparison of the goal, keeping the fact. *)
Ltac zcase :=
  match goal with
  | |- context [?a <? ?b] => destruct (Z.ltb_spec a b)
  | |- context [?a <=? ?b] => destruct (Z.leb_spec a b)
  | |- context [?a =? ?b] => destruct (Z.eqb_spec a b)
  end.

(** ** Arrays indexed by C integers *)

Section arrays.
Context {A : Type}.

Definition nthZ (l : list A) (i : Z) : option A :=
  if i <? 0 then None else l !! Z.to_nat i.
Definition updZ (l : list A) (i : Z) (x : A) : list A :=
  if i <? 0 then l else <[Z.to_nat i := x]> l.

Lemma nthZ_updZ_eq l i x : 0 <= i < Z.of_nat (length l) -> nthZ (updZ l i x) i = Some x.
Proof.
  intros H. unfold nthZ, updZ. zb. apply list_lookup_insert_eq. lia.
Qed.

Lemma nthZ_updZ_ne l i j x : i <> j -> nthZ (updZ l i x) j = nthZ l j.
Proof.
  intros H. unfold nthZ, updZ. destruct (Z.ltb_spec j 0), (Z.ltb_spec i 0); try done.
  apply list_lookup_insert_ne. lia.
Qed.

Lemma length_updZ l i x : length (updZ l i x) = length l.
Proof. unfold updZ. destruct (i <? 0); [done|apply length_insert]. Qed.

Lemma nthZ_Some_range l i x : nthZ l i = Some x -> 0 <= i < Z.of_nat (length l).
Proof.
  unfold nthZ. destruct (Z.ltb_spec i 0); [done|]. intros ?%lookup_lt_Some. lia.
Qed.

Lemma nthZ_is_Some l i : 0 <= i < Z.of_nat (length l) -> exists x, nthZ l i = Some x.
Proof.
  intros H. unfold nthZ. zb. apply lookup_lt_is_Some_2. lia.
Qed.

End arrays.
