(* ===== verification/Mmu.v ===== *)
(** * The x86 paging constants and macros (mmu.h, memlayout.h, param.h)

    Every macro is translated with the width of its C operands: addresses and
    entries are [uint], so results are wrapped with [u32].  The lemmas restate
    the masks and shifts as division and remainder, the form the other files
    reason with. *)

From S2P Require Import Prelude.

(** ** param.h *)

Definition NPROC : Z := 64.
Definition KSTACKSIZE : Z := 4096.
Definition NOFILE : Z := 16.
Definition NFILE : Z := 100.
Definition NINODE : Z := 50.
Definition NDEV : Z := 10.
Definition ROOTDEV : Z := 1.
Definition MAXARG : Z := 32.
Definition MAXOPBLOCKS : Z := 10.
Definition LOGSIZE : Z := MAXOPBLOCKS * 3.
Definition NBUF : Z := MAXOPBLOCKS * 3.
Definition FSSIZE : Z := 1000.

(** ** fcntl.h *)

Definition O_RDONLY : Z := 0x000.
Definition O_WRONLY : Z := 0x001.
Definition O_RDWR : Z := 0x002.
Definition O_CREATE : Z := 0x200.

(** ** memlayout.h *)

Definition EXTMEM : Z := 0x100000.
Definition PHYSTOP : Z := 0xE000000.
Definition DEVSPACE : Z := 0xFE000000.
Definition KERNBASE : Z := 0x80000000.
Definition KERNLINK : Z := KERNBASE + EXTMEM.

Definition V2P (a : Z) : Z := u32 (u32 a - KERNBASE).
Definition P2V (a : Z) : Z := u32 (a + KERNBASE).

(** ** mmu.h *)

Definition PGSIZE : Z := 4096.
Definition PTXSHIFT : Z := 12.
Definition PDXSHIFT : Z := 22.
Definition PGSHIFT : Z := 12.
Definition NPDENTRIES : Z := 1024.

Definition PDX (va : Z) : Z := Z.land (Z.shiftr (u32 va) PDXSHIFT) 0x3FF.
Definition PTX (va : Z) : Z := Z.land (Z.shiftr (u32 va) PTXSHIFT) 0x3FF.
Definition PGADDR (d t o : Z) : Z :=
  u32 (Z.lor (Z.lor (Z.shiftl d PDXSHIFT) (Z.shiftl t PTXSHIFT)) o).

(** On an unsigned argument. *)
Definition PGROUNDUP (sz : Z) : Z := Z.land (u32 (sz + PGSIZE - 1)) (Z.lnot (PGSIZE - 1)).
(** On an [int] argument, as in [PGROUNDUP(length)]. *)
Definition PGROUNDUP_int (sz : Z) : Z := Z.land (s32 (sz + PGSIZE - 1)) (Z.lnot (PGSIZE - 1)).
Definition PGROUNDDOWN (a : Z) : Z := Z.land (u32 a) (Z.lnot (PGSIZE - 1)).

Definition PTE_P : Z := 0x001.
Definition PTE_W : Z := 0x002.
Definition PTE_U : Z := 0x004.
Definition PTE_COW : Z := 0x400.

Definition PPN (pa : Z) : Z := Z.shiftr (u32 pa) PGSHIFT.
Definition PTE_ADDR (pte : Z) : Z := Z.land (u32 pte) (Z.lnot 0xFFF).
Definition PTE_FLAGS (pte : Z) : Z := Z.land (u32 pte) 0xFFF.

(** The C test [if (v & f)]. *)
Definition has (v f : Z) : bool := negb (Z.land v f =? 0).

(** [v &= ~f] on a [uint]. *)
Definition clearf (v f : Z) : Z := Z.land v (Z.lnot f).

(** ** Masks and shifts as arithmetic *)

Lemma land_lnot_4095 x : Z.land x (Z.lnot 4095) = x - x mod 4096.
Proof.
  change 4095 with (Z.ones 12). rewrite <- Z.ldiff_land, Z.ldiff_ones_r by lia.
  rewrite Z.shiftl_mul_pow2, Z.shiftr_div_pow2 by lia.
  change (2 ^ 12) with 4096. pose proof (Z.div_mod x 4096). lia.
Qed.

Lemma PGROUNDDOWN_spec a : PGROUNDDOWN a = u32 a - u32 a mod 4096.
Proof. apply land_lnot_4095. Qed.

Lemma PGROUNDUP_spec a :
  0 <= a <= 4294963200 -> PGROUNDUP a = (a + 4095) / 4096 * 4096.
Proof.
  intros H. unfold PGROUNDUP, PGSIZE. change (4096 - 1) with 4095. rewrite land_lnot_4095.
  replace (a + 4096 - 1) with (a + 4095) by lia. rewrite u32_small by lia.
  pose proof (Z.div_mod (a + 4095) 4096). lia.
Qed.

Lemma PGROUNDUP_int_spec a :
  0 <= a <= 2147479552 -> PGROUNDUP_int a = (a + 4095) / 4096 * 4096.
Proof.
  intros H. unfold PGROUNDUP_int, PGSIZE. change (4096 - 1) with 4095. rewrite land_lnot_4095.
  replace (a + 4096 - 1) with (a + 4095) by lia. rewrite s32_small by lia.
  pose proof (Z.div_mod (a + 4095) 4096). lia.
Qed.

Lemma PDX_spec va : PDX va = u32 va / 4194304.
Proof.
  unfold PDX, PDXSHIFT. change 0x3FF with (Z.ones 10).
  rewrite Z.land_ones, Z.shiftr_div_pow2 by lia. change (2 ^ 22) with 4194304.
  change (2 ^ 10) with 1024. pose proof (u32_range va).
  apply Z.mod_small. split; [apply Z.div_pos; lia|]. apply Z.div_lt_upper_bound; lia.
Qed.

Lemma PTX_spec va : PTX va = u32 va / 4096 mod 1024.
Proof.
  unfold PTX, PTXSHIFT. change 0x3FF with (Z.ones 10).
  rewrite Z.land_ones, Z.shiftr_div_pow2 by lia. done.
Qed.

Lemma PDX_range va : 0 <= PDX va < 1024.
Proof.
  rewrite PDX_spec. pose proof (u32_range va).
  split; [apply Z.div_pos; lia|]. apply Z.div_lt_upper_bound; lia.
Qed.

Lemma PTX_range va : 0 <= PTX va < 1024.
Proof. rewrite PTX_spec. apply Z.mod_pos_bound. lia. Qed.

Lemma PTE_ADDR_spec v : PTE_ADDR v = u32 v - u32 v mod 4096.
Proof. apply land_lnot_4095. Qed.

Lemma PTE_FLAGS_spec v : PTE_FLAGS v = u32 v mod 4096.
Proof. unfold PTE_FLAGS. change 0xFFF with (Z.ones 12). by rewrite Z.land_ones by lia. Qed.

Lemma PPN_spec pa : PPN pa = u32 pa / 4096.
Proof. unfold PPN, PGSHIFT. by rewrite Z.shiftr_div_pow2 by lia. Qed.

Lemma PTE_ADDR_range v : 0 <= PTE_ADDR v <= 4294963200 /\ PTE_ADDR v mod 4096 = 0.
Proof.
  rewrite PTE_ADDR_spec. pose proof (u32_range v). pose proof (Z.div_mod (u32 v) 4096).
  pose proof (Z.mod_pos_bound (u32 v) 4096).
  replace (u32 v - u32 v mod 4096) with (u32 v / 4096 * 4096) by lia.
  rewrite Z_mod_mult. assert (u32 v / 4096 < 1048576) by (apply Z.div_lt_upper_bound; lia).
  assert (0 <= u32 v / 4096) by (apply Z.div_pos; lia). lia.
Qed.

Lemma PTE_FLAGS_range v : 0 <= PTE_FLAGS v < 4096.
Proof. rewrite PTE_FLAGS_spec. apply Z.mod_pos_bound. lia. Qed.

(** Distinct aligned pages do not overlap. *)
Lemma pages_disjoint u v :
  u mod 4096 = 0 -> v mod 4096 = 0 -> u <> v -> u + 4096 <= v \/ v + 4096 <= u.
Proof. intros. Z.div_mod_to_equations. lia. Qed.

(** Entries are an aligned address and twelve flag bits side by side. *)
Lemma aligned_lor pa f : pa mod 4096 = 0 -> 0 <= f < 4096 -> Z.lor pa f = pa + f.
Proof.
  intros Hpa Hf. assert (Z.land pa f = 0) as Hd.
  { apply Z.bits_inj'. intros n Hn. rewrite Z.land_spec, Z.bits_0.
    destruct (Z.lt_ge_cases n 12).
    - rewrite (Z.div_mod pa 4096), Hpa, Z.add_0_r, Z.mul_comm by lia. change 4096 with (2 ^ 12).
      by rewrite Z.mul_pow2_bits_low by lia.
    - rewrite <- (Z.mod_small f 4096) by lia. change 4096 with (2 ^ 12).
      by rewrite Z.mod_pow2_bits_high, andb_false_r by lia. }
  rewrite Z.add_nocarry_lxor by done. by rewrite Z.lxor_lor.
Qed.

Lemma PTE_ADDR_lor pa f :
  0 <= pa <= 4294963200 -> pa mod 4096 = 0 -> 0 <= f < 4096 -> PTE_ADDR (Z.lor pa f) = pa.
Proof.
  intros Hr Hpa Hf. rewrite aligned_lor by done. rewrite PTE_ADDR_spec, u32_small by lia.
  rewrite Z.add_mod, Hpa, Z.add_0_l, Z.mod_mod, Z.mod_small by lia. lia.
Qed.

Lemma PTE_FLAGS_lor pa f :
  0 <= pa <= 4294963200 -> pa mod 4096 = 0 -> 0 <= f < 4096 -> PTE_FLAGS (Z.lor pa f) = f.
Proof.
  intros Hr Hpa Hf. rewrite aligned_lor by done. rewrite PTE_FLAGS_spec, u32_small by lia.
  by rewrite Z.add_mod, Hpa, Z.add_0_l, Z.mod_mod, Z.mod_small by lia.
Qed.

Lemma has_testbit v n : 0 <= n -> has v (2 ^ n) = Z.testbit v n.
Proof.
  intros Hn. unfold has. destruct (Z.eqb_spec (Z.land v (2 ^ n)) 0) as [E|E]; simpl.
  - assert (Z.testbit (Z.land v (2 ^ n)) n = false) as H by (rewrite E; apply Z.bits_0).
    by rewrite Z.land_spec, Z.pow2_bits_true, andb_true_r in H by done.
  - destruct (Z.testbit v n) eqn:T; [done|]. exfalso. apply E. apply Z.bits_inj'. intros m Hm.
    rewrite Z.land_spec, Z.bits_0, Z.pow2_bits_eqb by done.
    destruct (Z.eqb_spec n m) as [->|]; [by rewrite T|apply andb_false_r].
Qed.

Lemma has_P v : has v PTE_P = Z.testbit v 0. Proof. by apply (has_testbit v 0). Qed.
Lemma has_W v : has v PTE_W = Z.testbit v 1. Proof. by apply (has_testbit v 1). Qed.
Lemma has_U v : has v PTE_U = Z.testbit v 2. Proof. by apply (has_testbit v 2). Qed.
Lemma has_COW v : has v PTE_COW = Z.testbit v 10. Proof. by apply (has_testbit v 10). Qed.

Lemma has_lor v w f : has (Z.lor v w) f = has v f || has w f.
Proof.
  unfold has. rewrite Z.land_lor_distr_l.
  destruct (Z.eqb_spec (Z.land v f) 0) as [->|H]; [by rewrite Z.lor_0_l|]. simpl.
  destruct (Z.eqb_spec (Z.lor (Z.land v f) (Z.land w f)) 0) as [E|]; [|done].
  by apply Z.lor_eq_0_iff in E as [? _].
Qed.

Lemma lor_flags_range a b : 0 <= a < 4096 -> 0 <= b < 4096 -> 0 <= Z.lor a b < 4096.
Proof.
  intros Ha Hb. split; [apply Z.lor_nonneg; lia|].
  destruct (decide (Z.lor a b = 0)) as [->|]; [lia|]. change 4096 with (2 ^ 12).
  assert (0 <= Z.lor a b) by (apply Z.lor_nonneg; lia).
  apply Z.log2_lt_pow2; [lia|]. rewrite Z.log2_lor by lia.
  assert (forall x, 0 <= x < 4096 -> Z.log2 x < 12) as Hl.
  { intros x Hx. destruct (decide (x = 0)) as [->|]; [done|]. apply Z.log2_lt_pow2; lia. }
  apply Z.max_lub_lt; by apply Hl.
Qed.

Lemma clearf_range v f : 0 <= v -> 0 <= clearf v f <= v.
Proof.
  intros Hv. unfold clearf. rewrite <- Z.ldiff_land. split; [apply Z.ldiff_nonneg; lia|].
  assert (0 <= Z.land v f) by (apply Z.land_nonneg; lia).
  assert (Z.land (Z.ldiff v f) (Z.land v f) = 0) as Hz.
  { by rewrite (Z.land_comm v), Z.land_assoc, Z.land_ldiff, Z.land_0_l. }
  rewrite <- (Z.lor_ldiff_and v f) at 2. rewrite <- Z.lxor_lor, <- Z.add_nocarry_lxor by done. lia.
Qed.

Lemma has_clearf_same v f : has (clearf v f) f = false.
Proof.
  unfold has, clearf. rewrite <- Z.land_assoc, (Z.land_comm (Z.lnot f)), Z.land_lnot_diag, Z.land_0_r. done.
Qed.

Lemma has_clearf_other v f g : Z.land g (Z.lnot f) = g -> has (clearf v f) g = has v g.
Proof. intros E. unfold has, clearf. by rewrite <- Z.land_assoc, (Z.land_comm (Z.lnot f)), E. Qed.

(** The flags of an entry are those of its low twelve bits. *)
Lemma has_FLAGS v f : 0 <= v < 4294967296 -> Z.land 0xFFF f = f -> has (PTE_FLAGS v) f = has v f.
Proof. intros Hv E. unfold has, PTE_FLAGS. by rewrite u32_small, <- Z.land_assoc, E by done. Qed.

Lemma has_aligned pa f : pa mod 4096 = 0 -> 0 <= f < 4096 -> has pa f = false.
Proof.
  intros Ha Hf. unfold has. assert (Z.land pa f = 0) as ->; [|done].
  apply Z.bits_inj'. intros n Hn. rewrite Z.land_spec, Z.bits_0.
  destruct (Z.lt_ge_cases n 12).
  - rewrite (Z.div_mod pa 4096), Ha, Z.add_0_r, Z.mul_comm by lia. change 4096 with (2 ^ 12).
    by rewrite Z.mul_pow2_bits_low by lia.
  - rewrite <- (Z.mod_small f 4096) by lia. change 4096 with (2 ^ 12).
    by rewrite Z.mod_pow2_bits_high, andb_false_r by lia.
Qed.

(** An entry is its address and its flags. *)
Lemma pte_split v : 0 <= v < 4294967296 -> v = Z.lor (PTE_ADDR v) (PTE_FLAGS v).
Proof.
  intros Hv. pose proof (PTE_FLAGS_range v).
  rewrite aligned_lor; [|rewrite PTE_ADDR_spec, u32_small by lia; Z.div_mod_to_equations; lia|done].
  rewrite PTE_ADDR_spec, PTE_FLAGS_spec, u32_small by lia. lia.
Qed.

Lemma PTE_ADDR_bounds v : 0 <= PTE_ADDR v <= 4294963200 /\ PTE_ADDR v mod 4096 = 0.
Proof. rewrite PTE_ADDR_spec. pose proof (u32_range v). Z.div_mod_to_equations. lia. Qed.

(** Setting and clearing flags keeps the address. *)
Lemma PTE_ADDR_setf v f :
  0 <= v < 4294967296 -> 0 <= f < 4096 ->
  PTE_ADDR (Z.lor v f) = PTE_ADDR v /\ 0 <= Z.lor v f < 4294967296.
Proof.
  intros Hv Hf. destruct (PTE_ADDR_bounds v) as [Hr Ha]. pose proof (PTE_FLAGS_range v).
  assert (0 <= Z.lor (PTE_FLAGS v) f < 4096) by (by apply lor_flags_range).
  rewrite (pte_split v) at 1 3 4 by done. rewrite <- Z.lor_assoc. split; [by apply PTE_ADDR_lor|].
  rewrite aligned_lor by done. lia.
Qed.

Lemma clearf_split v f :
  0 <= v < 4294967296 -> 0 <= f < 4096 -> clearf v f = Z.lor (PTE_ADDR v) (clearf (PTE_FLAGS v) f).
Proof.
  intros Hv Hf. destruct (PTE_ADDR_bounds v) as [Hr Ha].
  rewrite (pte_split v) at 1 by done. unfold clearf. rewrite Z.land_lor_distr_l. f_equal.
  pose proof (has_aligned (PTE_ADDR v) f Ha Hf) as Hz. unfold has in Hz.
  apply negb_false_iff, Z.eqb_eq in Hz.
  pose proof (Z.lor_ldiff_and (PTE_ADDR v) f) as E. by rewrite Hz, Z.lor_0_r, Z.ldiff_land in E.
Qed.

Lemma PTE_ADDR_clearf v f :
  0 <= v < 4294967296 -> 0 <= f < 4096 ->
  PTE_ADDR (clearf v f) = PTE_ADDR v /\ 0 <= clearf v f < 4294967296.
Proof.
  intros Hv Hf. destruct (PTE_ADDR_bounds v) as [Hr Ha]. pose proof (PTE_FLAGS_range v).
  split; [|pose proof (clearf_range v f); lia]. rewrite clearf_split by done.
  pose proof (clearf_range (PTE_FLAGS v) f). apply PTE_ADDR_lor; [done..|lia].
Qed.

Lemma V2P_spec a : KERNBASE <= a < 4294967296 -> V2P a = a - KERNBASE.
Proof. unfold V2P, KERNBASE. intros H. rewrite (u32_small a), u32_small; lia. Qed.

Lemma P2V_spec a : 0 <= a < KERNBASE -> P2V a = a + KERNBASE.
Proof. unfold P2V, KERNBASE. intros H. apply u32_small. lia. Qed.

Lemma V2P_P2V a : 0 <= a < KERNBASE -> V2P (P2V a) = a.
Proof. intros H. rewrite P2V_spec by done. rewrite V2P_spec; unfold KERNBASE in *; lia. Qed.

Lemma P2V_V2P a : KERNBASE <= a < 4294967296 -> P2V (V2P a) = a.
Proof. intros H. rewrite V2P_spec by done. rewrite P2V_spec; unfold KERNBASE in *; lia. Qed.

(** A virtual address is its two indices and its offset in the page. *)
Lemma PGADDR_spec d t o :
  0 <= d < 1024 -> 0 <= t < 1024 -> 0 <= o < 4096 ->
  PGADDR d t o = d * 4194304 + t * 4096 + o.
Proof.
  intros Hd Ht Ho. unfold PGADDR, PDXSHIFT, PTXSHIFT.
  rewrite <- Z.lor_assoc. rewrite (Z.shiftl_mul_pow2 t 12) by lia. change (2 ^ 12) with 4096.
  rewrite (aligned_lor (t * 4096) o) by (try apply Z_mod_mult; lia).
  rewrite Z.shiftl_mul_pow2 by lia. change (2 ^ 22) with 4194304.
  assert (Z.land (d * 4194304) (t * 4096 + o) = 0) as Hz.
  { apply Z.bits_inj'. intros n Hn. rewrite Z.land_spec, Z.bits_0.
    destruct (Z.lt_ge_cases n 22).
    - change 4194304 with (2 ^ 22). by rewrite Z.mul_pow2_bits_low by lia.
    - rewrite <- (Z.mod_small (t * 4096 + o) 4194304) by lia. change 4194304 with (2 ^ 22).
      by rewrite Z.mod_pow2_bits_high, andb_false_r by lia. }
  rewrite <- Z.lxor_lor, <- Z.add_nocarry_lxor by done.
  rewrite u32_small; lia.
Qed.

Arguments V2P : simpl never.
Arguments P2V : simpl never.
Arguments PDX : simpl never.
Arguments PTX : simpl never.
Arguments PGADDR : simpl never.
Arguments PGROUNDUP : simpl never.
Arguments PGROUNDUP_int : simpl never.
Arguments PGROUNDDOWN : simpl never.
Arguments PTE_ADDR : simpl never.
Arguments PTE_FLAGS : simpl never.
Arguments PPN : simpl never.
Arguments has : simpl never.
Arguments clearf : simpl never.
