(* ===== verification/Mem.v ===== *)
(** * Physical memory: bytes, little-endian words, and the block operations of
    string.c and x86.h

    Memory is a finite map from physical addresses to bytes; an address that
    was never written reads as zero.  [stosb]/[stosl] are the x86 string
    instructions that [memset] uses, [memmove_mem] is string.c's [memmove]. *)

From S2P Require Import Prelude.

Definition ld8 (m : gmap Z Z) (a : Z) : Z := u8 (default 0 (m !! a)).
Definition st8 (m : gmap Z Z) (a v : Z) : gmap Z Z := <[a := u8 v]> m.

Definition ld32 (m : gmap Z Z) (a : Z) : Z :=
  ld8 m a + 256 * ld8 m (a + 1) + 65536 * ld8 m (a + 2) + 16777216 * ld8 m (a + 3).
Definition st32 (m : gmap Z Z) (a v : Z) : gmap Z Z :=
  st8 (st8 (st8 (st8 m a v) (a + 1) (v / 256)) (a + 2) (v / 65536)) (a + 3) (v / 16777216).

(** [n] bytes from address [a]. *)
Definition ld_bytes (m : gmap Z Z) (a : Z) (n : nat) : list Z :=
  (fun i => ld8 m (a + Z.of_nat i)) <$> seq 0 n.
Fixpoint st_bytes (m : gmap Z Z) (a : Z) (bs : list Z) : gmap Z Z :=
  match bs with
  | [] => m
  | b :: bs => st_bytes (st8 m a b) (a + 1) bs
  end.

Fixpoint stosb (m : gmap Z Z) (a c : Z) (n : nat) : gmap Z Z :=
  match n with
  | O => m
  | S n => stosb (st8 m a c) (a + 1) c n
  end.
Fixpoint stosl (m : gmap Z Z) (a w : Z) (n : nat) : gmap Z Z :=
  match n with
  | O => m
  | S n => stosl (st32 m a w) (a + 4) w n
  end.

(** [memset(dst, c, n)]: a word at a time when address and size allow it.
    [dst] is the pointer the code tests, [a] the physical address behind it. *)
Definition memset_mem (m : gmap Z Z) (dst a c n : Z) : gmap Z Z :=
  if (Z.rem (s32 dst) 4 =? 0) && (n mod 4 =? 0) then
    let c := Z.land c 0xFF in
    stosl m a (Z.lor (Z.lor (Z.lor (Z.shiftl c 24) (Z.shiftl c 16)) (Z.shiftl c 8)) c)
      (Z.to_nat (n / 4))
  else stosb m a c (Z.to_nat n).

(** The two copy loops of [memmove]. *)
Fixpoint copy_up (m : gmap Z Z) (d s : Z) (n : nat) : gmap Z Z :=
  match n with
  | O => m
  | S n => copy_up (st8 m d (ld8 m s)) (d + 1) (s + 1) n
  end.
Fixpoint copy_down (m : gmap Z Z) (d s : Z) (n : nat) : gmap Z Z :=
  match n with
  | O => m
  | S n => copy_down (st8 m (d - 1) (ld8 m (s - 1))) (d - 1) (s - 1) n
  end.

Definition memmove_mem (m : gmap Z Z) (d s n : Z) : gmap Z Z :=
  if (s <? d) && (d <? s + n)
  then copy_down m (d + n) (s + n) (Z.to_nat n)
  else copy_up m d s (Z.to_nat n).

(** ** Reading after writing *)

Lemma ld8_range m a : 0 <= ld8 m a < 256.
Proof. apply Z.mod_pos_bound. lia. Qed.

Lemma ld8_st8 m a v b : ld8 (st8 m a v) b = if decide (a = b) then u8 v else ld8 m b.
Proof.
  unfold ld8, st8. rewrite lookup_insert. case_decide; [|done]. simpl.
  unfold u8. apply Z.mod_mod. lia.
Qed.

Lemma ld8_st8_eq m a v : ld8 (st8 m a v) a = u8 v.
Proof. rewrite ld8_st8. by rewrite decide_True. Qed.

Lemma ld8_st8_ne m a v b : a <> b -> ld8 (st8 m a v) b = ld8 m b.
Proof. intros. rewrite ld8_st8. by rewrite decide_False. Qed.

Lemma ld32_range m a : 0 <= ld32 m a < 4294967296.
Proof.
  unfold ld32. pose proof (ld8_range m a). pose proof (ld8_range m (a + 1)).
  pose proof (ld8_range m (a + 2)). pose proof (ld8_range m (a + 3)). lia.
Qed.

Lemma u32_ld32 m a : u32 (ld32 m a) = ld32 m a.
Proof. apply u32_small, ld32_range. Qed.

Lemma ld8_st32_ne m a v b : ~ (a <= b < a + 4) -> ld8 (st32 m a v) b = ld8 m b.
Proof. intros H. unfold st32. by rewrite !ld8_st8_ne by lia. Qed.

Lemma ld32_st32_eq m a v : 0 <= v < 4294967296 -> ld32 (st32 m a v) a = v.
Proof.
  intros H. unfold ld32, st32.
  rewrite (ld8_st8_ne _ (a + 3) _ (a + 2)), (ld8_st8_ne _ (a + 3) _ (a + 1)),
    (ld8_st8_ne _ (a + 3) _ a), (ld8_st8_ne _ (a + 2) _ (a + 1)),
    (ld8_st8_ne _ (a + 2) _ a), (ld8_st8_ne _ (a + 1) _ a), !ld8_st8_eq by lia.
  unfold u8.
  replace (v / 16777216) with (v / 256 / 256 / 256) by (rewrite !Z.div_div by lia; done).
  replace (v / 65536) with (v / 256 / 256) by (rewrite !Z.div_div by lia; done).
  pose proof (Z.div_mod v 256). pose proof (Z.div_mod (v / 256) 256).
  pose proof (Z.div_mod (v / 256 / 256) 256).
  assert (v / 256 / 256 / 256 mod 256 = v / 256 / 256 / 256) as ->; [|lia].
  apply Z.mod_small. rewrite !Z.div_div by lia. split; [apply Z.div_pos; lia|].
  apply Z.div_lt_upper_bound; lia.
Qed.

(** Words that do not overlap do not interfere. *)
Lemma ld32_st32_ne m a v b : b + 4 <= a \/ a + 4 <= b -> ld32 (st32 m a v) b = ld32 m b.
Proof. intros H. unfold ld32. by rewrite !ld8_st32_ne by lia. Qed.

Lemma ld32_ext m m' a :
  (forall b, a <= b < a + 4 -> ld8 m' b = ld8 m b) -> ld32 m' a = ld32 m a.
Proof. intros H. unfold ld32. by rewrite !H by lia. Qed.

Lemma ld8_stosb m a c n b :
  ld8 (stosb m a c n) b =
  if decide (a <= b < a + Z.of_nat n) then u8 c else ld8 m b.
Proof.
  revert m a. induction n as [|n IH]; intros m a; simpl.
  - by rewrite decide_False by lia.
  - rewrite IH, ld8_st8. repeat case_decide; lia || done.
Qed.

Lemma ld8_st32_byte m a b0 b1 b2 b3 i :
  0 <= b0 < 256 -> 0 <= b1 < 256 -> 0 <= b2 < 256 -> 0 <= b3 < 256 -> 0 <= i < 4 ->
  ld8 (st32 m a (b0 + 256 * b1 + 65536 * b2 + 16777216 * b3)) (a + i) =
  if decide (i = 0) then b0 else if decide (i = 1) then b1 else
  if decide (i = 2) then b2 else b3.
Proof.
  intros H0 H1 H2 H3 Hi. unfold st32. rewrite !ld8_st8.
  repeat (case_decide; try lia); subst; unfold u8;
    Z.div_mod_to_equations; lia.
Qed.

Definition rep4 (c : Z) : Z := c + 256 * c + 65536 * c + 16777216 * c.

Lemma ld8_stosl_rep4 m a c n b :
  0 <= c < 256 ->
  ld8 (stosl m a (rep4 c) n) b =
  if decide (a <= b < a + 4 * Z.of_nat n) then c else ld8 m b.
Proof.
  intros Hc. revert m a. induction n as [|n IH]; intros m a; cbn [stosl].
  - by rewrite decide_False by lia.
  - rewrite IH. case_decide; [by rewrite decide_True by lia|].
    case_decide.
    + replace b with (a + (b - a)) by lia. unfold rep4.
      rewrite ld8_st32_byte by lia. by repeat case_decide.
    + apply ld8_st32_ne. lia.
Qed.

Lemma replicated_word c :
  0 <= c < 256 ->
  Z.lor (Z.lor (Z.lor (Z.shiftl c 24) (Z.shiftl c 16)) (Z.shiftl c 8)) c = rep4 c.
Proof.
  intros Hc. unfold rep4.
  assert (forallb (fun k => let c := Z.of_nat k in
    Z.lor (Z.lor (Z.lor (Z.shiftl c 24) (Z.shiftl c 16)) (Z.shiftl c 8)) c =?
    c + 256 * c + 65536 * c + 16777216 * c) (seq 0 256) = true) as H by (vm_compute; done).
  rewrite forallb_forall in H. specialize (H (Z.to_nat c)).
  cbv zeta in H. rewrite Z2Nat.id in H by lia. apply Z.eqb_eq, H. apply in_seq. lia.
Qed.

Lemma ld8_memset m dst a c n b :
  0 <= n ->
  ld8 (memset_mem m dst a c n) b =
  if decide (a <= b < a + n) then u8 c else ld8 m b.
Proof.
  intros Hn. unfold memset_mem. destruct ((Z.rem (s32 dst) 4 =? 0) && (n mod 4 =? 0)) eqn:E.
  - apply andb_true_iff in E as [_ E]. apply Z.eqb_eq in E. cbv zeta.
    change 0xFF with (Z.ones 8). rewrite Z.land_ones by lia. change (2 ^ 8) with 256.
    pose proof (Z.mod_pos_bound c 256). rewrite replicated_word by lia.
    rewrite ld8_stosl_rep4 by lia. pose proof (Z.div_mod n 4).
    assert (0 <= n / 4) by (apply Z.div_pos; lia).
    repeat case_decide; (done || lia).
  - rewrite ld8_stosb. rewrite Z2Nat.id by lia. done.
Qed.

Lemma ld8_copy_up m d s n b :
  d <= s \/ s + Z.of_nat n <= d ->
  ld8 (copy_up m d s n) b =
  if decide (d <= b < d + Z.of_nat n) then ld8 m (s + (b - d)) else ld8 m b.
Proof.
  revert m d s. induction n as [|n IH]; intros m d s H; cbn [copy_up].
  - by rewrite decide_False by lia.
  - rewrite IH by lia. rewrite !ld8_st8. unfold u8.
    rewrite (Z.mod_small (ld8 m s)) by apply ld8_range.
    repeat case_decide; try lia; try done; f_equal; lia.
Qed.

Lemma ld8_copy_down m d s n b :
  s < d ->
  ld8 (copy_down m d s n) b =
  if decide (d - Z.of_nat n <= b < d) then ld8 m (s - (d - b)) else ld8 m b.
Proof.
  revert m d s. induction n as [|n IH]; intros m d s H; cbn [copy_down].
  - by rewrite decide_False by lia.
  - rewrite IH by lia. rewrite !ld8_st8. unfold u8.
    rewrite (Z.mod_small (ld8 m (s - 1))) by apply ld8_range.
    repeat case_decide; try lia; try done; f_equal; lia.
Qed.

Lemma ld8_memmove m d s n b :
  0 <= n ->
  ld8 (memmove_mem m d s n) b =
  if decide (d <= b < d + n) then ld8 m (s + (b - d)) else ld8 m b.
Proof.
  intros Hn. unfold memmove_mem. destruct ((s <? d) && (d <? s + n)) eqn:E.
  - apply andb_true_iff in E as [?%Z.ltb_lt ?%Z.ltb_lt]. rewrite ld8_copy_down by lia.
    repeat case_decide; try lia; try done; f_equal; lia.
  - rewrite ld8_copy_up, Z2Nat.id; [done|lia|].
    apply andb_false_iff in E as [?%Z.ltb_ge|?%Z.ltb_ge]; lia.
Qed.

Lemma ld8_st_bytes m a bs b :
  ld8 (st_bytes m a bs) b =
  if decide (a <= b < a + Z.of_nat (length bs))
  then u8 (nth (Z.to_nat (b - a)) bs 0) else ld8 m b.
Proof.
  revert m a. induction bs as [|x bs IH]; intros m a; cbn [st_bytes length].
  - by rewrite decide_False by lia.
  - rewrite IH, ld8_st8. repeat (case_decide; try lia); try done.
    + replace (Z.to_nat (b - a)) with (S (Z.to_nat (b - (a + 1)))) by lia. done.
    + subst. by rewrite Z.sub_diag.
Qed.

Lemma length_ld_bytes m a n : length (ld_bytes m a n) = n.
Proof. unfold ld_bytes. by rewrite length_fmap, length_seq. Qed.

Lemma nth_ld_bytes m a n i : (i < n)%nat -> nth i (ld_bytes m a n) 0 = ld8 m (a + Z.of_nat i).
Proof.
  intros H. apply nth_lookup_Some. unfold ld_bytes. rewrite list_lookup_fmap.
  by rewrite lookup_seq_lt by lia.
Qed.

Lemma ld_bytes_st_bytes m a bs :
  Forall (fun b => 0 <= b < 256) bs -> ld_bytes (st_bytes m a bs) a (length bs) = bs.
Proof.
  intros Hb. apply list_eq. intros i. destruct (decide (i < length bs)%nat) as [Hi|Hi].
  - destruct (lookup_lt_is_Some_2 bs i Hi) as [x Hx]. rewrite Hx.
    unfold ld_bytes. rewrite list_lookup_fmap, lookup_seq_lt by lia. simpl. f_equal.
    rewrite ld8_st_bytes. rewrite decide_True by lia.
    replace (Z.to_nat (a + Z.of_nat i - a)) with i by lia.
    rewrite (nth_lookup_Some _ _ _ _ Hx). apply Z.mod_small.
    by eapply Forall_lookup_1 in Hb.
  - rewrite !lookup_ge_None_2; rewrite ?length_ld_bytes; (done || lia).
Qed.

Arguments ld8 : simpl never.
Arguments st8 : simpl never.
Arguments ld32 : simpl never.
Arguments st32 : simpl never.
Arguments memset_mem : simpl never.
Arguments memmove_mem : simpl never.
