(* ===== verification/Bytes.v ===== *)
(** * Byte blocks

    Fields of C structs inside a block of bytes: little-endian numbers at an
    offset and the replacement of a run of bytes. *)

From S2P Require Import Prelude.

(** Little-endian numbers. *)
Fixpoint le2z (bs : list Z) : Z :=
  match bs with [] => 0 | b :: bs => b + 256 * le2z bs end.
Fixpoint z2le (n : nat) (v : Z) : list Z :=
  match n with O => [] | S n => u8 v :: z2le n (v / 256) end.

(** Bytes [off], ..., [off + n - 1] of a block, and their replacement. *)
Definition get_bytes (bs : list Z) (off n : nat) : list Z := take n (drop off bs).
Definition put_bytes (bs : list Z) (off : nat) (new : list Z) : list Z :=
  take off bs ++ new ++ drop (off + length new) bs.

Definition get32 (bs : list Z) (off : nat) : Z := le2z (get_bytes bs off 4).
Definition put32 (bs : list Z) (off : nat) (v : Z) : list Z := put_bytes bs off (z2le 4 v).
Definition get16 (bs : list Z) (off : nat) : Z := le2z (get_bytes bs off 2).
Definition put16 (bs : list Z) (off : nat) (v : Z) : list Z := put_bytes bs off (z2le 2 v).

(** A C [short] read from two bytes. *)
Definition s16 (x : Z) : Z := let y := u16 x in if y <? 32768 then y else y - 65536.

Definition is_byte (b : Z) : Prop := 0 <= b < 256.

Lemma length_z2le n v : length (z2le n v) = n.
Proof. revert v. induction n; intros v; simpl; [done|by rewrite IHn]. Qed.

Lemma z2le_bytes n v : Forall is_byte (z2le n v).
Proof.
  revert v. induction n; intros v; simpl; constructor; [|done].
  unfold is_byte, u8. apply Z.mod_pos_bound. lia.
Qed.

Lemma le2z_z2le n v : le2z (z2le n v) = v mod 256 ^ Z.of_nat n.
Proof.
  revert v. induction n as [|n IH]; intros v; cbn [le2z z2le].
  - by rewrite Z.mod_1_r.
  - rewrite IH, Nat2Z.inj_succ, Z.pow_succ_r by lia.
    rewrite Z.rem_mul_r by (try apply Z.pow_pos_nonneg; lia). unfold u8. lia.
Qed.

Lemma z2le_le2z bs : Forall is_byte bs -> z2le (length bs) (le2z bs) = bs.
Proof.
  induction 1 as [|b bs Hb Hbs IH]; [done|]. cbn [le2z z2le length]. unfold is_byte in Hb.
  assert (u8 (b + 256 * le2z bs) = b) as ->.
  { unfold u8. rewrite (Z.mul_comm 256), Z.mod_add by lia. apply Z.mod_small. lia. }
  replace ((b + 256 * le2z bs) / 256) with (le2z bs); [by rewrite IH|].
  rewrite (Z.mul_comm 256), Z.div_add, Z.div_small by lia. lia.
Qed.

Lemma length_put_bytes bs off new :
  (off + length new <= length bs)%nat -> length (put_bytes bs off new) = length bs.
Proof. intros H. unfold put_bytes. rewrite !length_app, length_take, length_drop. lia. Qed.

Lemma get_put_bytes_eq bs off new :
  (off + length new <= length bs)%nat -> get_bytes (put_bytes bs off new) off (length new) = new.
Proof.
  intros H. unfold get_bytes, put_bytes. rewrite drop_app_length' by (rewrite length_take; lia).
  by rewrite take_app_length.
Qed.

Lemma lookup_put_bytes bs off new i :
  (off + length new <= length bs)%nat ->
  put_bytes bs off new !! i =
    if decide (off <= i < off + length new)%nat then new !! (i - off)%nat else bs !! i.
Proof.
  intros H. unfold put_bytes. destruct (decide (i < off)%nat) as [Hi|Hi].
  - rewrite lookup_app_l by (rewrite length_take; lia). rewrite decide_False by lia.
    by rewrite lookup_take_lt.
  - rewrite lookup_app_r by (rewrite length_take; lia). rewrite length_take, Nat.min_l by lia. case_decide.
    + by rewrite lookup_app_l by lia.
    + rewrite lookup_app_r, lookup_drop by lia. f_equal. lia.
Qed.

Lemma get_put_bytes_ne bs off new off' n :
  (off + length new <= length bs)%nat -> (off' + n <= off \/ off + length new <= off')%nat ->
  get_bytes (put_bytes bs off new) off' n = get_bytes bs off' n.
Proof.
  intros H Hd. apply list_eq. intros i. unfold get_bytes. destruct (decide (i < n)%nat).
  - rewrite !lookup_take_lt, !lookup_drop, lookup_put_bytes by lia. by rewrite decide_False by lia.
  - by rewrite !lookup_take_ge by lia.
Qed.

Lemma get32_put32_eq bs off v :
  (off + 4 <= length bs)%nat -> get32 (put32 bs off v) off = u32 v.
Proof.
  intros H. unfold get32, put32. rewrite <- (length_z2le 4 v) at 2.
  rewrite get_put_bytes_eq by (by rewrite length_z2le). apply le2z_z2le.
Qed.

Lemma get32_put32_ne bs off v off' :
  (off + 4 <= length bs)%nat -> (off' + 4 <= off \/ off + 4 <= off')%nat ->
  get32 (put32 bs off v) off' = get32 bs off'.
Proof.
  intros H Hd. unfold get32, put32. by rewrite get_put_bytes_ne by (rewrite length_z2le; lia).
Qed.

Lemma length_put32 bs off v : (off + 4 <= length bs)%nat -> length (put32 bs off v) = length bs.
Proof. intros H. unfold put32. apply length_put_bytes. by rewrite length_z2le. Qed.

#[global] Arguments z2le : simpl never.
#[global] Arguments le2z : simpl never.
