(* ===== verification/State.v ===== *)
(** * The kernel's data structures and global state

    The structs of proc.h, wmap.h, file.h, fs.h, buf.h, log.c, pipe.c and
    x86.h as records, with the source's field names behind a short prefix, and
    the kernel's global variables gathered in one record [kstate].  Pointers to
    elements of static tables (processes, files, in-core inodes, buffers) are
    indices into the table; pointers into page memory are addresses.  Each
    field [f] has an update function [set_f]. *)

From S2P Require Import Prelude Mmu Mem.

(** The spin locks, named by the structure they protect. *)
Inductive lockid :=
| LK_kmem | LK_cow | LK_ptable | LK_ftable | LK_icache | LK_bcache | LK_log
| LK_tick | LK_cons | LK_ide
| LK_pipe (p : Z)      (* the lock inside the pipe at address [p] *)
| LK_bufsleep (i : nat)  (* the spin lock inside a buffer's sleep lock *)
| LK_inosleep (i : nat). (* the spin lock inside an inode's sleep lock *)

#[global] Instance lockid_eq_dec : EqDecision lockid.
Proof. solve_decision. Defined.

(** Sleep channels: the address a process sleeps on. *)
Inductive chan :=
| CH_ticks | CH_log | CH_input
| CH_proc (i : nat)
| CH_nread (p : Z) | CH_nwrite (p : Z)
| CH_buf (i : nat)
| CH_buflock (i : nat)
| CH_inolock (i : nat).

#[global] Instance chan_eq_dec : EqDecision chan.
Proof. solve_decision. Defined.

(** proc.h: [enum procstate]. *)
Inductive procstate := UNUSED | EMBRYO | SLEEPING | RUNNABLE | RUNNING | ZOMBIE.

#[global] Instance procstate_eq_dec : EqDecision procstate.
Proof. solve_decision. Defined.



(** x86.h: [struct trapframe]; the padding fields are left out. *)
Record trapframe := mkTf {
  tf_edi : Z;
  tf_esi : Z;
  tf_ebp : Z;
  tf_oesp : Z;
  tf_ebx : Z;
  tf_edx : Z;
  tf_ecx : Z;
  tf_eax : Z;
  tf_gs : Z;
  tf_fs : Z;
  tf_es : Z;
  tf_ds : Z;
  tf_trapno : Z;
  tf_err : Z;
  tf_eip : Z;
  tf_cs : Z;
  tf_eflags : Z;
  tf_esp : Z;
  tf_ss : Z;
}.
Definition set_tf_eax (v : Z) (x : trapframe) : trapframe :=
  mkTf (tf_edi x) (tf_esi x) (tf_ebp x) (tf_oesp x) (tf_ebx x) (tf_edx x) (tf_ecx x) v (tf_gs
    x) (tf_fs x) (tf_es x) (tf_ds x) (tf_trapno x) (tf_err x) (tf_eip x) (tf_cs x) (tf_eflags x)
    (tf_esp x) (tf_ss x).
Definition set_tf_trapno (v : Z) (x : trapframe) : trapframe :=
  mkTf (tf_edi x) (tf_esi x) (tf_ebp x) (tf_oesp x) (tf_ebx x) (tf_edx x) (tf_ecx x) (tf_eax
    x) (tf_gs x) (tf_fs x) (tf_es x) (tf_ds x) v (tf_err x) (tf_eip x) (tf_cs x) (tf_eflags x)
    (tf_esp x) (tf_ss x).
Definition set_tf_eip (v : Z) (x : trapframe) : trapframe :=
  mkTf (tf_edi x) (tf_esi x) (tf_ebp x) (tf_oesp x) (tf_ebx x) (tf_edx x) (tf_ecx x) (tf_eax
    x) (tf_gs x) (tf_fs x) (tf_es x) (tf_ds x) (tf_trapno x) (tf_err x) v (tf_cs x) (tf_eflags
    x) (tf_esp x) (tf_ss x).
Definition set_tf_esp (v : Z) (x : trapframe) : trapframe :=
  mkTf (tf_edi x) (tf_esi x) (tf_ebp x) (tf_oesp x) (tf_ebx x) (tf_edx x) (tf_ecx x) (tf_eax
    x) (tf_gs x) (tf_fs x) (tf_es x) (tf_ds x) (tf_trapno x) (tf_err x) (tf_eip x) (tf_cs x)
    (tf_eflags x) v (tf_ss x).

Definition zero_trapframe : trapframe := mkTf 0 0 0 0 0 0 0 0 0 0 0 0 0 0 0 0 0 0 0.

(** proc.h: [struct context]. *)
Record context := mkCtx {
  ctx_edi : Z;
  ctx_esi : Z;
  ctx_ebx : Z;
  ctx_ebp : Z;
  ctx_eip : Z;
}.

(** wmap.h: [struct wmapinfo]; the arrays have [MAX_WMMAP_INFO] entries. *)
Record wmapinfo := mkWmapinfo {
  wi_total_mmaps : Z;
  wi_addr : list Z;
  wi_length : list Z;
  wi_n_loaded_pages : list Z;
}.
Definition set_wi_total_mmaps (v : Z) (x : wmapinfo) : wmapinfo :=
  mkWmapinfo v (wi_addr x) (wi_length x) (wi_n_loaded_pages x).
Definition set_wi_addr (v : list Z) (x : wmapinfo) : wmapinfo :=
  mkWmapinfo (wi_total_mmaps x) v (wi_length x) (wi_n_loaded_pages x).
Definition set_wi_length (v : list Z) (x : wmapinfo) : wmapinfo :=
  mkWmapinfo (wi_total_mmaps x) (wi_addr x) v (wi_n_loaded_pages x).
Definition set_wi_n_loaded_pages (v : list Z) (x : wmapinfo) : wmapinfo :=
  mkWmapinfo (wi_total_mmaps x) (wi_addr x) (wi_length x) v.

(** wmap.h: [struct wmapinfoExtra]. *)
Record wmapinfoExtra := mkWmapextra {
  we_file_backed : list Z;
  we_fd : list Z;
  we_is_child : Z;
}.
Definition set_we_file_backed (v : list Z) (x : wmapinfoExtra) : wmapinfoExtra :=
  mkWmapextra v (we_fd x) (we_is_child x).
Definition set_we_fd (v : list Z) (x : wmapinfoExtra) : wmapinfoExtra :=
  mkWmapextra (we_file_backed x) v (we_is_child x).
Definition set_we_is_child (v : Z) (x : wmapinfoExtra) : wmapinfoExtra :=
  mkWmapextra (we_file_backed x) (we_fd x) v.

(** sleeplock.h: [struct sleeplock]; the inner spin lock is a [lockid]. *)
Record sleeplock := mkSleeplock {
  sl_locked : Z;
  sl_pid : Z;
}.
Definition set_sl_locked (v : Z) (x : sleeplock) : sleeplock :=
  mkSleeplock v (sl_pid x).
Definition set_sl_pid (v : Z) (x : sleeplock) : sleeplock :=
  mkSleeplock (sl_locked x) v.

(** proc.h: [struct proc]. *)
Record proc := mkProc {
  p_sz : Z; (* size of process memory *)
  p_pgdir : Z; (* page directory, a kernel address, 0 if none *)
  p_kstack : Z; (* kernel stack, 0 if none *)
  p_state : procstate;
  p_pid : Z;
  p_parent : option nat;
  p_tf : trapframe; (* contents of the trap frame on the kernel stack *)
  p_context : context; (* saved registers on the kernel stack *)
  p_chan : option chan;
  p_killed : Z;
  p_ofile : list (option nat); (* indices into the file table *)
  p_cwd : option nat; (* index into the inode cache *)
  p_name : list Z;
  p_wmapInfo : wmapinfo;
  p_wmapInfoExtra : wmapinfoExtra;
}.
Definition set_p_sz (v : Z) (x : proc) : proc :=
  mkProc v (p_pgdir x) (p_kstack x) (p_state x) (p_pid x) (p_parent x) (p_tf x) (p_context x)
    (p_chan x) (p_killed x) (p_ofile x) (p_cwd x) (p_name x) (p_wmapInfo x) (p_wmapInfoExtra x).
Definition set_p_pgdir (v : Z) (x : proc) : proc :=
  mkProc (p_sz x) v (p_kstack x) (p_state x) (p_pid x) (p_parent x) (p_tf x) (p_context x)
    (p_chan x) (p_killed x) (p_ofile x) (p_cwd x) (p_name x) (p_wmapInfo x) (p_wmapInfoExtra x).
Definition set_p_kstack (v : Z) (x : proc) : proc :=
  mkProc (p_sz x) (p_pgdir x) v (p_state x) (p_pid x) (p_parent x) (p_tf x) (p_context x)
    (p_chan x) (p_killed x) (p_ofile x) (p_cwd x) (p_name x) (p_wmapInfo x) (p_wmapInfoExtra x).
Definition set_p_state (v : procstate) (x : proc) : proc :=
  mkProc (p_sz x) (p_pgdir x) (p_kstack x) v (p_pid x) (p_parent x) (p_tf x) (p_context x)
    (p_chan x) (p_killed x) (p_ofile x) (p_cwd x) (p_name x) (p_wmapInfo x) (p_wmapInfoExtra x).
Definition set_p_pid (v : Z) (x : proc) : proc :=
  mkProc (p_sz x) (p_pgdir x) (p_kstack x) (p_state x) v (p_parent x) (p_tf x) (p_context x)
    (p_chan x) (p_killed x) (p_ofile x) (p_cwd x) (p_name x) (p_wmapInfo x) (p_wmapInfoExtra x).
Definition set_p_parent (v : option nat) (x : proc) : proc :=
  mkProc (p_sz x) (p_pgdir x) (p_kstack x) (p_state x) (p_pid x) v (p_tf x) (p_context x)
    (p_chan x) (p_killed x) (p_ofile x) (p_cwd x) (p_name x) (p_wmapInfo x) (p_wmapInfoExtra x).
Definition set_p_tf (v : trapframe) (x : proc) : proc :=
  mkProc (p_sz x) (p_pgdir x) (p_kstack x) (p_state x) (p_pid x) (p_parent x) v (p_context x)
    (p_chan x) (p_killed x) (p_ofile x) (p_cwd x) (p_name x) (p_wmapInfo x) (p_wmapInfoExtra x).
Definition set_p_context (v : context) (x : proc) : proc :=
  mkProc (p_sz x) (p_pgdir x) (p_kstack x) (p_state x) (p_pid x) (p_parent x) (p_tf x) v
    (p_chan x) (p_killed x) (p_ofile x) (p_cwd x) (p_name x) (p_wmapInfo x) (p_wmapInfoExtra x).
Definition set_p_chan (v : option chan) (x : proc) : proc :=
  mkProc (p_sz x) (p_pgdir x) (p_kstack x) (p_state x) (p_pid x) (p_parent x) (p_tf x)
    (p_context x) v (p_killed x) (p_ofile x) (p_cwd x) (p_name x) (p_wmapInfo x)
    (p_wmapInfoExtra x).
Definition set_p_killed (v : Z) (x : proc) : proc :=
  mkProc (p_sz x) (p_pgdir x) (p_kstack x) (p_state x) (p_pid x) (p_parent x) (p_tf x)
    (p_context x) (p_chan x) v (p_ofile x) (p_cwd x) (p_name x) (p_wmapInfo x) (p_wmapInfoExtra
    x).
Definition set_p_ofile (v : list (option nat)) (x : proc) : proc :=
  mkProc (p_sz x) (p_pgdir x) (p_kstack x) (p_state x) (p_pid x) (p_parent x) (p_tf x)
    (p_context x) (p_chan x) (p_killed x) v (p_cwd x) (p_name x) (p_wmapInfo x) (p_wmapInfoExtra
    x).
Definition set_p_cwd (v : option nat) (x : proc) : proc :=
  mkProc (p_sz x) (p_pgdir x) (p_kstack x) (p_state x) (p_pid x) (p_parent x) (p_tf x)
    (p_context x) (p_chan x) (p_killed x) (p_ofile x) v (p_name x) (p_wmapInfo x)
    (p_wmapInfoExtra x).
Definition set_p_name (v : list Z) (x : proc) : proc :=
  mkProc (p_sz x) (p_pgdir x) (p_kstack x) (p_state x) (p_pid x) (p_parent x) (p_tf x)
    (p_context x) (p_chan x) (p_killed x) (p_ofile x) (p_cwd x) v (p_wmapInfo x)
    (p_wmapInfoExtra x).
Definition set_p_wmapInfo (v : wmapinfo) (x : proc) : proc :=
  mkProc (p_sz x) (p_pgdir x) (p_kstack x) (p_state x) (p_pid x) (p_parent x) (p_tf x)
    (p_context x) (p_chan x) (p_killed x) (p_ofile x) (p_cwd x) (p_name x) v (p_wmapInfoExtra x).
Definition set_p_wmapInfoExtra (v : wmapinfoExtra) (x : proc) : proc :=
  mkProc (p_sz x) (p_pgdir x) (p_kstack x) (p_state x) (p_pid x) (p_parent x) (p_tf x)
    (p_context x) (p_chan x) (p_killed x) (p_ofile x) (p_cwd x) (p_name x) (p_wmapInfo x) v.

(** file.h: the type tag of [struct file]. *)
Inductive filetype := FD_NONE | FD_PIPE | FD_INODE.

#[global] Instance filetype_eq_dec : EqDecision filetype.
Proof. solve_decision. Defined.


(** file.h: [struct file]. *)
Record file := mkFile {
  f_type : filetype;
  f_ref : Z;
  f_readable : Z;
  f_writable : Z;
  f_pipe : Z; (* address of the pipe *)
  f_ip : option nat; (* index into the inode cache *)
  f_off : Z;
}.
Definition set_f_type (v : filetype) (x : file) : file :=
  mkFile v (f_ref x) (f_readable x) (f_writable x) (f_pipe x) (f_ip x) (f_off x).
Definition set_f_ref (v : Z) (x : file) : file :=
  mkFile (f_type x) v (f_readable x) (f_writable x) (f_pipe x) (f_ip x) (f_off x).
Definition set_f_readable (v : Z) (x : file) : file :=
  mkFile (f_type x) (f_ref x) v (f_writable x) (f_pipe x) (f_ip x) (f_off x).
Definition set_f_writable (v : Z) (x : file) : file :=
  mkFile (f_type x) (f_ref x) (f_readable x) v (f_pipe x) (f_ip x) (f_off x).
Definition set_f_pipe (v : Z) (x : file) : file :=
  mkFile (f_type x) (f_ref x) (f_readable x) (f_writable x) v (f_ip x) (f_off x).
Definition set_f_ip (v : option nat) (x : file) : file :=
  mkFile (f_type x) (f_ref x) (f_readable x) (f_writable x) (f_pipe x) v (f_off x).
Definition set_f_off (v : Z) (x : file) : file :=
  mkFile (f_type x) (f_ref x) (f_readable x) (f_writable x) (f_pipe x) (f_ip x) v.

(** file.h: [struct inode]. *)
Record inode := mkInode {
  i_dev : Z;
  i_inum : Z;
  i_ref : Z;
  i_lock : sleeplock;
  i_valid : Z;
  i_type : Z;
  i_major : Z;
  i_minor : Z;
  i_nlink : Z;
  i_size : Z;
  i_addrs : list Z;
}.
Definition set_i_dev (v : Z) (x : inode) : inode :=
  mkInode v (i_inum x) (i_ref x) (i_lock x) (i_valid x) (i_type x) (i_major x) (i_minor x)
    (i_nlink x) (i_size x) (i_addrs x).
Definition set_i_inum (v : Z) (x : inode) : inode :=
  mkInode (i_dev x) v (i_ref x) (i_lock x) (i_valid x) (i_type x) (i_major x) (i_minor x)
    (i_nlink x) (i_size x) (i_addrs x).
Definition set_i_ref (v : Z) (x : inode) : inode :=
  mkInode (i_dev x) (i_inum x) v (i_lock x) (i_valid x) (i_type x) (i_major x) (i_minor x)
    (i_nlink x) (i_size x) (i_addrs x).
Definition set_i_lock (v : sleeplock) (x : inode) : inode :=
  mkInode (i_dev x) (i_inum x) (i_ref x) v (i_valid x) (i_type x) (i_major x) (i_minor x)
    (i_nlink x) (i_size x) (i_addrs x).
Definition set_i_valid (v : Z) (x : inode) : inode :=
  mkInode (i_dev x) (i_inum x) (i_ref x) (i_lock x) v (i_type x) (i_major x) (i_minor x)
    (i_nlink x) (i_size x) (i_addrs x).
Definition set_i_type (v : Z) (x : inode) : inode :=
  mkInode (i_dev x) (i_inum x) (i_ref x) (i_lock x) (i_valid x) v (i_major x) (i_minor x)
    (i_nlink x) (i_size x) (i_addrs x).
Definition set_i_major (v : Z) (x : inode) : inode :=
  mkInode (i_dev x) (i_inum x) (i_ref x) (i_lock x) (i_valid x) (i_type x) v (i_minor x)
    (i_nlink x) (i_size x) (i_addrs x).
Definition set_i_minor (v : Z) (x : inode) : inode :=
  mkInode (i_dev x) (i_inum x) (i_ref x) (i_lock x) (i_valid x) (i_type x) (i_major x) v
    (i_nlink x) (i_size x) (i_addrs x).
Definition set_i_nlink (v : Z) (x : inode) : inode :=
  mkInode (i_dev x) (i_inum x) (i_ref x) (i_lock x) (i_valid x) (i_type x) (i_major x)
    (i_minor x) v (i_size x) (i_addrs x).
Definition set_i_size (v : Z) (x : inode) : inode :=
  mkInode (i_dev x) (i_inum x) (i_ref x) (i_lock x) (i_valid x) (i_type x) (i_major x)
    (i_minor x) (i_nlink x) v (i_addrs x).
Definition set_i_addrs (v : list Z) (x : inode) : inode :=
  mkInode (i_dev x) (i_inum x) (i_ref x) (i_lock x) (i_valid x) (i_type x) (i_major x)
    (i_minor x) (i_nlink x) (i_size x) v.

(** pipe.c: [struct pipe]. *)
Record pipe := mkPipe {
  pi_data : list Z;
  pi_nread : Z;
  pi_nwrite : Z;
  pi_readopen : Z;
  pi_writeopen : Z;
}.
Definition set_pi_data (v : list Z) (x : pipe) : pipe :=
  mkPipe v (pi_nread x) (pi_nwrite x) (pi_readopen x) (pi_writeopen x).
Definition set_pi_nread (v : Z) (x : pipe) : pipe :=
  mkPipe (pi_data x) v (pi_nwrite x) (pi_readopen x) (pi_writeopen x).
Definition set_pi_nwrite (v : Z) (x : pipe) : pipe :=
  mkPipe (pi_data x) (pi_nread x) v (pi_readopen x) (pi_writeopen x).
Definition set_pi_readopen (v : Z) (x : pipe) : pipe :=
  mkPipe (pi_data x) (pi_nread x) (pi_nwrite x) v (pi_writeopen x).
Definition set_pi_writeopen (v : Z) (x : pipe) : pipe :=
  mkPipe (pi_data x) (pi_nread x) (pi_nwrite x) (pi_readopen x) v.

(** buf.h: [struct buf]; the list links are in [k_lru]. *)
Record buf := mkBuf {
  b_flags : Z;
  b_dev : Z;
  b_blockno : Z;
  b_lock : sleeplock;
  b_refcnt : Z;
  b_data : list Z;
}.
Definition set_b_flags (v : Z) (x : buf) : buf :=
  mkBuf v (b_dev x) (b_blockno x) (b_lock x) (b_refcnt x) (b_data x).
Definition set_b_dev (v : Z) (x : buf) : buf :=
  mkBuf (b_flags x) v (b_blockno x) (b_lock x) (b_refcnt x) (b_data x).
Definition set_b_blockno (v : Z) (x : buf) : buf :=
  mkBuf (b_flags x) (b_dev x) v (b_lock x) (b_refcnt x) (b_data x).
Definition set_b_lock (v : sleeplock) (x : buf) : buf :=
  mkBuf (b_flags x) (b_dev x) (b_blockno x) v (b_refcnt x) (b_data x).
Definition set_b_refcnt (v : Z) (x : buf) : buf :=
  mkBuf (b_flags x) (b_dev x) (b_blockno x) (b_lock x) v (b_data x).
Definition set_b_data (v : list Z) (x : buf) : buf :=
  mkBuf (b_flags x) (b_dev x) (b_blockno x) (b_lock x) (b_refcnt x) v.

(** log.c: [struct log] with its [struct logheader]. *)
Record logstate := mkLog {
  l_start : Z;
  l_size : Z;
  l_outstanding : Z;
  l_committing : Z;
  l_dev : Z;
  lh_n : Z;
  lh_block : list Z;
}.
Definition set_l_start (v : Z) (x : logstate) : logstate :=
  mkLog v (l_size x) (l_outstanding x) (l_committing x) (l_dev x) (lh_n x) (lh_block x).
Definition set_l_size (v : Z) (x : logstate) : logstate :=
  mkLog (l_start x) v (l_outstanding x) (l_committing x) (l_dev x) (lh_n x) (lh_block x).
Definition set_l_outstanding (v : Z) (x : logstate) : logstate :=
  mkLog (l_start x) (l_size x) v (l_committing x) (l_dev x) (lh_n x) (lh_block x).
Definition set_l_committing (v : Z) (x : logstate) : logstate :=
  mkLog (l_start x) (l_size x) (l_outstanding x) v (l_dev x) (lh_n x) (lh_block x).
Definition set_l_dev (v : Z) (x : logstate) : logstate :=
  mkLog (l_start x) (l_size x) (l_outstanding x) (l_committing x) v (lh_n x) (lh_block x).
Definition set_lh_n (v : Z) (x : logstate) : logstate :=
  mkLog (l_start x) (l_size x) (l_outstanding x) (l_committing x) (l_dev x) v (lh_block x).
Definition set_lh_block (v : list Z) (x : logstate) : logstate :=
  mkLog (l_start x) (l_size x) (l_outstanding x) (l_committing x) (l_dev x) (lh_n x) v.

(** fs.h: [struct superblock]. *)
Record superblock := mkSb {
  sb_size : Z;
  sb_nblocks : Z;
  sb_ninodes : Z;
  sb_nlog : Z;
  sb_logstart : Z;
  sb_inodestart : Z;
  sb_bmapstart : Z;
}.

(** console.c: the line buffer [input]. *)
Record inputbuf := mkInput {
  in_buf : list Z;
  in_r : Z;
  in_w : Z;
  in_e : Z;
}.
Definition set_in_buf (v : list Z) (x : inputbuf) : inputbuf :=
  mkInput v (in_r x) (in_w x) (in_e x).
Definition set_in_r (v : Z) (x : inputbuf) : inputbuf :=
  mkInput (in_buf x) v (in_w x) (in_e x).
Definition set_in_w (v : Z) (x : inputbuf) : inputbuf :=
  mkInput (in_buf x) (in_r x) v (in_e x).
Definition set_in_e (v : Z) (x : inputbuf) : inputbuf :=
  mkInput (in_buf x) (in_r x) (in_w x) v.

(** ** The kernel state *)

Record kstate := mkK {
  k_locks : list lockid; (* spin locks held by this CPU *)
  k_cr3 : Z; (* physical address of the current page directory *)
  k_mem : gmap Z Z; (* physical memory *)
  k_freelist : Z; (* kmem.freelist *)
  k_use_lock : Z; (* kmem.use_lock *)
  k_cow : gmap Z Z; (* cow_ref_counts, by page number *)
  k_cur : option nat; (* mycpu()->proc *)
  k_procs : list proc; (* ptable.proc *)
  k_nextpid : Z;
  k_initproc : option nat;
  k_ftable : list file; (* ftable.file *)
  k_pipes : gmap Z pipe; (* pipes, by the address of their page *)
  k_icache : list inode; (* icache.inode *)
  k_sb : superblock;
  k_bufs : list buf; (* bcache.buf *)
  k_lru : list nat; (* the list through bcache.head, most recent first *)
  k_log : logstate;
  k_disk : gmap (Z * Z) (list Z); (* disk blocks, by device and block number *)
  k_ticks : Z;
  k_input : inputbuf;
  k_out : list Z; (* bytes sent to the console *)
  k_writes : list (Z * list Z); (* the disk writes made so far, latest first *)
  k_first : Z; (* the static [first] of forkret *)
  k_cons_locking : Z; (* cons.locking *)
  k_kpgdir : Z; (* kpgdir *)
  k_panicked : Z; (* panicked *)
}.
Definition set_k_locks (v : list lockid) (x : kstate) : kstate :=
  mkK v (k_cr3 x) (k_mem x) (k_freelist x) (k_use_lock x) (k_cow x) (k_cur x) (k_procs x)
    (k_nextpid x) (k_initproc x) (k_ftable x) (k_pipes x) (k_icache x) (k_sb x) (k_bufs x)
    (k_lru x) (k_log x) (k_disk x) (k_ticks x) (k_input x) (k_out x) (k_writes x) (k_first x) (k_cons_locking x) (k_kpgdir x) (k_panicked x).
Definition set_k_cr3 (v : Z) (x : kstate) : kstate :=
  mkK (k_locks x) v (k_mem x) (k_freelist x) (k_use_lock x) (k_cow x) (k_cur x) (k_procs x)
    (k_nextpid x) (k_initproc x) (k_ftable x) (k_pipes x) (k_icache x) (k_sb x) (k_bufs x)
    (k_lru x) (k_log x) (k_disk x) (k_ticks x) (k_input x) (k_out x) (k_writes x) (k_first x) (k_cons_locking x) (k_kpgdir x) (k_panicked x).
Definition set_k_mem (v : gmap Z Z) (x : kstate) : kstate :=
  mkK (k_locks x) (k_cr3 x) v (k_freelist x) (k_use_lock x) (k_cow x) (k_cur x) (k_procs x)
    (k_nextpid x) (k_initproc x) (k_ftable x) (k_pipes x) (k_icache x) (k_sb x) (k_bufs x)
    (k_lru x) (k_log x) (k_disk x) (k_ticks x) (k_input x) (k_out x) (k_writes x) (k_first x) (k_cons_locking x) (k_kpgdir x) (k_panicked x).
Definition set_k_freelist (v : Z) (x : kstate) : kstate :=
  mkK (k_locks x) (k_cr3 x) (k_mem x) v (k_use_lock x) (k_cow x) (k_cur x) (k_procs x)
    (k_nextpid x) (k_initproc x) (k_ftable x) (k_pipes x) (k_icache x) (k_sb x) (k_bufs x)
    (k_lru x) (k_log x) (k_disk x) (k_ticks x) (k_input x) (k_out x) (k_writes x) (k_first x) (k_cons_locking x) (k_kpgdir x) (k_panicked x).
Definition set_k_use_lock (v : Z) (x : kstate) : kstate :=
  mkK (k_locks x) (k_cr3 x) (k_mem x) (k_freelist x) v (k_cow x) (k_cur x) (k_procs x)
    (k_nextpid x) (k_initproc x) (k_ftable x) (k_pipes x) (k_icache x) (k_sb x) (k_bufs x)
    (k_lru x) (k_log x) (k_disk x) (k_ticks x) (k_input x) (k_out x) (k_writes x) (k_first x) (k_cons_locking x) (k_kpgdir x) (k_panicked x).
Definition set_k_cow (v : gmap Z Z) (x : kstate) : kstate :=
  mkK (k_locks x) (k_cr3 x) (k_mem x) (k_freelist x) (k_use_lock x) v (k_cur x) (k_procs x)
    (k_nextpid x) (k_initproc x) (k_ftable x) (k_pipes x) (k_icache x) (k_sb x) (k_bufs x)
    (k_lru x) (k_log x) (k_disk x) (k_ticks x) (k_input x) (k_out x) (k_writes x) (k_first x) (k_cons_locking x) (k_kpgdir x) (k_panicked x).
Definition set_k_cur (v : option nat) (x : kstate) : kstate :=
  mkK (k_locks x) (k_cr3 x) (k_mem x) (k_freelist x) (k_use_lock x) (k_cow x) v (k_procs x)
    (k_nextpid x) (k_initproc x) (k_ftable x) (k_pipes x) (k_icache x) (k_sb x) (k_bufs x)
    (k_lru x) (k_log x) (k_disk x) (k_ticks x) (k_input x) (k_out x) (k_writes x) (k_first x) (k_cons_locking x) (k_kpgdir x) (k_panicked x).
Definition set_k_procs (v : list proc) (x : kstate) : kstate :=
  mkK (k_locks x) (k_cr3 x) (k_mem x) (k_freelist x) (k_use_lock x) (k_cow x) (k_cur x) v
    (k_nextpid x) (k_initproc x) (k_ftable x) (k_pipes x) (k_icache x) (k_sb x) (k_bufs x)
    (k_lru x) (k_log x) (k_disk x) (k_ticks x) (k_input x) (k_out x) (k_writes x) (k_first x) (k_cons_locking x) (k_kpgdir x) (k_panicked x).
Definition set_k_nextpid (v : Z) (x : kstate) : kstate :=
  mkK (k_locks x) (k_cr3 x) (k_mem x) (k_freelist x) (k_use_lock x) (k_cow x) (k_cur x)
    (k_procs x) v (k_initproc x) (k_ftable x) (k_pipes x) (k_icache x) (k_sb x) (k_bufs x)
    (k_lru x) (k_log x) (k_disk x) (k_ticks x) (k_input x) (k_out x) (k_writes x) (k_first x) (k_cons_locking x) (k_kpgdir x) (k_panicked x).
Definition set_k_initproc (v : option nat) (x : kstate) : kstate :=
  mkK (k_locks x) (k_cr3 x) (k_mem x) (k_freelist x) (k_use_lock x) (k_cow x) (k_cur x)
    (k_procs x) (k_nextpid x) v (k_ftable x) (k_pipes x) (k_icache x) (k_sb x) (k_bufs x) (k_lru
    x) (k_log x) (k_disk x) (k_ticks x) (k_input x) (k_out x) (k_writes x) (k_first x) (k_cons_locking x) (k_kpgdir x) (k_panicked x).
Definition set_k_ftable (v : list file) (x : kstate) : kstate :=
  mkK (k_locks x) (k_cr3 x) (k_mem x) (k_freelist x) (k_use_lock x) (k_cow x) (k_cur x)
    (k_procs x) (k_nextpid x) (k_initproc x) v (k_pipes x) (k_icache x) (k_sb x) (k_bufs x)
    (k_lru x) (k_log x) (k_disk x) (k_ticks x) (k_input x) (k_out x) (k_writes x) (k_first x) (k_cons_locking x) (k_kpgdir x) (k_panicked x).
Definition set_k_pipes (v : gmap Z pipe) (x : kstate) : kstate :=
  mkK (k_locks x) (k_cr3 x) (k_mem x) (k_freelist x) (k_use_lock x) (k_cow x) (k_cur x)
    (k_procs x) (k_nextpid x) (k_initproc x) (k_ftable x) v (k_icache x) (k_sb x) (k_bufs x)
    (k_lru x) (k_log x) (k_disk x) (k_ticks x) (k_input x) (k_out x) (k_writes x) (k_first x) (k_cons_locking x) (k_kpgdir x) (k_panicked x).
Definition set_k_icache (v : list inode) (x : kstate) : kstate :=
  mkK (k_locks x) (k_cr3 x) (k_mem x) (k_freelist x) (k_use_lock x) (k_cow x) (k_cur x)
    (k_procs x) (k_nextpid x) (k_initproc x) (k_ftable x) (k_pipes x) v (k_sb x) (k_bufs x)
    (k_lru x) (k_log x) (k_disk x) (k_ticks x) (k_input x) (k_out x) (k_writes x) (k_first x) (k_cons_locking x) (k_kpgdir x) (k_panicked x).
Definition set_k_sb (v : superblock) (x : kstate) : kstate :=
  mkK (k_locks x) (k_cr3 x) (k_mem x) (k_freelist x) (k_use_lock x) (k_cow x) (k_cur x)
    (k_procs x) (k_nextpid x) (k_initproc x) (k_ftable x) (k_pipes x) (k_icache x) v (k_bufs x)
    (k_lru x) (k_log x) (k_disk x) (k_ticks x) (k_input x) (k_out x) (k_writes x) (k_first x) (k_cons_locking x) (k_kpgdir x) (k_panicked x).
Definition set_k_bufs (v : list buf) (x : kstate) : kstate :=
  mkK (k_locks x) (k_cr3 x) (k_mem x) (k_freelist x) (k_use_lock x) (k_cow x) (k_cur x)
    (k_procs x) (k_nextpid x) (k_initproc x) (k_ftable x) (k_pipes x) (k_icache x) (k_sb x) v
    (k_lru x) (k_log x) (k_disk x) (k_ticks x) (k_input x) (k_out x) (k_writes x) (k_first x) (k_cons_locking x) (k_kpgdir x) (k_panicked x).
Definition set_k_lru (v : list nat) (x : kstate) : kstate :=
  mkK (k_locks x) (k_cr3 x) (k_mem x) (k_freelist x) (k_use_lock x) (k_cow x) (k_cur x)
    (k_procs x) (k_nextpid x) (k_initproc x) (k_ftable x) (k_pipes x) (k_icache x) (k_sb x)
    (k_bufs x) v (k_log x) (k_disk x) (k_ticks x) (k_input x) (k_out x) (k_writes x) (k_first x) (k_cons_locking x) (k_kpgdir x) (k_panicked x).
Definition set_k_log (v : logstate) (x : kstate) : kstate :=
  mkK (k_locks x) (k_cr3 x) (k_mem x) (k_freelist x) (k_use_lock x) (k_cow x) (k_cur x)
    (k_procs x) (k_nextpid x) (k_initproc x) (k_ftable x) (k_pipes x) (k_icache x) (k_sb x)
    (k_bufs x) (k_lru x) v (k_disk x) (k_ticks x) (k_input x) (k_out x) (k_writes x) (k_first x) (k_cons_locking x) (k_kpgdir x) (k_panicked x).
Definition set_k_disk (v : gmap (Z * Z) (list Z)) (x : kstate) : kstate :=
  mkK (k_locks x) (k_cr3 x) (k_mem x) (k_freelist x) (k_use_lock x) (k_cow x) (k_cur x)
    (k_procs x) (k_nextpid x) (k_initproc x) (k_ftable x) (k_pipes x) (k_icache x) (k_sb x)
    (k_bufs x) (k_lru x) (k_log x) v (k_ticks x) (k_input x) (k_out x) (k_writes x) (k_first x) (k_cons_locking x) (k_kpgdir x) (k_panicked x).
Definition set_k_ticks (v : Z) (x : kstate) : kstate :=
  mkK (k_locks x) (k_cr3 x) (k_mem x) (k_freelist x) (k_use_lock x) (k_cow x) (k_cur x)
    (k_procs x) (k_nextpid x) (k_initproc x) (k_ftable x) (k_pipes x) (k_icache x) (k_sb x)
    (k_bufs x) (k_lru x) (k_log x) (k_disk x) v (k_input x) (k_out x) (k_writes x) (k_first x) (k_cons_locking x) (k_kpgdir x) (k_panicked x).
Definition set_k_input (v : inputbuf) (x : kstate) : kstate :=
  mkK (k_locks x) (k_cr3 x) (k_mem x) (k_freelist x) (k_use_lock x) (k_cow x) (k_cur x)
    (k_procs x) (k_nextpid x) (k_initproc x) (k_ftable x) (k_pipes x) (k_icache x) (k_sb x)
    (k_bufs x) (k_lru x) (k_log x) (k_disk x) (k_ticks x) v (k_out x) (k_writes x) (k_first x) (k_cons_locking x) (k_kpgdir x) (k_panicked x).
Definition set_k_out (v : list Z) (x : kstate) : kstate :=
  mkK (k_locks x) (k_cr3 x) (k_mem x) (k_freelist x) (k_use_lock x) (k_cow x) (k_cur x)
    (k_procs x) (k_nextpid x) (k_initproc x) (k_ftable x) (k_pipes x) (k_icache x) (k_sb x)
    (k_bufs x) (k_lru x) (k_log x) (k_disk x) (k_ticks x) (k_input x) v (k_writes x) (k_first x) (k_cons_locking x) (k_kpgdir x) (k_panicked x).

Definition set_k_writes (v : list (Z * list Z)) (x : kstate) : kstate :=
  mkK (k_locks x) (k_cr3 x) (k_mem x) (k_freelist x) (k_use_lock x) (k_cow x) (k_cur x) (k_procs
    x) (k_nextpid x) (k_initproc x) (k_ftable x) (k_pipes x) (k_icache x) (k_sb x) (k_bufs x)
    (k_lru x) (k_log x) (k_disk x) (k_ticks x) (k_input x) (k_out x) v (k_first x) (k_cons_locking x) (k_kpgdir x) (k_panicked x).
Definition set_k_first (v : Z) (x : kstate) : kstate :=
  mkK (k_locks x) (k_cr3 x) (k_mem x) (k_freelist x) (k_use_lock x) (k_cow x) (k_cur x) (k_procs
    x) (k_nextpid x) (k_initproc x) (k_ftable x) (k_pipes x) (k_icache x) (k_sb x) (k_bufs x)
    (k_lru x) (k_log x) (k_disk x) (k_ticks x) (k_input x) (k_out x) (k_writes x) v
    (k_cons_locking x) (k_kpgdir x) (k_panicked x).
Definition set_k_cons_locking (v : Z) (x : kstate) : kstate :=
  mkK (k_locks x) (k_cr3 x) (k_mem x) (k_freelist x) (k_use_lock x) (k_cow x) (k_cur x) (k_procs
    x) (k_nextpid x) (k_initproc x) (k_ftable x) (k_pipes x) (k_icache x) (k_sb x) (k_bufs x)
    (k_lru x) (k_log x) (k_disk x) (k_ticks x) (k_input x) (k_out x) (k_writes x) (k_first x) v (k_kpgdir x) (k_panicked x).
Definition set_k_kpgdir (v : Z) (x : kstate) : kstate :=
  mkK (k_locks x) (k_cr3 x) (k_mem x) (k_freelist x) (k_use_lock x) (k_cow x) (k_cur x) (k_procs
    x) (k_nextpid x) (k_initproc x) (k_ftable x) (k_pipes x) (k_icache x) (k_sb x) (k_bufs x)
    (k_lru x) (k_log x) (k_disk x) (k_ticks x) (k_input x) (k_out x) (k_writes x) (k_first x)
    (k_cons_locking x) v (k_panicked x).
Definition set_k_panicked (v : Z) (x : kstate) : kstate :=
  mkK (k_locks x) (k_cr3 x) (k_mem x) (k_freelist x) (k_use_lock x) (k_cow x) (k_cur x) (k_procs
    x) (k_nextpid x) (k_initproc x) (k_ftable x) (k_pipes x) (k_icache x) (k_sb x) (k_bufs x)
    (k_lru x) (k_log x) (k_disk x) (k_ticks x) (k_input x) (k_out x) (k_writes x) (k_first x)
    (k_cons_locking x) (k_kpgdir x) v.

(** ** The state at power on: every static variable is zero (bss) *)

Definition MAX_WMMAP_INFO : Z := 16.

Definition zero_context : context := mkCtx 0 0 0 0 0.
Definition zero_wmapinfo : wmapinfo :=
  mkWmapinfo 0 (replicate 16 0) (replicate 16 0) (replicate 16 0).
Definition zero_wmapextra : wmapinfoExtra := mkWmapextra (replicate 16 0) (replicate 16 0) 0.
Definition zero_sleeplock : sleeplock := mkSleeplock 0 0.
Definition zero_proc : proc :=
  mkProc 0 0 0 UNUSED 0 None zero_trapframe zero_context None 0 (replicate 16 None) None
    (replicate 16 0) zero_wmapinfo zero_wmapextra.
Definition zero_file : file := mkFile FD_NONE 0 0 0 0 None 0.
Definition zero_inode : inode := mkInode 0 0 0 zero_sleeplock 0 0 0 0 0 0 (replicate 13 0).
Definition zero_buf : buf := mkBuf 0 0 0 zero_sleeplock 0 (replicate 512 0).
Definition zero_log : logstate := mkLog 0 0 0 0 0 0 (replicate 30 0).

Definition zero_kstate : kstate :=
  mkK [] 0 ∅ 0 0 ∅ None (replicate 64 zero_proc) 1 None (replicate 100 zero_file) ∅
    (replicate 50 zero_inode) (mkSb 0 0 0 0 0 0 0) (replicate 30 zero_buf) []
    zero_log ∅ 0 (mkInput (replicate 128 0) 0 0 0) [] [] 1 0 0 0.
