(* ===== verification/Kernel.v ===== *)
(** * Primitives shared by every kernel component

    The kernel monad [K], the spin-lock discipline seen by one CPU
    (spinlock.c's panics on double acquire and on release without holding),
    accesses through kernel pointers, and the current process.  The layout
    symbols of kernel.ld are the fields of [KernelImage]. *)

From S2P Require Import Prelude Mmu Mem State.

Abbreviation K := (M kstate).

(** Symbols defined by the linker script: [data], the first address of the
    data section (aligned by [. = ALIGN(0x1000)]), and [end], the first address
    after the kernel; [disksize], the number of blocks of the disk image linked
    into the kernel for memide.c, a number of bytes divided by 512; the address of [forkret] and the binary of
    initcode.S ([_binary_initcode_start]).  The kernel is linked at [KERNLINK], its text
    is not empty, and [kinit1] assumes that it ends within the first 4 Mbyte. *)
Class KernelImage := {
  k_data : Z;
  k_end : Z;
  k_data_aligned : k_data mod 4096 = 0;
  k_data_range : KERNLINK < k_data <= k_end;
  k_end_range : k_end <= KERNBASE + 4 * 1024 * 1024;
  disksize : Z;
  disksize_range : 0 <= disksize < 8388608;
  forkret_va : Z;
  initcode : list Z;
  initcode_size : Z.of_nat (length initcode) < PGSIZE;
}.

(** A small kernel, used to run the definitions on concrete states. *)
Definition sample_image : KernelImage.
Proof.
  refine {| k_data := 0x80108000; k_end := 0x80110000; disksize := 1000;
             forkret_va := 0x80103000; initcode := [0x90; 0xeb; 0xfe] |};
    (reflexivity || (unfold KERNLINK, KERNBASE, EXTMEM; lia)).
Defined.

(** ** Spin locks *)

Definition holding (lk : lockid) : K bool := gets (fun s => bool_decide (lk ∈ k_locks s)).

Definition acquire (lk : lockid) : K unit :=
  h ← holding lk;
  if h : bool then panic "acquire"
  else modify (fun s => set_k_locks (lk :: k_locks s) s).

Definition release (lk : lockid) : K unit :=
  h ← holding lk;
  if negb h then panic "release"
  else modify (fun s => set_k_locks (filter (fun l => l <> lk) (k_locks s)) s).

(** A new lock is not held by anybody. *)
Definition initlock (lk : lockid) : K unit :=
  modify (fun s => set_k_locks (filter (fun l => l <> lk) (k_locks s)) s).

(** ** Memory through kernel pointers *)

Definition is_kptr (v : Z) : bool := (KERNBASE <=? v) && (v <? KERNBASE + PHYSTOP).

Definition kload32 (v : Z) : K Z :=
  if is_kptr v then gets (fun s => ld32 (k_mem s) (V2P v)) else crash "load through a bad pointer".
Definition kstore32 (v x : Z) : K unit :=
  if is_kptr v then modify (fun s => set_k_mem (st32 (k_mem s) (V2P v) x) s)
  else crash "store through a bad pointer".

(** string.c on kernel memory. *)
Definition memset (v c n : Z) : K unit :=
  if is_kptr v then modify (fun s => set_k_mem (memset_mem (k_mem s) v (V2P v) c n) s)
  else crash "memset of a bad pointer".
Definition memmove (d p n : Z) : K unit :=
  if is_kptr d && is_kptr p
  then modify (fun s => set_k_mem (memmove_mem (k_mem s) (V2P d) (V2P p) n) s)
  else crash "memmove of a bad pointer".

Definition memcpy (d p n : Z) : K unit := memmove d p n.

(** Bytes that the kernel holds outside page memory (a buffer, a struct on its
    stack) copied to or from page memory. *)
Definition kload_bytes (v n : Z) : K (list Z) :=
  if is_kptr v then gets (fun s => ld_bytes (k_mem s) (V2P v) (Z.to_nat n))
  else crash "read through a bad pointer".
Definition kstore_bytes (v : Z) (bs : list Z) : K unit :=
  if is_kptr v then modify (fun s => set_k_mem (st_bytes (k_mem s) (V2P v) bs) s)
  else crash "write through a bad pointer".

Definition lcr3 (pa : Z) : K unit := modify (set_k_cr3 pa).

(** ** Processes *)

Definition getproc (i : nat) : K proc :=
  ps ← gets k_procs; from_option "bad proc pointer" (ps !! i).
Definition modproc (i : nat) (f : proc -> proc) : K unit :=
  modify (fun s => set_k_procs (alter f i (k_procs s)) s).

(** [myproc()], for code that dereferences the result at once. *)
Definition myproc : K nat :=
  c ← gets k_cur; from_option "myproc() is null" c.

(** ** Rules *)

Section rules.
Implicit Types (s : kstate).

Lemma acquire_run lk s :
  lk ∉ k_locks s -> acquire lk s = Ret tt (set_k_locks (lk :: k_locks s) s).
Proof.
  intros Hlk. unfold acquire, holding, mbind, M_bind, gets. by rewrite bool_decide_false.
Qed.

Lemma release_run lk s :
  lk ∈ k_locks s ->
  release lk s = Ret tt (set_k_locks (filter (fun x => x <> lk) (k_locks s)) s).
Proof.
  intros Hlk. unfold release, holding, mbind, M_bind, gets. by rewrite bool_decide_true.
Qed.

Lemma wp_acquire lk (Q : unit -> kstate -> Prop) s :
  lk ∉ k_locks s -> Q tt (set_k_locks (lk :: k_locks s) s) -> wp (acquire lk) Q s.
Proof.
  intros Hlk HQ. eapply wp_of_run; [by apply acquire_run|done].
Qed.

Lemma filter_acquired lk (l : list lockid) :
  lk ∉ l -> filter (fun x => x <> lk) (lk :: l) = l.
Proof.
  intros Hlk. rewrite filter_cons_False by (intros []; done).
  induction l as [|x l IH]; [done|]. apply not_elem_of_cons in Hlk as [Hx Hl].
  rewrite filter_cons_True by done. by rewrite IH.
Qed.

(** Giving back the lock that was taken last. *)
Lemma wp_release lk l (Q : unit -> kstate -> Prop) s :
  k_locks s = lk :: l -> lk ∉ l -> Q tt (set_k_locks l s) -> wp (release lk) Q s.
Proof.
  intros Hs Hlk HQ. eapply wp_of_run; [apply release_run; rewrite Hs; left|].
  by rewrite Hs, filter_acquired.
Qed.

Lemma is_kptr_true v : KERNBASE <= v < KERNBASE + PHYSTOP -> is_kptr v = true.
Proof. intros H. unfold is_kptr. by zb. Qed.

Lemma wp_kload32 v Q s :
  KERNBASE <= v < KERNBASE + PHYSTOP ->
  Q (ld32 (k_mem s) (v - KERNBASE)) s -> wp (kload32 v) Q s.
Proof.
  intros Hv HQ. unfold kload32. rewrite is_kptr_true by done. wp_steps.
  rewrite V2P_spec by (unfold KERNBASE, PHYSTOP in *; lia). done.
Qed.

Lemma wp_kstore32 v x Q s :
  KERNBASE <= v < KERNBASE + PHYSTOP ->
  Q tt (set_k_mem (st32 (k_mem s) (v - KERNBASE) x) s) -> wp (kstore32 v x) Q s.
Proof.
  intros Hv HQ. unfold kstore32. rewrite is_kptr_true by done. wp_steps.
  rewrite V2P_spec by (unfold KERNBASE, PHYSTOP in *; lia). done.
Qed.

Lemma wp_memset v c n (Q : unit -> kstate -> Prop) s :
  KERNBASE <= v < KERNBASE + PHYSTOP ->
  Q tt (set_k_mem (memset_mem (k_mem s) v (v - KERNBASE) c n) s) -> wp (memset v c n) Q s.
Proof.
  intros Hv HQ. unfold memset. rewrite is_kptr_true by done. wp_steps.
  rewrite V2P_spec by (unfold KERNBASE, PHYSTOP in *; lia). done.
Qed.

Lemma wp_memmove d p n (Q : unit -> kstate -> Prop) s :
  KERNBASE <= d < KERNBASE + PHYSTOP -> KERNBASE <= p < KERNBASE + PHYSTOP ->
  Q tt (set_k_mem (memmove_mem (k_mem s) (d - KERNBASE) (p - KERNBASE) n) s) ->
  wp (memmove d p n) Q s.
Proof.
  intros Hd Hp HQ. unfold memmove. rewrite !is_kptr_true by done. simpl. wp_steps.
  rewrite !V2P_spec by (unfold KERNBASE, PHYSTOP in *; lia). done.
Qed.

Lemma kload32_run v s :
  KERNBASE <= v < KERNBASE + PHYSTOP -> kload32 v s = Ret (ld32 (k_mem s) (v - KERNBASE)) s.
Proof. intros Hv. apply run_of_wp. by apply wp_kload32. Qed.

Lemma kstore32_run v x s :
  KERNBASE <= v < KERNBASE + PHYSTOP ->
  kstore32 v x s = Ret tt (set_k_mem (st32 (k_mem s) (v - KERNBASE) x) s).
Proof. intros Hv. apply run_of_wp. by apply wp_kstore32. Qed.

Lemma getproc_run i p s : k_procs s !! i = Some p -> getproc i s = Ret p s.
Proof. intros Hp. unfold getproc. erewrite bind_run by reflexivity. by rewrite Hp. Qed.

Lemma wp_getproc i p Q s : k_procs s !! i = Some p -> Q p s -> wp (getproc i) Q s.
Proof. intros Hp HQ. unfold getproc. wp_steps. by rewrite Hp. Qed.

Lemma wp_myproc i Q s : k_cur s = Some i -> Q i s -> wp myproc Q s.
Proof. intros Hi HQ. unfold myproc. wp_steps. by rewrite Hi. Qed.

End rules.

(** Symbolic execution through the primitives; side conditions are left. *)
Ltac kstep :=
  lazymatch goal with
  | |- wp (acquire _) _ _ => apply wp_acquire
  | |- wp (release _) _ _ => eapply wp_release; [reflexivity|try done|]
  | |- wp (kload32 _) _ _ => apply wp_kload32
  | |- wp (kstore32 _ _) _ _ => apply wp_kstore32
  | |- wp (memset _ _ _) _ _ => apply wp_memset
  | |- wp (memmove _ _ _) _ _ => apply wp_memmove
  | |- wp (lcr3 _) _ _ => unfold lcr3; apply wp_modify
  | |- wp (modproc _ _) _ _ => unfold modproc; apply wp_modify
  | |- _ => wp_step
  end; cbv beta.
