(* ===== verification/Cprintf.v ===== *)
(** * Formatted console output (console.c)

    [printint] and [cprintf]: the format interpreter that the whole kernel
    prints with.  The console is the sequence of bytes sent to the serial port;
    the screen is modelled with the console driver. *)

From S2P Require Import Prelude Mmu Mem State Kernel.

Definition bytes_of_string (x : string) : list Z :=
  (fun c => Z.of_nat (Ascii.nat_of_ascii c)) <$> String.list_ascii_of_string x.

Definition BACKSPACE : Z := 0x100.

(** The bytes that [consputc] sends to the serial port. *)
Definition cons_bytes (c : Z) : list Z :=
  if c =? BACKSPACE then [8; 32; 8] else [u8 c].

(** A processor that prints after a panic stops, with interrupts off. *)
Definition consputc (c : Z) : K unit :=
  panicked ← gets k_panicked;
  if negb (panicked =? 0) then spin else
  modify (fun s => set_k_out (k_out s ++ cons_bytes c) s).

Definition digits : list Z := bytes_of_string "0123456789abcdef".

(** The do/while loop: digits of [x], least significant first.  A [uint] has at
    most 32 digits in any base from 2. *)
Fixpoint int_digits (fuel : nat) (x base : Z) : list Z :=
  match fuel with
  | O => []
  | S fuel =>
      nth (Z.to_nat (x mod base)) digits 0 ::
      (if x / base =? 0 then [] else int_digits fuel (x / base) base)
  end.

(** What [printint] prints. *)
Definition int_bytes (xx base : Z) (sign : bool) : list Z :=
  let neg := sign && (xx <? 0) in
  let x := if neg then u32 (- xx) else u32 xx in
  rev (int_digits 32 x base ++ (if neg then [45] else [])).

Definition printint (xx base : Z) (sign : bool) : K unit :=
  for_each (int_bytes xx base sign) consputc.

(** Arguments on the stack: a word, or a pointer to a string ([None] is null). *)
Inductive fmtarg := ArgInt (x : Z) | ArgStr (x : option (list Z)).

Definition arg_int (args : list fmtarg) : K Z :=
  match args with ArgInt x :: _ => mret x | _ => crash "cprintf argument" end.
Definition arg_str (args : list fmtarg) : K (list Z) :=
  match args with
  | ArgStr (Some x) :: _ => mret x
  | ArgStr None :: _ => mret (bytes_of_string "(null)")
  | _ => crash "cprintf argument"
  end.

(** The loop over the format; [fmt] is the rest of the format string. *)
Fixpoint vcprintf (fmt : list Z) (args : list fmtarg) : K unit :=
  match fmt with
  | [] => mret tt
  | c :: fmt =>
      if negb (c =? 37) then consputc c;; vcprintf fmt args else
      match fmt with
      | [] => mret tt
      | c :: fmt =>
          if c =? 100 then
            x ← arg_int args; printint (s32 x) 10 true;; vcprintf fmt (tail args)
          else if (c =? 120) || (c =? 112) then
            x ← arg_int args; printint (s32 x) 16 false;; vcprintf fmt (tail args)
          else if c =? 115 then
            x ← arg_str args; for_each x consputc;; vcprintf fmt (tail args)
          else if c =? 37 then consputc 37;; vcprintf fmt args
          else consputc 37;; consputc c;; vcprintf fmt args
      end
  end.

Definition cprintf (fmt : list Z) (args : list fmtarg) : K unit :=
  locking ← gets k_cons_locking;
  (if locking =? 0 then mret tt else acquire LK_cons);;
  vcprintf fmt args;;
  if locking =? 0 then mret tt else release LK_cons.

(** A format without arguments that ends in a newline. *)
Definition cprintfln (x : string) : K unit := cprintf (bytes_of_string x ++ [10]) [].

(** ** Facts *)

Lemma consputc_run c s : k_panicked s = 0 -> consputc c s = Ret tt (set_k_out (k_out s ++ cons_bytes c) s).
Proof. intros Hp. unfold consputc. erewrite bind_run by reflexivity. by rewrite Hp. Qed.

Lemma consputc_frozen c s : k_panicked s <> 0 -> consputc c s = Diverge.
Proof. intros Hp. unfold consputc. erewrite bind_run by reflexivity. by zb. Qed.

Lemma for_each_consputc_run xs s :
  k_panicked s = 0 -> for_each xs consputc s = Ret tt (set_k_out (k_out s ++ concat (cons_bytes <$> xs)) s).
Proof.
  revert s. induction xs as [|x xs IH]; intros s Hp; simpl.
  - rewrite app_nil_r. by destruct s.
  - erewrite bind_run by (by apply consputc_run). rewrite IH by done. simpl. by rewrite <- app_assoc.
Qed.

(** A format without [%] is printed as it is. *)
Lemma vcprintf_plain fmt args s :
  Forall (fun c => c <> 37) fmt -> k_panicked s = 0 ->
  vcprintf fmt args s = Ret tt (set_k_out (k_out s ++ concat (cons_bytes <$> fmt)) s).
Proof.
  intros Hf. revert s. induction Hf as [|c fmt Hc Hf IH]; intros s Hp; simpl.
  - rewrite app_nil_r. by destruct s.
  - zb. cbn [negb]. erewrite bind_run by (by apply consputc_run). rewrite IH by done. simpl. by rewrite <- app_assoc.
Qed.

(** The console can be used: its lock is free and there was no panic. *)
Definition console_free (s : kstate) : Prop := LK_cons ∉ k_locks s /\ k_panicked s = 0.

Lemma cprintf_plain_run fmt args s :
  Forall (fun c => c <> 37) fmt -> console_free s ->
  cprintf fmt args s = Ret tt (set_k_out (k_out s ++ concat (cons_bytes <$> fmt)) s).
Proof.
  intros Hf [Hl Hp]. apply run_of_wp. unfold cprintf. kstep. kstep. destruct (k_cons_locking s =? 0).
  - repeat kstep. eapply wp_of_run; [by apply vcprintf_plain|]. by kstep.
  - kstep. kstep; [done|]. kstep. eapply wp_of_run; [by apply vcprintf_plain|].
    by kstep.
Qed.

Lemma wp_cprintf_plain fmt args (Q : unit -> kstate -> Prop) s :
  Forall (fun c => c <> 37) fmt -> console_free s ->
  (forall o, Q tt (set_k_out o s)) -> wp (cprintf fmt args) Q s.
Proof. intros Hf Hl HQ. eapply wp_of_run; [by apply cprintf_plain_run|apply HQ]. Qed.

(** A line without [%]. *)
Definition plain_line (x : string) : bool :=
  forallb (fun c => negb (c =? 37)) (bytes_of_string x ++ [10]).

Lemma wp_cprintfln x (Q : unit -> kstate -> Prop) s :
  plain_line x = true -> console_free s ->
  (forall o, Q tt (set_k_out o s)) -> wp (cprintfln x) Q s.
Proof.
  intros Hp Hl HQ. apply wp_cprintf_plain; [|done|done]. apply Forall_forall. intros c Hc.
  apply list_elem_of_In in Hc. apply (proj1 (forallb_forall _ _) Hp) in Hc.
  by apply negb_true_iff, Z.eqb_neq in Hc.
Qed.
