(* ===== verification/Kalloc.v ===== *)
(** * The physical page allocator (kalloc.c) and the copy-on-write reference
    counts it resets at boot (vm.c)

    The free list lives in the free pages themselves: the first word of a free
    page is the address of the next one.  [chain] relates the list in memory to
    a list of page addresses, [kmem_wf] is the allocator's invariant, and
    [AllocSpec] the abstract allocator (a stack of pages) that it refines. *)

From S2P Require Import Prelude Mmu Mem State Kernel.

(** ** Reference counts: [unsigned char cow_ref_counts[1024*1024]] *)

Module Cow.

Definition init_cow : K unit :=
  initlock LK_cow;;
  modify (set_k_cow ∅).

Definition count_at (c : gmap Z Z) (pa : Z) : Z := default 0 (c !! PPN pa).

Definition set_count (pa count : Z) : K unit :=
  let index := PPN pa in
  acquire LK_cow;;
  modify (fun s => set_k_cow (<[index := u8 count]> (k_cow s)) s);;
  release LK_cow.

Definition inc_count (pa : Z) : K unit :=
  let index := PPN pa in
  acquire LK_cow;;
  c ← gets (fun s => count_at (k_cow s) pa);
  (if c <? 255 then modify (fun s => set_k_cow (<[index := u8 (c + 1)]> (k_cow s)) s)
   else mret tt);;
  release LK_cow.

Definition dec_count (pa : Z) : K unit :=
  let index := PPN pa in
  acquire LK_cow;;
  c ← gets (fun s => count_at (k_cow s) pa);
  (if 0 <? c then modify (fun s => set_k_cow (<[index := u8 (c - 1)]> (k_cow s)) s)
   else mret tt);;
  release LK_cow.

Definition get_count (pa : Z) : K Z :=
  acquire LK_cow;;
  release LK_cow;;
  gets (fun s => count_at (k_cow s) pa).

(** What the counters hold: a byte for each page frame. *)
Definition cow_wf (s : kstate) : Prop :=
  forall n c, k_cow s !! n = Some c -> 0 <= n < 1048576 /\ 0 <= c <= 255.

End Cow.
Export Cow.

(** ** kalloc.c *)

Section kalloc.
Context `{KernelImage}.

Definition when_use_lock (m : K unit) : K unit :=
  u ← gets k_use_lock; if u =? 0 then mret tt else m.

Definition kfree (v : Z) : K unit :=
  if negb (v mod PGSIZE =? 0) || (v <? k_end) || (PHYSTOP <=? V2P v) then panic "kfree"
  else
    memset v 1 PGSIZE;;
    when_use_lock (acquire LK_kmem);;
    fl ← gets k_freelist;
    kstore32 v fl;;
    modify (set_k_freelist v);;
    when_use_lock (release LK_kmem).

Definition kalloc : K Z :=
  when_use_lock (acquire LK_kmem);;
  r ← gets k_freelist;
  (if r =? 0 then mret tt else next ← kload32 r; modify (set_k_freelist next));;
  when_use_lock (release LK_kmem);;
  mret r.

Definition freerange_body (vend p : Z) : K (Z + unit) :=
  if u32 (p + PGSIZE) <=? vend
  then kfree p;; mret (inl (u32 (p + PGSIZE)))
  else mret (inr tt).

Definition freerange (vstart vend : Z) : K unit :=
  let p := PGROUNDUP vstart in
  iter (S (Z.to_nat ((vend - p) / PGSIZE))) (freerange_body vend) p.

Definition kinit1 (vstart vend : Z) : K unit :=
  initlock LK_kmem;;
  modify (set_k_use_lock 0);;
  init_cow;;
  freerange vstart vend.

Definition kinit2 (vstart vend : Z) : K unit :=
  freerange vstart vend;;
  modify (set_k_use_lock 1).

(** ** The invariant *)

Definition page_ok (v : Z) : Prop := v mod 4096 = 0 /\ k_end <= v < KERNBASE + PHYSTOP.

Fixpoint chain (m : gmap Z Z) (r : Z) (fl : list Z) : Prop :=
  match fl with
  | [] => r = 0
  | v :: fl => r = v /\ chain m (ld32 m (v - KERNBASE)) fl
  end.

Definition kmem_wf (s : kstate) (fl : list Z) : Prop :=
  chain (k_mem s) (k_freelist s) fl /\ Forall page_ok fl /\ NoDup fl.

End kalloc.

(** The abstract allocator: a stack of free pages. *)
Module AllocSpec.
Definition alloc (fl : list Z) : Z * list Z :=
  match fl with [] => (0, []) | v :: fl => (v, fl) end.
Definition free (v : Z) (fl : list Z) : list Z := v :: fl.
End AllocSpec.

(** ** Reference counts: behaviour of each operation *)

Lemma PPN_range pa : 0 <= PPN pa < 1048576.
Proof.
  rewrite PPN_spec. pose proof (u32_range pa).
  split; [apply Z.div_pos; lia|apply Z.div_lt_upper_bound; lia].
Qed.

Lemma set_count_run pa c s :
  LK_cow ∉ k_locks s ->
  set_count pa c s = Ret tt (set_k_cow (<[PPN pa := u8 c]> (k_cow s)) s).
Proof.
  intros Hl. apply run_of_wp. unfold set_count. by repeat (kstep; try done).
Qed.

Lemma inc_count_run pa s :
  LK_cow ∉ k_locks s ->
  inc_count pa s = Ret tt
    (if count_at (k_cow s) pa <? 255
     then set_k_cow (<[PPN pa := u8 (count_at (k_cow s) pa + 1)]> (k_cow s)) s else s).
Proof.
  intros Hl. apply run_of_wp. unfold inc_count. do 5 (kstep; try done). cbn [k_cow set_k_locks].
  zcase; repeat (kstep; try done). by destruct s.
Qed.

Lemma dec_count_run pa s :
  LK_cow ∉ k_locks s ->
  dec_count pa s = Ret tt
    (if 0 <? count_at (k_cow s) pa
     then set_k_cow (<[PPN pa := u8 (count_at (k_cow s) pa - 1)]> (k_cow s)) s else s).
Proof.
  intros Hl. apply run_of_wp. unfold dec_count. do 5 (kstep; try done). cbn [k_cow set_k_locks].
  zcase; repeat (kstep; try done). by destruct s.
Qed.

Lemma get_count_run pa s :
  LK_cow ∉ k_locks s -> get_count pa s = Ret (count_at (k_cow s) pa) s.
Proof.
  intros Hl. apply run_of_wp. unfold get_count. repeat (kstep; try done). by destruct s.
Qed.

(** ** The allocator *)

Section kalloc_proofs.
Context `{KernelImage}.

Lemma page_ok_kptr v : page_ok v -> KERNBASE < v < KERNBASE + PHYSTOP.
Proof.
  intros [_ Hv]. pose proof k_data_range. unfold KERNLINK, EXTMEM in *. lia.
Qed.

Lemma wp_when_use_lock m (Q : unit -> kstate -> Prop) s :
  Q tt s -> wp m Q s -> wp (when_use_lock m) Q s.
Proof. intros ??. unfold when_use_lock. repeat kstep. by zcase. Qed.

Lemma kalloc_run s :
  LK_kmem ∉ k_locks s ->
  (k_freelist s = 0 \/ KERNBASE <= k_freelist s < KERNBASE + PHYSTOP) ->
  kalloc s = Ret (k_freelist s)
    (if k_freelist s =? 0 then s
     else set_k_freelist (ld32 (k_mem s) (k_freelist s - KERNBASE)) s).
Proof.
  intros Hl Hfl. apply run_of_wp. unfold kalloc, when_use_lock. repeat kstep.
  destruct (k_use_lock s =? 0) eqn:Hu, (k_freelist s =? 0) eqn:Hz.
  all: repeat (kstep; try done; try lia); cbn; rewrite ?Hz.
  all: repeat (kstep; try done; try lia); cbn; rewrite ?Hu.
  all: repeat (kstep; try done; try lia).
  all: try by destruct s.
Qed.

Lemma kfree_run v s :
  page_ok v -> LK_kmem ∉ k_locks s ->
  kfree v s = Ret tt
    (set_k_freelist v
      (set_k_mem (st32 (memset_mem (k_mem s) v (v - KERNBASE) 1 PGSIZE)
                       (v - KERNBASE) (k_freelist s)) s)).
Proof.
  intros Hv Hl. pose proof (page_ok_kptr v Hv) as Hk. destruct Hv as [Ha Hr].
  apply run_of_wp. unfold kfree, PGSIZE. rewrite V2P_spec by (unfold PHYSTOP, KERNBASE in *; lia).
  zb. cbn [negb orb]. unfold when_use_lock.
  repeat (kstep; try lia). cbn. destruct (k_use_lock s =? 0) eqn:Hu.
  all: repeat (kstep; try done; try lia); cbn; rewrite Hu.
  all: repeat (kstep; try done; try lia).
Qed.

Lemma chain_ext m m' r fl :
  Forall (fun v => ld32 m' (v - KERNBASE) = ld32 m (v - KERNBASE)) fl ->
  chain m r fl -> chain m' r fl.
Proof.
  intros Hfl. revert r. induction Hfl as [|v fl Hv Hfl IH]; intros r; simpl; [done|].
  intros [-> Hc]. split; [done|]. rewrite Hv. by apply IH.
Qed.

(** What [kfree] leaves in memory: the freed page is overwritten (its first
    word by the old list head, the rest by junk), every other byte stays. *)
Definition freed_mem (m : gmap Z Z) (v r : Z) : gmap Z Z :=
  st32 (memset_mem m v (v - KERNBASE) 1 PGSIZE) (v - KERNBASE) r.

Lemma freed_mem_other m v r a :
  ~ (v - KERNBASE <= a < v - KERNBASE + 4096) -> ld8 (freed_mem m v r) a = ld8 m a.
Proof.
  intros Ha. unfold freed_mem, PGSIZE. rewrite ld8_st32_ne by lia.
  rewrite ld8_memset by lia. by rewrite decide_False.
Qed.

Lemma freed_mem_junk m v r a :
  v - KERNBASE + 4 <= a < v - KERNBASE + 4096 -> ld8 (freed_mem m v r) a = 1.
Proof.
  intros Ha. unfold freed_mem, PGSIZE. rewrite ld8_st32_ne by lia.
  rewrite ld8_memset by lia. by rewrite decide_True by lia.
Qed.

Lemma kmem_wf_head s fl :
  kmem_wf s fl -> k_freelist s = 0 \/ KERNBASE <= k_freelist s < KERNBASE + PHYSTOP.
Proof.
  intros (Hc & Hp & _). destruct fl as [|v fl]; [by left|]. right.
  destruct Hc as [-> _]. apply Forall_cons in Hp as [Hv _]. apply page_ok_kptr in Hv. lia.
Qed.

Lemma kmem_wf_range s fl : kmem_wf s fl -> 0 <= k_freelist s < 4294967296.
Proof. intros Hwf%kmem_wf_head. unfold KERNBASE, PHYSTOP in *. lia. Qed.

Lemma kmem_wf_free s fl v :
  kmem_wf s fl -> page_ok v -> v ∉ fl ->
  kmem_wf (set_k_freelist v (set_k_mem (freed_mem (k_mem s) v (k_freelist s)) s)) (v :: fl).
Proof.
  intros Hwf Hv Hn. pose proof (kmem_wf_range _ _ Hwf) as Hr. destruct Hwf as (Hc & Hp & Hd).
  split; [|split; [by constructor|by constructor]]. simpl. split; [done|].
  unfold freed_mem at 2. rewrite ld32_st32_eq by done.
  eapply chain_ext; [|done]. apply Forall_forall. intros u Hu.
  assert (page_ok u) as [Hu1 Hu2] by (rewrite Forall_forall in Hp; by apply Hp).
  apply ld32_ext. intros b Hb. apply freed_mem_other.
  destruct Hv as [Hv1 _]. assert (u <> v) by congruence.
  destruct (pages_disjoint u v) as [?|?]; try done; lia.
Qed.

Lemma kmem_wf_alloc s v fl :
  kmem_wf s (v :: fl) ->
  k_freelist s = v /\ v <> 0 /\ page_ok v /\ (v ∉ fl) /\
  kmem_wf (set_k_freelist (ld32 (k_mem s) (v - KERNBASE)) s) fl.
Proof.
  intros ([Hr Hc] & [Hv Hp]%Forall_cons & [Hn Hd]%NoDup_cons). pose proof (page_ok_kptr v Hv).
  repeat split; try done; [unfold KERNBASE in *; lia|apply Hv..].
Qed.

(** Allocating: the head of the list, or null, and nothing else changes. *)
Lemma wp_kalloc fl (Q : Z -> kstate -> Prop) s :
  kmem_wf s fl -> LK_kmem ∉ k_locks s ->
  match fl with
  | [] => Q 0 s
  | v :: fl' => forall r, v <> 0 -> page_ok v -> v ∉ fl' ->
      kmem_wf (set_k_freelist r s) fl' -> Q v (set_k_freelist r s)
  end -> wp kalloc Q s.
Proof.
  intros Hwf Hl HQ. eapply wp_of_run; [apply kalloc_run; [done|by eapply kmem_wf_head]|].
  destruct fl as [|v fl].
  - destruct Hwf as [Hc _]. simpl in Hc. by rewrite Hc.
  - apply kmem_wf_alloc in Hwf as (-> & Hz & Hv & Hn & Hwf). zb. by apply HQ.
Qed.

Lemma wp_kfree v fl (Q : unit -> kstate -> Prop) s :
  kmem_wf s fl -> LK_kmem ∉ k_locks s -> page_ok v -> v ∉ fl ->
  (let s' := set_k_freelist v (set_k_mem (freed_mem (k_mem s) v (k_freelist s)) s) in
   kmem_wf s' (v :: fl) -> Q tt s') -> wp (kfree v) Q s.
Proof.
  intros Hwf Hl Hv Hn HQ. eapply wp_of_run; [by apply kfree_run|]. apply HQ.
  by apply kmem_wf_free.
Qed.

(** ** Freeing a range *)

(** The pages [freerange] frees: [k] pages from [p]. *)
Definition page_range (p : Z) (k : nat) : list Z :=
  (fun i => p + 4096 * Z.of_nat i) <$> seq 0 k.

Lemma page_range_snoc p k : page_range p (S k) = page_range p k ++ [p + 4096 * Z.of_nat k].
Proof. unfold page_range. by rewrite seq_S, fmap_app. Qed.

Lemma elem_of_page_range p k v :
  v ∈ page_range p k <-> exists i, (i < k)%nat /\ v = p + 4096 * Z.of_nat i.
Proof.
  unfold page_range. rewrite list_elem_of_fmap. setoid_rewrite elem_of_seq.
  split; intros (i & Hi & Hv); exists i; split; (done || lia).
Qed.

(** Memory outside [vstart, vend) is as it was. *)
Definition mem_kept (vstart vend : Z) (s s' : kstate) : Prop :=
  forall a, a < vstart - KERNBASE \/ vend - KERNBASE <= a -> ld8 (k_mem s') a = ld8 (k_mem s) a.

(** The pages of [vstart, vend) are freed in ascending order, so they come out
    of the allocator in descending order. *)
Lemma wp_freerange p n vend fl (Q : unit -> kstate -> Prop) s :
  kmem_wf s fl -> LK_kmem ∉ k_locks s ->
  p mod 4096 = 0 -> k_end <= p -> p + 4096 * Z.of_nat n <= vend ->
  vend < p + 4096 * Z.of_nat n + 4096 -> vend <= KERNBASE + PHYSTOP ->
  (forall v, v ∈ fl -> v ∉ page_range p n) ->
  (forall s', kmem_wf s' (reverse (page_range p n) ++ fl) -> k_locks s' = k_locks s ->
     k_use_lock s' = k_use_lock s -> mem_kept p vend s s' -> Q tt s') ->
  wp (iter (S (Z.to_nat ((vend - p) / PGSIZE))) (freerange_body vend) p) Q s.
Proof.
  intros Hwf Hl Hp He Hn1 Hn2 Htop Hfl HQ.
  assert (KERNBASE <= p) by (pose proof k_data_range; unfold KERNLINK, EXTMEM in *; lia).
  assert ((vend - p) / 4096 = Z.of_nat n) as Hq by (symmetry; apply Z.div_unique with (vend - p - 4096 * Z.of_nat n); lia).
  apply (wp_iter (fun q t => exists k, (k <= n)%nat /\ q = p + 4096 * Z.of_nat k /\
      kmem_wf t (reverse (page_range p k) ++ fl) /\ k_locks t = k_locks s /\
      k_use_lock t = k_use_lock s /\ mem_kept p vend s t)
    (fun q => Z.to_nat ((vend - q) / 4096))).
  - intros q t (k & Hk & -> & Hwft & Hlt & Hut & Hmt). unfold freerange_body, PGSIZE.
    rewrite u32_small by (unfold KERNBASE, PHYSTOP in *; lia).
    zcase; [|kstep; apply HQ; try done; by replace k with n in Hwft by lia].
    set (q := p + 4096 * Z.of_nat k) in *. assert (k < n)%nat by lia.
    assert (page_ok q) as Hq_ok.
    { split; [|unfold KERNBASE, PHYSTOP in *; lia]. unfold q. rewrite Z.add_mod, Hp by lia.
      rewrite (Z.mul_comm 4096), Z_mod_mult. done. }
    assert (q ∉ reverse (page_range p k) ++ fl).
    { rewrite elem_of_app, elem_of_reverse, elem_of_page_range. intros [(i & ? & ?)|Hin]; [lia|].
      apply (Hfl _ Hin). apply elem_of_page_range. by exists k. }
    kstep. eapply wp_kfree; [done|by rewrite Hlt|done|done|]. intros s1 Hwf1. kstep. split.
    + exists (S k). unfold q. split; [lia|]. split; [lia|].
      rewrite page_range_snoc, reverse_snoc. split; [exact Hwf1|]. split_and!; [done|done|].
      intros a Ha. cbn. rewrite freed_mem_other; [by apply Hmt|]. unfold q in *. lia.
    + replace (vend - (q + 4096)) with (vend - q + (-1) * 4096) by lia.
      rewrite Z.div_add by lia. assert (1 <= (vend - q) / 4096) by (apply Z.div_le_lower_bound; lia). lia.
  - exists 0%nat. split; [lia|]. split; [lia|]. done.
  - unfold PGSIZE. lia.
Qed.

End kalloc_proofs.

(** ** The allocator implements its specification *)

Section allocator_correct.
Context `{KernelImage}.

Inductive alloc_op := OpAlloc | OpFree (v : Z).

Definition page_okb (v : Z) : bool :=
  (v mod 4096 =? 0) && (k_end <=? v) && (v <? KERNBASE + PHYSTOP).

Lemma page_okb_spec v : page_okb v = true <-> page_ok v.
Proof.
  unfold page_okb, page_ok. rewrite !andb_true_iff, Z.eqb_eq, Z.leb_le, Z.ltb_lt. tauto.
Qed.

(** A sequence of calls, and the pages its [kalloc]s returned. *)
Fixpoint run_ops (ops : list alloc_op) : K (list Z) :=
  match ops with
  | [] => mret []
  | OpAlloc :: ops => r ← kalloc; rs ← run_ops ops; mret (r :: rs)
  | OpFree v :: ops => kfree v;; run_ops ops
  end.

(** The same calls on the abstract allocator; [None] when a call frees
    something that is not a page or is already free. *)
Fixpoint spec_ops (fl : list Z) (ops : list alloc_op) : option (list Z * list Z) :=
  match ops with
  | [] => Some ([], fl)
  | OpAlloc :: ops =>
      let '(r, fl') := AllocSpec.alloc fl in
      res ← spec_ops fl' ops; Some (r :: res.1, res.2)
  | OpFree v :: ops =>
      if page_okb v && negb (bool_decide (v ∈ fl)) then spec_ops (AllocSpec.free v fl) ops else None
  end.

(** C14. Page allocator refinement: from a well-formed free list, every
    sequence of [kalloc] and [kfree] calls that frees only allocated pages
    returns exactly the pages that a stack of free pages would return, never
    panics, and leaves a well-formed free list holding what the stack holds. *)
Theorem kalloc_kfree_refine ops s fl rs fl' :
  kmem_wf s fl -> LK_kmem ∉ k_locks s -> spec_ops fl ops = Some (rs, fl') ->
  exists s', run_ops ops s = Ret rs s' /\ kmem_wf s' fl' /\ k_locks s' = k_locks s.
Proof.
  intros Hwf Hl Hsp. revert s fl rs Hwf Hl Hsp.
  induction ops as [|[|v] ops IH]; intros s fl rs Hwf Hl Hsp; simpl in Hsp.
  - simplify_eq. by exists s.
  - enough (wp (run_ops (OpAlloc :: ops)) (fun r t => r = rs /\ kmem_wf t fl' /\ k_locks t = k_locks s) s)
      as (r & t & -> & -> & ? & ?)%wp_inv by eauto.
    simpl. kstep. apply (wp_kalloc fl); try done. destruct fl as [|v fl]; simpl in Hsp.
    + destruct (spec_ops [] ops) as [[rs1 fl1]|] eqn:E; simplify_eq/=.
      destruct (IH s [] rs1) as (s' & Hrun & ? & ?); try done.
      kstep. eapply wp_of_run; [done|]. by kstep.
    + intros r Hz Hv Hn Hwf'. destruct (spec_ops fl ops) as [[rs1 fl1]|] eqn:E; simplify_eq/=.
      destruct (IH (set_k_freelist r s) fl rs1) as (s' & Hrun & ? & ?); try done.
      kstep. eapply wp_of_run; [done|]. by kstep.
  - destruct (page_okb v && negb (bool_decide (v ∈ fl))) eqn:E; [|done].
    apply andb_true_iff in E as [Hv%page_okb_spec Hn%negb_true_iff%bool_decide_eq_false].
    simpl. unfold mbind, M_bind. rewrite kfree_run by done.
    exact (IH _ (v :: fl) rs (kmem_wf_free s fl v Hwf Hv Hn) Hl Hsp).
Qed.

(** The two boot-time calls of main(). *)
Definition boot_alloc : K unit :=
  kinit1 k_end (P2V (4 * 1024 * 1024));;
  kinit2 (P2V (4 * 1024 * 1024)) (P2V PHYSTOP).

Lemma kmem_wf_nil s : k_freelist s = 0 -> kmem_wf s [].
Proof. intros Hs. split; [done|]. split; constructor. Qed.

(** The pages between two page boundaries, with the hole before the first
    boundary left out. *)
Lemma page_range_cover lo vend n v :
  0 <= lo -> (lo + 4095) / 4096 * 4096 + 4096 * Z.of_nat n = vend ->
  v ∈ page_range ((lo + 4095) / 4096 * 4096) n <-> v mod 4096 = 0 /\ lo <= v < vend.
Proof.
  intros Hlo Hv. rewrite elem_of_page_range. split.
  - intros (i & Hi & ->). Z.div_mod_to_equations. lia.
  - intros [Hm Hr]. exists (Z.to_nat ((v - (lo + 4095) / 4096 * 4096) / 4096)).
    Z.div_mod_to_equations. lia.
Qed.

Lemma wp_freerange_from lo vend fl (Q : unit -> kstate -> Prop) s :
  kmem_wf s fl -> LK_kmem ∉ k_locks s ->
  k_end <= lo <= vend -> vend mod 4096 = 0 -> vend <= KERNBASE + PHYSTOP ->
  (forall v, v ∈ fl -> v < lo) ->
  (forall s' fl', kmem_wf s' fl' -> k_locks s' = k_locks s -> k_cow s' = k_cow s ->
     (forall v, v ∈ fl' <-> v ∈ fl \/ (v mod 4096 = 0 /\ lo <= v < vend)) -> mem_kept lo vend s s' -> Q tt s') ->
  wp (freerange lo vend) Q s.
Proof.
  intros Hwf Hl Hlo Ha Ht Hfl HQ. unfold freerange.
  assert (0 <= lo) by (pose proof k_data_range; unfold KERNLINK, KERNBASE, EXTMEM in *; lia).
  rewrite PGROUNDUP_spec by (unfold KERNBASE, PHYSTOP in *; lia).
  set (p := (lo + 4095) / 4096 * 4096). assert (lo <= p <= vend).
  { unfold p. Z.div_mod_to_equations. lia. }
  set (n := Z.to_nat ((vend - p) / 4096)).
  assert (p + 4096 * Z.of_nat n = vend) as Hn.
  { unfold n. assert (p mod 4096 = 0) by apply Z_mod_mult. Z.div_mod_to_equations. lia. }
  eapply wp_mono; [eapply (wp_frame k_cow); [frame_solve|]; apply (wp_freerange p n vend fl
    (fun _ t => exists fl', kmem_wf t fl' /\ k_locks t = k_locks s /\ mem_kept lo vend s t /\
      forall v, v ∈ fl' <-> v ∈ fl \/ (v mod 4096 = 0 /\ lo <= v < vend))); try done; try lia|].
  - apply Z_mod_mult.
  - intros v Hv Hin. apply Hfl in Hv. apply elem_of_page_range in Hin as (i & _ & ->). lia.
  - intros t Ht' Hlt _ Hmt. eexists. split; [done|]. split; [done|].
    split; [intros a Hout; apply Hmt; lia|]. intros v.
    pose proof (page_range_cover lo vend n v) as Hc. fold p in Hc.
    rewrite elem_of_app, elem_of_reverse, Hc by done. tauto.
  - intros [] t [(fl' & ? & ? & ? & ?) ?]. by apply (HQ t fl').
Qed.

(** Boot: after [kinit1] and [kinit2] the free list holds every page frame
    between the end of the kernel and PHYSTOP, each exactly once, all reference
    counts are zero and the allocator uses its lock. *)
Theorem boot_frees_all_pages s :
  k_locks s = [] -> k_freelist s = 0 ->
  exists s' fl, boot_alloc s = Ret tt s' /\ kmem_wf s' fl /\
    (forall v, v ∈ fl <-> page_ok v) /\ k_cow s' = ∅ /\ k_use_lock s' = 1.
Proof.
  intros Hl Hfl.
  enough (wp boot_alloc (fun _ t => exists fl, kmem_wf t fl /\ (forall v, v ∈ fl <-> page_ok v) /\
    k_cow t = ∅ /\ k_use_lock t = 1) s) as ([] & t & Hrun & fl & ?)%wp_inv by (exists t, fl; tauto).
  unfold boot_alloc, kinit1, kinit2, init_cow, initlock. pose proof k_end_range.
  pose proof k_data_range. change (P2V (4 * 1024 * 1024)) with (KERNBASE + 4194304).
  change (P2V PHYSTOP) with (KERNBASE + PHYSTOP).
  repeat (wp_step; cbv beta). rewrite Hl.
  apply (wp_freerange_from _ _ []); try done; try (unfold KERNBASE, PHYSTOP; lia).
  { by apply kmem_wf_nil. } { by apply not_elem_of_nil. } { by intros v ?%not_elem_of_nil. }
  intros t1 fl1 Hwf1 Hl1 Hc1 Hin1 _. kstep. cbn in Hl1, Hc1.
  apply (wp_freerange_from _ _ fl1); try done; try (unfold KERNBASE, PHYSTOP; lia).
  { rewrite Hl1. by apply not_elem_of_nil. }
  { intros v [?%not_elem_of_nil|[? ?]]%Hin1; [done|lia]. }
  intros t2 fl2 Hwf2 Hl2 Hc2 Hin2 _. kstep. exists fl2. split; [by destruct t2|].
  split; [|split; [by rewrite <- Hc1|done]].
  intros v. rewrite Hin2, Hin1. unfold page_ok.
  split; [intros [[?%not_elem_of_nil|?]|?]; [done|..]|]; unfold PHYSTOP in *; lia.
Qed.

End allocator_correct.

Section allocator_witnesses.
#[local] Existing Instance sample_image.

Lemma kalloc_kfree_refine_witness :
  exists s', run_ops [OpFree 0x80200000; OpFree 0x80201000; OpAlloc; OpAlloc; OpAlloc] zero_kstate
             = Ret [0x80201000; 0x80200000; 0] s' /\ kmem_wf s' [] /\ k_locks s' = [].
Proof.
  apply (kalloc_kfree_refine
    [OpFree 0x80200000; OpFree 0x80201000; OpAlloc; OpAlloc; OpAlloc] zero_kstate []).
  - by apply kmem_wf_nil.
  - by apply not_elem_of_nil.
  - reflexivity.
Defined.

Lemma boot_frees_all_pages_witness :
  exists s' fl, boot_alloc zero_kstate = Ret tt s' /\ kmem_wf s' fl /\
    (forall v, v ∈ fl <-> page_ok v) /\ k_cow s' = ∅ /\ k_use_lock s' = 1.
Proof. apply (boot_frees_all_pages zero_kstate); reflexivity. Defined.

End allocator_witnesses.
