(* ===== verification/Vm.v ===== *)
(** * Page tables and user address spaces (vm.c)

    The two-level x86 page tables, kept where the code keeps them: in page
    frames of physical memory.  [pte_of] reads an address space as a function
    from virtual addresses to page-table entries; [pgdir_wf] says that a page
    directory is a proper two-level tree, [vm_inv] adds that none of its frames
    is on the allocator's free list.  The operations are proved against this
    view. *)

From S2P Require Import Prelude Mmu Mem State Kernel Cprintf Kalloc.

Section vm.
Context `{KernelImage}.

(** Address of the page-table entry for [va], 0 if there is none. *)
Definition walkpgdir (pgdir va : Z) (alloc : bool) : K Z :=
  let pde := u32 (pgdir + 4 * PDX va) in
  e ← kload32 pde;
  if has e PTE_P then mret (u32 (P2V (PTE_ADDR e) + 4 * PTX va))
  else if negb alloc then mret 0 else
    pgtab ← kalloc;
    if pgtab =? 0 then mret 0 else
      memset pgtab 0 PGSIZE;;
      kstore32 pde (Z.lor (Z.lor (Z.lor (V2P pgtab) PTE_P) PTE_W) PTE_U);;
      mret (u32 (pgtab + 4 * PTX va)).

Definition mappages_body (pgdir last perm : Z) (st : Z * Z) : K (Z * Z + Z) :=
  let '(a, pa) := st in
  pte ← walkpgdir pgdir a true;
  if pte =? 0 then mret (inr (-1)) else
    v ← kload32 pte;
    if has v PTE_P then panic "remap" else
      kstore32 pte (Z.lor (Z.lor pa perm) PTE_P);;
      if a =? last then mret (inr 0)
      else mret (inl (u32 (a + PGSIZE), u32 (pa + PGSIZE))).

Definition mappages (pgdir va size pa perm : Z) : K Z :=
  let a := PGROUNDDOWN va in
  let last := PGROUNDDOWN (u32 (va + size - 1)) in
  iter (S (Z.to_nat (u32 (last - a) / PGSIZE))) (mappages_body pgdir last perm) (a, pa).

Definition deallocuvm_body (pgdir oldsz newsz a : Z) : K (Z + Z) :=
  if a <? oldsz then
    pte ← walkpgdir pgdir a false;
    a' ← (if pte =? 0 then mret (u32 (PGADDR (PDX a + 1) 0 0 - PGSIZE))
          else
            v ← kload32 pte;
            if has v PTE_P then
              let pa := PTE_ADDR v in
              if pa =? 0 then panic "kfree" else
                c ← get_count pa;
                (if c =? 0 then kfree (P2V pa) else mret tt);;
                kstore32 pte 0;;
                mret a
            else mret a);
    mret (inl (u32 (a' + PGSIZE)))
  else mret (inr newsz).

Definition deallocuvm (pgdir oldsz newsz : Z) : K Z :=
  if oldsz <=? newsz then mret oldsz else
    let a := PGROUNDUP newsz in
    iter (S (Z.to_nat ((oldsz - a + PGSIZE - 1) / PGSIZE))) (deallocuvm_body pgdir oldsz newsz) a.

Definition allocuvm_body (pgdir oldsz newsz a : Z) : K (Z + Z) :=
  if a <? newsz then
    mem ← kalloc;
    if mem =? 0 then
      cprintfln "allocuvm out of memory";;
      deallocuvm pgdir newsz oldsz;;
      mret (inr 0)
    else
      memset mem 0 PGSIZE;;
      r ← mappages pgdir a PGSIZE (V2P mem) (Z.lor PTE_W PTE_U);
      if r <? 0 then
        cprintfln "allocuvm out of memory (2)";;
        deallocuvm pgdir newsz oldsz;;
        kfree mem;;
        mret (inr 0)
      else
        set_count (V2P mem) 1;;
        mret (inl (u32 (a + PGSIZE)))
  else mret (inr newsz).

Definition allocuvm (pgdir oldsz newsz : Z) : K Z :=
  if KERNBASE <=? newsz then mret 0 else
  if newsz <? oldsz then mret oldsz else
    let a := PGROUNDUP oldsz in
    iter (S (Z.to_nat ((newsz - a + PGSIZE - 1) / PGSIZE))) (allocuvm_body pgdir oldsz newsz) a.

Definition freevm (pgdir : Z) : K unit :=
  if pgdir =? 0 then panic "freevm: no pgdir" else
    deallocuvm pgdir KERNBASE 0;;
    for_each (seq 0 (Z.to_nat NPDENTRIES)) (fun i =>
      e ← kload32 (u32 (pgdir + 4 * Z.of_nat i));
      if has e PTE_P then
        c ← get_count (PTE_ADDR e);
        if 0 <? c then mret tt else kfree (P2V (PTE_ADDR e))
      else mret tt);;
    kfree pgdir.

(** [struct kmap kmap[]]: virtual start, physical start and end, permissions. *)
Definition kmap : list (Z * Z * Z * Z) :=
  [ (KERNBASE, 0, EXTMEM, PTE_W);
    (KERNLINK, V2P KERNLINK, V2P k_data, 0);
    (k_data, V2P k_data, PHYSTOP, PTE_W);
    (DEVSPACE, DEVSPACE, 0, PTE_W) ].

Fixpoint setupkvm_loop (pgdir : Z) (ks : list (Z * Z * Z * Z)) : K Z :=
  match ks with
  | [] => mret pgdir
  | (virt, phys_start, phys_end, perm) :: ks =>
      r ← mappages pgdir virt (u32 (phys_end - phys_start)) phys_start perm;
      if r <? 0 then freevm pgdir;; mret 0 else setupkvm_loop pgdir ks
  end.

Definition setupkvm : K Z :=
  pgdir ← kalloc;
  if pgdir =? 0 then mret 0 else
    memset pgdir 0 PGSIZE;;
    if DEVSPACE <? P2V PHYSTOP then panic "PHYSTOP too high" else
      setupkvm_loop pgdir kmap.

Definition inituvm (pgdir : Z) (init : list Z) (sz : Z) : K unit :=
  if PGSIZE <=? sz then panic "inituvm: more than a page" else
    mem ← kalloc;
    memset mem 0 PGSIZE;;
    mappages pgdir 0 PGSIZE (V2P mem) (Z.lor PTE_W PTE_U);;
    kstore_bytes mem (take (Z.to_nat sz) init);;
    set_count (V2P mem) 1.

Definition clearpteu (pgdir uva : Z) : K unit :=
  pte ← walkpgdir pgdir uva false;
  if pte =? 0 then panic "clearpteu" else
    v ← kload32 pte;
    kstore32 pte (clearf v PTE_U).

Definition copyuvm_body (pgdir d sz i : Z) : K (Z + Z) :=
  if i <? sz then
    pte ← walkpgdir pgdir i false;
    if pte =? 0 then panic "copyuvm: pte should exist" else
      v ← kload32 pte;
      if negb (has v PTE_P) then panic "copyuvm: page not present" else
        let pa := PTE_ADDR v in
        let flags := PTE_FLAGS v in
        flags ← (if has flags PTE_W then
                   kstore32 pte (Z.lor (Z.lor (clearf v PTE_W) PTE_COW) (Z.lor PTE_P PTE_U));;
                   mret (Z.lor (Z.lor (clearf flags PTE_W) PTE_COW) (Z.lor PTE_P PTE_U))
                 else mret flags);
        r ← mappages d i PGSIZE pa flags;
        if r <? 0 then freevm d;; mret (inr 0) else
          inc_count pa;;
          lcr3 (V2P pgdir);;
          lcr3 (V2P d);;
          mret (inl (u32 (i + PGSIZE)))
  else mret (inr d).

Definition copyuvm (pgdir sz : Z) : K Z :=
  d ← setupkvm;
  if d =? 0 then mret 0 else
    iter (S (Z.to_nat ((sz + PGSIZE - 1) / PGSIZE))) (copyuvm_body pgdir d sz) 0.

(** [*pte] is read even when [walkpgdir] returned null. *)
Definition uva2ka (pgdir uva : Z) : K Z :=
  pte ← walkpgdir pgdir uva false;
  v ← kload32 pte;
  if negb (has v PTE_P) then mret 0 else
  if negb (has v PTE_U) then mret 0 else
    mret (P2V (PTE_ADDR v)).

Definition copyout_body (pgdir : Z) (st : Z * list Z) : K (Z * list Z + Z) :=
  let '(va, buf) := st in
  let len := Z.of_nat (length buf) in
  if 0 <? len then
    let va0 := PGROUNDDOWN va in
    pa0 ← uva2ka pgdir va0;
    if pa0 =? 0 then mret (inr (-1)) else
      let n := PGSIZE - (va - va0) in
      let n := if len <? n then len else n in
      kstore_bytes (pa0 + (va - va0)) (take (Z.to_nat n) buf);;
      mret (inl (u32 (va0 + PGSIZE), drop (Z.to_nat n) buf))
  else mret (inr 0).

Definition copyout (pgdir va : Z) (p : list Z) : K Z :=
  iter (S (length p)) (copyout_body pgdir) (va, p).

(** The end of [handle_cow_fault]: allocate a page and copy. *)
Definition cow_new_page (pgdir fault_addr pte v : Z) : K Z :=
  let pa := PTE_ADDR v in
  mem ← kalloc;
  if mem =? 0 then mret (-1) else
    memmove mem (P2V pa) PGSIZE;;
    dec_count pa;;
    let flags := clearf (Z.lor (PTE_FLAGS v) PTE_W) PTE_COW in
    kstore32 pte 0;;
    r ← mappages pgdir (PGROUNDDOWN fault_addr) PGSIZE (V2P mem) flags;
    if negb (r =? 0) then kfree mem;; mret (-1) else
      set_count (V2P mem) 1;;
      lcr3 (V2P pgdir);;
      mret 0.

Definition handle_cow_fault (p : nat) (fault_addr : Z) : K Z :=
  pr ← getproc p;
  if p_sz pr <=? fault_addr then mret (-1) else
    pte ← walkpgdir (p_pgdir pr) fault_addr false;
    if pte =? 0 then mret (-1) else
      v ← kload32 pte;
      if negb (has v PTE_P) || negb (has v PTE_U) then mret (-1) else
      if negb (has v PTE_COW) then mret (-1) else
        ref_count ← get_count (PTE_ADDR v);
        if ref_count <? 1 then mret (-1) else
        if ref_count =? 1 then
          kstore32 pte (clearf (Z.lor v PTE_W) PTE_COW);;
          lcr3 (V2P (p_pgdir pr));;
          mret 0
        else cow_new_page (p_pgdir pr) fault_addr pte v.

(** switchuvm: the checks and the page-table register; the task state, which it
    writes with interrupts off in between, is part of the processor's tables
    ([switchuvm_tss] in Segments.v). *)
Definition switchuvm (op : option nat) : K unit :=
  match op with
  | None => panic "switchuvm: no process"
  | Some p =>
  pr ← getproc p;
  if p_kstack pr =? 0 then panic "switchuvm: no kstack" else
  if p_pgdir pr =? 0 then panic "switchuvm: no pgdir" else
    lcr3 (V2P (p_pgdir pr))
  end.

(** ** The view of a page directory *)

Definition frame_of (a : Z) : Z := a - a mod 4096.
Definition is_frame (f : Z) : Prop := f mod 4096 = 0 /\ 0 <= f /\ f + 4096 <= PHYSTOP.

(** Directory entry [i] of the directory in frame [d]. *)
Definition pde (m : gmap Z Z) (d i : Z) : Z := ld32 m (d + 4 * i).

(** Physical address of the page-table entry for [va]. *)
Definition pte_slot (m : gmap Z Z) (d va : Z) : option Z :=
  if has (pde m d (PDX va)) PTE_P
  then Some (PTE_ADDR (pde m d (PDX va)) + 4 * PTX va) else None.

Definition pte_of (m : gmap Z Z) (d va : Z) : Z :=
  match pte_slot m d va with Some a => ld32 m a | None => 0 end.

(** The frames a directory is made of. *)
Definition uses (m : gmap Z Z) (d f : Z) : Prop :=
  f = d \/ exists i, 0 <= i < 1024 /\ has (pde m d i) PTE_P = true /\ f = PTE_ADDR (pde m d i).

Record pgdir_wf (m : gmap Z Z) (d : Z) : Prop := {
  wf_dir : is_frame d;
  wf_tab : forall i, 0 <= i < 1024 -> has (pde m d i) PTE_P = true ->
           is_frame (PTE_ADDR (pde m d i)) /\ PTE_ADDR (pde m d i) <> d;
  wf_inj : forall i j, 0 <= i < 1024 -> 0 <= j < 1024 ->
           has (pde m d i) PTE_P = true -> has (pde m d j) PTE_P = true ->
           PTE_ADDR (pde m d i) = PTE_ADDR (pde m d j) -> i = j;
}.

Record vm_inv (d : Z) (s : kstate) (fl : list Z) : Prop := {
  vi_kmem : kmem_wf s fl;
  vi_lock : LK_kmem ∉ k_locks s;
  vi_dir : pgdir_wf (k_mem s) d;
  vi_sep : forall f, uses (k_mem s) d f -> f + KERNBASE ∉ fl;
}.

End vm.

(** ** Facts about the view *)

Section view.
Context `{KernelImage}.

Lemma frame_of_spec f a : f mod 4096 = 0 -> f <= a < f + 4096 -> frame_of a = f.
Proof. intros Hf Ha. unfold frame_of. Z.div_mod_to_equations. lia. Qed.

Lemma in_frame a : frame_of a <= a < frame_of a + 4096.
Proof. unfold frame_of. Z.div_mod_to_equations. lia. Qed.

Lemma frame_of_aligned a : frame_of a mod 4096 = 0.
Proof. unfold frame_of. Z.div_mod_to_equations. lia. Qed.

Lemma pde_range m d i : 0 <= pde m d i < 4294967296.
Proof. apply ld32_range. Qed.

Lemma pte_of_range m d va : 0 <= pte_of m d va < 4294967296.
Proof. unfold pte_of. destruct (pte_slot m d va); [apply ld32_range|lia]. Qed.

(** The slot of an entry lies in the frame of its page table. *)
Lemma pte_slot_frame m d va a :
  pgdir_wf m d -> pte_slot m d va = Some a ->
  exists f, uses m d f /\ is_frame f /\ f <> d /\ a = f + 4 * PTX va /\
    has (pde m d (PDX va)) PTE_P = true /\ f = PTE_ADDR (pde m d (PDX va)).
Proof.
  intros Hwf. unfold pte_slot. destruct (has (pde m d (PDX va)) PTE_P) eqn:E; [|done].
  intros [= <-]. pose proof (PDX_range va).
  destruct (wf_tab _ _ Hwf (PDX va)) as [Hf Hd]; [done..|].
  exists (PTE_ADDR (pde m d (PDX va))). repeat split; try done; try apply Hf. right. eauto.
Qed.

(** Directories agree when the directory frame does. *)
Lemma pde_ext m m' d i :
  0 <= i < 1024 -> (forall a, d <= a < d + 4096 -> ld8 m' a = ld8 m a) -> pde m' d i = pde m d i.
Proof. intros Hi Hm. apply ld32_ext. intros b Hb. apply Hm. lia. Qed.

(** Memory that agrees on the frames of a directory gives the same view. *)
Lemma pte_of_ext m m' d va :
  pgdir_wf m d -> (forall a, uses m d (frame_of a) -> ld8 m' a = ld8 m a) ->
  pte_of m' d va = pte_of m d va.
Proof.
  intros Hwf Hm. destruct (wf_dir _ _ Hwf) as [Hd1 Hd2].
  assert (pde m' d (PDX va) = pde m d (PDX va)) as Hp.
  { apply pde_ext; [apply PDX_range|]. intros a Ha. apply Hm. left. by apply frame_of_spec. }
  unfold pte_of, pte_slot. rewrite Hp. destruct (has (pde m d (PDX va)) PTE_P) eqn:E; [|done].
  apply ld32_ext. intros b Hb. apply Hm. right. exists (PDX va). pose proof (PDX_range va).
  pose proof (PTX_range va). split; [done|]. split; [done|].
  apply frame_of_spec; [|lia]. apply (wf_tab _ _ Hwf (PDX va)); done.
Qed.

Lemma uses_ext m m' d f :
  (forall a, d <= a < d + 4096 -> ld8 m' a = ld8 m a) -> uses m' d f <-> uses m d f.
Proof.
  intros Hm. unfold uses. split; (intros [?|(i & Hi & Hp & Hf)]; [by left|right; exists i]).
  - by rewrite (pde_ext m m') in Hp, Hf.
  - by rewrite (pde_ext m m').
Qed.

Lemma pgdir_wf_ext m m' d :
  (forall a, d <= a < d + 4096 -> ld8 m' a = ld8 m a) -> pgdir_wf m d -> pgdir_wf m' d.
Proof.
  intros Hm [Hd Ht Hi]. split; [done|..].
  - intros i Hr. rewrite (pde_ext m m') by done. by apply Ht.
  - intros i j Hir Hjr. rewrite !(pde_ext m m') by done. by apply Hi.
Qed.

Lemma uses_frame m d f : pgdir_wf m d -> uses m d f -> is_frame f.
Proof.
  intros Hwf [->|(i & Hi & Hp & ->)]; [apply Hwf|]. by apply (wf_tab _ _ Hwf).
Qed.

(** The page number of an address. *)
Definition vpn (va : Z) : Z := u32 va / 4096.

Lemma PDX_PTX_vpn va va' : PDX va = PDX va' -> PTX va = PTX va' -> vpn va = vpn va'.
Proof.
  rewrite !PDX_spec, !PTX_spec. unfold vpn. intros H1 H2.
  replace (u32 va / 4194304) with (u32 va / 4096 / 1024) in H1 by (rewrite Z.div_div by lia; done).
  replace (u32 va' / 4194304) with (u32 va' / 4096 / 1024) in H1 by (rewrite Z.div_div by lia; done).
  pose proof (Z.div_mod (u32 va / 4096) 1024). pose proof (Z.div_mod (u32 va' / 4096) 1024). lia.
Qed.

Lemma vpn_PDX_PTX va va' : vpn va = vpn va' -> PDX va = PDX va' /\ PTX va = PTX va'.
Proof.
  unfold vpn. rewrite !PDX_spec, !PTX_spec. intros E. split; [|by rewrite E].
  replace (u32 va / 4194304) with (u32 va / 4096 / 1024) by (rewrite Z.div_div by lia; done).
  replace (u32 va' / 4194304) with (u32 va' / 4096 / 1024) by (rewrite Z.div_div by lia; done).
  by rewrite E.
Qed.

Lemma pte_of_vpn m d va va' : vpn va = vpn va' -> pte_of m d va = pte_of m d va'.
Proof. intros [H1 H2]%vpn_PDX_PTX. unfold pte_of, pte_slot. by rewrite H1, H2. Qed.

(** Writing the entry of [va] changes the entries of its page and no others. *)
Lemma pte_of_st32 m d va a v va' :
  pgdir_wf m d -> pte_slot m d va = Some a -> 0 <= v < 4294967296 ->
  pte_of (st32 m a v) d va' = if decide (vpn va' = vpn va) then v else pte_of m d va'.
Proof.
  intros Hwf Hs Hv. destruct (pte_slot_frame _ _ _ _ Hwf Hs) as (f & _ & Hf & Hfd & -> & Hp & Hfe).
  pose proof (PTX_range va). pose proof (PDX_range va). pose proof (PDX_range va').
  pose proof (PTX_range va'). destruct (wf_dir _ _ Hwf) as [Hd _]. destruct Hf as [Hf _].
  assert (forall i, 0 <= i < 1024 -> pde (st32 m (f + 4 * PTX va) v) d i = pde m d i) as Hpde.
  { intros i Hi. apply ld32_st32_ne. destruct (pages_disjoint f d); [done..|lia|lia]. }
  case_decide as E.
  - apply vpn_PDX_PTX in E as [E1 E2]. unfold pte_of, pte_slot. rewrite E1, E2, Hpde, Hp by done.
    rewrite <- Hfe. by apply ld32_st32_eq.
  - unfold pte_of, pte_slot. rewrite Hpde by done.
    destruct (has (pde m d (PDX va')) PTE_P) eqn:Hp'; [|done]. apply ld32_st32_ne.
    destruct (decide (PDX va' = PDX va)) as [E1|E1].
    + rewrite E1, <- Hfe. assert (PTX va' <> PTX va) by (intros E2; by apply E, PDX_PTX_vpn). lia.
    + destruct (wf_tab _ _ Hwf (PDX va')) as [[Hf' _] _]; [done..|].
      assert (f <> PTE_ADDR (pde m d (PDX va'))) by (intros ->; apply E1; by apply (wf_inj _ _ Hwf)).
      destruct (pages_disjoint f (PTE_ADDR (pde m d (PDX va')))); [done..|lia|lia].
Qed.

End view.

(** ** walkpgdir *)

Section walk.
Context `{KernelImage}.

Lemma page_ok_frame v : page_ok v -> is_frame (v - KERNBASE) /\ 0 < v - KERNBASE.
Proof.
  intros Hv. pose proof (page_ok_kptr v Hv). destruct Hv as [Ha Hr].
  unfold is_frame, KERNBASE, PHYSTOP in *. Z.div_mod_to_equations. lia.
Qed.

Definition table_entry (g : Z) : Z := Z.lor (Z.lor (Z.lor g PTE_P) PTE_W) PTE_U.

Lemma table_entry_spec g :
  is_frame g ->
  0 <= table_entry g < 4294967296 /\ has (table_entry g) PTE_P = true /\ PTE_ADDR (table_entry g) = g.
Proof.
  intros (Ha & Hlo & Hhi). assert (table_entry g = Z.lor g 7) as ->.
  { unfold table_entry. by rewrite <- !Z.lor_assoc. }
  split; [rewrite aligned_lor by lia; unfold PHYSTOP in *; lia|].
  split; [by rewrite has_lor, orb_true_r|]. apply PTE_ADDR_lor; unfold PHYSTOP in *; lia.
Qed.

(** Memory after a page table in the frame of [v] is installed for [va]. *)
Definition new_table_mem (m : gmap Z Z) (d va v : Z) : gmap Z Z :=
  st32 (memset_mem m v (v - KERNBASE) 0 PGSIZE) (d + 4 * PDX va) (table_entry (v - KERNBASE)).

Section new_table.
Context (m : gmap Z Z) (d va v : Z).
Context (Hwf : pgdir_wf m d) (Habs : has (pde m d (PDX va)) PTE_P = false).
Context (Hg : is_frame (v - KERNBASE)) (Hfresh : ~ uses m d (v - KERNBASE)).
Let g := v - KERNBASE.
Let m' := new_table_mem m d va v.

Lemma new_table_disjoint : d + 4096 <= g \/ g + 4096 <= d.
Proof using Hwf Hfresh Hg.
  destruct (wf_dir _ _ Hwf) as [Hd _]. destruct Hg as [Hg' _].
  apply pages_disjoint; [done|done|]. intros E. apply Hfresh. left. by rewrite E.
Qed.

Lemma new_table_ld8 a : frame_of a <> d -> frame_of a <> g -> ld8 m' a = ld8 m a.
Proof using Hwf Hg.
  intros H1 H2. destruct (wf_dir _ _ Hwf) as [Hd _]. destruct Hg as [Hg' _].
  pose proof (PDX_range va). unfold m', new_table_mem, PGSIZE.
  rewrite ld8_st32_ne by (intros Ha; apply H1, frame_of_spec; [done|lia]).
  rewrite ld8_memset by lia. rewrite decide_False; [done|].
  intros Ha. by apply H2, frame_of_spec.
Qed.

Lemma new_table_pde i :
  0 <= i < 1024 -> pde m' d i = if decide (i = PDX va) then table_entry g else pde m d i.
Proof using Hwf Hfresh Hg.
  intros Hi. pose proof (PDX_range va). pose proof new_table_disjoint.
  unfold pde, m', new_table_mem, PGSIZE. case_decide as E.
  - subst i. apply ld32_st32_eq. by apply table_entry_spec.
  - rewrite ld32_st32_ne by lia. apply ld32_ext. intros b Hb.
    rewrite ld8_memset by lia. by rewrite decide_False by (fold g; lia).
Qed.

Lemma new_table_uses f : uses m' d f <-> uses m d f \/ f = g.
Proof using Hwf Habs Hfresh Hg.
  pose proof (PDX_range va). destruct (table_entry_spec g Hg) as (_ & Hp & Ha). split.
  - intros [?|(i & Hi & Hpi & ->)]; [by left; left|]. rewrite new_table_pde in Hpi |- * by done.
    case_decide; [by right|]. left. right. eauto.
  - intros [[?|(i & Hi & Hpi & ->)]| ->]; [by left|right; exists i|right; exists (PDX va)].
    + rewrite new_table_pde by done. case_decide; [|done]. subst. congruence.
    + rewrite new_table_pde by done. by rewrite decide_True.
Qed.

Lemma new_table_wf : pgdir_wf m' d.
Proof using Hwf Habs Hfresh Hg.
  destruct (table_entry_spec g Hg) as (_ & Hp & Ha). pose proof new_table_disjoint.
  assert (forall i, 0 <= i < 1024 -> has (pde m d i) PTE_P = true -> PTE_ADDR (pde m d i) <> g) as Hne.
  { intros i Hi Hpi E. apply Hfresh. right. exists i. by rewrite E. }
  split; [apply Hwf|..].
  - intros i Hi. rewrite new_table_pde by done. case_decide; [|by apply Hwf].
    intros _. rewrite Ha. split; [done|lia].
  - intros i j Hi Hj. rewrite !new_table_pde by done.
    repeat case_decide; subst; rewrite ?Ha; intros Hpi Hpj E; try done.
    + by destruct (Hne j).
    + by destruct (Hne i).
    + by apply (wf_inj _ _ Hwf).
Qed.

Lemma new_table_slot : pte_slot m' d va = Some (g + 4 * PTX va).
Proof using Hwf Hfresh Hg.
  destruct (table_entry_spec g Hg) as (_ & Hp & Ha). unfold pte_slot.
  rewrite new_table_pde by apply PDX_range. rewrite decide_True by done. by rewrite Hp, Ha.
Qed.

Lemma new_table_keeps va' a : pte_slot m d va' = Some a -> pte_slot m' d va' = Some a.
Proof using Hwf Habs Hfresh Hg.
  unfold pte_slot. rewrite new_table_pde by apply PDX_range. case_decide as E; [|done].
  rewrite E, Habs. done.
Qed.

Lemma new_table_zero a : g <= a -> a + 4 <= g + 4096 -> ld32 m' a = 0.
Proof using Hwf Hfresh Hg.
  intros H1 H2. pose proof new_table_disjoint. pose proof (PDX_range va).
  unfold m', new_table_mem, PGSIZE. rewrite ld32_st32_ne by lia. unfold ld32.
  rewrite !ld8_memset by lia. by rewrite !decide_True by (fold g; lia).
Qed.

Lemma new_table_pte va' : pte_of m' d va' = pte_of m d va'.
Proof using Hwf Habs Hfresh Hg.
  destruct (table_entry_spec g Hg) as (_ & Hp & Ha). unfold pte_of, pte_slot.
  pose proof (PTX_range va'). rewrite new_table_pde by apply PDX_range. case_decide as E.
  - rewrite Hp, Ha, E, Habs. apply new_table_zero; lia.
  - destruct (has (pde m d (PDX va')) PTE_P) eqn:Hp'; [|done].
    destruct (wf_tab _ _ Hwf (PDX va')) as [[Hf Hf2] Hfd]; [apply PDX_range|done|].
    apply ld32_ext. intros b Hb. assert (frame_of b = PTE_ADDR (pde m d (PDX va'))) as Hfb.
    { apply frame_of_spec; [done|lia]. }
    apply new_table_ld8; rewrite Hfb; [done|]. intros E2. apply Hfresh. right.
    exists (PDX va'). split; [apply PDX_range|]. by split.
Qed.

End new_table.

(** ** What building page tables may change

    [pt_ext d s fl s' fl']: the directory in frame [d] may have grown by page
    tables taken from the free list; the other frames are untouched. *)
Record pt_ext (d : Z) (s : kstate) (fl : list Z) (s' : kstate) (fl' : list Z) : Prop := {
  pe_inv : vm_inv d s' fl';
  pe_used : exists used, fl = used ++ fl' /\
    forall f, uses (k_mem s') d f <-> uses (k_mem s) d f \/ f + KERNBASE ∈ used;
  pe_mem : forall a, ~ uses (k_mem s') d (frame_of a) -> ld8 (k_mem s') a = ld8 (k_mem s) a;
  pe_slot : forall va a, pte_slot (k_mem s) d va = Some a -> pte_slot (k_mem s') d va = Some a;
  pe_locks : k_locks s' = k_locks s;
  pe_cow : k_cow s' = k_cow s;
}.

Lemma pt_ext_refl d s fl : vm_inv d s fl -> pt_ext d s fl s fl.
Proof.
  intros Hi. split; try done. exists []. split; [done|]. intros f.
  split; [by left|]. intros [?|?%not_elem_of_nil]; done.
Qed.

Lemma pt_ext_trans d s fl s1 fl1 s2 fl2 :
  pt_ext d s fl s1 fl1 -> pt_ext d s1 fl1 s2 fl2 -> pt_ext d s fl s2 fl2.
Proof.
  intros [? (u1 & E1 & U1) Hm1 ? ? ?] [? (u2 & E2 & U2) Hm2 ? ? ?].
  split; [done|..|eauto|congruence|congruence].
  - exists (u1 ++ u2). split; [by rewrite E1, E2, app_assoc|]. intros f.
    rewrite U2, U1, elem_of_app. tauto.
  - intros a Ha. rewrite Hm2 by done. apply Hm1. intros Hu. apply Ha. apply U2. by left.
Qed.

(** No page taken: the directory has the frames it had. *)
Lemma pt_ext_uses d s fl s' f :
  pt_ext d s fl s' fl -> uses (k_mem s') d f <-> uses (k_mem s) d f.
Proof.
  intros [_ (u & E & Hu) _ _ _ _]. assert (u = []) as ->.
  { apply length_zero_iff_nil. apply (f_equal length) in E. rewrite length_app in E. lia. }
  rewrite Hu. split; [intros [?|?%not_elem_of_nil]; done|by left].
Qed.

Lemma dir_ptr d i : is_frame d -> 0 <= i < 1024 ->
  u32 (d + KERNBASE + 4 * i) = d + 4 * i + KERNBASE /\
  KERNBASE <= d + 4 * i + KERNBASE < KERNBASE + PHYSTOP.
Proof.
  intros (_ & ? & ?) ?. unfold KERNBASE, PHYSTOP in *. rewrite u32_small by lia. lia.
Qed.

Lemma tab_ptr f i : is_frame f -> 0 <= i < 1024 -> u32 (P2V f + 4 * i) = f + 4 * i + KERNBASE.
Proof.
  intros Hf Hi. rewrite P2V_spec by (destruct Hf; unfold KERNBASE, PHYSTOP in *; lia).
  by apply dir_ptr.
Qed.

Definition slot_ptr (o : option Z) : Z := match o with Some a => a + KERNBASE | None => 0 end.

Lemma wp_walk_noalloc d va Q s :
  pgdir_wf (k_mem s) d ->
  Q (slot_ptr (pte_slot (k_mem s) d va)) s -> wp (walkpgdir (d + KERNBASE) va false) Q s.
Proof.
  intros Hwf HQ. unfold walkpgdir.
  destruct (dir_ptr d (PDX va)) as [-> ?]; [apply Hwf|apply PDX_range|].
  repeat (kstep; try done). rewrite Z.add_simpl_r. change (ld32 _ (d + 4 * PDX va)) with (pde (k_mem s) d (PDX va)).
  unfold pte_slot in HQ. destruct (has (pde (k_mem s) d (PDX va)) PTE_P) eqn:E; [kstep|done].
  rewrite tab_ptr; [done| |apply PTX_range]. apply (wf_tab _ _ Hwf); [apply PDX_range|done].
Qed.

Lemma wp_walk_alloc d va fl (Q : Z -> kstate -> Prop) s :
  vm_inv d s fl ->
  (forall a s' fl', pt_ext d s fl s' fl' ->
     (forall va', pte_of (k_mem s') d va' = pte_of (k_mem s) d va') ->
     pte_slot (k_mem s') d va = Some a ->
     ((exists v, fl = v :: fl') /\ pte_slot (k_mem s) d va = None \/ s' = s /\ fl' = fl) ->
     Q (a + KERNBASE) s') ->
  (fl = [] -> pte_slot (k_mem s) d va = None -> Q 0 s) ->
  wp (walkpgdir (d + KERNBASE) va true) Q s.
Proof.
  intros Hinv HQ HQ0. pose proof (vi_dir _ _ _ Hinv) as Hwf. unfold walkpgdir.
  destruct (dir_ptr d (PDX va)) as [-> ?]; [apply Hwf|apply PDX_range|].
  do 2 (kstep; try done). rewrite Z.add_simpl_r.
  change (ld32 _ (d + 4 * PDX va)) with (pde (k_mem s) d (PDX va)).
  destruct (has (pde (k_mem s) d (PDX va)) PTE_P) eqn:E.
  { kstep. rewrite tab_ptr; [|apply (wf_tab _ _ Hwf); [apply PDX_range|done]|apply PTX_range].
    apply (HQ _ s fl); [by apply pt_ext_refl|done| |by right].
    unfold pte_slot. by rewrite E. }
  assert (pte_slot (k_mem s) d va = None) as Hno by (unfold pte_slot; by rewrite E).
  cbn [negb]. kstep. apply (wp_kalloc fl); [apply Hinv|apply Hinv|].
  destruct fl as [|v fl]; [by apply HQ0|].
  intros r Hz Hv Hn Hwf'. destruct (page_ok_frame v Hv) as [Hg Hg0]. pose proof (page_ok_kptr v Hv).
  assert (~ uses (k_mem s) d (v - KERNBASE)) as Hfresh.
  { intros Hu%(vi_sep _ _ _ Hinv). apply Hu. rewrite Z.sub_add. left. }
  zb. repeat (kstep; try done; try lia). cbn [k_mem set_k_mem set_k_freelist].
  rewrite Z.add_simpl_r, V2P_spec by (unfold KERNBASE, PHYSTOP in *; lia).
  fold (table_entry (v - KERNBASE)). fold (new_table_mem (k_mem s) d va v).
  replace (u32 (v + 4 * PTX va)) with (v - KERNBASE + 4 * PTX va + KERNBASE).
  2: { pose proof (PTX_range va). destruct (dir_ptr (v - KERNBASE) (PTX va)) as [<- _]; [done..|].
       f_equal. lia. }
  assert (forall f, uses (new_table_mem (k_mem s) d va v) d f <-> uses (k_mem s) d f \/ f = v - KERNBASE)
    as Huses by (intros f; by apply new_table_uses).
  assert (forall u, u ∈ fl -> ~ uses (new_table_mem (k_mem s) d va v) d (u - KERNBASE)) as Hfl.
  { intros u Hu [Hx|Hx]%Huses; [|by replace u with v in Hu by lia].
    apply (vi_sep _ _ _ Hinv) in Hx. rewrite Z.sub_add in Hx. apply Hx. by right. }
  apply (HQ _ _ fl); cbn [k_mem set_k_mem set_k_freelist]; [|intros va'; by apply new_table_pte|by apply new_table_slot|left; split; [by exists v|done]].
  split; cbn [k_mem k_locks k_cow set_k_mem set_k_freelist]; [split| | | |done|done].
  - destruct Hwf' as (Hc & Hp & Hd). split; [|done]. eapply chain_ext; [|done].
    apply Forall_forall. intros u Hu. apply ld32_ext. intros b Hb. cbn.
    assert (page_ok u) as Hpu by (rewrite Forall_forall in Hp; by apply Hp).
    destruct (page_ok_frame u Hpu) as [[Hu1 _] _].
    assert (frame_of b = u - KERNBASE) as Hfb by (apply frame_of_spec; [done|lia]).
    specialize (Hfl u Hu). rewrite Huses in Hfl.
    apply new_table_ld8; [done..| |]; rewrite Hfb; intros E2; apply Hfl; [left; by left|by right].
  - apply Hinv.
  - by apply new_table_wf.
  - intros f Hu Hin. apply (Hfl _ Hin). by rewrite Z.add_simpl_r.
  - exists [v]. split; [done|]. intros f. rewrite Huses, list_elem_of_singleton.
    split; (intros [?|?]; [by left|right; lia]).
  - intros a Ha. rewrite Huses in Ha. apply new_table_ld8; [done..| |]; intros E2; apply Ha;
      [left; by left|by right].
  - intros va' a. by apply new_table_keeps.
Qed.

End walk.

(** ** Writing an entry, and mappages *)

Section mappages.
Context `{KernelImage}.

(** Memory that is unchanged outside frames in use keeps the free list. *)
Lemma kmem_wf_ext s fl m' :
  kmem_wf s fl -> (forall a v, v ∈ fl -> frame_of a = v - KERNBASE -> ld8 m' a = ld8 (k_mem s) a) ->
  kmem_wf (set_k_mem m' s) fl.
Proof.
  intros (Hc & Hp & Hd) Hm. split; [|done]. eapply chain_ext; [|done].
  apply Forall_forall. intros u Hu. apply ld32_ext. intros b Hb. apply (Hm b u Hu).
  assert (page_ok u) as Hpu by (rewrite Forall_forall in Hp; by apply Hp).
  destruct (page_ok_frame u Hpu) as [[Hu1 _] _]. apply frame_of_spec; [done|lia].
Qed.

Lemma pte_slot_in_frame m d va a b :
  pgdir_wf m d -> pte_slot m d va = Some a -> a <= b < a + 4 ->
  exists f, uses m d f /\ f <> d /\ frame_of b = f.
Proof.
  intros Hwf Hs Hb. destruct (pte_slot_frame _ _ _ _ Hwf Hs) as (f & Hu & [Hf _] & Hfd & -> & _).
  pose proof (PTX_range va). exists f. split; [done|]. split; [done|]. apply frame_of_spec; [done|lia].
Qed.

Lemma pt_ext_store d s fl va a v :
  vm_inv d s fl -> pte_slot (k_mem s) d va = Some a ->
  pt_ext d s fl (set_k_mem (st32 (k_mem s) a v) s) fl.
Proof.
  intros Hinv Hs. pose proof (vi_dir _ _ _ Hinv) as Hwf.
  assert (forall b, ~ uses (k_mem s) d (frame_of b) -> ld8 (st32 (k_mem s) a v) b = ld8 (k_mem s) b) as Hm.
  { intros b Hb. apply ld8_st32_ne. intros Hab.
    by destruct (pte_slot_in_frame _ _ _ _ b Hwf Hs Hab) as (f & ? & _ & <-). }
  assert (forall b, d <= b < d + 4096 -> ld8 (st32 (k_mem s) a v) b = ld8 (k_mem s) b) as Hdir.
  { intros b Hb. apply ld8_st32_ne. intros Hab.
    destruct (pte_slot_in_frame _ _ _ _ b Hwf Hs Hab) as (f & _ & Hfd & Hf).
    apply Hfd. rewrite <- Hf. apply frame_of_spec; [apply Hwf|done]. }
  split; cbn [k_mem k_locks k_cow set_k_mem]; [split|..]; try done; cbn [k_mem k_locks set_k_mem].
  - apply kmem_wf_ext; [apply Hinv|]. intros b u Hu Hf. apply Hm. rewrite Hf. intros Hx.
    apply (vi_sep _ _ _ Hinv) in Hx. by rewrite Z.sub_add in Hx.
  - apply Hinv.
  - by eapply pgdir_wf_ext.
  - intros f Hu. apply (vi_sep _ _ _ Hinv). by apply (uses_ext (k_mem s)) in Hu.
  - exists []. split; [done|]. intros f. rewrite (uses_ext (k_mem s)) by done.
    split; [by left|]. intros [?|?%not_elem_of_nil]; done.
  - intros b Hb. apply Hm. by rewrite (uses_ext (k_mem s)) in Hb.
  - intros va' a'. unfold pte_slot.
    by rewrite (pde_ext (k_mem s) (st32 (k_mem s) a v)) by (done || apply PDX_range).
Qed.

(** [k] pages from page [p0] map to consecutive frames from [pa]; the other
    entries are as in [m]. *)
Definition mapped (m m' : gmap Z Z) (d p0 k pa perm : Z) : Prop :=
  forall va, pte_of m' d va =
    if decide (p0 <= vpn va < p0 + k)
    then Z.lor (Z.lor (pa + 4096 * (vpn va - p0)) perm) PTE_P
    else pte_of m d va.

Lemma mapped_0 m d p0 pa perm : mapped m m d p0 0 pa perm.
Proof. intros va. by rewrite decide_False by lia. Qed.

Lemma mapped_succ m m1 m2 d p0 k pa perm va a :
  0 <= k -> mapped m m1 d p0 k pa perm -> pgdir_wf m2 d -> (forall va', pte_of m2 d va' = pte_of m1 d va') ->
  pte_slot m2 d va = Some a -> vpn va = p0 + k ->
  0 <= Z.lor (Z.lor (pa + 4096 * k) perm) PTE_P < 4294967296 ->
  mapped m (st32 m2 a (Z.lor (Z.lor (pa + 4096 * k) perm) PTE_P)) d p0 (k + 1) pa perm.
Proof.
  intros Hk Hm Hwf H12 Hs Hva Hv va'. rewrite (pte_of_st32 _ _ va) by done. rewrite H12, Hm.
  repeat case_decide; try lia; try done. replace (vpn va' - p0) with k by lia. done.
Qed.

Lemma pte_value_range pa perm :
  pa mod 4096 = 0 -> 0 <= pa <= 4294963200 -> 0 <= perm < 4096 ->
  0 <= Z.lor (Z.lor pa perm) PTE_P < 4294967296.
Proof.
  intros Ha Hp Hf. rewrite <- Z.lor_assoc.
  assert (0 <= Z.lor perm PTE_P < 4096) as Hr by (apply lor_flags_range; unfold PTE_P; lia).
  rewrite aligned_lor by done. lia.
Qed.

Lemma vpn_page q : 0 <= q < 1048576 -> vpn (4096 * q) = q.
Proof.
  intros Hq. unfold vpn. rewrite u32_small by lia. rewrite Z.mul_comm. by apply Z.div_mul.
Qed.

Lemma Z_lor_P_ne v : Z.lor PTE_P v <> 0.
Proof. intros E%Z.lor_eq_0_iff. by destruct E. Qed.

(** The page tables that [k] pages from page [p0] on can need. *)
Definition tables_for (p0 k : Z) : Z := if k <=? 0 then 0 else (p0 + k - 1) / 1024 - p0 / 1024 + 1.

Lemma tables_for_mono p0 k k' : 0 <= k <= k' -> tables_for p0 k <= tables_for p0 k'.
Proof. intros Hk. unfold tables_for. repeat zcase; Z.div_mod_to_equations; lia. Qed.

(** A table is missing only if no page before needed it. *)
Lemma new_table_counted m m' d p0 k pa perm :
  0 <= p0 -> 0 <= k -> p0 + k < 1048576 -> mapped m m' d p0 k pa perm -> pte_slot m' d (4096 * (p0 + k)) = None ->
  tables_for p0 k + 1 <= tables_for p0 (k + 1).
Proof.
  intros H0 Hk Hend Hmap Hnone. unfold tables_for. repeat zcase; try (Z.div_mod_to_equations; lia).
  assert ((p0 + k) / 1024 <> (p0 + k - 1) / 1024) as Hne; [|Z.div_mod_to_equations; lia].
  intros E. specialize (Hmap (4096 * (p0 + k - 1))). rewrite vpn_page, decide_True in Hmap by lia.
  assert (PDX (4096 * (p0 + k - 1)) = PDX (4096 * (p0 + k))) as Hpdx.
  { rewrite !PDX_spec, !u32_small by lia. Z.div_mod_to_equations. lia. }
  unfold pte_of, pte_slot in *. rewrite Hpdx in Hmap. destruct (has (pde m' d (PDX (4096 * (p0 + k)))) PTE_P); [done|].
  symmetry in Hmap. revert Hmap. rewrite Z.lor_comm. apply Z_lor_P_ne.
Qed.

Lemma wp_mappages_count d fl va size pa perm (Q : Z -> kstate -> Prop) s :
  let p0 := va / 4096 in
  let n := (va + size - 1) / 4096 - va / 4096 + 1 in
  vm_inv d s fl ->
  0 <= va -> 1 <= size -> va + size <= 4294967296 ->
  pa mod 4096 = 0 -> 0 <= pa -> pa + 4096 * (n - 1) <= 4294963200 -> 0 <= perm < 4096 ->
  (forall va', p0 <= vpn va' < p0 + n -> has (pte_of (k_mem s) d va') PTE_P = false) ->
  (forall r s' fl' k, pt_ext d s fl s' fl' -> mapped (k_mem s) (k_mem s') d p0 k pa perm ->
     (r = 0 /\ k = n) \/
     (r = -1 /\ 0 <= k < n /\ fl' = [] /\ pte_slot (k_mem s') d (4096 * (p0 + k)) = None /\
      (k = 0 -> fl = [])) ->
     ((forall va', p0 <= vpn va' < p0 + n -> is_Some (pte_slot (k_mem s) d va')) -> fl' = fl) ->
     Z.of_nat (length fl) <= Z.of_nat (length fl') + tables_for p0 k ->
     Q r s') ->
  wp (mappages (d + KERNBASE) va size pa perm) Q s.
Proof.
  intros p0 n Hinv Hva Hsz Hend Hpa Hpa0 Hpan Hperm Habs HQ. unfold mappages.
  assert (1 <= n) by (unfold n; Z.div_mod_to_equations; lia).
  assert (PGROUNDDOWN va = 4096 * p0) as ->.
  { rewrite PGROUNDDOWN_spec, u32_small by lia. unfold p0. Z.div_mod_to_equations. lia. }
  assert (PGROUNDDOWN (u32 (va + size - 1)) = 4096 * (p0 + n - 1)) as ->.
  { rewrite PGROUNDDOWN_spec, u32_idem, u32_small by lia. unfold n, p0. Z.div_mod_to_equations. lia. }
  assert (0 <= p0 /\ p0 + n <= 1048576) as [? ?] by (unfold n, p0; Z.div_mod_to_equations; lia).
  apply (wp_iter (fun '(a, q) t => exists k fl1, 0 <= k < n /\ a = 4096 * (p0 + k) /\ q = pa + 4096 * k /\
      pt_ext d s fl t fl1 /\ mapped (k_mem s) (k_mem t) d p0 k pa perm /\ (k = 0 -> fl1 = fl) /\
      ((forall va', p0 <= vpn va' < p0 + n -> is_Some (pte_slot (k_mem s) d va')) -> fl1 = fl) /\
      Z.of_nat (length fl) <= Z.of_nat (length fl1) + tables_for p0 k)
    (fun '(a, _) => Z.to_nat ((4096 * (p0 + n - 1) - a) / 4096))).
  - intros [a q] t (k & fl1 & Hk & -> & -> & Hext & Hmap & Hk0 & Hkeep & Hcnt). unfold mappages_body. kstep.
    apply (wp_walk_alloc d _ fl1); [apply Hext| |].
    + intros slot t2 fl2 Hext2 Hsame Hslot Hgrow.
      destruct (pte_slot_frame _ _ _ _ (vi_dir _ _ _ (pe_inv _ _ _ _ _ Hext2)) Hslot)
        as (f & _ & Hf & _ & -> & _).
      pose proof (PTX_range (4096 * (p0 + k))) as Hptx.
      destruct (dir_ptr f (PTX (4096 * (p0 + k))) Hf Hptx) as [_ Hptr].
      rewrite (proj2 (Z.eqb_neq _ 0)) by (unfold KERNBASE in *; lia).
      kstep. kstep; [done|]. rewrite Z.add_simpl_r.
      replace (ld32 (k_mem t2) (f + 4 * PTX (4096 * (p0 + k)))) with (pte_of (k_mem t2) d (4096 * (p0 + k)))
        by (unfold pte_of; by rewrite Hslot).
      rewrite Hsame, Hmap, decide_False by (rewrite vpn_page by lia; lia).
      rewrite Habs by (rewrite vpn_page by lia; lia). kstep. kstep; [done|]. rewrite Z.add_simpl_r.
      assert (mapped (k_mem s) (st32 (k_mem t2) (f + 4 * PTX (4096 * (p0 + k)))
        (Z.lor (Z.lor (pa + 4096 * k) perm) PTE_P)) d p0 (k + 1) pa perm) as Hmap'.
      { eapply mapped_succ; try done; [lia|apply Hext2|by rewrite vpn_page by lia|].
        apply pte_value_range; [|lia|done]. by rewrite Z.mul_comm, Z_mod_plus_full. }
      assert (pt_ext d s fl (set_k_mem (st32 (k_mem t2) (f + 4 * PTX (4096 * (p0 + k)))
        (Z.lor (Z.lor (pa + 4096 * k) perm) PTE_P)) t2) fl2) as Hext'.
      { eapply pt_ext_trans; [by eapply pt_ext_trans|]. eapply pt_ext_store; [apply Hext2|done]. }
      assert ((forall va', p0 <= vpn va' < p0 + n -> is_Some (pte_slot (k_mem s) d va')) -> fl2 = fl) as Hkeep'.
      { intros Hall. destruct (Hall (4096 * (p0 + k))) as [a' Ha']; [rewrite vpn_page by lia; lia|].
        apply (pe_slot _ _ _ _ _ Hext) in Ha'. destruct Hgrow as [[_ ?]|[_ ->]]; [congruence|by apply Hkeep]. }
      assert (Z.of_nat (length fl) <= Z.of_nat (length fl2) + tables_for p0 (k + 1)) as Hcnt'.
      { destruct Hgrow as [[[v ->] Hnone]|[_ ->]]; [|pose proof (tables_for_mono p0 k (k + 1)); lia]. cbn [length] in Hcnt.
        pose proof (new_table_counted (k_mem s) (k_mem t) d p0 k pa perm ltac:(lia) ltac:(lia) ltac:(lia) Hmap Hnone). lia. }
      zcase; kstep.
      * apply (HQ _ _ fl2 (k + 1)); [done|done| |done|done]. left. split; [done|lia].
      * rewrite !u32_small by (unfold PGSIZE; lia). split.
        -- exists (k + 1), fl2. unfold PGSIZE. split_and!; lia || done.
        -- unfold PGSIZE. Z.div_mod_to_equations. lia.
    + intros -> Hnone. zb. kstep. apply (HQ _ _ [] k); [done|done| |done|done]. right.
      split_and!; try done; [lia..|]. intros E. by rewrite Hk0.
  - exists 0, fl. split_and!; [lia..| |apply mapped_0|done|done|cbn; lia]. by apply pt_ext_refl.
  - unfold PGSIZE. rewrite u32_small by lia. lia.
Qed.

Lemma wp_mappages d fl va size pa perm (Q : Z -> kstate -> Prop) s :
  let p0 := va / 4096 in
  let n := (va + size - 1) / 4096 - va / 4096 + 1 in
  vm_inv d s fl ->
  0 <= va -> 1 <= size -> va + size <= 4294967296 ->
  pa mod 4096 = 0 -> 0 <= pa -> pa + 4096 * (n - 1) <= 4294963200 -> 0 <= perm < 4096 ->
  (forall va', p0 <= vpn va' < p0 + n -> has (pte_of (k_mem s) d va') PTE_P = false) ->
  (forall r s' fl' k, pt_ext d s fl s' fl' -> mapped (k_mem s) (k_mem s') d p0 k pa perm ->
     (r = 0 /\ k = n) \/
     (r = -1 /\ 0 <= k < n /\ fl' = [] /\ pte_slot (k_mem s') d (4096 * (p0 + k)) = None /\
      (k = 0 -> fl = [])) ->
     ((forall va', p0 <= vpn va' < p0 + n -> is_Some (pte_slot (k_mem s) d va')) -> fl' = fl) ->
     Q r s') ->
  wp (mappages (d + KERNBASE) va size pa perm) Q s.
Proof.
  intros p0 n Hinv Hva Hsz Hend Hpa Hpa0 Hpan Hperm Habs HQ. eapply (wp_mappages_count d fl); try done.
  intros r s' fl' k Hext Hmap Hres Hkeep _. by eapply HQ.
Qed.

End mappages.

(** ** Keeping the invariant under changes elsewhere *)

Section change.
Context `{KernelImage}.

Lemma vm_inv_change d s s' fl :
  vm_inv d s fl -> k_freelist s' = k_freelist s -> k_locks s' = k_locks s ->
  (forall a, uses (k_mem s) d (frame_of a) -> ld8 (k_mem s') a = ld8 (k_mem s) a) ->
  (forall a v, v ∈ fl -> frame_of a = v - KERNBASE -> ld8 (k_mem s') a = ld8 (k_mem s) a) ->
  vm_inv d s' fl.
Proof.
  intros Hinv Hfl Hl Hm Hf. pose proof (vi_dir _ _ _ Hinv) as Hwf.
  assert (forall a, d <= a < d + 4096 -> ld8 (k_mem s') a = ld8 (k_mem s) a) as Hd.
  { intros a Ha. apply Hm. left. apply frame_of_spec; [apply Hwf|done]. }
  split.
  - pose proof (kmem_wf_ext s fl (k_mem s') (vi_kmem _ _ _ Hinv) Hf) as (Hc & Hp).
    split; [by rewrite Hfl|done].
  - rewrite Hl. apply Hinv.
  - by eapply pgdir_wf_ext.
  - intros f Hu. apply (vi_sep _ _ _ Hinv). by apply (uses_ext (k_mem s)) in Hu.
Qed.

Lemma vm_inv_irrel d s s' fl :
  vm_inv d s fl -> k_freelist s' = k_freelist s -> k_locks s' = k_locks s -> k_mem s' = k_mem s ->
  vm_inv d s' fl.
Proof. intros Hinv ? ? Hm. by eapply vm_inv_change; [done..|rewrite Hm|rewrite Hm]. Qed.

(** The frame of a page taken off the free list belongs to nobody. *)
Lemma vm_inv_alloc d s w fl r :
  vm_inv d s (w :: fl) -> kmem_wf (set_k_freelist r s) fl -> vm_inv d (set_k_freelist r s) fl.
Proof.
  intros Hinv Hk. split; [done|apply Hinv|apply Hinv|].
  intros f Hu Hin. apply (vi_sep _ _ _ Hinv f Hu). by right.
Qed.

(** Counts are kept per frame. *)
Lemma PPN_inj_frame f g : is_frame f -> is_frame g -> f <> g -> PPN f <> PPN g.
Proof.
  intros (Hf & ? & ?) (Hg & ? & ?) Hne E. rewrite !PPN_spec in E.
  rewrite !u32_small in E by (unfold PHYSTOP in *; lia). Z.div_mod_to_equations. lia.
Qed.

Lemma count_at_insert c f g x :
  is_frame f -> is_frame g ->
  count_at (<[PPN f := x]> c) g = if decide (f = g) then x else count_at c g.
Proof.
  intros Hf Hg. unfold count_at. case_decide as E.
  - subst. by rewrite lookup_insert_eq.
  - by rewrite lookup_insert_ne by (by apply PPN_inj_frame).
Qed.

End change.
