(* ===== verification/VmSample.v ===== *)
(** * Decision procedures for the memory invariants, and sample states

    Boolean versions of the invariants of the allocator and of a page
    directory, so that concrete states are checked by evaluation, and the
    concrete states on which the memory theorems are run. *)

From S2P Require Import Prelude Mmu Mem State Kernel Kalloc Vm.

Section check.
Context `{KernelImage}.

Fixpoint chainb (m : gmap Z Z) (r : Z) (fl : list Z) : bool :=
  match fl with
  | [] => r =? 0
  | v :: fl => (r =? v) && chainb m (ld32 m (v - KERNBASE)) fl
  end.

Definition kmem_wfb (s : kstate) (fl : list Z) : bool :=
  chainb (k_mem s) (k_freelist s) fl && forallb page_okb fl && bool_decide (NoDup fl).

Definition is_frameb (f : Z) : bool := (f mod 4096 =? 0) && (0 <=? f) && (f + 4096 <=? PHYSTOP).

(** The page tables of a directory, in the order of its entries. *)
Definition tables (m : gmap Z Z) (d : Z) : list Z :=
  PTE_ADDR <$> filter (fun v => has v PTE_P = true) (pde m d <$> seqZ 0 1024).

Definition pgdir_wfb (m : gmap Z Z) (d : Z) : bool :=
  forallb is_frameb (d :: tables m d) && bool_decide (NoDup (d :: tables m d)).

Definition vm_invb (d : Z) (s : kstate) (fl : list Z) : bool :=
  kmem_wfb s fl && bool_decide (LK_kmem ∉ k_locks s) && pgdir_wfb (k_mem s) d &&
  forallb (fun f => bool_decide (f + KERNBASE ∉ fl)) (d :: tables (k_mem s) d).

Lemma chainb_spec m r fl : chainb m r fl = true -> chain m r fl.
Proof.
  revert r. induction fl as [|v fl IH]; intros r; simpl; [by intros ?%Z.eqb_eq|].
  intros [?%Z.eqb_eq ?]%andb_true_iff. auto.
Qed.

Lemma kmem_wfb_spec s fl : kmem_wfb s fl = true -> kmem_wf s fl.
Proof.
  unfold kmem_wfb. rewrite !andb_true_iff, bool_decide_eq_true. intros [[? Hp] ?].
  split; [by apply chainb_spec|]. split; [|done].
  apply Forall_forall. intros v Hv. apply page_okb_spec.
  by apply (proj1 (forallb_forall _ _) Hp), list_elem_of_In.
Qed.

Lemma is_frameb_spec f : is_frameb f = true -> is_frame f.
Proof. unfold is_frameb, is_frame. rewrite !andb_true_iff, Z.eqb_eq, !Z.leb_le. tauto. Qed.

Lemma tables_In m d i :
  0 <= i < 1024 -> has (pde m d i) PTE_P = true -> PTE_ADDR (pde m d i) ∈ tables m d.
Proof.
  intros Hi Hp. unfold tables. apply list_elem_of_fmap_2, list_elem_of_filter. split; [done|].
  apply list_elem_of_fmap_2, elem_of_seqZ. lia.
Qed.

Lemma tables_inj (g : Z -> Z) l i j :
  NoDup (PTE_ADDR <$> filter (fun v => has v PTE_P = true) (g <$> l)) -> NoDup l ->
  i ∈ l -> j ∈ l -> has (g i) PTE_P = true -> has (g j) PTE_P = true ->
  PTE_ADDR (g i) = PTE_ADDR (g j) -> i = j.
Proof.
  induction l as [|x l IH]; [by intros _ _ ?%not_elem_of_nil|].
  assert (forall y, y ∈ l -> has (g y) PTE_P = true ->
    PTE_ADDR (g y) ∈ PTE_ADDR <$> filter (fun v => has v PTE_P = true) (g <$> l)) as Hin.
  { intros y Hy Hp. apply list_elem_of_fmap_2, list_elem_of_filter. split; [done|].
    by apply list_elem_of_fmap_2. }
  rewrite fmap_cons, filter_cons. intros Hnd [Hx Hl]%NoDup_cons Hi Hj Hpi Hpj E.
  destruct (decide (has (g x) PTE_P = true)) as [Hp|Hp].
  - rewrite fmap_cons in Hnd. apply NoDup_cons in Hnd as [Hn Hnd].
    apply elem_of_cons in Hi as [->|Hi], Hj as [->|Hj]; [done|..].
    + destruct Hn. rewrite E. auto.
    + destruct Hn. rewrite <- E. auto.
    + by apply IH.
  - apply elem_of_cons in Hi as [->|Hi], Hj as [->|Hj]; try done. by apply IH.
Qed.

Lemma pgdir_wfb_spec m d : pgdir_wfb m d = true -> pgdir_wf m d.
Proof.
  unfold pgdir_wfb. rewrite andb_true_iff, bool_decide_eq_true. intros [Hf [Hd Hnd]%NoDup_cons].
  assert (forall f, f ∈ d :: tables m d -> is_frame f) as Hfr.
  { intros f Hin. by apply is_frameb_spec, (proj1 (forallb_forall _ _) Hf), list_elem_of_In. }
  split.
  - apply Hfr. left.
  - intros i Hi Hp. pose proof (tables_In m d i Hi Hp) as Hin.
    split; [apply Hfr; by right|]. intros E. by rewrite E in Hin.
  - intros i j Hi Hj. apply (tables_inj (pde m d) (seqZ 0 1024)); [done|apply NoDup_seqZ|..];
      apply elem_of_seqZ; lia.
Qed.

Lemma uses_tables m d f : uses m d f -> f ∈ d :: tables m d.
Proof. intros [->|(i & Hi & Hp & ->)]; [left|right; by apply tables_In]. Qed.

Lemma vm_invb_spec d s fl : vm_invb d s fl = true -> vm_inv d s fl.
Proof.
  unfold vm_invb. rewrite !andb_true_iff, bool_decide_eq_true. intros [[[? ?] Hw] Hs].
  split; [by apply kmem_wfb_spec|done|by apply pgdir_wfb_spec|].
  intros f Hu. apply (bool_decide_unpack (f + KERNBASE ∉ fl)), Is_true_true.
  by apply (proj1 (forallb_forall _ _) Hs), list_elem_of_In, uses_tables.
Qed.

(** Absent pages, by evaluation. *)
Lemma pages_zero m d q n va :
  forallb (fun r => pte_of m d (4096 * r) =? 0) (seqZ q n) = true ->
  q <= vpn va < q + n -> (0 <=? q) && (q + n <=? 1048576) = true -> pte_of m d va = 0.
Proof.
  intros Hz Hva [?%Z.leb_le ?%Z.leb_le]%andb_true_iff.
  rewrite (pte_of_vpn _ _ va (4096 * vpn va)) by (rewrite vpn_page; lia).
  apply Z.eqb_eq, (proj1 (forallb_forall _ _) Hz), list_elem_of_In, elem_of_seqZ. lia.
Qed.

(** When only the first page table exists, only its pages are present. *)
Lemma pages_above m d q :
  forallb (fun i => negb (has (pde m d i) PTE_P)) (seqZ 1 511) = true ->
  1024 <= q < 524288 -> pte_of m d (4096 * q) = 0.
Proof.
  intros Hz Hq. assert (PDX (4096 * q) = q / 1024) as E.
  { rewrite PDX_spec, u32_small by lia. Z.div_mod_to_equations. lia. }
  assert (has (pde m d (q / 1024)) PTE_P = false) as Hp.
  { apply negb_true_iff, (proj1 (forallb_forall _ _) Hz), list_elem_of_In, elem_of_seqZ.
    Z.div_mod_to_equations. lia. }
  unfold pte_of, pte_slot. by rewrite E, Hp.
Qed.

End check.

(** ** Sample states

    A directory in frame 0x300000 with one page table in frame 0x301000, whose
    first entry is given, and two free pages.  Process 0 owns the directory. *)
Definition sample_mem (entry : Z) : gmap Z Z :=
  st32 (st32 (st32 (st32 ∅ 0x300000 0x301007) 0x301000 entry) 0x302000 0xdeadbeef) 0x200000 0x80201000.

Definition sample_proc (sz : Z) : proc :=
  set_p_sz sz (set_p_pgdir (0x300000 + KERNBASE) zero_proc).

Definition sample_state (entry count sz : Z) : kstate :=
  set_k_cow {[ 0x302 := count ]} (set_k_procs [sample_proc sz]
    (set_k_freelist 0x80200000 (set_k_mem (sample_mem entry) zero_kstate))).
