(* ===== verification/VmCow.v ===== *)
(** * Copy-on-write faults (vm.c, [handle_cow_fault])

    Behaviour of the fault handler on every branch: the last sharer gets the
    page back, a sharer among several gets a private copy, and a fault that is
    not a copy-on-write fault is refused without a change. *)

From S2P Require Import Prelude Mmu Mem State Kernel Kalloc Vm VmSample.

Section cow.
Context `{KernelImage}.

(** The flags of the private copy: writable, no longer copy-on-write. *)
Definition private_flags (v : Z) : Z := clearf (Z.lor (PTE_FLAGS v) PTE_W) PTE_COW.

Lemma private_flags_range v : 0 <= private_flags v < 4096.
Proof.
  unfold private_flags. pose proof (PTE_FLAGS_range v).
  assert (0 <= Z.lor (PTE_FLAGS v) PTE_W < 4096) by (apply lor_flags_range; unfold PTE_W; lia).
  pose proof (clearf_range (Z.lor (PTE_FLAGS v) PTE_W) PTE_COW). lia.
Qed.

(** The entry of the private copy in frame [g]. *)
Definition private_pte (g v : Z) : Z := Z.lor (Z.lor g (private_flags v)) PTE_P.

Lemma private_pte_spec g v :
  is_frame g -> 0 <= v < 4294967296 -> has v PTE_U = true ->
  PTE_ADDR (private_pte g v) = g /\ has (private_pte g v) PTE_P = true /\
  has (private_pte g v) PTE_W = true /\ has (private_pte g v) PTE_U = true /\
  has (private_pte g v) PTE_COW = false.
Proof.
  intros (Ha & Hlo & Hhi) Hv Hu. unfold private_pte. pose proof (private_flags_range v).
  split.
  { rewrite <- Z.lor_assoc. apply PTE_ADDR_lor; [unfold PHYSTOP in *; lia|done|].
    apply lor_flags_range; unfold PTE_P; lia. }
  rewrite !has_lor, !(has_aligned g) by (done || unfold PTE_P, PTE_W, PTE_U, PTE_COW; lia).
  unfold private_flags. rewrite has_clearf_same, !has_clearf_other by done.
  rewrite !has_lor, !has_FLAGS by done. rewrite Hu. split_and!; try done.
  - by rewrite orb_true_r.
  - by rewrite orb_true_r.
Qed.

(** The entry given back to the last sharer. *)
Definition reclaimed_pte (v : Z) : Z := clearf (Z.lor v PTE_W) PTE_COW.

Lemma reclaimed_pte_spec v :
  0 <= v < 4294967296 ->
  0 <= reclaimed_pte v < 4294967296 /\ PTE_ADDR (reclaimed_pte v) = PTE_ADDR v /\
  has (reclaimed_pte v) PTE_W = true /\ has (reclaimed_pte v) PTE_COW = false.
Proof.
  intros Hv. destruct (PTE_ADDR_setf v PTE_W) as [E1 H1]; [done|unfold PTE_W; lia|].
  destruct (PTE_ADDR_clearf (Z.lor v PTE_W) PTE_COW) as [E2 H2]; [done|unfold PTE_COW; lia|].
  unfold reclaimed_pte. split_and!; [apply H2..|congruence| |apply has_clearf_same].
  rewrite has_clearf_other, has_lor by done. apply orb_true_r.
Qed.

(** The state in which process [p], with page directory in frame [d], faults
    at [va]. *)
Record faulting (s : kstate) (p : nat) (pr : proc) (d : Z) (fl : list Z) (va : Z) : Prop := {
  fa_proc : k_procs s !! p = Some pr;
  fa_dir : p_pgdir pr = d + KERNBASE;
  fa_inv : vm_inv d s fl;
  fa_lock : LK_cow ∉ k_locks s;
  fa_va : 0 <= va;
  fa_sz : p_sz pr <= KERNBASE;
}.

(** The part of the handler up to the look at the entry. *)
Lemma pte_slot_present m d va :
  has (pte_of m d va) PTE_P = true -> exists a, pte_slot m d va = Some a /\ ld32 m a = pte_of m d va.
Proof. unfold pte_of. destruct (pte_slot m d va) as [a|]; [eauto|done]. Qed.

Lemma slot_ptr_range m d va a :
  pgdir_wf m d -> pte_slot m d va = Some a ->
  KERNBASE <= a + KERNBASE < KERNBASE + PHYSTOP /\ a + KERNBASE <> 0.
Proof.
  intros Hwf Hs. destruct (pte_slot_frame _ _ _ _ Hwf Hs) as (f & _ & Hf & _ & -> & _).
  pose proof (PTX_range va). destruct (dir_ptr f (PTX va) Hf) as [_ ?]; [done|].
  unfold KERNBASE in *. lia.
Qed.

(** What a fault on a shared page leaves behind, with [w] the new page. *)
Record cow_copied (s s' : kstate) (d va w : Z) (fl : list Z) : Prop := {
  cc_pte : forall va', pte_of (k_mem s') d va' =
    if decide (vpn va' = vpn va) then private_pte (w - KERNBASE) (pte_of (k_mem s) d va)
    else pte_of (k_mem s) d va';
  cc_copy : forall i, 0 <= i < 4096 ->
    ld8 (k_mem s') (w - KERNBASE + i) = ld8 (k_mem s) (PTE_ADDR (pte_of (k_mem s) d va) + i);
  cc_frame : forall a, ~ uses (k_mem s) d (frame_of a) -> frame_of a <> w - KERNBASE ->
    ld8 (k_mem s') a = ld8 (k_mem s) a;
  cc_counts : forall f, is_frame f -> count_at (k_cow s') f =
    if decide (f = w - KERNBASE) then 1
    else if decide (f = PTE_ADDR (pte_of (k_mem s) d va)) then count_at (k_cow s) f - 1
    else count_at (k_cow s) f;
  cc_inv : vm_inv d s' fl;
  cc_cr3 : k_cr3 s' = d;
}.

(** The page is copied into [w] before anything else changes. *)
Lemma copied_page m w pa :
  is_frame (w - KERNBASE) -> is_frame pa -> pa <> w - KERNBASE ->
  let m' := memmove_mem m (w - KERNBASE) pa 4096 in
  (forall i, 0 <= i < 4096 -> ld8 m' (w - KERNBASE + i) = ld8 m (pa + i)) /\
  (forall a, frame_of a <> w - KERNBASE -> ld8 m' a = ld8 m a).
Proof.
  intros [Hw _] [Hp _] Hne m'. split.
  - intros i Hi. unfold m'. rewrite ld8_memmove by lia. rewrite decide_True by lia. f_equal. lia.
  - intros a Ha. unfold m'. rewrite ld8_memmove by lia. rewrite decide_False; [done|].
    intros Hr. apply Ha. by apply frame_of_spec.
Qed.

(** Replacing one entry of a directory: clear it, then map the page again. *)
Lemma wp_remap d fl va a g flags (Q : Z -> kstate -> Prop) s :
  vm_inv d s fl -> pte_slot (k_mem s) d va = Some a -> 0 <= va < KERNBASE ->
  is_frame g -> 0 <= flags < 4096 ->
  (forall s', pt_ext d s fl s' fl ->
     (forall va', pte_of (k_mem s') d va' =
        if decide (vpn va' = vpn va) then Z.lor (Z.lor g flags) PTE_P else pte_of (k_mem s) d va') ->
     Q 0 s') ->
  wp (kstore32 (a + KERNBASE) 0;; mappages (d + KERNBASE) (PGROUNDDOWN va) PGSIZE g flags) Q s.
Proof.
  intros Hinv Hs Hva Hg Hfl HQ. pose proof (vi_dir _ _ _ Hinv) as Hwf.
  destruct (slot_ptr_range _ _ _ _ Hwf Hs) as [Hptr _]. kstep. kstep; [done|].
  rewrite Z.add_simpl_r. set (s1 := set_k_mem _ s).
  assert (pt_ext d s fl s1 fl) as Hext by (by eapply pt_ext_store).
  assert (forall va', pte_of (k_mem s1) d va' = if decide (vpn va' = vpn va) then 0 else pte_of (k_mem s) d va')
    as Hpte by (intros va'; by apply pte_of_st32).
  assert (PGROUNDDOWN va = 4096 * vpn va) as ->.
  { rewrite PGROUNDDOWN_spec. unfold vpn. Z.div_mod_to_equations. lia. }
  assert (0 <= vpn va < 524288) as Hv.
  { unfold vpn, KERNBASE in *. rewrite u32_small by lia. Z.div_mod_to_equations. lia. }
  destruct Hg as (Hg & ? & ?). unfold PGSIZE.
  assert (4096 * vpn va / 4096 = vpn va) as E1 by (rewrite Z.mul_comm; by apply Z.div_mul).
  assert ((4096 * vpn va + 4096 - 1) / 4096 = vpn va) as E2 by (Z.div_mod_to_equations; lia).
  apply (wp_mappages d fl); rewrite ?E1, ?E2; try done; try (unfold PHYSTOP in *; lia).
  - apply Hext.
  - intros va' Hva'. rewrite Hpte, decide_True by lia. done.
  - assert (forall va', vpn va' = vpn va -> pte_slot (k_mem s1) d va' = Some a) as Hslot1.
    { intros va' [Ed Et]%vpn_PDX_PTX. apply (pe_slot _ _ _ _ _ Hext).
      unfold pte_slot in *. by rewrite Ed, Et. }
    intros r s2 fl2 k Hext2 Hmap Hr Hkeep.
    assert (fl2 = fl) as -> by (apply Hkeep; intros va' ?; rewrite Hslot1 by lia; eauto).
    destruct Hr as [[-> ->]|(-> & Hk & _ & Hnone & _)].
    + apply HQ; [by eapply pt_ext_trans|]. intros va'. rewrite Hmap, Hpte.
      repeat case_decide; try lia; try done. do 2 f_equal. lia.
    + rewrite (pe_slot _ _ _ _ _ Hext2 _ a) in Hnone; [done|]. apply Hslot1.
      rewrite vpn_page; lia.
Qed.

(** The handler up to its three outcomes, in terms of the view. *)
Lemma handle_cow_fault_run s p pr d fl va :
  faulting s p pr d fl va ->
  handle_cow_fault p va s =
    let v := pte_of (k_mem s) d va in
    let c := count_at (k_cow s) (PTE_ADDR v) in
    if p_sz pr <=? va then Ret (-1) s else
    match pte_slot (k_mem s) d va with
    | None => Ret (-1) s
    | Some a =>
      if negb (has v PTE_P) || negb (has v PTE_U) || negb (has v PTE_COW) || (c <? 1)
      then Ret (-1) s
      else if c =? 1
      then Ret 0 (set_k_cr3 d (set_k_mem (st32 (k_mem s) a (clearf (Z.lor v PTE_W) PTE_COW)) s))
      else cow_new_page (d + KERNBASE) va (a + KERNBASE) v s
    end.
Proof.
  intros Hfa. pose proof (vi_dir _ _ _ (fa_inv _ _ _ _ _ _ Hfa)) as Hwf.
  unfold handle_cow_fault. erewrite bind_run by (apply getproc_run, Hfa).
  cbv zeta. destruct (p_sz pr <=? va); [done|].
  rewrite (fa_dir _ _ _ _ _ _ Hfa), (V2P_spec (d + KERNBASE)), Z.add_simpl_r
    by (destruct (wf_dir _ _ Hwf); unfold PHYSTOP, KERNBASE in *; lia).
  erewrite bind_run by (apply run_of_wp; by apply wp_walk_noalloc).
  unfold pte_of. destruct (pte_slot (k_mem s) d va) as [a|] eqn:Hs; [|done].
  destruct (slot_ptr_range _ _ _ _ Hwf Hs) as [Hptr Hnz]. cbn [slot_ptr]. zb.
  erewrite bind_run by (by apply kload32_run). rewrite Z.add_simpl_r. cbv zeta.
  destruct (has (ld32 (k_mem s) a) PTE_P); [|done]. destruct (has (ld32 (k_mem s) a) PTE_U); [|done].
  destruct (has (ld32 (k_mem s) a) PTE_COW); [|done]. cbn [negb orb].
  erewrite bind_run by (apply get_count_run, Hfa).
  destruct (count_at (k_cow s) _ <? 1); [done|]. destruct (count_at (k_cow s) _ =? 1); [|done].
  erewrite bind_run by (by apply kstore32_run). by rewrite Z.add_simpl_r.
Qed.

(** The copying end of the handler. *)
Lemma wp_cow_new_page s d fl va a w :
  let v := pte_of (k_mem s) d va in
  vm_inv d s (w :: fl) -> LK_cow ∉ k_locks s -> 0 <= va < KERNBASE ->
  pte_slot (k_mem s) d va = Some a ->
  is_frame (PTE_ADDR v) -> PTE_ADDR v + KERNBASE ∉ w :: fl ->
  2 <= count_at (k_cow s) (PTE_ADDR v) <= 255 ->
  wp (cow_new_page (d + KERNBASE) va (a + KERNBASE) v)
     (fun r s' => r = 0 /\ cow_copied s s' d va w fl) s.
Proof.
  intros v Hinv Hlk Hva Hs Hpa Hnf Hc. pose proof (vi_dir _ _ _ Hinv) as Hwf.
  set (pa := PTE_ADDR v) in *. unfold cow_new_page. fold pa. cbv zeta.
  kstep. eapply wp_kalloc; [apply Hinv|apply Hinv|]. cbn [fst].
  intros r Hz Hw Hwn Hk. zb. destruct (page_ok_frame w Hw) as [Hg Hg0]. pose proof (page_ok_kptr w Hw).
  rewrite P2V_spec by (destruct Hpa; unfold PHYSTOP, KERNBASE in *; lia).
  rewrite (V2P_spec w), (V2P_spec (d + KERNBASE)), Z.add_simpl_r
    by (destruct (wf_dir _ _ Hwf); unfold PHYSTOP, KERNBASE in *; lia).
  kstep. kstep; [lia|destruct Hpa; lia|]. rewrite Z.add_simpl_r. cbn [k_mem set_k_freelist].
  kstep. eapply wp_of_run; [by apply dec_count_run|]. cbn [k_cow set_k_mem set_k_freelist]. zb.
  destruct (copied_page (k_mem s) w pa) as [Hcp Hco]; [done|done| |].
  { intros E. apply Hnf. replace (pa + KERNBASE) with w by lia. left. }
  set (s1 := set_k_cow _ _).
  assert (forall b, uses (k_mem s) d (frame_of b) -> ld8 (k_mem s1) b = ld8 (k_mem s) b) as Hused.
  { intros b Hb. apply Hco. intros E. rewrite E in Hb. apply (vi_sep _ _ _ Hinv) in Hb.
    apply Hb. rewrite Z.sub_add. left. }
  assert (forall b, d <= b < d + 4096 -> ld8 (k_mem s1) b = ld8 (k_mem s) b) as Hdir.
  { intros b Hb. apply Hused. left. apply frame_of_spec; [apply Hwf|done]. }
  assert (vm_inv d s1 fl) as Hinv1.
  { eapply vm_inv_change; [by eapply vm_inv_alloc|done|done|done|].
    intros b u Hu Hb. apply Hco. intros E. apply Hwn. by replace w with u by lia. }
  assert (pte_slot (k_mem s1) d va = Some a) as Hs1.
  { rewrite <- Hs. unfold pte_slot. by rewrite (pde_ext (k_mem s) (k_mem s1)) by (done || apply PDX_range). }
  fold (private_flags v). apply wp_bind_assoc.
  kstep. apply (wp_remap d fl va a); [done..|apply private_flags_range|].
  intros s2 Hext2 Hpte2. zb. cbn [negb].
  kstep. eapply wp_of_run; [apply set_count_run; by rewrite (pe_locks _ _ _ _ _ Hext2)|].
  repeat kstep. split; [done|].
  assert (forall b, ~ uses (k_mem s) d (frame_of b) -> ld8 (k_mem s2) b = ld8 (k_mem s1) b) as Hm2.
  { intros b Hb. apply (pe_mem _ _ _ _ _ Hext2). rewrite (pt_ext_uses _ _ _ _ _ Hext2).
    by rewrite (uses_ext (k_mem s)). }
  split; cbn [k_mem k_cow k_cr3 set_k_cow set_k_cr3]; [..|done].
  - intros va'. rewrite Hpte2. case_decide; [done|]. by apply pte_of_ext.
  - intros i Hi. rewrite Hm2; [by apply Hcp|].
    rewrite (frame_of_spec (w - KERNBASE)) by (apply Hg || lia). intros Hb%(vi_sep _ _ _ Hinv).
    apply Hb. rewrite Z.sub_add. left.
  - intros b Hb1 Hb2. rewrite Hm2 by done. by apply Hco.
  - intros f Hf. rewrite (pe_cow _ _ _ _ _ Hext2). cbn [k_cow s1 set_k_cow].
    rewrite !count_at_insert by done. unfold u8.
    repeat case_decide; subst; try done; try congruence. apply Z.mod_small. lia.
  - eapply vm_inv_irrel; [apply Hext2|done..].
Qed.

(** With no free page the copy is given up before anything changed. *)
Lemma cow_new_page_full s d pgdir va pte v :
  vm_inv d s [] -> cow_new_page pgdir va pte v s = Ret (-1) s.
Proof.
  intros Hinv. unfold cow_new_page. cbv zeta.
  rewrite (bind_run kalloc _ s 0 s); [done|]. apply run_of_wp.
  eapply wp_kalloc; [apply Hinv|apply Hinv|]. done.
Qed.

(** C1. A copy-on-write fault on a page shared by several mappings, with a
    free page [w] at hand: the handler returns 0, the faulting page is mapped
    to [w] with the old flags plus write permission and without the
    copy-on-write mark, [w] holds a copy of the shared page, every other
    mapping and every other frame outside the page tables is unchanged, the
    shared page has one reference less and the new page has one. *)
Theorem cow_fault_copies s p pr d va w fl :
  let v := pte_of (k_mem s) d va in
  let pa := PTE_ADDR v in
  faulting s p pr d (w :: fl) va -> va < p_sz pr ->
  has v PTE_P = true -> has v PTE_U = true -> has v PTE_COW = true ->
  is_frame pa -> pa + KERNBASE ∉ w :: fl -> 2 <= count_at (k_cow s) pa <= 255 ->
  exists s', handle_cow_fault p va s = Ret 0 s' /\ cow_copied s s' d va w fl /\
    PTE_ADDR (pte_of (k_mem s') d va) = w - KERNBASE /\
    has (pte_of (k_mem s') d va) PTE_W = true /\ has (pte_of (k_mem s') d va) PTE_COW = false.
Proof.
  intros v pa Hfa Hsz HP HU HCOW Hpa Hnf Hc. rewrite (handle_cow_fault_run _ _ _ _ _ _ Hfa).
  fold v. fold pa. destruct (pte_slot_present _ _ _ HP) as (a & Hs & _). rewrite Hs. cbv zeta.
  fold pa. rewrite HP, HU, HCOW. zb. cbn [negb orb]. pose proof (fa_va _ _ _ _ _ _ Hfa).
  pose proof (fa_sz _ _ _ _ _ _ Hfa).
  destruct (wp_inv _ _ _ (wp_cow_new_page s d fl va a w (fa_inv _ _ _ _ _ _ Hfa)
    (fa_lock _ _ _ _ _ _ Hfa) ltac:(lia) Hs Hpa Hnf Hc)) as (r & s' & Hrun & -> & Hcc).
  exists s'. split; [exact Hrun|]. split; [done|]. rewrite (cc_pte _ _ _ _ _ _ Hcc), decide_True by done.
  pose proof (vi_kmem _ _ _ (fa_inv _ _ _ _ _ _ Hfa)) as (_ & [Hw _]%Forall_cons & _).
  destruct (private_pte_spec (w - KERNBASE) v) as (? & _ & ? & _ & ?); try done.
  - by apply page_ok_frame.
  - apply pte_of_range.
Qed.

(** A copy-on-write fault on a page with a single reference: the handler
    returns 0 and only makes the entry writable and no longer copy-on-write;
    it still maps the same frame, no page is taken and no other mapping, no
    frame outside the page tables and no count changes. *)
Theorem cow_fault_reclaims s p pr d va fl :
  let v := pte_of (k_mem s) d va in
  faulting s p pr d fl va -> va < p_sz pr ->
  has v PTE_P = true -> has v PTE_U = true -> has v PTE_COW = true ->
  count_at (k_cow s) (PTE_ADDR v) = 1 ->
  exists s', handle_cow_fault p va s = Ret 0 s' /\ vm_inv d s' fl /\
    (forall va', vpn va' <> vpn va -> pte_of (k_mem s') d va' = pte_of (k_mem s) d va') /\
    PTE_ADDR (pte_of (k_mem s') d va) = PTE_ADDR v /\
    has (pte_of (k_mem s') d va) PTE_W = true /\ has (pte_of (k_mem s') d va) PTE_COW = false /\
    (forall a, ~ uses (k_mem s) d (frame_of a) -> ld8 (k_mem s') a = ld8 (k_mem s) a) /\
    k_cow s' = k_cow s.
Proof.
  intros v Hfa Hsz HP HU HCOW Hc. rewrite (handle_cow_fault_run _ _ _ _ _ _ Hfa).
  fold v. destruct (pte_slot_present _ _ _ HP) as (a & Hs & _). rewrite Hs. cbv zeta.
  rewrite HP, HU, HCOW, Hc. zb. cbn. eexists. split; [done|].
  pose proof (pt_ext_store d s fl va a (reclaimed_pte v) (fa_inv _ _ _ _ _ _ Hfa) Hs) as Hext.
  destruct (reclaimed_pte_spec v) as (Hr & HA & HW & HC); [apply pte_of_range|].
  fold (reclaimed_pte v). cbn [k_mem k_cow set_k_cr3 set_k_mem].
  assert (forall va', pte_of (st32 (k_mem s) a (reclaimed_pte v)) d va' =
    if decide (vpn va' = vpn va) then reclaimed_pte v else pte_of (k_mem s) d va') as Hpte
    by (intros va'; apply pte_of_st32; [apply Hfa|done..]).
  rewrite (Hpte va), decide_True by done. split_and!; try done.
  - eapply vm_inv_irrel; [apply Hext|done..].
  - intros va' Hne. by rewrite Hpte, decide_False.
  - intros b Hb. apply (pe_mem _ _ _ _ _ Hext). by rewrite (pt_ext_uses _ _ _ _ _ Hext).
Qed.

(** Every other fault is refused with -1 and no change at all: an address
    beyond the process, no page table, a page that is absent, not a user page,
    not copy-on-write or without references, and a shared page when no page
    is free. *)
Theorem cow_fault_refuses s p pr d va fl :
  let v := pte_of (k_mem s) d va in
  faulting s p pr d fl va ->
  p_sz pr <= va \/ has v PTE_P = false \/ has v PTE_U = false \/ has v PTE_COW = false \/
    count_at (k_cow s) (PTE_ADDR v) < 1 \/ (fl = [] /\ count_at (k_cow s) (PTE_ADDR v) <> 1) ->
  handle_cow_fault p va s = Ret (-1) s.
Proof.
  intros v Hfa Hcase. rewrite (handle_cow_fault_run _ _ _ _ _ _ Hfa). fold v. cbv zeta.
  destruct (Z.leb_spec (p_sz pr) va); [done|].
  destruct (pte_slot (k_mem s) d va) as [a|]; [|done].
  destruct Hcase as [?|[->|[->|[->|[?|[-> ?]]]]]]; [lia|done|..].
  - by rewrite orb_true_r.
  - by rewrite !orb_true_r.
  - zb. by rewrite !orb_true_r.
  - destruct (_ || _); [done|]. zb. apply (cow_new_page_full s d), Hfa.
Qed.

End cow.

(** ** The theorems at work *)

Section cow_witnesses.
#[local] Existing Instance sample_image.

(** Frame 0x302000 mapped at 0, present, user, copy-on-write. *)
Definition cow_entry : Z := 0x302405.

Lemma sample_faulting count : 
  faulting (sample_state cow_entry count 0x1000) 0 (sample_proc 0x1000) 0x300000
    [0x80200000; 0x80201000] 0x10.
Proof.
  split; try done.
  - apply vm_invb_spec. vm_compute. reflexivity.
  - apply not_elem_of_nil.
Qed.

Lemma cow_fault_copies_witness :
  let s := sample_state cow_entry 2 0x1000 in
  exists s', handle_cow_fault 0 0x10 s = Ret 0 s' /\
    cow_copied s s' 0x300000 0x10 0x80200000 [0x80201000] /\
    PTE_ADDR (pte_of (k_mem s') 0x300000 0x10) = 0x80200000 - KERNBASE /\
    has (pte_of (k_mem s') 0x300000 0x10) PTE_W = true /\
    has (pte_of (k_mem s') 0x300000 0x10) PTE_COW = false.
Proof.
  apply (cow_fault_copies _ 0 (sample_proc 0x1000)); [apply sample_faulting|vm_compute; reflexivity..| | |].
  - vm_compute. done.
  - apply (bool_decide_unpack _). vm_compute. exact I.
  - vm_compute. done.
Defined.

Lemma cow_fault_reclaims_witness :
  exists s', handle_cow_fault 0 0x10 (sample_state cow_entry 1 0x1000) = Ret 0 s' /\
    has (pte_of (k_mem s') 0x300000 0x10) PTE_W = true.
Proof.
  destruct (cow_fault_reclaims (sample_state cow_entry 1 0x1000) 0 (sample_proc 0x1000) 0x300000 0x10
    [0x80200000; 0x80201000]) as (s' & Hrun & _ & _ & _ & HW & _).
  - apply sample_faulting.
  - done.
  - done.
  - done.
  - done.
  - done.
  - exact (ex_intro _ s' (conj Hrun HW)).
Defined.

Lemma cow_fault_refuses_witness :
  handle_cow_fault 0 0x10 (sample_state cow_entry 0 0x1000) = Ret (-1) (sample_state cow_entry 0 0x1000).
Proof.
  apply (cow_fault_refuses _ _ (sample_proc 0x1000) 0x300000 0x10 [0x80200000; 0x80201000]).
  - apply sample_faulting.
  - do 4 right. left. vm_compute. done.
Defined.

End cow_witnesses.
