(* ===== verification/VmAlloc.v ===== *)
(** * Growing, shrinking and freeing address spaces (vm.c)

    [deallocuvm], [allocuvm], [freevm] and [setupkvm] against the view of a
    page directory: which entries they change, which pages they take and give
    back, and what stays as it was. *)

From S2P Require Import Prelude Mmu Mem State Kernel Cprintf Kalloc Vm VmSample.

Section dealloc.
Context `{KernelImage}.

(** The kernel address of the page mapped at page number [q], if it is mapped
    and has no reference left: the pages that [deallocuvm] frees. *)
Definition dead_page (s : kstate) (d q : Z) : option Z :=
  let v := pte_of (k_mem s) d (4096 * q) in
  if has v PTE_P && (count_at (k_cow s) (PTE_ADDR v) =? 0)
  then Some (PTE_ADDR v + KERNBASE) else None.

Definition dead_pages (s : kstate) (d q0 q : Z) : list Z :=
  reverse (omap (dead_page s d) (seqZ q0 (q - q0))).

Lemma dead_pages_nil s d q0 q : q <= q0 -> dead_pages s d q0 q = [].
Proof. intros Hq. unfold dead_pages. by rewrite seqZ_nil by lia. Qed.

Lemma dead_pages_app s d q0 q q1 :
  q0 <= q <= q1 -> dead_pages s d q0 q1 = dead_pages s d q q1 ++ dead_pages s d q0 q.
Proof.
  intros Hq. unfold dead_pages. replace (q1 - q0) with ((q - q0) + (q1 - q)) by lia.
  rewrite seqZ_app, omap_app, reverse_app by lia. by replace (q0 + (q - q0)) with q by lia.
Qed.

Lemma dead_pages_one s d q : dead_pages s d q (q + 1) = option_list (dead_page s d q).
Proof.
  unfold dead_pages. replace (q + 1 - q) with 1 by lia. simpl. by destruct (dead_page s d _).
Qed.

Lemma dead_pages_skip s d q q1 :
  (forall r, q <= r < q1 -> dead_page s d r = None) -> dead_pages s d q q1 = [].
Proof.
  intros Hn. unfold dead_pages. destruct (omap _ _) as [|x l] eqn:E; [done|].
  assert (x ∈ omap (dead_page s d) (seqZ q (q1 - q))) as Hx by (rewrite E; left).
  apply list_elem_of_omap in Hx as (r & Hr%elem_of_seqZ & Hx). rewrite Hn in Hx by lia. done.
Qed.

(** What [deallocuvm] relies on between page [q0] and page [q1]: the pages it
    frees are allocated pages, each mapped once, and not page tables. *)
Record dealloc_pre (d : Z) (s : kstate) (fl : list Z) (q0 q1 : Z) : Prop := {
  dp_inv : vm_inv d s fl;
  dp_lock : LK_cow ∉ k_locks s;
  dp_nz : forall q, q0 <= q < q1 -> has (pte_of (k_mem s) d (4096 * q)) PTE_P = true ->
          PTE_ADDR (pte_of (k_mem s) d (4096 * q)) <> 0;
  dp_ok : Forall page_ok (dead_pages s d q0 q1);
  dp_nodup : NoDup (dead_pages s d q0 q1 ++ fl);
  dp_sep : forall v, v ∈ dead_pages s d q0 q1 -> ~ uses (k_mem s) d (v - KERNBASE);
}.

(** The entry that is left where [v] was. *)
Definition cleared (v : Z) : Z := if has v PTE_P then 0 else v.

(** State [s'] after the pages from [q0] up to [q] were unmapped in [s]. *)
Record unmapped (d : Z) (s : kstate) (fl : list Z) (q0 q : Z) (s' : kstate) : Prop := {
  um_inv : vm_inv d s' (dead_pages s d q0 q ++ fl);
  um_pte : forall va, pte_of (k_mem s') d va =
    if decide (q0 <= vpn va < q) then cleared (pte_of (k_mem s) d va) else pte_of (k_mem s) d va;
  um_slot : forall va, pte_slot (k_mem s') d va = pte_slot (k_mem s) d va;
  um_uses : forall f, uses (k_mem s') d f <-> uses (k_mem s) d f;
  um_mem : forall a, ~ uses (k_mem s) d (frame_of a) ->
    frame_of a + KERNBASE ∉ dead_pages s d q0 q -> ld8 (k_mem s') a = ld8 (k_mem s) a;
  um_dir : forall a, d <= a < d + 4096 -> ld8 (k_mem s') a = ld8 (k_mem s) a;
  um_cow : k_cow s' = k_cow s;
  um_locks : k_locks s' = k_locks s;
}.

Lemma unmapped_0 d s fl q0 : vm_inv d s fl -> unmapped d s fl q0 q0 s.
Proof.
  intros Hi. split; rewrite ?dead_pages_nil by lia; try done.
  intros va. by rewrite decide_False by lia.
Qed.

(** Pages without an entry need nothing. *)
Lemma unmapped_skip d s fl q0 q q' s' :
  q0 <= q <= q' -> (forall va, q <= vpn va < q' -> pte_of (k_mem s) d va = 0) -> 0 <= q -> q' <= 1048576 ->
  unmapped d s fl q0 q s' -> unmapped d s fl q0 q' s'.
Proof.
  intros Hq Hz H0 H1 Hu.
  assert (dead_pages s d q0 q' = dead_pages s d q0 q) as E.
  { rewrite (dead_pages_app s d q0 q q') by done. rewrite dead_pages_skip; [done|].
    intros r Hr. unfold dead_page. rewrite Hz; [done|]. rewrite vpn_page; lia. }
  destruct Hu as [? Hp ? ? ? ? ? ?]. split; rewrite ?E; try done.
  intros va. rewrite Hp. repeat case_decide; try lia; try done. rewrite Hz; [done|lia].
Qed.

(** Memory that agrees on the frames of a directory. *)
Lemma same_tables m m' d :
  pgdir_wf m d -> (forall a, uses m d (frame_of a) -> ld8 m' a = ld8 m a) ->
  (forall va, pte_of m' d va = pte_of m d va) /\ (forall va, pte_slot m' d va = pte_slot m d va) /\
  (forall f, uses m' d f <-> uses m d f).
Proof.
  intros Hwf Hm. assert (forall a, d <= a < d + 4096 -> ld8 m' a = ld8 m a) as Hd.
  { intros a Ha. apply Hm. left. apply frame_of_spec; [apply Hwf|done]. }
  split_and!.
  - intros va. by apply pte_of_ext.
  - intros va. unfold pte_slot. by rewrite (pde_ext m m') by (done || apply PDX_range).
  - intros f. by apply uses_ext.
Qed.

(** Freeing a page that is neither a page table nor free. *)
Lemma vm_inv_kfree d s fl v :
  let s' := set_k_freelist v (set_k_mem (freed_mem (k_mem s) v (k_freelist s)) s) in
  vm_inv d s fl -> page_ok v -> v ∉ fl -> ~ uses (k_mem s) d (v - KERNBASE) ->
  vm_inv d s' (v :: fl) /\ (forall a, frame_of a <> v - KERNBASE -> ld8 (k_mem s') a = ld8 (k_mem s) a).
Proof.
  intros s' Hinv Hv Hn Hu. pose proof (vi_dir _ _ _ Hinv) as Hwf.
  destruct (page_ok_frame v Hv) as [[Hv1 _] _].
  assert (forall a, frame_of a <> v - KERNBASE -> ld8 (k_mem s') a = ld8 (k_mem s) a) as Hm.
  { intros a Ha. apply freed_mem_other. intros Hr. by apply Ha, frame_of_spec. }
  split; [|done]. destruct (same_tables (k_mem s) (k_mem s') d Hwf) as (_ & _ & HU).
  { intros a Ha. apply Hm. congruence. }
  split; [apply kmem_wf_free; [apply Hinv|done..]|apply Hinv| |].
  - eapply pgdir_wf_ext; [|done]. intros a Ha. apply Hm. rewrite (frame_of_spec d) by (apply Hwf || done).
    intros E. apply Hu. by left.
  - intros f Hf%HU. apply not_elem_of_cons. split; [|by apply (vi_sep _ _ _ Hinv)].
    intros E. apply Hu. by replace (v - KERNBASE) with f by lia.
Qed.

Lemma pte_slot_st32 m d va a v va' :
  pgdir_wf m d -> pte_slot m d va = Some a -> pte_slot (st32 m a v) d va' = pte_slot m d va'.
Proof.
  intros Hwf Hs. destruct (pte_slot_frame _ _ _ _ Hwf Hs) as (f & _ & [Hf _] & Hfd & -> & _).
  pose proof (PTX_range va). pose proof (PDX_range va'). destruct (wf_dir _ _ Hwf) as [Hd _].
  assert (pde (st32 m (f + 4 * PTX va) v) d (PDX va') = pde m d (PDX va')) as E.
  { apply ld32_st32_ne. destruct (pages_disjoint f d); [done..|lia|lia]. }
  unfold pte_slot. by rewrite E.
Qed.

(** Clearing the entry of page [q], whose frame was already dealt with. *)
Lemma unmapped_store d s fl q0 q s1 s2 a :
  unmapped d s fl q0 q s1 -> q0 <= q -> 0 <= q < 1048576 ->
  pte_slot (k_mem s) d (4096 * q) = Some a -> has (pte_of (k_mem s) d (4096 * q)) PTE_P = true ->
  vm_inv d s2 (dead_pages s d q0 (q + 1) ++ fl) ->
  (forall b, frame_of b + KERNBASE ∉ option_list (dead_page s d q) -> ld8 (k_mem s2) b = ld8 (k_mem s1) b) ->
  (forall v, v ∈ option_list (dead_page s d q) -> ~ uses (k_mem s) d (v - KERNBASE)) ->
  k_cow s2 = k_cow s1 -> k_locks s2 = k_locks s1 ->
  unmapped d s fl q0 (q + 1) (set_k_mem (st32 (k_mem s2) a 0) s2).
Proof.
  intros Hu Hq Hr Ha Hp Hinv2 Hm2 Hsep Hc2 Hl2.
  destruct (same_tables (k_mem s1) (k_mem s2) d) as (Hpte & Hslot & Huses); [apply Hu| |].
  { intros b Hb%(um_uses _ _ _ _ _ _ Hu). apply Hm2. intros Hd%Hsep. apply Hd. by rewrite Z.add_simpl_r. }
  assert (pte_slot (k_mem s2) d (4096 * q) = Some a) as Ha2.
  { by rewrite Hslot, (um_slot _ _ _ _ _ _ Hu). }
  pose proof (pt_ext_store d s2 _ _ a 0 Hinv2 Ha2) as Hext.
  split; cbn [k_cow k_locks set_k_mem].
  - apply Hext.
  - intros va. cbn [k_mem set_k_mem]. rewrite (pte_of_st32 _ d (4096 * q)); [|apply Hinv2|done..].
    rewrite vpn_page, Hpte, (um_pte _ _ _ _ _ _ Hu) by lia.
    repeat case_decide; try lia; try done. rewrite (pte_of_vpn _ _ va (4096 * q)) by (rewrite vpn_page; lia).
    unfold cleared. by rewrite Hp.
  - intros va. rewrite <- (um_slot _ _ _ _ _ _ Hu), <- Hslot.
    by apply (pte_slot_st32 _ _ (4096 * q)); [apply Hinv2|].
  - intros f. by rewrite (pt_ext_uses _ _ _ _ _ Hext), Huses, (um_uses _ _ _ _ _ _ Hu).
  - intros b Hb Hn. rewrite (dead_pages_app s d q0 q), dead_pages_one, not_elem_of_app in Hn by lia.
    rewrite (pe_mem _ _ _ _ _ Hext), Hm2 by
      (rewrite ?(pt_ext_uses _ _ _ _ _ Hext), ?Huses, ?(um_uses _ _ _ _ _ _ Hu); tauto).
    apply (um_mem _ _ _ _ _ _ Hu); tauto.
  - intros b Hb. assert (frame_of b = d) as Ef by (apply frame_of_spec; [apply Hinv2|done]).
    cbn [k_mem set_k_mem]. rewrite ld8_st32_ne, Hm2.
    + by apply (um_dir _ _ _ _ _ _ Hu).
    + intros Hd%Hsep. apply Hd. rewrite Ef, Z.add_simpl_r. by left.
    + intros Hab. destruct (pte_slot_in_frame _ _ _ _ b (vi_dir _ _ _ Hinv2) Ha2 Hab) as (f & _ & Hfd & Hf).
      congruence.
  - rewrite Hc2. apply Hu.
  - rewrite Hl2. apply Hu.
Qed.

Lemma unmapped_absent d s fl q0 q s' :
  unmapped d s fl q0 q s' -> q0 <= q -> 0 <= q < 1048576 ->
  has (pte_of (k_mem s) d (4096 * q)) PTE_P = false -> unmapped d s fl q0 (q + 1) s'.
Proof.
  intros Hu Hq Hr HP. destruct Hu as [? Hp ? ? ? ? ? ?].
  assert (dead_pages s d q0 (q + 1) = dead_pages s d q0 q) as E.
  { rewrite (dead_pages_app s d q0 q), dead_pages_one by lia. unfold dead_page. by rewrite HP. }
  split; rewrite ?E; try done. intros va. rewrite Hp. repeat case_decide; try lia; try done.
  rewrite (pte_of_vpn _ _ va (4096 * q)) by (rewrite vpn_page; lia). unfold cleared. by rewrite HP.
Qed.

Lemma dealloc_pre_page d s fl q0 q1 q v :
  dealloc_pre d s fl q0 q1 -> q0 <= q < q1 -> dead_page s d q = Some v ->
  page_ok v /\ (v ∉ dead_pages s d q0 q ++ fl) /\ ~ uses (k_mem s) d (v - KERNBASE).
Proof.
  intros Hpre Hq Hv. pose proof (dp_ok _ _ _ _ _ Hpre) as Hok. pose proof (dp_nodup _ _ _ _ _ Hpre) as Hnd.
  pose proof (dp_sep _ _ _ _ _ Hpre v) as Hsep.
  rewrite (dead_pages_app s d q0 (q + 1)), (dead_pages_app s d q0 q (q + 1)), dead_pages_one, Hv in Hok, Hnd, Hsep by lia.
  simpl in Hok, Hnd, Hsep. apply Forall_app in Hok as [_ [? _]%Forall_cons].
  rewrite <- app_assoc in Hnd. apply NoDup_app in Hnd as (_ & _ & [? _]%NoDup_cons).
  split_and!; [done|done|]. apply Hsep. apply elem_of_app. right. left.
Qed.

(** One page of the loop: [v] is the entry found at page [q]. *)
Lemma wp_unmap_page d s fl q0 q1 q a (x : Z) (Q : Z -> kstate -> Prop) s1 :
  dealloc_pre d s fl q0 q1 -> q0 <= q < q1 -> 0 <= q -> q1 <= 524288 ->
  pte_slot (k_mem s) d (4096 * q) = Some a -> unmapped d s fl q0 q s1 ->
  (forall s', unmapped d s fl q0 (q + 1) s' -> Q x s') ->
  wp (v ← kload32 (a + KERNBASE);
      if has v PTE_P then
        let pa := PTE_ADDR v in
        if pa =? 0 then panic "kfree" else
          c ← get_count pa;
          (if c =? 0 then kfree (P2V pa) else mret tt);;
          kstore32 (a + KERNBASE) 0;;
          mret x
      else mret x) Q s1.
Proof.
  intros Hpre Hq H0 H1 Ha Hu HQ. pose proof (vi_dir _ _ _ (dp_inv _ _ _ _ _ Hpre)) as Hwf.
  assert (KERNBASE <= a + KERNBASE < KERNBASE + PHYSTOP) as Hptr.
  { destruct (pte_slot_frame _ _ _ _ Hwf Ha) as (f & _ & Hf & _ & -> & _).
    apply dir_ptr; [done|apply PTX_range]. }
  kstep. kstep; [done|]. rewrite Z.add_simpl_r.
  set (w := pte_of (k_mem s) d (4096 * q)).
  assert (ld32 (k_mem s1) a = w) as ->.
  { transitivity (pte_of (k_mem s1) d (4096 * q)).
    - unfold pte_of. by rewrite (um_slot _ _ _ _ _ _ Hu), Ha.
    - rewrite (um_pte _ _ _ _ _ _ Hu), decide_False by (rewrite vpn_page; lia). done. }
  destruct (has w PTE_P) eqn:HP; cbn beta iota.
  2:{ kstep. apply HQ. apply unmapped_absent; [done|lia|lia|done]. }
  cbv zeta. pose proof (dp_nz _ _ _ _ _ Hpre q Hq HP) as Hnz. fold w in Hnz. zb.
  kstep. eapply wp_of_run; [apply get_count_run; rewrite (um_locks _ _ _ _ _ _ Hu); apply Hpre|].
  rewrite (um_cow _ _ _ _ _ _ Hu).
  assert (dead_page s d q =
    if count_at (k_cow s) (PTE_ADDR w) =? 0 then Some (PTE_ADDR w + KERNBASE) else None) as Hd
    by (unfold dead_page; fold w; by rewrite HP).
  destruct (Z.eqb_spec (count_at (k_cow s) (PTE_ADDR w)) 0) as [Hc|Hc].
  - destruct (dealloc_pre_page _ _ _ _ _ _ _ Hpre Hq Hd) as (Hok & Hnin & Hsep).
    destruct (vm_inv_kfree d s1 (dead_pages s d q0 q ++ fl) (PTE_ADDR w + KERNBASE)) as [Hi2 Hm2];
      [apply Hu|done|done|by rewrite (um_uses _ _ _ _ _ _ Hu)|].
    rewrite P2V_spec by (destruct (page_ok_frame _ Hok) as [(_ & ? & ?) _]; unfold PHYSTOP, KERNBASE in *; lia).
    kstep. eapply wp_kfree; [apply Hu|apply Hu|done|done|]. cbn zeta. intros _.
    kstep. kstep; [done|]. rewrite Z.add_simpl_r. kstep. apply HQ.
    eapply unmapped_store; [done|lia|lia|done|done| | | |done|done].
    + rewrite (dead_pages_app s d q0 q), dead_pages_one, Hd by lia. done.
    + intros b Hb. rewrite Hd in Hb. apply Hm2. intros E. apply Hb. rewrite E, Z.sub_add. left.
    + rewrite Hd. intros v ->%list_elem_of_singleton. by rewrite Z.add_simpl_r in *.
  - repeat kstep; [done|]. rewrite Z.add_simpl_r. apply HQ.
    eapply unmapped_store; [done|lia|lia|done|done| |done| |done|done].
    + rewrite (dead_pages_app s d q0 q), dead_pages_one, Hd by lia. apply Hu.
    + rewrite Hd. by intros v ?%not_elem_of_nil.
Qed.

(** No page table: every page of the 4 Mbyte region is absent. *)
Lemma no_table m d q va :
  0 <= q < 524288 -> pte_slot m d (4096 * q) = None ->
  q <= vpn va < (q / 1024 + 1) * 1024 -> pte_of m d va = 0.
Proof.
  intros Hq Hs Hva. unfold pte_of. replace (pte_slot m d va) with (@None Z); [done|].
  assert (PDX va = PDX (4096 * q)) as E.
  { rewrite !PDX_spec, (u32_small (4096 * q)) by lia. unfold vpn in Hva. Z.div_mod_to_equations. lia. }
  unfold pte_slot in *. rewrite E. by destruct (has _ _).
Qed.

(** Where the scan goes on after a missing page table. *)
Lemma skip_table q :
  0 <= q < 524288 ->
  u32 (u32 (PGADDR (PDX (4096 * q) + 1) 0 0 - PGSIZE) + PGSIZE) = 4096 * ((q / 1024 + 1) * 1024).
Proof.
  intros Hq. rewrite PDX_spec, (u32_small (4096 * q)) by lia. unfold PGSIZE.
  replace (4096 * q / 4194304) with (q / 1024) by (Z.div_mod_to_equations; lia).
  assert (0 <= q / 1024 < 512) by (Z.div_mod_to_equations; lia).
  rewrite PGADDR_spec by lia. rewrite u32_add_l, u32_small by lia. lia.
Qed.

(** deallocuvm on the pages between [newsz] and [oldsz]. *)
Lemma wp_deallocuvm d s fl oldsz newsz (Q : Z -> kstate -> Prop) :
  let q0 := (newsz + 4095) / 4096 in
  let q1 := (oldsz + 4095) / 4096 in
  0 <= newsz < oldsz -> oldsz <= KERNBASE -> dealloc_pre d s fl q0 q1 ->
  (forall s', unmapped d s fl q0 q1 s' -> Q newsz s') ->
  wp (deallocuvm (d + KERNBASE) oldsz newsz) Q s.
Proof.
  intros q0 q1 Hn Ho Hpre HQ. unfold deallocuvm. zb. cbv zeta. unfold KERNBASE in Ho.
  rewrite PGROUNDUP_spec by lia. fold q0. rewrite (Z.mul_comm q0).
  assert (0 <= q0 <= q1 /\ q1 <= 524288) as [Hq01 Hq1] by (unfold q0, q1; Z.div_mod_to_equations; lia).
  apply (wp_iter (fun a s' => exists q, a = 4096 * q /\ q0 <= q <= 524288 /\ unmapped d s fl q0 (Z.min q q1) s')
    (fun a => Z.to_nat ((oldsz - a + PGSIZE - 1) / PGSIZE))); [|exists q0|lia].
  2:{ split_and!; try lia. rewrite Z.min_l by lia. apply unmapped_0, Hpre. }
  intros a s1 (q & -> & Hq & Hu). unfold deallocuvm_body.
  assert (4096 * q < oldsz <-> q < q1) as Hlt by (unfold q1; Z.div_mod_to_equations; lia).
  destruct (Z.ltb_spec (4096 * q) oldsz) as [Hlo|Hlo].
  2:{ kstep. apply HQ. by rewrite Z.min_r in Hu by lia. }
  rewrite Z.min_l in Hu by lia. kstep. apply wp_walk_noalloc; [apply Hu|].
  rewrite (um_slot _ _ _ _ _ _ Hu). kstep.
  assert (forall r, q < r <= 524288 -> (Z.to_nat ((oldsz - 4096 * r + PGSIZE - 1) / PGSIZE) <
    Z.to_nat ((oldsz - 4096 * q + PGSIZE - 1) / PGSIZE))%nat) as Hmu.
  { unfold PGSIZE. intros r Hr. Z.div_mod_to_equations. lia. }
  destruct (pte_slot (k_mem s) d (4096 * q)) as [a|] eqn:Ha; cbn [slot_ptr].
  - assert (a + KERNBASE <> 0) as Hnz.
    { destruct (pte_slot_frame _ _ _ _ (vi_dir _ _ _ (dp_inv _ _ _ _ _ Hpre)) Ha) as (f & _ & (_ & ? & _) & _ & -> & _).
      pose proof (PTX_range (4096 * q)). unfold KERNBASE. lia. }
    zb. eapply (wp_unmap_page d s fl q0 q1 q a); [done|lia|lia|lia|done|done|].
    intros s2 Hu2. kstep. rewrite u32_small by (unfold PGSIZE; lia). split.
    + exists (q + 1). rewrite Z.min_l by lia. split_and!; [unfold PGSIZE; lia|lia|lia|done].
    + replace (4096 * q + PGSIZE) with (4096 * (q + 1)) by (unfold PGSIZE; lia). apply Hmu. lia.
  - zb. kstep. kstep. rewrite skip_table by lia. set (q' := (q / 1024 + 1) * 1024).
    assert (q < q' <= 524288) by (unfold q'; Z.div_mod_to_equations; lia). split; [|by apply Hmu].
    exists q'. split_and!; [lia|lia|lia|]. eapply unmapped_skip; [..|done]; [lia| |lia|lia].
    intros va Hva. apply (no_table _ _ q); [lia|done|]. fold q'. lia.
Qed.

End dealloc.

(** ** Growing *)

Section alloc.
Context `{KernelImage}.

(** mappages for a single page, by page number. *)
Lemma wp_map_page_count d fl q pa perm (Q : Z -> kstate -> Prop) s :
  vm_inv d s fl -> 0 <= q < 1048576 -> pa mod 4096 = 0 -> 0 <= pa <= 4294963200 -> 0 <= perm < 4096 ->
  has (pte_of (k_mem s) d (4096 * q)) PTE_P = false ->
  (forall s' fl', pt_ext d s fl s' fl' ->
     (forall va, pte_of (k_mem s') d va =
        if decide (vpn va = q) then Z.lor (Z.lor pa perm) PTE_P else pte_of (k_mem s) d va) ->
     (is_Some (pte_slot (k_mem s) d (4096 * q)) -> fl' = fl) -> (length fl <= length fl' + 1)%nat -> Q 0 s') ->
  (forall s', pt_ext d s fl s' [] -> (forall va, pte_of (k_mem s') d va = pte_of (k_mem s) d va) ->
     fl = [] -> pte_slot (k_mem s) d (4096 * q) = None -> Q (-1) s') ->
  wp (mappages (d + KERNBASE) (4096 * q) PGSIZE pa perm) Q s.
Proof.
  intros Hinv Hq Hpa Hpr Hperm Habs HQ0 HQ1.
  assert (4096 * q / 4096 = q) as E1 by (rewrite Z.mul_comm; by apply Z.div_mul).
  assert ((4096 * q + PGSIZE - 1) / 4096 = q) as E2 by (unfold PGSIZE; Z.div_mod_to_equations; lia).
  apply (wp_mappages_count d fl); rewrite ?E1, ?E2; try done; try (unfold PGSIZE; lia).
  - intros va Hva. by rewrite (pte_of_vpn _ _ va (4096 * q)) by (rewrite vpn_page; lia).
  - intros r s' fl' k Hext Hmap Hr Hkeep Hcnt. destruct Hr as [[-> ->]|(-> & Hk & -> & Hno & H0)].
    + apply (HQ0 _ fl'); [done|..].
      * intros va. rewrite Hmap. repeat case_decide; try lia; try done. do 3 f_equal. lia.
      * intros [a Ha]. apply Hkeep. intros va Hva. exists a. rewrite <- Ha.
        destruct (vpn_PDX_PTX va (4096 * q)) as [Ed Et]; [rewrite vpn_page; lia|].
        unfold pte_slot. by rewrite Ed, Et.
      * unfold tables_for in Hcnt. replace (q - q + 1 <=? 0) with false in Hcnt by (symmetry; apply Z.leb_gt; lia).
        replace (q + (q - q + 1) - 1) with q in Hcnt by lia. lia.
    + apply HQ1; [done| |apply H0; lia|].
      * intros va. rewrite Hmap. by rewrite decide_False by lia.
      * destruct (pte_slot (k_mem s) d (4096 * q)) as [a|] eqn:Ea; [|done].
        apply (pe_slot _ _ _ _ _ Hext) in Ea. replace k with 0 in Hno by lia.
        by rewrite Z.add_0_r, Ea in Hno.
Qed.

Lemma wp_map_page d fl q pa perm (Q : Z -> kstate -> Prop) s :
  vm_inv d s fl -> 0 <= q < 1048576 -> pa mod 4096 = 0 -> 0 <= pa <= 4294963200 -> 0 <= perm < 4096 ->
  has (pte_of (k_mem s) d (4096 * q)) PTE_P = false ->
  (forall s' fl', pt_ext d s fl s' fl' ->
     (forall va, pte_of (k_mem s') d va =
        if decide (vpn va = q) then Z.lor (Z.lor pa perm) PTE_P else pte_of (k_mem s) d va) ->
     (is_Some (pte_slot (k_mem s) d (4096 * q)) -> fl' = fl) -> Q 0 s') ->
  (forall s', pt_ext d s fl s' [] -> (forall va, pte_of (k_mem s') d va = pte_of (k_mem s) d va) ->
     fl = [] -> pte_slot (k_mem s) d (4096 * q) = None -> Q (-1) s') ->
  wp (mappages (d + KERNBASE) (4096 * q) PGSIZE pa perm) Q s.
Proof.
  intros Hinv Hq Hpa Hpr Hperm Habs HQ0 HQ1. apply (wp_map_page_count d fl); [done..| |done]. intros s' fl' Hext Hp Hk _. by apply (HQ0 s' fl').
Qed.

(** The entry allocuvm writes for the page at kernel address [w]. *)
Definition user_pte (w : Z) : Z := Z.lor (Z.lor (w - KERNBASE) (Z.lor PTE_W PTE_U)) PTE_P.

(** A zero-filled page with one reference, neither free nor a page table. *)
Record user_page (d : Z) (s : kstate) (fl : list Z) (w : Z) : Prop := {
  up_ok : page_ok w;
  up_used : w ∉ fl;
  up_notab : ~ uses (k_mem s) d (w - KERNBASE);
  up_count : count_at (k_cow s) (w - KERNBASE) = 1;
  up_zero : forall i, 0 <= i < 4096 -> ld8 (k_mem s) (w - KERNBASE + i) = 0;
}.

(** State [s'] after the pages from [q0] up to [q] were added to [s]. *)
Record grown (d : Z) (s : kstate) (fl : list Z) (q0 q : Z) (s' : kstate) (fl' : list Z) : Prop := {
  gr_inv : vm_inv d s' fl';
  gr_new : forall r, q0 <= r < q -> exists w,
    w ∈ fl /\ pte_of (k_mem s') d (4096 * r) = user_pte w /\ user_page d s' fl' w;
  gr_inj : forall r r', q0 <= r < q -> q0 <= r' < q ->
    pte_of (k_mem s') d (4096 * r) = pte_of (k_mem s') d (4096 * r') -> r = r';
  gr_old : forall va, ~ (q0 <= vpn va < q) -> pte_of (k_mem s') d va = pte_of (k_mem s) d va;
  gr_mem : forall a, ~ uses (k_mem s) d (frame_of a) -> frame_of a + KERNBASE ∉ fl ->
    ld8 (k_mem s') a = ld8 (k_mem s) a;
  gr_cow : forall f, is_frame f -> f + KERNBASE ∉ fl -> count_at (k_cow s') f = count_at (k_cow s) f;
  gr_sub : forall w, w ∈ fl' -> w ∈ fl;
  gr_uses : forall f, uses (k_mem s') d f -> uses (k_mem s) d f \/ f + KERNBASE ∈ fl;
  gr_locks : k_locks s' = k_locks s;
}.

Lemma grown_0 d s fl q0 : vm_inv d s fl -> grown d s fl q0 q0 s fl.
Proof. intros Hi. split; try done; try lia. by left. Qed.

Lemma user_pte_inj w w' : page_ok w -> page_ok w' -> user_pte w = user_pte w' -> w = w'.
Proof.
  intros [[Ha Hr] _]%page_ok_frame [[Ha' Hr'] _]%page_ok_frame E. unfold user_pte in E.
  apply (f_equal PTE_ADDR) in E. rewrite <- !Z.lor_assoc in E.
  rewrite !PTE_ADDR_lor in E; try done; unfold PHYSTOP in *; lia.
Qed.

(** Taking the page [w] off the free list and clearing it. *)
Definition taken (s : kstate) (w r : Z) : kstate :=
  set_k_mem (memset_mem (k_mem s) w (w - KERNBASE) 0 PGSIZE) (set_k_freelist r s).

Lemma taken_mem s w r :
  page_ok w ->
  (forall a, frame_of a <> w - KERNBASE -> ld8 (k_mem (taken s w r)) a = ld8 (k_mem s) a) /\
  (forall i, 0 <= i < 4096 -> ld8 (k_mem (taken s w r)) (w - KERNBASE + i) = 0).
Proof.
  intros Hw. destruct (page_ok_frame w Hw) as [[Ha _] _]. unfold taken, PGSIZE. cbn [k_mem set_k_mem].
  split; [intros a Hn|intros i Hi]; rewrite ld8_memset by lia.
  - rewrite decide_False; [done|]. intros Hr. by apply Hn, frame_of_spec.
  - by rewrite decide_True by lia.
Qed.

Lemma vm_inv_taken d s w fl r :
  vm_inv d s (w :: fl) -> kmem_wf (set_k_freelist r s) fl ->
  vm_inv d (taken s w r) fl /\ ~ uses (k_mem (taken s w r)) d (w - KERNBASE) /\
  (forall va, pte_of (k_mem (taken s w r)) d va = pte_of (k_mem s) d va) /\
  (forall f, uses (k_mem (taken s w r)) d f <-> uses (k_mem s) d f).
Proof.
  intros Hinv Hk. pose proof (vi_dir _ _ _ Hinv) as Hwf.
  pose proof (vi_kmem _ _ _ Hinv) as (_ & [Hw _]%Forall_cons & [Hn _]%NoDup_cons).
  destruct (taken_mem s w r Hw) as [Hm _].
  assert (~ uses (k_mem s) d (w - KERNBASE)) as Hu.
  { intros Hx%(vi_sep _ _ _ Hinv). apply Hx. rewrite Z.sub_add. left. }
  assert (forall a, uses (k_mem s) d (frame_of a) -> ld8 (k_mem (taken s w r)) a = ld8 (k_mem s) a) as Hm'.
  { intros a Ha. apply Hm. congruence. }
  destruct (same_tables _ _ _ Hwf Hm') as (Hp & _ & HU). split_and!; [|by rewrite HU|done|done].
  eapply vm_inv_change; [by eapply vm_inv_alloc|done|done|done|].
  intros a v Hv Ha. apply Hm. intros E. apply Hn. by replace w with v by lia.
Qed.

(** The count of a new page is set to 1. *)
Definition counted (s : kstate) (w : Z) : kstate := set_k_cow (<[PPN (w - KERNBASE) := 1]> (k_cow s)) s.

(** One page more: [w] is taken in [s1], mapped in [s3] and counted. *)
Section grow_step.
Context (d : Z) (s1 s3 : kstate) (w r : Z) (fl2 fl3 : list Z).
Hypothesis (Hinv1 : vm_inv d s1 (w :: fl2)) (Hk : kmem_wf (set_k_freelist r s1) fl2).
Hypothesis (Hext : pt_ext d (taken s1 w r) fl2 s3 fl3).

Lemma step_facts :
  page_ok w /\ (w ∉ fl2) /\ (forall v, v ∈ fl3 -> v ∈ fl2) /\
  (forall f, uses (k_mem s3) d f -> uses (k_mem s1) d f \/ f + KERNBASE ∈ fl2).
Proof.
  pose proof (vi_kmem _ _ _ Hinv1) as (_ & [Hw _]%Forall_cons & [Hn2 _]%NoDup_cons).
  destruct (vm_inv_taken _ _ _ _ _ Hinv1 Hk) as (_ & _ & _ & HU).
  destruct (pe_used _ _ _ _ _ Hext) as (u & Efl & Hu3). split_and!; try done.
  - intros v Hv. rewrite Efl. apply elem_of_app. by right.
  - intros f Hf%Hu3. rewrite HU in Hf. rewrite Efl, elem_of_app. tauto.
Qed.

Lemma step_mem a :
  ~ uses (k_mem s1) d (frame_of a) -> frame_of a + KERNBASE ∉ w :: fl2 ->
  ld8 (k_mem s3) a = ld8 (k_mem s1) a.
Proof.
  intros Hu [Hw Hn]%not_elem_of_cons. destruct step_facts as (Hok & _ & _ & HU).
  rewrite (pe_mem _ _ _ _ _ Hext) by (intros [?|?]%HU; done).
  apply (taken_mem s1 w r Hok). lia.
Qed.

Lemma step_page : user_page d (counted s3 w) fl3 w.
Proof.
  destruct step_facts as (Hw & Hn & Hsub & HU). destruct (page_ok_frame w Hw) as [Hf _].
  assert (~ uses (k_mem s3) d (w - KERNBASE)) as Hnu.
  { rewrite <- (Z.sub_add KERNBASE w) in Hn. intros [Hx|?]%HU; [|done].
    apply (vi_sep _ _ _ Hinv1 _ Hx). rewrite Z.sub_add. left. }
  split; [done|auto|done| |]; cbn [k_cow k_mem counted set_k_cow].
  - rewrite count_at_insert, decide_True by done. done.
  - intros i Hi. rewrite (pe_mem _ _ _ _ _ Hext); [by apply (taken_mem s1 w r Hw)|].
    by rewrite (frame_of_spec (w - KERNBASE)) by (apply Hf || lia).
Qed.

Lemma step_keeps s4 v :
  user_page d s1 (w :: fl2) v -> k_mem s4 = k_mem s3 ->
  count_at (k_cow s4) (v - KERNBASE) = count_at (k_cow s1) (v - KERNBASE) -> user_page d s4 fl3 v.
Proof.
  destruct step_facts as (Hw & Hn & Hsub & HU). intros [Hv Hnin Hvn Hc Hz] Em Ec.
  destruct (page_ok_frame v Hv) as [Hf _].
  assert (v - KERNBASE + KERNBASE = v) as Ev by lia. split; rewrite ?Em; [done| | |congruence|].
  - intros ?%Hsub. apply Hnin. by right.
  - intros [?|Hx]%HU; [done|]. apply Hnin. rewrite Ev in Hx. by right.
  - intros i Hi. rewrite step_mem; [by apply Hz|..];
      by rewrite (frame_of_spec (v - KERNBASE)), ?Ev by (apply Hf || lia).
Qed.

Lemma step_count v :
  page_ok v -> v <> w ->
  count_at (k_cow (counted s3 w)) (v - KERNBASE) = count_at (k_cow s1) (v - KERNBASE).
Proof.
  intros Hv Hne. destruct step_facts as (Hw & _).
  destruct (page_ok_frame v Hv) as [Hf _]. destruct (page_ok_frame w Hw) as [Hfw _].
  cbn [k_cow counted set_k_cow]. rewrite count_at_insert, decide_False by (done || lia).
  by rewrite (pe_cow _ _ _ _ _ Hext).
Qed.
End grow_step.

Lemma grown_step d s fl q0 q s1 w fl2 r s3 fl3 :
  0 <= q0 <= q -> q < 1048576 -> grown d s fl q0 q s1 (w :: fl2) -> kmem_wf (set_k_freelist r s1) fl2 ->
  pt_ext d (taken s1 w r) fl2 s3 fl3 ->
  (forall va, pte_of (k_mem s3) d va =
     if decide (vpn va = q) then user_pte w else pte_of (k_mem (taken s1 w r)) d va) ->
  grown d s fl q0 (q + 1) (counted s3 w) fl3.
Proof.
  intros Hq Hqr Hg Hk Hext Hpte. pose proof (gr_inv _ _ _ _ _ _ _ Hg) as Hinv1.
  destruct (vm_inv_taken _ _ _ _ _ Hinv1 Hk) as (_ & _ & Hpte2 & _).
  destruct (step_facts _ _ _ _ _ _ _ Hinv1 Hk Hext) as (Hw & Hn2 & Hsub3 & HU3).
  pose proof (step_page _ _ _ _ _ _ _ Hinv1 Hk Hext) as Hpage.
  assert (forall r', q0 <= r' < q + 1 -> pte_of (k_mem s3) d (4096 * r') =
    if decide (r' = q) then user_pte w else pte_of (k_mem s1) d (4096 * r')) as Hp.
  { intros r' Hr'. by rewrite Hpte, Hpte2, vpn_page by lia. }
  assert (forall r', q0 <= r' < q -> exists v, v <> w /\ page_ok v /\
    pte_of (k_mem s1) d (4096 * r') = user_pte v) as Hv.
  { intros r' Hr'. destruct (gr_new _ _ _ _ _ _ _ Hg r' Hr') as (v & _ & Ev & Hup).
    exists v. split_and!; [|apply Hup|done]. intros ->. apply (up_used _ _ _ _ Hup). left. }
  split.
  - eapply vm_inv_irrel; [apply Hext|done..].
  - intros r' Hr'. change (k_mem (counted s3 w)) with (k_mem s3). rewrite Hp by done. case_decide as E.
    + exists w. split_and!; [apply (gr_sub _ _ _ _ _ _ _ Hg); left|done..].
    + destruct (gr_new _ _ _ _ _ _ _ Hg r') as (v & ? & ? & Hup); [lia|]. exists v. split_and!; try done.
      eapply step_keeps; [done..|]. eapply step_count; [done..|apply Hup|].
      intros ->. apply (up_used _ _ _ _ Hup). left.
  - intros r1 r2 H1 H2. change (k_mem (counted s3 w)) with (k_mem s3). rewrite !Hp by done.
    repeat case_decide; subst; try done.
    + destruct (Hv r2) as (v & ? & ? & ->); [lia|]. intros E%user_pte_inj; done || congruence.
    + destruct (Hv r1) as (v & ? & ? & ->); [lia|]. intros E%user_pte_inj; done || congruence.
    + apply (gr_inj _ _ _ _ _ _ _ Hg); lia.
  - intros va Hva. change (k_mem (counted s3 w)) with (k_mem s3).
    rewrite Hpte, decide_False, Hpte2 by lia. apply (gr_old _ _ _ _ _ _ _ Hg). lia.
  - intros a Ha1 Ha2. change (k_mem (counted s3 w)) with (k_mem s3).
    rewrite (step_mem _ _ _ _ _ _ _ Hinv1 Hk Hext).
    + by apply (gr_mem _ _ _ _ _ _ _ Hg).
    + intros [?|?]%(gr_uses _ _ _ _ _ _ _ Hg); done.
    + intros Hx%(gr_sub _ _ _ _ _ _ _ Hg). done.
  - intros f Hf Hn. cbn [k_cow counted set_k_cow]. destruct (page_ok_frame w Hw) as [Hfw _].
    rewrite count_at_insert by done. rewrite decide_False.
    + rewrite (pe_cow _ _ _ _ _ Hext). by apply (gr_cow _ _ _ _ _ _ _ Hg).
    + intros <-. apply Hn. rewrite Z.sub_add. apply (gr_sub _ _ _ _ _ _ _ Hg). left.
  - intros v Hv3. apply (gr_sub _ _ _ _ _ _ _ Hg). right. auto.
  - intros f [Hf|Hf]%HU3; [by apply (gr_uses _ _ _ _ _ _ _ Hg)|].
    right. apply (gr_sub _ _ _ _ _ _ _ Hg). by right.
  - cbn. rewrite (pe_locks _ _ _ _ _ Hext). apply Hg.
Qed.

(** Growing when the memory runs out: page tables may have been added, but
    the view is the old one. *)
Lemma grown_nomap d s fl q0 q s1 w fl2 r s3 fl3 :
  grown d s fl q0 q s1 (w :: fl2) -> kmem_wf (set_k_freelist r s1) fl2 ->
  pt_ext d (taken s1 w r) fl2 s3 fl3 ->
  (forall va, pte_of (k_mem s3) d va = pte_of (k_mem (taken s1 w r)) d va) ->
  grown d s fl q0 q s3 fl3.
Proof.
  intros Hg Hk Hext Hpte. pose proof (gr_inv _ _ _ _ _ _ _ Hg) as Hinv1.
  destruct (vm_inv_taken _ _ _ _ _ Hinv1 Hk) as (_ & _ & Hpte2 & _).
  destruct (step_facts _ _ _ _ _ _ _ Hinv1 Hk Hext) as (Hw & Hn2 & Hsub3 & HU3).
  split.
  - apply Hext.
  - intros r' Hr'. destruct (gr_new _ _ _ _ _ _ _ Hg r') as (v & ? & E & Hup); [done|]. exists v.
    rewrite Hpte, Hpte2. split_and!; try done. eapply step_keeps; try done. by rewrite (pe_cow _ _ _ _ _ Hext).
  - intros r1 r2. rewrite !Hpte, !Hpte2. apply (gr_inj _ _ _ _ _ _ _ Hg).
  - intros va Hva. rewrite Hpte, Hpte2. by apply (gr_old _ _ _ _ _ _ _ Hg).
  - intros a Ha1 Ha2. rewrite (step_mem _ _ _ _ _ _ _ Hinv1 Hk Hext).
    + by apply (gr_mem _ _ _ _ _ _ _ Hg).
    + intros [?|?]%(gr_uses _ _ _ _ _ _ _ Hg); done.
    + intros Hx%(gr_sub _ _ _ _ _ _ _ Hg). done.
  - intros f Hf Hn. rewrite (pe_cow _ _ _ _ _ Hext). by apply (gr_cow _ _ _ _ _ _ _ Hg).
  - intros v Hv3. apply (gr_sub _ _ _ _ _ _ _ Hg). right. auto.
  - intros f [Hf|Hf]%HU3; [by apply (gr_uses _ _ _ _ _ _ _ Hg)|].
    right. apply (gr_sub _ _ _ _ _ _ _ Hg). by right.
  - rewrite (pe_locks _ _ _ _ _ Hext). apply Hg.
Qed.

Lemma grown_out d s fl q0 q s' fl' o :
  grown d s fl q0 q s' fl' -> grown d s fl q0 q (set_k_out o s') fl'.
Proof.
  intros [? Hnew ? ? ? ? ? ? ?]. split; try done.
  - by eapply vm_inv_irrel.
  - intros r Hr. destruct (Hnew r Hr) as (w & ? & ? & [? ? ? ? ?]). by exists w.
Qed.

(** What a failed growth leaves. *)
Record grow_failed (d : Z) (s : kstate) (fl : list Z) (s' : kstate) (fl' : list Z) : Prop := {
  gf_inv : vm_inv d s' fl';
  gf_pte : forall va, pte_of (k_mem s') d va = pte_of (k_mem s) d va;
  gf_mem : forall a, ~ uses (k_mem s) d (frame_of a) -> frame_of a + KERNBASE ∉ fl ->
    ld8 (k_mem s') a = ld8 (k_mem s) a;
  gf_locks : k_locks s' = k_locks s;
}.

(** The pages added so far have a reference, so unmapping frees none of them. *)
Lemma grown_dealloc_pre d s fl q0 q q1 s1 fl1 :
  0 <= q0 <= q -> q <= q1 <= 524288 -> grown d s fl q0 q s1 fl1 -> LK_cow ∉ k_locks s ->
  (forall va, q0 <= vpn va < q1 -> pte_of (k_mem s) d va = 0) ->
  dealloc_pre d s1 fl1 q0 q1 /\ dead_pages s1 d q0 q1 = [].
Proof.
  intros Hq Hq1 Hg Hl Habs.
  assert (forall r, q0 <= r < q1 -> has (pte_of (k_mem s1) d (4096 * r)) PTE_P = true ->
    exists w, pte_of (k_mem s1) d (4096 * r) = user_pte w /\ user_page d s1 fl1 w) as Hw.
  { intros r Hr HP. destruct (decide (r < q)) as [Hrq|Hrq].
    - destruct (gr_new _ _ _ _ _ _ _ Hg r) as (w & _ & ? & ?); [lia|]. eauto.
    - rewrite (gr_old _ _ _ _ _ _ _ Hg), Habs in HP; rewrite ?vpn_page; (done || lia). }
  assert (forall w, page_ok w -> PTE_ADDR (user_pte w) = w - KERNBASE /\ 0 < w - KERNBASE) as Ha.
  { intros w [[Ha Hr] ?]%page_ok_frame. split; [|done]. unfold user_pte. rewrite <- Z.lor_assoc.
    apply PTE_ADDR_lor; [unfold PHYSTOP in *; lia|done|done]. }
  assert (dead_pages s1 d q0 q1 = []) as Hd.
  { apply dead_pages_skip. intros r Hr. unfold dead_page.
    destruct (has (pte_of (k_mem s1) d (4096 * r)) PTE_P) eqn:HP; [|done].
    destruct (Hw r Hr HP) as (w & -> & Hup). destruct (Ha w) as [-> _]; [apply Hup|].
    by rewrite (up_count _ _ _ _ Hup). }
  split; [|done]. split; rewrite ?Hd.
  - apply Hg.
  - by rewrite (gr_locks _ _ _ _ _ _ _ Hg).
  - intros r Hr HP. destruct (Hw r Hr HP) as (w & -> & Hup). destruct (Ha w) as [-> ?]; [apply Hup|]. lia.
  - constructor.
  - apply (vi_kmem _ _ _ (gr_inv _ _ _ _ _ _ _ Hg)).
  - by intros v ?%not_elem_of_nil.
Qed.

(** Taking the pages back out of the address space. *)
Lemma grown_unmapped d s fl q0 q q1 s1 fl1 s2 :
  0 <= q0 <= q -> q <= q1 <= 524288 -> grown d s fl q0 q s1 fl1 -> LK_cow ∉ k_locks s ->
  (forall va, q0 <= vpn va < q1 -> pte_of (k_mem s) d va = 0) ->
  unmapped d s1 fl1 q0 q1 s2 -> grow_failed d s fl s2 fl1.
Proof.
  intros Hq Hq1 Hg Hl Habs Hu.
  destruct (grown_dealloc_pre d s fl q0 q q1 s1 fl1) as [_ Hd]; [done..|].
  destruct Hu as [Hi Hp _ HU Hm _ _ Hk]. rewrite Hd in Hi, Hm. split.
  - done.
  - intros va. rewrite Hp. case_decide as Hr.
    + rewrite Habs by done. destruct (decide (vpn va < q)).
      * destruct (gr_new _ _ _ _ _ _ _ Hg (vpn va)) as (w & _ & E & _); [lia|].
        rewrite (pte_of_vpn _ _ va (4096 * vpn va)) by (rewrite vpn_page; lia). rewrite E.
        unfold cleared, user_pte. by rewrite has_lor, orb_true_r.
      * rewrite (gr_old _ _ _ _ _ _ _ Hg), Habs by lia. done.
    + apply (gr_old _ _ _ _ _ _ _ Hg). lia.
  - intros a Ha1 Ha2. rewrite Hm.
    + by apply (gr_mem _ _ _ _ _ _ _ Hg).
    + intros [?|?]%(gr_uses _ _ _ _ _ _ _ Hg); done.
    + apply not_elem_of_nil.
  - rewrite Hk. apply Hg.
Qed.

Lemma grow_failed_kfree d s fl s' fl' w :
  grow_failed d s fl s' fl' -> page_ok w -> w ∉ fl' -> ~ uses (k_mem s') d (w - KERNBASE) -> w ∈ fl ->
  grow_failed d s fl (set_k_freelist w (set_k_mem (freed_mem (k_mem s') w (k_freelist s')) s')) (w :: fl').
Proof.
  intros [Hi Hp Hm Hl] Hw Hn Hu Hin. destruct (vm_inv_kfree d s' fl' w) as [Hi' Hm']; [done..|].
  split; [done| |intros a Ha1 Ha2|done].
  - intros va. rewrite <- Hp. apply same_tables; [apply Hi|]. intros a Ha. apply Hm'. congruence.
  - rewrite Hm'; [by apply Hm|]. intros E. apply Ha2. by rewrite E, Z.sub_add.
Qed.

(** The two ends of a failed growth: the pages already added are unmapped, and
    the page that could not be mapped goes back to the allocator. *)
Lemma wp_grow_undo d s fl oldsz newsz q s1 fl1 (Q : Z -> kstate -> Prop) :
  let q0 := (oldsz + 4095) / 4096 in
  let q1 := (newsz + 4095) / 4096 in
  0 <= oldsz < newsz -> newsz <= KERNBASE -> q0 <= q <= q1 -> grown d s fl q0 q s1 fl1 ->
  LK_cow ∉ k_locks s -> (forall va, q0 <= vpn va < q1 -> pte_of (k_mem s) d va = 0) ->
  (forall s2, grow_failed d s fl s2 fl1 -> unmapped d s1 fl1 q0 q1 s2 -> Q oldsz s2) ->
  wp (deallocuvm (d + KERNBASE) newsz oldsz) Q s1.
Proof.
  intros q0 q1 Hsz Hk Hq Hg Hl Habs HQ. unfold KERNBASE in Hk.
  assert (0 <= q0 /\ q1 <= 524288) as [? ?] by (unfold q0, q1; Z.div_mod_to_equations; lia).
  apply (wp_deallocuvm d s1 fl1); fold q0 q1; [done|done| |].
  - by apply (grown_dealloc_pre d s fl q0 q q1 s1 fl1); try lia.
  - intros s2 Hu. apply HQ; [|done]. by apply (grown_unmapped d s fl q0 q q1 s1 fl1 s2); try lia.
Qed.

Lemma wp_allocuvm d s fl oldsz newsz (Q : Z -> kstate -> Prop) :
  let q0 := (oldsz + 4095) / 4096 in
  let q1 := (newsz + 4095) / 4096 in
  0 <= oldsz <= newsz -> newsz < KERNBASE -> vm_inv d s fl -> LK_cow ∉ k_locks s -> console_free s ->
  (forall va, q0 <= vpn va < q1 -> pte_of (k_mem s) d va = 0) ->
  (forall s' fl', grown d s fl q0 q1 s' fl' -> Q newsz s') ->
  (forall s' fl', grow_failed d s fl s' fl' -> (length fl' <= 1)%nat -> Q 0 s') ->
  wp (allocuvm (d + KERNBASE) oldsz newsz) Q s.
Proof.
  intros q0 q1 Hsz Hk Hinv Hl [Hlc Hpan] Habs HQ1 HQ0. unfold allocuvm. zb. cbv zeta.
  unfold KERNBASE in Hk. rewrite PGROUNDUP_spec by lia. fold q0. rewrite (Z.mul_comm q0).
  assert (0 <= q0 <= q1 /\ q1 <= 524288) as [Hq01 Hq1] by (unfold q0, q1; Z.div_mod_to_equations; lia).
  apply (wp_iter (fun a s' => exists q fl', a = 4096 * q /\ q0 <= q <= q1 /\ grown d s fl q0 q s' fl' /\ k_panicked s' = 0)
    (fun a => Z.to_nat ((newsz - a + PGSIZE - 1) / PGSIZE))); [|exists q0, fl|lia].
  2:{ split_and!; try lia. by apply grown_0. }
  intros a s1 (q & fl1 & -> & Hq & Hg & Hp1). unfold allocuvm_body.
  assert (4096 * q < newsz <-> q < q1) as Hlt by (unfold q1; Z.div_mod_to_equations; lia).
  destruct (Z.ltb_spec (4096 * q) newsz) as [Hlo|Hlo].
  2:{ kstep. apply (HQ1 _ fl1). by replace q1 with q by lia. }
  assert (oldsz < newsz) by (unfold q0 in Hq; Z.div_mod_to_equations; lia).
  kstep. eapply wp_kalloc; [apply Hg|apply Hg|]. destruct fl1 as [|w fl2].
  { zb. kstep. apply wp_cprintfln; [done|split; [by rewrite (gr_locks _ _ _ _ _ _ _ Hg)|done]|]. intros o.
    kstep. apply (wp_grow_undo d s fl oldsz newsz q _ []); fold q0 q1; [lia|unfold KERNBASE; lia|lia| |done|done|].
    - by apply grown_out.
    - intros s2 Hf _. kstep. apply (HQ0 _ []); [done|simpl; lia]. }
  intros r Hz Hw Hn Hkm. zb. destruct (page_ok_frame w Hw) as [(Ha & Hlo' & Hhi') _].
  kstep. kstep; [apply page_ok_kptr in Hw; lia|]. fold (taken s1 w r).
  rewrite V2P_spec by (unfold PHYSTOP, KERNBASE in *; lia). kstep.
  destruct (vm_inv_taken _ _ _ _ _ (gr_inv _ _ _ _ _ _ _ Hg) Hkm) as (Hinv2 & Hnu & Hpte2 & _).
  apply (wp_keep k_panicked); [frame_solve|].
  apply (wp_map_page d fl2); [done|lia|done|unfold PHYSTOP in *; lia|done| |..].
  { rewrite Hpte2, (gr_old _ _ _ _ _ _ _ Hg), Habs by (rewrite vpn_page; lia). done. }
  - intros s3 fl3 Hext Hpte _ Hp3. zb. kstep.
    eapply wp_of_run; [apply set_count_run; rewrite (pe_locks _ _ _ _ _ Hext); cbn; by rewrite (gr_locks _ _ _ _ _ _ _ Hg)|].
    kstep. rewrite u32_small by (unfold PGSIZE; lia). replace (4096 * q + PGSIZE) with (4096 * (q + 1)) by (unfold PGSIZE; lia).
    split; [|unfold PGSIZE; Z.div_mod_to_equations; lia].
    exists (q + 1), fl3. change (u8 1) with 1. fold (counted s3 w). split_and!; [done|lia|lia| |exact (eq_trans Hp3 Hp1)].
    eapply grown_step; try done; lia.
  - intros s3 Hext Hpte _ _ Hp3. zb. kstep.
    apply wp_cprintfln; [done|split; [rewrite (pe_locks _ _ _ _ _ Hext); cbn; by rewrite (gr_locks _ _ _ _ _ _ _ Hg)|exact (eq_trans Hp3 Hp1)]|].
    intros o. kstep.
    assert (grown d s fl q0 q s3 []) as Hg3 by (by eapply grown_nomap).
    assert (~ uses (k_mem s3) d (w - KERNBASE)) as Hnu3.
    { destruct (step_facts _ _ _ _ _ _ _ (gr_inv _ _ _ _ _ _ _ Hg) Hkm Hext) as (_ & Hn2 & _ & HU).
      intros [Hx|Hx]%HU; [|by rewrite Z.sub_add in Hx].
      apply (vi_sep _ _ _ (gr_inv _ _ _ _ _ _ _ Hg) _ Hx). rewrite Z.sub_add. left. }
    apply (wp_grow_undo d s fl oldsz newsz q _ []); fold q0 q1; [lia|unfold KERNBASE; lia|lia| |done|done|].
    + by apply grown_out.
    + intros s2 Hf Hu. kstep. eapply wp_kfree; [apply Hf|apply Hf|done|apply not_elem_of_nil|].
      intros s4 _. kstep. apply (HQ0 _ [w]); [|simpl; lia].
      eapply (grow_failed_kfree d s fl s2 [] w); [done|done|apply not_elem_of_nil| |].
      * by rewrite (um_uses _ _ _ _ _ _ Hu).
      * apply (gr_sub _ _ _ _ _ _ _ Hg). left.
Qed.

End alloc.

(** ** Statements about the functions *)

Section alloc_theorems.
Context `{KernelImage}.

(** Mapping a range: mappages returns 0 after entering exactly the pages of
    the range, mapped to consecutive frames with the given permissions, or -1
    after entering a prefix of them when no page is left for a page table; no
    other entry, and no memory outside the page tables, changes. *)
Theorem mappages_maps d fl va size pa perm s :
  let p0 := va / 4096 in
  let n := (va + size - 1) / 4096 - va / 4096 + 1 in
  vm_inv d s fl ->
  0 <= va -> 1 <= size -> va + size <= 4294967296 ->
  pa mod 4096 = 0 -> 0 <= pa -> pa + 4096 * (n - 1) <= 4294963200 -> 0 <= perm < 4096 ->
  (forall va', p0 <= vpn va' < p0 + n -> has (pte_of (k_mem s) d va') PTE_P = false) ->
  exists r s' fl' k, mappages (d + KERNBASE) va size pa perm s = Ret r s' /\
    pt_ext d s fl s' fl' /\ mapped (k_mem s) (k_mem s') d p0 k pa perm /\
    ((r = 0 /\ k = n) \/ (r = -1 /\ 0 <= k < n /\ fl' = [])).
Proof.
  intros p0 n Hinv Hva Hsz Hend Hpa Hpa0 Hpan Hperm Habs.
  enough (wp (mappages (d + KERNBASE) va size pa perm) (fun r s' => exists fl' k,
    pt_ext d s fl s' fl' /\ mapped (k_mem s) (k_mem s') d p0 k pa perm /\
    ((r = 0 /\ k = n) \/ (r = -1 /\ 0 <= k < n /\ fl' = []))) s)
    as (r & s' & ? & fl' & k & ?)%wp_inv by (by exists r, s', fl', k).
  apply (wp_mappages d fl); try done. intros r s' fl' k Hext Hmap Hr _. exists fl', k. tauto.
Qed.

(** C15. Growing an address space: every new page is mapped writable for the
    user to a page of its own that is zero-filled, was free, and now has one
    reference; or allocuvm returns 0 because the allocator ran out of pages, and
    then the address space is as it was.  Nothing else changes. *)
Theorem allocuvm_grows d s fl oldsz newsz :
  let q0 := (oldsz + 4095) / 4096 in
  let q1 := (newsz + 4095) / 4096 in
  0 <= oldsz <= newsz -> newsz < KERNBASE -> vm_inv d s fl -> LK_cow ∉ k_locks s -> console_free s ->
  (forall va, q0 <= vpn va < q1 -> pte_of (k_mem s) d va = 0) ->
  exists r s' fl', allocuvm (d + KERNBASE) oldsz newsz s = Ret r s' /\
    ((r = newsz /\ grown d s fl q0 q1 s' fl') \/
     (r = 0 /\ grow_failed d s fl s' fl' /\ (length fl' <= 1)%nat)).
Proof.
  intros q0 q1 Hsz Hk Hinv Hl Hlc Habs.
  enough (wp (allocuvm (d + KERNBASE) oldsz newsz) (fun r s' => exists fl',
    (r = newsz /\ grown d s fl q0 q1 s' fl') \/
    (r = 0 /\ grow_failed d s fl s' fl' /\ (length fl' <= 1)%nat)) s)
    as (r & s' & ? & fl' & ?)%wp_inv by (by exists r, s', fl').
  apply (wp_allocuvm d s fl); try done.
  - intros s' fl' ?. exists fl'. by left.
  - intros s' fl' ? ?. exists fl'. by right.
Qed.

(** Shrinking an address space: deallocuvm returns the new size, the pages
    between the two sizes are gone from the address space, and exactly those of
    them whose reference count is 0 are given back to the allocator. *)
Theorem deallocuvm_unmaps d s fl oldsz newsz :
  let q0 := (newsz + 4095) / 4096 in
  let q1 := (oldsz + 4095) / 4096 in
  0 <= newsz < oldsz -> oldsz <= KERNBASE -> dealloc_pre d s fl q0 q1 ->
  exists s', deallocuvm (d + KERNBASE) oldsz newsz s = Ret newsz s' /\ unmapped d s fl q0 q1 s'.
Proof.
  intros q0 q1 Hn Ho Hpre.
  enough (wp (deallocuvm (d + KERNBASE) oldsz newsz) (fun r s' => r = newsz /\ unmapped d s fl q0 q1 s') s)
    as (r & s' & ? & -> & ?)%wp_inv by (by exists s').
  apply (wp_deallocuvm d s fl); [done..|]. intros s' Hu. by split.
Qed.

(** The pages of a grown address space are never given back: after
    allocuvm has grown an address space, deallocuvm to the old size unmaps the
    new pages again, but the free list stays what it was after the growth. *)
Theorem shrink_gives_no_page_back d s fl oldsz newsz s' fl' :
  let q0 := (oldsz + 4095) / 4096 in
  let q1 := (newsz + 4095) / 4096 in
  0 <= oldsz < newsz -> newsz < KERNBASE -> LK_cow ∉ k_locks s ->
  (forall va, q0 <= vpn va < q1 -> pte_of (k_mem s) d va = 0) ->
  grown d s fl q0 q1 s' fl' ->
  exists s'', deallocuvm (d + KERNBASE) newsz oldsz s' = Ret oldsz s'' /\
    grow_failed d s fl s'' fl'.
Proof.
  intros q0 q1 Hsz Hk Hl Habs Hg.
  assert (q0 <= q1) by (unfold q0, q1; Z.div_mod_to_equations; lia).
  enough (wp (deallocuvm (d + KERNBASE) newsz oldsz) (fun r t => r = oldsz /\ grow_failed d s fl t fl') s')
    as (r & t & ? & -> & ?)%wp_inv by (by exists t).
  apply (wp_grow_undo d s fl oldsz newsz q1 s' fl'); [lia|lia|lia|done..|].
  intros s2 Hf _. by split.
Qed.

End alloc_theorems.

(** A boolean version of the precondition, for concrete states. *)
Definition dealloc_preb `{KernelImage} (d : Z) (s : kstate) (fl : list Z) (q0 q1 : Z) : bool :=
  let dead := dead_pages s d q0 q1 in
  vm_invb d s fl && bool_decide (LK_cow ∉ k_locks s) &&
  forallb (fun q => let v := pte_of (k_mem s) d (4096 * q) in
                    negb (has v PTE_P) || negb (PTE_ADDR v =? 0)) (seqZ q0 (q1 - q0)) &&
  forallb page_okb dead && bool_decide (NoDup (dead ++ fl)) &&
  forallb (fun v => bool_decide (v - KERNBASE ∉ d :: tables (k_mem s) d)) dead.

Lemma dealloc_preb_spec `{KernelImage} d s fl q0 q1 :
  dealloc_preb d s fl q0 q1 = true -> dealloc_pre d s fl q0 q1.
Proof.
  unfold dealloc_preb. cbv zeta. rewrite !andb_true_iff, !bool_decide_eq_true, !forallb_forall.
  intros (((((Hi & Hl) & Hnz) & Hok) & Hnd) & Hsep).
  split; [by apply vm_invb_spec|done| | |done|].
  - intros q Hq HP E. assert (q ∈ seqZ q0 (q1 - q0)) as Hin by (apply elem_of_seqZ; lia).
    specialize (Hnz q). rewrite HP, E in Hnz. discriminate Hnz. by apply list_elem_of_In.
  - apply Forall_forall. intros v Hv. by apply page_okb_spec, Hok, list_elem_of_In.
  - intros v Hv Hu%uses_tables. specialize (Hsep v). rewrite bool_decide_eq_true in Hsep.
    apply Hsep; [by apply list_elem_of_In|done].
Qed.

Section alloc_witnesses.
#[local] Existing Instance sample_image.

Lemma mappages_maps_witness :
  exists r s' fl' k, mappages (0x300000 + KERNBASE) 0x1000 0x2000 0x3000 PTE_U (sample_state 0 0 0) = Ret r s' /\
    pt_ext 0x300000 (sample_state 0 0 0) [0x80200000; 0x80201000] s' fl' /\
    mapped (k_mem (sample_state 0 0 0)) (k_mem s') 0x300000 1 k 0x3000 PTE_U /\
    ((r = 0 /\ k = 2) \/ (r = -1 /\ 0 <= k < 2 /\ fl' = [])).
Proof.
  apply (mappages_maps 0x300000 [0x80200000; 0x80201000] 0x1000 0x2000 0x3000 PTE_U); try done.
  - apply vm_invb_spec. vm_compute. reflexivity.
  - intros va Hva. rewrite (pages_zero _ _ 1 2); [done|vm_compute; reflexivity|exact Hva|done].
Defined.

Lemma allocuvm_grows_witness :
  exists r s' fl', allocuvm (0x300000 + KERNBASE) 0 0x1800 (sample_state 0 0 0) = Ret r s' /\
    ((r = 0x1800 /\ grown 0x300000 (sample_state 0 0 0) [0x80200000; 0x80201000] 0 2 s' fl') \/
     (r = 0 /\ grow_failed 0x300000 (sample_state 0 0 0) [0x80200000; 0x80201000] s' fl' /\
      (length fl' <= 1)%nat)).
Proof.
  apply (allocuvm_grows 0x300000 (sample_state 0 0 0) [0x80200000; 0x80201000] 0 0x1800); try done.
  - apply vm_invb_spec. vm_compute. reflexivity.
  - apply not_elem_of_nil.
  - split; [apply not_elem_of_nil|reflexivity].
  - intros va Hva. apply (pages_zero _ _ 0 2); [vm_compute; reflexivity|exact Hva|done].
Defined.

Lemma deallocuvm_unmaps_witness :
  exists s', deallocuvm (0x300000 + KERNBASE) 0x1000 0 (sample_state 0x202007 0 0x1000) = Ret 0 s' /\
    unmapped 0x300000 (sample_state 0x202007 0 0x1000) [0x80200000; 0x80201000] 0 1 s'.
Proof.
  apply (deallocuvm_unmaps 0x300000 (sample_state 0x202007 0 0x1000) [0x80200000; 0x80201000] 0x1000 0);
    [done|done|]. apply dealloc_preb_spec. vm_compute. reflexivity.
Defined.

Lemma sample_grown :
  exists s' fl', grown 0x300000 (sample_state 0 0 0) [0x80200000; 0x80201000] 0 2 s' fl'.
Proof.
  set (s := sample_state 0 0 0).
  assert (wp (allocuvm (0x300000 + KERNBASE) 0 0x1800) (fun r s' =>
    (exists fl', grown 0x300000 s [0x80200000; 0x80201000] 0 2 s' fl') \/ r = 0) s)
    as (r & s' & Hrun & [[fl' Hg]|Hr])%wp_inv; [|by eauto|].
  - apply (wp_allocuvm 0x300000 s [0x80200000; 0x80201000]); try done.
    + apply vm_invb_spec. vm_compute. reflexivity.
    + apply not_elem_of_nil.
    + split; [apply not_elem_of_nil|reflexivity].
    + intros va Hva. apply (pages_zero _ _ 0 2); [vm_compute; reflexivity|exact Hva|done].
    + intros s' fl' Hg. left. by exists fl'.
    + by right.
  - assert (match allocuvm (0x300000 + KERNBASE) 0 0x1800 s with Ret r _ => r | _ => 0 end = 0x1800) as E
      by (vm_compute; reflexivity).
    rewrite Hrun in E. lia.
Qed.

Lemma shrink_gives_no_page_back_witness :
  exists s' fl' s'', grown 0x300000 (sample_state 0 0 0) [0x80200000; 0x80201000] 0 2 s' fl' /\
    deallocuvm (0x300000 + KERNBASE) 0x1800 0 s' = Ret 0 s'' /\
    grow_failed 0x300000 (sample_state 0 0 0) [0x80200000; 0x80201000] s'' fl'.
Proof.
  destruct sample_grown as (s' & fl' & Hg). exists s', fl'.
  destruct (shrink_gives_no_page_back 0x300000 (sample_state 0 0 0) [0x80200000; 0x80201000] 0 0x1800 s' fl')
    as (s'' & Hrun & Hf).
  - done.
  - done.
  - apply not_elem_of_nil.
  - intros va Hva. apply (pages_zero _ _ 0 2); [vm_compute; reflexivity|exact Hva|done].
  - exact Hg.
  - exact (ex_intro _ s'' (conj Hg (conj Hrun Hf))).
Defined.

End alloc_witnesses.
