(* ===== verification/VmFork.v ===== *)
(** * Creating, sharing and freeing whole address spaces (vm.c)

    [freevm] gives back every frame of a directory; [setupkvm] builds a
    directory with the kernel's mappings or gives everything back; [copyuvm]
    shares the pages of a parent copy-on-write with a new directory. *)

From S2P Require Import Prelude Mmu Mem State Kernel Kalloc Vm VmSample VmAlloc.

(** ** freevm *)

Section freevm.
Context `{KernelImage}.

(** Kernel address of the page table at directory index [i]. *)
Definition table_page (m : gmap Z Z) (d i : Z) : option Z :=
  if has (pde m d i) PTE_P then Some (PTE_ADDR (pde m d i) + KERNBASE) else None.

Definition table_pages (m : gmap Z Z) (d i : Z) : list Z :=
  reverse (omap (table_page m d) (seqZ 0 i)).

Lemma table_pages_0 m d : table_pages m d 0 = [].
Proof. done. Qed.

Lemma table_pages_succ m d i :
  0 <= i -> table_pages m d (i + 1) = option_list (table_page m d i) ++ table_pages m d i.
Proof.
  intros Hi. unfold table_pages. rewrite seqZ_app, omap_app, reverse_app by lia. f_equal.
  rewrite (seqZ_cons _ 1), (seqZ_nil _ (Z.pred 1)), Z.add_0_l by lia. cbn. by destruct (table_page m d i).
Qed.

Lemma elem_of_table_pages m d i v :
  v ∈ table_pages m d i <->
  exists j, 0 <= j < i /\ has (pde m d j) PTE_P = true /\ v = PTE_ADDR (pde m d j) + KERNBASE.
Proof.
  unfold table_pages. rewrite elem_of_reverse, list_elem_of_omap. unfold table_page. split.
  - intros (j & Hj%elem_of_seqZ & Hv). destruct (has (pde m d j) PTE_P) eqn:E; [|done].
    exists j. split_and!; [lia|lia|done|congruence].
  - intros (j & Hj & E & ->). exists j. rewrite E. split; [apply elem_of_seqZ; lia|done].
Qed.

Lemma table_pages_ext m m' d n :
  (forall i, 0 <= i < n -> pde m' d i = pde m d i) -> table_pages m' d n = table_pages m d n.
Proof.
  intros Hm. unfold table_pages. f_equal. apply list_omap_ext, Forall_Forall2_diag, Forall_forall.
  intros i Hi%elem_of_seqZ. unfold table_page. by rewrite Hm by lia.
Qed.

#[local] Opaque dead_pages table_pages.

(** What freeing a directory relies on: its frames are pages of the allocator
    without references. *)
Record freevm_pre (d : Z) (s : kstate) (fl : list Z) : Prop := {
  fp_pages : dealloc_pre d s fl 0 524288;
  fp_tables : forall f, uses (k_mem s) d f -> page_ok (f + KERNBASE) /\ count_at (k_cow s) f = 0;
}.

(** The pages that [freevm] gives back, last one first. *)
Definition freevm_pages (s : kstate) (d : Z) : list Z :=
  (d + KERNBASE) :: table_pages (k_mem s) d 1024 ++ dead_pages s d 0 524288.

Record freed_vm (d : Z) (s : kstate) (fl : list Z) (s' : kstate) : Prop := {
  fv_kmem : kmem_wf s' (freevm_pages s d ++ fl);
  fv_mem : forall a, frame_of a + KERNBASE ∉ freevm_pages s d -> ld8 (k_mem s') a = ld8 (k_mem s) a;
  fv_cow : k_cow s' = k_cow s;
  fv_locks : k_locks s' = k_locks s;
}.

(** The loop over the directory, from the state [s1] after [deallocuvm]. *)
Record freeing (d : Z) (s1 : kstate) (fl1 : list Z) (i : Z) (s' : kstate) : Prop := {
  fg_kmem : kmem_wf s' (table_pages (k_mem s1) d i ++ fl1);
  fg_mem : forall a, frame_of a + KERNBASE ∉ table_pages (k_mem s1) d i -> ld8 (k_mem s') a = ld8 (k_mem s1) a;
  fg_cow : k_cow s' = k_cow s1;
  fg_locks : k_locks s' = k_locks s1;
}.

(** The directory itself is not among the freed tables. *)
Lemma dir_not_table m d i : pgdir_wf m d -> i <= 1024 -> d + KERNBASE ∉ table_pages m d i.
Proof.
  intros Hwf Hi (j & Hj & Hp & E)%elem_of_table_pages.
  destruct (wf_tab _ _ Hwf j) as [_ Hne]; [lia|done|]. apply Hne. lia.
Qed.

Lemma wp_freeing d s1 fl1 i (Q : unit -> kstate -> Prop) s' :
  vm_inv d s1 fl1 -> LK_cow ∉ k_locks s1 ->
  (forall f, uses (k_mem s1) d f -> page_ok (f + KERNBASE) /\ count_at (k_cow s1) f = 0) ->
  0 <= i < 1024 -> freeing d s1 fl1 i s' ->
  (forall s'', freeing d s1 fl1 (i + 1) s'' -> Q tt s'') ->
  wp (e ← kload32 (u32 (d + KERNBASE + 4 * i));
      if has e PTE_P then
        c ← get_count (PTE_ADDR e);
        if 0 <? c then mret tt else kfree (P2V (PTE_ADDR e))
      else mret tt) Q s'.
Proof.
  intros Hinv Hl Htab Hi [Hkm Hm Hc Hk] HQ. pose proof (vi_dir _ _ _ Hinv) as Hwf.
  destruct (dir_ptr d i) as [-> ?]; [apply Hwf|done|]. kstep. kstep; [done|]. rewrite Z.add_simpl_r.
  assert (pde (k_mem s') d i = pde (k_mem s1) d i) as Ep.
  { apply pde_ext; [done|]. intros a Ha. apply Hm. rewrite (frame_of_spec d) by (apply Hwf || done).
    apply dir_not_table; [done|lia]. }
  change (ld32 (k_mem s') (d + 4 * i)) with (pde (k_mem s') d i). rewrite Ep.
  pose proof (table_pages_succ (k_mem s1) d i ltac:(lia)) as Es. unfold table_page in Es.
  destruct (has (pde (k_mem s1) d i) PTE_P) eqn:HP.
  2:{ kstep. apply HQ. split; rewrite ?Es; done. }
  set (f := PTE_ADDR (pde (k_mem s1) d i)) in *.
  assert (uses (k_mem s1) d f) as Hu by (right; eauto). destruct (Htab f Hu) as [Hok Hc0].
  kstep. eapply wp_of_run; [apply get_count_run; by rewrite Hk|]. rewrite Hc, Hc0. zb.
  rewrite P2V_spec by (destruct (page_ok_frame _ Hok) as [(_ & ? & ?) _]; unfold PHYSTOP, KERNBASE in *; lia).
  assert (f + KERNBASE ∉ table_pages (k_mem s1) d i ++ fl1) as Hn.
  { apply not_elem_of_app. split; [|by apply (vi_sep _ _ _ Hinv)].
    intros (j & Hj & Hp & E)%elem_of_table_pages.
    assert (i = j); [|lia]. apply (wf_inj _ _ Hwf); [lia|lia|done|done|]. fold f. lia. }
  eapply wp_kfree; [done|rewrite Hk; apply Hinv|done|done|]. intros s'' Hkm'. apply HQ.
  split; [by rewrite Es|..|done|done].
  rewrite Es. intros a [Hne Ha]%not_elem_of_cons. rewrite <- (Hm a) by done. apply freed_mem_other.
  intros Hr. apply Hne. destruct (page_ok_frame _ Hok) as [[Hf _] _]. rewrite Z.add_simpl_r in Hr, Hf.
  by rewrite (frame_of_spec f).
Qed.

Lemma wp_freevm d s fl (Q : unit -> kstate -> Prop) :
  freevm_pre d s fl -> (forall s', freed_vm d s fl s' -> Q tt s') ->
  wp (freevm (d + KERNBASE)) Q s.
Proof.
  intros [Hpre Htab] HQ. pose proof (vi_dir _ _ _ (dp_inv _ _ _ _ _ Hpre)) as Hwf.
  unfold freevm. destruct (wf_dir _ _ Hwf) as (Hda & Hd0 & Hd1).
  rewrite (proj2 (Z.eqb_neq (d + KERNBASE) 0)) by (unfold KERNBASE; lia).
  kstep. apply (wp_deallocuvm d s fl); [done|done|done|]. intros s1 Hu.
  change ((0 + 4095) / 4096) with 0 in Hu. change ((KERNBASE + 4095) / 4096) with 524288 in Hu.
  pose proof (um_inv _ _ _ _ _ _ Hu) as Hinv1. pose proof (vi_dir _ _ _ Hinv1) as Hwf1.
  assert (table_pages (k_mem s1) d 1024 = table_pages (k_mem s) d 1024) as Et.
  { apply table_pages_ext. intros i Hi. apply pde_ext; [done|]. apply Hu. }
  kstep. apply (wp_for_each_seq (fun i s' => freeing d s1 (dead_pages s d 0 524288 ++ fl) (Z.of_nat i) s')).
  - intros i s' Hi Hf. apply (wp_freeing d s1 (dead_pages s d 0 524288 ++ fl)); try done.
    + rewrite (um_locks _ _ _ _ _ _ Hu). apply Hpre.
    + intros f Hf'. rewrite (um_cow _ _ _ _ _ _ Hu). apply Htab, (um_uses _ _ _ _ _ _ Hu), Hf'.
    + change (Z.to_nat NPDENTRIES) with 1024%nat in Hi. lia.
    + intros s'' Hf'. by replace (Z.of_nat (S i)) with (Z.of_nat i + 1) by lia.
  - split; [|done..]. change (Z.of_nat 0) with 0. rewrite table_pages_0, app_nil_l. apply (vi_kmem _ _ _ Hinv1).
  - change (Z.of_nat (Z.to_nat NPDENTRIES)) with 1024. intros s2 [Hkm Hm Hc Hk].
    rewrite Et in Hkm, Hm. destruct (Htab d) as [Hok _]; [by left|].
    eapply wp_kfree; [done|rewrite Hk; apply Hinv1|done| |].
    { apply not_elem_of_app. rewrite <- Et. split; [by apply dir_not_table|].
      apply (vi_sep _ _ _ Hinv1). by left. }
    intros s3 Hkm3. apply HQ. split; unfold freevm_pages.
    + rewrite <- app_comm_cons, <- app_assoc. exact Hkm3.
    + intros a [Hd [Ht Hdd]%not_elem_of_app]%not_elem_of_cons.
      transitivity (ld8 (k_mem s2) a).
      * apply freed_mem_other. rewrite Z.add_simpl_r. intros Hr. apply Hd. by rewrite (frame_of_spec d).
      * rewrite Hm by done. apply (um_mem _ _ _ _ _ _ Hu); [|done].
        intros [E|(i & Hi & Hp & E)]; [by rewrite E in Hd|]. apply Ht, elem_of_table_pages.
        exists i. by rewrite E.
    + cbn. rewrite Hc. apply Hu.
    + cbn. rewrite Hk. apply Hu.
Qed.

End freevm.

(** ** New directories *)

Section new_dir.
Context `{KernelImage}.

(** The directory in frame [d] was built in [s] from pages of the free list
    [fl], of which [fl'] are left. *)
Record new_dir (fl : list Z) (d : Z) (s : kstate) (fl' : list Z) : Prop := {
  nd_inv : vm_inv d s fl';
  nd_used : exists used, fl = used ++ fl' /\ forall f, uses (k_mem s) d f <-> f + KERNBASE ∈ used;
  nd_ok : Forall page_ok fl;
  nd_nodup : NoDup fl;
}.

Lemma new_dir_ext fl d s fl1 s' fl2 :
  new_dir fl d s fl1 -> pt_ext d s fl1 s' fl2 -> new_dir fl d s' fl2.
Proof.
  intros [Hi (u & -> & Hu) Hok Hnd] Hext. destruct (pe_used _ _ _ _ _ Hext) as (u' & -> & Hu').
  split; [apply Hext| |done|done]. exists (u ++ u'). split; [by rewrite app_assoc|].
  intros f. rewrite Hu', Hu, elem_of_app. tauto.
Qed.

Lemma new_dir_uses fl d s fl' f : new_dir fl d s fl' -> uses (k_mem s) d f -> f + KERNBASE ∈ fl.
Proof.
  intros [_ (u & -> & Hu) _ _] Hf. apply elem_of_app. left. by apply Hu.
Qed.

(** Freeing a new directory restores the free list up to its order. *)
Lemma wp_freevm_new fl d s fl' (Q : unit -> kstate -> Prop) :
  new_dir fl d s fl' -> LK_cow ∉ k_locks s ->
  (forall q, 0 <= q < 524288 -> has (pte_of (k_mem s) d (4096 * q)) PTE_P = true ->
     PTE_ADDR (pte_of (k_mem s) d (4096 * q)) <> 0 /\
     count_at (k_cow s) (PTE_ADDR (pte_of (k_mem s) d (4096 * q))) <> 0) ->
  (forall v, v ∈ fl -> count_at (k_cow s) (v - KERNBASE) = 0) ->
  (forall s' fl'', kmem_wf s' fl'' -> fl'' ≡ₚ fl ->
     (forall a, frame_of a + KERNBASE ∉ fl -> ld8 (k_mem s') a = ld8 (k_mem s) a) ->
     k_cow s' = k_cow s -> k_locks s' = k_locks s -> Q tt s') ->
  wp (freevm (d + KERNBASE)) Q s.
Proof.
  intros Hnew Hl Hpg Hc0 HQ. pose proof Hnew as [Hinv (u & Efl & Hu) Hok Hnd].
  assert (dead_pages s d 0 524288 = []) as Hd.
  { apply dead_pages_skip. intros q Hq. unfold dead_page.
    destruct (has (pte_of (k_mem s) d (4096 * q)) PTE_P) eqn:E; [|done].
    destruct (Hpg q Hq E) as [_ Hc]. by rewrite (proj2 (Z.eqb_neq _ 0)). }
  assert (forall v, v ∈ freevm_pages s d <-> v ∈ u) as Hin.
  { intros v. unfold freevm_pages. rewrite Hd, app_nil_r, elem_of_cons, elem_of_table_pages.
    pose proof (Hu (v - KERNBASE)) as Huv. rewrite Z.sub_add in Huv. rewrite <- Huv. unfold uses. split.
    - intros [->|(j & Hj & Hp & ->)]; rewrite Z.add_simpl_r; [by left|right; by exists j].
    - intros [E|(j & Hj & Hp & E)]; [left; lia|right; exists j; split_and!; [lia|lia|done|lia]]. }
  apply (wp_freevm d s fl').
  - split; [split|]; rewrite ?Hd.
    + done.
    + done.
    + intros q Hq Hp. by apply Hpg.
    + constructor.
    + rewrite app_nil_l. rewrite Efl in Hnd. by apply NoDup_app in Hnd as (_ & _ & ?).
    + by intros v ?%not_elem_of_nil.
    + intros f Hf. assert (f + KERNBASE ∈ fl) as Hfl by (by eapply new_dir_uses).
      rewrite Forall_forall in Hok. split; [by apply Hok|]. rewrite <- (Z.add_simpl_r f KERNBASE). by apply Hc0.
  - intros s' [Hkm Hm Hcw Hlk].
    assert (freevm_pages s d ++ fl' ≡ₚ fl) as Hperm.
    { rewrite Efl. f_equiv. apply NoDup_Permutation; [|rewrite Efl in Hnd; by apply NoDup_app in Hnd as (? & _)|done].
      destruct Hkm as (_ & _ & Hn). by apply NoDup_app in Hn as (? & _). }
    apply (HQ s' (freevm_pages s d ++ fl')); try done.
    intros a Ha. apply Hm. rewrite Hin. intros Hx. apply Ha. rewrite Efl. apply elem_of_app. by left.
Qed.

End new_dir.

(** ** setupkvm *)

Section setupkvm.
Context `{KernelImage}.

(** The entries of a table of regions: virtual start, physical start and end,
    permissions. *)
Fixpoint kmap_pte (ks : list (Z * Z * Z * Z)) (va : Z) : Z :=
  match ks with
  | [] => 0
  | (virt, phys_start, phys_end, perm) :: ks =>
      if decide (virt / 4096 <= vpn va < virt / 4096 + u32 (phys_end - phys_start) / 4096)
      then Z.lor (Z.lor (phys_start + 4096 * (vpn va - virt / 4096)) perm) PTE_P
      else kmap_pte ks va
  end.

Definition region_ok (k : Z * Z * Z * Z) : Prop :=
  let '(virt, phys_start, phys_end, perm) := k in
  let size := u32 (phys_end - phys_start) in
  virt mod 4096 = 0 /\ phys_start mod 4096 = 0 /\ size mod 4096 = 0 /\ 0 < size /\
  KERNBASE <= virt /\ virt + size <= 4294967296 /\ 0 <= phys_start /\ phys_start + size <= 4294967296 /\
  0 <= perm < 4096.

(** Regions [ks] can be mapped when the regions [done] already are. *)
Fixpoint regions_ok (done ks : list (Z * Z * Z * Z)) : Prop :=
  match ks with
  | [] => True
  | k :: ks => region_ok k /\ (forall va, kmap_pte [k] va <> 0 -> kmap_pte done va = 0) /\ regions_ok (k :: done) ks
  end.

Lemma kmap_sizes :
  u32 (EXTMEM - 0) = 0x100000 /\ u32 (V2P k_data - V2P KERNLINK) = k_data - KERNLINK /\
  u32 (PHYSTOP - V2P k_data) = KERNBASE + PHYSTOP - k_data /\ u32 (0 - DEVSPACE) = 0x2000000.
Proof.
  pose proof k_data_range. pose proof k_end_range.
  unfold KERNLINK, EXTMEM, KERNBASE in *.
  rewrite (V2P_spec k_data) by (unfold KERNBASE; lia).
  change (V2P (0x80000000 + 0x100000)) with 0x100000. unfold KERNBASE, PHYSTOP. split_and!; [done|..|done];
    rewrite u32_small by lia; lia.
Qed.

Lemma kmap_regions_ok : regions_ok [] kmap.
Proof.
  pose proof k_data_range. pose proof k_end_range. pose proof k_data_aligned.
  destruct kmap_sizes as (E1 & E2 & E3 & E4).
  unfold kmap, regions_ok, region_ok, kmap_pte. rewrite E1, E2, E3, E4.
  assert (V2P k_data = k_data - KERNBASE) as -> by (apply V2P_spec; unfold KERNLINK, KERNBASE, EXTMEM in *; lia).
  assert (V2P KERNLINK = 0x100000) as -> by done. clear E1 E2 E3 E4.
  unfold KERNLINK, KERNBASE, EXTMEM, PHYSTOP, DEVSPACE, PTE_W in *.
  split_and!; try done; try lia; try (Z.div_mod_to_equations; lia);
    intros va; repeat case_decide; try done; Z.div_mod_to_equations; lia.
Qed.

(** An all-zero directory maps nothing. *)
Lemma empty_dir s w r fl :
  kmem_wf s (w :: fl) -> LK_kmem ∉ k_locks s -> kmem_wf (set_k_freelist r s) fl ->
  new_dir (w :: fl) (w - KERNBASE) (taken s w r) fl /\
  forall va, pte_of (k_mem (taken s w r)) (w - KERNBASE) va = 0.
Proof.
  intros Hkm Hl Hkm'. pose proof Hkm as (_ & Hok & Hnd).
  pose proof Hok as [Hw _]%Forall_cons. pose proof Hnd as [Hn _]%NoDup_cons.
  destruct (page_ok_frame w Hw) as [Hf _]. destruct (taken_mem s w r Hw) as [Hm Hz].
  assert (forall i, 0 <= i < 1024 -> pde (k_mem (taken s w r)) (w - KERNBASE) i = 0) as Hp.
  { intros i Hi. unfold pde, ld32. rewrite <- !Z.add_assoc, !Hz by lia. done. }
  assert (forall f, uses (k_mem (taken s w r)) (w - KERNBASE) f <-> f + KERNBASE ∈ [w]) as Hu.
  { intros f. rewrite list_elem_of_singleton. unfold uses. split; [|left; lia].
    intros [->|(i & Hi & HP & _)]; [lia|]. by rewrite Hp in HP. }
  split.
  - split; [|by exists [w]|done|done]. split.
    + eapply (kmem_wf_ext (set_k_freelist r s)); [done|]. intros a v Hv Ha. apply Hm. intros E.
      apply Hn. by replace w with v by lia.
    + done.
    + split; [done|..].
      * intros i Hi HP. by rewrite Hp in HP.
      * intros i j Hi Hj HP. by rewrite Hp in HP.
    + intros f ->%Hu%list_elem_of_singleton. done.
  - intros va. unfold pte_of, pte_slot. by rewrite Hp by apply PDX_range.
Qed.

(** The regions mapped so far in a directory built in [s0]. *)
Record kmapped (s0 : kstate) (fl : list Z) (d : Z) (done : list (Z * Z * Z * Z)) (s : kstate) (fl' : list Z) : Prop := {
  km_new : new_dir fl d s fl';
  km_pte : forall va, pte_of (k_mem s) d va = kmap_pte done va;
  km_mem : forall a, frame_of a + KERNBASE ∉ fl -> ld8 (k_mem s) a = ld8 (k_mem s0) a;
  km_cow : k_cow s = k_cow s0;
  km_locks : k_locks s = k_locks s0;
}.

(** Nothing is left of a failed attempt. *)
Record undone (s : kstate) (fl : list Z) (s' : kstate) : Prop := {
  un_kmem : exists fl', kmem_wf s' fl' /\ fl' ≡ₚ fl;
  un_mem : forall a, frame_of a + KERNBASE ∉ fl -> ld8 (k_mem s') a = ld8 (k_mem s) a;
  un_cow : k_cow s' = k_cow s;
  un_locks : k_locks s' = k_locks s;
}.

Lemma kmap_pte_user done va :
  Forall region_ok done -> vpn va < 524288 -> kmap_pte done va = 0.
Proof.
  intros Hok Hva. induction Hok as [|[[[virt ps] pe] perm] done (Hv & _ & _ & _ & Hk & _) Hok IH]; [done|].
  cbn [kmap_pte]. rewrite decide_False; [done|]. unfold KERNBASE in Hk. Z.div_mod_to_equations. lia.
Qed.

Lemma regions_ok_Forall done ks : regions_ok done ks -> Forall region_ok ks.
Proof.
  revert done. induction ks as [|k ks IH]; intros done; [by constructor|].
  intros (Hk & _ & Hks). constructor; [done|by eapply IH].
Qed.

(** The kernel's regions are above the user part. *)
Lemma kmap_user va : vpn va < 524288 -> kmap_pte (rev kmap) va = 0.
Proof.
  intros Hva. apply kmap_pte_user; [|done]. apply Forall_rev.
  eapply regions_ok_Forall, kmap_regions_ok.
Qed.

(** Each region is mapped as the table says. *)
Lemma kmap_region virt ps pe perm o :
  (virt, ps, pe, perm) ∈ kmap -> 0 <= o < u32 (pe - ps) ->
  kmap_pte (rev kmap) (virt + o) = Z.lor (Z.lor (ps + 4096 * (o / 4096)) perm) PTE_P.
Proof.
  intros Hin Ho. pose proof k_data_range. pose proof k_end_range. pose proof k_data_aligned.
  destruct kmap_sizes as (E1 & E2 & E3 & E4).
  assert (u32 (virt + o) = virt + o /\ virt mod 4096 = 0) as [Eu Ev].
  { pose proof (regions_ok_Forall _ _ kmap_regions_ok) as Hok. rewrite Forall_forall in Hok.
    destruct (Hok _ Hin) as (? & _ & _ & _ & ? & ? & _). split; [apply u32_small|done]. unfold KERNBASE in *. lia. }
  assert (vpn (virt + o) = virt / 4096 + o / 4096) as Eq.
  { unfold vpn. rewrite Eu. Z.div_mod_to_equations. lia. }
  unfold kmap in *. cbn [rev app kmap_pte]. rewrite E1, E2, E3, E4, Eq. clear Eq Eu.
  unfold KERNLINK, KERNBASE, EXTMEM, PHYSTOP, DEVSPACE in *.
  repeat (apply elem_of_cons in Hin as [Hin|Hin]); [..|by apply not_elem_of_nil in Hin];
    injection Hin as -> -> -> ->; rewrite ?E1, ?E2, ?E3, ?E4 in Ho;
    repeat case_decide; first [do 3 f_equal; lia | exfalso; Z.div_mod_to_equations; lia].
Qed.

(** Giving up a directory whose user part is empty. *)
Lemma wp_setupkvm_undo s0 fl d s fl' (Q : unit -> kstate -> Prop) :
  new_dir fl d s fl' -> LK_cow ∉ k_locks s0 -> (forall v, v ∈ fl -> count_at (k_cow s0) (v - KERNBASE) = 0) ->
  (forall va, vpn va < 524288 -> pte_of (k_mem s) d va = 0) ->
  (forall a, frame_of a + KERNBASE ∉ fl -> ld8 (k_mem s) a = ld8 (k_mem s0) a) ->
  k_cow s = k_cow s0 -> k_locks s = k_locks s0 ->
  (forall s', undone s0 fl s' -> Q tt s') -> wp (freevm (d + KERNBASE)) Q s.
Proof.
  intros Hnew Hl Hc0 Hz Hm Hc Hk HQ. apply (wp_freevm_new fl d s fl'); [done|congruence| | |].
  - intros q Hq HP. by rewrite Hz in HP by (rewrite vpn_page; lia).
  - rewrite Hc. done.
  - intros s' fl'' Hkm Hp Hm' Hc' Hk'. apply HQ. split; [by exists fl''| |congruence|congruence].
    intros a Ha. rewrite Hm', Hm by done. done.
Qed.

(** The page tables that the regions can need. *)
Fixpoint region_tables (ks : list (Z * Z * Z * Z)) : Z :=
  match ks with
  | [] => 0
  | (virt, ps, pe, perm) :: ks => tables_for (virt / 4096) (u32 (pe - ps) / 4096) + region_tables ks
  end.

Lemma region_tables_nonneg ks : 0 <= region_tables ks.
Proof.
  induction ks as [|[[[virt ps] pe] perm] ks IH]; cbn [region_tables]; [lia|]. unfold tables_for.
  pose proof (u32_range (pe - ps)). zcase; Z.div_mod_to_equations; lia.
Qed.

(** All the regions but the devices lie in the first 224 Mbytes. *)
Lemma kmap_tables : region_tables kmap <= 66.
Proof.
  pose proof k_data_range. pose proof k_end_range. pose proof k_data_aligned. destruct kmap_sizes as (E1 & E2 & E3 & E4).
  unfold kmap. cbn [region_tables]. rewrite E1, E2, E3, E4. unfold tables_for, KERNLINK, KERNBASE, EXTMEM, PHYSTOP, DEVSPACE in *.
  repeat zcase; Z.div_mod_to_equations; lia.
Qed.

(** It fails only with [total] pages or less, and takes no more than that. *)
Lemma wp_setupkvm_loop s0 fl d total (Q : Z -> kstate -> Prop) ks :
  LK_cow ∉ k_locks s0 -> (forall v, v ∈ fl -> count_at (k_cow s0) (v - KERNBASE) = 0) ->
  (forall s', undone s0 fl s' -> Z.of_nat (length fl) <= total -> Q 0 s') ->
  forall done s fl', kmapped s0 fl d done s fl' -> Forall region_ok done -> regions_ok done ks ->
  Z.of_nat (length fl) <= Z.of_nat (length fl') + (total - region_tables ks) ->
  (forall s' fl', kmapped s0 fl d (rev ks ++ done) s' fl' -> Z.of_nat (length fl) <= Z.of_nat (length fl') + total -> Q (d + KERNBASE) s') ->
  wp (setupkvm_loop (d + KERNBASE) ks) Q s.
Proof.
  intros Hl Hc0 HQ0. induction ks as [|[[[virt ps] pe] perm] ks IH]; intros done s fl' Hkm Hd Hok Hcnt HQ; cbn [setupkvm_loop region_tables] in *.
  { kstep. apply (HQ s fl'); [done|lia]. }
  destruct Hok as (Hr & Hfree & Hok). pose proof Hr as (Hv & Hps & Hsz & Hpos & Hkb & Hend & Hps0 & Hpend & Hperm).
  set (size := u32 (pe - ps)) in *. pose proof (km_new _ _ _ _ _ _ Hkm) as Hnew.
  assert ((virt + size - 1) / 4096 - virt / 4096 + 1 = size / 4096) as En by (Z.div_mod_to_equations; lia).
  kstep. apply (wp_mappages_count d fl'); [apply Hnew|unfold KERNBASE in *; lia|lia|lia|done|lia| |done| |]; rewrite ?En.
  - Z.div_mod_to_equations. lia.
  - intros va Hva. rewrite (km_pte _ _ _ _ _ _ Hkm), Hfree; [done|].
    cbn [kmap_pte]. fold size. rewrite decide_True by done. rewrite Z.lor_comm. by apply Z_lor_P_ne.
  - intros r s' fl2 k Hext Hmap Hres _ Hc2.
    assert (forall a, frame_of a + KERNBASE ∉ fl -> ld8 (k_mem s') a = ld8 (k_mem s0) a) as Hm'.
    { intros a Ha. rewrite (pe_mem _ _ _ _ _ Hext); [by apply (km_mem _ _ _ _ _ _ Hkm)|].
      intros Hu. apply Ha. by eapply new_dir_uses; [eapply new_dir_ext|]. }
    destruct Hres as [[-> ->]|(-> & Hk & -> & _)]; zb.
    + apply (IH ((virt, ps, pe, perm) :: done) s' fl2); [|by constructor|done| |].
      * split; [by eapply new_dir_ext| |done|..].
        -- intros va. rewrite Hmap, (km_pte _ _ _ _ _ _ Hkm). done.
        -- rewrite (pe_cow _ _ _ _ _ Hext). apply Hkm.
        -- rewrite (pe_locks _ _ _ _ _ Hext). apply Hkm.
      * fold size in Hcnt. lia.
      * intros s2 fl3. cbn [rev] in HQ. rewrite <- app_assoc in HQ. apply HQ.
    + assert (Z.of_nat (length fl) <= total) as Htot.
      { pose proof (tables_for_mono (virt / 4096) k (size / 4096) ltac:(lia)). pose proof (region_tables_nonneg ks). cbn [length] in Hc2. fold size in Hcnt. lia. }
      kstep. apply (wp_setupkvm_undo s0 fl d s' []); try done.
      * by eapply new_dir_ext.
      * intros va Hva. rewrite Hmap, decide_False, (km_pte _ _ _ _ _ _ Hkm).
        -- by apply kmap_pte_user.
        -- unfold KERNBASE in Hkb. Z.div_mod_to_equations. lia.
      * rewrite (pe_cow _ _ _ _ _ Hext). apply Hkm.
      * rewrite (pe_locks _ _ _ _ _ Hext). apply Hkm.
      * intros s2 Hu. by apply HQ0.
Qed.

(** With the page for the directory. *)
Definition KVM_PAGES : Z := 67.

Lemma wp_setupkvm_count s fl (Q : Z -> kstate -> Prop) :
  kmem_wf s fl -> LK_kmem ∉ k_locks s -> LK_cow ∉ k_locks s ->
  (forall v, v ∈ fl -> count_at (k_cow s) (v - KERNBASE) = 0) ->
  (forall s', undone s fl s' -> Z.of_nat (length fl) <= KVM_PAGES -> Q 0 s') ->
  (forall d s' fl', kmapped s fl d (rev kmap) s' fl' -> Z.of_nat (length fl) <= Z.of_nat (length fl') + KVM_PAGES -> Q (d + KERNBASE) s') ->
  wp setupkvm Q s.
Proof.
  intros Hkm Hl Hlc Hc0 HQ0 HQ1. unfold setupkvm. kstep. apply (wp_kalloc fl); [done..|].
  destruct fl as [|w fl].
  { zb. kstep. apply HQ0; [by split; [exists []|..]|cbn; unfold KVM_PAGES; lia]. }
  intros r Hz Hw Hn Hkm'. zb. kstep. kstep; [apply page_ok_kptr in Hw; lia|]. fold (taken s w r).
  change (DEVSPACE <? P2V PHYSTOP) with false. cbn beta iota.
  destruct (empty_dir s w r fl) as [Hnew Hp]; [done..|].
  assert (w = w - KERNBASE + KERNBASE) as Ew by lia. rewrite Ew at 1.
  apply (wp_setupkvm_loop s (w :: fl) (w - KERNBASE) KVM_PAGES Q kmap Hlc Hc0 HQ0 [] _ fl).
  - split; [done|done| |done|done]. intros a Ha. apply (taken_mem s w r Hw). intros E. apply Ha.
    rewrite E, Z.sub_add. left.
  - constructor.
  - apply kmap_regions_ok.
  - pose proof kmap_tables. cbn [length]. unfold KVM_PAGES. lia.
  - rewrite app_nil_r. intros s' fl'. apply HQ1.
Qed.

Lemma wp_setupkvm s fl (Q : Z -> kstate -> Prop) :
  kmem_wf s fl -> LK_kmem ∉ k_locks s -> LK_cow ∉ k_locks s ->
  (forall v, v ∈ fl -> count_at (k_cow s) (v - KERNBASE) = 0) ->
  (forall s', undone s fl s' -> Q 0 s') ->
  (forall d s' fl', kmapped s fl d (rev kmap) s' fl' -> Q (d + KERNBASE) s') ->
  wp setupkvm Q s.
Proof. intros Hkm Hl Hlc Hc0 HQ0 HQ1. apply (wp_setupkvm_count s fl); [done..|intros; by apply HQ0|intros; by eapply HQ1]. Qed.

(** Freeing an address space: freevm gives back the directory, all its
    page tables and the pages without references, each once, and changes no
    other memory. *)
Theorem freevm_frees d s fl :
  freevm_pre d s fl -> exists s', freevm (d + KERNBASE) s = Ret tt s' /\ freed_vm d s fl s'.
Proof.
  intros Hpre.
  enough (wp (freevm (d + KERNBASE)) (fun _ s' => freed_vm d s fl s') s) as ([] & s' & ? & ?)%wp_inv by eauto.
  by apply (wp_freevm d s fl).
Qed.

(** A new kernel page directory: setupkvm returns a directory built from
    free pages whose only entries are the kernel's mappings, or 0 with every
    page it took free again; in both cases no other memory changes. *)
Theorem setupkvm_maps_kernel s fl :
  kmem_wf s fl -> LK_kmem ∉ k_locks s -> LK_cow ∉ k_locks s ->
  (forall v, v ∈ fl -> count_at (k_cow s) (v - KERNBASE) = 0) ->
  exists r s', setupkvm s = Ret r s' /\
    ((r = 0 /\ undone s fl s') \/
     (exists d fl', r = d + KERNBASE /\ kmapped s fl d (rev kmap) s' fl' /\
        (forall va, vpn va < 524288 -> pte_of (k_mem s') d va = 0) /\
        (forall virt ps pe perm o, (virt, ps, pe, perm) ∈ kmap -> 0 <= o < u32 (pe - ps) ->
           pte_of (k_mem s') d (virt + o) = Z.lor (Z.lor (ps + 4096 * (o / 4096)) perm) PTE_P))).
Proof.
  intros Hkm Hl Hlc Hc0.
  enough (wp setupkvm (fun r s' => (r = 0 /\ undone s fl s') \/
     (exists d fl', r = d + KERNBASE /\ kmapped s fl d (rev kmap) s' fl')) s)
    as (r & s' & Hrun & Hres)%wp_inv.
  - exists r, s'. split; [done|]. destruct Hres as [?|(d & fl' & -> & Hd)]; [by left|right].
    exists d, fl'. split_and!; [done|done|..].
    + intros va Hva. rewrite (km_pte _ _ _ _ _ _ Hd). by apply kmap_user.
    + intros virt ps pe perm o Hin Ho. rewrite (km_pte _ _ _ _ _ _ Hd). by eapply kmap_region.
  - apply (wp_setupkvm s fl); [done..| |].
    + intros s' Hu. by left.
    + intros d s' fl' Hd. right. by exists d, fl'.
Qed.

End setupkvm.

Section fork_witnesses.
#[local] Existing Instance sample_image.
#[local] Opaque dead_pages.

Lemma sample_freevm_pre :
  freevm_pre 0x300000 (sample_state 0x302007 0 0x1000) [0x80200000; 0x80201000].
Proof.
  set (s := sample_state 0x302007 0 0x1000).
  assert (forall q, 1024 <= q < 524288 -> pte_of (k_mem s) 0x300000 (4096 * q) = 0) as Hz.
  { intros q. apply pages_above. vm_compute. reflexivity. }
  assert (dealloc_pre 0x300000 s [0x80200000; 0x80201000] 0 1024) as Hpre
    by (apply dealloc_preb_spec; vm_compute; reflexivity).
  assert (dead_pages s 0x300000 0 524288 = dead_pages s 0x300000 0 1024) as Ed.
  { rewrite (dead_pages_app s 0x300000 0 1024 524288) by lia. rewrite dead_pages_skip; [exact eq_refl|].
    intros r Hr. unfold dead_page. rewrite Hz by exact Hr. reflexivity. }
  destruct Hpre as [Hi Hl Hnz Hok Hnd Hsep]. rewrite <- Ed in Hok, Hnd, Hsep. clear Ed. split; [split|].
  - exact Hi.
  - exact Hl.
  - intros q Hq HP. destruct (decide (q < 1024)); [apply Hnz; [lia|exact HP]|].
    rewrite Hz in HP by lia. discriminate HP.
  - exact Hok.
  - exact Hnd.
  - exact Hsep.
  - intros f Hf%uses_tables.
    assert (forallb (fun f => page_okb (f + KERNBASE) && (count_at (k_cow s) f =? 0))
      (0x300000 :: tables (k_mem s) 0x300000) = true) as Hall by (vm_compute; reflexivity).
    apply list_elem_of_In, (proj1 (forallb_forall _ _) Hall), andb_true_iff in Hf as [? ?].
    split; [by apply page_okb_spec|by apply Z.eqb_eq].
Qed.

Lemma freevm_frees_witness :
  exists s', freevm (0x300000 + KERNBASE) (sample_state 0x302007 0 0x1000) = Ret tt s' /\
    freed_vm 0x300000 (sample_state 0x302007 0 0x1000) [0x80200000; 0x80201000] s'.
Proof.
  apply (freevm_frees 0x300000 (sample_state 0x302007 0 0x1000) [0x80200000; 0x80201000]).
  apply sample_freevm_pre.
Defined.

Lemma setupkvm_maps_kernel_witness :
  exists r s', setupkvm (sample_state 0 0 0) = Ret r s' /\
    ((r = 0 /\ undone (sample_state 0 0 0) [0x80200000; 0x80201000] s') \/ r <> 0).
Proof.
  destruct (setupkvm_maps_kernel (sample_state 0 0 0) [0x80200000; 0x80201000]) as (r & s' & Hrun & Hres).
  - apply kmem_wfb_spec. vm_compute. reflexivity.
  - apply not_elem_of_nil.
  - apply not_elem_of_nil.
  - intros v [->|[->|[]%not_elem_of_nil]%elem_of_cons]%elem_of_cons; vm_compute; reflexivity.
  - exists r, s'. refine (conj Hrun _). destruct Hres as [Hu|(d & fl' & -> & Hd & _)]; [left; exact Hu|right].
    destruct (wf_dir _ _ (vi_dir _ _ _ (nd_inv _ _ _ _ (km_new _ _ _ _ _ _ Hd)))) as (_ & Hd0 & _).
    unfold KERNBASE. lia.
Defined.

End fork_witnesses.
