(* ===== verification/VmShare.v ===== *)
(** * Sharing an address space copy-on-write (vm.c, [copyuvm])

    Every page of the parent ends up mapped at the same place in the child, to
    the same frame with the same entry, not writable in either, and with one
    reference more; nothing else changes.  When the memory runs out, the new
    directory is given back. *)

From S2P Require Import Prelude Mmu Mem State Kernel Kalloc Vm VmSample VmAlloc VmFork.

Section share.
Context `{KernelImage}.

(** The entry of a page once it is shared. *)
Definition shared (v : Z) : Z :=
  if has v PTE_W
  then Z.lor (Z.lor (clearf v PTE_W) PTE_COW) (Z.lor PTE_P PTE_U) else v.

Definition shared_flags (v : Z) : Z :=
  if has v PTE_W
  then Z.lor (Z.lor (clearf (PTE_FLAGS v) PTE_W) PTE_COW) (Z.lor PTE_P PTE_U) else PTE_FLAGS v.

Lemma shared_flags_range v : 0 <= shared_flags v < 4096.
Proof.
  unfold shared_flags. pose proof (PTE_FLAGS_range v). pose proof (clearf_range (PTE_FLAGS v) PTE_W).
  destruct (has v PTE_W); [|done]. repeat apply lor_flags_range; unfold PTE_COW, PTE_P, PTE_U; lia.
Qed.

Lemma lor_has_P v : has v PTE_P = true -> Z.lor v PTE_P = v.
Proof.
  intros HP. change PTE_P with (2 ^ 0) in *. rewrite has_testbit in HP by done.
  apply Z.bits_inj'. intros n Hn. rewrite Z.lor_spec.
  destruct (decide (n = 0)) as [->|]; [by rewrite HP|].
  rewrite Z.pow2_bits_false by done. by rewrite orb_false_r.
Qed.

(** The child's entry, built from the frame and the flags, is the parent's. *)
Lemma child_entry v :
  0 <= v < 4294967296 -> has v PTE_P = true ->
  Z.lor (Z.lor (PTE_ADDR v) (shared_flags v)) PTE_P = shared v.
Proof.
  intros Hv HP. unfold shared_flags, shared. destruct (has v PTE_W).
  - rewrite (clearf_split v) by (done || unfold PTE_W; lia).
    rewrite (Z.lor_comm PTE_P PTE_U), !Z.lor_assoc, <- (Z.lor_assoc _ PTE_P PTE_P), Z.lor_diag. done.
  - rewrite <- pte_split by done. by apply lor_has_P.
Qed.

Lemma shared_range v : 0 <= v < 4294967296 -> 0 <= shared v < 4294967296 /\ PTE_ADDR (shared v) = PTE_ADDR v.
Proof.
  intros Hv. unfold shared. destruct (has v PTE_W); [|done].
  destruct (PTE_ADDR_clearf v PTE_W) as [E1 H1]; [done|unfold PTE_W; lia|].
  destruct (PTE_ADDR_setf (clearf v PTE_W) PTE_COW) as [E2 H2]; [done|unfold PTE_COW; lia|].
  destruct (PTE_ADDR_setf (Z.lor (clearf v PTE_W) PTE_COW) (Z.lor PTE_P PTE_U)) as [E3 H3]; [done|done|].
  split; [done|congruence].
Qed.

(** A shared page is not writable; if it was, it is marked copy-on-write. *)
Lemma shared_spec v :
  has (shared v) PTE_W = false /\ (has v PTE_W = true -> has (shared v) PTE_COW = true).
Proof.
  unfold shared. destruct (has v PTE_W) eqn:E; [|done]. split; rewrite !has_lor.
  - by rewrite has_clearf_same.
  - intros _. by rewrite orb_true_r.
Qed.

(** How many of the first [q] pages are in frame [f]. *)
Definition refs (s : kstate) (d q f : Z) : Z :=
  Z.of_nat (length (filter (fun r => PTE_ADDR (pte_of (k_mem s) d (4096 * r)) = f) (seqZ 0 q))).

Lemma refs_succ s d q f :
  0 <= q -> refs s d (q + 1) f =
    refs s d q f + if decide (PTE_ADDR (pte_of (k_mem s) d (4096 * q)) = f) then 1 else 0.
Proof.
  intros Hq. unfold refs. rewrite seqZ_app, filter_app, length_app by lia.
  rewrite (seqZ_cons _ 1), (seqZ_nil _ (Z.pred 1)), Z.add_0_l by lia. rewrite filter_cons, filter_nil.
  case_decide; simpl; lia.
Qed.

Lemma refs_pos s d q r f :
  0 <= r < q -> PTE_ADDR (pte_of (k_mem s) d (4096 * r)) = f -> 0 < refs s d q f.
Proof.
  intros Hr E. unfold refs. destruct (filter _ _) as [|x l] eqn:Ef; [|simpl; lia].
  assert (r ∈ filter (fun r => PTE_ADDR (pte_of (k_mem s) d (4096 * r)) = f) (seqZ 0 q)) as Hin.
  { apply list_elem_of_filter. split; [done|]. apply elem_of_seqZ. lia. }
  rewrite Ef in Hin. by apply not_elem_of_nil in Hin.
Qed.

Lemma refs_zero s d q f :
  (forall r, 0 <= r < q -> PTE_ADDR (pte_of (k_mem s) d (4096 * r)) <> f) -> refs s d q f = 0.
Proof.
  intros Hn. unfold refs. destruct (filter _ _) as [|x l] eqn:Ef; [done|].
  assert (x ∈ filter (fun r => PTE_ADDR (pte_of (k_mem s) d (4096 * r)) = f) (seqZ 0 q)) as Hin.
  { rewrite Ef. left. }
  apply list_elem_of_filter in Hin as [E Hin%elem_of_seqZ]. by destruct (Hn x ltac:(lia)).
Qed.

(** What [copyuvm] relies on: the first [n] pages of the parent are present,
    in frames that are not free; free pages have no references. *)
Record copy_pre (d : Z) (s : kstate) (fl : list Z) (n : Z) : Prop := {
  cp_inv : vm_inv d s fl;
  cp_lock : LK_cow ∉ k_locks s;
  cp_free : forall v, v ∈ fl -> count_at (k_cow s) (v - KERNBASE) = 0;
  cp_counts : forall f, is_frame f -> 0 <= count_at (k_cow s) f <= 255;
  cp_pages : forall q, 0 <= q < n ->
    let v := pte_of (k_mem s) d (4096 * q) in
    has v PTE_P = true /\ is_frame (PTE_ADDR v) /\ PTE_ADDR v <> 0 /\ (PTE_ADDR v + KERNBASE ∉ fl);
}.

(** State [s'] when [qp] pages of the parent are marked, [qc] pages of the
    child are mapped and [qn] references are counted. *)
Record sharing (d : Z) (s : kstate) (fl : list Z) (d' qp qc qn : Z) (s' : kstate) (fl' : list Z) : Prop := {
  sh_par : vm_inv d s' fl';
  sh_new : new_dir fl d' s' fl';
  sh_ppte : forall va, pte_of (k_mem s') d va =
    if decide (vpn va < qp) then shared (pte_of (k_mem s) d va) else pte_of (k_mem s) d va;
  sh_cpte : forall va, pte_of (k_mem s') d' va =
    if decide (vpn va < qc) then shared (pte_of (k_mem s) d va) else kmap_pte (rev kmap) va;
  sh_slot : forall va, pte_slot (k_mem s') d va = pte_slot (k_mem s) d va;
  sh_uses : forall f, uses (k_mem s') d f <-> uses (k_mem s) d f;
  sh_mem : forall a, ~ uses (k_mem s) d (frame_of a) -> frame_of a + KERNBASE ∉ fl ->
    ld8 (k_mem s') a = ld8 (k_mem s) a;
  sh_count : forall f, is_frame f ->
    count_at (k_cow s') f = Z.min 255 (count_at (k_cow s) f + refs s d qn f);
  sh_locks : k_locks s' = k_locks s;
}.

(** The frames of a new directory and the free pages are not the parent's. *)
Lemma new_dir_change fl d' s fl' s' :
  new_dir fl d' s fl' -> k_freelist s' = k_freelist s -> k_locks s' = k_locks s ->
  (forall a, frame_of a + KERNBASE ∈ fl -> ld8 (k_mem s') a = ld8 (k_mem s) a) ->
  new_dir fl d' s' fl' /\ forall va, pte_of (k_mem s') d' va = pte_of (k_mem s) d' va.
Proof.
  intros Hnew Hf Hl Hm. pose proof Hnew as [Hinv (u & Efl & Hu) Hok Hnd].
  assert (forall a, uses (k_mem s) d' (frame_of a) -> ld8 (k_mem s') a = ld8 (k_mem s) a) as Hm'.
  { intros a Ha. apply Hm. by eapply new_dir_uses. }
  destruct (same_tables (k_mem s) (k_mem s') d') as (Hp & _ & HU); [apply Hinv|done|].
  split; [|done]. split; [|exists u; split; [done|intros f; by rewrite HU]|done|done].
  eapply vm_inv_change; [done..|]. intros a v Hv Ha. apply Hm. rewrite Ha, Z.sub_add, Efl.
  apply elem_of_app. by right.
Qed.

(** Extending the new directory leaves the parent's alone. *)
Lemma vm_inv_other fl d d' s fl1 s' fl2 :
  vm_inv d s fl1 -> new_dir fl d' s fl1 -> pt_ext d' s fl1 s' fl2 ->
  (forall f, uses (k_mem s) d f -> f + KERNBASE ∉ fl) ->
  vm_inv d s' fl2 /\ (forall a, uses (k_mem s) d (frame_of a) -> ld8 (k_mem s') a = ld8 (k_mem s) a).
Proof.
  intros Hinv Hnew Hext Hsep. pose proof (vi_dir _ _ _ Hinv) as Hwf.
  assert (forall a, uses (k_mem s) d (frame_of a) -> ld8 (k_mem s') a = ld8 (k_mem s) a) as Hm.
  { intros a Ha. apply (pe_mem _ _ _ _ _ Hext). intros Hu. apply (Hsep _ Ha).
    eapply new_dir_uses; [by eapply new_dir_ext|done]. }
  split; [|done]. destruct (same_tables _ _ _ Hwf Hm) as (_ & _ & HU).
  split; [apply Hext|apply Hext| |].
  - eapply pgdir_wf_ext; [|done]. intros a Ha. apply Hm. left. apply frame_of_spec; [apply Hwf|done].
  - intros f Hf%HU Hin. apply (vi_sep _ _ _ Hinv f Hf). destruct (pe_used _ _ _ _ _ Hext) as (u & -> & _).
    apply elem_of_app. by right.
Qed.

Lemma sharing_mark d s fl d' q qc qn s1 fl1 a :
  let v := pte_of (k_mem s) d (4096 * q) in
  vm_inv d s fl -> 0 <= q < 1048576 -> sharing d s fl d' q qc qn s1 fl1 ->
  pte_slot (k_mem s) d (4096 * q) = Some a ->
  sharing d s fl d' (q + 1) qc qn (set_k_mem (st32 (k_mem s1) a (shared v)) s1) fl1.
Proof.
  intros v Hinv Hq Hsh Ha. pose proof Hsh as [Hpar Hnew Hpp Hcp Hsl Hus Hm Hct Hlk].
  rewrite <- Hsl in Ha. destruct (shared_range v) as [Hr _]; [apply pte_of_range|].
  pose proof (pt_ext_store d s1 fl1 _ a (shared v) Hpar Ha) as Hext.
  assert (forall b, ~ uses (k_mem s1) d (frame_of b) -> ld8 (st32 (k_mem s1) a (shared v)) b = ld8 (k_mem s1) b) as Hm1.
  { intros b Hb. apply (pe_mem _ _ _ _ _ Hext). by rewrite (pt_ext_uses _ _ _ _ _ Hext). }
  set (s2 := set_k_mem (st32 (k_mem s1) a (shared v)) s1) in *.
  destruct (new_dir_change fl d' s1 fl1 s2 Hnew) as [Hnew2 Hcp2]; [done|done| |].
  { intros b Hb. apply Hm1. rewrite Hus. intros Hu. by apply (vi_sep _ _ _ Hinv) in Hu. }
  split; [apply Hext|done|..|done|done].
  - intros va. change (k_mem s2) with (st32 (k_mem s1) a (shared v)). rewrite (pte_of_st32 _ _ (4096 * q)) by (done || apply Hpar).
    rewrite vpn_page, Hpp by lia. repeat case_decide; try lia; try done.
    unfold v. by rewrite (pte_of_vpn _ _ va (4096 * q)) by (rewrite vpn_page; lia).
  - intros va. by rewrite Hcp2, Hcp.
  - intros va. rewrite <- Hsl. apply (pte_slot_st32 _ _ (4096 * q)); [apply Hpar|done].
  - intros f. by rewrite (pt_ext_uses _ _ _ _ _ Hext), Hus.
  - intros b Hb1 Hb2. change (k_mem s2) with (st32 (k_mem s1) a (shared v)).
    rewrite Hm1 by (by rewrite Hus). by apply Hm.
Qed.

(** A page that is not writable needs no mark. *)
Lemma sharing_nomark d s fl d' q qc qn s1 fl1 :
  0 <= q < 1048576 -> has (pte_of (k_mem s) d (4096 * q)) PTE_W = false ->
  sharing d s fl d' q qc qn s1 fl1 -> sharing d s fl d' (q + 1) qc qn s1 fl1.
Proof.
  intros Hq HW [? ? Hpp ? ? ? ? ? ?]. split; try done. intros va. rewrite Hpp.
  repeat case_decide; try lia; try done. rewrite (pte_of_vpn _ _ va (4096 * q)) by (rewrite vpn_page; lia).
  unfold shared. by rewrite HW.
Qed.

(** Extending the child's directory. *)
Lemma sharing_map d s fl d' qp qc qc' qn s1 fl1 s2 fl2 :
  vm_inv d s fl -> sharing d s fl d' qp qc qn s1 fl1 -> pt_ext d' s1 fl1 s2 fl2 ->
  (forall va, pte_of (k_mem s2) d' va =
    if decide (vpn va < qc') then shared (pte_of (k_mem s) d va) else kmap_pte (rev kmap) va) ->
  sharing d s fl d' qp qc' qn s2 fl2.
Proof.
  intros Hinv [Hpar Hnew Hpp Hcp Hsl Hus Hm Hct Hlk] Hext Hcp2.
  destruct (vm_inv_other fl d d' s1 fl1 s2 fl2) as [Hpar2 Hm2]; [done..| |].
  { intros f Hf%Hus. by apply (vi_sep _ _ _ Hinv). }
  destruct (same_tables (k_mem s1) (k_mem s2) d) as (Hp2 & Hs2 & HU2); [apply Hpar|done|].
  pose proof (new_dir_ext _ _ _ _ _ _ Hnew Hext) as Hnew2. split; try done.
  - intros va. by rewrite Hp2.
  - intros va. by rewrite Hs2.
  - intros f. by rewrite HU2.
  - intros a Ha1 Ha2. rewrite (pe_mem _ _ _ _ _ Hext); [by apply Hm|].
    intros Hu. apply Ha2. by eapply new_dir_uses.
  - intros f Hf. rewrite (pe_cow _ _ _ _ _ Hext). by apply Hct.
  - by rewrite (pe_locks _ _ _ _ _ Hext).
Qed.

(** Counting the reference. *)
Lemma sharing_count d s fl d' qp qc q s1 fl1 s2 :
  let pa := PTE_ADDR (pte_of (k_mem s) d (4096 * q)) in
  0 <= q -> is_frame pa -> (forall f, is_frame f -> 0 <= count_at (k_cow s) f <= 255) ->
  sharing d s fl d' qp qc q s1 fl1 ->
  s2 = (if count_at (k_cow s1) pa <? 255
        then set_k_cow (<[PPN pa := u8 (count_at (k_cow s1) pa + 1)]> (k_cow s1)) s1 else s1) ->
  sharing d s fl d' qp qc (q + 1) s2 fl1.
Proof.
  intros pa Hq Hpa Hct0 [Hpar Hnew Hpp Hcp Hsl Hus Hm Hct Hlk] E.
  assert (k_mem s2 = k_mem s1) as Em by (rewrite E; by destruct (_ <? _)).
  assert (k_freelist s2 = k_freelist s1) as Ef by (rewrite E; by destruct (_ <? _)).
  assert (k_locks s2 = k_locks s1) as El by (rewrite E; by destruct (_ <? _)).
  split; rewrite ?Em; try done.
  - by eapply vm_inv_irrel.
  - apply (new_dir_change fl d' s1 fl1 s2); [done..|]. intros a _. by rewrite Em.
  - intros f Hf. rewrite refs_succ by done. fold pa. specialize (Hct f Hf) as Hcf. specialize (Hct pa Hpa) as Hcp'.
    pose proof (Hct0 f Hf). assert (0 <= refs s d q f) by (unfold refs; lia).
    rewrite E. destruct (Z.ltb_spec (count_at (k_cow s1) pa) 255) as [Hlt|Hge].
    + cbn [k_cow set_k_cow]. rewrite count_at_insert by done. case_decide as Ep; [subst f|lia].
      unfold u8. rewrite Z.mod_small by lia. lia.
    + case_decide as Ep; [subst f|]; lia.
  - by rewrite El.
Qed.

Lemma sharing_cr3 d s fl d' qp qc qn s1 fl1 c :
  sharing d s fl d' qp qc qn s1 fl1 -> sharing d s fl d' qp qc qn (set_k_cr3 c s1) fl1.
Proof.
  intros [Hpar Hnew Hpp Hcp Hsl Hus Hm Hct Hlk]. split; try done.
  - by eapply vm_inv_irrel.
  - by apply (new_dir_change fl d' s1 fl1).
Qed.

Lemma vpn_nonneg va : 0 <= vpn va.
Proof. unfold vpn. pose proof (u32_range va). Z.div_mod_to_equations. lia. Qed.

(** The new directory, before any page is shared. *)
Lemma sharing_start d s fl n d' s1 fl1 :
  copy_pre d s fl n -> kmapped s fl d' (rev kmap) s1 fl1 -> sharing d s fl d' 0 0 0 s1 fl1.
Proof.
  intros Hpre [Hnew Hp Hm Hc Hl]. pose proof (cp_inv _ _ _ _ Hpre) as Hinv.
  assert (forall a, uses (k_mem s) d (frame_of a) -> ld8 (k_mem s1) a = ld8 (k_mem s) a) as Hmd.
  { intros a Ha. apply Hm. by apply (vi_sep _ _ _ Hinv). }
  destruct (same_tables (k_mem s) (k_mem s1) d) as (Hp1 & Hs1 & HU1); [apply Hinv|done|].
  assert (forall va, ~ vpn va < 0) as Hneg by (intros va; pose proof (vpn_nonneg va); lia).
  split; try done.
  - split; [apply Hnew|rewrite Hl; apply Hinv| |].
    + eapply pgdir_wf_ext; [|apply Hinv]. intros a Ha. apply Hmd. left. apply frame_of_spec; [apply Hinv|done].
    + intros f Hf%HU1 Hin. apply (vi_sep _ _ _ Hinv f Hf).
      destruct (nd_used _ _ _ _ Hnew) as (u & -> & _). apply elem_of_app. by right.
  - intros va. by rewrite decide_False.
  - intros va. by rewrite decide_False.
  - intros a _. apply Hm.
  - intros f Hf. pose proof (cp_counts _ _ _ _ Hpre f Hf). rewrite Hc. change (refs s d 0 f) with 0. lia.
Qed.

(** A failed copy: every free page is free again; [qp] pages of the parent are
    marked and [qn] references stay counted. *)
Record copy_failed (d : Z) (s : kstate) (fl : list Z) (qp qn : Z) (s' : kstate) : Prop := {
  cf_inv : exists fl', vm_inv d s' fl' /\ fl' ≡ₚ fl;
  cf_pte : forall va, pte_of (k_mem s') d va =
    if decide (vpn va < qp) then shared (pte_of (k_mem s) d va) else pte_of (k_mem s) d va;
  cf_mem : forall a, ~ uses (k_mem s) d (frame_of a) -> frame_of a + KERNBASE ∉ fl ->
    ld8 (k_mem s') a = ld8 (k_mem s) a;
  cf_count : forall f, is_frame f ->
    count_at (k_cow s') f = Z.min 255 (count_at (k_cow s) f + refs s d qn f);
  cf_locks : k_locks s' = k_locks s;
}.

Lemma undone_keeps d s1 fl s' fl' :
  pgdir_wf (k_mem s1) d -> (forall f, uses (k_mem s1) d f -> f + KERNBASE ∉ fl) -> LK_kmem ∉ k_locks s1 ->
  kmem_wf s' fl' -> fl' ≡ₚ fl -> (forall a, frame_of a + KERNBASE ∉ fl -> ld8 (k_mem s') a = ld8 (k_mem s1) a) ->
  k_locks s' = k_locks s1 ->
  vm_inv d s' fl' /\ forall va, pte_of (k_mem s') d va = pte_of (k_mem s1) d va.
Proof.
  intros Hwf Hsep Hk Hkm Hp Hm Hl.
  assert (forall a, uses (k_mem s1) d (frame_of a) -> ld8 (k_mem s') a = ld8 (k_mem s1) a) as Hmd.
  { intros a Ha. by apply Hm, Hsep. }
  destruct (same_tables (k_mem s1) (k_mem s') d) as (Hp1 & _ & HU1); [done..|].
  split; [|done]. split; [done|by rewrite Hl| |].
  - eapply pgdir_wf_ext; [|done]. intros a Ha. apply Hmd. left. apply frame_of_spec; [apply Hwf|done].
  - intros f Hf%HU1. rewrite Hp. by apply Hsep.
Qed.

Lemma wp_copy_undo d s fl n d' q s1 fl1 (Q : unit -> kstate -> Prop) :
  copy_pre d s fl n -> 0 <= q < n -> n <= 524288 -> sharing d s fl d' (q + 1) q q s1 fl1 ->
  (forall s', copy_failed d s fl (q + 1) q s' -> Q tt s') ->
  wp (freevm (d' + KERNBASE)) Q s1.
Proof.
  intros Hpre Hq Hn [Hpar Hnew Hpp Hcp Hsl Hus Hm Hct Hlk] HQ.
  pose proof (cp_inv _ _ _ _ Hpre) as Hinv.
  apply (wp_freevm_new fl d' s1 fl1); [done|rewrite Hlk; apply Hpre|..].
  - intros r Hr. rewrite Hcp, vpn_page by lia. case_decide.
    + intros _. destruct (cp_pages _ _ _ _ Hpre r) as (HP & Hf & Hnz & _); [lia|].
      destruct (shared_range (pte_of (k_mem s) d (4096 * r))) as [_ ->]; [apply pte_of_range|].
      split; [done|]. rewrite Hct by done. pose proof (cp_counts _ _ _ _ Hpre _ Hf).
      pose proof (refs_pos s d q r _ ltac:(lia) eq_refl). lia.
    + by rewrite kmap_user by (rewrite vpn_page; lia).
  - intros v Hv. pose proof (nd_ok _ _ _ _ Hnew) as Hok. rewrite Forall_forall in Hok.
    destruct (page_ok_frame v (Hok v Hv)) as [Hf _]. rewrite Hct, (cp_free _ _ _ _ Hpre v Hv) by done.
    rewrite refs_zero; [done|]. intros r Hr E. destruct (cp_pages _ _ _ _ Hpre r) as (_ & _ & _ & Hnf); [lia|].
    apply Hnf. by rewrite E, Z.sub_add.
  - intros s' fl'' Hkm Hp Hm' Hc' Hl'.
    destruct (undone_keeps d s1 fl s' fl'') as [Hv Hpte']; [apply Hpar| |apply Hpar|done..|].
    { intros f Hf%Hus. by apply (vi_sep _ _ _ Hinv). }
    apply HQ. split.
    + by exists fl''.
    + intros va. by rewrite Hpte', Hpp.
    + intros a Ha1 Ha2. rewrite Hm' by done. by apply Hm.
    + intros f Hf. by rewrite Hc', Hct.
    + by rewrite Hl'.
Qed.

(** Marking the parent's entry yields the flags for the child. *)
Lemma wp_mark_page d s fl d' q s1 fl1 a (Q : Z -> kstate -> Prop) :
  let v := pte_of (k_mem s) d (4096 * q) in
  vm_inv d s fl -> 0 <= q < 1048576 -> sharing d s fl d' q q q s1 fl1 ->
  pte_slot (k_mem s) d (4096 * q) = Some a ->
  (forall s2, sharing d s fl d' (q + 1) q q s2 fl1 -> Q (shared_flags v) s2) ->
  wp (if has (PTE_FLAGS v) PTE_W then
        kstore32 (a + KERNBASE) (Z.lor (Z.lor (clearf v PTE_W) PTE_COW) (Z.lor PTE_P PTE_U));;
        mret (Z.lor (Z.lor (clearf (PTE_FLAGS v) PTE_W) PTE_COW) (Z.lor PTE_P PTE_U))
      else mret (PTE_FLAGS v)) Q s1.
Proof.
  intros v Hinv Hq Hsh Ha HQ. pose proof (pte_of_range (k_mem s) d (4096 * q)) as Hv. fold v in Hv.
  unfold shared_flags in HQ. rewrite has_FLAGS by done. destruct (has v PTE_W) eqn:HW.
  - destruct (pte_slot_frame _ _ _ _ (vi_dir _ _ _ Hinv) Ha) as (f & _ & Hf & _ & Ef & _).
    kstep. kstep; [rewrite Ef; apply dir_ptr; [done|apply PTX_range]|]. rewrite Z.add_simpl_r.
    kstep. apply HQ. pose proof (sharing_mark d s fl d' q q q s1 fl1 a Hinv Hq Hsh Ha) as Hm.
    fold v in Hm. unfold shared in Hm. by rewrite HW in Hm.
  - kstep. apply HQ. by apply sharing_nomark.
Qed.

Lemma wp_share_page d s fl n d' q sz s1 fl1 (Q : Z + Z -> kstate -> Prop) :
  copy_pre d s fl n -> 0 <= q < n -> n <= 524288 -> 4096 * q < sz -> sharing d s fl d' q q q s1 fl1 ->
  (forall s2 fl2, sharing d s fl d' (q + 1) (q + 1) (q + 1) s2 fl2 -> k_cr3 s2 = d' ->
     (length fl1 <= length fl2 + 1)%nat -> Q (inl (4096 * (q + 1))) s2) ->
  (forall s2, copy_failed d s fl (q + 1) q s2 -> fl1 = [] -> Q (inr 0) s2) ->
  wp (copyuvm_body (d + KERNBASE) (d' + KERNBASE) sz (4096 * q)) Q s1.
Proof.
  intros Hpre Hq Hn Hlt Hsh HQ1 HQ0. pose proof (cp_inv _ _ _ _ Hpre) as Hinv.
  destruct (cp_pages _ _ _ _ Hpre q Hq) as (HP & Hf & Hnz & Hnf). cbv zeta in *.
  set (v := pte_of (k_mem s) d (4096 * q)) in *.
  destruct (wf_dir _ _ (vi_dir _ _ _ Hinv)) as (_ & Hd0 & Hd1).
  destruct (wf_dir _ _ (vi_dir _ _ _ (nd_inv _ _ _ _ (sh_new _ _ _ _ _ _ _ _ _ Hsh)))) as (_ & Hd0' & Hd1').
  unfold copyuvm_body. zb. kstep. apply wp_walk_noalloc; [apply Hsh|].
  rewrite (sh_slot _ _ _ _ _ _ _ _ _ Hsh).
  destruct (pte_slot (k_mem s) d (4096 * q)) as [a|] eqn:Ha; [|unfold v, pte_of in HP; by rewrite Ha in HP].
  destruct (pte_slot_frame _ _ _ _ (vi_dir _ _ _ Hinv) Ha) as (f & _ & Hff & _ & Ef & _).
  destruct (dir_ptr f (PTX (4096 * q))) as [_ Hptr]; [done|apply PTX_range|]. rewrite <- Ef in Hptr.
  cbn [slot_ptr]. rewrite (proj2 (Z.eqb_neq (a + KERNBASE) 0)) by (unfold KERNBASE in *; lia).
  kstep. kstep; [done|]. rewrite Z.add_simpl_r.
  assert (ld32 (k_mem s1) a = v) as ->.
  { transitivity (pte_of (k_mem s1) d (4096 * q)).
    - unfold pte_of. by rewrite (sh_slot _ _ _ _ _ _ _ _ _ Hsh), Ha.
    - by rewrite (sh_ppte _ _ _ _ _ _ _ _ _ Hsh), vpn_page, decide_False by lia. }
  rewrite HP. cbn [negb]. cbv zeta. kstep.
  apply (wp_mark_page d s fl d' q s1 fl1 a); [done|lia|done|done|]. intros s2 Hsh2. fold v.
  kstep. apply (wp_map_page_count d' fl1); [apply Hsh2|lia|apply Hf| |apply shared_flags_range| | |].
  - destruct Hf as (_ & ? & ?). unfold PHYSTOP in *. lia.
  - rewrite (sh_cpte _ _ _ _ _ _ _ _ _ Hsh2), vpn_page, decide_False by lia.
    by rewrite kmap_user by (rewrite vpn_page; lia).
  - intros s3 fl3 Hext Hc3 _ Hcnt. zb. kstep.
    assert (sharing d s fl d' (q + 1) (q + 1) q s3 fl3) as Hsh3.
    { eapply sharing_map; [done..|]. intros va. rewrite Hc3, (sh_cpte _ _ _ _ _ _ _ _ _ Hsh2).
      repeat case_decide; try lia; try done. rewrite child_entry by (done || apply pte_of_range).
      unfold v. by rewrite (pte_of_vpn _ _ va (4096 * q)) by (rewrite vpn_page; lia). }
    eapply wp_of_run; [apply inc_count_run; rewrite (sh_locks _ _ _ _ _ _ _ _ _ Hsh3); apply Hpre|].
    kstep. kstep. kstep. kstep. kstep. rewrite (V2P_spec (d' + KERNBASE)), Z.add_simpl_r by (unfold PHYSTOP, KERNBASE in *; lia).
    unfold PGSIZE. rewrite u32_small by lia. replace (4096 * q + 4096) with (4096 * (q + 1)) by lia.
    apply (HQ1 _ fl3); [|done|done]. do 2 apply sharing_cr3.
    eapply (sharing_count d s fl d' (q + 1) (q + 1) q s3); [lia|done|apply Hpre|done|done].
  - intros s3 Hext Hc3 Hnil _. zb. kstep. apply (wp_copy_undo d s fl n d' q s3 []); [done..| |].
    + eapply sharing_map; [done..|]. intros va. by rewrite Hc3, (sh_cpte _ _ _ _ _ _ _ _ _ Hsh2).
    + intros s4 Hcf. kstep. by apply HQ0.
Qed.

(** The loop: [q] pages are shared, and the page-table register was left on
    the child's directory by the last one. *)
Lemma wp_copy_loop d s fl n d' sz s1 fl1 (Q : Z -> kstate -> Prop) :
  n = (sz + 4095) / 4096 -> 0 <= sz <= KERNBASE -> copy_pre d s fl n ->
  sharing d s fl d' 0 0 0 s1 fl1 ->
  (forall s2 fl2, sharing d s fl d' n n n s2 fl2 -> (0 < n -> k_cr3 s2 = d') -> Q (d' + KERNBASE) s2) ->
  (forall q s2, copy_failed d s fl (q + 1) q s2 -> Z.of_nat (length fl1) < n -> Q 0 s2) ->
  wp (iter (S (Z.to_nat ((sz + PGSIZE - 1) / PGSIZE))) (copyuvm_body (d + KERNBASE) (d' + KERNBASE) sz) 0) Q s1.
Proof.
  intros En Hsz Hpre Hsh HQ1 HQ0. unfold KERNBASE in Hsz.
  assert (0 <= n <= 524288) by (rewrite En; Z.div_mod_to_equations; lia).
  apply (wp_iter (fun a s' => exists q fl', a = 4096 * q /\ 0 <= q <= n /\
      sharing d s fl d' q q q s' fl' /\ (0 < q -> k_cr3 s' = d') /\ Z.of_nat (length fl1) <= Z.of_nat (length fl') + q)
    (fun a => Z.to_nat (n - a / 4096))).
  - intros a s2 (q & fl2 & -> & Hq & Hsh2 & Hcr & Hcnt). destruct (decide (4096 * q < sz)) as [Hlt|Hge].
    + assert (q < n) by (rewrite En; Z.div_mod_to_equations; lia).
      apply (wp_share_page d s fl n d' q sz s2 fl2); [done|lia|lia|done|done|..].
      * intros s3 fl3 Hsh3 Hcr3 Hcnt3. split; [exists (q + 1), fl3; split_and!; [done|lia|lia|done|done|lia]|].
        rewrite !(Z.mul_comm 4096), !Z.div_mul by done. lia.
      * intros s3 Hcf ->. apply (HQ0 q s3 Hcf). cbn in Hcnt. lia.
    + unfold copyuvm_body. zb. kstep. assert (q = n) as -> by (rewrite En in *; Z.div_mod_to_equations; lia).
      by apply (HQ1 s2 fl2).
  - exists 0, fl1. split_and!; [done|lia|lia|done|lia|lia].
  - unfold PGSIZE. rewrite Z.div_0_l, Z.sub_0_r, En by done. replace (sz + 4096 - 1) with (sz + 4095) by lia. lia.
Qed.

(** C2. Forking an address space: on success every page of the parent below
    [sz] is mapped at the same address of the new directory by the same entry,
    writable in neither and marked copy-on-write where it was writable, each
    frame has as many references more as pages were shared in it, the new
    directory has the kernel's mappings, and no page changes; the CPU is left
    on the new directory.  On failure, which happens only when there are no more
    free pages than [KVM_PAGES] and one for each page to share, 0 is returned, every
    page taken is free again, and the pages marked so far stay marked and
    counted. *)
Theorem copyuvm_shares d s fl sz :
  let n := (sz + 4095) / 4096 in
  0 <= sz <= KERNBASE -> copy_pre d s fl n ->
  exists r s', copyuvm (d + KERNBASE) sz s = Ret r s' /\
    ((exists d' fl', r = d' + KERNBASE /\ sharing d s fl d' n n n s' fl' /\ (0 < n -> k_cr3 s' = d')) \/
     (exists qp qn, r = 0 /\ copy_failed d s fl qp qn s' /\ Z.of_nat (length fl) <= KVM_PAGES + n)).
Proof.
  intros n Hsz Hpre. pose proof (cp_inv _ _ _ _ Hpre) as Hinv.
  enough (wp (copyuvm (d + KERNBASE) sz) (fun r s' =>
    (exists d' fl', r = d' + KERNBASE /\ sharing d s fl d' n n n s' fl' /\ (0 < n -> k_cr3 s' = d')) \/
    (exists qp qn, r = 0 /\ copy_failed d s fl qp qn s' /\ Z.of_nat (length fl) <= KVM_PAGES + n)) s) as (r & s' & ? & ?)%wp_inv by eauto.
  unfold copyuvm. assert (0 <= n) by (unfold n, KERNBASE in *; Z.div_mod_to_equations; lia).
  kstep. apply (wp_setupkvm_count s fl); [apply Hinv|apply Hinv|apply Hpre|apply Hpre|..].
  - intros s1 [(fl' & Hkm & Hp) Hm Hc Hl] Hcnt. zb. kstep. right. exists 0, 0. split; [done|]. split; [|lia].
    destruct (undone_keeps d s fl s1 fl') as [Hv Hpte]; [apply Hinv|apply Hinv|apply Hinv|done..|].
    split; [by exists fl'| |by intros a _; apply Hm| |done].
    + intros va. rewrite decide_False by (pose proof (vpn_nonneg va); lia). apply Hpte.
    + intros f Hf. rewrite Hc. pose proof (cp_counts _ _ _ _ Hpre f Hf). change (refs s d 0 f) with 0. lia.
  - intros d' s1 fl1 Hkm Hcnt.
    destruct (wf_dir _ _ (vi_dir _ _ _ (nd_inv _ _ _ _ (km_new _ _ _ _ _ _ Hkm)))) as (_ & Hd0 & _).
    rewrite (proj2 (Z.eqb_neq (d' + KERNBASE) 0)) by (unfold KERNBASE; lia).
    apply (wp_copy_loop d s fl n d' sz s1 fl1); [done..|by eapply sharing_start| |].
    + intros s2 fl2 Hsh Hcr. left. by exists d', fl2.
    + intros q s2 Hcf Hlt. right. exists (q + 1), q. split_and!; [done|done|lia].
Qed.

End share.

Section share_witnesses.
#[local] Existing Instance sample_image.

Lemma sample_copy_pre :
  copy_pre 0x300000 (sample_state 0x302007 1 0x1000) [0x80200000; 0x80201000] 1.
Proof.
  split.
  - apply vm_invb_spec. vm_compute. reflexivity.
  - apply not_elem_of_nil.
  - intros v [->|[->|[]%not_elem_of_nil]%elem_of_cons]%elem_of_cons; vm_compute; reflexivity.
  - intros f _. unfold count_at. cbn [k_cow sample_state set_k_cow].
    destruct (decide (PPN f = 0x302)) as [->|Hne]; [by rewrite lookup_singleton_eq|].
    by rewrite lookup_singleton_ne.
  - intros q Hq. replace q with 0 by lia. cbv zeta. split_and!.
    + vm_compute. reflexivity.
    + apply is_frameb_spec. vm_compute. reflexivity.
    + vm_compute. done.
    + apply (bool_decide_unpack _). vm_compute. exact I.
Qed.

Lemma copyuvm_shares_witness :
  exists r s', copyuvm (0x300000 + KERNBASE) 0x1000 (sample_state 0x302007 1 0x1000) = Ret r s' /\
    ((exists d' fl', r = d' + KERNBASE /\
        sharing 0x300000 (sample_state 0x302007 1 0x1000) [0x80200000; 0x80201000] d' 1 1 1 s' fl' /\
        (0 < 1 -> k_cr3 s' = d')) \/
     (exists qp qn, r = 0 /\
        copy_failed 0x300000 (sample_state 0x302007 1 0x1000) [0x80200000; 0x80201000] qp qn s' /\ 2 <= KVM_PAGES + 1)).
Proof.
  apply (copyuvm_shares 0x300000 (sample_state 0x302007 1 0x1000) [0x80200000; 0x80201000] 0x1000).
  - done.
  - apply sample_copy_pre.
Defined.

End share_witnesses.
