(* ===== verification/VmUser.v ===== *)
(** * Reaching user memory through a page directory (vm.c)

    [uva2ka] and [copyout]: bytes written at user addresses of an address space
    that need not be the current one. *)

From S2P Require Import Prelude Mmu Mem State Kernel Kalloc Vm VmSample VmAlloc.

Section copyout.
Context `{KernelImage}.

(** Physical address of the user address [va]. *)
Definition phys (m : gmap Z Z) (d va : Z) : Z := PTE_ADDR (pte_of m d va) + va mod 4096.

(** Writing bytes one by one at consecutive user addresses. *)
Fixpoint poke (m0 : gmap Z Z) (d va : Z) (bs : list Z) (m : gmap Z Z) : gmap Z Z :=
  match bs with
  | [] => m
  | b :: bs => poke m0 d (va + 1) bs (st8 m (phys m0 d va) b)
  end.

(** The [len] bytes at [va] are in user pages that are page frames, but not
    page tables, and different pages are in different frames. *)
Record user_range (m : gmap Z Z) (d va len : Z) : Prop := {
  ur_range : 0 <= va /\ va + len <= 4294967296;
  ur_user : forall x, va <= x < va + len ->
    has (pte_of m d x) PTE_P = true /\ has (pte_of m d x) PTE_U = true /\
    is_frame (PTE_ADDR (pte_of m d x)) /\ ~ uses m d (PTE_ADDR (pte_of m d x));
  ur_inj : forall x y, va <= x < va + len -> va <= y < va + len ->
    PTE_ADDR (pte_of m d x) = PTE_ADDR (pte_of m d y) -> vpn x = vpn y;
}.

(** Inside a page, physical addresses follow the virtual ones. *)
Lemma phys_add m d va i :
  0 <= i -> va mod 4096 + i < 4096 -> 0 <= va -> va + i < 4294967296 -> phys m d (va + i) = phys m d va + i.
Proof.
  intros Hi Ho Hv Hr. pose proof (Z.mod_pos_bound va 4096 eq_refl). unfold phys. rewrite (pte_of_vpn m d (va + i) va).
  - assert ((va + i) mod 4096 = va mod 4096 + i); [|lia].
    rewrite Z.add_mod, (Z.mod_small i) by lia. apply Z.mod_small. lia.
  - unfold vpn. rewrite !u32_small by lia. Z.div_mod_to_equations. lia.
Qed.

Lemma poke_app m0 d va bs1 bs2 m :
  poke m0 d va (bs1 ++ bs2) m = poke m0 d (va + Z.of_nat (length bs1)) bs2 (poke m0 d va bs1 m).
Proof.
  revert va m. induction bs1 as [|b bs1 IH]; intros va m; cbn [poke app length].
  - by rewrite Z.add_0_r.
  - rewrite IH. f_equal. lia.
Qed.

(** A run of bytes inside a page is one block of memory. *)
Lemma poke_page m0 d va bs m :
  0 <= va -> va mod 4096 + Z.of_nat (length bs) <= 4096 -> va + Z.of_nat (length bs) <= 4294967296 ->
  poke m0 d va bs m = st_bytes m (phys m0 d va) bs.
Proof.
  revert va m. induction bs as [|b bs IH]; intros va m Hv Ho Hr; [done|]. cbn [poke st_bytes length] in *.
  destruct bs as [|b' bs]; [done|]. cbn [length] in *. pose proof (Z.mod_pos_bound va 4096).
  assert ((va + 1) mod 4096 = va mod 4096 + 1).
  { rewrite Z.add_mod, (Z.mod_small 1) by lia. apply Z.mod_small. lia. }
  rewrite IH, phys_add by lia. done.
Qed.

Lemma ld8_poke_other m0 d va bs m a :
  (forall i, 0 <= i < Z.of_nat (length bs) -> phys m0 d (va + i) <> a) -> ld8 (poke m0 d va bs m) a = ld8 m a.
Proof.
  revert va m. induction bs as [|b bs IH]; intros va m Hn; [done|]. cbn [poke length] in *. rewrite IH.
  - rewrite ld8_st8, decide_False; [done|]. specialize (Hn 0 ltac:(lia)). rewrite Z.add_0_r in Hn. done.
  - intros i Hi. rewrite <- Z.add_assoc. apply Hn. lia.
Qed.

Lemma frame_of_phys m d va : frame_of (phys m d va) = PTE_ADDR (pte_of m d va).
Proof.
  destruct (PTE_ADDR_bounds (pte_of m d va)) as [_ Ha]. pose proof (Z.mod_pos_bound va 4096).
  unfold phys. apply frame_of_spec; [done|lia].
Qed.

(** Different user addresses are different bytes. *)
Lemma phys_inj m d va len x y :
  user_range m d va len -> va <= x < va + len -> va <= y < va + len -> phys m d x = phys m d y -> x = y.
Proof.
  intros [Hr Hu Hi] Hx Hy E. assert (PTE_ADDR (pte_of m d x) = PTE_ADDR (pte_of m d y)) as Ea.
  { rewrite <- !frame_of_phys. congruence. }
  pose proof (Hi x y Hx Hy Ea) as Ev. unfold vpn in Ev. rewrite !u32_small in Ev by lia.
  unfold phys in E. Z.div_mod_to_equations. lia.
Qed.

(** Reading back what was written. *)
Lemma ld8_poke m d va bs i b :
  user_range m d va (Z.of_nat (length bs)) -> bs !! i = Some b -> 
  ld8 (poke m d va bs m) (phys m d (va + Z.of_nat i)) = u8 b.
Proof.
  intros Hr Hi. pose proof (lookup_lt_Some _ _ _ Hi) as Hlt.
  rewrite <- (take_drop_middle bs i b Hi). rewrite poke_app. cbn [poke].
  rewrite length_take, Nat.min_l by lia. rewrite ld8_poke_other.
  - rewrite ld8_st8, decide_True by done. done.
  - intros j Hj. rewrite length_drop in Hj. intros E. eapply phys_inj in E; [|done|lia|lia]. lia.
Qed.

(** uva2ka on a user page, whose page table exists. *)
Lemma wp_uva2ka d va (Q : Z -> kstate -> Prop) s :
  let v := pte_of (k_mem s) d va in
  pgdir_wf (k_mem s) d -> has v PTE_P = true -> has v PTE_U = true -> is_frame (PTE_ADDR v) ->
  Q (PTE_ADDR v + KERNBASE) s -> wp (uva2ka (d + KERNBASE) va) Q s.
Proof.
  intros v Hwf HP HU Hf HQ. unfold uva2ka. kstep. apply wp_walk_noalloc; [done|].
  unfold v, pte_of in *. destruct (pte_slot (k_mem s) d va) as [a|] eqn:Ha; [|done]. cbn [slot_ptr].
  destruct (pte_slot_frame _ _ _ _ Hwf Ha) as (f & _ & Hff & _ & Ef & _).
  destruct (dir_ptr f (PTX va)) as [_ Hptr]; [done|apply PTX_range|]. rewrite <- Ef in Hptr.
  kstep. kstep; [done|]. rewrite Z.add_simpl_r, HP, HU. cbn [negb]. kstep.
  rewrite P2V_spec by (destruct Hf as (_ & ? & ?); unfold PHYSTOP, KERNBASE in *; lia). done.
Qed.

(** The state after the first [k] bytes. *)
Definition poked (s : kstate) (d va : Z) (p : list Z) (k : nat) : kstate :=
  set_k_mem (poke (k_mem s) d va (take k p) (k_mem s)) s.

(** Writing to user pages does not touch the page tables. *)
Lemma poked_view s d va p k :
  pgdir_wf (k_mem s) d -> user_range (k_mem s) d va (Z.of_nat (length p)) ->
  pgdir_wf (k_mem (poked s d va p k)) d /\
  forall va', pte_of (k_mem (poked s d va p k)) d va' = pte_of (k_mem s) d va'.
Proof.
  intros Hwf Hr.
  assert (forall a, uses (k_mem s) d (frame_of a) -> ld8 (k_mem (poked s d va p k)) a = ld8 (k_mem s) a) as Hm.
  { intros a Ha. apply ld8_poke_other. intros i Hi <-. rewrite frame_of_phys in Ha. rewrite length_take in Hi.
    by destruct (ur_user _ _ _ _ Hr (va + i)) as (_ & _ & _ & ?); [lia|]. }
  split; [|by apply same_tables]. eapply pgdir_wf_ext; [|done].
  intros a Ha. apply Hm. left. apply frame_of_spec; [apply Hwf|done].
Qed.

Lemma kstore_bytes_run v bs s :
  KERNBASE <= v < KERNBASE + PHYSTOP ->
  kstore_bytes v bs s = Ret tt (set_k_mem (st_bytes (k_mem s) (v - KERNBASE) bs) s).
Proof.
  intros Hv. unfold kstore_bytes. rewrite is_kptr_true by done.
  unfold modify. rewrite V2P_spec by (unfold KERNBASE, PHYSTOP in *; lia). done.
Qed.

(** One more run of bytes, up to the end of a page. *)
Lemma poked_step s d va p k n :
  user_range (k_mem s) d va (Z.of_nat (length p)) ->
  (k + n <= length p)%nat -> (va + Z.of_nat k) mod 4096 + Z.of_nat n <= 4096 ->
  set_k_mem (st_bytes (k_mem (poked s d va p k)) (phys (k_mem s) d (va + Z.of_nat k)) (take n (drop k p)))
    (poked s d va p k) = poked s d va p (k + n).
Proof.
  intros [Hr _ _] Hk Ho. unfold poked. cbn [k_mem set_k_mem].
  rewrite <- (take_take_drop p k n), poke_app, length_take, Nat.min_l by lia.
  rewrite (poke_page _ _ (va + Z.of_nat k)); [done|lia|..]; rewrite length_take, length_drop; lia.
Qed.

Lemma wp_copyout_body d va p k (Q : Z * list Z + Z -> kstate -> Prop) s :
  let x := va + Z.of_nat k in
  let n := Z.to_nat (Z.min (4096 - x mod 4096) (Z.of_nat (length p - k))) in
  pgdir_wf (k_mem s) d -> user_range (k_mem s) d va (Z.of_nat (length p)) -> (k < length p)%nat ->
  Q (inl (u32 (x - x mod 4096 + 4096), drop (k + n) p)) (poked s d va p (k + n)) ->
  wp (copyout_body (d + KERNBASE) (x, drop k p)) Q (poked s d va p k).
Proof.
  intros x n Hwf Hr Hk HQ. unfold copyout_body. rewrite length_drop.
  pose proof (Z.mod_pos_bound x 4096 eq_refl) as Ho. destruct (ur_range _ _ _ _ Hr) as [Hv0 Hv1].
  destruct (poked_view s d va p k) as [Hwfk Hpk]; [done..|]. cbv zeta. zb.
  assert (x mod 4096 <= x) by (apply Z.mod_le; lia).
  assert (PGROUNDDOWN x = x - x mod 4096) as Eg.
  { rewrite PGROUNDDOWN_spec, u32_small by lia. lia. }
  assert (forall m, pte_of m d (PGROUNDDOWN x) = pte_of m d x) as Ep.
  { intros m. apply pte_of_vpn. rewrite Eg. unfold vpn. rewrite !u32_small by lia. Z.div_mod_to_equations. lia. }
  destruct (ur_user _ _ _ _ Hr x) as (HP & HU & Hf & _); [lia|].
  kstep. apply wp_uva2ka; rewrite ?Ep, ?Hpk; try done.
  pose proof Hf as (_ & Hf0 & Hf1).
  rewrite (proj2 (Z.eqb_neq (PTE_ADDR _ + KERNBASE) 0)) by (unfold KERNBASE; lia).
  replace (x - PGROUNDDOWN x) with (x mod 4096) by lia.
  assert ((if Z.of_nat (length p - k) <? PGSIZE - x mod 4096 then Z.of_nat (length p - k)
    else PGSIZE - x mod 4096) = Z.of_nat n) as ->.
  { unfold n, PGSIZE. destruct (Z.ltb_spec (Z.of_nat (length p - k)) (4096 - x mod 4096)); lia. }
  rewrite Nat2Z.id. kstep. eapply wp_of_run; [apply kstore_bytes_run; unfold KERNBASE, PHYSTOP in *; lia|].
  kstep. replace (PTE_ADDR (pte_of (k_mem s) d x) + KERNBASE + x mod 4096 - KERNBASE)
    with (phys (k_mem s) d x) by (unfold phys; lia).
  rewrite drop_drop, Eg. unfold x. rewrite poked_step; [exact HQ|done|lia|unfold x in *; lia].
Qed.

(** copyout to user pages that are all present: it returns 0, byte [i] of
    the buffer is the byte at user address [va + i], every other byte of memory
    and the whole address space are as before. *)
Theorem copyout_writes d va p s :
  pgdir_wf (k_mem s) d -> user_range (k_mem s) d va (Z.of_nat (length p)) ->
  exists s', copyout (d + KERNBASE) va p s = Ret 0 s' /\
    (forall i b, p !! i = Some b -> ld8 (k_mem s') (phys (k_mem s) d (va + Z.of_nat i)) = u8 b) /\
    (forall a, (forall i, 0 <= i < Z.of_nat (length p) -> phys (k_mem s) d (va + i) <> a) ->
       ld8 (k_mem s') a = ld8 (k_mem s) a) /\
    (forall va', pte_of (k_mem s') d va' = pte_of (k_mem s) d va').
Proof.
  intros Hwf Hr. exists (poked s d va p (length p)).
  assert (copyout (d + KERNBASE) va p s = Ret 0 (poked s d va p (length p))) as ->.
  - apply run_of_wp. unfold copyout.
    apply (wp_iter (fun st s' => exists k, (k <= length p)%nat /\ st.2 = drop k p /\ s' = poked s d va p k /\
        ((k < length p)%nat -> st.1 = va + Z.of_nat k)) (fun st => length st.2)).
    + intros [x buf] s' (k & Hk & Hbuf & -> & Hx). cbn [fst snd] in *. subst buf. destruct (decide (k < length p)%nat) as [Hlt|Hge].
      * rewrite (Hx Hlt). apply wp_copyout_body; [done..|]. set (n := Z.to_nat _).
        destruct (ur_range _ _ _ _ Hr). pose proof (Z.mod_pos_bound (va + Z.of_nat k) 4096 eq_refl).
        assert (1 <= n <= length p - k)%nat by (unfold n; lia).
        cbn [fst snd]. rewrite !length_drop. split; [|lia]. exists (k + n)%nat. split_and!; [lia|done|done|].
        intros Hlt'. rewrite u32_small; unfold n in *; lia.
      * unfold copyout_body. replace k with (length p) by lia. rewrite drop_all. cbn [length]. cbv zeta. zb. by kstep.
    + exists 0%nat. split_and!; [lia|done| |intros; cbn; lia]. unfold poked. rewrite take_0. by destruct s.
    + cbn. lia.
  - split_and!; [done|..].
    + intros i b Hi. cbn [poked k_mem set_k_mem]. rewrite firstn_all. by apply ld8_poke.
    + intros a Ha. cbn [poked k_mem set_k_mem]. rewrite firstn_all. by apply ld8_poke_other.
    + by apply poked_view.
Qed.

End copyout.

Section user_witnesses.
#[local] Existing Instance sample_image.

Lemma sample_user_range : user_range (k_mem (sample_state 0x302007 1 0x1000)) 0x300000 0x10 2.
Proof.
  set (m := k_mem (sample_state 0x302007 1 0x1000)).
  assert (forall x, 0x10 <= x < 0x12 -> vpn x = 0) as Hv.
  { intros x Hx. unfold vpn. rewrite u32_small by lia. apply Z.div_small. lia. }
  assert (forall x, 0x10 <= x < 0x12 -> pte_of m 0x300000 x = 0x302007) as Hp.
  { intros x Hx. rewrite (pte_of_vpn m _ x 0); [vm_compute; reflexivity|by rewrite Hv]. }
  split.
  - done.
  - intros x Hx. rewrite Hp by done. split_and!; [done|done|apply is_frameb_spec; reflexivity|].
    intros Hu%uses_tables. revert Hu. apply (bool_decide_unpack _). vm_compute. exact I.
  - intros x y Hx Hy _. by rewrite !Hv.
Qed.

(** Two bytes at user address 0x10 of the sample address space. *)
Lemma copyout_writes_witness :
  exists s', copyout (0x300000 + KERNBASE) 0x10 [65; 66] (sample_state 0x302007 1 0x1000) = Ret 0 s' /\
    ld8 (k_mem s') 0x302010 = 65 /\ ld8 (k_mem s') 0x302011 = 66.
Proof.
  destruct (copyout_writes 0x300000 0x10 [65; 66] (sample_state 0x302007 1 0x1000)) as (s' & Hrun & Hw & _).
  - apply pgdir_wfb_spec. vm_compute. reflexivity.
  - apply sample_user_range.
  - exact (ex_intro _ s' (conj Hrun (conj (Hw 0%nat 65 eq_refl) (Hw 1%nat 66 eq_refl)))).
Defined.

End user_witnesses.
