(* ===== verification/UserMem.v ===== *)
(** * Kernel accesses to user memory

    The kernel reads and writes user addresses through the page directory in
    cr3, which is not always the one of the current process.  An access to a
    page that is not present, or a write to a page that is not writable, faults
    (CR0_WP is set in entry.S); the trap handler resolves the fault with
    [handle_cow_fault] and the access is repeated.  A fault that the handler
    does not resolve recurs for ever: the access never completes.  The user
    addresses that reach the kernel lie below the process size, and so below
    [WMAP_LOW], where trap.c's lazy allocation starts. *)

From S2P Require Import Prelude Mmu Mem State Kernel Cprintf Kalloc Vm.

Definition WMAP_LOW : Z := 0x60000000.

Definition diverge {S A} : M S A := fun _ => Diverge.

(** A loop of at most [n] turns, with [n] in binary. *)
Fixpoint iter_pos {S A B} (n : positive) (body : A -> M S (A + B)) (a : A) : M S (A + B) :=
  match n with
  | xH => body a
  | xO n => r ← iter_pos n body a; match r with inl a => iter_pos n body a | inr b => mret (inr b) end
  | xI n =>
      r ← body a;
      match r with
      | inr b => mret (inr b)
      | inl a =>
          r ← iter_pos n body a;
          match r with inl a => iter_pos n body a | inr b => mret (inr b) end
      end
  end.

Section user.
Context `{KernelImage}.

(** The page-table entry that the MMU finds for [va]. *)
Definition mmu_pte (va : Z) : K Z :=
  d ← gets k_cr3;
  m ← gets k_mem;
  mret (pte_of m d va).

(** The entry for an access; [ok] says whether an entry permits it. *)
Definition access (ok : Z -> bool) (va : Z) : K Z :=
  v ← mmu_pte va;
  if ok v then mret v else
  if WMAP_LOW <=? va then crash "access outside the process" else
  p ← myproc;
  r ← handle_cow_fault p va;
  if negb (r =? 0) then crash "unresolved page fault" else
  v ← mmu_pte va;
  if ok v then mret v else crash "unresolved page fault".

Definition can_read (v : Z) : bool := has v PTE_P.
Definition can_write (v : Z) : bool := has v PTE_P && has v PTE_W.

Definition uload8 (va : Z) : K Z :=
  v ← access can_read va;
  gets (fun s => ld8 (k_mem s) (PTE_ADDR v + va mod 4096)).

Definition ustore8 (va b : Z) : K unit :=
  v ← access can_write va;
  modify (fun s => set_k_mem (st8 (k_mem s) (PTE_ADDR v + va mod 4096) b) s).

Fixpoint uload_bytes (va : Z) (n : nat) : K (list Z) :=
  match n with
  | O => mret []
  | S n => b ← uload8 va; bs ← uload_bytes (u32 (va + 1)) n; mret (b :: bs)
  end.

Fixpoint ustore_bytes (va : Z) (bs : list Z) : K unit :=
  match bs with
  | [] => mret tt
  | b :: bs => ustore8 va b;; ustore_bytes (u32 (va + 1)) bs
  end.

Definition uload32 (va : Z) : K Z :=
  b0 ← uload8 va;
  b1 ← uload8 (u32 (va + 1));
  b2 ← uload8 (u32 (va + 2));
  b3 ← uload8 (u32 (va + 3));
  mret (b0 + 256 * b1 + 65536 * b2 + 16777216 * b3).

(** The bytes of the string at [va] up to its zero. *)
Definition ustring_body (st : Z * list Z) : K (Z * list Z + list Z) :=
  let '(va, acc) := st in
  b ← uload8 va;
  if b =? 0 then mret (inr (rev acc)) else mret (inl (u32 (va + 1), b :: acc)).

Definition ustring (va : Z) : K (list Z) :=
  r ← iter_pos 4294967296 ustring_body (va, []);
  match r with inl _ => diverge | inr bs => mret bs end.

End user.
