(* ===== verification/Sched.v ===== *)
(** * Giving up the CPU, sleeping and waking (proc.c)

    [sched] leaves the kernel thread: the outcome is [Sleep] with the state
    that the scheduler takes over.  The theorems are about what a sleeping
    process leaves behind and whom a wakeup reaches. *)

From S2P Require Import Prelude Mmu Mem State Kernel.

Definition sched {A} : K A :=
  p ← myproc;
  h ← holding LK_ptable;
  if negb h then panic "sched ptable.lock" else
  ls ← gets k_locks;
  if negb (Nat.eqb (length ls) 1) then panic "sched locks" else
  pr ← getproc p;
  if bool_decide (p_state pr = RUNNING) then panic "sched running" else
  fun s => Sleep s.

Definition yield : K unit :=
  acquire LK_ptable;;
  p ← myproc;
  modproc p (set_p_state RUNNABLE);;
  sched.

(** [sleep(chan, lk)] up to the switch to the scheduler. *)
Definition sleep {A} (c : chan) (lk : lockid) : K A :=
  cur ← gets k_cur;
  match cur with
  | None => panic "sleep"
  | Some p =>
      (if bool_decide (lk = LK_ptable) then mret tt
       else acquire LK_ptable;; release lk);;
      modproc p (fun pr => set_p_state SLEEPING (set_p_chan (Some c) pr));;
      sched
  end.

(** What remains of [sleep] when the scheduler switches back. *)
Definition sleep_resume (lk : lockid) : K unit :=
  p ← myproc;
  modproc p (set_p_chan None);;
  if bool_decide (lk = LK_ptable) then mret tt
  else release LK_ptable;; acquire lk.

(** The loop over the process table of [wakeup1]; [None] is the null channel. *)
Definition woken (c : option chan) (p : proc) : proc :=
  if bool_decide (p_state p = SLEEPING /\ p_chan p = c) then set_p_state RUNNABLE p else p.

Definition wakeup1 (c : option chan) : K unit :=
  modify (fun s => set_k_procs (woken c <$> k_procs s) s).

Definition wakeup (c : chan) : K unit :=
  acquire LK_ptable;;
  wakeup1 (Some c);;
  release LK_ptable.

Fixpoint kill_scan (pid : Z) (ps : list proc) : option (list proc) :=
  match ps with
  | [] => None
  | p :: ps =>
      if p_pid p =? pid then
        let p := set_p_killed 1 p in
        Some ((if bool_decide (p_state p = SLEEPING) then set_p_state RUNNABLE p else p) :: ps)
      else ps' ← kill_scan pid ps; Some (p :: ps')
  end.

Definition kill (pid : Z) : K Z :=
  acquire LK_ptable;;
  ps ← gets k_procs;
  match kill_scan pid ps with
  | Some ps' => modify (set_k_procs ps');; release LK_ptable;; mret 0
  | None => release LK_ptable;; mret (-1)
  end.

(** ** Facts *)

Lemma wakeup_run c s :
  LK_ptable ∉ k_locks s ->
  wakeup c s = Ret tt (set_k_procs (woken (Some c) <$> k_procs s) s).
Proof.
  intros Hl. apply run_of_wp. unfold wakeup, wakeup1. by repeat (kstep; try done).
Qed.

(** ** Sleeping and waking *)

Definition wake (c : chan) (s : kstate) : kstate := set_k_procs (woken (Some c) <$> k_procs s) s.

(** Process [cur] sleeps on [c] and the scheduler takes over, holding the lock
    of the process table only. *)
Definition asleep (cur : nat) (c : chan) (s : kstate) : kstate :=
  set_k_locks [LK_ptable]
    (set_k_procs (alter (fun pr => set_p_state SLEEPING (set_p_chan (Some c) pr)) cur (k_procs s)) s).

Lemma sleep_run {A} c lk cur pr s :
  k_locks s = [lk] -> lk <> LK_ptable -> k_cur s = Some cur -> k_procs s !! cur = Some pr ->
  sleep (A := A) c lk s = Sleep (asleep cur c s).
Proof.
  intros Hl Hne Hc Hp. unfold sleep. erewrite bind_run by reflexivity. rewrite Hc.
  rewrite bool_decide_false by done.
  erewrite bind_run.
  2:{ erewrite bind_run; [|apply acquire_run; rewrite Hl; by intros ?%list_elem_of_singleton].
      apply release_run. cbn. rewrite Hl. right. left. }
  cbn [k_locks set_k_locks]. rewrite Hl.
  rewrite filter_cons_True, filter_cons_False by (congruence || (intros []; done)).
  erewrite bind_run by reflexivity. unfold sched.
  erewrite bind_run by (unfold myproc; erewrite bind_run by reflexivity; cbn; by rewrite Hc).
  erewrite bind_run by reflexivity. cbn [k_locks set_k_locks set_k_procs].
  rewrite bool_decide_true by left. cbn [negb]. cbv iota.
  erewrite bind_run by reflexivity.
  cbn [k_locks set_k_locks set_k_procs length filter list_filter Nat.eqb negb].
  erewrite bind_run.
  2:{ apply getproc_run. cbn. by rewrite list_lookup_alter_eq, Hp. }
  cbn. rewrite bool_decide_false by done. unfold asleep. by destruct s.
Qed.
