(* ===== verification/Sleeplock.v ===== *)
(** * Sleep locks (sleeplock.c)

    A sleep lock lives inside a buffer or an in-core inode; [lkref] says where,
    and the operations read and write it there.  Each has an inner spin lock. *)

From S2P Require Import Prelude Mmu Mem State Kernel Sched.

(** Where a sleep lock is. *)
Inductive lkref := BufLock (i : nat) | InoLock (i : nat).

Definition spin_of (r : lkref) : lockid :=
  match r with BufLock i => LK_bufsleep i | InoLock i => LK_inosleep i end.
Definition chan_of (r : lkref) : chan :=
  match r with BufLock i => CH_buflock i | InoLock i => CH_inolock i end.

Definition get_sleeplock (r : lkref) (s : kstate) : option sleeplock :=
  match r with
  | BufLock i => b_lock <$> k_bufs s !! i
  | InoLock i => i_lock <$> k_icache s !! i
  end.
Definition set_sleeplock (r : lkref) (l : sleeplock) (s : kstate) : kstate :=
  match r with
  | BufLock i => set_k_bufs (alter (set_b_lock l) i (k_bufs s)) s
  | InoLock i => set_k_icache (alter (set_i_lock l) i (k_icache s)) s
  end.

Definition initsleeplock (r : lkref) : K unit :=
  initlock (spin_of r);;
  modify (set_sleeplock r (mkSleeplock 0 0)).

Definition acquiresleep (r : lkref) : K unit :=
  acquire (spin_of r);;
  l ← (o ← gets (get_sleeplock r); from_option "no such sleep lock" o);
  if negb (sl_locked l =? 0) then sleep (chan_of r) (spin_of r) else
    p ← myproc;
    pr ← getproc p;
    modify (set_sleeplock r (mkSleeplock 1 (p_pid pr)));;
    release (spin_of r).

Definition releasesleep (r : lkref) : K unit :=
  acquire (spin_of r);;
  l ← (o ← gets (get_sleeplock r); from_option "no such sleep lock" o);
  modify (set_sleeplock r (mkSleeplock 0 0));;
  wakeup (chan_of r);;
  release (spin_of r).

Definition holdingsleep (r : lkref) : K bool :=
  acquire (spin_of r);;
  l ← (o ← gets (get_sleeplock r); from_option "no such sleep lock" o);
  (if negb (sl_locked l =? 0) then
     p ← myproc;
     pr ← getproc p;
     release (spin_of r);;
     mret (sl_pid l =? p_pid pr)
   else
     release (spin_of r);;
     mret false).
