(* ===== verification/Bio.v ===== *)
(** * Buffer cache (bio.c) over the in-memory disk (memide.c)

    Buffers are indices into [k_bufs]; the doubly linked list through
    [bcache.head] is the list [k_lru] of indices, most recently used first.
    The cache invariant says that every valid buffer without B_DIRTY holds its
    disk block and that no block is cached twice; a read returns the current
    contents of a block, a write makes the disk hold the buffer. *)

From S2P Require Import Prelude Mmu Mem State Kernel Sched Sleeplock.

Definition BSIZE : Z := 512.
Definition B_VALID : Z := 0x2.
Definition B_DIRTY : Z := 0x4.

Section bio.
Context `{KernelImage}.

Definition getbuf (b : nat) : K buf :=
  bs ← gets k_bufs; from_option "bad buf pointer" (bs !! b).
Definition modbuf (b : nat) (f : buf -> buf) : K unit :=
  modify (fun s => set_k_bufs (alter f b (k_bufs s)) s).

(** A block of the disk; a block never written is zero. *)
Definition disk_block (dk : gmap (Z * Z) (list Z)) (dev bno : Z) : list Z :=
  default (replicate 512 0) (dk !! (dev, bno)).

(** Writing a block; the history of writes is kept for crash reasoning. *)
Definition disk_write (dev bno : Z) (data : list Z) : K unit :=
  modify (fun s => set_k_writes ((bno, data) :: k_writes s)
                     (set_k_disk (<[(dev, bno) := data]> (k_disk s)) s)).

(** memide.c *)
Definition iderw (b : nat) : K unit :=
  h ← holdingsleep (BufLock b);
  if negb h then panic "iderw: buf not locked" else
  bf ← getbuf b;
  if Z.land (b_flags bf) (Z.lor B_VALID B_DIRTY) =? B_VALID then panic "iderw: nothing to do" else
  if negb (b_dev bf =? 1) then panic "iderw: request not for disk 1" else
  if disksize <=? b_blockno bf then panic "iderw: block out of range" else
  (if has (b_flags bf) B_DIRTY then
     modbuf b (fun bf => set_b_flags (clearf (b_flags bf) B_DIRTY) bf);;
     disk_write (b_dev bf) (b_blockno bf) (b_data bf)
   else
     dk ← gets k_disk;
     modbuf b (set_b_data (disk_block dk (b_dev bf) (b_blockno bf))));;
  modbuf b (fun bf => set_b_flags (Z.lor (b_flags bf) B_VALID) bf).

(** bio.c *)
Definition binit : K unit :=
  initlock LK_bcache;;
  for_each (seq 0 (Z.to_nat NBUF)) (fun b =>
    initsleeplock (BufLock b);;
    modify (fun s => set_k_lru (b :: k_lru s) s)).

(** The first buffer of the list that holds block [blockno] of [dev]. *)
Fixpoint find_cached (bs : list buf) (lru : list nat) (dev blockno : Z) : option nat :=
  match lru with
  | [] => None
  | b :: lru =>
      match bs !! b with
      | Some bf =>
          if (b_dev bf =? dev) && (b_blockno bf =? blockno) then Some b
          else find_cached bs lru dev blockno
      | None => find_cached bs lru dev blockno
      end
  end.

(** The first buffer of the list that can be recycled. *)
Fixpoint find_free (bs : list buf) (lru : list nat) : option nat :=
  match lru with
  | [] => None
  | b :: lru =>
      match bs !! b with
      | Some bf =>
          if (b_refcnt bf =? 0) && negb (has (b_flags bf) B_DIRTY) then Some b
          else find_free bs lru
      | None => find_free bs lru
      end
  end.

Definition bget (dev blockno : Z) : K nat :=
  acquire LK_bcache;;
  bs ← gets k_bufs;
  lru ← gets k_lru;
  match find_cached bs lru dev blockno with
  | Some b =>
      modbuf b (fun bf => set_b_refcnt (u32 (b_refcnt bf + 1)) bf);;
      release LK_bcache;;
      acquiresleep (BufLock b);;
      mret b
  | None =>
      match find_free bs (rev lru) with
      | Some b =>
          modbuf b (fun bf => set_b_dev dev (set_b_blockno blockno (set_b_flags 0 (set_b_refcnt 1 bf))));;
          release LK_bcache;;
          acquiresleep (BufLock b);;
          mret b
      | None => panic "bget: no buffers"
      end
  end.

Definition bread (dev blockno : Z) : K nat :=
  b ← bget dev blockno;
  bf ← getbuf b;
  (if has (b_flags bf) B_VALID then mret tt else iderw b);;
  mret b.

Definition bwrite (b : nat) : K unit :=
  h ← holdingsleep (BufLock b);
  if negb h then panic "bwrite" else
  modbuf b (fun bf => set_b_flags (Z.lor (b_flags bf) B_DIRTY) bf);;
  iderw b.

Definition brelse (b : nat) : K unit :=
  h ← holdingsleep (BufLock b);
  if negb h then panic "brelse" else
  releasesleep (BufLock b);;
  acquire LK_bcache;;
  modbuf b (fun bf => set_b_refcnt (u32 (b_refcnt bf - 1)) bf);;
  bf ← getbuf b;
  (if b_refcnt bf =? 0
   then modify (fun s => set_k_lru (b :: filter (fun x => x <> b) (k_lru s)) s)
   else mret tt);;
  release LK_bcache.

End bio.
