(* ===== verification/Log.v ===== *)
(** * The redo log (log.c)

    A transaction is the list of block numbers in [log.lh]; its blocks are
    pinned in the buffer cache.  [commit] copies them to the log, writes the
    header, installs them and erases the header; [recover_from_log] replays a
    committed log. *)

From S2P Require Import Prelude Mmu Mem Bytes State Kernel Sched Sleeplock Bio.

Section log.
Context `{KernelImage}.

Definition modlog (f : logstate -> logstate) : K unit :=
  modify (fun s => set_k_log (f (k_log s)) s).

(** log.lh.block[i] *)
Definition log_block (i : nat) : K Z :=
  lg ← gets k_log; from_option "log.lh.block out of range" (lh_block lg !! i).

Definition set_log_block (i : nat) (b : Z) : K unit :=
  lg ← gets k_log;
  if (Nat.ltb i (length (lh_block lg))) then modlog (fun lg => set_lh_block (<[i := s32 b]> (lh_block lg)) lg)
  else crash "log.lh.block out of range".

(** The loop bound [tail < log.lh.n]. *)
Definition log_tails : K (list nat) :=
  lg ← gets k_log; mret (seq 0 (Z.to_nat (lh_n lg))).

Definition install_trans : K unit :=
  tails ← log_tails;
  for_each tails (fun tail =>
    lg ← gets k_log;
    lbuf ← bread (u32 (l_dev lg)) (u32 (l_start lg + Z.of_nat tail + 1));
    bno ← log_block tail;
    dbuf ← bread (u32 (l_dev lg)) (u32 bno);
    lb ← getbuf lbuf;
    modbuf dbuf (set_b_data (b_data lb));;
    bwrite dbuf;;
    brelse lbuf;;
    brelse dbuf).

Definition read_head : K unit :=
  lg ← gets k_log;
  b ← bread (u32 (l_dev lg)) (u32 (l_start lg));
  bf ← getbuf b;
  modlog (set_lh_n (s32 (get32 (b_data bf) 0)));;
  tails ← log_tails;
  for_each tails (fun i => set_log_block i (get32 (b_data bf) (4 + 4 * i)));;
  brelse b.

Definition write_head : K unit :=
  lg ← gets k_log;
  b ← bread (u32 (l_dev lg)) (u32 (l_start lg));
  modbuf b (fun bf => set_b_data (put32 (b_data bf) 0 (lh_n lg)) bf);;
  tails ← log_tails;
  for_each tails (fun i =>
    bno ← log_block i;
    modbuf b (fun bf => set_b_data (put32 (b_data bf) (4 + 4 * i) bno) bf));;
  bwrite b;;
  brelse b.

Definition recover_from_log : K unit :=
  read_head;;
  install_trans;;
  modlog (set_lh_n 0);;
  write_head.

(** fs.c: [readsb]. *)
Definition sb_of_bytes (bs : list Z) : superblock :=
  mkSb (get32 bs 0) (get32 bs 4) (get32 bs 8) (get32 bs 12) (get32 bs 16) (get32 bs 20) (get32 bs 24).

Definition readsb (dev : Z) : K superblock :=
  bp ← bread (u32 dev) 1;
  bf ← getbuf bp;
  brelse bp;;
  mret (sb_of_bytes (b_data bf)).

(** [sizeof(struct logheader)] is 4 + 4 * LOGSIZE. *)
Definition initlog (dev : Z) : K unit :=
  if BSIZE <=? 4 + 4 * LOGSIZE then panic "initlog: too big logheader" else
  initlock LK_log;;
  sb ← readsb dev;
  modlog (fun lg => set_l_start (s32 (sb_logstart sb)) (set_l_size (s32 (sb_nlog sb)) (set_l_dev dev lg)));;
  recover_from_log.

Definition begin_op : K unit :=
  acquire LK_log;;
  lg ← gets k_log;
  if negb (l_committing lg =? 0) then sleep CH_log LK_log else
  if LOGSIZE <? lh_n lg + (l_outstanding lg + 1) * MAXOPBLOCKS then sleep CH_log LK_log else
  modlog (set_l_outstanding (l_outstanding lg + 1));;
  release LK_log.

Definition write_log : K unit :=
  tails ← log_tails;
  for_each tails (fun tail =>
    lg ← gets k_log;
    to ← bread (u32 (l_dev lg)) (u32 (l_start lg + Z.of_nat tail + 1));
    bno ← log_block tail;
    from ← bread (u32 (l_dev lg)) (u32 bno);
    fb ← getbuf from;
    modbuf to (set_b_data (b_data fb));;
    bwrite to;;
    brelse from;;
    brelse to).

Definition commit : K unit :=
  lg ← gets k_log;
  if 0 <? lh_n lg then
    write_log;;
    write_head;;
    install_trans;;
    modlog (set_lh_n 0);;
    write_head
  else mret tt.

Definition end_op : K unit :=
  acquire LK_log;;
  modlog (fun lg => set_l_outstanding (l_outstanding lg - 1) lg);;
  lg ← gets k_log;
  if negb (l_committing lg =? 0) then panic "log.committing" else
  let do_commit := l_outstanding lg =? 0 in
  (if do_commit then modlog (set_l_committing 1) else wakeup CH_log);;
  release LK_log;;
  if do_commit then
    commit;;
    acquire LK_log;;
    modlog (set_l_committing 0);;
    wakeup CH_log;;
    release LK_log
  else mret tt.

(** The first index below [n] whose block is [bno], or [n]. *)
Fixpoint log_find (blocks : list Z) (n : nat) (bno : Z) : nat :=
  match n, blocks with
  | S n, b :: blocks => if u32 b =? bno then O else S (log_find blocks n bno)
  | _, _ => O
  end.

Definition log_write (b : nat) : K unit :=
  lg ← gets k_log;
  if (LOGSIZE <=? lh_n lg) || (l_size lg - 1 <=? lh_n lg) then panic "too big a transaction" else
  if l_outstanding lg <? 1 then panic "log_write outside of trans" else
  acquire LK_log;;
  bf ← getbuf b;
  let i := log_find (lh_block lg) (Z.to_nat (lh_n lg)) (b_blockno bf) in
  set_log_block i (b_blockno bf);;
  (if Z.of_nat i =? lh_n lg then modlog (set_lh_n (lh_n lg + 1)) else mret tt);;
  modbuf b (fun bf => set_b_flags (Z.lor (b_flags bf) B_DIRTY) bf);;
  release LK_log.

End log.
