(* ===== verification/FsInode.v ===== *)
(** * Disk blocks and inodes (fs.c)

    The block allocator over the free bit map, the on-disk inode format, the
    in-core inode cache with its reference counts and locks, and the map from
    file blocks to disk blocks.  Inode pointers are indices into [k_icache];
    functions that check for a null pointer take an option. *)

From S2P Require Import Prelude Mmu Mem Bytes State Kernel Cprintf Sched Sleeplock Bio Log.

Definition ROOTINO : Z := 1.
Definition NDIRECT : Z := 12.
Definition NINDIRECT : Z := BSIZE / 4.
Definition MAXFILE : Z := NDIRECT + NINDIRECT.
Definition IPB : Z := BSIZE / 64.
Definition BPB : Z := BSIZE * 8.
Definition DIRSIZ : Z := 14.
Definition T_DIR : Z := 1.
Definition T_FILE : Z := 2.
Definition T_DEV : Z := 3.

Definition IBLOCK (i : Z) (sb : superblock) : Z := u32 (i / IPB + sb_inodestart sb).
Definition BBLOCK (b : Z) (sb : superblock) : Z := u32 (b / BPB + sb_bmapstart sb).

(** ** The on-disk inode *)

Record dinode := mkDinode {
  di_type : Z;
  di_major : Z;
  di_minor : Z;
  di_nlink : Z;
  di_size : Z;
  di_addrs : list Z;
}.

(** Inode [n] of a block of inodes: 64 bytes each. *)
Definition dinode_off (n : Z) : nat := Z.to_nat (64 * n).

Definition get_dinode (data : list Z) (n : Z) : dinode :=
  let o := dinode_off n in
  mkDinode (s16 (get16 data o)) (s16 (get16 data (o + 2))) (s16 (get16 data (o + 4)))
    (s16 (get16 data (o + 6))) (get32 data (o + 8))
    ((fun i => get32 data (o + 12 + 4 * i)) <$> seq 0 13).

Definition dinode_bytes (di : dinode) : list Z :=
  z2le 2 (di_type di) ++ z2le 2 (di_major di) ++ z2le 2 (di_minor di) ++ z2le 2 (di_nlink di) ++
  z2le 4 (di_size di) ++ concat (z2le 4 <$> di_addrs di).

Definition put_dinode (data : list Z) (n : Z) (di : dinode) : list Z :=
  put_bytes data (dinode_off n) (dinode_bytes di).

Section fs.
Context `{KernelImage}.

(** ** Blocks *)

Definition bzero (dev bno : Z) : K unit :=
  bp ← bread (u32 dev) (u32 bno);
  modbuf bp (set_b_data (replicate 512 0));;
  log_write bp;;
  brelse bp.

(** Is bit [bi] of a bit map block clear? *)
Definition bit_clear (data : list Z) (bi : Z) : bool :=
  Z.land (nth (Z.to_nat (bi / 8)) data 0) (Z.shiftl 1 (bi mod 8)) =? 0.

(** [data[bi/8] |= m] and [data[bi/8] &= ~m] for the mask of bit [bi]. *)
Definition set_bit (data : list Z) (bi : Z) : list Z :=
  alter (fun x => u8 (Z.lor x (Z.shiftl 1 (bi mod 8)))) (Z.to_nat (bi / 8)) data.
Definition clear_bit (data : list Z) (bi : Z) : list Z :=
  alter (fun x => u8 (Z.land x (Z.lnot (Z.shiftl 1 (bi mod 8))))) (Z.to_nat (bi / 8)) data.

(** The inner loop of [balloc]: the first clear bit from [bi] on. *)
Fixpoint bit_scan (n : nat) (data : list Z) (b size bi : Z) : option Z :=
  match n with
  | O => None
  | S n =>
      if (bi <? BPB) && (u32 (b + bi) <? size) then
        if bit_clear data bi then Some bi else bit_scan n data b size (bi + 1)
      else None
  end.

Definition balloc_body (dev b : Z) : K (Z + Z) :=
  sb ← gets k_sb;
  if u32 b <? sb_size sb then
    bp ← bread dev (BBLOCK b sb);
    bf ← getbuf bp;
    match bit_scan (Z.to_nat BPB) (b_data bf) b (sb_size sb) 0 with
    | Some bi =>
        modbuf bp (fun bf => set_b_data (set_bit (b_data bf) bi) bf);;
        log_write bp;;
        brelse bp;;
        bzero dev (b + bi);;
        mret (inr (u32 (b + bi)))
    | None => brelse bp;; mret (inl (b + BPB))
    end
  else panic "balloc: out of blocks".

Definition balloc (dev : Z) : K Z :=
  sb ← gets k_sb;
  iter (S (Z.to_nat (sb_size sb / BPB + 1))) (balloc_body dev) 0.

Definition bfree (dev b : Z) : K unit :=
  sb ← gets k_sb;
  bp ← bread (u32 dev) (BBLOCK b sb);
  bf ← getbuf bp;
  let bi := b mod BPB in
  if bit_clear (b_data bf) bi then panic "freeing free block" else
    modbuf bp (fun bf => set_b_data (clear_bit (b_data bf) bi) bf);;
    log_write bp;;
    brelse bp.

(** ** The inode cache *)

Definition getino (i : nat) : K inode :=
  inos ← gets k_icache; from_option "bad inode pointer" (inos !! i).
Definition modino (i : nat) (f : inode -> inode) : K unit :=
  modify (fun s => set_k_icache (alter f i (k_icache s)) s).

(** The loop of [iget]: a cached entry, else the first empty one. *)
Fixpoint iget_scan (inos : list inode) (i : nat) (dev inum : Z) (empty : option nat) : nat + option nat :=
  match inos with
  | [] => inr empty
  | ip :: inos =>
      if (0 <? i_ref ip) && (i_dev ip =? dev) && (i_inum ip =? inum) then inl i
      else iget_scan inos (S i) dev inum
             (match empty with
              | None => if i_ref ip =? 0 then Some i else None
              | Some _ => empty
              end)
  end.

Definition iget (dev inum : Z) : K nat :=
  acquire LK_icache;;
  inos ← gets k_icache;
  match iget_scan inos 0 dev inum None with
  | inl i =>
      modino i (fun ip => set_i_ref (i_ref ip + 1) ip);;
      release LK_icache;;
      mret i
  | inr None => panic "iget: no inodes"
  | inr (Some i) =>
      modino i (fun ip => set_i_dev dev (set_i_inum inum (set_i_ref 1 (set_i_valid 0 ip))));;
      release LK_icache;;
      mret i
  end.

Definition idup (i : nat) : K nat :=
  acquire LK_icache;;
  modino i (fun ip => set_i_ref (i_ref ip + 1) ip);;
  release LK_icache;;
  mret i.

Definition ialloc_body (dev type inum : Z) : K (Z + nat) :=
  sb ← gets k_sb;
  if inum <? sb_ninodes sb then
    bp ← bread dev (IBLOCK inum sb);
    bf ← getbuf bp;
    if di_type (get_dinode (b_data bf) (inum mod IPB)) =? 0 then
      modbuf bp (fun bf => set_b_data
        (put_dinode (b_data bf) (inum mod IPB) (mkDinode type 0 0 0 0 (replicate 13 0))) bf);;
      log_write bp;;
      brelse bp;;
      i ← iget dev inum;
      mret (inr i)
    else brelse bp;; mret (inl (inum + 1))
  else panic "ialloc: no inodes".

Definition ialloc (dev type : Z) : K nat :=
  sb ← gets k_sb;
  iter (S (Z.to_nat (sb_ninodes sb))) (ialloc_body dev type) 1.

Definition iupdate (i : nat) : K unit :=
  sb ← gets k_sb;
  ip ← getino i;
  bp ← bread (i_dev ip) (IBLOCK (i_inum ip) sb);
  modbuf bp (fun bf => set_b_data
    (put_dinode (b_data bf) (i_inum ip mod IPB)
       (mkDinode (i_type ip) (i_major ip) (i_minor ip) (i_nlink ip) (i_size ip) (i_addrs ip))) bf);;
  log_write bp;;
  brelse bp.

(** The copy from the on-disk inode. *)
Definition load_inode (di : dinode) (ip : inode) : inode :=
  set_i_type (di_type di) (set_i_major (di_major di) (set_i_minor (di_minor di)
    (set_i_nlink (di_nlink di) (set_i_size (di_size di) (set_i_addrs (di_addrs di) ip))))).

Definition ilock (o : option nat) : K unit :=
  match o with
  | None => panic "ilock"
  | Some i =>
      ip ← getino i;
      if i_ref ip <? 1 then panic "ilock" else
      acquiresleep (InoLock i);;
      ip ← getino i;
      if i_valid ip =? 0 then
        sb ← gets k_sb;
        bp ← bread (i_dev ip) (IBLOCK (i_inum ip) sb);
        bf ← getbuf bp;
        modino i (load_inode (get_dinode (b_data bf) (i_inum ip mod IPB)));;
        brelse bp;;
        modino i (set_i_valid 1);;
        ip ← getino i;
        if i_type ip =? 0 then panic "ilock: no type" else mret tt
      else mret tt
  end.

Definition iunlock (o : option nat) : K unit :=
  match o with
  | None => panic "iunlock"
  | Some i =>
      h ← holdingsleep (InoLock i);
      if negb h then panic "iunlock" else
      ip ← getino i;
      if i_ref ip <? 1 then panic "iunlock" else
      releasesleep (InoLock i)
  end.

(** ** Inode contents *)

(** [ip->addrs[k]] *)
Definition get_addr (i : nat) (k : Z) : K Z :=
  ip ← getino i; from_option "addrs out of range" (nthZ (i_addrs ip) k).
Definition set_addr (i : nat) (k a : Z) : K unit :=
  modino i (fun ip => set_i_addrs (updZ (i_addrs ip) k a) ip).

Definition bmap (i : nat) (bn : Z) : K Z :=
  ip ← getino i;
  if bn <? NDIRECT then
    addr ← get_addr i bn;
    if addr =? 0 then
      addr ← balloc (i_dev ip);
      set_addr i bn addr;;
      mret addr
    else mret addr
  else
    let bn := bn - NDIRECT in
    if bn <? NINDIRECT then
      addr ← get_addr i NDIRECT;
      addr ← (if addr =? 0 then
                addr ← balloc (i_dev ip);
                set_addr i NDIRECT addr;;
                mret addr
              else mret addr);
      bp ← bread (i_dev ip) addr;
      bf ← getbuf bp;
      let addr := get32 (b_data bf) (Z.to_nat (4 * bn)) in
      addr ← (if addr =? 0 then
                addr ← balloc (i_dev ip);
                modbuf bp (fun bf => set_b_data (put32 (b_data bf) (Z.to_nat (4 * bn)) addr) bf);;
                log_write bp;;
                mret addr
              else mret addr);
      brelse bp;;
      mret addr
    else panic "bmap: out of range".

Definition itrunc (i : nat) : K unit :=
  ip0 ← getino i;
  for_each (seq 0 (Z.to_nat NDIRECT)) (fun k =>
    a ← get_addr i (Z.of_nat k);
    if a =? 0 then mret tt else
      bfree (i_dev ip0) a;;
      set_addr i (Z.of_nat k) 0);;
  a ← get_addr i NDIRECT;
  (if a =? 0 then mret tt else
     bp ← bread (i_dev ip0) a;
     bf ← getbuf bp;
     for_each (seq 0 (Z.to_nat NINDIRECT)) (fun j =>
       let aj := get32 (b_data bf) (4 * j) in
       if aj =? 0 then mret tt else bfree (i_dev ip0) aj);;
     brelse bp;;
     bfree (i_dev ip0) a;;
     set_addr i NDIRECT 0);;
  modino i (set_i_size 0);;
  iupdate i.

Definition iput (i : nat) : K unit :=
  acquiresleep (InoLock i);;
  ip ← getino i;
  (if negb (i_valid ip =? 0) && (i_nlink ip =? 0) then
     acquire LK_icache;;
     ip ← getino i;
     release LK_icache;;
     if i_ref ip =? 1 then
       itrunc i;;
       modino i (set_i_type 0);;
       iupdate i;;
       modino i (set_i_valid 0)
     else mret tt
   else mret tt);;
  releasesleep (InoLock i);;
  acquire LK_icache;;
  modino i (fun ip => set_i_ref (i_ref ip - 1) ip);;
  release LK_icache.

Definition iunlockput (i : nat) : K unit :=
  iunlock (Some i);;
  iput i.

(** ** Boot *)

Definition iinit (dev : Z) : K unit :=
  initlock LK_icache;;
  for_each (seq 0 (Z.to_nat NINODE)) (fun i => initsleeplock (InoLock i));;
  sb ← readsb dev;
  modify (set_k_sb sb);;
  cprintf (bytes_of_string
    "sb: size %d nblocks %d ninodes %d nlog %d logstart %d inodestart %d bmap start %d" ++ [10])
    [ArgInt (sb_size sb); ArgInt (sb_nblocks sb); ArgInt (sb_ninodes sb); ArgInt (sb_nlog sb);
     ArgInt (sb_logstart sb); ArgInt (sb_inodestart sb); ArgInt (sb_bmapstart sb)].

End fs.
