(* ===== verification/Console.v ===== *)
(** * The console driver (console.c)

    The line buffer filled by the interrupt handler and emptied by
    [consoleread], console output, and the screen with its cursor.  [getc] is
    the sequence of characters that the keyboard or serial driver delivers
    before it has none left. *)

From S2P Require Import Prelude Mmu Mem Bytes State Kernel Cprintf Sched Sleeplock Bio Log FsInode.

Definition INPUT_BUF : Z := 128.

(** Control-x *)
Definition C (x : Z) : Z := x - 64.

(** ** The screen *)

(** Cursor position and the cells of the CGA memory. *)
Record cga := mkCga { cga_pos : Z; cga_crt : gmap Z Z }.

Definition crt_get (crt : gmap Z Z) (i : Z) : Z := default 0 (crt !! i).

(** [memmove(crt, crt+80, n)] for [n] cells, then [memset(crt+pos, 0, ...)]. *)
Definition crt_scroll (crt : gmap Z Z) (pos : Z) : gmap Z Z :=
  let moved := fold_left (fun m i => <[i := crt_get crt (i + 80)]> m) (seqZ 0 (23 * 80)) crt in
  fold_left (fun m i => <[i := 0]> m) (seqZ pos (24 * 80 - pos)) moved.

(** [None] is the panic "pos under/overflow". *)
Definition cgaputc (g : cga) (c : Z) : option cga :=
  let pos := cga_pos g in
  let '(pos, crt) :=
    if c =? 10 then (pos + (80 - pos mod 80), cga_crt g)
    else if c =? BACKSPACE then ((if 0 <? pos then pos - 1 else pos), cga_crt g)
    else (pos + 1, <[pos := Z.lor (Z.land c 0xff) 0x0700]> (cga_crt g)) in
  if (pos <? 0) || (25 * 80 <? pos) then None else
  let '(pos, crt) :=
    if 24 <=? pos / 80 then (pos - 80, crt_scroll crt (pos - 80)) else (pos, crt) in
  Some (mkCga pos (<[pos := Z.lor 32 0x0700]> crt)).

(** ** Input *)

Definition modinput (f : inputbuf -> inputbuf) : K unit :=
  modify (fun s => set_k_input (f (k_input s)) s).

(** [input.buf[i % INPUT_BUF]] *)
Definition input_at (inp : inputbuf) (i : Z) : Z :=
  nth (Z.to_nat (u32 i mod INPUT_BUF)) (in_buf inp) 0.

(** Control-U: erase back to the start of the line. *)
Definition kill_body (st : unit) : K (unit + unit) :=
  inp ← gets k_input;
  if negb (in_e inp =? in_w inp) && negb (input_at inp (in_e inp - 1) =? 10) then
    modinput (set_in_e (u32 (in_e inp - 1)));;
    consputc BACKSPACE;;
    mret (inl tt)
  else mret (inr tt).

Definition kill_line : K unit :=
  inp ← gets k_input;
  iter (S (Z.to_nat (u32 (in_e inp - in_w inp)))) kill_body tt.

Definition erase_char : K unit :=
  inp ← gets k_input;
  if in_e inp =? in_w inp then mret tt else
    modinput (set_in_e (u32 (in_e inp - 1)));;
    consputc BACKSPACE.

Definition type_char (c : Z) : K unit :=
  inp ← gets k_input;
  if negb (c =? 0) && (u32 (in_e inp - in_r inp) <? INPUT_BUF) then
    let c := if c =? 13 then 10 else c in
    modinput (fun inp => set_in_e (u32 (in_e inp + 1))
      (set_in_buf (updZ (in_buf inp) (u32 (in_e inp) mod INPUT_BUF) c) inp));;
    consputc c;;
    inp ← gets k_input;
    if (c =? 10) || (c =? C 68) || (in_e inp =? u32 (in_r inp + INPUT_BUF)) then
      modinput (set_in_w (in_e inp));;
      wakeup CH_input
    else mret tt
  else mret tt.

(** The loop over [getc()]; the result says whether a process listing was
    asked for. *)
Fixpoint consoleintr_loop (getc : list Z) (doprocdump : bool) : K bool :=
  match getc with
  | [] => mret doprocdump
  | c :: getc =>
      if c =? C 80 then consoleintr_loop getc true
      else
        (if c =? C 85 then kill_line
         else if (c =? C 72) || (c =? 127) then erase_char
         else type_char c);;
        consoleintr_loop getc doprocdump
  end.

(** proc.c: [procdump]; [pcs] gives the call stack of a sleeping process as
    [getcallerpcs] finds it, up to the first zero. *)
Definition state_name (st : procstate) : list Z :=
  bytes_of_string
    match st with
    | UNUSED => "unused" | EMBRYO => "embryo" | SLEEPING => "sleep "
    | RUNNABLE => "runble" | RUNNING => "run   " | ZOMBIE => "zombie"
    end.

(** A C string: the bytes before the first zero. *)
Fixpoint cstr (bs : list Z) : list Z :=
  match bs with [] => [] | b :: bs => if b =? 0 then [] else b :: cstr bs end.

Definition procdump (pcs : nat -> list Z) : K unit :=
  for_each (seq 0 (Z.to_nat NPROC)) (fun i =>
    p ← getproc i;
    if bool_decide (p_state p = UNUSED) then mret tt else
      cprintf (bytes_of_string "%d %s %s")
        [ArgInt (p_pid p); ArgStr (Some (state_name (p_state p))); ArgStr (Some (cstr (p_name p)))];;
      (if bool_decide (p_state p = SLEEPING)
       then for_each (pcs i) (fun pc => cprintf (bytes_of_string " %p") [ArgInt pc])
       else mret tt);;
      cprintf [10] []).

Definition consoleintr (getc : list Z) (pcs : nat -> list Z) : K unit :=
  acquire LK_cons;;
  doprocdump ← consoleintr_loop getc false;
  release LK_cons;;
  if doprocdump : bool then procdump pcs else mret tt.

(** ** Reading and writing *)

Section dev.
Context `{KernelImage}.

(** The loop of [consoleread]: [n] bytes are still wanted, [acc] are read. *)
Definition consoleread_body (ip : nat) (target : Z) (st : Z * list Z) : K (Z * list Z + (Z * list Z) * bool) :=
  let '(n, acc) := st in
  if 0 <? n then
    inp ← gets k_input;
    if in_r inp =? in_w inp then
      p ← myproc;
      pr ← getproc p;
      if negb (p_killed pr =? 0) then
        release LK_cons;;
        ilock (Some ip);;
        mret (inr ((-1, acc), false))
      else sleep CH_input LK_cons
    else
      let c := input_at inp (in_r inp) in
      modinput (set_in_r (u32 (in_r inp + 1)));;
      if c =? C 68 then
        (if u32 n <? target
         then modinput (fun inp => set_in_r (u32 (in_r inp - 1)) inp)
         else mret tt);;
        mret (inr ((target - n, acc), true))
      else if c =? 10 then mret (inr ((target - (n - 1), acc ++ [c]), true))
      else mret (inl (n - 1, acc ++ [c]))
  else mret (inr ((target - n, acc), true)).

(** The result and the bytes stored at [dst]. *)
Definition consoleread (ip : nat) (n : Z) : K (Z * list Z) :=
  iunlock (Some ip);;
  acquire LK_cons;;
  r ← iter (S (Z.to_nat n)) (consoleread_body ip (u32 n)) (n, []);
  let '(res, done) := r in
  if done : bool then
    release LK_cons;;
    ilock (Some ip);;
    mret (s32 res.1, res.2)
  else mret res.

Definition consolewrite (ip : nat) (buf : list Z) : K Z :=
  iunlock (Some ip);;
  acquire LK_cons;;
  for_each buf (fun c => consputc (Z.land c 0xff));;
  release LK_cons;;
  ilock (Some ip);;
  mret (Z.of_nat (length buf)).

End dev.

(** consoleinit up to the interrupt controller.  The table devsw has no other
    entries, so that file operations on the console call the functions above. *)
Definition consoleinit_lock : K unit :=
  initlock LK_cons;;
  modify (set_k_cons_locking 1).
