(* ===== verification/Kbd.v ===== *)
(** * The keyboard driver (kbd.c, kbd.h)

    A pure state machine: the shift state and a scan code give the next shift
    state and the character, 0 when there is none. *)

From S2P Require Import Prelude Mmu Mem State Kernel Cprintf.

Definition SHIFT : Z := 1.
Definition CTL : Z := 2.
Definition ALT : Z := 4.
Definition CAPSLOCK : Z := 8.
Definition NUMLOCK : Z := 16.
Definition SCROLLLOCK : Z := 32.
Definition E0ESC : Z := 64.

Definition shiftcode (k : Z) : Z :=
  if k =? 0x1D then CTL else if (k =? 0x2A) || (k =? 0x36) then SHIFT
  else if k =? 0x38 then ALT else if k =? 0x9D then CTL else if k =? 0xB8 then ALT else 0.

Definition togglecode (k : Z) : Z :=
  if k =? 0x3A then CAPSLOCK else if k =? 0x45 then NUMLOCK
  else if k =? 0x46 then SCROLLLOCK else 0.

(** The entries with designators that the three maps have in common. *)
Definition special_key (k : Z) : Z :=
  match k with
  | 0xC8 => 0xE2 | 0xD0 => 0xE3 | 0xC9 => 0xE6 | 0xD1 => 0xE7 | 0xCB => 0xE4
  | 0xCD => 0xE5 | 0x97 => 0xE0 | 0xCF => 0xE1 | 0xD2 => 0xE8 | 0xD3 => 0xE9
  | _ => 0
  end.

(** The rows of a map in order; [NO] is 0. *)
Definition normal_rows : list Z :=
  [0; 0x1B] ++ bytes_of_string "1234567890-=" ++ [8; 9] ++
  bytes_of_string "qwertyuiop[]" ++ [10; 0] ++ bytes_of_string "asdfghjkl;'`" ++ [0; 92] ++
  bytes_of_string "zxcvbnm,./" ++ [0; 42; 0; 32] ++ replicate 13 0 ++
  bytes_of_string "789-456+1230.".

Definition shift_rows : list Z :=
  [0; 27] ++ bytes_of_string "!@#$%^&*()_+" ++ [8; 9] ++
  bytes_of_string "QWERTYUIOP{}" ++ [10; 0] ++ bytes_of_string "ASDFGHJKL:" ++ [34; 126; 0; 124] ++
  bytes_of_string "ZXCVBNM<>?" ++ [0; 42; 0; 32] ++ replicate 13 0 ++
  bytes_of_string "789-456+1230.".

(** [C(x)] for each byte of a string. *)
Definition ctrl (x : string) : list Z := (fun c => c - 64) <$> bytes_of_string x.

(** [C('/')] is negative and is stored in an unsigned char. *)
Definition ctl_rows : list Z :=
  replicate 16 0 ++ ctrl "QWERTYUIOP" ++ [0; 0; 13; 0] ++ ctrl "ASDFGHJKL" ++ [0; 0; 0; 0] ++
  ctrl "\ZXCVBNM" ++ [0; 0; 47 - 64 + 256; 0; 0].

Definition key_map (rows : list Z) (enter div k : Z) : Z :=
  if k =? 0x9C then enter else if k =? 0xB5 then div
  else if special_key k =? 0 then nth (Z.to_nat k) rows 0 else special_key k.

Definition normalmap (k : Z) : Z := key_map normal_rows 10 47 k.
Definition shiftmap (k : Z) : Z := key_map shift_rows 10 47 k.
Definition ctlmap (k : Z) : Z := key_map ctl_rows 13 (47 - 64 + 256) k.

(** [charcode[i]] *)
Definition charcode (i k : Z) : Z :=
  if i =? 0 then normalmap k else if i =? 1 then shiftmap k else ctlmap k.

Definition swap_case (c : Z) : Z :=
  if (97 <=? c) && (c <=? 122) then c - 32
  else if (65 <=? c) && (c <=? 90) then c + 32 else c.

(** [kbdgetc] for a scan code in the buffer: the new [shift] and the result. *)
Definition kbdgetc (shift data : Z) : Z * Z :=
  if data =? 0xE0 then (Z.lor shift E0ESC, 0) else
  if has data 0x80 then
    let data := if has shift E0ESC then data else Z.land data 0x7F in
    (Z.land shift (Z.lnot (Z.lor (shiftcode data) E0ESC)), 0)
  else
    let '(shift, data) :=
      if has shift E0ESC then (Z.land shift (Z.lnot E0ESC), Z.lor data 0x80) else (shift, data) in
    let shift := Z.lor shift (shiftcode data) in
    let shift := Z.lxor shift (togglecode data) in
    let c := charcode (Z.land shift (Z.lor CTL SHIFT)) data in
    (shift, if has shift CAPSLOCK then swap_case c else c).

(** The characters of a sequence of scan codes. *)
Fixpoint kbd_chars (shift : Z) (codes : list Z) : list Z :=
  match codes with
  | [] => []
  | data :: codes => let '(shift, c) := kbdgetc shift data in c :: kbd_chars shift codes
  end.
