(* ===== verification/FsFile.v ===== *)
(** * File contents, directories and path names (fs.c)

    Data read from an inode is returned as a list of bytes, data written is
    given as one; path names and directory entries are lists of bytes. *)

From S2P Require Import Prelude Mmu Mem Bytes State Kernel Cprintf Sched Sleeplock Bio Log FsInode Console.

Definition CONSOLE : Z := 1.

(** stat.h: [struct stat]. *)
Record stat := mkStat {
  st_type : Z;
  st_dev : Z;
  st_ino : Z;
  st_nlink : Z;
  st_size : Z;
}.

(** ** Names *)

(** string.c: [strncmp] on two byte strings; a string ends at a zero or at the
    end of its list. *)
Definition byte_at (l : list Z) : Z := match l with [] => 0 | b :: _ => b end.
Fixpoint strncmp (p q : list Z) (n : nat) : Z :=
  match n with
  | O => 0
  | S n =>
      if negb (byte_at p =? 0) && (byte_at p =? byte_at q) then strncmp (tail p) (tail q) n
      else byte_at p - byte_at q
  end.

(** string.c: [strncpy(s, t, n)], the [n] bytes written to [s]. *)
Fixpoint strncpy (t : list Z) (n : nat) : list Z :=
  match n with
  | O => []
  | S n =>
      match t with
      | [] => 0 :: strncpy [] n
      | b :: t => if b =? 0 then 0 :: strncpy [] n else b :: strncpy t n
      end
  end.

(** string.c: [safestrcpy(s, t, n)], the bytes written to [s]; the zero at the
    end of [t] is copied and followed by another. *)
Fixpoint safestrcpy (t : list Z) (n : nat) : list Z :=
  match n with
  | O => []
  | S O => [0]
  | S n =>
      match t with
      | [] => [0; 0]
      | b :: t => if b =? 0 then [0; 0] else b :: safestrcpy t n
      end
  end.

(** string.c: [strlen]; where exec calls it on a string, the length of its list. *)
Fixpoint strlen (s : list Z) : Z :=
  match s with [] => 0 | c :: s => if c =? 0 then 0 else 1 + strlen s end.

Lemma strlen_string s t : Forall (fun c => c <> 0) s -> strlen (s ++ 0 :: t) = Z.of_nat (length s).
Proof. induction 1 as [|c s Hc Hs IH]; cbn [app strlen length]; [done|]. zb. rewrite IH. lia. Qed.

Definition namecmp (p q : list Z) : Z := strncmp p q (Z.to_nat DIRSIZ).

(** [struct dirent]: 2 bytes of inode number and [DIRSIZ] bytes of name. *)
Record dirent := mkDirent { de_inum : Z; de_name : list Z }.
Definition DIRENT_SIZE : Z := 16.
Definition dirent_of_bytes (bs : list Z) : dirent := mkDirent (get16 bs 0) (get_bytes bs 2 14).
Definition dirent_bytes (de : dirent) : list Z := z2le 2 (de_inum de) ++ de_name de.

(** Dropping slashes, and the bytes up to the next slash. *)
Fixpoint skip_slashes (path : list Z) : list Z :=
  match path with
  | [] => []
  | b :: rest => if b =? 47 then skip_slashes rest else path
  end.
Fixpoint path_elem (path : list Z) : list Z :=
  match path with
  | [] => []
  | b :: rest => if (b =? 47) || (b =? 0) then [] else b :: path_elem rest
  end.

(** The rest of the path and the element, as left in [name]: cut at [DIRSIZ]
    bytes, or ended by a zero. *)
Definition skipelem (path : list Z) : option (list Z * list Z) :=
  let path := skip_slashes path in
  if byte_at path =? 0 then None else
  let name := path_elem path in
  let rest := drop (length name) path in
  let name := if DIRSIZ <=? Z.of_nat (length name) then take (Z.to_nat DIRSIZ) name else name ++ [0] in
  Some (skip_slashes rest, name).

Section fs.
Context `{KernelImage}.

Definition stati (i : nat) : K stat :=
  ip ← getino i;
  mret (mkStat (i_type ip) (i_dev ip) (i_inum ip) (i_nlink ip) (i_size ip)).

(** ** Reading and writing *)

Definition readi_body (i : nat) (n : Z) (st : Z * Z * list Z) : K (Z * Z * list Z + list Z) :=
  let '(tot, off, acc) := st in
  if tot <? n then
    ip ← getino i;
    addr ← bmap i (off / BSIZE);
    bp ← bread (i_dev ip) addr;
    bf ← getbuf bp;
    let m := Z.min (n - tot) (BSIZE - off mod BSIZE) in
    let bs := get_bytes (b_data bf) (Z.to_nat (off mod BSIZE)) (Z.to_nat m) in
    brelse bp;;
    mret (inl (tot + m, off + m, acc ++ bs))
  else mret (inr acc).

Definition readi (i : nat) (off n : Z) : K (Z * list Z) :=
  ip ← getino i;
  if i_type ip =? T_DEV then
    if (i_major ip <? 0) || (NDEV <=? i_major ip) || negb (i_major ip =? CONSOLE) then mret (-1, [])
    else consoleread i (s32 n)
  else
  if (i_size ip <? off) || (u32 (off + n) <? off) then mret (-1, []) else
  let n := if i_size ip <? u32 (off + n) then u32 (i_size ip - off) else n in
  bs ← iter (S (Z.to_nat (n / BSIZE + 2))) (readi_body i n) (0, off, []);
  mret (s32 n, bs).

Definition writei_body (i : nat) (src : list Z) (n : Z) (st : Z * Z) : K (Z * Z + Z) :=
  let '(tot, off) := st in
  if tot <? n then
    ip ← getino i;
    addr ← bmap i (off / BSIZE);
    bp ← bread (i_dev ip) addr;
    let m := Z.min (n - tot) (BSIZE - off mod BSIZE) in
    modbuf bp (fun bf => set_b_data
      (put_bytes (b_data bf) (Z.to_nat (off mod BSIZE)) (get_bytes src (Z.to_nat tot) (Z.to_nat m))) bf);;
    log_write bp;;
    brelse bp;;
    mret (inl (tot + m, off + m))
  else mret (inr off).

Definition writei (i : nat) (src : list Z) (off : Z) : K Z :=
  let n := Z.of_nat (length src) in
  ip ← getino i;
  if i_type ip =? T_DEV then
    if (i_major ip <? 0) || (NDEV <=? i_major ip) || negb (i_major ip =? CONSOLE) then mret (-1)
    else consolewrite i src
  else
  if (i_size ip <? off) || (u32 (off + n) <? off) then mret (-1) else
  if MAXFILE * BSIZE <? u32 (off + n) then mret (-1) else
  off ← iter (S (Z.to_nat (n / BSIZE + 2))) (writei_body i src n) (0, off);
  ip ← getino i;
  (if (0 <? n) && (i_size ip <? off) then
     modino i (set_i_size off);;
     iupdate i
   else mret tt);;
  mret (s32 n).

(** ** Directories *)

Definition dirlookup_body (dp : nat) (name : list Z) (off : Z) : K (Z + option (nat * Z)) :=
  d ← getino dp;
  if off <? i_size d then
    r ← readi dp off DIRENT_SIZE;
    if negb (r.1 =? DIRENT_SIZE) then panic "dirlookup read" else
    let de := dirent_of_bytes r.2 in
    if de_inum de =? 0 then mret (inl (off + DIRENT_SIZE)) else
    if namecmp name (de_name de) =? 0 then
      ip ← iget (i_dev d) (de_inum de);
      mret (inr (Some (ip, off)))
    else mret (inl (off + DIRENT_SIZE))
  else mret (inr None).

(** The inode and the offset of its entry ([*poff]). *)
Definition dirlookup (dp : nat) (name : list Z) : K (option (nat * Z)) :=
  d ← getino dp;
  if negb (i_type d =? T_DIR) then panic "dirlookup not DIR" else
  iter (S (Z.to_nat (i_size d / DIRENT_SIZE + 1))) (dirlookup_body dp name) 0.

(** The offset of the first empty entry, or the end of the directory. *)
Definition dirlink_body (dp : nat) (off : Z) : K (Z + Z) :=
  d ← getino dp;
  if off <? i_size d then
    r ← readi dp off DIRENT_SIZE;
    if negb (r.1 =? DIRENT_SIZE) then panic "dirlink read" else
    if de_inum (dirent_of_bytes r.2) =? 0 then mret (inr off) else mret (inl (off + DIRENT_SIZE))
  else mret (inr off).

Definition dirlink (dp : nat) (name : list Z) (inum : Z) : K Z :=
  o ← dirlookup dp name;
  match o with
  | Some (ip, _) => iput ip;; mret (-1)
  | None =>
      d ← getino dp;
      off ← iter (S (Z.to_nat (i_size d / DIRENT_SIZE + 1))) (dirlink_body dp) 0;
      r ← writei dp (dirent_bytes (mkDirent (u16 inum) (strncpy name (Z.to_nat DIRSIZ)))) off;
      if negb (r =? DIRENT_SIZE) then panic "dirlink" else mret 0
  end.

(** ** Path names *)

(** The loop of [namex]; the result is the inode and the contents of [name]. *)
Definition namex_body (parent : bool) (st : nat * list Z * list Z) :
    K (nat * list Z * list Z + option (nat * list Z)) :=
  let '(ip, path, name) := st in
  match skipelem path with
  | None =>
      if parent then iput ip;; mret (inr None) else mret (inr (Some (ip, name)))
  | Some (path, name) =>
      ilock (Some ip);;
      i ← getino ip;
      if negb (i_type i =? T_DIR) then iunlockput ip;; mret (inr None) else
      if parent && (byte_at path =? 0) then iunlock (Some ip);; mret (inr (Some (ip, name))) else
      o ← dirlookup ip name;
      match o with
      | None => iunlockput ip;; mret (inr None)
      | Some (next, _) => iunlockput ip;; mret (inl (next, path, name))
      end
  end.

Definition namex (path : list Z) (parent : bool) (name : list Z) : K (option (nat * list Z)) :=
  ip ← (if byte_at path =? 47 then iget ROOTDEV ROOTINO
        else
          p ← myproc;
          pr ← getproc p;
          cwd ← from_option "no current directory" (p_cwd pr);
          idup cwd);
  iter (S (length path)) (namex_body parent) (ip, path, name).

Definition namei (path : list Z) : K (option nat) :=
  r ← namex path false (replicate 14 0);
  mret (fst <$> r).

Definition nameiparent (path : list Z) : K (option (nat * list Z)) :=
  namex path true (replicate 14 0).

End fs.
