(* ===== verification/Pipe.v ===== *)
(** * Pipes (pipe.c)

    A pipe is named by the address of its page; its fields are in [k_pipes].
    The two counters run modulo 2^32 and index a ring of [PIPESIZE] bytes. *)

From S2P Require Import Prelude Mmu Mem Bytes State Kernel Kalloc Sched.

Definition PIPESIZE : Z := 512.

Section pipe.
Context `{KernelImage}.

Definition getpipe (p : Z) : K pipe :=
  ps ← gets k_pipes; from_option "bad pipe pointer" (ps !! p).
Definition modpipe (p : Z) (f : pipe -> pipe) : K unit :=
  modify (fun s => set_k_pipes (alter f p (k_pipes s)) s).

(** The part of [pipealloc] that sets up a new page as a pipe; its ring holds
    what the page held. *)
Definition pipe_init (p : Z) : K unit :=
  modify (fun s => set_k_pipes (<[p := mkPipe (ld_bytes (k_mem s) (V2P p + 52) 512) 0 0 1 1]> (k_pipes s)) s);;
  initlock (LK_pipe p).

Definition pipeclose (p : Z) (writable : Z) : K unit :=
  acquire (LK_pipe p);;
  pi ← getpipe p;
  (if negb (writable =? 0) then
     modpipe p (set_pi_writeopen 0);;
     wakeup (CH_nread p)
   else
     modpipe p (set_pi_readopen 0);;
     wakeup (CH_nwrite p));;
  pi ← getpipe p;
  if (pi_readopen pi =? 0) && (pi_writeopen pi =? 0) then
    release (LK_pipe p);;
    modify (fun s => set_k_pipes (delete p (k_pipes s)) s);;
    kfree p
  else release (LK_pipe p).

(** Is the ring full, is it empty? *)
Definition pipe_full (pi : pipe) : bool := pi_nwrite pi =? u32 (pi_nread pi + PIPESIZE).
Definition pipe_empty (pi : pipe) : bool := pi_nread pi =? pi_nwrite pi.

(** [p->data[p->nwrite++ % PIPESIZE] = c] *)
Definition pipe_put (c : Z) (pi : pipe) : pipe :=
  set_pi_nwrite (u32 (pi_nwrite pi + 1))
    (set_pi_data (updZ (pi_data pi) (pi_nwrite pi mod PIPESIZE) c) pi).

(** [p->data[p->nread++ % PIPESIZE]] *)
Definition pipe_head (pi : pipe) : Z := nth (Z.to_nat (pi_nread pi mod PIPESIZE)) (pi_data pi) 0.
Definition pipe_get (pi : pipe) : pipe := set_pi_nread (u32 (pi_nread pi + 1)) pi.

(** The loop of [pipewrite]: [Some r] is an early return. *)
Fixpoint pipewrite_loop (p : Z) (addr : list Z) : K (option Z) :=
  match addr with
  | [] => mret None
  | c :: addr =>
      pi ← getpipe p;
      if pipe_full pi then
        cur ← myproc;
        pr ← getproc cur;
        if (pi_readopen pi =? 0) || negb (p_killed pr =? 0) then
          release (LK_pipe p);; mret (Some (-1))
        else
          wakeup (CH_nread p);;
          sleep (CH_nwrite p) (LK_pipe p)
      else
        modpipe p (pipe_put c);;
        pipewrite_loop p addr
  end.

Definition pipewrite (p : Z) (addr : list Z) : K Z :=
  acquire (LK_pipe p);;
  r ← pipewrite_loop p addr;
  match r with
  | Some r => mret r
  | None =>
      wakeup (CH_nread p);;
      release (LK_pipe p);;
      mret (Z.of_nat (length addr))
  end.

(** The copy loop of [piperead]: at most [n] bytes. *)
Fixpoint piperead_loop (p : Z) (n : nat) : K (list Z) :=
  match n with
  | O => mret []
  | S n =>
      pi ← getpipe p;
      if pipe_empty pi then mret [] else
        modpipe p pipe_get;;
        bs ← piperead_loop p n;
        mret (pipe_head pi :: bs)
  end.

(** The result and the bytes stored at [addr]. *)
Definition piperead (p : Z) (n : Z) : K (Z * list Z) :=
  acquire (LK_pipe p);;
  pi ← getpipe p;
  if pipe_empty pi && negb (pi_writeopen pi =? 0) then
    cur ← myproc;
    pr ← getproc cur;
    if negb (p_killed pr =? 0) then release (LK_pipe p);; mret (-1, [])
    else sleep (CH_nread p) (LK_pipe p)
  else
    bs ← piperead_loop p (Z.to_nat n);
    wakeup (CH_nwrite p);;
    release (LK_pipe p);;
    mret (Z.of_nat (length bs), bs).

End pipe.
