(* ===== verification/File.v ===== *)
(** * Open files (file.c) and pipe creation (pipe.c)

    Files are indices into [k_ftable]; a reference count of 0 marks a free
    entry. *)

From S2P Require Import Prelude Mmu Mem Bytes State Kernel Cprintf Kalloc Sched Sleeplock Bio Log FsInode Console FsFile Pipe.

Section file.
Context `{KernelImage}.

Definition getfile (f : nat) : K file :=
  fs ← gets k_ftable; from_option "bad file pointer" (fs !! f).
Definition modfile (f : nat) (g : file -> file) : K unit :=
  modify (fun s => set_k_ftable (alter g f (k_ftable s)) s).

Definition fileinit : K unit := initlock LK_ftable.

(** The first free entry of the table. *)
Fixpoint find_file (fs : list file) (i : nat) : option nat :=
  match fs with
  | [] => None
  | f :: fs => if f_ref f =? 0 then Some i else find_file fs (S i)
  end.

Definition filealloc : K (option nat) :=
  acquire LK_ftable;;
  fs ← gets k_ftable;
  match find_file fs 0 with
  | Some f => modfile f (set_f_ref 1);; release LK_ftable;; mret (Some f)
  | None => release LK_ftable;; mret None
  end.

Definition filedup (f : nat) : K nat :=
  acquire LK_ftable;;
  fl ← getfile f;
  if f_ref fl <? 1 then panic "filedup" else
  modfile f (fun fl => set_f_ref (f_ref fl + 1) fl);;
  release LK_ftable;;
  mret f.

Definition fileclose (f : nat) : K unit :=
  acquire LK_ftable;;
  fl ← getfile f;
  if f_ref fl <? 1 then panic "fileclose" else
  modfile f (fun fl => set_f_ref (f_ref fl - 1) fl);;
  ff ← getfile f;
  if 0 <? f_ref ff then release LK_ftable else
  modfile f (fun fl => set_f_ref 0 (set_f_type FD_NONE fl));;
  release LK_ftable;;
  match f_type ff with
  | FD_PIPE => pipeclose (f_pipe ff) (f_writable ff)
  | FD_INODE =>
      begin_op;;
      ip ← from_option "null inode" (f_ip ff);
      iput ip;;
      end_op
  | FD_NONE => mret tt
  end.

Definition filestat (f : nat) : K (Z * option stat) :=
  fl ← getfile f;
  if bool_decide (f_type fl = FD_INODE) then
    ilock (f_ip fl);;
    ip ← from_option "null inode" (f_ip fl);
    st ← stati ip;
    iunlock (f_ip fl);;
    mret (0, Some st)
  else mret (-1, None).

(** The result and the bytes stored at [addr]. *)
Definition fileread (f : nat) (n : Z) : K (Z * list Z) :=
  fl ← getfile f;
  if f_readable fl =? 0 then mret (-1, []) else
  match f_type fl with
  | FD_PIPE => piperead (f_pipe fl) n
  | FD_INODE =>
      ilock (f_ip fl);;
      ip ← from_option "null inode" (f_ip fl);
      r ← readi ip (f_off fl) (u32 n);
      (if 0 <? r.1 then modfile f (fun fl => set_f_off (u32 (f_off fl + r.1)) fl) else mret tt);;
      iunlock (f_ip fl);;
      mret r
  | FD_NONE => panic "fileread"
  end.

(** [((MAXOPBLOCKS-1-1-2) / 2) * 512] *)
Definition max_write : Z := ((MAXOPBLOCKS - 1 - 1 - 2) / 2) * 512.

Definition filewrite_body (f : nat) (addr : list Z) (i : Z) : K (Z + Z) :=
  let n := Z.of_nat (length addr) in
  if i <? n then
    let n1 := if max_write <? n - i then max_write else n - i in
    begin_op;;
    fl ← getfile f;
    ilock (f_ip fl);;
    ip ← from_option "null inode" (f_ip fl);
    fl ← getfile f;
    r ← writei ip (get_bytes addr (Z.to_nat i) (Z.to_nat n1)) (f_off fl);
    (if 0 <? r then modfile f (fun fl => set_f_off (u32 (f_off fl + r)) fl) else mret tt);;
    iunlock (f_ip fl);;
    end_op;;
    if r <? 0 then mret (inr i) else
    if negb (r =? n1) then panic "short filewrite" else
    mret (inl (i + r))
  else mret (inr i).

Definition filewrite (f : nat) (addr : list Z) : K Z :=
  let n := Z.of_nat (length addr) in
  fl ← getfile f;
  if f_writable fl =? 0 then mret (-1) else
  match f_type fl with
  | FD_PIPE => pipewrite (f_pipe fl) addr
  | FD_INODE =>
      i ← iter (S (Z.to_nat (n / max_write + 1))) (filewrite_body f addr) 0;
      mret (if i =? n then n else -1)
  | FD_NONE => panic "filewrite"
  end.

(** ** pipe.c: [pipealloc] *)

(** The error exit: what was allocated is given back. *)
Definition pipe_bad (p : Z) (f0 f1 : option nat) : K (option (nat * nat)) :=
  (if p =? 0 then mret tt else kfree p);;
  (match f0 with Some f => fileclose f | None => mret tt end);;
  (match f1 with Some f => fileclose f | None => mret tt end);;
  mret None.

(** [None] is the result -1; otherwise the two files. *)
Definition pipealloc : K (option (nat * nat)) :=
  f0 ← filealloc;
  match f0 with
  | None => pipe_bad 0 None None
  | Some a =>
      f1 ← filealloc;
      match f1 with
      | None => pipe_bad 0 f0 None
      | Some b =>
          p ← kalloc;
          if p =? 0 then pipe_bad 0 f0 f1 else
          pipe_init p;;
          modfile a (fun f => set_f_type FD_PIPE (set_f_readable 1 (set_f_writable 0 (set_f_pipe p f))));;
          modfile b (fun f => set_f_type FD_PIPE (set_f_readable 0 (set_f_writable 1 (set_f_pipe p f))));;
          mret (Some (a, b))
      end
  end.

End file.
