(* ===== verification/Wmap.v ===== *)
(** * Memory mappings (vm.c, second half)

    The table of mappings in [struct proc], lazy allocation on a page fault,
    write-back and removal, and the copy of the table to a forked child. *)

From S2P Require Import Prelude Mmu Mem Bytes State Kernel Cprintf Kalloc Vm Sched Sleeplock Bio Log FsInode Console FsFile Pipe File.

Definition MAP_SHARED : Z := 0x0002.
Definition MAP_ANONYMOUS : Z := 0x0004.
Definition MAP_FIXED : Z := 0x0008.
Definition FAILED : Z := -1.
Definition SUCCESS : Z := 0.

(** Do [length1] bytes at [addr1] and [length2] bytes at [addr2] intersect?
    The ends are computed in 32 bits. *)
Definition vasIntersect (addr1 length1 addr2 length2 : Z) : Z :=
  if (length1 <=? 0) || (length2 <=? 0) then 0 else
  if (u32 (addr1 + length1) <=? addr2) || (u32 (addr2 + length2) <=? addr1) then 0 else 1.

(** The six assignments of [updateWmap] on a process. *)
Definition set_mapping (addr length n_loaded_page file_backed fd total_mmaps index : Z) (p : proc) : proc :=
  let wi := p_wmapInfo p in
  let we := p_wmapInfoExtra p in
  set_p_wmapInfo
    (mkWmapinfo total_mmaps (updZ (wi_addr wi) index (s32 addr)) (updZ (wi_length wi) index length)
       (updZ (wi_n_loaded_pages wi) index n_loaded_page))
    (set_p_wmapInfoExtra
       (mkWmapextra (updZ (we_file_backed we) index file_backed) (updZ (we_fd we) index fd) (we_is_child we)) p).

Definition updateWmap (p : nat) (addr length n_loaded_page file_backed fd total_mmaps index : Z) : K Z :=
  if index <? 0 then mret (-1) else
  if MAX_WMMAP_INFO <=? index then mret (-1) else
  modproc p (set_mapping addr length n_loaded_page file_backed fd total_mmaps index);;
  mret 0.

(** Entry [i] of the table. *)
Record mapping := mkMapping {
  mp_addr : Z;    (* as stored, an [int] *)
  mp_length : Z;
  mp_loaded : Z;
  mp_backed : Z;
  mp_fd : Z;
}.

Definition get_mapping (p : proc) (i : Z) : option mapping :=
  a ← nthZ (wi_addr (p_wmapInfo p)) i;
  l ← nthZ (wi_length (p_wmapInfo p)) i;
  n ← nthZ (wi_n_loaded_pages (p_wmapInfo p)) i;
  b ← nthZ (we_file_backed (p_wmapInfoExtra p)) i;
  f ← nthZ (we_fd (p_wmapInfoExtra p)) i;
  Some (mkMapping a l n b f).

Definition mapping_at (p : nat) (i : Z) : K mapping :=
  pr ← getproc p; from_option "wmap index out of range" (get_mapping pr i).

(** [addr[i] == 0 && length[i] == -1] marks a free entry. *)
Definition is_free (m : mapping) : bool := (mp_addr m =? 0) && (mp_length m =? -1).

Section wmap.
Context `{KernelImage}.

(** The lowest free descriptor. *)
Fixpoint find_fd {A} (fds : list (option A)) (i : nat) : option nat :=
  match fds with
  | [] => None
  | None :: _ => Some i
  | Some _ :: fds => find_fd fds (S i)
  end.

Definition duplicateFd (fd : Z) : K Z :=
  p ← myproc;
  pr ← getproc p;
  if (fd <? 0) || (NOFILE <=? fd) then mret (-1) else
  fo ← from_option "fd out of range" (nthZ (p_ofile pr) fd);
  match fo with
  | None => mret (-1)
  | Some f =>
      match find_fd (p_ofile pr) 0 with
      | None => mret (-1)
      | Some newfd =>
          modproc p (fun pr => set_p_ofile (<[newfd := Some f]> (p_ofile pr)) pr);;
          filedup f;;
          mret (Z.of_nat newfd)
      end
  end.

(** One page of [dellocateAndUnmap]: the next address, or an early return. *)
Definition unmap_page (p : nat) (i a : Z) : K (Z + Z) :=
  pr ← getproc p;
  pte ← walkpgdir (p_pgdir pr) a false;
  if pte =? 0 then mret (inl (u32 (PGADDR (PDX a + 1) 0 0 - PGSIZE))) else
  v ← kload32 pte;
  if negb (has v PTE_P) then mret (inl a) else
  let pa := PTE_ADDR v in
  if pa =? 0 then panic "kfree" else
  mp ← mapping_at p i;
  w ← (if mp_backed mp =? 0 then mret 0 else
         fo ← from_option "fd out of range" (nthZ (p_ofile pr) (mp_fd mp));
         match fo with
         | None => mret FAILED
         | Some f =>
             modfile f (set_f_off (u32 (a - mp_addr mp)));;
             data ← kload_bytes (P2V pa) PGSIZE;
             filewrite f data
         end);
  if w <? 0 then mret (inr FAILED) else
  (if we_is_child (p_wmapInfoExtra pr) =? 0 then kfree (P2V pa) else mret tt);;
  kstore32 pte 0;;
  mret (inl a).

Definition dellocate_body (p : nat) (addr length i a : Z) : K (Z + Z) :=
  if a <? u32 (addr + length) then
    r ← unmap_page p i a;
    match r with
    | inl a' => mret (inl (u32 (a' + PGSIZE)))
    | inr e => mret (inr e)
    end
  else mret (inr SUCCESS).

Definition dellocateAndUnmap (p : nat) (addr length i : Z) : K Z :=
  mp ← mapping_at p i;
  r ← (if 0 <? mp_loaded mp
       then iter (S (Z.to_nat ((u32 (addr + length) - addr) / PGSIZE + 1))) (dellocate_body p addr length i) addr
       else mret SUCCESS);
  if negb (r =? SUCCESS) then mret r else
  pr ← getproc p;
  u ← updateWmap p 0 (-1) 0 0 (-1) (wi_total_mmaps (p_wmapInfo pr) - 1) i;
  if negb (u =? 0) then mret FAILED else mret SUCCESS.

(** One page of [allocateAndMap]. *)
Definition map_page (p : nat) (endAddr i a : Z) : K (Z + Z) :=
  mem ← kalloc;
  if mem =? 0 then
    cprintfln "MMAP out of memory";;
    dellocateAndUnmap p endAddr (s32 a) i;;
    mret (inr FAILED)
  else
  memset mem 0 PGSIZE;;
  mp ← mapping_at p i;
  ok ← (if mp_backed mp =? 0 then mret true else
          cur ← myproc;
          cpr ← getproc cur;
          fo ← from_option "fd out of range" (nthZ (p_ofile cpr) (mp_fd mp));
          match fo with
          | None => mret false
          | Some f =>
              fl ← getfile f;
              ilock (f_ip fl);;
              ip ← from_option "null inode" (f_ip fl);
              r ← readi ip (u32 (a - mp_addr mp)) PGSIZE;
              kstore_bytes mem r.2;;
              if r.1 =? 0 then mret false else iunlock (f_ip fl);; mret true
          end);
  if negb ok then mret (inr FAILED) else
  pr ← getproc p;
  r ← mappages (p_pgdir pr) a PGSIZE (V2P mem) (Z.lor (Z.lor PTE_W PTE_U) PTE_P);
  if r <? 0 then
    cprintfln "MMAP out of memory (2)";;
    kfree mem;;
    dellocateAndUnmap p endAddr (s32 a) i;;
    mret (inr FAILED)
  else
  mp ← mapping_at p i;
  pr ← getproc p;
  u ← updateWmap p (mp_addr mp) (mp_length mp) (s32 (mp_loaded mp + 1)) (mp_backed mp) (mp_fd mp)
        (wi_total_mmaps (p_wmapInfo pr)) i;
  if negb (u =? 0) then mret (inr FAILED) else mret (inl a).

Definition allocate_body (p : nat) (endAddr i a : Z) : K (Z + Z) :=
  if a <? endAddr then
    r ← map_page p endAddr i a;
    match r with
    | inl a' => mret (inl (u32 (a' + PGSIZE)))
    | inr e => mret (inr e)
    end
  else mret (inr SUCCESS).

Definition allocateAndMap (p : nat) (addr length i : Z) : K Z :=
  let a := PGROUNDDOWN addr in
  let endAddr := u32 (a + PGROUNDUP_int length) in
  if KERNBASE <=? endAddr then mret (-1) else
  iter (S (Z.to_nat ((endAddr - a) / PGSIZE + 1))) (allocate_body p endAddr i) a.

(** One page of [copyWmap]. *)
Definition copy_page (ppgdir cpgdir a : Z) : K Z :=
  pte ← walkpgdir ppgdir a false;
  if pte =? 0 then mret 0 else
  v ← kload32 pte;
  if negb (has v PTE_P) then mret 0 else
  let pa := PTE_ADDR v in
  if pa =? 0 then panic "copyWmap: kfree" else
  r ← mappages cpgdir a PGSIZE pa (PTE_FLAGS v);
  if r <? 0 then cprintfln "COPYWMAP: Failed!";; mret FAILED else mret 0.

Definition copywmap_body (ppgdir cpgdir last a : Z) : K (Z + Z) :=
  if a <? last then
    r ← copy_page ppgdir cpgdir a;
    if r =? 0 then mret (inl (u32 (a + PGSIZE))) else mret (inr r)
  else mret (inr 0).

(** Entry [i] of [copyWmap]. *)
Definition copy_mapping (parent child : nat) (i : Z) : K Z :=
  mp ← mapping_at parent i;
  if is_free mp then mret 0 else
  pp ← getproc parent;
  pc ← getproc child;
  let addr := u32 (mp_addr mp) in
  let last := u32 (addr + PGROUNDUP_int (mp_length mp)) in
  r ← iter (S (Z.to_nat ((last - addr) / PGSIZE + 1))) (copywmap_body (p_pgdir pp) (p_pgdir pc) last) addr;
  if negb (r =? 0) then mret r else
  u ← updateWmap child addr (mp_length mp) (mp_loaded mp) (mp_backed mp) (mp_fd mp)
        (wi_total_mmaps (p_wmapInfo pp)) i;
  if negb (u =? 0) then mret (-1) else mret 0.

Definition copywmap_loop (parent child : nat) (i : Z) : K (Z + Z) :=
  if i <? MAX_WMMAP_INFO then
    r ← copy_mapping parent child i;
    if negb (r =? 0) then mret (inr r) else mret (inl (i + 1))
  else mret (inr 0).

Definition copyWmap (parent child : nat) : K Z :=
  iter (S (Z.to_nat MAX_WMMAP_INFO)) (copywmap_loop parent child) 0.

(** ** The system calls *)

(** The loop of [wmap]: [inl] is the empty spot found so far. *)
Definition wmap_scan (p : nat) (addr length : Z) (st : Z * Z) : K (Z * Z + option Z) :=
  let '(i, emptySpot) := st in
  if i <? MAX_WMMAP_INFO then
    pr ← getproc p;
    if wi_total_mmaps (p_wmapInfo pr) =? MAX_WMMAP_INFO then mret (inr None) else
    mp ← mapping_at p i;
    if is_free mp then mret (inl (i + 1, if emptySpot =? -1 then i else emptySpot)) else
    if negb (vasIntersect addr length (u32 (mp_addr mp)) (mp_length mp) =? 0) then mret (inr None)
    else mret (inl (i + 1, emptySpot))
  else mret (inr (Some emptySpot)).

Definition wmap (addr length flags fd : Z) : K Z :=
  let fileBacked := if has flags MAP_ANONYMOUS then 0 else 1 in
  p ← myproc;
  fdToStore ← (if 0 <=? fd then duplicateFd fd else mret (-1));
  r ← iter (S (Z.to_nat MAX_WMMAP_INFO)) (wmap_scan p addr length) (0, -1);
  match r with
  | None => mret (u32 FAILED)
  | Some emptySpot =>
      if emptySpot =? -1 then mret (u32 FAILED) else
      pr ← getproc p;
      u ← updateWmap p addr length 0 fileBacked fdToStore (wi_total_mmaps (p_wmapInfo pr) + 1) emptySpot;
      if negb (u =? 0) then mret (u32 FAILED) else mret addr
  end.

Definition wunmap_body (p : nat) (addr i : Z) : K (Z + Z) :=
  if i <? MAX_WMMAP_INFO then
    mp ← mapping_at p i;
    if is_free mp then mret (inl (i + 1)) else
    if u32 (mp_addr mp) =? addr then
      r ← dellocateAndUnmap p addr (mp_length mp) i;
      mret (inr (if negb (r =? 0) then FAILED else SUCCESS))
    else mret (inl (i + 1))
  else mret (inr FAILED).

Definition wunmap (addr : Z) : K Z :=
  p ← myproc;
  pr ← getproc p;
  if wi_total_mmaps (p_wmapInfo pr) =? 0 then mret SUCCESS else
  iter (S (Z.to_nat MAX_WMMAP_INFO)) (wunmap_body p addr) 0.

Definition va2pa (va : Z) : K Z :=
  p ← myproc;
  pr ← getproc p;
  pte ← walkpgdir (p_pgdir pr) va false;
  if pte =? 0 then mret (u32 FAILED) else
  v ← kload32 pte;
  if has v PTE_P then
    let pa := PTE_ADDR v in
    if pa =? 0 then panic "kfree" else mret (Z.lor pa (Z.land va (PGSIZE - 1)))
  else mret (u32 FAILED).

(** The struct that [getwmapinfo] fills in, field by field. *)
Definition getwmapinfo : K wmapinfo :=
  p ← myproc;
  pr ← getproc p;
  mret (p_wmapInfo pr).

End wmap.
