(* ===== verification/Proc.v ===== *)
(** * Processes (proc.c)

    Allocation of process-table entries, the first process, fork, exit, wait
    and the scheduler's two halves.  The trap frame and the saved context on a
    kernel stack are fields of [proc]. *)

From S2P Require Import Prelude Mmu Mem Bytes State Kernel Cprintf Kalloc Vm Sched Sleeplock Bio Log FsInode Console FsFile Pipe File Wmap.

Definition SEG_UCODE : Z := 3.
Definition SEG_UDATA : Z := 4.
Definition DPL_USER : Z := 3.
Definition FL_IF : Z := 0x200.

(** The table of mappings of a new process. *)
Definition clear_wmap (pr : proc) : proc :=
  set_p_wmapInfo (mkWmapinfo 0 (replicate 16 0) (replicate 16 (-1)) (replicate 16 0))
    (set_p_wmapInfoExtra (mkWmapextra (replicate 16 0) (replicate 16 (-1)) 0) pr).

(** Overwrite the first bytes of a 16 byte name. *)
Definition put_name (bs : list Z) (pr : proc) : proc := set_p_name (put_bytes (p_name pr) 0 bs) pr.

(** userinit's trap frame. *)
Definition init_tf : trapframe :=
  let udata := Z.lor (Z.shiftl SEG_UDATA 3) DPL_USER in
  mkTf 0 0 0 0 0 0 0 0 0 0 udata udata 0 0 0 (Z.lor (Z.shiftl SEG_UCODE 3) DPL_USER) FL_IF PGSIZE udata.

(** The first entry that satisfies [P]. *)
Fixpoint find_proc (P : proc -> bool) (ps : list proc) (i : nat) : option nat :=
  match ps with
  | [] => None
  | p :: ps => if P p then Some i else find_proc P ps (S i)
  end.

Definition is_unused (p : proc) : bool := bool_decide (p_state p = UNUSED).

Section proc.
Context `{KernelImage}.

Definition pinit : K unit := initlock LK_ptable.

Definition allocproc : K (option nat) :=
  acquire LK_ptable;;
  ps ← gets k_procs;
  match find_proc is_unused ps 0 with
  | None => release LK_ptable;; mret None
  | Some p =>
      pid ← gets k_nextpid;
      modproc p (fun pr => set_p_pid pid (set_p_state EMBRYO pr));;
      modify (set_k_nextpid (s32 (pid + 1)));;
      release LK_ptable;;
      ks ← kalloc;
      modproc p (set_p_kstack ks);;
      if ks =? 0 then modproc p (set_p_state UNUSED);; mret None else
      modproc p (set_p_context (mkCtx 0 0 0 0 forkret_va));;
      modproc p clear_wmap;;
      mret (Some p)
  end.

Definition userinit : K unit :=
  o ← allocproc;
  modify (set_k_initproc o);;
  p ← from_option "userinit: no process" o;
  pgdir ← setupkvm;
  modproc p (set_p_pgdir pgdir);;
  if pgdir =? 0 then panic "userinit: out of memory?" else
  inituvm pgdir initcode (Z.of_nat (length initcode));;
  modproc p (fun pr => set_p_sz PGSIZE (set_p_tf init_tf pr));;
  modproc p (put_name (safestrcpy (bytes_of_string "initcode") 16));;
  cwd ← namei [47];
  modproc p (set_p_cwd cwd);;
  acquire LK_ptable;;
  modproc p (set_p_state RUNNABLE);;
  release LK_ptable.

Definition growproc (n : Z) : K Z :=
  p ← myproc;
  pr ← getproc p;
  let sz := p_sz pr in
  r ← (if 0 <? n then
         sz' ← allocuvm (p_pgdir pr) sz (u32 (sz + n));
         mret (if sz' =? 0 then None else Some sz')
       else if n <? 0 then
         sz' ← deallocuvm (p_pgdir pr) sz (u32 (sz + n));
         mret (if sz' =? 0 then None else Some sz')
       else mret (Some sz));
  match r with
  | None => mret (-1)
  | Some sz' =>
      modproc p (set_p_sz sz');;
      switchuvm (Some p);;
      mret 0
  end.

(** The loop of [fork] over the open files. *)
Definition dup_files (cur np : nat) : K unit :=
  for_each (seq 0 (Z.to_nat NOFILE)) (fun i =>
    pr ← getproc cur;
    match p_ofile pr !! i with
    | Some (Some f) =>
        g ← filedup f;
        modproc np (fun pr => set_p_ofile (<[i := Some g]> (p_ofile pr)) pr)
    | _ => mret tt
    end).

(** What both error exits of [fork] do. *)
Definition drop_proc (np : nat) : K unit :=
  pr ← getproc np;
  kfree (p_kstack pr);;
  modproc np (set_p_kstack 0);;
  modproc np (set_p_state UNUSED).

Definition fork : K Z :=
  cur ← myproc;
  o ← allocproc;
  match o with
  | None => mret (-1)
  | Some np =>
      pr ← getproc cur;
      d ← copyuvm (p_pgdir pr) (p_sz pr);
      modproc np (set_p_pgdir d);;
      if d =? 0 then drop_proc np;; mret (-1) else
      lcr3 (V2P (p_pgdir pr));;
      lcr3 (V2P d);;
      modproc np (fun q => set_p_wmapInfoExtra (set_we_is_child 1 (p_wmapInfoExtra q)) q);;
      pr ← getproc cur;
      modproc np (fun q => set_p_sz (p_sz pr) (set_p_parent (Some cur) (set_p_tf (set_tf_eax 0 (p_tf pr)) q)));;
      dup_files cur np;;
      cwd ← from_option "no current directory" (p_cwd pr);
      c ← idup cwd;
      modproc np (set_p_cwd (Some c));;
      modproc np (put_name (safestrcpy (p_name pr) 16));;
      q ← getproc np;
      acquire LK_ptable;;
      modproc np (set_p_state RUNNABLE);;
      release LK_ptable;;
      r ← copyWmap cur np;
      if negb (r =? 0) then drop_proc np;; mret (-1) else
      mret (p_pid q)
  end.

(** ** Exit and wait *)

Definition unmap_all (p : nat) : K unit :=
  for_each (seq 0 (Z.to_nat MAX_WMMAP_INFO)) (fun i =>
    mp ← mapping_at p (Z.of_nat i);
    if is_free mp then mret tt else wunmap (u32 (mp_addr mp));; mret tt).

Definition uncount_tables (p : nat) : K unit :=
  pr ← getproc p;
  for_each (seq 0 (Z.to_nat NPDENTRIES)) (fun i =>
    e ← kload32 (u32 (p_pgdir pr + 4 * Z.of_nat i));
    if has e PTE_P then dec_count (PTE_ADDR e) else mret tt).

Definition close_files (p : nat) : K unit :=
  for_each (seq 0 (Z.to_nat NOFILE)) (fun fd =>
    pr ← getproc p;
    match p_ofile pr !! fd with
    | Some (Some f) =>
        fileclose f;;
        modproc p (fun pr => set_p_ofile (<[fd := None]> (p_ofile pr)) pr)
    | _ => mret tt
    end).

(** Children of [cur] go to init. *)
Definition reparent (cur : nat) : K unit :=
  init ← gets k_initproc;
  ps ← gets k_procs;
  for_each (seq 0 (length ps)) (fun i =>
    q ← getproc i;
    if bool_decide (p_parent q = Some cur) then
      modproc i (set_p_parent init);;
      if bool_decide (p_state q = ZOMBIE) then wakeup1 (CH_proc <$> init) else mret tt
    else mret tt).

Definition exit {A} : K A :=
  cur ← myproc;
  init ← gets k_initproc;
  if bool_decide (Some cur = init) then panic "init exiting" else
  unmap_all cur;;
  uncount_tables cur;;
  close_files cur;;
  begin_op;;
  pr ← getproc cur;
  cwd ← from_option "no current directory" (p_cwd pr);
  iput cwd;;
  end_op;;
  modproc cur (set_p_cwd None);;
  acquire LK_ptable;;
  pr ← getproc cur;
  wakeup1 (CH_proc <$> p_parent pr);;
  reparent cur;;
  modproc cur (set_p_state ZOMBIE);;
  sched.

(** The cleanup of a zombie child. *)
Definition reap (i : nat) : K Z :=
  q ← getproc i;
  kfree (p_kstack q);;
  modproc i (set_p_kstack 0);;
  freevm (p_pgdir q);;
  modproc i (fun q => set_p_state UNUSED (set_p_killed 0 (set_p_name (updZ (p_name q) 0 0)
    (set_p_parent None (set_p_pid 0 q)))));;
  release LK_ptable;;
  mret (p_pid q).

(** The scan of [wait] over the table from entry [i]. *)
Definition wait_body (cur : nat) (st : nat * bool) : K (nat * bool + (bool + Z)) :=
  let '(i, havekids) := st in
  ps ← gets k_procs;
  match ps !! i with
  | None => mret (inr (inl havekids))
  | Some q =>
      if bool_decide (p_parent q = Some cur) then
        if bool_decide (p_state q = ZOMBIE)
        then pid ← reap i; mret (inr (inr pid))
        else mret (inl (S i, true))
      else mret (inl (S i, havekids))
  end.

(** One turn of the outer loop of [wait], with [ptable.lock] held. *)
Definition wait_turn (cur : nat) : K Z :=
  ps ← gets k_procs;
  r ← iter (S (length ps)) (wait_body cur) (0%nat, false);
  match r with
  | inr pid => mret pid
  | inl havekids =>
      pr ← getproc cur;
      if negb havekids || negb (p_killed pr =? 0) then release LK_ptable;; mret (-1)
      else sleep (CH_proc cur) LK_ptable
  end.

Definition wait : K Z :=
  cur ← myproc;
  acquire LK_ptable;;
  wait_turn cur.

(** What [wait] does when it is woken. *)
Definition wait_resume : K Z :=
  cur ← myproc;
  sleep_resume LK_ptable;;
  wait_turn cur.

(** ** The scheduler *)

Definition switchkvm : K unit :=
  k ← gets k_kpgdir; lcr3 (V2P k).

Definition kvmalloc : K unit :=
  k ← setupkvm;
  modify (set_k_kpgdir k);;
  switchkvm.

(** The loop over the table up to the switch to a process; [i] is the next
    entry to look at.  The result is the process that runs. *)
Definition scheduler_body (i : nat) : K (nat + option nat) :=
  ps ← gets k_procs;
  match ps !! i with
  | None => mret (inr None)
  | Some q =>
      if bool_decide (p_state q = RUNNABLE) then
        modify (set_k_cur (Some i));;
        switchuvm (Some i);;
        modproc i (set_p_state RUNNING);;
        mret (inr (Some i))
      else mret (inl (S i))
  end.

Definition scheduler_pick (i : nat) : K (option nat) :=
  ps ← gets k_procs;
  iter (S (length ps)) scheduler_body i.

(** The process has switched back. *)
Definition scheduler_back : K unit :=
  switchkvm;;
  modify (set_k_cur None).

(** What a process does when the scheduler switches to it for the first time. *)
Definition forkret : K unit :=
  release LK_ptable;;
  first ← gets k_first;
  if first =? 0 then mret tt else
    modify (set_k_first 0);;
    iinit ROOTDEV;;
    initlog ROOTDEV.

End proc.
