(* ===== verification/Exec.v ===== *)
(** * Running a program (exec.c, and vm.c's loaduvm)

    The path and the arguments are user addresses, read through cr3 at the
    points where the code reads them; [goto bad] is the result [None]. *)

From S2P Require Import Prelude Mmu Mem Bytes State Kernel Cprintf Kalloc Vm Sched Sleeplock Bio Log FsInode Console FsFile Pipe File UserMem.

Definition ELF_MAGIC : Z := 0x464C457F.
Definition ELF_PROG_LOAD : Z := 1.

(** elf.h: the fields of the two headers that exec reads. *)
Record elfhdr := mkElfhdr { elf_magic : Z; elf_entry : Z; elf_phoff : Z; elf_phnum : Z }.
Record proghdr := mkProghdr {
  ph_type : Z;
  ph_off : Z;
  ph_vaddr : Z;
  ph_filesz : Z;
  ph_memsz : Z;
  ph_flags : Z;
}.

Definition ELFHDR_SIZE : Z := 52.
Definition PROGHDR_SIZE : Z := 32.

Definition elfhdr_of_bytes (bs : list Z) : elfhdr :=
  mkElfhdr (get32 bs 0) (get32 bs 24) (get32 bs 28) (get16 bs 44).
Definition proghdr_of_bytes (bs : list Z) : proghdr :=
  mkProghdr (get32 bs 0) (get32 bs 4) (get32 bs 8) (get32 bs 16) (get32 bs 20) (get32 bs 24).

(** The part of a path after the last slash. *)
Fixpoint last_elem (last path : list Z) : list Z :=
  match path with
  | [] => last
  | b :: rest => last_elem (if b =? 47 then rest else last) rest
  end.

Section exec.
Context `{KernelImage}.

Definition loaduvm_body (pgdir addr : Z) (ip : nat) (offset sz flags i : Z) : K (Z + Z) :=
  if i <? sz then
    pte ← walkpgdir pgdir (u32 (addr + i)) false;
    if pte =? 0 then panic "loaduvm: address should exist" else
    v ← kload32 pte;
    let pa := PTE_ADDR v in
    let n := if sz - i <? PGSIZE then sz - i else PGSIZE in
    r ← readi ip (u32 (offset + i)) n;
    kstore_bytes (P2V pa) r.2;;
    if negb (u32 r.1 =? n) then mret (inr (-1)) else
    v ← kload32 pte;
    let v := clearf v PTE_W in
    kstore32 pte (if has flags PTE_W then Z.lor v PTE_W else v);;
    lcr3 (V2P pgdir);;
    mret (inl (u32 (i + PGSIZE)))
  else mret (inr 0).

Definition loaduvm (pgdir addr : Z) (ip : nat) (offset sz flags : Z) : K Z :=
  if negb (addr mod PGSIZE =? 0) then panic "loaduvm: addr must be page aligned" else
  iter (S (Z.to_nat (sz / PGSIZE + 1))) (loaduvm_body pgdir addr ip offset sz flags) 0.

(** One program header: the new size of the image. *)
Definition load_segment (pgdir : Z) (ip : nat) (off sz : Z) : K (option Z) :=
  r ← readi ip (u32 off) PROGHDR_SIZE;
  if negb (r.1 =? PROGHDR_SIZE) then mret None else
  let ph := proghdr_of_bytes r.2 in
  if negb (ph_type ph =? ELF_PROG_LOAD) then mret (Some sz) else
  if ph_memsz ph <? ph_filesz ph then mret None else
  if u32 (ph_vaddr ph + ph_memsz ph) <? ph_vaddr ph then mret None else
  sz ← allocuvm pgdir sz (u32 (ph_vaddr ph + ph_memsz ph));
  if sz =? 0 then mret None else
  if negb (ph_vaddr ph mod PGSIZE =? 0) then mret None else
  r ← loaduvm pgdir (ph_vaddr ph) ip (ph_off ph) (ph_filesz ph) (ph_flags ph);
  if r <? 0 then mret None else mret (Some sz).

(** The loop over the program headers. *)
Fixpoint load_segments (n : nat) (pgdir : Z) (ip : nat) (off sz : Z) : K (option Z) :=
  match n with
  | O => mret (Some sz)
  | S n =>
      o ← load_segment pgdir ip off sz;
      match o with
      | None => mret None
      | Some sz => load_segments n pgdir ip (s32 (off + PROGHDR_SIZE)) sz
      end
  end.

(** The loop that pushes the arguments: the stack pointer and the addresses of
    the strings.  A string is read as a whole before it is copied. *)
Fixpoint push_args (pgdir sp : Z) (argv : list Z) (argc : Z) (ustack : list Z) :
    K (option (Z * list Z)) :=
  match argv with
  | [] => mret (Some (sp, ustack))
  | a :: argv =>
      if MAXARG <=? argc then mret None else
      bs ← ustring a;
      let sp := Z.land (u32 (sp - (Z.of_nat (length bs) + 1))) (Z.lnot 3) in
      r ← copyout pgdir sp (bs ++ [0]);
      if r <? 0 then mret None else push_args pgdir sp argv (argc + 1) (ustack ++ [sp])
  end.

(** The stack: from the page boundary after the program to the stack pointer. *)
Definition build_stack (pgdir sz : Z) (argv : list Z) : K (option (Z * Z)) :=
  let sz := PGROUNDUP sz in
  sz ← allocuvm pgdir sz (u32 (sz + 2 * PGSIZE));
  if sz =? 0 then mret None else
  clearpteu pgdir (u32 (sz - 2 * PGSIZE));;
  o ← push_args pgdir sz argv 0 [];
  match o with
  | None => mret None
  | Some (sp, args) =>
      let argc := Z.of_nat (length argv) in
      let ustack := [0xffffffff; argc; u32 (sp - (argc + 1) * 4)] ++ args ++ [0] in
      let sp := u32 (sp - (3 + argc + 1) * 4) in
      r ← copyout pgdir sp (concat (z2le 4 <$> ustack));
      if r <? 0 then mret None else mret (Some (sz, sp))
  end.

(** The label [bad]; [ip] is the inode that is still locked. *)
Definition exec_bad (pgdir : Z) (ip : option nat) : K Z :=
  (if pgdir =? 0 then mret tt else freevm pgdir);;
  (match ip with Some ip => iunlockput ip;; end_op | None => mret tt end);;
  mret (-1).

(** The commit to the new image. *)
Definition exec_commit (path pgdir sz entry sp : Z) : K Z :=
  cur ← myproc;
  name ← ustring path;
  modproc cur (fun pr => set_p_name (put_bytes (p_name pr) 0 (safestrcpy (last_elem name name) 16)) pr);;
  pr ← getproc cur;
  modproc cur (fun pr => set_p_pgdir pgdir (set_p_sz sz (set_p_tf (set_tf_esp sp (set_tf_eip entry (p_tf pr))) pr)));;
  switchuvm (Some cur);;
  freevm (p_pgdir pr);;
  mret 0.

Definition exec (path : Z) (argv : list Z) : K Z :=
  begin_op;;
  name ← ustring path;
  o ← namei name;
  match o with
  | None => end_op;; cprintfln "exec: fail";; mret (-1)
  | Some ip =>
      ilock (Some ip);;
      r ← readi ip 0 ELFHDR_SIZE;
      if negb (r.1 =? ELFHDR_SIZE) then exec_bad 0 (Some ip) else
      let elf := elfhdr_of_bytes r.2 in
      if negb (elf_magic elf =? ELF_MAGIC) then exec_bad 0 (Some ip) else
      pgdir ← setupkvm;
      if pgdir =? 0 then exec_bad 0 (Some ip) else
      o ← load_segments (Z.to_nat (elf_phnum elf)) pgdir ip (s32 (elf_phoff elf)) 0;
      match o with
      | None => exec_bad pgdir (Some ip)
      | Some sz =>
          iunlockput ip;;
          end_op;;
          o ← build_stack pgdir sz argv;
          match o with
          | None => exec_bad pgdir None
          | Some (sz, sp) => exec_commit path pgdir sz (elf_entry elf) sp
          end
      end
  end.

End exec.
