(* ===== verification/Syscall.v ===== *)
(** * System-call arguments (syscall.c)

    Arguments are words on the user stack.  [None] is the result -1. *)

From S2P Require Import Prelude Mmu Mem State Kernel Cprintf Kalloc Vm UserMem.

Section syscall.
Context `{KernelImage}.

Definition fetchint (addr : Z) : K (option Z) :=
  p ← myproc;
  pr ← getproc p;
  if (p_sz pr <=? addr) || (p_sz pr <? u32 (addr + 4)) then mret None else
  v ← uload32 addr;
  mret (Some (s32 v)).

(** The loop of [fetchstr]: [n] is [ep - s]. *)
Fixpoint scan_str (s : Z) (n : nat) (len : Z) : K (option Z) :=
  match n with
  | O => mret None
  | S n =>
      b ← uload8 s;
      if b =? 0 then mret (Some len) else scan_str (u32 (s + 1)) n (len + 1)
  end.

(** The length of the string at [addr]. *)
Definition fetchstr (addr : Z) : K (option Z) :=
  p ← myproc;
  pr ← getproc p;
  if p_sz pr <=? addr then mret None else
  scan_str addr (Z.to_nat (p_sz pr - addr)) 0.

Definition argint (n : Z) : K (option Z) :=
  p ← myproc;
  pr ← getproc p;
  fetchint (u32 (tf_esp (p_tf pr) + 4 + 4 * n)).

Definition argptr (n size : Z) : K (option Z) :=
  p ← myproc;
  pr ← getproc p;
  o ← argint n;
  match o with
  | None => mret None
  | Some i =>
      if (size <? 0) || (p_sz pr <=? u32 i) || (p_sz pr <? u32 (i + size)) then mret None
      else mret (Some (u32 i))
  end.

(** The address of a checked string. *)
Definition argstr (n : Z) : K (option Z) :=
  o ← argint n;
  match o with
  | None => mret None
  | Some addr =>
      l ← fetchstr (u32 addr);
      mret (match l with None => None | Some _ => Some (u32 addr) end)
  end.

End syscall.
