(* ===== verification/Sysfile.v ===== *)
(** * File system calls (sysfile.c) *)

From S2P Require Import Prelude Mmu Mem Bytes State Kernel Cprintf Kalloc Vm UserMem Syscall Sched Sleeplock Bio Log FsInode Console FsFile Pipe File Exec Wmap.

Definition STAT_SIZE : Z := 20.

Section sysfile.
Context `{KernelImage}.

(** The descriptor and the file. *)
Definition argfd (n : Z) : K (option (Z * nat)) :=
  o ← argint n;
  match o with
  | None => mret None
  | Some fd =>
      if (fd <? 0) || (NOFILE <=? fd) then mret None else
      p ← myproc;
      pr ← getproc p;
      fo ← from_option "fd out of range" (nthZ (p_ofile pr) fd);
      mret (match fo with None => None | Some f => Some (fd, f) end)
  end.

Definition fdalloc (f : nat) : K Z :=
  p ← myproc;
  pr ← getproc p;
  match find_fd (p_ofile pr) 0 with
  | Some fd =>
      modproc p (fun pr => set_p_ofile (<[fd := Some f]> (p_ofile pr)) pr);;
      mret (Z.of_nat fd)
  | None => mret (-1)
  end.

Definition clear_fd (fd : Z) : K unit :=
  p ← myproc;
  modproc p (fun pr => set_p_ofile (updZ (p_ofile pr) fd None) pr).

Definition sys_dup : K Z :=
  o ← argfd 0;
  match o with
  | None => mret (-1)
  | Some (_, f) =>
      fd ← fdalloc f;
      if fd <? 0 then mret (-1) else
      filedup f;;
      mret fd
  end.

(** The arguments of [sys_read] and [sys_write]. *)
Definition rw_args : K (option (nat * Z * Z)) :=
  o ← argfd 0;
  match o with
  | None => mret None
  | Some (_, f) =>
      o ← argint 2;
      match o with
      | None => mret None
      | Some n =>
          o ← argptr 1 n;
          mret (match o with None => None | Some p => Some (f, p, n) end)
      end
  end.

Definition sys_read : K Z :=
  o ← rw_args;
  match o with
  | None => mret (-1)
  | Some (f, p, n) =>
      r ← fileread f n;
      ustore_bytes p r.2;;
      mret r.1
  end.

Definition sys_write : K Z :=
  o ← rw_args;
  match o with
  | None => mret (-1)
  | Some (f, p, n) =>
      data ← uload_bytes p (Z.to_nat n);
      filewrite f data
  end.

Definition sys_close : K Z :=
  o ← argfd 0;
  match o with
  | None => mret (-1)
  | Some (fd, f) => clear_fd fd;; fileclose f;; mret 0
  end.

(** The fields of [struct stat] in user memory. *)
Definition store_stat (va : Z) (st : stat) : K unit :=
  ustore_bytes va (z2le 2 (st_type st));;
  ustore_bytes (u32 (va + 4)) (z2le 4 (st_dev st));;
  ustore_bytes (u32 (va + 8)) (z2le 4 (st_ino st));;
  ustore_bytes (u32 (va + 12)) (z2le 2 (st_nlink st));;
  ustore_bytes (u32 (va + 16)) (z2le 4 (st_size st)).

Definition sys_fstat : K Z :=
  o ← argfd 0;
  match o with
  | None => mret (-1)
  | Some (_, f) =>
      o ← argptr 1 STAT_SIZE;
      match o with
      | None => mret (-1)
      | Some va =>
          r ← filestat f;
          (match r.2 with Some st => store_stat va st | None => mret tt end);;
          mret r.1
      end
  end.

(** ** Links *)

(** [ip->nlink += d; iupdate(ip)] *)
Definition add_nlink (ip : nat) (d : Z) : K unit :=
  modino ip (fun i => set_i_nlink (s16 (i_nlink i + d)) i);;
  iupdate ip.

Definition link_bad (ip : nat) : K Z :=
  ilock (Some ip);;
  add_nlink ip (-1);;
  iunlockput ip;;
  end_op;;
  mret (-1).

Definition sys_link : K Z :=
  o ← argstr 0;
  match o with
  | None => mret (-1)
  | Some old =>
  o ← argstr 1;
  match o with
  | None => mret (-1)
  | Some new =>
      begin_op;;
      path ← ustring old;
      o ← namei path;
      match o with
      | None => end_op;; mret (-1)
      | Some ip =>
          ilock (Some ip);;
          i ← getino ip;
          if i_type i =? T_DIR then iunlockput ip;; end_op;; mret (-1) else
          add_nlink ip 1;;
          iunlock (Some ip);;
          path ← ustring new;
          o ← nameiparent path;
          match o with
          | None => link_bad ip
          | Some (dp, name) =>
              ilock (Some dp);;
              d ← getino dp;
              i ← getino ip;
              r ← (if negb (i_dev d =? i_dev i) then mret (-1) else dirlink dp name (i_inum i));
              iunlockput dp;;
              if r <? 0 then link_bad ip else
              iput ip;;
              end_op;;
              mret 0
          end
      end
  end end.

Definition isdirempty_body (dp : nat) (off : Z) : K (Z + bool) :=
  d ← getino dp;
  if off <? i_size d then
    r ← readi dp off DIRENT_SIZE;
    if negb (r.1 =? DIRENT_SIZE) then panic "isdirempty: readi" else
    if negb (de_inum (dirent_of_bytes r.2) =? 0) then mret (inr false)
    else mret (inl (off + DIRENT_SIZE))
  else mret (inr true).

Definition isdirempty (dp : nat) : K bool :=
  d ← getino dp;
  iter (S (Z.to_nat (i_size d / DIRENT_SIZE + 1))) (isdirempty_body dp) (2 * DIRENT_SIZE).

Definition unlink_bad (dp : nat) : K Z :=
  iunlockput dp;;
  end_op;;
  mret (-1).

(** [sys_unlink] with the parent directory locked. *)
Definition unlink_in (dp : nat) (name : list Z) : K Z :=
  if (namecmp name [46] =? 0) || (namecmp name [46; 46] =? 0) then unlink_bad dp else
  o ← dirlookup dp name;
  match o with
  | None => unlink_bad dp
  | Some (ip, off) =>
      ilock (Some ip);;
      i ← getino ip;
      if i_nlink i <? 1 then panic "unlink: nlink < 1" else
      e ← (if i_type i =? T_DIR then isdirempty ip else mret true);
      if negb e then iunlockput ip;; unlink_bad dp else
      r ← writei dp (replicate 16 0) off;
      if negb (r =? DIRENT_SIZE) then panic "unlink: writei" else
      (if i_type i =? T_DIR then add_nlink dp (-1) else mret tt);;
      iunlockput dp;;
      add_nlink ip (-1);;
      iunlockput ip;;
      end_op;;
      mret 0
  end.

Definition sys_unlink : K Z :=
  o ← argstr 0;
  match o with
  | None => mret (-1)
  | Some pa =>
      begin_op;;
      path ← ustring pa;
      o ← nameiparent path;
      match o with
      | None => end_op;; mret (-1)
      | Some (dp, name) => ilock (Some dp);; unlink_in dp name
      end
  end.

(** ** Creating *)

Definition create (path : list Z) (type major minor : Z) : K (option nat) :=
  o ← nameiparent path;
  match o with
  | None => mret None
  | Some (dp, name) =>
      ilock (Some dp);;
      o ← dirlookup dp name;
      match o with
      | Some (ip, _) =>
          iunlockput dp;;
          ilock (Some ip);;
          i ← getino ip;
          if (type =? T_FILE) && (i_type i =? T_FILE) then mret (Some ip) else
          iunlockput ip;;
          mret None
      | None =>
          d ← getino dp;
          ip ← ialloc (i_dev d) type;
          ilock (Some ip);;
          modino ip (fun i => set_i_major major (set_i_minor minor (set_i_nlink 1 i)));;
          iupdate ip;;
          i ← getino ip;
          (if type =? T_DIR then
             add_nlink dp 1;;
             r ← dirlink ip [46] (i_inum i);
             if r <? 0 then panic "create dots" else
             r ← dirlink ip [46; 46] (i_inum d);
             if r <? 0 then panic "create dots" else mret tt
           else mret tt);;
          r ← dirlink dp name (i_inum i);
          if r <? 0 then panic "create: dirlink" else
          iunlockput dp;;
          mret (Some ip)
      end
  end.

(** The inode that [sys_open] opens, locked; [None] after an error exit. *)
Definition open_inode (path : list Z) (omode : Z) : K (option nat) :=
  if has omode O_CREATE then
    o ← create path T_FILE 0 0;
    match o with
    | None => end_op;; mret None
    | Some ip => mret (Some ip)
    end
  else
    o ← namei path;
    match o with
    | None => end_op;; mret None
    | Some ip =>
        ilock (Some ip);;
        i ← getino ip;
        if (i_type i =? T_DIR) && negb (omode =? O_RDONLY)
        then iunlockput ip;; end_op;; mret None
        else mret (Some ip)
    end.

(** A file and a descriptor for it. *)
Definition open_file : K (option (nat * Z)) :=
  o ← filealloc;
  match o with
  | None => mret None
  | Some f =>
      fd ← fdalloc f;
      if fd <? 0 then fileclose f;; mret None else mret (Some (f, fd))
  end.

Definition sys_open : K Z :=
  o ← argstr 0;
  match o with
  | None => mret (-1)
  | Some pa =>
  o ← argint 1;
  match o with
  | None => mret (-1)
  | Some omode =>
      begin_op;;
      path ← ustring pa;
      o ← open_inode path omode;
      match o with
      | None => mret (-1)
      | Some ip =>
          o ← open_file;
          match o with
          | None => iunlockput ip;; end_op;; mret (-1)
          | Some (f, fd) =>
              iunlock (Some ip);;
              end_op;;
              modfile f (fun fl =>
                set_f_type FD_INODE (set_f_ip (Some ip) (set_f_off 0
                  (set_f_readable (if has omode O_WRONLY then 0 else 1)
                    (set_f_writable (if has omode O_WRONLY || has omode O_RDWR then 1 else 0) fl)))));;
              mret fd
          end
      end
  end end.

(** The end of [sys_mkdir] and [sys_mknod]. *)
Definition finish_create (o : option nat) : K Z :=
  match o with
  | None => end_op;; mret (-1)
  | Some ip => iunlockput ip;; end_op;; mret 0
  end.

Definition sys_mkdir : K Z :=
  begin_op;;
  o ← argstr 0;
  match o with
  | None => finish_create None
  | Some pa => path ← ustring pa; o ← create path T_DIR 0 0; finish_create o
  end.

Definition sys_mknod : K Z :=
  begin_op;;
  o ← argstr 0;
  match o with
  | None => finish_create None
  | Some pa =>
  o ← argint 1;
  match o with
  | None => finish_create None
  | Some major =>
  o ← argint 2;
  match o with
  | None => finish_create None
  | Some minor =>
      path ← ustring pa;
      o ← create path T_DEV (s16 major) (s16 minor);
      finish_create o
  end end end.

Definition sys_chdir : K Z :=
  p ← myproc;
  begin_op;;
  o ← argstr 0;
  match o with
  | None => end_op;; mret (-1)
  | Some pa =>
      path ← ustring pa;
      o ← namei path;
      match o with
      | None => end_op;; mret (-1)
      | Some ip =>
          ilock (Some ip);;
          i ← getino ip;
          if negb (i_type i =? T_DIR) then iunlockput ip;; end_op;; mret (-1) else
          iunlock (Some ip);;
          pr ← getproc p;
          cwd ← from_option "no current directory" (p_cwd pr);
          iput cwd;;
          end_op;;
          modproc p (set_p_cwd (Some ip));;
          mret 0
      end
  end.

(** The loop of [sys_exec] over the argument vector. *)
Definition exec_args_body (uargv : Z) (st : Z * list Z) : K (Z * list Z + option (list Z)) :=
  let '(i, argv) := st in
  if MAXARG <=? i then mret (inr None) else
  o ← fetchint (u32 (uargv + 4 * i));
  match o with
  | None => mret (inr None)
  | Some uarg =>
      if uarg =? 0 then mret (inr (Some argv)) else
      l ← fetchstr (u32 uarg);
      match l with
      | None => mret (inr None)
      | Some _ => mret (inl (i + 1, argv ++ [u32 uarg]))
      end
  end.

Definition sys_exec : K Z :=
  o ← argstr 0;
  match o with
  | None => mret (-1)
  | Some path =>
  o ← argint 1;
  match o with
  | None => mret (-1)
  | Some uargv =>
      o ← iter (S (Z.to_nat MAXARG)) (exec_args_body (u32 uargv)) (0, []);
      match o with
      | None => mret (-1)
      | Some argv => exec path argv
      end
  end end.

Definition sys_pipe : K Z :=
  o ← argptr 0 8;
  match o with
  | None => mret (-1)
  | Some fd =>
      o ← pipealloc;
      match o with
      | None => mret (-1)
      | Some (rf, wf) =>
          fd0 ← fdalloc rf;
          fd1 ← (if fd0 <? 0 then mret (-1) else fdalloc wf);
          if fd1 <? 0 then
            (if 0 <=? fd0 then clear_fd fd0 else mret tt);;
            fileclose rf;;
            fileclose wf;;
            mret (-1)
          else
            ustore_bytes fd (z2le 4 fd0);;
            ustore_bytes (u32 (fd + 4)) (z2le 4 fd1);;
            mret 0
      end
  end.

End sysfile.
