(* ===== verification/Sysproc.v ===== *)
(** * Process and memory-mapping system calls (sysproc.c) *)

From S2P Require Import Prelude Mmu Mem Bytes State Kernel Cprintf Kalloc Vm UserMem Syscall Sched Sleeplock Bio Log FsInode Console FsFile Pipe File Wmap Proc.

Definition WMAPINFO_SIZE : Z := 196.

Section sysproc.
Context `{KernelImage}.

Definition sys_fork : K Z := fork.
Definition sys_exit : K Z := exit.
Definition sys_wait : K Z := wait.

Definition sys_kill : K Z :=
  o ← argint 0;
  match o with
  | None => mret (-1)
  | Some pid => kill pid
  end.

Definition sys_getpid : K Z :=
  p ← myproc;
  pr ← getproc p;
  mret (p_pid pr).

Definition sys_sbrk : K Z :=
  o ← argint 0;
  match o with
  | None => mret (-1)
  | Some n =>
      p ← myproc;
      pr ← getproc p;
      r ← growproc n;
      if r <? 0 then mret (-1) else mret (s32 (p_sz pr))
  end.

(** One turn of the loop of [sys_sleep]; the comparison is unsigned. *)
Definition sleep_turn (ticks0 n : Z) : K Z :=
  t ← gets k_ticks;
  if u32 (t - ticks0) <? u32 n then
    p ← myproc;
    pr ← getproc p;
    if negb (p_killed pr =? 0) then release LK_tick;; mret (-1)
    else sleep CH_ticks LK_tick
  else release LK_tick;; mret 0.

Definition sys_sleep : K Z :=
  o ← argint 0;
  match o with
  | None => mret (-1)
  | Some n =>
      acquire LK_tick;;
      ticks0 ← gets k_ticks;
      sleep_turn ticks0 n
  end.

Definition sys_uptime : K Z :=
  acquire LK_tick;;
  xticks ← gets k_ticks;
  release LK_tick;;
  mret (s32 xticks).

(** The checks of [sys_wmap]; the end of the range is computed in 32 bits. *)
Definition wmap_args_ok (addr length flags : Z) : bool :=
  negb ((addr <? 0x60000000) || (0x80000000 <? u32 (addr + length))) &&
  has flags MAP_FIXED && has flags MAP_SHARED &&
  (addr mod PGSIZE =? 0) && (0 <? length).

Definition sys_wmap : K Z :=
  o ← argint 0;
  match o with
  | None => mret FAILED
  | Some addr =>
  o ← argint 1;
  match o with
  | None => mret FAILED
  | Some length =>
  o ← argint 2;
  match o with
  | None => mret FAILED
  | Some flags =>
  o ← argint 3;
  match o with
  | None => mret FAILED
  | Some fd =>
      if negb (wmap_args_ok (u32 addr) length flags) then mret FAILED else
      r ← wmap (u32 addr) length flags fd;
      mret (s32 r)
  end end end end.

Definition sys_wunmap : K Z :=
  o ← argint 0;
  match o with
  | None => mret FAILED
  | Some addr =>
      if (u32 addr <? 0x60000000) || (0x80000000 <? u32 addr) then mret FAILED
      else wunmap (u32 addr)
  end.

Definition sys_va2pa : K Z :=
  o ← argint 0;
  match o with
  | None => mret (-1)
  | Some va => r ← va2pa (u32 va); mret (s32 r)
  end.

(** [struct wmapinfo] in memory. *)
Definition wmapinfo_bytes (w : wmapinfo) : list Z :=
  concat (z2le 4 <$> wi_total_mmaps w :: wi_addr w ++ wi_length w ++ wi_n_loaded_pages w).

Definition sys_getwmapinfo : K Z :=
  o ← argptr 0 WMAPINFO_SIZE;
  match o with
  | None => mret FAILED
  | Some va =>
      if va =? 0 then mret FAILED else
      w ← getwmapinfo;
      ustore_bytes va (wmapinfo_bytes w);;
      mret SUCCESS
  end.

End sysproc.
