(* ===== verification/Trap.v ===== *)
(** * Traps and system-call dispatch (trap.c, and syscall.c's table)

    [trap] takes what the hardware gives it: the trap frame, the faulting
    address in cr2 and, for the keyboard and the serial port, the characters
    that [getc] returns.  One CPU, number 0, runs; acknowledging an interrupt
    leaves no trace in the state. *)

From S2P Require Import Prelude Mmu Mem Bytes State Kernel Cprintf Kalloc Vm UserMem Syscall Sched Sleeplock Bio Log FsInode Console FsFile Pipe File Wmap Proc Exec Sysfile Sysproc.

Definition T_PGFLT : Z := 14.
Definition T_SYSCALL : Z := 64.
Definition T_IRQ0 : Z := 32.
Definition IRQ_TIMER : Z := 0.
Definition IRQ_KBD : Z := 1.
Definition IRQ_COM1 : Z := 4.
Definition IRQ_IDE : Z := 14.
Definition IRQ_SPURIOUS : Z := 31.

Section trap.
Context `{KernelImage}.

(** [syscalls[num]] *)
Definition syscalls (num : Z) : option (K Z) :=
  match num with
  | 1 => Some sys_fork
  | 2 => Some sys_exit
  | 3 => Some sys_wait
  | 4 => Some sys_pipe
  | 5 => Some sys_read
  | 6 => Some sys_kill
  | 7 => Some sys_exec
  | 8 => Some sys_fstat
  | 9 => Some sys_chdir
  | 10 => Some sys_dup
  | 11 => Some sys_getpid
  | 12 => Some sys_sbrk
  | 13 => Some sys_sleep
  | 14 => Some sys_uptime
  | 15 => Some sys_open
  | 16 => Some sys_write
  | 17 => Some sys_mknod
  | 18 => Some sys_unlink
  | 19 => Some sys_link
  | 20 => Some sys_mkdir
  | 21 => Some sys_close
  | 22 => Some sys_wmap
  | 23 => Some sys_wunmap
  | 24 => Some sys_va2pa
  | 25 => Some sys_getwmapinfo
  | _ => None
  end.

(** [curproc->tf->eax = r] *)
Definition set_eax (p : nat) (r : Z) : K unit :=
  modproc p (fun pr => set_p_tf (set_tf_eax (u32 r) (p_tf pr)) pr).

Definition syscall : K unit :=
  p ← myproc;
  pr ← getproc p;
  let num := s32 (tf_eax (p_tf pr)) in
  match syscalls num with
  | Some f => r ← f; set_eax p r
  | None =>
      cprintf (bytes_of_string "%d %s: unknown sys call %d" ++ [10])
        [ArgInt (p_pid pr); ArgStr (Some (cstr (p_name pr))); ArgInt num];;
      set_eax p (-1)
  end.

(** ** Page faults *)

(** The first mapping that covers the faulting address. *)
Fixpoint find_mapping (pr : proc) (fault_addr : Z) (n : nat) (i : Z) : K (option Z) :=
  match n with
  | O => mret None
  | S n =>
      mp ← from_option "wmap index out of range" (get_mapping pr i);
      if is_free mp then find_mapping pr fault_addr n (i + 1) else
      if negb (vasIntersect fault_addr 1 (u32 (mp_addr mp)) (mp_length mp) =? 0) then mret (Some i)
      else find_mapping pr fault_addr n (i + 1)
  end.

Definition set_killed (p : nat) : K unit := modproc p (set_p_killed 1).

Definition page_fault (fault_addr : Z) : K unit :=
  p ← myproc;
  if (fault_addr <? 0x60000000) || (0x80000000 <=? fault_addr) then
    han ← handle_cow_fault p fault_addr;
    if negb (han =? 0) then cprintfln "Segmentation Fault";; set_killed p else mret tt
  else
    pr ← getproc p;
    o ← find_mapping pr fault_addr (Z.to_nat MAX_WMMAP_INFO) 0;
    match o with
    | None => mret tt
    | Some index =>
        r ← allocateAndMap p fault_addr PGSIZE index;
        if negb (r =? 0) then
          cprintfln "Allocating and mapping failed";;
          set_killed p
        else mret tt
    end.

(** ** Interrupts and other traps *)

Definition timer_tick : K unit :=
  acquire LK_tick;;
  modify (fun s => set_k_ticks (u32 (k_ticks s + 1)) s);;
  wakeup CH_ticks;;
  release LK_tick.

Definition unexpected (tf : trapframe) (cr2 : Z) : K unit :=
  cur ← gets k_cur;
  match cur with
  | Some p =>
      if Z.land (tf_cs tf) 3 =? 0 then
        cprintf (bytes_of_string "unexpected trap %d from cpu %d eip %x (cr2=0x%x)" ++ [10])
          [ArgInt (tf_trapno tf); ArgInt 0; ArgInt (tf_eip tf); ArgInt cr2];;
        panic "trap"
      else
        pr ← getproc p;
        cprintf (bytes_of_string
            "pid %d %s: trap %d err %d on cpu %d eip 0x%x addr 0x%x--kill proc" ++ [10])
          [ArgInt (p_pid pr); ArgStr (Some (cstr (p_name pr))); ArgInt (tf_trapno tf);
           ArgInt (tf_err tf); ArgInt 0; ArgInt (tf_eip tf); ArgInt cr2];;
        set_killed p
  | None =>
      cprintf (bytes_of_string "unexpected trap %d from cpu %d eip %x (cr2=0x%x)" ++ [10])
        [ArgInt (tf_trapno tf); ArgInt 0; ArgInt (tf_eip tf); ArgInt cr2];;
      panic "trap"
  end.

(** The switch of [trap]. *)
Definition handle_trap (tf : trapframe) (cr2 : Z) (getc : list Z) (pcs : nat -> list Z) : K unit :=
  let no := tf_trapno tf in
  if no =? T_PGFLT then page_fault cr2
  else if no =? T_IRQ0 + IRQ_TIMER then timer_tick
  else if no =? T_IRQ0 + IRQ_IDE then mret tt
  else if no =? T_IRQ0 + IRQ_IDE + 1 then mret tt
  else if (no =? T_IRQ0 + IRQ_KBD) || (no =? T_IRQ0 + IRQ_COM1) then consoleintr getc pcs
  else if (no =? T_IRQ0 + 7) || (no =? T_IRQ0 + IRQ_SPURIOUS) then
    cprintf (bytes_of_string "cpu%d: spurious interrupt at %x:%x" ++ [10])
      [ArgInt 0; ArgInt (tf_cs tf); ArgInt (tf_eip tf)]
  else unexpected tf cr2.

(** Force an exit of a killed process that was in user space. *)
Definition check_killed (tf : trapframe) : K unit :=
  cur ← gets k_cur;
  match cur with
  | None => mret tt
  | Some p =>
      pr ← getproc p;
      if negb (p_killed pr =? 0) && (Z.land (tf_cs tf) 3 =? DPL_USER) then exit else mret tt
  end.

(** [if(myproc()->killed) exit();] *)
Definition exit_if_killed : K unit :=
  p ← myproc;
  pr ← getproc p;
  if negb (p_killed pr =? 0) then exit else mret tt.

Definition trap (tf : trapframe) (cr2 : Z) (getc : list Z) (pcs : nat -> list Z) : K unit :=
  if tf_trapno tf =? T_SYSCALL then
    exit_if_killed;;
    p ← myproc;
    modproc p (set_p_tf tf);;
    syscall;;
    exit_if_killed
  else
    handle_trap tf cr2 getc pcs;;
    check_killed tf;;
    cur ← gets k_cur;
    (match cur with
     | None => mret tt
     | Some p =>
         pr ← getproc p;
         if bool_decide (p_state pr = RUNNING) && (tf_trapno tf =? T_IRQ0 + IRQ_TIMER)
         then yield else mret tt
     end);;
    check_killed tf.

(** What is left of [trap] when a process that yielded runs again. *)
Definition trap_resume (tf : trapframe) : K unit :=
  release LK_ptable;;
  check_killed tf.

Definition tvinit : K unit := initlock LK_tick.

End trap.
