(* ===== verification/Devices.v ===== *)
(** * Interrupt controllers, serial port and clock (lapic.c, ioapic.c, picirq.c,
      uart.c)

    The devices are hardware: [Machine] says what a read of a port or of a device
    register gives, as a function of everything done to the devices before.  The
    drivers are programs over the list of these accesses. *)

From S2P Require Import Prelude Mmu Mem State Kernel Cprintf Console Trap.

(** ** Accesses *)

Inductive hwev : Type :=
| OutB (port v : Z)
| InB (port v : Z)
| StoreW (addr v : Z)
| StoreH (addr v : Z)   (* 16 bits of memory *)
| LoadW (addr v : Z).

Class Machine := {
  port_in : list hwev -> Z -> Z;
  mmio_in : list hwev -> Z -> Z;
}.

(** The accesses so far, latest last, and the variables of the drivers. *)
Record hwstate := mkHw {
  hw_log : list hwev;
  hw_uart : bool;
  hw_lapic : Z;          (* 0 if there is none *)
  hw_ioapicid : Z;
  hw_cpus : list Z;      (* cpus[i].apicid for i < ncpu *)
}.
Definition add_log (e : hwev) (s : hwstate) : hwstate := mkHw (hw_log s ++ [e]) (hw_uart s) (hw_lapic s) (hw_ioapicid s) (hw_cpus s).
Definition set_uart (b : bool) (s : hwstate) : hwstate := mkHw (hw_log s) b (hw_lapic s) (hw_ioapicid s) (hw_cpus s).
Definition set_lapic (a : Z) (s : hwstate) : hwstate := mkHw (hw_log s) (hw_uart s) a (hw_ioapicid s) (hw_cpus s).
Definition set_ioapicid (a : Z) (s : hwstate) : hwstate := mkHw (hw_log s) (hw_uart s) (hw_lapic s) a (hw_cpus s).
Definition set_cpus (l : list Z) (s : hwstate) : hwstate := mkHw (hw_log s) (hw_uart s) (hw_lapic s) (hw_ioapicid s) l.

Abbreviation HW := (M hwstate).

Section machine.
Context {mach : Machine}.

Definition outb (port v : Z) : HW unit := modify (add_log (OutB port (u8 v))).
Definition inb (port : Z) : HW Z :=
  h ← gets hw_log;
  let v := u8 (port_in h port) in
  modify (add_log (InB port v));;
  mret v.
Definition storew (addr v : Z) : HW unit := modify (add_log (StoreW addr (u32 v))).
Definition loadw (addr : Z) : HW Z :=
  h ← gets hw_log;
  let v := u32 (mmio_in h addr) in
  modify (add_log (LoadW addr v));;
  mret v.

(** ** picirq.c *)

Definition IO_PIC1 : Z := 0x20.
Definition IO_PIC2 : Z := 0xA0.
Definition picinit : HW unit := outb (IO_PIC1 + 1) 0xFF;; outb (IO_PIC2 + 1) 0xFF.

(** ** ioapic.c *)

Definition IOAPIC : Z := 0xFEC00000.
Definition REG_ID : Z := 0x00.
Definition REG_VER : Z := 0x01.
Definition REG_TABLE : Z := 0x10.
Definition INT_DISABLED : Z := 0x00010000.

(** The structure at [IOAPIC]: [reg] at offset 0 and [data] at offset 16. *)
Definition IOAPIC_DATA : Z := IOAPIC + 16.

Definition ioapicread (reg : Z) : HW Z := storew IOAPIC reg;; loadw IOAPIC_DATA.
Definition ioapicwrite (reg data : Z) : HW unit := storew IOAPIC reg;; storew IOAPIC_DATA data.

(** The parts of the state that the kernel's variables and the devices are. *)
Definition on_kernel {A} : K A -> M (kstate * hwstate) A := lift fst (fun k s => (k, s.2)).
Definition on_devices {S A} : HW A -> M (S * hwstate) A := lift snd (fun h s => (s.1, h)).

Definition ioapicinit : M (kstate * hwstate) unit :=
  v ← on_devices (ioapicread REG_VER);
  let maxintr := Z.land (Z.shiftr v 16) 0xFF in
  r ← on_devices (ioapicread REG_ID);
  let id := Z.shiftr r 24 in
  ioapicid ← gets (fun s => hw_ioapicid s.2);
  (if negb (id =? ioapicid) then on_kernel (cprintfln "ioapicinit: id isn't equal to ioapicid; not a MP") else mret tt);;
  on_devices (for_each (seq 0 (Z.to_nat (maxintr + 1))) (fun i =>
    ioapicwrite (REG_TABLE + 2 * Z.of_nat i) (Z.lor INT_DISABLED (T_IRQ0 + Z.of_nat i));;
    ioapicwrite (REG_TABLE + 2 * Z.of_nat i + 1) 0)).

Definition ioapicenable (irq cpunum : Z) : HW unit :=
  ioapicwrite (REG_TABLE + 2 * irq) (T_IRQ0 + irq);;
  ioapicwrite (REG_TABLE + 2 * irq + 1) (Z.shiftl cpunum 24).

(** console.c *)
Definition consoleinit : M (kstate * hwstate) unit :=
  on_kernel consoleinit_lock;;
  on_devices (ioapicenable IRQ_KBD 0).

(** ** lapic.c *)

(** Registers, as indices of an array of 32-bit words. *)
Definition ID : Z := 0x0020 / 4.
Definition VER : Z := 0x0030 / 4.
Definition TPR : Z := 0x0080 / 4.
Definition EOI : Z := 0x00B0 / 4.
Definition SVR : Z := 0x00F0 / 4.
Definition ENABLE : Z := 0x00000100.
Definition ESR : Z := 0x0280 / 4.
Definition ICRLO : Z := 0x0300 / 4.
Definition INIT : Z := 0x00000500.
Definition STARTUP : Z := 0x00000600.
Definition DELIVS : Z := 0x00001000.
Definition ASSERT : Z := 0x00004000.
Definition LEVEL : Z := 0x00008000.
Definition BCAST : Z := 0x00080000.
Definition ICRHI : Z := 0x0310 / 4.
Definition TIMER : Z := 0x0320 / 4.
Definition X1 : Z := 0x0000000B.
Definition PERIODIC : Z := 0x00020000.
Definition PCINT : Z := 0x0340 / 4.
Definition LINT0 : Z := 0x0350 / 4.
Definition LINT1 : Z := 0x0360 / 4.
Definition ERROR : Z := 0x0370 / 4.
Definition MASKED : Z := 0x00010000.
Definition TICR : Z := 0x0380 / 4.
Definition TDCR : Z := 0x03E0 / 4.
Definition IRQ_ERROR : Z := 19.

Definition lapic_load (index : Z) : HW Z := a ← gets hw_lapic; loadw (a + 4 * index).
Definition lapicw (index value : Z) : HW unit :=
  a ← gets hw_lapic;
  storew (a + 4 * index) value;;
  lapic_load ID;;
  mret tt.

(** [while(lapic[ICRLO] & DELIVS)], at most [polls] times. *)
Definition wait_delivery (polls : nat) : HW unit :=
  iter polls (fun _ : unit =>
    v ← lapic_load ICRLO;
    mret (if Z.land v DELIVS =? 0 then inr tt else inl tt)) tt.

Definition lapicinit (polls : nat) : HW unit :=
  a ← gets hw_lapic;
  if a =? 0 then mret tt else
  lapicw SVR (Z.lor ENABLE (T_IRQ0 + IRQ_SPURIOUS));;
  lapicw TDCR X1;;
  lapicw TIMER (Z.lor PERIODIC (T_IRQ0 + IRQ_TIMER));;
  lapicw TICR 10000000;;
  lapicw LINT0 MASKED;;
  lapicw LINT1 MASKED;;
  v ← lapic_load VER;
  (if 4 <=? Z.land (Z.shiftr v 16) 0xFF then lapicw PCINT MASKED else mret tt);;
  lapicw ERROR (T_IRQ0 + IRQ_ERROR);;
  lapicw ESR 0;;
  lapicw ESR 0;;
  lapicw EOI 0;;
  lapicw ICRHI 0;;
  lapicw ICRLO (Z.lor (Z.lor BCAST INIT) LEVEL);;
  wait_delivery polls;;
  lapicw TPR 0.

Definition lapicid : HW Z :=
  a ← gets hw_lapic;
  if a =? 0 then mret 0 else
  v ← lapic_load ID;
  mret (Z.shiftr v 24).

Definition lapiceoi : HW unit :=
  a ← gets hw_lapic;
  if a =? 0 then mret tt else lapicw EOI 0.

Definition CMOS_PORT : Z := 0x70.
Definition CMOS_RETURN : Z := 0x71.

(** microdelay does nothing. *)
Definition lapicstartap (apicid addr : Z) : HW unit :=
  outb CMOS_PORT 0xF;;
  outb (CMOS_PORT + 1) 0x0A;;
  let wrv := P2V (Z.lor (Z.shiftl 0x40 4) 0x67) in
  modify (add_log (StoreH wrv 0));;
  modify (add_log (StoreH (wrv + 2) (u16 (Z.shiftr addr 4))));;
  lapicw ICRHI (Z.shiftl apicid 24);;
  lapicw ICRLO (Z.lor (Z.lor INIT LEVEL) ASSERT);;
  lapicw ICRLO (Z.lor INIT LEVEL);;
  for_each (seq 0 2) (fun _ =>
    lapicw ICRHI (Z.shiftl apicid 24);;
    lapicw ICRLO (Z.lor STARTUP (Z.shiftr addr 12))).

(** *** The clock *)

Definition CMOS_STATA : Z := 0x0a.
Definition CMOS_STATB : Z := 0x0b.
Definition CMOS_UIP : Z := Z.shiftl 1 7.
Definition SECS : Z := 0x00.
Definition MINS : Z := 0x02.
Definition HOURS : Z := 0x04.
Definition DAY : Z := 0x07.
Definition MONTH : Z := 0x08.
Definition YEAR : Z := 0x09.

(** date.h *)
Record rtcdate := mkDate { second : Z; minute : Z; hour : Z; day : Z; month : Z; year : Z }.
#[global] Instance rtcdate_eq_dec : EqDecision rtcdate.
Proof. solve_decision. Defined.

Definition cmos_read (reg : Z) : HW Z := outb CMOS_PORT reg;; inb CMOS_RETURN.

Definition fill_rtcdate : HW rtcdate :=
  s ← cmos_read SECS;
  m ← cmos_read MINS;
  h ← cmos_read HOURS;
  d ← cmos_read DAY;
  mo ← cmos_read MONTH;
  y ← cmos_read YEAR;
  mret (mkDate s m h d mo y).

(** One turn of the loop of cmostime; memcmp of the two structures is their
    equality, since they have no padding. *)
Definition cmos_turn (_ : unit) : HW (unit + rtcdate) :=
  t1 ← fill_rtcdate;
  a ← cmos_read CMOS_STATA;
  if negb (Z.land a CMOS_UIP =? 0) then mret (inl tt) else
  t2 ← fill_rtcdate;
  mret (if decide (t1 = t2) then inr t1 else inl tt).

Definition CONV (x : Z) : Z := u32 (u32 (Z.shiftr x 4 * 10) + Z.land x 0xf).

Definition conv_date (t : rtcdate) : rtcdate :=
  mkDate (CONV (second t)) (CONV (minute t)) (CONV (hour t)) (CONV (day t)) (CONV (month t)) (CONV (year t)).

Definition cmostime (turns : nat) : HW rtcdate :=
  sb ← cmos_read CMOS_STATB;
  let bcd := Z.land sb (Z.shiftl 1 2) =? 0 in
  t1 ← iter turns cmos_turn tt;
  let t1 := if bcd then conv_date t1 else t1 in
  mret (mkDate (second t1) (minute t1) (hour t1) (day t1) (month t1) (u32 (year t1 + 2000))).

(** ** uart.c *)

Definition COM1 : Z := 0x3f8.

(** The loop that waits at most 128 times for the transmitter. *)
Fixpoint uart_wait (n : nat) : HW unit :=
  match n with
  | O => mret tt
  | S n => v ← inb (COM1 + 5); if negb (Z.land v 0x20 =? 0) then mret tt else uart_wait n
  end.

Definition uartputc (c : Z) : HW unit :=
  u ← gets hw_uart;
  if negb u then mret tt else
  uart_wait 128;;
  outb COM1 c.

Definition uartinit : HW unit :=
  outb (COM1 + 2) 0;;
  outb (COM1 + 3) 0x80;;
  outb COM1 (115200 / 9600);;
  outb (COM1 + 1) 0;;
  outb (COM1 + 3) 0x03;;
  outb (COM1 + 4) 0;;
  outb (COM1 + 1) 0x01;;
  v ← inb (COM1 + 5);
  if v =? 0xFF then mret tt else
  modify (set_uart true);;
  inb (COM1 + 2);;
  inb COM1;;
  ioapicenable IRQ_COM1 0;;
  for_each (bytes_of_string "xv6..." ++ [10]) uartputc.

Definition uartgetc : HW Z :=
  u ← gets hw_uart;
  if negb u then mret (-1) else
  v ← inb (COM1 + 5);
  if Z.land v 0x01 =? 0 then mret (-1) else inb COM1.

End machine.
