(* ===== verification/WmapTable.v ===== *)
(** * The table of memory mappings

    Abstraction of the five parallel arrays of a process to a finite map from
    the start of a mapping to its length, the invariant of the table, and what
    wmap does to it. *)

From S2P Require Import Prelude Mmu Mem Bytes State Kernel Cprintf Kalloc Vm VmSample Sched Sleeplock Bio Log FsInode Console FsFile Pipe File Wmap Proc Sysproc.

(** ** Ranges *)

(** vasIntersect decides whether two ranges that do not wrap have an address
    in common. *)
Lemma vasIntersect_overlap a l b k :
  0 < l -> 0 < k -> 0 <= a -> 0 <= b -> a + l < 4294967296 -> b + k < 4294967296 ->
  (vasIntersect a l b k <> 0 <-> a < b + k /\ b < a + l).
Proof.
  intros. unfold vasIntersect. rewrite !u32_small by lia. repeat zcase; simpl; split; lia.
Qed.

(** ** The table *)

Definition arrays_ok (pr : proc) : Prop :=
  length (wi_addr (p_wmapInfo pr)) = 16%nat /\ length (wi_length (p_wmapInfo pr)) = 16%nat /\
  length (wi_n_loaded_pages (p_wmapInfo pr)) = 16%nat /\
  length (we_file_backed (p_wmapInfoExtra pr)) = 16%nat /\ length (we_fd (p_wmapInfoExtra pr)) = 16%nat.

Definition used (pr : proc) (i : Z) (m : mapping) : Prop :=
  get_mapping pr i = Some m /\ is_free m = false.

(** What sys_wmap means to accept: pages between 0x60000000 and 0x80000000. *)
Definition region_ok (a l : Z) : Prop :=
  0x60000000 <= a /\ a mod 4096 = 0 /\ 0 < l /\ a + l <= 0x80000000.

Definition apart (a l b k : Z) : Prop := a + l <= b \/ b + k <= a.

(** The used entries, as pairs of start and length. *)
Definition region_at (pr : proc) (i : nat) : option (Z * Z) :=
  m ← get_mapping pr (Z.of_nat i);
  if is_free m then None else Some (mp_addr m, mp_length m).

Definition regions (pr : proc) : gmap Z Z := list_to_map (omap (region_at pr) (seq 0 16)).

Record table_wf (pr : proc) : Prop := {
  tw_arrays : arrays_ok pr;
  tw_region : forall i m, used pr i m -> region_ok (mp_addr m) (mp_length m);
  tw_apart : forall i j m n, used pr i m -> used pr j n -> i <> j ->
             apart (mp_addr m) (mp_length m) (mp_addr n) (mp_length n);
  tw_total : wi_total_mmaps (p_wmapInfo pr) = Z.of_nat (size (regions pr));
}.

(** Some mapping has an address in common with [l] bytes at [a]. *)
Definition overlaps (R : gmap Z Z) (a l : Z) : Prop :=
  exists b k, R !! b = Some k /\ a < b + k /\ b < a + l.

(** ** Entries *)

Lemma get_mapping_inv pr i m :
  get_mapping pr i = Some m ->
  nthZ (wi_addr (p_wmapInfo pr)) i = Some (mp_addr m) /\
  nthZ (wi_length (p_wmapInfo pr)) i = Some (mp_length m) /\
  nthZ (wi_n_loaded_pages (p_wmapInfo pr)) i = Some (mp_loaded m) /\
  nthZ (we_file_backed (p_wmapInfoExtra pr)) i = Some (mp_backed m) /\
  nthZ (we_fd (p_wmapInfoExtra pr)) i = Some (mp_fd m).
Proof.
  unfold get_mapping. intros Hm. do 5 (apply bind_Some in Hm as (? & -> & Hm)).
  by injection Hm as <-.
Qed.

Lemma get_mapping_range pr i m : arrays_ok pr -> get_mapping pr i = Some m -> 0 <= i < 16.
Proof.
  intros (H1 & _) (E & _)%get_mapping_inv. apply nthZ_Some_range in E. lia.
Qed.

Lemma get_mapping_is_Some pr i : arrays_ok pr -> 0 <= i < 16 -> exists m, get_mapping pr i = Some m.
Proof.
  intros (H1 & H2 & H3 & H4 & H5) Hi. unfold get_mapping.
  destruct (nthZ_is_Some (wi_addr (p_wmapInfo pr)) i) as [a ->]; [lia|].
  destruct (nthZ_is_Some (wi_length (p_wmapInfo pr)) i) as [l ->]; [lia|].
  destruct (nthZ_is_Some (wi_n_loaded_pages (p_wmapInfo pr)) i) as [n ->]; [lia|].
  destruct (nthZ_is_Some (we_file_backed (p_wmapInfoExtra pr)) i) as [b ->]; [lia|].
  destruct (nthZ_is_Some (we_fd (p_wmapInfoExtra pr)) i) as [f ->]; [lia|]. eauto.
Qed.

Lemma arrays_ok_set a l n b f t i pr : arrays_ok pr -> arrays_ok (set_mapping a l n b f t i pr).
Proof. unfold arrays_ok, set_mapping. simpl. by rewrite !length_updZ. Qed.

Lemma get_set_mapping_eq a l n b f t i pr :
  arrays_ok pr -> 0 <= i < 16 ->
  get_mapping (set_mapping a l n b f t i pr) i = Some (mkMapping (s32 a) l n b f).
Proof.
  intros (H1 & H2 & H3 & H4 & H5) Hi. unfold get_mapping, set_mapping. simpl.
  by rewrite !nthZ_updZ_eq by lia.
Qed.

Lemma get_set_mapping_ne a l n b f t i j pr :
  i <> j -> get_mapping (set_mapping a l n b f t i pr) j = get_mapping pr j.
Proof. intros Hij. unfold get_mapping, set_mapping. simpl. by rewrite !nthZ_updZ_ne by done. Qed.

Lemma is_free_false m : is_free m = false <-> ~ (mp_addr m = 0 /\ mp_length m = -1).
Proof. unfold is_free. rewrite andb_false_iff, !Z.eqb_neq. split; [intros [?|?]; lia|lia]. Qed.

Lemma is_free_true m : is_free m = true <-> mp_addr m = 0 /\ mp_length m = -1.
Proof. unfold is_free. by rewrite andb_true_iff, !Z.eqb_eq. Qed.

(** ** The abstraction *)

Lemma elem_of_region_list pr a l :
  arrays_ok pr ->
  (a, l) ∈ omap (region_at pr) (seq 0 16) <->
  exists i m, used pr i m /\ mp_addr m = a /\ mp_length m = l.
Proof.
  intros Hok. rewrite list_elem_of_omap. unfold region_at, used. split.
  - intros (i & _ & Hi). destruct (get_mapping pr (Z.of_nat i)) as [m|] eqn:E; [|done].
    simpl in Hi. destruct (is_free m) eqn:F; [done|]. injection Hi as <- <-. by exists (Z.of_nat i), m.
  - intros (i & m & [Hm Hf] & <- & <-). pose proof (get_mapping_range _ _ _ Hok Hm).
    exists (Z.to_nat i). split; [apply elem_of_seq; lia|]. rewrite Z2Nat.id by lia.
    rewrite Hm. simpl. by rewrite Hf.
Qed.

(** Distinct entries start at distinct addresses. *)
Definition addrs_distinct (pr : proc) : Prop :=
  forall i j m n, used pr i m -> used pr j n -> mp_addr m = mp_addr n -> i = j.

Lemma region_list_NoDup pr : addrs_distinct pr -> NoDup (omap (region_at pr) (seq 0 16)).*1.
Proof.
  intros Hd. assert (forall k o, NoDup (omap (region_at pr) (seq o k)).*1) as H; [|apply H].
  induction k as [|k IH]; intros o; simpl; [constructor|].
  destruct (region_at pr o) as [[a l]|] eqn:E; [|apply IH].
  simpl. constructor; [|apply IH]. rewrite list_elem_of_fmap. intros ([b k'] & Hb & Hin).
  simpl in Hb. subst b. apply list_elem_of_omap in Hin as (j & Hj & Ej). apply elem_of_seq in Hj.
  unfold region_at in E, Ej.
  destruct (get_mapping pr (Z.of_nat o)) as [m|] eqn:Em; [|done].
  destruct (get_mapping pr (Z.of_nat j)) as [n|] eqn:En; [|done].
  simpl in E, Ej. destruct (is_free m) eqn:Fm, (is_free n) eqn:Fn; try done.
  injection E as <- _. injection Ej as Ha _.
  assert (Z.of_nat o = Z.of_nat j); [|lia]. by apply (Hd _ _ m n).
Qed.

Lemma regions_lookup pr a l :
  arrays_ok pr -> addrs_distinct pr ->
  regions pr !! a = Some l <-> exists i m, used pr i m /\ mp_addr m = a /\ mp_length m = l.
Proof.
  intros Hok Hd. unfold regions. rewrite <- elem_of_list_to_map by (by apply region_list_NoDup).
  by apply elem_of_region_list.
Qed.

Lemma table_distinct pr : table_wf pr -> addrs_distinct pr.
Proof.
  intros Hwf i j m n Hm Hn Ha. destruct (decide (i = j)); [done|].
  destruct (tw_region _ Hwf _ _ Hm) as (_ & _ & ? & _).
  destruct (tw_region _ Hwf _ _ Hn) as (_ & _ & ? & _).
  destruct (tw_apart _ Hwf i j m n) as [?|?]; try done; lia.
Qed.

Lemma table_lookup pr a l :
  table_wf pr -> regions pr !! a = Some l <-> exists i m, used pr i m /\ mp_addr m = a /\ mp_length m = l.
Proof. intros Hwf. apply regions_lookup; [apply Hwf|by apply table_distinct]. Qed.

(** ** Updates *)

Lemma used_set a l n b f t i pr j m :
  arrays_ok pr -> 0 <= i < 16 ->
  used (set_mapping a l n b f t i pr) j m <->
  (j = i /\ m = mkMapping (s32 a) l n b f /\ is_free m = false) \/ (j <> i /\ used pr j m).
Proof.
  intros Hok Hi. unfold used. destruct (decide (j = i)) as [->|Hj].
  - rewrite get_set_mapping_eq by done. split; [intros [[= <-] ?]; by left|].
    intros [(_ & -> & ?)|[? _]]; done.
  - rewrite get_set_mapping_ne by done. split; [by right|]. by intros [[? _]|[_ ?]].
Qed.

(** A new mapping in a free entry. *)
Lemma table_add pr i m0 a l n b f t :
  table_wf pr -> get_mapping pr i = Some m0 -> is_free m0 = true -> region_ok a l ->
  ~ overlaps (regions pr) a l -> t = wi_total_mmaps (p_wmapInfo pr) + 1 ->
  let pr' := set_mapping a l n b f t i pr in
  table_wf pr' /\ regions pr' = <[a := l]> (regions pr).
Proof.
  intros Hwf Hm0 Hf0 Hr Hno Ht pr'. pose proof (get_mapping_range _ _ _ (tw_arrays _ Hwf) Hm0) as Hi.
  pose proof (tw_arrays _ Hwf) as Hok. assert (arrays_ok pr') as Hok' by by apply arrays_ok_set.
  assert (s32 a = a) as Ha by (apply s32_small; unfold region_ok in Hr; lia).
  assert (forall j m, used pr j m -> apart a l (mp_addr m) (mp_length m)) as Hap.
  { intros j m Hm. unfold apart. destruct (Z.le_gt_cases (a + l) (mp_addr m)); [by left|].
    destruct (Z.le_gt_cases (mp_addr m + mp_length m) a); [by right|]. destruct Hno.
    exists (mp_addr m), (mp_length m). split; [|lia]. apply table_lookup; eauto. }
  assert (forall i j m n, used pr' i m -> used pr' j n -> i <> j ->
             apart (mp_addr m) (mp_length m) (mp_addr n) (mp_length n)) as Hap'.
  { intros j k m m' [(-> & -> & _)|[? Hm]]%used_set [(-> & -> & _)|[? Hm']]%used_set ?; try done;
      simpl; rewrite ?Ha.
    - eauto.
    - destruct (Hap _ _ Hm); [by right|by left].
    - by apply (tw_apart _ Hwf j k). }
  assert (forall j m, used pr' j m -> region_ok (mp_addr m) (mp_length m)) as Hreg.
  { intros j m [(-> & -> & _)|[? Hm]]%used_set; try done; simpl; rewrite ?Ha; [done|].
    by apply (tw_region _ Hwf j). }
  assert (addrs_distinct pr') as Hd.
  { intros j k m m' Hm Hm' E. destruct (decide (j = k)); [done|].
    destruct (Hreg _ _ Hm) as (_ & _ & ? & _), (Hreg _ _ Hm') as (_ & _ & ? & _).
    destruct (Hap' _ _ _ _ Hm Hm'); [done|lia..]. }
  assert (regions pr !! a = None) as Hnone.
  { destruct (regions pr !! a) as [k|] eqn:E; [|done]. apply table_lookup in E as (j & m & Hm & <- & <-); [|done].
    destruct (tw_region _ Hwf _ _ Hm) as (_ & _ & ? & _), Hr as (_ & _ & ? & _).
    destruct (Hap _ _ Hm); lia. }
  assert (regions pr' = <[a := l]> (regions pr)) as HR.
  { apply map_eq. intros x. apply option_eq. intros k. rewrite regions_lookup by done.
    rewrite lookup_insert_Some, table_lookup by done. split.
    - intros (j & m & [(-> & -> & _)|[? Hm]]%used_set & <- & <-); try done; simpl; rewrite ?Ha; [by left|right].
      split; [|eauto]. intros ->. rewrite (proj2 (table_lookup pr (mp_addr m) (mp_length m) Hwf)) in Hnone by eauto.
      done.
    - intros [[<- <-]|[? (j & m & Hm & <- & <-)]].
      + exists i, (mkMapping a l n b f). unfold pr'. rewrite used_set, Ha by done. split; [left|done].
        split; [done|]. split; [done|]. apply is_free_false. simpl. destruct Hr; lia.
      + exists j, m. unfold pr'. rewrite used_set by done. split; [right|done]. split; [|done].
        intros ->. destruct Hm as [Hm Hmf]. congruence. }
  split; [|done]. split; [done..|]. rewrite HR, map_size_insert_None by done.
  unfold pr', set_mapping. simpl. rewrite Ht, (tw_total _ Hwf). lia.
Qed.

(** Clearing a used entry. *)
Lemma table_remove pr i m t :
  table_wf pr -> used pr i m -> t = wi_total_mmaps (p_wmapInfo pr) - 1 ->
  let pr' := set_mapping 0 (-1) 0 0 (-1) t i pr in
  table_wf pr' /\ regions pr' = delete (mp_addr m) (regions pr).
Proof.
  intros Hwf Hm Ht pr'. pose proof (tw_arrays _ Hwf) as Hok.
  pose proof (get_mapping_range _ _ _ Hok (proj1 Hm)) as Hi.
  assert (forall j n, used pr' j n <-> j <> i /\ used pr j n) as Hu.
  { intros j n. unfold pr'. rewrite used_set by done. rewrite s32_small by lia. split; [|by right].
    intros [(_ & -> & Hf)|?]; [done|done]. }
  assert (addrs_distinct pr') as Hd.
  { intros j k n n' [_ ?]%Hu [_ ?]%Hu. by apply (table_distinct _ Hwf). }
  assert (regions pr' = delete (mp_addr m) (regions pr)) as HR.
  { apply map_eq. intros x. apply option_eq. intros k.
    rewrite regions_lookup by (done || by apply arrays_ok_set).
    rewrite lookup_delete_Some, table_lookup by done. split.
    - intros (j & n & [? Hn]%Hu & <- & <-). split; [|eauto]. intros E.
      by apply (table_distinct _ Hwf i j) in E.
    - intros [? (j & n & Hn & <- & <-)]. exists j, n. split; [|done]. apply Hu. split; [|done].
      intros ->. destruct Hn as [Hn _], Hm as [Hm _]. congruence. }
  split; [|done]. split; [by apply arrays_ok_set|..].
  - intros j n [_ ?]%Hu. by apply (tw_region _ Hwf j).
  - intros j k n n' [_ ?]%Hu [_ ?]%Hu. by apply (tw_apart _ Hwf).
  - rewrite HR. assert (regions pr !! mp_addr m = Some (mp_length m)) as Hl by (apply table_lookup; eauto).
    rewrite map_size_delete_Some by eauto. simpl. rewrite Ht, (tw_total _ Hwf).
    assert (size (regions pr) <> 0%nat); [|lia]. intros E%map_size_empty_inv. by rewrite E in Hl.
Qed.

(** A change of the number of loaded pages only. *)
Lemma table_touch pr i m n t :
  table_wf pr -> used pr i m -> t = wi_total_mmaps (p_wmapInfo pr) ->
  let pr' := set_mapping (mp_addr m) (mp_length m) n (mp_backed m) (mp_fd m) t i pr in
  table_wf pr' /\ regions pr' = regions pr /\
  used pr' i (mkMapping (mp_addr m) (mp_length m) n (mp_backed m) (mp_fd m)).
Proof.
  intros Hwf Hm Ht pr'. pose proof (tw_arrays _ Hwf) as Hok.
  pose proof (get_mapping_range _ _ _ Hok (proj1 Hm)) as Hi.
  destruct (tw_region _ Hwf _ _ Hm) as (? & _ & ? & ?).
  assert (s32 (mp_addr m) = mp_addr m) as Ha by (apply s32_small; lia).
  assert (forall j k, used pr' j k -> exists k', used pr j k' /\ mp_addr k' = mp_addr k /\
    mp_length k' = mp_length k) as Hto.
  { intros j k [(-> & -> & _)|[? Hk]]%used_set; [exists m; by rewrite Ha|by exists k|done..]. }
  assert (used pr' i (mkMapping (mp_addr m) (mp_length m) n (mp_backed m) (mp_fd m))) as Hu.
  { apply used_set; [done..|]. left. rewrite Ha. split_and!; [done..|]. apply is_free_false. simpl. lia. }
  assert (addrs_distinct pr') as Hd.
  { intros j k a b (a' & Ha' & Ea & _)%Hto (b' & Hb' & Eb & _)%Hto E.
    apply (table_distinct _ Hwf j k a' b'); congruence. }
  assert (regions pr' = regions pr) as HR.
  { apply map_eq. intros x. apply option_eq. intros l.
    rewrite regions_lookup, table_lookup by (done || by apply arrays_ok_set). split.
    - intros (j & k & (k' & Hk' & <- & <-)%Hto & <- & <-). eauto.
    - intros (j & k & Hk & <- & <-). destruct (decide (j = i)) as [->|Hj].
      + assert (k = m) as -> by (destruct Hk, Hm; congruence). eauto.
      + exists j, k. split; [|done]. apply used_set; [done..|]. by right. }
  split; [|done]. split; [by apply arrays_ok_set|..].
  - intros j k (k' & Hk' & <- & <-)%Hto. by apply (tw_region _ Hwf j).
  - intros j k a b (a' & Ha' & <- & <-)%Hto (b' & Hb' & <- & <-)%Hto. by apply (tw_apart _ Hwf).
  - rewrite HR, <- (tw_total _ Hwf). done.
Qed.

(** Every entry in use means a full table. *)
Lemma table_full pr :
  table_wf pr -> (forall i, 0 <= i < 16 -> exists m, used pr i m) -> size (regions pr) = 16%nat.
Proof.
  intros Hwf Hall. unfold regions.
  rewrite map_size_list_to_map by by apply region_list_NoDup, table_distinct.
  assert (forall k o, (o + k <= 16)%nat -> length (omap (region_at pr) (seq o k)) = k) as H; [|by apply H].
  induction k as [|k IH]; intros o Hk; [done|]. simpl.
  destruct (Hall (Z.of_nat o)) as (m & Hm & Hf); [lia|]. unfold region_at at 1. rewrite Hm. simpl.
  rewrite Hf. simpl. rewrite IH by lia. done.
Qed.

(** The table of a new process. *)
Lemma nthZ_replicate {A} n (x y : A) i : nthZ (replicate n x) i = Some y -> y = x.
Proof.
  unfold nthZ. destruct (i <? 0); [done|]. by intros [-> _]%lookup_replicate.
Qed.

Lemma table_wf_clear pr : table_wf (clear_wmap pr).
Proof.
  assert (forall i m, ~ used (clear_wmap pr) i m) as Hno.
  { intros i m [Hm Hf]. apply is_free_false in Hf. destruct Hf.
    apply get_mapping_inv in Hm as (Ha & Hl & _). by apply nthZ_replicate in Ha, Hl. }
  split; [done|by intros i m ?%Hno|by intros i j m n ?%Hno|reflexivity].
Qed.

(** ** The operations of wmap *)

Section ops.
Context `{KernelImage}.

Lemma wp_mapping_at p pr i m Q s :
  k_procs s !! p = Some pr -> get_mapping pr i = Some m -> Q m s -> wp (mapping_at p i) Q s.
Proof.
  intros Hp Hm HQ. unfold mapping_at. apply wp_bind. eapply wp_getproc; [done|].
  rewrite Hm. by apply wp_ret.
Qed.

Lemma wp_updateWmap p a l n b f t i (Q : Z -> kstate -> Prop) s :
  0 <= i < 16 -> Q 0 (set_k_procs (alter (set_mapping a l n b f t i) p (k_procs s)) s) ->
  wp (updateWmap p a l n b f t i) Q s.
Proof.
  intros Hi HQ. unfold updateWmap. change MAX_WMMAP_INFO with 16. zb. by repeat kstep.
Qed.

Lemma find_fd_spec {A} (fds : list (option A)) o n : find_fd fds o = Some n -> (o <= n)%nat /\ fds !! (n - o)%nat = Some None.
Proof.
  revert o. induction fds as [|[f|] fds IH]; intros o; simpl; [done|..].
  - intros [? E]%IH. split; [lia|]. by replace (n - o)%nat with (S (n - S o)) by lia.
  - intros [= ->]. split; [lia|]. by rewrite Nat.sub_diag.
Qed.

(** Open descriptors refer to files in use. *)
Definition files_ok (s : kstate) (pr : proc) : Prop :=
  length (p_ofile pr) = 16%nat /\
  forall i f, p_ofile pr !! i = Some (Some f) -> exists fl, k_ftable s !! f = Some fl /\ 1 <= f_ref fl.

Definition ref_up (fl : file) : file := set_f_ref (f_ref fl + 1) fl.

Lemma wp_filedup f fl (Q : nat -> kstate -> Prop) s :
  LK_ftable ∉ k_locks s -> k_ftable s !! f = Some fl -> 1 <= f_ref fl ->
  Q f (set_k_ftable (alter ref_up f (k_ftable s)) s) -> wp (filedup f) Q s.
Proof.
  intros Hl Hf Hr HQ. unfold filedup, getfile, modfile. kstep. kstep; [done|]. kstep. kstep. kstep.
  cbn [k_ftable set_k_locks]. rewrite Hf. cbn [from_option]. kstep. zb.
  kstep. kstep. kstep. kstep. by destruct s.
Qed.

(** What duplicateFd does: nothing, or a new descriptor of the same file. *)
Definition duplicated (s : kstate) (p : nat) (pr : proc) (fd r : Z) (s' : kstate) : Prop :=
  (r = -1 /\ s' = s) \/
  exists f n, nthZ (p_ofile pr) fd = Some (Some f) /\ p_ofile pr !! n = Some None /\ r = Z.of_nat n /\
    s' = set_k_ftable (alter ref_up f (k_ftable s))
           (set_k_procs (alter (fun pr => set_p_ofile (<[n := Some f]> (p_ofile pr)) pr) p (k_procs s)) s).

Lemma wp_duplicateFd p pr fd (Q : Z -> kstate -> Prop) s :
  k_cur s = Some p -> k_procs s !! p = Some pr -> files_ok s pr -> LK_ftable ∉ k_locks s ->
  (forall r s', duplicated s p pr fd r s' -> Q r s') -> wp (duplicateFd fd) Q s.
Proof.
  intros Hc Hp [Hlen Hok] Hl HQ. unfold duplicateFd. kstep. eapply wp_myproc; [done|].
  kstep. eapply wp_getproc; [done|]. change NOFILE with 16.
  destruct ((fd <? 0) || (16 <=? fd)) eqn:E; [kstep; apply HQ; by left|].
  apply orb_false_iff in E as [E1%Z.ltb_ge E2%Z.leb_gt].
  destruct (nthZ_is_Some (p_ofile pr) fd) as [[f|] Hf]; [lia|..]; rewrite Hf; kstep; kstep;
    [|kstep; apply HQ; by left].
  destruct (find_fd (p_ofile pr) 0) as [n|] eqn:En; [|kstep; apply HQ; by left].
  apply find_fd_spec in En as [_ En]. rewrite Nat.sub_0_r in En.
  destruct (Hok (Z.to_nat fd) f) as (fl & Hfl & Hr).
  { unfold nthZ in Hf. by destruct (fd <? 0). }
  kstep. kstep. kstep. eapply wp_filedup; [done..|]. kstep. apply HQ. right. by exists f, n.
Qed.

(** Only the two structs matter. *)
Lemma region_at_ofile v pr i : region_at (set_p_ofile v pr) i = region_at pr i.
Proof. reflexivity. Qed.

Lemma regions_ofile v pr : regions (set_p_ofile v pr) = regions pr.
Proof.
  unfold regions. generalize (seq 0 16). intros l. f_equal.
Qed.

Lemma used_ofile v pr i m : used (set_p_ofile v pr) i m <-> used pr i m.
Proof. done. Qed.

Lemma table_wf_ofile v pr : table_wf pr -> table_wf (set_p_ofile v pr).
Proof.
  intros [H1 H2 H3 H4]. split; [exact H1|exact H2|exact H3|]. rewrite regions_ofile. exact H4.
Qed.

(** The scan finds a free entry, or fails because of an overlap or a full
    table. *)
Lemma wp_wmap_scan p pr a l (Q : option Z -> kstate -> Prop) s :
  k_procs s !! p = Some pr -> table_wf pr -> region_ok a l ->
  (overlaps (regions pr) a l \/ size (regions pr) = 16%nat -> Q None s) ->
  (forall e m, get_mapping pr e = Some m -> is_free m = true -> ~ overlaps (regions pr) a l ->
     size (regions pr) <> 16%nat -> Q (Some e) s) ->
  wp (iter (S (Z.to_nat MAX_WMMAP_INFO)) (wmap_scan p a l) (0, -1)) Q s.
Proof.
  intros Hp Hwf Hr HN HS. pose proof (tw_arrays _ Hwf) as Hok.
  set (I := fun (st : Z * Z) s' => s' = s /\ 0 <= st.1 <= 16 /\
    (forall j m, j < st.1 -> used pr j m -> apart a l (mp_addr m) (mp_length m)) /\
    ((st.2 = -1 /\ forall j, 0 <= j < st.1 -> exists m, used pr j m) \/
     (0 <= st.2 /\ exists m, get_mapping pr st.2 = Some m /\ is_free m = true)) /\
    (0 < st.1 -> size (regions pr) <> 16%nat)).
  apply (wp_iter I (fun st => Z.to_nat (16 - st.1))).
  - intros [i e] s' (-> & Hi & Hap & He & Hsz). simpl fst in *. simpl snd in *. unfold wmap_scan.
    change MAX_WMMAP_INFO with 16. destruct (Z.ltb_spec i 16) as [Hi'|Hi'].
    + kstep. eapply wp_getproc; [done|]. rewrite (tw_total _ Hwf).
      destruct (Z.eqb_spec (Z.of_nat (size (regions pr))) 16) as [E|E]; [kstep; apply HN; right; lia|].
      destruct (get_mapping_is_Some pr i Hok) as [m Hm]; [lia|].
      kstep. eapply wp_mapping_at; [done..|]. destruct (is_free m) eqn:F.
      * kstep. simpl. split; [|lia]. split; [done|]. simpl. split; [lia|]. split; [|split; [|lia]].
        -- intros j n Hj [Hn Hnf]. destruct (decide (j = i)) as [->|]; [congruence|]. apply (Hap j); [lia|done].
        -- right. destruct (Z.eqb_spec e (-1)); [split; [lia|eauto]|]. destruct He as [[? _]|?]; [lia|done].
      * assert (used pr i m) as Hu by done. destruct (tw_region _ Hwf _ _ Hu) as (? & _ & ? & ?).
        destruct Hr as (? & _ & ? & ?). rewrite (u32_small (mp_addr m)) by lia.
        destruct (Z.eqb_spec (vasIntersect a l (mp_addr m) (mp_length m)) 0) as [V|V]; cbn [negb]; cbv iota.
        -- kstep. simpl. split; [|lia]. split; [done|]. simpl. split; [lia|]. split; [|split; [|lia]].
           ++ intros j n Hj Hn. destruct (decide (j = i)) as [->|]; [|apply (Hap j); [lia|done]].
              assert (n = m) as -> by (destruct Hn, Hu; congruence).
              unfold apart. pose proof (vasIntersect_overlap a l (mp_addr m) (mp_length m)). lia.
           ++ destruct He as [[? He]|?]; [left|by right]. split; [done|]. intros j Hj.
              destruct (decide (j = i)) as [->|]; [eauto|]. apply He. lia.
        -- kstep. apply HN. left. apply vasIntersect_overlap in V; [|lia..].
           exists (mp_addr m), (mp_length m). split; [|done]. apply table_lookup; eauto.
    + kstep. assert (i = 16) as -> by lia. destruct He as [[_ He]|[? (m & Hm & Hf)]].
      * by destruct Hsz; [lia|apply table_full].
      * apply (HS e m); [done..| |by apply Hsz]. intros (b & k & Hb & ? & ?).
        apply table_lookup in Hb as (j & n & Hn & <- & <-); [|done].
        destruct (Hap j n); [|done|lia..]. pose proof (get_mapping_range _ _ _ Hok (proj1 Hn)). lia.
  - split; [done|]. simpl. split; [lia|]. split; [|split; [|lia]].
    + intros j m Hj [Hm _]. pose proof (get_mapping_range _ _ _ Hok Hm). lia.
    + left. split; [done|]. intros j Hj. lia.
  - change MAX_WMMAP_INFO with 16. simpl. lia.
Qed.

(** The process after duplicateFd: only its descriptors may have changed. *)
Lemma duplicated_proc s p pr fd fd' s1 :
  k_procs s !! p = Some pr -> duplicated s p pr fd fd' s1 ->
  exists v, k_procs s1 !! p = Some (set_p_ofile v pr) /\ k_mem s1 = k_mem s /\
    (fd' = -1 \/ exists f, nthZ (p_ofile pr) fd = Some (Some f) /\ nthZ v fd' = Some (Some f)).
Proof.
  intros Hp [[-> ->]|(f & n & Hf & Hn & -> & ->)].
  - exists (p_ofile pr). split; [by destruct pr|]. auto.
  - exists (<[n := Some f]> (p_ofile pr)). simpl. rewrite list_lookup_alter_eq, Hp.
    split; [done|]. split; [done|]. right. exists f. split; [done|].
    unfold nthZ. zb. rewrite Nat2Z.id. apply list_lookup_insert_eq. by eapply lookup_lt_Some.
Qed.

(** What wmap leaves behind when it succeeds. *)
Definition wmap_added (pr pr' : proc) (addr length flags fd : Z) : Prop :=
  regions pr' = <[addr := length]> (regions pr) /\
  exists i fd', used pr' i (mkMapping addr length 0 (if has flags MAP_ANONYMOUS then 0 else 1) fd') /\
    (fd' = -1 \/ exists f, nthZ (p_ofile pr) fd = Some (Some f) /\ nthZ (p_ofile pr') fd' = Some (Some f)).

(** C16. wmap refines the insertion of an interval into a finite map of
    disjoint intervals: for a page-aligned range inside the mapping area it
    returns the address and adds exactly that mapping, with no page loaded, when
    the range overlaps no mapping and the table is not full; otherwise it
    returns -1 and the mappings are unchanged.  The existing entries stay as
    they are, the table stays well formed and memory is not touched. *)
Theorem wmap_refines s p pr addr length flags fd :
  k_cur s = Some p -> k_procs s !! p = Some pr -> table_wf pr -> files_ok s pr ->
  LK_ftable ∉ k_locks s -> region_ok addr length ->
  exists r s' pr', wmap addr length flags fd s = Ret r s' /\ k_procs s' !! p = Some pr' /\
    table_wf pr' /\ k_mem s' = k_mem s /\ (forall j m, used pr j m -> used pr' j m) /\
    ((r = addr /\ ~ overlaps (regions pr) addr length /\ size (regions pr) <> 16%nat /\
        wmap_added pr pr' addr length flags fd) \/
     (r = u32 FAILED /\ (overlaps (regions pr) addr length \/ size (regions pr) = 16%nat) /\
        regions pr' = regions pr)).
Proof.
  intros Hc Hp Hwf Hf Hl Hr. apply wp_inv'. unfold wmap. kstep. eapply wp_myproc; [done|].
  kstep. apply wp_mono with (Q := fun fd' s1 => duplicated s p pr fd fd' s1).
  { destruct (0 <=? fd); [|kstep; by left]. by eapply wp_duplicateFd. }
  intros fd' s1 (v & Hp1 & Hm1 & Hfd)%duplicated_proc; [|done].
  pose proof (table_wf_ofile v pr Hwf) as Hwf1. kstep. eapply wp_wmap_scan; [done..| |].
  - rewrite regions_ofile. intros Hn. kstep. exists (set_p_ofile v pr).
    split; [done|]. split; [done|]. split; [done|]. split; [done|]. right.
    rewrite regions_ofile. split; [done|]. split; [exact Hn|done].
  - rewrite regions_ofile. intros e m Hm Hfree Hno Hsz. change (get_mapping pr e = Some m) in Hm. pose proof (get_mapping_range _ _ _ (tw_arrays _ Hwf) Hm).
    zb. kstep. eapply wp_getproc; [done|]. kstep. apply wp_updateWmap; [done|]. simpl negb. cbv iota.
    kstep. simpl. rewrite list_lookup_alter_eq, Hp1. eexists. split; [done|].
    destruct (table_add (set_p_ofile v pr) e m addr length 0 (if has flags MAP_ANONYMOUS then 0 else 1) fd'
      (wi_total_mmaps (p_wmapInfo (set_p_ofile v pr)) + 1)) as [Hwf' HR];
      [done|done|done|done|by rewrite regions_ofile|done|]. rewrite regions_ofile in HR.
    split; [done|]. split; [done|].
    pose proof (tw_arrays _ Hwf1) as Hok1. split.
    { intros j n Hn. apply used_set; [done..|]. right. split; [|done]. intros ->.
      destruct Hn as [Hn Hnf]. congruence. }
    left. split; [done|]. split; [exact Hno|]. split; [exact Hsz|]. split; [exact HR|].
    exists e, fd'. split; [|exact Hfd].
    apply used_set; [done..|]. left. unfold region_ok in Hr. rewrite s32_small by lia.
    split; [done|]. split; [done|]. apply is_free_false. simpl. lia.
Qed.

End ops.

(** ** The argument check of sys_wmap *)

(** C17. sys_wmap accepts exactly the fixed, shared, page-aligned, non-empty
    ranges inside the mapping area, and besides them the ranges above it whose
    end wraps around 32 bits to an address of at most 0x80000000. *)
Theorem wmap_args_ok_iff addr length flags :
  0 <= addr < 4294967296 -> length < 2147483648 ->
  wmap_args_ok addr length flags = true <->
  has flags MAP_FIXED = true /\ has flags MAP_SHARED = true /\
  (region_ok addr length \/
   (addr mod 4096 = 0 /\ 0 < length /\ 4294967296 <= addr + length <= 4294967296 + 0x80000000)).
Proof.
  intros Ha Hl. unfold wmap_args_ok, region_ok. rewrite !andb_true_iff, negb_true_iff, orb_false_iff.
  rewrite Z.ltb_ge, Z.ltb_ge, Z.eqb_eq, Z.ltb_lt. change PGSIZE with 4096.
  destruct (Z.le_gt_cases length 0); [split; [lia|intros (_ & _ & [?|?]); lia]|].
  destruct (Z.lt_ge_cases (addr + length) 4294967296) as [Hs|Hs].
  - rewrite u32_small by lia. split; [intros; split_and!; try tauto; left; lia|].
    intros (? & ? & [?|?]); split_and!; try done; lia.
  - assert (u32 (addr + length) = addr + length - 4294967296) as ->.
    { unfold u32. rewrite <- (Z_mod_plus_full _ (-1) 4294967296).
      rewrite Z.mod_small; lia. }
    split; [intros; split_and!; try tauto; right; lia|].
    intros (? & ? & [?|?]); split_and!; try done; lia.
Qed.

(** ** A sample process

    The sample directory with a second page table for 0x60000000, whose first
    entry is given, and a mapping of two pages there. *)
Definition wmap_mem (entry : Z) : gmap Z Z :=
  st32 (st32 (sample_mem 0) 0x300600 0x303007) 0x303000 entry.

Definition wmap_proc (loaded backed fd : Z) : proc :=
  set_mapping 0x60000000 0x2000 loaded backed fd 1 0 (clear_wmap (sample_proc 0x1000)).

Definition wmap_state (entry loaded backed fd : Z) : kstate :=
  set_k_cur (Some 0%nat) (set_k_procs [wmap_proc loaded backed fd]
    (set_k_freelist 0x80200000 (set_k_mem (wmap_mem entry) zero_kstate))).

Lemma wmap_proc_wf loaded backed fd : table_wf (wmap_proc loaded backed fd).
Proof.
  destruct (get_mapping_is_Some (clear_wmap (sample_proc 0x1000)) 0) as [m Hm]; [done|lia|].
  apply (table_add _ 0 m); [apply table_wf_clear|done| | | |done].
  - injection Hm as <-. done.
  - done.
  - intros (b & k & Hb & _). apply table_lookup in Hb as (i & n & [Hn Hf] & _); [|apply table_wf_clear].
    apply is_free_false in Hf. destruct Hf. apply get_mapping_inv in Hn as (Ha & Hl & _).
    by apply nthZ_replicate in Ha, Hl.
Qed.

Section table_witnesses.
#[local] Existing Instance sample_image.

Lemma wmap_refines_witness :
  exists r s' pr', wmap 0x60004000 0x1000 (Z.lor MAP_ANONYMOUS 10) (-1) (wmap_state 0 0 0 (-1)) = Ret r s' /\
    k_procs s' !! 0%nat = Some pr' /\ table_wf pr'.
Proof.
  destruct (wmap_refines (wmap_state 0 0 0 (-1)) 0 (wmap_proc 0 0 (-1)) 0x60004000 0x1000
    (Z.lor MAP_ANONYMOUS 10) (-1)) as (r & s' & pr' & Hrun & Hp & Hwf & _).
  - reflexivity.
  - reflexivity.
  - apply wmap_proc_wf.
  - split; [reflexivity|]. intros i f Hi. apply lookup_replicate in Hi as [Hi _]. discriminate Hi.
  - apply not_elem_of_nil.
  - unfold region_ok. split_and!; try done.
  - exact (ex_intro _ r (ex_intro _ s' (ex_intro _ pr' (conj Hrun (conj Hp Hwf))))).
Defined.

Lemma wmap_args_ok_iff_witness :
  wmap_args_ok 0xC0000000 0x40001000 (Z.lor MAP_FIXED MAP_SHARED) = true /\
  ~ region_ok 0xC0000000 0x40001000.
Proof.
  split; [|unfold region_ok; lia].
  apply (wmap_args_ok_iff 0xC0000000 0x40001000 (Z.lor MAP_FIXED MAP_SHARED)); [lia|lia|].
  split; [done|]. split; [done|]. right. split; [done|]. lia.
Defined.

End table_witnesses.
