(* ===== verification/WmapUnmap.v ===== *)
(** * Removing a memory mapping (vm.c: dellocateAndUnmap, wunmap) *)

From S2P Require Import Prelude Mmu Mem Bytes State Kernel Cprintf Kalloc Vm VmSample VmAlloc Sched Sleeplock Bio Log FsInode Console FsFile Pipe File Wmap Proc Sysproc WmapTable.

Section unmap.
Context `{KernelImage}.

(** The pages of a mapping carry no copy-on-write reference. *)
Definition uncounted (s : kstate) (d q0 q1 : Z) : Prop :=
  forall q, q0 <= q < q1 -> has (pte_of (k_mem s) d (4096 * q)) PTE_P = true ->
    count_at (k_cow s) (PTE_ADDR (pte_of (k_mem s) d (4096 * q))) = 0.

(** A run that only changed memory and the free list. *)
Definition mem_only (s s' : kstate) : Prop := exists m f, s' = set_k_mem m (set_k_freelist f s).

Lemma mem_only_refl s : mem_only s s.
Proof. exists (k_mem s), (k_freelist s). by destruct s. Qed.

Lemma mem_only_trans s s1 s2 : mem_only s s1 -> mem_only s1 s2 -> mem_only s s2.
Proof. intros (m1 & f1 & ->) (m2 & f2 & ->). exists m2, f2. done. Qed.

Lemma mem_only_procs s s' : mem_only s s' -> k_procs s' = k_procs s.
Proof. by intros (m & f & ->). Qed.

Lemma mem_only_store s a v s' : mem_only s s' -> mem_only s (set_k_mem (st32 (k_mem s') a v) s').
Proof. intros (m & f & ->). by exists (st32 m a v), f. Qed.

(** One page of a mapping without a file, in a process that owns its pages. *)
Lemma wp_unmap_page_anon p pr i mp d s fl q0 q1 q (Q : Z + Z -> kstate -> Prop) s1 :
  k_procs s1 !! p = Some pr -> p_pgdir pr = d + KERNBASE -> get_mapping pr i = Some mp ->
  mp_backed mp = 0 -> we_is_child (p_wmapInfoExtra pr) = 0 ->
  dealloc_pre d s fl q0 q1 -> uncounted s d q0 q1 -> q0 <= q < q1 -> 0 <= q -> q1 <= 524288 ->
  unmapped d s fl q0 q s1 ->
  (forall s', is_Some (pte_slot (k_mem s) d (4096 * q)) -> mem_only s1 s' ->
     unmapped d s fl q0 (q + 1) s' -> Q (inl (4096 * q)) s') ->
  (pte_slot (k_mem s) d (4096 * q) = None ->
     Q (inl (u32 (PGADDR (PDX (4096 * q) + 1) 0 0 - PGSIZE))) s1) ->
  wp (unmap_page p i (4096 * q)) Q s1.
Proof.
  intros Hp Hd Hm Hb Hch Hpre Hcnt Hq H0 H1 Hu HQ HQ0. unfold unmap_page.
  kstep. eapply wp_getproc; [done|]. rewrite Hd. kstep. apply wp_walk_noalloc; [apply Hu|].
  rewrite (um_slot _ _ _ _ _ _ Hu). pose proof (vi_dir _ _ _ (dp_inv _ _ _ _ _ Hpre)) as Hwf.
  destruct (pte_slot (k_mem s) d (4096 * q)) as [a|] eqn:Ha; cbn [slot_ptr]; [|zb; kstep; by apply HQ0].
  destruct (pte_slot_frame _ _ _ _ Hwf Ha) as (f & _ & Hf & _ & Hfa & _).
  assert (KERNBASE <= a + KERNBASE < KERNBASE + PHYSTOP) as Hptr
    by (rewrite Hfa; apply dir_ptr; [done|apply PTX_range]).
  rewrite (proj2 (Z.eqb_neq _ 0)) by (unfold KERNBASE in *; lia).
  kstep. kstep; [done|]. rewrite Z.add_simpl_r. set (w := pte_of (k_mem s) d (4096 * q)).
  assert (ld32 (k_mem s1) a = w) as ->.
  { transitivity (pte_of (k_mem s1) d (4096 * q)).
    - unfold pte_of. by rewrite (um_slot _ _ _ _ _ _ Hu), Ha.
    - rewrite (um_pte _ _ _ _ _ _ Hu), decide_False by (rewrite vpn_page; lia). done. }
  destruct (has w PTE_P) eqn:HP; cbn [negb]; cbv iota.
  2:{ kstep. apply HQ; [done|apply mem_only_refl|]. apply unmapped_absent; [done|lia|lia|done]. }
  cbv zeta. pose proof (dp_nz _ _ _ _ _ Hpre q Hq HP) as Hnz. fold w in Hnz. zb.
  kstep. eapply wp_mapping_at; [done..|]. kstep. rewrite Hb. simpl. kstep. zb.
  assert (dead_page s d q = Some (PTE_ADDR w + KERNBASE)) as Hdp.
  { unfold dead_page. fold w. rewrite HP. unfold w. by rewrite Hcnt. }
  destruct (dealloc_pre_page _ _ _ _ _ _ _ Hpre Hq Hdp) as (Hok & Hnin & Hsep).
  destruct (vm_inv_kfree d s1 (dead_pages s d q0 q ++ fl) (PTE_ADDR w + KERNBASE)) as [Hi2 Hm2];
    [apply Hu|done|done|by rewrite (um_uses _ _ _ _ _ _ Hu)|].
  rewrite P2V_spec by (destruct (page_ok_frame _ Hok) as [(_ & ? & ?) _]; unfold PHYSTOP, KERNBASE in *; lia).
  simpl. kstep. eapply wp_kfree; [apply Hu|apply Hu|done|done|]. cbn zeta. intros _.
  kstep. kstep; [done|]. rewrite Z.add_simpl_r. kstep. apply HQ; [done| |].
  { apply mem_only_store. eexists _, _. by destruct s1. }
  eapply unmapped_store; [done|lia|lia|done|done| | | |done|done].
  - rewrite (dead_pages_app s d q0 q), dead_pages_one, Hdp by lia. done.
  - intros b Hbb. rewrite Hdp in Hbb. apply Hm2. intros E. apply Hbb. rewrite E, Z.sub_add. left.
  - rewrite Hdp. intros v ->%list_elem_of_singleton. by rewrite Z.add_simpl_r in *.
Qed.

(** The loop over a mapping. *)
Lemma wp_dellocate_loop p pr i mp d s fl q0 len (Q : Z -> kstate -> Prop) :
  let q1 := (4096 * q0 + len + 4095) / 4096 in
  k_procs s !! p = Some pr -> p_pgdir pr = d + KERNBASE -> get_mapping pr i = Some mp ->
  mp_backed mp = 0 -> we_is_child (p_wmapInfoExtra pr) = 0 ->
  dealloc_pre d s fl q0 q1 -> uncounted s d q0 q1 -> 0 <= q0 -> 0 < len -> 4096 * q0 + len <= KERNBASE ->
  (forall s', mem_only s s' -> unmapped d s fl q0 q1 s' -> Q SUCCESS s') ->
  wp (iter (S (Z.to_nat ((u32 (4096 * q0 + len) - 4096 * q0) / PGSIZE + 1)))
        (dellocate_body p (4096 * q0) len i) (4096 * q0)) Q s.
Proof.
  intros q1 Hp Hd Hm Hb Hch Hpre Hcnt H0 Hlen Hend HQ. unfold KERNBASE in Hend.
  assert (q0 <= q1 <= 524288) as [Hq01 Hq1] by (unfold q1; Z.div_mod_to_equations; lia).
  rewrite u32_small by lia.
  apply (wp_iter (fun a s' => exists q, a = 4096 * q /\ q0 <= q <= 524288 /\ mem_only s s' /\
      unmapped d s fl q0 (Z.min q q1) s')
    (fun a => Z.to_nat ((4096 * q0 + len - a + PGSIZE - 1) / PGSIZE))); [|exists q0|unfold PGSIZE; Z.div_mod_to_equations; lia].
  2:{ split_and!; try lia; [apply mem_only_refl|]. rewrite Z.min_l by lia. apply unmapped_0, Hpre. }
  intros a s1 (q & -> & Hq & Hmo & Hu). unfold dellocate_body. rewrite u32_small by lia.
  assert (4096 * q < 4096 * q0 + len <-> q < q1) as Hlt by (unfold q1; Z.div_mod_to_equations; lia).
  destruct (Z.ltb_spec (4096 * q) (4096 * q0 + len)) as [Hlo|Hlo].
  2:{ kstep. apply HQ; [done|]. by rewrite Z.min_r in Hu by lia. }
  rewrite Z.min_l in Hu by lia. kstep.
  assert (forall r, q < r <= 524288 -> (Z.to_nat ((4096 * q0 + len - 4096 * r + PGSIZE - 1) / PGSIZE) <
    Z.to_nat ((4096 * q0 + len - 4096 * q + PGSIZE - 1) / PGSIZE))%nat) as Hmu.
  { unfold PGSIZE. intros r Hr. Z.div_mod_to_equations. lia. }
  eapply (wp_unmap_page_anon p pr i mp d s fl q0 q1 q); [by rewrite (mem_only_procs _ _ Hmo)|done..|lia|lia|lia|done| |].
  - intros s2 _ Hmo2 Hu2. kstep. rewrite u32_small by (unfold PGSIZE; lia). split.
    + exists (q + 1). rewrite Z.min_l by lia.
      split_and!; [unfold PGSIZE; lia|lia|lia|by eapply mem_only_trans|done].
    + replace (4096 * q + PGSIZE) with (4096 * (q + 1)) by (unfold PGSIZE; lia). apply Hmu. lia.
  - intros Hnone. kstep. rewrite skip_table by lia. set (q' := (q / 1024 + 1) * 1024).
    assert (q < q' <= 524288) by (unfold q'; Z.div_mod_to_equations; lia). split; [|by apply Hmu].
    exists q'. split_and!; [lia|lia|lia|done|]. eapply unmapped_skip; [..|done]; [lia| |lia|lia].
    intros va Hva. apply (no_table _ _ q); [lia|done|]. fold q'. lia.
Qed.

(** A mapping without loaded pages leaves nothing to unmap. *)
Lemma unmapped_none d s fl q0 q1 :
  vm_inv d s fl -> 0 <= q0 <= q1 -> q1 <= 1048576 ->
  (forall q, q0 <= q < q1 -> has (pte_of (k_mem s) d (4096 * q)) PTE_P = false) ->
  unmapped d s fl q0 q1 s.
Proof.
  intros Hi Hq H1 Habs.
  assert (forall n, 0 <= n -> q0 + n <= q1 -> unmapped d s fl q0 (q0 + n) s) as Hn.
  { refine (natlike_ind _ _ _).
    - intros _. rewrite Z.add_0_r. by apply unmapped_0.
    - intros n Hn IH Hle. replace (q0 + Z.succ n) with (q0 + n + 1) by lia.
      apply unmapped_absent; [apply IH; lia|lia|lia|apply Habs; lia]. }
  specialize (Hn (q1 - q0)). replace (q0 + (q1 - q0)) with q1 in Hn by lia. apply Hn; lia.
Qed.

Lemma unmapped_irrel d s fl q0 q s' s2 :
  unmapped d s fl q0 q s' -> k_mem s2 = k_mem s' -> k_freelist s2 = k_freelist s' ->
  k_locks s2 = k_locks s' -> k_cow s2 = k_cow s' -> unmapped d s fl q0 q s2.
Proof.
  intros [H1 H2 H3 H4 H5 H6 H7 H8] Em Ef El Ec. split; rewrite ?Em, ?El, ?Ec; try done.
  by eapply vm_inv_irrel.
Qed.

(** What is required of the mapping [mp] that is removed: its pages are private
    to the process, and as many as the table says. *)
Record mapping_pre (s : kstate) (pr : proc) (mp : mapping) (d : Z) (fl : list Z) (q0 q1 : Z) : Prop := {
  mq_pgdir : p_pgdir pr = d + KERNBASE;
  mq_owner : we_is_child (p_wmapInfoExtra pr) = 0;
  mq_anon : mp_backed mp = 0;
  mq_dealloc : dealloc_pre d s fl q0 q1;
  mq_uncounted : uncounted s d q0 q1;
  mq_loaded : mp_loaded mp = Z.of_nat (length (dead_pages s d q0 q1));
}.

Lemma none_loaded s pr mp d fl q0 q1 q :
  mapping_pre s pr mp d fl q0 q1 -> mp_loaded mp <= 0 -> q0 <= q < q1 ->
  has (pte_of (k_mem s) d (4096 * q)) PTE_P = false.
Proof.
  intros Hpre Hl Hq. destruct (has (pte_of (k_mem s) d (4096 * q)) PTE_P) eqn:HP; [|done]. exfalso.
  rewrite (mq_loaded _ _ _ _ _ _ _ Hpre) in Hl. destruct (dead_pages s d q0 q1) as [|v vs] eqn:E; [|simpl in Hl; lia].
  rewrite (dead_pages_app s d q0 (q + 1)), (dead_pages_app s d q0 q (q + 1)), dead_pages_one in E by lia.
  unfold dead_page in E. rewrite HP, (mq_uncounted _ _ _ _ _ _ _ Hpre q Hq HP) in E. simpl in E.
  by destruct (dead_pages s d (q + 1) q1).
Qed.

(** dellocateAndUnmap on such a mapping. *)
Lemma wp_dellocate p pr i mp d fl (Q : Z -> kstate -> Prop) s :
  let q0 := mp_addr mp / 4096 in
  let q1 := (mp_addr mp + mp_length mp + 4095) / 4096 in
  k_procs s !! p = Some pr -> table_wf pr -> used pr i mp -> mapping_pre s pr mp d fl q0 q1 ->
  (forall s', mem_only s s' -> unmapped d s fl q0 q1 s' ->
     Q SUCCESS (set_k_procs (alter (set_mapping 0 (-1) 0 0 (-1) (wi_total_mmaps (p_wmapInfo pr) - 1) i) p
                  (k_procs s')) s')) ->
  wp (dellocateAndUnmap p (mp_addr mp) (mp_length mp) i) Q s.
Proof.
  intros q0 q1 Hp Hwf Hu Hpre HQ. destruct (tw_region _ Hwf _ _ Hu) as (Ha & Hal & Hl & He).
  pose proof (get_mapping_range _ _ _ (tw_arrays _ Hwf) (proj1 Hu)) as Hi.
  assert (mp_addr mp = 4096 * q0) as E by (unfold q0; Z.div_mod_to_equations; lia).
  unfold dellocateAndUnmap. kstep. eapply wp_mapping_at; [done|apply Hu|]. kstep.
  apply wp_mono with (Q := fun r s' => r = SUCCESS /\ mem_only s s' /\ unmapped d s fl q0 q1 s').
  - destruct (Z.ltb_spec 0 (mp_loaded mp)) as [Hn|Hn].
    + rewrite E. eapply (wp_dellocate_loop p pr i mp); rewrite <- ?E; try apply Hpre;
        [done|apply Hu|unfold q0; Z.div_mod_to_equations; lia|done|done|done].
    + kstep. split; [done|]. split; [apply mem_only_refl|].
      apply unmapped_none; [apply Hpre|unfold q0, q1; Z.div_mod_to_equations; lia..|].
      intros q Hq. by eapply none_loaded.
  - intros r s' (-> & Hmo & Hun). cbn [negb Z.eqb SUCCESS]. kstep.
    eapply wp_getproc; [by rewrite (mem_only_procs _ _ Hmo)|]. kstep. apply wp_updateWmap; [done|].
    simpl negb. cbv iota. kstep. by apply HQ.
Qed.

(** C18. wunmap refines the deletion of an interval: for an anonymous mapping
    with private pages that starts at [addr] it returns 0, the mapping is gone
    from the table, every page of the range is gone from the address space, the
    pages that were loaded are free again, each once, and nothing else of memory
    changes. *)
Theorem wunmap_removes s p pr i mp d fl :
  let q0 := mp_addr mp / 4096 in
  let q1 := (mp_addr mp + mp_length mp + 4095) / 4096 in
  k_cur s = Some p -> k_procs s !! p = Some pr -> table_wf pr -> used pr i mp ->
  mapping_pre s pr mp d fl q0 q1 ->
  exists s' pr', wunmap (mp_addr mp) s = Ret SUCCESS s' /\ k_procs s' !! p = Some pr' /\
    table_wf pr' /\ regions pr' = delete (mp_addr mp) (regions pr) /\ unmapped d s fl q0 q1 s'.
Proof.
  intros q0 q1 Hc Hp Hwf Hu Hpre. pose proof (tw_arrays _ Hwf) as Hok.
  pose proof (get_mapping_range _ _ _ Hok (proj1 Hu)) as Hi.
  destruct (table_remove pr i mp (wi_total_mmaps (p_wmapInfo pr) - 1) Hwf Hu eq_refl) as [Hwf' HR].
  assert (wi_total_mmaps (p_wmapInfo pr) <> 0) as Ht.
  { rewrite (tw_total _ Hwf). assert (regions pr !! mp_addr mp = Some (mp_length mp)) as HL
      by (apply table_lookup; eauto). intros E. assert (size (regions pr) = 0%nat) as E' by lia.
    apply map_size_empty_inv in E'. by rewrite E' in HL. }
  set (Q := fun r s' => r = SUCCESS /\ exists pr', k_procs s' !! p = Some pr' /\ table_wf pr' /\
    regions pr' = delete (mp_addr mp) (regions pr) /\ unmapped d s fl q0 q1 s').
  assert (wp (wunmap (mp_addr mp)) Q s) as (r & s' & Hrun & -> & pr' & HP)%wp_inv; [|by exists s', pr'].
  unfold wunmap. kstep. eapply wp_myproc; [done|]. kstep. eapply wp_getproc; [done|].
  rewrite (proj2 (Z.eqb_neq _ _) Ht).
  apply (wp_iter (fun j s' => s' = s /\ 0 <= j <= i) (fun j => Z.to_nat (16 - j)));
    [|split; [done|lia]|change MAX_WMMAP_INFO with 16; lia].
  intros j s1 [-> Hj]. unfold wunmap_body. change MAX_WMMAP_INFO with 16. zb.
  destruct (get_mapping_is_Some pr j Hok) as [m Hm]; [lia|]. kstep. eapply wp_mapping_at; [done..|].
  destruct (is_free m) eqn:F.
  { kstep. split; [|lia]. split; [done|]. destruct (decide (j = i)) as [->|]; [|lia].
    destruct Hu as [Hum Huf]. congruence. }
  destruct (tw_region _ Hwf j m (conj Hm F)) as (? & _ & ? & ?). rewrite u32_small by lia.
  destruct (Z.eqb_spec (mp_addr m) (mp_addr mp)) as [E|E].
  - assert (j = i) as -> by by apply (table_distinct _ Hwf j i m mp).
    assert (m = mp) as -> by (destruct Hu; congruence).
    kstep. apply (wp_dellocate p pr i mp d fl); [done..|]. intros s' Hmo Hun. kstep.
    split; [done|]. eexists. split; [cbn [k_procs set_k_procs]; rewrite list_lookup_alter_eq,
      (mem_only_procs _ _ Hmo), Hp; reflexivity|].
    split; [exact Hwf'|]. split; [exact HR|]. by eapply unmapped_irrel.
  - kstep. split; [|lia]. split; [done|]. destruct (decide (j = i)) as [->|]; [|lia].
    destruct Hu. congruence.
Qed.

(** wunmap of an address where no mapping starts changes nothing; it
    returns -1, but 0 when the process has no mapping at all. *)
Theorem wunmap_nothing s p pr addr :
  k_cur s = Some p -> k_procs s !! p = Some pr -> table_wf pr -> regions pr !! addr = None ->
  wunmap addr s = Ret (if decide (regions pr = ∅) then SUCCESS else FAILED) s.
Proof.
  intros Hc Hp Hwf Hno. pose proof (tw_arrays _ Hwf) as Hok. apply run_of_wp.
  unfold wunmap. kstep. eapply wp_myproc; [done|]. kstep. eapply wp_getproc; [done|].
  rewrite (tw_total _ Hwf). case_decide as E.
  { rewrite E, map_size_empty. simpl. by kstep. }
  rewrite (proj2 (Z.eqb_neq _ _)) by (intros E'; apply E, map_size_empty_inv; lia).
  apply (wp_iter (fun j s' => s' = s /\ 0 <= j) (fun j => Z.to_nat (16 - j)));
    [|split; [done|lia]|change MAX_WMMAP_INFO with 16; lia].
  intros j s1 [-> Hj]. unfold wunmap_body. change MAX_WMMAP_INFO with 16.
  destruct (Z.ltb_spec j 16); [|by kstep].
  destruct (get_mapping_is_Some pr j Hok) as [m Hm]; [lia|]. kstep. eapply wp_mapping_at; [done..|].
  destruct (is_free m) eqn:F; [kstep; split; [split; [done|lia]|lia]|].
  destruct (tw_region _ Hwf j m (conj Hm F)) as (? & _ & ? & ?). rewrite u32_small by lia.
  rewrite (proj2 (Z.eqb_neq _ _)); [kstep; split; [split; [done|lia]|lia]|].
  intros <-. rewrite (proj2 (table_lookup pr (mp_addr m) (mp_length m) Hwf)) in Hno; [done|].
  by exists j, m.
Qed.

End unmap.

Section unmap_witnesses.
#[local] Existing Instance sample_image.

Lemma wunmap_removes_witness :
  exists s' pr', wunmap 0x60000000 (wmap_state 0x202007 1 0 (-1)) = Ret SUCCESS s' /\
    k_procs s' !! 0%nat = Some pr' /\ table_wf pr' /\
    regions pr' = delete 0x60000000 (regions (wmap_proc 1 0 (-1))) /\
    unmapped 0x300000 (wmap_state 0x202007 1 0 (-1)) [0x80200000; 0x80201000] 0x60000 0x60002 s'.
Proof.
  apply (wunmap_removes (wmap_state 0x202007 1 0 (-1)) 0 (wmap_proc 1 0 (-1)) 0
    (mkMapping 0x60000000 0x2000 1 0 (-1)) 0x300000 [0x80200000; 0x80201000]).
  - reflexivity.
  - reflexivity.
  - apply wmap_proc_wf.
  - split; reflexivity.
  - split; [reflexivity|reflexivity|reflexivity|apply dealloc_preb_spec; vm_compute; reflexivity| |vm_compute; reflexivity].
    intros q _ _. reflexivity.
Defined.

Lemma wunmap_nothing_witness :
  wunmap 0x60004000 (wmap_state 0 0 0 (-1)) = Ret FAILED (wmap_state 0 0 0 (-1)).
Proof.
  assert (regions (wmap_proc 0 0 (-1)) !! 0x60004000 = None) as Hno by (vm_compute; reflexivity).
  assert (regions (wmap_proc 0 0 (-1)) <> ∅) as Hne.
  { intros E. assert (regions (wmap_proc 0 0 (-1)) !! 0x60000000 = Some 0x2000) as E2 by (vm_compute; reflexivity).
    rewrite E in E2. discriminate E2. }
  pose proof (wunmap_nothing (wmap_state 0 0 0 (-1)) 0 (wmap_proc 0 0 (-1)) 0x60004000
    eq_refl eq_refl (wmap_proc_wf 0 0 (-1)) Hno) as Hw.
  rewrite decide_False in Hw by exact Hne. exact Hw.
Defined.

End unmap_witnesses.
