(* ===== verification/WmapFault.v ===== *)
(** * Lazy allocation of mapped pages (trap.c's page fault, vm.c's allocateAndMap) *)

From S2P Require Import Prelude Mmu Mem Bytes State Kernel Cprintf Kalloc Vm VmSample VmAlloc UserMem Syscall Sched Sleeplock Bio Log FsInode Console FsFile Pipe File Wmap Proc Exec Sysfile Sysproc Trap WmapTable WmapUnmap.

Section fault.
Context `{KernelImage}.

(** The state apart from memory, free list and locks. *)
Definition core (s : kstate) : kstate := set_k_locks [] (set_k_mem ∅ (set_k_freelist 0 s)).

Lemma core_mem_only s s' : core s' = core s -> k_locks s' = k_locks s -> mem_only s s'.
Proof.
  intros Hc Hl. exists (k_mem s'), (k_freelist s'). destruct s, s'. simpl in *. unfold core in Hc.
  simpl in Hc. subst. by injection Hc as -> -> -> -> -> -> -> -> -> -> -> -> -> -> -> -> -> -> -> -> -> -> ->.
Qed.

Lemma mappages_core pgdir va size pa perm : Frame core (mappages pgdir va size pa perm).
Proof. frame_solve. Qed.

(** State [s'] after page [q] was loaded with the zeroed page [w]. *)
Record loaded (d : Z) (s : kstate) (fl : list Z) (q w : Z) (s' : kstate) (fl' : list Z) : Prop := {
  lo_inv : vm_inv d s' fl';
  lo_pte : forall va, pte_of (k_mem s') d va =
    if decide (vpn va = q) then user_pte w else pte_of (k_mem s) d va;
  lo_page : page_ok w /\ (w ∈ fl) /\ (w ∉ fl') /\ ~ uses (k_mem s') d (w - KERNBASE);
  lo_zero : forall i, 0 <= i < 4096 -> ld8 (k_mem s') (w - KERNBASE + i) = 0;
  lo_mem : forall a, ~ uses (k_mem s) d (frame_of a) -> frame_of a + KERNBASE ∉ fl ->
    ld8 (k_mem s') a = ld8 (k_mem s) a;
  lo_cow : k_cow s' = k_cow s;
  lo_locks : k_locks s' = k_locks s;
}.

Lemma loaded_irrel d s fl q w s' fl' s2 :
  loaded d s fl q w s' fl' -> k_mem s2 = k_mem s' -> k_freelist s2 = k_freelist s' ->
  k_locks s2 = k_locks s' -> k_cow s2 = k_cow s' -> loaded d s fl q w s2 fl'.
Proof.
  intros [H1 H2 H3 H4 H5 H6 H7] Em Ef El Ec. split; rewrite ?Em, ?El, ?Ec; try done.
  by eapply vm_inv_irrel.
Qed.

Lemma wmap_pte w : Z.lor (Z.lor (w - KERNBASE) (Z.lor (Z.lor PTE_W PTE_U) PTE_P)) PTE_P = user_pte w.
Proof. unfold user_pte. rewrite <- !Z.lor_assoc. done. Qed.

(** One page of an anonymous mapping when there is memory for it. *)
Lemma wp_map_page_anon p pr i mp d s w fl q endAddr (Q : Z + Z -> kstate -> Prop) :
  k_procs s !! p = Some pr -> p_pgdir pr = d + KERNBASE -> get_mapping pr i = Some mp -> 0 <= i < 16 ->
  mp_backed mp = 0 -> vm_inv d s (w :: fl) -> 0 <= q < 1048576 ->
  has (pte_of (k_mem s) d (4096 * q)) PTE_P = false ->
  (is_Some (pte_slot (k_mem s) d (4096 * q)) \/ fl <> []) ->
  (forall s' fl', mem_only s s' -> loaded d s (w :: fl) q w s' fl' ->
     Q (inl (4096 * q)) (set_k_procs (alter (set_mapping (mp_addr mp) (mp_length mp) (s32 (mp_loaded mp + 1))
        (mp_backed mp) (mp_fd mp) (wi_total_mmaps (p_wmapInfo pr)) i) p (k_procs s')) s')) ->
  wp (map_page p endAddr i (4096 * q)) Q s.
Proof.
  intros Hp Hd Hm Hi Hb Hinv Hq Habs Hmem HQ. unfold map_page. kstep.
  eapply wp_kalloc; [apply Hinv|apply Hinv|]. intros r Hz Hw Hn Hkm. zb.
  destruct (page_ok_frame w Hw) as [(Ha & Hlo' & Hhi') _].
  kstep. kstep; [apply page_ok_kptr in Hw; lia|]. fold (taken s w r).
  destruct (vm_inv_taken _ _ _ _ _ Hinv Hkm) as (Hinv2 & Hnu & Hpte2 & _).
  kstep. eapply wp_mapping_at; [done..|]. rewrite Hb. simpl. kstep. kstep. simpl.
  kstep. eapply wp_getproc; [done|]. rewrite Hd, V2P_spec by (unfold PHYSTOP, KERNBASE in *; lia).
  kstep. eapply wp_mono.
  { apply (wp_frame core); [apply mappages_core|].
    apply (wp_map_page d fl _ _ _ (fun r3 s3 => r3 = 0 /\ exists fl3, pt_ext d (taken s w r) fl s3 fl3 /\
      forall va, pte_of (k_mem s3) d va = if decide (vpn va = q) then user_pte w else pte_of (k_mem s) d va));
      [done|lia|done|unfold PHYSTOP in *; lia|done|by rewrite Hpte2| |].
    - intros s3 fl3 Hext Hpte _. split; [done|]. exists fl3. split; [done|]. intros va.
      by rewrite Hpte, Hpte2, wmap_pte.
    - intros s3 _ _ Hfl Hno. exfalso. destruct Hmem as [[a Hs]|]; [|done].
      destruct (same_tables (k_mem s) (k_mem (taken s w r)) d) as (_ & Hslot & _); [apply Hinv| |by rewrite Hslot, Hs in Hno].
      intros b Hbu. apply (taken_mem s w r Hw). intros E. apply (vi_sep _ _ _ Hinv _ Hbu).
      rewrite E, Z.sub_add. left. }
  intros r3 s3 [(-> & fl3 & Hext & Hpte) Hcore]. simpl.
  assert (mem_only s s3) as Hmo.
  { apply core_mem_only; [by rewrite Hcore|]. by rewrite (pe_locks _ _ _ _ _ Hext). }
  pose proof (mem_only_procs _ _ Hmo) as Hps.
  kstep. eapply wp_mapping_at; [by rewrite Hps|done|]. kstep. eapply wp_getproc; [by rewrite Hps|].
  kstep. apply wp_updateWmap; [done|]. simpl negb. cbv iota. kstep. apply (HQ s3 fl3); [done|].
  destruct (step_facts _ _ _ _ _ _ _ Hinv Hkm Hext) as (_ & Hn2 & Hsub & HU).
  assert (~ uses (k_mem s3) d (w - KERNBASE)) as Hnu3.
  { intros [Hx|Hx]%HU; [|by rewrite Z.sub_add in Hx].
    apply (vi_sep _ _ _ Hinv _ Hx). rewrite Z.sub_add. left. }
  split; [apply Hext|done|split_and!; [done|left|auto|done]| | |apply Hext|apply Hext].
  - intros j Hj. rewrite (pe_mem _ _ _ _ _ Hext); [by apply (taken_mem s w r Hw)|].
    by rewrite (frame_of_spec (w - KERNBASE)) by (done || lia).
  - intros a Hu1 Hu2. by apply (step_mem _ _ _ _ _ _ _ Hinv Hkm Hext).
Qed.

(** The mapping that covers an address, as the fault handler finds it. *)
Definition covers (m : mapping) (va : Z) : Prop := mp_addr m <= va < mp_addr m + mp_length m.

Lemma vasIntersect_covers pr i m va :
  table_wf pr -> used pr i m -> 0 <= va < 0x80000000 ->
  (vasIntersect va 1 (u32 (mp_addr m)) (mp_length m) =? 0) = bool_decide (~ covers m va).
Proof.
  intros Hwf Hu Hva. destruct (tw_region _ Hwf _ _ Hu) as (? & _ & ? & ?). rewrite u32_small by lia.
  pose proof (vasIntersect_overlap va 1 (mp_addr m) (mp_length m)) as Hv.
  destruct (Z.eqb_spec (vasIntersect va 1 (mp_addr m) (mp_length m)) 0); symmetry;
    [apply bool_decide_eq_true|apply bool_decide_eq_false]; unfold covers; lia.
Qed.

Lemma find_mapping_run pr va n i s :
  table_wf pr -> 0 <= va < 0x80000000 -> 0 <= i -> i + Z.of_nat n <= 16 ->
  exists o, find_mapping pr va n i s = Ret o s /\
    match o with
    | Some j => exists m, used pr j m /\ covers m va
    | None => forall j m, i <= j < i + Z.of_nat n -> used pr j m -> ~ covers m va
    end.
Proof.
  intros Hwf Hva. revert i. induction n as [|n IH]; intros i Hi Hn.
  { exists None. split; [done|]. lia. }
  destruct (get_mapping_is_Some pr i (tw_arrays _ Hwf)) as [m Hm]; [lia|].
  destruct (IH (i + 1)) as (o & Ho & Hspec); [lia..|]. simpl. rewrite Hm.
  erewrite bind_run by reflexivity. destruct (is_free m) eqn:F.
  - exists o. split; [done|]. destruct o; [done|]. intros j k Hj [Hk Hf].
    destruct (decide (j = i)) as [->|]; [congruence|]. apply (Hspec j); [lia|done].
  - rewrite (vasIntersect_covers pr i m va) by done. case_bool_decide as Hc; simpl.
    + exists o. split; [done|]. destruct o; [done|]. intros j k Hj Hk.
      destruct (decide (j = i)) as [->|]; [|apply (Hspec j); [lia|done]].
      by assert (k = m) as -> by (destruct Hk; congruence).
    + exists (Some i). split; [done|]. exists m. split; [done|]. unfold covers in *. lia.
Qed.

Lemma covers_unique pr i j m n va :
  table_wf pr -> used pr i m -> used pr j n -> covers m va -> covers n va -> i = j /\ m = n.
Proof.
  intros Hwf Hm Hn Cm Cn. destruct (decide (i = j)) as [->|Hij].
  - split; [done|]. destruct Hm, Hn. congruence.
  - unfold covers in *. destruct (tw_apart _ Hwf i j m n) as [?|?]; try done; lia.
Qed.

Lemma page_number va : 0 <= va < 4294967296 -> PGROUNDDOWN va = 4096 * vpn va.
Proof. intros Hva. rewrite PGROUNDDOWN_spec. unfold vpn. Z.div_mod_to_equations. lia. Qed.

(** The range that the handler passes for one page. *)
Lemma one_page va :
  0 <= va < 0x80000000 - 4096 \/ 0 <= va < 0x80000000 ->
  u32 (4096 * vpn va + PGROUNDUP_int PGSIZE) = 4096 * (vpn va + 1).
Proof.
  intros Hva. change (PGROUNDUP_int PGSIZE) with 4096. rewrite u32_small; [lia|].
  unfold vpn. rewrite u32_small by lia. Z.div_mod_to_equations. lia.
Qed.

(** C19. The first access to a page of an anonymous mapping below 0x7ffff000, with
    a free page, and another one for a page table where none exists: the fault
    handler returns with a zero-filled page of its own mapped at the faulting
    address, writable for the user, the mapping counts one loaded page more, and no
    other page, no other mapping and no other process changes.  On the last page
    of the mapping area the process is killed instead
    ([fault_last_page_kills]). *)
Theorem fault_loads_page s p pr i mp d w fl va :
  k_cur s = Some p -> k_procs s !! p = Some pr -> p_pgdir pr = d + KERNBASE -> table_wf pr ->
  used pr i mp -> covers mp va -> mp_backed mp = 0 -> va < 0x7ffff000 ->
  vm_inv d s (w :: fl) -> has (pte_of (k_mem s) d va) PTE_P = false ->
  is_Some (pte_slot (k_mem s) d va) \/ fl <> [] ->
  exists s' fl' pr', page_fault va s = Ret tt s' /\ loaded d s (w :: fl) (vpn va) w s' fl' /\
    k_procs s' = <[p := pr']> (k_procs s) /\ table_wf pr' /\ regions pr' = regions pr /\
    used pr' i (mkMapping (mp_addr mp) (mp_length mp) (s32 (mp_loaded mp + 1)) 0 (mp_fd mp)) /\
    p_killed pr' = p_killed pr.
Proof.
  intros Hc Hp Hd Hwf Hu Hcov Hb Hva Hinv Habs Hmem.
  destruct (tw_region _ Hwf _ _ Hu) as (Hlo & _ & ? & ?). unfold covers in Hcov.
  pose proof (get_mapping_range _ _ _ (tw_arrays _ Hwf) (proj1 Hu)) as Hi.
  destruct (table_touch pr i mp (s32 (mp_loaded mp + 1)) _ Hwf Hu eq_refl) as (Hwf' & HR & Hu').
  rewrite Hb in Hwf', HR, Hu'.
  assert (0 <= vpn va < 524287) as Hq by (unfold vpn; rewrite u32_small by lia; Z.div_mod_to_equations; lia).
  assert (vpn (4096 * vpn va) = vpn va) as Hvp by (apply vpn_page; lia).
  set (pr' := set_mapping (mp_addr mp) (mp_length mp) (s32 (mp_loaded mp + 1)) 0 (mp_fd mp)
    (wi_total_mmaps (p_wmapInfo pr)) i pr) in *.
  set (Q := fun (_ : unit) s' => exists fl', loaded d s (w :: fl) (vpn va) w s' fl' /\
    k_procs s' = <[p := pr']> (k_procs s)).
  assert (wp (page_fault va) Q s) as ([] & s' & Hrun & fl' & HL & HP)%wp_inv;
    [|exists s', fl', pr'; split_and!; done].
  unfold page_fault. kstep. eapply wp_myproc; [done|]. zb. cbn [orb]. cbv iota.
  kstep. eapply wp_getproc; [done|].
  destruct (find_mapping_run pr va (Z.to_nat MAX_WMMAP_INFO) 0 s Hwf) as (o & Ho & Hspec);
    [lia|lia|change MAX_WMMAP_INFO with 16; lia|]. kstep. eapply wp_of_run; [exact Ho|].
  destruct o as [j|]; [|destruct (Hspec i mp); [change MAX_WMMAP_INFO with 16; lia|done|done]].
  destruct Hspec as (n & Hn & Hcn). destruct (covers_unique pr j i n mp va) as [-> ->]; try done.
  kstep. unfold allocateAndMap. cbv zeta. rewrite page_number, one_page by lia. unfold KERNBASE. zb.
  apply (wp_iter (fun a s' => (a = 4096 * vpn va /\ s' = s) \/ (a = 4096 * (vpn va + 1) /\ Q tt s'))
    (fun a => if a =? 4096 * vpn va then 1%nat else 0%nat)); [|by left|zb; unfold PGSIZE; Z.div_mod_to_equations; lia].
  intros a s1 [[-> ->]|[-> HQ]]; unfold allocate_body; zb; [|kstep; simpl; by kstep].
  kstep. eapply (wp_map_page_anon p pr i mp d s w fl (vpn va)); try done; [apply Hu|lia|..].
  - by rewrite (pte_of_vpn _ _ _ va).
  - destruct Hmem as [Hs|]; [left|by right]. unfold pte_slot in *.
    by destruct (vpn_PDX_PTX (4096 * vpn va) va Hvp) as [-> ->].
  - intros s' fl' Hmo HL. kstep. rewrite u32_small by (unfold PGSIZE; lia). split; [|unfold PGSIZE; zb; lia]. right.
    split; [unfold PGSIZE; lia|]. exists fl'. rewrite Hb. fold pr'. split; [by eapply loaded_irrel|].
    cbn [k_procs set_k_procs]. rewrite (mem_only_procs _ _ Hmo). apply list_eq. intros j.
    destruct (decide (j = p)) as [->|Hj].
    + rewrite list_lookup_alter_eq, Hp, list_lookup_insert_eq by (by eapply lookup_lt_Some). done.
    + by rewrite list_lookup_alter_ne, list_lookup_insert_ne.
Qed.

(** An access inside the mapping area that no mapping covers is ignored:
    the handler returns without any change, the process is not killed and the
    access faults again. *)
Theorem fault_without_mapping_ignored s p pr va :
  k_cur s = Some p -> k_procs s !! p = Some pr -> table_wf pr -> 0x60000000 <= va < 0x80000000 ->
  (forall i m, used pr i m -> ~ covers m va) -> page_fault va s = Ret tt s.
Proof.
  intros Hc Hp Hwf Hva Hno. apply run_of_wp. unfold page_fault. kstep. eapply wp_myproc; [done|].
  zb. cbn [orb]. cbv iota. kstep. eapply wp_getproc; [done|].
  destruct (find_mapping_run pr va (Z.to_nat MAX_WMMAP_INFO) 0 s Hwf) as (o & Ho & Hspec);
    [lia|lia|change MAX_WMMAP_INFO with 16; lia|]. kstep. eapply wp_of_run; [exact Ho|].
  destruct o as [j|]; [|by kstep]. destruct Hspec as (m & Hm & Hcov). by destruct (Hno j m).
Qed.

(** Running the handler up to the mapping that it found. *)
Lemma fault_finds s p pr i mp va :
  k_cur s = Some p -> k_procs s !! p = Some pr -> table_wf pr -> used pr i mp -> covers mp va ->
  page_fault va s =
    (r ← allocateAndMap p va PGSIZE i;
     if negb (r =? 0) then cprintfln "Allocating and mapping failed";; set_killed p else mret tt) s.
Proof.
  intros Hc Hp Hwf Hu Hcov. destruct (tw_region _ Hwf _ _ Hu) as (Hlo & _ & ? & ?).
  assert (0x60000000 <= va < 0x80000000) as Hva by (unfold covers in Hcov; lia).
  pose proof (get_mapping_range _ _ _ (tw_arrays _ Hwf) (proj1 Hu)) as Hi.
  unfold page_fault, myproc, getproc. erewrite bind_run by (erewrite bind_run by reflexivity; rewrite Hc; reflexivity).
  zb. cbn [orb]. cbv iota. erewrite bind_run by (erewrite bind_run by reflexivity; rewrite Hp; reflexivity).
  destruct (find_mapping_run pr va (Z.to_nat MAX_WMMAP_INFO) 0 s Hwf) as (o & Ho & Hspec);
    [lia|lia|change MAX_WMMAP_INFO with 16; lia|]. erewrite bind_run by exact Ho.
  destruct o as [j|]; [|destruct (Hspec i mp); [change MAX_WMMAP_INFO with 16; lia|done|done]].
  destruct Hspec as (n & Hn & Hcn). by destruct (covers_unique pr j i n mp va) as [-> ->].
Qed.

(** Absent pages are passed over, whatever the mapping. *)
Lemma wp_unmap_page_absent p pr i d q (Q : Z + Z -> kstate -> Prop) s :
  k_procs s !! p = Some pr -> p_pgdir pr = d + KERNBASE -> pgdir_wf (k_mem s) d -> 0 <= q < 524288 ->
  has (pte_of (k_mem s) d (4096 * q)) PTE_P = false ->
  Q (inl (4096 * q)) s ->
  (pte_slot (k_mem s) d (4096 * q) = None ->
     Q (inl (u32 (PGADDR (PDX (4096 * q) + 1) 0 0 - PGSIZE))) s) ->
  wp (unmap_page p i (4096 * q)) Q s.
Proof.
  intros Hp Hd Hwf Hq Habs HQ HQ0. unfold unmap_page. kstep. eapply wp_getproc; [done|]. rewrite Hd.
  kstep. apply wp_walk_noalloc; [done|]. unfold pte_of in Habs.
  destruct (pte_slot (k_mem s) d (4096 * q)) as [a|] eqn:Ha; cbn [slot_ptr]; [|zb; kstep; by apply HQ0].
  destruct (pte_slot_frame _ _ _ _ Hwf Ha) as (f & _ & Hf & _ & Hfa & _).
  assert (KERNBASE <= a + KERNBASE < KERNBASE + PHYSTOP) as Hptr
    by (rewrite Hfa; apply dir_ptr; [done|apply PTX_range]).
  rewrite (proj2 (Z.eqb_neq _ 0)) by (unfold KERNBASE in *; lia).
  kstep. kstep; [done|]. rewrite Z.add_simpl_r, Habs. cbn [negb]. cbv iota. by kstep.
Qed.

(** The first kernel page, which is mapped to frame 0, stops the scan. *)
Lemma unmap_page_kernel p pr i d s :
  k_procs s !! p = Some pr -> p_pgdir pr = d + KERNBASE -> pgdir_wf (k_mem s) d ->
  has (pte_of (k_mem s) d KERNBASE) PTE_P = true -> PTE_ADDR (pte_of (k_mem s) d KERNBASE) = 0 ->
  panics (unmap_page p i KERNBASE) "kfree" s.
Proof.
  intros Hp Hd Hwf HP HA. unfold unmap_page. apply panics_after. eapply wp_getproc; [done|]. rewrite Hd.
  apply panics_after. apply wp_walk_noalloc; [done|].
  destruct (pte_slot (k_mem s) d KERNBASE) as [a|] eqn:Ha; [|unfold pte_of in HP; by rewrite Ha in HP].
  unfold pte_of in HP, HA. rewrite Ha in HP, HA. cbn [slot_ptr].
  destruct (pte_slot_frame _ _ _ _ Hwf Ha) as (f & _ & Hf & _ & Hfa & _).
  assert (KERNBASE <= a + KERNBASE < KERNBASE + PHYSTOP) as Hptr
    by (rewrite Hfa; apply dir_ptr; [done|apply PTX_range]).
  rewrite (proj2 (Z.eqb_neq _ 0)) by (unfold KERNBASE in *; lia).
  apply panics_after. apply wp_kload32; [done|]. rewrite Z.add_simpl_r, HP, HA. cbn [negb Z.eqb].
  apply panics_panic.
Qed.

(** The clean-up that allocateAndMap asks for starts at the end of the page and
    is as long as the address of the page. *)
Lemma wrong_cleanup_panics p pr i mp d s q :
  k_procs s !! p = Some pr -> p_pgdir pr = d + KERNBASE -> get_mapping pr i = Some mp -> 0 < mp_loaded mp ->
  pgdir_wf (k_mem s) d -> 0x60000 <= q < 0x7ffff ->
  (forall r, q < r < 524288 -> has (pte_of (k_mem s) d (4096 * r)) PTE_P = false) ->
  has (pte_of (k_mem s) d KERNBASE) PTE_P = true -> PTE_ADDR (pte_of (k_mem s) d KERNBASE) = 0 ->
  panics (dellocateAndUnmap p (4096 * (q + 1)) (4096 * q) i) "kfree" s.
Proof.
  intros Hp Hd Hm Hl Hwf Hq Habs HP HA. unfold dellocateAndUnmap. apply panics_after.
  eapply wp_mapping_at; [done..|]. apply panics_bind. zb. rewrite (u32_small (4096 * (q + 1) + 4096 * q)) by lia.
  apply (panics_iter (fun a s' => s' = s /\ exists r, a = 4096 * r /\ q < r <= 524288)
    (fun a => Z.to_nat ((KERNBASE - a) / 4096))).
  - intros a s1 (-> & r & -> & Hr). unfold dellocate_body. rewrite u32_small by lia. zb.
    destruct (decide (r = 524288)) as [->|Hne].
    { left. apply panics_bind. by eapply unmap_page_kernel. }
    right. kstep. eapply wp_unmap_page_absent; [done..|lia|apply Habs; lia| |].
    + kstep. rewrite u32_small by (unfold PGSIZE; lia). eexists. split; [done|]. split.
      * split; [done|]. exists (r + 1). unfold PGSIZE. lia.
      * unfold PGSIZE, KERNBASE. Z.div_mod_to_equations. lia.
    + intros _. kstep. rewrite skip_table by lia. eexists. split; [done|]. split.
      * split; [done|]. eexists. split; [done|]. Z.div_mod_to_equations. lia.
      * unfold KERNBASE. Z.div_mod_to_equations. lia.
  - split; [done|]. exists (q + 1). lia.
  - unfold KERNBASE, PGSIZE. Z.div_mod_to_equations. lia.
Qed.

(** C20. Running out of memory in the fault handler stops the kernel: when no page
    is free and a mapping that already has a loaded page faults below 0x7ffff000,
    with no user page present above the faulting one, the clean-up of
    allocateAndMap calls dellocateAndUnmap with the end of the page as its start
    and an address as its length.  It scans past the mapping up to the kernel's
    own mapping of frame 0, and there dellocateAndUnmap panics with its message
    "kfree", where the caller expects a failure that kills the process. *)
Theorem fault_out_of_memory_panics s p pr i mp d va :
  k_cur s = Some p -> k_procs s !! p = Some pr -> p_pgdir pr = d + KERNBASE -> table_wf pr ->
  used pr i mp -> covers mp va -> va < 0x7ffff000 -> 0 < mp_loaded mp ->
  vm_inv d s [] -> console_free s ->
  (forall r, vpn va < r < 524288 -> has (pte_of (k_mem s) d (4096 * r)) PTE_P = false) ->
  has (pte_of (k_mem s) d KERNBASE) PTE_P = true -> PTE_ADDR (pte_of (k_mem s) d KERNBASE) = 0 ->
  exists s', page_fault va s = Panic "kfree" s'.
Proof.
  intros Hc Hp Hd Hwf Hu Hcov Hva Hl Hinv Hlk Habs HP HA.
  rewrite (fault_finds s p pr i mp va) by done.
  destruct (tw_region _ Hwf _ _ Hu) as (Hlo & _ & ? & ?). unfold covers in Hcov.
  assert (0x60000 <= vpn va < 0x7ffff) as Hq by (unfold vpn; rewrite u32_small by lia; Z.div_mod_to_equations; lia).
  apply (panics_bind (allocateAndMap p va PGSIZE i)). unfold allocateAndMap. cbv zeta. rewrite page_number, one_page by lia.
  unfold KERNBASE at 1. zb. unfold iter. fold @iter. apply panics_bind. unfold allocate_body. zb.
  apply panics_bind. unfold map_page. apply panics_after. eapply wp_kalloc; [apply Hinv|apply Hinv|]. cbn.
  apply panics_after. apply wp_cprintfln; [done|done|]. intros o. apply panics_bind.
  rewrite s32_small by lia. eapply wrong_cleanup_panics; [done|done|apply Hu|done|apply Hinv|done..].
Qed.

(** The last page of the mapping area cannot be used: an access to it
    through a mapping that sys_wmap accepted kills the process. *)
Theorem fault_last_page_kills s p pr i mp va :
  k_cur s = Some p -> k_procs s !! p = Some pr -> table_wf pr -> used pr i mp -> covers mp va ->
  0x7ffff000 <= va -> console_free s ->
  exists s' o, page_fault va s = Ret tt s' /\ s' = set_k_procs (alter (set_p_killed 1) p (k_procs s)) (set_k_out o s).
Proof.
  intros Hc Hp Hwf Hu Hcov Hva Hlk. rewrite (fault_finds s p pr i mp va) by done.
  destruct (tw_region _ Hwf _ _ Hu) as (Hlo & _ & ? & ?). unfold covers in Hcov.
  assert (vpn va = 0x7ffff) as Hq by (unfold vpn; rewrite u32_small by lia; Z.div_mod_to_equations; lia).
  apply wp_inv_tt. kstep. unfold allocateAndMap. cbv zeta. rewrite page_number, one_page, Hq by lia.
  unfold KERNBASE at 1. zb. kstep. simpl negb. cbv iota. kstep. apply wp_cprintfln; [done|done|]. intros o. unfold set_killed. kstep. by exists o.
Qed.

End fault.

Section fault_witnesses.
#[local] Existing Instance sample_image.

Lemma wmap_used loaded backed fd :
  used (wmap_proc loaded backed fd) 0 (mkMapping 0x60000000 0x2000 loaded backed fd).
Proof. split; reflexivity. Qed.

Lemma fault_loads_page_witness :
  exists s' fl' pr', page_fault 0x60001234 (wmap_state 0x202007 1 0 (-1)) = Ret tt s' /\
    loaded 0x300000 (wmap_state 0x202007 1 0 (-1)) [0x80200000; 0x80201000] 0x60001 0x80200000 s' fl' /\
    used pr' 0 (mkMapping 0x60000000 0x2000 2 0 (-1)).
Proof.
  destruct (fault_loads_page (wmap_state 0x202007 1 0 (-1)) 0 (wmap_proc 1 0 (-1)) 0
    (mkMapping 0x60000000 0x2000 1 0 (-1)) 0x300000 0x80200000 [0x80201000] 0x60001234)
    as (s' & fl' & pr' & Hrun & HL & _ & _ & _ & Hu & _).
  - reflexivity.
  - reflexivity.
  - reflexivity.
  - apply wmap_proc_wf.
  - apply wmap_used.
  - unfold covers. simpl. lia.
  - reflexivity.
  - lia.
  - apply vm_invb_spec. vm_compute. reflexivity.
  - vm_compute. reflexivity.
  - right. discriminate.
  - exact (ex_intro _ s' (ex_intro _ fl' (ex_intro _ pr' (conj Hrun (conj HL Hu))))).
Defined.

Lemma wmap_used_only loaded backed fd i m :
  used (wmap_proc loaded backed fd) i m -> mp_addr m = 0x60000000 /\ mp_length m = 0x2000.
Proof.
  intros [(_ & -> & _)|[_ [Hm Hf]]]%used_set; [done| |done|lia].
  apply is_free_false in Hf. destruct Hf. apply get_mapping_inv in Hm as (Ha & Hl & _).
  by apply nthZ_replicate in Ha, Hl.
Qed.

Lemma fault_without_mapping_ignored_witness :
  page_fault 0x70000000 (wmap_state 0 0 0 (-1)) = Ret tt (wmap_state 0 0 0 (-1)).
Proof.
  apply (fault_without_mapping_ignored (wmap_state 0 0 0 (-1)) 0 (wmap_proc 0 0 (-1)) 0x70000000).
  - reflexivity.
  - reflexivity.
  - apply wmap_proc_wf.
  - lia.
  - intros i m [Ha Hl]%wmap_used_only. unfold covers. lia.
Defined.

(** The sample without free pages and with the kernel's first page mapped. *)
Definition full_state : kstate :=
  set_k_freelist 0 (set_k_mem (st32 (st32 (wmap_mem 0x202007) 0x300800 0x304007) 0x304000 3)
    (wmap_state 0x202007 1 0 (-1))).

Lemma only_tables m d q :
  forallb (fun i => negb (has (pde m d i) PTE_P)) (seqZ 385 127) = true ->
  forallb (fun r => negb (has (pte_of m d (4096 * r)) PTE_P)) (seqZ 0x60001 1023) = true ->
  0x60000 < q < 524288 -> has (pte_of m d (4096 * q)) PTE_P = false.
Proof.
  intros Hd Ht Hq. destruct (Z.lt_ge_cases q 394240) as [Hlt|Hge].
  - apply negb_true_iff, (proj1 (forallb_forall _ _) Ht), list_elem_of_In, elem_of_seqZ. lia.
  - assert (PDX (4096 * q) = q / 1024) as E.
    { rewrite PDX_spec, u32_small by lia. Z.div_mod_to_equations. lia. }
    assert (has (pde m d (q / 1024)) PTE_P = false) as Hp.
    { apply negb_true_iff, (proj1 (forallb_forall _ _) Hd), list_elem_of_In, elem_of_seqZ.
      Z.div_mod_to_equations. lia. }
    unfold pte_of, pte_slot. by rewrite E, Hp.
Qed.

Lemma fault_out_of_memory_panics_witness :
  exists s', page_fault 0x60001000 full_state = Panic "kfree" s'.
Proof.
  apply (fault_out_of_memory_panics full_state 0 (wmap_proc 1 0 (-1)) 0
    (mkMapping 0x60000000 0x2000 1 0 (-1)) 0x300000 0x60001000).
  - reflexivity.
  - reflexivity.
  - reflexivity.
  - apply wmap_proc_wf.
  - apply wmap_used.
  - unfold covers. simpl. lia.
  - lia.
  - simpl. lia.
  - apply vm_invb_spec. vm_compute. reflexivity.
  - split; [apply not_elem_of_nil|reflexivity].
  - intros r Hr. change (vpn 0x60001000) with 0x60001 in Hr.
    apply only_tables; [vm_compute; reflexivity|vm_compute; reflexivity|lia].
  - vm_compute. reflexivity.
  - vm_compute. reflexivity.
Defined.

(** A mapping of the last page of the area. *)
Definition last_page_proc : proc :=
  set_mapping 0x7ffff000 0x1000 0 0 (-1) 1 0 (clear_wmap (sample_proc 0x1000)).
Definition last_page_state : kstate :=
  set_k_cur (Some 0%nat) (set_k_procs [last_page_proc] zero_kstate).

Lemma last_page_wf : table_wf last_page_proc.
Proof.
  destruct (get_mapping_is_Some (clear_wmap (sample_proc 0x1000)) 0) as [m Hm]; [done|lia|].
  apply (table_add _ 0 m); [apply table_wf_clear|done| | | |done].
  - injection Hm as <-. done.
  - done.
  - intros (b & k & Hb & _). apply table_lookup in Hb as (i & n & [Hn Hf] & _); [|apply table_wf_clear].
    apply is_free_false in Hf. destruct Hf. apply get_mapping_inv in Hn as (Ha & Hl & _).
    by apply nthZ_replicate in Ha, Hl.
Qed.

Lemma fault_last_page_kills_witness :
  exists s' o, page_fault 0x7ffff010 last_page_state = Ret tt s' /\
    s' = set_k_procs (alter (set_p_killed 1) 0%nat (k_procs last_page_state)) (set_k_out o last_page_state).
Proof.
  apply (fault_last_page_kills last_page_state 0 last_page_proc 0 (mkMapping 0x7ffff000 0x1000 0 0 (-1)) 0x7ffff010).
  - reflexivity.
  - reflexivity.
  - apply last_page_wf.
  - split; reflexivity.
  - unfold covers. simpl. lia.
  - lia.
  - split; [apply not_elem_of_nil|reflexivity].
Defined.

End fault_witnesses.
