(* ===== verification/Spinlock.v ===== *)
(** * Spin locks on several CPUs (spinlock.c)

    The other files see spin locks from one CPU, as the list of locks it holds.
    Here the code of acquire, release, holding, pushcli and popcli runs on any
    number of CPUs that interleave between single reads and writes of a lock.
    The ghost list [held] of a CPU has the locks that acquire returned for and
    release was not called for yet.  The theorems show mutual exclusion, that
    interrupts are off while a lock is held, and that [holding] tells exactly
    whether the CPU holds the lock: what the one-CPU view assumes. *)

From S2P Require Import Prelude.

(** ** One CPU: nesting of cli *)

(** proc.h: [struct cpu], and the interrupt flag of its eflags. *)
Record cpu := mkCpu { c_ncli : Z; c_intena : bool; c_if : bool }.

Definition pushcli (c : cpu) : cpu :=
  mkCpu (c_ncli c + 1) (if c_ncli c =? 0 then c_if c else c_intena c) false.

(** [inl] is a panic. *)
Definition popcli (c : cpu) : string + cpu :=
  if c_if c then inl "popcli - interruptible"
  else if c_ncli c - 1 <? 0 then inl "popcli"
  else inr (mkCpu (c_ncli c - 1) (c_intena c) ((c_ncli c - 1 =? 0) && c_intena c)).

(** ** Locks and program counters *)

(** spinlock.h: [struct spinlock] without its debugging fields. *)
Record spinlock := mkSpinlock { sk_locked : bool; sk_cpu : option nat }.

Definition init_spinlock : spinlock := mkSpinlock false None.

(** Where a CPU is in acquire or release of a lock.  [holding] reads
    [lk->locked] in [AcqRead]/[RelRead] and [lk->cpu] in [AcqCmp]/[RelCmp]. *)
Inductive pc :=
| Run
| AcqRead (l : nat)
| AcqCmp (l : nat)
| Spin (l : nat)       (* at the xchg *)
| SetCpu (l : nat)     (* xchg returned 0 *)
| RelRead (l : nat)
| RelCmp (l : nat)
| ClearCpu (l : nat)   (* holding(lk) was true *)
| Unlock (l : nat)     (* at the movl *)
| PopCli
| Dead (msg : string). (* panicked *)

Record smp := mkSmp {
  g_cpu : nat -> cpu;
  g_pc : nat -> pc;
  g_held : nat -> list nat;
  g_lock : nat -> spinlock;
}.

Definition upd {A} (f : nat -> A) (i : nat) (x : A) : nat -> A :=
  fun j => if decide (j = i) then x else f j.

Definition set_cpu (i : nat) (c : cpu) (g : smp) : smp :=
  mkSmp (upd (g_cpu g) i c) (g_pc g) (g_held g) (g_lock g).
Definition goto (i : nat) (p : pc) (g : smp) : smp :=
  mkSmp (g_cpu g) (upd (g_pc g) i p) (g_held g) (g_lock g).
Definition set_held (i : nat) (ls : list nat) (g : smp) : smp :=
  mkSmp (g_cpu g) (g_pc g) (upd (g_held g) i ls) (g_lock g).
Definition set_lock (l : nat) (k : spinlock) (g : smp) : smp :=
  mkSmp (g_cpu g) (g_pc g) (g_held g) (upd (g_lock g) l k).

(** popcli on CPU [i], then continue at [p]. *)
Definition pop_to (i : nat) (p : pc) (g : smp) : smp :=
  match popcli (g_cpu g i) with
  | inl e => goto i (Dead e) g
  | inr c => goto i p (set_cpu i c g)
  end.

(** What a CPU may start when it is in neither function.  [Sti] is the
    scheduler's sti(), outside any pushcli. *)
Inductive action := Acquire (l : nat) | Release (l : nat) | Sti | Continue.

(** pushcli of acquire and the pushcli of its call of holding; pushcli of the
    call of holding in release. *)
Definition start (i : nat) (a : action) (g : smp) : option smp :=
  match a with
  | Acquire l => Some (goto i (AcqRead l) (set_cpu i (pushcli (pushcli (g_cpu g i))) g))
  | Release l => Some (goto i (RelRead l) (set_cpu i (pushcli (g_cpu g i)) g))
  | Sti => if c_ncli (g_cpu g i) =? 0
           then Some (set_cpu i (mkCpu 0 (c_intena (g_cpu g i)) true) g) else None
  | Continue => None
  end.

(** One step of CPU [i] inside acquire or release. *)
Definition continue (i : nat) (g : smp) : option smp :=
  match g_pc g i with
  | Run => None
  | AcqRead l =>
      Some (if sk_locked (g_lock g l) then goto i (AcqCmp l) g else pop_to i (Spin l) g)
  | AcqCmp l =>
      Some (if bool_decide (sk_cpu (g_lock g l) = Some i)
            then pop_to i (Dead "acquire") g else pop_to i (Spin l) g)
  | Spin l =>
      (* xchg(&lk->locked, 1) *)
      Some (if sk_locked (g_lock g l) then g
            else goto i (SetCpu l) (set_lock l (mkSpinlock true (sk_cpu (g_lock g l))) g))
  | SetCpu l =>
      Some (goto i Run (set_held i (l :: g_held g i)
              (set_lock l (mkSpinlock (sk_locked (g_lock g l)) (Some i)) g)))
  | RelRead l =>
      Some (if sk_locked (g_lock g l) then goto i (RelCmp l) g else pop_to i (Dead "release") g)
  | RelCmp l =>
      Some (if bool_decide (sk_cpu (g_lock g l) = Some i)
            then pop_to i (ClearCpu l) (set_held i (filter (fun k => k <> l) (g_held g i)) g)
            else pop_to i (Dead "release") g)
  | ClearCpu l =>
      Some (goto i (Unlock l) (set_lock l (mkSpinlock (sk_locked (g_lock g l)) None) g))
  | Unlock l =>
      Some (goto i PopCli (set_lock l (mkSpinlock false (sk_cpu (g_lock g l))) g))
  | PopCli => Some (pop_to i Run g)
  | Dead _ => None
  end.

Definition smp_step (i : nat) (a : action) (g : smp) : option smp :=
  match a with
  | Continue => continue i g
  | _ => match g_pc g i with Run => start i a g | _ => None end
  end.

(** Power on: interrupts off, no lock taken. *)
Definition smp_init : smp :=
  mkSmp (fun _ => mkCpu 0 false false) (fun _ => Run) (fun _ => []) (fun _ => init_spinlock).

Inductive reachable : smp -> Prop :=
| reach_init : reachable smp_init
| reach_step g g' i a : reachable g -> smp_step i a g = Some g' -> reachable g'.

(** ** The invariant *)

(** The lock that a CPU at [p] has taken but not yet entered in [held], or is
    about to give back. *)
Definition pc_owns (p : pc) (l : nat) : Prop := p = SetCpu l \/ p = ClearCpu l \/ p = Unlock l.

Definition owns (g : smp) (i l : nat) : Prop := l ∈ g_held g i \/ pc_owns (g_pc g i) l.

(** pushcli calls of acquire, release and holding that are still open. *)
Definition pc_depth (p : pc) : option Z :=
  match p with
  | Run => Some 0
  | AcqRead _ | AcqCmp _ => Some 2
  | Spin _ | SetCpu _ | RelRead _ | RelCmp _ | ClearCpu _ | Unlock _ | PopCli => Some 1
  | Dead _ => None
  end.

(** What holds of one CPU by itself: the nesting depth counts the locks held,
    interrupts are off at any depth above 0, and a lock that is being taken or
    given back is not in [held]. *)
Record cpu_inv (c : cpu) (p : pc) (held : list nat) : Prop := {
  ci_depth : forall n, pc_depth p = Some n -> c_ncli c = Z.of_nat (length held) + n;
  ci_low : Z.of_nat (length held) <= c_ncli c;
  ci_if : 0 < c_ncli c -> c_if c = false;
  ci_nodup : NoDup held;
  ci_fresh : forall l, p = Spin l \/ pc_owns p l -> l ∉ held;
}.

(** What holds of a lock: the word [locked] and the field [cpu] against the
    CPUs that own it. *)
Record lock_inv (g : smp) (l : nat) : Prop := {
  li_locked : sk_locked (g_lock g l) = true <-> exists i, owns g i l;
  li_excl : forall i j, owns g i l -> owns g j l -> i = j;
  li_cpu : forall i, sk_cpu (g_lock g l) = Some i <-> l ∈ g_held g i \/ g_pc g i = ClearCpu l;
}.

Definition smp_inv (g : smp) : Prop :=
  (forall i, cpu_inv (g_cpu g i) (g_pc g i) (g_held g i)) /\ (forall l, lock_inv g l).

Lemma upd_eq {A} (f : nat -> A) i x : upd f i x i = x.
Proof. unfold upd. by rewrite decide_True. Qed.

Lemma upd_ne {A} (f : nat -> A) i j x : j <> i -> upd f i x j = f j.
Proof. intros Hj. unfold upd. by rewrite decide_False. Qed.

(** ** Steps of one CPU *)

Lemma pop_ok c p held n q :
  cpu_inv c p held -> pc_depth p = Some n -> 0 < n -> pc_depth q = Some (n - 1) ->
  (forall l, q = Spin l \/ pc_owns q l -> l ∉ held) ->
  exists c', popcli c = inr c' /\ cpu_inv c' q held.
Proof.
  intros [Hd Hlo Hi Hn Hf] Hp Hpos Hq Hfr. specialize (Hd n Hp). unfold popcli.
  rewrite Hi by lia. zb. eexists. split; [done|]. split; simpl; [|lia| |done|done].
  - intros k Hk. rewrite Hq in Hk. injection Hk as <-. lia.
  - intros Hlt. zb. done.
Qed.

Lemma push_ok c p held n q k :
  cpu_inv c p held -> pc_depth p = Some n -> 0 <= n -> pc_depth q = Some k ->
  (forall l, q = Spin l \/ pc_owns q l -> l ∉ held) ->
  (k = n + 1 -> cpu_inv (pushcli c) q held) /\ (k = n + 2 -> cpu_inv (pushcli (pushcli c)) q held).
Proof.
  intros [Hd Hlo Hi Hn Hf] Hp Hpos Hq Hfr. specialize (Hd n Hp).
  split; intros ->; (split; simpl; [|lia|done|done|done]); intros m Hm; rewrite Hq in Hm;
    injection Hm as <-; lia.
Qed.

Lemma length_remove (l : nat) (ls : list nat) :
  NoDup ls -> l ∈ ls -> length (filter (fun k => k <> l) ls) = (length ls - 1)%nat.
Proof.
  induction 1 as [|x ls Hx Hnd IH]; [by intros ?%not_elem_of_nil|]. intros [->|Hin]%elem_of_cons.
  - rewrite filter_cons_False by (intros []; done). simpl. rewrite Nat.sub_0_r. f_equal.
    clear IH Hnd. induction ls as [|y ls IH]; [done|]. apply not_elem_of_cons in Hx as [? ?].
    rewrite filter_cons_True by done. f_equal. by apply IH.
  - rewrite filter_cons_True by (intros ->; done). simpl. rewrite IH by done.
    destruct ls; [by apply not_elem_of_nil in Hin|simpl; lia].
Qed.

(** ** Steps of the machine *)

(** Only CPU [i] moves. *)
Definition others_same (g g' : smp) (i : nat) : Prop :=
  forall j, j <> i -> g_cpu g' j = g_cpu g j /\ g_pc g' j = g_pc g j /\ g_held g' j = g_held g j.

(** CPU [i] stands to lock [l] as before. *)
Definition same_owner (g g' : smp) (i l : nat) : Prop :=
  (owns g' i l <-> owns g i l) /\
  (l ∈ g_held g' i \/ g_pc g' i = ClearCpu l <-> l ∈ g_held g i \/ g_pc g i = ClearCpu l).

Lemma owns_others g g' i j l : others_same g g' i -> j <> i -> owns g' j l <-> owns g j l.
Proof. intros Ho Hj. destruct (Ho j Hj) as (_ & Hp & Hh). unfold owns. by rewrite Hp, Hh. Qed.

Lemma lock_inv_same g g' i l :
  others_same g g' i -> g_lock g' l = g_lock g l -> same_owner g g' i l -> lock_inv g l -> lock_inv g' l.
Proof.
  intros Ho Hl [Hs Hc] [H1 H2 H3].
  assert (forall j, owns g' j l <-> owns g j l) as Hown.
  { intros j. destruct (decide (j = i)) as [->|]; [done|]. by eapply owns_others. }
  split; rewrite ?Hl.
  - rewrite H1. split; intros [j Hj]; exists j; by apply Hown.
  - intros j k. rewrite !Hown. apply H2.
  - intros j. rewrite H3. destruct (decide (j = i)) as [->|Hj]; [done|].
    destruct (Ho j Hj) as (_ & -> & ->). done.
Qed.

Lemma smp_inv_step g g' i :
  smp_inv g -> others_same g g' i -> cpu_inv (g_cpu g' i) (g_pc g' i) (g_held g' i) ->
  (forall l, lock_inv g' l \/ (g_lock g' l = g_lock g l /\ same_owner g g' i l)) -> smp_inv g'.
Proof.
  intros [Hc Hl] Ho Hi Hs. split.
  - intros j. destruct (decide (j = i)) as [->|Hj]; [done|]. destruct (Ho j Hj) as (-> & -> & ->). apply Hc.
  - intros l. destruct (Hs l) as [?|[? ?]]; [done|]. by eapply lock_inv_same.
Qed.

(** Simplify what a step makes of the state. *)
Ltac smp_simpl :=
  cbn [g_cpu g_pc g_held g_lock set_cpu goto set_held set_lock] in *;
  rewrite ?upd_eq in *.

Ltac others := intros ? ?; cbn; rewrite ?upd_ne by done; done.

(** A move of CPU [i] that changes no lock and keeps what it owns. *)
Lemma move_inv g i c p :
  smp_inv g -> (forall l, pc_owns p l <-> pc_owns (g_pc g i) l) ->
  (forall l, p = ClearCpu l <-> g_pc g i = ClearCpu l) ->
  cpu_inv c p (g_held g i) -> smp_inv (goto i p (set_cpu i c g)).
Proof.
  intros Hinv Hp Hcc Hc. apply (smp_inv_step g _ i); [done|others|by smp_simpl|].
  intros l. right. split; [done|]. unfold same_owner, owns. smp_simpl. by rewrite Hp, Hcc.
Qed.

Lemma cpu_inv_dead c p held e : cpu_inv c p held -> cpu_inv c (Dead e) held.
Proof. intros [? ? ? ? ?]. split; try done. intros l [?|[?|[?|?]]]; done. Qed.

Lemma pop_move g i n q :
  smp_inv g -> pc_depth (g_pc g i) = Some n -> 0 < n -> pc_depth q = Some (n - 1) ->
  (forall l, q = Spin l -> l ∉ g_held g i) ->
  (forall l, pc_owns q l <-> False) -> (forall l, pc_owns (g_pc g i) l <-> False) ->
  smp_inv (pop_to i q g).
Proof.
  intros Hinv Hp Hn Hq Hf Ho1 Ho2. destruct (pop_ok (g_cpu g i) (g_pc g i) (g_held g i) n q) as (c & Hc & Hci);
    [apply Hinv|done|done|done|intros l [?|?%Ho1]; [auto|done]|].
  unfold pop_to. rewrite Hc. apply move_inv; [done|intros l; by rewrite Ho1, Ho2| |done].
  intros l. split; intros E; exfalso.
  - apply (Ho1 l). right. by left.
  - apply (Ho2 l). right. by left.
Qed.

(** popcli never fails inside acquire or release; then the CPU stops. *)
Lemma pop_dead g i n e :
  smp_inv g -> pc_depth (g_pc g i) = Some n -> 0 < n -> (forall l, pc_owns (g_pc g i) l <-> False) ->
  smp_inv (pop_to i (Dead e) g) /\ g_pc (pop_to i (Dead e) g) i = Dead e.
Proof.
  intros Hinv Hp Hn Ho.
  destruct (pop_ok (g_cpu g i) (g_pc g i) (g_held g i) n (if n =? 1 then Run else PopCli)) as (c & Hc & Hci);
    [apply Hinv|done|done| | |].
  - destruct (Z.eqb_spec n 1) as [->|]; [done|]. destruct (g_pc g i); simpl in *; congruence || (injection Hp as <-; done).
  - intros l. destruct (n =? 1); intros [?|[?|[?|?]]]; done.
  - unfold pop_to. rewrite Hc. split; [|by smp_simpl].
    apply move_inv; [done| | |by eapply cpu_inv_dead].
    + intros l. rewrite Ho. split; [intros [?|[?|?]]; done|done].
    + intros l. split; [done|]. intros E. exfalso. apply (Ho l). right. by left.
Qed.

Lemma goto_inv g i p n :
  smp_inv g -> pc_depth (g_pc g i) = Some n -> pc_depth p = Some n ->
  (forall l, p <> Spin l) -> (forall l, pc_owns p l <-> False) -> (forall l, pc_owns (g_pc g i) l <-> False) ->
  smp_inv (goto i p g).
Proof.
  intros Hinv Hn Hp Hs Ho1 Ho2. apply (smp_inv_step g _ i); [done|others| |].
  - smp_simpl. destruct (proj1 Hinv i) as [Hd Hlo Hi Hnd _]. split; [|done|done|done|].
    + intros m Hm. apply Hd. congruence.
    + intros l [E|?%Ho1]; [by destruct (Hs l)|done].
  - intros l. right. split; [done|]. unfold same_owner, owns. smp_simpl. rewrite Ho1, Ho2. split; [done|].
    split; (intros [?|E]; [by left|]); exfalso; [apply (Ho1 l)|apply (Ho2 l)]; right; by left.
Qed.

Lemma held_locked g i l : smp_inv g -> l ∈ g_held g i -> sk_locked (g_lock g l) = true.
Proof. intros [_ Hl] Hin. apply (li_locked _ _ (Hl l)). exists i. by left. Qed.

Lemma held_cpu g i l : smp_inv g -> l ∈ g_held g i -> sk_cpu (g_lock g l) = Some i.
Proof. intros [_ Hl] Hin. apply (li_cpu _ _ (Hl l)). by left. Qed.

(** A lock [k] other than the one that CPU [i] works on. *)
Lemma same_owner_other g g' i l k :
  k <> l -> (k ∈ g_held g' i <-> k ∈ g_held g i) ->
  (forall p, p = g_pc g i \/ p = g_pc g' i -> ~ pc_owns p k) -> same_owner g g' i k.
Proof.
  intros Hk Hh Hp. pose proof (Hp _ (or_introl eq_refl)) as H1. pose proof (Hp _ (or_intror eq_refl)) as H2.
  unfold same_owner, owns. rewrite Hh. split; (split; (intros [?|E]; [by left|])); try done; exfalso.
  - apply H2. right. by left.
  - apply H1. right. by left.
Qed.

(** xchg found the lock free. *)
Lemma xchg_inv g i l :
  smp_inv g -> g_pc g i = Spin l -> sk_locked (g_lock g l) = false ->
  smp_inv (goto i (SetCpu l) (set_lock l (mkSpinlock true (sk_cpu (g_lock g l))) g)).
Proof.
  intros Hinv Hpc Hfree. pose proof (proj1 Hinv i) as Hci. rewrite Hpc in Hci.
  pose proof (proj2 Hinv l) as [H1 H2 H3].
  assert (forall j, ~ owns g j l) as Hno by (intros j Hj; rewrite (proj2 H1) in Hfree by eauto; done).
  apply (smp_inv_step g _ i); [done|others| |].
  - smp_simpl. destruct Hci as [Hd Hlo Hi Hnd Hf]. split; [exact Hd|done|done|done|].
    intros k [?|[[= ->]|[?|?]]]; try done. apply Hf. by left.
  - intros k. destruct (decide (k = l)) as [->|Hk]; [left|].
    + assert (forall j, owns (goto i (SetCpu l) (set_lock l (mkSpinlock true (sk_cpu (g_lock g l))) g)) j l -> j = i) as Hu.
      { intros j Hj. destruct (decide (j = i)); [done|]. exfalso. apply (Hno j). revert Hj.
        unfold owns. cbn. by rewrite upd_ne. }
      split; smp_simpl.
      * split; [|done]. intros _. exists i. right. cbn. rewrite upd_eq. by left.
      * intros j j' ->%Hu ->%Hu. done.
      * intros j. simpl. rewrite H3. split; (intros [?|E]; [by left|]); exfalso.
        -- apply (Hno j). right. right. by left.
        -- destruct (decide (j = i)) as [->|Hj]; [by rewrite upd_eq in E|]. rewrite upd_ne in E by done.
           apply (Hno j). right. right. by left.
    + right. split; [cbn; by rewrite upd_ne|]. apply (same_owner_other _ _ _ l); [done|done|].
      cbn. rewrite upd_eq, Hpc. intros p [->| ->] [E|[E|E]]; congruence.
Qed.

(** acquire returns. *)
Lemma set_cpu_inv g i l :
  smp_inv g -> g_pc g i = SetCpu l ->
  smp_inv (goto i Run (set_held i (l :: g_held g i) (set_lock l (mkSpinlock (sk_locked (g_lock g l)) (Some i)) g))).
Proof.
  intros Hinv Hpc. pose proof (proj1 Hinv i) as Hci. rewrite Hpc in Hci.
  pose proof (proj2 Hinv l) as [H1 H2 H3]. assert (owns g i l) as Hown by (right; left; done).
  apply (smp_inv_step g _ i); [done|others| |].
  - smp_simpl. destruct Hci as [Hd Hlo Hi Hnd Hf]. specialize (Hd 1 eq_refl).
    split; [|simpl; lia|done| |intros k [?|[?|[?|?]]]; done].
    + intros n [= <-]. simpl. lia.
    + constructor; [|done]. apply Hf. right. by left.
  - intros k. destruct (decide (k = l)) as [->|Hk]; [left|].
    + match goal with |- lock_inv ?g' _ => assert (forall j, owns g' j l <-> j = i) as Hu end.
      { intros j. unfold owns. cbn. destruct (decide (j = i)) as [->|Hj].
        - rewrite !upd_eq. split; [done|]. intros _. left. left.
        - rewrite !upd_ne by done. split; [|done]. intros Ho. by rewrite (H2 i j). }
      split; [|by intros j j' ->%Hu ->%Hu|].
      * cbn. rewrite upd_eq. cbn. rewrite H1. split; intros [j Hj]; [exists i; by apply Hu|exists i; done].
      * intros j. cbn. rewrite upd_eq. cbn. destruct (decide (j = i)) as [->|Hj].
        -- rewrite !upd_eq. split; [|done]. intros _. left. left.
        -- rewrite !upd_ne by done. split; [congruence|]. intros Ho%H3. assert (owns g j l).
           { apply H3 in Ho as [?|?]; [by left|right; right; by left]. } by destruct Hj; rewrite (H2 i j).
    + right. split; [cbn; by rewrite upd_ne|]. apply (same_owner_other _ _ _ l); [done| |].
      * cbn. rewrite upd_eq, elem_of_cons. split; [intros [?|?]; done|by right].
      * cbn. rewrite upd_eq, Hpc. intros p [->| ->] [E|[E|E]]; congruence.
Qed.

(** holding was true in release. *)
Lemma release_inv g i l :
  smp_inv g -> g_pc g i = RelCmp l -> sk_cpu (g_lock g l) = Some i ->
  l ∈ g_held g i /\
  smp_inv (pop_to i (ClearCpu l) (set_held i (filter (fun k => k <> l) (g_held g i)) g)).
Proof.
  intros Hinv Hpc Hcpu. pose proof (proj1 Hinv i) as Hci. rewrite Hpc in Hci.
  pose proof (proj2 Hinv l) as [H1 H2 H3].
  assert (l ∈ g_held g i) as Hin by (apply H3 in Hcpu as [?|?]; congruence).
  split; [done|]. destruct Hci as [Hd Hlo Hi Hnd Hf]. specialize (Hd 1 eq_refl).
  pose proof (length_remove l _ Hnd Hin) as Hlen.
  assert (0 < length (g_held g i))%nat by (destruct (g_held g i); [by apply not_elem_of_nil in Hin|simpl; lia]).
  unfold pop_to. cbn. unfold popcli. rewrite Hi by lia. zb.
  apply (smp_inv_step g _ i); [done|others| |].
  - smp_simpl. split; simpl.
    + intros n [= <-]. lia.
    + lia.
    + intros Hlt. zb. done.
    + by apply NoDup_filter.
    + intros k [?|[?|[[= ->]|?]]]; try done. rewrite list_elem_of_filter. by intros [? _].
  - intros k. right. split; [done|]. unfold same_owner, owns, pc_owns. smp_simpl. rewrite Hpc, list_elem_of_filter.
    assert (k ∈ g_held g i -> (k <> l /\ k ∈ g_held g i) \/ ClearCpu l = ClearCpu k) as Hsplit.
    { intros Hk. destruct (decide (k = l)) as [->|]; [by right|by left]. }
    split; split.
    + intros [[_ ?]|[?|[[= <-]|?]]]; by left.
    + intros [[?|?]%Hsplit|[?|[?|?]]]; try done; [by left|right; right; by left].
    + intros [[_ ?]|[= <-]]; by left.
    + intros [?%Hsplit|?]; done.
Qed.

Lemma clear_cpu_inv g i l :
  smp_inv g -> g_pc g i = ClearCpu l ->
  smp_inv (goto i (Unlock l) (set_lock l (mkSpinlock (sk_locked (g_lock g l)) None) g)).
Proof.
  intros Hinv Hpc. pose proof (proj1 Hinv i) as Hci. rewrite Hpc in Hci.
  pose proof (proj2 Hinv l) as [H1 H2 H3]. assert (owns g i l) as Hown by (right; right; left; done).
  assert (l ∉ g_held g i) as Hnin by (apply (ci_fresh _ _ _ Hci); right; right; left; done).
  apply (smp_inv_step g _ i); [done|others| |].
  - smp_simpl. destruct Hci as [Hd Hlo Hi Hnd Hf]. split; [exact Hd|done|done|done|].
    intros k [?|[?|[?|[= ->]]]]; done.
  - intros k. destruct (decide (k = l)) as [->|Hk]; [left|].
    + match goal with |- lock_inv ?g' _ => assert (forall j, owns g' j l <-> owns g j l) as Hu end.
      { intros j. destruct (decide (j = i)) as [->|Hj]; [|unfold owns; cbn; by rewrite upd_ne].
        split; [done|]. intros _. right. cbn. rewrite upd_eq. right. by right. }
      split; cbn; rewrite ?upd_eq; cbn.
      * rewrite H1. split; intros [j Hj]; exists j; by apply Hu.
      * intros j j'. rewrite !Hu. apply H2.
      * intros j. split; [done|]. intros Hx. exfalso. destruct (decide (j = i)) as [->|Hj].
        -- rewrite upd_eq in Hx. by destruct Hx.
        -- rewrite upd_ne in Hx by done. apply Hj. apply H2; [|done].
           destruct Hx as [?|?]; [by left|right; right; by left].
    + right. split; [cbn; by rewrite upd_ne|]. apply (same_owner_other _ _ _ l); [done|done|].
      cbn. rewrite upd_eq, Hpc. intros p [->| ->] [E|[E|E]]; congruence.
Qed.

Lemma unlock_inv g i l :
  smp_inv g -> g_pc g i = Unlock l ->
  smp_inv (goto i PopCli (set_lock l (mkSpinlock false (sk_cpu (g_lock g l))) g)).
Proof.
  intros Hinv Hpc. pose proof (proj1 Hinv i) as Hci. rewrite Hpc in Hci.
  pose proof (proj2 Hinv l) as [H1 H2 H3]. assert (owns g i l) as Hown by (right; right; right; done).
  assert (l ∉ g_held g i) as Hnin by (apply (ci_fresh _ _ _ Hci); right; right; right; done).
  apply (smp_inv_step g _ i); [done|others| |].
  - smp_simpl. destruct Hci as [Hd Hlo Hi Hnd Hf]. split; [exact Hd|done|done|done|].
    intros k [?|[?|[?|?]]]; done.
  - intros k. destruct (decide (k = l)) as [->|Hk]; [left|].
    + match goal with |- lock_inv ?g' _ => assert (forall j, ~ owns g' j l) as Hu end.
      { intros j Ho. destruct (decide (j = i)) as [->|Hj].
        - unfold owns in Ho. cbn in Ho. rewrite upd_eq in Ho. by destruct Ho as [?|[?|[?|?]]].
        - apply Hj, H2; [|done]. unfold owns in *. cbn in Ho. by rewrite upd_ne in Ho. }
      split; cbn; rewrite ?upd_eq; cbn.
      * split; [done|]. intros [j Hj]. by apply Hu in Hj.
      * intros j j' Hj. by apply Hu in Hj.
      * intros j. rewrite H3. destruct (decide (j = i)) as [->|Hj].
        -- rewrite upd_eq, Hpc. split; (intros [?|?]; done).
        -- by rewrite upd_ne.
    + right. split; [cbn; by rewrite upd_ne|]. apply (same_owner_other _ _ _ l); [done|done|].
      cbn. rewrite upd_eq, Hpc. intros p [->| ->] [E|[E|E]]; congruence.
Qed.

Lemma start_inv g i a g' : smp_inv g -> g_pc g i = Run -> start i a g = Some g' -> smp_inv g'.
Proof.
  intros Hinv Hpc Hs. pose proof (proj1 Hinv i) as Hci. rewrite Hpc in Hci.
  assert (forall p l, p = AcqRead l \/ p = RelRead l -> forall k, p = Spin k \/ pc_owns p k -> k ∉ g_held g i) as Hf
    by (intros p l [->| ->] k [?|[?|[?|?]]]; done).
  destruct a as [l|l| |]; simpl in Hs; [injection Hs as <-|injection Hs as <-| |done].
  - apply move_inv; [done|rewrite Hpc; intros k; split; intros [?|[?|?]]; done|by rewrite Hpc|].
    eapply (push_ok _ Run _ 0 _ 2); [done|done|lia|done|by apply (Hf _ l); left|done].
  - apply move_inv; [done|rewrite Hpc; intros k; split; intros [?|[?|?]]; done|by rewrite Hpc|].
    eapply (push_ok _ Run _ 0 _ 1); [done|done|lia|done|by apply (Hf _ l); right|done].
  - destruct (Z.eqb_spec (c_ncli (g_cpu g i)) 0) as [E|]; [|done]. injection Hs as <-.
    apply (smp_inv_step g _ i); [done|others| |intros l; by right].
    smp_simpl. rewrite Hpc. destruct Hci as [Hd Hlo Hi Hnd Hf']. split; simpl; [|lia|lia|done|done].
    intros n Hn. rewrite <- (Hd n Hn). done.
Qed.

Lemma continue_inv g i g' : smp_inv g -> continue i g = Some g' -> smp_inv g'.
Proof.
  intros Hinv Hs. unfold continue in Hs.
  destruct (g_pc g i) eqn:Hpc; try done; injection Hs as <-;
    try (assert (forall k, pc_owns (g_pc g i) k <-> False) as Ho by (rewrite Hpc; intros k; split; [intros [?|[?|?]]; done|done])).
  - destruct (sk_locked (g_lock g l)) eqn:El.
    + eapply goto_inv; [done|by rewrite Hpc|done|done| |done]. intros k. split; [intros [?|[?|?]]; done|done].
    + eapply pop_move; [done|by rewrite Hpc|lia|done| | |done].
      * intros k [= ->] Hin. by rewrite (held_locked g i) in El.
      * intros k. split; [intros [?|[?|?]]; done|done].
  - case_bool_decide as Ec; [eapply pop_dead; [done|by rewrite Hpc|lia|done]|].
    eapply pop_move; [done|by rewrite Hpc|lia|done| | |done].
    + intros k [= ->] Hin. by apply Ec, held_cpu.
    + intros k. split; [intros [?|[?|?]]; done|done].
  - destruct (sk_locked (g_lock g l)) eqn:El; [done|]. by apply xchg_inv.
  - by apply set_cpu_inv.
  - destruct (sk_locked (g_lock g l)) eqn:El; [|eapply pop_dead; [done|by rewrite Hpc|lia|done]].
    eapply goto_inv; [done|by rewrite Hpc|done|done| |done]. intros k. split; [intros [?|[?|?]]; done|done].
  - case_bool_decide as Ec; [by apply release_inv|]. eapply pop_dead; [done|by rewrite Hpc|lia|done].
  - by apply clear_cpu_inv.
  - by apply unlock_inv.
  - eapply pop_move; [done|by rewrite Hpc|lia|done|done| |done]. intros k. split; [intros [?|[?|?]]; done|done].
Qed.

Lemma reachable_inv g : reachable g -> smp_inv g.
Proof.
  induction 1 as [|g g' i a Hr IH Hs].
  - split.
    + intros i. split; [intros n [= <-]; done|done|done|constructor|]. intros l [?|[?|[?|?]]]; done.
    + intros l. assert (forall i, ~ owns smp_init i l) as Hno
        by (intros i [?%not_elem_of_nil|[?|[?|?]]]; done).
      split; [|by intros i j ?%Hno|].
      * split; [done|]. intros [i Hi]. by apply Hno in Hi.
      * intros i. split; [done|]. intros [?%not_elem_of_nil|?]; done.
  - unfold smp_step in Hs. destruct a; [..|by eapply continue_inv];
      (destruct (g_pc g i) eqn:Hpc; try done; by eapply start_inv).
Qed.

(** ** Theorems *)

(** C21. Mutual exclusion: in every state that any interleaving of CPUs in
    acquire and release can reach, a lock is held by at most one CPU, and a CPU
    that holds a lock has its interrupts off. *)
Theorem spinlock_exclusive g i j l :
  reachable g -> l ∈ g_held g i -> l ∈ g_held g j -> i = j /\ c_if (g_cpu g i) = false.
Proof.
  intros Hr%reachable_inv Hi Hj. split.
  - apply (li_excl _ _ (proj2 Hr l)); by left.
  - pose proof (proj1 Hr i) as Hci. pose proof (ci_low _ _ _ Hci). apply Hci.
    destruct (g_held g i); [by apply not_elem_of_nil in Hi|simpl in *; lia].
Qed.


(** Where popcli leads a CPU from inside acquire or release. *)
Lemma pop_to_pc g i n q :
  smp_inv g -> pc_depth (g_pc g i) = Some n -> 0 < n -> g_pc (pop_to i q g) i = q.
Proof.
  intros Hinv Hp Hn. destruct (proj1 Hinv i) as [Hd _ Hi _ _]. specialize (Hd n Hp).
  unfold pop_to, popcli. rewrite Hi by lia. zb. smp_simpl. done.
Qed.

(** What the next step of a CPU in acquire or release depends on. *)
Definition next_pc (p : pc) (held : list nat) (p' : pc) : Prop :=
  match p with
  | AcqRead l => p' = AcqCmp l \/ ((l ∉ held) /\ p' = Spin l)
  | AcqCmp l => p' = if decide (l ∈ held) then Dead "acquire" else Spin l
  | RelRead l => p' = RelCmp l \/ ((l ∉ held) /\ p' = Dead "release")
  | RelCmp l => p' = if decide (l ∈ held) then ClearCpu l else Dead "release"
  | Spin l => p' = Spin l \/ p' = SetCpu l
  | SetCpu _ | PopCli => p' = Run
  | ClearCpu l => p' = Unlock l
  | Unlock _ => p' = PopCli
  | Run | Dead _ => False
  end.

(** The check in acquire and release is exact although it reads two fields
    of the lock one after the other while other CPUs change them: acquire panics
    if and only if this CPU holds the lock, release if and only if it does not,
    and popcli never panics inside them. *)
Theorem holding_exact g i g' :
  reachable g -> continue i g = Some g' -> next_pc (g_pc g i) (g_held g i) (g_pc g' i).
Proof.
  intros Hr%reachable_inv Hs. unfold continue in Hs.
  assert (forall l, sk_cpu (g_lock g l) = Some i <-> l ∈ g_held g i \/ g_pc g i = ClearCpu l) as Hcpu
    by (intros l; apply (proj2 Hr l)).
  destruct (g_pc g i) eqn:Hpc; try done; injection Hs as <-; simpl.
  - destruct (sk_locked (g_lock g l)) eqn:El; [left; by smp_simpl|right].
    split; [intros Hin; by rewrite (held_locked g i) in El|]. eapply pop_to_pc; [done|by rewrite Hpc|lia].
  - case_bool_decide as Ec; rewrite (pop_to_pc g i 2) by (done || by rewrite Hpc).
    + apply Hcpu in Ec as [?|?]; [by rewrite decide_True|done].
    + rewrite decide_False; [done|]. intros Hin. apply Ec, Hcpu. by left.
  - destruct (sk_locked (g_lock g l)); [by left|right]. by smp_simpl.
  - by smp_simpl.
  - destruct (sk_locked (g_lock g l)) eqn:El; [left; by smp_simpl|right].
    split; [intros Hin; by rewrite (held_locked g i) in El|]. eapply pop_to_pc; [done|by rewrite Hpc|lia].
  - case_bool_decide as Ec.
    + apply Hcpu in Ec as [Hin|?]; [|done]. rewrite decide_True by done.
      destruct (proj1 Hr i) as [Hd _ Hi _ _]. rewrite Hpc in Hd. specialize (Hd 1 eq_refl).
      unfold pop_to, popcli. cbn. rewrite Hi by lia. zb. smp_simpl. done.
    + rewrite decide_False by (intros Hin; apply Ec, Hcpu; by left).
      eapply pop_to_pc; [done|by rewrite Hpc|lia].
  - by smp_simpl.
  - by smp_simpl.
  - eapply pop_to_pc; [done|by rewrite Hpc|lia].
Qed.

(** ** A run of two CPUs *)

Fixpoint run_trace (tr : list (nat * action)) (g : smp) : option smp :=
  match tr with
  | [] => Some g
  | (i, a) :: tr => match smp_step i a g with Some g' => run_trace tr g' | None => None end
  end.

Lemma run_trace_reachable tr g g' : reachable g -> run_trace tr g = Some g' -> reachable g'.
Proof.
  revert g. induction tr as [|[i a] tr IH]; intros g Hr; simpl; [by intros [= <-]|].
  destruct (smp_step i a g) as [g1|] eqn:E; [|done]. apply IH. by eapply reach_step.
Qed.

(** CPU 0 takes lock 7 while CPU 1 spins on it. *)
Definition two_cpus : list (nat * action) :=
  [(0%nat, Acquire 7); (1%nat, Acquire 7); (0%nat, Continue); (1%nat, Continue); (0%nat, Continue);
   (1%nat, Continue); (0%nat, Continue)].

Definition two_cpus_state : smp := default smp_init (run_trace two_cpus smp_init).

Lemma two_cpus_reachable : reachable two_cpus_state.
Proof. apply (run_trace_reachable two_cpus smp_init); [constructor|]. reflexivity. Qed.

Lemma spinlock_exclusive_witness :
  g_pc two_cpus_state 1%nat = Spin 7 /\ 0%nat = 0%nat /\ c_if (g_cpu two_cpus_state 0%nat) = false.
Proof.
  split; [reflexivity|].
  apply (spinlock_exclusive two_cpus_state 0 0 7); [apply two_cpus_reachable|left|left].
Defined.

(** A second acquire of the same lock by CPU 0. *)
Definition again_state : smp :=
  default smp_init (run_trace [(0%nat, Acquire 7); (0%nat, Continue)] two_cpus_state).

Lemma holding_exact_witness :
  exists g', continue 0 again_state = Some g' /\ next_pc (AcqCmp 7) [7%nat] (g_pc g' 0%nat).
Proof.
  eexists. split; [reflexivity|]. apply (holding_exact again_state 0); [|reflexivity].
  apply (run_trace_reachable [(0%nat, Acquire 7); (0%nat, Continue)] two_cpus_state);
    [apply two_cpus_reachable|reflexivity].
Defined.
