(* ===== verification/BioCache.v ===== *)
(** * What the buffer cache promises (bio.c, sleeplock.c, memide.c)

    [cache p pid L V T s] is the cache as its clients see it while process [p]
    runs: [V] gives the current contents of every block of disk 1, [T] the
    blocks that differ from the disk and are pinned by B_DIRTY, [L] the buffers
    the process holds.  A read returns a locked buffer with the current
    contents, a write moves them to the disk, a release gives the buffer back;
    none of them sleeps or panics while a buffer can be recycled, which holds
    as long as fewer than NBUF buffers are held or pinned. *)

From S2P Require Import Prelude Mmu Mem Bytes State Kernel Sched Sleeplock Bio.

(** ** Sleep locks that nobody contends for *)

Section sleeplock.
Context (p : nat) (pr : proc).

Lemma get_sleeplock_locks r l s : get_sleeplock r (set_k_locks l s) = get_sleeplock r s.
Proof. by destruct r. Qed.

Lemma wp_acquiresleep r l (Q : unit -> kstate -> Prop) s :
  k_locks s = [] -> k_cur s = Some p -> k_procs s !! p = Some pr ->
  get_sleeplock r s = Some l -> sl_locked l = 0 ->
  Q tt (set_sleeplock r (mkSleeplock 1 (p_pid pr)) s) -> wp (acquiresleep r) Q s.
Proof.
  intros Hl Hc Hp Hr H0 HQ. unfold acquiresleep. kstep. kstep; [rewrite Hl; apply not_elem_of_nil|].
  kstep. kstep. kstep. rewrite get_sleeplock_locks, Hr. kstep. rewrite H0. simpl negb. cbv iota.
  kstep. eapply wp_myproc; [done|]. kstep. eapply wp_getproc; [done|]. kstep. kstep.
  eapply (wp_release _ []); [destruct r; cbn; by rewrite Hl|apply not_elem_of_nil|].
  rewrite <- Hl. by destruct s, r.
Qed.

Lemma wp_releasesleep r l (Q : unit -> kstate -> Prop) s :
  k_locks s = [] -> get_sleeplock r s = Some l ->
  Q tt (set_k_procs (woken (Some (chan_of r)) <$> k_procs s) (set_sleeplock r (mkSleeplock 0 0) s)) ->
  wp (releasesleep r) Q s.
Proof.
  intros Hl Hr HQ. unfold releasesleep. kstep. kstep; [rewrite Hl; apply not_elem_of_nil|].
  kstep. kstep. kstep. rewrite get_sleeplock_locks, Hr. kstep. kstep. kstep. kstep.
  eapply wp_of_run.
  { apply wakeup_run. destruct r; cbn; rewrite Hl; by intros ?%list_elem_of_singleton. }
  eapply (wp_release _ []); [destruct r; cbn; by rewrite Hl|apply not_elem_of_nil|].
  rewrite <- Hl. by destruct s, r.
Qed.

Lemma wp_holdingsleep r l (Q : bool -> kstate -> Prop) s :
  k_locks s = [] -> k_cur s = Some p -> k_procs s !! p = Some pr ->
  get_sleeplock r s = Some l ->
  Q (negb (sl_locked l =? 0) && (sl_pid l =? p_pid pr)) s -> wp (holdingsleep r) Q s.
Proof.
  intros Hl Hc Hp Hr HQ. unfold holdingsleep. kstep. kstep; [rewrite Hl; apply not_elem_of_nil|].
  kstep. kstep. kstep. rewrite get_sleeplock_locks, Hr. kstep.
  assert (forall s', set_k_locks [] (set_k_locks (spin_of r :: k_locks s') s') = set_k_locks [] s') as E
    by by intros [].
  assert (set_k_locks [] s = s) as Es by (rewrite <- Hl; by destruct s).
  destruct (negb (sl_locked l =? 0)).
  - kstep. eapply wp_myproc; [done|]. kstep. eapply wp_getproc; [done|]. kstep.
    eapply (wp_release _ []); [cbn; by rewrite Hl|apply not_elem_of_nil|]. kstep. by rewrite E, Es.
  - kstep. eapply (wp_release _ []); [cbn; by rewrite Hl|apply not_elem_of_nil|]. kstep. by rewrite E, Es.
Qed.

End sleeplock.

(** ** The cache *)

Lemma idle_flags f : (Z.land f (Z.lor B_VALID B_DIRTY) =? B_VALID) = has f B_VALID && negb (has f B_DIRTY).
Proof.
  change B_VALID with (2 ^ 1). change B_DIRTY with (2 ^ 2). rewrite !has_testbit by lia.
  assert (Z.land f (Z.lor (2 ^ 1) (2 ^ 2)) =
          (if Z.testbit f 1 then 2 else 0) + (if Z.testbit f 2 then 4 else 0)) as ->;
    [|by destruct (Z.testbit f 1), (Z.testbit f 2)].
  rewrite Z.land_lor_distr_r.
  assert (forall n, 0 <= n -> Z.land f (2 ^ n) = if Z.testbit f n then 2 ^ n else 0) as E.
  { intros n Hn. apply Z.bits_inj'. intros k Hk. rewrite Z.land_spec, Z.pow2_bits_eqb by lia.
    destruct (Z.testbit f n) eqn:Et; rewrite ?Z.bits_0, ?Z.pow2_bits_eqb by lia;
      destruct (Z.eqb_spec n k) as [->|]; rewrite ?Et, ?andb_false_r; done. }
  rewrite !E by lia. by destruct (Z.testbit f 1), (Z.testbit f 2).
Qed.

(** Updating an element that is there. *)
Lemma alter_is_insert {A} (f : A -> A) (l : list A) i x : l !! i = Some x -> alter f i l = <[i := f x]> l.
Proof.
  intros Hx. apply list_eq. intros j. destruct (decide (i = j)) as [<-|Hne].
  - rewrite list_lookup_alter_eq, list_lookup_insert_eq by (by eapply lookup_lt_Some). by rewrite Hx.
  - by rewrite list_lookup_alter_ne, list_lookup_insert_ne.
Qed.

Lemma insert_cases {A} (l : list A) i x y : l !! i = Some x ->
  forall j z, <[i := y]> l !! j = Some z -> (j = i /\ z = y) \/ (j <> i /\ l !! j = Some z).
Proof.
  intros Hx j z. destruct (decide (j = i)) as [->|Hne].
  - rewrite list_lookup_insert_eq by (by eapply lookup_lt_Some). intros [= <-]. by left.
  - rewrite list_lookup_insert_ne by done. by right.
Qed.

(** Moving an element of a list to the front. *)
Lemma filter_move (l : list nat) b : b ∈ l -> NoDup l -> b :: filter (fun x => x <> b) l ≡ₚ l.
Proof.
  induction l as [|x l IH]; intros Hb Hnd; [by apply not_elem_of_nil in Hb|].
  apply NoDup_cons in Hnd as [Hx Hnd]. destruct (decide (x = b)) as [->|Hne].
  - rewrite filter_cons_False by (intros []; done).
    assert (filter (fun x => x <> b) l = l) as ->; [|done]. clear -Hx. induction l as [|y l IH]; [done|].
    apply not_elem_of_cons in Hx as [? ?]. by rewrite filter_cons_True, IH.
  - rewrite filter_cons_True by done. apply elem_of_cons in Hb as [?|Hb]; [done|].
    rewrite Permutation_swap. by rewrite IH.
Qed.

Section cache.
Context `{KernelImage} (p : nat) (pid : Z).
Implicit Types (L : gset nat) (V : Z -> list Z) (T : gset Z).

(** A buffer nobody holds, and one held by the process. *)
Definition buf_free V T (bf : buf) : Prop :=
  sl_locked (b_lock bf) = 0 /\ b_refcnt bf = 0 /\
  (b_dev bf = 1 -> has (b_flags bf) B_VALID = true -> b_data bf = V (b_blockno bf)) /\
  (has (b_flags bf) B_DIRTY = true ->
     b_dev bf = 1 /\ has (b_flags bf) B_VALID = true /\ b_blockno bf ∈ T).

Definition buf_held T (bf : buf) : Prop :=
  b_lock bf = mkSleeplock 1 pid /\ b_refcnt bf = 1 /\ b_dev bf = 1 /\
  has (b_flags bf) B_VALID = true /\ (has (b_flags bf) B_DIRTY = true -> b_blockno bf ∈ T).

(** The pinned buffer of a block. *)
Definition pinned (bs : list buf) (bno : Z) : Prop :=
  exists b bf, bs !! b = Some bf /\ b_dev bf = 1 /\ b_blockno bf = bno /\
               has (b_flags bf) B_DIRTY = true /\ has (b_flags bf) B_VALID = true.

Record cache L V T (s : kstate) : Prop := {
  ca_cur : k_cur s = Some p;
  ca_pid : exists pr, k_procs s !! p = Some pr /\ p_pid pr = pid;
  ca_locks : k_locks s = [];
  ca_len : length (k_bufs s) = 30%nat;
  ca_lru : k_lru s ≡ₚ seq 0 30;
  ca_data : forall b bf, k_bufs s !! b = Some bf -> length (b_data bf) = 512%nat;
  ca_uniq : forall b b' bf bf', k_bufs s !! b = Some bf -> k_bufs s !! b' = Some bf' ->
    b_dev bf = 1 -> b_dev bf' = 1 -> b_blockno bf = b_blockno bf' -> b = b';
  ca_L : forall b, b ∈ L -> (b < 30)%nat;
  ca_held : forall b bf, b ∈ L -> k_bufs s !! b = Some bf -> buf_held T bf;
  ca_free : forall b bf, b ∉ L -> k_bufs s !! b = Some bf -> buf_free V T bf;
  ca_view : forall bno, bno ∉ T -> V bno = disk_block (k_disk s) 1 bno;
  ca_pin : forall bno, bno ∈ T -> pinned (k_bufs s) bno;
  ca_size : forall bno, length (V bno) = 512%nat;
}.

Lemma cache_ext L V V' T s : (forall bno, V bno = V' bno) -> cache L V T s -> cache L V' T s.
Proof.
  intros E []. constructor; try done.
  - intros b bf Hb Hbf. destruct (ca_free0 b bf Hb Hbf) as (? & ? & Hv & ?). split_and!; try done.
    intros ? ?. rewrite <- E. auto.
  - intros bno Hb. rewrite <- E. auto.
  - intros bno. by rewrite <- E.
Qed.

(** ** Finding buffers *)

Lemma find_cached_Some bs lru dev bno b :
  find_cached bs lru dev bno = Some b ->
  exists bf, bs !! b = Some bf /\ b_dev bf = dev /\ b_blockno bf = bno.
Proof.
  induction lru as [|x lru IH]; simpl; [done|]. destruct (bs !! x) as [bf|] eqn:E; [|done].
  destruct ((b_dev bf =? dev) && (b_blockno bf =? bno)) eqn:Eb; [|done]. intros [= ->].
  exists bf. split; [done|]. lia.
Qed.

Lemma find_cached_None bs lru dev bno b bf :
  find_cached bs lru dev bno = None -> b ∈ lru -> bs !! b = Some bf ->
  ~ (b_dev bf = dev /\ b_blockno bf = bno).
Proof.
  induction lru as [|x lru IH]; simpl; intros Hn Hin Hb; [by apply not_elem_of_nil in Hin|].
  destruct (bs !! x) as [bx|] eqn:E.
  - destruct ((b_dev bx =? dev) && (b_blockno bx =? bno)) eqn:Eb; [done|].
    apply elem_of_cons in Hin as [->|?]; [|by apply IH]. rewrite Hb in E. injection E as ->. lia.
  - apply elem_of_cons in Hin as [->|?]; [by rewrite Hb in E|by apply IH].
Qed.

Lemma find_free_Some bs lru b :
  find_free bs lru = Some b ->
  b ∈ lru /\ exists bf, bs !! b = Some bf /\ b_refcnt bf = 0 /\ has (b_flags bf) B_DIRTY = false.
Proof.
  induction lru as [|x lru IH]; simpl; [done|]. rewrite elem_of_cons.
  destruct (bs !! x) as [bf|] eqn:E; [|by intros []%IH; auto].
  destruct ((b_refcnt bf =? 0) && negb (has (b_flags bf) B_DIRTY)) eqn:Eb; [|by intros []%IH; auto].
  intros [= ->]. split; [by left|]. exists bf. split; [done|].
  apply andb_true_iff in Eb as [?%Z.eqb_eq ?%negb_true_iff]. done.
Qed.

Lemma find_free_None bs lru b bf :
  find_free bs lru = None -> b ∈ lru -> bs !! b = Some bf ->
  b_refcnt bf <> 0 \/ has (b_flags bf) B_DIRTY = true.
Proof.
  induction lru as [|x lru IH]; simpl; intros Hn Hin Hb; [by apply not_elem_of_nil in Hin|].
  destruct (bs !! x) as [bx|] eqn:E.
  - destruct ((b_refcnt bx =? 0) && negb (has (b_flags bx) B_DIRTY)) eqn:Eb; [done|].
    apply elem_of_cons in Hin as [->|?]; [|by apply IH]. rewrite Hb in E. injection E as ->.
    destruct (Z.eqb_spec (b_refcnt bx) 0); [right|by left]. by apply negb_false_iff.
  - apply elem_of_cons in Hin as [->|?]; [by rewrite Hb in E|by apply IH].
Qed.

(** A buffer can be recycled unless all are held or pinned. *)
Lemma find_free_is_Some L V T s :
  cache L V T s -> (size T + size L < 30)%nat -> is_Some (find_free (k_bufs s) (rev (k_lru s))).
Proof.
  intros HC Hsz. destruct (find_free _ _) as [b|] eqn:E; [by eexists|]. exfalso.
  set (g := fun b => if decide (b ∈ L) then inl b
                     else inr (default 0 (b_blockno <$> k_bufs s !! b)) : nat + Z).
  assert (forall b, b ∈ seq 0 30 -> exists bf, k_bufs s !! b = Some bf /\
    (b ∉ L -> b_dev bf = 1 /\ b_blockno bf ∈ T)) as Hb.
  { intros b Hb. apply elem_of_seq in Hb. destruct (lookup_lt_is_Some_2 (k_bufs s) b) as [bf Hbf];
      [rewrite (ca_len _ _ _ _ HC); lia|]. exists bf. split; [done|]. intros HnL.
    destruct (ca_free _ _ _ _ HC b bf HnL Hbf) as (_ & H0 & _ & Hd).
    assert (b ∈ rev (k_lru s)) as Hin.
    { rewrite <- Permutation_rev, (ca_lru _ _ _ _ HC). apply elem_of_seq. lia. }
    destruct (find_free_None _ _ _ _ E Hin Hbf) as [?|Hdy]; [done|]. by destruct (Hd Hdy) as (? & _ & ?). }
  assert (NoDup (g <$> seq 0 30)) as Hnd.
  { apply NoDup_fmap_2_strong; [|apply NoDup_seq]. intros x y Hx Hy.
    destruct (Hb x Hx) as (bx & Ex & Hdx), (Hb y Hy) as (b_y & Ey & Hdy). unfold g.
    rewrite Ex, Ey. simpl. repeat case_decide; intros [=]; [done|].
    destruct (Hdx ltac:(done)), (Hdy ltac:(done)). by eapply (ca_uniq _ _ _ _ HC). }
  assert (g <$> seq 0 30 ⊆+ (inl <$> elements L) ++ (inr <$> elements T)) as Hsub%submseteq_length.
  { apply NoDup_submseteq; [done|]. intros x (b & -> & Hin)%list_elem_of_fmap.
    destruct (Hb b Hin) as (bf & Eb & Hd). apply elem_of_app. unfold g. rewrite Eb. simpl. case_decide.
    - left. apply list_elem_of_fmap_2. by apply elem_of_elements.
    - right. apply list_elem_of_fmap_2. apply elem_of_elements. by apply Hd. }
  rewrite length_app, !length_fmap, length_seq in Hsub. unfold size, set_size in Hsz. simpl in Hsz. lia.
Qed.

(** ** One buffer changes *)

(** [bf'] may take the place of buffer [b]. *)
Definition fits L V T (bs : list buf) (b : nat) (bf' : buf) : Prop :=
  length (b_data bf') = 512%nat /\
  (forall b2 bf2, b2 <> b -> bs !! b2 = Some bf2 -> b_dev bf2 = 1 -> b_dev bf' = 1 ->
     b_blockno bf2 <> b_blockno bf') /\
  (if decide (b ∈ L) then buf_held T bf' else buf_free V T bf').

Lemma cache_put L L' V T s b bf bf' :
  cache L V T s -> k_bufs s !! b = Some bf -> fits L' V T (k_bufs s) b bf' ->
  (forall b2, b2 <> b -> b2 ∈ L' <-> b2 ∈ L) ->
  (b_dev bf = 1 -> has (b_flags bf) B_DIRTY = true -> b_dev bf' = 1 /\ b_blockno bf' = b_blockno bf /\
     has (b_flags bf') B_DIRTY = true /\ has (b_flags bf') B_VALID = true) ->
  cache L' V T (set_k_bufs (<[b := bf']> (k_bufs s)) s).
Proof.
  intros [] Hb (Hlen & Hu & Hf) HL Hd.
  pose proof (insert_cases (k_bufs s) b bf bf' Hb) as Hcase.
  constructor; cbn; try done.
  - by rewrite length_insert.
  - intros b2 x [[-> ->]|[? ?]]%Hcase; [done|by eapply ca_data0].
  - intros b1 b2 x y [[-> ->]|[? ?]]%Hcase [[-> ->]|[? ?]]%Hcase Hd1 Hd2 E; try done.
    + symmetry in E. by apply (Hu b2 y) in E.
    + by apply (Hu b1 x) in E.
    + by eapply ca_uniq0.
  - intros b2 Hin. destruct (decide (b2 = b)) as [->|Hne]; [|apply ca_L0; by apply HL].
    apply lookup_lt_Some in Hb. lia.
  - intros b2 x Hin [[-> ->]|[? ?]]%Hcase; [by rewrite decide_True in Hf|].
    eapply ca_held0; [by apply HL|done].
  - intros b2 x Hin [[-> ->]|[? ?]]%Hcase; [by rewrite decide_False in Hf|].
    eapply ca_free0; [by rewrite <- HL|done].
  - intros bno Hin. destruct (ca_pin0 bno Hin) as (b2 & x & Hx & Hdev & Hbno & Hfl).
    destruct (decide (b2 = b)) as [->|Hne].
    + rewrite Hb in Hx. injection Hx as <-. destruct (Hd Hdev) as (? & ? & ? & ?); [by apply Hfl|].
      exists b, bf'. rewrite list_lookup_insert_eq by (by eapply lookup_lt_Some). split_and!; congruence.
    + exists b2, x. by rewrite list_lookup_insert_ne.
Qed.

(** Parts of the state the cache does not look at closely. *)
Lemma cache_procs L V T s ps :
  (exists pr, ps !! p = Some pr /\ p_pid pr = pid) -> cache L V T s -> cache L V T (set_k_procs ps s).
Proof. intros ? []. by constructor. Qed.

Lemma cache_lru L V T s lru : lru ≡ₚ seq 0 30 -> cache L V T s -> cache L V T (set_k_lru lru s).
Proof. intros ? []. by constructor. Qed.

Lemma cache_woken L V T s c :
  cache L V T s -> cache L V T (set_k_procs (woken c <$> k_procs s) s).
Proof.
  intros HC. apply cache_procs; [|done]. destruct (ca_pid _ _ _ _ HC) as (pr & Hp & Hpid).
  exists (woken c pr). rewrite list_lookup_fmap, Hp. split; [done|]. unfold woken. by case_bool_decide.
Qed.

Lemma cache_lookup L V T s b : cache L V T s -> b ∈ L -> exists bf, k_bufs s !! b = Some bf.
Proof.
  intros HC Hb. apply lookup_lt_is_Some_2. rewrite (ca_len _ _ _ _ HC). by apply (ca_L _ _ _ _ HC).
Qed.

(** ** Reading, writing and releasing *)

Lemma length_disk_block L V T s bno :
  cache L V T s -> bno ∉ T -> length (disk_block (k_disk s) 1 bno) = 512%nat.
Proof. intros HC Hb. rewrite <- (ca_view _ _ _ _ HC) by done. apply (ca_size _ _ _ _ HC). Qed.

Lemma bufs_put bs bs' s : set_k_bufs bs (set_k_bufs bs' s) = set_k_bufs bs s.
Proof. by destruct s. Qed.

(** bget of a block that no held buffer has: the buffer [b] becomes [bf']. *)
Lemma wp_bget L V T s bno Q :
  cache L V T s ->
  (forall b bf, b ∈ L -> k_bufs s !! b = Some bf -> b_blockno bf <> bno) ->
  (bno ∈ T \/ (size T + size L < 30)%nat) ->
  (forall b bf bf', b ∉ L -> k_bufs s !! b = Some bf ->
     b_lock bf' = mkSleeplock 1 pid -> b_refcnt bf' = 1 -> b_dev bf' = 1 -> b_blockno bf' = bno ->
     length (b_data bf') = 512%nat ->
     (forall b2 bf2, b2 <> b -> k_bufs s !! b2 = Some bf2 -> b_dev bf2 = 1 -> b_blockno bf2 <> bno) ->
     (b_flags bf' = b_flags bf /\ b_data bf' = b_data bf /\ b_dev bf = 1 /\ b_blockno bf = bno \/
      b_flags bf' = 0 /\ (bno ∉ T) /\ has (b_flags bf) B_DIRTY = false) ->
     Q b (set_k_bufs (<[b := bf']> (k_bufs s)) s)) ->
  wp (bget 1 bno) Q s.
Proof.
  intros HC Hnh Hroom HQ. pose proof HC as [Hcur (pr & Hpr & Hpid) Hlk Hlen Hlru Hdata Huniq _ _ Hfree _ Hpin _].
  assert (forall f b bf bf', k_bufs s !! b = Some bf -> sl_locked (b_lock (f bf)) = 0 ->
    set_b_lock (mkSleeplock 1 pid) (f bf) = bf' ->
    Q b (set_k_bufs (<[b := bf']> (k_bufs s)) s) ->
    wp (modbuf b f;; release LK_bcache;; acquiresleep (BufLock b);; mret b) Q
       (set_k_locks (LK_bcache :: k_locks s) s)) as Htake.
  { intros f b bf bf' Hb H0 <- HQb. unfold modbuf. kstep. kstep. kstep.
    eapply (wp_release _ []); [cbn; by rewrite Hlk|apply not_elem_of_nil|]. kstep.
    eapply (wp_acquiresleep p pr _ (b_lock (f bf))); [done..| |done|].
    - cbn. by rewrite list_lookup_alter_eq, Hb.
    - kstep. unfold set_sleeplock. cbn [k_bufs set_k_bufs set_k_locks]. rewrite (alter_is_insert f _ _ bf Hb), Hpid.
      rewrite (alter_is_insert _ _ _ (f bf)) by (apply list_lookup_insert_eq; by eapply lookup_lt_Some).
      rewrite list_insert_insert_eq. rewrite <- Hlk. by destruct s. }
  unfold bget. kstep. kstep; [rewrite Hlk; apply not_elem_of_nil|]. kstep. kstep. kstep. kstep. cbn [k_bufs k_lru set_k_locks].
  destruct (find_cached _ _ 1 bno) as [b|] eqn:Ef.
  - apply find_cached_Some in Ef as (bf & Hb & Hdev & Hbno).
    assert (b ∉ L) as HbL by (intros HbL; by apply (Hnh b bf HbL Hb)).
    destruct (Hfree b bf HbL Hb) as (Hul & Href & _). eapply Htake; [done..|].
    eapply (HQ b bf); try done; cbn.
    + by rewrite Href.
    + by eapply Hdata.
    + intros b2 bf2 Hne Hb2 Hd2 E. apply Hne. eapply Huniq; try done. congruence.
    + by left.
  - assert (forall b bf, k_bufs s !! b = Some bf -> b_dev bf = 1 -> b_blockno bf <> bno) as Hnone.
    { intros b bf Hb Hd E. eapply (find_cached_None _ _ _ _ _ _ Ef); [|exact Hb|done].
      rewrite Hlru. apply elem_of_seq. apply lookup_lt_Some in Hb. lia. }
    assert (bno ∉ T) as HbT.
    { intros (b & bf & Hb & Hd & E & _)%Hpin. by eapply Hnone. }
    destruct (find_free_is_Some L V T s HC) as [b Hff]; [by destruct Hroom|].
    rewrite Hff. apply find_free_Some in Hff as (_ & bf & Hb & Href & Hdirty).
    assert (b ∉ L) as HbL.
    { intros HbL. destruct (ca_held _ _ _ _ HC b bf HbL Hb) as (_ & Hr & _). lia. }
    destruct (Hfree b bf HbL Hb) as (Hul & _). eapply Htake; [done..|].
    eapply (HQ b bf); try done; cbn.
    + by eapply Hdata.
    + intros b2 bf2 Hne Hb2 Hd2. by eapply Hnone.
    + by right.
Qed.

Lemma wp_holdingsleep_held L V T s b Q :
  cache L V T s -> b ∈ L -> Q true s -> wp (holdingsleep (BufLock b)) Q s.
Proof.
  intros HC Hb HQ. destruct (cache_lookup L V T s b HC Hb) as [bf Hbf].
  destruct (ca_pid _ _ _ _ HC) as (pr & Hpr & Hpid). destruct (ca_held _ _ _ _ HC b bf Hb Hbf) as (Hl & _).
  eapply (wp_holdingsleep p pr _ (b_lock bf)); [apply HC|apply HC|done|cbn; by rewrite Hbf|].
  rewrite Hl. cbn. by rewrite Hpid, Z.eqb_refl.
Qed.

(** The block [bno] of disk 1 written, in the disk and in its history. *)
Definition written (bno : Z) (data : list Z) (s : kstate) : kstate :=
  set_k_writes ((bno, data) :: k_writes s) (set_k_disk (<[(1, bno) := data]> (k_disk s)) s).

Lemma wp_getbuf s b bf Q : k_bufs s !! b = Some bf -> Q bf s -> wp (getbuf b) Q s.
Proof. intros Hb HQ. unfold getbuf. wp_steps. by rewrite Hb. Qed.

Lemma wp_iderw s b bf pr (Q : unit -> kstate -> Prop) :
  k_locks s = [] -> k_cur s = Some p -> k_procs s !! p = Some pr -> p_pid pr = pid ->
  k_bufs s !! b = Some bf -> b_lock bf = mkSleeplock 1 pid -> b_dev bf = 1 -> b_blockno bf < disksize ->
  has (b_flags bf) B_VALID && negb (has (b_flags bf) B_DIRTY) = false ->
  (if has (b_flags bf) B_DIRTY
   then Q tt (set_k_bufs (<[b := set_b_flags (Z.lor (clearf (b_flags bf) B_DIRTY) B_VALID) bf]> (k_bufs s))
               (written (b_blockno bf) (b_data bf) s))
   else Q tt (set_k_bufs (<[b := set_b_flags (Z.lor (b_flags bf) B_VALID)
                                  (set_b_data (disk_block (k_disk s) 1 (b_blockno bf)) bf)]> (k_bufs s)) s)) ->
  wp (iderw b) Q s.
Proof.
  intros Hlk Hcur Hpr Hpid Hb Hl Hdev Hsz Hfl HQ. unfold iderw. kstep.
  eapply (wp_holdingsleep p pr _ (b_lock bf)); [done..|cbn; by rewrite Hb|].
  rewrite Hl, Hpid. cbn [sl_locked sl_pid]. rewrite Z.eqb_refl. simpl negb. simpl andb. cbv iota.
  kstep. eapply wp_getbuf; [done|]. rewrite idle_flags, Hfl, Hdev. cbv iota. zb. simpl negb. cbv iota.
  assert (forall (f : buf -> buf) bs, k_bufs s = bs -> <[b := f bf]> bs !! b = Some (f bf)) as Hput.
  { intros f bs <-. apply list_lookup_insert_eq. by eapply lookup_lt_Some. }
  unfold modbuf, disk_write. destruct (has (b_flags bf) B_DIRTY).
  - do 5 kstep. cbn [k_bufs set_k_bufs set_k_disk set_k_writes].
    rewrite (alter_is_insert _ _ _ _ Hb). erewrite alter_is_insert by (by apply (Hput (fun bf => set_b_flags (clearf (b_flags bf) B_DIRTY) bf))).
    rewrite list_insert_insert_eq. destruct s. exact HQ.
  - do 5 kstep. cbn [k_bufs set_k_bufs k_disk].
    rewrite (alter_is_insert _ _ _ _ Hb). erewrite alter_is_insert by (by apply Hput).
    rewrite list_insert_insert_eq. destruct s. exact HQ.
Qed.

Lemma has_lor_VALID f : has (Z.lor f B_VALID) B_VALID = true.
Proof. rewrite has_lor. apply orb_true_r. Qed.
Lemma has_lor_VALID_DIRTY f : has (Z.lor f B_VALID) B_DIRTY = has f B_DIRTY.
Proof. rewrite has_lor. apply orb_false_r. Qed.

(** A buffer that bget returns without B_VALID is not pinned. *)
Lemma load_clean L V T s b bf bf' bno :
  cache L V T s -> b ∉ L -> k_bufs s !! b = Some bf -> has (b_flags bf') B_VALID = false ->
  (b_flags bf' = b_flags bf /\ b_data bf' = b_data bf /\ b_dev bf = 1 /\ b_blockno bf = bno \/
   b_flags bf' = 0 /\ (bno ∉ T) /\ has (b_flags bf) B_DIRTY = false) ->
  has (b_flags bf') B_DIRTY = false /\ has (b_flags bf) B_DIRTY = false /\ bno ∉ T.
Proof.
  intros HC HbL Hb Ev [(Hfl & _ & Hdev & Hbno)|(-> & ? & ?)]; [|done]. rewrite Hfl in *.
  destruct (ca_free _ _ _ _ HC b bf HbL Hb) as (_ & _ & _ & Hdirty).
  assert (has (b_flags bf) B_DIRTY = false) as Hnd.
  { destruct (has (b_flags bf) B_DIRTY); [|done]. destruct (Hdirty eq_refl) as (_ & Hv & _). congruence. }
  split_and!; [done..|]. intros (b2 & bf2 & Hb2 & Hd2 & E & Hdy & _)%(ca_pin _ _ _ _ HC).
  assert (b2 = b) as -> by (eapply (ca_uniq _ _ _ _ HC); try done; congruence). congruence.
Qed.

(** bread: a locked buffer with the current contents of the block. *)
Lemma wp_bread L V T s bno Q :
  cache L V T s -> 0 <= bno < disksize ->
  (forall b bf, b ∈ L -> k_bufs s !! b = Some bf -> b_blockno bf <> bno) ->
  (bno ∈ T \/ (size T + size L < 30)%nat) ->
  (forall b bf', b ∉ L -> let s' := set_k_bufs (<[b := bf']> (k_bufs s)) s in
     cache ({[b]} ∪ L) V T s' -> k_bufs s' !! b = Some bf' -> b_blockno bf' = bno -> b_data bf' = V bno ->
     Q b s') ->
  wp (bread 1 bno) Q s.
Proof.
  intros HC Hr Hnh Hroom HQ. pose proof HC as [Hcur (pr & Hpr & Hpid) Hlk Hlen Hlru Hdata Huniq _ _ Hfree _ Hpin _].
  unfold bread. kstep. eapply wp_bget; [done..|].
  intros b bf bf' HbL Hb Hl Href Hdev Hbno Hlen' Hu Hcase.
  assert (forall f, <[b := f : buf]> (k_bufs s) !! b = Some f) as Hput.
  { intros f. apply list_lookup_insert_eq. by eapply lookup_lt_Some. }
  kstep. eapply wp_getbuf; [apply Hput|].
  destruct (has (b_flags bf') B_VALID) eqn:Ev.
  - destruct Hcase as [(Hfl & Hd & Hdev0 & Hbno0)|(Hfl & _)]; [|by rewrite Hfl in Ev].
    destruct (Hfree b bf HbL Hb) as (_ & _ & Hval & Hdirty).
    kstep. kstep. kstep. apply (HQ b bf'); [done| |apply Hput|done|].
    + eapply cache_put; [exact HC|exact Hb| |set_solver|by rewrite Hdev, Hbno, Hbno0, Hfl, <- Hfl, Ev].
      split; [done|]. split; [intros; rewrite Hbno; eauto|]. rewrite decide_True by set_solver.
      split_and!; [done..|]. rewrite Hfl, Hbno, <- Hbno0. intros Hd'. by apply Hdirty.
    + rewrite Hd, <- Hbno0. apply Hval; [done|by rewrite <- Hfl].
  - assert (has (b_flags bf') B_DIRTY = false /\ has (b_flags bf) B_DIRTY = false /\ bno ∉ T)
      as (Hnd' & Hnd & HbT) by eauto using load_clean.
    kstep. eapply (wp_iderw _ b bf' pr); [done..|apply Hput|done|done|lia|by rewrite Ev|].
    rewrite Hnd'. cbn [k_bufs set_k_bufs k_disk]. rewrite list_insert_insert_eq, bufs_put. kstep.
    eapply HQ; [done| |apply Hput|done|cbn; rewrite Hbno; symmetry; by apply HC].
    eapply cache_put; [exact HC|exact Hb| |set_solver|by rewrite Hnd].
    split; [cbn; rewrite Hbno; by eapply length_disk_block|]. split; [intros; cbn; rewrite Hbno; eauto|].
    rewrite decide_True by set_solver. split_and!; [done..|cbn; apply has_lor_VALID|].
    cbn. by rewrite has_lor_VALID_DIRTY, Hnd'.
Qed.

(** The view with one block changed. *)
Definition vset (V : Z -> list Z) (bno : Z) (data : list Z) : Z -> list Z :=
  fun x => if decide (x = bno) then data else V x.

Lemma vset_eq V bno data : vset V bno data bno = data.
Proof. unfold vset. by rewrite decide_True. Qed.
Lemma vset_ne V bno data x : x <> bno -> vset V bno data x = V x.
Proof. intros Hx. unfold vset. by rewrite decide_False. Qed.

Lemma disk_block_written bno data s x :
  disk_block (k_disk (written bno data s)) 1 x = vset (disk_block (k_disk s) 1) bno data x.
Proof.
  unfold disk_block, vset, written. cbn. case_decide as E; [subst; by rewrite lookup_insert_eq|].
  rewrite lookup_insert_ne by congruence. done.
Qed.

Lemma cache_written L V T s b bf fl :
  cache L V T s -> b ∈ L -> k_bufs s !! b = Some bf ->
  has fl B_VALID = true -> has fl B_DIRTY = false ->
  cache L (vset V (b_blockno bf) (b_data bf)) (T ∖ {[b_blockno bf]})
    (set_k_bufs (<[b := set_b_flags fl bf]> (k_bufs s)) (written (b_blockno bf) (b_data bf) s)).
Proof.
  intros HC HbL Hb Hv Hnd. destruct (ca_held _ _ _ _ HC b bf HbL Hb) as (Hl & Href & Hdev & _).
  pose proof (insert_cases (k_bufs s) b bf (set_b_flags fl bf) Hb) as Hcase.
  assert (forall b2 x, b2 <> b -> k_bufs s !! b2 = Some x -> b_dev x = 1 -> b_blockno x <> b_blockno bf) as Hother.
  { intros b2 x Hne Hx Hd E. apply Hne. by eapply (ca_uniq _ _ _ _ HC). }
  pose proof HC as []. constructor; cbn; try done.
  - by rewrite length_insert.
  - intros b2 x [[-> ->]|[? ?]]%Hcase; [exact (ca_data0 b bf Hb)|by eapply ca_data0].
  - intros b1 b2 x y [[-> ->]|[? ?]]%Hcase [[-> ->]|[? ?]]%Hcase; try done; [..|by apply ca_uniq0].
    + intros _ Hd E. symmetry in E. by apply (Hother b2 y) in E.
    + intros Hd _ E. by apply (Hother b1 x) in E.
  - intros b2 x Hin [[-> ->]|[? Hx]]%Hcase; [by split_and!; cbn; rewrite ?Hnd|].
    destruct (ca_held0 b2 x Hin Hx) as (? & ? & ? & ? & Hd). split_and!; try done. intros ?%Hd.
    apply elem_of_difference. split; [done|]. rewrite elem_of_singleton. eauto.
  - intros b2 x Hin [[-> ->]|[? Hx]]%Hcase; [done|].
    destruct (ca_free0 b2 x Hin Hx) as (? & ? & Hval & Hd). split_and!; try done.
    + intros Hd1 ?. rewrite vset_ne by eauto. eauto.
    + intros (? & ? & ?)%Hd. split_and!; [done..|]. apply elem_of_difference. split; [done|].
      rewrite elem_of_singleton. eauto.
  - intros x Hx. etransitivity; [|symmetry; apply (disk_block_written (b_blockno bf) (b_data bf) s x)]. unfold vset. case_decide; [done|]. apply ca_view0. set_solver.
  - intros x [Hx Hne%not_elem_of_singleton]%elem_of_difference.
    destruct (ca_pin0 x Hx) as (b2 & y & Hy & Hd2 & E & Hfl). exists b2, y.
    rewrite list_lookup_insert_ne; [done|]. intros <-. congruence.
  - intros x. unfold vset. case_decide; eauto.
Qed.

(** bwrite: the contents of a held buffer go to the disk. *)
Lemma wp_bwrite L V T s b bf (Q : unit -> kstate -> Prop) :
  cache L V T s -> b ∈ L -> k_bufs s !! b = Some bf -> b_blockno bf < disksize ->
  (forall fl, let s' := set_k_bufs (<[b := set_b_flags fl bf]> (k_bufs s))
                          (written (b_blockno bf) (b_data bf) s) in
     cache L (vset V (b_blockno bf) (b_data bf)) (T ∖ {[b_blockno bf]}) s' -> Q tt s') ->
  wp (bwrite b) Q s.
Proof.
  intros HC HbL Hb Hsz HQ. destruct (ca_held _ _ _ _ HC b bf HbL Hb) as (Hl & Href & Hdev & Hv & _).
  destruct (ca_pid _ _ _ _ HC) as (pr & Hpr & Hpid).
  unfold bwrite. kstep. eapply wp_holdingsleep_held; [done..|]. simpl negb. cbv iota.
  unfold modbuf. kstep. kstep. rewrite (alter_is_insert _ _ _ _ Hb).
  assert (forall f : buf, <[b := f]> (k_bufs s) !! b = Some f) as Hput.
  { intros f. apply list_lookup_insert_eq. by eapply lookup_lt_Some. }
  assert (has (Z.lor (b_flags bf) B_DIRTY) B_DIRTY = true) as Hd by (rewrite has_lor; apply orb_true_r).
  eapply (wp_iderw _ b _ pr); [apply HC|apply HC|exact Hpr|done|apply Hput|done|done|done| |]; cbn [b_flags set_b_flags].
  - by rewrite Hd, andb_false_r.
  - rewrite Hd. cbn [k_bufs set_k_bufs]. rewrite list_insert_insert_eq.
    set (fl := Z.lor (clearf (Z.lor (b_flags bf) B_DIRTY) B_DIRTY) B_VALID).
    specialize (HQ fl). cbv zeta in HQ. destruct s. apply HQ. apply cache_written; [done..|apply has_lor_VALID|].
    unfold fl. by rewrite has_lor_VALID_DIRTY, has_clearf_same.
Qed.

(** Nothing but buffers, their order and the state of processes changed. *)
Definition bufs_only (s s' : kstate) : Prop :=
  exists bs lru ps, s' = set_k_bufs bs (set_k_lru lru (set_k_procs ps s)) /\ p_pid <$> ps = p_pid <$> k_procs s.

Lemma bufs_only_refl s : bufs_only s s.
Proof. exists (k_bufs s), (k_lru s), (k_procs s). split; [by destruct s|done]. Qed.

Lemma bufs_only_trans s1 s2 s3 : bufs_only s1 s2 -> bufs_only s2 s3 -> bufs_only s1 s3.
Proof.
  intros (b1 & l1 & p1 & -> & Hp1) (b2 & l2 & p2 & -> & Hp2). exists b2, l2, p2. split; [by destruct s1|]. by rewrite Hp2.
Qed.

Lemma bufs_only_put s bs : bufs_only s (set_k_bufs bs s).
Proof. exists bs, (k_lru s), (k_procs s). split; [by destruct s|done]. Qed.

Lemma bufs_only_icache s s' : bufs_only s s' -> k_icache s' = k_icache s.
Proof. by intros (? & ? & ? & -> & _). Qed.

Lemma woken_pids c (ps : list proc) : p_pid <$> (woken c <$> ps) = p_pid <$> ps.
Proof. rewrite <- list_fmap_compose. apply list_fmap_ext. intros i pr _. cbn. unfold woken. by case_bool_decide. Qed.

(** brelse: a held buffer whose contents are current is given back. *)
Lemma wp_brelse L V T s b bf (Q : unit -> kstate -> Prop) :
  cache L V T s -> b ∈ L -> k_bufs s !! b = Some bf -> b_data bf = V (b_blockno bf) ->
  (forall s', bufs_only s s' -> cache (L ∖ {[b]}) V T s' ->
     (forall b2, b2 <> b -> k_bufs s' !! b2 = k_bufs s !! b2) -> Q tt s') ->
  wp (brelse b) Q s.
Proof.
  intros HC HbL Hb Hdat HQ. pose proof (ca_held _ _ _ _ HC b bf HbL Hb) as (Hl & Href & Hdev & Hv & Hdy).
  pose proof (ca_locks _ _ _ _ HC) as Hlk.
  unfold brelse. kstep. eapply wp_holdingsleep_held; [done..|]. simpl negb. cbv iota.
  kstep. eapply (wp_releasesleep _ (b_lock bf)); [done|cbn; by rewrite Hb|].
  kstep. kstep; [cbn; rewrite Hlk; apply not_elem_of_nil|]. unfold modbuf. kstep. kstep. kstep.
  set (ps := woken _ <$> _). cbn [set_sleeplock k_bufs set_k_bufs set_k_procs set_k_locks].
  assert (forall f : buf, <[b := f]> (k_bufs s) !! b = Some f) as Hput.
  { intros f. apply list_lookup_insert_eq. by eapply lookup_lt_Some. }
  rewrite (alter_is_insert _ _ _ _ Hb), (alter_is_insert _ _ _ _ (Hput _)), list_insert_insert_eq.
  eapply wp_getbuf; [apply Hput|]. cbn [b_refcnt set_b_refcnt set_b_lock].
  rewrite Href. change (u32 (1 - 1) =? 0) with true. cbv iota. kstep. kstep.
  eapply (wp_release _ []); [cbn; by rewrite Hlk|apply not_elem_of_nil|].
  set (bf' := set_b_refcnt _ _). set (lru := b :: _).
  assert (cache (L ∖ {[b]}) V T (set_k_bufs (<[b := bf']> (k_bufs s)) s)) as HC'.
  { eapply cache_put; [exact HC|done| |set_solver|done]. split; [cbn; by eapply (ca_data _ _ _ _ HC)|].
    split; [intros b2 bf2 Hne Hb2 Hd2 _ E; apply Hne; by eapply (ca_uniq _ _ _ _ HC)|].
    rewrite decide_False by set_solver. split_and!; [done..|]. cbn. auto. }
  apply (cache_woken _ _ _ _ (Some (chan_of (BufLock b)))) in HC'. apply (cache_lru _ _ _ _ lru) in HC'.
  - match goal with |- Q tt ?x => apply (HQ x) end.
    + exists (<[b := bf']> (k_bufs s)), lru, ps. split; [rewrite <- Hlk; by destruct s|apply woken_pids].
    + subst ps. rewrite <- Hlk. destruct s. exact HC'.
    + intros b2 Hne. cbn. by rewrite list_lookup_insert_ne.
  - subst lru. cbn [k_lru set_k_procs set_k_bufs]. transitivity (k_lru s); [|apply HC].
    apply filter_move. rewrite (ca_lru _ _ _ _ HC). apply elem_of_seq. pose proof (ca_L _ _ _ _ HC b HbL). lia.
    rewrite (ca_lru _ _ _ _ HC). apply NoDup_seq.
Qed.

(** New contents in a held buffer, not yet written. *)
Lemma cache_fill L V T s b bf data :
  cache L V T s -> b ∈ L -> k_bufs s !! b = Some bf -> length data = 512%nat ->
  cache L V T (set_k_bufs (<[b := set_b_data data bf]> (k_bufs s)) s).
Proof.
  intros HC HbL Hb Hlen. pose proof (ca_held _ _ _ _ HC b bf HbL Hb) as (? & ? & ? & ? & ?).
  eapply cache_put; [exact HC|done| |done|done]. split; [done|].
  split; [intros b2 bf2 Hne Hb2 Hd2 _ E; apply Hne; by eapply (ca_uniq _ _ _ _ HC)|].
  rewrite decide_True by done. by split_and!.
Qed.

Lemma wp_modbuf s b bf f (Q : unit -> kstate -> Prop) :
  k_bufs s !! b = Some bf -> Q tt (set_k_bufs (<[b := f bf]> (k_bufs s)) s) -> wp (modbuf b f) Q s.
Proof. intros Hb HQ. unfold modbuf. kstep. by rewrite (alter_is_insert _ _ _ _ Hb). Qed.

(** The contents of a held buffer become current and stay pinned in it. *)
Lemma cache_pin L V T s b bf fl :
  cache L V T s -> b ∈ L -> k_bufs s !! b = Some bf ->
  has fl B_VALID = true -> has fl B_DIRTY = true ->
  cache L (vset V (b_blockno bf) (b_data bf)) ({[b_blockno bf]} ∪ T)
    (set_k_bufs (<[b := set_b_flags fl bf]> (k_bufs s)) s).
Proof.
  intros HC HbL Hb Hv Hd. destruct (ca_held _ _ _ _ HC b bf HbL Hb) as (Hl & Href & Hdev & _).
  pose proof (insert_cases (k_bufs s) b bf (set_b_flags fl bf) Hb) as Hcase.
  assert (forall b2 x, b2 <> b -> k_bufs s !! b2 = Some x -> b_dev x = 1 -> b_blockno x <> b_blockno bf) as Hother.
  { intros b2 x Hne Hx Hd1 E. apply Hne. by eapply (ca_uniq _ _ _ _ HC). }
  pose proof HC as []. constructor; cbn; try done.
  - by rewrite length_insert.
  - intros b2 x [[-> ->]|[? ?]]%Hcase; [exact (ca_data0 b bf Hb)|by eapply ca_data0].
  - intros b1 b2 x y [[-> ->]|[? ?]]%Hcase [[-> ->]|[? ?]]%Hcase; try done; [..|by apply ca_uniq0].
    + intros _ Hd1 E. symmetry in E. by apply (Hother b2 y) in E.
    + intros Hd1 _ E. by apply (Hother b1 x) in E.
  - intros b2 x Hin [[-> ->]|[? Hx]]%Hcase; [split_and!; try done; cbn; set_solver|].
    destruct (ca_held0 b2 x Hin Hx) as (? & ? & ? & ? & Hd1). split_and!; try done.
    intros ?%Hd1. apply elem_of_union. by right.
  - intros b2 x Hin [[-> ->]|[? Hx]]%Hcase; [done|].
    destruct (ca_free0 b2 x Hin Hx) as (? & ? & Hval & Hd1). split_and!; try done.
    + intros Hdv ?. rewrite vset_ne by eauto. eauto.
    + intros (? & ? & ?)%Hd1. split_and!; [done..|]. apply elem_of_union. by right.
  - intros x Hx. rewrite vset_ne by set_solver. apply ca_view0. set_solver.
  - intros x Hx. destruct (decide (x = b_blockno bf)) as [->|Hne].
    + exists b, (set_b_flags fl bf). rewrite list_lookup_insert_eq by (by eapply lookup_lt_Some). done.
    + destruct (ca_pin0 x) as (b2 & y & Hy & Hd2 & E & Hfl); [set_solver|]. exists b2, y.
      rewrite list_lookup_insert_ne; [done|]. intros <-. congruence.
  - intros x. unfold vset. case_decide; eauto.
Qed.

End cache.
