(* ===== verification/LogCrash.v ===== *)
(** * Crash safety of the log (log.c)

    A crash may stop the kernel after any number of its disk writes.
    [replayed] is what recovery makes of a disk: the blocks named in the log
    header get the contents of the log.  The theorems show that the commit of a
    transaction, stopped anywhere, leaves a disk from which recovery gets
    either all of the transaction or nothing of it, that recovery computes
    [replayed], and that recovery may itself be stopped and repeated. *)

From S2P Require Import Prelude Mmu Mem Bytes State Kernel Sched Sleeplock Bio BioCache Log.

(** ** The log on the disk *)

(** The block numbers in a log header ([struct logheader]). *)
Definition header (hd : list Z) : list Z :=
  (fun i => get32 hd (4 + 4 * i)) <$> seq 0 (Z.to_nat (s32 (get32 hd 0))).

(** The disk after [i] blocks of the log are installed. *)
Fixpoint installed (start : Z) (D : Z -> list Z) (bs : list Z) (i : nat) : Z -> list Z :=
  match i with
  | O => D
  | S i =>
      match bs !! i with
      | Some b => vset (installed start D bs i) b (D (start + 1 + Z.of_nat i))
      | None => installed start D bs i
      end
  end.

Definition replayed (start : Z) (D : Z -> list Z) : Z -> list Z :=
  installed start D (header (D start)) (length (header (D start))).

(** ** Histories of disk writes *)

(** The disk after the writes [ws], latest first. *)
Definition disk_after (dk : gmap (Z * Z) (list Z)) (ws : list (Z * list Z)) : gmap (Z * Z) (list Z) :=
  foldr (fun w dk => <[(1, fst w) := snd w]> dk) dk ws.

(** Between [s0] and [s] blocks were written one at a time, and every disk on
    the way satisfies [P]. *)
Definition crashes (P : (Z -> list Z) -> Prop) (s0 s : kstate) : Prop :=
  exists ws, k_writes s = ws ++ k_writes s0 /\ k_disk s = disk_after (k_disk s0) ws /\
    forall later ws', ws = later ++ ws' -> P (disk_block (disk_after (k_disk s0) ws') 1).

Section crashes.
Implicit Types (P : (Z -> list Z) -> Prop).

Lemma crashes_refl P s : P (disk_block (k_disk s) 1) -> crashes P s s.
Proof. intros HP. exists []. split_and!; [done..|]. intros l ws' [_ ->]%eq_sym%app_eq_nil. done. Qed.

(** Steps that leave the disk alone. *)
Lemma crashes_same P s0 s s' :
  crashes P s0 s -> k_writes s' = k_writes s -> k_disk s' = k_disk s -> crashes P s0 s'.
Proof. intros (ws & Hw & Hd & HP) Ew Ed. exists ws. by rewrite Ew, Ed. Qed.

Lemma crashes_write P s0 s bno data :
  crashes P s0 s -> P (disk_block (k_disk (written bno data s)) 1) -> crashes P s0 (written bno data s).
Proof.
  intros (ws & Hw & Hd & HP) HPn. exists ((bno, data) :: ws). unfold written in *. cbn in *.
  rewrite Hw, Hd in *. split_and!; [done..|]. intros [|w l] ws' [=]; subst; [done|eauto].
Qed.

Lemma crashes_end P s0 s : crashes P s0 s -> P (disk_block (k_disk s) 1).
Proof. intros (ws & _ & -> & HP). by apply (HP []). Qed.

Lemma crashes_trans P s0 s s' : crashes P s0 s -> crashes P s s' -> crashes P s0 s'.
Proof.
  intros (ws & Hw & Hd & HP) (ws' & Hw' & Hd' & HP'). exists (ws' ++ ws).
  assert (forall a, disk_after (k_disk s0) (a ++ ws) = disk_after (k_disk s) a) as E.
  { intros a. rewrite Hd. unfold disk_after. by rewrite foldr_app. }
  split_and!; [by rewrite Hw', Hw, app_assoc|by rewrite E|].
  intros l a [c [[-> ->]|[-> ->]]]%app_eq_app; [rewrite E; eauto|eauto].
Qed.

End crashes.

(** ** Installing *)

Lemma take_elem {A} (x : A) i l : x ∈ take i l -> x ∈ l.
Proof. intros (j & Hj & _)%elem_of_take. by eapply list_elem_of_lookup_2. Qed.

Section install.
Context (start : Z).

Lemma installed_not D bs i bno : bno ∉ take i bs -> installed start D bs i bno = D bno.
Proof.
  induction i as [|i IH]; simpl; [done|]. destruct (bs !! i) as [b|] eqn:E.
  - rewrite (take_S_r _ _ _ E), not_elem_of_app, not_elem_of_cons. intros (? & ? & _).
    rewrite vset_ne by done. auto.
  - apply lookup_ge_None in E. rewrite take_ge by lia. intros Hn. apply IH. by rewrite take_ge by lia.
Qed.

Lemma installed_in D bs i j bno :
  NoDup bs -> bs !! j = Some bno -> (j < i <= length bs)%nat ->
  installed start D bs i bno = D (start + 1 + Z.of_nat j).
Proof.
  intros Hnd Hj. induction i as [|i IH]; intros Hi; [lia|]. simpl.
  destruct (lookup_lt_is_Some_2 bs i) as [b E]; [lia|]. rewrite E.
  destruct (decide (j = i)) as [->|Hne]; [rewrite Hj in E; injection E as ->; by rewrite vset_eq|].
  rewrite vset_ne; [apply IH; lia|]. intros ->. apply Hne. by eapply NoDup_lookup.
Qed.

Lemma installed_ext D D' bs i bno :
  (forall x, D x = D' x) -> installed start D bs i bno = installed start D' bs i bno.
Proof.
  intros E. induction i as [|i IH]; simpl; [done|]. destruct (bs !! i); [|done].
  unfold vset. case_decide; [apply E|apply IH].
Qed.

End install.

Section log.
Context `{KernelImage} (p : nat) (pid : Z) (start : Z).
Context (Hstart : 0 <= start /\ start + 30 <= disksize).

(** A block outside the log. *)
Definition home (bno : Z) : Prop := 0 <= bno < disksize /\ ~ (start <= bno < start + 30).

(** The blocks of a transaction that fits the log. *)
Definition trans_ok (bs : list Z) : Prop := NoDup bs /\ Forall home bs /\ (length bs <= 29)%nat.

(** The in-memory log with the transaction [bs]. *)
Record log_at (bs : list Z) (lg : logstate) : Prop := {
  la_start : l_start lg = start;
  la_dev : l_dev lg = 1;
  la_n : lh_n lg = Z.of_nat (length bs);
  la_len : length (lh_block lg) = 30%nat;
  la_blocks : take (length bs) (lh_block lg) = bs;
}.

Lemma log_at_nth bs lg i b : log_at bs lg -> bs !! i = Some b -> lh_block lg !! i = Some b.
Proof.
  intros Hl Hb. rewrite <- (la_blocks _ _ Hl) in Hb. rewrite lookup_take_lt in Hb; [done|].
  apply lookup_lt_Some in Hb. rewrite length_take in Hb. lia.
Qed.

Lemma log_at_clear bs lg : log_at bs lg -> log_at [] (set_lh_n 0 lg).
Proof. intros []. by constructor. Qed.

Lemma trans_nth bs i b : trans_ok bs -> bs !! i = Some b -> home b /\ (i < 29)%nat.
Proof.
  intros (_ & Hh & Hlen) Hb. rewrite Forall_lookup in Hh. apply lookup_lt_Some in Hb as Hlt.
  split; [eauto|lia].
Qed.

Lemma replayed_installed D bs i bno :
  header (D start) = bs -> trans_ok bs -> (i <= length bs)%nat -> home bno ->
  replayed start (installed start D bs i) bno = replayed start D bno.
Proof.
  intros Hhd Hok Hi Hbno. pose proof Hok as (Hnd & Hh & Hlen).
  assert (forall x, start <= x < start + 30 -> installed start D bs i x = D x) as Hlog.
  { intros x Hx. apply installed_not. intros Hin. rewrite Forall_forall in Hh.
    destruct (Hh x) as [_ Hn]; [by eapply take_elem|done]. }
  unfold replayed. rewrite Hlog, Hhd by lia.
  destruct (decide (bno ∈ bs)) as [Hin|Hn].
  - apply list_elem_of_lookup in Hin as [j Hj]. apply lookup_lt_Some in Hj as Hlt.
    rewrite (installed_in start (installed start D bs i) bs _ j), (installed_in start D bs _ j bno) by (done || lia).
    apply Hlog. lia.
  - rewrite !installed_not; [done|..]; by intros ?%take_elem.
Qed.

(** ** One block copied from buffer to buffer and written *)

(** One block was written between [s] and [s']; the log is as it was. *)
Definition wrote (bno : Z) (data : list Z) (s s' : kstate) : Prop :=
  k_writes s' = (bno, data) :: k_writes s /\ k_disk s' = <[(1, bno) := data]> (k_disk s) /\
  k_log s' = k_log s.

Lemma crashes_wrote P s0 s s' bno data :
  crashes P s0 s -> wrote bno data s s' -> P (disk_block (k_disk s') 1) -> crashes P s0 s'.
Proof.
  intros Hc (Hw & Hd & _) HP. eapply crashes_same; [apply (crashes_write P s0 s bno data Hc)|done|done].
  unfold written. cbn. by rewrite <- Hd.
Qed.

Lemma wrote_disk bno data s s' x :
  wrote bno data s s' -> disk_block (k_disk s') 1 x = vset (disk_block (k_disk s) 1) bno data x.
Proof. intros (_ & Hd & _). rewrite <- disk_block_written. unfold written. cbn. by rewrite Hd. Qed.

Lemma wp_copy_block V T s src dst sb db (Q : unit -> kstate -> Prop) :
  cache p pid ({[dst]} ∪ {[src]}) V T s -> src <> dst ->
  k_bufs s !! src = Some sb -> b_data sb = V (b_blockno sb) ->
  k_bufs s !! dst = Some db -> b_blockno db < disksize -> b_blockno db <> b_blockno sb ->
  (forall s', cache p pid ∅ (vset V (b_blockno db) (V (b_blockno sb))) (T ∖ {[b_blockno db]}) s' ->
     wrote (b_blockno db) (V (b_blockno sb)) s s' -> Q tt s') ->
  wp (lb ← getbuf src; modbuf dst (set_b_data (b_data lb));; bwrite dst;; brelse src;; brelse dst) Q s.
Proof.
  intros HC Hne Hs Hsd Hd Hsz Hbne HQ.
  assert (forall f : buf, <[dst := f]> (k_bufs s) !! dst = Some f) as Hput.
  { intros f. apply list_lookup_insert_eq. by eapply lookup_lt_Some. }
  kstep. eapply wp_getbuf; [done|]. kstep. eapply wp_modbuf; [done|].
  kstep. eapply (wp_bwrite p pid ({[dst]} ∪ {[src]}) V T); [|set_solver|apply Hput|done|].
  { apply cache_fill; [done|set_solver|done|]. rewrite Hsd. apply HC. }
  intros fl s1 HC1.
  change (b_data (set_b_data (b_data sb) db)) with (b_data sb) in HC1.
  change (b_blockno (set_b_data (b_data sb) db)) with (b_blockno db) in HC1. rewrite Hsd in HC1.
  assert (k_bufs s1 = <[dst := set_b_flags fl (set_b_data (V (b_blockno sb)) db)]> (k_bufs s)) as Hb1.
  { unfold s1. cbn. by rewrite list_insert_insert_eq, Hsd. }
  assert (wrote (b_blockno db) (V (b_blockno sb)) s s1) as Hw by (by rewrite <- Hsd). clearbody s1.
  kstep. eapply (wp_brelse p pid); [exact HC1|set_solver|rewrite Hb1, list_lookup_insert_ne by done; done| |].
  { rewrite vset_ne by congruence. done. }
  intros s2 Ho2 HC2 Hb2. eapply (wp_brelse p pid); [exact HC2|set_solver| | |].
  { rewrite Hb2, Hb1 by done. apply Hput. }
  { cbn. by rewrite vset_eq. }
  intros s3 Ho3 HC3 _. apply HQ.
  - by replace (({[dst]} ∪ {[src]}) ∖ {[src]} ∖ {[dst]}) with (∅ : gset nat) in HC3 by set_solver.
  - destruct Ho2 as (? & ? & ? & -> & _), Ho3 as (? & ? & ? & -> & _). done.
Qed.

(** ** The two copying loops *)

Lemma size_room (T : gset Z) : (size T < 30)%nat -> (size T + size (∅ : gset nat) < 30)%nat.
Proof. rewrite size_empty. lia. Qed.

Lemma wp_log_block bs i b s Q :
  log_at bs (k_log s) -> bs !! i = Some b -> Q b s -> wp (log_block i) Q s.
Proof. intros Hl Hb HQ. unfold log_block. wp_steps. by rewrite (log_at_nth _ _ _ _ Hl Hb). Qed.

(** Both loops read block [x] of the log area, then block [y] outside it. *)
Lemma wp_bread_pair V T s bs i y (body : nat -> nat -> K unit) (Q : unit -> kstate -> Prop) :
  let x := start + 1 + Z.of_nat i in
  cache p pid ∅ V T s -> log_at bs (k_log s) -> trans_ok bs -> bs !! i = Some y ->
  (size T < 30)%nat -> (y ∈ T \/ (size T + 1 < 30)%nat) ->
  (forall lb db s' bl bd, lb <> db -> cache p pid ({[db]} ∪ {[lb]}) V T s' ->
     k_bufs s' !! lb = Some bl -> b_data bl = V x -> b_blockno bl = x ->
     k_bufs s' !! db = Some bd -> b_data bd = V y -> b_blockno bd = y ->
     k_writes s' = k_writes s -> k_disk s' = k_disk s -> k_log s' = k_log s ->
     wp (body lb db) Q s') ->
  wp (lg ← gets k_log;
      lbuf ← bread (u32 (l_dev lg)) (u32 (l_start lg + Z.of_nat i + 1));
      bno ← log_block i;
      dbuf ← bread (u32 (l_dev lg)) (u32 bno);
      body lbuf dbuf) Q s.
Proof.
  intros x HC Hl Hok Hy Hsz Hroom HQ. destruct (trans_nth bs i y Hok Hy) as [[Hy1 Hy2] Hi].
  pose proof disksize_range. pose proof Hl as [Hls Hld _ _ _].
  kstep. kstep. rewrite Hld, Hls. change (u32 1) with 1.
  replace (start + Z.of_nat i + 1) with x by lia. rewrite u32_small by lia.
  kstep. eapply (wp_bread p pid ∅ V T); [done|lia|set_solver|right; by apply size_room|].
  intros lb bl _ s1 HC1 Hbl Hno Hdl. kstep. eapply wp_log_block; [exact Hl|done|].
  rewrite u32_small by lia. kstep. eapply (wp_bread p pid _ V T); [exact HC1|lia| | |].
  - intros b bf Hb Hbf. assert (b = lb) as -> by set_solver. rewrite Hbl in Hbf. injection Hbf as <-. lia.
  - destruct Hroom; [by left|right]. rewrite union_empty_r_L, size_singleton. done.
  - intros db bd Hne s2 HC2 Hbd Hno2 Hdd. assert (lb <> db) as Hne' by set_solver.
    apply (HQ lb db s2 bl bd); try done.
    + by rewrite union_empty_r_L in HC2.
    + unfold s2. cbn. rewrite list_lookup_insert_ne by done. exact Hbl.
Qed.

(** One turn of install_trans. *)
Lemma wp_install_body V T s bs i y (Q : unit -> kstate -> Prop) :
  let x := start + 1 + Z.of_nat i in
  cache p pid ∅ V T s -> log_at bs (k_log s) -> trans_ok bs -> bs !! i = Some y ->
  (size T < 30)%nat -> (y ∈ T \/ (size T + 1 < 30)%nat) ->
  (forall s', cache p pid ∅ (vset V y (V x)) (T ∖ {[y]}) s' -> wrote y (V x) s s' -> Q tt s') ->
  wp (lg ← gets k_log;
      lbuf ← bread (u32 (l_dev lg)) (u32 (l_start lg + Z.of_nat i + 1));
      bno ← log_block i;
      dbuf ← bread (u32 (l_dev lg)) (u32 bno);
      lb ← getbuf lbuf;
      modbuf dbuf (set_b_data (b_data lb));;
      bwrite dbuf;;
      brelse lbuf;;
      brelse dbuf) Q s.
Proof.
  intros x HC Hl Hok Hy Hsz Hroom HQ. destruct (trans_nth bs i y Hok Hy) as [[Hy1 Hy2] Hi].
  eapply (wp_bread_pair V T s bs i y); [done..|].
  intros lb db s' bl bd Hne HC' Hbl Hdl Hnl Hbd Hdd Hnd Hw Hdk Hlg.
  eapply (wp_copy_block V T); [exact HC'|done|done|congruence|done|lia|rewrite Hnd, Hnl; lia|].
  rewrite Hnd, Hnl. intros s2 HC2 (Hw2 & Hd2 & Hl2). apply HQ; [done|].
  unfold wrote. rewrite Hw2, Hd2, Hl2, Hw, Hdk, Hlg. done.
Qed.

(** One turn of write_log. *)
Lemma wp_write_log_body V T s bs i y (Q : unit -> kstate -> Prop) :
  let x := start + 1 + Z.of_nat i in
  cache p pid ∅ V T s -> log_at bs (k_log s) -> trans_ok bs -> bs !! i = Some y ->
  (size T < 30)%nat -> (y ∈ T \/ (size T + 1 < 30)%nat) ->
  (forall s', cache p pid ∅ (vset V x (V y)) (T ∖ {[x]}) s' -> wrote x (V y) s s' -> Q tt s') ->
  wp (lg ← gets k_log;
      to ← bread (u32 (l_dev lg)) (u32 (l_start lg + Z.of_nat i + 1));
      bno ← log_block i;
      from ← bread (u32 (l_dev lg)) (u32 bno);
      fb ← getbuf from;
      modbuf to (set_b_data (b_data fb));;
      bwrite to;;
      brelse from;;
      brelse to) Q s.
Proof.
  intros x HC Hl Hok Hy Hsz Hroom HQ. destruct (trans_nth bs i y Hok Hy) as [[Hy1 Hy2] Hi].
  eapply (wp_bread_pair V T s bs i y); [done..|].
  intros lb db s' bl bd Hne HC' Hbl Hdl Hnl Hbd Hdd Hnd Hw Hdk Hlg. rewrite union_comm_L in HC'.
  eapply (wp_copy_block V T); [exact HC'|done|done|congruence|done|lia|rewrite Hnd, Hnl; lia|].
  rewrite Hnd, Hnl. intros s2 HC2 (Hw2 & Hd2 & Hl2). apply HQ; [done|].
  unfold wrote. rewrite Hw2, Hd2, Hl2, Hw, Hdk, Hlg. done.
Qed.

(** The blocks [W] after [i] blocks of the transaction went to the log. *)
Fixpoint logged (W V : Z -> list Z) (bs : list Z) (i : nat) : Z -> list Z :=
  match i with
  | O => W
  | S i =>
      match bs !! i with
      | Some b => vset (logged W V bs i) (start + 1 + Z.of_nat i) (V b)
      | None => logged W V bs i
      end
  end.

Lemma logged_not W V bs i bno :
  ~ (start + 1 <= bno < start + 1 + Z.of_nat i) -> logged W V bs i bno = W bno.
Proof.
  induction i as [|i IH]; intros Hb; simpl; [done|].
  destruct (bs !! i); [rewrite vset_ne by lia|]; apply IH; lia.
Qed.

Lemma logged_in W V bs i j b :
  bs !! j = Some b -> (j < i)%nat -> logged W V bs i (start + 1 + Z.of_nat j) = V b.
Proof.
  intros Hj. induction i as [|i IH]; intros Hi; [lia|]. simpl. destruct (decide (j = i)) as [->|Hne].
  - by rewrite Hj, vset_eq.
  - destruct (bs !! i); [rewrite vset_ne by lia|]; apply IH; lia.
Qed.

(** The pinned blocks of a transaction are outside the log. *)
Definition pins_ok (T : gset Z) : Prop := (size T < 30)%nat /\ forall x, x ∈ T -> home x.

Lemma pins_empty : pins_ok ∅.
Proof. split; [rewrite size_empty; lia|]. by intros x ?%elem_of_empty. Qed.

Lemma pins_not_log T x : pins_ok T -> start <= x < start + 30 -> x ∉ T.
Proof. intros [_ HT] Hx Hin. by destruct (HT x Hin). Qed.

Lemma wp_log_tails bs s Q :
  log_at bs (k_log s) -> Q (seq 0 (length bs)) s -> wp log_tails Q s.
Proof. intros Hl HQ. unfold log_tails. wp_steps. by rewrite (la_n _ _ Hl), Nat2Z.id. Qed.

Section loops.
Context (P : (Z -> list Z) -> Prop) (s0 : kstate) (bs : list Z) (Hok : trans_ok bs).

Lemma wp_install_trans V T s (Q : unit -> kstate -> Prop) :
  let D := disk_block (k_disk s) 1 in
  cache p pid ∅ V T s -> log_at bs (k_log s) -> pins_ok T ->
  ((forall y, y ∈ bs -> y ∈ T) \/ (size T + 1 < 30)%nat) ->
  crashes P s0 s ->
  (forall i D', (i <= length bs)%nat -> (forall x, D' x = installed start D bs i x) -> P D') ->
  (forall s', cache p pid ∅ (installed start V bs (length bs)) (T ∖ list_to_set bs) s' ->
     k_log s' = k_log s -> (forall x, disk_block (k_disk s') 1 x = installed start D bs (length bs) x) ->
     crashes P s0 s' -> Q tt s') ->
  wp install_trans Q s.
Proof.
  intros D HC Hl HT Hroom Hcr HP HQ. pose proof Hok as (Hnd & Hh & Hlen).
  unfold install_trans. kstep. eapply wp_log_tails; [done|].
  apply (wp_for_each_seq (fun i s' =>
    cache p pid ∅ (installed start V bs i) (T ∖ list_to_set (take i bs)) s' /\ k_log s' = k_log s /\
    (forall x, disk_block (k_disk s') 1 x = installed start D bs i x) /\ crashes P s0 s')).
  - intros i s' Hi (HC' & Hlg & HD & Hcr'). destruct (lookup_lt_is_Some_2 bs i Hi) as [y Hy].
    assert (forall W, installed start W bs i (start + 1 + Z.of_nat i) = W (start + 1 + Z.of_nat i)) as Hx.
    { intros W. apply installed_not. intros Hin%take_elem. rewrite Forall_forall in Hh.
      destruct (Hh _ Hin) as [_ []]. lia. }
    assert (size (T ∖ list_to_set (take i bs)) <= size T)%nat as Hs by (apply subseteq_size; set_solver).
    eapply (wp_install_body _ _ s' bs i y); [exact HC'|by rewrite Hlg|done|done|by destruct HT; lia| |].
    + destruct Hroom as [Hin|?]; [left|right; lia]. apply elem_of_difference. split.
      * apply Hin. by eapply list_elem_of_lookup_2.
      * rewrite elem_of_list_to_set. intros (j & Hj & Hlt)%elem_of_take.
        pose proof (NoDup_lookup _ _ _ _ Hnd Hj Hy). lia.
    + rewrite Hx. intros s2 HC2 Hw.
      assert (forall x, disk_block (k_disk s2) 1 x = installed start D bs (S i) x) as HD2.
      { intros x. rewrite (wrote_disk _ _ _ _ _ Hw). simpl. rewrite Hy. unfold vset.
        case_decide; [|by rewrite HD]. eapply ca_view; [done|]. eapply pins_not_log; [done|lia]. }
      split_and!; [|by destruct Hw as (_ & _ & ->)|done|].
      * simpl. rewrite Hy, (take_S_r _ _ _ Hy), list_to_set_app_L.
        replace (T ∖ _) with (T ∖ list_to_set (take i bs) ∖ {[y]}) by set_solver. done.
      * eapply crashes_wrote; [done..|]. by apply (HP (S i)); [lia|].
  - split_and!; try done. simpl. by rewrite difference_empty_L.
  - intros s' (HC' & Hlg & HD & Hcr'). apply HQ; try done. by rewrite take_ge in HC' by lia.
Qed.

Lemma wp_write_log V T s (Q : unit -> kstate -> Prop) :
  let D := disk_block (k_disk s) 1 in
  cache p pid ∅ V T s -> log_at bs (k_log s) -> pins_ok T -> (forall y, y ∈ bs -> y ∈ T) ->
  crashes P s0 s ->
  (forall i D', (i <= length bs)%nat -> (forall x, D' x = logged D V bs i x) -> P D') ->
  (forall s', cache p pid ∅ (logged V V bs (length bs)) T s' -> k_log s' = k_log s ->
     (forall x, disk_block (k_disk s') 1 x = logged D V bs (length bs) x) ->
     crashes P s0 s' -> Q tt s') ->
  wp write_log Q s.
Proof.
  intros D HC Hl HT Hin Hcr HP HQ. pose proof Hok as (Hnd & Hh & Hlen). rewrite Forall_forall in Hh.
  unfold write_log. kstep. eapply wp_log_tails; [done|].
  apply (wp_for_each_seq (fun i s' =>
    cache p pid ∅ (logged V V bs i) T s' /\ k_log s' = k_log s /\
    (forall x, disk_block (k_disk s') 1 x = logged D V bs i x) /\ crashes P s0 s')).
  - intros i s' Hi (HC' & Hlg & HD & Hcr'). destruct (lookup_lt_is_Some_2 bs i Hi) as [y Hy].
    assert (y ∈ bs) as Hyb by (by eapply list_elem_of_lookup_2). destruct (Hh y Hyb) as [Hy1 Hy2].
    assert (logged V V bs i y = V y) as Ey by (apply logged_not; lia).
    eapply (wp_write_log_body _ _ s' bs i y); [exact HC'|by rewrite Hlg|done|done|apply HT|left; auto|].
    rewrite Ey. intros s2 HC2 Hw.
    assert (forall x, disk_block (k_disk s2) 1 x = logged D V bs (S i) x) as HD2.
    { intros x. rewrite (wrote_disk _ _ _ _ _ Hw). simpl. rewrite Hy. unfold vset. by rewrite HD. }
    split_and!; [|by destruct Hw as (_ & _ & ->)|done|].
    + simpl. rewrite Hy. rewrite difference_disjoint_L in HC2; [done|].
      pose proof (pins_not_log T (start + 1 + Z.of_nat i) HT ltac:(lia)). set_solver.
    + eapply crashes_wrote; [done..|]. by apply (HP (S i)); [lia|].
  - by split_and!.
  - intros s' (HC' & Hlg & HD & Hcr'). by apply HQ.
Qed.

End loops.

(** ** The header block *)

Lemma header_intro hd bs :
  s32 (get32 hd 0) = Z.of_nat (length bs) ->
  (forall j b, bs !! j = Some b -> get32 hd (4 + 4 * j) = b) -> header hd = bs.
Proof.
  intros Hn Hb. unfold header. rewrite Hn, Nat2Z.id. apply list_eq. intros j.
  rewrite list_lookup_fmap. destruct (bs !! j) as [b|] eqn:E.
  - apply lookup_lt_Some in E as Hlt. rewrite lookup_seq_lt by done. simpl. f_equal. by apply Hb.
  - apply lookup_ge_None in E. by rewrite lookup_seq_ge.
Qed.

(** The header block [hd] names the blocks [bs]. *)
Definition head_is (hd bs : list Z) : Prop :=
  s32 (get32 hd 0) = Z.of_nat (length bs) /\ header hd = bs.

(** The header block in buffer [b] while write_head fills it in. *)
Definition filling (bs : list Z) (s1 : kstate) (b : nat) (bf : buf) (i : nat) (s : kstate) : Prop :=
  exists hd, s = set_k_bufs (<[b := set_b_data hd bf]> (k_bufs s1)) s1 /\ length hd = 512%nat /\
    get32 hd 0 = Z.of_nat (length bs) /\
    forall j x, bs !! j = Some x -> (j < i)%nat -> get32 hd (4 + 4 * j) = x.

Lemma wp_fill_header bs s1 b bf s (Q : unit -> kstate -> Prop) :
  (length bs <= 30)%nat -> Forall (fun x => 0 <= x < 4294967296) bs ->
  k_bufs s1 !! b = Some bf -> log_at bs (k_log s1) -> filling bs s1 b bf 0 s ->
  (forall s', filling bs s1 b bf (length bs) s' -> Q tt s') ->
  wp (for_each (seq 0 (length bs)) (fun i =>
        bno ← log_block i;
        modbuf b (fun bf => set_b_data (put32 (b_data bf) (4 + 4 * i) bno) bf))) Q s.
Proof.
  intros Hlen Hr Hb Hl Hf HQ. eapply (wp_for_each_seq (filling bs s1 b bf)); [|done|done].
  intros i s' Hi (hd & -> & Hlh & Hn & Hj). destruct (lookup_lt_is_Some_2 bs i Hi) as [y Hy].
  kstep. eapply wp_log_block; [exact Hl|done|].
  eapply wp_modbuf; [cbn; apply list_lookup_insert_eq; by eapply lookup_lt_Some|].
  cbn [k_bufs set_k_bufs b_data set_b_data]. rewrite list_insert_insert_eq, bufs_put.
  exists (put32 hd (4 + 4 * i) y). rewrite Forall_lookup in Hr. split_and!.
  - done.
  - by rewrite length_put32 by lia.
  - by rewrite get32_put32_ne by lia.
  - intros j x Hx Hlt. destruct (decide (j = i)) as [->|Hne].
    + rewrite Hy in Hx. injection Hx as ->. rewrite get32_put32_eq by lia. apply u32_small. eauto.
    + rewrite get32_put32_ne by lia. apply Hj; [done|lia].
Qed.

Lemma wp_write_head V T s bs (Q : unit -> kstate -> Prop) :
  cache p pid ∅ V T s -> log_at bs (k_log s) -> trans_ok bs -> pins_ok T ->
  (forall s' hd, head_is hd bs -> cache p pid ∅ (vset V start hd) T s' -> wrote start hd s s' -> Q tt s') ->
  wp write_head Q s.
Proof.
  intros HC Hl Hok HT HQ. pose proof Hok as (_ & Hh & Hlen). pose proof disksize_range.
  assert (Forall (fun x => 0 <= x < 4294967296) bs) as Hr.
  { eapply Forall_impl; [exact Hh|]. intros x [? _]. lia. }
  unfold write_head. kstep. kstep. rewrite (la_dev _ _ Hl), (la_start _ _ Hl).
  change (u32 1) with 1. rewrite u32_small by lia. kstep.
  eapply (wp_bread p pid ∅ V T); [done|lia|set_solver|right; by apply size_room, HT|].
  intros b bf _ s1 HC1 Hbf Hbno Hdat. rewrite union_empty_r_L in HC1.
  assert (k_log s1 = k_log s) as Hl1 by done. assert (k_writes s1 = k_writes s) as Hw1 by done.
  assert (k_disk s1 = k_disk s) as Hd1 by done. clearbody s1.
  assert (length (b_data bf) = 512%nat) as Hlb by (by eapply ca_data).
  kstep. eapply wp_modbuf; [done|]. kstep. eapply wp_log_tails; [cbn; by rewrite Hl1|]. kstep.
  eapply (wp_fill_header bs s1 b bf); [lia|done|done|by rewrite Hl1| |].
  { exists (put32 (b_data bf) 0 (lh_n (k_log s))). rewrite length_put32, get32_put32_eq, (la_n _ _ Hl) by lia.
    split_and!; [done..|apply u32_small; lia|lia]. }
  intros s2 (hd & -> & Hlhd & Hn & Hj).
  assert (head_is hd bs) as Hhd.
  { assert (s32 (get32 hd 0) = Z.of_nat (length bs)) as E by (rewrite Hn; apply s32_small; lia).
    split; [done|]. apply header_intro; [done|]. intros j x Hx. apply Hj; [done|]. by eapply lookup_lt_Some. }
  kstep. eapply (wp_bwrite p pid {[b]} V T).
  { apply cache_fill; [done|set_solver|done..]. }
  { set_solver. } { cbn. apply list_lookup_insert_eq. by eapply lookup_lt_Some. } { cbn. lia. }
  intros fl s3 HC3. change (b_blockno (set_b_data hd bf)) with (b_blockno bf) in HC3. rewrite Hbno in HC3.
  rewrite difference_disjoint_L in HC3 by (pose proof (pins_not_log T start HT ltac:(lia)); set_solver).
  eapply (wp_brelse p pid); [exact HC3|set_solver| | |].
  { unfold s3. cbn. rewrite list_insert_insert_eq. apply list_lookup_insert_eq. by eapply lookup_lt_Some. }
  { cbn. by rewrite Hbno, vset_eq. }
  intros s4 Ho HC4 _. apply (HQ s4 hd); [done| |].
  - by rewrite difference_diag_L in HC4.
  - destruct Ho as (? & ? & ? & -> & _). unfold wrote, s3. cbn. by rewrite Hbno, Hw1, Hd1, Hl1.
Qed.

(** ** Reading the header *)

Lemma cache_log L V T lg s : cache p pid L V T s -> cache p pid L V T (set_k_log lg s).
Proof. intros []. by constructor. Qed.

(** The log while read_head copies the block numbers [bs] into it. *)
Definition reading (bs : list Z) (s1 : kstate) (i : nat) (s : kstate) : Prop :=
  exists lg, s = set_k_log lg s1 /\ l_start lg = start /\ l_dev lg = 1 /\
    lh_n lg = Z.of_nat (length bs) /\ length (lh_block lg) = 30%nat /\
    forall j x, bs !! j = Some x -> (j < i)%nat -> lh_block lg !! j = Some x.

Lemma reading_done bs s1 s : (length bs <= 30)%nat -> reading bs s1 (length bs) s -> log_at bs (k_log s).
Proof.
  intros Hlen (lg & -> & ? & ? & ? & Hl & Hj). constructor; try done. cbn.
  apply list_eq. intros j. destruct (bs !! j) as [x|] eqn:E.
  - apply lookup_lt_Some in E as Hlt. rewrite lookup_take_lt by done. auto.
  - apply lookup_ge_None in E. by rewrite lookup_take_ge.
Qed.

Lemma wp_read_entries hd s1 s (Q : unit -> kstate -> Prop) :
  let bs := header hd in
  (length bs <= 30)%nat -> Forall (fun x => 0 <= x < 2147483648) bs ->
  reading bs s1 0 s -> (forall s', reading bs s1 (length bs) s' -> Q tt s') ->
  wp (for_each (seq 0 (length bs)) (fun i => set_log_block i (get32 hd (4 + 4 * i)))) Q s.
Proof.
  intros bs Hlen Hr Hf HQ. eapply (wp_for_each_seq (reading bs s1)); [|done|done].
  intros i s' Hi (lg & -> & Hs & Hd & Hn & Hl & Hj). destruct (lookup_lt_is_Some_2 bs i Hi) as [y Hy].
  assert (get32 hd (4 + 4 * i) = y) as ->.
  { unfold bs, header in Hy. apply list_lookup_fmap_Some in Hy as (k & -> & Hk).
    apply lookup_seq in Hk as [-> _]. done. }
  rewrite Forall_lookup in Hr. unfold set_log_block, modlog. kstep. kstep. cbn [k_log set_k_log].
  destruct (Nat.ltb_spec i (length (lh_block lg))); [|lia]. kstep.
  rewrite s32_small by (specialize (Hr _ _ Hy); simpl in Hr; lia).
  exists (set_lh_block (<[i := y]> (lh_block lg)) lg). cbn. split_and!; try done.
  - by rewrite length_insert.
  - intros j x Hx Hlt. destruct (decide (j = i)) as [->|Hne].
    + rewrite Hy in Hx. injection Hx as ->. apply list_lookup_insert_eq. lia.
    + rewrite list_lookup_insert_ne by done. apply Hj; [done|lia].
Qed.

Lemma wp_read_head V T s bs (Q : unit -> kstate -> Prop) :
  cache p pid ∅ V T s -> pins_ok T -> head_is (V start) bs -> trans_ok bs ->
  l_start (k_log s) = start -> l_dev (k_log s) = 1 -> length (lh_block (k_log s)) = 30%nat ->
  (forall s', cache p pid ∅ V T s' -> log_at bs (k_log s') ->
     k_writes s' = k_writes s -> k_disk s' = k_disk s -> Q tt s') ->
  wp read_head Q s.
Proof.
  intros HC HT (Hn & Hbs) (_ & Hh & Hlen) Hls Hld Hll HQ. pose proof disksize_range.
  unfold read_head. kstep. kstep. rewrite Hld, Hls. change (u32 1) with 1. rewrite u32_small by lia.
  kstep. eapply (wp_bread p pid ∅ V T); [done|lia|set_solver|right; by apply size_room, HT|].
  intros b bf _ s1 HC1 Hbf Hbno Hdat. rewrite union_empty_r_L in HC1.
  kstep. eapply wp_getbuf; [done|]. rewrite Hdat. unfold modlog. kstep. kstep. kstep.
  unfold log_tails. kstep. kstep. kstep. cbn [k_log set_k_log lh_n set_lh_n]. rewrite Hn, Nat2Z.id, <- Hbs. kstep.
  eapply (wp_read_entries (V start) s1); rewrite Hbs; [lia| | |].
  - eapply Forall_impl; [exact Hh|]. intros x [? _]. lia.
  - eexists. split; [reflexivity|]. cbn. split_and!; [done..|lia].
  - intros s2 Hrd. pose proof (reading_done bs s1 s2 ltac:(lia) Hrd) as Hl2.
    destruct Hrd as (lg & -> & _). eapply (wp_brelse p pid {[b]} V T).
    + by apply cache_log.
    + set_solver.
    + exact Hbf.
    + congruence.
    + intros s3 (? & ? & ? & -> & _) HC3 _. apply HQ; [|exact Hl2|done|done].
      by rewrite difference_diag_L in HC3.
Qed.

(** ** Commit *)

Lemma replayed_ext D D' b : (forall x, D x = D' x) -> replayed start D b = replayed start D' b.
Proof. intros E. unfold replayed. rewrite <- (E start). by apply installed_ext. Qed.

Lemma replayed_none D b : head_is (D start) [] -> replayed start D b = D b.
Proof. intros [_ Hh]. unfold replayed. by rewrite Hh. Qed.

Lemma trans_nil : trans_ok [].
Proof. split_and!; [constructor|constructor|simpl; lia]. Qed.

(** A disk that recovery turns into all of [old] or all of [new]. *)
Definition old_or_new (old new : Z -> list Z) (D : Z -> list Z) : Prop :=
  (exists bs, head_is (D start) bs /\ trans_ok bs) /\ D 1 = old 1 /\
  ((forall b, home b -> replayed start D b = old b) \/ (forall b, home b -> replayed start D b = new b)).

Section commit.
Context (V D0 : Z -> list Z) (bs : list Z) (Hok : trans_ok bs).
Context (H1 : home 1) (H1bs : 1 ∉ bs).
Context (Hclean : forall b, b ∉ bs -> V b = D0 b) (Hempty : head_is (D0 start) []).

(** While the log is written the header is still empty. *)
Lemma logging_old i D : (forall x, D x = logged D0 V bs i x) -> (i <= length bs)%nat -> old_or_new D0 V D.
Proof.
  intros E Hi. assert (D start = D0 start) as Es by (rewrite E; apply logged_not; lia).
  assert (head_is (D start) []) as Hh by (by rewrite Es). pose proof Hok as (_ & _ & Hlen).
  assert (forall b, home b -> D b = D0 b) as Ho.
  { intros b [? ?]. rewrite E. apply logged_not. lia. }
  split; [exists []; split; [done|apply trans_nil]|]. split; [by apply Ho|]. left. intros b Hb. rewrite replayed_none by done. auto.
Qed.

(** The disk once the header is written. *)
Definition committed (hd : list Z) : Z -> list Z := vset (logged D0 V bs (length bs)) start hd.

Lemma replayed_committed hd b : head_is hd bs -> home b -> replayed start (committed hd) b = V b.
Proof.
  intros [_ Hh] [Hb1 Hb2]. pose proof Hok as (Hnd & _ & Hlen). unfold replayed, committed.
  rewrite vset_eq, Hh. destruct (decide (b ∈ bs)) as [Hin|Hn].
  - apply list_elem_of_lookup in Hin as [j Hj]. apply lookup_lt_Some in Hj as Hlt.
    rewrite (installed_in start _ bs _ j) by (done || lia). rewrite vset_ne by lia. by apply logged_in.
  - rewrite installed_not by (by intros ?%take_elem). rewrite vset_ne, logged_not by lia.
    symmetry. by apply Hclean.
Qed.

(** While the blocks are installed the header names them. *)
Lemma installing_new hd i D :
  head_is hd bs -> (forall x, D x = installed start (committed hd) bs i x) -> (i <= length bs)%nat ->
  old_or_new D0 V D.
Proof.
  intros Hh E Hi. pose proof Hok as (_ & Hhome & Hlen). rewrite Forall_forall in Hhome.
  assert (committed hd start = hd) as Es by apply vset_eq.
  assert (D start = hd) as Hs.
  { rewrite E, installed_not, Es; [done|]. intros Hin%take_elem. destruct (Hhome _ Hin). lia. }
  split; [exists bs; by rewrite Hs|]. split.
  - rewrite E, installed_not by (by intros ?%take_elem). destruct H1. unfold committed.
    rewrite vset_ne, logged_not by lia. done.
  - right. intros b Hb. rewrite (replayed_ext _ _ b E), replayed_installed; [by apply replayed_committed|..]; try done.
    rewrite Es. apply Hh.
Qed.

Lemma installed_all hd b :
  head_is hd bs -> home b -> installed start (committed hd) bs (length bs) b = V b.
Proof.
  intros Hh Hb. rewrite <- (replayed_committed hd b Hh Hb). unfold replayed.
  assert (committed hd start = hd) as -> by apply vset_eq. by rewrite (proj2 Hh).
Qed.

End commit.

(** What a commit of the transaction [bs] leaves behind. *)
Lemma wp_commit V s bs :
  let D0 := disk_block (k_disk s) 1 in
  cache p pid ∅ V (list_to_set bs) s -> log_at bs (k_log s) -> trans_ok bs -> home 1 -> 1 ∉ bs ->
  head_is (D0 start) [] ->
  wp commit (fun _ s' =>
    (forall b, home b -> disk_block (k_disk s') 1 b = V b) /\
    head_is (disk_block (k_disk s') 1 start) [] /\ log_at [] (k_log s') /\
    (exists V', cache p pid ∅ V' ∅ s' /\ forall b, home b -> V' b = V b) /\
    crashes (old_or_new D0 V) s s') s.
Proof.
  intros D0 HC Hl Hok H1 H1bs Hemp. pose proof Hok as (Hnd & Hh & Hlen). rewrite Forall_forall in Hh.
  assert (forall b, b ∉ bs -> V b = D0 b) as Hclean by (intros b Hb; eapply ca_view; [done|set_solver]).
  assert (pins_ok (list_to_set bs)) as HT.
  { split; [rewrite size_list_to_set by done; lia|]. intros x Hx%elem_of_list_to_set. auto. }
  assert (crashes (old_or_new D0 V) s s) as Hc0.
  { apply crashes_refl. by eapply (logging_old V D0 bs); [..|apply Nat.le_0_l]. }
  unfold commit. kstep. kstep. rewrite (la_n _ _ Hl). destruct (Z.ltb_spec 0 (Z.of_nat (length bs))) as [Hpos|H0].
  - kstep. eapply (wp_write_log (old_or_new D0 V) s bs); [done..|set_solver|done| |].
    { intros i D Hi E. by eapply (logging_old V D0 bs). }
    intros s1 HC1 Hl1 HD1 Hc1. kstep. eapply wp_write_head; [exact HC1|by rewrite Hl1|done..|].
    intros s2 hd Hhd HC2 Hw2.
    assert (forall x, disk_block (k_disk s2) 1 x = committed V D0 bs hd x) as HD2.
    { intros x. rewrite (wrote_disk _ _ _ _ _ Hw2). unfold committed, vset. by rewrite HD1. }
    pose proof (proj2 (proj2 Hw2)) as Hl2. rewrite Hl1 in Hl2.
    kstep. eapply (wp_install_trans (old_or_new D0 V) s bs); [done|exact HC2|by rewrite Hl2|done|left; set_solver| | |].
    { eapply crashes_wrote; [done..|]. by eapply (installing_new V D0 bs) with (i := 0%nat); [..|lia]. }
    { intros i D Hi E. eapply (installing_new V D0 bs); [done..| |done].
      intros x. rewrite E. by apply installed_ext. }
    intros s3 HC3 Hl3 HD3 Hc3. rewrite difference_diag_L in HC3. unfold modlog. kstep. kstep.
    eapply wp_write_head; [by apply cache_log|..].
    { cbn. rewrite Hl3, Hl2. by apply log_at_clear with bs. }
    { apply trans_nil. } { apply pins_empty. }
    intros s4 hd4 Hhd4 HC4 Hw4.
    assert (forall b, home b -> disk_block (k_disk s4) 1 b = V b) as HD4.
    { intros b Hb. rewrite (wrote_disk _ _ _ _ _ Hw4). destruct Hb as [? Hn].
      rewrite vset_ne by lia. cbn. rewrite HD3, (installed_ext _ _ _ _ _ _ HD2). by apply installed_all. }
    assert (disk_block (k_disk s4) 1 start = hd4) as Hs4 by (by rewrite (wrote_disk _ _ _ _ _ Hw4), vset_eq).
    split_and!; [done|by rewrite Hs4| | |].
    + destruct Hw4 as (_ & _ & ->). cbn. rewrite Hl3, Hl2. by apply log_at_clear with bs.
    + eexists. split; [exact HC4|]. intros b Hb. rewrite <- HD4 by done. eapply ca_view; [exact HC4|set_solver].
    + eapply crashes_wrote; [|exact Hw4|]; [by eapply crashes_same|].
      split; [exists []; rewrite Hs4; split; [done|apply trans_nil]|]. split.
      * rewrite HD4 by done. by apply Hclean.
      * right. intros b Hb. rewrite replayed_none by (by rewrite Hs4). auto.
  - destruct bs as [|? ?]; [|simpl in *; lia]. kstep.
    assert (forall b, V b = D0 b) as E by (intros; apply Hclean; apply not_elem_of_nil).
    split_and!; try done. by exists V.
Qed.

(** ** Recovery *)

(** A disk that recovery turns into [new]. *)
Definition replays_to (new : Z -> list Z) (D : Z -> list Z) : Prop :=
  (exists bs, head_is (D start) bs /\ trans_ok bs) /\ forall b, home b -> replayed start D b = new b.

Lemma wp_recover V s bs :
  cache p pid ∅ V ∅ s -> head_is (V start) bs -> trans_ok bs ->
  l_start (k_log s) = start -> l_dev (k_log s) = 1 -> length (lh_block (k_log s)) = 30%nat ->
  wp recover_from_log (fun _ s' =>
    (forall b, home b -> disk_block (k_disk s') 1 b = replayed start V b) /\
    head_is (disk_block (k_disk s') 1 start) [] /\ log_at [] (k_log s') /\
    (exists V', cache p pid ∅ V' ∅ s' /\ forall b, home b -> V' b = replayed start V b) /\
    crashes (replays_to (replayed start V)) s s') s.
Proof.
  intros HC Hhd Hok Hls Hld Hll. pose proof Hok as (Hnd & Hh & Hlen).
  assert (forall x, disk_block (k_disk s) 1 x = V x) as HV by (intros; symmetry; eapply ca_view; [done|set_solver]).
  assert (header (V start) = bs) as Hbs by apply Hhd.
  assert (forall i D, (i <= length bs)%nat -> (forall x, D x = installed start V bs i x) ->
            replays_to (replayed start V) D) as Hinst.
  { intros i D Hi E. split.
    - exists bs. rewrite E, installed_not; [done|]. intros Hin%take_elem. rewrite Forall_forall in Hh.
      destruct (Hh _ Hin). lia.
    - intros b Hb. rewrite (replayed_ext _ _ b E). by apply replayed_installed. }
  unfold recover_from_log. kstep. eapply (wp_read_head V ∅ s bs); [done|apply pins_empty|done..|].
  intros s1 HC1 Hl1 Hw1 Hd1. kstep.
  eapply (wp_install_trans (replays_to (replayed start V)) s bs); [done|exact HC1|done|apply pins_empty|..].
  { right. rewrite size_empty. lia. }
  { eapply crashes_same; [apply crashes_refl|done..]. by apply (Hinst 0%nat); [lia|]. }
  { intros i D Hi E. apply (Hinst i); [done|]. intros x. rewrite E. apply installed_ext. intros y. by rewrite Hd1. }
  intros s2 HC2 Hl2 HD2 Hc2. unfold modlog. kstep. kstep. replace (∅ ∖ list_to_set bs) with (∅ : gset Z) in HC2 by set_solver.
  eapply wp_write_head; [by apply cache_log| |apply trans_nil|apply pins_empty|].
  { cbn. rewrite Hl2. by apply log_at_clear with bs. }
  intros s3 hd Hhd3 HC3 Hw3.
  assert (forall b, home b -> disk_block (k_disk s3) 1 b = replayed start V b) as HD3.
  { intros b Hb. rewrite (wrote_disk _ _ _ _ _ Hw3). destruct Hb as [? Hn]. rewrite vset_ne by lia. cbn.
    rewrite HD2. unfold replayed. rewrite Hbs. apply installed_ext. intros y. by rewrite Hd1. }
  assert (disk_block (k_disk s3) 1 start = hd) as Hs3 by (by rewrite (wrote_disk _ _ _ _ _ Hw3), vset_eq).
  split_and!; [done|by rewrite Hs3| | |].
  - destruct Hw3 as (_ & _ & ->). cbn. rewrite Hl2. by apply log_at_clear with bs.
  - eexists. split; [exact HC3|]. intros b Hb. rewrite <- HD3 by done. eapply ca_view; [exact HC3|set_solver].
  - eapply crashes_wrote; [|exact Hw3|]; [by eapply crashes_same|].
    split; [exists []; rewrite Hs3; split; [done|apply trans_nil]|].
    intros b Hb. rewrite replayed_none by (by rewrite Hs3). auto.
Qed.

(** The superblock [struct superblock] in block 1 places the log at [start]. *)
Definition log_placed (D : Z -> list Z) : Prop := s32 (sb_logstart (sb_of_bytes (D 1))) = start.

Lemma wp_initlog V s bs :
  cache p pid ∅ V ∅ s -> head_is (V start) bs -> trans_ok bs -> log_placed V -> home 1 ->
  length (lh_block (k_log s)) = 30%nat ->
  wp (initlog 1) (fun _ s' =>
    (forall b, home b -> disk_block (k_disk s') 1 b = replayed start V b) /\
    head_is (disk_block (k_disk s') 1 start) [] /\ log_at [] (k_log s') /\
    (exists V', cache p pid ∅ V' ∅ s' /\ forall b, home b -> V' b = replayed start V b) /\
    crashes (replays_to (replayed start V)) s s') s.
Proof.
  intros HC Hhd Hok Hsb [H1 _] Hll. unfold initlog. change (BSIZE <=? 4 + 4 * LOGSIZE) with false. cbv iota.
  assert (set_k_locks (filter (fun l => l <> LK_log) (k_locks s)) s = s) as Es.
  { rewrite (ca_locks _ _ _ _ _ _ HC). cbn. rewrite <- (ca_locks _ _ _ _ _ _ HC). by destruct s. }
  kstep. unfold initlock. kstep. rewrite Es. unfold readsb. kstep. kstep. change (u32 1) with 1.
  eapply (wp_bread p pid ∅ V ∅); [done|done|set_solver|right; apply size_room, pins_empty|].
  intros b bf _ s1 HC1 Hbf Hbno Hdat. rewrite union_empty_r_L in HC1. kstep. eapply wp_getbuf; [done|].
  kstep. eapply (wp_brelse p pid {[b]} V ∅); [done|set_solver|done|congruence|].
  intros s2 (? & ? & ? & -> & _) HC2 _. rewrite difference_diag_L in HC2. kstep. unfold modlog. kstep. kstep.
  rewrite Hdat, Hsb. eapply wp_mono.
  - eapply (wp_recover V _ bs); [by apply cache_log|done..].
  - intros [] s' (Hd & Hhd' & Hlg & HC' & Hcr). split_and!; try done.
Qed.

End log.

(** ** The theorems *)

(** [dk] is the disk at some moment of a run from [s] to [s']. *)
Definition crash_point (s s' : kstate) (dk : gmap (Z * Z) (list Z)) : Prop :=
  exists later ws, k_writes s' = later ++ ws ++ k_writes s /\ dk = disk_after (k_disk s) ws.

Lemma crashes_at P s s' dk : crashes P s s' -> crash_point s s' dk -> P (disk_block dk 1).
Proof.
  intros (ws & Hw & _ & HP) (later & ws' & Hw' & ->). apply (HP later).
  rewrite Hw, app_assoc in Hw'. by apply app_inv_tail in Hw'.
Qed.

(** A kernel after boot with disk [dk]: nothing is cached dirty, process [p]
    with id [pid] runs and holds no lock. *)
Definition booted (p : nat) (pid : Z) (dk : gmap (Z * Z) (list Z)) (s : kstate) : Prop :=
  k_disk s = dk /\ cache p pid ∅ (disk_block dk 1) ∅ s /\ length (lh_block (k_log s)) = 30%nat.

Section theorems.
Context `{KernelImage} (start : Z).

(** C22. A transaction is atomic under crashes.  commit of the blocks [bs]
    returns with all of them at home on the disk, nothing pinned and the log
    empty.  Wherever a crash stops it, booting and running initlog returns, and
    then either every block outside the log has its contents from before the
    transaction or every block has its contents after the transaction. *)
Theorem commit_crash_atomic p pid V s bs :
  let old := disk_block (k_disk s) 1 in
  0 <= start /\ start + 30 <= disksize -> home start 1 -> log_placed start old ->
  cache p pid ∅ V (list_to_set bs) s -> log_at start bs (k_log s) -> trans_ok start bs -> 1 ∉ bs ->
  head_is (old start) [] ->
  exists s', commit s = Ret tt s' /\
    (forall b, home start b -> disk_block (k_disk s') 1 b = V b) /\ log_at start [] (k_log s') /\
    (exists V', cache p pid ∅ V' ∅ s') /\
    forall dk p' pid' t, crash_point s s' dk -> booted p' pid' dk t ->
      exists t', initlog 1 t = Ret tt t' /\
        ((forall b, home start b -> disk_block (k_disk t') 1 b = old b) \/
         (forall b, home start b -> disk_block (k_disk t') 1 b = V b)).
Proof.
  intros old Hst H1 Hsb HC Hl Hok H1bs Hemp.
  destruct (wp_inv _ _ _ (wp_commit p pid start Hst V s bs HC Hl Hok H1 H1bs Hemp))
    as ([] & s' & Hrun & Hnew & _ & Hlg & (V' & HC' & _) & Hcr).
  exists s'. split_and!; [done..|by exists V'|]. intros dk p' pid' t Hcp (<- & HCt & Hll).
  destruct (crashes_at _ _ _ _ Hcr Hcp) as ((bs' & Hhd & Hok') & Hsb1 & Hcase).
  assert (log_placed start (disk_block (k_disk t) 1)) as Hsbt by (unfold log_placed in *; by rewrite Hsb1).
  destruct (wp_inv _ _ _ (wp_initlog p' pid' start Hst _ t bs' HCt Hhd Hok' Hsbt H1 Hll)) as ([] & t' & Hrt & Hdt & _).
  exists t'. split; [done|].
  destruct Hcase as [Ho|Hn]; [left|right]; intros b Hb; rewrite Hdt by done; auto.
Qed.

(** Recovery is correct and may itself be stopped: on a disk with a
    well-formed log initlog returns with every block outside the log as the
    replay of the log defines it and the log empty, and a crash anywhere during
    it leaves a disk with the same replay. *)
Theorem recovery_restartable p pid s bs :
  let D := disk_block (k_disk s) 1 in
  0 <= start /\ start + 30 <= disksize -> home start 1 -> log_placed start D ->
  booted p pid (k_disk s) s -> head_is (D start) bs -> trans_ok start bs ->
  exists s', initlog 1 s = Ret tt s' /\
    (forall b, home start b -> disk_block (k_disk s') 1 b = replayed start D b) /\
    head_is (disk_block (k_disk s') 1 start) [] /\ log_at start [] (k_log s') /\
    forall dk, crash_point s s' dk -> replays_to start (replayed start D) (disk_block dk 1).
Proof.
  intros D Hst H1 Hsb (_ & HC & Hll) Hhd Hok.
  destruct (wp_inv _ _ _ (wp_initlog p pid start Hst D s bs HC Hhd Hok Hsb H1 Hll))
    as ([] & s' & Hrun & Hd & Hhd' & Hlg & _ & Hcr).
  exists s'. split_and!; [done..|]. intros dk Hcp. exact (crashes_at _ _ _ _ Hcr Hcp).
Qed.

End theorems.

(** ** A transaction of one block *)

(** The disk with a superblock that places the log at block 2; block 50 is
    about to change to sevens in a pinned buffer, buffer 0. *)
Definition small_disk : gmap (Z * Z) (list Z) := {[ (1, 1) := put32 (replicate 512 0) 16 2 ]}.

(** The same disk with the committed log of that transaction. *)
Definition committed_disk : gmap (Z * Z) (list Z) :=
  <[(1, 2) := put32 (put32 (replicate 512 0) 0 1) 4 50]> (<[(1, 3) := replicate 512 7]> small_disk).

Definition small_booted (dk : gmap (Z * Z) (list Z)) : kstate :=
  set_k_lru (seq 0 30) (set_k_disk dk (set_k_cur (Some 0%nat) zero_kstate)).

Definition small_trans : kstate :=
  set_k_bufs (mkBuf (Z.lor B_VALID B_DIRTY) 1 50 zero_sleeplock 0 (replicate 512 7) :: replicate 29 zero_buf)
    (set_k_log (mkLog 2 30 0 1 1 1 (50 :: replicate 29 0)) (small_booted small_disk)).

Definition small_view : Z -> list Z := vset (disk_block small_disk 1) 50 (replicate 512 7).

Lemma small_disk_block_len bno : length (disk_block small_disk 1 bno) = 512%nat.
Proof.
  unfold disk_block, small_disk. destruct (decide (bno = 1)) as [->|Hne]; [reflexivity|].
  rewrite lookup_singleton_ne by congruence. reflexivity.
Qed.

Lemma zero_buf_lookup n b bf : replicate n zero_buf !! b = Some bf -> bf = zero_buf.
Proof. by intros [? _]%lookup_replicate. Qed.

Lemma small_booted_ok dk :
  (forall bno, length (disk_block dk 1 bno) = 512%nat) -> booted 0 0 dk (small_booted dk).
Proof.
  intros Hlen. split; [reflexivity|]. split; [|reflexivity]. constructor; try reflexivity; try done.
  - exists zero_proc. split; reflexivity.
  - intros b bf ->%zero_buf_lookup. reflexivity.
  - intros b b' bf bf' ->%zero_buf_lookup _ Hd. exfalso. cbn in Hd. lia.
  - intros b bf _ ->%zero_buf_lookup. split_and!; (reflexivity || (cbn; intros; lia || done)).
Qed.

Lemma small_trans_ok : cache 0 0 ∅ small_view (list_to_set [50]) small_trans.
Proof.
  assert (forall b bf, k_bufs small_trans !! b = Some bf ->
    (b = 0%nat /\ bf = mkBuf (Z.lor B_VALID B_DIRTY) 1 50 zero_sleeplock 0 (replicate 512 7)) \/ bf = zero_buf) as Hb.
  { intros [|b] bf; [intros [= <-]; by left|]. intros ->%(zero_buf_lookup 29). by right. }
  constructor; try reflexivity; try done.
  - exists zero_proc. split; reflexivity.
  - intros b bf [[_ ->]| ->]%Hb; reflexivity.
  - intros b b' bf bf' [[-> ->]| ->]%Hb [[-> ->]| ->]%Hb; cbn; intros; (reflexivity || lia).
  - intros b bf _ [[-> ->]| ->]%Hb; (split_and!; [reflexivity..| |]); cbn; intros; try lia; try done.
  - intros bno Hn. unfold small_view. apply vset_ne. set_solver.
  - intros bno Hin. assert (bno = 50) as -> by set_solver. by exists 0%nat, (mkBuf 6 1 50 zero_sleeplock 0 (replicate 512 7)).
  - intros bno. unfold small_view, vset. case_decide; [reflexivity|apply small_disk_block_len].
Qed.

Section witnesses.
#[local] Existing Instance sample_image.

Lemma small_home b : 1 <= b < 1000 -> 32 <= b \/ b < 2 -> home 2 b.
Proof. intros. unfold home. change disksize with 1000. lia. Qed.

Lemma small_trans_blocks : trans_ok 2 [50].
Proof. split; [apply NoDup_singleton|]. split; [|simpl; lia]. repeat constructor; apply small_home; lia. Qed.

Lemma commit_crash_atomic_witness :
  exists s', commit small_trans = Ret tt s' /\ disk_block (k_disk s') 1 50 = replicate 512 7.
Proof.
  destruct (commit_crash_atomic 2 0 0 small_view small_trans [50]) as (s' & Hrun & Hnew & _).
  - change disksize with 1000. lia.
  - apply small_home; lia.
  - reflexivity.
  - apply small_trans_ok.
  - constructor; reflexivity.
  - apply small_trans_blocks.
  - intros ?%list_elem_of_singleton. lia.
  - split; reflexivity.
  - exists s'. split; [exact Hrun|]. rewrite Hnew; [apply vset_eq|apply small_home; lia].
Defined.

Lemma recovery_restartable_witness :
  exists s', initlog 1 (small_booted committed_disk) = Ret tt s' /\
             disk_block (k_disk s') 1 50 = replicate 512 7.
Proof.
  destruct (recovery_restartable 2 0 0 (small_booted committed_disk) [50]) as (s' & Hrun & Hd & _).
  - change disksize with 1000. lia.
  - apply small_home; lia.
  - reflexivity.
  - apply small_booted_ok. intros bno. unfold disk_block, committed_disk.
    destruct (decide (bno = 2)) as [->|?]; [reflexivity|]. rewrite lookup_insert_ne by congruence.
    destruct (decide (bno = 3)) as [->|?]; [reflexivity|]. rewrite lookup_insert_ne by congruence.
    apply small_disk_block_len.
  - split; reflexivity.
  - apply small_trans_blocks.
  - exists s'. split; [exact Hrun|]. rewrite Hd; [reflexivity|apply small_home; lia].
Defined.

End witnesses.
