(* ===== verification/LogOps.v ===== *)
(** * Transactions in memory (log.c: begin_op, log_write)

    log_write records a modified buffer in the transaction: its block number
    joins the header, once, and its contents become current without going to
    the disk.  This is what makes the state that commit expects.  begin_op
    reserves log space by LOGSIZE, one block more than the log has. *)

From S2P Require Import Prelude Mmu Mem Bytes State Kernel Sched Sleeplock Bio BioCache Log LogCrash.

(** ** Finding a block in the transaction *)

Lemma log_find_spec blocks bs bno :
  take (length bs) blocks = bs -> Forall (fun x => 0 <= x < 4294967296) bs -> 
  (log_find blocks (length bs) bno < length bs)%nat /\
    bs !! log_find blocks (length bs) bno = Some bno \/
  log_find blocks (length bs) bno = length bs /\ bno ∉ bs.
Proof.
  revert blocks. induction bs as [|x bs IH]; intros [|y blocks] Ht Hr; simpl in *; try done.
  - right. split; [done|apply not_elem_of_nil].
  - right. split; [done|apply not_elem_of_nil].
  - injection Ht as -> Ht. apply Forall_cons in Hr as [Hx Hr]. rewrite u32_small by lia.
    destruct (Z.eqb_spec x bno) as [->|Hne]; [left; split; [lia|done]|].
    destruct (IH blocks Ht Hr) as [[? ?]|[-> Hn]]; [left; split; [lia|done]|right].
    split; [done|]. apply not_elem_of_cons. split; [congruence|done].
Qed.

(** The transaction after [bno] joined it. *)
Definition joined (bs : list Z) (bno : Z) : list Z := if decide (bno ∈ bs) then bs else bs ++ [bno].

Lemma elem_of_joined bs bno x : x ∈ joined bs bno <-> x = bno \/ x ∈ bs.
Proof.
  unfold joined. case_decide.
  - split; [by right|]. by intros [->|].
  - rewrite elem_of_app, list_elem_of_singleton. tauto.
Qed.

Section ops.
Context `{KernelImage} (p : nat) (pid start : Z).

Lemma joined_ok bs bno :
  trans_ok start bs -> home start bno -> (length bs < 29)%nat -> trans_ok start (joined bs bno).
Proof.
  intros (Hnd & Hh & Hlen) Hb Hlt. unfold joined. case_decide as Hin; [by split_and!|]. split_and!.
  - apply NoDup_app. split_and!; [done| |apply NoDup_singleton]. intros x Hx ->%list_elem_of_singleton. done.
  - apply Forall_app. split; [done|]. by constructor.
  - rewrite length_app. simpl. lia.
Qed.

Lemma log_at_set bs lg i bno :
  log_at start bs lg -> bs !! i = Some bno -> log_at start bs (set_lh_block (<[i := bno]> (lh_block lg)) lg).
Proof.
  intros Hl Hi. rewrite list_insert_id by (by eapply log_at_nth). destruct Hl. by constructor.
Qed.

Lemma log_at_snoc bs lg bno :
  log_at start bs lg -> (length bs < 29)%nat ->
  log_at start (bs ++ [bno])
    (set_lh_n (lh_n lg + 1) (set_lh_block (<[length bs := bno]> (lh_block lg)) lg)).
Proof.
  intros [Hs Hd Hn Hl Hb] Hlt. constructor; cbn; try done.
  - rewrite Hn, length_app. simpl. lia.
  - by rewrite length_insert.
  - rewrite length_app. simpl. rewrite Nat.add_1_r.
    rewrite (take_S_r _ _ bno) by (apply list_lookup_insert_eq; lia). f_equal.
    rewrite take_insert_ge by lia. done.
Qed.

(** log_write of a locked buffer. *)
Lemma wp_log_write L V s b bf bs (Q : unit -> kstate -> Prop) :
  cache p pid L V (list_to_set bs) s -> b ∈ L -> k_bufs s !! b = Some bf ->
  log_at start bs (k_log s) -> trans_ok start bs -> home start (b_blockno bf) ->
  (length bs < 29)%nat -> l_size (k_log s) = 30 -> 1 <= l_outstanding (k_log s) ->
  (forall lg, let s' := set_k_bufs (<[b := set_b_flags (Z.lor (b_flags bf) B_DIRTY) bf]> (k_bufs s)) (set_k_log lg s) in
     log_at start (joined bs (b_blockno bf)) lg -> l_size lg = 30 -> 1 <= l_outstanding lg ->
     cache p pid L (vset V (b_blockno bf) (b_data bf)) (list_to_set (joined bs (b_blockno bf))) s' -> Q tt s') ->
  wp (log_write b) Q s.
Proof.
  intros HC HbL Hb Hl Hok Hh Hlt Hsz Hout HQ. pose proof disksize_range.
  assert (Forall (fun x => 0 <= x < 4294967296) bs) as Hr.
  { eapply Forall_impl; [apply Hok|]. intros x [? _]. lia. }
  destruct (ca_held _ _ _ _ _ _ HC b bf HbL Hb) as (_ & _ & _ & Hv & _).
  assert (set_k_locks [] s = s) as Es by (rewrite <- (ca_locks _ _ _ _ _ _ HC); by destruct s).
  cut (wp (log_write b) (fun _ s' => exists lg, log_at start (joined bs (b_blockno bf)) lg /\ l_size lg = 30 /\
         1 <= l_outstanding lg /\
         s' = set_k_bufs (<[b := set_b_flags (Z.lor (b_flags bf) B_DIRTY) bf]> (k_bufs s)) (set_k_log lg (set_k_locks [] s))) s).
  { rewrite Es. intros Hw. eapply wp_mono; [exact Hw|]. intros [] s' (lg & Hlg & Hs & Ho & ->). apply HQ; [done..|].
    replace (list_to_set (joined bs (b_blockno bf))) with ({[b_blockno bf]} ∪ list_to_set bs : gset Z).
    - apply (cache_pin p pid L V _ (set_k_log lg s)); [by apply cache_log|done|done|..]; rewrite has_lor.
      + by rewrite Hv.
      + apply orb_true_r.
    - apply set_eq. intros x. rewrite elem_of_union, elem_of_singleton, !elem_of_list_to_set, elem_of_joined. done. }
  unfold log_write. kstep. kstep. rewrite (la_n _ _ _ Hl), Hsz. unfold LOGSIZE, MAXOPBLOCKS. zb. cbn [orb].
  kstep. kstep; [rewrite (ca_locks _ _ _ _ _ _ HC); apply not_elem_of_nil|].
  kstep. eapply wp_getbuf; [exact Hb|]. rewrite Nat2Z.id. destruct Hh as [Hh _].
  unfold set_log_block, modlog. kstep. kstep. kstep. cbn [k_log set_k_locks].
  pose proof (log_find_spec (lh_block (k_log s)) bs (b_blockno bf) (la_blocks _ _ _ Hl) Hr) as Hf.
  rewrite s32_small by lia. pose proof (la_len _ _ _ Hl) as Hlen.
  destruct (Nat.ltb_spec (log_find (lh_block (k_log s)) (length bs) (b_blockno bf)) (length (lh_block (k_log s))))
    as [Hi|Hi]; [|destruct Hf as [[? _]|[? _]]; lia].
  kstep. cbn [k_log set_k_log]. destruct Hf as [[Hlt' Hfi]|[-> Hn]].
  - zb. kstep. kstep. kstep. eapply wp_modbuf; [exact Hb|].
    eapply (wp_release _ []); [cbn; by rewrite (ca_locks _ _ _ _ _ _ HC)|apply not_elem_of_nil|].
    eexists. split; [|split; [|split; [|reflexivity]]]; [|done|done].
    unfold joined. rewrite decide_True by (by eapply list_elem_of_lookup_2). by apply log_at_set.
  - zb. kstep. kstep. kstep. eapply wp_modbuf; [exact Hb|].
    eapply (wp_release _ []); [cbn; by rewrite (ca_locks _ _ _ _ _ _ HC)|apply not_elem_of_nil|].
    eexists. split; [|split; [|split; [|reflexivity]]]; [|done|done].
    unfold joined. rewrite decide_False by done. rewrite <- (la_n _ _ _ Hl). by apply log_at_snoc.
Qed.

(** log_write makes the contents of a locked buffer part of the
    transaction: the block joins the block numbers of the log unless it is among
    them already, the contents become the current ones of the block, pinned in
    the cache, and nothing goes to the disk. *)
Theorem log_write_joins L V s b bf bs :
  cache p pid L V (list_to_set bs) s -> b ∈ L -> k_bufs s !! b = Some bf ->
  log_at start bs (k_log s) -> trans_ok start bs -> home start (b_blockno bf) ->
  (length bs < 29)%nat -> l_size (k_log s) = 30 -> 1 <= l_outstanding (k_log s) ->
  exists s', log_write b s = Ret tt s' /\
    log_at start (joined bs (b_blockno bf)) (k_log s') /\ trans_ok start (joined bs (b_blockno bf)) /\
    cache p pid L (vset V (b_blockno bf) (b_data bf)) (list_to_set (joined bs (b_blockno bf))) s' /\
    k_disk s' = k_disk s /\ k_writes s' = k_writes s.
Proof.
  intros HC HbL Hb Hl Hok Hh Hlt Hsz Hout.
  cut (wp (log_write b) (fun _ s' => log_at start (joined bs (b_blockno bf)) (k_log s') /\
    cache p pid L (vset V (b_blockno bf) (b_data bf)) (list_to_set (joined bs (b_blockno bf))) s' /\
    k_disk s' = k_disk s /\ k_writes s' = k_writes s) s).
  { intros ([] & s' & Hrun & ? & ? & ? & ?)%wp_inv. exists s'. split_and!; try done. by apply joined_ok. }
  eapply (wp_log_write L V s b bf bs); [done..|]. intros lg s' Hlg _ _ HC'. by split_and!.
Qed.

End ops.

(** ** Log space *)

Section space.
Context `{KernelImage} (start : Z) (f : Z -> list Z -> list Z).

(** Process [q] runs next. *)
Definition run_as {A} (q : nat) (m : K A) : K A := modify (set_k_cur (Some q));; m.

(** A file-system operation changes a block by [f], the way the functions of fs.c
    do. *)
Definition update_block (bno : Z) : K unit :=
  b ← bread 1 bno;
  modbuf b (fun bf => set_b_data (f bno (b_data bf)) bf);;
  log_write b;;
  brelse b.

(** Three operations that overlap, in the processes [ps]; [writes] is the sequence
    of their updates.  None of them is at its end_op yet. *)
Definition overlapping_ops (ps : list nat) (writes : list (nat * Z)) : K unit :=
  for_each ps (fun q => run_as q begin_op);;
  for_each writes (fun w => run_as w.1 (update_block w.2)).

Hypothesis f_block : forall bno l, length l = 512%nat -> length (f bno l) = 512%nat.

(** The transaction [bs], with no buffer held, whichever process runs. *)
Record shared_trans (pids : list Z) (bs : list Z) (s : kstate) : Prop := {
  st_cache : exists q pid V, cache q pid ∅ V (list_to_set bs) s;
  st_log : log_at start bs (k_log s);
  st_ok : trans_ok start bs;
  st_size : l_size (k_log s) = 30;
  st_pids : p_pid <$> k_procs s = pids;
}.

Lemma cache_switch q pid q' pr V T s :
  cache q pid ∅ V T s -> k_procs s !! q' = Some pr -> cache q' (p_pid pr) ∅ V T (set_k_cur (Some q') s).
Proof.
  intros [] Hq. constructor; try done.
  by exists pr.
Qed.

Lemma shared_switch pids bs s q :
  shared_trans pids bs s -> (q < length pids)%nat ->
  exists pid V, cache q pid ∅ V (list_to_set bs) (set_k_cur (Some q) s).
Proof.
  intros [(q0 & pid & V & HC) _ _ _ Hp] Hq. rewrite <- Hp, length_fmap in Hq.
  destruct (lookup_lt_is_Some_2 _ _ Hq) as [pr Hpr]. exists (p_pid pr), V. by eapply cache_switch.
Qed.

(** An operation reserves MAXOPBLOCKS blocks. *)
Lemma wp_begin_op_as pids s q (Q : unit -> kstate -> Prop) :
  shared_trans pids [] s -> (q < length pids)%nat -> l_committing (k_log s) = 0 -> 0 <= l_outstanding (k_log s) <= 2 ->
  (forall s', shared_trans pids [] s' -> l_committing (k_log s') = 0 -> l_outstanding (k_log s') = l_outstanding (k_log s) + 1 -> Q tt s') ->
  wp (run_as q begin_op) Q s.
Proof.
  intros Hs Hq Hc Ho HQ. destruct (shared_switch _ _ _ _ Hs Hq) as (pid & V & HC).
  pose proof (ca_locks _ _ _ _ _ _ HC) as Hl. cbn in Hl. unfold run_as. kstep. kstep. unfold begin_op, modlog. kstep. kstep; [cbn; rewrite Hl; apply not_elem_of_nil|].
  kstep. kstep. cbn. rewrite Hc, (la_n _ _ _ (st_log _ _ _ Hs)). cbn [negb Z.eqb length]. unfold LOGSIZE, MAXOPBLOCKS. zb. kstep. kstep.
  eapply (wp_release _ []); [cbn; by rewrite Hl|apply not_elem_of_nil|]. destruct Hs as [_ Hlog Hok Hsz Hp]. apply HQ; [|done|done].
  split; [|by destruct Hlog|done|done|done]. exists q, pid, V.
  match goal with |- cache _ _ _ _ _ (set_k_locks [] (set_k_log ?lg _)) => apply (cache_log _ _ _ _ _ lg) in HC end.
  destruct s. cbn in *. by subst.
Qed.

(** An update while the log has room. *)
Lemma wp_update_as pids bs s q bno (Q : unit -> kstate -> Prop) :
  shared_trans pids bs s -> (q < length pids)%nat -> 1 <= l_outstanding (k_log s) ->
  home start bno -> bno ∉ bs -> (length bs < 29)%nat ->
  (forall s', shared_trans pids (bs ++ [bno]) s' -> 1 <= l_outstanding (k_log s') -> Q tt s') ->
  wp (run_as q (update_block bno)) Q s.
Proof.
  intros Hs Hq Hout Hh Hn Hlt HQ. destruct (shared_switch _ _ _ _ Hs Hq) as (pid & V & HC).
  destruct Hs as [_ Hlog Hok Hsz Hp]. unfold run_as, update_block. kstep. kstep. kstep.
  apply (wp_bread q pid ∅ V (list_to_set bs)); [done|apply Hh|set_solver|right; rewrite size_empty, size_list_to_set by apply Hok; lia|].
  intros b bf _ s1 HC1 Hb Hbno Hdat. rewrite union_empty_r_L in HC1. kstep. eapply wp_modbuf; [exact Hb|].
  assert (length (f bno (b_data bf)) = 512%nat) as Hlen by (apply f_block, (ca_data _ _ _ _ _ _ HC1 b bf Hb)).
  pose proof (cache_fill q pid _ _ _ _ b bf _ HC1 (elem_of_singleton_2 _ _ eq_refl) Hb Hlen) as HC2.
  set (s2 := set_k_bufs _ s1) in *. set (bf2 := set_b_data _ bf) in *.
  assert (k_bufs s2 !! b = Some bf2) as Hb2 by (change (k_bufs s2) with (<[b := bf2]> (k_bufs s1)); apply list_lookup_insert_eq; by eapply lookup_lt_Some).
  kstep. eapply (wp_log_write q pid start {[b]} V s2 b bf2 bs); [done|set_solver|done|done|done|by rewrite <- Hbno in Hh|done|done|done|].
  intros lg s3 Hlg Hs3 Ho3 HC3. change (b_blockno bf2) with (b_blockno bf) in *. rewrite Hbno in Hlg, HC3.
  unfold joined in Hlg, HC3. rewrite decide_False in Hlg, HC3 by done.
  eapply (wp_brelse q pid); [exact HC3|set_solver|apply list_lookup_insert_eq; by eapply lookup_lt_Some| |].
  { cbn. by rewrite Hbno, vset_eq. }
  intros s4 (bufs & lru & ps & -> & Hps) HC4 _. apply HQ; [|exact Ho3]. split; cbn; [|done| |done|by rewrite Hps].
  - eexists q, pid, _. by rewrite difference_diag_L in HC4.
  - replace (bs ++ [bno]) with (joined bs bno) by (unfold joined; by rewrite decide_False). by apply joined_ok.
Qed.

(** The update for which there is none. *)
Lemma update_as_panics pids bs s q bno :
  shared_trans pids bs s -> (q < length pids)%nat -> home start bno -> length bs = 29%nat ->
  panics (run_as q (update_block bno)) "too big a transaction" s.
Proof.
  intros Hs Hq Hh Hlen. destruct (shared_switch _ _ _ _ Hs Hq) as (pid & V & HC).
  destruct Hs as [_ Hlog Hok Hsz Hp]. unfold run_as, update_block. apply panics_after. apply wp_modify. apply panics_after.
  apply (wp_bread q pid ∅ V (list_to_set bs)); [done|apply Hh|set_solver|right; rewrite size_empty, size_list_to_set by apply Hok; lia|].
  intros b bf _ s1 HC1 Hb Hbno Hdat. apply panics_after. eapply wp_modbuf; [exact Hb|]. apply panics_bind.
  unfold log_write. apply panics_after. apply wp_gets. cbn. rewrite Hsz, (la_n _ _ _ Hlog), Hlen. apply panics_panic.
Qed.

Lemma wp_updates pids ws bs s :
  shared_trans pids bs s -> 1 <= l_outstanding (k_log s) -> Forall (fun w => (w.1 < length pids)%nat /\ home start w.2) ws ->
  NoDup (bs ++ map snd ws) -> (length bs + length ws <= 29)%nat ->
  wp (for_each ws (fun w => run_as w.1 (update_block w.2))) (fun _ s' => shared_trans pids (bs ++ map snd ws) s') s.
Proof.
  revert bs s. induction ws as [|[q bno] ws IH]; intros bs s Hs Ho Hws Hnd Hlen; cbn [for_each].
  - kstep. by rewrite app_nil_r.
  - apply Forall_cons in Hws as [[Hq Hh] Hws]. cbn [fst snd map length] in *. kstep.
    assert (bno ∉ bs) as Hn by (apply NoDup_app in Hnd as (_ & Hd & _); intros Hin; apply (Hd bno Hin); left).
    eapply wp_update_as; [done|done|done|done|done|lia|]. intros s' Hs' Ho'.
    replace (bs ++ bno :: map snd ws) with ((bs ++ [bno]) ++ map snd ws) in * by (by rewrite <- app_assoc).
    apply IH; [done|done|done|done|]. rewrite length_app. cbn. lia.
Qed.

Lemma for_each_app {S A} (xs ys : list A) (body : A -> M S unit) s :
  for_each (xs ++ ys) body s = (for_each xs body;; for_each ys body) s.
Proof.
  revert s. induction xs as [|x xs IH]; intros s; cbn [app for_each]; [done|].
  unfold mbind, M_bind. destruct (body x s) as [[] s'| | | |]; [|done..]. rewrite IH. unfold mbind, M_bind. by destruct (for_each xs body s').
Qed.

Lemma wp_begin_ops p pid V s p1 p2 p3 :
  cache p pid ∅ V ∅ s -> log_at start [] (k_log s) -> l_size (k_log s) = 30 ->
  l_outstanding (k_log s) = 0 -> l_committing (k_log s) = 0 ->
  Forall (fun q => (q < length (k_procs s))%nat) [p1; p2; p3] ->
  wp (for_each [p1; p2; p3] (fun q => run_as q begin_op))
    (fun _ s' => shared_trans (p_pid <$> k_procs s) [] s' /\ l_outstanding (k_log s') = 3) s.
Proof.
  intros HC Hlog Hsz Ho Hc Hps. rewrite !Forall_cons in Hps. destruct Hps as (H1 & H2 & H3 & _).
  assert (shared_trans (p_pid <$> k_procs s) [] s) as Hs by (split; [by exists p, pid, V|done|apply trans_nil|done|done]).
  assert (length (p_pid <$> k_procs s) = length (k_procs s)) as El by apply length_fmap. rewrite <- El in H1, H2, H3. clear El.
  cbn [for_each]. kstep. eapply wp_begin_op_as; [done|done|done|lia|]. intros s1 Hs1 Hc1 Ho1.
  kstep. eapply wp_begin_op_as; [done|done|done|lia|]. intros s2 Hs2 Hc2 Ho2.
  kstep. eapply wp_begin_op_as; [done|done|done|lia|]. intros s3 Hs3 Hc3 Ho3.
  kstep. split; [done|lia].
Qed.

(** The writes of an operation. *)
Definition writes_of (q : nat) (ws : list (nat * Z)) : list (nat * Z) := filter (fun w => w.1 = q) ws.

Lemma writes_of_three p1 p2 p3 ws :
  NoDup [p1; p2; p3] -> Forall (fun w => w.1 ∈ [p1; p2; p3]) ws ->
  length ws = (length (writes_of p1 ws) + length (writes_of p2 ws) + length (writes_of p3 ws))%nat.
Proof.
  intros Hnd. induction 1 as [|[q b] ws Hq _ IH]; [done|]. unfold writes_of in *. rewrite !filter_cons. cbn [fst] in *.
  rewrite !NoDup_cons in Hnd. destruct Hnd as (H1 & H2 & _).
  assert (p1 <> p2 /\ p1 <> p3 /\ p2 <> p3) as (? & ? & ?) by (set_unfold; tauto).
  assert (q = p1 \/ q = p2 \/ q = p3) as [-> |[-> | ->]] by (set_unfold; tauto);
    repeat case_decide; cbn [length]; (lia || congruence).
Qed.

(** C23. The log is too small for the operations it admits.  From any state with
    an empty log of LOGSIZE blocks and no operation under way, begin_op lets three
    operations in at once, because each may write MAXOPBLOCKS blocks.  In whatever
    order they do so, to whatever blocks and with whatever contents, the first 29
    updates of different blocks go through and the last one panics: one block of
    the log is its header. *)
Theorem log_space_overcommitted p pid V s p1 p2 p3 writes :
  cache p pid ∅ V ∅ s -> log_at start [] (k_log s) -> l_size (k_log s) = LOGSIZE ->
  l_outstanding (k_log s) = 0 -> l_committing (k_log s) = 0 ->
  NoDup [p1; p2; p3] -> Forall (fun q => (q < length (k_procs s))%nat) [p1; p2; p3] ->
  Forall (fun w => w.1 ∈ [p1; p2; p3] /\ home start w.2) writes -> NoDup (map snd writes) ->
  (forall q, q ∈ [p1; p2; p3] -> Z.of_nat (length (writes_of q writes)) = MAXOPBLOCKS) ->
  (exists s', overlapping_ops [p1; p2; p3] (take 29 writes) s = Ret tt s') /\
  (exists s', overlapping_ops [p1; p2; p3] writes s = Panic "too big a transaction" s').
Proof.
  intros HC Hlog Hsz Ho Hc Hnd Hps Hws Hbs Hcount.
  pose proof (wp_begin_ops p pid V s p1 p2 p3 HC Hlog Hsz Ho Hc Hps) as ([] & s1 & Hrun & Hs1 & Ho1)%wp_inv.
  assert (length writes = 30%nat) as Hlen.
  { rewrite (writes_of_three p1 p2 p3) by (done || (eapply Forall_impl; [exact Hws|]; by intros w [? _])).
    unfold MAXOPBLOCKS in *.
    assert (forall q, q ∈ [p1; p2; p3] -> length (writes_of q writes) = 10%nat) as E by (intros q Hq; specialize (Hcount q Hq); lia).
    rewrite !E by set_solver. done. }
  set (pids := p_pid <$> k_procs s) in *.
  assert (Forall (fun w => (w.1 < length pids)%nat /\ home start w.2) writes) as Hws'.
  { eapply Forall_impl; [exact Hws|]. intros w [Hq Hh]. split; [|done]. rewrite Forall_forall in Hps. unfold pids. rewrite length_fmap. by apply Hps. }
  assert (wp (for_each (take 29 writes) (fun w => run_as w.1 (update_block w.2))) (fun _ s' => shared_trans pids (map snd (take 29 writes)) s') s1)
    as ([] & s2 & Hrun2 & Hs2)%wp_inv.
  { apply (wp_updates pids _ []); [done|lia|by apply Forall_take| |rewrite length_take; cbn [length]; lia].
    cbn. rewrite <- (take_drop 29 writes), map_app in Hbs. by apply NoDup_app in Hbs as (? & _). }
  split; [exists s2; unfold overlapping_ops; by rewrite (bind_run _ _ _ _ _ Hrun)|].
  unfold overlapping_ops. rewrite (bind_run _ _ _ _ _ Hrun).
  destruct (lookup_lt_is_Some_2 writes 29) as [w Hw]; [lia|]. destruct (proj1 (Forall_lookup _ _) Hws' _ _ Hw) as [Hq Hh].
  rewrite <- (take_drop_middle _ _ _ Hw), for_each_app, (bind_run _ _ _ _ _ Hrun2). cbn [for_each].
  apply panics_bind. eapply update_as_panics; [done|done|done|]. rewrite length_map, length_take. lia.
Qed.
End space.

(** A booted kernel whose log is the one that mkfs makes. *)
Definition idle_kernel : kstate :=
  set_k_log (mkLog 2 30 0 0 1 0 (replicate 30 0)) (small_booted small_disk).

Section witnesses.
#[local] Existing Instance sample_image.

(** Buffer 3 holds block 60 filled with ones. *)
Definition held_state : kstate :=
  set_k_log (mkLog 2 30 1 0 1 0 (replicate 30 0))
    (set_k_bufs (<[3%nat := mkBuf B_VALID 1 60 (mkSleeplock 1 0) 1 (replicate 512 1)]> (replicate 30 zero_buf))
      (small_booted small_disk)).

Lemma held_state_ok : cache 0 0 {[3%nat]} (disk_block small_disk 1) (list_to_set []) held_state.
Proof.
  assert (forall b bf, k_bufs held_state !! b = Some bf ->
    (b = 3%nat /\ bf = mkBuf B_VALID 1 60 (mkSleeplock 1 0) 1 (replicate 512 1)) \/ (b <> 3%nat /\ bf = zero_buf)) as Hb.
  { intros b bf [[-> ->]|[? ?]]%(insert_cases _ _ zero_buf); [by left| |reflexivity].
    right. split; [done|]. by eapply zero_buf_lookup. }
  constructor; try reflexivity; try done.
  - exists zero_proc. split; reflexivity.
  - intros b bf [[_ ->]|[_ ->]]%Hb; reflexivity.
  - intros b b' bf bf' [[-> ->]|[_ ->]]%Hb [[-> ->]|[_ ->]]%Hb; cbn; intros; (reflexivity || lia).
  - intros b ->%elem_of_singleton. lia.
  - intros b bf ->%elem_of_singleton [[_ ->]|[? _]]%Hb; [|done]. by split_and!.
  - intros b bf Hin [[-> _]|[_ ->]]%Hb; [set_solver|]. split_and!; cbn; intros; (reflexivity || lia || done).
  - apply small_disk_block_len.
Qed.

Lemma log_write_joins_witness :
  exists s', log_write 3 held_state = Ret tt s' /\
    cache 0 0 {[3%nat]} (vset (disk_block small_disk 1) 60 (replicate 512 1)) (list_to_set [60]) s'.
Proof.
  destruct (log_write_joins 0 0 2 {[3%nat]} (disk_block small_disk 1) held_state 3
    (mkBuf B_VALID 1 60 (mkSleeplock 1 0) 1 (replicate 512 1)) []) as (s' & Hrun & _ & _ & HC & _).
  - apply held_state_ok.
  - set_solver.
  - reflexivity.
  - constructor; reflexivity.
  - apply trans_nil.
  - apply small_home; cbn; lia.
  - simpl. lia.
  - reflexivity.
  - cbn. lia.
  - exists s'. split; [exact Hrun|exact HC].
Defined.

(** Processes 0, 1 and 2 in turn, each with ten of the blocks 100 to 129. *)
Definition thirty_writes : list (nat * Z) := map (fun i => ((i mod 3)%nat, 100 + Z.of_nat i)) (seq 0 30).

Lemma log_space_overcommitted_witness :
  (exists s', overlapping_ops (fun _ l => l) [0; 1; 2]%nat (take 29 thirty_writes) idle_kernel = Ret tt s') /\
  (exists s', overlapping_ops (fun _ l => l) [0; 1; 2]%nat thirty_writes idle_kernel = Panic "too big a transaction" s').
Proof.
  destruct (small_booted_ok small_disk small_disk_block_len) as (_ & HC & _).
  apply (log_space_overcommitted 2 (fun _ l => l) (fun _ _ Hl => Hl) 0 0 (disk_block small_disk 1) idle_kernel 0 1 2 thirty_writes).
  - by apply cache_log.
  - constructor; reflexivity.
  - reflexivity.
  - reflexivity.
  - reflexivity.
  - apply (bool_decide_unpack _). vm_compute. exact I.
  - apply (bool_decide_unpack _). vm_compute. exact I.
  - apply Forall_forall. intros w (i & -> & Hi%elem_of_seq)%list_elem_of_fmap. split; [|apply small_home; cbn; lia].
    cbn [fst]. pose proof (Nat.mod_upper_bound i 3). destruct (i mod 3)%nat as [|[|[|?]]]; [set_solver..|lia].
  - apply (bool_decide_unpack _). vm_compute. exact I.
  - intros q Hq. rewrite !elem_of_cons in Hq. destruct Hq as [-> |[-> |[-> |?%elem_of_nil]]]; reflexivity || done.
Defined.

End witnesses.
