(* ===== verification/PipeQueue.v ===== *)
(** * A pipe is a queue of at most 512 bytes (pipe.c)

    [queue] reads the ring between the two counters, which wrap around at 2^32.
    The theorems give the outcome of pipewrite and piperead in every case: what
    is returned, when the caller goes to sleep and in which state. *)

From S2P Require Import Prelude Mmu Mem Bytes State Kernel Kalloc Sched Pipe.

(** ** The ring *)

Definition pipe_len (pi : pipe) : nat := Z.to_nat (u32 (pi_nwrite pi - pi_nread pi)).

Definition queue (pi : pipe) : list Z :=
  (fun i => nth (Z.to_nat ((pi_nread pi + Z.of_nat i) mod PIPESIZE)) (pi_data pi) 0) <$> seq 0 (pipe_len pi).

Record pipe_wf (pi : pipe) : Prop := {
  pw_data : length (pi_data pi) = 512%nat;
  pw_nread : 0 <= pi_nread pi < 4294967296;
  pw_nwrite : 0 <= pi_nwrite pi < 4294967296;
  pw_len : u32 (pi_nwrite pi - pi_nread pi) <= 512;
}.

Lemma length_queue pi : length (queue pi) = pipe_len pi.
Proof. unfold queue. by rewrite length_fmap, length_seq. Qed.

Lemma pipe_len_range pi : pipe_wf pi -> (pipe_len pi <= 512)%nat.
Proof. intros [_ _ _ Hl]. unfold pipe_len. pose proof (u32_range (pi_nwrite pi - pi_nread pi)). lia. Qed.

Lemma u32_sub_eq0 x y : 0 <= x < 4294967296 -> 0 <= y < 4294967296 -> u32 (x - y) = 0 <-> x = y.
Proof. intros Hx Hy. unfold u32. Z.div_mod_to_equations. lia. Qed.

Lemma pipe_full_spec pi : pipe_wf pi -> pipe_full pi = true <-> pipe_len pi = 512%nat.
Proof.
  intros [_ Hr Hw Hl]. unfold pipe_full, pipe_len, PIPESIZE. rewrite Z.eqb_eq.
  unfold u32 in *. Z.div_mod_to_equations. lia.
Qed.

Lemma pipe_empty_spec pi : pipe_wf pi -> pipe_empty pi = true <-> pipe_len pi = 0%nat.
Proof.
  intros [_ Hr Hw Hl]. unfold pipe_empty, pipe_len. rewrite Z.eqb_eq.
  unfold u32 in *. Z.div_mod_to_equations. lia.
Qed.

(** Positions in the ring do not depend on the wrap-around of a counter. *)
Lemma ring_u32 x : u32 x mod 512 = x mod 512.
Proof. unfold u32. Z.div_mod_to_equations. lia. Qed.

Lemma ring_add x i : (u32 x + i) mod 512 = (x + i) mod 512.
Proof. unfold u32. Z.div_mod_to_equations. lia. Qed.

Lemma pipe_put_wf c pi : pipe_wf pi -> pipe_full pi = false -> pipe_wf (pipe_put c pi).
Proof.
  intros Hwf Hf. assert (pipe_len pi <> 512%nat) as Hn by (rewrite <- pipe_full_spec, Hf; done).
  destruct Hwf as [Hd Hr Hw Hl]. unfold pipe_put. constructor; cbn; [by rewrite length_updZ|done|apply u32_range|].
  unfold pipe_len, u32 in *. Z.div_mod_to_equations. lia.
Qed.

Lemma queue_put c pi : pipe_wf pi -> pipe_full pi = false -> queue (pipe_put c pi) = queue pi ++ [c].
Proof.
  intros Hwf Hf. pose proof (pipe_len_range pi Hwf) as Hle.
  assert (pipe_len pi <> 512%nat) as Hn by (rewrite <- pipe_full_spec, Hf; done).
  assert (pipe_len (pipe_put c pi) = S (pipe_len pi)) as Hlen.
  { destruct Hwf as [_ Hr Hw Hl]. unfold pipe_len in *. cbn. unfold u32 in *. Z.div_mod_to_equations. lia. }
  destruct Hwf as [Hd Hr Hw Hl].
  assert (pi_nwrite pi mod 512 = (pi_nread pi + Z.of_nat (pipe_len pi)) mod 512) as Hpos.
  { unfold pipe_len, u32. Z.div_mod_to_equations. lia. }
  unfold queue. rewrite Hlen, seq_S, fmap_app. unfold PIPESIZE. cbn [pi_data pi_nread pipe_put set_pi_nwrite set_pi_data].
  unfold updZ, PIPESIZE. rewrite (proj2 (Z.ltb_ge _ 0)) by (apply Z.mod_pos_bound; lia). rewrite Hpos.
  assert (0 <= (pi_nread pi + Z.of_nat (pipe_len pi)) mod 512 < 512) by (apply Z.mod_pos_bound; lia).
  f_equal.
  - apply list_fmap_ext. intros i x [-> Hi]%lookup_seq. rewrite !nth_lookup. f_equal.
    apply list_lookup_insert_ne. Z.div_mod_to_equations. lia.
  - cbn. rewrite nth_lookup, list_lookup_insert_eq by lia. done.
Qed.

Lemma pipe_get_wf pi : pipe_wf pi -> pipe_empty pi = false -> pipe_wf (pipe_get pi).
Proof.
  intros Hwf Hf. assert (pipe_len pi <> 0%nat) as Hn by (rewrite <- pipe_empty_spec, Hf; done).
  destruct Hwf as [Hd Hr Hw Hl]. unfold pipe_get. constructor; cbn; [done|apply u32_range|done|].
  unfold pipe_len, u32 in *. Z.div_mod_to_equations. lia.
Qed.

Lemma queue_get pi : pipe_wf pi -> pipe_empty pi = false -> queue pi = pipe_head pi :: queue (pipe_get pi).
Proof.
  intros Hwf Hf. assert (pipe_len pi <> 0%nat) as Hn by (rewrite <- pipe_empty_spec, Hf; done).
  assert (pipe_len pi = S (pipe_len (pipe_get pi))) as Hlen.
  { destruct Hwf as [_ Hr Hw Hl]. unfold pipe_len in *. cbn. unfold u32 in *. Z.div_mod_to_equations. lia. }
  unfold queue. rewrite Hlen. cbn [seq fmap list_fmap]. unfold pipe_head. rewrite Z.add_0_r. f_equal.
  rewrite <- fmap_S_seq, <- list_fmap_compose. apply list_fmap_ext. intros i x _. cbn.
  unfold PIPESIZE. rewrite ring_add. do 3 f_equal. lia.
Qed.

(** ** The operations *)

Section ops.
Context `{KernelImage}.

(** The state with the pipe [p] replaced. *)
Definition with_pipe (p : Z) (pi : pipe) (s : kstate) : kstate := set_k_pipes (<[p := pi]> (k_pipes s)) s.

Lemma with_pipe_twice p pi pi' s : with_pipe p pi (with_pipe p pi' s) = with_pipe p pi s.
Proof. unfold with_pipe. destruct s. cbn. by rewrite insert_insert_eq. Qed.

Lemma getpipe_run p pi s : k_pipes s !! p = Some pi -> getpipe p s = Ret pi s.
Proof. intros Hp. unfold getpipe. erewrite bind_run by reflexivity. by rewrite Hp. Qed.

Lemma modpipe_run p f pi s : k_pipes s !! p = Some pi -> modpipe p f s = Ret tt (with_pipe p (f pi) s).
Proof.
  intros Hp. unfold modpipe, modify, with_pipe. do 3 f_equal. apply map_eq. intros q.
  destruct (decide (p = q)) as [<-|?].
  - by rewrite lookup_alter_eq, lookup_insert_eq, Hp.
  - by rewrite lookup_alter_ne, lookup_insert_ne.
Qed.

(** As many bytes as fit go into the ring. *)
Lemma pipewrite_fills p addr rest pi s :
  k_pipes s !! p = Some pi -> pipe_wf pi -> (length (queue pi) + length addr <= 512)%nat ->
  exists pi', pipe_wf pi' /\ queue pi' = queue pi ++ addr /\ pi_readopen pi' = pi_readopen pi /\
    pi_writeopen pi' = pi_writeopen pi /\
    pipewrite_loop p (addr ++ rest) s = pipewrite_loop p rest (with_pipe p pi' s).
Proof.
  revert pi s. induction addr as [|c addr IH]; intros pi s Hp Hwf Hlen.
  - exists pi. rewrite app_nil_r. split_and!; try done. simpl app. f_equal.
    unfold with_pipe. rewrite insert_id by done. by destruct s.
  - simpl in Hlen. assert (pipe_full pi = false) as Hf.
    { apply not_true_iff_false. rewrite pipe_full_spec by done. rewrite length_queue in Hlen. lia. }
    destruct (IH (pipe_put c pi) (with_pipe p (pipe_put c pi) s)) as (pi' & Hwf' & Hq & Hro & Hwo & Hrun).
    + cbn. apply lookup_insert_eq.
    + by apply pipe_put_wf.
    + rewrite queue_put, length_app by done. simpl. lia.
    + exists pi'. split_and!; try done.
      * rewrite Hq, queue_put by done. by rewrite <- app_assoc.
      * cbn [app pipewrite_loop]. erewrite bind_run by (by apply getpipe_run). rewrite Hf.
        erewrite bind_run by (by apply modpipe_run). by rewrite Hrun, with_pipe_twice.
Qed.

(** Up to [n] bytes leave the ring. *)
Lemma piperead_drains p n pi s :
  k_pipes s !! p = Some pi -> pipe_wf pi ->
  exists pi', pipe_wf pi' /\ queue pi' = drop n (queue pi) /\ pi_readopen pi' = pi_readopen pi /\
    pi_writeopen pi' = pi_writeopen pi /\
    piperead_loop p n s = Ret (take n (queue pi)) (with_pipe p pi' s).
Proof.
  revert pi s. induction n as [|n IH]; intros pi s Hp Hwf.
  - exists pi. split_and!; try done. cbn. f_equal. unfold with_pipe. rewrite insert_id by done. by destruct s.
  - cbn [piperead_loop]. destruct (pipe_empty pi) eqn:He.
    + assert (queue pi = []) as Hq.
      { apply length_zero_iff_nil. rewrite length_queue. by apply pipe_empty_spec. }
      exists pi. rewrite Hq. split_and!; try done. erewrite bind_run by (by apply getpipe_run). rewrite He.
      cbn. f_equal. unfold with_pipe. rewrite insert_id by done. by destruct s.
    + destruct (IH (pipe_get pi) (with_pipe p (pipe_get pi) s)) as (pi' & Hwf' & Hq & Hro & Hwo & Hrun).
      * cbn. apply lookup_insert_eq.
      * by apply pipe_get_wf.
      * rewrite queue_get by done. exists pi'. split_and!; try done.
        erewrite bind_run by (by apply getpipe_run). rewrite He.
        erewrite bind_run by (by apply modpipe_run). erewrite bind_run by (exact Hrun).
        by rewrite with_pipe_twice.
Qed.

Section calls.
Context (s : kstate) (p : Z) (pi : pipe) (cur : nat) (pr : proc).
Context (Hlk : k_locks s = []) (Hcur : k_cur s = Some cur) (Hpr : k_procs s !! cur = Some pr).
Context (Hp : k_pipes s !! p = Some pi) (Hwf : pipe_wf pi).

Lemma release_only lk t : release lk (set_k_locks [lk] t) = Ret tt (set_k_locks [] t).
Proof.
  rewrite release_run by left. cbn [k_locks set_k_locks].
  rewrite filter_cons_False by (intros []; done). by destruct t.
Qed.

Lemma no_locks t : k_locks t = [] -> set_k_locks [] t = t.
Proof. intros E. rewrite <- E. by destruct t. Qed.

(** C24. pipewrite appends to the queue as many of the bytes as fit.  When all
    fit it returns their number and wakes the readers; otherwise it returns -1
    if the read end is closed or the process is killed, and else wakes the
    readers and sleeps until there is room. *)
Theorem pipewrite_outcomes addr :
  exists pi', pipe_wf pi' /\ queue pi' = queue pi ++ take (512 - length (queue pi)) addr /\
    pi_readopen pi' = pi_readopen pi /\ pi_writeopen pi' = pi_writeopen pi /\
    let s' := with_pipe p pi' s in
    pipewrite p addr s =
      if decide (length (queue pi) + length addr <= 512)%nat
      then Ret (Z.of_nat (length addr)) (wake (CH_nread p) s')
      else if (pi_readopen pi =? 0) || negb (p_killed pr =? 0) then Ret (-1) s'
      else Sleep (asleep cur (CH_nwrite p) (wake (CH_nread p) s')).
Proof.
  set (n := (512 - length (queue pi))%nat). pose proof (pipe_len_range pi Hwf) as Hle. rewrite <- length_queue in Hle.
  set (s1 := set_k_locks [LK_pipe p] s).
  destruct (pipewrite_fills p (take n addr) (drop n addr) pi s1 Hp Hwf) as (pi' & Hwf' & Hq & Hro & Hwo & Hrun).
  { rewrite length_take. unfold n. lia. }
  rewrite take_drop in Hrun. exists pi'. split_and!; try done. cbv zeta. unfold pipewrite.
  erewrite bind_run by (apply acquire_run; rewrite Hlk; apply not_elem_of_nil). rewrite Hlk. fold s1.
  assert (set_k_locks [] (with_pipe p pi' s) = with_pipe p pi' s) as El by (apply no_locks; cbn; done).
  case_decide as Hfit.
  - rewrite (drop_ge addr) in Hrun by (unfold n; lia).
    erewrite bind_run by (rewrite Hrun; reflexivity). cbv beta iota. erewrite bind_run.
    2:{ apply wakeup_run. cbn. by intros ?%list_elem_of_singleton. }
    erewrite bind_run.
    2:{ apply (release_only _ (wake (CH_nread p) (with_pipe p pi' s))). }
    cbn. f_equal. by rewrite no_locks by done.
  - destruct (drop n addr) as [|c rest] eqn:Ed.
    { apply (f_equal length) in Ed. rewrite length_drop in Ed. unfold n in Ed. simpl in Ed. lia. }
    assert (pipe_full pi' = true) as Hfull.
    { apply pipe_full_spec; [done|]. rewrite <- length_queue, Hq, length_app, length_take. unfold n. lia. }
    assert (k_pipes (with_pipe p pi' s1) !! p = Some pi') as Hp' by (cbn; apply lookup_insert_eq).
    cbn [pipewrite_loop] in Hrun. rewrite (bind_run _ _ _ _ _ (getpipe_run p pi' _ Hp')), Hfull in Hrun.
    erewrite bind_run in Hrun by (unfold myproc; erewrite bind_run by reflexivity; cbn; by rewrite Hcur).
    erewrite bind_run in Hrun by (by apply getproc_run). rewrite Hro in Hrun.
    destruct ((pi_readopen pi =? 0) || negb (p_killed pr =? 0)).
    + erewrite bind_run in Hrun by (apply (release_only _ (with_pipe p pi' s))).
      erewrite bind_run by (rewrite Hrun; reflexivity). cbn. f_equal. exact El.
    + erewrite bind_run in Hrun by (apply wakeup_run; cbn; by intros ?%list_elem_of_singleton).
      unfold mbind, M_bind. rewrite Hrun.
      erewrite (sleep_run _ _ cur (woken (Some (CH_nread p)) pr)); [by destruct s|done|done|done|].
      cbn. by rewrite list_lookup_fmap, Hpr.
Qed.

(** C25. piperead takes at most [n] bytes from the front of the queue, returns
    them and wakes the writers.  On an empty queue whose write end is open it
    returns -1 if the process is killed, and else sleeps; when the write end is
    closed it returns 0 bytes. *)
Theorem piperead_outcomes n :
  exists pi', pipe_wf pi' /\ queue pi' = drop (Z.to_nat n) (queue pi) /\
    pi_readopen pi' = pi_readopen pi /\ pi_writeopen pi' = pi_writeopen pi /\
    let bs := take (Z.to_nat n) (queue pi) in
    piperead p n s =
      if decide (queue pi = [] /\ pi_writeopen pi <> 0)
      then if decide (p_killed pr = 0) then Sleep (asleep cur (CH_nread p) s) else Ret (-1, []) s
      else Ret (Z.of_nat (length bs), bs) (wake (CH_nwrite p) (with_pipe p pi' s)).
Proof.
  set (s1 := set_k_locks [LK_pipe p] s).
  destruct (piperead_drains p (Z.to_nat n) pi s1 Hp Hwf) as (pi' & Hwf' & Hq & Hro & Hwo & Hrun).
  exists pi'. split_and!; try done. cbv zeta. unfold piperead.
  erewrite bind_run by (apply acquire_run; rewrite Hlk; apply not_elem_of_nil). rewrite Hlk. fold s1.
  erewrite bind_run by (by apply getpipe_run).
  assert (pipe_empty pi = true <-> queue pi = []) as He.
  { rewrite pipe_empty_spec, <- length_queue by done. apply length_zero_iff_nil. }
  case_decide as Hcase.
  - destruct Hcase as [Hq0 Hw0]. rewrite (proj2 He Hq0), (proj2 (Z.eqb_neq _ _) Hw0). cbn [negb andb].
    erewrite bind_run by (unfold myproc; erewrite bind_run by reflexivity; cbn; by rewrite Hcur).
    erewrite bind_run by (by apply getproc_run). case_decide as Hk.
    + rewrite Hk. cbn [Z.eqb negb]. by erewrite (sleep_run _ _ cur pr) by done.
    + rewrite (proj2 (Z.eqb_neq _ _) Hk). cbn [negb]. erewrite bind_run by apply release_only.
      cbn. f_equal. by apply no_locks.
  - assert (pipe_empty pi && negb (pi_writeopen pi =? 0) = false) as ->.
    { apply andb_false_iff. rewrite negb_false_iff, Z.eqb_eq. destruct (decide (pi_writeopen pi = 0)); [by right|left].
      apply not_true_iff_false. rewrite He. tauto. }
    erewrite bind_run by (exact Hrun).
    erewrite bind_run by (apply wakeup_run; cbn; by intros ?%list_elem_of_singleton).
    erewrite bind_run by (apply (release_only _ (wake (CH_nwrite p) (with_pipe p pi' s)))).
    cbn. f_equal. by apply no_locks.
Qed.

End calls.

End ops.

(** ** A pipe whose counters wrap around *)

Definition wrapped_pipe : pipe := mkPipe (replicate 512 65) 4294967295 1 1 1.

Definition pipe_state : kstate :=
  set_k_pipes {[ 0x80200000 := wrapped_pipe ]} (set_k_cur (Some 0%nat) zero_kstate).

Lemma wrapped_pipe_wf : pipe_wf wrapped_pipe.
Proof. constructor; (reflexivity || (cbn; lia) || (vm_compute; discriminate)). Qed.

Section witnesses.
#[local] Existing Instance sample_image.

Lemma pipewrite_outcomes_witness :
  exists pi', queue pi' = [65; 65; 66; 67; 68] /\
    pipewrite 0x80200000 [66; 67; 68] pipe_state =
      Ret 3 (wake (CH_nread 0x80200000) (with_pipe 0x80200000 pi' pipe_state)).
Proof.
  destruct (pipewrite_outcomes pipe_state 0x80200000 wrapped_pipe 0 zero_proc
    eq_refl eq_refl eq_refl eq_refl wrapped_pipe_wf [66; 67; 68]) as (pi' & _ & Hq & _ & _ & Hrun).
  exists pi'. split; [exact Hq|exact Hrun].
Defined.

Lemma piperead_outcomes_witness :
  exists pi', queue pi' = [65] /\
    piperead 0x80200000 1 pipe_state =
      Ret (1, [65]) (wake (CH_nwrite 0x80200000) (with_pipe 0x80200000 pi' pipe_state)).
Proof.
  destruct (piperead_outcomes pipe_state 0x80200000 wrapped_pipe 0 zero_proc
    eq_refl eq_refl eq_refl eq_refl wrapped_pipe_wf 1) as (pi' & _ & Hq & _ & _ & Hrun).
  exists pi'. split; [exact Hq|]. rewrite Hrun, decide_False; [reflexivity|]. intros [E _]. discriminate E.
Defined.

End witnesses.
