(* ===== verification/Ide.v ===== *)
(** * The IDE disk driver (ide.c)

    The driver of the default build; the file system is modelled over memide.c,
    which has the same interface.  A request is queued, the request at the head
    of the queue is the active command of the drive, and every interrupt
    finishes it and starts the next.  The drive is hardware: the class
    [AtaDisk] gives the operations that the driver uses of it and
    [AtaDiskLaws] what the ATA standard says about them for a drive that does
    not fail.  The theorem shows that the queue is served in order, one request
    an interrupt, with the effect that memide.c's iderw has at once. *)

From S2P Require Import Prelude Mmu Mem Bytes State Kernel Sched Sleeplock Bio BioCache Trap Devices.

Definition IDE_BSY : Z := 0x80.
Definition IDE_DRDY : Z := 0x40.
Definition IDE_DF : Z := 0x20.
Definition IDE_ERR : Z := 0x01.
Definition IDE_CMD_READ : Z := 0x20.
Definition IDE_CMD_WRITE : Z := 0x30.
Definition IDE_CMD_RDMUL : Z := 0xc4.
Definition IDE_CMD_WRMUL : Z := 0xc5.
Definition SECTOR_SIZE : Z := 512.

(** ** The drive *)

Class AtaDisk (D : Type) := {
  outb : Z -> Z -> D -> D;           (* port, value *)
  inb_status : D -> nat -> Z;        (* the [i]th of successive reads of port 0x1f7 *)
  outsl : list Z -> D -> D;          (* a block of bytes to port 0x1f0 *)
  insl : D -> list Z;                (* a block of bytes from port 0x1f0 *)
  complete : D -> D;                 (* the active command finishes, the drive interrupts *)
  taskfile : D -> Z -> Z;            (* the registers 0x1f2 to 0x1f6 *)
  medium : D -> Z -> Z -> list Z;    (* drive, sector: its bytes *)
  max_wait : D -> nat;               (* status reads until the drive is ready *)
}.

Definition is_ready (r : Z) : bool := Z.land r (Z.lor IDE_BSY IDE_DRDY) =? IDE_DRDY.

(** The drive and the sector that the task file selects. *)
Definition sel_drive (r : Z -> Z) : Z := Z.land (Z.shiftr (r 0x1f6) 4) 1.
Definition sel_sector (r : Z -> Z) : Z :=
  Z.lor (Z.lor (r 0x1f3) (Z.shiftl (r 0x1f4) 8))
    (Z.lor (Z.shiftl (r 0x1f5) 16) (Z.shiftl (Z.land (r 0x1f6) 0x0f) 24)).

Class AtaDiskLaws (D : Type) `{AtaDisk D} : Prop := {
  ready_soon : forall d, exists i, (i < max_wait d)%nat /\ is_ready (inb_status d i) = true;
  ready_fine : forall d i, is_ready (inb_status d i) = true ->
    has (inb_status d i) (Z.lor IDE_DF IDE_ERR) = false;
  outb_taskfile : forall port v d q, 0x1f2 <= port <= 0x1f6 -> 0 <= v < 256 ->
    taskfile (outb port v d) q = if decide (q = port) then v else taskfile d q;
  outb_control : forall v d q, taskfile (outb 0x3f6 v d) q = taskfile d q;
  outb_medium : forall port v d dr sec, port = 0x3f6 \/ 0x1f2 <= port <= 0x1f6 ->
    medium (outb port v d) dr sec = medium d dr sec;
  read_data : forall d, taskfile d 0x1f2 = 1 ->
    insl (complete (outb 0x1f7 IDE_CMD_READ d)) = medium d (sel_drive (taskfile d)) (sel_sector (taskfile d));
  read_medium : forall d dr sec, taskfile d 0x1f2 = 1 ->
    medium (complete (outb 0x1f7 IDE_CMD_READ d)) dr sec = medium d dr sec;
  write_medium : forall d data dr sec, taskfile d 0x1f2 = 1 -> length data = 512%nat ->
    medium (complete (outsl data (outb 0x1f7 IDE_CMD_WRITE d))) dr sec =
      if decide (dr = sel_drive (taskfile d) /\ sec = sel_sector (taskfile d)) then data else medium d dr sec;
}.

(** ** The driver *)

Section driver.
Context `{AtaDisk D}.

(** The kernel, [idequeue] with the [qnext] links as a list, and the drive. *)
Record idestate := mkIde {
  id_k : kstate;
  id_queue : list nat;
  id_havedisk1 : Z;
  id_dev : D;
}.
Definition set_id_k (k : kstate) (s : idestate) : idestate :=
  mkIde k (id_queue s) (id_havedisk1 s) (id_dev s).
Definition set_id_queue (q : list nat) (s : idestate) : idestate :=
  mkIde (id_k s) q (id_havedisk1 s) (id_dev s).
Definition set_id_havedisk1 (v : Z) (s : idestate) : idestate :=
  mkIde (id_k s) (id_queue s) v (id_dev s).
Definition set_id_dev (d : D) (s : idestate) : idestate :=
  mkIde (id_k s) (id_queue s) (id_havedisk1 s) d.

(** A kernel operation in the larger state. *)
Definition kern {A} (m : K A) : M idestate A := fun s =>
  match m (id_k s) with
  | Ret a k => Ret a (set_id_k k s)
  | Panic e k => Panic e (set_id_k k s)
  | Sleep k => Sleep (set_id_k k s)
  | Crash w => Crash w
  | Diverge => Diverge
  end.

Definition out (port v : Z) : M idestate unit := modify (fun s => set_id_dev (outb port v (id_dev s)) s).

(** The polling loop, from the [i]th read on. *)
Fixpoint poll (fuel : nat) (d : D) (i : nat) : option Z :=
  match fuel with
  | O => None
  | S fuel => if is_ready (inb_status d i) then Some (inb_status d i) else poll fuel d (S i)
  end.

Definition idewait (checkerr : bool) : M idestate Z :=
  d ← gets id_dev;
  match poll (max_wait d) d 0 with
  | None => (fun _ => Diverge) : M idestate Z
  | Some r => mret (if checkerr && has r (Z.lor IDE_DF IDE_ERR) then -1 else 0)
  end.

(** Does one of [n] status reads give a value other than 0? *)
Fixpoint probe (n : nat) (d : D) (i : nat) : bool :=
  match n with
  | O => false
  | S n => if negb (inb_status d i =? 0) then true else probe n d (S i)
  end.

Definition idestart (b : nat) : M idestate unit :=
  bf ← kern (getbuf b);
  if FSSIZE <=? b_blockno bf then panic "incorrect blockno" else
  let sector_per_block := BSIZE / SECTOR_SIZE in
  let sector := s32 (b_blockno bf * sector_per_block) in
  let read_cmd := if sector_per_block =? 1 then IDE_CMD_READ else IDE_CMD_RDMUL in
  let write_cmd := if sector_per_block =? 1 then IDE_CMD_WRITE else IDE_CMD_WRMUL in
  if 7 <? sector_per_block then panic "idestart" else
  idewait false;;
  out 0x3f6 0;;
  out 0x1f2 sector_per_block;;
  out 0x1f3 (Z.land sector 0xff);;
  out 0x1f4 (Z.land (Z.shiftr sector 8) 0xff);;
  out 0x1f5 (Z.land (Z.shiftr sector 16) 0xff);;
  out 0x1f6 (Z.lor (Z.lor 0xe0 (Z.shiftl (Z.land (b_dev bf) 1) 4)) (Z.land (Z.shiftr sector 24) 0x0f));;
  if has (b_flags bf) B_DIRTY then
    out 0x1f7 write_cmd;;
    modify (fun s => set_id_dev (outsl (b_data bf) (id_dev s)) s)
  else out 0x1f7 read_cmd.

Definition ideintr : M idestate unit :=
  kern (acquire LK_ide);;
  q ← gets id_queue;
  match q with
  | [] => kern (release LK_ide)
  | b :: q =>
      modify (set_id_queue q);;
      bf ← kern (getbuf b);
      (if negb (has (b_flags bf) B_DIRTY) then
         r ← idewait true;
         if 0 <=? r then
           d ← gets id_dev;
           kern (modbuf b (set_b_data (insl d)))
         else mret tt
       else mret tt);;
      kern (modbuf b (fun bf => set_b_flags (clearf (Z.lor (b_flags bf) B_VALID) B_DIRTY) bf));;
      kern (wakeup (CH_buf b));;
      match q with
      | [] => mret tt
      | b' :: _ => idestart b'
      end;;
      kern (release LK_ide)
  end.

(** The wait in iderw: the request of buffer [b] is finished, or the process
    sleeps. *)
Definition iderw_wait (b : nat) : M idestate unit :=
  bf ← kern (getbuf b);
  if negb (Z.land (b_flags bf) (Z.lor B_VALID B_DIRTY) =? B_VALID)
  then kern (sleep (CH_buf b) LK_ide)
  else kern (release LK_ide).

(** iderw up to its wait. *)
Definition ide_enqueue (b : nat) : M idestate unit :=
  h ← kern (holdingsleep (BufLock b));
  if negb h then panic "iderw: buf not locked" else
  bf ← kern (getbuf b);
  if Z.land (b_flags bf) (Z.lor B_VALID B_DIRTY) =? B_VALID then panic "iderw: nothing to do" else
  have ← gets id_havedisk1;
  if negb (b_dev bf =? 0) && (have =? 0) then panic "iderw: ide disk 1 not present" else
  kern (acquire LK_ide);;
  q ← gets id_queue;
  modify (set_id_queue (q ++ [b]));;
  match q with [] => idestart b | _ => mret tt end.

Definition iderw (b : nat) : M idestate unit :=
  ide_enqueue b;;
  iderw_wait b.

(** What remains of iderw after a wakeup. *)
Definition iderw_resume (b : nat) : M idestate unit :=
  kern (sleep_resume LK_ide);;
  iderw_wait b.


(** The interrupt goes to the last processor. *)
Context {mach : Machine}.

Definition on_drive {A} : M idestate A -> M (idestate * hwstate) A := lift fst (fun i s => (i, s.2)).

Definition ideinit : M (idestate * hwstate) unit :=
  on_drive (kern (initlock LK_ide));;
  ncpu ← gets (fun s => Z.of_nat (length (hw_cpus s.2)));
  on_devices (ioapicenable IRQ_IDE (ncpu - 1));;
  on_drive (
    idewait false;;
    out 0x1f6 (Z.lor 0xe0 (Z.shiftl 1 4));;
    d ← gets id_dev;
    (if probe (Z.to_nat 1000) d 0 then modify (set_id_havedisk1 1) else mret tt);;
    out 0x1f6 (Z.lor 0xe0 (Z.shiftl 0 4))).
End driver.
Arguments idestate D : clear implicits.

(** ** The effect of one request *)

Abbreviation blocks := (Z -> Z -> list Z).

(** A request moves the buffer's data to the medium or the medium's data to the
    buffer; the buffer is valid afterwards. *)
Definition io_buf (m : blocks) (bf : buf) : buf :=
  set_b_flags (clearf (Z.lor (b_flags bf) B_VALID) B_DIRTY)
    (if has (b_flags bf) B_DIRTY then bf else set_b_data (m (Z.land (b_dev bf) 1) (b_blockno bf)) bf).

Definition io_medium (m : blocks) (bf : buf) : blocks := fun dr sec =>
  if has (b_flags bf) B_DIRTY && bool_decide (dr = Z.land (b_dev bf) 1 /\ sec = b_blockno bf)
  then b_data bf else m dr sec.

(** The requests of a queue one after the other. *)
Fixpoint serve (q : list nat) (m : blocks) (bs : list buf) : blocks * list buf :=
  match q with
  | [] => (m, bs)
  | b :: q =>
      match bs !! b with
      | Some bf => serve q (io_medium m bf) (<[b := io_buf m bf]> bs)
      | None => serve q m bs
      end
  end.

(** ** Proofs *)

Section proofs.
Context `{AtaDiskLaws D}.
Implicit Types (s : idestate D).

Lemma wp_kern {A} (m : K A) Q s : wp m (fun a k => Q a (set_id_k k s)) (id_k s) -> wp (kern m) Q s.
Proof. unfold wp, kern. by destruct (m (id_k s)). Qed.

Lemma poll_ready fuel d i j :
  (j < fuel)%nat -> is_ready (inb_status d (i + j)) = true ->
  exists k, poll fuel d i = Some (inb_status d k) /\ is_ready (inb_status d k) = true.
Proof.
  revert i j. induction fuel as [|fuel IH]; intros i j Hj Hr; [lia|]. simpl.
  destruct (is_ready (inb_status d i)) eqn:E; [by exists i|].
  destruct j as [|j]; [rewrite Nat.add_0_r in Hr; congruence|].
  apply (IH (S i) j); [lia|]. by replace (S i + j)%nat with (i + S j)%nat by lia.
Qed.

(** The drive gets ready and reports no error. *)
Lemma wp_idewait c (Q : Z -> idestate D -> Prop) s : Q 0 s -> wp (idewait c) Q s.
Proof.
  intros HQ. unfold idewait. wp_steps. destruct (ready_soon (id_dev s)) as (j & Hj & Hr).
  destruct (poll_ready _ _ 0 j Hj Hr) as (k & -> & Hk). wp_step. rewrite ready_fine by done.
  by rewrite andb_false_r.
Qed.

(** The task file selects the drive and the block. *)
Lemma select_ok :
  forallb (fun sec => forallb (fun dv =>
    let r3 := Z.land sec 0xff in
    let r4 := Z.land (Z.shiftr sec 8) 0xff in
    let r5 := Z.land (Z.shiftr sec 16) 0xff in
    let r6 := Z.lor (Z.lor 0xe0 (Z.shiftl dv 4)) (Z.land (Z.shiftr sec 24) 0x0f) in
    (Z.land (Z.shiftr r6 4) 1 =? dv) &&
    (Z.lor (Z.lor r3 (Z.shiftl r4 8)) (Z.lor (Z.shiftl r5 16) (Z.shiftl (Z.land r6 0x0f) 24)) =? sec) &&
    (0 <=? r3) && (r3 <? 256) && (0 <=? r4) && (r4 <? 256) && (0 <=? r5) && (r5 <? 256) &&
    (0 <=? r6) && (r6 <? 256)) [0; 1]) (seqZ 0 1000) = true.
Proof. vm_compute. reflexivity. Qed.

Lemma land_1 x : Z.land x 1 = 0 \/ Z.land x 1 = 1.
Proof. change 1 with (Z.ones 1). rewrite Z.land_ones by lia. pose proof (Z.mod_pos_bound x 2 ltac:(lia)). change (2 ^ 1) with 2. change (Z.ones 1) with 1. lia. Qed.

Lemma select_spec sec dev :
  0 <= sec < 1000 ->
  let dv := Z.land dev 1 in
  let r3 := Z.land sec 0xff in
  let r4 := Z.land (Z.shiftr sec 8) 0xff in
  let r5 := Z.land (Z.shiftr sec 16) 0xff in
  let r6 := Z.lor (Z.lor 0xe0 (Z.shiftl dv 4)) (Z.land (Z.shiftr sec 24) 0x0f) in
  Z.land (Z.shiftr r6 4) 1 = dv /\
  Z.lor (Z.lor r3 (Z.shiftl r4 8)) (Z.lor (Z.shiftl r5 16) (Z.shiftl (Z.land r6 0x0f) 24)) = sec /\
  0 <= r3 < 256 /\ 0 <= r4 < 256 /\ 0 <= r5 < 256 /\ 0 <= r6 < 256.
Proof.
  intros Hs. pose proof (proj1 (forallb_forall _ _) select_ok sec) as Hf.
  specialize (Hf ltac:(by apply list_elem_of_In, elem_of_seqZ)).
  pose proof (proj1 (forallb_forall _ _) Hf (Z.land dev 1)) as Hg. cbv beta zeta in Hg |- *.
  assert (In (Z.land dev 1) [0; 1]) as Hin by (destruct (land_1 dev) as [-> | ->]; simpl; auto).
  specialize (Hg Hin). rewrite !andb_true_iff, !Z.eqb_eq, !Z.leb_le, !Z.ltb_lt in Hg. tauto.
Qed.

(** ** Starting a request *)

(** The active command of the drive is the request of [bf], on the medium [m]. *)
Definition serving (m : blocks) (bf : buf) (d : D) : Prop :=
  (has (b_flags bf) B_DIRTY = false -> insl (complete d) = m (Z.land (b_dev bf) 1) (b_blockno bf)) /\
  forall dr sec, medium (complete d) dr sec = io_medium m bf dr sec.

(** A request the driver accepts. *)
Definition request_ok (bf : buf) : Prop :=
  0 <= b_blockno bf < 1000 /\ length (b_data bf) = 512%nat.

Lemma wp_idestart s b bf m (Q : unit -> idestate D -> Prop) :
  k_bufs (id_k s) !! b = Some bf -> request_ok bf ->
  (forall dr sec, medium (id_dev s) dr sec = m dr sec) ->
  (forall d, serving m bf d -> Q tt (set_id_dev d s)) -> wp (idestart b) Q s.
Proof.
  intros Hb [Hno Hlen] Hm HQ. unfold idestart. wp_step. apply wp_kern. eapply wp_getbuf; [done|]. cbv beta zeta.
  change FSSIZE with 1000. change (BSIZE / SECTOR_SIZE) with 1. rewrite Z.mul_1_r, s32_small by lia.
  destruct (select_spec (b_blockno bf) (b_dev bf) Hno) as (Hdr & Hsec & H3 & H4 & H5 & H6). cbv zeta in *.
  zb. cbn [Z.eqb Z.ltb Z.compare Pos.eqb Pos.compare Pos.compare_cont]. cbv iota. wp_step. apply wp_idewait.
  unfold out. do 12 (wp_step; cbv beta). cbn [id_dev set_id_dev set_id_k id_k id_queue id_havedisk1].
  set (d := outb 0x1f6 _ _).
  assert (taskfile d 0x1f2 = 1 /\ sel_drive (taskfile d) = Z.land (b_dev bf) 1 /\
    sel_sector (taskfile d) = b_blockno bf /\ forall dr sec, medium d dr sec = m dr sec) as (Hn & Hd & Hs & Hmd).
  { eassert (forall q, taskfile d q = _) as Hr.
    { intros q. unfold d. rewrite !outb_taskfile by lia. reflexivity. }
    unfold sel_drive, sel_sector. split_and!; [rewrite !Hr..|].
    - reflexivity.
    - exact Hdr.
    - exact Hsec.
    - unfold d. intros dr sec. rewrite !outb_medium by lia. apply Hm. }
  clearbody d.
  destruct (has (b_flags bf) B_DIRTY) eqn:Ef.
  - do 3 (wp_step; cbv beta). apply HQ. split; [congruence|]. intros dr sec. unfold io_medium.
    rewrite Ef. cbn [andb id_dev set_id_dev]. rewrite write_medium, Hd, Hs, Hmd by done.
    case_decide; [by rewrite bool_decide_true|by rewrite bool_decide_false].
  - wp_step. apply HQ. split.
    + intros _. cbn. by rewrite read_data, Hd, Hs, Hmd.
    + intros dr sec. unfold io_medium. rewrite Ef. cbn. by rewrite read_medium, Hmd.
Qed.

(** ** The interrupt *)

(** The drive finishes its command and the handler runs. *)
Definition interrupt : M (idestate D) unit :=
  modify (fun s => set_id_dev (complete (id_dev s)) s);; ideintr.

(** The medium, and the active command when there is a queue. *)
Definition drive_at (m : blocks) (q : list nat) (bs : list buf) (d : D) : Prop :=
  match q with
  | [] => forall dr sec, medium d dr sec = m dr sec
  | b :: _ => forall bf, bs !! b = Some bf -> serving m bf d
  end.

Definition queue_ok (q : list nat) (bs : list buf) : Prop :=
  NoDup q /\ forall b, b ∈ q -> exists bf, bs !! b = Some bf /\ request_ok bf.

(** The data of the buffer at the head when the handler has read it. *)
Lemma wp_intr_data s m b bf (Q : unit -> idestate D -> Prop) :
  k_bufs (id_k s) !! b = Some bf -> 
  (has (b_flags bf) B_DIRTY = false -> insl (id_dev s) = m (Z.land (b_dev bf) 1) (b_blockno bf)) ->
  Q tt (set_id_k (set_k_bufs (<[b := io_buf m bf]> (k_bufs (id_k s))) (id_k s)) s) ->
  wp ((if negb (has (b_flags bf) B_DIRTY) then
         r ← idewait true;
         if 0 <=? r then
           d ← gets id_dev;
           kern (modbuf b (set_b_data (insl d)))
         else mret tt
       else mret tt);;
      kern (modbuf b (fun bf => set_b_flags (clearf (Z.lor (b_flags bf) B_VALID) B_DIRTY) bf))) Q s.
Proof.
  intros Hb Hin HQ. wp_step. unfold io_buf in HQ. destruct (has (b_flags bf) B_DIRTY) eqn:Ef; cbn [negb].
  - wp_step. apply wp_kern. eapply wp_modbuf; [done|]. exact HQ.
  - wp_step. apply wp_idewait. cbn [Z.leb Z.compare]. wp_steps. apply wp_kern. eapply wp_modbuf; [done|].
    apply wp_kern. eapply wp_modbuf; [cbn; apply list_lookup_insert_eq; by eapply lookup_lt_Some|].
    cbn [id_k set_id_k k_bufs set_k_bufs]. rewrite list_insert_insert_eq. rewrite Hin by done. exact HQ.
Qed.

Lemma wp_interrupt s m b q bf (Q : unit -> idestate D -> Prop) :
  id_queue s = b :: q -> k_locks (id_k s) = [] -> queue_ok (b :: q) (k_bufs (id_k s)) ->
  k_bufs (id_k s) !! b = Some bf -> drive_at m (b :: q) (k_bufs (id_k s)) (id_dev s) ->
  (forall d, let bs := <[b := io_buf m bf]> (k_bufs (id_k s)) in
     drive_at (io_medium m bf) q bs d -> queue_ok q bs ->
     Q tt (mkIde (wake (CH_buf b) (set_k_bufs bs (id_k s))) q (id_havedisk1 s) d)) ->
  wp interrupt Q s.
Proof.
  intros Hq Hl [Hnd Hok] Hb Hd HQ. apply NoDup_cons in Hnd as [Hnb Hnd]. destruct (Hd bf Hb) as [Hdat Hmed].
  set (bs := <[b := io_buf m bf]> (k_bufs (id_k s))).
  assert (forall x, x ∈ q -> bs !! x = k_bufs (id_k s) !! x) as Hbs.
  { intros x Hx. apply list_lookup_insert_ne. congruence. }
  assert (queue_ok q bs) as Hok'.
  { split; [done|]. intros x Hx. rewrite Hbs by done. apply Hok. by right. }
  assert (set_k_locks [] (id_k s) = id_k s) as El by (rewrite <- Hl; by destruct (id_k s)).
  unfold interrupt. wp_steps. unfold ideintr. wp_step. apply wp_kern. apply wp_acquire.
  { cbn. rewrite Hl. apply not_elem_of_nil. }
  wp_steps. cbn [id_queue set_id_k set_id_dev]. rewrite Hq. wp_steps. apply wp_kern.
  eapply wp_getbuf; [exact Hb|]. apply (wp_bind_assoc _ (fun _ => kern (modbuf b _))), wp_bind.
  eapply (wp_intr_data _ m); [exact Hb|exact Hdat|]. wp_step. apply wp_kern.
  eapply wp_of_run; [apply wakeup_run; cbn; rewrite Hl; by intros ?%list_elem_of_singleton|].
  cbn [id_k set_id_k set_id_queue set_id_dev k_bufs set_k_locks].
  assert (forall d, drive_at (io_medium m bf) q bs d ->
    wp (kern (release LK_ide)) Q (mkIde (set_k_locks [LK_ide] (wake (CH_buf b) (set_k_bufs bs (id_k s)))) q
      (id_havedisk1 s) d)) as Hend.
  { intros d Hdd. apply wp_kern. eapply (wp_release _ []); [done|apply not_elem_of_nil|].
    cbn. specialize (HQ d Hdd Hok'). rewrite <- El in HQ. exact HQ. }
  rewrite Hl. destruct q as [|b' q'].
  - wp_steps. apply Hend. exact Hmed.
  - destruct (Hok b') as (bf' & Hb' & Hr'); [right; left|]. wp_step.
    eapply (wp_idestart _ b' bf'); [cbn; rewrite <- Hb'; apply Hbs; left|done|exact Hmed|].
    intros d Hsv. apply Hend. intros bf2 Hb2. rewrite Hbs, Hb' in Hb2 by left. by injection Hb2 as <-.
Qed.

(** ** The queue *)

Lemma woken_other c pr : p_chan pr <> Some c -> woken (Some c) pr = pr.
Proof. intros Hc. unfold woken. rewrite bool_decide_false by (intros [_ ?]; done). done. Qed.

Lemma wp_serve q m s :
  id_queue s = q -> k_locks (id_k s) = [] -> queue_ok q (k_bufs (id_k s)) ->
  drive_at m q (k_bufs (id_k s)) (id_dev s) ->
  wp (for_each q (fun _ => interrupt)) (fun _ s' =>
    id_queue s' = [] /\ k_locks (id_k s') = [] /\ k_bufs (id_k s') = snd (serve q m (k_bufs (id_k s))) /\
    (forall dr sec, medium (id_dev s') dr sec = fst (serve q m (k_bufs (id_k s))) dr sec) /\
    (forall i pr, k_procs (id_k s) !! i = Some pr -> p_state pr = RUNNABLE -> k_procs (id_k s') !! i = Some pr) /\
    (forall i pr b, k_procs (id_k s) !! i = Some pr -> p_state pr = SLEEPING -> p_chan pr = Some (CH_buf b) ->
       b ∈ q -> k_procs (id_k s') !! i = Some (set_p_state RUNNABLE pr))) s.
Proof.
  revert m s. induction q as [|b q IH]; intros m s Hq Hl Hok Hd; cbn [for_each].
  { wp_step. split_and!; try done. by intros i pr b _ _ _ ?%not_elem_of_nil. }
  destruct (proj2 Hok b) as (bf & Hb & _); [left|]. wp_step.
  eapply (wp_interrupt s m b q bf); [done..|]. intros d bs Hd' Hok'.
  cbn [serve]. rewrite Hb. eapply wp_mono; [apply (IH (io_medium m bf)); done|].
  intros [] s' (Hq' & Hl' & Hbs & Hmed & Hrun & Hslp). cbn [id_k wake k_procs set_k_procs set_k_bufs] in *.
  split_and!; [done..| |].
  - intros i pr Hi Hst. apply Hrun; [|done]. rewrite list_lookup_fmap, Hi. cbn. f_equal. unfold woken.
    by rewrite bool_decide_false by (rewrite Hst; intros [? _]; done).
  - intros i pr b' Hi Hst Hch Hin. destruct (decide (b' = b)) as [->|Hne].
    + apply Hrun; [|done]. rewrite list_lookup_fmap, Hi. cbn. unfold woken. by rewrite bool_decide_true.
    + apply elem_of_cons in Hin as [?|Hin]; [done|]. eapply Hslp; try done.
      rewrite list_lookup_fmap, Hi. cbn. by rewrite woken_other by congruence.
Qed.

(** C26. The driver serves its queue: for any queue of requests with the first
    one active, every interrupt finishes one of them, in order; after as many
    interrupts as there are requests the queue is empty, the buffers and the
    medium are as if the requests had been carried out one after the other, and
    every process that slept on one of them is runnable. *)
Theorem ide_queue_served m s :
  k_locks (id_k s) = [] -> queue_ok (id_queue s) (k_bufs (id_k s)) ->
  drive_at m (id_queue s) (k_bufs (id_k s)) (id_dev s) ->
  exists s', for_each (id_queue s) (fun _ => interrupt) s = Ret tt s' /\ id_queue s' = [] /\
    k_bufs (id_k s') = snd (serve (id_queue s) m (k_bufs (id_k s))) /\
    (forall dr sec, medium (id_dev s') dr sec = fst (serve (id_queue s) m (k_bufs (id_k s))) dr sec) /\
    (forall i pr b, k_procs (id_k s) !! i = Some pr -> p_state pr = SLEEPING -> p_chan pr = Some (CH_buf b) ->
       b ∈ id_queue s -> k_procs (id_k s') !! i = Some (set_p_state RUNNABLE pr)).
Proof.
  intros Hl Hok Hd. destruct (wp_inv _ _ _ (wp_serve (id_queue s) m s eq_refl Hl Hok Hd))
    as ([] & s' & Hrun & Hq & _ & Hbs & Hm & _ & Hs). by exists s'.
Qed.

(** ** The same effect as memide.c *)

Lemma valid_clean f : clearf (Z.lor f B_VALID) B_DIRTY = Z.lor (clearf f B_DIRTY) B_VALID.
Proof. unfold clearf. by rewrite Z.land_lor_distr_l. Qed.

Lemma clearf_not f : has f B_DIRTY = false -> clearf f B_DIRTY = f.
Proof.
  intros Hf. apply negb_false_iff, Z.eqb_eq in Hf. unfold clearf.
  rewrite <- (Z.lor_0_r (Z.land f _)), <- Hf, <- Z.land_lor_distr_r.
  rewrite (Z.lor_comm (Z.lnot _)), Z.lor_lnot_diag. apply Z.land_m1_r.
Qed.

(** The scheduler between the parts of a sleeping process: it gives up the lock
    of the process table, and takes it again to switch to process [p]. *)
Definition sched_idle (s : idestate D) : idestate D := set_id_k (set_k_locks [] (id_k s)) s.
Definition sched_switch (p : nat) (s : idestate D) : idestate D :=
  set_id_k (set_k_locks [LK_ptable] (set_k_cur (Some p)
    (set_k_procs (alter (set_p_state RUNNING) p (k_procs (id_k s))) (id_k s)))) s.

Context `{KernelImage}.

Lemma memide_io (k : kstate) b bf p pr m :
  k_locks k = [] -> k_cur k = Some p -> k_procs k !! p = Some pr -> k_bufs k !! b = Some bf ->
  b_lock bf = mkSleeplock 1 (p_pid pr) -> b_dev bf = 1 -> b_blockno bf < disksize ->
  has (b_flags bf) B_VALID && negb (has (b_flags bf) B_DIRTY) = false ->
  (forall sec, disk_block (k_disk k) 1 sec = m 1 sec) ->
  exists k', Bio.iderw b k = Ret tt k' /\ k_bufs k' = <[b := io_buf m bf]> (k_bufs k) /\
    forall sec, disk_block (k_disk k') 1 sec = io_medium m bf 1 sec.
Proof.
  intros Hlk Hc Hp Hb Hl Hdev Hsz Hfl Hm.
  cut (wp (Bio.iderw b) (fun _ k' => k_bufs k' = <[b := io_buf m bf]> (k_bufs k) /\
    forall sec, disk_block (k_disk k') 1 sec = io_medium m bf 1 sec) k).
  { intros ([] & k' & Hrun & Hpost)%wp_inv. by exists k'. }
  eapply (wp_iderw p (p_pid pr)); [done..|].
  unfold io_buf, io_medium. rewrite Hdev, valid_clean. change (Z.land 1 1) with 1.
  destruct (has (b_flags bf) B_DIRTY) eqn:Ed.
  - split; [done|]. intros sec. cbn [k_disk set_k_bufs]. rewrite disk_block_written. unfold vset. cbn [andb].
    case_decide; [by rewrite bool_decide_true|]. by rewrite bool_decide_false by (intros [_ ?]; done).
  - rewrite clearf_not by done. cbn. by rewrite Hm.
Qed.


(** iderw on an idle drive: the request is started and the process sleeps. *)
Lemma iderw_sleeps s p pr b bf m :
  let k := id_k s in
  k_locks k = [] -> k_cur k = Some p -> k_procs k !! p = Some pr -> k_bufs k !! b = Some bf ->
  b_lock bf = mkSleeplock 1 (p_pid pr) -> request_ok bf ->
  has (b_flags bf) B_VALID && negb (has (b_flags bf) B_DIRTY) = false ->
  id_queue s = [] -> id_havedisk1 s <> 0 ->
  (forall dr sec, medium (id_dev s) dr sec = m dr sec) ->
  exists d, iderw b s = Sleep (mkIde (asleep p (CH_buf b) k) [b] (id_havedisk1 s) d) /\ serving m bf d.
Proof.
  intros k Hlk Hc Hp Hb Hl Hreq Hfl Hq Hhave Hm.
  assert (forall d : D, iderw_wait b (mkIde (set_k_locks [LK_ide] k) [b] (id_havedisk1 s) d) =
    Sleep (mkIde (asleep p (CH_buf b) k) [b] (id_havedisk1 s) d)) as Hwait.
  { intros d. unfold iderw_wait. rewrite (bind_run _ _ _ bf (mkIde (set_k_locks [LK_ide] k) [b] (id_havedisk1 s) d)).
    - rewrite idle_flags, Hfl. cbn [negb]. cbv iota. unfold kern. cbn [id_k].
      rewrite (sleep_run _ _ p pr) by done. by destruct k.
    - unfold kern. rewrite (run_of_wp _ _ bf (set_k_locks [LK_ide] k)); [done|]. by eapply wp_getbuf. }
  cut (wp (ide_enqueue b)
         (fun _ s' => exists d, s' = mkIde (set_k_locks [LK_ide] k) [b] (id_havedisk1 s) d /\ serving m bf d) s).
  { intros ([] & s' & Hrun & d & -> & Hsv)%wp_inv. exists d. split; [|done]. rewrite <- Hwait.
    unfold iderw. by rewrite (bind_run _ _ _ _ _ Hrun). }
  unfold ide_enqueue. wp_step. apply wp_kern. eapply (wp_holdingsleep p pr _ (b_lock bf)); [done..|cbn; fold k; by rewrite Hb|].
  rewrite Hl. cbn [sl_locked sl_pid]. rewrite Z.eqb_refl. cbn [Z.eqb negb andb]. cbv iota.
  wp_step. apply wp_kern. eapply wp_getbuf; [exact Hb|]. rewrite idle_flags, Hfl. wp_steps.
  cbn [id_havedisk1 set_id_k]. rewrite (proj2 (Z.eqb_neq _ _) Hhave), andb_false_r. wp_step. apply wp_kern. apply wp_acquire.
  { cbn. fold k. rewrite Hlk. apply not_elem_of_nil. }
  wp_steps. cbn [id_queue set_id_k]. rewrite Hq. eapply (wp_idestart _ b bf m); [exact Hb|done|exact Hm|].
  intros d Hsv. exists d. split; [|done]. cbn. fold k. by rewrite Hlk.
Qed.

(** A finished request lets iderw return. *)
Lemma resume_returns p b bf s :
  k_bufs (id_k s) !! b = Some bf -> has (b_flags bf) B_VALID = true -> has (b_flags bf) B_DIRTY = false ->
  exists s', iderw_resume b (sched_switch p s) = Ret tt s' /\ k_locks (id_k s') = [] /\
    k_bufs (id_k s') = k_bufs (id_k s) /\ id_dev s' = id_dev s.
Proof.
  intros Hb Hv Hd.
  cut (wp (iderw_resume b) (fun _ s' => k_locks (id_k s') = [] /\
    k_bufs (id_k s') = k_bufs (id_k s) /\ id_dev s' = id_dev s) (sched_switch p s)).
  { intros ([] & s' & Hrun & Hpost)%wp_inv. by exists s'. }
  unfold iderw_resume, sleep_resume. wp_step. apply wp_kern. kstep. eapply wp_myproc; [done|].
  kstep. kstep. rewrite bool_decide_false by done. kstep.
  eapply (wp_release _ []); [done|apply not_elem_of_nil|]. kstep; [apply not_elem_of_nil|].
  unfold iderw_wait. wp_step. apply wp_kern. eapply wp_getbuf; [exact Hb|]. rewrite idle_flags, Hv, Hd. cbn [negb andb].
  apply wp_kern. by eapply (wp_release _ []); [|apply not_elem_of_nil|].
Qed.

(** C27. A request through ide.c has the effect of one through memide.c.  From
    an idle drive iderw puts the process to sleep; after the interrupt the
    process is runnable, and when it runs again iderw returns without a lock
    held, with the buffers and the disk as memide.c's iderw leaves them. *)
Theorem ide_iderw_equiv s p pr b bf m :
  let k := id_k s in
  k_locks k = [] -> k_cur k = Some p -> k_procs k !! p = Some pr -> k_bufs k !! b = Some bf ->
  b_lock bf = mkSleeplock 1 (p_pid pr) -> b_dev bf = 1 -> b_blockno bf < disksize -> request_ok bf ->
  has (b_flags bf) B_VALID && negb (has (b_flags bf) B_DIRTY) = false ->
  id_queue s = [] -> id_havedisk1 s <> 0 ->
  (forall dr sec, medium (id_dev s) dr sec = m dr sec) ->
  (forall sec, disk_block (k_disk k) 1 sec = m 1 sec) ->
  exists s1 s2 s3 k',
    iderw b s = Sleep s1 /\ interrupt (sched_idle s1) = Ret tt s2 /\
    (p_state <$> k_procs (id_k s2) !! p) = Some RUNNABLE /\
    iderw_resume b (sched_switch p s2) = Ret tt s3 /\ k_locks (id_k s3) = [] /\
    Bio.iderw b k = Ret tt k' /\ k_bufs (id_k s3) = k_bufs k' /\
    forall sec, medium (id_dev s3) 1 sec = disk_block (k_disk k') 1 sec.
Proof.
  intros k Hlk Hc Hp Hb Hl Hdev Hsz Hreq Hfl Hq Hhave Hm Hdk.
  destruct (memide_io k b bf p pr m) as (k' & Hmem & Hkb & Hkd); [done..|].
  destruct (iderw_sleeps s p pr b bf m) as (d & Hrun & Hsv); [done..|].
  set (s1 := mkIde _ [b] _ d) in Hrun. exists s1.
  assert (wp interrupt (fun _ s2 => exists d2, (forall dr sec, medium d2 dr sec = io_medium m bf dr sec) /\
    s2 = mkIde (wake (CH_buf b) (set_k_locks [] (asleep p (CH_buf b)
           (set_k_bufs (<[b := io_buf m bf]> (k_bufs k)) k)))) [] (id_havedisk1 s) d2) (sched_idle s1)) as Hi.
  { eapply (wp_interrupt _ m b [] bf); [done|done| |exact Hb| |].
    - split; [apply NoDup_singleton|]. intros x ->%list_elem_of_singleton. by exists bf.
    - intros bf2 Hb2. cbn in Hb2. fold k in Hb2. rewrite Hb in Hb2. by injection Hb2 as <-.
    - intros d2 bs Hd2 _. by exists d2. }
  apply wp_inv in Hi as ([] & s2 & Hi & d2 & Hm2 & E2). exists s2.
  destruct (resume_returns p b (io_buf m bf) s2) as (s3 & Hres & Hl3 & Hb3 & Hd3).
  - rewrite E2. cbn. apply list_lookup_insert_eq. by eapply lookup_lt_Some.
  - unfold io_buf. cbn. rewrite valid_clean. apply has_lor_VALID.
  - unfold io_buf. cbn. apply has_clearf_same.
  - exists s3, k'. split_and!; try done.
    + rewrite E2. cbn. rewrite list_lookup_fmap, list_lookup_alter_eq, Hp. cbn. unfold woken.
      by rewrite bool_decide_true.
    + by rewrite Hb3, E2, Hkb.
    + intros sec. by rewrite Hd3, E2, Hkd.
Qed.

End proofs.

(** ** A drive that obeys the laws *)

Record toy_drive := mkToy {
  td_regs : Z -> Z;
  td_medium : blocks;
  td_data : list Z;
  td_command : Z;
}.

Definition toy_out (port v : Z) (d : toy_drive) : toy_drive :=
  if port =? 0x1f7 then mkToy (td_regs d) (td_medium d) (td_data d) v
  else if (0x1f2 <=? port) && (port <=? 0x1f6)
  then mkToy (fun q => if decide (q = port) then v else td_regs d q) (td_medium d) (td_data d) (td_command d)
  else d.

Definition toy_complete (d : toy_drive) : toy_drive :=
  let dr := sel_drive (td_regs d) in
  let sec := sel_sector (td_regs d) in
  if td_command d =? IDE_CMD_READ then mkToy (td_regs d) (td_medium d) (td_medium d dr sec) 0
  else if td_command d =? IDE_CMD_WRITE
  then mkToy (td_regs d) (fun r x => if decide (r = dr /\ x = sec) then td_data d else td_medium d r x) (td_data d) 0
  else d.

#[global] Instance toy_disk : AtaDisk toy_drive := {
  outb := toy_out;
  inb_status := fun _ _ => IDE_DRDY;
  outsl := fun data d => mkToy (td_regs d) (td_medium d) data (td_command d);
  insl := td_data;
  complete := toy_complete;
  taskfile := td_regs;
  medium := td_medium;
  max_wait := fun _ => 1%nat;
}.

#[global] Instance toy_disk_laws : AtaDiskLaws toy_drive.
Proof.
  assert (forall port v d, 0x1f2 <= port <= 0x1f6 ->
    toy_out port v d = mkToy (fun q => if decide (q = port) then v else td_regs d q)
                         (td_medium d) (td_data d) (td_command d)) as Hout.
  { intros port v d Hp. unfold toy_out. zb. done. }
  constructor; cbn.
  - intros d. exists 0%nat. split; [lia|reflexivity].
  - done.
  - intros port v d q Hp _. by rewrite Hout.
  - done.
  - intros port v d dr sec [->|Hp]; [done|by rewrite Hout].
  - done.
  - done.
  - done.
Qed.

Section witnesses.
#[local] Existing Instance sample_image.

(** Buffer 0, held by process 0, waits for block 60; so does a sleeping
    process 1 in the second state. *)
Definition ide_buf : buf := mkBuf 0 1 60 (mkSleeplock 1 0) 1 (replicate 512 0).

Definition toy_medium : blocks := fun dr sec => if bool_decide (dr = 1 /\ sec = 60) then replicate 512 9 else replicate 512 0.

Definition ide_idle : idestate toy_drive :=
  mkIde (set_k_disk {[ (1, 60) := replicate 512 9 ]} (set_k_cur (Some 0%nat)
          (set_k_bufs (ide_buf :: replicate 29 zero_buf) zero_kstate)))
    [] 1 (mkToy (fun _ => 0) toy_medium [] 0).

Lemma ide_iderw_equiv_witness :
  exists s1 s2 s3, iderw 0 ide_idle = Sleep s1 /\ interrupt (sched_idle s1) = Ret tt s2 /\
    iderw_resume 0 (sched_switch 0 s2) = Ret tt s3.
Proof.
  destruct (ide_iderw_equiv ide_idle 0 zero_proc 0 ide_buf toy_medium)
    as (s1 & s2 & s3 & k' & H1 & H2 & _ & H3 & _); try reflexivity.
  - split; [cbn; lia|reflexivity].
  - discriminate.
  - intros sec. unfold toy_medium, disk_block. cbn [id_k ide_idle k_disk set_k_disk].
    destruct (decide (sec = 60)) as [->|Hne]; [reflexivity|].
    rewrite lookup_singleton_ne by congruence. rewrite bool_decide_false by (intros [_ ?]; done). reflexivity.
  - exists s1, s2, s3. split; [exact H1|]. split; [exact H2|exact H3].
Defined.

Definition ide_busy : idestate toy_drive :=
  match ide_enqueue 0 ide_idle with Ret _ s => set_id_k (set_k_locks [] (id_k s)) s | _ => ide_idle end.

Lemma ide_queue_served_witness :
  exists s', for_each [0%nat] (fun _ => interrupt) ide_busy = Ret tt s' /\ id_queue s' = [].
Proof.
  destruct (ide_queue_served toy_medium ide_busy) as (s' & Hrun & Hq & _).
  - reflexivity.
  - split; [apply NoDup_singleton|]. intros x ->%list_elem_of_singleton. exists ide_buf.
    split; [reflexivity|]. split; [cbn; lia|reflexivity].
  - intros bf [= <-]. split; [reflexivity|]. intros dr sec. reflexivity.
  - exists s'. split; [exact Hrun|exact Hq].
Defined.

End witnesses.
