(* ===== verification/Grep.v ===== *)
(** * The user program grep (grep.c)

    Strings are the lists of the characters before their NUL; the buffer of
    [grep] is the list of its first [m] bytes, a call of read its result.  The
    matcher is shown to decide a declarative semantics of patterns, and the
    reading loop to print the matching lines as long as every read brings the
    end of a line; a line that arrives in pieces is lost. *)

From S2P Require Import Prelude.

Definition ch_star : Z := 42.     (* '*' *)
Definition ch_dot : Z := 46.      (* '.' *)
Definition ch_dollar : Z := 36.   (* '$' *)
Definition ch_caret : Z := 94.    (* '^' *)
Definition ch_nl : Z := 10.       (* '\n' *)

(** ** The matcher *)

(** [mh] is matchhere on the rest of the pattern. *)
Fixpoint matchstar (mh : list Z -> bool) (c : Z) (text : list Z) : bool :=
  if mh text then true
  else match text with
       | x :: text => if (x =? c) || (c =? ch_dot) then matchstar mh c text else false
       | [] => false
       end.

Fixpoint matchhere (re text : list Z) : bool :=
  match re with
  | [] => true
  | c :: re1 =>
      let single :=
        if (c =? ch_dollar) && match re1 with [] => true | _ => false end
        then match text with [] => true | _ => false end
        else match text with
             | x :: text => if (c =? ch_dot) || (c =? x) then matchhere re1 text else false
             | [] => false
             end in
      match re1 with
      | s :: re2 => if s =? ch_star then matchstar (matchhere re2) c text else single
      | [] => single
      end
  end.

(** The loop of [match]: at every suffix of the text, the empty one included. *)
Fixpoint match_from (re text : list Z) : bool :=
  if matchhere re text then true
  else match text with
       | [] => false
       | _ :: text => match_from re text
       end.

Definition match_re (re text : list Z) : bool :=
  match re with
  | c :: re1 => if c =? ch_caret then matchhere re1 text else match_from re text
  | [] => match_from re text
  end.

(** ** The reading loop *)

(** [strchr(p, '\n')]: the characters before it and those after it. *)
Fixpoint split_nl (p : list Z) : option (list Z * list Z) :=
  match p with
  | [] => None
  | c :: p =>
      if c =? 0 then None
      else if c =? ch_nl then Some ([], p)
      else match split_nl p with Some (l, r) => Some (c :: l, r) | None => None end
  end.

(** The inner loop: what it prints and where [p] ends; one turn for each line,
    so the length of the buffer is enough fuel. *)
Fixpoint grep_lines (fuel : nat) (pattern p : list Z) : list Z * list Z :=
  match fuel with
  | O => ([], p)
  | S fuel =>
      match split_nl p with
      | None => ([], p)
      | Some (l, r) =>
          let '(out, rest) := grep_lines fuel pattern r in
          ((if match_re pattern l then l ++ [ch_nl] else []) ++ out, rest)
      end
  end.

(** One turn of the outer loop with buffer [buf] and the bytes read. *)
Definition grep_turn (pattern buf chunk : list Z) : list Z * list Z :=
  let b := buf ++ chunk in
  let '(out, rest) := grep_lines (length b) pattern b in
  (* p == buf: no line was found *)
  (out, if Nat.eqb (length rest) (length b) then [] else rest).

(** The bytes written to file 1, for the results of the calls of read. *)
Fixpoint grep (pattern buf : list Z) (reads : list (list Z)) : list Z :=
  match reads with
  | [] => []
  | chunk :: reads =>
      match chunk with
      | [] => []
      | _ =>
          let '(out, buf) := grep_turn pattern buf chunk in
          out ++ grep pattern buf reads
      end
  end.

(** ** What patterns mean *)

Inductive item := One (c : Z) | Many (c : Z).

(** A pattern without its ^: its items and whether it ends in $. *)
Fixpoint items (re : list Z) : list item * bool :=
  match re with
  | [] => ([], false)
  | c :: re1 =>
      let single :=
        if (c =? ch_dollar) && match re1 with [] => true | _ => false end then ([], true)
        else let '(is_, e) := items re1 in (One c :: is_, e) in
      match re1 with
      | s :: re2 => if s =? ch_star then let '(is_, e) := items re2 in (Many c :: is_, e) else single
      | [] => single
      end
  end.

(** The character class of a pattern character. *)
Definition accepts (c x : Z) : Prop := c = ch_dot \/ c = x.

(** The texts that a list of items describes. *)
Inductive lang : list item -> list Z -> Prop :=
| lang_nil : lang [] []
| lang_one c x l w : accepts c x -> lang l w -> lang (One c :: l) (x :: w)
| lang_many c u l w : Forall (accepts c) u -> lang l w -> lang (Many c :: l) (u ++ w).

(** A prefix of the text, or all of it, is described. *)
Definition prefix_in (p : list item * bool) (text : list Z) : Prop :=
  exists mid post, text = mid ++ post /\ lang (fst p) mid /\ (snd p = true -> post = []).

(** The text contains a described piece, at its start for a pattern with ^. *)
Definition found (re text : list Z) : Prop :=
  match re with
  | c :: re1 =>
      if decide (c = ch_caret) then prefix_in (items re1) text
      else exists pre rest, text = pre ++ rest /\ prefix_in (items re) rest
  | [] => exists pre rest, text = pre ++ rest /\ prefix_in (items re) rest
  end.

(** ** The matcher decides it *)

Lemma prefix_in_many c l e text :
  prefix_in (Many c :: l, e) text <->
  exists u rest, text = u ++ rest /\ Forall (accepts c) u /\ prefix_in (l, e) rest.
Proof.
  unfold prefix_in. simpl. split.
  - intros (mid & post & -> & Hl & He). inversion Hl as [| |? u ? w Hu Hw]; subst.
    exists u, (w ++ post). split; [by rewrite app_assoc|]. split; [done|]. by exists w, post.
  - intros (u & rest & -> & Hu & mid & post & -> & Hl & He). exists (u ++ mid), post.
    split; [by rewrite app_assoc|]. split; [by constructor|done].
Qed.

Lemma matchstar_spec mh c l e text :
  (forall t, mh t = true <-> prefix_in (l, e) t) ->
  matchstar mh c text = true <-> prefix_in (Many c :: l, e) text.
Proof.
  intros Hmh. rewrite prefix_in_many. induction text as [|x text IH]; simpl.
  - destruct (mh []) eqn:Em.
    + split; [intros _|done]. exists [], []. split; [done|]. split; [constructor|by apply Hmh].
    + split; [done|]. intros (u & rest & E & _ & Hp). symmetry in E. apply app_eq_nil in E as [-> ->].
      apply Hmh in Hp. congruence.
  - destruct (mh (x :: text)) eqn:Em.
    + split; [intros _|done]. exists [], (x :: text). split; [done|]. split; [constructor|by apply Hmh].
    + assert ((x =? c) || (c =? ch_dot) = true <-> accepts c x) as Hacc.
      { rewrite orb_true_iff, !Z.eqb_eq. unfold accepts. split; intros [?|?]; auto. }
      destruct ((x =? c) || (c =? ch_dot)).
      * rewrite IH. split.
        -- intros (u & rest & -> & Hu & Hp). exists (x :: u), rest. split; [done|].
           split; [constructor; [by apply Hacc|done]|done].
        -- intros ([|y u] & rest & E & Hu & Hp); simpl in E; [subst; apply Hmh in Hp; congruence|].
           injection E as <- ->. apply Forall_cons in Hu as [_ Hu]. by exists u, rest.
      * split; [done|]. intros ([|y u] & rest & E & Hu & Hp); simpl in E; [subst; apply Hmh in Hp; congruence|].
        injection E as <- ->. apply Forall_cons in Hu as [Hx _]. by apply Hacc in Hx.
Qed.

Lemma prefix_in_one c l e text :
  prefix_in (One c :: l, e) text <-> exists x t, text = x :: t /\ accepts c x /\ prefix_in (l, e) t.
Proof.
  unfold prefix_in. simpl. split.
  - intros (mid & post & -> & Hl & He). inversion Hl; subst. simpl. eexists _, _. split; [done|].
    split; [done|]. by exists w, post.
  - intros (x & t & -> & Hx & mid & post & -> & Hl & He). exists (x :: mid), post.
    split; [done|]. split; [by constructor|done].
Qed.

Lemma matchhere_single c re text :
  (forall t, matchhere re t = true <-> prefix_in (items re) t) ->
  (if (c =? ch_dollar) && match re with [] => true | _ => false end
   then match text with [] => true | _ => false end
   else match text with
        | x :: text => if (c =? ch_dot) || (c =? x) then matchhere re text else false
        | [] => false
        end) = true <->
  prefix_in (if (c =? ch_dollar) && match re with [] => true | _ => false end then ([], true)
             else let '(is_, e) := items re in (One c :: is_, e)) text.
Proof.
  intros IH. destruct ((c =? ch_dollar) && _) eqn:Ee.
  - unfold prefix_in. simpl. split.
    + destruct text; [|done]. intros _. exists [], []. split; [done|]. split; [constructor|done].
    + intros (mid & post & -> & Hl & He). inversion Hl; subst. by rewrite He.
  - destruct (items re) as [l e] eqn:Ei. rewrite prefix_in_one. destruct text as [|x text].
    + split; [done|]. by intros (x & t & E & _).
    + assert ((c =? ch_dot) || (c =? x) = true <-> accepts c x) as Hacc
        by (rewrite orb_true_iff, !Z.eqb_eq; done).
      destruct ((c =? ch_dot) || (c =? x)).
      * rewrite IH. split; [intros Hp; exists x, text; tauto|]. by intros (y & t & [= <- <-] & _ & Hp).
      * split; [done|]. intros (y & t & [= <- <-] & Hx & Hp). by apply Hacc in Hx.
Qed.

Lemma matchhere_spec re : forall text, matchhere re text = true <-> prefix_in (items re) text.
Proof.
  induction re as [re IH] using (induction_ltof1 _ (@length Z)). unfold ltof in IH. intros text.
  destruct re as [|c re1]; simpl.
  - split; [intros _|done]. exists [], text. split; [done|]. split; [constructor|done].
  - assert (forall t, matchhere re1 t = true <-> prefix_in (items re1) t) as IH1 by (apply IH; simpl; lia).
    destruct re1 as [|s re2]; [exact (matchhere_single c [] text IH1)|].
    destruct (s =? ch_star) eqn:Es; [|exact (matchhere_single c (s :: re2) text IH1)].
    assert (forall t, matchhere re2 t = true <-> prefix_in (items re2) t) as IH2 by (apply IH; simpl; lia).
    destruct (items re2) as [l e]. by apply matchstar_spec.
Qed.

Lemma match_from_spec re text :
  match_from re text = true <-> exists pre rest, text = pre ++ rest /\ prefix_in (items re) rest.
Proof.
  induction text as [|x text IH]; simpl.
  - destruct (matchhere re []) eqn:E.
    + split; [intros _|done]. exists [], []. split; [done|]. by apply matchhere_spec.
    + split; [done|]. intros (pre & rest & E' & Hp). symmetry in E'. apply app_eq_nil in E' as [-> ->].
      apply matchhere_spec in Hp. congruence.
  - destruct (matchhere re (x :: text)) eqn:E.
    + split; [intros _|done]. exists [], (x :: text). split; [done|]. by apply matchhere_spec.
    + rewrite IH. split.
      * intros (pre & rest & -> & Hp). by exists (x :: pre), rest.
      * intros ([|y pre] & rest & E' & Hp); simpl in E'; [subst; apply matchhere_spec in Hp; congruence|].
        injection E' as <- ->. by exists pre, rest.
Qed.

(** C34. grep's matcher decides the meaning of patterns: it accepts a text if
    and only if some piece of it (its start for a pattern with ^, its end for
    one with $) is described by the items of the pattern, where c stands for
    itself, . for any character and c* for any number of them. *)
Theorem match_decides_patterns re text : match_re re text = true <-> found re text.
Proof.
  unfold match_re, found. destruct re as [|c re1]; [apply match_from_spec|].
  destruct (Z.eqb_spec c ch_caret) as [->|Hne].
  - rewrite decide_True by done. apply matchhere_spec.
  - rewrite decide_False by done. apply match_from_spec.
Qed.

(** ** The reading loop *)

(** The lines of a text that are ended by a newline, after the beginning [acc]
    of a line, and the beginning that is left at the end. *)
Fixpoint complete_lines (acc text : list Z) : list (list Z) :=
  match text with
  | [] => []
  | c :: text => if c =? ch_nl then acc :: complete_lines [] text else complete_lines (acc ++ [c]) text
  end.
Fixpoint last_part (acc text : list Z) : list Z :=
  match text with
  | [] => acc
  | c :: text => if c =? ch_nl then last_part [] text else last_part (acc ++ [c]) text
  end.

(** What grep ought to print of a text. *)
Definition matching_lines (pattern text : list Z) : list Z :=
  concat ((fun l => if match_re pattern l then l ++ [ch_nl] else []) <$> complete_lines [] text).

Lemma complete_lines_app acc a b :
  complete_lines acc (a ++ b) = complete_lines acc a ++ complete_lines (last_part acc a) b.
Proof. revert acc. induction a as [|c a IH]; intros acc; simpl; [done|]. case_match; simpl; by rewrite IH. Qed.

Lemma last_part_app acc a b : last_part acc (a ++ b) = last_part (last_part acc a) b.
Proof. revert acc. induction a as [|c a IH]; intros acc; simpl; [done|]. case_match; by rewrite IH. Qed.

Lemma no_newline acc l : ch_nl ∉ l -> complete_lines acc l = [] /\ last_part acc l = acc ++ l.
Proof.
  revert acc. induction l as [|c l IH]; intros acc Hn; simpl; [by rewrite app_nil_r|].
  apply not_elem_of_cons in Hn as [Hc Hn]. rewrite (proj2 (Z.eqb_neq _ _)) by done.
  destruct (IH (acc ++ [c]) Hn) as [-> ->]. by rewrite <- app_assoc.
Qed.

Lemma split_nl_spec p :
  0 ∉ p ->
  match split_nl p with
  | Some (l, r) => p = l ++ ch_nl :: r /\ ch_nl ∉ l
  | None => ch_nl ∉ p
  end.
Proof.
  induction p as [|c p IH]; intros H0; simpl; [apply not_elem_of_nil|].
  apply not_elem_of_cons in H0 as [Hc H0]. rewrite (proj2 (Z.eqb_neq c 0)) by done.
  destruct (Z.eqb_spec c ch_nl) as [->|Hne]; [split; [done|apply not_elem_of_nil]|].
  specialize (IH H0). destruct (split_nl p) as [[l r]|].
  - destruct IH as [-> Hn]. split; [done|]. apply not_elem_of_cons. by split.
  - apply not_elem_of_cons. by split.
Qed.

Lemma grep_lines_spec fuel pattern p :
  0 ∉ p -> (length p <= fuel)%nat ->
  grep_lines fuel pattern p = (matching_lines pattern p, last_part [] p).
Proof.
  revert p. induction fuel as [|fuel IH]; intros p H0 Hf; simpl.
  - destruct p; [done|simpl in Hf; lia].
  - pose proof (split_nl_spec p H0) as Hs. unfold matching_lines. destruct (split_nl p) as [[l r]|].
    + destruct Hs as [-> Hn]. rewrite length_app in Hf. simpl in Hf.
      assert (0 ∉ r) as H0r by (intros ?; apply H0, elem_of_app; right; by right).
      rewrite IH by (done || lia). rewrite complete_lines_app, last_part_app. destruct (no_newline [] l Hn) as [-> ->].
      simpl. done.
    + destruct (no_newline [] p Hs) as [-> ->]. done.
Qed.

Lemma last_part_no_nl acc text : ch_nl ∉ acc -> ch_nl ∉ last_part acc text.
Proof.
  revert acc. induction text as [|c text IH]; intros acc Ha; simpl; [done|].
  destruct (Z.eqb_spec c ch_nl) as [->|Hne]; apply IH; [apply not_elem_of_nil|].
  rewrite not_elem_of_app, not_elem_of_cons. split_and!; [done|congruence|apply not_elem_of_nil].
Qed.

Lemma last_part_sub acc text c : c ∈ last_part acc text -> c ∈ acc ++ text.
Proof.
  revert acc. induction text as [|x text IH]; intros acc; simpl; [by rewrite app_nil_r|].
  case_match; intros Hc%IH; rewrite !elem_of_app, ?elem_of_cons in *.
  - destruct Hc as [?%not_elem_of_nil|?]; [done|tauto].
  - rewrite elem_of_nil in Hc. tauto.
Qed.

Lemma last_part_suffix acc text : exists pre, acc ++ text = pre ++ last_part acc text.
Proof.
  revert acc. induction text as [|x text IH]; intros acc; simpl; [exists []; by rewrite app_nil_r|].
  case_match.
  - destruct (IH []) as [pre E]. exists (acc ++ x :: pre). simpl in E. rewrite <- app_assoc. simpl. by rewrite <- E.
  - destruct (IH (acc ++ [x])) as [pre E]. exists pre. by rewrite <- E, <- app_assoc.
Qed.

(** grep prints exactly the matching lines of its input, in order, when
    every call of read brings at least one end of line (and the input has no NUL
    bytes). *)
Theorem grep_prints_matching_lines pattern reads :
  Forall (fun chunk => (0 ∉ chunk) /\ ch_nl ∈ chunk) reads ->
  grep pattern [] reads = matching_lines pattern (concat reads).
Proof.
  intros Hr. cut (forall buf, 0 ∉ buf -> ch_nl ∉ buf ->
    grep pattern buf reads = matching_lines pattern (buf ++ concat reads)).
  { intros Hc. apply (Hc []); apply not_elem_of_nil. }
  induction Hr as [|chunk reads [H0 Hnl] Hr IH]; intros buf Hb0 Hbn; simpl.
  { rewrite app_nil_r. unfold matching_lines. by destruct (no_newline [] buf Hbn) as [-> _]. }
  destruct chunk as [|c chunk]; [by apply not_elem_of_nil in Hnl|].
  set (b := buf ++ c :: chunk). assert (0 ∉ b) as Hb by (unfold b; by rewrite not_elem_of_app).
  unfold grep_turn. fold b. rewrite grep_lines_spec by done.
  assert (last_part [] b <> b) as Hne.
  { intros E. assert (ch_nl ∉ last_part [] b) as Hn by apply last_part_no_nl, not_elem_of_nil.
    rewrite E in Hn. apply Hn. unfold b. apply elem_of_app. by right. }
  assert (length (last_part [] b) <> length b) as Hlen.
  { intros E. apply Hne. destruct (last_part_suffix [] b) as [pre Hpre]. simpl in Hpre.
    pose proof (f_equal length Hpre) as Hl. rewrite length_app in Hl.
    assert (pre = []) as -> by (apply length_zero_iff_nil; lia). done. }
  rewrite (proj2 (Nat.eqb_neq _ _) Hlen), IH.
  - unfold matching_lines. rewrite app_assoc. fold b.
    rewrite (complete_lines_app [] b), fmap_app, concat_app. f_equal.
    rewrite (complete_lines_app [] (last_part [] b)). destruct (no_newline [] (last_part [] b)) as [-> ->];
      [apply last_part_no_nl, not_elem_of_nil|]. done.
  - intros ?%last_part_sub. by apply Hb.
  - apply last_part_no_nl, not_elem_of_nil.
Qed.

(** A line that arrives in two pieces is lost: with abc as the pattern
    and the line abc read as ab and c, grep prints nothing, although the line
    matches. *)
Theorem grep_loses_split_lines :
  let abc := [97; 98; 99] in
  let reads := [[97; 98]; [99; ch_nl]] in
  grep abc [] reads = [] /\ matching_lines abc (concat reads) = abc ++ [ch_nl].
Proof. vm_compute. split; reflexivity. Qed.

Lemma grep_prints_matching_lines_witness :
  grep [97; ch_star; 98] [] [[97; 97; 98; ch_nl; 99]; [99; ch_nl; 98; ch_nl]] =
    [97; 97; 98; ch_nl; 98; ch_nl].
Proof.
  rewrite grep_prints_matching_lines; [vm_compute; reflexivity|].
  repeat constructor; (rewrite !not_elem_of_cons || (unfold ch_nl; set_solver)); unfold ch_nl;
    split_and!; try lia; apply not_elem_of_nil.
Defined.
