(* ===== verification/FsAlloc.v ===== *)
(** * Allocating disk blocks (fs.c: bzero, balloc, bfree)

    File-system operations run inside a transaction: [trans] gives the current
    block contents and the blocks of the transaction.  balloc returns a block
    whose bit in the free map is clear, sets it and zeroes the block, so that a
    block in use is never given out. *)

From S2P Require Import Prelude Mmu Mem Bytes State Kernel Sched Sleeplock Bio BioCache Log LogCrash LogOps.
From S2P Require Import FsInode.

(** ** Bits of the free map *)

Lemma length_set_bit data bi : length (set_bit data bi) = length data.
Proof. apply length_alter. Qed.
Lemma length_clear_bit data bi : length (clear_bit data bi) = length data.
Proof. apply length_alter. Qed.

Lemma testbit_u8 x k : 0 <= k < 8 -> Z.testbit (u8 x) k = Z.testbit x k.
Proof. intros Hk. unfold u8. change 256 with (2 ^ 8). apply Z.mod_pow2_bits_low; lia. Qed.

Lemma bit_clear_testbit data bi :
  bit_clear data bi = negb (Z.testbit (nth (Z.to_nat (bi / 8)) data 0) (bi mod 8)).
Proof.
  unfold bit_clear. pose proof (Z.mod_pos_bound bi 8 ltac:(lia)) as Hm.
  rewrite Z.shiftl_1_l. rewrite <- has_testbit by lia. unfold has. by rewrite negb_involutive.
Qed.

Lemma shiftl_1_testbit k j : 0 <= k -> 0 <= j -> Z.testbit (Z.shiftl 1 k) j = bool_decide (j = k).
Proof.
  intros Hk Hj. rewrite Z.shiftl_1_l, Z.pow2_bits_eqb by done.
  destruct (Z.eqb_spec k j) as [->|Hne]; [by rewrite bool_decide_true|by rewrite bool_decide_false].
Qed.

Lemma nth_alter {A} (f : A -> A) l i j d :
  nth j (alter f i l) d = if decide (j = i /\ (i < length l)%nat) then f (nth j l d) else nth j l d.
Proof.
  rewrite !nth_lookup. case_decide as Hc.
  - destruct Hc as [-> Hlt]. rewrite list_lookup_alter_eq.
    destruct (lookup_lt_is_Some_2 l i Hlt) as [x Hx]. by rewrite Hx.
  - destruct (decide (j = i)) as [->|Hne]; [|by rewrite list_lookup_alter_ne].
    rewrite list_lookup_alter_eq, lookup_ge_None_2 by (destruct (decide (i < length l)%nat); [by destruct Hc|lia]). done.
Qed.

(** Two bits of a map are in different bytes or at different places of a byte. *)
Lemma bit_apart bi bj : 0 <= bi -> 0 <= bj -> bi <> bj ->
  Z.to_nat (bj / 8) <> Z.to_nat (bi / 8) \/ bj mod 8 <> bi mod 8.
Proof. intros. Z.div_mod_to_equations. lia. Qed.

Lemma set_bit_spec data bi bj :
  0 <= bi -> 0 <= bj -> (Z.to_nat (bi / 8) < length data)%nat ->
  bit_clear (set_bit data bi) bj = if decide (bi = bj) then false else bit_clear data bj.
Proof.
  intros Hi Hj Hlen. rewrite !bit_clear_testbit. unfold set_bit. rewrite nth_alter.
  pose proof (Z.mod_pos_bound bi 8 ltac:(lia)). pose proof (Z.mod_pos_bound bj 8 ltac:(lia)).
  destruct (decide (bi = bj)) as [->|Hne].
  - rewrite decide_True by done. rewrite testbit_u8, Z.lor_spec, shiftl_1_testbit by lia.
    by rewrite bool_decide_true, orb_true_r.
  - case_decide as Hc; [|done]. destruct Hc as [E _]. destruct (bit_apart bi bj Hi Hj Hne) as [?|Hb]; [done|].
    rewrite testbit_u8, Z.lor_spec, shiftl_1_testbit by lia. by rewrite bool_decide_false, orb_false_r.
Qed.

Lemma clear_bit_spec data bi bj :
  0 <= bi -> 0 <= bj -> (Z.to_nat (bi / 8) < length data)%nat ->
  bit_clear (clear_bit data bi) bj = if decide (bi = bj) then true else bit_clear data bj.
Proof.
  intros Hi Hj Hlen. rewrite !bit_clear_testbit. unfold clear_bit. rewrite nth_alter.
  pose proof (Z.mod_pos_bound bi 8 ltac:(lia)). pose proof (Z.mod_pos_bound bj 8 ltac:(lia)).
  destruct (decide (bi = bj)) as [->|Hne].
  - rewrite decide_True by done. rewrite testbit_u8, Z.land_spec, Z.lnot_spec, shiftl_1_testbit by lia.
    by rewrite bool_decide_true, andb_false_r.
  - case_decide as Hc; [|done]. destruct Hc as [E _]. destruct (bit_apart bi bj Hi Hj Hne) as [?|Hb]; [done|].
    rewrite testbit_u8, Z.land_spec, Z.lnot_spec, shiftl_1_testbit by lia.
    by rewrite bool_decide_false, andb_true_r.
Qed.

(** The scan finds the first clear bit. *)
Lemma bit_scan_spec n data b size bi :
  0 <= b -> 0 <= bi -> b + 8192 < 4294967296 -> bi <= 4096 -> (4096 - bi <= Z.of_nat n) ->
  match bit_scan n data b size bi with
  | Some r => bi <= r < 4096 /\ b + r < size /\ bit_clear data r = true /\
              forall j, bi <= j < r -> bit_clear data j = false
  | None => forall j, bi <= j < 4096 -> b + j < size -> bit_clear data j = false
  end.
Proof.
  revert bi. induction n as [|n IH]; intros bi Hb Hbi Hlt Hle Hn; cbn [bit_scan].
  - intros j Hj. lia.
  - change BPB with 4096. rewrite u32_small by lia.
    destruct (Z.ltb_spec bi 4096), (Z.ltb_spec (b + bi) size); cbn [andb]; try (intros j ? ?; lia).
    destruct (bit_clear data bi) eqn:Ec; [split_and!; (lia || done)|].
    specialize (IH (bi + 1) Hb ltac:(lia) Hlt ltac:(lia) ltac:(lia)).
    destruct (bit_scan n data b size (bi + 1)) as [r|].
    + destruct IH as (? & ? & ? & IH). split_and!; [lia|lia|done|done|]. intros j Hj.
      destruct (decide (j = bi)) as [->|]; [done|]. apply IH. lia.
    + intros j Hj Hs. destruct (decide (j = bi)) as [->|]; [done|]. apply IH; lia.
Qed.

(** ** Inside a transaction *)

Section trans.
Context `{KernelImage} (p : nat) (pid start : Z).
Implicit Types (V : Z -> list Z) (L : gset nat) (bs : list Z).

(** The process holds the buffers [L]; the blocks have contents [V]; the
    transaction has the blocks [bs] so far. *)
Record trans L V bs (s : kstate) : Prop := {
  tr_cache : cache p pid L V (list_to_set bs) s;
  tr_log : log_at start bs (k_log s);
  tr_ok : trans_ok start bs;
  tr_size : l_size (k_log s) = 30;
  tr_out : 1 <= l_outstanding (k_log s);
}.

(** Only buffers, their order, processes and the log changed. *)
Definition trans_only (s s' : kstate) : Prop :=
  exists bufs lru ps lg, s' = set_k_bufs bufs (set_k_lru lru (set_k_procs ps (set_k_log lg s))).

Lemma trans_only_refl s : trans_only s s.
Proof. exists (k_bufs s), (k_lru s), (k_procs s), (k_log s). by destruct s. Qed.

Lemma trans_only_trans s1 s2 s3 : trans_only s1 s2 -> trans_only s2 s3 -> trans_only s1 s3.
Proof. intros (? & ? & ? & ? & ->) (b & l & q & g & ->). exists b, l, q, g. by destruct s1. Qed.

Lemma bufs_trans_only s s' : bufs_only s s' -> trans_only s s'.
Proof. intros (b & l & q & -> & _). exists b, l, q, (k_log s). by destruct s. Qed.

Lemma trans_bufs L L' V bs s s' :
  trans L V bs s -> bufs_only s s' -> cache p pid L' V (list_to_set bs) s' -> trans L' V bs s'.
Proof. intros [] (? & ? & ? & -> & _) HC. by constructor. Qed.

Lemma trans_room L V bs s : trans L V bs s -> (length bs < 29)%nat -> (size L <= 1)%nat ->
  (size (list_to_set bs : gset Z) + size L < 30)%nat.
Proof.
  intros Ht Hlt HL. rewrite size_list_to_set by apply (tr_ok _ _ _ _ Ht). lia.
Qed.

Lemma joined_length bs bno : (length (joined bs bno) <= S (length bs))%nat.
Proof. unfold joined. case_decide; rewrite ?length_app; simpl; lia. Qed.

(** No held buffer has the block. *)
Definition not_held L (s : kstate) (bno : Z) : Prop :=
  forall b bf, b ∈ L -> k_bufs s !! b = Some bf -> b_blockno bf <> bno.

(** A held buffer is changed and logged. *)
Lemma wp_change_held L V bs s b bf (f : list Z -> list Z) (Q : unit -> kstate -> Prop) :
  trans L V bs s -> b ∈ L -> k_bufs s !! b = Some bf -> home start (b_blockno bf) ->
  (length bs < 29)%nat -> length (f (b_data bf)) = 512%nat ->
  (forall s' bf', trans_only s s' -> (forall b2, b2 <> b -> k_bufs s' !! b2 = k_bufs s !! b2) ->
     k_bufs s' !! b = Some bf' -> b_blockno bf' = b_blockno bf -> b_data bf' = f (b_data bf) ->
     trans L (vset V (b_blockno bf) (f (b_data bf))) (joined bs (b_blockno bf)) s' -> Q tt s') ->
  wp (modbuf b (fun bf => set_b_data (f (b_data bf)) bf);; log_write b) Q s.
Proof.
  intros Ht HbL Hb Hh Hlt Hlen HQ. pose proof Ht as [HC Hl Hok Hsz Hout].
  kstep. eapply wp_modbuf; [done|].
  assert (forall x : buf, <[b := x]> (k_bufs s) !! b = Some x) as Hput.
  { intros x. apply list_lookup_insert_eq. by eapply lookup_lt_Some. }
  eapply (wp_log_write p pid start L V _ b _ bs); [by apply cache_fill|done|apply Hput|done..|].
  intros lg s' Hlg Hs Ho HC'. apply (HQ s' (set_b_flags (Z.lor (b_flags bf) B_DIRTY) (set_b_data (f (b_data bf)) bf))).
  - unfold s'. eexists _, (k_lru s), (k_procs s), lg. by destruct s.
  - intros b2 Hne. unfold s'. cbn. rewrite list_insert_insert_eq. by rewrite list_lookup_insert_ne.
  - unfold s'. cbn. rewrite list_insert_insert_eq. apply Hput.
  - done.
  - done.
  - constructor; try done. by apply joined_ok.
Qed.

(** A block is read, changed, logged and released. *)
Lemma wp_update_block L V bs s bno (f : list Z -> list Z) (Q : unit -> kstate -> Prop) :
  trans L V bs s -> home start bno -> not_held L s bno -> (length bs < 29)%nat -> (size L <= 1)%nat ->
  length (f (V bno)) = 512%nat ->
  (forall s', trans_only s s' -> (forall b, b ∈ L -> k_bufs s' !! b = k_bufs s !! b) ->
     trans L (vset V bno (f (V bno))) (joined bs bno) s' -> Q tt s') ->
  wp (bp ← bread 1 bno; modbuf bp (fun bf => set_b_data (f (b_data bf)) bf);; log_write bp;; brelse bp) Q s.
Proof.
  intros Ht Hh Hnh Hlt HL Hlen HQ. pose proof Ht as [HC Hl Hok Hsz Hout].
  kstep. eapply (wp_bread p pid L V); [exact HC|apply Hh|exact Hnh|right; by eapply trans_room|].
  intros b bf HbL s1 HC1 Hb Hno Hdat.
  assert (trans ({[b]} ∪ L) V bs s1) as Ht1 by (eapply trans_bufs; [exact Ht|apply (bufs_only_put s)|done]).
  apply (wp_bind_assoc _ (fun _ => log_write b)), wp_bind.
  eapply (wp_change_held _ V bs s1 b bf f); [done|set_solver|done|by rewrite Hno|done|by rewrite Hdat|].
  intros s2 bf' Ho2 Hb2 Hbf' Hno' Hdat' Ht2. rewrite Hno, Hdat in Ht2. rewrite Hdat in Hdat'. rewrite Hno in Hno'.
  eapply (wp_brelse p pid); [apply Ht2|set_solver|exact Hbf'|by rewrite Hno', vset_eq|].
  intros s3 Ho3 HC3 Hb3. apply HQ.
  - eapply trans_only_trans; [|by apply bufs_trans_only]. eapply trans_only_trans; [|exact Ho2].
    apply bufs_trans_only, bufs_only_put.
  - intros b' Hb'. assert (b' <> b) by (intros ->; done). rewrite Hb3, Hb2 by done. unfold s1. cbn.
    by rewrite list_lookup_insert_ne.
  - eapply trans_bufs; [exact Ht2|done|].
    replace (({[b]} ∪ L) ∖ {[b]}) with L in HC3 by set_solver. done.
Qed.

(** bzero *)
Lemma wp_bzero L V bs s bno (Q : unit -> kstate -> Prop) :
  trans L V bs s -> home start bno -> not_held L s bno -> (length bs < 29)%nat -> (size L <= 1)%nat ->
  (forall s', trans_only s s' -> (forall b, b ∈ L -> k_bufs s' !! b = k_bufs s !! b) ->
     trans L (vset V bno (replicate 512 0)) (joined bs bno) s' -> Q tt s') ->
  wp (bzero 1 bno) Q s.
Proof.
  intros Ht Hh Hnh Hlt HL HQ. unfold bzero. change (u32 1) with 1. pose proof disksize_range. destruct Hh as [Hr Hn].
  rewrite u32_small by lia.
  eapply (wp_update_block L V bs s bno (fun _ => replicate 512 0)); [done|done|done|done|done|reflexivity|done].
Qed.

(** ** balloc *)

(** The free map says that block [a] is in use. *)
Definition used V (sb : superblock) (a : Z) : Prop := bit_clear (V (BBLOCK a sb)) (a mod BPB) = false.

(** Setting the bit of block [a]. *)
Definition marked V (sb : superblock) (a : Z) : Z -> list Z :=
  vset V (BBLOCK a sb) (set_bit (V (BBLOCK a sb)) (a mod BPB)).

(** The file system lies on the disk, and the blocks of its free map and those
    that are free are outside the log. *)
Record map_ok V (sb : superblock) : Prop := {
  mo_size : 0 < sb_size sb <= disksize;
  mo_start : 0 <= sb_bmapstart sb < disksize;
  mo_bmap : forall a, 0 <= a < sb_size sb -> home start (BBLOCK a sb);
  mo_free : forall a, 0 <= a < sb_size sb -> ~ used V sb a -> home start a;
}.

(** The buffers held by the caller are none of those balloc needs. *)
Definition clear_of L (s : kstate) V (sb : superblock) : Prop :=
  forall a, 0 <= a < sb_size sb -> not_held L s (BBLOCK a sb) /\ (~ used V sb a -> not_held L s a).

Lemma not_held_same L s s' bno :
  (forall b, b ∈ L -> k_bufs s' !! b = k_bufs s !! b) -> not_held L s bno -> not_held L s' bno.
Proof. intros E Hn b bf Hb Hbf. rewrite E in Hbf by done. eauto. Qed.

Lemma BBLOCK_in b bi sb : b mod BPB = 0 -> 0 <= b -> 0 <= bi < BPB ->
  BBLOCK (b + bi) sb = BBLOCK b sb /\ (b + bi) mod BPB = bi.
Proof.
  unfold BBLOCK. change BPB with 4096. intros Hb H0 Hbi.
  assert ((b + bi) / 4096 = b / 4096) as -> by (Z.div_mod_to_equations; lia).
  split; [done|]. Z.div_mod_to_equations; lia.
Qed.

(** One turn of the search. *)
Lemma wp_balloc_body L V bs s sb b (Q : Z + Z -> kstate -> Prop) :
  trans L V bs s -> k_sb s = sb -> map_ok V sb -> clear_of L s V sb -> (size L <= 1)%nat ->
  (length bs < 28)%nat -> b mod BPB = 0 -> 0 <= b < sb_size sb ->
  (forall s', trans_only s s' -> (forall x, x ∈ L -> k_bufs s' !! x = k_bufs s !! x) -> trans L V bs s' ->
     (forall a, b <= a < b + BPB -> a < sb_size sb -> used V sb a) -> Q (inl (b + BPB)) s') ->
  (forall a s', 0 <= a < sb_size sb -> ~ used V sb a ->
     trans_only s s' -> (forall x, x ∈ L -> k_bufs s' !! x = k_bufs s !! x) ->
     trans L (vset (marked V sb a) a (replicate 512 0)) (joined (joined bs (BBLOCK a sb)) a) s' -> Q (inr a) s') ->
  wp (balloc_body 1 b) Q s.
Proof.
  intros Ht Hsb [Hsz _ Hbm Hfr] Hcl HL Hlen Hb0 Hb HQ1 HQ2. pose proof disksize_range.
  unfold balloc_body. kstep. kstep. rewrite Hsb, u32_small by lia. zb.
  pose proof (Hbm b Hb) as Hbh. destruct (Hcl b Hb) as [Hnb _].
  kstep. eapply (wp_bread p pid L V); [apply Ht|apply Hbh|exact Hnb|right; eapply trans_room; [done|lia|done]|].
  intros x bf HxL s1 HC1 Hx Hno Hdat.
  assert (trans ({[x]} ∪ L) V bs s1) as Ht1 by (eapply trans_bufs; [exact Ht|apply (bufs_only_put s)|done]).
  kstep. eapply wp_getbuf; [done|]. rewrite Hdat. change (Z.to_nat BPB) with 4096%nat.
  pose proof (bit_scan_spec 4096 (V (BBLOCK b sb)) b (sb_size sb) 0 ltac:(lia) ltac:(lia) ltac:(lia) ltac:(lia) ltac:(lia)) as Hscan.
  assert (forall y, y ∈ L -> k_bufs s1 !! y = k_bufs s !! y) as Hs1.
  { intros y Hy. unfold s1. cbn. rewrite list_lookup_insert_ne; [done|]. intros ->. done. }
  assert (trans_only s s1) as Ho1 by apply bufs_trans_only, bufs_only_put.
  assert (length (V (BBLOCK b sb)) = 512%nat) as HlV by apply Ht.
  destruct (bit_scan _ _ _ _ _) as [bi|].
  - destruct Hscan as (Hbi & Hbs & Hclr & _). destruct (BBLOCK_in b bi sb Hb0) as [Eb Em]; [lia|done|].
    assert (~ used V sb (b + bi)) as Hnu by (unfold used; rewrite Eb, Em, Hclr; done).
    apply (wp_bind_assoc _ (fun _ => log_write x)), wp_bind.
    eapply (wp_change_held _ V bs s1 x bf (fun d => set_bit d bi)); [done|set_solver|done|by rewrite Hno|lia| |].
    { rewrite length_set_bit. apply (ca_data _ _ _ _ _ _ HC1 x bf Hx). }
    rewrite Hno, Hdat. intros s2 bf2 Ho2 Hb2 Hx2 Hno2 Hdat2 Ht2.
    kstep. eapply (wp_brelse p pid); [apply Ht2|set_solver|exact Hx2|by rewrite Hno2, vset_eq|].
    intros s3 Ho3 HC3 Hb3. replace (({[x]} ∪ L) ∖ {[x]}) with L in HC3 by set_solver.
    assert (trans L (marked V sb (b + bi)) (joined bs (BBLOCK (b + bi) sb)) s3) as Ht3.
    { unfold marked. rewrite Eb, Em. by eapply trans_bufs. }
    assert (forall y, y ∈ L -> k_bufs s3 !! y = k_bufs s !! y) as Hs3.
    { intros y Hy. assert (y <> x) by (intros ->; done). rewrite Hb3, Hb2 by done. auto. }
    pose proof (joined_length bs (BBLOCK (b + bi) sb)).
    kstep. eapply (wp_bzero L (marked V sb (b + bi))); [exact Ht3|apply Hfr; [lia|done]| |lia|done|].
    { eapply not_held_same; [exact Hs3|]. apply Hcl; [lia|done]. }
    intros s4 Ho4 Hs4 Ht4. kstep. rewrite u32_small by lia. apply HQ2; [lia|done| | |done].
    + eapply trans_only_trans; [exact Ho1|]. eapply trans_only_trans; [exact Ho2|].
      eapply trans_only_trans; [by apply bufs_trans_only|done].
    + intros y Hy. rewrite Hs4 by done. auto.
  - kstep. eapply (wp_brelse p pid); [exact HC1|set_solver|exact Hx|congruence|].
    intros s3 Ho3 HC3 Hb3. replace (({[x]} ∪ L) ∖ {[x]}) with L in HC3 by set_solver. kstep. apply HQ1.
    + eapply trans_only_trans; [exact Ho1|by apply bufs_trans_only].
    + intros y Hy. rewrite Hb3 by (intros ->; done). auto.
    + by eapply trans_bufs.
    + intros a Ha Has. destruct (BBLOCK_in b (a - b) sb Hb0) as [Eb Em]; [lia|lia|].
      replace (b + (a - b)) with a in * by lia. unfold used. rewrite Eb, Em.
      change BPB with 4096 in *. apply Hscan; lia.
Qed.

Lemma wp_balloc L V bs s sb (Q : Z -> kstate -> Prop) :
  trans L V bs s -> k_sb s = sb -> map_ok V sb -> clear_of L s V sb -> (size L <= 1)%nat ->
  (length bs < 28)%nat -> (exists a, 0 <= a < sb_size sb /\ ~ used V sb a) ->
  (forall a s', 0 <= a < sb_size sb -> ~ used V sb a ->
     trans_only s s' -> (forall x, x ∈ L -> k_bufs s' !! x = k_bufs s !! x) ->
     trans L (vset (marked V sb a) a (replicate 512 0)) (joined (joined bs (BBLOCK a sb)) a) s' -> Q a s') ->
  wp (balloc 1) Q s.
Proof.
  intros Ht Hsb Hm Hcl HL Hlen (a0 & Ha0 & Hf0) HQ. unfold balloc. kstep. kstep. rewrite Hsb.
  apply (wp_iter (fun b s' => b mod BPB = 0 /\ 0 <= b /\ (forall a, 0 <= a < b -> a < sb_size sb -> used V sb a) /\
      trans L V bs s' /\ trans_only s s' /\ (forall x, x ∈ L -> k_bufs s' !! x = k_bufs s !! x))
    (fun b => Z.to_nat ((sb_size sb - b + 4095) / 4096))).
  - intros b s' (Hb0 & Hb & Hall & Ht' & Ho & Hsame).
    assert (b <= a0) as Hle.
    { destruct (decide (b <= a0)); [done|]. exfalso. apply Hf0, Hall; lia. }
    eapply (wp_balloc_body L V bs s' sb b); [done| |done| |done|done|done|lia| |].
    + by destruct Ho as (? & ? & ? & ? & ->).
    + intros a Ha. destruct (Hcl a Ha) as [H1 H2]. split; [by eapply not_held_same|].
      intros Hu. eapply not_held_same; [done|auto].
    + intros s2 Ho2 Hsame2 Ht2 Hused. change BPB with 4096 in *. split_and!.
      * Z.div_mod_to_equations; lia.
      * lia.
      * intros a Ha Has. destruct (decide (a < b)); [apply Hall; lia|apply Hused; lia].
      * done.
      * by eapply trans_only_trans.
      * intros x Hx. rewrite Hsame2 by done. auto.
      * Z.div_mod_to_equations; lia.
    + intros a s2 Ha Hu Ho2 Hsame2 Ht2. apply HQ; [done|done|by eapply trans_only_trans| |done].
      intros x Hx. rewrite Hsame2 by done. auto.
  - split_and!; [done|lia|lia|done|apply trans_only_refl|done].
  - change BPB with 4096. destruct Hm as [? _ _ _]. Z.div_mod_to_equations; lia.
Qed.

(** The free map after an allocation. *)
Lemma used_after V sb a b :
  (forall x, length (V x) = 512%nat) -> map_ok V sb -> 0 <= a < sb_size sb -> 0 <= b < sb_size sb -> BBLOCK b sb <> a ->
  used (vset (marked V sb a) a (replicate 512 0)) sb b <-> used V sb b \/ b = a.
Proof.
  intros Hlen [Hsz Hst _ _] Ha Hb Hne. pose proof disksize_range. unfold used. rewrite vset_ne by done. unfold marked.
  assert (length (V (BBLOCK a sb)) = 512%nat) as Hl by done. change BPB with 4096.
  pose proof (Z.mod_pos_bound a 4096 ltac:(lia)). pose proof (Z.mod_pos_bound b 4096 ltac:(lia)).
  destruct (decide (BBLOCK b sb = BBLOCK a sb)) as [E|E].
  - rewrite E, vset_eq, set_bit_spec by (try lia; Z.div_mod_to_equations; lia).
    case_decide as Em; split; try done.
    + intros _. right. unfold BBLOCK in E. change BPB with 4096 in E.
      rewrite !u32_small in E by (Z.div_mod_to_equations; lia). Z.div_mod_to_equations; lia.
    + by left.
    + intros [?| ->]; [done|]. by destruct Em.
  - rewrite vset_ne by done. split; [by left|]. intros [?| ->]; [done|]. by destruct E.
Qed.

(** balloc never gives out a block in use: it returns a block below the
    size of the file system whose bit in the free map was clear, with the bit
    set, the block zeroed and no other block changed, and it finds one whenever
    there is one. *)
Theorem balloc_gives_free_block V bs s :
  trans ∅ V bs s -> map_ok V (k_sb s) -> (length bs < 28)%nat ->
  (exists a, 0 <= a < sb_size (k_sb s) /\ ~ used V (k_sb s) a) ->
  exists a s' bs', balloc 1 s = Ret a s' /\ 0 <= a < sb_size (k_sb s) /\ ~ used V (k_sb s) a /\
    let V' := vset (marked V (k_sb s) a) a (replicate 512 0) in
    trans ∅ V' bs' s' /\ trans_only s s' /\
    (forall b, 0 <= b < sb_size (k_sb s) -> BBLOCK b (k_sb s) <> a ->
       used V' (k_sb s) b <-> (used V (k_sb s) b \/ b = a)) /\
    (forall b, b <> a -> b <> BBLOCK a (k_sb s) -> V' b = V b).
Proof.
  intros Ht Hm Hlen Hex. set (sb := k_sb s).
  cut (wp (balloc 1) (fun a s' => exists bs', 0 <= a < sb_size sb /\ ~ used V sb a /\ trans_only s s' /\
    trans ∅ (vset (marked V sb a) a (replicate 512 0)) bs' s') s).
  { intros (a & s' & Hrun & bs' & Ha & Hu & Ho & Ht')%wp_inv. exists a, s', bs'. cbv zeta. split_and!; try done; try lia.
    - intros b Hb Hne. apply used_after; try done. apply Ht.
    - intros b H1 H2. rewrite vset_ne by done. unfold marked. by rewrite vset_ne. }
  eapply (wp_balloc ∅ V bs s sb); [done|done|done| |rewrite size_empty; lia|done|done|].
  - intros a Ha. split; [|intros _]; intros b bf []%elem_of_empty.
  - intros a s' Ha Hu Ho _ Ht'. by eexists.
Qed.

End trans.

(** ** A sample file system *)

(** 1000 blocks, the first 64 in use, the free map in block 58, sevens in
    block 60. *)
Definition sample_sb : superblock := mkSb 1000 941 200 30 2 32 58.
Definition sample_map : list Z := replicate 8 255 ++ replicate 504 0.
Definition sample_disk : gmap (Z * Z) (list Z) := {[ (1, 58) := sample_map; (1, 60) := replicate 512 7 ]}.

(** A file of 700 bytes in blocks 60 and 61. *)
Definition sample_inode : inode :=
  mkInode 1 1 1 (mkSleeplock 1 0) 1 T_FILE 0 0 1 700 ([60; 61] ++ replicate 11 0).

(** Inside a transaction that wrote nothing yet. *)
Definition sample_fs : kstate :=
  set_k_log (mkLog 2 30 1 0 1 0 (replicate 30 0)) 
    (set_k_icache (sample_inode :: replicate 49 zero_inode) (set_k_sb sample_sb (small_booted sample_disk))).

Lemma sample_disk_len bno : length (disk_block sample_disk 1 bno) = 512%nat.
Proof.
  unfold disk_block, sample_disk. destruct (decide (bno = 58)) as [->|Hne]; [reflexivity|].
  rewrite lookup_insert_ne by congruence. destruct (decide (bno = 60)) as [->|Hne']; [reflexivity|].
  rewrite lookup_singleton_ne by congruence. reflexivity.
Qed.

Section witnesses.
#[local] Existing Instance sample_image.

Lemma sample_trans : trans 0 0 2 ∅ (disk_block sample_disk 1) [] sample_fs.
Proof.
  destruct (small_booted_ok sample_disk sample_disk_len) as (_ & HC & _). constructor.
  - apply cache_log. destruct HC. constructor; assumption.
  - constructor; reflexivity.
  - apply trans_nil.
  - reflexivity.
  - cbn. lia.
Qed.

Lemma sample_bblock a : 0 <= a < 1000 -> BBLOCK a sample_sb = 58.
Proof.
  intros Ha. unfold BBLOCK. change BPB with 4096. rewrite (Z.div_small a) by lia. reflexivity.
Qed.

Lemma sample_used a : 0 <= a < 64 -> used (disk_block sample_disk 1) sample_sb a.
Proof.
  intros Ha. unfold used. rewrite sample_bblock by lia. change BPB with 4096. rewrite (Z.mod_small a) by lia.
  assert (forallb (fun a => negb (bit_clear (disk_block sample_disk 1 58) a)) (seqZ 0 64) = true) as Hall by reflexivity.
  rewrite forallb_forall in Hall. specialize (Hall a). apply negb_true_iff, Hall, list_elem_of_In, elem_of_seqZ. lia.
Qed.

Lemma sample_free : ~ used (disk_block sample_disk 1) sample_sb 64.
Proof. vm_compute. discriminate. Qed.

Lemma sample_map_ok : map_ok 2 (disk_block sample_disk 1) sample_sb.
Proof.
  constructor.
  - cbn. lia.
  - cbn. lia.
  - intros a Ha. rewrite sample_bblock by exact Ha. apply small_home; lia.
  - intros a Ha Hn. cbn in Ha. destruct (decide (a < 64)); [destruct Hn; apply sample_used; lia|].
    apply small_home; lia.
Qed.

Lemma balloc_gives_free_block_witness :
  exists a s', balloc 1 sample_fs = Ret a s' /\ ~ used (disk_block sample_disk 1) sample_sb a.
Proof.
  destruct (balloc_gives_free_block 0 0 2 (disk_block sample_disk 1) [] sample_fs) as (a & s' & bs' & Hrun & _ & Hu & _).
  - apply sample_trans.
  - apply sample_map_ok.
  - cbn. lia.
  - exists 64. split; [cbn; lia|apply sample_free].
  - exists a, s'. split; [exact Hrun|exact Hu].
Defined.

End witnesses.
