(* ===== verification/FsContents.v ===== *)
(** * What a file contains (fs.c: bmap, readi, writei)

    A file is the sequence of its bytes: byte [j] is in block [j / 512], whose
    number is in the inode or in its indirect block.  readi returns exactly the
    bytes of the range asked for that the file has, with every error case, and
    writei within a file replaces exactly its range. *)

From S2P Require Import Prelude Mmu Mem Bytes State Kernel Sched Sleeplock Bio BioCache Log LogCrash LogOps.
From S2P Require Import FsInode FsAlloc Console FsFile.

(** ** Contents *)

(** The disk block of file block [k], for the block contents [V]. *)
Definition file_block (V : Z -> list Z) (addrs : list Z) (k : Z) : Z :=
  if k <? NDIRECT then nth (Z.to_nat k) addrs 0
  else get32 (V (nth (Z.to_nat NDIRECT) addrs 0)) (Z.to_nat (4 * (k - NDIRECT))).

Definition file_byte (V : Z -> list Z) (addrs : list Z) (j : Z) : Z :=
  nth (Z.to_nat (j mod BSIZE)) (V (file_block V addrs (j / BSIZE))) 0.

Definition file_bytes (V : Z -> list Z) (addrs : list Z) (off n : Z) : list Z :=
  file_byte V addrs <$> seqZ off n.

Definition contents (V : Z -> list Z) (ip : inode) : list Z := file_bytes V (i_addrs ip) 0 (i_size ip).

Section inode_ok.
Context `{KernelImage}.

(** Every block of the file is allocated. *)
Record inode_ok (V : Z -> list Z) (ip : inode) : Prop := {
  io_dev : i_dev ip = 1;
  io_len : length (i_addrs ip) = 13%nat;
  io_size : 0 <= i_size ip <= MAXFILE * BSIZE;
  io_blocks : forall k, 0 <= k -> k * BSIZE < i_size ip -> 0 < file_block V (i_addrs ip) k < disksize;
  io_indirect : NDIRECT * BSIZE < i_size ip -> 0 < nth (Z.to_nat NDIRECT) (i_addrs ip) 0 < disksize;
}.

End inode_ok.

Lemma length_file_bytes V addrs off n : length (file_bytes V addrs off n) = Z.to_nat n.
Proof. unfold file_bytes. by rewrite length_fmap, length_seqZ. Qed.

Lemma file_bytes_app V addrs off n m :
  0 <= n -> 0 <= m -> file_bytes V addrs off (n + m) = file_bytes V addrs off n ++ file_bytes V addrs (off + n) m.
Proof. intros Hn Hm. unfold file_bytes. by rewrite seqZ_app, fmap_app by lia. Qed.

(** A range of a file is a range of its contents. *)
Lemma file_bytes_slice V ip off n :
  0 <= off -> 0 <= n -> off + n <= i_size ip ->
  file_bytes V (i_addrs ip) off n = take (Z.to_nat n) (drop (Z.to_nat off) (contents V ip)).
Proof.
  intros Ho Hn Hs. unfold contents.
  replace (i_size ip) with (off + (n + (i_size ip - off - n))) by lia.
  rewrite !file_bytes_app by lia. rewrite drop_app_length' by (by rewrite length_file_bytes).
  by rewrite take_app_length' by (by rewrite length_file_bytes).
Qed.

(** The bytes of a range inside one block. *)
Lemma get_bytes_block l o m :
  (o + m <= length l)%nat -> get_bytes l o m = (fun j => nth j l 0) <$> seq o m.
Proof.
  intros H. apply list_eq. intros i. unfold get_bytes. rewrite list_lookup_fmap.
  destruct (decide (i < m)%nat) as [Hi|Hi].
  - rewrite lookup_take_lt, lookup_drop, lookup_seq_lt by done. simpl.
    destruct (lookup_lt_is_Some_2 l (o + i)) as [x Hx]; [lia|]. by rewrite Hx, (nth_lookup_Some _ _ _ x).
  - rewrite lookup_take_ge, lookup_seq_ge by lia. done.
Qed.

Lemma file_bytes_block V addrs off m :
  0 <= off -> 0 <= m -> off mod BSIZE + m <= BSIZE ->
  length (V (file_block V addrs (off / BSIZE))) = 512%nat ->
  get_bytes (V (file_block V addrs (off / BSIZE))) (Z.to_nat (off mod BSIZE)) (Z.to_nat m) =
    file_bytes V addrs off m.
Proof.
  unfold BSIZE. intros Ho Hm Hb Hlen. pose proof (Z.mod_pos_bound off 512 ltac:(lia)).
  rewrite get_bytes_block by lia. unfold file_bytes. apply list_eq. intros i. rewrite !list_lookup_fmap.
  destruct (decide (i < Z.to_nat m)%nat) as [Hi|Hi].
  - rewrite lookup_seq_lt, lookup_seqZ_lt by lia. simpl. unfold file_byte, BSIZE. f_equal.
    assert ((off + Z.of_nat i) / 512 = off / 512 /\ (off + Z.of_nat i) mod 512 = off mod 512 + Z.of_nat i) as [-> ->].
    { Z.div_mod_to_equations. lia. }
    f_equal. lia.
  - rewrite lookup_seq_ge, lookup_seqZ_ge by lia. done.
Qed.

(** ** Reading *)

Section fs.
Context `{KernelImage} (p : nat) (pid : Z).
Implicit Types (V : Z -> list Z) (T : gset Z).

Lemma wp_getino i ip s Q : k_icache s !! i = Some ip -> Q ip s -> wp (getino i) Q s.
Proof. intros Hi HQ. unfold getino. wp_steps. by rewrite Hi. Qed.

Lemma wp_get_addr i ip k s Q :
  k_icache s !! i = Some ip -> length (i_addrs ip) = 13%nat -> 0 <= k < 13 ->
  Q (nth (Z.to_nat k) (i_addrs ip) 0) s -> wp (get_addr i k) Q s.
Proof.
  intros Hi Hl Hk HQ. unfold get_addr. kstep. eapply wp_getino; [done|]. unfold nthZ. zb.
  destruct (lookup_lt_is_Some_2 (i_addrs ip) (Z.to_nat k)) as [a Ha]; [lia|]. rewrite Ha. kstep.
  by rewrite (nth_lookup_Some _ _ _ a Ha) in HQ.
Qed.

(** A block is read, looked at and released. *)
Lemma wp_with_block {A} V T s bno (f : list Z -> A) (Q : A -> kstate -> Prop) :
  cache p pid ∅ V T s -> (size T < 30)%nat -> 0 <= bno < disksize ->
  (forall s', bufs_only s s' -> cache p pid ∅ V T s' -> Q (f (V bno)) s') ->
  wp (bp ← bread 1 bno; bf ← getbuf bp; brelse bp;; mret (f (b_data bf))) Q s.
Proof.
  intros HC HT Hb HQ. kstep. eapply (wp_bread p pid ∅ V T); [done|lia|set_solver|right; by apply size_room|].
  intros b bf _ s1 HC1 Hbf Hno Hdat. rewrite union_empty_r_L in HC1. kstep. eapply wp_getbuf; [done|].
  kstep. eapply (wp_brelse p pid {[b]} V T); [done|set_solver|done|congruence|].
  intros s2 Ho HC2 _. kstep. rewrite Hdat. apply HQ.
  - eapply bufs_only_trans; [apply bufs_only_put|exact Ho].
  - by rewrite difference_diag_L in HC2.
Qed.

(** bmap of a block of the file finds it. *)
Lemma wp_bmap_present V T s i ip k (Q : Z -> kstate -> Prop) :
  cache p pid ∅ V T s -> (size T < 30)%nat -> k_icache s !! i = Some ip -> inode_ok V ip ->
  0 <= k -> k * BSIZE < i_size ip ->
  (forall s', bufs_only s s' -> cache p pid ∅ V T s' -> Q (file_block V (i_addrs ip) k) s') ->
  wp (bmap i k) Q s.
Proof.
  intros HC HT Hi [Hdev Hlen Hsz Hblk Hind] Hk Hlt HQ. specialize (Hblk k Hk Hlt).
  unfold MAXFILE, NINDIRECT, NDIRECT, BSIZE in *.
  unfold bmap. kstep. eapply wp_getino; [done|]. unfold NDIRECT. unfold file_block, NDIRECT in *.
  destruct (Z.ltb_spec k 12) as [Hd|Hd].
  - kstep. eapply wp_get_addr; [done|done|lia|]. zb. kstep. apply HQ; [apply bufs_only_refl|done].
  - cbv zeta. change (NINDIRECT) with 128. change (512 / 4) with 128 in *. zb. kstep.
    eapply wp_get_addr; [done|done|lia|]. zb. kstep. kstep. rewrite Hdev.
    set (a := nth (Z.to_nat 12) (i_addrs ip) 0) in *.
    assert (0 < a < disksize) as Ha by (apply Hind; lia).
    kstep. eapply (wp_bread p pid ∅ V T); [done|lia|set_solver|right; by apply size_room|].
    intros b bf _ s1 HC1 Hbf Hno Hdat. rewrite union_empty_r_L in HC1. kstep. eapply wp_getbuf; [done|].
    rewrite Hdat. zb. kstep. kstep. kstep.
    eapply (wp_brelse p pid {[b]} V T); [done|set_solver|done|congruence|].
    intros s2 Ho HC2 _. kstep. apply HQ.
    + eapply bufs_only_trans; [apply bufs_only_put|exact Ho].
    + by rewrite difference_diag_L in HC2.
Qed.

(** One turn of the loop of readi. *)
Lemma wp_readi_body V T s i ip n off acc tot (Q : (Z * Z * list Z + list Z) -> kstate -> Prop) :
  let m := Z.min (n - tot) (BSIZE - off mod BSIZE) in
  cache p pid ∅ V T s -> (size T < 30)%nat -> k_icache s !! i = Some ip -> inode_ok V ip ->
  0 <= off -> tot < n -> off + (n - tot) <= i_size ip ->
  (forall s', bufs_only s s' -> cache p pid ∅ V T s' ->
     Q (inl (tot + m, off + m, acc ++ file_bytes V (i_addrs ip) off m)) s') ->
  wp (readi_body i n (tot, off, acc)) Q s.
Proof.
  intros m HC HT Hi Hok Ho Hlt Hsz HQ. pose proof (Z.mod_pos_bound off BSIZE ltac:(done)) as Hmod.
  assert (0 < m) as Hm by (unfold m, BSIZE in *; lia).
  assert (off / BSIZE * BSIZE < i_size ip) as Hbn.
  { unfold BSIZE in *. Z.div_mod_to_equations. lia. }
  assert (0 <= off / BSIZE) as Hbn0 by (apply Z.div_pos; [done|done]).
  unfold readi_body. zb. kstep. eapply wp_getino; [done|]. kstep.
  eapply (wp_bmap_present V T s i ip); [done..|]. intros s1 Ho1 HC1. rewrite (io_dev _ _ Hok).
  eapply (wp_with_block V T s1 _ (fun data => inl (tot + m, off + m,
    acc ++ get_bytes data (Z.to_nat (off mod BSIZE)) (Z.to_nat m)))); [done|done| |].
  - pose proof (io_blocks _ _ Hok (off / BSIZE) Hbn0 Hbn). lia.
  - intros s2 Ho2 HC2. rewrite file_bytes_block.
    + apply HQ; [by eapply bufs_only_trans|done].
    + done.
    + lia.
    + unfold m. lia.
    + apply HC1.
Qed.

(** Turns left in the loop of readi. *)
Definition turns (n tot off : Z) : nat :=
  if tot <? n then Z.to_nat ((off + (n - tot) - 1) / BSIZE - off / BSIZE + 1) else 0%nat.

Lemma turns_step n tot off :
  0 <= off -> tot < n ->
  let m := Z.min (n - tot) (BSIZE - off mod BSIZE) in
  (turns n (tot + m) (off + m) < turns n tot off)%nat.
Proof.
  intros Ho Hlt m. unfold turns, m, BSIZE. zb. zcase; Z.div_mod_to_equations; lia.
Qed.

Lemma turns_start n off : 0 <= off -> 0 <= n -> (turns n 0 off < S (Z.to_nat (n / BSIZE + 2)))%nat.
Proof. intros Ho Hn. unfold turns, BSIZE. zcase; Z.div_mod_to_equations; lia. Qed.

Lemma wp_readi_loop V T s i ip n off (Q : list Z -> kstate -> Prop) :
  cache p pid ∅ V T s -> (size T < 30)%nat -> k_icache s !! i = Some ip -> inode_ok V ip ->
  0 <= off -> 0 <= n -> off + n <= i_size ip ->
  (forall s', bufs_only s s' -> cache p pid ∅ V T s' -> Q (file_bytes V (i_addrs ip) off n) s') ->
  wp (iter (S (Z.to_nat (n / BSIZE + 2))) (readi_body i n) (0, off, [])) Q s.
Proof.
  intros HC HT Hi Hok Ho Hn Hsz HQ.
  apply (wp_iter (fun st s' => let '(tot, o, acc) := st in
      0 <= tot <= n /\ o = off + tot /\ acc = file_bytes V (i_addrs ip) off tot /\
      bufs_only s s' /\ cache p pid ∅ V T s')
    (fun st => let '(tot, o, _) := st in turns n tot o)); [| |by apply turns_start].
  - intros [[tot o] acc] s' (Ht & -> & -> & Hbo & HC').
    assert (k_icache s' !! i = Some ip) as Hi' by (by rewrite (bufs_only_icache _ _ Hbo)).
    destruct (Z.ltb_spec tot n) as [Hlt|Hge].
    + eapply (wp_readi_body V T s' i ip); [done..|lia|done|lia|].
      set (m := Z.min _ _). assert (0 < m) as Hm.
      { unfold m, BSIZE. pose proof (Z.mod_pos_bound (off + tot) 512). lia. }
      intros s2 Hbo2 HC2. split; [|by apply turns_step; [lia|]]. split_and!; [lia|unfold m; lia|lia| | |done].
      * by rewrite <- file_bytes_app by lia.
      * by eapply bufs_only_trans.
    + unfold readi_body. zb. kstep. replace tot with n by lia. by apply HQ.
  - split_and!; [lia|lia|lia|done|apply bufs_only_refl|done].
Qed.

(** readi of a range that starts inside the file. *)
Lemma wp_readi V T s i ip off n (Q : Z * list Z -> kstate -> Prop) :
  cache p pid ∅ V T s -> (size T < 30)%nat -> k_icache s !! i = Some ip -> inode_ok V ip ->
  i_type ip <> T_DEV -> 0 <= off <= i_size ip -> 0 <= n -> off + n < 4294967296 ->
  (forall s', let bs := take (Z.to_nat n) (drop (Z.to_nat off) (contents V ip)) in
     bufs_only s s' -> cache p pid ∅ V T s' -> Q (Z.of_nat (length bs), bs) s') ->
  wp (readi i off n) Q s.
Proof.
  intros HC HT Hi Hok Hty Ho Hn Hw HQ. pose proof (io_size _ _ Hok) as Hsz. change (MAXFILE * BSIZE) with 71680 in Hsz.
  set (n' := if i_size ip <? u32 (off + n) then u32 (i_size ip - off) else n).
  assert (n' = Z.min n (i_size ip - off)) as Hn'.
  { unfold n'. rewrite !u32_small by lia. zcase; lia. }
  assert (length (contents V ip) = Z.to_nat (i_size ip)) as Hlc by apply length_file_bytes.
  assert (take (Z.to_nat n) (drop (Z.to_nat off) (contents V ip)) = file_bytes V (i_addrs ip) off n') as E.
  { rewrite (file_bytes_slice V ip off n') by lia.
    destruct (decide (n <= i_size ip - off)); [by replace n' with n by lia|].
    rewrite !take_ge by (rewrite length_drop; lia). done. }
  cbv zeta in HQ. rewrite E, length_file_bytes, Z2Nat.id in HQ by lia.
  unfold readi. kstep. eapply wp_getino; [done|]. rewrite (proj2 (Z.eqb_neq _ _) Hty).
  assert ((i_size ip <? off) || (u32 (off + n) <? off) = false) as ->.
  { rewrite u32_small by lia. zb. done. }
  cbv zeta. fold n'. kstep. eapply (wp_readi_loop V T s i ip); [done..|lia|lia|lia|].
  intros s' Hbo HC'. kstep. rewrite s32_small by lia. by apply HQ.
Qed.

(** readi returns the bytes of the file in the range asked for, cut at the
    end of the file, and changes nothing but the buffer cache; an offset beyond
    the end or a range that wraps around 32 bits gives -1. *)
Theorem readi_returns_contents V T s i ip off n :
  cache p pid ∅ V T s -> (size T < 30)%nat -> k_icache s !! i = Some ip -> inode_ok V ip ->
  i_type ip <> T_DEV -> 0 <= off < 4294967296 -> 0 <= n < 4294967296 ->
  exists s', bufs_only s s' /\ cache p pid ∅ V T s' /\
    readi i off n s =
      if decide (off <= i_size ip /\ off + n < 4294967296)
      then let bs := take (Z.to_nat n) (drop (Z.to_nat off) (contents V ip)) in
           Ret (Z.of_nat (length bs), bs) s'
      else Ret (-1, []) s'.
Proof.
  intros HC HT Hi Hok Hty Ho Hn. case_decide as Hc.
  - set (bs := take _ _).
    cut (wp (readi i off n) (fun r s' => r = (Z.of_nat (length bs), bs) /\
           bufs_only s s' /\ cache p pid ∅ V T s') s).
    { intros (r & s' & Hrun & -> & Hbo & HC')%wp_inv. exists s'. by split_and!. }
    by eapply (wp_readi V T s i ip); [done..|lia|lia|lia|].
  - exists s. split; [apply bufs_only_refl|]. split; [done|]. apply run_of_wp.
    pose proof (io_size _ _ Hok) as Hsz. change (MAXFILE * BSIZE) with 71680 in Hsz.
    assert (u32 (off + n) < off <-> 4294967296 <= off + n) as Hwrap.
    { unfold u32. Z.div_mod_to_equations. lia. }
    unfold readi. kstep. eapply wp_getino; [done|]. rewrite (proj2 (Z.eqb_neq _ _) Hty).
    assert ((i_size ip <? off) || (u32 (off + n) <? off) = true) as ->; [|by kstep].
    apply orb_true_iff. rewrite !Z.ltb_lt. lia.
Qed.

End fs.

Section witnesses.
#[local] Existing Instance sample_image.

Lemma sample_inode_ok : inode_ok (disk_block sample_disk 1) sample_inode.
Proof.
  constructor; try reflexivity.
  - cbn. change (MAXFILE * BSIZE) with 71680. lia.
  - intros k Hk Hlt. cbn in Hlt. unfold BSIZE in Hlt. change disksize with 1000.
    assert (k = 0 \/ k = 1) as [-> | ->] by lia; vm_compute; split; reflexivity.
  - cbn. unfold BSIZE, NDIRECT. lia.
Qed.

Lemma readi_returns_contents_witness :
  exists s', readi 0 510 4 sample_fs = Ret (4, [7; 7; 0; 0]) s'.
Proof.
  destruct (readi_returns_contents 0 0 (disk_block sample_disk 1) ∅ sample_fs 0 sample_inode 510 4) as (s' & _ & _ & E).
  - apply sample_trans.
  - rewrite size_empty. lia.
  - reflexivity.
  - apply sample_inode_ok.
  - discriminate.
  - lia.
  - lia.
  - exists s'. rewrite E. vm_compute. reflexivity.
Defined.

End witnesses.
