(* ===== verification/FsWrite.v ===== *)
(** * Writing files (fs.c: bmap, writei)

    writei with the allocation of blocks: the bytes written replace and extend
    the contents of the file, the blocks that are allocated on the way were
    free, and no other file's blocks change. *)

From S2P Require Import Prelude Mmu Mem Bytes State Kernel Sched Sleeplock Bio BioCache Log LogCrash LogOps.
From S2P Require Import FsInode FsAlloc Console FsFile FsContents.

Section write.
Context `{KernelImage} (p : nat) (pid start : Z) (sb : superblock) (nmeta : Z).
Implicit Types (V : Z -> list Z) (bs : list Z) (ip : inode).

Lemma insert_nth_eq {A} (l : list A) i x d : (i < length l)%nat -> nth i (<[i := x]> l) d = x.
Proof. intros Hi. apply nth_lookup_Some. by apply list_lookup_insert_eq. Qed.

Lemma insert_nth_ne {A} (l : list A) i j x d : i <> j -> nth j (<[i := x]> l) d = nth j l d.
Proof. intros Hne. rewrite !nth_lookup. by rewrite list_lookup_insert_ne. Qed.

Lemma filter_out_none (l : list Z) a : a ∉ l -> filter (.≠ a) l = l.
Proof.
  induction l as [|x l IH]; [done|]. intros [Hne Hn]%not_elem_of_cons.
  rewrite filter_cons_True by congruence. by rewrite IH.
Qed.

Lemma filter_out_length (l : list Z) a : NoDup l -> (length l <= S (length (filter (.≠ a) l)))%nat.
Proof.
  induction 1 as [|x l Hx Hnd IH]; [simpl; lia|]. destruct (decide (x = a)) as [->|Hne].
  - rewrite filter_cons_False by (by intros []). by rewrite filter_out_none.
  - rewrite filter_cons_True by done. simpl. lia.
Qed.

(** ** Inodes on disk *)

Lemma get_put_inside bs off new k m :
  (off + length new <= length bs)%nat -> (k + m <= length new)%nat ->
  get_bytes (put_bytes bs off new) (off + k) m = get_bytes new k m.
Proof.
  intros Hl Hk. apply list_eq. intros i. unfold get_bytes. destruct (decide (i < m)%nat) as [Hi|Hi].
  - rewrite !lookup_take_lt, !lookup_drop, lookup_put_bytes by done.
    rewrite decide_True by lia. f_equal. lia.
  - by rewrite !lookup_take_ge by lia.
Qed.

Lemma get_bytes_app l1 l2 k m : get_bytes (l1 ++ l2) (length l1 + k) m = get_bytes l2 k m.
Proof. unfold get_bytes. rewrite <- drop_drop, drop_app_length. done. Qed.

Lemma get_bytes_head n v l : get_bytes (z2le n v ++ l) 0 n = z2le n v.
Proof. unfold get_bytes. rewrite drop_0. apply take_app_length'. by rewrite length_z2le. Qed.

(** Number [i] of a run of [n]-byte numbers. *)
Lemma get_bytes_concat n (l : list Z) i v :
  l !! i = Some v -> get_bytes (concat (z2le n <$> l)) (n * i) n = z2le n v.
Proof.
  revert i. induction l as [|x l IH]; intros [|i] Hi; [done|done| |]; rewrite fmap_cons; cbn [concat].
  - injection Hi as ->. rewrite Nat.mul_0_r. apply get_bytes_head.
  - replace (n * S i)%nat with (length (z2le n x) + n * i)%nat by (rewrite length_z2le; lia).
    rewrite get_bytes_app. by apply IH.
Qed.

Lemma length_concat_z2le (l : list Z) k : length (concat (z2le k <$> l)) = (k * length l)%nat.
Proof.
  induction l as [|x l IH]; [cbn; lia|]. rewrite fmap_cons. cbn [concat length].
  rewrite length_app, length_z2le, IH. lia.
Qed.

Lemma length_dinode_bytes di : length (di_addrs di) = 13%nat -> length (dinode_bytes di) = 64%nat.
Proof. intros Hl. unfold dinode_bytes. rewrite !length_app, length_concat_z2le, !length_z2le, Hl. done. Qed.

Definition is_short (x : Z) : Prop := -32768 <= x < 32768.

(** The fields of an inode have the widths of [struct dinode]. *)
Record dinode_range (di : dinode) : Prop := {
  dr_type : is_short (di_type di);
  dr_major : is_short (di_major di);
  dr_minor : is_short (di_minor di);
  dr_nlink : is_short (di_nlink di);
  dr_size : 0 <= di_size di < 4294967296;
  dr_len : length (di_addrs di) = 13%nat;
  dr_addrs : Forall (fun a => 0 <= a < 4294967296) (di_addrs di);
}.

Lemma s16_bytes x : is_short x -> s16 (le2z (z2le 2 x)) = x.
Proof.
  unfold is_short. intros Hx. rewrite le2z_z2le. change (256 ^ Z.of_nat 2) with 65536.
  unfold s16, u16. zcase; Z.div_mod_to_equations; lia.
Qed.

Lemma u32_bytes x : 0 <= x < 4294967296 -> le2z (z2le 4 x) = x.
Proof. intros Hx. rewrite le2z_z2le. change (256 ^ Z.of_nat 4) with 4294967296. apply Z.mod_small. lia. Qed.

(** An inode written to its block is read back. *)
Lemma get_put_dinode data n di :
  dinode_range di -> 0 <= n < IPB -> length data = 512%nat -> get_dinode (put_dinode data n di) n = di.
Proof.
  change IPB with 8. intros [Ht Hma Hmi Hnl Hsz Hlen Ha] Hn Hd. unfold get_dinode, put_dinode, dinode_off.
  set (o := Z.to_nat (64 * n)). pose proof (length_dinode_bytes di Hlen) as Hdl.
  assert (forall k m, (k + m <= 64)%nat ->
    get_bytes (put_bytes data o (dinode_bytes di)) (o + k) m = get_bytes (dinode_bytes di) k m) as Hg.
  { intros k m Hk. apply get_put_inside; unfold o; lia. }
  pose proof (Hg 0 2 ltac:(lia))%nat as H0. rewrite Nat.add_0_r in H0.
  unfold get16, get32. rewrite H0, !Hg by lia. destruct di as [t ma mi nl sz ad]. cbn [di_size di_type di_major di_minor di_nlink di_addrs] in *.
  change (get_bytes _ 0 2) with (z2le 2 t). change (get_bytes _ 2 2) with (z2le 2 ma).
  change (get_bytes _ 4 2) with (z2le 2 mi). change (get_bytes _ 6 2) with (z2le 2 nl).
  change (get_bytes _ 8 4) with (z2le 4 sz). rewrite !s16_bytes, u32_bytes by done. f_equal.
  apply list_eq. intros i. rewrite list_lookup_fmap. destruct (decide (i < 13)%nat) as [Hi|Hi].
  - rewrite lookup_seq_lt by done. destruct (lookup_lt_is_Some_2 ad i) as [v Hv]; [lia|]. rewrite Hv.
    cbn [fmap option_fmap option_map Nat.add]. rewrite <- Nat.add_assoc, Hg by lia.
    change (get_bytes _ (12 + 4 * i) 4) with (get_bytes (concat (z2le 4 <$> ad)) (4 * i) 4).
    rewrite (get_bytes_concat _ _ _ v) by done. rewrite u32_bytes; [done|]. by eapply Forall_lookup_1 in Ha.
  - rewrite lookup_seq_ge, lookup_ge_None_2 by lia. done.
Qed.

(** ** The file system *)

(** Log, free map and inodes are below block [nmeta], and those blocks are
    marked as used. *)
Record fs_ok V : Prop := {
  fo_size : nmeta <= sb_size sb <= disksize;
  fo_meta : start + 30 <= nmeta;
  fo_start : 0 <= start;
  fo_map : 0 <= sb_bmapstart sb < disksize;
  fo_bmap : forall a, 0 <= a < sb_size sb -> home start (BBLOCK a sb) /\ BBLOCK a sb < nmeta;
  fo_used : forall a, 0 <= a < nmeta -> used V sb a;
}.

(** A block of some file. *)
Definition data_block V (a : Z) : Prop := nmeta <= a < sb_size sb /\ used V sb a.

Lemma fs_map_ok V : fs_ok V -> map_ok start V sb.
Proof.
  intros [Hsz Hm Hs Hb Hbm Hu]. constructor; [lia|done|apply Hbm|].
  intros a Ha Hn. assert (nmeta <= a) by (destruct (decide (nmeta <= a)); [done|exfalso; apply Hn, Hu; lia]).
  split; lia.
Qed.

Lemma data_home V a : fs_ok V -> data_block V a -> home start a.
Proof. intros [Hsz Hm Hs Hb Hbm Hu] [Ha _]. split; lia. Qed.

Lemma data_not_map V a b : fs_ok V -> data_block V a -> 0 <= b < sb_size sb -> BBLOCK b sb <> a.
Proof. intros [_ _ _ _ Hbm _] [Ha _] Hb. destruct (Hbm b Hb). lia. Qed.

(** The number of file block [k], 0 if there is none yet. *)
Definition slot V (addrs : list Z) (k : Z) : Z :=
  if k <? NDIRECT then nth (Z.to_nat k) addrs 0
  else if nth 12 addrs 0 =? 0 then 0
  else get32 (V (nth 12 addrs 0)) (Z.to_nat (4 * (k - NDIRECT))).

Record inode_wf V ip : Prop := {
  iw_dev : i_dev ip = 1;
  iw_len : length (i_addrs ip) = 13%nat;
  iw_size : 0 <= i_size ip <= MAXFILE * BSIZE;
  iw_blocks : forall k, 0 <= k < MAXFILE -> slot V (i_addrs ip) k <> 0 -> data_block V (slot V (i_addrs ip) k);
  iw_ind : nth 12 (i_addrs ip) 0 <> 0 -> data_block V (nth 12 (i_addrs ip) 0);
  iw_inj : forall k k', 0 <= k < MAXFILE -> 0 <= k' < MAXFILE -> slot V (i_addrs ip) k <> 0 ->
    slot V (i_addrs ip) k = slot V (i_addrs ip) k' -> k = k';
  iw_apart : forall k, 0 <= k < MAXFILE -> slot V (i_addrs ip) k <> 0 ->
    slot V (i_addrs ip) k <> nth 12 (i_addrs ip) 0;
  iw_full : forall k, 0 <= k -> k * BSIZE < i_size ip -> slot V (i_addrs ip) k <> 0;
}.

Lemma slot_file_block V addrs k : slot V addrs k <> 0 -> file_block V addrs k = slot V addrs k.
Proof.
  unfold slot, file_block. change (Z.to_nat NDIRECT) with 12%nat. destruct (k <? NDIRECT); [done|].
  destruct (nth 12 addrs 0 =? 0); done.
Qed.

Lemma inode_wf_ok V ip : fs_ok V -> inode_wf V ip -> inode_ok V ip.
Proof.
  intros Hfs [Hdev Hlen Hsz Hb Hi _ _ Hf]. pose proof Hfs as [Hs Hm Hst _ _ _].
  change (MAXFILE * BSIZE) with 71680 in *. change MAXFILE with 140 in *.
  constructor; try done.
  - intros k Hk Hlt. pose proof (Hf k Hk Hlt) as Hn. rewrite slot_file_block by done. unfold BSIZE in Hlt.
    destruct (Hb k ltac:(lia) Hn) as [? _]. lia.
  - change (Z.to_nat NDIRECT) with 12%nat. intros Hlt.
    assert (nth 12 (i_addrs ip) 0 <> 0) as Hn.
    { intros E. apply (Hf 12); [lia|done|]. unfold slot. rewrite E. done. }
    destruct (Hi Hn) as [? _]. lia.
Qed.

(** ** Allocation preserves files *)

(** [a] was free in [V] and is allocated, zeroed, in [V']. *)
Definition allocated V a : Z -> list Z := vset (marked V sb a) a (replicate 512 0).

Lemma length_allocated V a b :
  (forall x, length (V x) = 512%nat) -> length (allocated V a b) = 512%nat.
Proof.
  intros Hl. unfold allocated, marked, vset. repeat case_decide; [done| |auto]. by rewrite length_set_bit.
Qed.

Lemma free_not_meta V a : fs_ok V -> 0 <= a < sb_size sb -> ~ used V sb a -> nmeta <= a.
Proof.
  intros [_ _ _ _ _ Hu] Ha Hn. destruct (decide (nmeta <= a)); [done|]. exfalso. apply Hn, Hu. lia.
Qed.

Section alloc.
Context V (a : Z) (Hfs : fs_ok V) (Ha : 0 <= a < sb_size sb) (Hfree : ~ used V sb a).
Context (Hlen : forall x, length (V x) = 512%nat).

Lemma allocated_other b : b <> a -> (forall x, 0 <= x < sb_size sb -> BBLOCK x sb <> b) -> allocated V a b = V b.
Proof.
  intros Hne Hb. unfold allocated. rewrite vset_ne by done. unfold marked. rewrite vset_ne; [done|].
  intros E. by apply (Hb a Ha).
Qed.

Lemma allocated_data b : data_block V b -> allocated V a b = V b.
Proof.
  intros Hb. apply allocated_other; [|by intros; eapply data_not_map].
  intros ->. by destruct Hb.
Qed.

Lemma allocated_used b : 0 <= b < sb_size sb -> used (allocated V a) sb b <-> used V sb b \/ b = a.
Proof.
  intros Hb. apply (used_after start); try done.
  - by apply fs_map_ok.
  - intros E. pose proof (free_not_meta V a Hfs Ha Hfree). destruct (fo_bmap _ Hfs b Hb). lia.
Qed.

Lemma allocated_fs : fs_ok (allocated V a).
Proof.
  pose proof Hfs as [? ? ? ? ? Hu]. constructor; try done. intros b Hb. apply allocated_used; [lia|].
  left. by apply Hu.
Qed.

Lemma allocated_data_block b : data_block (allocated V a) b <-> data_block V b \/ b = a.
Proof.
  unfold data_block. pose proof (free_not_meta V a Hfs Ha Hfree). pose proof (fo_size _ Hfs) as Hsz.
  pose proof (fo_meta _ Hfs). pose proof (fo_start _ Hfs).
  split.
  - intros [Hr Hu]. apply allocated_used in Hu; [|lia]. tauto.
  - intros [[Hr Hu]| ->]; (split; [lia|]); apply allocated_used; auto; lia.
Qed.

End alloc.

(** ** A file that gets blocks *)

(** From [V] and [ip] to [V'] and [ip']: the file may have got more blocks;
    blocks of files keep their contents, the file's own indirect block apart. *)
Record grown V ip V' ip' : Prop := {
  gr_fs : fs_ok V';
  gr_wf : inode_wf V' ip';
  gr_data : forall b, data_block V b -> data_block V' b;
  gr_same : forall b, data_block V b -> b <> nth 12 (i_addrs ip) 0 -> V' b = V b;
  gr_slots : forall k, 0 <= k < MAXFILE -> slot V (i_addrs ip) k <> 0 ->
    slot V' (i_addrs ip') k = slot V (i_addrs ip) k;
  gr_new : forall k, 0 <= k < MAXFILE ->
    slot V' (i_addrs ip') k = slot V (i_addrs ip) k \/ ~ data_block V (slot V' (i_addrs ip') k);
  gr_ind : nth 12 (i_addrs ip') 0 = nth 12 (i_addrs ip) 0 \/ ~ data_block V (nth 12 (i_addrs ip') 0);
  gr_inode : ip' = set_i_addrs (i_addrs ip') ip;
}.

Lemma grown_refl V ip : fs_ok V -> inode_wf V ip -> grown V ip V ip.
Proof. intros. constructor; try done; [by left..|by destruct ip]. Qed.

Lemma grown_trans V1 i1 V2 i2 V3 i3 : grown V1 i1 V2 i2 -> grown V2 i2 V3 i3 -> grown V1 i1 V3 i3.
Proof.
  intros [F1 W1 D1 S1 L1 N1 I1 E1] [F2 W2 D2 S2 L2 N2 I2 E2]. constructor; try done.
  - auto.
  - intros b Hb Hne. rewrite S2; [auto|auto|]. intros ->. destruct I1 as [E|Hn]; [by rewrite E in Hne|done].
  - intros k Hk Hn. rewrite L2; [auto|done|]. by rewrite L1.
  - intros k Hk. destruct (N2 k Hk) as [->|]; [auto|right; auto].
  - destruct I2 as [->|Hn]; [done|]. right. auto.
  - rewrite E2, E1. by destruct i1.
Qed.

(** A file with one more block [a], in slot [k] or as its indirect block. *)
Lemma wf_extend V ip V' addrs' k a :
  inode_wf V ip -> length addrs' = 13%nat -> ~ data_block V a -> data_block V' a -> a <> 0 ->
  (forall b, data_block V b -> data_block V' b) ->
  (forall j, 0 <= j < MAXFILE ->
     slot V' addrs' j = slot V (i_addrs ip) j \/ (j = k /\ slot V' addrs' j = a /\ slot V (i_addrs ip) j = 0)) ->
  (nth 12 addrs' 0 = nth 12 (i_addrs ip) 0 \/
   (nth 12 (i_addrs ip) 0 = 0 /\ nth 12 addrs' 0 = a /\
    forall j, 0 <= j < MAXFILE -> slot V' addrs' j = slot V (i_addrs ip) j)) ->
  inode_wf V' (set_i_addrs addrs' ip).
Proof.
  intros [Hdev Hlen Hsz Hb Hi Hinj Hap Hf] Hl' Hna Ha Hnz Hd Hs Hind.
  constructor; cbn; try done.
  - intros j Hj Hn. destruct (Hs j Hj) as [E|(-> & E & _)]; rewrite E in *; [auto|done].
  - destruct Hind as [->|(_ & -> & _)]; [auto|done].
  - intros j j' Hj Hj' Hn E.
    destruct (Hs j Hj) as [E1|(-> & E1 & _)], (Hs j' Hj') as [E2|(-> & E2 & _)]; try done; rewrite E1, E2 in *.
    + auto.
    + destruct Hna. rewrite <- E. auto.
    + destruct Hna. rewrite E. apply Hb; [done|]. by rewrite <- E.
  - intros j Hj Hn. destruct Hind as [->|(E0 & -> & Hall)].
    + destruct (Hs j Hj) as [E|(-> & E & _)]; rewrite E in *; [auto|]. intros ->. apply Hna, Hi. done.
    + rewrite Hall in * by done. intros E. apply Hna. rewrite <- E. auto.
  - intros j Hj Hlt. change (MAXFILE * BSIZE) with 71680 in Hsz. unfold BSIZE in *.
    assert (0 <= j < MAXFILE) as Hjm by (change MAXFILE with 140; lia).
    destruct (Hs j Hjm) as [E|(-> & E & _)]; rewrite E; auto.
Qed.

Lemma ind_data V ip : inode_wf V ip -> nth 12 (i_addrs ip) 0 = 0 \/ data_block V (nth 12 (i_addrs ip) 0).
Proof. intros Hwf. destruct (decide (nth 12 (i_addrs ip) 0 = 0)); [by left|right]. by apply Hwf. Qed.

Lemma slot_ext V V' addrs k :
  nth 12 addrs 0 = 0 \/ V' (nth 12 addrs 0) = V (nth 12 addrs 0) -> slot V' addrs k = slot V addrs k.
Proof.
  intros Hv. unfold slot. destruct (k <? NDIRECT); [done|].
  destruct (Z.eqb_spec (nth 12 addrs 0) 0); [done|]. by destruct Hv as [?| ->].
Qed.

Lemma slot_direct V addrs k a j :
  0 <= k < NDIRECT -> length addrs = 13%nat -> 0 <= j ->
  slot V (updZ addrs k a) j = if decide (j = k) then a else slot V addrs j.
Proof.
  intros Hk Hl Hj. unfold slot, NDIRECT, updZ in *. zb. rewrite (insert_nth_ne addrs (Z.to_nat k) 12) by lia.
  case_decide as E.
  - subst j. zb. apply insert_nth_eq. lia.
  - destruct (j <? 12); [|done]. apply insert_nth_ne. lia.
Qed.

Lemma slot_zero V addrs a j :
  length addrs = 13%nat -> 0 <= j < MAXFILE -> nth 12 addrs 0 = 0 -> V a = replicate 512 0 ->
  slot V (updZ addrs NDIRECT a) j = slot V addrs j.
Proof.
  change MAXFILE with 140. intros Hl Hj E0 Ha. unfold slot, updZ. change (Z.to_nat NDIRECT) with 12%nat.
  rewrite E0. unfold NDIRECT. cbn [Z.ltb Z.compare Z.eqb]. rewrite (insert_nth_eq addrs 12) by lia.
  destruct (Z.ltb_spec j 12); [apply insert_nth_ne; lia|].
  destruct (a =? 0); [done|]. rewrite Ha. unfold get32, get_bytes.
  rewrite drop_replicate, take_replicate. by replace (4 `min` _)%nat with 4%nat by lia.
Qed.

Lemma slot_indirect V addrs k a j :
  NDIRECT <= k < MAXFILE -> 0 <= j < MAXFILE -> nth 12 addrs 0 <> 0 -> length (V (nth 12 addrs 0)) = 512%nat ->
  0 <= a < 4294967296 ->
  slot (vset V (nth 12 addrs 0) (put32 (V (nth 12 addrs 0)) (Z.to_nat (4 * (k - NDIRECT))) a)) addrs j =
    if decide (j = k) then a else slot V addrs j.
Proof.
  change MAXFILE with 140. unfold slot, NDIRECT. intros Hk Hj H0 Hl Ha.
  destruct (Z.ltb_spec j 12) as [Hlt|Hge]; [by rewrite decide_False by lia|].
  rewrite (proj2 (Z.eqb_neq _ _) H0), vset_eq. case_decide as E.
  - subst j. rewrite get32_put32_eq by lia. by apply u32_small.
  - apply get32_put32_ne; lia.
Qed.

(** Changing a block of a file leaves the free map alone. *)
Lemma vset_used V d x b : fs_ok V -> data_block V d -> 0 <= b < sb_size sb ->
  used (vset V d x) sb b <-> used V sb b.
Proof.
  intros Hfs Hd Hb. unfold used. rewrite vset_ne; [done|]. by apply (data_not_map V).
Qed.

Lemma vset_fs V d x : fs_ok V -> data_block V d -> fs_ok (vset V d x).
Proof.
  intros Hfs Hd. pose proof Hfs as [? ? ? ? ? Hu]. constructor; try done. intros b Hb.
  apply vset_used; [done|done|lia|auto].
Qed.

Lemma vset_data_block V d x b : fs_ok V -> data_block V d -> data_block (vset V d x) b <-> data_block V b.
Proof.
  intros Hfs Hd. pose proof (fo_meta _ Hfs). pose proof (fo_start _ Hfs). unfold data_block.
  split; intros [Hr Hu]; (split; [done|]); apply (vset_used V d x b) in Hu; (done || lia).
Qed.

(** [a] is free. *)
Definition free_block V (a : Z) : Prop := 0 <= a < sb_size sb /\ ~ used V sb a.

Lemma free_block_range V a : fs_ok V -> free_block V a -> 0 < a < 8388608 /\ ~ data_block V a.
Proof.
  intros Hfs [Ha Hn]. pose proof (free_not_meta V a Hfs Ha Hn). pose proof disksize_range.
  pose proof (fo_meta _ Hfs). pose proof (fo_start _ Hfs). pose proof (fo_size _ Hfs).
  split; [lia|]. by intros [_ ?].
Qed.

Section grow.
Context V ip (a : Z) (Hfs : fs_ok V) (Hwf : inode_wf V ip) (Hfree : free_block V a).
Context (Hlen : forall x, length (V x) = 512%nat).

Lemma alloc_grown_addr k :
  0 <= k <= NDIRECT -> nth (Z.to_nat k) (i_addrs ip) 0 = 0 ->
  grown V ip (allocated V a) (set_i_addrs (updZ (i_addrs ip) k a) ip).
Proof.
  intros Hk Hz. destruct (free_block_range V a Hfs Hfree) as [Ha Hnd]. pose proof Hfree as [Hr Hn].
  pose proof (iw_len _ _ Hwf) as Hl. unfold NDIRECT in Hk.
  assert (forall j, slot (allocated V a) (i_addrs ip) j = slot V (i_addrs ip) j) as Hsl.
  { intros j. apply slot_ext. destruct (ind_data V ip Hwf); [by left|right]. by apply allocated_data. }
  assert (forall b, data_block V b -> data_block (allocated V a) b) as Hdb.
  { intros b Hb. apply allocated_data_block; auto. }
  assert (data_block (allocated V a) a) as Hda by (apply allocated_data_block; auto).
  assert (k < NDIRECT -> forall j, 0 <= j < MAXFILE ->
    slot (allocated V a) (updZ (i_addrs ip) k a) j = if decide (j = k) then a else slot V (i_addrs ip) j) as H1.
  { intros Hlt j Hj. unfold NDIRECT in Hlt. rewrite slot_direct by (unfold NDIRECT; lia). by rewrite Hsl. }
  assert (k = NDIRECT -> forall j, 0 <= j < MAXFILE ->
    slot (allocated V a) (updZ (i_addrs ip) k a) j = slot V (i_addrs ip) j) as H2.
  { intros -> j Hj. rewrite slot_zero; [apply Hsl|done|done|exact Hz|apply vset_eq]. }
  assert (k < NDIRECT -> slot V (i_addrs ip) k = 0) as Hk0 by (intros; unfold slot; zb; done).
  assert (k < NDIRECT \/ k = NDIRECT) as Hor by (unfold NDIRECT; lia).
  assert (nth 12 (updZ (i_addrs ip) k a) 0 = if decide (k = NDIRECT) then a else nth 12 (i_addrs ip) 0) as Hn12.
  { unfold updZ, NDIRECT. zb. case_decide; [subst k; apply insert_nth_eq; lia|apply insert_nth_ne; lia]. }
  assert (k = NDIRECT -> nth 12 (i_addrs ip) 0 = 0) as Hz12 by (intros ->; exact Hz).
  constructor; cbn [i_addrs set_i_addrs]; try done.
  - by apply allocated_fs.
  - apply (wf_extend V ip _ _ k a); try done; [by rewrite length_updZ|lia| |].
    + intros j Hj. destruct Hor as [Hlt|E]; [rewrite H1 by done|rewrite H2 by done; by left].
      destruct (decide (j = k)) as [->|]; [|by left]. right. auto.
    + rewrite Hn12. destruct (decide (k = NDIRECT)); [right; auto|by left].
  - intros b Hb _. by apply allocated_data.
  - intros j Hj Hnz. destruct Hor as [Hlt|E]; [rewrite H1 by done|by rewrite H2 by done].
    destruct (decide (j = k)) as [->|]; [|done]. by rewrite Hk0 in Hnz.
  - intros j Hj. destruct Hor as [Hlt|E]; [rewrite H1 by done|rewrite H2 by done; by left].
    destruct (decide (j = k)); [by right|by left].
  - rewrite Hn12. destruct (decide (k = NDIRECT)); [by right|by left].
Qed.

Lemma alloc_grown_entry k :
  NDIRECT <= k < MAXFILE -> nth 12 (i_addrs ip) 0 <> 0 -> slot V (i_addrs ip) k = 0 ->
  grown V ip (vset (allocated V a) (nth 12 (i_addrs ip) 0)
    (put32 (V (nth 12 (i_addrs ip) 0)) (Z.to_nat (4 * (k - NDIRECT))) a)) ip.
Proof.
  intros Hk H0 Hz. destruct (free_block_range V a Hfs Hfree) as [Ha Hnd]. pose proof Hfree as [Hr Hn].
  pose proof (iw_len _ _ Hwf) as Hl. set (d := nth 12 (i_addrs ip) 0) in *.
  assert (data_block V d) as Hd by (by apply Hwf).
  assert (fs_ok (allocated V a)) as Hfs1 by (by apply allocated_fs).
  assert (data_block (allocated V a) d) as Hd1 by (apply allocated_data_block; auto).
  assert (allocated V a d = V d) as Ed by (by apply allocated_data).
  assert (forall j, slot (allocated V a) (i_addrs ip) j = slot V (i_addrs ip) j) as Hsl.
  { intros j. apply slot_ext. by right. }
  set (V' := vset _ _ _).
  assert (forall b, data_block V b -> data_block V' b) as Hdb.
  { intros b Hb. apply vset_data_block; [done|done|]. apply allocated_data_block; auto. }
  assert (forall j, 0 <= j < MAXFILE -> slot V' (i_addrs ip) j = if decide (j = k) then a else slot V (i_addrs ip) j) as Hs.
  { intros j Hj. unfold V'. rewrite <- Ed. unfold d. rewrite slot_indirect; [by rewrite Hsl|done|done|done| |lia].
    by apply length_allocated. }
  constructor; try done.
  - by apply vset_fs.
  - replace ip with (set_i_addrs (i_addrs ip) ip) by (by destruct ip).
    apply (wf_extend V ip _ _ k a); try done; [|lia| |by left].
    + apply vset_data_block; [done|done|]. apply allocated_data_block; auto.
    + intros j Hj. rewrite Hs by done. case_decide; [|by left]. right. subst j. auto.
  - intros b Hb Hne. unfold V'. rewrite vset_ne by (fold d in Hne; congruence). by apply allocated_data.
  - intros j Hj Hnz. rewrite Hs by done. case_decide; [|done]. subst j. done.
  - intros j Hj. rewrite Hs by done. case_decide; [by right|by left].
  - by left.
  - by destruct ip.
Qed.

End grow.

(** ** bmap *)

(** At least [n] blocks are free. *)
Definition frees V (n : nat) : Prop := exists l, NoDup l /\ (n <= length l)%nat /\ Forall (free_block V) l.

Lemma frees_mono V n m : (m <= n)%nat -> frees V n -> frees V m.
Proof. intros Hle (l & ? & ? & ?). exists l. split_and!; [done|lia|done]. Qed.

Lemma frees_some V n : frees V (S n) -> exists a, free_block V a.
Proof. intros ([|a l] & _ & Hl & Hf); simpl in Hl; [lia|]. exists a. by apply Forall_cons in Hf as [? _]. Qed.

Lemma frees_alloc V a n :
  fs_ok V -> free_block V a -> (forall x, length (V x) = 512%nat) -> frees V (S n) -> frees (allocated V a) n.
Proof.
  intros Hfs [Ha Hn] Hlen (l & Hnd & Hl & Hf). exists (filter (.≠ a) l). split_and!.
  - by apply NoDup_filter.
  - pose proof (filter_out_length l a Hnd). lia.
  - apply Forall_forall. intros b [Hne Hb]%list_elem_of_filter. rewrite Forall_forall in Hf.
    destruct (Hf b Hb) as [Hr Hu]. split; [done|]. rewrite allocated_used by done. tauto.
Qed.

Lemma frees_vset V d x n : fs_ok V -> data_block V d -> frees V n -> frees (vset V d x) n.
Proof.
  intros Hfs Hd (l & ? & ? & Hf). exists l. split_and!; [done|done|]. eapply Forall_impl; [exact Hf|].
  intros b [Hr Hu]. split; [done|]. by rewrite vset_used.
Qed.

(** Only the buffer cache, processes, log and inodes changed. *)
Definition fs_only (s s' : kstate) : Prop := exists ic, trans_only (set_k_icache ic s) s'.

Lemma fs_only_refl s : fs_only s s.
Proof. exists (k_icache s). replace (set_k_icache (k_icache s) s) with s by (by destruct s). apply trans_only_refl. Qed.
Lemma fs_only_trans s1 s2 s3 : fs_only s1 s2 -> fs_only s2 s3 -> fs_only s1 s3.
Proof.
  intros (ic & b & l & q & g & ->) (ic' & b' & l' & q' & g' & ->). exists ic', b', l', q', g'. by destruct s1.
Qed.
Lemma trans_fs_only s s' : trans_only s s' -> fs_only s s'.
Proof. intros Hs. exists (k_icache s). replace (set_k_icache (k_icache s) s) with s by (by destruct s). done. Qed.
Lemma icache_fs_only ic s : fs_only s (set_k_icache ic s).
Proof. exists ic. apply trans_only_refl. Qed.
Lemma fs_only_sb s s' : fs_only s s' -> k_sb s' = k_sb s.
Proof. by intros (ic & b & l & q & g & ->). Qed.
Lemma trans_only_icache s s' : trans_only s s' -> k_icache s' = k_icache s.
Proof. by intros (b & l & q & g & ->). Qed.
Lemma trans_icache ic L V bs s : trans p pid start L V bs s -> trans p pid start L V bs (set_k_icache ic s).
Proof. intros [[] ? ? ? ?]. by constructor. Qed.

Lemma wp_balloc_free V bs s n (Q : Z -> kstate -> Prop) :
  trans p pid start ∅ V bs s -> k_sb s = sb -> fs_ok V -> (length bs < 28)%nat -> frees V (S n) ->
  (forall a bs' s', free_block V a -> trans_only s s' -> trans p pid start ∅ (allocated V a) bs' s' ->
     (length bs' <= length bs + 2)%nat -> frees (allocated V a) n -> Q a s') ->
  wp (balloc 1) Q s.
Proof.
  intros Ht Hsb Hfs Hlen Hfr HQ.
  eapply (wp_balloc p pid start ∅ V bs s sb); [done|done|by apply fs_map_ok| |rewrite size_empty; lia|done|by eapply frees_some|].
  - intros a Ha. split; [|intros _]; intros b bf []%elem_of_empty.
  - intros a s' Ha Hu Ho _ Ht'. eapply HQ; [done|done|exact Ht'| |].
    + pose proof (joined_length bs (BBLOCK a sb)). pose proof (joined_length (joined bs (BBLOCK a sb)) a). lia.
    + apply frees_alloc; [done|done|apply Ht|done].
Qed.

(** The address of a block, or of the indirect block, in the inode. *)
Lemma wp_bmap_addr V bs s i ip k n (Q : Z -> kstate -> Prop) :
  trans p pid start ∅ V bs s -> k_sb s = sb -> fs_ok V -> k_icache s !! i = Some ip -> inode_wf V ip ->
  0 <= k <= NDIRECT -> (length bs < 28)%nat -> frees V (S n) ->
  (forall V' bs' s' ip', grown V ip V' ip' -> nth (Z.to_nat k) (i_addrs ip') 0 <> 0 ->
     trans p pid start ∅ V' bs' s' -> (length bs' <= length bs + 2)%nat -> fs_only s s' ->
     k_icache s' = <[i := ip']> (k_icache s) -> frees V' n -> Q (nth (Z.to_nat k) (i_addrs ip') 0) s') ->
  wp (addr ← get_addr i k;
      if addr =? 0 then addr ← balloc (i_dev ip); set_addr i k addr;; mret addr else mret addr) Q s.
Proof.
  intros Ht Hsb Hfs Hi Hwf Hk Hlen Hfr HQ. pose proof (iw_len _ _ Hwf) as Hl. unfold NDIRECT in Hk.
  kstep. eapply wp_get_addr; [done|done|lia|]. destruct (Z.eqb_spec (nth (Z.to_nat k) (i_addrs ip) 0) 0) as [E|E].
  - rewrite (iw_dev _ _ Hwf). kstep. eapply (wp_balloc_free V bs s n); [done..|].
    intros a bs' s' Hf Ho Ht' Hl' Hfr'. unfold set_addr, modino. kstep. kstep. kstep.
    rewrite (trans_only_icache _ _ Ho), (alter_is_insert _ _ _ _ Hi).
    assert (nth (Z.to_nat k) (updZ (i_addrs ip) k a) 0 = a) as Ea.
    { unfold updZ. zb. apply insert_nth_eq. lia. }
    destruct (free_block_range V a Hfs Hf) as [Hr _].
    rewrite <- Ea at 1. apply (HQ (allocated V a) bs' _ (set_i_addrs (updZ (i_addrs ip) k a) ip)); cbn; try done.
    + apply alloc_grown_addr; try done. apply Ht.
    + rewrite Ea. lia.
    + by apply trans_icache.
    + eapply fs_only_trans; [by apply trans_fs_only|apply icache_fs_only].
  - kstep. apply (HQ V bs s ip); [by apply grown_refl|done|done|lia|apply fs_only_refl| |].
    + by rewrite list_insert_id.
    + eapply frees_mono; [|exact Hfr]. lia.
Qed.

(** The entry of the indirect block. *)
Lemma wp_bmap_entry V bs s ip k n (Q : Z -> kstate -> Prop) :
  trans p pid start ∅ V bs s -> k_sb s = sb -> fs_ok V -> inode_wf V ip -> nth 12 (i_addrs ip) 0 <> 0 ->
  NDIRECT <= k < MAXFILE -> (length bs < 26)%nat -> frees V (S n) ->
  (forall V' bs' s', grown V ip V' ip -> slot V' (i_addrs ip) k <> 0 ->
     trans p pid start ∅ V' bs' s' -> (length bs' <= length bs + 3)%nat -> trans_only s s' ->
     frees V' n -> Q (slot V' (i_addrs ip) k) s') ->
  wp (bp ← bread (i_dev ip) (nth 12 (i_addrs ip) 0);
      bf ← getbuf bp;
      let addr := get32 (b_data bf) (Z.to_nat (4 * (k - NDIRECT))) in
      addr ← (if addr =? 0 then
                addr ← balloc (i_dev ip);
                modbuf bp (fun bf => set_b_data (put32 (b_data bf) (Z.to_nat (4 * (k - NDIRECT))) addr) bf);;
                log_write bp;;
                mret addr
              else mret addr);
      brelse bp;;
      mret addr) Q s.
Proof.
  intros Ht Hsb Hfs Hwf H0 Hk Hlen Hfr HQ. set (d := nth 12 (i_addrs ip) 0) in *.
  assert (data_block V d) as Hd by (by apply Hwf). pose proof (data_home V d Hfs Hd) as Hh.
  assert (slot V (i_addrs ip) k = get32 (V d) (Z.to_nat (4 * (k - NDIRECT)))) as Hslot.
  { unfold slot. rewrite (proj2 (Z.ltb_ge _ _)) by lia. fold d. by rewrite (proj2 (Z.eqb_neq _ _) H0). }
  rewrite (iw_dev _ _ Hwf). kstep.
  eapply (wp_bread p pid ∅ V); [apply Ht|apply Hh|set_solver|right; eapply trans_room; [exact Ht|lia|rewrite size_empty; lia]|].
  intros x bf HxL s1 HC1 Hx Hno Hdat.
  assert (trans p pid start {[x]} V bs s1) as Ht1.
  { eapply trans_bufs; [exact Ht|apply (bufs_only_put s)|]. by rewrite union_empty_r_L in HC1. }
  assert (trans_only s s1) as Ho1 by apply bufs_trans_only, bufs_only_put.
  kstep. eapply wp_getbuf; [done|]. rewrite Hdat, <- Hslot. cbv zeta.
  destruct (Z.eqb_spec (slot V (i_addrs ip) k) 0) as [E|E].
  - kstep. kstep.
    eapply (wp_balloc p pid start {[x]} V bs s1 sb); [done|done|by apply fs_map_ok| |by rewrite size_singleton|lia|by eapply frees_some|].
    { assert (forall bno, bno <> d -> not_held {[x]} s1 bno) as Hnh.
      { intros bno Hne b bf' ->%elem_of_singleton Hbf'. rewrite Hx in Hbf'. injection Hbf' as <-. congruence. }
      intros a Ha. split; [|intros Hu]; apply Hnh; [by apply (data_not_map V)|]. by intros ->; destruct Hd. }
    intros a s2 Ha Hu Ho2 Hsame Ht2. set (bs2 := joined _ a) in *.
    assert (length bs2 <= length bs + 2)%nat as Hl2.
    { pose proof (joined_length bs (BBLOCK a sb)). pose proof (joined_length (joined bs (BBLOCK a sb)) a). unfold bs2. lia. }
    fold (allocated V a) in Ht2. assert (free_block V a) as Hfa by done.
    assert (k_bufs s2 !! x = Some bf) as Hx2 by (by rewrite Hsame by set_solver).
    assert (length (V d) = 512%nat) as HlV by apply Ht. unfold MAXFILE, NINDIRECT, NDIRECT, BSIZE in Hk.
    change (512 / 4) with 128 in Hk.
    apply (wp_bind_assoc _ (fun _ => log_write x)), wp_bind.
    eapply (wp_change_held p pid start {[x]} (allocated V a) bs2 s2 x bf (fun w => put32 w (Z.to_nat (4 * (k - NDIRECT))) a));
      [done|set_solver|done|by rewrite Hno|lia|rewrite Hdat; unfold NDIRECT; rewrite length_put32; lia|].
    rewrite Hno, Hdat. intros s3 bf3 Ho3 _ Hx3 Hno3 Hdat3 Ht3. kstep.
    kstep. eapply (wp_brelse p pid); [apply Ht3|set_solver|exact Hx3|by rewrite Hno3, vset_eq|].
    intros s4 Ho4 HC4 _. kstep. rewrite difference_diag_L in HC4.
    assert (grown V ip (vset (allocated V a) d (put32 (V d) (Z.to_nat (4 * (k - NDIRECT))) a)) ip) as Hg.
    { apply alloc_grown_entry; try done; apply Ht. }
    destruct (free_block_range V a Hfs Hfa) as [Hr _].
    assert (slot (vset (allocated V a) d (put32 (V d) (Z.to_nat (4 * (k - NDIRECT))) a)) (i_addrs ip) k = a) as Es.
    { rewrite <- (allocated_data V a Hfs Ha Hu d Hd). unfold d. rewrite slot_indirect; [by rewrite decide_True|..]; try done.
      - change MAXFILE with 140. unfold NDIRECT. lia.
      - apply Ht2.
      - lia. }
    rewrite <- Es. eapply HQ; [done| |by eapply trans_bufs| | |].
    + rewrite Es. lia.
    + pose proof (joined_length bs2 d). lia.
    + eapply trans_only_trans; [exact Ho1|]. eapply trans_only_trans; [exact Ho2|].
      eapply trans_only_trans; [exact Ho3|by apply bufs_trans_only].
    + apply frees_vset; [apply allocated_fs; try done; apply Ht| |].
      * apply allocated_data_block; try done; [apply Ht|by left].
      * apply frees_alloc; [done|done|apply Ht|done].
  - kstep. kstep. kstep. eapply (wp_brelse p pid); [apply Ht1|set_solver|exact Hx|congruence|].
    intros s4 Ho4 HC4 _. kstep. rewrite difference_diag_L in HC4.
    eapply (HQ V bs); [by apply grown_refl|done|by eapply trans_bufs|lia| |].
    + eapply trans_only_trans; [exact Ho1|by apply bufs_trans_only].
    + eapply frees_mono; [|exact Hfr]. lia.
Qed.

Lemma wp_bmap V bs s i ip k n (Q : Z -> kstate -> Prop) :
  trans p pid start ∅ V bs s -> k_sb s = sb -> fs_ok V -> k_icache s !! i = Some ip -> inode_wf V ip ->
  0 <= k < MAXFILE -> (length bs < 24)%nat -> frees V (S (S n)) ->
  (forall V' bs' s' ip', grown V ip V' ip' -> slot V' (i_addrs ip') k <> 0 ->
     trans p pid start ∅ V' bs' s' -> (length bs' <= length bs + 5)%nat -> fs_only s s' ->
     k_icache s' = <[i := ip']> (k_icache s) -> frees V' n -> Q (slot V' (i_addrs ip') k) s') ->
  wp (bmap i k) Q s.
Proof.
  intros Ht Hsb Hfs Hi Hwf Hk Hlen Hfr HQ. unfold bmap. kstep. eapply wp_getino; [done|].
  destruct (Z.ltb_spec k NDIRECT) as [Hd|Hd].
  - eapply (wp_bmap_addr V bs s i ip k (S n)); [done..|lia|lia|done|].
    intros V' bs' s' ip' Hg Hnz Ht' Hl' Ho Hic Hfr'.
    assert (slot V' (i_addrs ip') k = nth (Z.to_nat k) (i_addrs ip') 0) as E by (unfold slot; zb; done).
    rewrite <- E in *. eapply (HQ V' bs'); try done; [lia|]. eapply frees_mono; [|exact Hfr']. lia.
  - cbv zeta. rewrite (proj2 (Z.ltb_lt (k - NDIRECT) NINDIRECT)) by (unfold MAXFILE in Hk; lia).
    apply (wp_bind_assoc (get_addr i NDIRECT) (fun addr =>
      if addr =? 0 then addr ← balloc (i_dev ip); set_addr i NDIRECT addr;; mret addr else mret addr)).
    eapply wp_bind, (wp_bmap_addr V bs s i ip NDIRECT (S n)); [done..|unfold NDIRECT; lia|lia|done|].
    change (Z.to_nat NDIRECT) with 12%nat.
    intros V1 bs1 s1 ip1 Hg Hnz Ht1 Hl1 Ho1 Hic1 Hfr1.
    assert (i_dev ip = i_dev ip1) as -> by (by rewrite (gr_inode _ _ _ _ Hg)).
    eapply (wp_bmap_entry V1 bs1 s1 ip1 k n); [done| |apply Hg|apply Hg|done|lia|lia|done|].
    { by rewrite (fs_only_sb _ _ Ho1). }
    intros V' bs' s' Hg' Hnz' Ht' Hl' Ho' Hfr'. eapply HQ; [by eapply grown_trans|done|done|lia| | |done].
    + eapply fs_only_trans; [exact Ho1|by apply trans_fs_only].
    + by rewrite (trans_only_icache _ _ Ho').
Qed.

(** ** Bytes of a file *)

(** Byte [j] lies in a block of the file and is [v]. *)
Definition has_byte V ip (j v : Z) : Prop :=
  0 <= j < MAXFILE * BSIZE /\ slot V (i_addrs ip) (j / BSIZE) <> 0 /\ file_byte V (i_addrs ip) j = v.

(** The file changed: its blocks may have new contents, other files' blocks
    do not. *)
Record changed V ip V' ip' : Prop := {
  ch_fs : fs_ok V';
  ch_wf : inode_wf V' ip';
  ch_data : forall b, data_block V b -> data_block V' b;
  ch_other : forall b, data_block V b -> b <> nth 12 (i_addrs ip) 0 ->
    (forall k, 0 <= k < MAXFILE -> slot V (i_addrs ip) k <> b) -> V' b = V b;
  ch_new : forall k, 0 <= k < MAXFILE ->
    slot V' (i_addrs ip') k = slot V (i_addrs ip) k \/ ~ data_block V (slot V' (i_addrs ip') k);
  ch_ind : nth 12 (i_addrs ip') 0 = nth 12 (i_addrs ip) 0 \/ ~ data_block V (nth 12 (i_addrs ip') 0);
  ch_inode : ip' = set_i_addrs (i_addrs ip') ip;
}.

Lemma grown_changed V ip V' ip' : grown V ip V' ip' -> changed V ip V' ip'.
Proof. intros []. constructor; auto. Qed.

Lemma changed_trans V1 i1 V2 i2 V3 i3 : changed V1 i1 V2 i2 -> changed V2 i2 V3 i3 -> changed V1 i1 V3 i3.
Proof.
  intros [F1 W1 D1 S1 N1 I1 E1] [F2 W2 D2 S2 N2 I2 E2]. constructor; try done.
  - auto.
  - intros b Hb Hne Hns. rewrite S2; [auto|auto| |].
    + intros ->. destruct I1 as [E|Hn]; [by rewrite E in Hne|done].
    + intros k Hk E. destruct (N1 k Hk) as [E'|Hn]; rewrite E in *; [|done]. by apply (Hns k Hk).
  - intros k Hk. destruct (N2 k Hk) as [->|]; [auto|right; auto].
  - destruct I2 as [->|Hn]; [done|]. right. auto.
  - rewrite E2, E1. by destruct i1.
Qed.

Lemma byte_block j : 0 <= j < MAXFILE * BSIZE -> 0 <= j / BSIZE < MAXFILE.
Proof. change (MAXFILE * BSIZE) with 71680. change MAXFILE with 140. unfold BSIZE. intros. Z.div_mod_to_equations. lia. Qed.

Lemma has_byte_grown V ip V' ip' j v : inode_wf V ip -> grown V ip V' ip' -> has_byte V ip j v -> has_byte V' ip' j v.
Proof.
  intros Hwf Hg (Hj & Hs & Hv). pose proof (byte_block j Hj) as Hk. pose proof (gr_slots _ _ _ _ Hg _ Hk Hs) as E.
  split; [done|]. rewrite E. split; [done|]. unfold file_byte in *.
  rewrite slot_file_block in Hv by done. rewrite slot_file_block, E by (by rewrite E).
  rewrite (gr_same _ _ _ _ Hg); [done| |]; by apply Hwf.
Qed.

(** A block of the file is written. *)
Section update.
Context V ip (k : Z) (x : list Z) (Hfs : fs_ok V) (Hwf : inode_wf V ip).
Context (Hk : 0 <= k < MAXFILE) (Hs : slot V (i_addrs ip) k <> 0).

Lemma slot_update j : slot (vset V (slot V (i_addrs ip) k) x) (i_addrs ip) j = slot V (i_addrs ip) j.
Proof. apply slot_ext. right. apply vset_ne, not_eq_sym. by apply Hwf. Qed.

Lemma update_changed : changed V ip (vset V (slot V (i_addrs ip) k) x) ip.
Proof.
  assert (data_block V (slot V (i_addrs ip) k)) as Hd by (by apply Hwf).
  assert (forall b, data_block (vset V (slot V (i_addrs ip) k) x) b <-> data_block V b) as Hdb.
  { intros b. by apply vset_data_block. }
  constructor.
  - by apply vset_fs.
  - destruct Hwf. constructor; try done; intros *; rewrite ?slot_update, ?Hdb; auto.
  - intros b. apply Hdb.
  - intros b Hb Hne Hns. apply vset_ne. intros E. by apply (Hns k).
  - intros j Hj. left. apply slot_update.
  - by left.
  - by destruct ip.
Qed.

Lemma has_byte_update j v :
  0 <= j < MAXFILE * BSIZE -> slot V (i_addrs ip) (j / BSIZE) <> 0 ->
  (if decide (j / BSIZE = k) then nth (Z.to_nat (j mod BSIZE)) x 0 else file_byte V (i_addrs ip) j) = v ->
  has_byte (vset V (slot V (i_addrs ip) k) x) ip j v.
Proof.
  intros Hj Hsj Hv. split; [done|]. rewrite slot_update. split; [done|]. rewrite <- Hv.
  unfold file_byte. rewrite !slot_file_block by (rewrite ?slot_update; done). rewrite slot_update.
  case_decide as E; [by rewrite E, vset_eq|]. rewrite vset_ne; [done|]. intros E2. apply E. symmetry.
  apply (iw_inj V ip); try done. by apply byte_block.
Qed.

End update.

(** ** writei *)

Lemma wp_update_ret {A} (r : A) V bs s bno (f : list Z -> list Z) (Q : A -> kstate -> Prop) :
  trans p pid start ∅ V bs s -> home start bno -> (length bs < 29)%nat -> length (f (V bno)) = 512%nat ->
  (forall s', trans_only s s' -> trans p pid start ∅ (vset V bno (f (V bno))) (joined bs bno) s' -> Q r s') ->
  wp (bp ← bread 1 bno; modbuf bp (fun bf => set_b_data (f (b_data bf)) bf);; log_write bp;; brelse bp;; mret r) Q s.
Proof.
  intros Ht Hh Hlt Hlen HQ.
  cut (wp ((bp ← bread 1 bno; modbuf bp (fun bf => set_b_data (f (b_data bf)) bf);; log_write bp;; brelse bp)
           ≫= fun _ => mret r) Q s).
  { unfold wp, mbind, M_bind. destruct (bread 1 bno s) as [b s1| | | |]; try done.
    destruct (modbuf b _ s1) as [? s2| | | |]; try done. by destruct (log_write b s2). }
  kstep. eapply (wp_update_block p pid start ∅ V bs s bno f);
    [done|done|intros b bf []%elem_of_empty|done|rewrite size_empty; lia|done|].
  intros s' Ho _ Ht'. kstep. auto.
Qed.

(** The bytes of a block after [m] bytes were put at [o]. *)
Lemma nth_put_bytes data o new j :
  (o + length new <= length data)%nat ->
  nth j (put_bytes data o new) 0 =
    if decide (o <= j < o + length new)%nat then nth (j - o) new 0 else nth j data 0.
Proof. intros Hl. rewrite !nth_lookup, lookup_put_bytes by done. by case_decide. Qed.

Lemma nth_get_bytes (l : list Z) o m j :
  (j < m)%nat -> nth j (get_bytes l o m) 0 = nth (o + j) l 0.
Proof. intros Hj. unfold get_bytes. by rewrite !nth_lookup, lookup_take_lt, lookup_drop by done. Qed.

Lemma length_get_bytes (l : list Z) o m : (o + m <= length l)%nat -> length (get_bytes l o m) = m.
Proof. intros Hl. unfold get_bytes. rewrite length_take, length_drop. lia. Qed.

Lemma wp_writei_body V bs s i ip src tot off t (Q : Z * Z + Z -> kstate -> Prop) :
  let n := Z.of_nat (length src) in
  let m := Z.min (n - tot) (BSIZE - off mod BSIZE) in
  trans p pid start ∅ V bs s -> k_sb s = sb -> fs_ok V -> k_icache s !! i = Some ip -> inode_wf V ip ->
  0 <= off -> 0 <= tot < n -> off + (n - tot) <= MAXFILE * BSIZE -> (length bs < 24)%nat -> frees V (S (S t)) ->
  (forall V' bs' s' ip', changed V ip V' ip' -> trans p pid start ∅ V' bs' s' ->
     (length bs' <= length bs + 6)%nat -> fs_only s s' -> k_icache s' = <[i := ip']> (k_icache s) -> frees V' t ->
     (forall j v, has_byte V ip j v -> ~ off <= j < off + m -> has_byte V' ip' j v) ->
     (forall j, off <= j < off + m -> has_byte V' ip' j (nth (Z.to_nat (tot + (j - off))) src 0)) ->
     Q (inl (tot + m, off + m)) s') ->
  wp (writei_body i src n (tot, off)) Q s.
Proof.
  intros n m Ht Hsb Hfs Hi Hwf Ho Htot Hmax Hlen Hfr HQ.
  change (MAXFILE * BSIZE) with 71680 in Hmax. pose proof (Z.mod_pos_bound off BSIZE ltac:(done)) as Hmod.
  unfold BSIZE in Hmod.
  assert (0 < m <= n - tot /\ off mod 512 + m <= 512) as Hm by (unfold m, BSIZE in *; lia).
  assert (0 <= off / BSIZE < MAXFILE) as Hk by (apply byte_block; change (MAXFILE * BSIZE) with 71680; lia).
  unfold writei_body. zb. kstep. eapply wp_getino; [done|]. kstep.
  eapply (wp_bmap V bs s i ip _ t); [done..|].
  intros V1 bs1 s1 ip1 Hg Hnz Ht1 Hl1 Ho1 Hic1 Hfr1. cbv zeta. fold m.
  pose proof (gr_wf _ _ _ _ Hg) as Hwf1. pose proof (gr_fs _ _ _ _ Hg) as Hfs1.
  rewrite (iw_dev _ _ Hwf). set (a := slot V1 (i_addrs ip1) (off / BSIZE)) in *.
  assert (data_block V1 a) as Hda by (by apply Hwf1).
  assert (length (V1 a) = 512%nat) as Hla by apply Ht1.
  assert (length (get_bytes src (Z.to_nat tot) (Z.to_nat m)) = Z.to_nat m) as Hlg.
  { apply length_get_bytes. unfold n in *. lia. }
  set (f := fun w => put_bytes w (Z.to_nat (off mod BSIZE)) (get_bytes src (Z.to_nat tot) (Z.to_nat m))).
  assert (forall j, 0 <= j < MAXFILE * BSIZE -> slot V1 (i_addrs ip1) (j / BSIZE) <> 0 ->
    has_byte (vset V1 a (f (V1 a))) ip1 j
      (if decide (off <= j < off + m) then nth (Z.to_nat (tot + (j - off))) src 0 else file_byte V1 (i_addrs ip1) j)) as Hby.
  { intros j Hj Hsj. apply has_byte_update; try done. subst f; cbv beta; unfold BSIZE in *.
    rewrite nth_put_bytes by (rewrite Hlg, Hla; lia). rewrite Hlg.
    destruct (decide (off <= j < off + m)) as [Hin|Hout].
    - rewrite decide_True by (Z.div_mod_to_equations; lia).
      rewrite decide_True by (Z.div_mod_to_equations; lia).
      rewrite nth_get_bytes by (Z.div_mod_to_equations; lia). f_equal. Z.div_mod_to_equations; lia.
    - case_decide as E; [|done]. rewrite decide_False by (Z.div_mod_to_equations; lia).
      unfold file_byte, BSIZE. rewrite E, slot_file_block by done. done. }
  eapply (wp_update_ret _ V1 bs1 s1 a f); [done|by apply (data_home V1)|lia| |].
  { unfold f, BSIZE. rewrite length_put_bytes; rewrite ?Hlg; lia. }
  intros s2 Ho2 Ht2. eapply (HQ _ _ s2 ip1); [|exact Ht2| | | | | |].
  - eapply changed_trans; [by apply grown_changed|]. by apply update_changed.
  - pose proof (joined_length bs1 a). lia.
  - eapply fs_only_trans; [exact Ho1|by apply trans_fs_only].
  - by rewrite (trans_only_icache _ _ Ho2).
  - by apply frees_vset.
  - intros j v Hb Hout. eapply has_byte_grown in Hb as (Hj & Hs & Hv); [|done|exact Hg].
    rewrite <- Hv. specialize (Hby j Hj Hs). by rewrite decide_False in Hby.
  - intros j Hin. assert (j / BSIZE = off / BSIZE) as E by (unfold BSIZE in *; Z.div_mod_to_equations; lia).
    specialize (Hby j). rewrite decide_True in Hby by done. apply Hby; [|by rewrite E].
    change (MAXFILE * BSIZE) with 71680. lia.
Qed.

Lemma wp_writei_loop V bs s i ip src off (Q : Z -> kstate -> Prop) :
  let n := Z.of_nat (length src) in
  trans p pid start ∅ V bs s -> k_sb s = sb -> fs_ok V -> k_icache s !! i = Some ip -> inode_wf V ip ->
  0 <= off -> off + n <= MAXFILE * BSIZE ->
  (length bs + 6 * turns n 0 off <= 28)%nat -> frees V (2 * turns n 0 off) ->
  (forall V' bs' s' ip', changed V ip V' ip' -> trans p pid start ∅ V' bs' s' -> (length bs' <= 28)%nat ->
     fs_only s s' -> k_icache s' = <[i := ip']> (k_icache s) ->
     (forall j v, has_byte V ip j v -> ~ off <= j < off + n -> has_byte V' ip' j v) ->
     (forall j, off <= j < off + n -> has_byte V' ip' j (nth (Z.to_nat (j - off)) src 0)) ->
     Q (off + n) s') ->
  wp (iter (S (Z.to_nat (n / BSIZE + 2))) (writei_body i src n) (0, off)) Q s.
Proof.
  intros n Ht Hsb Hfs Hi Hwf Ho Hmax Hlog Hfr HQ.
  apply (wp_iter (fun st s' => let '(tot, o) := st in
      0 <= tot <= n /\ o = off + tot /\ exists V' bs' ip', changed V ip V' ip' /\ trans p pid start ∅ V' bs' s' /\
      (length bs' + 6 * turns n tot o <= 28)%nat /\ frees V' (2 * turns n tot o) /\
      fs_only s s' /\ k_icache s' = <[i := ip']> (k_icache s) /\
      (forall j v, has_byte V ip j v -> ~ off <= j < off + tot -> has_byte V' ip' j v) /\
      (forall j, off <= j < off + tot -> has_byte V' ip' j (nth (Z.to_nat (j - off)) src 0)))
    (fun st => let '(tot, o) := st in turns n tot o)); [| |by apply turns_start; lia].
  - intros [tot o] s' (Htot & -> & V1 & bs1 & ip1 & Hc & Ht1 & Hl1 & Hfr1 & Ho1 & Hic1 & Hold & Hnew).
    destruct (Z.ltb_spec tot n) as [Hlt|Hge].
    + set (m := Z.min (n - tot) (BSIZE - (off + tot) mod BSIZE)).
      assert (0 < m <= n - tot) as Hm.
      { unfold m, BSIZE. pose proof (Z.mod_pos_bound (off + tot) 512). lia. }
      pose proof (turns_step n tot (off + tot) ltac:(lia) Hlt) as Hts. fold m in Hts. cbv zeta in Hts.
      eapply (wp_writei_body V1 bs1 s' i ip1 src tot (off + tot) (2 * turns n (tot + m) (off + tot + m))); fold n.
      * done.
      * by rewrite (fs_only_sb _ _ Ho1).
      * apply Hc.
      * rewrite Hic1. apply list_lookup_insert_eq. by eapply lookup_lt_Some.
      * apply Hc.
      * lia.
      * lia.
      * lia.
      * lia.
      * eapply frees_mono; [|exact Hfr1]. lia.
      * fold m. intros V2 bs2 s2 ip2 Hc2 Ht2 Hl2 Ho2 Hic2 Hfr2 Hold2 Hnew2. split; [|done].
        split; [lia|]. split; [lia|]. exists V2, bs2, ip2. split_and!; [by eapply changed_trans|done|lia|done| | | |].
        -- by eapply fs_only_trans.
        -- by rewrite Hic2, Hic1, list_insert_insert_eq.
        -- intros j v Hb Hout. apply Hold2; [apply Hold; [done|]|]; lia.
        -- intros j Hin. destruct (decide (j < off + tot)) as [Hj|Hj]; [apply Hold2; [apply Hnew|]; lia|].
           replace (j - off) with (tot + (j - (off + tot))) by lia. apply Hnew2. lia.
    + unfold writei_body. zb. kstep. replace tot with n in * by lia. eapply (HQ V1 bs1 s' ip1); try done. lia.
  - split_and!; [lia|lia|lia|]. exists V, bs, ip. split_and!; try done.
    + by apply grown_changed, grown_refl.
    + apply fs_only_refl.
    + by rewrite list_insert_id.
    + intros j Hj. lia.
Qed.

(** The inode's place on the disk. *)
Record inode_home ip : Prop := {
  ih_home : home start (IBLOCK (i_inum ip) sb);
  ih_meta : IBLOCK (i_inum ip) sb < nmeta;
  ih_map : forall a, 0 <= a < sb_size sb -> BBLOCK a sb <> IBLOCK (i_inum ip) sb;
  ih_inum : 0 <= i_inum ip;
}.

(** The inode in the block of inodes. *)
Definition on_disk ip : dinode :=
  mkDinode (i_type ip) (i_major ip) (i_minor ip) (i_nlink ip) (i_size ip) (i_addrs ip).

Lemma wp_iupdate V bs s i ip (Q : unit -> kstate -> Prop) :
  trans p pid start ∅ V bs s -> k_sb s = sb -> k_icache s !! i = Some ip -> i_dev ip = 1 ->
  length (i_addrs ip) = 13%nat -> inode_home ip -> (length bs <= 28)%nat ->
  (forall s', let b := IBLOCK (i_inum ip) sb in trans_only s s' ->
     trans p pid start ∅ (vset V b (put_dinode (V b) (i_inum ip mod IPB) (on_disk ip))) (joined bs b) s' -> Q tt s') ->
  wp (iupdate i) Q s.
Proof.
  intros Ht Hsb Hi Hdev Hl [Hh _ _ Hin] Hlen HQ. unfold iupdate. kstep. kstep. kstep. eapply wp_getino; [done|].
  rewrite Hdev, Hsb. eapply (wp_update_block p pid start ∅ V bs s _
    (fun w => put_dinode w (i_inum ip mod IPB) (on_disk ip)));
    [done|done|intros b bf []%elem_of_empty|lia|rewrite size_empty; lia| |].
  - assert (length (V (IBLOCK (i_inum ip) sb)) = 512%nat) as HV by apply Ht.
    unfold put_dinode, dinode_off. change IPB with 8. pose proof (Z.mod_pos_bound (i_inum ip) 8).
    rewrite length_put_bytes; [done|]. rewrite length_dinode_bytes by done. lia.
  - intros s' Ho _ Ht'. by apply HQ.
Qed.

(** The block of the inode is written. *)
Section meta.
Context V ip (x : list Z) (Hfs : fs_ok V) (Hwf : inode_wf V ip) (Hih : inode_home ip).
Let V' := vset V (IBLOCK (i_inum ip) sb) x.

Lemma meta_used b : 0 <= b < sb_size sb -> used V' sb b <-> used V sb b.
Proof. intros Hb. unfold used, V'. rewrite vset_ne; [done|]. by apply Hih. Qed.

Lemma meta_data_block b : data_block V' b <-> data_block V b.
Proof.
  pose proof (fo_meta _ Hfs). pose proof (fo_start _ Hfs). unfold data_block.
  split; intros [Hr Hu]; (split; [done|]); apply (meta_used b); (done || lia).
Qed.

Lemma meta_fs : fs_ok V'.
Proof.
  pose proof Hfs as [? ? ? ? ? Hu]. constructor; try done. intros b Hb. apply meta_used; [lia|auto].
Qed.

Lemma meta_same b : data_block V b -> V' b = V b.
Proof. intros [Hb _]. apply vset_ne. pose proof (ih_meta _ Hih). lia. Qed.

Lemma meta_slot k : slot V' (i_addrs ip) k = slot V (i_addrs ip) k.
Proof. apply slot_ext. destruct (ind_data V ip Hwf); [by left|right]. by apply meta_same. Qed.

Lemma meta_has_byte j v : has_byte V ip j v -> has_byte V' ip j v.
Proof.
  intros (Hj & Hs & Hv). split; [done|]. rewrite meta_slot. split; [done|]. unfold file_byte in *.
  rewrite slot_file_block in * by (rewrite ?meta_slot; done). rewrite meta_slot, meta_same; [done|].
  apply Hwf; [|done]. by apply byte_block.
Qed.

Lemma meta_wf : inode_wf V' ip.
Proof. destruct Hwf. constructor; try done; intros *; rewrite ?meta_slot, ?meta_data_block; auto. Qed.

End meta.

(** A file that got longer. *)
Lemma wf_resize V ip sz :
  inode_wf V ip -> 0 <= sz <= MAXFILE * BSIZE ->
  (forall j, 0 <= j < sz -> exists v, has_byte V ip j v) -> inode_wf V (set_i_size sz ip).
Proof.
  intros [] Hsz Hb. constructor; try done. intros k Hk Hlt. cbn in *. unfold BSIZE in *.
  destruct (Hb (k * 512)) as (v & _ & Hs & _); [lia|]. unfold BSIZE in Hs. by rewrite Z.div_mul in Hs by lia.
Qed.

Lemma has_byte_own V ip j : inode_wf V ip -> 0 <= j < i_size ip -> has_byte V ip j (file_byte V (i_addrs ip) j).
Proof.
  intros Hwf Hj. pose proof (iw_size _ _ Hwf). split; [lia|]. split; [|done].
  apply (iw_full _ _ Hwf); unfold BSIZE; Z.div_mod_to_equations; lia.
Qed.

Lemma contents_lookup V ip (j : nat) :
  contents V ip !! j = if decide (Z.of_nat j < i_size ip) then Some (file_byte V (i_addrs ip) (Z.of_nat j)) else None.
Proof.
  unfold contents, file_bytes. rewrite list_lookup_fmap. case_decide.
  - by rewrite lookup_seqZ_lt by lia.
  - by rewrite lookup_seqZ_ge by lia.
Qed.

(** The contents after a write. *)
Lemma contents_written V ip V' ip' src off :
  let n := Z.of_nat (length src) in
  inode_wf V ip -> 0 <= off <= i_size ip -> i_size ip' = Z.max (i_size ip) (off + n) ->
  (forall j v, has_byte V ip j v -> ~ off <= j < off + n -> has_byte V' ip' j v) ->
  (forall j, off <= j < off + n -> has_byte V' ip' j (nth (Z.to_nat (j - off)) src 0)) ->
  contents V' ip' =
    take (Z.to_nat off) (contents V ip) ++ src ++ drop (Z.to_nat (off + n)) (contents V ip).
Proof.
  intros n Hwf Ho Hsz Hold Hnew. pose proof (eq_refl : n = Z.of_nat (length src)) as En.
  apply list_eq. intros j. rewrite contents_lookup, Hsz.
  assert (length (contents V ip) = Z.to_nat (i_size ip)) as Hl by apply length_file_bytes.
  assert (length (take (Z.to_nat off) (contents V ip)) = Z.to_nat off) as Hlt by (rewrite length_take; lia).
  destruct (decide (Z.of_nat j < off)) as [H1|H1].
  - rewrite lookup_app_l, lookup_take_lt, contents_lookup by lia. rewrite !decide_True by lia.
    destruct (Hold (Z.of_nat j) _ (has_byte_own V ip (Z.of_nat j) Hwf ltac:(lia)) ltac:(lia)) as (_ & _ & ->). done.
  - rewrite lookup_app_r, Hlt by lia. destruct (decide (Z.of_nat j < off + n)) as [H2|H2].
    + rewrite decide_True, lookup_app_l by lia. destruct (Hnew (Z.of_nat j) ltac:(lia)) as (_ & _ & ->).
      replace (Z.to_nat (Z.of_nat j - off)) with (j - Z.to_nat off)%nat by lia.
      destruct (lookup_lt_is_Some_2 src (j - Z.to_nat off)) as [v Hv]; [lia|].
      by rewrite Hv, (nth_lookup_Some _ _ _ v).
    + rewrite lookup_app_r, lookup_drop by lia.
      replace (Z.to_nat (off + n) + (j - Z.to_nat off - length src))%nat with j by lia.
      rewrite contents_lookup. destruct (decide (Z.of_nat j < i_size ip)).
      * rewrite decide_True by lia.
        destruct (Hold (Z.of_nat j) _ (has_byte_own V ip (Z.of_nat j) Hwf ltac:(lia)) ltac:(lia)) as (_ & _ & ->). done.
      * by rewrite decide_False by lia.
Qed.

(** Type, device numbers and link count have the width of a [short]. *)
Definition shorts ip : Prop := is_short (i_type ip) /\ is_short (i_major ip) /\ is_short (i_minor ip) /\ is_short (i_nlink ip).

Lemma on_disk_range V ip : fs_ok V -> inode_wf V ip -> shorts ip -> dinode_range (on_disk ip).
Proof.
  intros Hfs Hwf (? & ? & ? & ?). pose proof (iw_size _ _ Hwf) as Hsz. change (MAXFILE * BSIZE) with 71680 in Hsz.
  pose proof (iw_len _ _ Hwf) as Hl. constructor; cbn; try done; [lia|].
  assert (forall a, a = 0 \/ data_block V a -> 0 <= a < 4294967296) as Hr.
  { pose proof (fo_meta _ Hfs). pose proof (fo_start _ Hfs). pose proof (fo_size _ Hfs). pose proof disksize_range.
    intros a [->|[? _]]; lia. }
  apply Forall_lookup. intros k a Hk. apply Hr. pose proof (lookup_lt_Some _ _ _ Hk).
  pose proof (nth_lookup_Some _ _ 0 _ Hk) as Ek. destruct (decide (k = 12%nat)) as [->|Hne].
  - rewrite <- Ek. by apply ind_data.
  - destruct (decide (a = 0)) as [|Ha]; [by left|right].
    assert (slot V (i_addrs ip) (Z.of_nat k) = a) as Es by (unfold slot, NDIRECT; zb; by rewrite Nat2Z.id).
    rewrite <- Es. apply Hwf; [change MAXFILE with 140; lia|by rewrite Es].
Qed.

(** What a successful write does: the contents of the file change in the range
    written, other files keep theirs, and a new size is on the disk's side of
    the transaction. *)
Record file_written V ip (src : list Z) (off : Z) V' ip' : Prop := {
  fw_fs : fs_ok V';
  fw_wf : inode_wf V' ip';
  fw_contents : contents V' ip' = take (Z.to_nat off) (contents V ip) ++ src ++
    drop (Z.to_nat (off + Z.of_nat (length src))) (contents V ip);
  fw_inode : ip' = set_i_size (Z.max (i_size ip) (off + Z.of_nat (length src))) (set_i_addrs (i_addrs ip') ip);
  fw_data : forall b, data_block V b -> data_block V' b;
  fw_other : forall b, data_block V b -> b <> nth 12 (i_addrs ip) 0 ->
    (forall k, 0 <= k < MAXFILE -> slot V (i_addrs ip) k <> b) -> V' b = V b;
  fw_disk : i_size ip < i_size ip' ->
    get_dinode (V' (IBLOCK (i_inum ip) sb)) (i_inum ip mod IPB) = on_disk ip';
}.

(** After the loop of writei: the file grew, or the range was inside it. *)
Section after.
Context V ip (src : list Z) (off : Z) V1 ip1 (Hfs : fs_ok V) (Hwf : inode_wf V ip) (Hc : changed V ip V1 ip1).
Let n := Z.of_nat (length src).
Context (Ho : 0 <= off <= i_size ip) (Hmax : off + n <= MAXFILE * BSIZE).
Context (Hold : forall j v, has_byte V ip j v -> ~ off <= j < off + n -> has_byte V1 ip1 j v).
Context (Hnew : forall j, off <= j < off + n -> has_byte V1 ip1 j (nth (Z.to_nat (j - off)) src 0)).

Lemma after_has j : 0 <= j < Z.max (i_size ip) (off + n) -> exists v, has_byte V1 ip1 j v.
Proof.
  intros Hj. destruct (decide (off <= j < off + n)); [eauto|]. eexists. apply Hold; [|done].
  apply has_byte_own; [done|lia].
Qed.

Lemma after_wf : i_size ip < off + n -> inode_wf V1 (set_i_size (off + n) ip1).
Proof.
  intros Hgt. apply wf_resize; [apply Hc|change (MAXFILE * BSIZE) with 71680 in *; lia|].
  intros j Hj. apply after_has. lia.
Qed.

Lemma written_longer :
  let ip2 := set_i_size (off + n) ip1 in
  let b := IBLOCK (i_inum ip) sb in
  i_size ip < off + n -> inode_home ip -> shorts ip -> (forall x, length (V1 x) = 512%nat) ->
  file_written V ip src off (vset V1 b (put_dinode (V1 b) (i_inum ip mod IPB) (on_disk ip2))) ip2.
Proof.
  intros ip2 b Hgt Hih Hsh Hlen. pose proof (after_wf Hgt) as Hwf2. fold ip2 in Hwf2.
  pose proof (ch_inode _ _ _ _ Hc) as Eip.
  assert (i_inum ip2 = i_inum ip) as Ein by (unfold ip2; by rewrite Eip).
  assert (inode_home ip2) as Hih2.
  { destruct Hih. constructor; rewrite Ein; done. }
  pose proof (ch_fs _ _ _ _ Hc) as Hfs1. unfold b. rewrite <- Ein. constructor.
  - by apply meta_fs.
  - by apply meta_wf.
  - apply contents_written; [done|lia|cbn; fold n; lia| |].
    + intros j v Hb Hout. apply meta_has_byte; [done|done|]. by apply Hold.
    + intros j Hin. apply meta_has_byte; [done|done|]. by apply Hnew.
  - unfold ip2. cbn. rewrite Eip. fold n. replace (Z.max _ _) with (off + n) by lia. by destruct ip.
  - intros x Hb. apply meta_data_block; [done|done|]. by apply Hc.
  - intros x Hb Hne Hns. rewrite meta_same; [|done|by apply Hc]. by apply Hc.
  - intros _. rewrite Ein, vset_eq. apply get_put_dinode.
    + apply (on_disk_range V1); [done|done|]. unfold ip2. rewrite Eip. exact Hsh.
    + change IPB with 8. apply Z.mod_pos_bound. lia.
    + apply Hlen.
Qed.

Lemma written_within : off + n <= i_size ip -> file_written V ip src off V1 ip1.
Proof.
  intros Hle. pose proof (ch_inode _ _ _ _ Hc) as Eip. assert (i_size ip1 = i_size ip) as Esz by (by rewrite Eip).
  constructor; try apply Hc.
  - apply contents_written; [done|lia|fold n; lia|done|done].
  - rewrite Eip at 1. fold n. replace (Z.max _ _) with (i_size ip) by lia. by destruct ip.
  - lia.
Qed.

End after.

Lemma wp_writei V bs s i ip src off (Q : Z -> kstate -> Prop) :
  let n := Z.of_nat (length src) in
  trans p pid start ∅ V bs s -> k_sb s = sb -> fs_ok V -> k_icache s !! i = Some ip -> inode_wf V ip ->
  inode_home ip -> shorts ip -> i_type ip <> T_DEV -> 0 <= off <= i_size ip -> off + n <= MAXFILE * BSIZE ->
  (length bs + 6 * turns n 0 off <= 28)%nat -> frees V (2 * turns n 0 off) ->
  (forall V' bs' s' ip', trans p pid start ∅ V' bs' s' -> fs_only s s' -> k_icache s' = <[i := ip']> (k_icache s) ->
     (length bs' <= 29)%nat -> file_written V ip src off V' ip' -> Q n s') ->
  wp (writei i src off) Q s.
Proof.
  intros n Ht Hsb Hfs Hi Hwf Hih Hsh Hty Ho Hmax Hlog Hfr HQ. change (MAXFILE * BSIZE) with 71680 in Hmax.
  assert (0 <= n) as Hn by lia.
  unfold writei. fold n. kstep. eapply wp_getino; [done|]. rewrite (proj2 (Z.eqb_neq _ _) Hty).
  rewrite !u32_small by lia. change (MAXFILE * BSIZE) with 71680. zb. cbn [orb]. cbv iota. kstep.
  eapply (wp_writei_loop V bs s i ip src off); fold n; [done..|lia|done|done|done|].
  intros V1 bs1 s1 ip1 Hc Ht1 Hl1 Ho1 Hic1 Hold Hnew. pose proof (ch_inode _ _ _ _ Hc) as Eip.
  assert (k_icache s1 !! i = Some ip1) as Hi1.
  { rewrite Hic1. apply list_lookup_insert_eq. by eapply lookup_lt_Some. }
  assert (i_size ip1 = i_size ip) as Esz by (by rewrite Eip).
  kstep. eapply wp_getino; [done|]. rewrite Esz.
  destruct (decide (i_size ip < off + n)) as [Hgt|Hle].
  - zb. cbn [andb]. kstep. unfold modino. kstep. kstep.
    rewrite (alter_is_insert _ _ _ _ Hi1), Hic1, list_insert_insert_eq.
    set (ip2 := set_i_size (off + n) ip1).
    assert (inode_wf V1 ip2) as Hwf2 by (by apply (after_wf V ip src off)).
    assert (i_inum ip2 = i_inum ip) as Ein by (unfold ip2; by rewrite Eip).
    eapply (wp_iupdate V1 bs1 _ i ip2); [by apply trans_icache| | |apply Hwf2|apply Hwf2| |done|].
    { cbn. by rewrite (fs_only_sb _ _ Ho1). }
    { apply list_lookup_insert_eq. by eapply lookup_lt_Some. }
    { destruct Hih. by constructor; rewrite Ein. }
    rewrite Ein. intros s2 b Ho2 Ht2. kstep. rewrite s32_small by lia. eapply (HQ _ _ s2 ip2); [exact Ht2| | | |].
    + eapply fs_only_trans; [exact Ho1|]. eapply fs_only_trans; [apply icache_fs_only|by apply trans_fs_only].
    + by rewrite (trans_only_icache _ _ Ho2).
    + pose proof (joined_length bs1 b). lia.
    + apply written_longer; try done. apply Ht1.
  - assert ((0 <? n) && (i_size ip <? off + n) = false) as -> by (zb; apply andb_false_r).
    kstep. kstep. rewrite s32_small by lia.
    eapply (HQ V1 bs1 s1 ip1); [done|done|done|lia|]. apply written_within; try done. lia.
Qed.

(** C30. writei replaces the bytes of its range in the contents of the file and
    extends the file when the range ends behind it: blocks are allocated where
    the file has none, no block of another file changes, and a new size is
    recorded with the inode's block.  A range that starts behind the end of the
    file, ends behind the largest file size or wraps around gives -1 and changes
    nothing.  The transaction needs room for six blocks for each block of the
    range. *)
Theorem writei_changes_contents V bs s i ip src off :
  let n := Z.of_nat (length src) in
  trans p pid start ∅ V bs s -> k_sb s = sb -> fs_ok V -> k_icache s !! i = Some ip -> inode_wf V ip ->
  inode_home ip -> shorts ip -> i_type ip <> T_DEV -> 0 <= off < 4294967296 -> n < 4294967296 ->
  (length bs + 6 * turns n 0 off <= 28)%nat -> frees V (2 * turns n 0 off) ->
  if decide (off <= i_size ip /\ off + n <= MAXFILE * BSIZE) then
    exists V' bs' ip' s', writei i src off s = Ret n s' /\ trans p pid start ∅ V' bs' s' /\ fs_only s s' /\
      k_icache s' = <[i := ip']> (k_icache s) /\ file_written V ip src off V' ip'
  else writei i src off s = Ret (-1) s.
Proof.
  intros n Ht Hsb Hfs Hi Hwf Hih Hsh Hty Ho Hn Hlog Hfr. pose proof (iw_size _ _ Hwf) as Hsz.
  change (MAXFILE * BSIZE) with 71680 in *. case_decide as Hc.
  - cut (wp (writei i src off) (fun r s' => exists V' bs' ip', r = n /\ trans p pid start ∅ V' bs' s' /\
      fs_only s s' /\ k_icache s' = <[i := ip']> (k_icache s) /\ file_written V ip src off V' ip') s).
    { intros (r & s' & Hrun & V' & bs' & ip' & -> & ? & ? & ? & ?)%wp_inv. exists V', bs', ip', s'. by split_and!. }
    eapply (wp_writei V bs s i ip src off); fold n; try done; [lia|change (MAXFILE * BSIZE) with 71680; lia|].
    intros V' bs' s' ip' ? ? ? _ ?. by exists V', bs', ip'.
  - apply run_of_wp. unfold writei. fold n. kstep. eapply wp_getino; [done|]. rewrite (proj2 (Z.eqb_neq _ _) Hty).
    change (MAXFILE * BSIZE) with 71680.
    destruct ((i_size ip <? off) || (u32 (off + n) <? off)) eqn:E; [by kstep|].
    apply orb_false_iff in E as [E1%Z.ltb_ge E2%Z.ltb_ge].
    assert (off + n < 4294967296) by (unfold u32 in E2; Z.div_mod_to_equations; lia).
    rewrite u32_small by lia. zb. by kstep.
Qed.

(** C31. What writei wrote, readi returns. *)
Theorem write_read_roundtrip V bs s i ip src off :
  let n := Z.of_nat (length src) in
  trans p pid start ∅ V bs s -> k_sb s = sb -> fs_ok V -> k_icache s !! i = Some ip -> inode_wf V ip ->
  inode_home ip -> shorts ip -> i_type ip <> T_DEV -> 0 <= off <= i_size ip -> off + n <= MAXFILE * BSIZE ->
  (length bs + 6 * turns n 0 off <= 28)%nat -> frees V (2 * turns n 0 off) ->
  exists s', (writei i src off;; readi i off n) s = Ret (n, src) s'.
Proof.
  intros n Ht Hsb Hfs Hi Hwf Hih Hsh Hty Ho Hmax Hlog Hfr.
  cut (wp (writei i src off;; readi i off n) (fun r _ => r = (n, src)) s).
  { intros (r & s' & Hrun & ->)%wp_inv. by exists s'. }
  kstep. eapply (wp_writei V bs s i ip src off); fold n; try done.
  intros V' bs' s' ip' Ht' _ Hic Hl' Hw. pose proof (fw_inode _ _ _ _ _ _ Hw) as Eip.
  pose proof (iw_size _ _ Hwf) as Hsz. change (MAXFILE * BSIZE) with 71680 in *.
  assert (length (contents V ip) = Z.to_nat (i_size ip)) as Hlc by apply length_file_bytes.
  eapply (wp_readi p pid V' (list_to_set bs') s' i ip').
  - apply Ht'.
  - rewrite size_list_to_set by apply (tr_ok _ _ _ _ _ _ _ Ht'). lia.
  - rewrite Hic. apply list_lookup_insert_eq. by eapply lookup_lt_Some.
  - apply inode_wf_ok; apply Hw.
  - by rewrite Eip.
  - rewrite Eip. cbn. lia.
  - lia.
  - lia.
  - intros s2 bs2 _ _. unfold bs2, n. rewrite (fw_contents _ _ _ _ _ _ Hw), Nat2Z.id.
    rewrite drop_app_length' by (rewrite length_take; lia). by rewrite take_app_length.
Qed.

End write.

Section witnesses.
#[local] Existing Instance sample_image.
Let V := disk_block sample_disk 1.

Lemma sample_fs_ok : fs_ok 2 sample_sb 59 V.
Proof.
  constructor; try (cbn; lia).
  - intros a Ha. rewrite sample_bblock by exact Ha. split; [apply small_home|]; lia.
  - intros a Ha. apply sample_used. lia.
Qed.

Lemma sample_slot k : 0 <= k < MAXFILE ->
  slot V (i_addrs sample_inode) k = if decide (k = 0) then 60 else if decide (k = 1) then 61 else 0.
Proof.
  intros Hk. unfold slot. cbn [nth i_addrs sample_inode app replicate Z.eqb].
  destruct (Z.ltb_spec k NDIRECT); [|by rewrite !decide_False by (unfold NDIRECT in *; lia)].
  unfold NDIRECT in *. assert (k = Z.of_nat (Z.to_nat k)) as E by lia. rewrite E.
  assert (Z.to_nat k < 12)%nat as Hn by lia. clear E. rewrite Nat2Z.id.
  revert Hn. generalize (Z.to_nat k). intros n Hn. do 12 (destruct n as [|n]; [reflexivity|]). lia.
Qed.

Lemma sample_inode_wf : inode_wf sample_sb 59 V sample_inode.
Proof.
  assert (forall k, 0 <= k < MAXFILE -> slot V (i_addrs sample_inode) k <> 0 ->
    (k = 0 /\ slot V (i_addrs sample_inode) k = 60) \/ (k = 1 /\ slot V (i_addrs sample_inode) k = 61)) as Hs.
  { intros k Hk. rewrite sample_slot by exact Hk. repeat case_decide; auto. intros []. reflexivity. }
  constructor; try reflexivity.
  - cbn. change (MAXFILE * BSIZE) with 71680. lia.
  - intros k Hk Hn. destruct (Hs k Hk Hn) as [[_ ->]|[_ ->]]; (split; [cbn; lia|apply sample_used; lia]).
  - intros []. reflexivity.
  - intros k k' Hk Hk' Hn E. destruct (Hs k Hk Hn) as [[-> E1]|[-> E1]];
      (destruct (Hs k' Hk') as [[-> E2]|[-> E2]]; [congruence|reflexivity || congruence|reflexivity || congruence]).
  - intros k Hk Hn. destruct (Hs k Hk Hn) as [[_ ->]|[_ ->]]; discriminate.
  - intros k Hk Hlt. cbn in Hlt. unfold BSIZE in Hlt.
    assert (k = 0 \/ k = 1) as [-> | ->] by lia; discriminate.
Qed.

Lemma sample_inode_home : inode_home 2 sample_sb 59 sample_inode.
Proof.
  constructor; try (cbn; lia).
  - change (IBLOCK _ _) with 32. apply small_home; lia.
  - reflexivity.
  - intros a Ha. rewrite sample_bblock by exact Ha. discriminate.
Qed.

Lemma sample_frees : frees sample_sb V 2.
Proof.
  exists [64; 65]. split_and!; [apply NoDup_cons; split; [set_solver|apply NoDup_singleton]|cbn; lia|].
  repeat constructor; (cbn; lia) || (vm_compute; discriminate).
Qed.

Lemma sample_shorts : shorts sample_inode.
Proof. unfold shorts, is_short. cbn. change T_FILE with 2. lia. Qed.

Lemma writei_changes_contents_witness :
  exists V' ip' s', writei 0 [1; 2; 3] 700 sample_fs = Ret 3 s' /\
    contents V' ip' = contents V sample_inode ++ [1; 2; 3].
Proof.
  destruct (writei_changes_contents 0 0 2 sample_sb 59 V [] sample_fs 0 sample_inode [1; 2; 3] 700)
    as (V' & bs' & ip' & s' & Hrun & _ & _ & _ & Hw).
  - apply sample_trans.
  - reflexivity.
  - apply sample_fs_ok.
  - reflexivity.
  - apply sample_inode_wf.
  - apply sample_inode_home.
  - apply sample_shorts.
  - discriminate.
  - lia.
  - cbn. lia.
  - vm_compute. lia.
  - apply sample_frees.
  - exists V', ip', s'. split; [exact Hrun|]. rewrite (fw_contents _ _ _ _ _ _ _ _ _ Hw). vm_compute. reflexivity.
Defined.

Lemma write_read_roundtrip_witness :
  exists s', (writei 0 [1; 2; 3] 700;; readi 0 700 3) sample_fs = Ret (3, [1; 2; 3]) s'.
Proof.
  apply (write_read_roundtrip 0 0 2 sample_sb 59 V [] sample_fs 0 sample_inode [1; 2; 3] 700).
  - apply sample_trans.
  - reflexivity.
  - apply sample_fs_ok.
  - reflexivity.
  - apply sample_inode_wf.
  - apply sample_inode_home.
  - apply sample_shorts.
  - discriminate.
  - cbn. lia.
  - vm_compute. discriminate.
  - vm_compute. lia.
  - apply sample_frees.
Defined.

End witnesses.
