(* ===== verification/Umalloc.v ===== *)
(** * The memory allocator of user programs (umalloc.c)

    The free blocks form a circular list in address order, starting at the
    static header [base]; a block is a header of 8 bytes, with a pointer and
    a size in units of 8 bytes, and its payload.  malloc takes the first block
    that is large enough after [freep] or asks the kernel for more memory; free
    puts a block back and merges it with its neighbours. *)

From S2P Require Import Prelude Mem.

(** The static variables, the program's memory and its end. *)
Record uheap := mkHeap { h_mem : gmap Z Z; h_freep : Z; h_brk : Z }.
Definition set_h_mem (m : gmap Z Z) (s : uheap) : uheap := mkHeap m (h_freep s) (h_brk s).
Definition set_h_freep (p : Z) (s : uheap) : uheap := mkHeap (h_mem s) p (h_brk s).

(** Memory accesses; those outside the program's memory fault. *)
Definition load (a : Z) : M uheap Z :=
  s ← gets id;
  if (0 <=? a) && (a + 4 <=? h_brk s) then mret (ld32 (h_mem s) a) else crash "page fault".
Definition store (a v : Z) : M uheap unit :=
  s ← gets id;
  if (0 <=? a) && (a + 4 <=? h_brk s) then modify (set_h_mem (st32 (h_mem s) a v)) else crash "page fault".

(** ** The code *)

(** sizeof(Header); the pointer is at offset 0, the size at offset 4. *)
Definition HDR : Z := 8.
Definition load_ptr (p : Z) : M uheap Z := load p.
Definition load_size (p : Z) : M uheap Z := load (p + 4).
Definition store_ptr (p v : Z) : M uheap unit := store p v.
Definition store_size (p v : Z) : M uheap unit := store (p + 4) v.

(** The loop of free: where the block [bp] belongs. *)
Definition free_body (bp p : Z) : M uheap (Z + Z) :=
  q ← load_ptr p;
  if (p <? bp) && (bp <? q) then mret (inr p) else
  if (q <=? p) && ((p <? bp) || (bp <? q)) then mret (inr p) else
  mret (inl q).

Definition free (ap : Z) : M uheap unit :=
  let bp := u32 (ap - HDR) in
  s ← gets id;
  p ← iter (S (Z.to_nat (h_brk s / HDR + 2))) (free_body bp) (h_freep s);
  q ← load_ptr p;
  bsize ← load_size bp;
  (if u32 (bp + HDR * bsize) =? q then
     qsize ← load_size q;
     store_size bp (u32 (bsize + qsize));;
     qnext ← load_ptr q;
     store_ptr bp qnext
   else store_ptr bp q);;
  psize ← load_size p;
  (if u32 (p + HDR * psize) =? bp then
     bsize ← load_size bp;
     store_size p (u32 (psize + bsize));;
     bnext ← load_ptr bp;
     store_ptr p bnext
   else store_ptr p bp);;
  modify (set_h_freep p).

Section umalloc.
(** The address of [base], and whether the kernel has memory to grow a program
    of size [brk] by [n] bytes. *)
Context (base : Z) (can_grow : Z -> Z -> bool).

(** The system call sbrk (growproc): new memory is zero, an address space
    shrinks unless its new size wraps around. *)
Definition sbrk (n : Z) : M uheap Z :=
  s ← gets id;
  if 0 <? n then
    if can_grow (h_brk s) n then
      modify (fun s => mkHeap (stosb (h_mem s) (h_brk s) 0 (Z.to_nat n)) (h_freep s) (h_brk s + n));;
      mret (h_brk s)
    else mret 4294967295
  else
    (if (n <? 0) && (u32 (h_brk s + n) <? h_brk s)
     then modify (fun s => mkHeap (h_mem s) (h_freep s) (u32 (h_brk s + n))) else mret tt);;
    mret (h_brk s).

Definition morecore (nu : Z) : M uheap Z :=
  let nu := if nu <? 4096 then 4096 else nu in
  p ← sbrk (s32 (nu * HDR));
  if p =? 4294967295 then mret 0 else
    store_size p nu;;
    free (u32 (p + HDR));;
    gets h_freep.

(** One turn of the search; the loop ends with the value returned. *)
Definition malloc_body (nunits : Z) (st : Z * Z) : M uheap (Z * Z + Z) :=
  let '(prevp, p) := st in
  psize ← load_size p;
  if nunits <=? psize then
    p ← (if psize =? nunits then
           pnext ← load_ptr p;
           store_ptr prevp pnext;;
           mret p
         else
           store_size p (u32 (psize - nunits));;
           let p := u32 (p + HDR * u32 (psize - nunits)) in
           store_size p nunits;;
           mret p);
    modify (set_h_freep prevp);;
    mret (inr (u32 (p + HDR)))
  else
    fp ← gets h_freep;
    if p =? fp then
      p ← morecore nunits;
      if p =? 0 then mret (inr 0) else pnext ← load_ptr p; mret (inl (p, pnext))
    else pnext ← load_ptr p; mret (inl (p, pnext)).

Definition malloc (nbytes : Z) : M uheap Z :=
  let nunits := u32 (u32 (nbytes + HDR - 1) / HDR + 1) in
  fp ← gets h_freep;
  (if fp =? 0 then
     store_ptr base base;;
     modify (set_h_freep base);;
     store_size base 0
   else mret tt);;
  prevp ← gets h_freep;
  brk ← gets h_brk;
  p ← load_ptr prevp;
  iter (S (Z.to_nat (2 * (brk / HDR) + 8))) (malloc_body nunits) (prevp, p).

End umalloc.
