(* ===== verification/UmallocHeap.v ===== *)
(** * Correctness of the user memory allocator

    The heap is a row of blocks, used and free, that covers all memory obtained
    from the kernel, with no two free blocks side by side.  malloc turns a free
    block, or the end of one, into a used block; free turns it back and merges
    neighbours; neither touches the payload of a used block. *)

From stdpp Require Import sorting.
From S2P Require Import Prelude Mem Umalloc.

(** ** Rows of blocks *)

(** Free?, and the size in units with the header. *)
Definition layout := list (bool * Z).

Fixpoint total (l : layout) : Z :=
  match l with [] => 0 | (_, n) :: l => 8 * n + total l end.

(** The addresses of the blocks, and of the free ones, from address [a] on. *)
Fixpoint addrs (a : Z) (l : layout) : list Z :=
  match l with [] => [] | (_, n) :: l => a :: addrs (a + 8 * n) l end.
Fixpoint frees (a : Z) (l : layout) : list Z :=
  match l with
  | [] => []
  | (f, n) :: l => (if f : bool then [a] else []) ++ frees (a + 8 * n) l
  end.
(** The used blocks: address and length of the payload. *)
Fixpoint live (a : Z) (l : layout) : list (Z * Z) :=
  match l with
  | [] => []
  | (f, n) :: l => (if f : bool then [] else [(a + 8, 8 * (n - 1))]) ++ live (a + 8 * n) l
  end.

(** The sizes are in the headers. *)
Fixpoint sized (m : gmap Z Z) (a : Z) (l : layout) : Prop :=
  match l with [] => True | (_, n) :: l => ld32 m (a + 4) = n /\ sized m (a + 8 * n) l end.

(** Every element of [L] points to the next, the last one to [b]. *)
Fixpoint path (m : gmap Z Z) (L : list Z) (b : Z) : Prop :=
  match L with [] => True | a :: L => ld32 m a = hd b L /\ path m L b end.

(** No two free blocks side by side. *)
Fixpoint no_adj (l : layout) : Prop :=
  match l with
  | [] => True
  | (f, _) :: l' => (match l' with (g, _) :: _ => ~ (f = true /\ g = true) | [] => True end) /\ no_adj l'
  end.

Definition positive_sizes (l : layout) : Prop := Forall (fun b => 1 <= b.2) l.

Lemma total_app l1 l2 : total (l1 ++ l2) = total l1 + total l2.
Proof. induction l1 as [|[f n] l1 IH]; simpl; lia. Qed.
Lemma addrs_app a l1 l2 : addrs a (l1 ++ l2) = addrs a l1 ++ addrs (a + total l1) l2.
Proof.
  revert a. induction l1 as [|[f n] l1 IH]; intros a; simpl; [by rewrite Z.add_0_r|]. rewrite IH. do 3 f_equal. lia.
Qed.
Lemma frees_app a l1 l2 : frees a (l1 ++ l2) = frees a l1 ++ frees (a + total l1) l2.
Proof.
  revert a. induction l1 as [|[f n] l1 IH]; intros a; simpl; [by rewrite Z.add_0_r|].
  rewrite IH, <- app_assoc. do 3 f_equal. lia.
Qed.
Lemma live_app a l1 l2 : live a (l1 ++ l2) = live a l1 ++ live (a + total l1) l2.
Proof.
  revert a. induction l1 as [|[f n] l1 IH]; intros a; simpl; [by rewrite Z.add_0_r|].
  rewrite IH, <- app_assoc. do 3 f_equal. lia.
Qed.
Lemma sized_app m a l1 l2 : sized m a (l1 ++ l2) <-> sized m a l1 /\ sized m (a + total l1) l2.
Proof.
  revert a. induction l1 as [|[f n] l1 IH]; intros a; simpl; [rewrite Z.add_0_r; tauto|].
  rewrite IH, Z.add_assoc. tauto.
Qed.
Lemma path_app m L1 L2 b : path m (L1 ++ L2) b <-> path m L1 (hd b L2) /\ path m L2 b.
Proof.
  induction L1 as [|a L1 IH]; simpl; [tauto|]. rewrite IH. destruct L1 as [|c L1]; simpl; tauto.
Qed.

Lemma total_nonneg l : positive_sizes l -> 0 <= total l.
Proof. induction 1 as [|[f n] l Hn Hl IH]; simpl in *; lia. Qed.

Lemma addrs_range a l x : positive_sizes l -> x ∈ addrs a l -> a <= x /\ x + 8 <= a + total l.
Proof.
  intros Hp. revert a. induction Hp as [|[f n] l Hn Hp IH]; intros a; simpl in *; [by intros ?%not_elem_of_nil|].
  pose proof (total_nonneg l Hp). intros [->|Hx]%elem_of_cons; [lia|]. specialize (IH _ Hx). lia.
Qed.

Lemma frees_addrs a l x : x ∈ frees a l -> x ∈ addrs a l.
Proof.
  revert a. induction l as [|[f n] l IH]; intros a; simpl; [done|].
  destruct f; simpl; rewrite !elem_of_cons; [intros [->|?%IH]; auto|intros ?%IH; auto].
Qed.

(** Headers of different blocks do not overlap. *)
Definition apart (x y : Z) : Prop := x = y \/ x + 8 <= y \/ y + 8 <= x.

Lemma addrs_apart a l x y : positive_sizes l -> x ∈ addrs a l -> y ∈ addrs a l -> apart x y.
Proof.
  unfold apart. intros Hp. revert a. induction Hp as [|[f n] l Hn Hp IH]; intros a; simpl in *; [by intros ?%not_elem_of_nil|].
  intros [->|Hx]%elem_of_cons [->|Hy]%elem_of_cons; [lia| | |eauto].
  - apply addrs_range in Hy; [lia|done].
  - apply addrs_range in Hx; [lia|done].
Qed.

Section words.
Context (m : gmap Z Z) (x y v : Z) (Ha : apart x y).
Lemma ptr_other : x <> y -> ld32 (st32 m y v) x = ld32 m x.
Proof. unfold apart in Ha. intros Hne. apply ld32_st32_ne. lia. Qed.
Lemma size_ptr : ld32 (st32 m y v) (x + 4) = ld32 m (x + 4).
Proof. unfold apart in Ha. apply ld32_st32_ne. lia. Qed.
Lemma ptr_size : ld32 (st32 m (y + 4) v) x = ld32 m x.
Proof. unfold apart in Ha. apply ld32_st32_ne. lia. Qed.
Lemma size_other : x <> y -> ld32 (st32 m (y + 4) v) (x + 4) = ld32 m (x + 4).
Proof. unfold apart in Ha. intros Hne. apply ld32_st32_ne. lia. Qed.
End words.

Lemma sized_ext m m' a l :
  (forall x, x ∈ addrs a l -> ld32 m' (x + 4) = ld32 m (x + 4)) -> sized m a l -> sized m' a l.
Proof.
  revert a. induction l as [|[f n] l IH]; intros a He; simpl in *; [done|]. intros [H1 H2]. split.
  - rewrite He; [done|]. apply elem_of_cons. by left.
  - apply IH; [|done]. intros x Hx. apply He. apply elem_of_cons. by right.
Qed.

Lemma path_ext m m' L b : (forall x, x ∈ L -> ld32 m' x = ld32 m x) -> path m L b -> path m' L b.
Proof.
  induction L as [|a L IH]; intros He; simpl in *; [done|]. intros [H1 H2]. split.
  - rewrite He; [done|]. apply elem_of_cons. by left.
  - apply IH; [|done]. intros x Hx. apply He. apply elem_of_cons. by right.
Qed.

Lemma frees_inv a l x : x ∈ frees a l -> exists l1 k l2, l = l1 ++ (true, k) :: l2 /\ x = a + total l1.
Proof.
  revert a. induction l as [|[f n] l IH]; intros a; cbn [frees]; [by intros ?%not_elem_of_nil|].
  intros [Hx|Hx]%elem_of_app.
  - destruct f; [|by apply not_elem_of_nil in Hx]. apply list_elem_of_singleton in Hx as ->.
    exists [], n, l. split; [done|simpl; lia].
  - destruct (IH _ Hx) as (l1 & k & l2 & -> & ->). exists ((f, n) :: l1), k, l2. split; [done|simpl; lia].
Qed.

Lemma split_unique {A} (x : A) L1 L2 K1 K2 :
  NoDup (L1 ++ x :: L2) -> L1 ++ x :: L2 = K1 ++ x :: K2 -> L1 = K1 /\ L2 = K2.
Proof.
  revert K1. induction L1 as [|y L1 IH]; intros [|z K1] Hnd E; simpl in *; simplify_eq.
  - done.
  - apply NoDup_cons in Hnd as [Hx _]. destruct Hx. apply elem_of_app. right. apply elem_of_cons. by left.
  - apply NoDup_cons in Hnd as [Hx _]. destruct Hx. apply elem_of_app. right. apply elem_of_cons. by left.
  - apply NoDup_cons in Hnd as [_ Hnd]. destruct (IH K1 Hnd) as [-> ->]; done.
Qed.

(** Does the row start, or end, with a free block? *)
Definition starts_free (l : layout) : bool := match l with (f, _) :: _ => f | [] => false end.
Definition ends_free (l : layout) : bool := starts_free (rev l).

Lemma no_adj_cons f n l : no_adj ((f, n) :: l) <-> ~ (f = true /\ starts_free l = true) /\ no_adj l.
Proof. destruct l as [|[g k] l]; simpl; intuition congruence. Qed.

Lemma ends_free_cons f n l : l <> [] -> ends_free ((f, n) :: l) = ends_free l.
Proof. intros Hl. unfold ends_free. simpl. destruct (rev l) as [|[g k] r] eqn:E; [|done]. by apply (f_equal (@rev _)) in E; rewrite rev_involutive in E. Qed.

Lemma no_adj_app l1 l2 :
  no_adj (l1 ++ l2) <-> no_adj l1 /\ no_adj l2 /\ ~ (ends_free l1 = true /\ starts_free l2 = true).
Proof.
  induction l1 as [|[f n] l1 IH]; [simpl; unfold ends_free; simpl; intuition congruence|].
  rewrite <- app_comm_cons, !no_adj_cons, IH. destruct l1 as [|[g k] l1].
  - unfold ends_free. simpl. intuition congruence.
  - rewrite (ends_free_cons f n) by done. simpl starts_free. intuition congruence.
Qed.

Lemma ends_free_snoc l f n : ends_free (l ++ [(f, n)]) = f.
Proof. unfold ends_free. by rewrite rev_unit. Qed.

Lemma ends_free_inv l : ends_free l = true -> exists l' k, l = l' ++ [(true, k)].
Proof. destruct l as [|[f k] l' _] using rev_ind; [done|]. rewrite ends_free_snoc. intros ->. eauto. Qed.

Lemma starts_free_inv l : starts_free l = true -> exists k r, l = (true, k) :: r.
Proof. destruct l as [|[[] k] r]; cbn; [done|eauto|done]. Qed.

Lemma frees_head a l b : positive_sizes l -> b < a -> hd b (frees a l) = a -> exists k r, l = (true, k) :: r.
Proof.
  intros Hp Hb. destruct Hp as [|[[] k] r Hk Hp]; cbn; [lia|eauto|]. intros E. exfalso. cbn in Hk.
  destruct (frees (a + 8 * k) r) as [|q F] eqn:Ef; cbn in E; [lia|].
  assert (q ∈ addrs (a + 8 * k) r) as Hq by (apply frees_addrs; rewrite Ef; apply elem_of_cons; by left).
  apply addrs_range in Hq; [lia|done].
Qed.

(** The block that reaches to the end of the row is the last one. *)
Lemma free_end m a l x :
  positive_sizes l -> sized m a l -> x ∈ frees a l ->
  x + 8 * ld32 m (x + 4) <= a + total l /\
  (x + 8 * ld32 m (x + 4) = a + total l -> exists l' k, l = l' ++ [(true, k)] /\ x = a + total l' /\ ld32 m (x + 4) = k).
Proof.
  intros Hp. revert a. induction Hp as [|[f n] l Hn Hp IH]; intros a; cbn [sized frees total snd] in *; [by intros _ ?%not_elem_of_nil|].
  intros [Ha Hs] Hx. pose proof (total_nonneg l Hp). apply elem_of_app in Hx as [Hx|Hx].
  - destruct f; [|by apply not_elem_of_nil in Hx]. apply list_elem_of_singleton in Hx as ->. rewrite Ha. split; [lia|].
    intros E. exists [], n. assert (l = []) as ->; [|simpl; by rewrite Z.add_0_r].
    destruct Hp as [|[g k] l Hk Hp]; [done|]. simpl in *. pose proof (total_nonneg l Hp). lia.
  - destruct (IH _ Hs Hx) as [H1 H2]. split; [lia|]. intros E. destruct H2 as (l' & k & -> & -> & Hk); [lia|].
    exists ((f, n) :: l'), k. split; [done|]. simpl. split; [lia|done].
Qed.

Lemma wp_load a s Q : 0 <= a -> a + 4 <= h_brk s -> Q (ld32 (h_mem s) a) s -> wp (load a) Q s.
Proof. intros Ha Hb HQ. unfold load. wp_steps. unfold id. zb. cbn [andb]. by wp_steps. Qed.

Lemma wp_store a v s Q :
  0 <= a -> a + 4 <= h_brk s -> Q tt (set_h_mem (st32 (h_mem s) a v) s) -> wp (store a v) Q s.
Proof. intros Ha Hb HQ. unfold store. wp_steps. unfold id. zb. cbn [andb]. by wp_steps. Qed.

(** ** The invariant *)

Section heap.
Context (base hs : Z).

(** The free blocks in the order of the list, which starts at [base]. *)
Definition ring (l : layout) : list Z := base :: frees hs l.

Record heap_ok (l : layout) (s : uheap) : Prop := {
  ok_base : 0 < base;
  ok_start : base + 8 <= hs;
  ok_brk : hs + total l = h_brk s;
  ok_max : h_brk s < 2147483648;
  ok_pos : positive_sizes l;
  ok_adj : no_adj l;
  ok_sized : sized (h_mem s) hs l;
  ok_bsize : ld32 (h_mem s) (base + 4) = 0;
  ok_path : path (h_mem s) (ring l) base;
  ok_freep : h_freep s ∈ ring l;
}.

Lemma ring_apart l x y :
  base + 8 <= hs -> positive_sizes l -> x ∈ base :: addrs hs l -> y ∈ base :: addrs hs l -> apart x y.
Proof.
  unfold apart. intros Hs Hp [->|Hx]%elem_of_cons [->|Hy]%elem_of_cons; [lia| | |by eapply addrs_apart].
  - apply addrs_range in Hy; [lia|done].
  - apply addrs_range in Hx; [lia|done].
Qed.

Lemma ring_addrs l x : x ∈ ring l -> x ∈ base :: addrs hs l.
Proof. unfold ring. rewrite !elem_of_cons. intros [->|?%frees_addrs]; auto. Qed.

(** An element of the list points to the next one. *)
Lemma path_next m L1 p L2 b : path m (L1 ++ p :: L2) b -> ld32 m p = hd b L2.
Proof. rewrite path_app. simpl. tauto. Qed.

(** ** free: the search *)

Lemma snoc_split {A} (L : list A) (x : A) : exists I y, x :: L = I ++ [y].
Proof. destruct (exists_last (l := x :: L)) as (I & y & E); [done|]. by exists I, y. Qed.

(** Consecutive free blocks are in address order. *)
Lemma ring_sorted l : base + 8 <= hs -> positive_sizes l -> StronglySorted Z.lt (ring l).
Proof.
  intros Hs Hp. assert (forall a, StronglySorted Z.lt (frees a l)) as Hf.
  { clear Hs. induction Hp as [|[f n] l Hn Hp IH]; intros a; simpl in *; [constructor|].
    destruct f; simpl; [|apply IH]. constructor; [apply IH|]. apply Forall_forall.
    intros x Hx%frees_addrs%addrs_range; [lia|done]. }
  constructor; [done|]. apply Forall_forall. intros x Hx%frees_addrs%addrs_range; [lia|done].
Qed.

Lemma ring_order l A p q B :
  base + 8 <= hs -> positive_sizes l -> ring l = A ++ p :: q :: B -> p < q.
Proof.
  intros Hs Hp E. pose proof (ring_sorted l Hs Hp) as Hst. rewrite E in Hst.
  apply StronglySorted_app_1_r in Hst. by apply StronglySorted_inv in Hst as [_ [? _]%Forall_cons].
Qed.

Lemma frees_length a l : positive_sizes l -> 8 * Z.of_nat (length (frees a l)) <= total l.
Proof.
  intros Hp. revert a. induction Hp as [|[f n] l Hn Hp IH]; intros a; simpl in *; [lia|].
  specialize (IH (a + 8 * n)). destruct f; simpl; lia.
Qed.

(** The used block at [hs + total l1]. *)
Section free.
Context (l1 l2 : layout) (n : Z) (s : uheap).
Let l := l1 ++ (false, n) :: l2.
Let bp := hs + total l1.
Let F2 := frees (bp + 8 * n) l2.
Context (Hok : heap_ok l s) (I : list Z) (p : Z) (EI : ring l1 = I ++ [p]).

Lemma free_ring : ring l = I ++ p :: F2.
Proof.
  unfold ring, l. rewrite frees_app. simpl. fold bp F2. change (base :: frees hs l1 ++ F2) with ((base :: frees hs l1) ++ F2).
  unfold ring in EI. by rewrite EI, <- app_assoc.
Qed.

Lemma free_pos : positive_sizes l1 /\ 1 <= n /\ positive_sizes l2.
Proof. pose proof (ok_pos _ _ Hok) as Hp. unfold l in Hp. apply Forall_app in Hp as [? [? ?]%Forall_cons]. auto. Qed.

Lemma free_before x : x ∈ ring l1 -> base <= x /\ x + 8 <= bp.
Proof.
  destruct free_pos as (Hp & _ & _). pose proof (ok_start _ _ Hok). pose proof (total_nonneg l1 Hp).
  intros [->|Hx%frees_addrs]%elem_of_cons; [unfold bp; lia|]. apply addrs_range in Hx; [|done]. unfold bp; lia.
Qed.

Lemma free_after x : x ∈ F2 -> bp + 8 * n <= x /\ x + 8 <= h_brk s.
Proof.
  destruct free_pos as (_ & _ & Hp). intros Hx%frees_addrs%addrs_range; [|done].
  pose proof (ok_brk _ _ Hok) as Hb. unfold l in Hb. rewrite total_app in Hb. simpl in Hb. unfold bp in *. lia.
Qed.

Lemma free_brk : 0 <= base /\ bp + 8 <= h_brk s /\ h_brk s < 2147483648 /\ bp + 8 * n <= h_brk s.
Proof.
  destruct free_pos as (? & ? & Hp). pose proof (total_nonneg l2 Hp). pose proof (ok_base _ _ Hok).
  pose proof (ok_brk _ _ Hok) as Hb. unfold l in Hb. rewrite total_app in Hb. simpl in Hb.
  pose proof (ok_max _ _ Hok). unfold bp. lia.
Qed.

(** A free block is below the used block, and then at most [p], or above it. *)
Lemma free_sides x : x ∈ ring l -> base <= x <= p /\ p + 8 <= bp \/ bp < x /\ x + 8 <= h_brk s /\ x <> p.
Proof.
  destruct free_pos as (Hp1 & Hn & _). pose proof (ok_start _ _ Hok) as Hs.
  pose proof (ring_sorted l1 Hs Hp1) as Hst. rewrite EI in Hst.
  assert (p ∈ ring l1) as Hpin by (rewrite EI; apply elem_of_app; right; by apply list_elem_of_singleton).
  pose proof (free_before p Hpin) as Hp. rewrite free_ring. change (p :: F2) with ([p] ++ F2). rewrite app_assoc, <- EI.
  intros [Hx|Hx]%elem_of_app.
  - left. pose proof (free_before x Hx). rewrite EI in Hx. apply elem_of_app in Hx as [Hx| ->%list_elem_of_singleton]; [|lia].
    apply StronglySorted_app in Hst as [Hst _].
    specialize (Hst x p Hx ltac:(by apply list_elem_of_singleton)). lia.
  - right. apply free_after in Hx. lia.
Qed.

Lemma ring_cons_in A x B : ring l = A ++ x :: B -> x ∈ ring l.
Proof. intros ->. apply elem_of_app. right. apply elem_of_cons. by left. Qed.

Lemma ring_split_order A x B y : ring l = A ++ x :: B -> y ∈ ring l -> x < y <-> y ∈ B.
Proof.
  intros E Hy. pose proof (ring_sorted l (ok_start _ _ Hok) (ok_pos _ _ Hok)) as Hst. rewrite E in Hst, Hy.
  apply StronglySorted_app in Hst as (H1 & _ & [_ H2]%StronglySorted_inv). rewrite Forall_forall in H2.
  split; [|apply H2]. intros Hlt. apply elem_of_app in Hy as [Hy|[->|Hy]%elem_of_cons]; [|lia|done].
  specialize (H1 y x Hy ltac:(apply elem_of_cons; by left)). lia.
Qed.

Lemma free_step A x B (Q : Z + Z -> uheap -> Prop) :
  ring l = A ++ x :: B ->
  Q (if decide (x = p) then inr x else inl (hd base B)) s -> wp (free_body bp x) Q s.
Proof.
  intros E HQ. pose proof free_brk as Hbr. pose proof (ring_cons_in A x B E) as Hx.
  assert (p ∈ ring l) as Hp by (rewrite free_ring; apply elem_of_app; right; apply elem_of_cons; by left).
  pose proof (free_sides x Hx) as Hsx. destruct (free_sides p Hp) as [Hpb|]; [|lia].
  assert (forall q B', B = q :: B' -> x < q /\ (x < p -> q <= p) /\ (x = p -> bp < q)) as Hq.
  { intros q B' ->. assert (q ∈ ring l) as Hqr.
    { rewrite E. apply elem_of_app. right. apply elem_of_cons. right. apply elem_of_cons. by left. }
    assert (x < q) as Hlt by (apply (ring_split_order _ _ _ _ E); [done|apply elem_of_cons; by left]).
    pose proof (free_sides q Hqr). split; [done|]. split; [|lia]. intros Hxp.
    apply (ring_split_order _ _ _ _ E Hp) in Hxp as [->|Hin]%elem_of_cons; [lia|].
    replace (A ++ x :: q :: B') with ((A ++ [x]) ++ q :: B') in E by (by rewrite <- app_assoc).
    apply (ring_split_order _ _ _ _ E Hp) in Hin. lia. }
  unfold free_body, load_ptr. wp_step. apply wp_load; [lia|lia|]. cbv beta.
  pose proof (ok_path _ _ Hok) as Hpa. rewrite E in Hpa. rewrite (path_next _ _ _ _ _ Hpa).
  destruct B as [|q B]; cbn [hd] in *.
  - case_decide as Exp.
    + zb. cbn [andb orb]. by wp_step.
    + assert (bp < x) as Hbx.
      { destruct Hsx as [Hsx|]; [|lia]. assert (x < p) as Hlt by lia.
        by apply (ring_split_order _ _ _ _ E Hp), not_elem_of_nil in Hlt. }
      zb. cbn [andb orb]. by wp_step.
  - destruct (Hq q B eq_refl) as (H1 & H2 & H3). case_decide as Exp.
    + specialize (H3 Exp). zb. cbn [andb orb]. by wp_step.
    + destruct Hsx as [Hsx|Hsx].
      * specialize (H2 ltac:(lia)). zb. cbn [andb orb]. by wp_step.
      * zb. cbn [andb orb]. by wp_step.
Qed.

(** The loop reaches the free block before the used block, from any start. *)
Lemma wp_free_search (Q : Z -> uheap -> Prop) :
  Q p s -> wp (iter (S (Z.to_nat (h_brk s / HDR + 2))) (free_body bp) (h_freep s)) Q s.
Proof.
  intros HQ.
  assert (forall K J x fuel, I ++ [p] = J ++ x :: K -> (length K < fuel)%nat -> wp (iter fuel (free_body bp) x) Q s) as Hbelow.
  { induction K as [|y K IH]; intros J x [|fuel] E Hf; simpl in Hf; try lia; apply wp_bind.
    - apply app_inj_tail in E as [<- <-]. eapply free_step; [apply free_ring|]. rewrite decide_True by done. exact HQ.
    - eapply (free_step J x (y :: K ++ F2)).
      { rewrite free_ring. change (p :: F2) with ([p] ++ F2). by rewrite app_assoc, E, <- app_assoc. }
      case_decide; [subst; exact HQ|]. cbn [hd]. apply (IH (J ++ [x])); [|lia]. by rewrite <- app_assoc. }
  assert (forall K J x fuel, F2 = J ++ x :: K -> (length K + length (I ++ [p]) < fuel)%nat ->
    wp (iter fuel (free_body bp) x) Q s) as Habove.
  { induction K as [|y K IH]; intros J x [|fuel] E Hf; simpl in Hf; try lia; apply wp_bind.
    - eapply (free_step (I ++ p :: J) x []).
      { rewrite free_ring, E. by rewrite <- app_assoc. }
      case_decide; [subst; exact HQ|]. cbn [hd]. rewrite <- EI in *. unfold ring in *.
      apply (Hbelow (frees hs l1) []); [done|]. simpl in Hf. lia.
    - eapply (free_step (I ++ p :: J) x (y :: K)).
      { rewrite free_ring, E. by rewrite <- app_assoc. }
      case_decide; [subst; exact HQ|]. cbn [hd]. apply (IH (J ++ [x])); [|lia]. by rewrite E, <- app_assoc. }
  assert (length (I ++ [p]) + length F2 <= Z.to_nat (h_brk s / HDR + 1))%nat as Hlen.
  { rewrite <- length_app, <- app_assoc. simpl. rewrite <- free_ring. unfold ring, HDR. simpl.
    pose proof (frees_length hs l (ok_pos _ _ Hok)). pose proof (ok_brk _ _ Hok). pose proof (ok_base _ _ Hok).
    pose proof (ok_start _ _ Hok). Z.div_mod_to_equations. lia. }
  pose proof (ok_freep _ _ Hok) as Hf. rewrite free_ring in Hf. change (p :: F2) with ([p] ++ F2) in Hf.
  rewrite app_assoc in Hf. pose proof free_brk.
  pose proof (free_before base ltac:(apply elem_of_cons; by left)). assert (0 <= h_brk s / HDR) by (unfold HDR; Z.div_mod_to_equations; lia).
  apply elem_of_app in Hf as [(J & K & E)%list_elem_of_split|(J & K & E)%list_elem_of_split].
  - apply (Hbelow K J); [done|]. apply (f_equal length) in E. rewrite !length_app in *. simpl in *. lia.
  - apply (Habove K J); [done|]. apply (f_equal length) in E. rewrite !length_app in *. simpl in *. lia.
Qed.

(** A byte in no header. *)
Definition outside (l : layout) (x : Z) : Prop := forall c, c ∈ base :: addrs hs l -> ~ (c <= x < c + 8).

Lemma free_addrs : addrs hs l = addrs hs l1 ++ bp :: addrs (bp + 8 * n) l2.
Proof. unfold l. rewrite addrs_app. done. Qed.

Lemma free_hdr x : x ∈ ring l1 \/ x ∈ addrs hs l1 \/ x = bp \/ x ∈ addrs (bp + 8 * n) l2 -> x ∈ base :: addrs hs l.
Proof.
  rewrite free_addrs, !elem_of_cons, elem_of_app, elem_of_cons.
  intros [[?|?%frees_addrs]%elem_of_cons|[?|[?|?]]]; auto.
Qed.

Lemma free_apart x y : x ∈ base :: addrs hs l -> y ∈ base :: addrs hs l -> apart x y.
Proof. apply ring_apart; apply Hok. Qed.

(** The used block, with the free block behind it if there is one, before it is
    linked into the list. *)
Record detached (n1 : Z) (r1 : layout) (m1 : gmap Z Z) : Prop := {
  de_total : 8 * n1 + total r1 = 8 * n + total l2;
  de_n : n <= n1;
  de_pos : positive_sizes r1;
  de_adj : no_adj r1 /\ starts_free r1 = false;
  de_sub : forall x, x ∈ addrs (bp + 8 * n1) r1 -> x ∈ addrs (bp + 8 * n) l2;
  de_live : live (bp + 8 * n1) r1 = live (bp + 8 * n) l2;
  de_frees : (length (frees (bp + 8 * n1) r1) <= length (frees (bp + 8 * n) l2))%nat;
  de_size : ld32 m1 (bp + 4) = n1;
  de_ptr : ld32 m1 bp = hd base (frees (bp + 8 * n1) r1);
  de_path : path m1 (frees (bp + 8 * n1) r1) base;
  de_sized : sized m1 (bp + 8 * n1) r1;
  de_before : forall x, x ∈ base :: addrs hs l1 -> ld32 m1 (x + 4) = ld32 (h_mem s) (x + 4) /\ ld32 m1 x = ld32 (h_mem s) x;
  de_out : forall x, outside l x -> ld8 m1 x = ld8 (h_mem s) x;
}.

Lemma free_tail : sized (h_mem s) (bp + 8 * n) l2 /\ path (h_mem s) F2 base /\ no_adj l2 /\ ld32 (h_mem s) (bp + 4) = n.
Proof.
  pose proof (ok_sized _ _ Hok) as Hs. pose proof (ok_path _ _ Hok) as Hp. pose proof (ok_adj _ _ Hok) as Ha.
  unfold l in Hs, Ha. apply sized_app in Hs as (_ & Hn & Hs). fold bp in Hn, Hs.
  apply no_adj_app in Ha as (_ & Ha & _). apply no_adj_cons in Ha as [_ Ha].
  rewrite free_ring in Hp. change (p :: F2) with ([p] ++ F2) in Hp. rewrite app_assoc in Hp.
  apply path_app in Hp as [_ Hp]. auto.
Qed.

Lemma bp_before x : x ∈ base :: addrs hs l1 -> x + 8 <= bp.
Proof.
  destruct free_pos as (Hp & _ & _). pose proof (ok_start _ _ Hok). pose proof (total_nonneg l1 Hp).
  intros [->|Hx]%elem_of_cons; [unfold bp; lia|]. apply addrs_range in Hx; [|done]. unfold bp. lia.
Qed.

Lemma bp_after x : x ∈ addrs (bp + 8 * n) l2 -> bp + 8 * n <= x.
Proof. destruct free_pos as (_ & _ & Hp). intros Hx%addrs_range; [lia|done]. Qed.

Lemma detach_alone : starts_free l2 = false -> detached n l2 (st32 (h_mem s) bp (hd base F2)).
Proof.
  intros Hf. destruct free_tail as (Hs & Hp & Ha & Hn). destruct free_pos as (_ & Hn1 & Hp2). pose proof free_brk.
  assert (0 <= hd base F2 < 4294967296) as Hr.
  { destruct F2 as [|q F] eqn:E; simpl; [|pose proof (free_after q ltac:(rewrite E; apply elem_of_cons; by left))];
      pose proof (free_before base ltac:(apply elem_of_cons; by left)); lia. }
  constructor; try done.
  - by rewrite size_ptr by (by left).
  - by apply ld32_st32_eq.
  - eapply path_ext; [|exact Hp]. intros x Hx%frees_addrs. pose proof (bp_after x Hx).
    apply ld32_st32_ne. lia.
  - eapply sized_ext; [|exact Hs]. intros x Hx. pose proof (bp_after x Hx). apply ld32_st32_ne. lia.
  - intros x Hx. pose proof (bp_before x Hx). rewrite !ld32_st32_ne by lia. done.
  - intros x Hx. apply ld8_st32_ne. specialize (Hx bp (free_hdr bp ltac:(auto))). lia.
Qed.

Lemma detach_merged k r :
  l2 = (true, k) :: r ->
  detached (n + k) r (st32 (st32 (h_mem s) (bp + 4) (n + k)) bp (hd base (frees (bp + 8 * n + 8 * k) r))).
Proof.
  intros El. destruct free_tail as (Hs & Hp & Ha & Hn). destruct free_pos as (_ & Hn1 & Hp2). pose proof free_brk as Hbr.
  pose proof (ok_brk _ _ Hok) as Htot. unfold l in Htot. rewrite total_app in Htot. cbn [total] in Htot.
  unfold F2 in Hp. rewrite El in *. cbn [total sized frees app path] in *.
  apply Forall_cons in Hp2 as [Hk Hp2]. cbn in Hk. pose proof (total_nonneg r Hp2).
  destruct Hs as [Hks Hs], Hp as [Hkp Hp]. apply no_adj_cons in Ha as [Hnf Ha].
  assert (bp + 8 * (n + k) = bp + 8 * n + 8 * k) as Eb by lia.
  assert (forall x, x ∈ addrs (bp + 8 * n + 8 * k) r -> bp + 8 * n + 8 * k <= x /\ x + 8 <= h_brk s) as Hr.
  { intros x Hx%addrs_range; [|done]. unfold bp in *. lia. }
  assert (0 <= hd base (frees (bp + 8 * n + 8 * k) r) < 4294967296) as Hq.
  { pose proof (free_before base ltac:(apply elem_of_cons; by left)).
    destruct (frees (bp + 8 * n + 8 * k) r) as [|q F] eqn:E; simpl; [lia|].
    pose proof (Hr q ltac:(apply frees_addrs; rewrite E; apply elem_of_cons; by left)). lia. }
  constructor; rewrite ?Eb; try done.
  - rewrite El. cbn [total]. lia.
  - lia.
  - split; [done|]. destruct (starts_free r); [|done]. destruct Hnf. auto.
  - intros x Hx. rewrite El. cbn [addrs]. apply elem_of_cons. by right.
  - by rewrite El.
  - rewrite El. cbn [frees app length]. lia.
  - rewrite size_ptr by (by left). apply ld32_st32_eq. pose proof (free_before base ltac:(apply elem_of_cons; by left)). unfold bp in *. lia.
  - by apply ld32_st32_eq.
  - eapply path_ext; [|exact Hp]. intros x Hx%frees_addrs%Hr. rewrite !ld32_st32_ne by lia. done.
  - eapply sized_ext; [|exact Hs]. intros x Hx%Hr. rewrite !ld32_st32_ne by lia. done.
  - intros x Hx. pose proof (bp_before x Hx). rewrite !ld32_st32_ne by lia. done.
  - intros x Hx. specialize (Hx bp (free_hdr bp ltac:(auto))). rewrite !ld8_st32_ne by lia. done.
Qed.

Lemma p_in : p ∈ ring l1.
Proof. rewrite EI. apply elem_of_app. right. by apply list_elem_of_singleton. Qed.

Lemma init_lt x : x ∈ I -> x < p /\ x ∈ base :: addrs hs l1.
Proof.
  intros Hx. destruct free_pos as (Hp1 & _ & _).
  pose proof (ring_sorted l1 (ok_start _ _ Hok) Hp1) as Hst. rewrite EI in Hst.
  apply StronglySorted_app in Hst as [Hst _]. split.
  - apply Hst; [done|]. by apply list_elem_of_singleton.
  - apply ring_addrs. rewrite EI. apply elem_of_app. by left.
Qed.

Section attach.
Context (n1 : Z) (r1 : layout) (m1 : gmap Z Z) (D : detached n1 r1 m1).

Lemma attach_facts :
  1 <= n1 /\ bp + 8 * n1 + total r1 = h_brk s /\ sized m1 hs l1 /\ path m1 I p /\ no_adj l1 /\
  ld32 m1 (base + 4) = 0 /\ 0 < base /\ p + 8 <= bp /\ base <= p.
Proof.
  destruct free_pos as (Hp1 & Hn & _). pose proof (ok_brk _ _ Hok) as Htot. unfold l in Htot.
  rewrite total_app in Htot. cbn [total] in Htot. pose proof (de_total _ _ _ D). pose proof (de_n _ _ _ D).
  pose proof (ok_sized _ _ Hok) as Hs. unfold l in Hs. apply sized_app in Hs as [Hs _].
  pose proof (ok_path _ _ Hok) as Hp. rewrite free_ring in Hp. apply path_app in Hp as [Hp _]. cbn [hd] in Hp.
  pose proof (ok_adj _ _ Hok) as Ha. unfold l in Ha. apply no_adj_app in Ha as [Ha _].
  pose proof (free_before p p_in). split_and!; try (unfold bp in *; lia); try done.
  - eapply sized_ext; [|exact Hs]. intros x Hx. apply (proj1 (de_before _ _ _ D x ltac:(apply elem_of_cons; by right))).
  - eapply path_ext; [|exact Hp]. intros x [_ Hx]%init_lt. apply (proj2 (de_before _ _ _ D x Hx)).
  - rewrite (proj1 (de_before _ _ _ D base ltac:(apply elem_of_cons; by left))). apply Hok.
  - apply Hok.
Qed.

(** The blocks behind lie above the used block. *)
Lemma attach_after x : x ∈ addrs (bp + 8 * n1) r1 -> bp + 8 <= x.
Proof.
  intros Hx. apply addrs_range in Hx; [|apply D]. pose proof (de_n _ _ _ D). destruct free_pos as (_ & ? & _). lia.
Qed.

Lemma p_hdr : p ∈ base :: addrs hs l.
Proof. apply free_hdr. left. apply p_in. Qed.

Lemma attach_alone :
  ends_free l1 = false ->
  heap_ok (l1 ++ (true, n1) :: r1) (mkHeap (st32 m1 p bp) p (h_brk s)) /\
  forall x, outside l x -> ld8 (st32 m1 p bp) x = ld8 (h_mem s) x.
Proof.
  intros Hf. destruct attach_facts as (Hn1 & Htot & Hs & HI & Ha & Hb & Hb0 & Hpb & Hbp).
  destruct free_pos as (Hp1 & _ & _). pose proof free_brk as Hbr.
  assert (forall x, x ∈ base :: addrs hs l1 -> apart x p) as Hap.
  { intros x Hx. apply free_apart; [|apply p_hdr]. apply elem_of_cons in Hx as [->|Hx]; [apply elem_of_cons; by left|].
    apply free_hdr. auto. }
  split.
  - constructor; cbn [h_mem h_freep h_brk]; try apply Hok.
    + rewrite total_app. cbn [total]. unfold bp in *. lia.
    + apply Forall_app. split; [done|]. constructor; [done|apply D].
    + apply no_adj_app. rewrite no_adj_cons, Hf. split_and!; [done| |apply D|by intros []].
      destruct (de_adj _ _ _ D) as [_ ->]. by intros [_ ?].
    + apply sized_app. cbn [sized]. fold bp. split_and!.
      * eapply sized_ext; [|exact Hs]. intros x Hx. apply size_ptr, Hap. apply elem_of_cons. by right.
      * rewrite ld32_st32_ne by lia. apply D.
      * eapply sized_ext; [|apply D]. intros x Hx%attach_after. apply ld32_st32_ne. lia.
    + rewrite size_ptr; [done|]. apply Hap. apply elem_of_cons. by left.
    + unfold ring. rewrite frees_app. cbn [frees app]. fold bp.
      change (base :: frees hs l1 ++ bp :: frees (bp + 8 * n1) r1) with ((ring l1) ++ bp :: frees (bp + 8 * n1) r1).
      rewrite EI, <- app_assoc. apply path_app. cbn [app hd path]. split_and!.
      * eapply path_ext; [|exact HI]. intros x [Hlt Hx]%init_lt. apply ptr_other; [by apply Hap|lia].
      * apply ld32_st32_eq. lia.
      * rewrite ld32_st32_ne by lia. apply D.
      * eapply path_ext; [|apply D]. intros x Hx%frees_addrs%attach_after. apply ld32_st32_ne. lia.
    + unfold ring. rewrite frees_app. pose proof p_in as Hp. unfold ring in Hp.
      change (base :: frees hs l1 ++ ?r) with ((base :: frees hs l1) ++ r). apply elem_of_app. by left.
  - intros x Hx. rewrite ld8_st32_ne; [by apply D|]. specialize (Hx p p_hdr). lia.
Qed.

Lemma attach_merged l1' k :
  l1 = l1' ++ [(true, k)] ->
  let m2 := st32 (st32 m1 (p + 4) (k + n1)) p (ld32 m1 bp) in
  heap_ok (l1' ++ (true, k + n1) :: r1) (mkHeap m2 p (h_brk s)) /\
  forall x, outside l x -> ld8 m2 x = ld8 (h_mem s) x.
Proof.
  intros El m2. destruct attach_facts as (Hn1 & Htot & Hs & HI & Ha & Hb & Hb0 & Hpb & Hbp).
  destruct free_pos as (Hp1 & _ & _). pose proof free_brk as Hbr.
  assert (forall x, x ∈ base :: addrs hs l1 -> apart x p) as Hap.
  { intros x Hx. apply free_apart; [|apply p_hdr]. apply elem_of_cons in Hx as [->|Hx]; [apply elem_of_cons; by left|].
    apply free_hdr. auto. }
  assert (I = ring l1' /\ p = hs + total l1') as [EI' Ep].
  { unfold ring in EI. rewrite El, frees_app in EI. cbn [frees app] in EI.
    rewrite app_comm_cons in EI. apply app_inj_tail in EI as [E1 E2]; by rewrite <- E1, <- E2. }
  assert (bp = p + 8 * k) as Ebp by (unfold bp; rewrite El, total_app; cbn [total]; lia).
  pose proof Hp1 as Hp1'. rewrite El in Hp1'. apply Forall_app in Hp1' as [Hp1' [Hk _]%Forall_cons]. cbn in Hk.
  assert (forall x, x ∈ base :: addrs hs l1' -> x ∈ base :: addrs hs l1 /\ x + 8 <= p) as Hsub.
  { intros x Hx. rewrite El, addrs_app. split; [rewrite app_comm_cons; apply elem_of_app; by left|].
    apply elem_of_cons in Hx as [->|Hx]; [pose proof (total_nonneg l1' Hp1'); pose proof (ok_start _ _ Hok); lia|].
    apply addrs_range in Hx; [lia|done]. }
  assert (0 <= ld32 m1 bp < 4294967296) as Hr by apply ld32_range.
  split.
  - constructor; cbn [h_mem h_freep h_brk]; try apply Hok.
    + rewrite total_app. cbn [total]. unfold bp in *. lia.
    + apply Forall_app. split; [done|]. constructor; [cbn; lia|apply D].
    + rewrite El in Ha. apply no_adj_app in Ha as (Ha & _ & He). apply no_adj_app.
      rewrite no_adj_cons. split_and!; [done| |apply D|done]. destruct (de_adj _ _ _ D) as [_ ->]. by intros [_ ?].
    + apply sized_app. cbn [sized]. rewrite <- Ep. rewrite El in Hs. apply sized_app in Hs as [Hs _]. unfold m2. split_and!.
      * eapply sized_ext; [|exact Hs]. intros x Hx. pose proof (Hsub x ltac:(apply elem_of_cons; by right)).
        rewrite !ld32_st32_ne by lia. done.
      * rewrite size_ptr by (by left). apply ld32_st32_eq. pose proof (total_nonneg r1 (de_pos _ _ _ D)). lia.
      * replace (p + 8 * (k + n1)) with (bp + 8 * n1) by lia. eapply sized_ext; [|apply D].
        intros x Hx%attach_after. rewrite !ld32_st32_ne by lia. done.
    + unfold m2. rewrite size_ptr, size_other; [done|..]; try (apply Hap; apply elem_of_cons; by left).
      pose proof (total_nonneg l1' Hp1'). pose proof (ok_start _ _ Hok). lia.
    + unfold ring. rewrite frees_app. cbn [frees app]. rewrite <- Ep. fold (ring l1').
      change (base :: frees hs l1' ++ ?r) with (ring l1' ++ r). rewrite <- EI'.
      replace (p + 8 * (k + n1)) with (bp + 8 * n1) by lia. apply path_app. cbn [hd path]. unfold m2. split_and!.
      * eapply path_ext; [|exact HI]. intros x [Hlt Hx]%init_lt. rewrite ptr_other, ptr_size; auto; lia.
      * rewrite ld32_st32_eq by done. apply D.
      * eapply path_ext; [|apply D]. intros x Hx%frees_addrs%attach_after. rewrite !ld32_st32_ne by lia. done.
    + unfold ring. rewrite frees_app. cbn [frees]. rewrite <- Ep. apply elem_of_cons. right. apply elem_of_app. right.
      apply elem_of_cons. by left.
  - intros x Hx. specialize (Hx p p_hdr) as Hxp. unfold m2. rewrite !ld8_st32_ne by lia. by apply D.
Qed.

End attach.
Lemma ld_small (m : gmap Z Z) x : ld32 m x < 4294967296.
Proof. apply ld32_range. Qed.

(** What free leaves. *)
Definition freed (l' : layout) (s' : uheap) : Prop :=
  heap_ok l' s' /\ live hs l' = live hs l1 ++ live (bp + 8 * n) l2 /\ h_brk s' = h_brk s /\
  (exists k, (true, k) ∈ l' /\ n <= k) /\ (length (frees hs l') <= S (length (frees hs l)))%nat /\
  forall x, outside l x -> ld8 (h_mem s') x = ld8 (h_mem s) x.

Lemma wp_free_link n1 r1 m1 (Q : unit -> uheap -> Prop) :
  detached n1 r1 m1 -> (forall l' s', freed l' s' -> Q tt s') ->
  wp (psize ← load_size p;
      (if u32 (p + HDR * psize) =? bp then
         bsize ← load_size bp;
         store_size p (u32 (psize + bsize));;
         bnext ← load_ptr bp;
         store_ptr p bnext
       else store_ptr p bp);;
      modify (set_h_freep p)) Q (set_h_mem m1 s).
Proof.
  intros D HQ. destruct (attach_facts n1 r1 m1 D) as (Hn1 & Htot & Hs & HI & Ha & Hb & Hb0 & Hpb & Hbp).
  destruct free_pos as (Hp1 & Hn & _). pose proof free_brk as Hbr. pose proof (de_n _ _ _ D) as Hge.
  pose proof (total_nonneg r1 (de_pos _ _ _ D)) as Hr1. unfold load_size, store_size, load_ptr, store_ptr, HDR.
  assert (p = base /\ ld32 m1 (p + 4) = 0 \/ p ∈ frees hs l1) as Hp.
  { pose proof p_in as Hp. apply elem_of_cons in Hp as [->|Hp]; auto. }
  assert (p + 8 * ld32 m1 (p + 4) <= bp /\
    (p + 8 * ld32 m1 (p + 4) = bp -> exists l1' k, l1 = l1' ++ [(true, k)] /\ ld32 m1 (p + 4) = k)) as [Hle Hend].
  { destruct Hp as [[-> ->]|Hp]; [split; [lia|intros; lia]|].
    destruct (free_end m1 hs l1 p Hp1 Hs Hp) as [H1 H2]. split; [unfold bp; lia|]. intros E.
    destruct (H2 E) as (l' & k & ? & _ & ?). eauto. }
  wp_step. apply wp_load; cbn [h_brk h_mem set_h_mem]; [lia|lia|]. pose proof (ld32_range m1 (p + 4)).
  rewrite u32_small by lia. wp_step. destruct (Z.eqb_spec (p + 8 * ld32 m1 (p + 4)) bp) as [E|E].
  - destruct (Hend E) as (l1' & k & El & Hk). rewrite Hk in *.
    wp_step. apply wp_load; cbn [h_brk h_mem set_h_mem]; [lia|lia|]. rewrite (de_size _ _ _ D), u32_small by lia.
    wp_step. apply wp_store; cbn [h_brk h_mem set_h_mem]; [lia|lia|].
    wp_step. apply wp_load; cbn [h_brk h_mem set_h_mem]; [lia|lia|]. rewrite ld32_st32_ne by lia.
    apply wp_store; cbn [h_brk h_mem set_h_mem]; [lia|lia|]. wp_step.
    destruct (attach_merged n1 r1 m1 D l1' k El) as [Hok' Hout]. eapply HQ. split; [exact Hok'|]. split_and!; [|done| |  |done].
    + rewrite El, !live_app. cbn [live app]. rewrite app_nil_r. rewrite <- (de_live _ _ _ D). do 2 f_equal.
      unfold bp. rewrite El, total_app. cbn [total]. lia.
    + exists (k + n1). split; [apply elem_of_app; right; apply elem_of_cons; by left|lia].
    + pose proof (de_frees _ _ _ D) as Hfl. unfold l. rewrite El, <- app_assoc. cbn [app]. rewrite !frees_app. cbn [frees app]. rewrite !length_app. cbn [length].
      replace (hs + total l1' + 8 * (k + n1)) with (bp + 8 * n1) by (unfold bp; rewrite El, total_app; cbn [total]; lia).
      replace (hs + total l1' + 8 * k + 8 * n) with (bp + 8 * n) by (unfold bp; rewrite El, total_app; cbn [total]; lia). lia.
  - assert (ends_free l1 = false) as He.
    { destruct (ends_free l1) eqn:Ef; [|done]. exfalso. apply E. apply ends_free_inv in Ef as (l1' & k & El).
      pose proof EI as EI'. unfold ring in EI'. rewrite El, frees_app in EI'. cbn [frees app] in EI'.
      rewrite app_comm_cons in EI'. apply app_inj_tail in EI' as [_ Ep]. rewrite El in Hs.
      apply sized_app in Hs as [_ [Hk _]]. rewrite Ep in Hk. rewrite Hk, <- Ep. unfold bp. rewrite El, total_app. simpl. lia. }
    apply wp_store; cbn [h_brk h_mem set_h_mem]; [lia|lia|]. wp_step.
    destruct (attach_alone n1 r1 m1 D He) as [Hok' Hout]. eapply HQ. split; [exact Hok'|]. split_and!; [|done| | |done].
    + rewrite live_app. cbn [live app]. by rewrite <- (de_live _ _ _ D).
    + exists n1. split; [apply elem_of_app; right; apply elem_of_cons; by left|lia].
    + pose proof (de_frees _ _ _ D) as Hfl. unfold l. rewrite !frees_app. cbn [frees app]. rewrite !length_app. cbn [length].
      fold bp. lia.
Qed.

Lemma wp_free (Q : unit -> uheap -> Prop) :
  (forall l' s', freed l' s' -> Q tt s') -> wp (free (bp + 8)) Q s.
Proof.
  intros HQ. pose proof free_brk as Hbr. destruct free_pos as (Hp1 & Hn & Hp2). pose proof (free_before p p_in) as Hpb.
  destruct free_tail as (Hs & Hpt & Ha & Hsz). pose proof (ok_base _ _ Hok).
  unfold free, HDR. cbv zeta. rewrite u32_small by lia. replace (bp + 8 - 8) with bp by lia.
  wp_step. wp_step. wp_step. unfold id. apply wp_free_search. wp_step.
  unfold load_ptr at 1. apply wp_load; [lia|lia|]. pose proof (ok_path _ _ Hok) as Hpath. rewrite free_ring in Hpath.
  rewrite (path_next _ _ _ _ _ Hpath). wp_step. unfold load_size at 1. apply wp_load; [lia|lia|].
  rewrite Hsz, u32_small by lia. destruct (Z.eqb_spec (bp + 8 * n) (hd base F2)) as [E|E].
  - destruct (frees_head (bp + 8 * n) l2 base) as (k & r & El); [done|lia|done|].
    assert (Hks := Hs). assert (Hkp := Hpt). unfold F2 in Hkp. rewrite El in Hks, Hkp. cbn [sized frees app path] in Hks, Hkp.
    destruct Hks as [Hks _], Hkp as [Hkp _]. pose proof Hp2 as Hp2'. rewrite El in Hp2'.
    apply Forall_cons in Hp2' as [Hk Hp2']. cbn in Hk. pose proof (total_nonneg r Hp2').
    pose proof (ok_brk _ _ Hok) as Htot. unfold l in Htot. rewrite total_app in Htot. cbn [total] in Htot. rewrite El in Htot.
    cbn [total] in Htot. rewrite <- E.
    assert (0 <= bp + 8 * n /\ bp + 8 * n + 8 * k <= h_brk s) as Hq by (unfold bp in *; lia).
    wp_step. wp_step. unfold load_size at 1. apply wp_load; [lia|lia|]. rewrite Hks, u32_small by lia.
    wp_step. unfold store_size at 1. apply wp_store; [lia|lia|].
    wp_step. unfold load_ptr at 1. apply wp_load; cbn [h_brk h_mem set_h_mem]; [lia|lia|].
    rewrite ld32_st32_ne by lia. rewrite Hkp. unfold store_ptr at 1. apply wp_store; cbn [h_brk h_mem set_h_mem]; [lia|lia|].
    eapply (wp_free_link (n + k) r); [by apply detach_merged|done].
  - wp_step. unfold store_ptr at 1. apply wp_store; [lia|lia|].
    eapply (wp_free_link n l2); [apply detach_alone|done].
    destruct (starts_free l2) eqn:Ef; [|done]. exfalso. apply E. unfold F2.
    apply starts_free_inv in Ef as (k & r & El). by rewrite El.
Qed.

End free.
(** ** malloc: taking a block *)

Lemma ring_range l s x : heap_ok l s -> x ∈ ring l -> 0 < x /\ x + 8 <= h_brk s.
Proof.
  intros Hok [->|Hx%frees_addrs]%elem_of_cons; pose proof (ok_base _ _ Hok); pose proof (ok_start _ _ Hok);
    pose proof (ok_brk _ _ Hok); pose proof (total_nonneg l (ok_pos _ _ Hok)); [lia|].
  apply addrs_range in Hx; [lia|apply Hok].
Qed.

Lemma ring_NoDup l s : heap_ok l s -> NoDup (ring l).
Proof.
  intros Hok. pose proof (ring_sorted l (ok_start _ _ Hok) (ok_pos _ _ Hok)) as Hs. induction Hs as [|x L Hs IH Hx]; constructor; [|done].
  intros Hin. rewrite Forall_forall in Hx. specialize (Hx x Hin). lia.
Qed.

(** A block of [nu] units at [r] (its payload) was taken from the free block [k]. *)
Record taken (l : layout) (s : uheap) (nu r : Z) (l' : layout) (s' : uheap) : Prop := {
  tk_ok : heap_ok l' s';
  tk_live : exists L1 L2, live hs l = L1 ++ L2 /\ live hs l' = L1 ++ (r, 8 * (nu - 1)) :: L2;
  tk_brk : h_brk s' = h_brk s;
  tk_range : 0 < r;
  tk_out : forall x, outside l' x -> ld8 (h_mem s') x = ld8 (h_mem s) x;
}.

(** The free block at [hs + total l1] with the one before it in the list. *)
Section take.
Context (l1 l2 : layout) (k nu : Z) (s : uheap) (A : list Z) (prevp : Z).
Let l := l1 ++ (true, k) :: l2.
Let p := hs + total l1.
Context (Hok : heap_ok l s) (EA : ring l1 = A ++ [prevp]) (Hnu : 1 <= nu <= k).

Lemma take_facts :
  positive_sizes l1 /\ positive_sizes l2 /\ p + 8 * k + total l2 = h_brk s /\ 0 <= total l2 /\
  base <= prevp /\ prevp + 8 <= p /\ (forall x, x ∈ base :: addrs hs l1 -> x + 8 <= p) /\
  (forall x, x ∈ addrs (p + 8 * k) l2 -> p + 8 * k <= x) /\ h_brk s < 2147483648 /\ 0 < base.
Proof.
  pose proof Hok as [Hb Hs Hbr Hm Hp _ _ _ _ _]. unfold l in *. apply Forall_app in Hp as [Hp1 [Hk Hp2]%Forall_cons].
  rewrite total_app in Hbr. cbn [total] in Hbr. pose proof (total_nonneg l1 Hp1). pose proof (total_nonneg l2 Hp2).
  assert (forall x, x ∈ base :: addrs hs l1 -> base <= x /\ x + 8 <= p) as Hbef.
  { intros x [->|Hx]%elem_of_cons; [unfold p; lia|]. apply addrs_range in Hx; [unfold p; lia|done]. }
  assert (prevp ∈ base :: addrs hs l1) as Hpr.
  { apply ring_addrs. rewrite EA. apply elem_of_app. right. by apply list_elem_of_singleton. }
  pose proof (Hbef prevp Hpr). split_and!; try done; try (unfold p; lia); try lia.
  - intros x Hx. apply Hbef. done.
  - intros x Hx. apply addrs_range in Hx; [lia|done].
Qed.

Lemma take_ring : ring l = A ++ prevp :: p :: frees (p + 8 * k) l2.
Proof.
  unfold ring, l. rewrite frees_app. cbn [frees app]. fold p. rewrite app_comm_cons. fold (ring l1).
  by rewrite EA, <- app_assoc.
Qed.

Lemma take_mem :
  sized (h_mem s) hs l1 /\ ld32 (h_mem s) (p + 4) = k /\ sized (h_mem s) (p + 8 * k) l2 /\
  path (h_mem s) A prevp /\ ld32 (h_mem s) p = hd base (frees (p + 8 * k) l2) /\
  path (h_mem s) (frees (p + 8 * k) l2) base /\ ld32 (h_mem s) prevp = p.
Proof.
  pose proof (ok_sized _ _ Hok) as Hs. unfold l in Hs. apply sized_app in Hs as (Hs1 & Hk & Hs2). fold p in Hk, Hs2.
  pose proof (ok_path _ _ Hok) as Hp. rewrite take_ring in Hp. apply path_app in Hp as (H1 & H2 & H3 & H4). auto 10.
Qed.

Lemma take_prev x : x ∈ A -> x < prevp /\ x ∈ base :: addrs hs l1.
Proof.
  intros Hx. destruct take_facts as (Hp1 & _). pose proof (ring_sorted l1 (ok_start _ _ Hok) Hp1) as Hst.
  rewrite EA in Hst. apply StronglySorted_app in Hst as [Hst _]. split.
  - apply Hst; [done|]. by apply list_elem_of_singleton.
  - apply ring_addrs. rewrite EA. apply elem_of_app. by left.
Qed.

Lemma take_apart x : x ∈ base :: addrs hs l1 -> apart x prevp.
Proof.
  destruct take_facts as (Hp1 & _). intros Hx. eapply ring_apart; [apply Hok|exact Hp1|done|].
  apply ring_addrs. rewrite EA. apply elem_of_app. right. by apply list_elem_of_singleton.
Qed.

Lemma take_whole :
  k = nu ->
  taken l s nu (p + 8) (l1 ++ (false, k) :: l2) (mkHeap (st32 (h_mem s) prevp (ld32 (h_mem s) p)) prevp (h_brk s)).
Proof.
  intros Ek. destruct take_facts as (Hp1 & Hp2 & Hbr & Ht2 & Hbp & Hpp & Hbef & Haft & Hmax & Hb0).
  destruct take_mem as (Hs1 & Hk & Hs2 & HA & Hp & HF & Hpr). pose proof (ok_adj _ _ Hok) as Ha. unfold l in Ha.
  apply no_adj_app in Ha as (Ha1 & Ha2 & _). apply no_adj_cons in Ha2 as [_ Ha2].
  assert (forall x, x ∈ addrs (p + 8 * k) l2 -> prevp + 8 <= x) as Haft' by (intros x Hx%Haft; lia).
  constructor.
  - constructor; cbn [h_mem h_freep h_brk]; try apply Hok.
    + rewrite total_app. cbn [total]. unfold p in *. lia.
    + apply Forall_app. split; [done|]. constructor; [cbn; lia|done].
    + apply no_adj_app. rewrite no_adj_cons. split_and!; [done|by intros []|done|by intros []].
    + apply sized_app. cbn [sized]. fold p. split_and!.
      * eapply sized_ext; [|exact Hs1]. intros x Hx. apply size_ptr, take_apart. apply elem_of_cons. by right.
      * rewrite ld32_st32_ne by lia. done.
      * eapply sized_ext; [|exact Hs2]. intros x Hx%Haft'. apply ld32_st32_ne. lia.
    + rewrite size_ptr; [apply Hok|]. apply take_apart. apply elem_of_cons. by left.
    + unfold ring. rewrite frees_app. cbn [frees app]. fold p. rewrite app_comm_cons. fold (ring l1).
      rewrite EA, <- app_assoc. apply path_app. cbn [app hd path]. split_and!.
      * eapply path_ext; [|exact HA]. intros x [Hlt Hx]%take_prev. apply ptr_other; [by apply take_apart|lia].
      * rewrite ld32_st32_eq by apply ld32_range. done.
      * eapply path_ext; [|exact HF]. intros x Hx%frees_addrs%Haft'. apply ld32_st32_ne. lia.
    + unfold ring. rewrite frees_app, app_comm_cons. fold (ring l1). rewrite EA. apply elem_of_app. left.
      apply elem_of_app. right. by apply list_elem_of_singleton.
  - exists (live hs l1), (live (p + 8 * k) l2). unfold l. rewrite !live_app. cbn [live app]. fold p. by rewrite Ek.
  - done.
  - lia.
  - intros x Hx. apply ld8_st32_ne. specialize (Hx prevp). rewrite addrs_app, app_comm_cons in Hx.
    specialize (Hx ltac:(apply elem_of_app; left; apply ring_addrs; rewrite EA; apply elem_of_app; right; by apply list_elem_of_singleton)).
    lia.
Qed.

Lemma take_split :
  nu < k ->
  let q := p + 8 * (k - nu) in
  taken l s nu (q + 8) (l1 ++ (true, k - nu) :: (false, nu) :: l2)
    (mkHeap (st32 (st32 (h_mem s) (p + 4) (k - nu)) (q + 4) nu) prevp (h_brk s)).
Proof.
  intros Hlt q. destruct take_facts as (Hp1 & Hp2 & Hbr & Ht2 & Hbp & Hpp & Hbef & Haft & Hmax & Hb0).
  destruct take_mem as (Hs1 & Hk & Hs2 & HA & Hp & HF & Hpr). pose proof (ok_adj _ _ Hok) as Ha. unfold l in Ha.
  apply no_adj_app in Ha as (Ha1 & Ha2 & Ha3). apply no_adj_cons in Ha2 as [_ Ha2].
  assert (q + 8 * nu = p + 8 * k) as Eq by (unfold q; lia). assert (p + 8 <= q) as Hq by (unfold q; lia).
  constructor.
  - constructor; cbn [h_mem h_freep h_brk]; try apply Hok.
    + rewrite total_app. cbn [total]. unfold p in *. lia.
    + apply Forall_app. split; [done|]. constructor; [cbn; lia|]. constructor; [cbn; lia|done].
    + apply no_adj_app. rewrite !no_adj_cons. split_and!; [done|by intros [_ ?]|by intros []|done|done].
    + apply sized_app. cbn [sized]. fold p. fold q. rewrite Eq. split_and!.
      * eapply sized_ext; [|exact Hs1]. intros x Hx. pose proof (Hbef x ltac:(apply elem_of_cons; by right)).
        rewrite !ld32_st32_ne by lia. done.
      * rewrite ld32_st32_ne by lia. apply ld32_st32_eq. lia.
      * apply ld32_st32_eq. lia.
      * eapply sized_ext; [|exact Hs2]. intros x Hx%Haft. rewrite !ld32_st32_ne by lia. done.
    + pose proof (Hbef base ltac:(apply elem_of_cons; by left)). rewrite !ld32_st32_ne by lia. apply Hok.
    + unfold ring. rewrite frees_app. cbn [frees app]. fold p. fold q. rewrite Eq, app_comm_cons. fold (ring l1).
      rewrite EA, <- app_assoc. apply path_app. cbn [app hd path]. split_and!.
      * eapply path_ext; [|exact HA]. intros x [_ Hx]%take_prev. pose proof (Hbef x Hx). rewrite !ld32_st32_ne by lia. done.
      * rewrite !ld32_st32_ne by lia. done.
      * rewrite !ld32_st32_ne by lia. done.
      * eapply path_ext; [|exact HF]. intros x Hx%frees_addrs%Haft. rewrite !ld32_st32_ne by lia. done.
    + unfold ring. rewrite frees_app, app_comm_cons. fold (ring l1). rewrite EA. apply elem_of_app. left.
      apply elem_of_app. right. by apply list_elem_of_singleton.
  - exists (live hs l1), (live (p + 8 * k) l2). unfold l. rewrite !live_app. cbn [live app]. fold p. fold q. by rewrite Eq.
  - done.
  - lia.
  - intros x Hx. cbn [h_mem].
    assert (forall c, c = p \/ c = q -> ~ (c <= x < c + 8)) as Hc.
    { intros c Hc. apply Hx. rewrite addrs_app. cbn [addrs]. fold p. fold q. apply elem_of_cons. right.
      apply elem_of_app. right. rewrite !elem_of_cons. tauto. }
    pose proof (Hc p ltac:(auto)). pose proof (Hc q ltac:(auto)). rewrite !ld8_st32_ne by lia. done.
Qed.

End take.

Lemma wp_take can_grow l s nu prevp p (Q : Z * Z + Z -> uheap -> Prop) :
  heap_ok l s -> 1 <= nu -> prevp ∈ ring l -> ld32 (h_mem s) prevp = p -> p ∈ ring l ->
  nu <= ld32 (h_mem s) (p + 4) -> (forall r l' s', taken l s nu r l' s' -> Q (inr r) s') ->
  wp (malloc_body can_grow nu (prevp, p)) Q s.
Proof.
  intros Hok Hnu Hprev Hnext Hp Hsz HQ. pose proof (ring_range l s p Hok Hp) as Hpr.
  pose proof (ring_range l s prevp Hok Hprev) as Hprr. pose proof (ok_max _ _ Hok) as Hmax.
  assert (p <> base) as Hpb by (intros ->; rewrite (ok_bsize _ _ Hok) in Hsz; lia).
  assert (p ∈ frees hs l) as Hf by (by apply elem_of_cons in Hp as [?|?]).
  apply frees_inv in Hf as (l1 & k & l2 & -> & Ep).
  apply list_elem_of_split in Hprev as (A & B & ER). pose proof (ok_path _ _ Hok) as Hpa. rewrite ER in Hpa.
  rewrite (path_next _ _ _ _ _ Hpa) in Hnext. destruct B as [|b B]; [by cbn in Hnext; destruct Hpb|]. cbn in Hnext. subst b.
  assert (ring l1 = A ++ [prevp]) as EA.
  { pose proof (ring_NoDup _ _ Hok) as Hnd. unfold ring in ER, Hnd. rewrite frees_app in ER, Hnd. cbn [frees app] in ER, Hnd.
    rewrite app_comm_cons in ER, Hnd. rewrite <- Ep in ER, Hnd.
    replace (A ++ prevp :: p :: B) with ((A ++ [prevp]) ++ p :: B) in ER by (by rewrite <- app_assoc).
    exact (proj1 (split_unique _ _ _ _ _ Hnd ER)). }
  destruct (take_mem l1 l2 k s A prevp Hok EA) as (_ & Hk & _ & _ & _ & _ & _). rewrite <- Ep in Hk. rewrite Hk in Hsz.
  destruct (take_facts l1 l2 k s A prevp Hok EA) as (_ & _ & Hbr & Ht2 & _). rewrite <- Ep in Hbr.
  unfold malloc_body, load_size, load_ptr, store_ptr, store_size, HDR.
  wp_step. apply wp_load; [lia|lia|]. rewrite Hk. zb. wp_step. destruct (Z.eqb_spec k nu) as [Ek|Ek].
  - wp_step. apply wp_load; [lia|lia|]. wp_step. apply wp_store; [lia|lia|]. wp_step. wp_step. wp_step. wp_step.
    rewrite u32_small by lia. eapply HQ. rewrite Ep. by apply (take_whole l1 l2 k nu s A prevp Hok EA).
  - wp_step. apply wp_store; [lia|lia|]. rewrite (u32_small (k - nu)) by lia. rewrite (u32_small (p + _)) by lia. cbv zeta. wp_step.
    apply wp_store; cbn [h_brk set_h_mem]; [lia|lia|]. wp_step. wp_step. wp_step. wp_step.
    rewrite u32_small by lia. eapply HQ. rewrite Ep. apply (take_split l1 l2 k nu s A prevp Hok EA); lia.
Qed.

(** ** malloc: more memory *)

Section grow.
Context (can_grow : Z -> Z -> bool) (Hgrow : forall brk n, can_grow brk n = true -> brk + n < 2147483648).

(** The units asked from the kernel. *)
Definition chunk (nu : Z) : Z := Z.max nu 4096.

Lemma grow_ok l s n :
  heap_ok l s -> 1 <= n -> h_brk s + 8 * n < 2147483648 ->
  heap_ok (l ++ [(false, n)])
    (mkHeap (st32 (stosb (h_mem s) (h_brk s) 0 (Z.to_nat (8 * n))) (h_brk s + 4) n) (h_freep s) (h_brk s + 8 * n)).
Proof.
  intros Hok Hn Hb. pose proof Hok as [Hb0 Hs Hbr Hm Hp Ha Hsz Hbs Hpa Hf]. pose proof (total_nonneg l Hp).
  set (m' := st32 _ _ _).
  assert (forall x, x + 4 <= h_brk s -> ld32 m' x = ld32 (h_mem s) x) as Hold.
  { intros x Hx. unfold m'. rewrite ld32_st32_ne by lia. apply ld32_ext. intros b Hb'.
    rewrite ld8_stosb, decide_False by lia. done. }
  assert (forall x, x ∈ base :: addrs hs l -> x + 8 <= h_brk s) as Hin.
  { intros x [->|Hx%addrs_range]%elem_of_cons; [lia|lia|done]. }
  constructor; cbn [h_mem h_freep h_brk]; try done.
  - rewrite total_app. cbn [total]. lia.
  - apply Forall_app. split; [done|]. by constructor.
  - apply no_adj_app. split_and!; [done|done|by intros []].
  - apply sized_app. rewrite Hbr. cbn [sized]. split_and!; [|apply ld32_st32_eq; lia|done].
    eapply sized_ext; [|exact Hsz]. intros x Hx. apply Hold. pose proof (Hin x ltac:(apply elem_of_cons; by right)). lia.
  - rewrite Hold by lia. done.
  - unfold ring. rewrite frees_app. cbn [frees app]. rewrite app_nil_r. fold (ring l).
    eapply path_ext; [|exact Hpa]. intros x Hx%ring_addrs%Hin. apply Hold. lia.
  - unfold ring. rewrite frees_app. cbn [frees app]. by rewrite app_nil_r.
Qed.

Lemma outside_app l1 l2 x : outside (l1 ++ l2) x -> outside l1 x.
Proof.
  intros Hx c Hc. apply Hx. rewrite addrs_app, app_comm_cons. apply elem_of_app. by left.
Qed.

(** The heap after the kernel gave memory. *)
Record enlarged (l : layout) (s : uheap) (nu : Z) (l' : layout) (s' : uheap) : Prop := {
  en_ok : heap_ok l' s';
  en_live : live hs l' = live hs l;
  en_brk : h_brk s <= h_brk s';
  en_big : exists k, (true, k) ∈ l' /\ nu <= k;
  en_frees : (length (frees hs l') <= S (length (frees hs l)))%nat;
  en_out : forall x, outside l x -> x < h_brk s -> ld8 (h_mem s') x = ld8 (h_mem s) x;
}.

Lemma wp_morecore l s nu (Q : Z -> uheap -> Prop) :
  heap_ok l s -> 1 <= nu < 268435456 ->
  (can_grow (h_brk s) (8 * chunk nu) = false -> Q 0 s) ->
  (forall l' s', enlarged l s nu l' s' -> Q (h_freep s') s') -> wp (morecore can_grow nu) Q s.
Proof.
  intros Hok Hnu HQ0 HQ. unfold morecore. assert ((if nu <? 4096 then 4096 else nu) = chunk nu) as -> by (unfold chunk; zcase; lia).
  assert (4096 <= chunk nu < 268435456 /\ nu <= chunk nu) as Hc by (unfold chunk; lia).
  pose proof (ok_base _ _ Hok) as Hb. pose proof (ok_start _ _ Hok). pose proof (ok_brk _ _ Hok) as Hbr. pose proof (ok_max _ _ Hok).
  pose proof (total_nonneg l (ok_pos _ _ Hok)). unfold HDR. rewrite s32_small by lia.
  replace (chunk nu * 8) with (8 * chunk nu) by lia. cbv zeta. wp_step. unfold sbrk. wp_step. wp_step. unfold id. zb.
  destruct (can_grow (h_brk s) (8 * chunk nu)) eqn:Eg; [|wp_step; zb; wp_step; by apply HQ0].
  specialize (Hgrow _ _ Eg). wp_step. wp_step. wp_step. zb. wp_step. unfold store_size.
  apply wp_store; cbn [h_brk]; [lia|lia|]. rewrite u32_small by lia. cbn [h_mem set_h_mem h_freep h_brk].
  pose proof (grow_ok l s (chunk nu) Hok ltac:(lia) Hgrow) as Hok'. set (s1 := mkHeap _ _ _) in Hok'.
  change (wp (free (h_brk s + 8);; gets h_freep) Q s1). wp_step. rewrite <- Hbr.
  destruct (snoc_split (frees hs l) base) as (I & p & EI).
  eapply (wp_free l [] (chunk nu) s1 Hok' I p EI). intros l' s' (Hok2 & Hlive & Hbrk & (k & Hk & Hle) & Hfl & Hout).
  wp_step. eapply (HQ l'). constructor; [done| | |exists k; split; [done|lia]| |].
  - by rewrite Hlive, app_nil_r.
  - rewrite Hbrk. unfold s1. cbn. lia.
  - rewrite frees_app in Hfl. cbn [frees app] in Hfl. by rewrite app_nil_r in Hfl.
  - intros x Hx Hlt. rewrite Hout.
    + unfold s1. cbn [h_mem]. rewrite ld8_st32_ne by lia. rewrite ld8_stosb. by rewrite decide_False by lia.
    + intros c Hcc. rewrite addrs_app in Hcc. cbn [addrs] in Hcc. rewrite app_comm_cons in Hcc.
      apply elem_of_app in Hcc as [Hcc|Hcc%list_elem_of_singleton]; [by apply Hx|]. lia.
Qed.

(** ** malloc: the search *)

Lemma path_step m L b V x y W : path m L b -> L ++ [b] = V ++ x :: y :: W -> ld32 m x = y /\ x ∈ L.
Proof.
  revert V. induction L as [|a L IH]; intros V Hp E; simpl in *.
  - destruct V as [|v [|v' V]]; discriminate E.
  - destruct Hp as [Ha Hp], V as [|v V]; simpl in E; injection E as E1 E2; subst.
    + split; [|apply elem_of_cons; by left]. destruct L as [|c L]; cbn in *; by simplify_eq.
    + destruct (IH V Hp E2) as [? ?]. split; [done|]. apply elem_of_cons. by right.
Qed.

Lemma snoc_inner {A} (L : list A) b V x y W : L ++ [b] = V ++ x :: y :: W -> x ∈ L.
Proof.
  revert V. induction L as [|a L IH]; intros V E; simpl in *.
  - destruct V as [|v [|v' V]]; discriminate E.
  - destruct V as [|v V]; simpl in E; injection E as E1 E2; subst; apply elem_of_cons; [by left|right; eauto].
Qed.

(** The list from [freep] on. *)
Lemma ring_cycle l s : heap_ok l s -> exists C,
  h_freep s :: C ≡ₚ ring l /\ path (h_mem s) (h_freep s :: C) (h_freep s).
Proof.
  intros Hok. pose proof (ok_freep _ _ Hok) as (A & B & E)%list_elem_of_split. set (f := h_freep s) in *.
  exists (B ++ A). pose proof (ok_path _ _ Hok) as Hp. rewrite E in *. apply path_app in Hp as [HA HB]. split.
  - rewrite app_comm_cons. apply Permutation_app_comm.
  - rewrite app_comm_cons. apply path_app. split; [|done].
    assert (base = hd f A) as <-; [|done]. unfold ring in E. destruct A as [|a A]; cbn in E; by simplify_eq.
Qed.

Definition small (nu : Z) (s : uheap) (x : Z) : Prop := ld32 (h_mem s) (x + 4) < nu.

(** What malloc does when it is back at [freep]. *)
Definition refill (nu : Z) : M uheap (Z * Z + Z) :=
  p ← morecore can_grow nu;
  if p =? 0 then mret (inr 0) else pnext ← load_ptr p; mret (inl (p, pnext)).

Lemma wp_search l s nu C W : heap_ok l s -> 1 <= nu ->
  let f := h_freep s in
  f :: C ≡ₚ ring l -> path (h_mem s) (f :: C) f ->
  forall V prevp p fuel (Q : Z -> uheap -> Prop),
  f :: C ++ [f] = V ++ prevp :: p :: W -> (length W < fuel)%nat -> Forall (small nu s) (tl (V ++ [prevp])) ->
  (forall r l' s', taken l s nu r l' s' -> Q r s') ->
  (Forall (small nu s) (f :: C) -> forall fuel', (fuel <= S (length W + fuel'))%nat ->
     wp (refill nu) (fun r s' => wp (match r with inl a => iter fuel' (malloc_body can_grow nu) a | inr x => mret x end) Q s') s) ->
  wp (iter fuel (malloc_body can_grow nu) (prevp, p)) Q s.
Proof.
  intros Hok Hnu f HC Hpath. assert (NoDup (f :: C)) as Hnd by (rewrite HC; by eapply ring_NoDup).
  assert (forall x, x ∈ f :: C -> x ∈ ring l) as Hin by (intros x Hx; by rewrite <- HC).
  induction W as [|w W IH]; intros V prevp p [|fuel] Q E Hf Hsm HQ1 HQ2; cbn in Hf; try lia.
  all: change (f :: C ++ [f]) with ((f :: C) ++ [f]) in E.
  all: destruct (path_step _ _ _ _ _ _ _ Hpath E) as [Hnext Hprev].
  all: assert (p ∈ ring l) as Hp by (apply Hin; assert (p ∈ (f :: C) ++ [f]) as Hp
      by (rewrite E; apply elem_of_app; right; rewrite !elem_of_cons; auto);
      apply elem_of_app in Hp as [?|Hp%list_elem_of_singleton]; [done|rewrite Hp; apply elem_of_cons; by left]).
  all: apply wp_bind; pose proof (ring_range l s p Hok Hp) as Hpr.
  all: destruct (decide (nu <= ld32 (h_mem s) (p + 4))) as [Hbig|Hsmall];
    [eapply (wp_take can_grow l s nu prevp p); [done|done|by apply Hin|done|done|done|]; intros r l' s' Ht; exact (HQ1 r l' s' Ht)|].
  - replace (V ++ [prevp; p]) with ((V ++ [prevp]) ++ [p]) in E by (by rewrite <- app_assoc).
    apply app_inj_tail in E as [EV <-]. rewrite <- EV in Hsm. cbn [tl] in Hsm.
    unfold malloc_body, load_size. wp_step. apply wp_load; [lia|lia|]. zb. wp_step. wp_step. fold f. zb.
    change (wp (refill nu) (fun r s' => wp (match r with inl a => iter fuel (malloc_body can_grow nu) a | inr x => mret x end) Q s') s).
    apply HQ2; [|simpl; lia]. constructor; [unfold small; lia|done].
  - assert (p <> f) as Hpf.
    { intros ->. assert (C ++ [f] = tl (V ++ [prevp]) ++ f :: w :: W) as E2.
      { apply (f_equal (@tl _)) in E. cbn [tl app] in E. rewrite E. destruct V; cbn [tl app]; [done|by rewrite <- app_assoc]. }
      apply snoc_inner in E2. by apply NoDup_cons in Hnd as [? _]. }
    replace (V ++ prevp :: p :: w :: W) with ((V ++ [prevp]) ++ p :: w :: W) in E by (by rewrite <- app_assoc).
    destruct (path_step _ _ _ _ _ _ _ Hpath E) as [Hpn _].
    unfold malloc_body, load_size, load_ptr. wp_step. apply wp_load; [lia|lia|]. zb. wp_step. wp_step. fold f. zb.
    wp_step. apply wp_load; [lia|lia|]. rewrite Hpn. wp_step.
    eapply (IH (V ++ [prevp])); [exact E|lia| |done|].
    + destruct V as [|v V]; cbn [app tl] in *; [|rewrite <- app_assoc; cbn [app]].
      * constructor; [unfold small; lia|constructor].
      * apply Forall_app in Hsm as [? Hsm]. apply Forall_app. split; [done|]. constructor; [by apply Forall_cons in Hsm as [? _]|].
        constructor; [unfold small; lia|constructor].
    + intros Hall fuel' Hf'. apply HQ2; [done|]. simpl. lia.
Qed.

(** ** malloc *)

(** The state before the first call. *)
Definition unused (s : uheap) : Prop :=
  h_freep s = 0 /\ 0 < base /\ base + 8 <= hs /\ h_brk s = hs /\ hs < 2147483648.

(** The heap with layout [l], or still unused. *)
Definition heap_state (l : layout) (s : uheap) : Prop := heap_ok l s \/ l = [] /\ unused s.

Lemma wp_malloc_init l s (Q : unit -> uheap -> Prop) :
  heap_state l s ->
  (forall s', heap_ok l s' -> h_brk s' = h_brk s -> (forall x, hs <= x -> ld8 (h_mem s') x = ld8 (h_mem s) x) -> Q tt s') ->
  wp (fp ← gets h_freep;
      if fp =? 0 then store_ptr base base;; modify (set_h_freep base);; store_size base 0 else mret tt) Q s.
Proof.
  intros [Hok|[-> (Hf & Hb & Hbs & Hbr & Hmax)]] HQ.
  - pose proof (ring_range l s (h_freep s) Hok (ok_freep _ _ Hok)). wp_step. wp_step. zb. wp_step. by apply HQ.
  - wp_step. wp_step. rewrite Hf. zb. unfold store_ptr, store_size. wp_step. apply wp_store; [lia|lia|].
    wp_step. wp_step. apply wp_store; cbn [h_brk set_h_mem set_h_freep]; [lia|lia|]. apply HQ; [|done|].
    + constructor; cbn; try done; try lia.
      * constructor.
      * apply ld32_st32_eq. lia.
      * split; [|done]. rewrite ld32_st32_ne by lia. apply ld32_st32_eq. lia.
      * apply elem_of_cons. by left.
    + intros x Hx. cbn. rewrite !ld8_st32_ne by lia. done.
Qed.

(** The payload of used blocks is left alone. *)
Definition keeps (l : layout) (s s' : uheap) : Prop :=
  forall a n x, (a, n) ∈ live hs l -> a <= x < a + n -> ld8 (h_mem s') x = ld8 (h_mem s) x.

Lemma live_range a l b n : positive_sizes l -> (b, n) ∈ live a l -> a + 8 <= b /\ 0 <= n /\ b + n <= a + total l.
Proof.
  intros Hp. revert a. induction Hp as [|[f k] l Hk Hp IH]; intros a; cbn [live total snd] in *; [by intros ?%not_elem_of_nil|].
  pose proof (total_nonneg l Hp). intros [Hx|Hx%IH]%elem_of_app; [|lia].
  destruct f; [by apply not_elem_of_nil in Hx|]. apply list_elem_of_singleton in Hx as [= -> ->]. lia.
Qed.

Lemma live_not_header a l b n x c :
  positive_sizes l -> (b, n) ∈ live a l -> b <= x < b + n -> c ∈ addrs a l -> ~ (c <= x < c + 8).
Proof.
  intros Hp. revert a. induction Hp as [|[f k] l Hk Hp IH]; intros a; cbn [live addrs snd] in *; [by intros ?%not_elem_of_nil|].
  intros [Hx|Hx]%elem_of_app Hr [->|Hc]%elem_of_cons; [| | |by eapply IH].
  - destruct f; [by apply not_elem_of_nil in Hx|]. apply list_elem_of_singleton in Hx as [= -> ->]. lia.
  - destruct f; [by apply not_elem_of_nil in Hx|]. apply list_elem_of_singleton in Hx as [= -> ->].
    apply addrs_range in Hc; [lia|done].
  - apply live_range in Hx; [lia|done].
Qed.

Lemma live_outside l s a n x :
  heap_ok l s -> (a, n) ∈ live hs l -> a <= x < a + n -> outside l x /\ hs <= x < h_brk s.
Proof.
  intros Hok Hl Hx. pose proof (live_range hs l a n (ok_pos _ _ Hok) Hl) as Hr. pose proof (ok_brk _ _ Hok).
  pose proof (ok_start _ _ Hok). split; [|lia]. intros c [->|Hc]%elem_of_cons; [lia|].
  eapply live_not_header; [apply Hok|done|done|done].
Qed.

Lemma taken_keeps l s nu r l' s' : heap_ok l s -> taken l s nu r l' s' -> keeps l s s'.
Proof.
  intros Hok Ht a n x Hl Hx. apply (tk_out _ _ _ _ _ _ Ht). destruct (tk_live _ _ _ _ _ _ Ht) as (L1 & L2 & E1 & E2).
  eapply (live_outside l' s' a n); [apply Ht| |done]. rewrite E2, E1 in *.
  apply elem_of_app in Hl as [?|?]; apply elem_of_app; [by left|right; apply elem_of_cons; by right].
Qed.

(** The largest free block is smaller than [nu] units. *)
Definition exhausted (l : layout) (nu : Z) : Prop := forall k, (true, k) ∈ l -> k < nu.

(** The size of a free block is in its header. *)
Lemma free_sized m a l k : sized m a l -> (true, k) ∈ l -> exists x, x ∈ frees a l /\ ld32 m (x + 4) = k.
Proof.
  revert a. induction l as [|[f n] l IH]; intros a; cbn [sized frees]; [by intros _ ?%not_elem_of_nil|].
  intros [Hn Hs] [[= <- <-]|Hk]%elem_of_cons.
  - exists a. split; [apply elem_of_cons; by left|done].
  - destruct (IH _ Hs Hk) as (x & Hx & ?). exists x. split; [|done]. apply elem_of_app. by right.
Qed.

Lemma all_small l s nu C :
  heap_ok l s -> h_freep s :: C ≡ₚ ring l -> Forall (small nu s) (h_freep s :: C) -> exhausted l nu.
Proof.
  intros Hok HC Hall k Hk. destruct (free_sized _ _ _ _ (ok_sized _ _ Hok) Hk) as (x & Hx & <-).
  rewrite HC in Hall. rewrite Forall_forall in Hall. apply Hall. apply elem_of_cons. by right.
Qed.

(** The search from [freep] on, as malloc starts it. *)
Lemma wp_search_start l s nu fuel (Q : Z -> uheap -> Prop) :
  heap_ok l s -> 1 <= nu -> (length (ring l) < fuel)%nat ->
  (forall r l' s', taken l s nu r l' s' -> Q r s') ->
  (exhausted l nu -> forall fuel', (fuel <= length (ring l) + fuel')%nat ->
     wp (refill nu) (fun r s' => wp (match r with inl a => iter fuel' (malloc_body can_grow nu) a | inr x => mret x end) Q s') s) ->
  wp (iter fuel (malloc_body can_grow nu) (h_freep s, ld32 (h_mem s) (h_freep s))) Q s.
Proof.
  intros Hok Hnu Hf HQ1 HQ2. destruct (ring_cycle l s Hok) as (C & HC & Hp). pose proof (Permutation_length HC) as Hlen.
  set (f := h_freep s) in *. pose proof (proj1 Hp) as Hn. cbn [hd] in Hn.
  assert (exists p W, C ++ [f] = p :: W /\ ld32 (h_mem s) f = p /\ length W = length C) as (p & W & E & -> & Hl).
  { destruct C as [|c C]; [exists f, []; by rewrite Hn|]. exists c, (C ++ [f]). rewrite Hn. split_and!; [done|done|].
    rewrite length_app. simpl. lia. }
  eapply (wp_search l s nu C W Hok Hnu HC Hp []); [change (f :: C ++ [f] = f :: p :: W); by rewrite E| |constructor|done|].
  - unfold ring in *; simpl in *; lia.
  - intros Hall fuel' Hf'. apply HQ2; [by eapply all_small|]. unfold ring in *; simpl in *; lia.
Qed.

Lemma wp_malloc l s nbytes (Q : Z -> uheap -> Prop) :
  let nu := (nbytes + 7) / 8 + 1 in
  heap_state l s -> 0 <= nbytes < 2147483625 ->
  (forall s', heap_ok l s' -> h_brk s' = h_brk s -> exhausted l nu -> can_grow (h_brk s) (8 * chunk nu) = false ->
     keeps l s s' -> Q 0 s') ->
  (forall r l' s', heap_ok l' s' -> 0 < r ->
     (exists L1 L2, live hs l = L1 ++ L2 /\ live hs l' = L1 ++ (r, 8 * (nu - 1)) :: L2) -> keeps l s s' -> Q r s') ->
  wp (malloc base can_grow nbytes) Q s.
Proof.
  intros nu Hst Hn HQ0 HQ. assert (1 <= nu < 268435456) as Hnu by (unfold nu; Z.div_mod_to_equations; lia).
  unfold malloc, HDR. rewrite (u32_small (nbytes + 8 - 1)) by lia. replace (nbytes + 8 - 1) with (nbytes + 7) by lia.
  fold nu. rewrite u32_small by lia. cbv zeta.
  apply (wp_bind_assoc _ (fun fp => if fp =? 0 then store_ptr base base;; modify (set_h_freep base);; store_size base 0 else mret tt)).
  apply wp_bind, (wp_malloc_init l s); [done|]. intros s1 Hok Hbrk Hsame.
  pose proof (ring_range l s1 _ Hok (ok_freep _ _ Hok)) as Hfr. pose proof (total_nonneg l (ok_pos _ _ Hok)).
  assert (forall a n x, (a, n) ∈ live hs l -> a <= x < a + n -> ld8 (h_mem s1) x = ld8 (h_mem s) x) as Hk1.
  { intros a n x Hl Hx. apply Hsame. destruct (live_outside l s1 a n x Hok Hl Hx). lia. }
  assert (Z.of_nat (length (ring l)) <= h_brk s1 / 8 + 1 /\ 0 <= h_brk s1 / 8) as Hlen.
  { pose proof (frees_length hs l (ok_pos _ _ Hok)). pose proof (ok_brk _ _ Hok). pose proof (ok_base _ _ Hok).
    pose proof (ok_start _ _ Hok). unfold ring. simpl. Z.div_mod_to_equations. lia. }
  wp_step. wp_step. wp_step. wp_step. wp_step. unfold load_ptr. apply wp_load; [lia|lia|].
  eapply (wp_search_start l s1 nu); [done|lia|lia| |].
  { intros r l' s' Ht. pose proof (taken_keeps _ _ _ _ _ _ Hok Ht) as Hk. eapply HQ; [apply Ht|apply Ht|apply Ht|].
    intros a n x Hl Hx. rewrite (Hk a n x) by done. by eapply Hk1. }
  intros Hex fuel' Hf'. unfold refill. wp_step. eapply (wp_morecore l s1 nu); [done|lia| |].
  - intros Hg. zb. wp_step. rewrite Hbrk in Hg. by eapply HQ0.
  - intros l2 s2 [Hok2 Hlive2 Hbrk2 (k & Hk & Hle) Hfr2 Hout2].
    pose proof (ring_range l2 s2 _ Hok2 (ok_freep _ _ Hok2)) as Hfr'. zb. wp_step. unfold load_ptr. apply wp_load; [lia|lia|].
    wp_step. eapply (wp_search_start l2 s2 nu); [done|lia|unfold ring in *; simpl in *; lia| |].
    + intros r l' s' Ht. pose proof (taken_keeps _ _ _ _ _ _ Hok2 Ht) as Hk2. eapply HQ; [apply Ht|apply Ht| |].
      * rewrite <- Hlive2. apply Ht.
      * intros a n x Hl Hx. destruct (live_outside l s1 a n x Hok Hl Hx) as [Ho Hr].
        rewrite (Hk2 a n x) by (rewrite ?Hlive2; done). rewrite Hout2 by (done || lia). by eapply Hk1.
    + intros Hex2. specialize (Hex2 k Hk). lia.
Qed.

(** Used blocks are in address order and do not overlap. *)
Lemma live_order a l L1 r n L2 :
  positive_sizes l -> live a l = L1 ++ (r, n) :: L2 ->
  forall b k, (b, k) ∈ L1 ++ L2 -> b + k <= r \/ r + n <= b.
Proof.
  intros Hp. revert a L1. induction Hp as [|[f u] l Hu Hp IH]; intros a L1 E b k Hb; cbn [live snd] in *.
  - by destruct L1.
  - destruct f; [by eapply IH|]. destruct L1 as [|[a1 k1] L1]; cbn [app] in *; injection E as E1 E2 E3.
    + rewrite <- E3 in Hb. apply live_range in Hb; [lia|done].
    + apply elem_of_cons in Hb as [[= -> ->]|Hb]; [|by eapply IH].
      assert ((r, n) ∈ live (a + 8 * u) l) as Hr by (rewrite E3; apply elem_of_app; right; apply elem_of_cons; by left).
      apply live_range in Hr; [lia|done].
Qed.

Lemma live_inv a l r n :
  (r, n) ∈ live a l -> exists l1 k l2, l = l1 ++ (false, k) :: l2 /\ r = a + total l1 + 8 /\ n = 8 * (k - 1).
Proof.
  revert a. induction l as [|[f u] l IH]; intros a; cbn [live]; [by intros ?%not_elem_of_nil|].
  intros [Hx|Hx]%elem_of_app.
  - destruct f; [by apply not_elem_of_nil in Hx|]. apply list_elem_of_singleton in Hx as [= -> ->].
    exists [], u, l. split; [done|]. split; [simpl; lia|lia].
  - destruct (IH _ Hx) as (l1 & k & l2 & -> & -> & ->). exists ((f, u) :: l1), k, l2.
    split; [done|]. split; [simpl; lia|done].
Qed.

(** With no used block there is at most one free one. *)
Lemma all_free a l : no_adj l -> live a l = [] -> l = [] \/ exists k, l = [(true, k)].
Proof.
  intros Ha Hl. destruct l as [|[[] k] l]; [by left| |done]. right. exists k. cbn [live app] in Hl.
  destruct l as [|[[] k'] l]; [done| |done]. simpl in Ha. by destruct Ha as [[] _].
Qed.

(** C40. malloc gives out memory that nothing else uses: the block returned has
    at least the size asked for and overlaps no block in use, whose contents
    stay as they are, and the heap stays well-formed.  It returns 0 only if no
    free block is large enough and the kernel has no memory to add. *)
Theorem malloc_gives_block l s nbytes :
  let nu := (nbytes + 7) / 8 + 1 in
  heap_state l s -> 0 <= nbytes < 2147483625 ->
  exists r l' s', malloc base can_grow nbytes s = Ret r s' /\ heap_ok l' s' /\ keeps l s s' /\
    (r = 0 /\ l' = l /\ exhausted l nu /\ can_grow (h_brk s) (8 * chunk nu) = false \/
     0 < r /\ nbytes <= 8 * (nu - 1) /\ live hs l' ≡ₚ (r, 8 * (nu - 1)) :: live hs l /\
     forall b k, (b, k) ∈ live hs l -> b + k <= r \/ r + 8 * (nu - 1) <= b).
Proof.
  intros nu Hst Hn.
  cut (wp (malloc base can_grow nbytes) (fun r s' => exists l', heap_ok l' s' /\ keeps l s s' /\
    (r = 0 /\ l' = l /\ exhausted l nu /\ can_grow (h_brk s) (8 * chunk nu) = false \/
     0 < r /\ nbytes <= 8 * (nu - 1) /\ live hs l' ≡ₚ (r, 8 * (nu - 1)) :: live hs l /\
     forall b k, (b, k) ∈ live hs l -> b + k <= r \/ r + 8 * (nu - 1) <= b)) s).
  { intros (r & s' & Hrun & l' & Hr)%wp_inv. by exists r, l', s'. }
  apply (wp_malloc l s nbytes); [done|done| |].
  - intros s' Hok _ Hex Hg Hk. exists l. split_and!; [done|done|]. left. by split_and!.
  - intros r l' s' Hok Hr (L1 & L2 & E1 & E2) Hk. exists l'. split_and!; [done|done|]. right. fold nu in E2. split_and!.
    + done.
    + unfold nu. Z.div_mod_to_equations. lia.
    + rewrite E2, E1. symmetry. apply Permutation_middle.
    + intros b k Hb. rewrite E1 in Hb. eapply live_order; [apply Hok|exact E2|done].
Qed.

(** free takes back a block that malloc gave out: it is no longer in use,
    the contents of the other blocks in use stay as they are, and the heap stays
    well-formed, with free neighbours merged; when the last block is freed, the
    heap is one free block again. *)
Theorem free_takes_back l s r n :
  heap_ok l s -> (r, n) ∈ live hs l ->
  exists l' s', free r s = Ret tt s' /\ heap_ok l' s' /\ live hs l ≡ₚ (r, n) :: live hs l' /\ keeps l' s s' /\
    h_brk s' = h_brk s /\ (live hs l' = [] -> l' = [(true, (h_brk s - hs) / 8)]).
Proof.
  intros Hok (l1 & k & l2 & -> & -> & ->)%live_inv.
  destruct (snoc_split (frees hs l1) base) as (I & p & EI).
  cut (wp (free (hs + total l1 + 8)) (fun _ s' => exists l', freed l1 l2 k s l' s') s).
  { intros ([] & s' & Hrun & l' & Hok' & Hlive & Hbrk & (m & Hm & _) & _ & Hout)%wp_inv. exists l', s'.
    split_and!; [done|done| | |done|].
    - rewrite live_app. cbn [live app]. rewrite Hlive. symmetry. apply Permutation_middle.
    - intros a n x Hl Hx. apply Hout. eapply (live_outside _ s a n); [done| |done].
      rewrite Hlive in Hl. rewrite live_app. cbn [live app]. apply elem_of_app in Hl as [?|?]; apply elem_of_app; [by left|].
      right. apply elem_of_cons. by right.
    - intros E. destruct (all_free hs l' (ok_adj _ _ Hok') E) as [->|[u ->]]; [by apply not_elem_of_nil in Hm|].
      pose proof (ok_brk _ _ Hok') as Hb. cbn [total] in Hb. rewrite Hbrk in Hb. do 2 f_equal.
      Z.div_mod_to_equations. lia. }
  eapply (wp_free l1 l2 k s Hok I p EI). eauto.
Qed.

End grow.
End heap.

Section witnesses.

(** A program of 8192 bytes with [base] at 4096; the kernel grows it to a
    megabyte. *)
Definition sample_heap : uheap := mkHeap ∅ 0 8192.
Definition sample_grow (brk n : Z) : bool := brk + n <? 1048576.

Lemma sample_unused : heap_state 4096 8192 [] sample_heap.
Proof. right. split; [reflexivity|]. unfold unused. cbn. lia. Qed.

Lemma sample_grow_ok brk n : sample_grow brk n = true -> brk + n < 2147483648.
Proof. unfold sample_grow. rewrite Z.ltb_lt. lia. Qed.

Lemma malloc_gives_block_witness :
  exists r l' s', malloc 4096 sample_grow 100 sample_heap = Ret r s' /\ heap_ok 4096 8192 l' s' /\
    live 8192 l' ≡ₚ [(r, 104)].
Proof.
  destruct (malloc_gives_block 4096 8192 sample_grow sample_grow_ok [] sample_heap 100)
    as (r & l' & s' & Hrun & Hok & _ & [(_ & _ & _ & Hg)|(_ & _ & Hl & _)]).
  - apply sample_unused.
  - lia.
  - vm_compute in Hg. discriminate.
  - exists r, l', s'. split; [exact Hrun|]. split; [exact Hok|exact Hl].
Defined.

(** The heap after that call. *)
Definition used_heap : uheap :=
  mkHeap (st32 (st32 (st32 (st32 (st32 ∅ 4096 8192) 4100 0) 8192 4096) 8196 4082) 40852 14) 4096 40960.

Lemma used_heap_ok : heap_ok 4096 8192 [(true, 4082); (false, 14)] used_heap.
Proof.
  constructor; try lia; try (vm_compute; reflexivity).
  - repeat constructor; cbn; lia.
  - cbn. split; [intros [_ E]; discriminate E|]. split; exact I.
  - vm_compute. split; [reflexivity|]. split; [reflexivity|exact I].
  - vm_compute. split; [reflexivity|]. split; [reflexivity|exact I].
  - apply elem_of_cons. left. reflexivity.
Qed.

Lemma free_takes_back_witness :
  exists s', free 40856 used_heap = Ret tt s' /\ heap_ok 4096 8192 [(true, 4096)] s'.
Proof.
  destruct (free_takes_back 4096 8192 [(true, 4082); (false, 14)] used_heap 40856 104)
    as (l' & s' & Hrun & Hok & Hl & _ & _ & Hone).
  - apply used_heap_ok.
  - apply elem_of_cons. left. reflexivity.
  - exists s'. split; [exact Hrun|]. change [(true, 4096)] with [(true, (h_brk used_heap - 8192) / 8)]. rewrite <- Hone; [exact Hok|].
    apply Permutation_length in Hl. cbn in Hl. destruct (live 8192 l'); [reflexivity|discriminate].
Defined.

(** The size is computed with 32 bits: a request of 2^32 - 1 bytes gets a block
    with an empty payload. *)
Example malloc_size_wraps :
  match malloc 4096 sample_grow 4294967295 sample_heap with
  | Ret r s' => 0 < r /\ ld32 (h_mem s') (r - 4) = 1
  | _ => False
  end.
Proof. vm_compute. split; reflexivity. Qed.

End witnesses.
