(* ===== verification/Sh.v ===== *)
(** * The shell: parsing and running command lines (sh.c)

    A pointer into the command line is the rest of the line from there on, so
    that [es] is the empty list and [*s] the head of the list (0 at the end).  A
    string given by its two ends [q] and [eq] is the pair of these lists. *)

From S2P Require Import Prelude Mmu.

(** ** Commands *)

Definition MAXARGS : nat := 10.

(** The command tree, over strings [W]: two ends in the line, or a word. *)
Inductive cmd (W : Type) : Type :=
| EXEC (argv : list W)
| REDIR (c : cmd W) (file : W) (mode fd : Z)
| PIPE (left right : cmd W)
| LIST (left right : cmd W)
| BACK (c : cmd W).
Arguments EXEC {W} _.
Arguments REDIR {W} _ _ _ _.
Arguments PIPE {W} _ _.
Arguments LIST {W} _ _.
Arguments BACK {W} _.

Definition str : Type := list Z * list Z.

(** ** Tokens *)

Definition whitespace : list Z := [32; 9; 13; 10; 11].
Definition symbols : list Z := [60; 124; 62; 38; 59; 40; 41].

Definition strchr (set : list Z) (c : Z) : bool := negb (c =? 0) && existsb (Z.eqb c) set.

Definition is_ws (c : Z) : bool := strchr whitespace c.
Definition is_sym (c : Z) : bool := strchr symbols c.

(** [while(s < es && strchr(whitespace, *s)) s++] *)
Fixpoint skip_ws (s : list Z) : list Z :=
  match s with [] => [] | c :: t => if is_ws c then skip_ws t else s end.
(** The loop over the characters of a word. *)
Fixpoint skip_word (s : list Z) : list Z :=
  match s with [] => [] | c :: t => if negb (is_ws c) && negb (is_sym c) then skip_word t else s end.

Definition tok_word : Z := 97.    (* 'a' *)
Definition tok_append : Z := 43.  (* '+' *)

(** The token, its two ends, and where the next one starts. *)
Definition gettoken (s : list Z) : Z * str * list Z :=
  let s := skip_ws s in
  match s with
  | [] => (0, (s, s), s)
  | c :: t =>
      if c =? 0 then (0, (s, s), skip_ws s)
      else if existsb (Z.eqb c) [124; 40; 41; 59; 38; 60] then (c, (s, t), skip_ws t)
      else if c =? 62 then
        match t with
        | 62 :: t' => (tok_append, (s, t'), skip_ws t')
        | _ => (c, (s, t), skip_ws t)
        end
      else let e := skip_word s in (tok_word, (s, e), skip_ws e)
  end.

(** Whether the next character is one of [toks], and the line without leading
    whitespace. *)
Definition peek (s : list Z) (toks : list Z) : bool * list Z :=
  let s := skip_ws s in
  (match s with [] => false | c :: _ => strchr toks c end, s).

(** ** The parser *)

(** A result and the rest of the line, a panic, a panic after the rest of the
    line is printed, or fuel used up. *)
Inductive parsed (A : Type) : Type :=
| Parsed (a : A) (s : list Z)
| Syntax (msg : string)
| Leftovers (s : list Z) (msg : string)
| NoFuel.
Arguments Parsed {A} _ _.
Arguments Syntax {A} _.
Arguments Leftovers {A} _ _.
Arguments NoFuel {A}.

Definition andthen {A B} (r : parsed A) (f : A -> list Z -> parsed B) : parsed B :=
  match r with Parsed a s => f a s | Syntax e => Syntax e | Leftovers s e => Leftovers s e | NoFuel => NoFuel end.

(** A redirection: file, mode, descriptor; [redircmd] wraps a command in one. *)
Definition redir (W : Type) : Type := W * Z * Z.
Definition redircmd {W} (c : cmd W) (r : redir W) : cmd W := REDIR c r.1.1 r.1.2 r.2.
Definition redirs {W} (c : cmd W) (rs : list (redir W)) : cmd W := fold_left redircmd rs c.

(** parseredirs: the redirections found, in the order in which they are wrapped
    around the command. *)
Fixpoint parseredirs (fuel : nat) (s : list Z) : parsed (list (redir str)) :=
  match fuel with
  | O => NoFuel
  | S fuel =>
      let '(b, s) := peek s [60; 62] in
      if b then
        let '(tok, _, s) := gettoken s in
        let '(tok2, q, s) := gettoken s in
        if negb (tok2 =? tok_word) then Syntax "missing file for redirection" else
        let r := if tok =? 60 then (q, O_RDONLY, 0) else (q, Z.lor O_WRONLY O_CREATE, 1) in
        andthen (parseredirs fuel s) (fun rs s => Parsed (r :: rs) s)
      else Parsed [] s
  end.

(** The loop of parseexec from [argc] arguments on: the arguments and the
    redirections that follow.  (The command that the redirections are wrapped
    around is the one whose argv the loop fills.) *)
Fixpoint parseargs (fuel argc : nat) (s : list Z) : parsed (list str * list (redir str)) :=
  match fuel with
  | O => NoFuel
  | S fuel =>
      let '(b, s) := peek s [124; 41; 38; 59] in
      if b then Parsed ([], []) s else
      let '(tok, q, s) := gettoken s in
      if tok =? 0 then Parsed ([], []) s else
      if negb (tok =? tok_word) then Syntax "syntax" else
      if (MAXARGS <=? S argc)%nat then Syntax "too many args" else
      andthen (parseredirs (S (length s)) s) (fun rs s =>
      andthen (parseargs fuel (S argc) s) (fun r s => Parsed (q :: r.1, rs ++ r.2) s))
  end.

(** [while(peek(ps, es, "&")) ...] *)
Fixpoint parseback (fuel : nat) (c : cmd str) (s : list Z) : parsed (cmd str) :=
  match fuel with
  | O => NoFuel
  | S fuel =>
      let '(b, s) := peek s [38] in
      if b then let '(_, _, s) := gettoken s in parseback fuel (BACK c) s else Parsed c s
  end.

Fixpoint parseline (fuel : nat) (s : list Z) : parsed (cmd str) :=
  match fuel with
  | O => NoFuel
  | S fuel =>
      andthen (parsepipe fuel s) (fun c s =>
      andthen (parseback (S (length s)) c s) (fun c s =>
      let '(b, s) := peek s [59] in
      if b then
        let '(_, _, s) := gettoken s in
        andthen (parseline fuel s) (fun r s => Parsed (LIST c r) s)
      else Parsed c s))
  end
with parsepipe (fuel : nat) (s : list Z) : parsed (cmd str) :=
  match fuel with
  | O => NoFuel
  | S fuel =>
      andthen (parseexec fuel s) (fun c s =>
      let '(b, s) := peek s [124] in
      if b then
        let '(_, _, s) := gettoken s in
        andthen (parsepipe fuel s) (fun r s => Parsed (PIPE c r) s)
      else Parsed c s)
  end
with parseexec (fuel : nat) (s : list Z) : parsed (cmd str) :=
  match fuel with
  | O => NoFuel
  | S fuel =>
      let '(b, s) := peek s [40] in
      if b then parseblock fuel s else
      andthen (parseredirs (S (length s)) s) (fun rs s =>
      andthen (parseargs (S (length s)) 0 s) (fun r s => Parsed (redirs (EXEC r.1) (rs ++ r.2)) s))
  end
with parseblock (fuel : nat) (s : list Z) : parsed (cmd str) :=
  match fuel with
  | O => NoFuel
  | S fuel =>
      let '(b, s) := peek s [40] in
      if negb b then Syntax "parseblock" else
      let '(_, _, s) := gettoken s in
      andthen (parseline fuel s) (fun c s =>
      let '(b, s) := peek s [41] in
      if negb b then Syntax "syntax - missing )" else
      let '(_, _, s) := gettoken s in
      andthen (parseredirs (S (length s)) s) (fun rs s => Parsed (redirs c rs) s))
  end.

(** nulterminate: a zero at the end of every string of the command; [n] is the
    length of the line. *)
Definition nul_at (n : nat) (buf : list Z) (q : str) : list Z := <[(n - length q.2)%nat := 0]> buf.
Fixpoint nulterminate (n : nat) (buf : list Z) (c : cmd str) : list Z :=
  match c with
  | EXEC argv => fold_left (nul_at n) argv buf
  | REDIR c file _ _ => nul_at n (nulterminate n buf c) file
  | PIPE l r | LIST l r => nulterminate n (nulterminate n buf l) r
  | BACK c => nulterminate n buf c
  end.

(** parsecmd of the line [s], given without its final zero: the command, and the
    buffer with the zeros put in. *)
Definition parsecmd (s : list Z) : parsed (cmd str) :=
  andthen (parseline (5 * length s + 5) s) (fun c r =>
  let '(_, r) := peek r [] in
  match r with
  | [] => Parsed c (nulterminate (length s) (s ++ [0]) c)
  | _ => Leftovers r "syntax"
  end).

(** ** Printing commands *)

(** The characters between two ends. *)
Definition text (q : str) : list Z := take (length q.1 - length q.2) q.1.

Fixpoint texts (c : cmd str) : cmd (list Z) :=
  match c with
  | EXEC argv => EXEC (text <$> argv)
  | REDIR c file mode fd => REDIR (texts c) (text file) mode fd
  | PIPE l r => PIPE (texts l) (texts r)
  | LIST l r => LIST (texts l) (texts r)
  | BACK c => BACK (texts c)
  end.

(** How tightly a command binds: lists, background commands, pipes, and the rest. *)
Definition level {W} (c : cmd W) : nat :=
  match c with LIST _ _ => 0 | BACK _ => 1 | PIPE _ _ => 2 | EXEC _ | REDIR _ _ _ _ => 3 end.

Definition print_redir (file : list Z) (fd : Z) : list Z :=
  (if fd =? 0 then 60 else 62) :: file ++ [32].

(** The command as text; [print k] puts it in parentheses if it binds less
    tightly than [k]. *)
Definition parens (k : nat) (c : cmd (list Z)) (s : list Z) : list Z :=
  if (k <=? level c)%nat then s else 40 :: s ++ [41].
Fixpoint body (c : cmd (list Z)) : list Z :=
  match c with
  | EXEC argv => concat ((fun w => w ++ [32]) <$> argv)
  | REDIR c file mode fd => parens 3 c (body c) ++ print_redir file fd
  | PIPE l r => parens 3 l (body l) ++ 124 :: parens 2 r (body r)
  | LIST l r => parens 1 l (body l) ++ 59 :: body r
  | BACK c => parens 1 c (body c) ++ [38]
  end.
Definition print (k : nat) (c : cmd (list Z)) : list Z := parens k c (body c).

Definition word_char (c : Z) : Prop := c <> 0 /\ is_ws c = false /\ is_sym c = false.
Definition word (w : list Z) : Prop := w <> [] /\ Forall word_char w.

(** Commands that can be typed: words as strings, at most nine arguments, and the
    two kinds of redirection. *)
Fixpoint typable (c : cmd (list Z)) : Prop :=
  match c with
  | EXEC argv => Forall word argv /\ (length argv < MAXARGS)%nat
  | REDIR c file mode fd =>
      typable c /\ word file /\ (mode = O_RDONLY /\ fd = 0 \/ mode = Z.lor O_WRONLY O_CREATE /\ fd = 1)
  | PIPE l r | LIST l r => typable l /\ typable r
  | BACK c => typable c
  end.

Fixpoint height {W} (c : cmd W) : nat :=
  match c with
  | EXEC _ => 1
  | REDIR c _ _ _ | BACK c => S (height c)
  | PIPE l r | LIST l r => S (height l `max` height r)
  end.

(** ** Tokens of printed text *)

Lemma skip_ws_idem s : skip_ws (skip_ws s) = skip_ws s.
Proof. induction s as [|c s IH]; [done|]. cbn. destruct (is_ws c) eqn:E; [done|]. cbn. by rewrite E. Qed.

(** After whitespace, [s] is empty or has a character that ends a command. *)
Definition ender (c : Z) : Prop := c = 124 \/ c = 41 \/ c = 38 \/ c = 59.
Definition ends (s : list Z) : Prop := match skip_ws s with [] => True | c :: _ => ender c end.

Lemma ends_cons c s : ender c -> ends (c :: s).
Proof. intros H. unfold ends. cbn. by destruct H as [->|[->|[->| ->]]]; unfold ender; cbn; auto. Qed.

Lemma word_skip w t : word w -> skip_ws (w ++ t) = w ++ t.
Proof. intros [Hne Hw]. destruct Hw as [|c w Hc Hw]; [done|]. simpl. destruct Hc as (_ & -> & _). done. Qed.

Lemma skip_word_app w t : Forall word_char w -> skip_word (w ++ 32 :: t) = 32 :: t.
Proof. induction 1 as [|c w Hc Hw IH]; [done|]. simpl. destruct Hc as (_ & -> & ->). done. Qed.

Lemma word_char_ne c : word_char c ->
  c <> 0 /\ c <> 60 /\ c <> 62 /\ c <> 124 /\ c <> 38 /\ c <> 59 /\ c <> 40 /\ c <> 41.
Proof. intros (H0 & _ & Hs). split_and!; try done; intros ->; discriminate Hs. Qed.

Lemma eqb_ne (x y : Z) : x <> y -> (x =? y) = false.
Proof. apply Z.eqb_neq. Qed.

(** The first character decides. *)
Lemma peek_word w t toks : word w -> Forall (fun c => c ∈ symbols) toks -> peek (w ++ t) toks = (false, w ++ t).
Proof.
  intros Hw Ht. unfold peek. rewrite word_skip by done. destruct Hw as [Hne Hw]. destruct Hw as [|c w Hc Hw]; [done|].
  simpl. f_equal. unfold strchr. destruct (existsb (Z.eqb c) toks) eqn:E; [|apply andb_false_r].
  apply existsb_exists in E as (x & Hx & ->%Z.eqb_eq). rewrite Forall_forall in Ht.
  specialize (Ht x ltac:(by apply list_elem_of_In)). destruct (word_char_ne x Hc) as (? & ? & ? & ? & ? & ? & ? & ?).
  exfalso. unfold symbols in Ht. rewrite !elem_of_cons, elem_of_nil in Ht. intuition.
Qed.

Lemma peek_ends s toks : ends s ->
  peek s toks = (match skip_ws s with [] => false | c :: _ => existsb (Z.eqb c) toks end, skip_ws s).
Proof.
  intros He. unfold peek. unfold ends in He. destruct (skip_ws s) as [|c t]; [done|]. f_equal.
  by destruct He as [->|[->|[->| ->]]].
Qed.

Lemma peek_skip s toks : peek (skip_ws s) toks = peek s toks.
Proof. unfold peek. by rewrite skip_ws_idem. Qed.

Lemma gettoken_ender c s : ender c -> gettoken (c :: s) = (c, (c :: s, s), skip_ws s).
Proof. by intros [->|[->|[->| ->]]]. Qed.

Lemma gettoken_word w t : word w -> gettoken (w ++ 32 :: t) = (tok_word, (w ++ 32 :: t, 32 :: t), skip_ws t).
Proof.
  intros Hw. unfold gettoken. rewrite word_skip by done. pose proof (skip_word_app w t (proj2 Hw)) as Hs.
  destruct Hw as [Hne Hw]. destruct Hw as [|c w Hc Hw]; [done|]. cbn [app] in *. rewrite Hs.
  destruct (word_char_ne c Hc) as (? & ? & ? & ? & ? & ? & ? & ?). cbn [existsb]. rewrite !eqb_ne by done. done.
Qed.

Lemma text_word w t : text (w ++ 32 :: t, 32 :: t) = w.
Proof. unfold text. cbn [fst snd]. rewrite length_app. rewrite Nat.add_sub. by rewrite take_app_length. Qed.

(** ** Parsing printed text *)

(** Whitespace before it does not matter to any of the functions of the parser. *)
Lemma parseredirs_skip fuel s : parseredirs fuel (skip_ws s) = parseredirs fuel s.
Proof. destruct fuel; [done|]. cbn [parseredirs]. by rewrite peek_skip. Qed.
Lemma parseargs_skip fuel argc s : parseargs fuel argc (skip_ws s) = parseargs fuel argc s.
Proof. destruct fuel; [done|]. cbn [parseargs]. by rewrite peek_skip. Qed.
Lemma parseback_skip fuel c s : parseback fuel c (skip_ws s) = parseback fuel c s.
Proof. destruct fuel; [done|]. cbn [parseback]. by rewrite peek_skip. Qed.
Lemma parseexec_skip n s : parseexec n (skip_ws s) = parseexec n s.
Proof. destruct n; [done|]. cbn [parseexec]. by rewrite peek_skip. Qed.
Lemma parsepipe_skip n s : parsepipe n (skip_ws s) = parsepipe n s.
Proof. destruct n; [done|]. cbn [parsepipe]. by rewrite parseexec_skip. Qed.
Lemma parseline_skip n s : parseline n (skip_ws s) = parseline n s.
Proof. destruct n; [done|]. cbn [parseline]. by rewrite parsepipe_skip. Qed.

Definition redir_texts (rs : list (redir str)) : list (redir (list Z)) := (fun r => (text r.1.1, r.1.2, r.2)) <$> rs.
Definition print_redirs (rs : list (redir (list Z))) : list Z := concat ((fun r => print_redir r.1.1 r.2) <$> rs).
Definition redir_ok (r : redir (list Z)) : Prop :=
  word r.1.1 /\ (r.1.2 = O_RDONLY /\ r.2 = 0 \/ r.1.2 = Z.lor O_WRONLY O_CREATE /\ r.2 = 1).

(** Not a redirection. *)
Definition no_redir (s : list Z) : Prop := match skip_ws s with [] => True | c :: _ => c <> 60 /\ c <> 62 end.

Lemma ends_no_redir s : ends s -> no_redir s.
Proof. unfold ends, no_redir. destruct (skip_ws s) as [|c t]; [done|]. by intros [->|[->|[->| ->]]]. Qed.

Lemma word_no_redir w t : word w -> no_redir (w ++ t).
Proof.
  intros Hw. unfold no_redir. rewrite word_skip by done. destruct Hw as [Hne Hw]. destruct Hw as [|c w Hc Hw]; [done|]. cbn.
  by destruct (word_char_ne c Hc) as (? & ? & ? & _).
Qed.

Lemma length_redirs rs t : (length rs <= length (skip_ws (print_redirs rs ++ t)))%nat.
Proof.
  destruct rs as [|r rs]; [cbn; lia|].
  assert (skip_ws (print_redirs (r :: rs) ++ t) = print_redirs (r :: rs) ++ t) as ->.
  { unfold print_redirs. cbn. by destruct (r.2 =? 0). }
  rewrite length_app. induction (r :: rs) as [|x l IH]; [simpl; lia|].
  change (print_redirs (x :: l)) with (print_redir x.1.1 x.2 ++ print_redirs l). rewrite length_app. simpl in *. lia.
Qed.

Lemma parse_redirs rs t fuel :
  Forall redir_ok rs -> no_redir t -> (length rs < fuel)%nat ->
  exists rs', parseredirs fuel (print_redirs rs ++ t) = Parsed rs' (skip_ws t) /\ redir_texts rs' = rs.
Proof.
  intros Hrs Ht. revert fuel. induction Hrs as [|[[f m] d] rs [Hf Hr] Hrs IH]; intros [|fuel] Hfuel; cbn in Hfuel; try lia.
  - exists []. split; [|done]. cbn [print_redirs fmap list_fmap concat app]. simpl. unfold peek.
    unfold no_redir in Ht. destruct (skip_ws t) as [|c u]; [done|]. destruct Ht as [H1 H2].
    unfold strchr. cbn [existsb]. rewrite (eqb_ne c 60), (eqb_ne c 62) by done. cbn [orb]. by rewrite andb_false_r.
  - destruct (IH fuel ltac:(lia)) as (rs' & E & Ht').
    change (print_redirs ((f, m, d) :: rs) ++ t) with ((print_redir f d ++ print_redirs rs) ++ t).
    unfold print_redir at 1. rewrite <- app_assoc. cbn [app]. rewrite <- app_assoc. cbn [app].
    cbn [fst snd] in *.
    destruct Hr as [[-> ->]|[-> ->]]; cbn [Z.eqb].
    + exists ((f ++ 32 :: print_redirs rs ++ t, 32 :: print_redirs rs ++ t, O_RDONLY, 0) :: rs').
      split; [|unfold redir_texts in *; rewrite fmap_cons; cbn [fst snd]; by rewrite text_word, Ht']. cbn [parseredirs].
      change (peek (60 :: ?x) [60; 62]) with (true, 60 :: x). cbv iota beta.
      change (gettoken (60 :: ?x)) with (60, (60 :: x, x), skip_ws x). cbv iota beta.
      rewrite word_skip, gettoken_word by done. cbn [Z.eqb negb andthen]. by rewrite parseredirs_skip, E.
    + exists ((f ++ 32 :: print_redirs rs ++ t, 32 :: print_redirs rs ++ t, Z.lor O_WRONLY O_CREATE, 1) :: rs').
      split; [|unfold redir_texts in *; rewrite fmap_cons; cbn [fst snd]; by rewrite text_word, Ht']. cbn [parseredirs].
      change (peek (62 :: ?x) [60; 62]) with (true, 62 :: x). cbv iota beta.
      assert (gettoken (62 :: f ++ 32 :: print_redirs rs ++ t) =
        (62, (62 :: f ++ 32 :: print_redirs rs ++ t, f ++ 32 :: print_redirs rs ++ t), f ++ 32 :: print_redirs rs ++ t)) as ->.
      { unfold gettoken. cbn [skip_ws]. change (is_ws 62) with false. cbv iota.
        rewrite word_skip by done. destruct Hf as [Hne Hw]. destruct Hw as [|c w Hc Hw]; [done|].
        destruct (word_char_ne c Hc) as (_ & _ & H62 & _). cbn [app].
        destruct c as [|q|q]; try done. do 6 (destruct q as [q|q|]; try done). }
      rewrite gettoken_word by done. cbn [Z.eqb negb andthen]. by rewrite parseredirs_skip, E.
Qed.

Definition print_args (argv : list (list Z)) : list Z := concat ((fun w => w ++ [32]) <$> argv).

Lemma print_args_cons w argv : print_args (w :: argv) = w ++ 32 :: print_args argv.
Proof. unfold print_args. rewrite fmap_cons. cbn [concat]. by rewrite <- app_assoc. Qed.

Lemma args_end fuel argc t : ends t -> parseargs (S fuel) argc t = Parsed ([], []) (skip_ws t).
Proof.
  intros He. cbn [parseargs]. rewrite peek_ends by done. pose proof (skip_ws_idem t) as Hi. unfold ends in He.
  destruct (skip_ws t) as [|c u]; [done|]. by destruct He as [->|[->|[->| ->]]].
Qed.

Lemma parse_args w argv rs t fuel argc :
  Forall word (w :: argv) -> (argc + S (length argv) < MAXARGS)%nat -> Forall redir_ok rs -> ends t -> (S (length argv) < fuel)%nat ->
  exists args' rs', parseargs fuel argc (print_args (w :: argv) ++ print_redirs rs ++ t) = Parsed (args', rs') (skip_ws t) /\
    text <$> args' = w :: argv /\ redir_texts rs' = rs.
Proof.
  revert w argc fuel. induction argv as [|w2 argv IH]; intros w argc [|fuel] Hw Hn Hrs He Hf; cbn in Hf; try lia;
    apply Forall_cons in Hw as [Hw Hws]; rewrite print_args_cons, <- app_assoc; cbn [parseargs].
  all: rewrite peek_word by (try done; unfold symbols; repeat constructor; set_solver).
  all: change ((32 :: ?a) ++ ?b) with (32 :: a ++ b).
  all: rewrite gettoken_word by done; cbn [Z.eqb negb tok_word].
  all: rewrite (proj2 (Nat.leb_gt _ _)) by (cbn in Hn; lia).
  - change (print_args [] ++ ?x) with x. rewrite parseredirs_skip.
    destruct (parse_redirs rs t (S (length (skip_ws (print_redirs rs ++ t)))) Hrs (ends_no_redir t He)) as (rs' & -> & Hrs').
    { pose proof (length_redirs rs t). lia. }
    destruct fuel as [|fuel]; [lia|]. cbn [andthen]. rewrite parseargs_skip, args_end by done. cbn [andthen fst snd].
    eexists _, _. split; [reflexivity|]. rewrite app_nil_r. split; [|done]. cbn [fmap list_fmap]. by rewrite text_word.
  - set (rest := print_args (w2 :: argv) ++ print_redirs rs ++ t).
    assert (no_redir rest /\ skip_ws rest = rest) as [Hnr Hsk].
    { apply Forall_cons in Hws as [Hw2 _]. unfold rest. rewrite print_args_cons, <- app_assoc.
      split; [by apply word_no_redir|by apply word_skip]. }
    rewrite Hsk.
    destruct (parse_redirs [] rest (S (length rest)) ltac:(constructor) Hnr ltac:(cbn; lia)) as (rs0 & E0 & Hrs0).
    cbn [print_redirs fmap list_fmap concat app] in E0. change (print_redirs [] ++ rest) with rest in E0. rewrite E0, Hsk.
    assert (rs0 = []) as -> by (by destruct rs0). cbn [andthen].
    destruct (IH w2 (S argc) fuel Hws) as (args' & rs' & E & Ha & Hr); [cbn in *; lia|done|done|lia|].
    fold rest in E. rewrite E. cbn [andthen fst snd app]. eexists _, _. split; [reflexivity|].
    split; [|done]. rewrite fmap_cons, text_word. by rewrite Ha.
Qed.

(** A command as the redirections around another command. *)
Fixpoint unredir (c : cmd (list Z)) : cmd (list Z) * list (redir (list Z)) :=
  match c with
  | REDIR c f m d => let '(c0, rs) := unredir c in (c0, rs ++ [(f, m, d)])
  | _ => (c, [])
  end.

Lemma redirs_app {W} (c : cmd W) rs r : redirs c (rs ++ [r]) = redircmd (redirs c rs) r.
Proof. unfold redirs. by rewrite fold_left_app. Qed.

Lemma print_redirs_snoc rs f m d : print_redirs (rs ++ [(f, m, d)]) = print_redirs rs ++ print_redir f d.
Proof. unfold print_redirs. rewrite fmap_app, concat_app. cbn. by rewrite app_nil_r. Qed.

Lemma unredir_spec c c0 rs : unredir c = (c0, rs) -> typable c ->
  c = redirs c0 rs /\ print 3 c = print 3 c0 ++ print_redirs rs /\ typable c0 /\ Forall redir_ok rs /\
  (rs = [] \/ (height c0 < height c)%nat /\ level c = 3%nat) /\ (forall c1 f m d, c0 <> REDIR c1 f m d).
Proof.
  revert c0 rs. induction c as [argv|c IH f m d|l IHl r IHr|l IHl r IHr|c IH]; intros c0 rs E Ht;
    [|cbn [unredir] in E; destruct (unredir c) as [c1 rs1]; destruct (IH c1 rs1 eq_refl (proj1 Ht)) as (E1 & E2 & Ht0 & Hr & Hh & Hn);
      injection E as <- <-; destruct Ht as (_ & Hf & Hm)|..];
    try (injection E as <- <-; refine (conj eq_refl (conj _ (conj Ht (conj _ (conj (or_introl eq_refl) _))))); [symmetry; apply app_nil_r|constructor|done]).
  refine (conj _ (conj _ (conj Ht0 (conj _ (conj (or_intror (conj _ eq_refl)) Hn))))); [etransitivity; [|symmetry; apply redirs_app]; by rewrite <- E1|..].
  - rewrite print_redirs_snoc, app_assoc, <- E2. done.
  - apply Forall_app. split; [done|]. by constructor.
  - cbn [height]. destruct Hh as [->|[? _]]; [rewrite E1; cbn; lia|lia].
Qed.

Lemma texts_redirs c rs : texts (redirs c rs) = redirs (texts c) (redir_texts rs).
Proof. revert c. induction rs as [|[[f m] d] rs IH]; intros c; [done|]. exact (IH _). Qed.

Lemma peek_open s : (match skip_ws s with [] => True | c :: _ => c <> 40 end) -> peek s [40] = (false, skip_ws s).
Proof.
  intros Hs. unfold peek. destruct (skip_ws s) as [|c t]; [done|]. unfold strchr. cbn [existsb].
  rewrite (eqb_ne c 40) by done. cbn [orb]. by rewrite andb_false_r.
Qed.

Lemma print_3_exec argv : print 3 (EXEC argv) = print_args argv.
Proof. done. Qed.

(** A simple command with its redirections. *)
Lemma parse_exec argv rs t n :
  Forall word argv -> (length argv < MAXARGS)%nat -> Forall redir_ok rs -> ends t ->
  exists c', parseexec (S n) (print_args argv ++ print_redirs rs ++ t) = Parsed c' (skip_ws t) /\
    texts c' = redirs (EXEC argv) rs.
Proof.
  intros Hw Hl Hrs He. destruct argv as [|w argv].
  - change (print_args [] ++ ?x) with x. cbn [parseexec]. rewrite peek_open.
    2: { destruct rs as [|[[f m] d] rs]; [|cbn; by destruct (d =? 0)]. change (print_redirs [] ++ t) with t.
         unfold ends in He. destruct (skip_ws t); [done|]. by destruct He as [->|[->|[->| ->]]]. }
    rewrite parseredirs_skip.
    destruct (parse_redirs rs t (S (length (skip_ws (print_redirs rs ++ t)))) Hrs (ends_no_redir t He)) as (rs' & -> & Hrs').
    { pose proof (length_redirs rs t). lia. }
    cbn [andthen]. rewrite parseargs_skip, args_end by done. cbn [andthen fst snd]. eexists. split; [reflexivity|].
    rewrite app_nil_r, texts_redirs, Hrs'. done.
  - cbn [parseexec]. set (rest := print_args (w :: argv) ++ print_redirs rs ++ t).
    assert (no_redir rest /\ skip_ws rest = rest /\ match rest with [] => True | c :: _ => c <> 40 end) as (Hnr & Hsk & H40).
    { apply Forall_cons in Hw as [Hw _]. unfold rest. rewrite print_args_cons, <- app_assoc.
      split; [by apply word_no_redir|]. split; [by apply word_skip|].
      destruct Hw as [Hne Hw]. destruct Hw as [|c w Hc Hw]; [done|]. cbn. by apply word_char_ne in Hc as (? & ? & ? & ? & ? & ? & ? & ?). }
    rewrite peek_open by (by rewrite Hsk). rewrite Hsk.
    destruct (parse_redirs [] rest (S (length rest)) ltac:(constructor) Hnr ltac:(cbn; lia)) as (rs0 & E0 & Hrs0).
    change (print_redirs [] ++ rest) with rest in E0. rewrite E0, Hsk. assert (rs0 = []) as -> by (by destruct rs0). cbn [andthen app].
    destruct (parse_args w argv rs t (S (length rest)) 0 Hw) as (args' & rs' & E & Ha & Hr); [cbn in *; lia|done|done| |].
    { assert (S (length argv) <= length rest)%nat; [|lia]. unfold rest. rewrite length_app.
      assert (length (w :: argv) <= length (print_args (w :: argv)))%nat; [|simpl in *; lia].
      clear. induction (w :: argv) as [|x l IH]; [simpl; lia|]. rewrite print_args_cons, length_app. simpl in *. lia. }
    fold rest in E. rewrite E. cbn [andthen fst snd]. eexists. split; [reflexivity|].
    rewrite texts_redirs, Hr. cbn [texts]. by rewrite Ha.
Qed.

(** What follows a whole line: nothing, or the end of a block. *)
Definition closes (t : list Z) : Prop := match skip_ws t with [] => True | c :: _ => c = 41 end.
(** The next character is not [x]. *)
Definition next_ne (x : Z) (t : list Z) : Prop := match skip_ws t with [] => True | c :: _ => c <> x end.

Definition line_ok (c : cmd (list Z)) : Prop := forall t n, closes t -> (5 * height c <= n)%nat ->
  exists c', parseline n (body c ++ t) = Parsed c' (skip_ws t) /\ texts c' = c.
(** The fuel for a command printed at level [k], and the height of the lines in
    parentheses that it has. *)
Definition need (k : nat) (c : cmd (list Z)) : nat :=
  (5 * height c + (if k =? 3 then 2 else 3) - (if k <=? level c then 4 else 0))%nat.
Definition inner (k : nat) (c : cmd (list Z)) : nat := if (k <=? level c)%nat then pred (height c) else height c.
Definition lines_ok (n : nat) : Prop := forall c, typable c -> (height c <= n)%nat -> line_ok c.

Lemma closes_ends t : closes t -> ends t.
Proof. unfold closes, ends. destruct (skip_ws t); [done|]. intros ->. unfold ender. auto. Qed.

Lemma closes_next x t : closes t -> x <> 41 -> next_ne x t.
Proof. unfold closes, next_ne. destruct (skip_ws t); [done|]. intros -> H E. by apply H. Qed.

Lemma height_pos {W} (c : cmd W) : (1 <= height c)%nat.
Proof. destruct c; cbn; lia. Qed.

(** A block. *)
Lemma parse_block c rs t n :
  typable c -> line_ok c -> Forall redir_ok rs -> ends t -> (5 * height c + 2 <= n)%nat ->
  exists c', parseexec n ((40 :: body c ++ [41]) ++ print_redirs rs ++ t) = Parsed c' (skip_ws t) /\ texts c' = redirs c rs.
Proof.
  intros Hc Hl Hrs He Hn. destruct n as [|[|n]]; [lia..|].
  assert ((40 :: body c ++ [41]) ++ print_redirs rs ++ t = 40 :: body c ++ 41 :: print_redirs rs ++ t) as ->.
  { cbn. f_equal. by rewrite <- app_assoc. }
  cbn [parseexec]. change (peek (40 :: ?x) [40]) with (true, 40 :: x). cbv iota beta. cbn [parseblock].
  change (peek (40 :: ?x) [40]) with (true, 40 :: x). cbn [negb].
  change (gettoken (40 :: ?x)) with (40, (40 :: x, x), skip_ws x). cbv iota beta.
  rewrite parseline_skip.
  destruct (Hl (41 :: print_redirs rs ++ t) n eq_refl ltac:(lia)) as (c' & -> & Hc'). cbn [andthen].
  change (skip_ws (41 :: ?x)) with (41 :: x). cbv iota beta.
  change (peek (41 :: ?x) [41]) with (true, 41 :: x). cbn [negb].
  change (gettoken (41 :: ?x)) with (41, (41 :: x, x), skip_ws x). cbv iota beta. rewrite parseredirs_skip.
  destruct (parse_redirs rs t (S (length (skip_ws (print_redirs rs ++ t)))) Hrs (ends_no_redir t He)) as (rs' & -> & Hrs').
  { pose proof (length_redirs rs t). lia. }
  cbn [andthen]. eexists. split; [reflexivity|]. by rewrite texts_redirs, Hc', Hrs'.
Qed.

Lemma parse_print3 c t n :
  typable c -> lines_ok (inner 3 c) -> ends t -> (need 3 c <= n)%nat ->
  exists c', parseexec n (print 3 c ++ t) = Parsed c' (skip_ws t) /\ texts c' = c.
Proof.
  intros Hc Hl He Hn. destruct (unredir c) as [c0 rs] eqn:Eu.
  destruct (unredir_spec c c0 rs Eu Hc) as (Ec & Ep & Hc0 & Hrs & Hh & Hnr).
  pose proof (height_pos c) as Hp. pose proof (height_pos c0) as Hp0. rewrite Ep, <- app_assoc.
  assert (level c0 = 3%nat \/ (level c0 < 3)%nat) as [El|El] by (destruct c0; cbn; lia).
  - destruct c0 as [argv|c1 f m d|? ?|? ?|?]; try discriminate El; [|by destruct (Hnr c1 f m d)].
    destruct n as [|n]; [unfold need in Hn; destruct (3 <=? level c)%nat; simpl in Hn; lia|].
    rewrite print_3_exec. destruct Hc0 as [Hw Hlen].
    destruct (parse_exec argv rs t n Hw Hlen Hrs He) as (c' & E & Et). exists c'. by rewrite Et, <- Ec.
  - unfold print, parens. rewrite (proj2 (Nat.leb_gt 3 (level c0))) by done.
    assert (height c0 <= inner 3 c /\ 5 * height c0 + 2 <= need 3 c)%nat as [Hi Hneed].
    { unfold inner, need. destruct Hh as [->|[Hh ->]].
      - cbn in Ec. subst c0. rewrite (proj2 (Nat.leb_gt 3 (level c))) by done. simpl. lia.
      - simpl. lia. }
    destruct (parse_block c0 rs t n Hc0 (Hl c0 Hc0 Hi) Hrs He ltac:(lia)) as (c' & E & Et). exists c'. by rewrite Et, <- Ec.
Qed.

Lemma next_peek x t : ends t -> next_ne x t -> peek t [x] = (false, skip_ws t).
Proof.
  intros He Hn. rewrite peek_ends by done. unfold next_ne in Hn. destruct (skip_ws t); [done|]. cbn [existsb]. by rewrite eqb_ne.
Qed.

(** Pipelines. *)
Lemma parse_print2 c t n :
  typable c -> lines_ok (inner 2 c) -> ends t -> next_ne 124 t -> (need 2 c <= n)%nat ->
  exists c', parsepipe n (print 2 c ++ t) = Parsed c' (skip_ws t) /\ texts c' = c.
Proof.
  revert t n. induction c as [argv|c IH f m d|l IHl r IHr|l IHl r IHr|c IH]; intros t n Hc Hl He Hx Hn.
  all: destruct n as [|n]; [unfold need in Hn; simpl in Hn; lia|]; cbn [parsepipe].
  3: {
    clear IHl. destruct Hc as [Hcl Hcr]. unfold inner, need in Hl, Hn. cbn [level height Nat.leb Nat.eqb pred] in Hl, Hn.
    change (print 2 (PIPE l r)) with (print 3 l ++ 124 :: print 2 r). rewrite <- app_assoc. cbn [app].
    destruct (parse_print3 l (124 :: print 2 r ++ t) n Hcl) as (l' & -> & Hl').
    { intros c0 Hc0 Hh0. apply Hl; [done|]. unfold inner in Hh0. destruct (3 <=? level l)%nat; lia. }
    { apply ends_cons. unfold ender. auto. }
    { unfold need. simpl. destruct (3 <=? level l)%nat; lia. }
    cbn [andthen]. rewrite peek_skip, peek_ends by (apply ends_cons; unfold ender; auto).
    change (skip_ws (124 :: ?x)) with (124 :: x). cbn [existsb Z.eqb orb].
    rewrite gettoken_ender, parsepipe_skip by (unfold ender; auto).
    destruct (IHr t n Hcr) as (r' & -> & Hr'); [|done|done| |].
    { intros c0 Hc0 Hh0. apply Hl; [done|]. unfold inner in Hh0. destruct (2 <=? level r)%nat; lia. }
    { unfold need. simpl. destruct (2 <=? level r)%nat; lia. }
    cbn [andthen]. eexists. split; [reflexivity|]. cbn [texts]. by rewrite Hl', Hr'. }
  all: match goal with |- context [print 2 ?c] => change (print 2 c) with (print 3 c) end.
  all: match goal with |- context [print 3 ?c] => destruct (parse_print3 c t n Hc Hl He) as (c' & -> & Hc') end;
    [unfold need in *; cbn [level height Nat.leb Nat.eqb] in *; lia|].
  all: cbn [andthen]; rewrite peek_skip, next_peek by done; eauto.
Qed.

Lemma parse_ands k c t fuel : ends t -> next_ne 38 t -> (k < fuel)%nat ->
  parseback fuel c (replicate k 38 ++ t) = Parsed (Nat.iter k BACK c) (skip_ws t).
Proof.
  intros He Hx. revert c fuel. induction k as [|k IH]; intros c [|fuel] Hf; try lia; cbn [replicate app parseback].
  - by rewrite next_peek.
  - change (peek (38 :: ?x) [38]) with (true, 38 :: x). cbv iota beta.
    change (gettoken (38 :: ?x)) with (38, (38 :: x, x), skip_ws x). cbv iota beta.
    rewrite parseback_skip, IH by lia. by rewrite Nat.iter_succ_r.
Qed.

Lemma ands_length k t : (k < S (length (skip_ws (replicate k 38%Z ++ t))))%nat.
Proof.
  destruct k as [|k]; [lia|]. change (skip_ws (replicate (S k) 38 ++ t)) with (replicate (S k) 38 ++ t).
  rewrite length_app, length_replicate. lia.
Qed.

(** Background commands. *)
Lemma parse_print1 c k t n :
  typable c -> lines_ok (inner 1 c) -> ends t -> next_ne 124 t -> next_ne 38 t -> (need 1 c <= n)%nat ->
  exists c', andthen (parsepipe n (print 1 c ++ replicate k 38 ++ t)) (fun c s => parseback (S (length s)) c s) =
    Parsed (Nat.iter k BACK c') (skip_ws t) /\ texts c' = c.
Proof.
  revert k n. induction c as [argv|c IH f m d|l IHl r IHr|l IHl r IHr|c IH]; intros k n Hc Hl He Hx Hy Hn.
  5: {
    change (print 1 (BACK c)) with (print 1 c ++ [38]). rewrite <- app_assoc. change ([38] ++ ?x) with (38 :: x).
    change (38 :: replicate k 38 ++ t) with (replicate (S k) 38 ++ t).
    unfold inner, need in Hl, Hn. cbn [level height Nat.leb Nat.eqb pred] in Hl, Hn.
    destruct (IH (S k) n Hc) as (c' & -> & Hc'); [|done..| |].
    { intros c0 Hc0 Hh0. apply Hl; [done|]. unfold inner in Hh0. destruct (1 <=? level c)%nat; lia. }
    { unfold need. simpl. destruct (1 <=? level c)%nat; lia. }
    exists (BACK c'). cbn [texts]. rewrite Hc'. split; [|done]. by rewrite Nat.iter_succ_r. }
  all: match goal with |- context [print 1 ?c] => change (print 1 c) with (print 2 c) end.
  all: assert (ends (replicate k 38 ++ t) /\ next_ne 124 (replicate k 38 ++ t)) as [He' Hx']
    by (destruct k; [done|split; [apply ends_cons; unfold ender; auto|done]]).
  all: match goal with |- context [print 2 ?c] => destruct (parse_print2 c (replicate k 38 ++ t) n Hc Hl He' Hx' Hn) as (c' & -> & Hc') end.
  all: cbn [andthen]; exists c'; split; [|done]; rewrite parseback_skip; apply parse_ands; [done..|apply ands_length].
Qed.

(** Whole lines. *)
Lemma parse_line c : typable c -> lines_ok (pred (height c)) -> line_ok c.
Proof.
  intros Hc Hl t n Ht Hn. pose proof (height_pos c) as Hp. destruct n as [|n]; [lia|]. cbn [parseline].
  assert (forall r : parsed (cmd str), forall (f : cmd str -> list Z -> parsed (cmd str)) c' s,
    andthen r (fun c s => parseback (S (length s)) c s) = Parsed c' s ->
    andthen r (fun c s => andthen (parseback (S (length s)) c s) f) = f c' s) as Hand.
  { intros [a s0|e|s0 e|] f c' s; cbn [andthen]; [|done..]. by intros ->. }
  destruct (decide (level c = 0%nat)) as [E0|E0].
  - destruct c as [argv|c f m d|l r|l r|c]; try discriminate E0. cbn [height] in *. destruct Hc as [Hcl Hcr].
    change (body (LIST l r)) with (print 1 l ++ 59 :: body r). rewrite <- app_assoc. cbn [app].
    destruct (parse_print1 l 0 (59 :: body r ++ t) n Hcl) as (l' & E & Hl').
    { intros c0 Hc0 Hh0. apply Hl; [done|]. unfold inner in Hh0. destruct (1 <=? level l)%nat; lia. }
    { apply ends_cons. unfold ender. auto. } 1,2: done. { unfold need. simpl. destruct (1 <=? level l)%nat; lia. }
    cbn [replicate app Nat.iter nat_rect] in E. erewrite Hand by exact E.
    rewrite peek_skip, peek_ends by (apply ends_cons; unfold ender; auto).
    change (skip_ws (59 :: ?x)) with (59 :: x). cbn [existsb Z.eqb orb].
    rewrite gettoken_ender, parseline_skip by (unfold ender; auto).
    destruct (Hl r Hcr ltac:(lia) t n Ht ltac:(lia)) as (r' & -> & Hr'). cbn [andthen].
    eexists. split; [reflexivity|]. cbn [texts]. by rewrite Hl', Hr'.
  - assert (body c = print 1 c) as -> by (destruct c; done).
    assert (inner 1 c = pred (height c) /\ need 1 c <= n)%nat as [Ei Hneed].
    { unfold inner, need. rewrite (proj2 (Nat.leb_le 1 (level c))) by lia. simpl. lia. }
    rewrite <- Ei in Hl.
    destruct (parse_print1 c 0 t n Hc Hl (closes_ends t Ht)) as (c' & E & Hc').
    1,2: by apply closes_next. { done. }
    cbn [replicate app Nat.iter nat_rect] in E. erewrite Hand by exact E.
    rewrite peek_skip, next_peek; [eauto|by apply closes_ends|by apply closes_next].
Qed.

Lemma all_lines_ok n : lines_ok n.
Proof.
  induction n as [n IH] using lt_wf_ind. intros c Hc Hh. pose proof (height_pos c) as Hp.
  apply parse_line; [done|]. destruct (Nat.eq_dec (pred (height c)) n); [lia|]. apply IH. lia.
Qed.

(** ** What the parser returns *)

(** A word of the line, up to a character that ends it. *)
Definition token (q : str) : Prop :=
  exists w, q.1 = w ++ q.2 /\ word w /\ match q.2 with [] => True | c :: _ => is_ws c = true \/ is_sym c = true end.
Definition token_in (s : list Z) (q : str) : Prop := q.1 `suffix_of` s /\ token q.

(** [P] holds of every string, and redirections are of descriptors 0 and 1. *)
Fixpoint each {W} (P : W -> Prop) (c : cmd W) : Prop :=
  match c with
  | EXEC argv => Forall P argv
  | REDIR c file _ fd => each P c /\ P file /\ (fd = 0 \/ fd = 1)
  | PIPE l r | LIST l r => each P l /\ each P r
  | BACK c => each P c
  end.

(** A result with [P] and a rest of [s], or a syntax error; the fuel is enough. *)
Definition parses {A} (s : list Z) (P : A -> Prop) (r : parsed A) : Prop :=
  match r with Parsed a s' => s' `suffix_of` s /\ P a | Syntax _ => True | Leftovers _ _ | NoFuel => False end.

Lemma each_impl {W} (P Q : W -> Prop) c : (forall q, P q -> Q q) -> each P c -> each Q c.
Proof.
  intros H. induction c; cbn; [|intros (? & ? & ?)|intros [? ?]..|]; auto. intros Ha. by eapply Forall_impl.
Qed.

Definition redir_in {W} (P : W -> Prop) (r : redir W) : Prop := P r.1.1 /\ (r.2 = 0 \/ r.2 = 1).

Lemma each_redirs {W} (P : W -> Prop) (c : cmd W) (rs : list (redir W)) :
  each P c -> Forall (redir_in P) rs -> each P (redirs c rs).
Proof. intros Hc Hrs. revert c Hc. induction Hrs as [|[[f m] d] rs Hr Hrs IH]; intros c Hc; [done|]. by apply IH. Qed.

Lemma token_in_mono s s' q : token_in s' q -> s' `suffix_of` s -> token_in s q.
Proof. intros [Hs Ht] H. split; [by etrans|done]. Qed.

Lemma redir_in_mono s s' rs : Forall (redir_in (token_in s')) rs -> s' `suffix_of` s -> Forall (redir_in (token_in s)) rs.
Proof. intros H Hs. eapply Forall_impl; [exact H|]. intros r [Hr Hd]. split; [exact (token_in_mono _ _ _ Hr Hs)|done]. Qed.

Lemma parses_andthen {A B} s s' (P : A -> Prop) (Q : B -> Prop) r f :
  parses s' P r -> s' `suffix_of` s ->
  (forall a s1, s1 `suffix_of` s' -> P a -> parses s Q (f a s1)) -> parses s Q (andthen r f).
Proof. intros Hr Hs Hf. destruct r as [a s1| | |]; [|done..]. destruct Hr as [Hs1 Ha]. by apply Hf. Qed.

Lemma skip_ws_suffix s : skip_ws s `suffix_of` s.
Proof. induction s as [|c s IH]; [done|]. cbn. destruct (is_ws c); [by apply suffix_cons_r|done]. Qed.

Lemma skip_ws_head c s t : skip_ws s = c :: t -> is_ws c = false.
Proof. induction s as [|x s IH]; [done|]. cbn. destruct (is_ws x) eqn:E; [done|]. by intros [= <- _]. Qed.

(** No zero among the characters: the contents of a C string. *)
Definition nonzero (s : list Z) : Prop := Forall (fun c => c <> 0) s.

Lemma skip_word_spec s : nonzero s ->
  exists w, s = w ++ skip_word s /\ Forall word_char w /\
    match skip_word s with [] => True | c :: _ => is_ws c = true \/ is_sym c = true end.
Proof.
  induction 1 as [|c s Hc Hs IH]; [by exists []|]. cbn [skip_word]. destruct (is_ws c) eqn:E1; cbn [negb andb].
  - exists []. auto.
  - destruct (is_sym c) eqn:E2; cbn [negb]; [exists []; auto|]. destruct IH as (w & E & Hw & Hn). exists (c :: w).
    split; [cbn; by rewrite <- E|]. split; [|done]. by constructor.
Qed.

Lemma suffix_nonzero (s s' : list Z) : s' `suffix_of` s -> nonzero s -> nonzero s'.
Proof. intros [k ->] [_ H]%Forall_app. done. Qed.

Lemma suffix_len {A} (s s' : list A) : s' `suffix_of` s -> (length s' <= length s)%nat.
Proof. apply suffix_length. Qed.

Lemma gettoken_spec s tok q s' : nonzero s -> gettoken s = (tok, q, s') ->
  s' `suffix_of` s /\ (tok = tok_word -> token_in s q) /\ (tok = 0 \/ (length s' < length s)%nat) /\
  (tok = 0 -> s' = []).
Proof.
  intros Hz E. unfold gettoken in E. pose proof (skip_ws_suffix s) as Hs. pose proof (suffix_nonzero _ _ Hs Hz) as Hz'.
  destruct (skip_ws s) as [|c t] eqn:Ew; [injection E as <- <- <-; split_and!; [done|done|by left|done]|].
  apply Forall_cons in Hz' as [Hc Ht]. rewrite (eqb_ne c 0) in E by done.
  assert (forall u, u `suffix_of` t -> skip_ws u `suffix_of` s /\ (length (skip_ws u) < length s)%nat) as Hsk.
  { intros u Hu. pose proof (skip_ws_suffix u) as H1. split; [etrans; [done|]; etrans; [done|]; etrans; [|done]; by apply suffix_cons_r|].
    apply suffix_len in H1, Hu, Hs. cbn in Hs. lia. }
  destruct (existsb (Z.eqb c) [124; 40; 41; 59; 38; 60]) eqn:Ee.
  { injection E as <- <- <-. destruct (Hsk t) as [? ?]; [done|]. split_and!; [done| |by right|done]. by intros ->. }
  destruct (c =? 62) eqn:E62.
  { apply Z.eqb_eq in E62 as ->.
    assert (exists u, u `suffix_of` t /\ (tok = 62 \/ tok = 43) /\ s' = skip_ws u) as (u & Hu & Htok & ->).
    { destruct t as [|x t]; [injection E as <- <- <-; exists []; auto|].
      destruct (decide (x = 62)) as [->|Hx]; [injection E as <- <- <-; exists t; split_and!; [by apply suffix_cons_r|by right|done]|].
      exists (x :: t). assert (E' : (62, (62 :: x :: t, x :: t), skip_ws (x :: t)) = (tok, q, s')).
      { rewrite <- E. destruct x as [|p|p]; try done. do 6 (destruct p as [p|p|]; try done). }
      injection E' as <- <- <-. auto. }
    destruct (Hsk u Hu) as [? ?]. split_and!; [done|by intros ->; destruct Htok|by right|intros ->; by destruct Htok]. }
  injection E as <- <- <-.
  assert (word_char c) as Hwc.
  { split_and!; [done|by eapply skip_ws_head|]. unfold is_sym, strchr. rewrite eqb_ne by done. cbn [negb andb symbols].
    unfold symbols. cbn [existsb] in Ee |- *. rewrite !orb_false_iff in *. tauto. }
  destruct (skip_word_spec t Ht) as (w & Et & Hw & Hn).
  assert (skip_word (c :: t) = skip_word t) as Esk by (cbn; by destruct Hwc as (_ & -> & ->)).
  cbn [skip_word] in Esk |- *. rewrite Esk. destruct (Hsk (skip_word t)) as [? ?]; [by exists w|].
  split_and!; [done| |by right|done]. intros _. split; [done|]. exists (c :: w).
  split; [cbn; by rewrite <- Et|]. split; [|exact Hn]. split; [done|by constructor].
Qed.

(** One token behind a [peek] that succeeds. *)
Lemma peek_gettoken s toks s1 tok q s2 : nonzero s -> peek s toks = (true, s1) -> gettoken s1 = (tok, q, s2) ->
  s1 `suffix_of` s /\ s2 `suffix_of` s /\ (length s2 < length s)%nat.
Proof.
  intros Hz Hp Hg. unfold peek in Hp. injection Hp as Hb <-. pose proof (skip_ws_suffix s) as Hs.
  destruct (gettoken_spec _ _ _ _ (suffix_nonzero _ _ Hs Hz) Hg) as (H2 & _ & Hl & H0).
  split; [done|]. split; [by etrans|]. destruct (skip_ws s) as [|c t] eqn:E; [done|].
  apply suffix_len in Hs. destruct Hl as [->|Hl]; [|lia]. rewrite H0 by done. simpl in *. lia.
Qed.

Lemma peek_suffix s toks b s1 : peek s toks = (b, s1) -> s1 `suffix_of` s.
Proof. intros [= _ <-]. apply skip_ws_suffix. Qed.

Lemma parseredirs_parses fuel s : nonzero s -> (length s < fuel)%nat ->
  parses s (Forall (redir_in (token_in s))) (parseredirs fuel s).
Proof.
  revert s. induction fuel as [|fuel IH]; intros s Hz Hf; [lia|]. cbn [parseredirs].
  destruct (peek s [60; 62]) as [b s1] eqn:Ep. pose proof (peek_suffix _ _ _ _ Ep) as Hs1.
  destruct b; [|by split].
  destruct (gettoken s1) as [[tok q1] s2] eqn:Eg. destruct (peek_gettoken _ _ _ _ _ _ Hz Ep Eg) as (_ & Hs2 & Hl2).
  destruct (gettoken s2) as [[tok2 q] s3] eqn:Eg2.
  destruct (gettoken_spec _ _ _ _ (suffix_nonzero _ _ Hs2 Hz) Eg2) as (Hs3 & Hq & _ & _).
  destruct (Z.eqb_spec tok2 tok_word) as [Et|_]; cbn [negb]; [|done].
  assert (s3 `suffix_of` s) as Hs3' by (by etrans).
  apply (parses_andthen s s3 (Forall (redir_in (token_in s3)))).
  - apply IH; [by eapply suffix_nonzero|]. apply suffix_len in Hs3. lia.
  - done.
  - intros rs s4 Hs4 Hrs. split; [by etrans|]. constructor.
    + destruct (tok =? 60); (split; [|cbn; auto]); (apply (token_in_mono s s2); [by apply Hq|done]).
    + exact (redir_in_mono _ _ _ Hrs Hs3').
Qed.

Lemma parseargs_parses fuel argc s : nonzero s -> (length s < fuel)%nat ->
  parses s (fun r => Forall (token_in s) r.1 /\ Forall (redir_in (token_in s)) r.2) (parseargs fuel argc s).
Proof.
  revert argc s. induction fuel as [|fuel IH]; intros argc s Hz Hf; [lia|]. cbn [parseargs].
  destruct (peek s [124; 41; 38; 59]) as [b s1] eqn:Ep. pose proof (peek_suffix _ _ _ _ Ep) as Hs1.
  destruct b; [by split; [|split]|]. pose proof (suffix_nonzero _ _ Hs1 Hz) as Hz1.
  destruct (gettoken s1) as [[tok q] s2] eqn:Eg. destruct (gettoken_spec _ _ _ _ Hz1 Eg) as (Hs2 & Hq & Hl & _).
  assert (s2 `suffix_of` s) as Hs2' by (by etrans).
  destruct (Z.eqb_spec tok 0) as [_|H0]; [by split; [|split]|].
  destruct (Z.eqb_spec tok tok_word) as [Et|_]; cbn [negb]; [|done].
  destruct (MAXARGS <=? S argc)%nat; [done|]. pose proof (suffix_nonzero _ _ Hs2' Hz) as Hz2.
  eapply parses_andthen; [apply parseredirs_parses; [done|lia]|done|]. intros rs s3 Hs3 Hrs.
  eapply (parses_andthen _ s3); [apply IH; [by eapply suffix_nonzero|]|by etrans|].
  { apply suffix_len in Hs3, Hs2, Hs1. destruct Hl as [?|?]; [done|lia]. }
  intros [args rs'] s4 Hs4 [Ha Hr]. assert (s3 `suffix_of` s) as Hs3' by (by etrans).
  split; [by etrans|]. cbn [fst snd] in *. split.
  - constructor; [apply (token_in_mono s s1); [by apply Hq|done]|]. eapply Forall_impl; [exact Ha|]. intros r Hx. exact (token_in_mono _ _ _ Hx Hs3').
  - apply Forall_app. split; [exact (redir_in_mono _ _ _ Hrs Hs2')|exact (redir_in_mono _ _ _ Hr Hs3')].
Qed.

Lemma parseback_parses fuel c s0 s : nonzero s -> (length s < fuel)%nat -> each (token_in s0) c ->
  parses s (each (token_in s0)) (parseback fuel c s).
Proof.
  revert c s. induction fuel as [|fuel IH]; intros c s Hz Hf Hc; [lia|]. cbn [parseback].
  destruct (peek s [38]) as [b s1] eqn:Ep. pose proof (peek_suffix _ _ _ _ Ep) as Hs1. destruct b; [|done].
  destruct (gettoken s1) as [[tok q] s2] eqn:Eg. destruct (peek_gettoken _ _ _ _ _ _ Hz Ep Eg) as (_ & Hs2 & Hl2).
  assert (parses s2 (each (token_in s0)) (parseback fuel (BACK c) s2)) as H.
  { apply IH; [by eapply suffix_nonzero|lia|done]. }
  destruct (parseback fuel (BACK c) s2); [|done..]. destruct H. split; [by etrans|done].
Qed.

Definition cmd_parses (s : list Z) (r : parsed (cmd str)) : Prop := parses s (each (token_in s)) r.

Lemma cmd_mono s s' c : s' `suffix_of` s -> each (token_in s') c -> each (token_in s) c.
Proof. intros Hs. apply each_impl. intros q Hq. by eapply token_in_mono. Qed.

(** Parsing of [s'] inside the parsing of [s]. *)
Lemma cmd_andthen s s' r f :
  cmd_parses s' r -> s' `suffix_of` s ->
  (forall c s1, s1 `suffix_of` s' -> s1 `suffix_of` s -> each (token_in s) c -> cmd_parses s (f c s1)) -> cmd_parses s (andthen r f).
Proof.
  intros Hr Hs Hf. eapply parses_andthen; [exact Hr|done|]. intros c s1 Hs1 Hc. apply Hf; [done|by etrans|by eapply cmd_mono].
Qed.

(** The four functions of the grammar, with the fuel that each needs. *)
Lemma parser_parses n :
  (forall s, nonzero s -> (5 * length s + 4 <= n)%nat -> cmd_parses s (parseline n s)) /\
  (forall s, nonzero s -> (5 * length s + 3 <= n)%nat -> cmd_parses s (parsepipe n s)) /\
  (forall s, nonzero s -> (5 * length s + 2 <= n)%nat -> cmd_parses s (parseexec n s)) /\
  (forall s, nonzero s -> (5 * length s + 1 <= n)%nat -> cmd_parses s (parseblock n s)).
Proof.
  induction n as [|n (IHl & IHp & IHe & IHb)]; [split_and!; intros; lia|]. split_and!; intros s Hz Hn.
  - cbn [parseline]. apply (cmd_andthen s s); [apply IHp; [done|lia]|done|]. intros c s1 _ Hs1 Hc.
    pose proof (suffix_nonzero _ _ Hs1 Hz) as Hz1.
    eapply parses_andthen; [apply (parseback_parses _ _ s); [done|lia|done]|done|]. intros c' s2 Hs2' Hc'.
    assert (s2 `suffix_of` s) as Hs2 by (by etrans). pose proof (suffix_nonzero _ _ Hs2 Hz) as Hz2.
    destruct (peek s2 [59]) as [b s3] eqn:Ep. destruct b; [|split; [etrans; [by eapply peek_suffix|done]|done]].
    destruct (gettoken s3) as [[tok q] s4] eqn:Eg. destruct (peek_gettoken _ _ _ _ _ _ Hz2 Ep Eg) as (_ & Hs4 & Hl4).
    assert (s4 `suffix_of` s) as Hs4' by (by etrans). apply suffix_len in Hs2.
    apply (cmd_andthen s s4); [apply IHl; [by eapply suffix_nonzero|lia]|done|]. by intros r s5 _ Hs5 Hr.
  - cbn [parsepipe]. apply (cmd_andthen s s); [apply IHe; [done|lia]|done|]. intros c s1 _ Hs1 Hc.
    pose proof (suffix_nonzero _ _ Hs1 Hz) as Hz1.
    destruct (peek s1 [124]) as [b s3] eqn:Ep. destruct b; [|split; [etrans; [by eapply peek_suffix|done]|done]].
    destruct (gettoken s3) as [[tok q] s4] eqn:Eg. destruct (peek_gettoken _ _ _ _ _ _ Hz1 Ep Eg) as (_ & Hs4 & Hl4).
    assert (s4 `suffix_of` s) as Hs4' by (by etrans). apply suffix_len in Hs1.
    apply (cmd_andthen s s4); [apply IHp; [by eapply suffix_nonzero|lia]|done|]. by intros r s5 _ Hs5 Hr.
  - cbn [parseexec]. destruct (peek s [40]) as [b s1] eqn:Ep. pose proof (peek_suffix _ _ _ _ Ep) as Hs1.
    pose proof (suffix_nonzero _ _ Hs1 Hz) as Hz1. pose proof (suffix_len _ _ Hs1) as Hl1. destruct b.
    + assert (cmd_parses s1 (parseblock n s1)) as H by (apply IHb; [done|lia]).
      destruct (parseblock n s1); [|done..]. destruct H. split; [by etrans|by eapply cmd_mono].
    + eapply parses_andthen; [apply parseredirs_parses; [done|lia]|done|]. intros rs s2 Hs2 Hrs.
      assert (s2 `suffix_of` s) as Hs2' by (by etrans). pose proof (suffix_nonzero _ _ Hs2' Hz) as Hz2.
      eapply (parses_andthen _ s2); [apply parseargs_parses; [done|lia]|done|]. intros [args rs'] s3 Hs3 [Ha Hr].
      cbn [fst snd] in *. split; [by etrans|]. apply each_redirs; [|apply Forall_app; split].
      * eapply Forall_impl; [exact Ha|]. intros r Hx. exact (token_in_mono _ _ _ Hx Hs2').
      * exact (redir_in_mono _ _ _ Hrs Hs1).
      * exact (redir_in_mono _ _ _ Hr Hs2').
  - cbn [parseblock]. destruct (peek s [40]) as [b s1] eqn:Ep. destruct b; [|done]. cbn [negb].
    destruct (gettoken s1) as [[tok q] s2] eqn:Eg. destruct (peek_gettoken _ _ _ _ _ _ Hz Ep Eg) as (_ & Hs2 & Hl2).
    apply (cmd_andthen s s2); [apply IHl; [by eapply suffix_nonzero|lia]|done|]. intros c s3 _ Hs3 Hc.
    pose proof (suffix_nonzero _ _ Hs3 Hz) as Hz3.
    destruct (peek s3 [41]) as [b s4] eqn:Ep4. destruct b; [|done]. cbn [negb].
    destruct (gettoken s4) as [[tok5 q5] s5] eqn:Eg5. destruct (peek_gettoken _ _ _ _ _ _ Hz3 Ep4 Eg5) as (_ & Hs5 & Hl5).
    assert (s5 `suffix_of` s) as Hs5' by (by etrans).
    eapply (parses_andthen _ s5); [apply parseredirs_parses; [by eapply suffix_nonzero|lia]|done|].
    intros rs s6 Hs6 Hrs. split; [by etrans|]. apply each_redirs; [done|].
    exact (redir_in_mono _ _ _ Hrs Hs5').
Qed.

Lemma parseline_parses n s : nonzero s -> (5 * length s + 4 <= n)%nat -> cmd_parses s (parseline n s).
Proof. apply parser_parses. Qed.

(** The C string at an index of a buffer. *)
Fixpoint cstring (l : list Z) : list Z :=
  match l with [] => [] | c :: t => if c =? 0 then [] else c :: cstring t end.
(** The command with the C strings of the buffer that its pointers point to:
    what the shell passes to exec and open. *)
Definition string_at (n : nat) (buf : list Z) (q : str) : list Z := cstring (drop (n - length q.1) buf).
Fixpoint strings (n : nat) (buf : list Z) (c : cmd str) : cmd (list Z) :=
  match c with
  | EXEC argv => EXEC (string_at n buf <$> argv)
  | REDIR c file mode fd => REDIR (strings n buf c) (string_at n buf file) mode fd
  | PIPE l r => PIPE (strings n buf l) (strings n buf r)
  | LIST l r => LIST (strings n buf l) (strings n buf r)
  | BACK c => BACK (strings n buf c)
  end.

(** Zeros of [buf] against the line [s]: only at ends of words, or at the end of the line. *)
Definition zeroed (s buf : list Z) : Prop :=
  length buf = S (length s) /\ buf !! length s = Some 0 /\
  forall i c, s !! i = Some c -> buf !! i = Some c \/ buf !! i = Some 0 /\ (is_ws c = true \/ is_sym c = true).
(** Every string of [c] has its zero. *)
Definition terminated (n : nat) (buf : list Z) (q : str) : Prop := buf !! (n - length q.2)%nat = Some 0.

Lemma zeroed_line s : zeroed s (s ++ [0]).
Proof.
  split; [rewrite length_app; cbn; lia|]. split; [by rewrite lookup_app_r, Nat.sub_diag by lia|].
  intros i c Hc. left. by apply lookup_app_l_Some.
Qed.

Lemma nul_at_index s q : token_in s q ->
  (length s - length q.2 < length s)%nat /\ (exists c, s !! (length s - length q.2)%nat = Some c /\ (is_ws c = true \/ is_sym c = true)) \/
  (length s - length q.2 = length s)%nat.
Proof.
  intros [[k Hk] (w & Hw & _ & Hn)]. destruct (q.2) as [|c t]; [right; cbn; lia|left].
  assert (length s - length (c :: t) = length (k ++ w))%nat as ->.
  { rewrite Hk, Hw, !length_app. lia. }
  rewrite Hk, Hw, app_assoc. split; [rewrite (length_app (k ++ w)); cbn; lia|].
  exists c. split; [by rewrite lookup_app_r, Nat.sub_diag by lia|done].
Qed.

(** One zero more. *)
Lemma nul_at_zeroed s buf q : zeroed s buf -> token_in s q ->
  zeroed s (nul_at (length s) buf q) /\ terminated (length s) (nul_at (length s) buf q) q /\
  forall i, buf !! i = Some 0 -> nul_at (length s) buf q !! i = Some 0.
Proof.
  intros (Hl & Hz & Hi) Hq. unfold terminated, nul_at. set (j := (length s - length q.2)%nat).
  assert (forall i, buf !! i = Some 0 -> <[j := 0]> buf !! i = Some 0) as Hm.
  { intros i Hi0. destruct (decide (i = j)) as [->|]; [|by rewrite list_lookup_insert_ne].
    apply list_lookup_insert_eq. by apply lookup_lt_Some in Hi0. }
  split; [|split; [apply list_lookup_insert_eq; lia|done]].
  split; [by rewrite length_insert|]. split; [by apply Hm|].
  intros i c Hc. destruct (decide (i = j)) as [->|Hne]; [|rewrite list_lookup_insert_ne by done; by apply Hi].
  right. split; [apply list_lookup_insert_eq; apply lookup_lt_Some in Hc; lia|].
  destruct (nul_at_index s q Hq) as [(_ & c' & Hc' & Hd)|Hj].
  - fold j in Hc'. by simplify_eq.
  - apply lookup_lt_Some in Hc. lia.
Qed.

Lemma nul_all_zeroed s buf qs : zeroed s buf -> Forall (token_in s) qs ->
  let buf' := fold_left (nul_at (length s)) qs buf in
  zeroed s buf' /\ Forall (terminated (length s) buf') qs /\ forall i, buf !! i = Some 0 -> buf' !! i = Some 0.
Proof.
  intros Hb Hqs. revert buf Hb. induction Hqs as [|q qs Hq Hqs IH]; intros buf Hb buf'; [done|].
  destruct (nul_at_zeroed s buf q Hb Hq) as (Hz1 & Ht1 & Hm1). destruct (IH _ Hz1) as (Hz & Ht & Hm).
  split; [done|]. split; [|intros i Hi; by apply Hm, Hm1]. constructor; [by apply Hm|done].
Qed.

Lemma nulterminate_zeroed s buf c : zeroed s buf -> each (token_in s) c ->
  let buf' := nulterminate (length s) buf c in
  zeroed s buf' /\ each (terminated (length s) buf') c /\ forall i, buf !! i = Some 0 -> buf' !! i = Some 0.
Proof.
  assert (forall (b b' : list Z) c, (forall i, b !! i = Some 0 -> b' !! i = Some 0) ->
    each (terminated (length s) b) c -> each (terminated (length s) b') c) as Hmono.
  { intros b b' c' H. apply each_impl. intros q. apply H. }
  revert buf. induction c as [argv|c IH f m d|l IHl r IHr|l IHl r IHr|c IH]; intros buf Hb Hc; cbn [nulterminate each] in *.
  - by apply nul_all_zeroed.
  - destruct Hc as (Hc & Hf & Hd). destruct (IH buf Hb Hc) as (Hz & Ht & Hm).
    destruct (nul_at_zeroed s _ f Hz Hf) as (Hz1 & Ht1 & Hm1). split; [done|]. split; [|auto]. split; [by eapply Hmono|done].
  - destruct Hc as [Hl Hr]. destruct (IHl buf Hb Hl) as (Hz & Ht & Hm). destruct (IHr _ Hz Hr) as (Hz1 & Ht1 & Hm1).
    split; [done|]. split; [|auto]. split; [by eapply Hmono|done].
  - destruct Hc as [Hl Hr]. destruct (IHl buf Hb Hl) as (Hz & Ht & Hm). destruct (IHr _ Hz Hr) as (Hz1 & Ht1 & Hm1).
    split; [done|]. split; [|auto]. split; [by eapply Hmono|done].
  - by apply IH.
Qed.

Lemma cstring_prefix w l : (forall j c, w !! j = Some c -> l !! j = Some c /\ c <> 0) -> l !! length w = Some 0 -> cstring l = w.
Proof.
  revert l. induction w as [|c w IH]; intros l H H0; destruct l as [|x l]; try discriminate H0.
  - cbn in H0. injection H0 as ->. done.
  - destruct (H 0%nat c eq_refl) as [[= ->] Hc]. cbn. rewrite eqb_ne by done. f_equal. apply IH; [|exact H0].
    intros j c' Hj. exact (H (S j) c' Hj).
Qed.

Lemma string_at_text s buf q : zeroed s buf -> token_in s q -> terminated (length s) buf q ->
  string_at (length s) buf q = text q.
Proof.
  intros (Hl & Hz & Hi) [[k Hk] (w & Hw & [_ Hwc] & _)] Ht. unfold string_at, text, terminated in *.
  assert (length q.1 = length w + length q.2)%nat as El by (by rewrite Hw, length_app).
  assert (length s = length k + length q.1)%nat as Es by (by rewrite Hk, length_app).
  replace (length q.1 - length q.2)%nat with (length w) by lia. rewrite Hw at 2. rewrite take_app_length.
  apply cstring_prefix.
  - intros j c Hj. rewrite lookup_drop. rewrite Forall_forall in Hwc.
    destruct (Hwc c) as (H0 & Hnw & Hns); [by eapply list_elem_of_lookup_2|]. split; [|done].
    destruct (Hi (length s - length q.1 + j)%nat c) as [?|[_ [Hx|Hx]]]; [|done|congruence..].
    replace (length s - length q.1)%nat with (length k) by lia. rewrite Hk, Hw, lookup_app_r by lia.
    replace (length k + j - length k)%nat with j by lia. by apply lookup_app_l_Some.
  - rewrite lookup_drop. by replace (length s - length q.1 + length w)%nat with (length s - length q.2)%nat by lia.
Qed.

Lemma strings_texts s buf c : zeroed s buf -> each (token_in s) c -> each (terminated (length s) buf) c ->
  strings (length s) buf c = texts c.
Proof.
  intros Hb. induction c as [argv|c IH f m d|l IHl r IHr|l IHl r IHr|c IH]; cbn [each strings texts]; intros Hc Ht.
  - f_equal. apply list_fmap_ext. intros i q Hq. rewrite Forall_lookup in Hc, Ht. apply string_at_text; eauto.
  - destruct Hc as (? & ? & _), Ht as (? & ? & _). by rewrite IH, string_at_text.
  - destruct Hc, Ht. by rewrite IHl, IHr.
  - destruct Hc, Ht. by rewrite IHl, IHr.
  - by rewrite IH.
Qed.

(** The characters of printed text. *)
Lemma body_chars (P : Z -> Prop) c :
  (forall x, word_char x -> P x) -> P 32 -> Forall P symbols -> typable c -> Forall P (body c).
Proof.
  intros Hwc H32 Hsym. rewrite Forall_forall in Hsym.
  assert (forall x, x ∈ symbols -> P x) as Hs by auto. clear Hsym.
  assert (forall w, word w -> Forall P w) as Hw.
  { intros w [_ H]. eapply Forall_impl; [exact H|done]. }
  assert (forall k c', Forall P (body c') -> Forall P (parens k c' (body c'))) as Hp.
  { intros k c' H. unfold parens. destruct (k <=? level c')%nat; [done|].
    constructor; [apply Hs; set_solver|]. apply Forall_app. split; [done|]. constructor; [apply Hs; set_solver|done]. }
  induction c as [argv|c IH f m d|l IHl r IHr|l IHl r IHr|c IH]; cbn [typable body]; intros Hc.
  - destruct Hc as [Ha _]. induction Ha as [|w argv Hw' Ha IH]; [constructor|]. rewrite fmap_cons. cbn [concat].
    apply Forall_app. split; [|done]. apply Forall_app. split; [by apply Hw|by constructor].
  - destruct Hc as (Hc & Hf & _). apply Forall_app. split; [by apply Hp, IH|]. unfold print_redir.
    constructor; [destruct (d =? 0); apply Hs; set_solver|]. apply Forall_app. split; [by apply Hw|by constructor].
  - destruct Hc as [Hl Hr]. apply Forall_app. split; [by apply Hp, IHl|]. constructor; [apply Hs; set_solver|by apply Hp, IHr].
  - destruct Hc as [Hl Hr]. apply Forall_app. split; [by apply Hp, IHl|]. constructor; [apply Hs; set_solver|by apply IHr].
  - apply Forall_app. split; [by apply Hp, IH|]. constructor; [apply Hs; set_solver|done].
Qed.

Lemma body_nonzero c : typable c -> nonzero (body c).
Proof. apply body_chars; [by intros x [? _]|done|by repeat constructor]. Qed.

Lemma height_body c : (height c <= S (length (body c)))%nat.
Proof.
  assert (forall k c', length (body c') <= length (parens k c' (body c')))%nat as Hp.
  { intros k c'. unfold parens. destruct (k <=? level c')%nat; [done|]. simpl. rewrite length_app. lia. }
  induction c as [argv|c IH f m d|l IHl r IHr|l IHl r IHr|c IH]; cbn [height body]; rewrite ?length_app; cbn [length]; [lia|..].
  - specialize (Hp 3%nat c). unfold print_redir. simpl. lia.
  - pose proof (Hp 3%nat l). specialize (Hp 2%nat r). lia.
  - specialize (Hp 1%nat l). lia.
  - specialize (Hp 1%nat c). lia.
Qed.

(** What parsecmd returns for the line [s]. *)
Definition parsecmd_post (s : list Z) (r : parsed (cmd str)) : Prop :=
  match r with
  | Parsed c buf => each (token_in s) c /\ strings (length s) buf c = texts c
  | Syntax _ => True
  | Leftovers r msg => r <> [] /\ msg = "syntax"%string
  | NoFuel => False
  end.

Lemma parsecmd_spec s : nonzero s -> parsecmd_post s (parsecmd s).
Proof.
  intros Hz. unfold parsecmd. pose proof (parseline_parses (5 * length s + 5) s Hz ltac:(lia)) as H.
  destruct (parseline (5 * length s + 5) s) as [c r| | |]; [|done..]. destruct H as [_ Hc]. cbn [andthen].
  destruct (peek r []) as [b r']. destruct r'; [|by split]. split; [done|].
  destruct (nulterminate_zeroed s (s ++ [0]) c (zeroed_line s) Hc) as (Hb & Ht & _). by apply strings_texts.
Qed.

(** C37. The parser terminates on every line.  parsecmd either reports a syntax
    error or returns a command all of whose strings are words of the line, and
    after nulterminate the C string at each of its pointers is that word. *)
Theorem parsecmd_total (s : list Z) (Hs : nonzero s) :
  (exists msg, parsecmd s = Syntax msg) \/ (exists r, r <> [] /\ parsecmd s = Leftovers r "syntax") \/
  (exists c buf, parsecmd s = Parsed c buf /\ each (token_in s) c /\ strings (length s) buf c = texts c).
Proof.
  pose proof (parsecmd_spec s Hs) as H. destruct (parsecmd s) as [c buf|msg|r msg|]; [right; right|left|right; left|done]; [eauto..|].
  destruct H as [Hr ->]. eauto.
Qed.

(** [ls>a;(wc)] and [a b>] *)
Definition sample_line : list Z := [108; 115; 62; 97; 59; 40; 119; 99; 41].
Definition sample_bad : list Z := [97; 32; 98; 62].

Lemma parsecmd_total_witness :
  ((exists msg, parsecmd sample_line = Syntax msg) \/ (exists r, r <> [] /\ parsecmd sample_line = Leftovers r "syntax") \/
   (exists c buf, parsecmd sample_line = Parsed c buf /\ each (token_in sample_line) c /\
      strings (length sample_line) buf c = texts c)) /\
  parsecmd sample_bad = Syntax "missing file for redirection" /\
  (exists c buf, parsecmd sample_line = Parsed c buf /\
     texts c = LIST (REDIR (EXEC [[108; 115]]) [97] (Z.lor O_WRONLY O_CREATE) 1) (EXEC [[119; 99]]) /\
     buf = [108; 115; 0; 97; 0; 40; 119; 99; 0; 0]).
Proof.
  split; [apply (parsecmd_total sample_line); repeat constructor; discriminate|].
  split; [vm_compute; reflexivity|]. eexists _, _. split; [vm_compute; reflexivity|]. split; vm_compute; reflexivity.
Defined.

Definition blank (ws : list Z) : Prop := Forall (fun x => is_ws x = true) ws.

Lemma blank_skip ws : blank ws -> skip_ws ws = [].
Proof. induction 1 as [|x ws Hx Hws IH]; [done|]. cbn. by rewrite Hx. Qed.

Lemma blank_nonzero ws : blank ws -> nonzero ws.
Proof. intros H. eapply Forall_impl; [exact H|]. intros x Hx ->. discriminate Hx. Qed.

Lemma parsecmd_typed c ws : typable c -> blank ws ->
  exists c' buf, parsecmd (print 0 c ++ ws) = Parsed c' buf /\ strings (length (print 0 c ++ ws)) buf c' = c.
Proof.
  intros Hc Hws. change (print 0 c) with (body c).
  assert (nonzero (body c ++ ws)) as Hz by (apply Forall_app; split; [by apply body_nonzero|by apply blank_nonzero]).
  pose proof (parsecmd_spec (body c ++ ws) Hz) as H.
  destruct (all_lines_ok (height c) c Hc (le_n _) ws (5 * length (body c ++ ws) + 5)%nat) as (c' & E & Hc').
  { unfold closes. by rewrite blank_skip. } { pose proof (height_body c). rewrite length_app. lia. }
  unfold parsecmd in *. rewrite E, blank_skip in * by done. cbn [andthen peek skip_ws] in *.
  eexists _, _. split; [reflexivity|]. destruct H as [_ ->]. done.
Qed.

(** C36. Printing and parsing: every command that can be typed, printed with
    parentheses where precedence asks for them and followed by whitespace such as
    the end of the line, is parsed to a command with the same tree, and the C
    strings in the buffer are the words, files and arguments that were printed. *)
Theorem parsecmd_print (c : cmd (list Z)) (ws : list Z) (Hc : typable c) (Hws : blank ws) :
  exists c' buf, parsecmd (print 0 c ++ ws) = Parsed c' buf /\ strings (length (print 0 c ++ ws)) buf c' = c.
Proof. by apply parsecmd_typed. Qed.

(** [(a|b>f ;c)&;d] *)
Definition sample_cmd : cmd (list Z) :=
  LIST (BACK (LIST (PIPE (EXEC [[97]]) (REDIR (EXEC [[98]]) [102] (Z.lor O_WRONLY O_CREATE) 1)) (EXEC [[99]]))) (EXEC [[100]]).

Lemma parsecmd_print_witness :
  typable sample_cmd /\
  exists c' buf, parsecmd (print 0 sample_cmd ++ [10]) = Parsed c' buf /\
    strings (length (print 0 sample_cmd ++ [10])) buf c' = sample_cmd.
Proof.
  assert (H : typable sample_cmd).
  { cbn. repeat split; try (repeat constructor; (discriminate || reflexivity || lia)). }
  split; [exact H|]. refine (parsecmd_print sample_cmd [10] H _). repeat constructor.
Defined.
