(* ===== verification/ShRun.v ===== *)
(** * The shell: running commands (sh.c)

    The shell as a program that makes system calls, and the descriptor tables of
    the processes it starts. *)

From S2P Require Import Prelude Mmu Cprintf Wmap Sh.

(** ** Programs *)

Inductive prog : Type :=
| PExit
| PExec (argv : list (list Z)) (failed : prog)
| PClose (fd : Z) (k : prog)
| PDup (fd : Z) (k : prog)
| POpen (path : list Z) (mode : Z) (k : Z -> prog)
| PPipe (k : option (Z * Z) -> prog)
| PFork (k : Z -> prog)
| PWait (k : prog)
| PRead (fd : Z) (k : option Z -> prog)
| PChdir (path : list Z) (k : Z -> prog)
| PPrintf (fd : Z) (fmt : string) (arg : list Z) (k : prog)
| PFuel.

Definition panic (s : string) : prog := PPrintf 2 "%s\n" (bytes_of_string s) PExit.

Definition fork1 (k : Z -> prog) : prog := PFork (fun pid => if pid =? -1 then panic "fork" else k pid).

(** runcmd never returns: it ends in exec or exit. *)
Fixpoint runcmd (c : cmd (list Z)) : prog :=
  match c with
  | EXEC argv =>
      match argv with
      | [] => PExit
      | a :: _ => PExec argv (PPrintf 2 "exec %s failed\n" a PExit)
      end
  | REDIR c file mode fd =>
      PClose fd (POpen file mode (fun r =>
      if r <? 0 then PPrintf 2 "open %s failed\n" file PExit else runcmd c))
  | LIST l r =>
      fork1 (fun pid => if pid =? 0 then runcmd l else PWait (runcmd r))
  | PIPE l r =>
      PPipe (fun o =>
      match o with
      | None => panic "pipe"
      | Some (p0, p1) =>
          fork1 (fun pid =>
          if pid =? 0 then PClose 1 (PDup p1 (PClose p0 (PClose p1 (runcmd l)))) else
          fork1 (fun pid =>
          if pid =? 0 then PClose 0 (PDup p0 (PClose p0 (PClose p1 (runcmd r)))) else
          PClose p0 (PClose p1 (PWait (PWait PExit)))))
      end)
  | BACK c => fork1 (fun pid => if pid =? 0 then runcmd c else PExit)
  end.

(** gets of the user library: [room] bytes fit, [buf] are there already. *)
Fixpoint gets (room : nat) (buf : list Z) (k : list Z -> prog) : prog :=
  match room with
  | O => k buf
  | S room =>
      PRead 0 (fun o =>
      match o with
      | None => k buf
      | Some c => if (c =? 10) || (c =? 13) then k (buf ++ [c]) else gets room (buf ++ [c]) k
      end)
  end.

Definition BUF : nat := 100.

(** The line, as the C string in the buffer; none at the end of the input. *)
Definition getcmd (k : option (list Z) -> prog) : prog :=
  PPrintf 2 "$ " [] (gets (BUF - 1) [] (fun buf => match cstring buf with [] => k None | s => k (Some s) end)).

(** [runcmd(parsecmd(buf))] *)
Definition run_line (s : list Z) : prog :=
  match parsecmd s with
  | Parsed c buf => runcmd (strings (length s) buf c)
  | Syntax msg => panic msg
  | Leftovers r msg => PPrintf 2 "leftovers: %s\n" r (panic msg)
  | NoFuel => PFuel
  end.

Definition is_cd (s : list Z) : bool := bool_decide (take 3 s = [99; 100; 32]).

Fixpoint main_loop (fuel : nat) : prog :=
  match fuel with
  | O => PFuel
  | S fuel =>
      getcmd (fun o =>
      match o with
      | None => PExit
      | Some s =>
          if is_cd s then
            let dir := drop 3 (take (length s - 1) s) in
            PChdir dir (fun r =>
            if r <? 0 then PPrintf 2 "cannot cd %s\n" dir (main_loop fuel) else main_loop fuel)
          else fork1 (fun pid => if pid =? 0 then run_line s else PWait (main_loop fuel))
      end)
  end.

(** The loop that makes sure that three descriptors are open. *)
Fixpoint open_console (fuel : nat) (k : prog) : prog :=
  match fuel with
  | O => PFuel
  | S fuel =>
      POpen (bytes_of_string "console") O_RDWR (fun fd =>
      if fd <? 0 then k else if 3 <=? fd then PClose fd k else open_console fuel k)
  end.

Definition sh_main (fuel : nat) : prog := open_console (Z.to_nat NOFILE + 1) (main_loop fuel).

(** ** Processes *)

(** What a descriptor refers to. *)
Inductive ofile : Type :=
| Opened (path : list Z) (mode : Z)
| PipeEnd (n : nat) (write : bool)
| Inherited (n : nat).

Definition table : Type := list (option ofile).

Inductive event : Type :=
| Launch (argv : list (list Z)) (t : table)
| Chdir (path : list Z)
| Printed (fd : Z) (fmt : string) (arg : list Z)
| Stuck.

(** The calls made so far that can fail, the pipes made so far, and the bytes
    still to be read on descriptor 0. *)
Record world : Type := World { w_calls : nat; w_pipes : nat; w_input : list Z }.
Definition call (w : world) : world := World (S (w_calls w)) (w_pipes w) (w_input w).
Definition add_pipe (w : world) : world := World (w_calls w) (S (w_pipes w)) (w_input w).
Definition set_input (i : list Z) (w : world) : world := World (w_calls w) (w_pipes w) i.

(** The file behind a descriptor, and the table without it. *)
Definition fd_file (t : table) (fd : Z) : option ofile := if fd <? 0 then None else mjoin (t !! Z.to_nat fd).
Definition fd_clear (t : table) (fd : Z) : table := if fd <? 0 then t else <[Z.to_nat fd := None]> t.
(** The lowest free descriptor is the one that the kernel's fdalloc takes. *)
Definition fd_alloc (t : table) (f : ofile) : option (Z * table) :=
  match find_fd t 0 with Some i => Some (Z.of_nat i, <[i := Some f]> t) | None => None end.

Definition proc_pipe (n : nat) (t : table) : option (Z * Z * table) :=
  match fd_alloc t (PipeEnd n false) with
  | None => None
  | Some (fd0, t) =>
      match fd_alloc t (PipeEnd n true) with
      | None => None
      | Some (fd1, t) => Some (fd0, fd1, t)
      end
  end.

(** A process with descriptor table [t], and the processes it forks.  [ok] tells
    which of the calls that can fail for other reasons than the table succeed.
    A child has its own copy of the table; the events are listed with those of
    the child first. *)
Fixpoint trace (ok : nat -> bool) (w : world) (t : table) (p : prog) : world * list event :=
  match p with
  | PExit => (w, [])
  | PFuel => (w, [Stuck])
  | PExec argv k => if ok (w_calls w) then (call w, [Launch argv t]) else trace ok (call w) t k
  | PClose fd k => trace ok w (fd_clear t fd) k
  | PDup fd k =>
      match fd_file t fd with
      | None => trace ok w t k
      | Some f => match fd_alloc t f with None => trace ok w t k | Some (_, t') => trace ok w t' k end
      end
  | POpen path mode k =>
      if ok (w_calls w) then
        match fd_alloc t (Opened path mode) with
        | None => trace ok (call w) t (k (-1))
        | Some (fd, t') => trace ok (call w) t' (k fd)
        end
      else trace ok (call w) t (k (-1))
  | PPipe k =>
      if ok (w_calls w) then
        match proc_pipe (w_pipes w) t with
        | None => trace ok (call w) t (k None)
        | Some (fd0, fd1, t') => trace ok (add_pipe (call w)) t' (k (Some (fd0, fd1)))
        end
      else trace ok (call w) t (k None)
  | PFork k =>
      if ok (w_calls w) then
        let '(w1, l1) := trace ok (call w) t (k 0) in
        let '(w2, l2) := trace ok w1 t (k 1) in
        (w2, l1 ++ l2)
      else trace ok (call w) t (k (-1))
  | PWait k => trace ok w t k
  | PRead _ k =>
      match w_input w with
      | [] => trace ok w t (k None)
      | c :: rest => trace ok (set_input rest w) t (k (Some c))
      end
  | PChdir path k =>
      if ok (w_calls w) then
        let '(w1, l) := trace ok (call w) t (k 0) in (w1, Chdir path :: l)
      else trace ok (call w) t (k (-1))
  | PPrintf fd fmt arg k => let '(w1, l) := trace ok w t k in (w1, Printed fd fmt arg :: l)
  end.

(** ** Plumbing *)

(** The table of a process with three open descriptors and no others. *)
Definition std (i o e : ofile) : table := [Some i; Some o; Some e] ++ replicate 13 None.

(** What a command is to start, from standard input [i], output [o] and error
    [e], with the pipes numbered from [n]. *)
Fixpoint plumb (i o e : ofile) (n : nat) (c : cmd (list Z)) : list event * nat :=
  match c with
  | EXEC argv => (match argv with [] => [] | _ => [Launch argv (std i o e)] end, n)
  | REDIR c file mode fd =>
      if fd =? 0 then plumb (Opened file mode) o e n c else plumb i (Opened file mode) e n c
  | PIPE l r =>
      let '(el, n1) := plumb i (PipeEnd n true) e (S n) l in
      let '(er, n2) := plumb (PipeEnd n false) o e n1 r in
      (el ++ er, n2)
  | LIST l r =>
      let '(el, n1) := plumb i o e n l in
      let '(er, n2) := plumb i o e n1 r in
      (el ++ er, n2)
  | BACK c => plumb i o e n c
  end.

(** Redirections are of standard input and output. *)
Fixpoint std_redirs (c : cmd (list Z)) : Prop :=
  match c with
  | EXEC _ => True
  | REDIR c _ _ fd => (fd = 0 \/ fd = 1) /\ std_redirs c
  | PIPE l r | LIST l r => std_redirs l /\ std_redirs r
  | BACK c => std_redirs c
  end.

Definition all_ok (_ : nat) : bool := true.

Lemma typable_std c : typable c -> std_redirs c.
Proof. induction c; cbn; tauto. Qed.

Lemma trace_fork ok w t k :
  trace ok w t (fork1 k) =
  if ok (w_calls w) then
    let '(w1, l1) := trace ok (call w) t (k 0) in
    let '(w2, l2) := trace ok w1 t (k 1) in (w2, l1 ++ l2)
  else trace ok (call w) t (panic "fork").
Proof. done. Qed.

(** The descriptors of a pipe, and of its two ends put in place. *)
Lemma std_pipe i o e n :
  proc_pipe n (std i o e) = Some (3, 4, <[4%nat := Some (PipeEnd n true)]> (<[3%nat := Some (PipeEnd n false)]> (std i o e))).
Proof. done. Qed.

Definition piped (i o e : ofile) (n : nat) : table :=
  <[4%nat := Some (PipeEnd n true)]> (<[3%nat := Some (PipeEnd n false)]> (std i o e)).

Lemma pipe_left ok w i o e n k :
  trace ok w (piped i o e n) (PClose 1 (PDup 4 (PClose 3 (PClose 4 k)))) = trace ok w (std i (PipeEnd n true) e) k.
Proof. done. Qed.
Lemma pipe_right ok w i o e n k :
  trace ok w (piped i o e n) (PClose 0 (PDup 3 (PClose 3 (PClose 4 k)))) = trace ok w (std (PipeEnd n false) o e) k.
Proof. done. Qed.
Lemma pipe_rest ok w i o e n :
  trace ok w (piped i o e n) (PClose 3 (PClose 4 (PWait (PWait PExit)))) = (w, []).
Proof. done. Qed.

Lemma redir_open i o e file mode fd : fd = 0 \/ fd = 1 ->
  fd_alloc (fd_clear (std i o e) fd) (Opened file mode) =
  Some (fd, if fd =? 0 then std (Opened file mode) o e else std i (Opened file mode) e).
Proof. by intros [-> | ->]. Qed.

Lemma runcmd_plumb c : std_redirs c -> forall w i o e,
  exists w', trace all_ok w (std i o e) (runcmd c) = (w', (plumb i o e (w_pipes w) c).1) /\
    w_pipes w' = (plumb i o e (w_pipes w) c).2 /\ w_input w' = w_input w.
Proof.
  induction c as [argv|c IH f m d|l IHl r IHr|l IHl r IHr|c IH]; intros Hc w i o e; cbn [plumb runcmd].
  - destruct argv as [|a argv]; eexists; (split; [reflexivity|done]).
  - destruct Hc as [Hd Hc]. cbn [trace all_ok]. rewrite redir_open by done.
    replace (d <? 0) with false by (by destruct Hd as [-> | ->]).
    destruct (d =? 0); exact (IH Hc (call w) _ _ e).
  - destruct Hc as [Hl Hr]. cbn [trace all_ok]. rewrite std_pipe. fold (piped i o e (w_pipes w)). rewrite trace_fork.
    cbn [all_ok Z.eqb]. rewrite pipe_left.
    destruct (IHl Hl (call (add_pipe (call w))) i (PipeEnd (w_pipes w) true) e) as (w1 & -> & Hp1 & Hi1).
    cbn [w_pipes call add_pipe] in *. rewrite trace_fork. cbn [all_ok Z.eqb]. rewrite pipe_right.
    destruct (IHr Hr (call w1) (PipeEnd (w_pipes w) false) o e) as (w2 & -> & Hp2 & Hi2). rewrite pipe_rest.
    cbn [w_pipes call] in *. rewrite Hp1 in *. destruct (plumb i _ e _ l) as [el n1]. cbn [fst snd] in *.
    destruct (plumb _ o e n1 r) as [er n2]. cbn [fst snd] in *. eexists. rewrite app_nil_r. split; [reflexivity|]. split; [done|].
    cbn in *. congruence.
  - destruct Hc as [Hl Hr]. rewrite trace_fork. cbn [all_ok Z.eqb].
    destruct (IHl Hl (call w) i o e) as (w1 & -> & Hp1 & Hi1). cbn [trace].
    destruct (IHr Hr w1 i o e) as (w2 & -> & Hp2 & Hi2).
    cbn [w_pipes call] in *. rewrite Hp1 in *. destruct (plumb i o e _ l) as [el n1]. cbn [fst snd] in *.
    destruct (plumb i o e n1 r) as [er n2]. cbn [fst snd] in *. eexists. split; [reflexivity|]. split; [done|]. cbn in *. congruence.
  - rewrite trace_fork. cbn [all_ok Z.eqb]. destruct (IH Hc (call w) i o e) as (w1 & -> & Hp1 & Hi1). cbn [trace].
    eexists. rewrite app_nil_r. split; [reflexivity|]. done.
Qed.

(** A process that is started has its arguments and no descriptors but three. *)
Definition clean (ev : event) : Prop :=
  match ev with
  | Launch argv t => argv <> [] /\ exists i o e, t = std i o e
  | Printed fd _ _ => fd = 2
  | Chdir _ => True
  | Stuck => False
  end.

(** Nothing but clean events, and nothing read. *)
Definition fine (w : world) (r : world * list event) : Prop := Forall clean r.2 /\ w_input r.1 = w_input w.

Lemma panic_fine ok w w' t msg : w_input w' = w_input w -> fine w (trace ok w' t (panic msg)).
Proof. intros Hi. split; [by repeat constructor|done]. Qed.

Lemma fork_fine ok w t k :
  (forall w', fine w' (trace ok w' t (k 0))) -> (forall w', fine w' (trace ok w' t (k 1))) -> fine w (trace ok w t (fork1 k)).
Proof.
  intros H0 H1. rewrite trace_fork. destruct (ok (w_calls w)); [|by apply panic_fine].
  destruct (H0 (call w)) as [Hl0 Hi0]. destruct (trace ok (call w) t (k 0)) as [w1 l1].
  destruct (H1 w1) as [Hl1 Hi1]. destruct (trace ok w1 t (k 1)) as [w2 l2].
  split; [by apply Forall_app|]. cbn in *. congruence.
Qed.

Lemma runcmd_fine ok c : std_redirs c -> forall w i o e, fine w (trace ok w (std i o e) (runcmd c)).
Proof.
  induction c as [argv|c IH f m d|l IHl r IHr|l IHl r IHr|c IH]; intros Hc w i o e; cbn [runcmd].
  - destruct argv as [|a argv]; [by split|]. cbn [trace].
    destruct (ok (w_calls w)); (split; [|done]); (constructor; [|done]); cbn; eauto.
  - destruct Hc as [Hd Hc]. cbn [trace]. rewrite redir_open by done. replace (d <? 0) with false by (by destruct Hd as [-> | ->]).
    destruct (ok (w_calls w)); [destruct (d =? 0); by apply (IH Hc (call w))|]. by split; [repeat constructor|].
  - destruct Hc as [Hl Hr]. cbn [trace]. rewrite std_pipe. fold (piped i o e (w_pipes w)).
    destruct (ok (w_calls w)); [|by apply panic_fine].
    apply (fork_fine ok (add_pipe (call w))); intros w1; cbn [Z.eqb]; [rewrite pipe_left; by apply IHl|].
    apply fork_fine; intros w2; cbn [Z.eqb]; [rewrite pipe_right; by apply IHr|]. rewrite pipe_rest. by split; [constructor|].
  - destruct Hc as [Hl Hr]. apply fork_fine; intros w1; cbn [Z.eqb trace]; [by apply IHl|by apply IHr].
  - apply fork_fine; intros w1; cbn [Z.eqb trace]; [by apply IH|by split; [constructor|]].
Qed.

(** ** Sessions *)

Definition no_newline (s : list Z) : Prop := Forall (fun c => c <> 10 /\ c <> 13) s.

Lemma gets_line ok room buf k w t line rest :
  no_newline line -> (length line < room)%nat -> w_input w = line ++ 10 :: rest ->
  trace ok w t (gets room buf k) = trace ok (set_input rest w) t (k (buf ++ line ++ [10])).
Proof.
  intros Hl. revert room buf w. induction Hl as [|c line [H10 H13] Hl IH]; intros [|room] buf w Hr Hi; cbn in Hr; try lia;
    cbn [gets trace]; rewrite Hi; cbn [app]; [done|].
  rewrite (eqb_ne c 10), (eqb_ne c 13) by done. cbn [orb]. rewrite (IH room) by (try done; lia). cbn [set_input w_calls w_pipes].
  by rewrite <- app_assoc.
Qed.

Lemma gets_eof ok room buf k w t : w_input w = [] -> trace ok w t (gets room buf k) = trace ok w t (k buf).
Proof. intros Hi. destruct room as [|room]; [done|]. cbn [gets trace]. by rewrite Hi. Qed.

Lemma cstring_nonzero s : nonzero s -> cstring s = s.
Proof. induction 1 as [|c s Hc Hs IH]; [done|]. cbn. by rewrite eqb_ne, IH. Qed.

Lemma print_no_newline c : typable c -> no_newline (print 0 c).
Proof.
  apply body_chars; [|done|by repeat constructor]. intros x (_ & Hw & _). by split; intros ->.
Qed.

(** A command that can be typed as one line and is not for the shell itself. *)
Definition line_typable (c : cmd (list Z)) : Prop :=
  typable c /\ (length (print 0 c) + 1 < BUF)%nat /\ is_cd (print 0 c ++ [10]) = false.
Definition typed (cs : list (cmd (list Z))) : list Z := concat ((fun c => print 0 c ++ [10]) <$> cs).

Definition prompt : event := Printed 2 "$ " [].
(** The events of a session. *)
Fixpoint session (i o e : ofile) (n : nat) (cs : list (cmd (list Z))) : list event :=
  match cs with
  | [] => [prompt]
  | c :: cs => let '(l, n1) := plumb i o e n c in prompt :: l ++ session i o e n1 cs
  end.

Lemma run_typed c w i o e : typable c ->
  exists w', trace all_ok w (std i o e) (run_line (print 0 c ++ [10])) = (w', (plumb i o e (w_pipes w) c).1) /\
    w_pipes w' = (plumb i o e (w_pipes w) c).2 /\ w_input w' = w_input w.
Proof.
  intros Hc. destruct (parsecmd_typed c [10] Hc ltac:(by repeat constructor)) as (c' & buf & E & Es).
  unfold run_line. rewrite E, Es. apply runcmd_plumb. by apply typable_std.
Qed.

Lemma strings_std n buf P c : each P c -> std_redirs (strings n buf c).
Proof. induction c; cbn; try tauto. Qed.

Lemma run_line_fine ok s w i o e : nonzero s -> fine w (trace ok w (std i o e) (run_line s)).
Proof.
  intros Hs. pose proof (parsecmd_spec s Hs) as H. unfold run_line.
  destruct (parsecmd s) as [c buf|msg|r msg|]; [|by apply panic_fine|by split; [repeat constructor|]|done].
  destruct H as [Hc _]. apply runcmd_fine. by eapply strings_std.
Qed.

(** gets takes the front of the input, at least a byte if there is one. *)
Lemma gets_any ok room buf k w t :
  exists got rest, w_input w = got ++ rest /\ trace ok w t (gets room buf k) = trace ok (set_input rest w) t (k (buf ++ got)).
Proof.
  assert (forall w, set_input (w_input w) w = w) as Hset by (by intros []).
  revert buf w. induction room as [|room IH]; intros buf w; cbn [gets].
  - exists [], (w_input w). by rewrite Hset, app_nil_r.
  - cbn [trace]. destruct (w_input w) as [|c rest] eqn:Ei.
    + exists [], []. split; [done|]. rewrite app_nil_r. by replace (set_input [] w) with w by (by rewrite <- Ei, Hset).
    + destruct ((c =? 10) || (c =? 13)); [by exists [c], rest|].
      destruct (IH (buf ++ [c]) (set_input rest w)) as (got & rest' & E & ->). cbn in E.
      exists (c :: got), rest'. rewrite <- app_assoc, E. done.
Qed.

Lemma cstring_is_nonzero l : nonzero (cstring l).
Proof. induction l as [|c l IH]; [constructor|]. cbn. destruct (Z.eqb_spec c 0); [constructor|]. by constructor. Qed.

Lemma main_clean ok i o e fuel : forall w, (length (w_input w) < fuel)%nat ->
  Forall clean (trace ok w (std i o e) (main_loop fuel)).2.
Proof.
  induction fuel as [|fuel IH]; intros w Hf; [lia|]. cbn [main_loop]. unfold getcmd. cbn [trace].
  match goal with |- context [gets ?r ?b ?k] => destruct (gets_any ok r b k w (std i o e)) as (got & rest & Ei & ->) end.
  change ([] ++ got) with got. pose proof (cstring_is_nonzero got) as Hz.
  destruct (cstring got) as [|c s] eqn:Es; [by repeat constructor|].
  assert (forall w', w_input w' = rest -> Forall clean (trace ok w' (std i o e) (main_loop fuel)).2) as Hrec.
  { intros w' Hw'. apply IH. rewrite Hw'. destruct got as [|g got]; [done|]. rewrite Ei, length_app in Hf. cbn in Hf. lia. }
  destruct (is_cd (c :: s)).
  - cbn [trace]. destruct (ok _); cbn [Z.ltb Z.compare].
    + specialize (Hrec (call (set_input rest w)) eq_refl). destruct (trace ok _ _ (main_loop fuel)) as [w1 l]. by repeat constructor.
    + cbn [trace]. specialize (Hrec (call (set_input rest w)) eq_refl).
      destruct (trace ok _ _ (main_loop fuel)) as [w1 l]. by repeat constructor.
  - rewrite trace_fork. destruct (ok _); [|by repeat constructor]. cbn [Z.eqb trace].
    destruct (run_line_fine ok (c :: s) (call (set_input rest w)) i o e Hz) as [Hl Hi].
    destruct (trace ok _ _ (run_line _)) as [w1 l]. cbn [snd fst] in *. specialize (Hrec w1 Hi).
    destruct (trace ok w1 _ (main_loop fuel)) as [w2 l2]. constructor; [done|]. by apply Forall_app.
Qed.

(** The first loop leaves three open descriptors as they are. *)
Lemma console_std ok w i o e k fuel :
  exists w', w_input w' = w_input w /\ w_pipes w' = w_pipes w /\
    trace ok w (std i o e) (open_console (S fuel) k) = trace ok w' (std i o e) k.
Proof. exists (call w). split; [done|]. split; [done|]. cbn [open_console trace]. by destruct (ok (w_calls w)). Qed.

Lemma main_session i o e cs : Forall line_typable cs -> forall w, w_input w = typed cs ->
  (trace all_ok w (std i o e) (main_loop (S (length cs)))).2 = session i o e (w_pipes w) cs.
Proof.
  induction 1 as [|c cs (Hc & Hlen & Hcd) Hcs IH]; intros w Hw.
  - cbn [main_loop length]. unfold getcmd. cbn [trace]. by rewrite gets_eof.
  - change (typed (c :: cs)) with ((print 0 c ++ [10]) ++ typed cs) in Hw. rewrite <- app_assoc in Hw. cbn [app] in Hw.
    change (length (c :: cs)) with (S (length cs)). remember (S (length cs)) as fuel eqn:Ef. cbn [main_loop]. unfold getcmd. cbn [trace].
    rewrite (gets_line _ _ _ _ _ _ (print 0 c) (typed cs)); [|by apply print_no_newline|unfold BUF in *; lia|done].
    change ([] ++ ?x) with x. rewrite cstring_nonzero.
    2: { apply Forall_app. split; [by apply body_nonzero|by repeat constructor]. }
    destruct (print 0 c ++ [10]) as [|x s] eqn:Es; [by destruct (print 0 c)|]. rewrite Hcd, trace_fork. cbn [all_ok Z.eqb trace].
    rewrite <- Es. destruct (run_typed c (call (set_input (typed cs) w)) i o e Hc) as (w1 & -> & Hp & Hi).
    specialize (IH w1 Hi). destruct (trace all_ok w1 _ (main_loop fuel)) as [w2 l2]. cbn [snd fst] in *. subst l2.
    cbn [session]. rewrite Hp. cbn [w_pipes call set_input]. by destruct (plumb i o e (w_pipes w) c).
Qed.

(** C38. Whatever is typed and whichever system calls fail, every process that the
    shell starts has exactly its three standard descriptors: no end of a pipe and
    no redirected file is left open in it.  The shell prints on descriptor 2 only,
    and it reads all its input without getting stuck. *)
Theorem shell_no_leak (ok : nat -> bool) (w : world) (i o e : ofile) (fuel : nat) (Hf : (length (w_input w) < fuel)%nat) :
  Forall clean (trace ok w (std i o e) (sh_main fuel)).2.
Proof.
  unfold sh_main. destruct (console_std ok w i o e (main_loop fuel) (Z.to_nat NOFILE)) as (w' & Hi & _ & E).
  rewrite Nat.add_1_r, E. apply main_clean. by rewrite Hi.
Qed.

(** C39. A session in which no system call fails: for each line that is typed the
    shell starts the programs of that command in order, each with the pipes and
    files that the line asks for as its standard input and output. *)
Theorem shell_runs_session (w : world) (i o e : ofile) (cs : list (cmd (list Z)))
  (Hcs : Forall line_typable cs) (Hw : w_input w = typed cs) :
  (trace all_ok w (std i o e) (sh_main (S (length cs)))).2 = session i o e (w_pipes w) cs.
Proof.
  unfold sh_main. destruct (console_std all_ok w i o e (main_loop (S (length cs))) (Z.to_nat NOFILE)) as (w' & Hi & Hp & E).
  rewrite Nat.add_1_r, E, <- Hp. apply main_session; [done|]. by rewrite Hi.
Qed.

(** The lines [a|b>f] and [c&]. *)
Definition sample_cmds : list (cmd (list Z)) :=
  [PIPE (EXEC [[97]]) (REDIR (EXEC [[98]]) [102] (Z.lor O_WRONLY O_CREATE) 1); BACK (EXEC [[99]])].
Definition sample_world : world := World 0 0 (typed sample_cmds).
Definition sample_trace : list event :=
  [prompt;
   Launch [[97]] (std (Inherited 0) (PipeEnd 0 true) (Inherited 2));
   Launch [[98]] (std (PipeEnd 0 false) (Opened [102] (Z.lor O_WRONLY O_CREATE)) (Inherited 2));
   prompt;
   Launch [[99]] (std (Inherited 0) (Inherited 1) (Inherited 2));
   prompt].

Lemma shell_no_leak_witness :
  (length (w_input sample_world) < 20)%nat /\
  Forall clean (trace (fun n => negb (n =? 5)%nat) sample_world (std (Inherited 0) (Inherited 1) (Inherited 2)) (sh_main 20)).2 /\
  (trace (fun n => negb (n =? 5)%nat) sample_world (std (Inherited 0) (Inherited 1) (Inherited 2)) (sh_main 20)).2 =
    [prompt; Launch [[97]] (std (Inherited 0) (PipeEnd 0 true) (Inherited 2)); Printed 2 "%s\n" (bytes_of_string "fork");
     prompt; Launch [[99]] (std (Inherited 0) (Inherited 1) (Inherited 2)); prompt].
Proof.
  split; [vm_compute; lia|]. split; [apply shell_no_leak; vm_compute; lia|vm_compute; reflexivity].
Defined.

Lemma shell_runs_session_witness :
  Forall line_typable sample_cmds /\
  (trace all_ok sample_world (std (Inherited 0) (Inherited 1) (Inherited 2)) (sh_main 3)).2 =
    session (Inherited 0) (Inherited 1) (Inherited 2) 0 sample_cmds /\
  session (Inherited 0) (Inherited 1) (Inherited 2) 0 sample_cmds = sample_trace.
Proof.
  assert (H : Forall line_typable sample_cmds).
  { apply Forall_cons. split; [|apply Forall_singleton]; (split; [|split; [vm_compute; lia|reflexivity]]); cbn;
      repeat split; try (repeat constructor; (discriminate || reflexivity || lia)). }
  split; [exact H|]. split; [|reflexivity]. exact (shell_runs_session sample_world _ _ _ sample_cmds H eq_refl).
Defined.
