(* ===== verification/Mkfs.v ===== *)
(** * The file-system image builder (mkfs.c)

    mkfs runs on the host.  The image file is the list of its sectors: a write
    behind its end extends it, with zeros in between, and a read behind its end
    returns no bytes, which makes mkfs exit.  [exit(1)] and failed assertions are
    the panics of the monad. *)

From S2P Require Import Prelude Mmu Mem Bytes State Kernel Bio FsInode FsFile.

(** ** Layout *)

Definition NINODES : Z := 200.

Definition nbitmap : Z := FSSIZE / (BSIZE * 8) + 1.
Definition ninodeblocks : Z := NINODES / IPB + 1.
Definition nlog : Z := LOGSIZE.
Definition nmeta : Z := 2 + nlog + ninodeblocks + nbitmap.
Definition nblocks : Z := FSSIZE - nmeta.

(** Conversions to Intel byte order, on a host with that order: the number with
    the bytes of [x], lowest first. *)
Definition xshort (x : Z) : Z := le2z (z2le 2 x).
Definition xint (x : Z) : Z := le2z (z2le 4 x).

Definition sb : superblock :=
  mkSb (xint FSSIZE) (xint nblocks) (xint NINODES) (xint nlog) (xint 2) (xint (2 + nlog)) (xint (2 + nlog + ninodeblocks)).
Definition sb_bytes (sb : superblock) : list Z :=
  z2le 4 (sb_size sb) ++ z2le 4 (sb_nblocks sb) ++ z2le 4 (sb_ninodes sb) ++ z2le 4 (sb_nlog sb) ++
  z2le 4 (sb_logstart sb) ++ z2le 4 (sb_inodestart sb) ++ z2le 4 (sb_bmapstart sb).

Definition zeroes : list Z := replicate (Z.to_nat BSIZE) 0.

(** ** State *)

Record mstate := mkMstate {
  m_image : list (list Z);   (* fsfd *)
  m_freeinode : Z;
  m_freeblock : Z;
}.
Definition set_m_image (v : list (list Z)) (x : mstate) : mstate := mkMstate v (m_freeinode x) (m_freeblock x).
Definition set_m_freeinode (v : Z) (x : mstate) : mstate := mkMstate (m_image x) v (m_freeblock x).
Definition set_m_freeblock (v : Z) (x : mstate) : mstate := mkMstate (m_image x) (m_freeinode x) v.

Abbreviation MK := (M mstate).

(** The sector at the file offset [sec * BSIZE], an [uint]. *)
Definition sector (sec : Z) : nat := Z.to_nat (u32 (sec * BSIZE) / BSIZE).

Definition write_sector (img : list (list Z)) (i : nat) (buf : list Z) : list (list Z) :=
  if (i <? length img)%nat then <[i := buf]> img else img ++ replicate (i - length img) zeroes ++ [buf].

Definition wsect (sec : Z) (buf : list Z) : MK unit :=
  modify (fun s => set_m_image (write_sector (m_image s) (sector sec) buf) s).

Definition rsect (sec : Z) : MK (list Z) :=
  img ← gets m_image;
  match img !! sector sec with
  | Some buf => mret buf
  | None => panic "read"
  end.

Definition winode (inum : Z) (ip : dinode) : MK unit :=
  buf ← rsect (IBLOCK inum sb);
  wsect (IBLOCK inum sb) (put_dinode buf (inum mod IPB) ip).

Definition rinode (inum : Z) : MK dinode :=
  buf ← rsect (IBLOCK inum sb);
  mret (get_dinode buf (inum mod IPB)).

(** [freeinode++] and [freeblock++] *)
Definition next_inode : MK Z :=
  inum ← gets m_freeinode;
  modify (set_m_freeinode (u32 (inum + 1)));;
  mret inum.
Definition next_block : MK Z :=
  b ← gets m_freeblock;
  modify (set_m_freeblock (u32 (b + 1)));;
  mret b.

Definition ialloc (type : Z) : MK Z :=
  inum ← next_inode;
  winode inum (mkDinode (s16 (xshort type)) 0 0 (s16 (xshort 1)) (xint 0) (replicate 13 0));;
  mret inum.

(** The bit map with the first [used] bits set. *)
Definition used_bits (used : Z) : list Z := foldl set_bit zeroes (seqZ 0 used).

Definition balloc (used : Z) : MK unit :=
  if BSIZE * 8 <=? used then panic "assert" else
  wsect (sb_bmapstart sb) (used_bits used).

Definition set_di_addr (k : nat) (a : Z) (di : dinode) : dinode :=
  mkDinode (di_type di) (di_major di) (di_minor di) (di_nlink di) (di_size di) (<[k := a]> (di_addrs di)).
Definition set_di_size (sz : Z) (di : dinode) : dinode :=
  mkDinode (di_type di) (di_major di) (di_minor di) (di_nlink di) sz (di_addrs di).

(** The entry [k] of the inode, filled in if it is 0. *)
Definition addr_of (din : dinode) (k : nat) : MK (Z * dinode) :=
  if xint (nth k (di_addrs din) 0) =? 0 then
    b ← next_block;
    let din := set_di_addr k (xint b) din in
    mret (xint (nth k (di_addrs din) 0), din)
  else mret (xint (nth k (di_addrs din) 0), din).

(** The disk block of file block [fbn], and the inode with it. *)
Definition block_of (din : dinode) (fbn : Z) : MK (Z * dinode) :=
  if fbn <? NDIRECT then addr_of din (Z.to_nat fbn)
  else
    r ← addr_of din (Z.to_nat NDIRECT);
    let '(ib, din) := r in
    indirect ← rsect ib;
    let o := Z.to_nat (4 * (fbn - NDIRECT)) in
    if get32 indirect o =? 0 then
      b ← next_block;
      let indirect := put32 indirect o (xint b) in
      wsect ib indirect;;
      mret (xint (get32 indirect o), din)
    else mret (xint (get32 indirect o), din).

(** One turn of the loop of [iappend], on the inode in memory, the offset and the
    bytes that remain. *)
Definition iappend_body (st : dinode * Z * list Z) : MK (dinode * Z * list Z + dinode * Z) :=
  let '(din, off, p) := st in
  let n := Z.of_nat (length p) in
  if n <=? 0 then mret (inr (din, off)) else
  let fbn := off / BSIZE in
  if MAXFILE <=? fbn then panic "assert" else
  r ← block_of din fbn;
  let '(x, din) := r in
  let n1 := Z.to_nat (Z.min n (u32 ((fbn + 1) * BSIZE - off))) in
  buf ← rsect x;
  wsect x (put_bytes buf (Z.to_nat (off - fbn * BSIZE)) (take n1 p));;
  mret (inl (din, u32 (off + Z.of_nat n1), drop n1 p)).

Definition iappend (inum : Z) (p : list Z) : MK unit :=
  din ← rinode inum;
  r ← iter (S (length p)) iappend_body (din, xint (di_size din), p);
  let '(din, off) := r in
  winode inum (set_di_size (xint off) din).

(** ** main *)

Definition ch_dot : Z := 46.
Definition ch_slash : Z := 47.
Definition ch_under : Z := 95.

(** A file named on the command line: its name, and what the calls of read
    return until the end of the file if it can be opened. *)
Definition hostfile : Type := list Z * option (list (list Z)).

Definition entry (inum : Z) (name : list Z) : list Z :=
  dirent_bytes (mkDirent (xshort inum) (strncpy name (Z.to_nat DIRSIZ))).

Definition skip_under (name : list Z) : list Z :=
  match name with c :: t => if c =? ch_under then t else name | [] => [] end.

Definition add_file (rootino : Z) (f : hostfile) : MK unit :=
  let '(name, data) := f in
  if existsb (Z.eqb ch_slash) name then panic "assert" else
  match data with
  | None => panic "open"
  | Some reads =>
      inum ← ialloc T_FILE;
      iappend rootino (entry inum (skip_under name));;
      for_each reads (iappend inum)
  end.

(** [init_image]: all sectors zeroed, and the super block. *)
Definition init_image : MK unit :=
  for_each (seq 0 (Z.to_nat FSSIZE)) (fun i => wsect (Z.of_nat i) zeroes);;
  wsect 1 (put_bytes zeroes 0 (sb_bytes sb)).

(** [fix_root]: the size of the root directory, in whole blocks. *)
Definition fix_root (rootino : Z) : MK unit :=
  din ← rinode rootino;
  let off := xint (di_size din) in
  let off := u32 ((off / BSIZE + 1) * BSIZE) in
  winode rootino (set_di_size (xint off) din).

(** [main], from the opened image file on. *)
Definition mkfs (files : list hostfile) : MK unit :=
  init_image;;
  rootino ← ialloc T_DIR;
  if negb (rootino =? ROOTINO) then panic "assert" else
  iappend rootino (entry rootino [ch_dot]);;
  iappend rootino (entry rootino [ch_dot; ch_dot]);;
  for_each files (add_file rootino);;
  fix_root rootino;;
  b ← gets m_freeblock;
  balloc (s32 b).

(** The state in which main starts: [O_TRUNC], and the initialised globals. *)
Definition mkfs_start : mstate := mkMstate [] 1 nmeta.
