(* ===== verification/MkfsImage.v ===== *)
(** * What mkfs writes (mkfs.c)

    The image that mkfs builds holds the files of the command line: their inodes,
    blocks and directory entries are those that the kernel's readi finds, and the
    free map marks exactly the blocks in use. *)

From S2P Require Import Prelude Mmu Mem Bytes State Kernel Sched Sleeplock Bio BioCache Log LogCrash LogOps.
From S2P Require Import FsInode FsAlloc Console FsFile FsContents FsWrite Mkfs.

(** ** Sectors *)

(** Sector [b] of an image. *)
Definition view (img : list (list Z)) (b : Z) : list Z := if b <? 0 then zeroes else nth (Z.to_nat b) img zeroes.

Lemma sector_small b : 0 <= b < 8388608 -> sector b = Z.to_nat b.
Proof. intros Hb. unfold sector. rewrite u32_small by (unfold BSIZE; lia). unfold BSIZE. by rewrite Z.div_mul by lia. Qed.

Lemma view_write img b buf x : 0 <= b < Z.of_nat (length img) ->
  view (write_sector img (Z.to_nat b) buf) x = vset (view img) b buf x.
Proof.
  intros Hb. unfold write_sector, view, vset. rewrite (proj2 (Nat.ltb_lt _ _)) by lia.
  destruct (Z.ltb_spec x 0); [by rewrite decide_False by lia|]. destruct (decide (x = b)) as [->|Hne].
  - by apply insert_nth_eq; lia.
  - apply insert_nth_ne. lia.
Qed.

Section sectors.
Context (s : mstate) (Hlen : length (m_image s) = 1000%nat).

Lemma wp_rsect b (Q : list Z -> mstate -> Prop) : 0 <= b < 1000 -> Q (view (m_image s) b) s -> wp (rsect b) Q s.
Proof.
  intros Hb HQ. unfold rsect. wp_steps. rewrite sector_small by lia.
  destruct (lookup_lt_is_Some_2 (m_image s) (Z.to_nat b)) as [x Hx]; [lia|]. rewrite Hx. apply wp_ret.
  unfold view in HQ. rewrite (proj2 (Z.ltb_ge b 0)) in HQ by lia. by rewrite (nth_lookup_Some _ _ _ x) in HQ.
Qed.

(** The state after a write. *)
Record wrote (b : Z) (buf : list Z) (s' : mstate) : Prop := {
  wr_len : length (m_image s') = 1000%nat;
  wr_view : forall x, view (m_image s') x = vset (view (m_image s)) b buf x;
  wr_inode : m_freeinode s' = m_freeinode s;
  wr_block : m_freeblock s' = m_freeblock s;
}.

Lemma wp_wsect b buf (Q : unit -> mstate -> Prop) :
  0 <= b < 1000 -> (forall s', wrote b buf s' -> Q tt s') -> wp (wsect b buf) Q s.
Proof.
  intros Hb HQ. unfold wsect. wp_steps. apply HQ. rewrite sector_small by lia. constructor; cbn; try done.
  - unfold write_sector. rewrite (proj2 (Nat.ltb_lt _ _)) by lia. by rewrite length_insert.
  - intros x. apply view_write. lia.
Qed.

End sectors.

Lemma xint_small x : 0 <= x < 4294967296 -> xint x = x.
Proof. apply u32_bytes. Qed.

(** ** Files on the image *)

(** The blocks of a file of [sz] bytes, the indirect block included. *)
Definition nblk (sz : Z) : Z := let d := (sz + 511) / 512 in d + (if 12 <? d then 1 else 0).

(** The file with contents [c] in the blocks [addrs] of inode [inum]; [own] tells
    for each block in use whose it is: its inode and its place in the file, [-1]
    for an indirect block. *)
Record file_at (V : Z -> list Z) (own : gmap Z (Z * Z)) (inum : Z) (addrs c : list Z) : Prop := {
  fa_len : length addrs = 13%nat;
  fa_range : Forall (fun a => 0 <= a < 1000) addrs;
  fa_size : Z.of_nat (length c) <= 71680;
  fa_set : forall k, 0 <= k < 140 -> slot V addrs k <> 0 <-> k * 512 < Z.of_nat (length c);
  fa_ind : nth 12 addrs 0 <> 0 <-> 6144 < Z.of_nat (length c);
  fa_own : forall k, 0 <= k < 140 -> slot V addrs k <> 0 -> own !! slot V addrs k = Some (inum, k);
  fa_iown : nth 12 addrs 0 <> 0 -> own !! nth 12 addrs 0 = Some (inum, -1);
  fa_bytes : forall j v, c !! j = Some v -> nth (j mod 512) (V (slot V addrs (Z.of_nat j / 512))) 0 = v;
}.
Arguments fa_len {_ _ _ _ _} _.
Arguments fa_range {_ _ _ _ _} _.
Arguments fa_size {_ _ _ _ _} _.
Arguments fa_set {_ _ _ _ _} _.
Arguments fa_ind {_ _ _ _ _} _.
Arguments fa_own {_ _ _ _ _} _.
Arguments fa_iown {_ _ _ _ _} _.
Arguments fa_bytes {_ _ _ _ _} _.

(** Blocks: those in use are between the meta data and [fb], those after are
    zeroed. *)
Record disk_at (V : Z -> list Z) (own : gmap Z (Z * Z)) (fb : Z) : Prop := {
  da_len : forall b, length (V b) = 512%nat;
  da_own : forall b x, own !! b = Some x -> 59 <= b < fb;
  da_free : forall b, fb <= b < 1000 -> V b = zeroes;
  da_fb : 59 <= fb <= 1000;
}.
Arguments da_len {_ _ _} _.
Arguments da_own {_ _ _} _.
Arguments da_free {_ _ _} _.
Arguments da_fb {_ _ _} _.

(** A file keeps its contents if its blocks do. *)
Lemma file_at_ext V own V' own' inum addrs c :
  file_at V own inum addrs c -> own ⊆ own' -> (forall b k, own !! b = Some (inum, k) -> V' b = V b) ->
  file_at V' own' inum addrs c.
Proof.
  intros [Hl Hr Hsz Hs Hi Ho Hio Hb] Hsub Hv.
  assert (forall k, slot V' addrs k = slot V addrs k) as Hsl.
  { intros k. apply slot_ext. destruct (decide (nth 12 addrs 0 = 0)) as [|Hne]; [by left|right]. eapply Hv, Hio, Hne. }
  constructor; try done.
  - intros k Hk. rewrite Hsl. by apply Hs.
  - intros k Hk. rewrite Hsl. intros Hne. eapply lookup_weaken; [by apply Ho|done].
  - intros Hne. eapply lookup_weaken; [by apply Hio|done].
  - intros j v Hj. rewrite Hsl. pose proof (lookup_lt_Some _ _ _ Hj) as Hlt.
    assert (0 <= Z.of_nat j / 512 < 140) as Hk by (Z.div_mod_to_equations; lia).
    assert (slot V addrs (Z.of_nat j / 512) <> 0) as Hne by (apply Hs; [done|]; Z.div_mod_to_equations; lia).
    erewrite Hv; [by apply Hb|]. by apply Ho.
Qed.

(** ** Getting a block *)

(** File block [fbn] of the file with [c] bytes in [addrs], the one that the next
    byte goes to, is block [x]; it may be new, and so may the indirect block. *)
Record got V own fb addrs inum (c : list Z) fbn V1 own1 fb1 addrs1 x : Prop := {
  gt_disk : disk_at V1 own1 fb1;
  gt_sub : own ⊆ own1;
  gt_meta : forall b, b < 59 -> V1 b = V b;
  gt_same : forall b o, own !! b = Some o -> o <> (inum, -1) -> V1 b = V b;
  gt_slots : forall k, 0 <= k < 140 -> k <> fbn -> slot V1 addrs1 k = slot V addrs k;
  gt_slot : slot V1 addrs1 fbn = x;
  gt_own : own1 !! x = Some (inum, fbn);
  gt_old : slot V addrs fbn <> 0 -> slot V addrs fbn = x;
  gt_ind : nth 12 addrs1 0 <> 0 <-> 6144 < Z.of_nat (length c) \/ 12 <= fbn;
  gt_iown : nth 12 addrs1 0 <> 0 -> own1 !! nth 12 addrs1 0 = Some (inum, -1);
  gt_len : length addrs1 = 13%nat;
  gt_range : Forall (fun a => 0 <= a < 1000) addrs1;
  gt_fb : fb1 = fb + (nblk (Z.of_nat (length c) + 1) - nblk (Z.of_nat (length c)));
}.
Arguments gt_disk {_ _ _ _ _ _ _ _ _ _ _ _} _.
Arguments gt_sub {_ _ _ _ _ _ _ _ _ _ _ _} _.
Arguments gt_meta {_ _ _ _ _ _ _ _ _ _ _ _} _.
Arguments gt_same {_ _ _ _ _ _ _ _ _ _ _ _} _.
Arguments gt_slots {_ _ _ _ _ _ _ _ _ _ _ _} _.
Arguments gt_slot {_ _ _ _ _ _ _ _ _ _ _ _} _.
Arguments gt_own {_ _ _ _ _ _ _ _ _ _ _ _} _.
Arguments gt_old {_ _ _ _ _ _ _ _ _ _ _ _} _.
Arguments gt_ind {_ _ _ _ _ _ _ _ _ _ _ _} _.
Arguments gt_iown {_ _ _ _ _ _ _ _ _ _ _ _} _.
Arguments gt_len {_ _ _ _ _ _ _ _ _ _ _ _} _.
Arguments gt_range {_ _ _ _ _ _ _ _ _ _ _ _} _.
Arguments gt_fb {_ _ _ _ _ _ _ _ _ _ _ _} _.

Lemma nblk_next n : 0 <= n ->
  nblk (n + 1) - nblk n = if n mod 512 =? 0 then if n =? 6144 then 2 else 1 else 0.
Proof.
  intros Hn. unfold nblk. destruct (Z.eqb_spec (n mod 512) 0) as [E|E].
  - assert ((n + 511) / 512 = n / 512 /\ (n + 1 + 511) / 512 = n / 512 + 1) as [-> ->] by (Z.div_mod_to_equations; lia).
    destruct (Z.ltb_spec 12 (n / 512 + 1)), (Z.ltb_spec 12 (n / 512)), (Z.eqb_spec n 6144); Z.div_mod_to_equations; lia.
  - assert ((n + 511) / 512 = n / 512 + 1 /\ (n + 1 + 511) / 512 = n / 512 + 1) as [-> ->] by (Z.div_mod_to_equations; lia). lia.
Qed.

Lemma disk_at_take V own fb inum k :
  disk_at V own fb -> fb < 1000 -> own !! fb = None /\ disk_at V (<[fb := (inum, k)]> own) (fb + 1).
Proof.
  intros [Hl Ho Hf Hfb] Hlt. assert (own !! fb = None) as Hn.
  { destruct (own !! fb) as [x|] eqn:E; [|done]. apply Ho in E. lia. }
  split; [done|]. constructor; try done; [|intros; apply Hf; lia|lia].
  intros b x. destruct (decide (b = fb)) as [->|Hne]; [lia|]. rewrite lookup_insert_ne by done. intros Hx%Ho. lia.
Qed.

Lemma slot_at_direct V addrs k : 0 <= k < 12 -> slot V addrs k = nth (Z.to_nat k) addrs 0.
Proof. intros Hk. unfold slot, NDIRECT. by zb. Qed.
Lemma slot_at_indirect V addrs k : 12 <= k -> nth 12 addrs 0 <> 0 ->
  slot V addrs k = get32 (V (nth 12 addrs 0)) (Z.to_nat (4 * (k - 12))).
Proof. intros Hk Hn. unfold slot, NDIRECT. by zb. Qed.

Lemma range_insert addrs k a : Forall (fun a => 0 <= a < 1000) addrs -> 0 <= a < 1000 ->
  Forall (fun a => 0 <= a < 1000) (<[k := a]> addrs).
Proof. intros H Ha. by apply Forall_insert. Qed.

Lemma range_nth addrs k : Forall (fun a => 0 <= a < 1000) addrs -> 0 <= nth k addrs 0 < 1000.
Proof.
  intros H. rewrite nth_lookup. destruct (addrs !! k) as [a|] eqn:E; [|simpl; lia]. by eapply Forall_lookup_1 in H.
Qed.

Section got.
Context (V : Z -> list Z) (own : gmap Z (Z * Z)) (fb : Z) (inum : Z) (addrs c : list Z).
Context (Hd : disk_at V own fb) (Hfa : file_at V own inum addrs c).
Let off := Z.of_nat (length c).
Let fbn := off / 512.
Context (Hlt : off < 71680).

Lemma got_old : off mod 512 <> 0 -> got V own fb addrs inum c fbn V own fb addrs (slot V addrs fbn).
Proof.
  intros Hm. assert (0 <= fbn < 140) as Hk by (unfold fbn, off in *; Z.div_mod_to_equations; lia).
  assert (fbn * 512 < off) as Hlt' by (unfold fbn; Z.div_mod_to_equations; lia).
  destruct Hfa as [Hl Hr Hsz Hs Hi Ho Hio Hb]. constructor; try done.
  - apply Ho; [done|]. by apply Hs.
  - rewrite Hi. fold off. unfold fbn in *. Z.div_mod_to_equations; lia.
  - rewrite nblk_next by lia. fold off. rewrite (proj2 (Z.eqb_neq _ _)) by done. lia.
Qed.

(** The slot is empty at a block boundary. *)
Lemma slot_empty : off mod 512 = 0 -> slot V addrs fbn = 0.
Proof.
  intros Hm. assert (0 <= fbn < 140) as Hk by (unfold fbn, off in *; Z.div_mod_to_equations; lia).
  destruct (decide (slot V addrs fbn = 0)) as [|Hne]; [done|]. apply (fa_set Hfa) in Hne; [|done].
  fold off in Hne. unfold fbn in *. Z.div_mod_to_equations; lia.
Qed.

Lemma got_direct : off mod 512 = 0 -> fbn < 12 -> fb < 1000 ->
  got V own fb addrs inum c fbn V (<[fb := (inum, fbn)]> own) (fb + 1) (<[Z.to_nat fbn := fb]> addrs) fb.
Proof.
  intros Hm Hk Hfb. destruct (disk_at_take V own fb inum fbn Hd Hfb) as [Hnone Hd1].
  assert (0 <= fbn) as Hk0 by (unfold fbn, off; Z.div_mod_to_equations; lia).
  pose proof Hfa as [Hl Hr Hsz Hs Hi Ho Hio Hb]. pose proof (da_fb Hd) as Hfb0.
  assert (nth 12 (<[Z.to_nat fbn := fb]> addrs) 0 = nth 12 addrs 0) as E12 by (apply insert_nth_ne; lia).
  assert (~ 6144 < off) as Hoff by (unfold fbn in *; Z.div_mod_to_equations; lia).
  constructor; try done.
  - by apply insert_subseteq.
  - intros k Hkr Hne. unfold slot. rewrite E12. destruct (k <? NDIRECT); [|done]. apply insert_nth_ne. lia.
  - rewrite slot_at_direct by lia. apply insert_nth_eq. lia.
  - by apply lookup_insert_eq.
  - intros []. by apply slot_empty.
  - rewrite E12, Hi. fold off. lia.
  - rewrite E12. intros Hne%Hi. fold off in Hne. lia.
  - by rewrite length_insert.
  - apply range_insert; [done|lia].
  - rewrite nblk_next by lia. fold off. rewrite (proj2 (Z.eqb_eq _ _)) by done.
    rewrite (proj2 (Z.eqb_neq _ _)); [done|]. unfold fbn in *. Z.div_mod_to_equations; lia.
Qed.

(** A new block behind an indirect block that is there. *)
Lemma got_indirect V1 : off mod 512 = 0 -> 12 < fbn -> fb < 1000 ->
  (forall x, V1 x = vset V (nth 12 addrs 0) (put32 (V (nth 12 addrs 0)) (Z.to_nat (4 * (fbn - 12))) fb) x) ->
  got V own fb addrs inum c fbn V1 (<[fb := (inum, fbn)]> own) (fb + 1) addrs fb.
Proof.
  intros Hm Hk Hfb HV. destruct (disk_at_take V own fb inum fbn Hd Hfb) as [Hnone Hd1].
  pose proof Hfa as [Hl Hr Hsz Hs Hi Ho Hio Hb]. pose proof (da_fb Hd) as Hfb0. pose proof (da_len Hd) as HVl.
  assert (fbn < 140) as Hk1 by (unfold fbn, off in *; Z.div_mod_to_equations; lia).
  assert (6144 < off) as Hoff by (unfold fbn in *; Z.div_mod_to_equations; lia).
  assert (nth 12 addrs 0 <> 0) as H12 by (by apply Hi).
  pose proof (Hio H12) as Hown. pose proof (da_own Hd _ _ Hown) as Hrg.
  constructor; try done.
  - constructor; [|apply Hd1| |lia].
    + intros b. rewrite HV. unfold vset. destruct (decide _); [|done]. rewrite length_put32; [done|rewrite HVl; lia].
    + intros b Hb'. rewrite HV, vset_ne by lia. apply (da_free Hd). lia.
  - by apply insert_subseteq.
  - intros b Hb'. rewrite HV, vset_ne; [done|lia].
  - intros b o Ho' Hne. rewrite HV, vset_ne; [done|]. intros ->. rewrite Hown in Ho'. congruence.
  - intros k Hkr Hne. destruct (decide (k < 12)) as [Hk'|Hk']; [by rewrite !slot_at_direct by lia|].
    rewrite !slot_at_indirect by (done || lia). rewrite HV, vset_eq. apply get32_put32_ne; [rewrite HVl; lia|lia].
  - rewrite slot_at_indirect by (done || lia). rewrite HV, vset_eq, get32_put32_eq by (rewrite HVl; lia). apply u32_small. lia.
  - by apply lookup_insert_eq.
  - intros []. by apply slot_empty.
  - rewrite Hi. fold off. lia.
  - intros _. rewrite lookup_insert_ne by lia. done.
  - rewrite nblk_next by lia. fold off. rewrite (proj2 (Z.eqb_eq _ _)) by done.
    rewrite (proj2 (Z.eqb_neq _ _)); [done|]. unfold fbn in *. Z.div_mod_to_equations; lia.
Qed.

(** The first block behind the indirect block, which is new too. *)
Lemma got_first V1 : off = 6144 -> fb < 999 ->
  (forall x, V1 x = vset V fb (put32 zeroes 0 (fb + 1)) x) ->
  got V own fb addrs inum c fbn V1 (<[fb + 1 := (inum, fbn)]> (<[fb := (inum, -1)]> own)) (fb + 2) (<[12%nat := fb]> addrs) (fb + 1).
Proof.
  intros Hoff Hfb HV. destruct (disk_at_take V own fb inum (-1) Hd ltac:(lia)) as [Hnone Hd1].
  destruct (disk_at_take V _ (fb + 1) inum fbn Hd1 ltac:(lia)) as [Hnone2 Hd2].
  pose proof Hfa as [Hl Hr Hsz Hs Hi Ho Hio Hb]. pose proof (da_fb Hd) as Hfb0.
  assert (fbn = 12) as Efbn by (unfold fbn; rewrite Hoff; done).
  assert (nth 12 (<[12%nat := fb]> addrs) 0 = fb) as E12 by (apply insert_nth_eq; lia).
  assert (nth 12 addrs 0 = 0) as H12.
  { destruct (decide (nth 12 addrs 0 = 0)) as [|Hne]; [done|]. apply Hi in Hne. fold off in Hne. lia. }
  assert (forall m, (m + 4 <= 512)%nat -> get32 zeroes m = 0) as Hz0.
  { intros m Hm. unfold get32, get_bytes, zeroes. rewrite drop_replicate, take_replicate.
    replace (4 `min` (Z.to_nat BSIZE - m))%nat with 4%nat by (change (Z.to_nat BSIZE) with 512%nat; lia). done. }
  assert (get32 (V1 fb) 0 = fb + 1) as Hg0.
  { rewrite HV, vset_eq, get32_put32_eq by (simpl; lia). apply u32_small. lia. }
  constructor; try done.
  - constructor; [|replace (fb + 2) with (fb + 1 + 1) by lia; apply Hd2| |lia].
    + intros b. rewrite HV. unfold vset. destruct (decide _); [rewrite length_put32; [done|simpl; lia]|]. apply Hd.
    + intros b Hb'. rewrite HV, vset_ne by lia. apply (da_free Hd). lia.
  - etrans; [|by apply insert_subseteq]. by apply insert_subseteq.
  - intros b Hb'. rewrite HV, vset_ne; [done|lia].
  - intros b o Ho' Hne. rewrite HV, vset_ne; [done|]. intros ->. congruence.
  - intros k Hkr Hne. destruct (decide (k < 12)) as [Hk'|Hk'].
    + rewrite !slot_at_direct by lia. apply insert_nth_ne. lia.
    + rewrite slot_at_indirect by (rewrite ?E12; lia). rewrite E12, HV, vset_eq, get32_put32_ne by (simpl; lia).
      rewrite Hz0 by lia. symmetry. destruct (decide (slot V addrs k = 0)) as [|Hs0]; [done|]. apply Hs in Hs0; [|done]. fold off in Hs0. lia.
  - rewrite Efbn, slot_at_indirect by (rewrite ?E12; lia). rewrite E12. exact Hg0.
  - by apply lookup_insert_eq.
  - intros []. apply slot_empty. by rewrite Hoff.
  - rewrite E12, Efbn. lia.
  - intros _. rewrite E12, lookup_insert_ne by lia. by apply lookup_insert_eq.
  - by rewrite length_insert.
  - apply range_insert; [done|lia].
  - rewrite nblk_next by lia. fold off. rewrite Hoff. done.
Qed.

End got.

(** The inodes differ in their blocks only. *)
Definition same_meta (din din' : dinode) : Prop :=
  di_type din' = di_type din /\ di_major din' = di_major din /\ di_minor din' = di_minor din /\
  di_nlink din' = di_nlink din /\ di_size din' = di_size din.

Lemma wp_next_block s (Q : Z -> mstate -> Prop) :
  0 <= m_freeblock s < 1000 -> Q (m_freeblock s) (set_m_freeblock (m_freeblock s + 1) s) -> wp next_block Q s.
Proof. intros Hb HQ. unfold next_block. wp_steps. rewrite u32_small by lia. done. Qed.

(** What holds before and after file block [off / 512] is got. *)
Definition block_pre s own din inum (c : list Z) : Prop :=
  let off := Z.of_nat (length c) in
  length (m_image s) = 1000%nat /\ disk_at (view (m_image s)) own (m_freeblock s) /\
  file_at (view (m_image s)) own inum (di_addrs din) c /\ off < 71680 /\ m_freeblock s + (nblk (off + 1) - nblk off) <= 1000.
Definition block_post s own din inum (c : list Z) (Q : Z * dinode -> mstate -> Prop) : Prop :=
  forall s' own' din' x, length (m_image s') = 1000%nat -> m_freeinode s' = m_freeinode s -> same_meta din din' ->
    got (view (m_image s)) own (m_freeblock s) (di_addrs din) inum c (Z.of_nat (length c) / 512)
      (view (m_image s')) own' (m_freeblock s') (di_addrs din') x ->
    Q (x, din') s'.

Ltac block_start din :=
  intros V fb off (Hlen & Hd & Hfa & Hlt & Hfb) Hk HQ; unfold block_post in HQ; fold V fb off in Hlen, Hd, Hfa, Hlt, Hfb, HQ;
  pose proof (da_fb Hd) as Hfb0; fold fb in Hfb0;
  pose proof (fa_len Hfa) as Hl13; pose proof (fa_range Hfa) as Hr;
  assert (forall k, xint (nth k (di_addrs din) 0) = nth k (di_addrs din) 0) as Hx
    by (intros k; apply xint_small; pose proof (range_nth _ k Hr); lia);
  assert (0 <= off) as Hoff0 by lia; rewrite nblk_next in Hfb by done.

Lemma wp_block_direct s own din inum c Q :
  let V := view (m_image s) in let fb := m_freeblock s in let off := Z.of_nat (length c) in
  block_pre s own din inum c -> off / 512 < 12 -> block_post s own din inum c Q ->
  wp (addr_of din (Z.to_nat (off / 512))) Q s.
Proof.
  block_start din.
  unfold addr_of. rewrite Hx. rewrite <- (slot_at_direct V) by (Z.div_mod_to_equations; lia).
  destruct (decide (off mod 512 = 0)) as [Hm|Hm].
  + pose proof (slot_empty V own inum _ c Hfa Hlt Hm) as E0. fold off in E0. rewrite E0. cbn [Z.eqb]. rewrite (proj2 (Z.eqb_eq _ _)) in Hfb by done.
    assert (fb < 1000) as Hfb1 by (destruct (off =? 6144); lia).
    apply wp_bind. apply wp_next_block; [fold fb; lia|]. wp_steps. fold fb. rewrite (xint_small fb) by lia.
    assert (nth (Z.to_nat (off / 512)) (di_addrs (set_di_addr (Z.to_nat (off / 512)) fb din)) 0 = fb) as ->.
    { apply insert_nth_eq. Z.div_mod_to_equations; lia. }
    rewrite xint_small by lia. eapply HQ; [done|done|by repeat split|]. by apply got_direct.
  + pose proof (got_old V own fb inum _ c Hd Hfa Hlt Hm) as Hg.
    assert (slot V (di_addrs din) (off / 512) <> 0) as Hne.
    { intros E. pose proof (da_own Hd _ _ (gt_own Hg)) as Hz. fold off in Hz. rewrite E in Hz. lia. }
    rewrite (proj2 (Z.eqb_neq _ _)) by done. wp_steps. eapply HQ; [done|done|by repeat split|exact Hg].
Qed.

Lemma wp_block_indirect s own din inum c Q :
  let V := view (m_image s) in let fb := m_freeblock s in let off := Z.of_nat (length c) in
  block_pre s own din inum c -> 12 <= off / 512 -> block_post s own din inum c Q -> wp (block_of din (off / 512)) Q s.
Proof.
  block_start din. unfold block_of, NDIRECT. rewrite (proj2 (Z.ltb_ge _ 12)) by done.
  change (Z.to_nat 12) with 12%nat. unfold addr_of. rewrite Hx. destruct (decide (off = 6144)) as [Eo|Eo].
  + (* the indirect block is new *)
    assert (nth 12 (di_addrs din) 0 = 0) as E12.
    { destruct (decide (nth 12 (di_addrs din) 0 = 0)) as [|Hne]; [done|]. apply (fa_ind Hfa) in Hne. fold off in Hne. lia. }
    rewrite E12. cbn [Z.eqb]. rewrite Eo in Hfb. change (fb + 2 <= 1000) in Hfb.
    apply wp_bind, wp_bind. apply wp_next_block; [fold fb; lia|]. wp_steps. fold fb. rewrite (xint_small fb) by lia.
    assert (nth 12 (di_addrs (set_di_addr 12 fb din)) 0 = fb) as -> by (apply insert_nth_eq; lia).
    rewrite xint_small by lia. apply wp_rsect; [done|lia|]. cbn [m_image set_m_freeblock]. fold V.
    rewrite (da_free Hd) by lia. rewrite Eo. change (Z.to_nat (4 * (6144 / 512 - 12))) with 0%nat.
    change (get32 zeroes 0 =? 0) with true. cbv iota. apply wp_bind. apply wp_next_block; [cbn; fold fb; lia|].
    cbn [m_freeblock set_m_freeblock m_image]. fold fb. wp_steps. rewrite (xint_small (fb + 1)) by lia.
    apply wp_wsect; [done|lia|]. intros s' [Hl' Hv' Hi' Hb']. wp_steps. rewrite get32_put32_eq by (simpl; lia).
    rewrite u32_small, xint_small by lia. eapply HQ; [done|done|by repeat split|]. rewrite Hb'.
    cbn [m_freeblock set_m_freeblock]. replace (fb + 1 + 1) with (fb + 2) by lia. apply got_first; [done|done|done|exact Eo|lia|exact Hv'].
  + assert (6144 < off) as Hoff by (Z.div_mod_to_equations; lia).
    assert (nth 12 (di_addrs din) 0 <> 0) as H12 by (by apply (fa_ind Hfa)).
    pose proof (range_nth _ 12 Hr) as H12r. rewrite (proj2 (Z.eqb_neq _ 0)) by done. wp_steps.
    apply wp_rsect; [done|lia|]. fold V. rewrite <- (slot_at_indirect V) by (done || lia).
    destruct (decide (off mod 512 = 0)) as [Hm|Hm].
    * pose proof (slot_empty V own inum _ c Hfa Hlt Hm) as E0. fold off in E0. rewrite E0. cbn [Z.eqb]. rewrite (proj2 (Z.eqb_eq _ 0)), (proj2 (Z.eqb_neq off _)) in Hfb by done.
      apply wp_bind. apply wp_next_block; [fold fb; lia|]. fold fb. wp_steps. rewrite (xint_small fb) by lia.
      apply wp_wsect; [done|lia|]. intros s' [Hl' Hv' Hi' Hb']. wp_steps.
      pose proof (da_len Hd (nth 12 (di_addrs din) 0)) as Hvl.
      rewrite get32_put32_eq by (rewrite Hvl; Z.div_mod_to_equations; lia). rewrite u32_small, xint_small by lia.
      eapply HQ; [done|done|by repeat split|]. rewrite Hb'. cbn [m_freeblock set_m_freeblock].
      apply got_indirect; try done; [Z.div_mod_to_equations; lia|lia].
    * pose proof (got_old V own fb inum _ c Hd Hfa Hlt Hm) as Hg. fold off in Hg.
      pose proof (da_own Hd _ _ (gt_own Hg)) as Hz.
      rewrite (proj2 (Z.eqb_neq _ 0)) by lia. wp_steps. rewrite xint_small by lia.
      eapply HQ; [done|done|by repeat split|exact Hg].
Qed.

Lemma wp_block_of s own din inum c Q :
  block_pre s own din inum c -> block_post s own din inum c Q -> wp (block_of din (Z.of_nat (length c) / 512)) Q s.
Proof.
  intros Hp HQ. destruct (decide (Z.of_nat (length c) / 512 < 12)) as [Hk|Hk].
  - unfold block_of, NDIRECT. rewrite (proj2 (Z.ltb_lt _ 12)) by done. by eapply wp_block_direct.
  - eapply wp_block_indirect; [done|lia|done].
Qed.

(** ** Appending *)

Lemma nblk_same n m : 0 <= n -> 0 < m -> n mod 512 + m <= 512 -> nblk (n + m) = nblk (n + 1).
Proof.
  intros Hn Hm Hs. unfold nblk. by assert ((n + m + 511) / 512 = (n + 1 + 511) / 512) as -> by (Z.div_mod_to_equations; lia).
Qed.

Section write.
Context (V : Z -> list Z) (own : gmap Z (Z * Z)) (fb inum : Z) (addrs c : list Z).
Context (V1 : Z -> list Z) (own1 : gmap Z (Z * Z)) (fb1 : Z) (addrs1 : list Z) (x : Z) (chunk : list Z) (V2 : Z -> list Z).
Let off := Z.of_nat (length c).
Context (Hfa : file_at V own inum addrs c).
Context (Hg : got V own fb addrs inum c (off / 512) V1 own1 fb1 addrs1 x).
Context (Hne : chunk <> []) (Hfit : off mod 512 + Z.of_nat (length chunk) <= 512) (Hmax : off < 71680).
Context (HV2 : forall b, V2 b = vset V1 x (put_bytes (V1 x) (Z.to_nat (off mod 512)) chunk) b).

Lemma write_room : (Z.to_nat (off mod 512) + length chunk <= length (V1 x))%nat.
Proof. rewrite (da_len (gt_disk Hg)). pose proof (Z.mod_pos_bound off 512). lia. Qed.

Lemma write_pos : 0 < Z.of_nat (length chunk).
Proof. destruct chunk; [done|]. simpl. lia. Qed.

Lemma write_x : 59 <= x < fb1.
Proof. eapply (da_own (gt_disk Hg)), (gt_own Hg). Qed.

Lemma write_slot k : slot V2 addrs1 k = slot V1 addrs1 k.
Proof.
  apply slot_ext. destruct (decide (nth 12 addrs1 0 = 0)) as [|H12]; [by left|right]. rewrite HV2. apply vset_ne.
  intros E. pose proof (gt_iown Hg H12) as Ho. rewrite E, (gt_own Hg) in Ho.
  injection Ho as Ho. pose proof (Z.div_pos off 512). lia.
Qed.

(** The slots of the longer file are those in use before, and the new one. *)
Lemma write_set k : 0 <= k < 140 ->
  (slot V1 addrs1 k <> 0 <-> k * 512 < off + Z.of_nat (length chunk)) /\
  (slot V1 addrs1 k <> 0 -> own1 !! slot V1 addrs1 k = Some (inum, k)).
Proof.
  intros Hk. pose proof write_pos. pose proof write_x. destruct (decide (k = off / 512)) as [->|Hkn].
  - rewrite (gt_slot Hg). split; [split; [intros _; Z.div_mod_to_equations; lia|lia]|].
    intros _. apply (gt_own Hg).
  - rewrite (gt_slots Hg) by done. rewrite (fa_set Hfa) by done. fold off.
    split; [Z.div_mod_to_equations; lia|]. intros Hs. eapply lookup_weaken; [|apply (gt_sub Hg)].
    apply (fa_own Hfa); [done|]. by apply (fa_set Hfa).
Qed.

Lemma write_bytes j v : (c ++ chunk) !! j = Some v -> nth (j mod 512) (V2 (slot V2 addrs1 (Z.of_nat j / 512))) 0 = v.
Proof.
  intros Hj. pose proof write_room as Hroom. pose proof write_x as Hx. rewrite write_slot, HV2.
  assert (Z.of_nat (j mod 512) = Z.of_nat j mod 512) as Ejm by (rewrite Nat2Z.inj_mod; done).
  destruct (decide (j < length c)%nat) as [Hlt|Hge].
  - rewrite lookup_app_l in Hj by done. pose proof (fa_bytes Hfa j v Hj) as Hv.
    assert (0 <= Z.of_nat j / 512 < 140) as Hk by (unfold off in *; Z.div_mod_to_equations; lia).
    assert (slot V addrs (Z.of_nat j / 512) <> 0) as Hs0.
    { apply (fa_set Hfa); [done|]. Z.div_mod_to_equations; lia. }
    pose proof (fa_own Hfa _ Hk Hs0) as Ho.
    assert (V1 (slot V addrs (Z.of_nat j / 512)) = V (slot V addrs (Z.of_nat j / 512))) as EV.
    { apply (gt_same Hg _ _ Ho). intros E. injection E as E. lia. }
    destruct (decide (Z.of_nat j / 512 = off / 512)) as [Ek|Ek].
    + rewrite Ek in *. pose proof (gt_old Hg Hs0) as Ex. rewrite Ex in *.
      rewrite (gt_slot Hg), vset_eq, nth_put_bytes by done.
      rewrite decide_False, EV by (unfold off in *; Z.div_mod_to_equations; lia). done.
    + rewrite (gt_slots Hg) by done. rewrite vset_ne, EV; [done|]. intros E.
      eapply lookup_weaken in Ho; [|apply (gt_sub Hg)]. rewrite E, (gt_own Hg) in Ho.
      by injection Ho as Ho.
  - rewrite lookup_app_r in Hj by lia. pose proof (lookup_lt_Some _ _ _ Hj) as Hlt.
    assert (Z.of_nat j / 512 = off / 512) as -> by (unfold off in *; Z.div_mod_to_equations; lia).
    rewrite (gt_slot Hg), vset_eq, nth_put_bytes by done.
    rewrite decide_True by (unfold off in *; Z.div_mod_to_equations; lia). apply nth_lookup_Some.
    replace (j mod 512 - Z.to_nat (off mod 512))%nat with (j - length c)%nat; [done|]. unfold off in *. Z.div_mod_to_equations; lia.
Qed.

Lemma write_file : Z.of_nat (length (c ++ chunk)) <= 71680 -> file_at V2 own1 inum addrs1 (c ++ chunk).
Proof.
  intros Hsz. pose proof write_pos as Hpos.
  assert (Z.of_nat (length (c ++ chunk)) = off + Z.of_nat (length chunk)) as El by (rewrite length_app; unfold off; lia).
  constructor; [apply Hg|apply Hg|done|..].
  - intros k Hk. rewrite write_slot, El. by apply write_set.
  - rewrite (gt_ind Hg), El. fold off. Z.div_mod_to_equations; lia.
  - intros k Hk. rewrite write_slot. by apply write_set.
  - apply Hg.
  - apply write_bytes.
Qed.

Lemma write_disk : disk_at V2 own1 fb1.
Proof.
  pose proof write_x. destruct (gt_disk Hg) as [Hl Ho Hf Hfb]. constructor; try done.
  - intros b. rewrite HV2. unfold vset. destruct (decide _); [|done]. rewrite length_put_bytes by apply write_room. apply Hl.
  - intros b Hb. rewrite HV2, vset_ne by lia. by apply Hf.
Qed.

(** Meta data and the blocks of other files stay as they are. *)
Lemma write_meta b : b < 59 -> V2 b = V b.
Proof. intros Hb. pose proof write_x. rewrite HV2, vset_ne by lia. by apply (gt_meta Hg). Qed.

Lemma write_other b i k : own !! b = Some (i, k) -> i <> inum -> V2 b = V b.
Proof.
  intros Ho Hi. rewrite HV2, vset_ne.
  - apply (gt_same Hg _ _ Ho). by intros [= ? _].
  - intros ->. eapply lookup_weaken in Ho; [|apply (gt_sub Hg)].
    rewrite (gt_own Hg) in Ho. by injection Ho as ? _.
Qed.

Lemma write_fb : fb1 = fb + (nblk (off + Z.of_nat (length chunk)) - nblk off).
Proof.
  rewrite (gt_fb Hg). fold off. rewrite (nblk_same off (Z.of_nat (length chunk))); [done|lia|apply write_pos|done].
Qed.

End write.

Lemma nblk_mono n m : n <= m -> nblk n <= nblk m.
Proof.
  intros Hn. unfold nblk. assert ((n + 511) / 512 <= (m + 511) / 512) by (apply Z.div_le_mono; lia).
  destruct (Z.ltb_spec 12 ((n + 511) / 512)), (Z.ltb_spec 12 ((m + 511) / 512)); lia.
Qed.

(** [p] has been appended to the file [inum], whose inode is still in memory. *)
Record appended (s0 : mstate) (own0 : gmap Z (Z * Z)) (inum : Z) (din0 : dinode) (c p : list Z)
  (s : mstate) (own : gmap Z (Z * Z)) (din : dinode) : Prop := {
  ap_len : length (m_image s) = 1000%nat;
  ap_inode : m_freeinode s = m_freeinode s0;
  ap_same : same_meta din0 din;
  ap_disk : disk_at (view (m_image s)) own (m_freeblock s);
  ap_file : file_at (view (m_image s)) own inum (di_addrs din) (c ++ p);
  ap_sub : own0 ⊆ own;
  ap_meta : forall b, b < 59 -> view (m_image s) b = view (m_image s0) b;
  ap_other : forall b i k, own0 !! b = Some (i, k) -> i <> inum -> view (m_image s) b = view (m_image s0) b;
  ap_fb : m_freeblock s = m_freeblock s0 + (nblk (Z.of_nat (length (c ++ p))) - nblk (Z.of_nat (length c)));
}.
Arguments ap_len {_ _ _ _ _ _ _ _ _} _.
Arguments ap_disk {_ _ _ _ _ _ _ _ _} _.
Arguments ap_file {_ _ _ _ _ _ _ _ _} _.
Arguments ap_fb {_ _ _ _ _ _ _ _ _} _.
Arguments ap_other {_ _ _ _ _ _ _ _ _} _.
Arguments ap_meta {_ _ _ _ _ _ _ _ _} _.

Lemma same_meta_trans a b c : same_meta a b -> same_meta b c -> same_meta a c.
Proof. unfold same_meta. intros (? & ? & ? & ? & ?) (? & ? & ? & ? & ?). split_and!; congruence. Qed.

(** One turn of the loop. *)
Lemma appended_turn s0 own0 inum din0 c p q s own din (Q : dinode * Z * list Z + dinode * Z -> mstate -> Prop) :
  let off := Z.of_nat (length (c ++ p)) in
  appended s0 own0 inum din0 c p s own din -> q <> [] -> off + Z.of_nat (length q) <= 71680 ->
  m_freeblock s0 + (nblk (off + Z.of_nat (length q)) - nblk (Z.of_nat (length c))) <= 1000 ->
  (forall s' own' din' n, (0 < n <= length q)%nat -> appended s0 own0 inum din0 c (p ++ take n q) s' own' din' ->
     Q (inl (din', off + Z.of_nat n, drop n q)) s') ->
  wp (iappend_body (din, off, q)) Q s.
Proof.
  intros off Ha Hq Hsz Hfb HQ. assert (0 < Z.of_nat (length q)) as Hpos by (destruct q; [done|simpl; lia]).
  unfold iappend_body. cbv zeta iota beta. rewrite (proj2 (Z.leb_gt _ 0)) by lia.
  change BSIZE with 512. change MAXFILE with 140. rewrite (proj2 (Z.leb_gt 140 _)) by (Z.div_mod_to_equations; lia).
  pose proof (ap_fb Ha) as Efb. fold off in Efb. pose proof (nblk_mono (off + 1) (off + Z.of_nat (length q)) ltac:(lia)) as Hmono.
  apply wp_bind. eapply (wp_block_of s own din inum (c ++ p)).
  { split; [apply Ha|]. split; [apply Ha|]. split; [apply Ha|]. fold off. lia. }
  intros s1 own1 din1 x Hl1 Hi1 Hm1 Hg. fold off in Hg. cbv iota beta.
  set (n1 := Z.to_nat (Z.min (Z.of_nat (length q)) (u32 ((off / 512 + 1) * 512 - off)))).
  assert (Z.of_nat n1 = Z.min (Z.of_nat (length q)) (512 - off mod 512)) as En1.
  { unfold n1. rewrite u32_small by (Z.div_mod_to_equations; lia). Z.div_mod_to_equations; lia. }
  assert (length (take n1 q) = n1) as Elt by (rewrite length_take; lia).
  assert (take n1 q <> []) as Hne by (intros E; apply (f_equal length) in E; cbn in E; Z.div_mod_to_equations; lia).
  pose proof (write_x _ _ _ _ _ _ _ _ _ _ _ Hg) as Hx. pose proof (da_fb (gt_disk Hg)) as Hfb1.
  apply wp_bind. apply wp_rsect; [done|lia|]. apply wp_bind. apply wp_wsect; [done|lia|]. intros s2 [Hl2 Hv2 Hi2 Hb2]. wp_steps.
  replace (Z.to_nat (off - off / 512 * 512)) with (Z.to_nat (off mod 512)) in Hv2 by (Z.div_mod_to_equations; lia).
  rewrite u32_small by (Z.div_mod_to_equations; lia).
  assert (off mod 512 + Z.of_nat (length (take n1 q)) <= 512) as Hfit by (rewrite Elt; lia).
  assert (off < 71680) as Hmax by lia. pose proof (ap_file Ha) as Hfa.
  apply (HQ s2 own1 din1 n1); [Z.div_mod_to_equations; lia|]. constructor.
  - done.
  - rewrite Hi2, Hi1. apply Ha.
  - eapply same_meta_trans; [apply Ha|done].
  - rewrite Hb2. by eapply write_disk.
  - rewrite app_assoc. eapply write_file; try done. rewrite length_app, Elt. fold off. lia.
  - etrans; [apply Ha|apply Hg].
  - intros b Hb. rewrite (write_meta _ _ _ _ _ _ _ _ _ _ _ _ _ Hg Hv2 b Hb). by apply Ha.
  - intros b i k Ho Hi. rewrite (write_other _ _ _ _ _ _ _ _ _ _ _ _ _ Hg Hv2 b i k); [by apply (ap_other Ha b i k)| |done].
    eapply lookup_weaken; [done|apply Ha].
  - rewrite Hb2, app_assoc, length_app, Nat2Z.inj_add. fold off.
    assert (m_freeblock s1 = m_freeblock s + (nblk (off + Z.of_nat (length (take n1 q))) - nblk off)) as E1
      by (eapply write_fb; eassumption). rewrite E1. lia.
Qed.

(** All of [q] is appended. *)
Lemma wp_append s0 own0 inum din0 c p (Q : dinode * Z -> mstate -> Prop) :
  appended s0 own0 inum din0 c [] s0 own0 din0 -> Z.of_nat (length (c ++ p)) <= 71680 ->
  m_freeblock s0 + (nblk (Z.of_nat (length (c ++ p))) - nblk (Z.of_nat (length c))) <= 1000 ->
  (forall s own din, appended s0 own0 inum din0 c p s own din -> Q (din, Z.of_nat (length (c ++ p))) s) ->
  wp (iter (S (length p)) iappend_body (din0, Z.of_nat (length c), p)) Q s0.
Proof.
  intros Ha Hsz Hfb HQ. rewrite length_app, Nat2Z.inj_add in Hsz, Hfb.
  apply (wp_iter (fun st s => exists own p1, p = p1 ++ st.2 /\ st.1.2 = Z.of_nat (length (c ++ p1)) /\
    appended s0 own0 inum din0 c p1 s own st.1.1) (fun st => length st.2)).
  - intros [[din off] q] s (own & p1 & Ep & Eo & Ha1). cbn [fst snd] in *. subst off.
    assert (length p = length p1 + length q)%nat as El by (rewrite Ep; apply length_app).
    destruct q as [|b q].
    + unfold iappend_body. cbn [length Z.of_nat Z.leb Z.compare]. apply wp_ret. rewrite app_nil_r in Ep. subst p1. by eapply HQ.
    + pose proof (length_app c p1) as El1. eapply appended_turn; [done|done| | |].
      * rewrite El1. lia.
      * replace (Z.of_nat (length (c ++ p1)) + Z.of_nat (length (b :: q))) with (Z.of_nat (length c) + Z.of_nat (length p)) by lia. done.
      * intros s' own' din' n Hn Ha2. cbn [fst snd]. split; [|rewrite length_drop; lia]. exists own', (p1 ++ take n (b :: q)).
        split; [by rewrite <- app_assoc, take_drop|]. split; [|done]. rewrite app_assoc, (length_app (c ++ p1)), length_take. lia.
  - exists own0, []. split; [done|]. split; [by rewrite app_nil_r|done].
  - cbn. lia.
Qed.

(** ** Inodes on the image *)

Lemma IBLOCK_sb inum : 0 <= inum < 208 -> IBLOCK inum sb = inum / 8 + 32.
Proof.
  intros Hi. unfold IBLOCK. change IPB with 8. change (sb_inodestart sb) with 32. apply u32_small. Z.div_mod_to_equations; lia.
Qed.

Definition inode_at (V : Z -> list Z) (inum : Z) : dinode := get_dinode (V (IBLOCK inum sb)) (inum mod 8).

Lemma get_put_dinode_ne data n m di :
  length (di_addrs di) = 13%nat -> 0 <= n < 8 -> 0 <= m < 8 -> n <> m -> length data = 512%nat ->
  get_dinode (put_dinode data n di) m = get_dinode data m.
Proof.
  intros Hl Hn Hm Hne Hd. unfold get_dinode, put_dinode, dinode_off.
  assert (forall k w, (k + w <= 64)%nat ->
    get_bytes (put_bytes data (Z.to_nat (64 * n)) (dinode_bytes di)) (Z.to_nat (64 * m) + k) w = get_bytes data (Z.to_nat (64 * m) + k) w) as Hg.
  { intros k w Hk. apply get_put_bytes_ne; rewrite length_dinode_bytes by done; lia. }
  pose proof (Hg 0%nat 2%nat ltac:(lia)) as H0. rewrite Nat.add_0_r in H0. unfold get16, get32. rewrite H0, !Hg by lia. f_equal.
  apply list_fmap_ext. intros i x Hx. apply lookup_seq in Hx as [-> Hx]. rewrite <- Nat.add_assoc, Hg by lia. done.
Qed.

Section winode.
Context (s : mstate) (Hlen : length (m_image s) = 1000%nat) (HV : forall b, length (view (m_image s) b) = 512%nat).

(** Inode [inum] is changed to [di]. *)
Record wrote_inode (inum : Z) (di : dinode) (s' : mstate) : Prop := {
  wi_len : length (m_image s') = 1000%nat;
  wi_inode : m_freeinode s' = m_freeinode s;
  wi_block : m_freeblock s' = m_freeblock s;
  wi_size : forall b, length (view (m_image s') b) = 512%nat;
  wi_eq : inode_at (view (m_image s')) inum = di;
  wi_ne : forall j, 0 <= j < 208 -> j <> inum -> inode_at (view (m_image s')) j = inode_at (view (m_image s)) j;
  wi_other : forall b, ~ 32 <= b < 58 -> view (m_image s') b = view (m_image s) b;
}.

Lemma wp_winode inum di (Q : unit -> mstate -> Prop) :
  0 <= inum < 208 -> dinode_range di -> (forall s', wrote_inode inum di s' -> Q tt s') -> wp (winode inum di) Q s.
Proof.
  intros Hi Hr HQ. unfold winode. pose proof (IBLOCK_sb inum Hi) as Eb. change IPB with 8.
  assert (32 <= IBLOCK inum sb < 58) as Hb by (rewrite Eb; Z.div_mod_to_equations; lia).
  pose proof (Z.mod_pos_bound inum 8 ltac:(lia)) as Hm. pose proof (dr_len _ Hr) as Hl13.
  apply wp_bind, wp_rsect; [done|lia|]. apply wp_wsect; [done|lia|]. intros s' [Hl' Hv' Hi' Hb']. apply HQ.
  constructor; try done.
  - intros b. rewrite Hv'. unfold vset. destruct (decide _); [|done]. unfold put_dinode.
    rewrite length_put_bytes; [apply HV|]. rewrite HV, length_dinode_bytes by done. unfold dinode_off. lia.
  - unfold inode_at. rewrite Hv', vset_eq. apply get_put_dinode; [done|done|apply HV].
  - intros j Hj Hne. unfold inode_at. rewrite Hv'. destruct (decide (IBLOCK j sb = IBLOCK inum sb)) as [E|E].
    + rewrite E, vset_eq. rewrite !IBLOCK_sb in E by done.
      pose proof (Z.mod_pos_bound j 8 ltac:(lia)). apply get_put_dinode_ne; try done. Z.div_mod_to_equations; lia.
    + by rewrite vset_ne.
  - intros b Hnb. rewrite Hv', vset_ne; [done|lia].
Qed.

Lemma wp_rinode inum (Q : dinode -> mstate -> Prop) :
  0 <= inum < 208 -> Q (inode_at (view (m_image s)) inum) s -> wp (rinode inum) Q s.
Proof.
  intros Hi HQ. unfold rinode. assert (32 <= IBLOCK inum sb < 58) as Hb by (rewrite IBLOCK_sb by done; Z.div_mod_to_equations; lia).
  apply wp_bind, wp_rsect; [done|lia|]. by apply wp_ret.
Qed.

End winode.

(** ** The image *)

(** Type and contents of the inodes, from inode 1 on. *)
Abbreviation files_on := (list (Z * list Z)).

Definition total (fs : files_on) : Z := foldr (fun f n => nblk (Z.of_nat (length f.2)) + n) 0 fs.

Definition file_inode (ty : Z) (c addrs : list Z) : dinode := mkDinode ty 0 0 1 (Z.of_nat (length c)) addrs.

Record image_ok (s : mstate) (own : gmap Z (Z * Z)) (fs : files_on) : Prop := {
  im_len : length (m_image s) = 1000%nat;
  im_disk : disk_at (view (m_image s)) own (m_freeblock s);
  im_count : m_freeinode s = Z.of_nat (length fs) + 1;
  im_max : (length fs <= 207)%nat;
  im_types : Forall (fun f => is_short f.1) fs;
  im_files : forall i ty c, fs !! i = Some (ty, c) -> exists addrs,
    inode_at (view (m_image s)) (Z.of_nat i + 1) = file_inode ty c addrs /\
    file_at (view (m_image s)) own (Z.of_nat i + 1) addrs c;
  im_fb : m_freeblock s = 59 + total fs;
  im_sb : view (m_image s) 1 = put_bytes zeroes 0 (sb_bytes sb);
  im_log : forall b, 2 <= b < 32 -> view (m_image s) b = zeroes;
}.
Arguments im_files {_ _ _} _.

Lemma total_insert fs i ty c c' : fs !! i = Some (ty, c) ->
  total (<[i := (ty, c')]> fs) = total fs + (nblk (Z.of_nat (length c')) - nblk (Z.of_nat (length c))).
Proof.
  revert i. induction fs as [|f fs IH]; intros [|i] Hi; [done|done| |].
  - injection Hi as ->. cbn. lia.
  - change (nblk (Z.of_nat (length f.2)) + total (<[i := (ty, c')]> fs) =
      nblk (Z.of_nat (length f.2)) + total fs + (nblk (Z.of_nat (length c')) - nblk (Z.of_nat (length c)))).
    rewrite (IH i Hi). lia.
Qed.

Lemma total_files_app fs fs' : total (fs ++ fs') = total fs + total fs'.
Proof. induction fs as [|f fs IH]; [done|]. unfold total in *. cbn. lia. Qed.

Lemma file_inode_range V own inum ty c addrs : is_short ty -> file_at V own inum addrs c -> dinode_range (file_inode ty c addrs).
Proof.
  intros Ht Hf. pose proof (fa_size Hf). constructor; cbn; try (unfold is_short in *; lia); [apply Hf|].
  eapply Forall_impl; [exact (fa_range Hf)|]. intros a Ha. cbn in Ha. lia.
Qed.

(** Inodes below 208 are in the blocks of meta data. *)
Lemma inode_at_ext V V' j : 0 <= j < 208 -> (forall b, b < 59 -> V' b = V b) -> inode_at V' j = inode_at V j.
Proof. intros Hj HV. unfold inode_at. rewrite HV; [done|]. rewrite IBLOCK_sb by done. Z.div_mod_to_equations; lia. Qed.

Lemma wp_iappend s own fs i ty c p (Q : unit -> mstate -> Prop) :
  image_ok s own fs -> fs !! i = Some (ty, c) -> Z.of_nat (length (c ++ p)) <= 71680 ->
  total fs + (nblk (Z.of_nat (length (c ++ p))) - nblk (Z.of_nat (length c))) <= 941 ->
  (forall s' own', image_ok s' own' (<[i := (ty, c ++ p)]> fs) -> Q tt s') ->
  wp (iappend (Z.of_nat i + 1) p) Q s.
Proof.
  intros [Hlen Hd Hcnt Hmax Hty Hfs Hfb Hsb Hlog] Hi Hsz Htot HQ. pose proof (lookup_lt_Some _ _ _ Hi) as Hlt.
  destruct (Hfs _ _ _ Hi) as (addrs & Ein & Hfa). unfold iappend. apply wp_bind, wp_rinode; [done|lia|]. rewrite Ein.
  cbn [file_inode di_size]. rewrite xint_small by (pose proof (fa_size Hfa); lia).
  assert (is_short ty) as Hts by (eapply (Forall_lookup_1 _ _ _ _ Hty Hi)).
  apply wp_bind. eapply (wp_append s own (Z.of_nat i + 1) (file_inode ty c addrs)); [|done|lia|].
  { constructor; try done; [by rewrite app_nil_r|]. rewrite app_nil_r. lia. }
  intros s1 own1 din1 Ha. cbv iota beta. rewrite xint_small by lia.
  assert (set_di_size (Z.of_nat (length (c ++ p))) din1 = file_inode ty (c ++ p) (di_addrs din1)) as ->.
  { destruct (ap_same _ _ _ _ _ _ _ _ _ Ha) as (E1 & E2 & E3 & E4 & _). unfold set_di_size. rewrite E1, E2, E3, E4. done. }
  pose proof (ap_disk Ha) as Hd1. eapply wp_winode; [apply Ha|apply Hd1|lia|by eapply file_inode_range, (ap_file Ha)|].
  intros s2 [Hl2 Hi2 Hb2 Hsz2 Heq2 Hne2 Hot2]. apply (HQ s2 own1).
  assert (forall b x, own1 !! b = Some x -> view (m_image s2) b = view (m_image s1) b) as Hdata.
  { intros b x Hb. apply Hot2. apply (da_own Hd1) in Hb. lia. }
  constructor; try done.
  - constructor; [done|rewrite Hb2; apply Hd1| |rewrite Hb2; apply Hd1].
    intros b Hb. rewrite Hb2 in Hb. rewrite Hot2 by (pose proof (da_fb Hd1); lia). apply (da_free Hd1). lia.
  - rewrite length_insert, Hi2, (ap_inode _ _ _ _ _ _ _ _ _ Ha). done.
  - by rewrite length_insert.
  - apply Forall_insert; done.
  - intros j ty' c' Hj. destruct (decide (j = i)) as [->|Hne].
    + rewrite list_lookup_insert_eq in Hj by done. injection Hj as <- <-. exists (di_addrs din1). split; [done|].
      eapply file_at_ext; [apply Ha|done|]. intros b k Hb. by eapply Hdata.
    + rewrite list_lookup_insert_ne in Hj by done. pose proof (lookup_lt_Some _ _ _ Hj). destruct (Hfs _ _ _ Hj) as (a' & Ein' & Hfa').
      exists a'. split; [rewrite Hne2 by lia; rewrite <- Ein'; apply inode_at_ext; [lia|apply Ha]|].
      eapply file_at_ext; [done|apply Ha|]. intros b k Hb. etrans; [|eapply (ap_other Ha); [done|lia]].
      eapply Hdata, lookup_weaken; [done|apply Ha].
  - rewrite Hb2, (ap_fb Ha), Hfb, (total_insert fs i ty c (c ++ p)) by done. lia.
  - rewrite Hot2, (ap_meta Ha) by lia. done.
  - intros b Hb. rewrite Hot2 by lia. rewrite (ap_meta Ha) by lia. by apply Hlog.
Qed.

(** ** The steps of main *)

Lemma nth_zeros k : nth k (replicate 13 0) 0 = 0.
Proof. rewrite nth_lookup. destruct (replicate 13 0 !! k) as [x|] eqn:E; [|done]. by apply lookup_replicate in E as [-> _]. Qed.

Lemma file_at_empty V own inum : file_at V own inum (replicate 13 0) [].
Proof.
  assert (forall k, slot V (replicate 13 0) k = 0) as Hs.
  { intros k. unfold slot. rewrite !nth_zeros. by destruct (k <? NDIRECT). }
  constructor; try done.
  - apply Forall_replicate. lia.
  - intros k Hk. rewrite Hs. cbn. lia.
  - intros k Hk. by rewrite Hs.
Qed.

Lemma wp_ialloc s own fs ty (Q : Z -> mstate -> Prop) :
  image_ok s own fs -> is_short ty -> (length fs <= 206)%nat ->
  (forall s', image_ok s' own (fs ++ [(ty, [])]) -> Q (Z.of_nat (length fs) + 1) s') ->
  wp (ialloc ty) Q s.
Proof.
  intros [Hlen Hd Hcnt Hmax Hty Hfs Hfb Hsb Hlog] Ht Hl HQ. unfold ialloc, next_inode. wp_steps. rewrite Hcnt.
  rewrite u32_small by lia. set (s1 := set_m_freeinode (Z.of_nat (length fs) + 1 + 1) s).
  change (xshort ty) with (le2z (z2le 2 ty)). rewrite s16_bytes by done. change (s16 (xshort 1)) with 1. change (xint 0) with 0.
  change (mkDinode ty 0 0 1 0 (replicate 13 0)) with (file_inode ty [] (replicate 13 0)).
  apply (wp_winode s1); [done|apply Hd|lia|by eapply file_inode_range, (file_at_empty (view (m_image s)) own 0)|].
  intros s2 [Hl2 Hi2 Hb2 Hsz2 Heq2 Hne2 Hot2]. wp_steps. apply HQ. change (m_image s1) with (m_image s) in *.
  assert (forall b x, own !! b = Some x -> view (m_image s2) b = view (m_image s) b) as Hdata.
  { intros b x Hb. apply Hot2. apply (da_own Hd) in Hb. lia. }
  constructor; try done.
  - rewrite Hb2. constructor; [done|apply Hd| |apply Hd]. intros b Hb.
    change (m_freeblock s1) with (m_freeblock s) in Hb. rewrite Hot2 by (pose proof (da_fb Hd); lia). apply (da_free Hd). lia.
  - rewrite Hi2, length_app. cbn. lia.
  - rewrite length_app. cbn. lia.
  - apply Forall_app. split; [done|]. by constructor.
  - intros j ty' c' Hj. destruct (decide (j < length fs)%nat) as [Hlt|Hge].
    + rewrite lookup_app_l in Hj by done. destruct (Hfs _ _ _ Hj) as (a & Ein & Hfa). exists a.
      split; [by rewrite Hne2 by lia|]. eapply file_at_ext; [done|done|]. intros b k Hb. by eapply Hdata.
    + rewrite lookup_app_r in Hj by lia. apply list_lookup_singleton_Some in Hj as [Hj [= <- <-]].
      exists (replicate 13 0). replace (Z.of_nat j) with (Z.of_nat (length fs)) by lia. split; [done|]. apply file_at_empty.
  - rewrite Hb2, total_files_app. change (m_freeblock s = 59 + (total fs + 0)). lia.
  - by rewrite Hot2 by lia.
  - intros b Hb. rewrite Hot2 by lia. by apply Hlog.
Qed.

Lemma wp_init_image (Q : unit -> mstate -> Prop) :
  (forall s, image_ok s ∅ [] -> Q tt s) -> wp init_image Q mkfs_start.
Proof.
  intros HQ. unfold init_image. apply wp_bind. change (Z.to_nat FSSIZE) with 1000%nat.
  apply (wp_for_each_seq (fun i s => s = mkMstate (replicate i zeroes) 1 59)).
  - intros i s Hi ->. unfold wsect. wp_steps. rewrite sector_small by lia. rewrite Nat2Z.id. unfold set_m_image. cbn [m_image m_freeinode m_freeblock].
    f_equal. unfold write_sector. rewrite length_replicate, Nat.ltb_irrefl, Nat.sub_diag. symmetry. apply replicate_S_end.
  - done.
  - intros s ->. set (s0 := mkMstate (replicate 1000 zeroes) 1 59). apply (wp_wsect s0); [apply length_replicate|lia|].
    intros s' [Hl Hv Hi Hb]. apply HQ.
    assert (forall b, view (m_image s0) b = zeroes) as Hz.
    { intros b. unfold view, s0. cbn [m_image]. destruct (b <? 0); [done|]. rewrite nth_lookup.
      destruct (replicate 1000 zeroes !! Z.to_nat b) as [x|] eqn:E; [|done]. by apply lookup_replicate in E as [-> _]. }
    constructor; try done.
    + rewrite Hb. constructor; [|done| |cbn; lia].
      * intros b. rewrite Hv. unfold vset. destruct (decide _); [done|]. by rewrite Hz.
      * intros b Hb'. cbn in Hb'. rewrite Hv, vset_ne by lia. apply Hz.
    + cbn. lia.
    + intros b Hb'. rewrite Hv, vset_ne by lia. apply Hz.
Qed.

(** Reading a file in pieces appends them one after the other. *)
Lemma wp_append_reads reads s own fs i ty c (Q : unit -> mstate -> Prop) :
  image_ok s own fs -> fs !! i = Some (ty, c) -> Z.of_nat (length (c ++ concat reads)) <= 71680 ->
  total fs + (nblk (Z.of_nat (length (c ++ concat reads))) - nblk (Z.of_nat (length c))) <= 941 ->
  (forall s' own', image_ok s' own' (<[i := (ty, c ++ concat reads)]> fs) -> Q tt s') ->
  wp (for_each reads (iappend (Z.of_nat i + 1))) Q s.
Proof.
  revert s own fs c. induction reads as [|r reads IH]; intros s own fs c Him Hi Hsz Htot HQ; cbn [for_each concat] in *.
  - apply wp_ret, (HQ s own). rewrite app_nil_r, list_insert_id by done. done.
  - rewrite app_assoc in Hsz, Htot, HQ. pose proof (length_app (c ++ r) (concat reads)) as El.
    pose proof (nblk_mono (Z.of_nat (length (c ++ r))) (Z.of_nat (length ((c ++ r) ++ concat reads))) ltac:(lia)).
    apply wp_bind. eapply wp_iappend; [done|done|lia|lia|]. intros s1 own1 Him1.
    eapply (IH s1 own1 _ (c ++ r)); [done| |lia| |].
    + apply list_lookup_insert_eq. by apply lookup_lt_Some in Hi.
    + rewrite (total_insert fs i ty c) by done. lia.
    + intros s' own'. rewrite list_insert_insert_eq. apply HQ.
Qed.

(** ** What main builds *)

Definition data_of (f : hostfile) : list Z := match f.2 with Some reads => concat reads | None => [] end.

(** The directory entries of the files, from inode [n] on. *)
Fixpoint entries (n : Z) (files : list hostfile) : list Z :=
  match files with [] => [] | f :: files => entry n (skip_under f.1) ++ entries (n + 1) files end.

Definition root_data (files : list hostfile) : list Z :=
  entry 1 [ch_dot] ++ entry 1 [ch_dot; ch_dot] ++ entries 2 files.

Definition built (files : list hostfile) : files_on := (T_DIR, root_data files) :: ((fun f => (T_FILE, data_of f)) <$> files).

(** A file that mkfs can add. *)
Definition file_fits (f : hostfile) : Prop :=
  existsb (Z.eqb ch_slash) f.1 = false /\ is_Some f.2 /\ Z.of_nat (length (data_of f)) <= MAXFILE * BSIZE.

Lemma entries_app n files files' : entries n (files ++ files') = entries n files ++ entries (n + Z.of_nat (length files)) files'.
Proof.
  revert n. induction files as [|f files IH]; intros n; cbn [entries app length]; [by rewrite Z.add_0_r|].
  rewrite IH, app_assoc. do 2 f_equal. lia.
Qed.

Lemma length_strncpy t n : length (strncpy t n) = n.
Proof.
  revert t. induction n as [|n IH]; intros t; [done|]. cbn. destruct t as [|b t]; [|destruct (b =? 0)]; cbn; by rewrite IH.
Qed.

Lemma length_entry n name : length (entry n name) = 16%nat.
Proof. unfold entry, dirent_bytes. cbn [de_inum de_name]. by rewrite length_app, length_z2le, length_strncpy. Qed.

Lemma length_entries n files : length (entries n files) = (16 * length files)%nat.
Proof.
  revert n. induction files as [|f files IH]; intros n; [done|]. cbn [entries length]. rewrite length_app, length_entry, IH. lia.
Qed.

Lemma length_root files : length (root_data files) = (16 * (length files + 2))%nat.
Proof. unfold root_data. rewrite !length_app, !length_entry, length_entries. lia. Qed.

Lemma root_snoc files f : root_data (files ++ [f]) = root_data files ++ entry (Z.of_nat (length files) + 2) (skip_under f.1).
Proof. unfold root_data. rewrite entries_app. cbn [entries]. rewrite app_nil_r, <- !app_assoc. do 4 f_equal. lia. Qed.

Lemma nblk_nonneg n : 0 <= n -> 0 <= nblk n.
Proof. intros Hn. change 0 with (nblk 0) at 1. by apply nblk_mono. Qed.

Lemma total_files_nonneg fs : 0 <= total fs.
Proof.
  induction fs as [|f fs IH]; [done|]. change (0 <= nblk (Z.of_nat (length f.2)) + total fs). pose proof (nblk_nonneg (Z.of_nat (length f.2)) ltac:(lia)). lia.
Qed.

Lemma total_built files f rest : total (built (files ++ [f])) <= total (built (files ++ f :: rest)).
Proof.
  unfold built. rewrite !fmap_app. change (total ((T_DIR, ?a) :: ?l)) with (nblk (Z.of_nat (length a)) + total l).
  rewrite !total_files_app, !length_root, !length_app. change (total ((fun f => (T_FILE, data_of f)) <$> f :: rest)) with
    (nblk (Z.of_nat (length (data_of f))) + total ((fun f => (T_FILE, data_of f)) <$> rest)).
  change (total ((fun f => (T_FILE, data_of f)) <$> [f])) with (nblk (Z.of_nat (length (data_of f))) + 0).
  pose proof (total_files_nonneg ((fun f => (T_FILE, data_of f)) <$> rest)).
  pose proof (nblk_mono (Z.of_nat (16 * (length files + length [f] + 2))) (Z.of_nat (16 * (length files + length (f :: rest) + 2)))
    ltac:(cbn [length]; lia)). lia.
Qed.

Lemma lookup_last {A} (x y : A) l n : length l = n -> (x :: l ++ [y]) !! S n = Some y.
Proof. intros <-. change ((l ++ [y]) !! length l = Some y). by rewrite lookup_app_r, Nat.sub_diag by lia. Qed.

Lemma insert_last {A} (x y y' : A) l n : length l = n -> <[S n := y']> (x :: l ++ [y]) = x :: l ++ [y'].
Proof. intros <-. change (x :: <[length l := y']> (l ++ [y]) = x :: l ++ [y']). by rewrite insert_app_r_alt, Nat.sub_diag by lia. Qed.

Lemma wp_add_file s own files f (Q : unit -> mstate -> Prop) :
  image_ok s own (built files) -> file_fits f -> (length files < 198)%nat -> total (built (files ++ [f])) <= 941 ->
  (forall s' own', image_ok s' own' (built (files ++ [f])) -> Q tt s') -> wp (add_file 1 f) Q s.
Proof.
  intros Him (Hn & [reads Hr] & Hsz) Hl Htot HQ. destruct f as [name data]. cbn [fst snd] in *. subst data. unfold add_file. rewrite Hn.
  change (data_of (name, Some reads)) with (concat reads) in Hsz. change (MAXFILE * BSIZE) with 71680 in Hsz.
  assert (length (built files) = S (length files)) as Elb by (cbn; by rewrite length_fmap).
  set (f := (name, Some reads) : hostfile). set (r1 := root_data files). set (r2 := root_data (files ++ [f])).
  set (fl := (fun f => (T_FILE, data_of f)) <$> files).
  assert (r2 = r1 ++ entry (Z.of_nat (length files) + 2) (skip_under name)) as Er by apply root_snoc.
  assert (total (built (files ++ [f])) = nblk (Z.of_nat (length r2)) + (total fl + nblk (Z.of_nat (length (concat reads))))) as Et.
  { unfold built. rewrite fmap_app. fold r2 fl. change (total ((T_DIR, r2) :: ?l)) with (nblk (Z.of_nat (length r2)) + total l).
    rewrite total_files_app. change (total ((fun f => (T_FILE, data_of f)) <$> [f])) with (nblk (Z.of_nat (length (concat reads))) + 0). lia. }
  assert (total (built files ++ [(T_FILE, [])]) = nblk (Z.of_nat (length r1)) + total fl) as Et0.
  { rewrite total_files_app. change (total (built files)) with (nblk (Z.of_nat (length r1)) + total fl). change (total [(T_FILE, [])]) with 0. lia. }
  pose proof (nblk_nonneg (Z.of_nat (length (concat reads))) ltac:(lia)) as Hnn. fold f in Htot, HQ.
  apply wp_bind. eapply wp_ialloc; [done|unfold is_short, T_FILE; lia|lia|]. intros s1 Him1. rewrite Elb. apply wp_bind.
  replace (Z.of_nat (S (length files)) + 1) with (Z.of_nat (length files) + 2) by lia.
  apply (wp_iappend s1 own (built files ++ [(T_FILE, [])]) 0 T_DIR r1); [exact Him1|done| |rewrite <- Er, Et0; lia|].
  - rewrite <- Er. unfold r2. rewrite length_root, length_app. cbn [length]. lia.
  - rewrite <- Er. intros s2 own2 Him2. replace (Z.of_nat (length files) + 2) with (Z.of_nat (S (length files)) + 1) by lia.
    change (<[0%nat := (T_DIR, r2)]> (built files ++ [(T_FILE, [])])) with ((T_DIR, r2) :: fl ++ [(T_FILE, [])]) in Him2.
    assert (((T_DIR, r2) :: fl ++ [(T_FILE, [])]) !! S (length files) = Some (T_FILE, [])) as Hlast.
    { apply lookup_last. unfold fl. apply length_fmap. }
    eapply (wp_append_reads reads s2 own2 _ (S (length files)) T_FILE []); [done|done|done| |].
    + change (total ((T_DIR, r2) :: ?l)) with (nblk (Z.of_nat (length r2)) + total l). rewrite total_files_app.
      change (total [(T_FILE, [])]) with 0. change ([] ++ concat reads) with (concat reads). change (nblk (Z.of_nat (length []))) with 0. lia.
    + intros s3 own3 Him3. apply (HQ s3 own3). unfold built. rewrite fmap_app. fold r2 fl.
      rewrite insert_last in Him3 by (unfold fl; apply length_fmap). exact Him3.
Qed.

Lemma wp_add_files rest s own files (Q : unit -> mstate -> Prop) :
  image_ok s own (built files) -> Forall file_fits rest -> (length (files ++ rest) <= 198)%nat ->
  total (built (files ++ rest)) <= 941 ->
  (forall s' own', image_ok s' own' (built (files ++ rest)) -> Q tt s') -> wp (for_each rest (add_file 1)) Q s.
Proof.
  intros Him Hfit. revert s own files Him. induction Hfit as [|f rest Hf Hfit IH]; intros s own files Him Hl Htot HQ; cbn [for_each].
  - apply wp_ret, (HQ s own). by rewrite app_nil_r.
  - apply wp_bind. eapply wp_add_file; [done|done| | |].
    + rewrite length_app in Hl. cbn in Hl. lia.
    + pose proof (total_built files f rest). lia.
    + intros s' own' Him'. eapply IH; [done|..]; rewrite <- app_assoc; done.
Qed.

(** ** The free map *)

Lemma bit_clear_zeroes b : bit_clear zeroes b = true.
Proof.
  unfold bit_clear, zeroes. rewrite nth_lookup. destruct (replicate (Z.to_nat BSIZE) 0 !! Z.to_nat (b / 8)) as [x|] eqn:E; [|done].
  by apply lookup_replicate in E as [-> _].
Qed.

Lemma used_bits_spec n b : 0 <= n <= 4096 -> 0 <= b < 4096 ->
  length (used_bits n) = 512%nat /\ bit_clear (used_bits n) b = negb (b <? n).
Proof.
  intros Hn Hb. unfold used_bits. replace n with (Z.of_nat (Z.to_nat n)) in * by lia. induction (Z.to_nat n) as [|k IH].
  - split; [done|]. rewrite (proj2 (Z.ltb_ge _ _)) by lia. apply bit_clear_zeroes.
  - destruct IH as [IHl IH]; [lia|]. rewrite seqZ_S, foldl_snoc, Nat2Z.inj_succ. rewrite Z.add_0_l.
    split; [by rewrite length_set_bit|]. rewrite set_bit_spec; [|lia|lia|rewrite IHl; Z.div_mod_to_equations; lia].
    destruct (decide (Z.of_nat k = b)) as [<-|Hne]; [by rewrite (proj2 (Z.ltb_lt _ _)) by lia|]. rewrite IH. f_equal.
    destruct (Z.ltb_spec b (Z.of_nat k)), (Z.ltb_spec b (Z.succ (Z.of_nat k))); (done || lia).
Qed.

Lemma BBLOCK_sb a : 0 <= a < 1000 -> BBLOCK a sb = 58 /\ a mod BPB = a.
Proof.
  intros Ha. unfold BBLOCK. change BPB with 4096. change (sb_bmapstart sb) with 58. rewrite Z.div_small, Z.mod_small by lia. done.
Qed.

(** ** The theorem *)

Section spec.
Context `{KernelImage} (Hdisk : FSSIZE <= disksize).

(** The number of block [k] of inode [n], 0 if there is none; block -1 is the
    indirect block. *)
Definition block_no (V : Z -> list Z) (n k : Z) : Z :=
  let addrs := di_addrs (inode_at V n) in if k =? -1 then nth 12 addrs 0 else slot V addrs k.

(** An image as the kernel sees it, through the block contents [V]: the file
    system of sector 1 with an empty log, its free map, the root directory, and
    the files under the inode numbers of their entries. *)
Record image_spec (files : list hostfile) (V : Z -> list Z) : Prop := {
  is_sb : sb_of_bytes (V 1) = sb;
  is_log : get32 (V (sb_logstart sb)) 0 = 0;
  is_fs : fs_ok (sb_logstart sb) sb nmeta V;
  is_used : forall a, 0 <= a < FSSIZE -> used V sb a <-> a < nmeta + total (built files);
  is_root : exists addrs,
    inode_at V ROOTINO = mkDinode T_DIR 0 0 1 ((Z.of_nat (length (root_data files)) / BSIZE + 1) * BSIZE) addrs /\
    file_bytes V addrs 0 (Z.of_nat (length (root_data files))) = root_data files;
  is_file : forall i f ip, files !! i = Some f -> i_dev ip = 1 ->
    let ip' := load_inode (inode_at V (Z.of_nat i + 2)) ip in
    i_type ip' = T_FILE /\ i_nlink ip' = 1 /\ inode_wf sb nmeta V ip' /\ contents V ip' = data_of f;
  is_apart : forall n n' k k', 1 <= n <= Z.of_nat (length files) + 1 -> 1 <= n' <= Z.of_nat (length files) + 1 ->
    -1 <= k < MAXFILE -> -1 <= k' < MAXFILE -> block_no V n k <> 0 -> block_no V n k = block_no V n' k' -> n = n' /\ k = k';
}.

(** The bytes of a file are found through its inode. *)
Lemma file_at_bytes V own inum addrs c n : file_at V own inum addrs c -> 0 <= n <= Z.of_nat (length c) ->
  file_bytes V addrs 0 n = take (Z.to_nat n) c.
Proof.
  intros Hf Hn. apply list_eq. intros j. unfold file_bytes. rewrite list_lookup_fmap. pose proof (fa_size Hf) as Hsz.
  destruct (decide (Z.of_nat j < n)) as [Hj|Hj].
  - rewrite lookup_seqZ_lt, lookup_take_lt by lia. destruct (lookup_lt_is_Some_2 c j) as [v Hv]; [lia|]. rewrite Hv. cbn. f_equal.
    unfold file_byte. change BSIZE with 512. rewrite Z.add_0_l.
    assert (slot V addrs (Z.of_nat j / 512) <> 0) as Hs by (apply (fa_set Hf); Z.div_mod_to_equations; lia).
    rewrite slot_file_block by done. rewrite <- (fa_bytes Hf j v Hv). f_equal. rewrite <- (Nat2Z.id (j mod 512)), Nat2Z.inj_mod. done.
  - rewrite lookup_seqZ_ge, lookup_take_ge by lia. done.
Qed.

(** Every block of a file is a data block, and no two are the same. *)
Lemma file_at_wf V own fb inum addrs c ty ip :
  disk_at V own fb -> (forall a, 0 <= a < 1000 -> used V sb a <-> a < fb) -> i_dev ip = 1 -> file_at V own inum addrs c ->
  inode_wf sb nmeta V (load_inode (file_inode ty c addrs) ip).
Proof.
  intros Hd Hu Hdev Hf. pose proof (da_fb Hd) as Hfb.
  assert (forall a x, own !! a = Some x -> data_block sb nmeta V a) as Hdb.
  { intros a x Ha. apply (da_own Hd) in Ha. split; [change nmeta with 59; change (sb_size sb) with 1000; lia|]. apply Hu; lia. }
  set (ip' := load_inode (file_inode ty c addrs) ip). assert (i_dev ip' = 1) as Ed by done.
  assert (i_addrs ip' = addrs) as Ea by done. assert (i_size ip' = Z.of_nat (length c)) as Es by done. clearbody ip'.
  constructor; rewrite ?Ea, ?Es; change MAXFILE with 140.
  - done.
  - apply Hf.
  - pose proof (fa_size Hf). change (140 * BSIZE) with 71680. lia.
  - intros k Hk Hs. eapply Hdb. by apply (fa_own Hf).
  - intros Hs. eapply Hdb. by apply (fa_iown Hf).
  - intros k k' Hk Hk' Hs E. pose proof (fa_own Hf k Hk Hs) as Ho. rewrite E in Ho, Hs. rewrite (fa_own Hf k' Hk' Hs) in Ho. by injection Ho.
  - intros k Hk Hs E. pose proof (fa_own Hf k Hk Hs) as Ho. rewrite E in Ho, Hs. rewrite (fa_iown Hf Hs) in Ho. injection Ho as Ho. lia.
  - intros k Hk Hlt. apply (fa_set Hf); unfold BSIZE in Hlt; pose proof (fa_size Hf); lia.
Qed.

(** The last two steps of main: the size of the root directory and the free map. *)
Record finished (s s' : mstate) (files : list hostfile) : Prop := {
  fi_map : view (m_image s') 58 = used_bits (m_freeblock s);
  fi_root : forall addrs, inode_at (view (m_image s)) 1 = file_inode T_DIR (root_data files) addrs ->
    inode_at (view (m_image s')) 1 = mkDinode T_DIR 0 0 1 ((Z.of_nat (length (root_data files)) / BSIZE + 1) * BSIZE) addrs;
  fi_inode : forall j, 1 < j < 208 -> inode_at (view (m_image s')) j = inode_at (view (m_image s)) j;
  fi_other : forall b, ~ 32 <= b < 59 -> view (m_image s') b = view (m_image s) b;
  fi_len : forall b, length (view (m_image s') b) = 512%nat;
}.

Lemma wp_finish s own files (Q : unit -> mstate -> Prop) :
  image_ok s own (built files) -> (length files <= 198)%nat -> (forall s', finished s s' files -> Q tt s') ->
  wp (fix_root 1 ≫= fun _ => gets m_freeblock ≫= fun b => balloc (s32 b)) Q s.
Proof.
  intros [Hlen Hd Hcnt Hmax Hty Hfs Hfb Hsb Hlog] Hl HQ. destruct (Hfs 0%nat T_DIR (root_data files) eq_refl) as (addrs & Ein & Hfa).
  change (Z.of_nat 0 + 1) with 1 in *. pose proof (da_fb Hd) as Hfb'. pose proof (length_root files) as Hr.
  unfold fix_root. apply wp_bind, wp_bind, wp_rinode; [done|lia|]. rewrite Ein. cbn [file_inode di_size]. cbv zeta.
  rewrite (xint_small (Z.of_nat (length (root_data files)))) by lia. change BSIZE with 512.
  rewrite u32_small, xint_small by (Z.div_mod_to_equations; lia).
  set (di := set_di_size _ _). assert (dinode_range di) as Hdr.
  { destruct (file_inode_range _ _ _ T_DIR _ _ ltac:(unfold is_short, T_DIR; lia) Hfa). constructor; try done.
    cbn [di di_size set_di_size]. Z.div_mod_to_equations; lia. }
  eapply wp_winode; [done|apply Hd|lia|done|]. intros s1 [Hl1 Hi1 Hb1 Hsz1 Heq1 Hne1 Hot1]. wp_steps.
  rewrite s32_small by lia. unfold balloc. rewrite (proj2 (Z.leb_gt _ _)) by (unfold BSIZE; lia). change (sb_bmapstart sb) with 58.
  apply wp_wsect; [done|lia|]. intros s2 [Hl2 Hv2 _ _]. apply HQ.
  assert (forall b, b < 58 -> view (m_image s2) b = view (m_image s1) b) as Hmeta by (intros b Hb; rewrite Hv2, vset_ne by lia; done).
  assert (forall j, 0 <= j < 208 -> inode_at (view (m_image s2)) j = inode_at (view (m_image s1)) j) as Hino.
  { intros j Hj. unfold inode_at. rewrite Hmeta; [done|]. rewrite IBLOCK_sb by done. Z.div_mod_to_equations; lia. }
  constructor; try done.
  - rewrite Hv2, vset_eq. by rewrite Hb1.
  - intros addrs' E. rewrite Ein in E. injection E as <-. rewrite Hino by lia. by rewrite Heq1.
  - intros j Hj. rewrite Hino, Hne1 by lia. done.
  - intros b Hb. rewrite Hv2, vset_ne, Hot1 by lia. done.
  - intros b. rewrite Hv2. unfold vset. destruct (decide _); [|done]. by apply (used_bits_spec _ 0); lia.
Qed.

Lemma finished_spec s s' own files :
  image_ok s own (built files) -> (length files <= 198)%nat -> finished s s' files -> image_spec files (view (m_image s')).
Proof.
  intros [Hlen Hd Hcnt Hmax Hty Hfs Hfb Hsb Hlog] Hl [Hmap Hroot Hino Hoth HVl]. set (V := view (m_image s')) in *.
  pose proof (da_fb Hd) as Hfb'. pose proof Hdisk as Hdisk'. change FSSIZE with 1000 in Hdisk'.
  assert (forall b x, own !! b = Some x -> V b = view (m_image s) b) as Hdata.
  { intros b x Hb. apply Hoth. apply (da_own Hd) in Hb. lia. }
  assert (forall a, 0 <= a < 1000 -> used V sb a <-> a < m_freeblock s) as Hused.
  { intros a Ha. unfold used. destruct (BBLOCK_sb a Ha) as [-> ->]. rewrite Hmap.
    destruct (used_bits_spec (m_freeblock s) a ltac:(lia) ltac:(lia)) as [_ ->]. destruct (Z.ltb_spec a (m_freeblock s)); cbn; split; (done || lia). }
  assert (disk_at V own (m_freeblock s)) as HdV.
  { constructor; [done|apply Hd| |apply Hd]. intros b Hb. rewrite Hoth by lia. by apply (da_free Hd). }
  assert (forall i f, files !! i = Some f -> exists addrs, inode_at V (Z.of_nat i + 2) = file_inode T_FILE (data_of f) addrs /\
    file_at V own (Z.of_nat i + 2) addrs (data_of f)) as Hfile.
  { intros i f Hi. pose proof (lookup_lt_Some _ _ _ Hi). destruct (Hfs (S i) T_FILE (data_of f)) as (addrs & Ein & Hfa).
    { change (((fun f => (T_FILE, data_of f)) <$> files) !! i = Some (T_FILE, data_of f)). by rewrite list_lookup_fmap, Hi. }
    replace (Z.of_nat (S i) + 1) with (Z.of_nat i + 2) in * by lia. exists addrs. split; [by rewrite Hino by lia|].
    eapply file_at_ext; [done|done|]. intros b k Hb. by eapply Hdata. }
  destruct (Hfs 0%nat T_DIR (root_data files) eq_refl) as (ra & Er & Hra0).
  assert (file_at V own 1 ra (root_data files)) as Hra by (eapply file_at_ext; [exact Hra0|done|]; intros b k Hb; by eapply Hdata).
  assert (forall n k, 1 <= n <= Z.of_nat (length files) + 1 -> -1 <= k < MAXFILE -> block_no V n k <> 0 -> own !! block_no V n k = Some (n, k)) as Hown.
  { intros n k Hn Hk. assert (exists addrs c, di_addrs (inode_at V n) = addrs /\ file_at V own n addrs c) as (addrs & c & Ea & Hfa).
    { destruct (decide (n = 1)) as [->|Hne]; [exists ra, (root_data files); by rewrite (Hroot _ Er)|].
      destruct (lookup_lt_is_Some_2 files (Z.to_nat (n - 2))) as [f Hf]; [lia|]. destruct (Hfile _ f Hf) as (addrs & Ei & Hfa).
      replace (Z.of_nat (Z.to_nat (n - 2)) + 2) with n in * by lia. exists addrs, (data_of f). by rewrite Ei. }
    unfold block_no. rewrite Ea. destruct (Z.eqb_spec k (-1)) as [->|Hk1]; [apply (fa_iown Hfa)|]. apply (fa_own Hfa). change MAXFILE with 140 in Hk. lia. }
  constructor.
  - rewrite Hoth, Hsb by lia. reflexivity.
  - change (sb_logstart sb) with 2. rewrite Hoth, Hlog by lia. reflexivity.
  - change (sb_logstart sb) with 2. change nmeta with 59. constructor; change (sb_size sb) with 1000; change (sb_bmapstart sb) with 58; [lia..| |].
    + intros a Ha. destruct (BBLOCK_sb a Ha) as [-> _]. split; [split; lia|lia].
    + intros a Ha. apply Hused; lia.
  - intros a Ha. change nmeta with 59. rewrite <- Hfb. by apply Hused.
  - exists ra. split; [by apply Hroot|]. erewrite file_at_bytes; [|exact Hra|lia].
    by rewrite Nat2Z.id, firstn_all.
  - intros i f ip Hi Hdev. destruct (Hfile i f Hi) as (addrs & -> & Hfa). split; [done|]. split; [done|].
    split; [by eapply file_at_wf|]. change (file_bytes V addrs 0 (Z.of_nat (length (data_of f))) = data_of f).
    erewrite file_at_bytes by (done || lia). by rewrite Nat2Z.id, firstn_all.
  - intros n n' k k' Hn Hn' Hk Hk' Hne E. pose proof (Hown n k Hn Hk Hne) as Ho. rewrite E in Ho, Hne.
    rewrite (Hown n' k' Hn' Hk' Hne) in Ho. by injection Ho as -> ->.
Qed.

Lemma mkfs_wp files :
  Forall file_fits files -> (length files <= 198)%nat -> total (built files) <= nblocks ->
  wp (mkfs files) (fun _ s => image_spec files (view (m_image s))) mkfs_start.
Proof.
  intros Hfit Hl Htot. change nblocks with 941 in Htot. unfold mkfs. apply wp_bind, wp_init_image. intros s0 Him0.
  apply wp_bind. eapply wp_ialloc; [done|unfold is_short, T_DIR; lia|cbn; lia|]. intros s1 Him1. cbn [length app] in *.
  change (Z.of_nat 0 + 1) with 1. change (negb (1 =? ROOTINO)) with false. cbv iota.
  assert (0 <= total (built files)) as Hnn by apply total_files_nonneg.
  apply wp_bind. apply (wp_iappend s1 ∅ [(T_DIR, [])] 0 T_DIR []); [done|done|by rewrite length_app, length_entry| |].
  { rewrite length_app, length_entry. by vm_compute. }
  intros s2 own2 Him2. apply wp_bind. apply (wp_iappend s2 own2 _ 0 T_DIR (entry 1 [ch_dot]) _ _ Him2); [done|by rewrite length_app, !length_entry|..].
  { change (total (<[0%nat := (T_DIR, [] ++ entry 1 [ch_dot])]> [(T_DIR, [])])) with 1. rewrite length_app, !length_entry. by vm_compute. }
  intros s3 own3 Him3. apply wp_bind. eapply (wp_add_files files s3 own3 []); [exact Him3|done|done|done|].
  intros s4 own4 Him4. eapply wp_finish; [done|done|]. intros s5 Hfin. by eapply finished_spec.
Qed.

(** C33. mkfs builds a file system.  For files that fit, it returns, and the image
    it leaves is one that the kernel reads back: the super block describes it,
    the log is empty, the free map marks exactly the blocks in use, the root
    directory holds the entries of the files in order, and under each entry's
    inode number the kernel finds a well-formed inode with the contents of the
    host file.  No block, indirect blocks and those of the root directory
    included, belongs to two files or to two places of one. *)
Theorem mkfs_builds_image (files : list hostfile)
  (Hfit : Forall file_fits files) (Hlen : (length files <= 198)%nat) (Htot : total (built files) <= nblocks) :
  exists s, mkfs files mkfs_start = Ret tt s /\ image_spec files (view (m_image s)).
Proof. destruct (wp_inv _ _ _ (mkfs_wp files Hfit Hlen Htot)) as ([] & s & E & Hs). eauto. Qed.

End spec.

(** ** Examples *)

(** The command line [_cat a], with files of 514 bytes, in two reads, and none. *)
Definition sample_files : list hostfile :=
  [([95; 99; 97; 116], Some [replicate 512 65; [66; 67]]); ([97], Some [])].

Lemma mkfs_builds_image_witness :
  Forall file_fits sample_files /\ total (built sample_files) = 3 /\
  exists s, mkfs sample_files mkfs_start = Ret tt s /\ @image_spec sample_image sample_files (view (m_image s)).
Proof.
  assert (Forall file_fits sample_files) as Hfit.
  { repeat constructor; try (eexists; reflexivity); vm_compute; discriminate. }
  split; [exact Hfit|]. split; [vm_compute; reflexivity|].
  apply (@mkfs_builds_image sample_image); [vm_compute; discriminate|exact Hfit|vm_compute; lia|vm_compute; discriminate].
Defined.

(** With 30 files the entries fill the first block of the root directory, and the
    directory gets the size of two blocks, although it has only one. *)
Definition full_root : list hostfile := replicate 30 ([97], Some []).

Example mkfs_root_hole :
  match mkfs full_root mkfs_start with
  | Ret _ s => let di := inode_at (view (m_image s)) ROOTINO in di_size di = 1024 /\ take 2 (di_addrs di) = [59; 0]
  | _ => False
  end.
Proof. vm_compute. split; reflexivity. Qed.
