(* ===== verification/Ulib.v ===== *)
(** * The library of user programs (ulib.c, printf.c)

    A pointer to a string that is only read is the list of the bytes from there
    on; the string ends at a zero or at the end of the list.  Functions that
    write take the memory of the program. *)

From S2P Require Import Prelude Mem Cprintf FsFile Sh.

(** ** ulib.c *)

(** [t] is copied up to and with its zero, which is within [fuel] bytes. *)
Fixpoint strcpy (fuel : nat) (m : gmap Z Z) (s t : Z) : gmap Z Z :=
  match fuel with
  | O => m
  | S fuel =>
      let c := ld8 m t in
      let m := st8 m s c in
      if c =? 0 then m else strcpy fuel m (s + 1) (t + 1)
  end.

Fixpoint strcmp (p q : list Z) : Z :=
  match p with
  | [] => 0 - byte_at q
  | c :: p' => if negb (c =? 0) && (c =? byte_at q) then strcmp p' (tail q) else c - byte_at q
  end.

Fixpoint strlen (s : list Z) : Z :=
  match s with [] => 0 | c :: s => if c =? 0 then 0 else 1 + strlen s end.

Definition memset (m : gmap Z Z) (dst c n : Z) : gmap Z Z := stosb m dst c (Z.to_nat n).

(** The rest of [s] from the first [c] on. *)
Fixpoint strchr_from (s : list Z) (c : Z) : option (list Z) :=
  match s with
  | [] => None
  | b :: t => if b =? 0 then None else if b =? c then Some s else strchr_from t c
  end.

Definition ch_0 : Z := 48.
Definition ch_9 : Z := 57.

(** The loop of atoi from [n] on. *)
Fixpoint atoi_from (n : Z) (s : list Z) : Z :=
  match s with
  | [] => n
  | c :: s => if (ch_0 <=? c) && (c <=? ch_9) then atoi_from (s32 (n * 10 + c - ch_0)) s else n
  end.
Definition atoi (s : list Z) : Z := atoi_from 0 s.

(** memmove copies upwards whatever the addresses are. *)
Definition memmove (m : gmap Z Z) (vdst vsrc n : Z) : gmap Z Z := copy_up m vdst vsrc (Z.to_nat n).

(** ** printf.c *)

Definition udigits : list Z := bytes_of_string "0123456789ABCDEF".

(** The do/while loop, least significant digit first; [buf] has 16 bytes. *)
Fixpoint uint_digits (fuel : nat) (x base : Z) : list Z :=
  match fuel with
  | O => []
  | S fuel => nth (Z.to_nat (x mod base)) udigits 0 :: (if x / base =? 0 then [] else uint_digits fuel (x / base) base)
  end.

(** The bytes that printint writes, one call of write each. *)
Definition uprintint (xx base : Z) (sgn : bool) : list Z :=
  let neg := sgn && (xx <? 0) in
  let x := if neg then u32 (- xx) else u32 xx in
  rev (uint_digits 16 x base ++ (if neg then [45] else [])).

Definition null_text : list Z := bytes_of_string "(null)".

(** The loop over the format from state [pct] on, with word [i] of the words [ap]
    on the stack next; [str] is the string behind a pointer. *)
Fixpoint printf_from (str : Z -> list Z) (ap : nat -> Z) (pct : bool) (fmt : list Z) (i : nat) : list Z :=
  match fmt with
  | [] => []
  | c :: fmt =>
      if c =? 0 then [] else
      if negb pct then
        if c =? 37 then printf_from str ap true fmt i else c :: printf_from str ap false fmt i
      else if c =? 100 then uprintint (s32 (ap i)) 10 true ++ printf_from str ap false fmt (S i)
      else if (c =? 120) || (c =? 112) then uprintint (s32 (ap i)) 16 false ++ printf_from str ap false fmt (S i)
      else if c =? 115 then
        (if ap i =? 0 then null_text else cstring (str (ap i))) ++ printf_from str ap false fmt (S i)
      else if c =? 99 then u8 (ap i) :: printf_from str ap false fmt (S i)
      else if c =? 37 then c :: printf_from str ap false fmt i
      else 37 :: c :: printf_from str ap false fmt i
  end.

(** The bytes that printf writes, one call of write each. *)
Definition printf_bytes (str : Z -> list Z) (fmt : list Z) (ap : nat -> Z) : list Z := printf_from str ap false fmt 0.

(** ** Comparing strings *)

Inductive lex_lt : list Z -> list Z -> Prop :=
| lex_nil c q : lex_lt [] (c :: q)
| lex_head c d p q : c < d -> lex_lt (c :: p) (d :: q)
| lex_tail c p q : lex_lt p q -> lex_lt (c :: p) (c :: q).

Lemma cstring_cons c s : cstring (c :: s) = if c =? 0 then [] else c :: cstring s.
Proof. done. Qed.

(** What strcmp returns, in terms of the two strings. *)
Definition cmp_spec (p q : list Z) (r : Z) : Prop :=
  (r = 0 /\ p = q) \/ (r < 0 /\ lex_lt p q) \/ (0 < r /\ lex_lt q p).

Lemma strcmp_spec p q : Forall (fun c => 0 <= c) p -> Forall (fun c => 0 <= c) q -> cmp_spec (cstring p) (cstring q) (strcmp p q).
Proof.
  intros Hp. revert q. induction Hp as [|c p Hc Hp IH]; intros q Hq.
  - cbn [strcmp cstring]. destruct Hq as [|d q Hd Hq]; [by left|]. cbn [byte_at]. rewrite cstring_cons.
    destruct (Z.eqb_spec d 0) as [->|Hne]; [by left|]. right. left. split; [lia|constructor].
  - cbn [strcmp]. rewrite (cstring_cons c). destruct (Z.eqb_spec c 0) as [->|Hne]; cbn [negb andb].
    + destruct Hq as [|d q Hd Hq]; [by left|]. cbn [byte_at]. rewrite cstring_cons.
      destruct (Z.eqb_spec d 0) as [->|Hnd]; [by left|]. right. left. split; [lia|constructor].
    + destruct Hq as [|d q Hd Hq]; cbn [byte_at tail].
      * rewrite (proj2 (Z.eqb_neq c 0)) by done. right. right. split; [lia|constructor].
      * rewrite cstring_cons. destruct (Z.eqb_spec c d) as [->|Hcd].
        -- rewrite (proj2 (Z.eqb_neq d 0)) by done. destruct (IH q Hq) as [[-> ->]|[[Hr Hl]|[Hr Hl]]]; unfold cmp_spec; [by left|..].
           ++ right. left. split; [done|by constructor].
           ++ right. right. split; [done|by constructor].
        -- destruct (Z.eqb_spec d 0) as [->|Hnd]; [right; right; split; [lia|constructor]|].
           destruct (decide (c < d)); [right; left|right; right]; (split; [lia|]); apply lex_head; lia.
Qed.

(** ** Numbers *)

Lemma udigit_char d : 0 <= d < 10 -> nth (Z.to_nat d) udigits 0 = d + 48.
Proof. intros Hd. assert (d = 0 \/ d = 1 \/ d = 2 \/ d = 3 \/ d = 4 \/ d = 5 \/ d = 6 \/ d = 7 \/ d = 8 \/ d = 9) as H by lia. by intuition subst. Qed.

Lemma uint_digits_S fuel x base : uint_digits (S fuel) x base =
  nth (Z.to_nat (x mod base)) udigits 0 :: (if x / base =? 0 then [] else uint_digits fuel (x / base) base).
Proof. done. Qed.

(** atoi over the digits of [x], from [n] on. *)
Lemma atoi_digits fuel x n t :
  0 <= n -> 0 <= x < 10 ^ Z.of_nat (S fuel) ->
  let ds := uint_digits (S fuel) x 10 in
  n * 10 ^ Z.of_nat (length ds) + x < 2147483648 ->
  atoi_from n (rev ds ++ t) = atoi_from (n * 10 ^ Z.of_nat (length ds) + x) t.
Proof.
  intros Hn. revert x t. induction fuel as [|fuel IH]; intros x t Hx ds.
  - subst ds. cbn [uint_digits]. assert (x / 10 = 0) as E0 by (apply Z.div_small; lia). rewrite E0. cbn [Z.eqb length rev app atoi_from].
    rewrite udigit_char, Z.mod_small by (try apply Z.mod_pos_bound; lia). unfold ch_0, ch_9. intros Hlt. zb. rewrite s32_small by lia. f_equal. lia.
  - subst ds. rewrite uint_digits_S, udigit_char by (apply Z.mod_pos_bound; lia). pose proof (Z.mod_pos_bound x 10 ltac:(lia)) as Hm.
    destruct (Z.eqb_spec (x / 10) 0) as [E|E].
    + cbn [length rev app atoi_from]. assert (x < 10) by (Z.div_mod_to_equations; lia). rewrite Z.mod_small by lia.
      unfold ch_0, ch_9. intros Hlt. zb. rewrite s32_small by lia. f_equal. lia.
    + set (ds := uint_digits (S fuel) (x / 10) 10). cbn [length rev]. rewrite Nat2Z.inj_succ, Z.pow_succ_r by lia. intros Hlt.
      rewrite <- app_assoc. cbn [app]. assert (0 < 10 ^ Z.of_nat (length ds)) by (apply Z.pow_pos_nonneg; lia).
      assert (0 <= x / 10 < 10 ^ Z.of_nat (S fuel)) as Hq.
      { rewrite (Nat2Z.inj_succ (S fuel)), Z.pow_succ_r in Hx by lia. split; [apply Z.div_pos; lia|apply Z.div_lt_upper_bound; lia]. }
      pose proof (Z.div_mod x 10 ltac:(lia)) as Hdm.
      unfold ds. rewrite IH; fold ds; [|done|nia]. cbn [atoi_from]. unfold ch_0, ch_9. zb. f_equal. rewrite s32_small by nia. nia.
Qed.

(** Not a digit. *)
Definition no_digit (t : list Z) : Prop := match t with [] => True | c :: _ => ~ ch_0 <= c <= ch_9 end.

Lemma atoi_stop n t : no_digit t -> atoi_from n t = n.
Proof.
  destruct t as [|c t]; [done|]. cbn. intros H. destruct (Z.leb_spec ch_0 c), (Z.leb_spec c ch_9); cbn [andb]; (done || lia).
Qed.

(** Numbers are printed and read back: atoi of what printf writes for [%d]
    gives the number again, up to the first character that is not a digit, and 0
    for a negative number, whose sign atoi does not know. *)
Theorem atoi_printint (n : Z) (t : list Z) (Hn : -2147483648 <= n < 2147483648) (Ht : no_digit t) :
  atoi (uprintint n 10 true ++ t) = Z.max 0 n.
Proof.
  unfold atoi, uprintint. cbn [andb]. destruct (Z.ltb_spec n 0) as [Hneg|Hpos].
  - rewrite rev_app_distr. cbn [rev app atoi_from]. change ((ch_0 <=? 45) && (45 <=? ch_9)) with false. cbv iota. lia.
  - rewrite app_nil_r, u32_small by lia. change 16%nat with (S 15). rewrite atoi_digits by (split || lia; lia).
    rewrite atoi_stop by done. lia.
Qed.

Lemma atoi_printint_witness :
  no_digit [32; 49] /\ atoi (uprintint 1048576 10 true ++ [32; 49]) = 1048576 /\ uprintint (-205) 10 true = [45; 50; 48; 53].
Proof.
  assert (H : no_digit [32; 49]) by (cbn; unfold ch_0, ch_9; lia). split; [exact H|].
  split; [exact (atoi_printint 1048576 [32; 49] ltac:(lia) H)|vm_compute; reflexivity].
Defined.

(** ** Copies *)

(** memmove copies a block that does not overlap its destination from below, as
    the kernel's memmove does. *)
Lemma memmove_spec m d s n b : 0 <= n -> d <= s \/ s + n <= d ->
  ld8 (memmove m d s n) b = ld8 (memmove_mem m d s n) b.
Proof.
  intros Hn Hd. unfold memmove. rewrite ld8_copy_up, ld8_memmove by lia. by rewrite Z2Nat.id by lia.
Qed.

(** Where the blocks overlap otherwise it repeats the first bytes. *)
Example memmove_overlap :
  let m := st_bytes ∅ 100 [1; 2; 3; 4] in
  ld_bytes (memmove m 101 100 3) 100 4 = [1; 1; 1; 1] /\ ld_bytes (memmove_mem m 101 100 3) 100 4 = [1; 1; 2; 3].
Proof. vm_compute. split; reflexivity. Qed.

(** The string [w] at an address. *)
Definition string_in (m : gmap Z Z) (a : Z) (w : list Z) : Prop :=
  (forall (i : nat) c, w !! i = Some c -> ld8 m (a + Z.of_nat i) = c /\ c <> 0) /\ ld8 m (a + Z.of_nat (length w)) = 0.

Lemma string_in_tail m a c w : string_in m a (c :: w) -> ld8 m a = c /\ c <> 0 /\ string_in m (a + 1) w.
Proof.
  intros [Hc H0]. destruct (Hc 0%nat c eq_refl) as [E Hne]. rewrite Z.add_0_r in E. split; [done|]. split; [done|]. split.
  - intros i x Hi. destruct (Hc (S i) x Hi) as [E' ?]. split; [|done]. rewrite <- E'. f_equal. lia.
  - rewrite <- H0. f_equal. cbn [length]. lia.
Qed.

Lemma strcpy_spec fuel m s t w :
  string_in m t w -> (length w < fuel)%nat -> s + Z.of_nat (length w) < t \/ t + Z.of_nat (length w) < s ->
  string_in (strcpy fuel m s t) s w /\
  forall b, ~ s <= b <= s + Z.of_nat (length w) -> ld8 (strcpy fuel m s t) b = ld8 m b.
Proof.
  revert m s t w. induction fuel as [|fuel IH]; intros m s t w Hw Hf Hd; [lia|]. cbn [strcpy]. destruct w as [|c w].
  - destruct Hw as [_ H0]. cbn [length] in *. rewrite Z.add_0_r in H0. rewrite H0. cbn [Z.eqb].
    split; [split; [done|]; cbn [length]; rewrite Z.add_0_r, ld8_st8_eq; done|]. intros b Hb. apply ld8_st8_ne. lia.
  - destruct (string_in_tail _ _ _ _ Hw) as (Ec & Hne & Hw'). rewrite Ec, (proj2 (Z.eqb_neq c 0)) by done. cbn [length] in *.
    assert (u8 c = c) as Eu by (rewrite <- Ec; apply Z.mod_small, ld8_range).
    destruct (IH (st8 m s c) (s + 1) (t + 1) w) as [Hs Hfr]; [|lia|lia|].
    { destruct Hw' as [H1 H2]. split; [intros i x Hi; pose proof (lookup_lt_Some _ _ _ Hi)|]; rewrite ld8_st8_ne by lia; auto. }
    split; [|intros b Hb; rewrite Hfr by lia; apply ld8_st8_ne; lia].
    split; [|rewrite <- (proj2 Hs); f_equal; cbn [length]; lia].
    intros [|i] x Hi; [injection Hi as <-|].
    + rewrite Z.add_0_r, Hfr, ld8_st8_eq by lia. done.
    + destruct (proj1 Hs i x Hi) as [E ?]. split; [|done]. rewrite <- E. f_equal. lia.
Qed.
