(* ===== verification/UserIo.v ===== *)
(** * User programs and the system calls they make (user.h, usys.S)

    A user program is a tree of system calls.  What the calls do is left to a
    kernel that keeps the promises of the class [UserKernel]; the programs are
    verified against the class, and [boxes] is a small kernel that has the
    promises. *)

From S2P Require Import Prelude Mmu Bytes Mem Cprintf Wmap WmapTable FsInode FsFile Sh Ulib.

(** ** Calls *)

(** The calls of user.h, apart from fork and exit. *)
Inductive call : Type :=
| CWait
| CWrite (fd : Z) (data : list Z)
| CRead (fd n : Z)
| CClose (fd : Z)
| CKill (pid : Z)
| CExec (path : list Z) (argv : list (list Z))
| COpen (path : list Z) (mode : Z)
| CMknod (path : list Z) (major minor : Z)
| CUnlink (path : list Z)
| CFstat (fd : Z)
| CLink (old new : list Z)
| CMkdir (path : list Z)
| CDup (fd : Z)
| CSleep (n : Z).

(** What a call gives: the number in eax and the bytes that the kernel stores in
    the memory of the program. *)
Definition reply : Type := Z * list Z.

Inductive io (A : Type) : Type :=
| Done (a : A)
| Exit
| Stuck
| Call (c : call) (k : reply -> io A)
| Fork (k : Z -> io A).
Arguments Done {A} a.
Arguments Exit {A}.
Arguments Stuck {A}.
Arguments Call {A} c k.
Arguments Fork {A} k.

Fixpoint io_bind {A B} (p : io A) (f : A -> io B) : io B :=
  match p with
  | Done a => f a
  | Exit => Exit
  | Stuck => Stuck
  | Call c k => Call c (fun r => io_bind (k r) f)
  | Fork k => Fork (fun pid => io_bind (k pid) f)
  end.

#[global] Instance io_mret : MRet io := fun A a => Done a.
#[global] Instance io_mbind : MBind io := fun A B f p => io_bind p f.

Definition exit : io unit := Exit.
Definition fork : io Z := Fork Done.
Definition sys (c : call) : io Z := Call c (fun r => Done r.1).
Definition read (fd n : Z) : io reply := Call (CRead fd n) Done.
Definition write (fd : Z) (data : list Z) : io Z := sys (CWrite fd data).
Definition open (path : list Z) (mode : Z) : io Z := sys (COpen path mode).
Definition close (fd : Z) : io Z := sys (CClose fd).

Fixpoint each {X} (l : list X) (f : X -> io unit) : io unit :=
  match l with [] => Done tt | x :: l => f x;; each l f end.

(** ** printf *)

(** The words behind the format on the stack, and the strings they point to: a
    string argument is the pointer with its position, counted from 1. *)
Definition stack_word (args : list fmtarg) (i : nat) : Z :=
  match args !! i with
  | Some (ArgInt n) => n
  | Some (ArgStr (Some _)) => Z.of_nat (S i)
  | _ => 0
  end.
Definition stack_str (args : list fmtarg) (p : Z) : list Z :=
  match args !! Z.to_nat (p - 1) with Some (ArgStr (Some s)) => s | _ => [] end.

Definition formatted (fmt : list Z) (args : list fmtarg) : list Z :=
  printf_bytes (stack_str args) fmt (stack_word args).

(** [putc]: the result of write is not looked at. *)
Definition putc (fd c : Z) : io unit := write fd [c];; mret tt.
Definition printf (fd : Z) (fmt : list Z) (args : list fmtarg) : io unit := each (formatted fmt args) (putc fd).

(** A string constant with an end of line. *)
Definition line (s : string) : list Z := bytes_of_string s ++ [10].

Definition stat_bytes (st : stat) : list Z :=
  z2le 2 (st_type st) ++ [0; 0] ++ z2le 4 (st_dev st) ++ z2le 4 (st_ino st) ++ z2le 2 (st_nlink st) ++ [0; 0] ++ z2le 4 (st_size st).
Definition stat_of_bytes (bs : list Z) : stat :=
  mkStat (s16 (get16 bs 0)) (s32 (get32 bs 4)) (get32 bs 8) (s16 (get16 bs 12)) (get32 bs 16).

(** [fstat(fd, st)] and [stat(n, st)]: the result and the structure. *)
Definition fstat (fd : Z) : io (Z * stat) := Call (CFstat fd) (fun r => Done (r.1, stat_of_bytes r.2)).
Definition stat_path (n : list Z) : io (Z * stat) :=
  fd ← open n O_RDONLY;
  if fd <? 0 then mret (-1, stat_of_bytes []) else
  r ← fstat fd;
  close fd;;
  mret r.

(** ** Kernels *)

(** A kernel, as its user programs see it.  [unread] are the bytes not read
    yet behind a descriptor that is read from, no two of which share an offset,
    and [whole] the descriptors of files, whose bytes come as asked for; other
    reads can be short.  A [sink] takes all bytes
    written and is none of the files that the program reads.  [found] is what
    open finds under a path, [about] what fstat says of a descriptor, [room] the
    number of descriptors that can still be opened, and [history] the calls so
    far with their results.  [spawn] is fork in the parent, [child] the kernel
    as the child finds it, and [back] the kernel when the child is through. *)
Class UserOps (W : Type) := {
  serve : call -> W -> W * reply;
  spawn : W -> W * Z;
  child : W -> W;
  back : W -> W -> W;
  history : W -> list (call * Z);
  unread : W -> Z -> option (list Z);
  whole : W -> Z -> bool;
  about : W -> Z -> option stat;
  sink : W -> Z -> bool;
  found : W -> list Z -> option (stat * list Z);
  room : W -> nat;
}.

Record same {W} `{UserOps W} (w w' : W) : Prop := Same {
  same_found p : found w' p = found w p;
  same_sink fd : sink w' fd = sink w fd;
}.

Record same_fd {W} `{UserOps W} (w w' : W) (fd : Z) : Prop := SameFd {
  same_unread : unread w' fd = unread w fd;
  same_whole : whole w' fd = whole w fd;
  same_about : about w' fd = about w fd;
}.

(** The bytes [got] of a read of at most [n] bytes from [bs]. *)
Definition read_gives (bs : list Z) (n : Z) (all : bool) (r : reply) (rest : list Z) : Prop :=
  bs = r.2 ++ rest /\ r.1 = Z.of_nat (length r.2) /\ r.1 <= n /\ (r.2 = [] -> bs = []) /\
  (all = true -> r.1 = Z.min n (Z.of_nat (length bs))).

Class UserKernel (W : Type) `{UserOps W} : Prop := {
  serve_history c w : history (serve c w).1 = history w ++ [(c, (serve c w).2.1)];
  serve_read w fd n bs : unread w fd = Some bs -> 0 < n ->
    let '(w', r) := serve (CRead fd n) w in
    same w w' /\ room w' = room w /\ (forall fd', fd' <> fd -> same_fd w w' fd') /\
    whole w' fd = whole w fd /\ about w' fd = about w fd /\
    exists rest, unread w' fd = Some rest /\ read_gives bs n (whole w fd) r rest;
  serve_read_bad w fd n : unread w fd = None ->
    let '(w', r) := serve (CRead fd n) w in
    same w w' /\ room w' = room w /\ (forall fd, same_fd w w' fd) /\ r.1 = -1;
  serve_write w fd data : sink w fd = true ->
    let '(w', r) := serve (CWrite fd data) w in
    same w w' /\ room w' = room w /\ (forall fd, same_fd w w' fd) /\ r.1 = Z.of_nat (length data);
  serve_open w path st bs : found w path = Some (st, bs) -> (0 < room w)%nat ->
    let '(w', r) := serve (COpen path O_RDONLY) w in
    same w w' /\ room w = S (room w') /\ (forall fd, fd <> r.1 -> same_fd w w' fd) /\
    0 <= r.1 /\ unread w r.1 = None /\ sink w r.1 = false /\
    unread w' r.1 = Some bs /\ about w' r.1 = Some st /\ whole w' r.1 = true;
  serve_open_bad w path : found w path = None ->
    let '(w', r) := serve (COpen path O_RDONLY) w in
    same w w' /\ room w' = room w /\ (forall fd, same_fd w w' fd) /\ r.1 = -1;
  serve_close w fd bs : unread w fd = Some bs -> sink w fd = false ->
    let '(w', r) := serve (CClose fd) w in
    same w w' /\ room w' = S (room w) /\ (forall fd', fd' <> fd -> same_fd w w' fd');
  serve_fstat w fd st : about w fd = Some st ->
    let '(w', r) := serve (CFstat fd) w in
    same w w' /\ room w' = room w /\ (forall fd, same_fd w w' fd) /\ r = (0, stat_bytes st);
}.

(** ** Running *)

Inductive ending (A : Type) : Type := Returned (a : A) | Exited | OutOfFuel.
Arguments Returned {A} a.
Arguments Exited {A}.
Arguments OutOfFuel {A}.

(** A forked child runs to its end before its parent goes on. *)
Fixpoint run {W} `{UserOps W} {A} (p : io A) (w : W) : W * ending A :=
  match p with
  | Done a => (w, Returned a)
  | Exit => (w, Exited)
  | Stuck => (w, OutOfFuel)
  | Call c k => let '(w, r) := serve c w in run (k r) w
  | Fork k =>
      let '(w, pid) := spawn w in
      if pid <=? 0 then run (k pid) w else
      let '(wc, _) := run (k 0) (child w) in
      run (k pid) (back w wc)
  end.

(** The bytes written to a descriptor. *)
Fixpoint written (fd : Z) (h : list (call * Z)) : list Z :=
  match h with
  | [] => []
  | (CWrite fd' data, r) :: h => (if fd' =? fd then take (Z.to_nat r) data else []) ++ written fd h
  | _ :: h => written fd h
  end.
Definition output {W} `{UserOps W} (w : W) (fd : Z) : list Z := written fd (history w).

Definition nothing : Z -> list Z := fun _ => [].
Definition to (fd : Z) (bs : list Z) : Z -> list Z := fun fd' => if fd =? fd' then bs else [].

Section with_kernel.
Context {W : Type} `{UserKernel W}.

(** A run without forks. *)
Inductive straight {A} : io A -> W -> W -> ending A -> Prop :=
| straight_done a w : straight (Done a) w w (Returned a)
| straight_exit w : straight Exit w w Exited
| straight_call c k w w1 r w' e : serve c w = (w1, r) -> straight (k r) w1 w' e -> straight (Call c k) w w' e.

Lemma straight_run {A} (p : io A) w w' e : straight p w w' e -> run p w = (w', e).
Proof. induction 1 as [| |c k w w1 r w' e E _ IH]; cbn; [done..|]. by rewrite E. Qed.

Lemma straight_bind {A B} (p : io A) (f : A -> io B) w w1 a w' e :
  straight p w w1 (Returned a) -> straight (f a) w1 w' e -> straight (p ≫= f) w w' e.
Proof.
  intros Hp. change (p ≫= f) with (io_bind p f). remember (Returned a) as e0 eqn:E0.
  induction Hp as [a0 w|w|c k w w2 r w1 e1 E Hk IH]; cbn; intros Hf; [injection E0 as ->; done|done|].
  econstructor; [exact E|]. by apply IH.
Qed.

Lemma straight_bind_exit {A B} (p : io A) (f : A -> io B) w w' :
  straight p w w' Exited -> straight (p ≫= f) w w' Exited.
Proof.
  intros Hp. change (p ≫= f) with (io_bind p f). remember Exited as e0 eqn:E0.
  induction Hp as [a0 w|w|c k w w2 r w1 e1 E Hk IH]; cbn; [done|constructor|].
  econstructor; [exact E|]. by apply IH.
Qed.

(** [p] ends with [e] after writing [o], and leaves everything that a program
    relies on as it was, apart from the descriptor [but]. *)
Record prints {A} (but : option Z) (p : io A) (w w' : W) (e : ending A) (o : Z -> list Z) : Prop := Prints {
  prints_run : straight p w w' e;
  prints_same : same w w';
  prints_room : room w' = room w;
  prints_fd fd : but <> Some fd -> is_Some (unread w fd) -> same_fd w w' fd;
  prints_out fd : output w' fd = output w fd ++ o fd;
}.
Arguments prints_run {A but p w w' e o} _.
Arguments prints_same {A but p w w' e o} _.
Arguments prints_room {A but p w w' e o} _.
Arguments prints_fd {A but p w w' e o} _ fd _ _.
Arguments prints_out {A but p w w' e o} _ fd.

Lemma same_refl w : same w w.
Proof. by constructor. Qed.
Lemma same_trans w1 w2 w3 : same w1 w2 -> same w2 w3 -> same w1 w3.
Proof. intros [F1 S1] [F2 S2]. constructor; intros; [by rewrite F2, F1|by rewrite S2, S1]. Qed.
Lemma same_fd_refl w fd : same_fd w w fd.
Proof. by constructor. Qed.
Lemma same_fd_trans w1 w2 w3 fd : same_fd w1 w2 fd -> same_fd w2 w3 fd -> same_fd w1 w3 fd.
Proof. intros [? ? ?] [? ? ?]. constructor; congruence. Qed.

Lemma prints_done {A} but (a : A) w : prints but (Done a) w w (Returned a) nothing.
Proof. constructor; [constructor|apply same_refl|done|intros; apply same_fd_refl|intros; by rewrite app_nil_r]. Qed.
Lemma prints_exit {A} but w : prints (A := A) but Exit w w Exited nothing.
Proof. constructor; [constructor|apply same_refl|done|intros; apply same_fd_refl|intros; by rewrite app_nil_r]. Qed.

Lemma prints_ext {A} but (p : io A) w w' e o o' : prints but p w w' e o -> (forall fd, o fd = o' fd) -> prints but p w w' e o'.
Proof. intros [? ? ? ? Ho] E. constructor; try done. intros fd. by rewrite <- E. Qed.

Lemma prints_same_unread {A but} {p : io A} {w w' e o} fd bs :
  prints but p w w' e o -> but <> Some fd -> unread w fd = Some bs -> unread w' fd = Some bs.
Proof. intros Hp Hb Hu. rewrite (same_unread _ _ _ (prints_fd Hp fd Hb (mk_is_Some _ _ Hu))). done. Qed.

(** A program that is done or has called exit, followed by exit. *)
Definition over (e : ending unit) : Prop := e = Returned tt \/ e = Exited.

Definition and_then (o o' : Z -> list Z) : Z -> list Z := fun fd => o fd ++ o' fd.

Lemma prints_bind {A B} but (p : io A) (f : A -> io B) w w1 a w' e o o' :
  prints but p w w1 (Returned a) o -> prints but (f a) w1 w' e o' -> prints but (p ≫= f) w w' e (and_then o o').
Proof.
  intros [P1 S1 R1 F1 O1] [P2 S2 R2 F2 O2]. constructor.
  - by eapply straight_bind.
  - by eapply same_trans.
  - congruence.
  - intros fd Hfd Hr. pose proof (F1 fd Hfd Hr) as Hs. eapply same_fd_trans; [exact Hs|]. apply F2; [done|]. by rewrite (same_unread _ _ _ Hs).
  - intros fd. unfold and_then. by rewrite O2, O1, <- app_assoc.
Qed.

Lemma prints_bind_exit {A B} but (p : io A) (f : A -> io B) w w' o :
  prints but p w w' Exited o -> prints but (p ≫= f) w w' Exited o.
Proof. intros [P1 S1 R1 F1 O1]. constructor; try done. by apply straight_bind_exit. Qed.

Lemma prints_over but (p : io unit) w w' e o : prints but p w w' e o -> over e -> prints but (p;; exit) w w' Exited o.
Proof.
  intros P [->| ->]; [|by apply prints_bind_exit].
  eapply prints_ext; [eapply prints_bind; [exact P|apply prints_exit]|]. intros fd. apply app_nil_r.
Qed.

Lemma prints_weaken {A} but (p : io A) w w' e o : prints None p w w' e o -> prints but p w w' e o.
Proof. intros [? ? ? F ?]. constructor; try done. intros fd _ Hr. by apply F. Qed.

(** *** The calls *)

Lemma output_app c w fd : output (serve c w).1 fd = output w fd ++ written fd [(c, (serve c w).2.1)].
Proof.
  unfold output. rewrite serve_history. induction (history w) as [|[c' r'] h IH]; [done|].
  destruct c'; cbn [written app] in *; rewrite ?IH, <- ?app_assoc; done.
Qed.

Lemma output_other c w fd : (forall fd data, c <> CWrite fd data) -> output (serve c w).1 fd = output w fd.
Proof. intros Hc. rewrite output_app. destruct c; cbn; rewrite ?app_nil_r; try done. by destruct (Hc fd0 data). Qed.

Lemma prints_write w fd data : sink w fd = true ->
  exists w', prints None (write fd data) w w' (Returned (Z.of_nat (length data))) (to fd data).
Proof.
  intros Hs. pose proof (serve_write w fd data Hs) as Hw. pose proof (fun fd' => output_app (CWrite fd data) w fd') as Ho.
  destruct (serve (CWrite fd data) w) as [w' r] eqn:E. destruct Hw as (HS & HR & HF & Hr). exists w'. constructor; [|exact HS|exact HR|intros fd' _ _; apply HF|].
  - econstructor; [exact E|]. cbn. rewrite Hr. constructor.
  - intros fd'. rewrite Ho. cbn [written fst snd]. rewrite Hr, Nat2Z.id, take_ge, app_nil_r by lia. done.
Qed.

Lemma sink_after {A but} {p : io A} {w w' e o} : prints but p w w' e o -> forall fd, sink w' fd = sink w fd.
Proof. intros Hp fd. apply (same_sink _ _ (prints_same Hp)). Qed.
Lemma found_after {A but} {p : io A} {w w' e o} : prints but p w w' e o -> forall path, found w' path = found w path.
Proof. intros Hp path. apply (same_found _ _ (prints_same Hp)). Qed.

Lemma prints_puts w fd bs : sink w fd = true -> exists w', prints None (each bs (putc fd)) w w' (Returned tt) (to fd bs).
Proof.
  revert w. induction bs as [|b bs IH]; intros w Hs.
  { exists w. eapply prints_ext; [apply prints_done|]. intros fd'. unfold to. by case_match. }
  destruct (prints_write w fd [b] Hs) as (w1 & P1).
  destruct (IH w1) as (w2 & P2); [by rewrite (sink_after P1)|]. exists w2. cbn [each].
  eapply prints_ext; [eapply prints_bind; [eapply prints_bind; [exact P1|apply prints_done]|exact P2]|].
  intros fd'. unfold and_then, to, nothing. case_match; by rewrite ?app_nil_r.
Qed.

Lemma prints_printf w fd fmt args : sink w fd = true ->
  exists w', prints None (printf fd fmt args) w w' (Returned tt) (to fd (formatted fmt args)).
Proof. apply prints_puts. Qed.

Lemma prints_read w fd n bs : unread w fd = Some bs -> 0 < n ->
  exists w' r rest, prints (Some fd) (read fd n) w w' (Returned r) nothing /\
    unread w' fd = Some rest /\ whole w' fd = whole w fd /\ about w' fd = about w fd /\ read_gives bs n (whole w fd) r rest.
Proof.
  intros Hu Hn. pose proof (serve_read w fd n bs Hu Hn) as Hw. pose proof (fun fd' => output_other (CRead fd n) w fd') as Ho.
  destruct (serve (CRead fd n) w) as [w' r] eqn:E. destruct Hw as (HS & HR & HF & Hwh & Hab & rest & Hrest & Hg).
  exists w', r, rest. split_and!; try done. constructor; [|exact HS|exact HR| |].
  - econstructor; [exact E|]. constructor.
  - intros fd' Hfd _. apply HF. congruence.
  - intros fd'. unfold nothing. rewrite app_nil_r. by apply Ho.
Qed.

Lemma prints_open_bad w path : found w path = None ->
  exists w', prints None (open path O_RDONLY) w w' (Returned (-1)) nothing.
Proof.
  intros Hf. pose proof (serve_open_bad w path Hf) as Hw.
  pose proof (fun fd' => output_other (COpen path O_RDONLY) w fd') as Ho.
  destruct (serve (COpen path O_RDONLY) w) as [w' r] eqn:E. destruct Hw as (HS & HR & HF & Hr).
  exists w'. constructor; [|exact HS|exact HR|intros fd' _ _; apply HF|].
  - econstructor; [exact E|]. rewrite Hr. constructor.
  - intros fd'. unfold nothing. rewrite app_nil_r. by apply Ho.
Qed.

Lemma prints_fstat w fd st : about w fd = Some st ->
  exists w', prints None (fstat fd) w w' (Returned (0, stat_of_bytes (stat_bytes st))) nothing.
Proof.
  intros Hf. pose proof (serve_fstat w fd st Hf) as Hw. pose proof (fun fd' => output_other (CFstat fd) w fd') as Ho.
  destruct (serve (CFstat fd) w) as [w' r] eqn:E. destruct Hw as (HS & HR & HF & Hr).
  exists w'. constructor; [|exact HS|exact HR|intros fd' _ _; apply HF|].
  - econstructor; [exact E|]. rewrite Hr. constructor.
  - intros fd'. unfold nothing. rewrite app_nil_r. by apply Ho.
Qed.

(** The kernel after the file [bs] has been opened as [fd]. *)
Record opened (w w1 : W) (fd : Z) (st : stat) (bs : list Z) : Prop := Opened {
  op_same : same w w1;
  op_room : room w = S (room w1);
  op_other fd' : fd' <> fd -> same_fd w w1 fd';
  op_fd : 0 <= fd;
  op_fresh : unread w fd = None;
  op_sink : sink w fd = false;
  op_unread : unread w1 fd = Some bs;
  op_about : about w1 fd = Some st;
  op_whole : whole w1 fd = true;
}.

(** A file that is opened, used by [body] and closed. *)
Lemma prints_file {A B} w path st bs (f : Z -> io B) (body : Z -> io A) (g : A -> B) (a : A) o :
  found w path = Some (st, bs) -> (0 < room w)%nat ->
  (forall fd, 0 <= fd -> f fd = (a ← body fd; close fd;; mret (g a))) ->
  (forall w1 fd, opened w w1 fd st bs ->
    exists w2, prints (Some fd) (body fd) w1 w2 (Returned a) o /\ is_Some (unread w2 fd)) ->
  exists w', prints None (open path O_RDONLY ≫= f) w w' (Returned (g a)) o.
Proof.
  intros Hf Hroom Hshape Hbody. pose proof (serve_open w path st bs Hf Hroom) as Hw.
  pose proof (fun fd' => output_other (COpen path O_RDONLY) w fd') as Ho.
  destruct (serve (COpen path O_RDONLY) w) as [w1 [fd x]] eqn:E. cbn in Hw.
  destruct Hw as (HS & HR & HF & Hfd & Hfresh & Hsink & Hun & Hab & Hwh).
  destruct (Hbody w1 fd) as (w2 & P & bs' & Hu2); [by constructor|].
  assert (Hs2 : sink w2 fd = false) by (rewrite (sink_after P), (same_sink _ _ HS); done).
  pose proof (serve_close w2 fd bs' Hu2 Hs2) as Hc. pose proof (fun fd' => output_other (CClose fd) w2 fd') as Ho2.
  destruct (serve (CClose fd) w2) as [w3 r3] eqn:E3. destruct Hc as (HS3 & HR3 & HF3).
  exists w3. constructor.
  - econstructor; [exact E|]. cbn. rewrite (Hshape fd Hfd). eapply straight_bind; [exact (prints_run P)|].
    econstructor; [exact E3|]. constructor.
  - eapply same_trans; [exact HS|]. eapply same_trans; [exact (prints_same P)|exact HS3].
  - rewrite HR3, (prints_room P). lia.
  - intros fd' _ Hr. destruct (decide (fd' = fd)) as [->|Hne]; [rewrite Hfresh in Hr; by destruct Hr|].
    pose proof (HF fd' Hne) as H1. eapply same_fd_trans; [exact H1|].
    eapply same_fd_trans; [apply (prints_fd P); [congruence|by rewrite (same_unread _ _ _ H1)]|by apply HF3].
  - intros fd'. cbn in Ho, Ho2. rewrite Ho2, (prints_out P), Ho by done. done.
Qed.

End with_kernel.

Arguments prints_run {W _ A but p w w' e o} _.
Arguments prints_same {W _ A but p w w' e o} _.
Arguments prints_room {W _ A but p w w' e o} _.
Arguments prints_fd {W _ A but p w w' e o} _ fd _ _.
Arguments prints_out {W _ A but p w w' e o} _ fd.

(** ** A kernel with these promises *)

(** An open descriptor: what fstat says, the bytes to read if it can be read,
    and whether it takes bytes and gives all it has. *)
Record channel := Channel { ch_stat : stat; ch_rest : option (list Z); ch_sink : bool; ch_whole : bool }.

Record box := Box {
  b_fds : list (option channel);
  b_files : gmap (list Z) (stat * list Z);
  b_history : list (call * Z);
  b_pid : Z;
  b_kids : list Z;
}.

(** [ok] tells which calls of those without a model succeed, by the number of the
    call, and which forks, by the number of the process; [chunk] tells how much a
    read gives that is not from a file. *)
Section boxes.
Variables (ok : nat -> bool) (chunk : nat -> Z).

Definition channel_at (w : box) (fd : Z) : option channel := if fd <? 0 then None else mjoin (b_fds w !! Z.to_nat fd).
Definition set_channel (fd : nat) (c : option channel) (w : box) : box :=
  Box (<[fd := c]> (b_fds w)) (b_files w) (b_history w) (b_pid w) (b_kids w).
Definition set_files (fs : gmap (list Z) (stat * list Z)) (w : box) : box :=
  Box (b_fds w) fs (b_history w) (b_pid w) (b_kids w).
Definition set_kids (l : list Z) (w : box) : box := Box (b_fds w) (b_files w) (b_history w) (b_pid w) l.
Definition add_history (e : call * Z) (w : box) : box :=
  Box (b_fds w) (b_files w) (b_history w ++ [e]) (b_pid w) (b_kids w).

Definition channel_read (n m : Z) (c : channel) (bs : list Z) : reply * channel :=
  let k := Z.min n (Z.of_nat (length bs)) in
  let k := Z.to_nat (if ch_whole c then k else Z.min (Z.max 1 m) k) in
  ((Z.of_nat k, take k bs), Channel (ch_stat c) (Some (drop k bs)) (ch_sink c) (ch_whole c)).

Definition alloc_channel (c : channel) (w : box) : box * Z :=
  match find_fd (b_fds w) 0 with
  | Some i => (set_channel i (Some c) w, Z.of_nat i)
  | None => (w, -1)
  end.

Definition box_answer (c : call) (w : box) : box * reply :=
  let n := length (b_history w) in
  match c with
  | CRead fd k =>
      match channel_at w fd with
      | Some ch =>
          match ch_rest ch with
          | Some bs => let '(r, ch) := channel_read k (chunk n) ch bs in (set_channel (Z.to_nat fd) (Some ch) w, r)
          | None => (w, (-1, []))
          end
      | None => (w, (-1, []))
      end
  | CWrite fd data =>
      match channel_at w fd with
      | Some ch => if ch_sink ch then (w, (Z.of_nat (length data), [])) else (w, (-1, []))
      | None => (w, (-1, []))
      end
  | COpen path mode =>
      match b_files w !! path with
      | Some (st, bs) =>
          let '(w, fd) := alloc_channel (Channel st (Some bs) (negb (mode =? O_RDONLY) && (st_type st =? T_DEV)) true) w in
          (w, (fd, []))
      | None => (w, (-1, []))
      end
  | CClose fd =>
      match channel_at w fd with
      | Some _ => (set_channel (Z.to_nat fd) None w, (0, []))
      | None => (w, (-1, []))
      end
  | CFstat fd =>
      match channel_at w fd with
      | Some ch => (w, (0, stat_bytes (ch_stat ch)))
      | None => (w, (-1, []))
      end
  | CDup fd =>
      match channel_at w fd with
      | Some ch => let '(w, fd) := alloc_channel ch w in (w, (fd, []))
      | None => (w, (-1, []))
      end
  | CWait =>
      match b_kids w with
      | pid :: l => (set_kids l w, (pid, []))
      | [] => (w, (-1, []))
      end
  | CMknod path major minor =>
      if ok n then (set_files (<[path := (mkStat T_DEV 1 0 1 0, [])]> (b_files w)) w, (0, [])) else (w, (-1, []))
  | _ => (w, (if ok n then 0 else -1, []))
  end.

Definition box_serve (c : call) (w : box) : box * reply :=
  let '(w', r) := box_answer c w in (add_history (c, r.1) w', r).

Definition box_spawn (w : box) : box * Z :=
  if ok (Z.to_nat (b_pid w)) then
    (Box (b_fds w) (b_files w) (b_history w) (b_pid w + 1) (b_kids w ++ [b_pid w]), b_pid w)
  else (w, -1).
Definition box_child (w : box) : box := set_kids [] w.
Definition box_back (w wc : box) : box := Box (b_fds w) (b_files wc) (b_history wc) (b_pid wc) (b_kids w).

Fixpoint free_fds (l : list (option channel)) : nat :=
  match l with [] => 0 | None :: l => S (free_fds l) | Some _ :: l => free_fds l end.

#[local] Instance boxes : UserOps box := {|
  serve := box_serve;
  spawn := box_spawn;
  child := box_child;
  back := box_back;
  history := b_history;
  unread w fd := c ← channel_at w fd; ch_rest c;
  whole w fd := match channel_at w fd with Some c => ch_whole c | None => false end;
  about w fd := ch_stat <$> channel_at w fd;
  sink w fd := match channel_at w fd with Some c => ch_sink c | None => false end;
  found w path := b_files w !! path;
  room w := free_fds (b_fds w);
|}.

#[local] Arguments channel_at : simpl never.
#[local] Arguments set_channel : simpl never.
#[local] Arguments channel_read : simpl never.

Lemma channel_at_set w i c fd : (i < length (b_fds w))%nat ->
  channel_at (set_channel i c w) fd = if decide (fd = Z.of_nat i) then c else channel_at w fd.
Proof.
  intros Hi. unfold channel_at, set_channel. cbn. destruct (fd <? 0) eqn:E; [case_decide; [lia|done]|].
  case_decide as Hd.
  - subst. rewrite Nat2Z.id, list_lookup_insert_eq by done. done.
  - rewrite list_lookup_insert_ne by lia. done.
Qed.

Lemma channel_at_lt w fd c : channel_at w fd = Some c -> 0 <= fd /\ (Z.to_nat fd < length (b_fds w))%nat.
Proof.
  unfold channel_at. destruct (fd <? 0) eqn:E; [done|]. intros Hj. split; [lia|].
  destruct (b_fds w !! Z.to_nat fd) as [x|] eqn:El; [|done]. by apply lookup_lt_Some in El.
Qed.

Lemma find_fd_None l o : find_fd (A := channel) l o = None -> free_fds l = 0%nat.
Proof. revert o. induction l as [|[c|] l IH]; cbn; intros o; [done|apply IH|done]. Qed.

Lemma free_fds_fill l i c : l !! i = Some None -> free_fds l = S (free_fds (<[i := Some c]> l)).
Proof. revert i. induction l as [|[x|] l IH]; intros [|i]; cbn; intros Hi; try done; [by apply IH|]. by rewrite <- IH. Qed.
Lemma free_fds_keep l i x c : l !! i = Some (Some x) -> free_fds (<[i := Some c]> l) = free_fds l.
Proof. revert i. induction l as [|[y|] l IH]; intros [|i]; cbn; intros Hi; try done; [by apply IH|]. by rewrite IH. Qed.
Lemma free_fds_clear l i x : l !! i = Some (Some x) -> free_fds (<[i := None]> l) = S (free_fds l).
Proof. revert i. induction l as [|[y|] l IH]; intros [|i]; cbn; intros Hi; try done; [by apply IH|]. by rewrite IH. Qed.
Lemma channel_at_entry w fd c : channel_at w fd = Some c -> b_fds w !! Z.to_nat fd = Some (Some c).
Proof. unfold channel_at. destruct (fd <? 0); [done|]. destruct (b_fds w !! Z.to_nat fd) as [[x|]|] eqn:E; cbn; congruence. Qed.

Lemma same_fd_channel w w' fd : channel_at w' fd = channel_at w fd -> same_fd w w' fd.
Proof. intros E. constructor; cbn; by rewrite E. Qed.

Lemma box_answer_history c w : b_history (box_answer c w).1 = b_history w.
Proof.
  destruct c; cbn; try done; repeat (case_match; cbn in *; simplify_eq; try done);
    unfold alloc_channel in *; repeat (case_match; simplify_eq); done.
Qed.

Lemma channel_read_gives n m ch bs : 0 < n ->
  let '(r, ch') := channel_read n m ch bs in
  ch_stat ch' = ch_stat ch /\ ch_sink ch' = ch_sink ch /\ ch_whole ch' = ch_whole ch /\
  exists rest, ch_rest ch' = Some rest /\ read_gives bs n (ch_whole ch) r rest.
Proof.
  intros Hn. unfold channel_read. cbn. split_and!; try done. eexists. split; [done|].
  unfold read_gives. cbn. rewrite take_drop, length_take.
  assert (Hb : bs = [] \/ 0 < Z.of_nat (length bs)) by (destruct bs; cbn; [by left|right; lia]).
  split_and!; [done|destruct (ch_whole ch); lia|destruct (ch_whole ch); lia| |intros ->; lia].
  intros Ht. apply (f_equal length) in Ht. rewrite length_take in Ht. cbn in Ht.
  destruct Hb as [->|Hb]; [done|]. destruct (ch_whole ch); lia.
Qed.

Lemma box_read w fd n bs : unread w fd = Some bs -> 0 < n ->
  let '(w', r) := box_answer (CRead fd n) w in
  same w w' /\ room w' = room w /\ (forall fd', fd' <> fd -> same_fd w w' fd') /\
  whole w' fd = whole w fd /\ about w' fd = about w fd /\
  exists rest, unread w' fd = Some rest /\ read_gives bs n (whole w fd) r rest.
Proof.
  intros Hu Hn. cbn in Hu |- *. destruct (channel_at w fd) as [ch|] eqn:Ec; [cbn in Hu|done]. rewrite Hu.
  pose proof (channel_read_gives n (chunk (length (b_history w))) ch bs Hn) as Hr.
  destruct (channel_read _ _ ch bs) as [r ch']. destruct Hr as (Es & Ek & Ew & rest & Er & Hg).
  destruct (channel_at_lt _ _ _ Ec) as [H0 Hl].
  assert (Hat : forall fd', channel_at (set_channel (Z.to_nat fd) (Some ch') w) fd' = if decide (fd' = fd) then Some ch' else channel_at w fd').
  { intros fd'. rewrite channel_at_set, Z2Nat.id by lia. done. }
  split_and!.
  - constructor; cbn; [done|]. intros fd'. rewrite Hat. case_decide; [subst; by rewrite Ec, Ek|done].
  - cbn. by eapply free_fds_keep, channel_at_entry.
  - intros fd' Hne. apply same_fd_channel. rewrite Hat. by case_decide.
  - cbn. rewrite Hat. by case_decide.
  - cbn. rewrite Hat. case_decide; [|done]. cbn. by rewrite Es.
  - exists rest. cbn. rewrite Hat. by case_decide.
Qed.

Lemma box_open w path st bs : found w path = Some (st, bs) -> (0 < room w)%nat ->
  let '(w', r) := box_answer (COpen path O_RDONLY) w in
  same w w' /\ room w = S (room w') /\ (forall fd, fd <> r.1 -> same_fd w w' fd) /\
  0 <= r.1 /\ unread w r.1 = None /\ sink w r.1 = false /\
  unread w' r.1 = Some bs /\ about w' r.1 = Some st /\ whole w' r.1 = true.
Proof.
  intros Hf Hr. cbn in Hf, Hr |- *. rewrite Hf. unfold alloc_channel.
  destruct (find_fd (b_fds w) 0) as [i|] eqn:Ei; [|apply find_fd_None in Ei; lia].
  apply find_fd_spec in Ei as [_ Ei]. rewrite Nat.sub_0_r in Ei. pose proof (lookup_lt_Some _ _ _ Ei) as Hl.
  set (ch := Channel st (Some bs) _ true).
  assert (Hat : forall fd', channel_at (set_channel i (Some ch) w) fd' = if decide (fd' = Z.of_nat i) then Some ch else channel_at w fd').
  { intros fd'. by rewrite channel_at_set. }
  assert (Hno : channel_at w (Z.of_nat i) = None).
  { unfold channel_at. destruct (Z.of_nat i <? 0); [done|]. by rewrite Nat2Z.id, Ei. }
  cbn [fst]. split_and!; try lia.
  - constructor; cbn; [done|]. intros fd'. rewrite Hat. case_decide; [subst; by rewrite Hno|done].
  - cbn. by apply free_fds_fill.
  - intros fd' Hne. apply same_fd_channel. rewrite Hat. by case_decide.
  - cbn. by rewrite Hno.
  - cbn. by rewrite Hno.
  - cbn. rewrite Hat. by case_decide.
  - cbn. rewrite Hat. by case_decide.
  - cbn. rewrite Hat. by case_decide.
Qed.

Lemma box_close w fd bs : unread w fd = Some bs -> sink w fd = false ->
  let '(w', r) := box_answer (CClose fd) w in
  same w w' /\ room w' = S (room w) /\ (forall fd', fd' <> fd -> same_fd w w' fd').
Proof.
  intros Hu Hs. cbn in Hu, Hs |- *. destruct (channel_at w fd) as [ch|] eqn:Ec; [|done].
  destruct (channel_at_lt _ _ _ Ec) as [H0 Hl].
  assert (Hat : forall fd', channel_at (set_channel (Z.to_nat fd) None w) fd' = if decide (fd' = fd) then None else channel_at w fd').
  { intros fd'. rewrite channel_at_set, Z2Nat.id by lia. done. }
  split_and!.
  - constructor; cbn; [done|]. intros fd'. rewrite Hat. case_decide; [subst; by rewrite Ec|done].
  - cbn. by eapply free_fds_clear, channel_at_entry.
  - intros fd' Hne. apply same_fd_channel. rewrite Hat. by case_decide.
Qed.

Lemma same_history w b e : same w b -> same w (add_history e b).
Proof. intros [? ?]. by constructor. Qed.
Lemma same_fd_history w b e fd : same_fd w b fd -> same_fd w (add_history e b) fd.
Proof. intros [? ? ?]. by constructor. Qed.

#[local] Instance boxes_kernel : UserKernel box.
Proof.
  constructor.
  - intros c w. cbn. unfold box_serve. pose proof (box_answer_history c w). destruct (box_answer c w). cbn in *. congruence.
  - intros w fd n bs Hu Hn. pose proof (box_read w fd n bs Hu Hn) as Hb. cbn [serve boxes]. unfold box_serve.
    destruct (box_answer (CRead fd n) w). destruct Hb as (HS & HR & HF & Hb).
    exact (conj (same_history _ _ _ HS) (conj HR (conj (fun fd' Hne => same_fd_history _ _ _ _ (HF fd' Hne)) Hb))).
  - intros w fd n Hu. cbn in *. unfold box_serve. cbn.
    destruct (channel_at w fd) as [ch|]; cbn in Hu; rewrite ?Hu; split_and!; by constructor.
  - intros w fd data Hs. cbn in *. unfold box_serve. cbn.
    destruct (channel_at w fd) as [ch|]; [rewrite Hs|done]; split_and!; by constructor.
  - intros w path st bs Hf Hr. pose proof (box_open w path st bs Hf Hr) as Hb. cbn [serve boxes]. unfold box_serve.
    destruct (box_answer (COpen path O_RDONLY) w). destruct Hb as (HS & HR & HF & Hb).
    exact (conj (same_history _ _ _ HS) (conj HR (conj (fun fd' Hne => same_fd_history _ _ _ _ (HF fd' Hne)) Hb))).
  - intros w path Hf. cbn in *. unfold box_serve. cbn. rewrite Hf. split_and!; by constructor.
  - intros w fd bs Hu Hs. pose proof (box_close w fd bs Hu Hs) as Hb. cbn [serve boxes]. unfold box_serve.
    destruct (box_answer (CClose fd) w). destruct Hb as (HS & HR & HF).
    exact (conj (same_history _ _ _ HS) (conj HR (fun fd' Hne => same_fd_history _ _ _ _ (HF fd' Hne)))).
  - intros w fd st Ha. cbn in *. unfold box_serve. cbn.
    destruct (channel_at w fd) as [ch|]; [|done]. cbn in Ha. simplify_eq. split_and!; by constructor.
Qed.

End boxes.
