(* ===== verification/UserProgs.v ===== *)
(** * Small user programs (cat.c, wc.c, echo.c, kill.c, ln.c, mkdir.c, rm.c,
      zombie.c, ls.c, grep.c, init.c, stressfs.c, forktest.c)

    The programs over the system calls of UserIo.v, with their loops over input
    bounded by fuel, and what they write.  [argv] is the list of the argument
    strings, without their zeros. *)

From S2P Require Import Prelude Mmu Bytes Mem Cprintf FsInode FsFile Sh Grep Ulib UserIo.

Abbreviation str s := (ArgStr (Some s)).

(** ** Reading files *)

Fixpoint cat (fuel : nat) (fd : Z) : io unit :=
  match fuel with
  | O => Stuck
  | S fuel =>
      r ← read fd 512;
      let '(n, buf) := r in
      if 0 <? n then
        m ← write 1 (take (Z.to_nat n) buf);
        if negb (m =? n) then printf 1 (line "cat: write error") [];; exit else cat fuel fd
      else if n <? 0 then printf 1 (line "cat: read error") [];; exit
      else mret tt
  end.

Definition cat_file (fuel : nat) (name : list Z) : io unit :=
  fd ← open name O_RDONLY;
  if fd <? 0 then printf 1 (line "cat: cannot open %s") [str name];; exit else
  cat fuel fd;; close fd;; mret tt.

Definition cat_main (fuel : nat) (argv : list (list Z)) : io unit :=
  if (length argv <=? 1)%nat then cat fuel 0;; exit else
  each (tail argv) (cat_file fuel);; exit.

Definition wc_space : list Z := [32; 13; 9; 10; 11].

(** One byte: lines, words, bytes and whether it is inside a word. *)
Definition wc_byte (st : Z * Z * Z * bool) (b : Z) : Z * Z * Z * bool :=
  let '(l, w, c, inword) := st in
  let c := s32 (c + 1) in
  let l := if b =? 10 then s32 (l + 1) else l in
  if strchr wc_space b then (l, w, c, false)
  else if negb inword then (l, s32 (w + 1), c, true)
  else (l, w, c, inword).

Fixpoint wc_loop (fuel : nat) (fd : Z) (st : Z * Z * Z * bool) : io (Z * Z * Z) :=
  match fuel with
  | O => Stuck
  | S fuel =>
      r ← read fd 512;
      let '(n, buf) := r in
      if 0 <? n then wc_loop fuel fd (foldl wc_byte st (take (Z.to_nat n) buf))
      else if n <? 0 then printf 1 (line "wc: read error") [];; Exit
      else mret st.1
  end.

Definition wc (fuel : nat) (fd : Z) (name : list Z) : io unit :=
  st ← wc_loop fuel fd (0, 0, 0, false);
  let '(l, w, c) := st in
  printf 1 (line "%d %d %d %s") [ArgInt l; ArgInt w; ArgInt c; str name].

Definition wc_file (fuel : nat) (name : list Z) : io unit :=
  fd ← open name O_RDONLY;
  if fd <? 0 then printf 1 (line "wc: cannot open %s") [str name];; exit else
  wc fuel fd name;; close fd;; mret tt.

Definition wc_main (fuel : nat) (argv : list (list Z)) : io unit :=
  if (length argv <=? 1)%nat then wc fuel 0 [];; exit else
  each (tail argv) (wc_file fuel);; exit.

(** grep with its calls of read and write; [buf] has 1024 bytes, [keep] are the
    [m] bytes kept from the last turn.  The lines of a turn are written by one
    call each. *)
Fixpoint grep_prints (fuel : nat) (pattern p : list Z) : io unit :=
  match fuel with
  | O => mret tt
  | S fuel =>
      match split_nl p with
      | None => mret tt
      | Some (l, r) =>
          (if match_re pattern l then write 1 (l ++ [ch_nl]);; mret tt else mret tt);;
          grep_prints fuel pattern r
      end
  end.

Fixpoint grep_fd (fuel : nat) (pattern : list Z) (fd : Z) (keep : list Z) : io unit :=
  match fuel with
  | O => Stuck
  | S fuel =>
      r ← read fd (u32 (1024 - Z.of_nat (length keep) - 1));
      let '(n, bytes) := r in
      if 0 <? n then
        let b := keep ++ take (Z.to_nat n) bytes in
        grep_prints (length b) pattern b;;
        grep_fd fuel pattern fd (grep_turn pattern keep (take (Z.to_nat n) bytes)).2
      else mret tt
  end.

Definition grep_file (fuel : nat) (pattern name : list Z) : io unit :=
  fd ← open name O_RDONLY;
  if fd <? 0 then printf 1 (line "grep: cannot open %s") [str name];; exit else
  grep_fd fuel pattern fd [];; close fd;; mret tt.

Definition grep_main (fuel : nat) (argv : list (list Z)) : io unit :=
  match argv with
  | _ :: pattern :: names =>
      if (length argv <=? 2)%nat then grep_fd fuel pattern 0 [];; exit
      else each names (grep_file fuel pattern);; exit
  | _ => printf 2 (line "usage: grep pattern [file ...]") [];; exit
  end.

(** ** Changing files *)

Fixpoint echo_args (args : list (list Z)) : io unit :=
  match args with
  | [] => mret tt
  | a :: rest =>
      printf 1 (bytes_of_string "%s%s") [str a; str (match rest with [] => [10] | _ => [32] end)];;
      echo_args rest
  end.
Definition echo_main (argv : list (list Z)) : io unit := echo_args (tail argv);; exit.

Definition kill_main (argv : list (list Z)) : io unit :=
  if (length argv <? 2)%nat then printf 2 (line "usage: kill pid...") [];; exit else
  each (tail argv) (fun a => sys (CKill (atoi a));; mret tt);; exit.

Definition ln_main (argv : list (list Z)) : io unit :=
  match argv with
  | [_; old; new] =>
      r ← sys (CLink old new);
      (if r <? 0 then printf 2 (line "link %s %s: failed") [str old; str new] else mret tt);;
      exit
  | _ => printf 2 (line "Usage: ln old new") [];; exit
  end.

Fixpoint mkdir_args (names : list (list Z)) : io unit :=
  match names with
  | [] => mret tt
  | name :: rest =>
      r ← sys (CMkdir name);
      if r <? 0 then printf 2 (line "mkdir: %s failed to create") [str name] else mkdir_args rest
  end.
Definition mkdir_main (argv : list (list Z)) : io unit :=
  if (length argv <? 2)%nat then printf 2 (line "Usage: mkdir files...") [];; exit else
  mkdir_args (tail argv);; exit.

Fixpoint rm_args (names : list (list Z)) : io unit :=
  match names with
  | [] => mret tt
  | name :: rest =>
      r ← sys (CUnlink name);
      if r <? 0 then printf 2 (line "rm: %s failed to delete") [str name] else rm_args rest
  end.
Definition rm_main (argv : list (list Z)) : io unit :=
  if (length argv <? 2)%nat then printf 2 (line "Usage: rm files...") [];; exit else
  rm_args (tail argv);; exit.

(** ** ls *)

(** The index behind the last slash among the first [n] characters, or 0. *)
Fixpoint name_start (path : list Z) (n : nat) : nat :=
  match n with
  | O => 0
  | S m => if nth m path 0 =? 47 then n else name_start path m
  end.

Definition fmtname (path : list Z) : list Z :=
  let p := drop (name_start path (length (cstring path))) (cstring path) in
  if DIRSIZ <=? Ulib.strlen p then p
  else p ++ replicate (Z.to_nat (DIRSIZ - Ulib.strlen p)) 32.

Definition ls_line (name : list Z) (st : stat) : io unit :=
  printf 1 (line "%s %d %d %d") [str name; ArgInt (st_type st); ArgInt (st_ino st); ArgInt (st_size st)].

(** The entry with [name] of the directory whose path is in [buf]. *)
Definition entry_path (path name : list Z) : list Z := cstring path ++ [47] ++ cstring name.

Definition ls_entry (path : list Z) (de : dirent) : io unit :=
  let buf := entry_path path (de_name de) in
  s ← stat_path buf;
  if s.1 <? 0 then printf 1 (line "ls: cannot stat %s") [str buf]
  else ls_line (fmtname buf) s.2.

Fixpoint ls_entries (fuel : nat) (path : list Z) (fd : Z) : io unit :=
  match fuel with
  | O => Stuck
  | S fuel =>
      r ← read fd DIRENT_SIZE;
      let '(n, bytes) := r in
      if negb (n =? DIRENT_SIZE) then mret tt else
      let de := dirent_of_bytes bytes in
      if de_inum de =? 0 then ls_entries fuel path fd else
      ls_entry path de;;
      ls_entries fuel path fd
  end.

(** The switch on the type of the file. *)
Definition ls_show (fuel : nat) (path : list Z) (fd : Z) (st : stat) : io unit :=
  if st_type st =? T_FILE then ls_line (fmtname path) st
  else if st_type st =? T_DIR then
    if 512 <? Ulib.strlen path + 1 + DIRSIZ + 1 then printf 1 (line "ls: path too long") []
    else ls_entries fuel path fd
  else mret tt.

Definition ls_body (fuel : nat) (path : list Z) (fd : Z) : io unit :=
  s ← fstat fd;
  if s.1 <? 0 then printf 2 (line "ls: cannot stat %s") [str path] else ls_show fuel path fd s.2.

Definition ls (fuel : nat) (path : list Z) : io unit :=
  fd ← open path O_RDONLY;
  if fd <? 0 then printf 2 (line "ls: cannot open %s") [str path] else
  ls_body fuel path fd;; close fd;; mret tt.

Definition ls_main (fuel : nat) (argv : list (list Z)) : io unit :=
  if (length argv <? 2)%nat then ls fuel (bytes_of_string ".");; exit else
  each (tail argv) (ls fuel);; exit.

(** ** Programs that fork *)

Definition zombie_main : io unit :=
  pid ← fork;
  (if 0 <? pid then sys (CSleep 5);; mret tt else mret tt);;
  exit.

Definition console : list Z := bytes_of_string "console".
Definition sh_name : list Z := bytes_of_string "sh".

(** A program that execs successfully has come to its end. *)
Definition exec (path : list Z) (argv : list (list Z)) : io unit :=
  r ← sys (CExec path argv);
  if r <? 0 then mret tt else Exit.

Definition init_fds : io unit :=
  fd ← open console O_RDWR;
  (if fd <? 0 then sys (CMknod console 1 1);; open console O_RDWR;; mret tt else mret tt);;
  sys (CDup 0);;
  sys (CDup 0);;
  mret tt.

(** The inner loop: children that init inherited come back from wait, too. *)
Fixpoint init_wait (fuel : nat) (pid : Z) : io unit :=
  match fuel with
  | O => Stuck
  | S fuel =>
      wpid ← sys CWait;
      if (0 <=? wpid) && negb (wpid =? pid) then printf 1 (line "zombie!") [];; init_wait fuel pid else mret tt
  end.

(** One turn of the endless loop. *)
Definition init_turn (fuel : nat) : io unit :=
  printf 1 (line "init: starting sh") [];;
  pid ← fork;
  if pid <? 0 then printf 1 (line "init: fork failed") [];; exit else
  if pid =? 0 then exec sh_name [sh_name];; printf 1 (line "init: exec sh failed") [];; exit else
  init_wait fuel pid.

Fixpoint init_loop (turns fuel : nat) : io unit :=
  match turns with O => Stuck | S turns => init_turn fuel;; init_loop turns fuel end.
Definition init_main (turns fuel : nat) : io unit := init_fds;; init_loop turns fuel.

(** The four forks of stressfs: a process leaves the loop when it is a parent. *)
Fixpoint stress_forks (n : nat) (i : Z) : io Z :=
  match n with
  | O => mret i
  | S n => pid ← fork; if 0 <? pid then mret i else stress_forks n (i + 1)
  end.

Definition stressfs_main : io unit :=
  printf 1 (line "stressfs starting") [];;
  let data := replicate 512 97 in
  i ← stress_forks 4 0;
  printf 1 (line "write %d") [ArgInt i];;
  let path := bytes_of_string "stressfs" ++ [u8 (48 + i)] in
  fd ← open path (Z.lor O_CREATE O_RDWR);
  each (seq 0 20) (fun _ => write fd data;; mret tt);;
  close fd;;
  printf 1 (line "read") [];;
  fd ← open path O_RDONLY;
  each (seq 0 20) (fun _ => read fd 512;; mret tt);;
  close fd;;
  sys CWait;;
  exit.

(** forktest has a printf of its own, which writes the string as it is. *)
Definition puts (fd : Z) (s : list Z) : io unit := write fd (cstring s);; mret tt.

(** The first loop: how many children were made, [n] from the start and at most
    [more] more. *)
Fixpoint fork_all (more : nat) (n : Z) : io Z :=
  match more with
  | O => mret n
  | S more =>
      pid ← fork;
      if pid <? 0 then mret n else
      if pid =? 0 then Exit else fork_all more (n + 1)
  end.

Fixpoint wait_all (n : nat) : io unit :=
  match n with
  | O => mret tt
  | S n => r ← sys CWait; if r <? 0 then puts 1 (line "wait stopped early");; exit else wait_all n
  end.

Definition FORKS : Z := 1000.
Definition forktest : io unit :=
  puts 1 (line "fork test");;
  n ← fork_all (Z.to_nat FORKS) 0;
  if n =? FORKS then puts 1 (line "fork claimed to work N times!");; exit else
  wait_all (Z.to_nat n);;
  r ← sys CWait;
  if negb (r =? -1) then puts 1 (line "wait got too many");; exit else
  puts 1 (line "fork test OK").
Definition forktest_main : io unit := forktest;; exit.

(** ** What the programs write *)

(** *** Counting *)

Definition space (b : Z) : bool := strchr wc_space b.

(** The pieces of a text between its whitespace characters. *)
Fixpoint pieces (bs : list Z) : list (list Z) :=
  match bs with
  | [] => [[]]
  | b :: bs =>
      if space b then [] :: pieces bs
      else match pieces bs with p :: ps => (b :: p) :: ps | [] => [[b]] end
  end.
Definition words (bs : list Z) : list (list Z) := filter (fun p => p <> []) (pieces bs).
Definition newlines (bs : list Z) : list Z := filter (fun b => b = 10) bs.

(** The words that start in [bs] when the text before it ended in a word. *)
Definition new_words (inword : bool) (bs : list Z) : Z :=
  Z.of_nat (length (words bs)) - match bs with b :: _ => if inword && negb (space b) then 1 else 0 | [] => 0 end.

Lemma pieces_cons bs : exists p ps, pieces bs = p :: ps /\ (p = [] <-> match bs with b :: _ => space b = true | [] => True end).
Proof.
  induction bs as [|b bs (p & ps & E & Hp)]; cbn [pieces]; [by exists [], []|]. destruct (space b) eqn:Eb.
  - by exists [], (pieces bs).
  - rewrite E. by exists (b :: p), ps.
Qed.

Lemma new_words_cons inword b bs : new_words inword (b :: bs) =
  if space b then new_words false bs else (if inword then 0 else 1) + new_words true bs.
Proof.
  unfold new_words, words. destruct (pieces_cons bs) as (p & ps & E & Hp). cbn [pieces]. rewrite E.
  destruct (space b) eqn:Eb.
  - rewrite filter_cons_False by naive_solver. rewrite andb_false_r. destruct bs; done.
  - rewrite (filter_cons_True _ (b :: p)) by done. rewrite andb_true_r.
    destruct bs as [|b' bs].
    + rewrite (proj2 Hp I), filter_cons_False by naive_solver. destruct inword; cbn [length]; lia.
    + destruct (space b') eqn:Eb'; cbn [andb negb].
      * rewrite (proj2 Hp eq_refl), filter_cons_False by naive_solver. destruct inword; cbn [length]; lia.
      * rewrite (filter_cons_True _ p) by (intros E0; apply Hp in E0; congruence). destruct inword; cbn [length]; lia.
Qed.

Lemma new_words_range inword bs : 0 <= new_words inword bs <= Z.of_nat (length bs).
Proof.
  induction bs as [|b bs IH] in inword |- *; [done|]. rewrite new_words_cons. cbn [length].
  destruct (space b); [specialize (IH false)|specialize (IH true)]; destruct inword; lia.
Qed.

Lemma wc_counts_bytes bs l w c inword :
  0 <= l -> 0 <= w -> 0 <= c ->
  l + Z.of_nat (length bs) < 2147483648 -> w + Z.of_nat (length bs) < 2147483648 -> c + Z.of_nat (length bs) < 2147483648 ->
  exists inword', foldl wc_byte (l, w, c, inword) bs =
    (l + Z.of_nat (length (newlines bs)), w + new_words inword bs, c + Z.of_nat (length bs), inword').
Proof.
  induction bs as [|b bs IH] in l, w, c, inword |- *; intros Hl Hw Hc Bl Bw Bc.
  { exists inword. unfold new_words. cbn. by rewrite !Z.add_0_r. }
  cbn [length] in *. rewrite new_words_cons. cbn [foldl].
  set (l' := if b =? 10 then l + 1 else l).
  assert (El : (if b =? 10 then s32 (l + 1) else l) = l') by (subst l'; case_match; [apply s32_small; lia|done]).
  assert (El' : l' + Z.of_nat (length (newlines bs)) = l + Z.of_nat (length (newlines (b :: bs)))).
  { subst l'. unfold newlines. destruct (b =? 10) eqn:Eb;
      [rewrite filter_cons_True by lia; cbn [length]; lia|by rewrite filter_cons_False by lia]. }
  assert (Bl' : 0 <= l' <= l + 1) by (subst l'; case_match; lia).
  unfold wc_byte at 2. rewrite El, (s32_small (c + 1)) by lia. change (strchr wc_space b) with (space b).
  destruct (space b); [|destruct inword; cbn [negb]; [|rewrite (s32_small (w + 1)) by lia]].
  - destruct (IH l' w (c + 1) false) as (i' & ->); [lia..|]. exists i'. by rewrite El', Nat2Z.inj_succ, <- Z.add_1_l, Z.add_assoc.
  - destruct (IH l' w (c + 1) true) as (i' & ->); [lia..|]. exists i'. by rewrite El', Z.add_0_l, Nat2Z.inj_succ, <- Z.add_1_l, Z.add_assoc.
  - destruct (IH l' (w + 1) (c + 1) true) as (i' & ->); [lia..|]. exists i'. by rewrite El', Nat2Z.inj_succ, <- Z.add_1_l, !Z.add_assoc.
Qed.

Lemma wc_counts_text bs : Z.of_nat (length bs) < 2147483648 ->
  (foldl wc_byte (0, 0, 0, false) bs).1 =
    (Z.of_nat (length (newlines bs)), Z.of_nat (length (words bs)), Z.of_nat (length bs)).
Proof.
  intros Hb. destruct (wc_counts_bytes bs 0 0 0 false) as (i & ->); [lia..|]. cbn [fst].
  unfold new_words. destruct bs as [|b bs]; cbn [andb]; by rewrite Z.sub_0_r, !Z.add_0_l.
Qed.

(** *** Lines *)

Lemma matching_lines_none pattern text : ch_nl ∉ text -> matching_lines pattern text = [].
Proof. intros Hn. unfold matching_lines. by destruct (no_newline [] text Hn) as [-> _]. Qed.

Lemma complete_lines_first acc text : ch_nl ∈ text -> exists l, (acc ++ l) ∈ complete_lines acc text.
Proof.
  induction text as [|c text IH] in acc |- *; cbn; [by intros ?%not_elem_of_nil|].
  destruct (Z.eqb_spec c ch_nl) as [->|Hne]; intros Hc.
  - exists []. rewrite app_nil_r. by left.
  - apply elem_of_cons in Hc as [?|Hc]; [congruence|]. destruct (IH (acc ++ [c]) Hc) as (l & Hl).
    exists (c :: l). by rewrite <- app_assoc in Hl.
Qed.

(** The lines of a text are shorter than the buffer of grep. *)
Definition short_lines (text : list Z) : Prop := Forall (fun l => (length l <= 1022)%nat) (complete_lines [] text).

(** A full buffer without an end of line is not part of a short line. *)
Lemma short_lines_long b rest : short_lines (b ++ rest) -> ch_nl ∉ b -> (1022 < length b)%nat -> ch_nl ∉ rest.
Proof.
  intros Hs Hb Hl Hr. unfold short_lines in Hs. rewrite complete_lines_app in Hs. destruct (no_newline [] b Hb) as [E1 E2].
  rewrite E1, E2 in Hs. destruct (complete_lines_first ([] ++ b) rest Hr) as (l & Hin).
  rewrite Forall_forall in Hs. specialize (Hs _ Hin). cbn in Hs. rewrite length_app in Hs. lia.
Qed.

Lemma lines_split b : let keep := last_part [] b in
  (ch_nl ∉ keep) /\ (forall rest, complete_lines [] (b ++ rest) = complete_lines [] b ++ complete_lines [] (keep ++ rest)).
Proof.
  intros keep. assert (Hk : ch_nl ∉ keep) by apply last_part_no_nl, not_elem_of_nil. split; [done|].
  intros rest. rewrite complete_lines_app, (complete_lines_app [] keep). destruct (no_newline [] keep Hk) as [-> ->]. done.
Qed.

Lemma matching_lines_split pattern b rest :
  matching_lines pattern (b ++ rest) = matching_lines pattern b ++ matching_lines pattern (last_part [] b ++ rest).
Proof. unfold matching_lines. destruct (lines_split b) as [_ ->]. by rewrite fmap_app, concat_app. Qed.

Lemma short_lines_split b rest : short_lines (b ++ rest) -> short_lines (last_part [] b ++ rest).
Proof. unfold short_lines. destruct (lines_split b) as [_ ->]. intros Hs. by apply Forall_app in Hs as [_ Hs]. Qed.

(** What a turn of grep keeps: the beginning of a line, or nothing if there was
    no end of line. *)
Lemma grep_turn_keeps pattern keep chunk : 0 ∉ keep ++ chunk ->
  grep_turn pattern keep chunk =
    (matching_lines pattern (keep ++ chunk),
     if decide (ch_nl ∈ keep ++ chunk) then last_part [] (keep ++ chunk) else []).
Proof.
  intros H0. unfold grep_turn. set (b := keep ++ chunk) in *. rewrite grep_lines_spec by done. f_equal.
  destruct (last_part_suffix [] b) as [pre Hpre]. cbn in Hpre. pose proof (f_equal length Hpre) as Hl. rewrite length_app in Hl.
  case_decide as Hnl.
  - rewrite (proj2 (Nat.eqb_neq _ _)); [done|]. intros E. assert (pre = []) as -> by (apply length_zero_iff_nil; lia).
    cbn in Hpre. rewrite Hpre in Hnl. by apply (last_part_no_nl [] b) in Hnl; [|apply not_elem_of_nil].
  - destruct (no_newline [] b Hnl) as [_ ->]. by rewrite (proj2 (Nat.eqb_eq _ _)).
Qed.

Lemma last_part_shorter b : ch_nl ∈ b -> (length (last_part [] b) < length b)%nat.
Proof.
  intros Hnl. destruct (last_part_suffix [] b) as [pre Hpre]. cbn in Hpre. pose proof (f_equal length Hpre) as Hl.
  rewrite length_app in Hl. destruct pre as [|x pre]; [|cbn in Hl; lia]. cbn in Hpre. rewrite Hpre in Hnl.
  by apply (last_part_no_nl [] b) in Hnl; [|apply not_elem_of_nil].
Qed.

(** The state of grep between two reads. *)
Record grep_inv (keep rest : list Z) : Prop := GrepInv {
  gi_len : (length keep <= 1022)%nat;
  gi_nul : 0 ∉ keep ++ rest;
  gi_nl : ch_nl ∉ keep;
  gi_short : short_lines (keep ++ rest);
}.

(** A turn that fills the buffer or comes to the end of the file. *)
Lemma grep_inv_turn pattern keep chunk rest :
  grep_inv keep (chunk ++ rest) -> (length (keep ++ chunk) <= 1023)%nat ->
  (rest <> [] -> length (keep ++ chunk) = 1023%nat) ->
  let keep' := (grep_turn pattern keep chunk).2 in
  grep_inv keep' rest /\
  matching_lines pattern (keep ++ chunk ++ rest) = matching_lines pattern (keep ++ chunk) ++ matching_lines pattern (keep' ++ rest).
Proof.
  intros [Hk Hz Hnk Hsh] Hle Hfull. rewrite app_assoc in *. apply not_elem_of_app in Hz as [Hzb Hzr].
  rewrite grep_turn_keeps by done. cbn [snd]. set (b := keep ++ chunk) in *. case_decide as Hnl.
  - split; [constructor|apply matching_lines_split].
    + pose proof (last_part_shorter b Hnl). lia.
    + rewrite not_elem_of_app. split; [|done]. by intros ?%last_part_sub.
    + apply last_part_no_nl, not_elem_of_nil.
    + by apply short_lines_split.
  - assert (Hr : ch_nl ∉ rest).
    { destruct (decide (rest = [])) as [->|Hne]; [apply not_elem_of_nil|].
      apply (short_lines_long b); [done..|]. rewrite Hfull by done. lia. }
    split; [constructor; cbn; try done; [lia|apply not_elem_of_nil|]|].
    + unfold short_lines. by destruct (no_newline [] rest Hr) as [-> _].
    + rewrite !matching_lines_none; [done|done..|]. by rewrite not_elem_of_app.
Qed.

#[local] Opaque formatted.

Section with_kernel.
Context {W : Type} `{UserKernel W}.

(** The text for a list of files: that of each file up to the first one that
    cannot be opened, and the message for that one. *)
Fixpoint files_text (w : W) (text : list Z -> list Z -> list Z) (msg : list Z -> list Z) (names : list (list Z)) : list Z :=
  match names with
  | [] => []
  | name :: rest =>
      match found w name with
      | Some (_, bs) => text name bs ++ files_text w text msg rest
      | None => msg name
      end
  end.

Lemma files_text_same w w' text msg names : same w w' -> files_text w' text msg names = files_text w text msg names.
Proof. intros HS. induction names as [|n l IH]; cbn; [done|]. by rewrite (same_found _ _ HS), IH. Qed.

(** A program that goes through files and stops at the first it cannot open. *)
Lemma prints_files (f : list Z -> io unit) text msg names w :
  sink w 1 = true -> (0 < room w)%nat ->
  (forall name w1 st bs, name ∈ names -> same w w1 -> room w1 = room w -> found w1 name = Some (st, bs) ->
    exists w2, prints None (f name) w1 w2 (Returned tt) (to 1 (text name bs))) ->
  (forall name w1, same w w1 -> found w1 name = None -> exists w2, prints None (f name) w1 w2 Exited (to 1 (msg name))) ->
  exists w' e, prints None (each names f) w w' e (to 1 (files_text w text msg names)) /\ over e.
Proof.
  intros Hs Hr Hok Hbad. induction names as [|name names IH] in w, Hs, Hr, Hok, Hbad |- *.
  { exists w, (Returned tt). split; [|by left]. eapply prints_ext; [apply prints_done|].
    intros fd. unfold to, nothing. by case_match. }
  cbn [files_text each]. destruct (found w name) as [[st bs]|] eqn:Ef.
  - destruct (Hok name w st bs) as (w1 & P1); [by left|apply same_refl|done..|].
    pose proof (prints_same P1) as S1. destruct (IH w1) as (w2 & e & P2 & Ho).
    + by rewrite (sink_after P1).
    + by rewrite (prints_room P1).
    + intros n' w' st' bs' Hin Hs' Hr' Hf'. apply Hok with st'; [by right|by eapply same_trans| |done].
      by rewrite Hr', (prints_room P1).
    + intros n' w' Hs'. apply Hbad. by eapply same_trans.
    + exists w2, e. split; [|done]. rewrite (files_text_same _ _ _ _ _ S1) in P2.
      eapply prints_ext; [by eapply prints_bind|]. intros fd. unfold and_then, to. by case_match.
  - destruct (Hbad name w) as (w1 & P1); [apply same_refl|done|].
    exists w1, Exited. split; [by apply prints_bind_exit|by right].
Qed.

(** The message of a program for a file it cannot open. *)
Lemma prints_cannot_open (f : Z -> io unit) msg name w :
  sink w 1 = true -> found w name = None -> f (-1) = (printf 1 msg [str name];; exit) ->
  exists w', prints None (open name O_RDONLY ≫= f) w w' Exited (to 1 (formatted msg [str name])).
Proof.
  intros Hs Hf Hshape. destruct (prints_open_bad w name Hf) as (w1 & P1).
  destruct (prints_printf w1 1 msg [str name]) as (w2 & P2); [by rewrite (sink_after P1)|].
  exists w2. eapply prints_ext; [eapply prints_bind; [exact P1|rewrite Hshape; eapply prints_over; [exact P2|by left]]|].
  intros fd. done.
Qed.

(** *** cat *)

Lemma prints_cat fuel w fd bs : sink w 1 = true -> unread w fd = Some bs -> (length bs < fuel)%nat ->
  exists w', prints (Some fd) (cat fuel fd) w w' (Returned tt) (to 1 bs) /\ unread w' fd = Some [].
Proof.
  revert w bs. induction fuel as [|fuel IH]; intros w bs Hs Hu Hl; [lia|]. cbn [cat].
  destruct (prints_read w fd 512 bs Hu ltac:(lia)) as (w1 & [n buf] & rest & P1 & Hu1 & _ & _ & Hg).
  destruct Hg as (-> & Hn & Hn512 & Hend & _). cbn [fst snd] in *. rewrite length_app in Hl.
  destruct buf as [|b buf].
  - specialize (Hend eq_refl). cbn in Hend, Hn. subst rest. subst n. exists w1. split; [|done].
    eapply prints_ext; [eapply prints_bind; [exact P1|apply prints_done]|]. intros fd'. unfold and_then, to, nothing. by case_match.
  - set (buf' := b :: buf) in *. assert (Hpos : (0 < length buf')%nat) by (subst buf'; cbn; lia).
    destruct (prints_write w1 1 buf') as (w2 & P2); [by rewrite (sink_after P1)|].
    destruct (IH w2 rest) as (w3 & P3 & Hu3).
    + by rewrite (sink_after P2), (sink_after P1).
    + by eapply prints_same_unread.
    + lia.
    + exists w3. split; [|done].
      eapply prints_ext; [eapply prints_bind; [exact P1|]|].
      * cbv beta iota. zb. rewrite take_ge by lia.
        eapply prints_bind; [apply prints_weaken; exact P2|]. cbv beta. rewrite <- Hn, Z.eqb_refl. exact P3.
      * intros fd'. unfold and_then, to, nothing. by case_match.
Qed.

Lemma prints_cat_file fuel w name st bs : sink w 1 = true -> (0 < room w)%nat -> found w name = Some (st, bs) ->
  (length bs < fuel)%nat -> exists w', prints None (cat_file fuel name) w w' (Returned tt) (to 1 bs).
Proof.
  intros Hs Hr Hf Hl. eapply (prints_file _ _ _ _ _ (cat fuel) (fun _ => tt)); try done.
  - intros fd Hfd. zb. done.
  - intros w1 fd Ho. destruct (prints_cat fuel w1 fd bs) as (w2 & P & Hu); [|apply (op_unread _ _ _ _ _ Ho)|done|].
    + by rewrite (same_sink _ _ (op_same _ _ _ _ _ Ho)).
    + exists w2. by rewrite Hu.
Qed.

(** What cat writes for the arguments [names]. *)
Definition cat_text (w : W) (names : list (list Z)) : list Z :=
  match names with
  | [] => default [] (unread w 0)
  | _ => files_text w (fun _ bs => bs) (fun name => formatted (line "cat: cannot open %s") [str name]) names
  end.

(** The input of a program that reads the files [names], or descriptor 0, is
    shorter than [fuel]. *)
Record input_below (w : W) (names : list (list Z)) (fuel : nat) : Prop := InputBelow {
  below_files name st bs : name ∈ names -> found w name = Some (st, bs) -> (length bs < fuel)%nat;
  below_input : names = [] -> exists bs, unread w 0 = Some bs /\ (length bs < fuel)%nat;
}.

(** Whatever the sizes of the reads are, cat copies the files in their order to
    its output and nothing else, up to the first that cannot be opened, for which
    it writes a message; without arguments it copies its input. *)
Theorem cat_copies fuel prog names w :
  sink w 1 = true -> (0 < room w)%nat -> input_below w names fuel ->
  exists w', run (cat_main fuel (prog :: names)) w = (w', Exited) /\
    forall fd, output w' fd = output w fd ++ to 1 (cat_text w names) fd.
Proof.
  intros Hs Hr [Hfiles Hin]. destruct names as [|name names].
  - destruct (Hin eq_refl) as (bs & Hu & Hl). destruct (prints_cat fuel w 0 bs Hs Hu Hl) as (w' & P & _).
    exists w'. pose proof (prints_over _ _ _ _ _ _ P (or_introl eq_refl)) as P'.
    split; [apply straight_run, (prints_run P')|]. intros fd. rewrite (prints_out P'). cbn. by rewrite Hu.
  - destruct (prints_files (cat_file fuel) (fun _ bs => bs)
      (fun name => formatted (line "cat: cannot open %s") [str name]) (name :: names) w) as (w' & e & P & Ho); [done..| | |].
    + intros n w1 st bs Hn S1 R1 Hf. eapply prints_cat_file; [by rewrite (same_sink _ _ S1)|lia|exact Hf|].
      eapply Hfiles; [exact Hn|]. by rewrite <- (same_found _ _ S1).
    + intros n w1 S1 Hf. apply prints_cannot_open; [by rewrite (same_sink _ _ S1)|done|done].
    + exists w'. pose proof (prints_over _ _ _ _ _ _ P Ho) as P'.
      split; [apply straight_run, (prints_run P')|apply (prints_out P')].
Qed.

(** *** wc *)

Lemma prints_wc_loop fuel w fd bs st : unread w fd = Some bs -> (length bs < fuel)%nat ->
  exists w', prints (Some fd) (wc_loop fuel fd st) w w' (Returned (foldl wc_byte st bs).1) nothing /\ unread w' fd = Some [].
Proof.
  revert w bs st. induction fuel as [|fuel IH]; intros w bs st Hu Hl; [lia|]. cbn [wc_loop].
  destruct (prints_read w fd 512 bs Hu ltac:(lia)) as (w1 & [n buf] & rest & P1 & Hu1 & _ & _ & Hg).
  destruct Hg as (-> & Hn & Hn512 & Hend & _). cbn [fst snd] in *. rewrite length_app in Hl.
  destruct buf as [|b buf].
  - specialize (Hend eq_refl). cbn in Hend, Hn. subst rest n. exists w1. split; [|done].
    eapply prints_ext; [eapply prints_bind; [exact P1|apply prints_done]|done].
  - set (buf' := b :: buf) in *. assert (Hpos : (0 < length buf')%nat) by (subst buf'; cbn; lia).
    destruct (IH w1 rest (foldl wc_byte st buf') Hu1) as (w2 & P2 & Hu2); [lia|].
    exists w2. split; [|done]. rewrite foldl_app.
    eapply prints_ext; [eapply prints_bind; [exact P1|]|].
    + cbv beta iota. zb. rewrite take_ge by lia. exact P2.
    + done.
Qed.

(** The line of wc for a text. *)
Definition wc_args (name bs : list Z) : list fmtarg :=
  [ArgInt (Z.of_nat (length (newlines bs))); ArgInt (Z.of_nat (length (words bs))); ArgInt (Z.of_nat (length bs)); str name].
Definition wc_line (name bs : list Z) : list Z := formatted (line "%d %d %d %s") (wc_args name bs).

Lemma prints_wc fuel w fd name bs : sink w 1 = true -> unread w fd = Some bs -> (length bs < fuel)%nat ->
  Z.of_nat (length bs) < 2147483648 ->
  exists w', prints (Some fd) (wc fuel fd name) w w' (Returned tt) (to 1 (wc_line name bs)) /\ unread w' fd = Some [].
Proof.
  intros Hs Hu Hl Hb. destruct (prints_wc_loop fuel w fd bs (0, 0, 0, false) Hu Hl) as (w1 & P1 & Hu1).
  rewrite wc_counts_text in P1 by done.
  destruct (prints_printf w1 1 (line "%d %d %d %s") (wc_args name bs)) as (w2 & P2); [by rewrite (sink_after P1)|].
  exists w2. split.
  - eapply prints_ext; [eapply prints_bind; [exact P1|]|].
    + cbv beta iota. apply prints_weaken. exact P2.
    + done.
  - by apply (prints_same_unread fd [] P2).
Qed.

Lemma prints_wc_file fuel w name st bs : sink w 1 = true -> (0 < room w)%nat -> found w name = Some (st, bs) ->
  (length bs < fuel)%nat -> Z.of_nat (length bs) < 2147483648 ->
  exists w', prints None (wc_file fuel name) w w' (Returned tt) (to 1 (wc_line name bs)).
Proof.
  intros Hs Hr Hf Hl Hb. eapply (prints_file _ _ _ _ _ (fun fd => wc fuel fd name) (fun _ => tt)); try done.
  - intros fd Hfd. zb. done.
  - intros w1 fd Ho. destruct (prints_wc fuel w1 fd name bs) as (w2 & P & Hu); [|apply (op_unread _ _ _ _ _ Ho)|done..|].
    + by rewrite (same_sink _ _ (op_same _ _ _ _ _ Ho)).
    + exists w2. by rewrite Hu.
Qed.

(** What wc writes for the arguments [names]. *)
Definition wc_text (w : W) (names : list (list Z)) : list Z :=
  match names with
  | [] => wc_line [] (default [] (unread w 0))
  | _ => files_text w wc_line (fun name => formatted (line "wc: cannot open %s") [str name]) names
  end.

(** wc counts.  Whatever the sizes of the reads are, also when a read ends
    within a word, wc writes for each file a line with the number of its ends of
    line, of its words and of its bytes and its name, up to the first file that
    cannot be opened, for which it writes a message; without arguments it counts
    its input.  Files are shorter than 2^31 bytes. *)
Theorem wc_counts fuel prog names w :
  sink w 1 = true -> (0 < room w)%nat -> input_below w names fuel -> Z.of_nat fuel <= 2147483648 ->
  exists w', run (wc_main fuel (prog :: names)) w = (w', Exited) /\
    forall fd, output w' fd = output w fd ++ to 1 (wc_text w names) fd.
Proof.
  intros Hs Hr [Hfiles Hin] Hfu. destruct names as [|name names].
  - destruct (Hin eq_refl) as (bs & Hu & Hl). destruct (prints_wc fuel w 0 [] bs Hs Hu Hl) as (w' & P & _); [lia|].
    exists w'. pose proof (prints_over _ _ _ _ _ _ P (or_introl eq_refl)) as P'.
    split; [apply straight_run, (prints_run P')|]. intros fd. rewrite (prints_out P'). cbn. by rewrite Hu.
  - destruct (prints_files (wc_file fuel) wc_line
      (fun name => formatted (line "wc: cannot open %s") [str name]) (name :: names) w) as (w' & e & P & Ho); [done..| | |].
    + intros n w1 st bs Hn S1 R1 Hf. rewrite (same_found _ _ S1) in Hf. specialize (Hfiles n st bs Hn Hf).
      eapply prints_wc_file; [by rewrite (same_sink _ _ S1)|lia|by rewrite (same_found _ _ S1)|done|lia].
    + intros n w1 S1 Hf. apply prints_cannot_open; [by rewrite (same_sink _ _ S1)|done|done].
    + exists w'. pose proof (prints_over _ _ _ _ _ _ P Ho) as P'.
      split; [apply straight_run, (prints_run P')|apply (prints_out P')].
Qed.

(** *** grep *)

Lemma prints_grep_lines fuel pattern p w : sink w 1 = true ->
  exists w', prints None (grep_prints fuel pattern p) w w' (Returned tt) (to 1 (grep_lines fuel pattern p).1).
Proof.
  revert p w. induction fuel as [|fuel IH]; intros p w Hs.
  { exists w. eapply prints_ext; [apply prints_done|]. intros fd. unfold to, nothing. by case_match. }
  cbn [grep_prints grep_lines]. destruct (split_nl p) as [[l r]|].
  - specialize (IH r). destruct (grep_lines fuel pattern r) as [out rest]. cbn [fst]. destruct (match_re pattern l).
    + destruct (prints_write w 1 (l ++ [ch_nl]) Hs) as (w1 & P1). destruct (IH w1) as (w2 & P2); [by rewrite (sink_after P1)|].
      exists w2. eapply prints_ext; [eapply prints_bind; [eapply prints_bind; [exact P1|apply prints_done]|exact P2]|].
      intros fd. unfold and_then, to, nothing. case_match; [by rewrite app_nil_r|done].
    + destruct (IH w Hs) as (w2 & P2). exists w2.
      eapply prints_ext; [eapply prints_bind; [apply prints_done|exact P2]|done].
  - exists w. eapply prints_ext; [apply prints_done|]. intros fd. unfold to, nothing. by case_match.
Qed.

(** The turns of grep on a file, after [keep] was kept from an earlier turn. *)
Lemma prints_grep_fd fuel pattern fd keep w bs :
  sink w 1 = true -> unread w fd = Some bs -> whole w fd = true -> (length bs < fuel)%nat -> grep_inv keep bs ->
  exists w', prints (Some fd) (grep_fd fuel pattern fd keep) w w' (Returned tt) (to 1 (matching_lines pattern (keep ++ bs))) /\
    unread w' fd = Some [].
Proof.
  revert keep w bs. induction fuel as [|fuel IH]; intros keep w bs Hs Hu Hw Hl Hinv; [lia|]. pose proof (gi_len _ _ Hinv) as Hk.
  cbn [grep_fd]. rewrite u32_small by lia.
  destruct (prints_read w fd (1024 - Z.of_nat (length keep) - 1) bs Hu ltac:(lia)) as (w1 & [n buf] & rest & P1 & Hu1 & Hw1 & _ & Hg).
  destruct Hg as (-> & Hn & Hle & Hend & Hall). cbn [fst snd] in *. rewrite length_app in Hl, Hall. specialize (Hall Hw).
  destruct buf as [|c buf].
  { specialize (Hend eq_refl). cbn in Hend, Hn. subst rest n. exists w1. split; [|done].
    rewrite matching_lines_none by (rewrite !app_nil_r; apply (gi_nl _ _ Hinv)).
    eapply prints_ext; [eapply prints_bind; [exact P1|apply prints_done]|]. intros fd'. unfold and_then, to, nothing. by case_match. }
  set (chunk := c :: buf) in *. assert (Hpos : (0 < length chunk)%nat) by (subst chunk; cbn; lia).
  assert (Hrest : rest <> [] -> length (keep ++ chunk) = 1023%nat).
  { intros Hne. assert (0 < length rest)%nat by (destruct rest; cbn; [done|lia]). rewrite length_app. lia. }
  destruct (grep_inv_turn pattern keep chunk rest Hinv) as [Hinv' Hm]; [rewrite length_app; lia|done|].
  destruct (prints_grep_lines (length (keep ++ chunk)) pattern (keep ++ chunk) w1) as (w2 & P2); [by rewrite (sink_after P1)|].
  pose proof (prints_same_unread fd rest P2 ltac:(done) Hu1) as Hu2.
  pose proof (prints_fd P2 fd ltac:(done) ltac:(by rewrite Hu1)) as Hsame.
  destruct (IH (grep_turn pattern keep chunk).2 w2 rest) as (w3 & P3 & Hu3); [|done| |lia|done|].
  { by rewrite (sink_after P2), (sink_after P1). }
  { by rewrite (same_whole _ _ _ Hsame), Hw1. }
  exists w3. split; [|done]. rewrite grep_lines_spec in P2 by
    (done || (pose proof (gi_nul _ _ Hinv) as Hz; rewrite app_assoc in Hz; by apply not_elem_of_app in Hz as [? _])).
  eapply prints_ext; [eapply prints_bind; [exact P1|]|].
  - cbv beta iota. zb. rewrite take_ge by lia. eapply prints_bind; [apply prints_weaken; exact P2|exact P3].
  - intros fd'. cbn [fst]. rewrite Hm. unfold and_then, to, nothing. by case_match.
Qed.

Lemma prints_grep_file fuel pattern w name st bs : sink w 1 = true -> (0 < room w)%nat -> found w name = Some (st, bs) ->
  (length bs < fuel)%nat -> 0 ∉ bs -> short_lines bs ->
  exists w', prints None (grep_file fuel pattern name) w w' (Returned tt) (to 1 (matching_lines pattern bs)).
Proof.
  intros Hs Hr Hf Hl Hz Hsh. eapply (prints_file _ _ _ _ _ (fun fd => grep_fd fuel pattern fd []) (fun _ => tt)); try done.
  - intros fd Hfd. zb. done.
  - intros w1 fd Ho. destruct (prints_grep_fd fuel pattern fd [] w1 bs) as (w2 & P & Hu);
      [|apply (op_unread _ _ _ _ _ Ho)|apply (op_whole _ _ _ _ _ Ho)|done| |].
    + by rewrite (same_sink _ _ (op_same _ _ _ _ _ Ho)).
    + constructor; cbn; [lia|done|apply not_elem_of_nil|done].
    + exists w2. by rewrite Hu.
Qed.

(** C35. grep on files without zero bytes whose lines have at most 1022 bytes, as
    many as fit into its buffer; reads of a file give as many bytes as asked for
    while there are any.  grep writes exactly those lines, ended by a newline, that
    match, in the order of the files, although it reads each file in pieces that
    end anywhere and keeps the beginning of a line from one piece to the next; it
    stops with a message at the first file that it cannot open.  What follows the
    last newline of a file is not looked at. *)
Theorem grep_writes_matching_lines fuel prog pattern names w :
  names <> [] -> sink w 1 = true -> (0 < room w)%nat -> input_below w names fuel ->
  (forall name st bs, name ∈ names -> found w name = Some (st, bs) -> (0 ∉ bs) /\ short_lines bs) ->
  exists w', run (grep_main fuel (prog :: pattern :: names)) w = (w', Exited) /\
    forall fd, output w' fd = output w fd ++
      to 1 (files_text w (fun _ => matching_lines pattern) (fun name => formatted (line "grep: cannot open %s") [str name]) names) fd.
Proof.
  intros Hne Hs Hr [Hfiles _] Htext. destruct names as [|name names]; [done|].
  destruct (prints_files (grep_file fuel pattern) (fun _ => matching_lines pattern)
    (fun name => formatted (line "grep: cannot open %s") [str name]) (name :: names) w) as (w' & e & P & Ho); [done..| | |].
  - intros n w1 st bs Hn S1 R1 Hf. rewrite (same_found _ _ S1) in Hf. destruct (Htext n st bs Hn Hf) as [Hz Hsh].
    eapply prints_grep_file; [by rewrite (same_sink _ _ S1)|lia|by rewrite (same_found _ _ S1)|by eapply Hfiles|done..].
  - intros n w1 S1 Hf. apply prints_cannot_open; [by rewrite (same_sink _ _ S1)|done|done].
  - exists w'. pose proof (prints_over _ _ _ _ _ _ P Ho) as P'.
    split; [apply straight_run, (prints_run P')|apply (prints_out P')].
Qed.

End with_kernel.

(** ** Examples *)

(** A process whose input brings at most three bytes per read, with two files. *)
Definition sample_ops : UserOps box := boxes (fun _ => true) (fun _ => 3).
Definition sample_text : list Z := line "one two" ++ bytes_of_string "three".
Definition sample_box : box :=
  let dev := mkStat T_DEV 1 5 1 0 in
  Box [Some (Channel dev (Some sample_text) false false); Some (Channel dev None true false); Some (Channel dev None true false); None; None]
      {[ bytes_of_string "f" := (mkStat T_FILE 1 7 1 13, sample_text);
         bytes_of_string "g" := (mkStat T_FILE 1 8 1 0, []) ]} [] 2 [].

Lemma sample_below : input_below (H := sample_ops) sample_box [bytes_of_string "f"; bytes_of_string "g"; bytes_of_string "h"] 20.
Proof.
  constructor; [|done]. intros name st bs Hin Hf. cbn in Hf.
  rewrite !elem_of_cons, elem_of_nil in Hin. destruct_or! Hin; subst; vm_compute in Hf; try done; injection Hf as _ <-; cbn; lia.
Defined.

Lemma wc_counts_witness :
  exists w', run (H := sample_ops) (wc_main 20 [[]; bytes_of_string "f"; bytes_of_string "g"; bytes_of_string "h"]) sample_box = (w', Exited) /\
    output (H := sample_ops) w' 1 = line "1 3 13 f" ++ line "0 0 0 g" ++ line "wc: cannot open h".
Proof.
  destruct (wc_counts (H := sample_ops) (H0 := boxes_kernel _ _) 20 [] [bytes_of_string "f"; bytes_of_string "g"; bytes_of_string "h"] sample_box)
    as (w' & E & Ho); [reflexivity|vm_compute; lia|exact sample_below|lia|].
  exists w'. split; [exact E|]. rewrite Ho. vm_compute. reflexivity.
Defined.

Lemma grep_writes_matching_lines_witness :
  exists w', run (H := sample_ops) (grep_main 20 [[]; bytes_of_string "tw"; bytes_of_string "f"; bytes_of_string "g"; bytes_of_string "h"]) sample_box = (w', Exited) /\
    output (H := sample_ops) w' 1 = line "one two" ++ line "grep: cannot open h".
Proof.
  destruct (grep_writes_matching_lines (H := sample_ops) (H0 := boxes_kernel _ _) 20 [] (bytes_of_string "tw")
    [bytes_of_string "f"; bytes_of_string "g"; bytes_of_string "h"] sample_box)
    as (w' & E & Ho); [done|reflexivity|vm_compute; lia|exact sample_below| |].
  - intros name st bs Hin Hf. rewrite !elem_of_cons, elem_of_nil in Hin.
    destruct_or! Hin; subst; vm_compute in Hf; try done; injection Hf as _ <-;
      (split; [rewrite ?not_elem_of_cons; split_and?; try lia; apply not_elem_of_nil|]); vm_compute; repeat constructor.
  - exists w'. split; [exact E|]. rewrite Ho. vm_compute. reflexivity.
Defined.
