(* ===== verification/UserDirs.v ===== *)
(** * Directories, names and processes: what ls, echo, rm, mkdir, ln, kill, init
      and the fork tests do

    Theorems about the other programs of UserProgs.v. *)

From S2P Require Import Prelude Mmu Bytes Mem Cprintf FsInode FsFile Sh ShRun Ulib UserIo UserProgs.

(** ** Structures in memory *)

Lemma get_bytes_app_l a b off n : (off + n <= length a)%nat -> get_bytes (a ++ b) off n = get_bytes a off n.
Proof. intros Hl. unfold get_bytes. rewrite drop_app_le, take_app_le by (rewrite ?length_drop; lia). done. Qed.
Lemma get_bytes_app_r a b off n : (length a <= off)%nat -> get_bytes (a ++ b) off n = get_bytes b (off - length a) n.
Proof. intros Hl. unfold get_bytes. by rewrite drop_app_ge by done. Qed.
Lemma get_bytes_all b n : length b = n -> get_bytes b 0 n = b.
Proof. intros Hl. unfold get_bytes. rewrite drop_0, take_ge by lia. done. Qed.

(** A directory entry as it is on the disk. *)
Definition dirent_ok (de : dirent) : Prop := 0 <= de_inum de < 65536 /\ length (de_name de) = 14%nat.

Lemma length_dirent_bytes de : dirent_ok de -> length (dirent_bytes de) = 16%nat.
Proof. intros [_ Hl]. unfold dirent_bytes. by rewrite length_app, length_z2le, Hl. Qed.

Lemma dirent_roundtrip de : dirent_ok de -> dirent_of_bytes (dirent_bytes de) = de.
Proof.
  intros [Hi Hl]. destruct de as [inum name]. unfold dirent_of_bytes, dirent_bytes, get16. cbn [de_inum de_name] in *.
  rewrite get_bytes_app_l, get_bytes_all by (by rewrite length_z2le). rewrite le2z_z2le, Z.mod_small by (cbn; lia).
  rewrite get_bytes_app_r, length_z2le, get_bytes_all by (rewrite ?length_z2le; cbn; lia). done.
Qed.

(** The fields of [struct stat] in the range of their types. *)
Definition stat_ok (st : stat) : Prop :=
  -32768 <= st_type st < 32768 /\ -2147483648 <= st_dev st < 2147483648 /\ 0 <= st_ino st < 4294967296 /\
  -32768 <= st_nlink st < 32768 /\ 0 <= st_size st < 4294967296.

Lemma stat_roundtrip st : stat_ok st -> stat_of_bytes (stat_bytes st) = st.
Proof.
  destruct st as [ty dev ino nl sz]. intros (H1 & H2 & H3 & H4 & H5). cbn [st_type st_dev st_ino st_nlink st_size] in *.
  unfold stat_of_bytes, get16, get32, stat_bytes. cbn [st_type st_dev st_ino st_nlink st_size].
  repeat first [rewrite get_bytes_app_l by (rewrite ?length_app, ?length_z2le; cbn; lia)
               |rewrite get_bytes_app_r by (rewrite ?length_app, ?length_z2le; cbn; lia)
               |progress rewrite ?length_z2le|progress cbn [Nat.sub length]].
  rewrite !get_bytes_all by apply length_z2le. rewrite !le2z_z2le. change (256 ^ Z.of_nat 2) with 65536.
  change (256 ^ Z.of_nat 4) with 4294967296. f_equal.
  - unfold s16, u16. case_match; Z.div_mod_to_equations; lia.
  - unfold s32, u32. case_match; Z.div_mod_to_equations; lia.
  - apply Z.mod_small; lia.
  - unfold s16, u16. case_match; Z.div_mod_to_equations; lia.
  - apply Z.mod_small; lia.
Qed.

(** ** Names *)

(** A name, filled up with blanks to the width of a directory entry. *)
Definition pad (name : list Z) : list Z := name ++ replicate (14 - length name) 32.

Lemma name_start_slash a b k : 47 ∉ b -> (k <= length b)%nat -> name_start (a ++ 47 :: b) (S (length a) + k) = S (length a).
Proof.
  intros Hb. induction k as [|k IH]; intros Hk.
  - rewrite Nat.add_0_r. cbn [name_start]. rewrite app_nth2, Nat.sub_diag by lia. done.
  - rewrite Nat.add_succ_r. cbn [name_start]. rewrite app_nth2 by lia.
    replace (S (length a) + k - length a)%nat with (S k) by lia. cbn [nth].
    destruct (nth k b 0 =? 47) eqn:E; [|apply IH; lia]. exfalso. apply Hb. apply Z.eqb_eq in E. rewrite <- E.
    apply list_elem_of_In, nth_In. lia.
Qed.

Lemma strlen_cstring s : Ulib.strlen s = Z.of_nat (length (cstring s)).
Proof. induction s as [|c s IH]; [done|]. cbn [Ulib.strlen cstring]. case_match; [done|]. rewrite IH. cbn [length]. lia. Qed.

Lemma cstring_idem s : cstring (cstring s) = cstring s.
Proof. apply cstring_nonzero, cstring_is_nonzero. Qed.

(** fmtname finds the name of an entry behind the path of its directory. *)
Lemma fmtname_entry path name : 47 ∉ cstring name -> fmtname (entry_path path name) = pad (cstring name).
Proof.
  intros Hn. unfold fmtname.
  assert (Hc : cstring (entry_path path name) = entry_path path name).
  { apply cstring_nonzero. unfold nonzero, entry_path. rewrite !Forall_app. split_and!; [apply cstring_is_nonzero|by repeat constructor|apply cstring_is_nonzero]. }
  rewrite Hc. unfold entry_path. cbn [app]. rewrite length_app. cbn [length].
  replace (length (cstring path) + S (length (cstring name)))%nat with (S (length (cstring path)) + length (cstring name))%nat by lia.
  rewrite name_start_slash by done.
  rewrite drop_app_ge by lia. replace (S (length (cstring path)) - length (cstring path))%nat with 1%nat by lia. cbn [drop].
  rewrite drop_0, strlen_cstring, cstring_idem. unfold pad, DIRSIZ. case_match eqn:E.
  - apply Z.leb_le in E. replace (14 - length (cstring name))%nat with 0%nat by lia. by rewrite app_nil_r.
  - f_equal. f_equal. lia.
Qed.

(** ** Formats *)

Lemma formatted_two a b : formatted (bytes_of_string "%s%s") [str a; str b] = cstring a ++ cstring b.
Proof. rewrite <- (app_nil_r (cstring b)). reflexivity. Qed.

(** ** ls *)

#[local] Opaque formatted.

Section with_kernel.
Context {W : Type} `{UserKernel W}.

Lemma prints_stat w path st bs : found w path = Some (st, bs) -> stat_ok st -> (0 < room w)%nat ->
  exists w', prints None (stat_path path) w w' (Returned (0, st)) nothing.
Proof.
  intros Hf Hst Hr. eapply (prints_file _ _ _ _ _ fstat id); [exact Hf|done| |].
  - intros fd Hfd. zb. done.
  - intros w1 fd Ho. destruct (prints_fstat w1 fd st (op_about _ _ _ _ _ Ho)) as (w2 & P). rewrite stat_roundtrip in P by done.
    exists w2. split; [by apply prints_weaken|]. by rewrite (prints_same_unread fd bs P ltac:(done) (op_unread _ _ _ _ _ Ho)).
Qed.

Lemma prints_stat_bad w path : found w path = None ->
  exists w' st, prints None (stat_path path) w w' (Returned (-1, st)) nothing.
Proof.
  intros Hf. destruct (prints_open_bad w path Hf) as (w1 & P1). eexists w1, _.
  eapply prints_ext; [eapply prints_bind; [exact P1|apply prints_done]|done].
Qed.

Definition stat_args (name : list Z) (st : stat) : list fmtarg :=
  [str name; ArgInt (st_type st); ArgInt (st_ino st); ArgInt (st_size st)].
Definition stat_line (name : list Z) (st : stat) : list Z := formatted (line "%s %d %d %d") (stat_args name st).

(** The line for an entry of a directory. *)
Definition entry_text (w : W) (path : list Z) (de : dirent) : list Z :=
  if de_inum de =? 0 then [] else
  match found w (entry_path path (de_name de)) with
  | Some (st, _) => stat_line (pad (cstring (de_name de))) st
  | None => formatted (line "ls: cannot stat %s") [str (entry_path path (de_name de))]
  end.

(** Directory entries that ls can show: well-formed, with names without a slash
    and with the inode in order. *)
Definition entry_ok (w : W) (path : list Z) (de : dirent) : Prop :=
  dirent_ok de /\ (47 ∉ cstring (de_name de)) /\
  (forall st bs, found w (entry_path path (de_name de)) = Some (st, bs) -> stat_ok st).

Lemma entry_same w w' path de : same w w' -> entry_text w' path de = entry_text w path de /\ (entry_ok w path de -> entry_ok w' path de).
Proof.
  intros HS. unfold entry_text, entry_ok. split; [by rewrite (same_found _ _ HS)|].
  intros (? & ? & Hst). split_and!; [done..|]. intros st bs. rewrite (same_found _ _ HS). apply Hst.
Qed.

Lemma prints_ls_entry w path de : sink w 1 = true -> (0 < room w)%nat -> entry_ok w path de -> de_inum de <> 0 ->
  exists w', prints None (ls_entry path de) w w' (Returned tt) (to 1 (entry_text w path de)).
Proof.
  intros Hs Hr (Hd & Hn & Hst) Hi. unfold ls_entry, entry_text. rewrite (proj2 (Z.eqb_neq _ _) Hi).
  destruct (found w (entry_path path (de_name de))) as [[st bs]|] eqn:Ef.
  - destruct (prints_stat w _ st bs Ef (Hst st bs eq_refl) Hr) as (w1 & P1).
    rewrite fmtname_entry by done.
    destruct (prints_printf w1 1 (line "%s %d %d %d") (stat_args (pad (cstring (de_name de))) st)) as (w2 & P2);
      [by rewrite (sink_after P1)|].
    exists w2. eapply prints_ext; [eapply prints_bind; [exact P1|exact P2]|done].
  - destruct (prints_stat_bad w _ Ef) as (w1 & st & P1).
    destruct (prints_printf w1 1 (line "ls: cannot stat %s") [str (entry_path path (de_name de))]) as (w2 & P2);
      [by rewrite (sink_after P1)|].
    exists w2. eapply prints_ext; [eapply prints_bind; [exact P1|exact P2]|done].
Qed.

Lemma entries_same w w' path (des : list dirent) : same w w' -> entry_text w' path <$> des = entry_text w path <$> des.
Proof. intros HS. apply list_fmap_ext. intros i de _. apply (entry_same w w' path de HS). Qed.

Lemma prints_ls_entries fuel path fd w (des : list dirent) :
  sink w 1 = true -> (0 < room w)%nat -> unread w fd = Some (concat (dirent_bytes <$> des)) -> whole w fd = true ->
  Forall (entry_ok w path) des -> (length des < fuel)%nat ->
  exists w', prints (Some fd) (ls_entries fuel path fd) w w' (Returned tt) (to 1 (concat (entry_text w path <$> des))) /\
    unread w' fd = Some [].
Proof.
  revert w des. induction fuel as [|fuel IH]; intros w des Hs Hr Hu Hw Hok Hl; [lia|]. cbn [ls_entries].
  destruct (prints_read w fd DIRENT_SIZE _ Hu ltac:(done)) as (w1 & [n buf] & rest & P1 & Hu1 & Hw1 & _ & Hg).
  destruct Hg as (Hb & Hn & _ & Hend & Hall). cbn [fst snd] in *. specialize (Hall Hw).
  destruct des as [|de des].
  { destruct buf; [|done]. destruct rest; [|done]. cbn in Hn. subst n. exists w1. split; [|done].
    eapply prints_ext; [eapply prints_bind; [exact P1|apply prints_done]|]. intros fd'. unfold and_then, to, nothing. by case_match. }
  apply Forall_cons in Hok as [Hde Hok]. cbn [fmap list_fmap concat] in *.
  pose proof (length_dirent_bytes de (proj1 Hde)) as Hl16. rewrite length_app, Hl16 in Hall.
  assert (n = 16) as -> by (unfold DIRENT_SIZE in *; lia).
  apply app_inj_1 in Hb as [<- <-]; [|lia].
  pose proof (prints_same P1) as S1.
  assert (Hok1 : Forall (entry_ok w1 path) des) by (eapply Forall_impl; [exact Hok|]; intros x; apply (entry_same w w1 path x S1)).
  destruct (decide (de_inum de = 0)) as [E0|E0].
  - destruct (IH w1 des) as (w2 & P2 & Hu2); [by rewrite (sink_after P1)|by rewrite (prints_room P1)|done|by rewrite Hw1|done|cbn in Hl; lia|].
    exists w2. split; [|done]. eapply prints_ext; [eapply prints_bind; [exact P1|]|].
    + cbv beta iota. rewrite dirent_roundtrip by apply Hde. rewrite E0. exact P2.
    + intros fd'. rewrite (entries_same w w1) by done. unfold entry_text at 2. by rewrite E0.
  - destruct (prints_ls_entry w1 path de) as (w2 & P2);
      [by rewrite (sink_after P1)|by rewrite (prints_room P1)|by apply (entry_same w)|done|].
    pose proof (prints_same P2) as S2. pose proof (prints_fd P2 fd ltac:(done) ltac:(by rewrite Hu1)) as [Eu Ew _].
    destruct (IH w2 des) as (w3 & P3 & Hu3).
    + by rewrite (sink_after P2), (sink_after P1).
    + by rewrite (prints_room P2), (prints_room P1).
    + by rewrite Eu.
    + by rewrite Ew, Hw1.
    + eapply Forall_impl; [exact Hok1|]. intros x. apply (entry_same w1 w2 path x S2).
    + cbn in Hl. lia.
    + exists w3. split; [|done]. eapply prints_ext; [eapply prints_bind; [exact P1|]|].
      * cbv beta iota. rewrite dirent_roundtrip by apply Hde. rewrite (proj2 (Z.eqb_neq _ _) E0).
        eapply prints_bind; [apply prints_weaken; exact P2|exact P3].
      * intros fd'. rewrite (entries_same w1 w2), (entries_same w w1) by done.
        rewrite (proj1 (entry_same w w1 path de S1)). unfold and_then, to, nothing. by case_match.
Qed.

(** What ls shows of a path; [dirs] are the entries of the directories. *)
Definition file_text (w : W) (dirs : list Z -> list dirent) (path : list Z) (st : stat) : list Z :=
  if st_type st =? T_FILE then stat_line (fmtname path) st
  else if st_type st =? T_DIR then
    if 512 <? Z.of_nat (length (cstring path)) + 16 then formatted (line "ls: path too long") []
    else concat (entry_text w path <$> dirs path)
  else [].

Definition ls_text (w : W) (dirs : list Z -> list dirent) (path : list Z) : Z -> list Z :=
  match found w path with
  | None => to 2 (formatted (line "ls: cannot open %s") [str path])
  | Some (st, _) => to 1 (file_text w dirs path st)
  end.

(** A path that ls can show with the fuel it has. *)
Definition path_ok (w : W) (dirs : list Z -> list dirent) (fuel : nat) (path : list Z) : Prop :=
  forall st bs, found w path = Some (st, bs) -> stat_ok st /\
    (st_type st = T_DIR -> bs = concat (dirent_bytes <$> dirs path) /\ Forall (entry_ok w path) (dirs path) /\
      (length (dirs path) < fuel)%nat).

Lemma ls_text_same w w' dirs path : same w w' -> ls_text w' dirs path = ls_text w dirs path.
Proof. intros HS. unfold ls_text, file_text. by rewrite (same_found _ _ HS), (entries_same w w' path _ HS). Qed.

Lemma path_ok_same w w' dirs fuel path : same w w' -> path_ok w dirs fuel path -> path_ok w' dirs fuel path.
Proof.
  intros HS Hok st bs. rewrite (same_found _ _ HS). intros Hf. destruct (Hok st bs Hf) as [Hst Hd]. split; [done|].
  intros Ht. destruct (Hd Ht) as (? & He & ?). split_and!; [done| |done]. eapply Forall_impl; [exact He|].
  intros de. apply (entry_same w w' path de HS).
Qed.

Lemma prints_ls_show fuel path fd w w0 st bs dirs :
  found w0 path = Some (st, bs) -> path_ok w0 dirs fuel path -> same w0 w ->
  unread w fd = Some bs -> whole w fd = true -> sink w 1 = true -> (0 < room w)%nat ->
  exists w', prints (Some fd) (ls_show fuel path fd st) w w' (Returned tt) (to 1 (file_text w0 dirs path st)) /\ is_Some (unread w' fd).
Proof.
  intros Hf Hok HS Hu Hw Hs Hr. destruct (Hok st bs Hf) as [Hst Hd]. unfold ls_show, file_text.
  assert (Hprint : forall fmt args, exists w', prints (Some fd) (printf 1 fmt args) w w' (Returned tt) (to 1 (formatted fmt args)) /\
    is_Some (unread w' fd)).
  { intros fmt args. destruct (prints_printf w 1 fmt args Hs) as (w2 & P2). exists w2. split; [by apply prints_weaken|].
    by rewrite (prints_same_unread fd bs P2 ltac:(done) Hu). }
  case_match; [apply Hprint|]. case_match eqn:Et.
  - rewrite strlen_cstring. unfold DIRSIZ. replace (Z.of_nat (length (cstring path)) + 1 + 14 + 1) with (Z.of_nat (length (cstring path)) + 16) by lia.
    case_match; [apply Hprint|]. apply Z.eqb_eq in Et. destruct (Hd Et) as (Hbs & Hents & Hl). rewrite Hbs in Hu.
    destruct (prints_ls_entries fuel path fd w (dirs path)) as (w' & P & Hu'); [done..| |done|].
    + eapply Forall_impl; [exact Hents|]. intros de. apply (entry_same w0 w path de HS).
    + exists w'. rewrite (entries_same w0 w) in P by done. split; [exact P|by rewrite Hu'].
  - exists w. split; [|by rewrite Hu]. eapply prints_ext; [apply prints_done|]. intros fd'. unfold to, nothing. by case_match.
Qed.

Lemma prints_ls fuel path w dirs : path_ok w dirs fuel path -> sink w 1 = true -> sink w 2 = true -> (1 < room w)%nat ->
  exists w', prints None (ls fuel path) w w' (Returned tt) (ls_text w dirs path).
Proof.
  intros Hok Hs1 Hs2 Hr. unfold ls_text. destruct (found w path) as [[st bs]|] eqn:Ef.
  - destruct (Hok st bs Ef) as [Hst _].
    eapply (prints_file _ _ _ _ _ (ls_body fuel path) (fun _ => tt)); [exact Ef|lia|intros fd Hfd; by zb|].
    intros w1 fd Ho. destruct (prints_fstat w1 fd st (op_about _ _ _ _ _ Ho)) as (w2 & P2). rewrite stat_roundtrip in P2 by done.
    pose proof (prints_fd P2 fd ltac:(done) ltac:(by rewrite (op_unread _ _ _ _ _ Ho))) as [Eu Ew _].
    destruct (prints_ls_show fuel path fd w2 w st bs dirs) as (w3 & P3 & Hu3); try done.
    + eapply same_trans; [exact (op_same _ _ _ _ _ Ho)|exact (prints_same P2)].
    + by rewrite Eu, (op_unread _ _ _ _ _ Ho).
    + by rewrite Ew, (op_whole _ _ _ _ _ Ho).
    + by rewrite (sink_after P2), (same_sink _ _ (op_same _ _ _ _ _ Ho)).
    + rewrite (prints_room P2). pose proof (op_room _ _ _ _ _ Ho). lia.
    + exists w3. split; [|done].
      eapply prints_ext; [eapply prints_bind; [apply prints_weaken; exact P2|exact P3]|done].
  - destruct (prints_open_bad w path Ef) as (w1 & P1).
    destruct (prints_printf w1 2 (line "ls: cannot open %s") [str path]) as (w2 & P2); [by rewrite (sink_after P1)|].
    exists w2. eapply prints_ext; [eapply prints_bind; [exact P1|exact P2]|done].
Qed.

(** What ls shows of several paths. *)
Definition ls_texts (w : W) (dirs : list Z -> list dirent) (paths : list (list Z)) : Z -> list Z :=
  foldr (fun path o => and_then (ls_text w dirs path) o) nothing paths.

Lemma ls_texts_same w w' dirs paths : same w w' -> ls_texts w' dirs paths = ls_texts w dirs paths.
Proof. intros HS. unfold ls_texts. induction paths as [|path paths IH]; cbn [foldr]; [done|]. by rewrite IH, (ls_text_same w w'). Qed.

Lemma prints_ls_all fuel w dirs paths : Forall (path_ok w dirs fuel) paths ->
  sink w 1 = true -> sink w 2 = true -> (1 < room w)%nat ->
  exists w', prints None (each paths (ls fuel)) w w' (Returned tt) (ls_texts w dirs paths).
Proof.
  revert w. induction paths as [|path paths IH]; intros w Hok Hs1 Hs2 Hr.
  { exists w. apply prints_done. }
  apply Forall_cons in Hok as [Hp Hok]. destruct (prints_ls fuel path w dirs Hp Hs1 Hs2 Hr) as (w1 & P1).
  pose proof (prints_same P1) as S1. destruct (IH w1) as (w2 & P2).
  - eapply Forall_impl; [exact Hok|]. intros x. by apply path_ok_same.
  - by rewrite (sink_after P1).
  - by rewrite (sink_after P1).
  - by rewrite (prints_room P1).
  - rewrite (ls_texts_same w w1) in P2 by done. exists w2. cbn [each ls_texts foldr]. by eapply prints_bind.
Qed.

Definition ls_paths (names : list (list Z)) : list (list Z) :=
  match names with [] => [bytes_of_string "."] | _ => names end.

(** ls lists directories.  For each argument, or for the current directory,
    it writes a line with the name, type, inode number and size: for a directory
    one per entry in use, in the order of the entries, with the name filled up
    to 14 characters and the attributes that the path of the entry leads to; for
    a file one line.  Names that cannot be opened or entries that cannot be found
    give a message, and ls goes on. *)
Theorem ls_lists fuel prog names w dirs :
  sink w 1 = true -> sink w 2 = true -> (1 < room w)%nat -> Forall (path_ok w dirs fuel) (ls_paths names) ->
  exists w', run (ls_main fuel (prog :: names)) w = (w', Exited) /\
    forall fd, output w' fd = output w fd ++ ls_texts w dirs (ls_paths names) fd.
Proof.
  intros Hs1 Hs2 Hr Hok. destruct names as [|name names].
  - apply Forall_cons in Hok as [Hok _]. destruct (prints_ls fuel _ w dirs Hok Hs1 Hs2 Hr) as (w' & P).
    pose proof (prints_over _ _ _ _ _ _ P (or_introl eq_refl)) as P'. exists w'.
    split; [apply straight_run, (prints_run P')|]. intros fd. rewrite (prints_out P'). cbn. unfold and_then, nothing.
    by rewrite app_nil_r.
  - destruct (prints_ls_all fuel w dirs (name :: names) Hok Hs1 Hs2 Hr) as (w' & P).
    pose proof (prints_over _ _ _ _ _ _ P (or_introl eq_refl)) as P'. exists w'.
    split; [apply straight_run, (prints_run P')|apply (prints_out P')].
Qed.
End with_kernel.

Lemma ls_lists_witness :
  let entry inum name := mkDirent inum (strncpy name 14) in
  let dirs (_ : list Z) := [entry 1 (bytes_of_string "."); entry 0 []; entry 7 (bytes_of_string "f"); entry 9 (bytes_of_string "gone")] in
  let w := Box (b_fds sample_box)
    {[ bytes_of_string "." := (mkStat T_DIR 1 1 1 64, concat (dirent_bytes <$> dirs []));
       bytes_of_string "./." := (mkStat T_DIR 1 1 1 64, concat (dirent_bytes <$> dirs []));
       bytes_of_string "./f" := (mkStat T_FILE 1 7 1 13, []) ]} [] 2 [] in
  exists w', run (H := sample_ops) (ls_main 5 [[]]) w = (w', Exited) /\
    output (H := sample_ops) w' 1 = line ".              1 1 64" ++ line "f              2 7 13" ++ line "ls: cannot stat ./gone".
Proof.
  intros entry dirs w.
  destruct (ls_lists (H := sample_ops) (H0 := boxes_kernel _ _) 5 [] [] w dirs) as (w' & E & Ho);
    [reflexivity|reflexivity|vm_compute; lia| |].
  - assert (Hst : forall path st bs, found (UserOps := sample_ops) w path = Some (st, bs) -> stat_ok st).
    { intros path st bs Hf. cbn in Hf. rewrite !lookup_insert_Some, lookup_empty in Hf.
      destruct Hf as [[_ Hf]|[_ [[_ Hf]|[_ [[_ Hf]|[_ Hf]]]]]]; try done; injection Hf as <- _; unfold stat_ok, T_DIR, T_FILE; cbn; lia. }
    apply Forall_singleton. intros st bs Hf. split; [by eapply Hst|].
    vm_compute in Hf. injection Hf as <- <-. intros _. split; [reflexivity|]. split; [|cbn; lia].
    apply Forall_cons_2; [|apply Forall_cons_2; [|apply Forall_cons_2; [|apply Forall_cons_2; [|by apply Forall_nil_2]]]];
      (split; [split; [cbn; lia|reflexivity]|split; [by apply (bool_decide_unpack _)|intros st bs; apply Hst]]).
  - exists w'. split; [exact E|]. rewrite Ho. vm_compute. reflexivity.
Defined.

(** ** echo *)

(** The arguments with blanks between them, and an end of line. *)
Fixpoint joined (args : list (list Z)) : list Z :=
  match args with
  | [] => []
  | [a] => cstring a ++ [10]
  | a :: rest => cstring a ++ [32] ++ joined rest
  end.

Theorem echo_joins {W} `{UserKernel W} prog args (w : W) : sink w 1 = true ->
  exists w', run (echo_main (prog :: args)) w = (w', Exited) /\ forall fd, output w' fd = output w fd ++ to 1 (joined args) fd.
Proof.
  intros Hs. enough (Hp : exists w', prints None (echo_args args) w w' (Returned tt) (to 1 (joined args))).
  { destruct Hp as (w' & P). pose proof (prints_over _ _ _ _ _ _ P (or_introl eq_refl)) as P'. exists w'.
    split; [apply straight_run, (prints_run P')|apply (prints_out P')]. }
  revert w Hs. induction args as [|a args IH]; intros w Hs.
  { exists w. eapply prints_ext; [apply prints_done|]. intros fd. unfold to, nothing. by case_match. }
  cbn [echo_args].
  destruct (prints_printf w 1 (bytes_of_string "%s%s") [str a; str (match args with [] => [10] | _ => [32] end)] Hs) as (w1 & P1).
  destruct (IH w1) as (w2 & P2); [by rewrite (sink_after P1)|].
  exists w2. eapply prints_ext; [eapply prints_bind; [exact P1|exact P2]|].
  intros fd. rewrite formatted_two. unfold and_then, to. destruct args; case_match; cbn [joined]; rewrite <- ?app_assoc; done.
Qed.

(** ** Processes *)

Section forks.
Variables (ok : nat -> bool) (chunk : nat -> Z).
#[local] Instance ops : UserOps box := boxes ok chunk.

Lemma run_call {A} c (k : reply -> io A) w : run (Call c k) w = run (k (box_serve ok chunk c w).2) (box_serve ok chunk c w).1.
Proof. cbn [run]. change (serve c w) with (box_serve ok chunk c w). by destruct (box_serve ok chunk c w). Qed.

(** init opens the console as its descriptors 0, 1 and 2, and makes the device if
    it does not exist: these are the three descriptors with which the shell
    starts. *)
Theorem init_opens_console n fs h pid kids :
  (forall st bs, fs !! console = Some (st, bs) -> st_type st = T_DEV) ->
  (fs !! console = None -> ok (S (length h)) = true) ->
  exists c fs' h', run init_fds (Box (replicate (3 + n) None) fs h pid kids) =
    (Box (Some c :: Some c :: Some c :: replicate n None) fs' h' pid kids, Returned tt) /\
    ch_sink c = true /\ st_type (ch_stat c) = T_DEV.
Proof.
  intros Hdev Hok. unfold init_fds, open, sys.
  destruct (fs !! console) as [[st bs]|] eqn:E.
  - specialize (Hdev st bs eq_refl). exists (Channel st (Some bs) true true). do 2 eexists. split; [|done].
    cbn [mbind io_mbind io_bind]. rewrite run_call. unfold box_serve at 1 2. cbn [box_answer b_files].
    rewrite E. cbn. rewrite Hdev. cbn. reflexivity.
  - specialize (Hok eq_refl). do 3 eexists. split.
    + cbn [mbind io_mbind io_bind]. rewrite run_call. unfold box_serve at 1 2. cbn [box_answer b_files].
      rewrite E. cbn -[console lookup insert]. unfold box_serve at 1. cbn -[console lookup insert].
      rewrite length_app, Nat.add_1_r, Hok. cbn -[console lookup insert]. unfold box_serve at 1.
      cbn -[console lookup insert]. rewrite lookup_insert_eq. cbn -[console lookup insert]. reflexivity.
    + done.
Qed.

(** The forks of forktest: processes [pid], [pid + 1] and so on are made until one
    cannot be made. *)
Lemma run_fork_all {A} (f : Z -> io A) more n j w :
  (j < more)%nat -> (forall i, (i < j)%nat -> ok (Z.to_nat (b_pid w) + i) = true) -> ok (Z.to_nat (b_pid w) + j) = false ->
  0 < b_pid w ->
  run (fork_all more n ≫= f) w =
    run (f (n + Z.of_nat j)) (Box (b_fds w) (b_files w) (b_history w) (b_pid w + Z.of_nat j) (b_kids w ++ seqZ (b_pid w) (Z.of_nat j))).
Proof.
  revert n j w. induction more as [|more IH]; intros n j w Hj Hok Hno Hp; [lia|].
  cbn [fork_all fork mbind io_mbind io_bind run]. change (spawn w) with (box_spawn ok w). unfold box_spawn. destruct j as [|j].
  - rewrite Nat.add_0_r in Hno. rewrite Hno. cbn. destruct w. cbn. by rewrite !Z.add_0_r, app_nil_r.
  - pose proof (Hok 0%nat ltac:(lia)) as H0. rewrite Nat.add_0_r in H0. rewrite H0. zb. cbn [Z.ltb Z.compare Z.eqb io_bind run].
    change (run (io_bind (fork_all more (n + 1)) f)
      (Box (b_fds w) (b_files w) (b_history w) (b_pid w + 1) (b_kids w ++ [b_pid w])) =
      run (f (n + Z.of_nat (S j))) (Box (b_fds w) (b_files w) (b_history w) (b_pid w + Z.of_nat (S j))
        (b_kids w ++ seqZ (b_pid w) (Z.of_nat (S j))))).
    change (io_bind ?p f) with (p ≫= f). rewrite (IH (n + 1) j); cbn [b_fds b_files b_history b_pid b_kids]; [|lia| | |lia].
    + rewrite (seqZ_cons (b_pid w)) by lia. rewrite <- app_assoc. cbn [app].
      replace (n + 1 + Z.of_nat j) with (n + Z.of_nat (S j)) by lia.
      replace (b_pid w + 1 + Z.of_nat j) with (b_pid w + Z.of_nat (S j)) by lia.
      replace (Z.pred (Z.of_nat (S j))) with (Z.of_nat j) by lia. done.
    + intros i Hi. rewrite <- (Hok (S i)) by lia. f_equal. lia.
    + rewrite <- Hno. f_equal. lia.
Qed.

Definition waits (kids : list Z) : list (call * Z) := (fun pid => (CWait, pid)) <$> kids.

Lemma run_wait_all {A} (f : unit -> io A) fds fs h pid kids : Forall (fun p => 0 < p) kids ->
  run (wait_all (length kids) ≫= f) (Box fds fs h pid kids) = run (f tt) (Box fds fs (h ++ waits kids) pid []).
Proof.
  intros Hk. induction Hk as [|p kids Hp Hk IH] in h |- *; [by rewrite app_nil_r|].
  cbn [length wait_all mbind io_mbind io_bind sys]. rewrite run_call. unfold box_serve. cbn [box_answer b_kids set_kids fst snd].
  zb. change (io_bind ?q f) with (q ≫= f). unfold add_history, set_kids. cbn [b_fds b_files b_history b_pid b_kids].
  rewrite IH. by rewrite <- app_assoc.
Qed.

Lemma written_app fd h h' : written fd (h ++ h') = written fd h ++ written fd h'.
Proof. induction h as [|[c r] h IH]; [done|]. destruct c; cbn [written app]; rewrite ?IH, <- ?app_assoc; done. Qed.
Lemma written_waits fd kids : written fd (waits kids) = [].
Proof. by induction kids. Qed.

Lemma run_puts {A} (f : unit -> io A) s w : sink w 1 = true ->
  run (puts 1 s ≫= f) w = run (f tt) (add_history (CWrite 1 (cstring s), Z.of_nat (length (cstring s))) w).
Proof.
  intros Hs. change (match channel_at w 1 with Some c => ch_sink c | None => false end = true) in Hs.
  unfold puts. cbn [mbind io_mbind io_bind write sys]. rewrite run_call. unfold box_serve. cbn [box_answer].
  destruct (channel_at w 1) as [ch|]; [|done]. by rewrite Hs.
Qed.

Lemma run_puts_end s w : sink w 1 = true ->
  run (puts 1 s) w = (add_history (CWrite 1 (cstring s), Z.of_nat (length (cstring s))) w, Returned tt).
Proof.
  intros Hs. pose proof (run_puts Done s w Hs) as E. cbn [run] in E. rewrite <- E.
  unfold puts. cbn [mbind io_mbind io_bind write sys]. by rewrite !run_call.
Qed.

(** forktest passes when fork fails at some point and all children that
    were made come back from wait: with a process table that has room for
    fewer than 1000 more processes it reports success. *)
Theorem forktest_passes w j :
  sink w 1 = true -> b_kids w = [] -> 0 < b_pid w -> (j < 1000)%nat ->
  (forall i, (i < j)%nat -> ok (Z.to_nat (b_pid w) + i) = true) -> ok (Z.to_nat (b_pid w) + j) = false ->
  exists w', run forktest w = (w', Returned tt) /\ b_kids w' = [] /\
    output w' 1 = output w 1 ++ line "fork test" ++ line "fork test OK".
Proof.
  intros Hs Hk Hp Hj Hok Hno. unfold forktest. rewrite run_puts by done.
  rewrite (run_fork_all _ _ _ j); [|done..]. set (h1 := (_, _) : call * Z).
  cbn [add_history b_fds b_files b_history b_pid b_kids]. rewrite Hk. cbn [app]. rewrite Z.add_0_l.
  unfold FORKS at 1. rewrite (proj2 (Z.eqb_neq _ _)) by lia.
  rewrite <- (length_seqZ (b_pid w) (Z.of_nat j)), run_wait_all.
  2: { apply Forall_forall. intros p Hin%elem_of_seqZ. lia. }
  cbn [mbind io_mbind io_bind sys]. rewrite run_call. unfold box_serve. cbn [box_answer b_kids fst snd Z.eqb Pos.eqb negb].
  rewrite run_puts_end by done. eexists. split; [reflexivity|]. split; [done|]. subst h1.
  unfold output. cbn [history ops boxes add_history b_history]. rewrite !written_app, written_waits.
  cbn [written]. rewrite Z.eqb_refl, !Nat2Z.id, !take_ge, !app_nil_r, <- app_assoc by lia. reflexivity.
Qed.
End forks.
