(* ===== verification/DevicesSpec.v ===== *)
(** * What the device drivers achieve

    The clock is read without a torn date, and the interrupt controller routes
    exactly the interrupts that were enabled. *)

From S2P Require Import Prelude Mmu Mem State Kernel Cprintf Trap Devices.

(** ** The clock *)

Definition to_bcd (x : Z) : Z := x / 10 * 16 + x mod 10.

(** The number that the clock keeps in a register. *)
Definition field (d : rtcdate) (reg : Z) : Z :=
  if reg =? SECS then second d else if reg =? MINS then minute d else if reg =? HOURS then hour d
  else if reg =? DAY then day d else if reg =? MONTH then month d else year d.

(** A date in the clock, with the year of the century. *)
Definition date_ok (d : rtcdate) : Prop :=
  0 <= second d < 100 /\ 0 <= minute d < 100 /\ 0 <= hour d < 100 /\ 0 <= day d < 100 /\ 0 <= month d < 100 /\ 0 <= year d < 100.

(** A machine with a real-time clock.  [date n] is what the clock shows after [n]
    accesses to devices and [updating n] its update-in-progress bit; [binary] is
    its data mode.  A register is selected by a write to one port and read from
    another. *)
Class Clock `{Machine} := {
  date : nat -> rtcdate;
  updating : nat -> bool;
  binary : bool;
  date_valid n : date_ok (date n);
  read_date h reg : reg ∈ [SECS; MINS; HOURS; DAY; MONTH; YEAR] ->
    port_in (h ++ [OutB CMOS_PORT reg]) CMOS_RETURN =
      let x := field (date (S (length h))) reg in if binary then x else to_bcd x;
  read_stata h : Z.testbit (port_in (h ++ [OutB CMOS_PORT CMOS_STATA]) CMOS_RETURN) 7 = updating (S (length h));
  read_statb h : Z.testbit (port_in (h ++ [OutB CMOS_PORT CMOS_STATB]) CMOS_RETURN) 2 = binary;
}.

Lemma to_bcd_range x : 0 <= x < 100 -> 0 <= to_bcd x < 160.
Proof. unfold to_bcd. intros. Z.div_mod_to_equations. lia. Qed.

Lemma conv_bcd x : 0 <= x < 100 -> CONV (to_bcd x) = x.
Proof.
  intros Hx. unfold CONV, to_bcd. rewrite Z.shiftr_div_pow2 by lia. change 15 with (Z.ones 4). rewrite Z.land_ones by lia.
  change (2 ^ 4) with 16.
  assert (E1 : (x / 10 * 16 + x mod 10) / 16 = x / 10) by (Z.div_mod_to_equations; lia).
  assert (E2 : (x / 10 * 16 + x mod 10) mod 16 = x mod 10) by (Z.div_mod_to_equations; lia).
  rewrite E1, E2. assert (Hd : 0 <= x / 10 < 10 /\ 0 <= x mod 10 < 10 /\ x = 10 * (x / 10) + x mod 10) by (Z.div_mod_to_equations; lia).
  rewrite (u32_small (x / 10 * 10)), u32_small by lia. lia.
Qed.

Lemma land_bit x n : 0 <= n -> Z.land x (2 ^ n) = if Z.testbit x n then 2 ^ n else 0.
Proof.
  intros Hn. apply Z.bits_inj'. intros m Hm. rewrite Z.land_spec, Z.pow2_bits_eqb by done.
  destruct (Z.eqb_spec n m) as [<-|Hne].
  - rewrite andb_true_r. destruct (Z.testbit x n); [by rewrite Z.pow2_bits_true|by rewrite Z.testbit_0_l].
  - rewrite andb_false_r. destruct (Z.testbit x n); [by rewrite Z.pow2_bits_false|by rewrite Z.testbit_0_l].
Qed.

Lemma u8_bit x n : 0 <= n < 8 -> (Z.land (u8 x) (2 ^ n) =? 0) = negb (Z.testbit x n).
Proof.
  intros Hn. rewrite land_bit by lia. unfold u8. change 256 with (2 ^ 8). rewrite Z.mod_pow2_bits_low by lia.
  destruct (Z.testbit x n); [|done]. apply Z.eqb_neq. pose proof (Z.pow_pos_nonneg 2 n). lia.
Qed.

Section clock.
Context `{Clock}.

(** The date in the registers. *)
Definition encoded (d : rtcdate) : rtcdate :=
  if binary then d else mkDate (to_bcd (second d)) (to_bcd (minute d)) (to_bcd (hour d)) (to_bcd (day d)) (to_bcd (month d)) (to_bcd (year d)).
Definition reg_at (n : nat) (reg : Z) : Z := field (encoded (date n)) reg.

Abbreviation now s := (length (hw_log s)).

Lemma wp_cmos_select reg Q s :
  (forall s', now s' = (now s + 2)%nat -> Q (u8 (port_in (hw_log s ++ [OutB CMOS_PORT (u8 reg)]) CMOS_RETURN)) s') ->
  wp (cmos_read reg) Q s.
Proof. intros HQ. unfold cmos_read, outb, inb. wp_steps. apply HQ. cbn. rewrite !length_app. cbn. lia. Qed.

Lemma wp_cmos_read reg Q s : reg ∈ [SECS; MINS; HOURS; DAY; MONTH; YEAR] ->
  (forall s', now s' = (now s + 2)%nat -> Q (reg_at (S (now s)) reg) s') -> wp (cmos_read reg) Q s.
Proof.
  intros Hreg HQ. apply wp_cmos_select. intros s' Hs'.
  assert (Hb : u8 reg = reg) by (rewrite !elem_of_cons, elem_of_nil in Hreg; destruct_or! Hreg; by subst).
  assert (Hv : u8 (port_in (hw_log s ++ [OutB CMOS_PORT reg]) CMOS_RETURN) = reg_at (S (now s)) reg).
  { rewrite read_date by done. pose proof (date_valid (S (now s))) as (? & ? & ? & ? & ? & ?).
    unfold reg_at, encoded. rewrite !elem_of_cons, elem_of_nil in Hreg.
    destruct_or! Hreg; subst; cbn; destruct binary; cbn; unfold u8; apply Z.mod_small; try lia;
      match goal with |- 0 <= to_bcd ?x < _ => pose proof (to_bcd_range x); lia end. }
  rewrite Hb, Hv. by apply HQ.
Qed.

(** What fill_rtcdate reads from access [n] on: each register two accesses after
    the one before. *)
Definition reading (n : nat) : rtcdate :=
  mkDate (reg_at (n + 1) SECS) (reg_at (n + 3) MINS) (reg_at (n + 5) HOURS) (reg_at (n + 7) DAY) (reg_at (n + 9) MONTH) (reg_at (n + 11) YEAR).

Lemma wp_fill_rtcdate Q s :
  (forall s', now s' = (now s + 12)%nat -> Q (reading (now s)) s') -> wp fill_rtcdate Q s.
Proof.
  intros HQ. unfold fill_rtcdate.
  apply wp_bind, wp_cmos_read; [set_solver|]; intros s1 E1. apply wp_bind, wp_cmos_read; [set_solver|]; intros s2 E2.
  apply wp_bind, wp_cmos_read; [set_solver|]; intros s3 E3. apply wp_bind, wp_cmos_read; [set_solver|]; intros s4 E4.
  apply wp_bind, wp_cmos_read; [set_solver|]; intros s5 E5. apply wp_bind, wp_cmos_read; [set_solver|]; intros s6 E6.
  apply wp_ret. replace (S (now s)) with (now s + 1)%nat by lia.
  replace (S (now s1)) with (now s + 3)%nat by lia.
  replace (S (now s2)) with (now s + 5)%nat by lia. replace (S (now s3)) with (now s + 7)%nat by lia.
  replace (S (now s4)) with (now s + 9)%nat by lia. replace (S (now s5)) with (now s + 11)%nat by lia.
  apply HQ. lia.
Qed.

(** One turn from access [n] on succeeds at once when there is no update. *)
Definition calm (n : nat) : Prop := updating (n + 13) = false /\ forall i, (i < 26)%nat -> date (n + i) = date n.

Lemma reading_calm n m : (forall i, (i < 12)%nat -> date (n + i) = date m) -> reading n = encoded (date m).
Proof.
  intros Hc. unfold reading, reg_at. rewrite !Hc by lia. unfold encoded. by destruct binary, (date m).
Qed.

Lemma wp_cmos_turn Q s :
  (forall s', now s' = (now s + 26)%nat -> reading (now s) = reading (now s + 14) -> Q (inr (reading (now s))) s') ->
  (forall s', now s' = (now s + 14)%nat \/ now s' = (now s + 26)%nat -> ~ calm (now s) -> Q (inl tt) s') ->
  wp (cmos_turn tt) Q s.
Proof.
  intros Hok Hagain. unfold cmos_turn. apply wp_bind, wp_fill_rtcdate. intros s1 E1.
  apply wp_bind, wp_cmos_select. intros s2 E2. rewrite E1 in E2.
  assert (Hu : negb (Z.land (u8 (port_in (hw_log s1 ++ [OutB CMOS_PORT (u8 CMOS_STATA)]) CMOS_RETURN)) CMOS_UIP =? 0) =
    updating (now s + 13)).
  { change CMOS_UIP with (2 ^ 7). rewrite u8_bit, negb_involutive by lia. change (u8 CMOS_STATA) with CMOS_STATA.
    rewrite read_stata, E1. f_equal. lia. }
  rewrite Hu. destruct (updating (now s + 13)) eqn:Eu.
  - apply wp_ret, Hagain; [lia|]. intros [Hc _]. congruence.
  - apply wp_bind, wp_fill_rtcdate. intros s3 E3. rewrite E2 in E3 |- *. apply wp_ret.
    replace (now s + 12 + 2)%nat with (now s + 14)%nat by lia.
    case_decide as Ed; [apply Hok; [lia|done]|]. apply Hagain; [lia|].
    intros [_ Hc]. apply Ed. rewrite (reading_calm (now s) (now s)), (reading_calm (now s + 14) (now s)); [done| |].
    + intros i Hi. rewrite <- Nat.add_assoc. apply Hc. lia.
    + intros i Hi. apply Hc. lia.
Qed.

(** Between two updates the clock stands still for a while: any 26 accesses see
    at most one update. *)
Definition slow : Prop := forall n, exists k, (n <= k <= n + 26)%nat /\
  (forall i, (n <= i < k)%nat -> date i = date n) /\ (forall i, (k <= i < n + 26)%nat -> date i = date k).

(** Two equal readings in a row are a date that the clock has shown. *)
Lemma reading_twice n : slow -> reading n = reading (n + 14) -> exists i, (n <= i < n + 26)%nat /\ reading n = encoded (date i).
Proof.
  intros Hslow Heq. destruct (Hslow n) as (k & Hk & Hbefore & Hafter).
  destruct (decide (k <= n + 14)%nat) as [Hc|Hc].
  - exists (n + 14)%nat. split; [lia|]. rewrite Heq. apply reading_calm. intros i Hi.
    rewrite (Hafter (n + 14 + i)%nat), (Hafter (n + 14)%nat) by lia. done.
  - exists n. split; [lia|]. apply reading_calm. intros i Hi. apply Hbefore. lia.
Qed.

Lemma wp_cmos_loop turns T Q s : slow ->
  (forall j, (j < 26)%nat -> calm (T + j)) -> (now s < T + 26)%nat -> (T - now s < turns)%nat ->
  (forall i s', (now s <= i < now s')%nat -> Q (encoded (date i)) s') ->
  wp (iter turns cmos_turn tt) Q s.
Proof.
  intros Hslow Hcalm. induction turns as [|turns IH] in s |- *; intros Hn Hf HQ; [lia|].
  cbn [iter]. apply wp_bind, wp_cmos_turn.
  - intros s' Hs' Heq. destruct (reading_twice _ Hslow Heq) as (i & Hi & ->). apply wp_ret, HQ. lia.
  - intros s' Hs' Hnot. assert (Hlt : (now s < T)%nat).
    { destruct (decide (now s < T)%nat) as [?|Hge]; [done|]. exfalso. apply Hnot.
      replace (now s) with (T + (now s - T))%nat by lia. apply Hcalm. lia. }
    apply IH; [lia..|]. intros i s'' Hi. apply HQ. lia.
Qed.

(** C28. The clock is read in one piece.  cmostime returns, and what it returns is
    a date that the clock has shown at one moment during the call, converted to
    plain numbers and with the century: never a mixture of the registers before
    and after an update, although it reads them one by one.  Any 26 accesses see
    at most one update, and within [wait] accesses there comes a stretch of time
    without an update that is long enough to read the clock twice. *)
Theorem cmostime_snapshot (wait : nat) (s : hwstate) :
  slow -> (exists T, (now s + 2 <= T <= now s + wait)%nat /\ forall j, (j < 26)%nat -> calm (T + j)) ->
  exists d s', cmostime wait s = Ret d s' /\
    exists i, (now s <= i < now s')%nat /\
      d = mkDate (second (date i)) (minute (date i)) (hour (date i)) (day (date i)) (month (date i)) (2000 + year (date i)).
Proof.
  intros Hslow (T & HT & Hcalm). apply wp_inv. unfold cmostime. apply wp_bind, wp_cmos_select. intros s1 E1.
  change (Z.shiftl 1 2) with (2 ^ 2). rewrite u8_bit by lia. change (u8 CMOS_STATB) with CMOS_STATB. rewrite read_statb.
  apply wp_bind, (wp_cmos_loop wait T); [done|done|lia..|]. intros i s2 Hi. apply wp_ret. exists i. split; [lia|].
  pose proof (date_valid i) as (? & ? & ? & ? & ? & ?). unfold encoded. destruct binary; cbn [negb].
  - rewrite u32_small by lia. f_equal. lia.
  - cbn. rewrite !conv_bcd by done. rewrite u32_small by lia. f_equal. lia.
Qed.
End clock.

(** A clock that goes from one minute to the next in the middle of a reading. *)
Definition sample_date (n : nat) : rtcdate := if (n <? 10)%nat then mkDate 59 29 13 24 6 25 else mkDate 0 30 13 24 6 25.
Definition sample_machine : Machine := {|
  port_in h port := match last h with
    | Some (OutB _ reg) =>
        if reg =? CMOS_STATA then if (5 <=? length h)%nat && (length h <? 10)%nat then 128 else 0
        else if reg =? CMOS_STATB then 0
        else to_bcd (field (sample_date (length h)) reg)
    | _ => 255
    end;
  mmio_in _ _ := 0;
|}.

#[local] Instance sample_clock : Clock (H := sample_machine).
Proof.
  refine (Build_Clock sample_machine sample_date (fun n => (5 <=? n)%nat && (n <? 10)%nat) false _ _ _ _).
  - intros n. unfold sample_date. destruct (n <? 10)%nat; unfold date_ok; cbn; lia.
  - intros h reg Hreg. cbn [port_in sample_machine]. rewrite last_snoc, length_app, Nat.add_1_r.
    rewrite !elem_of_cons, elem_of_nil in Hreg. destruct_or! Hreg; by subst.
  - intros h. cbn [port_in sample_machine]. rewrite last_snoc, length_app, Nat.add_1_r. cbn [Z.eqb Pos.eqb CMOS_STATA].
    by destruct ((5 <=? S (length h))%nat && (S (length h) <? 10)%nat).
  - intros h. cbn [port_in sample_machine]. by rewrite last_snoc.
Defined.

Lemma cmostime_snapshot_witness :
  exists d s', cmostime (mach := sample_machine) 60 (mkHw [] false 0 0 []) = Ret d s' /\ d = mkDate 0 30 13 24 6 2025.
Proof.
  destruct (cmostime_snapshot (H0 := sample_clock) 60 (mkHw [] false 0 0 [])) as (d & s' & E & i & Hi & Hd).
  - intros n. cbn [date sample_clock]. unfold sample_date. destruct (decide (n <= 10 <= n + 26)%nat) as [Hin|Hout].
    + exists 10%nat. split; [lia|]. split; intros i Hi.
      * destruct (Nat.ltb_spec i 10), (Nat.ltb_spec n 10); try done; lia.
      * destruct (Nat.ltb_spec i 10); [lia|done].
    + exists n. split; [lia|]. split; intros i Hi; [lia|].
      destruct (Nat.ltb_spec i 10), (Nat.ltb_spec n 10); try done; lia.
  - exists 40%nat. cbn [hw_log length]. split; [lia|]. intros j Hj. split; cbn [date updating sample_clock].
    + destruct (Nat.leb_spec 5 (40 + j + 13)), (Nat.ltb_spec (40 + j + 13) 10); try done; lia.
    + intros i Hi2. unfold sample_date. destruct (Nat.ltb_spec (40 + j + i) 10), (Nat.ltb_spec (40 + j) 10); try done; lia.
  - exists d, s'. split; [exact E|]. vm_compute in E. congruence.
Defined.

(** ** Interrupt routing *)

(** The registers of the IO APIC: a write to its first word selects a register, a
    write to its data word sets it. *)
Definition ioapic_step (st : Z * gmap Z Z) (e : hwev) : Z * gmap Z Z :=
  match e with
  | StoreW a v => if a =? IOAPIC then (v, st.2) else if a =? IOAPIC_DATA then (st.1, <[st.1 := v]> st.2) else st
  | _ => st
  end.
Definition ioapic_regs (log : list hwev) : gmap Z Z := (foldl ioapic_step (0, ∅) log).2.

(** The redirection entry of an interrupt: its two registers. *)
Definition entry_of (log : list hwev) (irq : Z) : option Z * option Z :=
  (ioapic_regs log !! (REG_TABLE + 2 * irq), ioapic_regs log !! (REG_TABLE + 2 * irq + 1)).

Section routing.
Context {mach : Machine}.

Lemma ioapic_regs_write log reg data : 0 <= reg < 4294967296 ->
  ioapic_regs (log ++ [StoreW IOAPIC reg; StoreW IOAPIC_DATA (u32 data)]) = <[reg := u32 data]> (ioapic_regs log).
Proof. intros Hr. unfold ioapic_regs. rewrite foldl_app. done. Qed.

Lemma wp_ioapicwrite reg data Q s : 0 <= reg < 4294967296 ->
  (forall s', ioapic_regs (hw_log s') = <[reg := u32 data]> (ioapic_regs (hw_log s)) -> Q tt s') ->
  wp (ioapicwrite reg data) Q s.
Proof.
  intros Hr HQ. unfold ioapicwrite, storew. wp_steps. apply HQ. cbn. rewrite <- app_assoc, (u32_small reg) by done.
  by apply ioapic_regs_write.
Qed.

Lemma wp_ioapic_entry i lo hi Q s : 0 <= i < 256 ->
  (forall s', (forall j, 0 <= j < 256 -> entry_of (hw_log s') j = if decide (j = i) then (Some (u32 lo), Some (u32 hi)) else entry_of (hw_log s) j) -> Q tt s') ->
  wp (ioapicwrite (REG_TABLE + 2 * i) lo;; ioapicwrite (REG_TABLE + 2 * i + 1) hi) Q s.
Proof.
  intros Hi HQ. unfold REG_TABLE in *. apply wp_bind, wp_ioapicwrite; [lia|]. intros s1 E1. apply wp_ioapicwrite; [lia|]. intros s2 E2.
  apply HQ. intros j Hj. unfold entry_of, REG_TABLE. rewrite E2, E1. case_decide as Hd.
  - subst j. rewrite lookup_insert_ne, !lookup_insert_eq by lia. done.
  - rewrite !lookup_insert_ne by lia. done.
Qed.

Lemma ioapic_regs_read log reg v : ioapic_regs (log ++ [StoreW IOAPIC reg; LoadW IOAPIC_DATA v]) = ioapic_regs log.
Proof. unfold ioapic_regs. by rewrite foldl_app. Qed.

(** The number of the last entry, as the version register has it. *)
Definition maxintr (s : hwstate) : Z :=
  Z.land (Z.shiftr (u32 (mmio_in (hw_log s ++ [StoreW IOAPIC REG_VER]) IOAPIC_DATA)) 16) 0xFF.

(** What is routed after [enabled], pairs of interrupt and CPU, earliest first. *)
Definition route (enabled : list (Z * Z)) (irq : Z) : option Z * option Z :=
  match last (filter (fun p => p.1 = irq) enabled) with
  | Some (_, cpu) => (Some (T_IRQ0 + irq), Some (u32 (Z.shiftl cpu 24)))
  | None => (Some (Z.lor INT_DISABLED (T_IRQ0 + irq)), Some 0)
  end.

Lemma maxintr_range s : 0 <= maxintr s < 256.
Proof. unfold maxintr. change 0xFF with (Z.ones 8). rewrite Z.land_ones by lia. apply Z.mod_pos_bound. lia. Qed.

Lemma wp_ioapic_masked m h :
  0 <= m < 256 ->
  wp (for_each (seq 0 (Z.to_nat (m + 1))) (fun i =>
      ioapicwrite (REG_TABLE + 2 * Z.of_nat i) (Z.lor INT_DISABLED (T_IRQ0 + Z.of_nat i));;
      ioapicwrite (REG_TABLE + 2 * Z.of_nat i + 1) 0))
    (fun _ h' => forall irq, 0 <= irq <= m -> entry_of (hw_log h') irq = route [] irq) h.
Proof.
  intros Hm.
  apply (wp_for_each_seq (fun i s' => forall irq, 0 <= irq < Z.of_nat i -> entry_of (hw_log s') irq = route [] irq)).
  - intros i s1 Hi HI. apply wp_ioapic_entry; [lia|]. intros s2 E2 irq Hirq. rewrite E2 by lia. case_decide as Hd; [|apply HI; lia].
    subst irq. unfold route. cbn [filter list_filter last]. rewrite u32_small; [done|].
    split; [apply Z.lor_nonneg; unfold INT_DISABLED, T_IRQ0; lia|].
    pose proof (Z.add_lor_land INT_DISABLED (T_IRQ0 + Z.of_nat i)) as Hsum.
    assert (0 <= Z.land INT_DISABLED (T_IRQ0 + Z.of_nat i)) by (apply Z.land_nonneg; left; done).
    unfold INT_DISABLED, T_IRQ0 in *. lia.
  - intros irq Hirq. lia.
  - intros s' HI. intros irq Hirq. apply HI. lia.
Qed.

Lemma wp_on_devices {S A} (m : HW A) Q (s : S * hwstate) : wp m (fun a h => Q a (s.1, h)) s.2 -> wp (on_devices m) Q s.
Proof. intros Hm. by apply wp_lift. Qed.

Lemma wp_ioapicinit Q s :
  console_free s.1 ->
  (forall s', (forall irq, 0 <= irq <= maxintr s.2 -> entry_of (hw_log s'.2) irq = route [] irq) -> Q tt s') -> wp ioapicinit Q s.
Proof.
  intros Hcon HQ. pose proof (maxintr_range s.2) as Hm. unfold ioapicinit, ioapicread, storew, loadw.
  apply wp_bind, wp_on_devices. wp_steps. apply wp_on_devices. wp_steps. cbn [hw_log add_log fst snd].
  change (u32 REG_VER) with REG_VER. fold (maxintr s.2).
  match goal with |- wp (if ?b then _ else _) _ _ => destruct b end.
  - apply wp_lift, wp_cprintfln; [done|done|]. intros o. apply wp_on_devices. cbn [fst snd]. eapply wp_mono; [by apply wp_ioapic_masked|]. intros [] h Hh. by apply HQ.
  - wp_steps. apply wp_on_devices. eapply wp_mono; [by apply wp_ioapic_masked|]. intros [] h Hh. by apply HQ.
Qed.

Lemma route_snoc enabled irq cpu j : route (enabled ++ [(irq, cpu)]) j =
  if decide (j = irq) then (Some (T_IRQ0 + irq), Some (u32 (Z.shiftl cpu 24))) else route enabled j.
Proof.
  unfold route. rewrite filter_app. case_decide as Hd.
  - subst j. rewrite filter_cons_True by done. by rewrite last_app.
  - rewrite filter_cons_False by (cbn; congruence). by rewrite app_nil_r.
Qed.

Lemma wp_ioapicenable_all m enabled before Q s : m < 256 -> Forall (fun p => 0 <= p.1 < 256) enabled ->
  (forall irq, 0 <= irq <= m -> entry_of (hw_log s) irq = route before irq) ->
  (forall s', (forall irq, 0 <= irq <= m -> entry_of (hw_log s') irq = route (before ++ enabled) irq) -> Q tt s') ->
  wp (for_each enabled (fun p => ioapicenable p.1 p.2)) Q s.
Proof.
  intros Hm Hen. induction Hen as [|[irq cpu] enabled Hirq Hen IH] in before, s |- *; intros Hs HQ.
  { apply wp_ret, HQ. by rewrite app_nil_r. }
  cbn [for_each fst snd] in *. apply wp_bind. unfold ioapicenable. apply wp_ioapic_entry; [lia|]. intros s1 E1.
  apply (IH (before ++ [(irq, cpu)])).
  - intros j Hj. rewrite E1, route_snoc by lia. case_decide; [|by apply Hs].
    rewrite (u32_small (T_IRQ0 + irq)) by (unfold T_IRQ0; lia). done.
  - intros s' Hs'. apply HQ. by rewrite <- app_assoc in Hs'.
Qed.

(** Interrupts are routed as asked for.  After ioapicinit and any calls of
    ioapicenable, every interrupt that was enabled goes to the CPU named last
    with vector 32 plus its number, and every other interrupt of the controller
    is masked and goes to no CPU. *)
Theorem ioapic_routes (enabled : list (Z * Z)) (s : kstate * hwstate) :
  console_free s.1 -> Forall (fun p => 0 <= p.1 < 256) enabled ->
  exists s', (ioapicinit;; on_devices (for_each enabled (fun p => ioapicenable p.1 p.2))) s = Ret tt s' /\
    forall irq, 0 <= irq <= maxintr s.2 -> entry_of (hw_log s'.2) irq = route enabled irq.
Proof.
  intros Hcon Hen. enough (Hwp : wp (ioapicinit;; on_devices (for_each enabled (fun p => ioapicenable p.1 p.2)))
    (fun _ s' => forall irq, 0 <= irq <= maxintr s.2 -> entry_of (hw_log s'.2) irq = route enabled irq) s).
  { destruct (wp_inv _ _ _ Hwp) as ([] & s' & E & Hs). exists s'. split; [exact E|exact Hs]. }
  apply wp_bind, wp_ioapicinit; [done|]. intros s1 H1. pose proof (maxintr_range s.2) as Hm. apply wp_on_devices.
  apply (wp_ioapicenable_all (maxintr s.2) enabled []); [lia|done|done|done].
Qed.
End routing.

Lemma ioapic_routes_witness :
  let mach := {| port_in := fun _ _ => 0; mmio_in := fun _ _ => 0x170011 |} in
  exists s', (ioapicinit (mach := mach);; on_devices (for_each [(1, 0); (14, 1)] (fun p => ioapicenable p.1 p.2))) (zero_kstate, mkHw [] false 0 0 []) = Ret tt s' /\
    entry_of (hw_log s'.2) 14 = (Some 46, Some 0x1000000) /\ entry_of (hw_log s'.2) 5 = (Some 0x10025, Some 0).
Proof.
  intros mach. destruct (ioapic_routes (mach := mach) [(1, 0); (14, 1)] (zero_kstate, mkHw [] false 0 0 [])) as (s' & E & Hs).
  - split; [apply not_elem_of_nil|reflexivity].
  - repeat constructor; cbn; lia.
  - exists s'. split; [exact E|]. rewrite !Hs by (vm_compute; split; discriminate). done.
Defined.
