(* ===== verification/Mp.v ===== *)
(** * The multiprocessor tables (mp.c, mp.h)

    The BIOS leaves a floating pointer structure in low memory that leads to a
    table of processors and interrupt controllers.  [m] is the physical memory,
    which the kernel has mapped at [KERNBASE]; pointers into it are physical
    addresses.  The end of the file shows that a table is taken in as it is
    written, and that an entry of an unknown type is never got past. *)

From S2P Require Import Prelude Mmu Mem Bytes Cprintf Trap Devices.

Definition NCPU : Z := 8.

(** ** string.c: memcmp *)

Fixpoint memcmp (s1 s2 : list Z) (n : nat) : Z :=
  match n with
  | O => 0
  | S n =>
      let a := nth 0 s1 0 in
      let b := nth 0 s2 0 in
      if negb (a =? b) then a - b else memcmp (tail s1) (tail s2) n
  end.

(** ** mp.h *)

(** The fields of the structures that the kernel reads. *)
Definition MP_SIZE : Z := 16.
Definition mp_physaddr (m : gmap Z Z) (mp : Z) : Z := ld32 m (mp + 4).
Definition mp_imcrp (m : gmap Z Z) (mp : Z) : Z := ld8 m (mp + 12).

Definition MPCONF_SIZE : Z := 44.
Definition conf_length (m : gmap Z Z) (conf : Z) : Z := get16 (ld_bytes m conf 44) 4.
Definition conf_version (m : gmap Z Z) (conf : Z) : Z := ld8 m (conf + 6).
Definition conf_lapicaddr (m : gmap Z Z) (conf : Z) : Z := ld32 m (conf + 36).

Definition MPPROC_SIZE : Z := 20.
Definition MPIOAPIC_SIZE : Z := 8.
Definition MPPROC : Z := 0x00.
Definition MPBUS : Z := 0x01.
Definition MPIOAPIC : Z := 0x02.
Definition MPIOINTR : Z := 0x03.
Definition MPLINTR : Z := 0x04.

(** ** mp.c *)

Definition sum (m : gmap Z Z) (addr len : Z) : Z := u8 (foldl Z.add 0 (ld_bytes m addr (Z.to_nat len))).

Definition MP_SIGNATURE : list Z := bytes_of_string "_MP_".
Definition PCMP_SIGNATURE : list Z := bytes_of_string "PCMP".

(** The loop of mpsearch1 from [p] on, with [n] more places to look at. *)
Fixpoint mpscan (m : gmap Z Z) (p : Z) (n : nat) : option Z :=
  match n with
  | O => None
  | S n =>
      if (memcmp (ld_bytes m p 4) MP_SIGNATURE 4 =? 0) && (sum m p MP_SIZE =? 0) then Some p
      else mpscan m (p + MP_SIZE) n
  end.
Definition mpsearch1 (m : gmap Z Z) (a len : Z) : option Z := mpscan m a (Z.to_nat ((len + MP_SIZE - 1) / MP_SIZE)).

Definition mpsearch (m : gmap Z Z) : option Z :=
  let bda := 0x400 in
  let p := Z.shiftl (Z.lor (Z.shiftl (ld8 m (bda + 0x0F)) 8) (ld8 m (bda + 0x0E))) 4 in
  match
    (if negb (p =? 0) then mpsearch1 m p 1024
     else mpsearch1 m (u32 (Z.lor (Z.shiftl (ld8 m (bda + 0x14)) 8) (ld8 m (bda + 0x13)) * 1024 - 1024)) 1024)
  with
  | Some mp => Some mp
  | None => mpsearch1 m 0xF0000 0x10000
  end.

(** The structure and the configuration table. *)
Definition mpconfig (m : gmap Z Z) : option (Z * Z) :=
  match mpsearch m with
  | None => None
  | Some mp =>
      if mp_physaddr m mp =? 0 then None else
      let conf := mp_physaddr m mp in
      if negb (memcmp (ld_bytes m conf 4) PCMP_SIGNATURE 4 =? 0) then None
      else if negb (conf_version m conf =? 1) && negb (conf_version m conf =? 4) then None
      else if negb (sum m conf (conf_length m conf) =? 0) then None
      else Some (mp, conf)
  end.

Section machine.
Context {mach : Machine}.

(** One turn of the loop over the entries, with [p] and [ismp].  An unknown type
    leaves the switch, not the loop. *)
Definition mp_entry (m : gmap Z Z) (e : Z) (st : Z * bool) : HW (Z * bool + bool) :=
  let '(p, ismp) := st in
  if negb (p <? e) then mret (inr ismp) else
  let type := ld8 m p in
  if type =? MPPROC then
    cpus ← gets hw_cpus;
    (if Z.of_nat (length cpus) <? NCPU then modify (set_cpus (cpus ++ [ld8 m (p + 1)])) else mret tt);;
    mret (inl (p + MPPROC_SIZE, ismp))
  else if type =? MPIOAPIC then
    modify (set_ioapicid (ld8 m (p + 1)));;
    mret (inl (p + MPIOAPIC_SIZE, ismp))
  else if (type =? MPBUS) || (type =? MPIOINTR) || (type =? MPLINTR) then mret (inl (p + 8, ismp))
  else mret (inl (p, false)).

Definition mpinit (turns : nat) (m : gmap Z Z) : HW unit :=
  match mpconfig m with
  | None => panic "Expect to run on an SMP"
  | Some (mp, conf) =>
      modify (set_lapic (conf_lapicaddr m conf));;
      ismp ← iter turns (mp_entry m (conf + conf_length m conf)) (conf + MPCONF_SIZE, true);
      if negb ismp then panic "Didn't find a suitable machine" else
      if negb (mp_imcrp m mp =? 0) then
        outb 0x22 0x70;;
        v ← inb 0x23;
        outb 0x23 (Z.lor v 1)
      else mret tt
  end.
End machine.

(** ** Searching *)

Definition mp_valid (m : gmap Z Z) (p : Z) : Prop :=
  ld_bytes m p 4 = MP_SIGNATURE /\ foldl Z.add 0 (ld_bytes m p 16) mod 256 = 0.

Lemma memcmp_eq s1 s2 n : length s1 = n -> length s2 = n -> memcmp s1 s2 n = 0 <-> s1 = s2.
Proof.
  revert s1 s2. induction n as [|n IH]; intros [|a s1] [|b s2] H1 H2; try done. cbn. injection H1 as H1. injection H2 as H2.
  destruct (Z.eqb_spec a b) as [->|Hne]; cbn [negb].
  - rewrite IH by done. split; [by intros ->|by intros [= ->]].
  - split; [lia|congruence].
Qed.

Lemma mp_valid_check m p :
  (memcmp (ld_bytes m p 4) MP_SIGNATURE 4 =? 0) && (sum m p MP_SIZE =? 0) = true <-> mp_valid m p.
Proof.
  rewrite andb_true_iff, !Z.eqb_eq, memcmp_eq by (done || apply length_ld_bytes). done.
Qed.

(** The first valid structure at a multiple of 16 bytes from [p]. *)
Lemma mpscan_spec m p n :
  match mpscan m p n with
  | Some q => exists k, (k < n)%nat /\ q = p + 16 * Z.of_nat k /\ mp_valid m q /\
      forall j, (j < k)%nat -> ~ mp_valid m (p + 16 * Z.of_nat j)
  | None => forall j, (j < n)%nat -> ~ mp_valid m (p + 16 * Z.of_nat j)
  end.
Proof.
  revert p. induction n as [|n IH]; intros p; cbn [mpscan]; [intros; lia|].
  pose proof (mp_valid_check m p) as Hc. destruct (_ && _).
  - exists 0%nat. split_and!; [lia|lia|by apply Hc|intros; lia].
  - assert (Hp : ~ mp_valid m p) by (intros Hv; by apply Hc in Hv).
    assert (Hstep : forall j, p + 16 * Z.of_nat (S j) = p + MP_SIZE + 16 * Z.of_nat j) by (unfold MP_SIZE; lia).
    specialize (IH (p + MP_SIZE)). destruct (mpscan m (p + MP_SIZE) n) as [q|].
    + destruct IH as (k & Hk & -> & Hv & Hbefore). exists (S k). rewrite Hstep. split_and!; [lia|done|done|].
      intros [|j] Hj; [by rewrite Z.add_0_r|]. rewrite Hstep. apply Hbefore. lia.
    + intros [|j] Hj; [by rewrite Z.add_0_r|]. rewrite Hstep. apply IH. lia.
Qed.

(** ** The entries *)

Inductive mpentry : Type := EProc (apicid : Z) | EIoapic (apicno : Z) | EOther.

(** The entries [es] from [p] up to [q], each starting below [e]. *)
Inductive entries (m : gmap Z Z) (e : Z) : Z -> list mpentry -> Z -> Prop :=
| entries_end p : entries m e p [] p
| entries_proc p es q : p < e -> ld8 m p = MPPROC ->
    entries m e (p + MPPROC_SIZE) es q -> entries m e p (EProc (ld8 m (p + 1)) :: es) q
| entries_ioapic p es q : p < e -> ld8 m p = MPIOAPIC ->
    entries m e (p + MPIOAPIC_SIZE) es q -> entries m e p (EIoapic (ld8 m (p + 1)) :: es) q
| entries_other p es q : p < e -> ld8 m p = MPBUS \/ ld8 m p = MPIOINTR \/ ld8 m p = MPLINTR ->
    entries m e (p + 8) es q -> entries m e p (EOther :: es) q.

(** What the kernel knows after an entry. *)
Definition note_entry (s : hwstate) (x : mpentry) : hwstate :=
  match x with
  | EProc id => if Z.of_nat (length (hw_cpus s)) <? NCPU then set_cpus (hw_cpus s ++ [id]) s else s
  | EIoapic id => set_ioapicid id s
  | EOther => s
  end.

Section with_machine.
Context {mach : Machine}.

Lemma iter_go {A R} (body : A -> HW (A + R)) n a a' s s' :
  body a s = Ret (inl a') s' -> iter (S n) body a s = iter n body a' s'.
Proof. intros E. change (iter (S n) body a s) with (M_bind _ _ (fun r => match r with inl a1 => iter n body a1 | inr x => mret x end) (body a) s). unfold M_bind. by rewrite E. Qed.

Lemma iter_stop {A R} (body : A -> HW (A + R)) n a x s s' :
  body a s = Ret (inr x) s' -> iter (S n) body a s = Ret x s'.
Proof. intros E. change (iter (S n) body a s) with (M_bind _ _ (fun r => match r with inl a1 => iter n body a1 | inr x => mret x end) (body a) s). unfold M_bind. by rewrite E. Qed.

(** The turn for one entry. *)
Lemma mp_turn m e p x es q s : entries m e p (x :: es) q ->
  exists p', mp_entry m e (p, true) s = Ret (inl (p', true)) (note_entry s x) /\ entries m e p' es q.
Proof.
  intros He. inversion He as [|? ? ? Hp Ht He'|? ? ? Hp Ht He'|? ? ? Hp Ht He']; subst;
    (eexists; split; [|exact He']); unfold mp_entry; zb; cbn [negb].
  - rewrite ?Ht. unfold gets, modify, mbind, M_bind, mret, M_ret. cbn [note_entry].
    by destruct (Z.of_nat (length (hw_cpus s)) <? NCPU).
  - by rewrite ?Ht.
  - destruct Ht as [Ht|[Ht|Ht]]; by rewrite ?Ht.
Qed.

Lemma mp_walk m e p es q turns s : entries m e p es q -> e <= q -> (length es < turns)%nat ->
  iter turns (mp_entry m e) (p, true) s = Ret true (foldl note_entry s es).
Proof.
  revert p turns s. induction es as [|x es IH]; intros p [|turns] s He Hq Ht; cbn [length] in Ht; try lia.
  - inversion He; subst. apply iter_stop. unfold mp_entry. by zb.
  - destruct (mp_turn m e p x es q s He) as (p' & E & He'). rewrite (iter_go _ _ _ _ _ _ E). apply IH; [done..|lia].
Qed.

Lemma mp_stuck m e p b turns s : p < e -> MPLINTR < ld8 m p -> iter turns (mp_entry m e) (p, b) s = Diverge.
Proof.
  intros Hp Ht. revert b. induction turns as [|turns IH]; intros b; [done|]. erewrite iter_go; [apply (IH false)|].
  unfold mp_entry, MPLINTR, MPPROC, MPIOAPIC, MPBUS, MPIOINTR in *. zb. done.
Qed.

Lemma mp_hang m e p es q turns s : entries m e p es q -> q < e -> MPLINTR < ld8 m q ->
  iter turns (mp_entry m e) (p, true) s = Diverge.
Proof.
  revert p turns s. induction es as [|x es IH]; intros p turns s He Hq Ht.
  - inversion He; subst. by apply mp_stuck.
  - destruct turns as [|turns]; [done|]. destruct (mp_turn m e p x es q s He) as (p' & E & He').
    rewrite (iter_go _ _ _ _ _ _ E). by apply IH.
Qed.

Definition apicids (es : list mpentry) : list Z := omap (fun x => match x with EProc id => Some id | _ => None end) es.
Definition ioapics (es : list mpentry) : list Z := omap (fun x => match x with EIoapic id => Some id | _ => None end) es.

Lemma notes_spec es s : (length (hw_cpus s) <= 8)%nat -> let s' := foldl note_entry s es in
  hw_cpus s' = take 8 (hw_cpus s ++ apicids es) /\ hw_ioapicid s' = default (hw_ioapicid s) (last (ioapics es)) /\
  hw_lapic s' = hw_lapic s /\ hw_log s' = hw_log s /\ hw_uart s' = hw_uart s.
Proof.
  induction es as [|x es IH] in s |- *; intros Hl; cbn [foldl].
  { split_and!; try done. cbn. by rewrite app_nil_r, take_ge by lia. }
  destruct x as [id|id|]; cbn [note_entry apicids ioapics omap list_omap].
  - unfold NCPU. destruct (Z.ltb_spec (Z.of_nat (length (hw_cpus s))) 8) as [Hlt|Hge].
    + destruct (IH (set_cpus (hw_cpus s ++ [id]) s)) as (Hc & Hi & Hrest); [cbn; rewrite length_app; cbn; lia|].
      split_and!; [|exact Hi|apply Hrest..]. rewrite Hc. cbn [hw_cpus set_cpus]. by rewrite <- app_assoc.
    + destruct (IH s Hl) as (Hc & Hrest). split; [|exact Hrest]. rewrite Hc, !take_app_le by lia. done.
  - destruct (IH (set_ioapicid id s) Hl) as (Hc & Hi & Hrest). split_and!; [exact Hc| |apply Hrest..].
    rewrite Hi. cbn [hw_ioapicid set_ioapicid]. fold (ioapics es). rewrite last_cons. by destruct (last (ioapics es)).
  - apply (IH s Hl).
Qed.

(** C29. The configuration table is taken in as it is written.  When the search
    finds a table with the entries [es], mpinit ends with the first eight
    processors of the table as the CPUs, the number of its last IO APIC and the
    address of the local APIC.  But an entry of an unknown type is never got past:
    the break meant to reject the machine leaves the switch only, and mpinit
    neither returns nor panics, however long it runs. *)
Theorem mpinit_takes_table (m : gmap Z Z) (mp conf : Z) (es : list mpentry) (q : Z) (turns : nat) (s : hwstate)
  (Hconf : mpconfig m = Some (mp, conf))
  (Hes : entries m (conf + conf_length m conf) (conf + MPCONF_SIZE) es q) (Hcpus : hw_cpus s = []) :
  (conf + conf_length m conf <= q -> (length es < turns)%nat ->
    exists s', mpinit turns m s = Ret tt s' /\ hw_cpus s' = take 8 (apicids es) /\
      hw_ioapicid s' = default (hw_ioapicid s) (last (ioapics es)) /\ hw_lapic s' = conf_lapicaddr m conf) /\
  (q < conf + conf_length m conf -> MPLINTR < ld8 m q -> mpinit turns m s = Diverge).
Proof.
  set (e := conf + conf_length m conf) in *. set (s0 := set_lapic (conf_lapicaddr m conf) s).
  destruct (notes_spec es s0) as (Hc & Hi & Hlap & _); [cbn; rewrite Hcpus; cbn; lia|].
  split; intros Hq Ht; unfold mpinit; rewrite Hconf; unfold mbind, M_bind, modify; fold e s0.
  - rewrite (mp_walk _ _ _ _ _ _ _ Hes Hq Ht). cbn [negb].
    destruct (mp_imcrp m mp =? 0); eexists; (split; [reflexivity|]); cbn; rewrite Hc, Hi, Hlap; cbn; by rewrite Hcpus.
  - by rewrite (mp_hang _ _ _ _ _ _ _ Hes Hq Ht).
Qed.
End with_machine.

(** A machine with two processors and an IO APIC. *)
Definition sample_mp : list Z :=
    [95; 77; 80; 95; 0; 1; 15; 0; 1; 4; 144; 0; 0; 0; 0; 0].
Definition sample_conf : list Z :=
    [80; 67; 77; 80; 100; 0; 4; 72; 0; 0; 0; 0; 0; 0; 0; 0; 0; 0; 0; 0; 0; 0; 0; 0; 0; 0; 0; 0; 0; 0; 0; 0; 0;
    0; 4; 0; 0; 0; 224; 254; 0; 0; 0; 0; 0; 0; 20; 3; 0; 0; 0; 0; 0; 0; 0; 0; 0; 0; 0; 0; 0; 0; 0; 0; 0; 1;
    20; 1; 0; 0; 0; 0; 0; 0; 0; 0; 0; 0; 0; 0; 0; 0; 0; 0; 1; 0; 80; 67; 73; 32; 32; 32; 2; 2; 17; 1; 0; 0;
    192; 254].
Definition sample_bios : gmap Z Z := st_bytes (st_bytes ∅ 0xF0000 sample_mp) 0xF0100 sample_conf.

Lemma mpinit_takes_table_witness :
  let mach := {| port_in := fun _ _ => 0; mmio_in := fun _ _ => 0 |} in
  exists s', mpinit (mach := mach) 10 sample_bios (mkHw [] false 0 0 []) = Ret tt s' /\ hw_cpus s' = [0; 1] /\
    hw_ioapicid s' = 2 /\ hw_lapic s' = 0xfee00000.
Proof.
  intros mach.
  assert (Hes : entries sample_bios (0xF0100 + conf_length sample_bios 0xF0100) (0xF0100 + MPCONF_SIZE)
    [EProc (ld8 sample_bios 0xF012D); EProc (ld8 sample_bios 0xF0141); EOther; EIoapic (ld8 sample_bios 0xF015D)] 0xF0164).
  { apply (entries_proc _ _ 0xF012C); [vm_compute; reflexivity..|]. apply (entries_proc _ _ 0xF0140); [vm_compute; reflexivity..|].
    apply (entries_other _ _ 0xF0154); [vm_compute; reflexivity|left; vm_compute; reflexivity|].
    apply (entries_ioapic _ _ 0xF015C); [vm_compute; reflexivity..|]. apply entries_end. }
  destruct (mpinit_takes_table (mach := mach) sample_bios 0xF0000 0xF0100
    [EProc (ld8 sample_bios 0xF012D); EProc (ld8 sample_bios 0xF0141); EOther; EIoapic (ld8 sample_bios 0xF015D)] 0xF0164
    10 (mkHw [] false 0 0 [])) as [Hok _]; [vm_compute; reflexivity|exact Hes|reflexivity|].
  destruct Hok as (s' & E & Hc & Hi & Hl); [vm_compute; discriminate|cbn; lia|].
  exists s'. split; [exact E|]. rewrite Hc, Hi, Hl. clear. vm_compute. split_and!; reflexivity.
Defined.
