(* ===== verification/Boot.v ===== *)
(** * The boot loader (bootmain.c) and the boot page table (main.c)

    bootmain runs before there is a kernel: it reads the kernel from the disk
    with programmed input and jumps to it.  The drive is the one of Ide.v.
    Memory is physical memory; jumping to the kernel is the result, its entry
    point. *)

From S2P Require Import Prelude Mmu Mem Bytes State Kernel Ide Exec.

Definition SECTSIZE : Z := 512.

(** The address of the scratch space for the ELF header. *)
Definition ELF_AT : Z := 0x10000.

Record bootstate (D : Type) := mkBoot { bt_mem : gmap Z Z; bt_disk : D }.
Arguments mkBoot {D} _ _.
Arguments bt_mem {D} _.
Arguments bt_disk {D} _.

Section boot.
Context `{AtaDisk D}.

Abbreviation BT := (M (bootstate D)).

Definition set_bt_mem (f : gmap Z Z -> gmap Z Z) : BT unit := modify (fun s => mkBoot (f (bt_mem s)) (bt_disk s)).
Definition set_bt_disk (f : D -> D) : BT unit := modify (fun s => mkBoot (bt_mem s) (f (bt_disk s))).
Definition boot_outb (port v : Z) : BT unit := set_bt_disk (outb port (u8 v)).

(** [while((inb(0x1F7) & 0xC0) != 0x40)]: the loop of the driver's idewait. *)
Definition waitdisk : BT unit :=
  d ← gets bt_disk;
  match poll (max_wait d) d 0 with
  | None => (fun _ => Diverge) : BT unit
  | Some _ => mret tt
  end.

(** The drive carries out the command before it reports that it is ready. *)
Definition readsect (dst offset : Z) : BT unit :=
  waitdisk;;
  boot_outb 0x1f2 1;;
  boot_outb 0x1f3 offset;;
  boot_outb 0x1f4 (Z.shiftr offset 8);;
  boot_outb 0x1f5 (Z.shiftr offset 16);;
  boot_outb 0x1f6 (Z.lor (Z.shiftr offset 24) 0xE0);;
  boot_outb 0x1f7 0x20;;
  set_bt_disk complete;;
  waitdisk;;
  d ← gets bt_disk;
  set_bt_mem (fun m => st_bytes m dst (insl d)).

(** One turn of the loop of readseg. *)
Definition readseg_body (epa : Z) (st : Z * Z) : BT (Z * Z + unit) :=
  let '(pa, offset) := st in
  if negb (pa <? epa) then mret (inr tt) else
  readsect pa offset;;
  mret (inl (u32 (pa + SECTSIZE), u32 (offset + 1))).

Definition readseg (pa count offset : Z) : BT unit :=
  let epa := u32 (pa + count) in
  let pa := u32 (pa - offset mod SECTSIZE) in
  let offset := offset / SECTSIZE + 1 in
  iter (S (Z.to_nat ((epa - pa + SECTSIZE - 1) / SECTSIZE))) (readseg_body epa) (pa, offset).

(** The program header at [ph]: [off], [paddr], [filesz] and [memsz]. *)
Definition ph_words (m : gmap Z Z) (ph : Z) : Z * Z * Z * Z := (ld32 m (ph + 4), ld32 m (ph + 12), ld32 m (ph + 16), ld32 m (ph + 20)).

Definition load_ph (ph : Z) : BT unit :=
  m ← gets bt_mem;
  let '(off, pa, filesz, memsz) := ph_words m ph in
  readseg pa filesz off;;
  m ← gets bt_mem;
  let '(off, _, filesz, memsz) := ph_words m ph in
  if filesz <? memsz then set_bt_mem (fun m => stosb m (u32 (pa + filesz)) 0 (Z.to_nat (memsz - filesz))) else mret tt.

(** The entry point, or nothing if the disk has no ELF file. *)
Definition bootmain : BT (option Z) :=
  readseg ELF_AT 4096 0;;
  m ← gets bt_mem;
  if negb (ld32 m ELF_AT =? ELF_MAGIC) then mret None else
  let phoff := ld32 m (ELF_AT + 28) in
  let phnum := get16 (ld_bytes m ELF_AT 52) 44 in
  for_each (seq 0 (Z.to_nat phnum)) (fun i => load_ph (ELF_AT + phoff + PROGHDR_SIZE * Z.of_nat i));;
  m ← gets bt_mem;
  mret (Some (ld32 m (ELF_AT + 24))).
End boot.

(** ** main.c: the page directory for the start *)

Definition PTE_PS : Z := 0x080.
Definition entrypgdir (i : Z) : Z :=
  if i =? 0 then Z.lor (Z.lor (Z.lor 0 PTE_P) PTE_W) PTE_PS
  else if i =? Z.shiftr KERNBASE PDXSHIFT then Z.lor (Z.lor (Z.lor 0 PTE_P) PTE_W) PTE_PS
  else 0.

(** ** Sectors *)

Lemma u8_testbit_full x n : Z.testbit (u8 x) n = (n <? 8) && Z.testbit x n.
Proof.
  unfold u8. change 256 with (2 ^ 8). destruct (Z.ltb_spec n 8).
  - destruct (decide (0 <= n)); [by rewrite Z.mod_pow2_bits_low|by rewrite !Z.testbit_neg_r by lia].
  - by rewrite Z.mod_pow2_bits_high by lia.
Qed.

Lemma high_bits_zero x n k : 0 <= x < 2 ^ k -> k <= n -> Z.testbit x n = false.
Proof.
  intros Hx Hn. destruct (decide (0 <= k)) as [Hk|]; [|rewrite (Z.pow_neg_r 2 k) in Hx by lia; lia].
  rewrite <- (Z.mod_small x (2 ^ k)) by done. by apply Z.mod_pow2_bits_high.
Qed.

(** The task file of readsect selects the sector on drive 0. *)
Definition boot_regs (off : Z) (q : Z) : Z :=
  if q =? 0x1f3 then u8 off else if q =? 0x1f4 then u8 (Z.shiftr off 8) else if q =? 0x1f5 then u8 (Z.shiftr off 16)
  else u8 (Z.lor (Z.shiftr off 24) 0xE0).

Lemma boot_drive off : 0 <= off < 2 ^ 28 -> sel_drive (boot_regs off) = 0.
Proof.
  intros Ho. unfold sel_drive. cbn. apply Z.bits_inj'. intros n Hn. rewrite Z.land_spec, Z.testbit_0_l.
  change 1 with (2 ^ 0). rewrite Z.pow2_bits_eqb by lia. destruct (Z.eqb_spec 0 n) as [<-|Hne]; [|apply andb_false_r].
  rewrite andb_true_r, Z.shiftr_spec, u8_testbit_full, Z.lor_spec, Z.shiftr_spec by lia.
  by rewrite (high_bits_zero off _ 28) by lia.
Qed.

Lemma boot_sector off : 0 <= off < 2 ^ 28 -> sel_sector (boot_regs off) = off.
Proof.
  intros Ho. unfold sel_sector. cbn. apply Z.bits_inj'. intros n Hn.
  rewrite !Z.lor_spec, !Z.shiftl_spec, u8_testbit_full by done.
  assert (Hlow : forall k m, 0 <= k -> n < k -> Z.testbit m (n - k) = false) by (intros; apply Z.testbit_neg_r; lia).
  destruct (Z.ltb_spec n 8).
  { rewrite !Hlow by lia. by rewrite !orb_false_r. }
  rewrite u8_testbit_full, Z.shiftr_spec by lia. replace (n - 8 + 8) with n by lia. destruct (Z.ltb_spec (n - 8) 8).
  { rewrite !Hlow by lia. by rewrite !orb_false_r. }
  rewrite u8_testbit_full, Z.shiftr_spec by lia. replace (n - 16 + 16) with n by lia. destruct (Z.ltb_spec (n - 16) 8).
  { rewrite !Hlow by lia. by rewrite !orb_false_r. }
  rewrite Z.land_spec, u8_testbit_full, Z.lor_spec, Z.shiftr_spec by lia. replace (n - 24 + 24) with n by lia.
  change 15 with (Z.ones 4). cbn [andb orb]. destruct (Z.ltb_spec (n - 24) 4).
  - rewrite Z.ones_spec_low, andb_true_r by lia. rewrite (proj2 (Z.ltb_lt _ _)) by lia. cbn [andb].
    assert (Hc : n - 24 = 0 \/ n - 24 = 1 \/ n - 24 = 2 \/ n - 24 = 3) by lia.
    destruct Hc as [E|[E|[E|E]]]; rewrite E; apply orb_false_r.
  - rewrite Z.ones_spec_high, andb_false_r by lia. symmetry. apply (high_bits_zero off n 28); lia.
Qed.

Section loading.
Context `{AtaDiskLaws D}.

(** The sectors of drive 0 hold [disk]. *)
Definition holds (disk : Z -> list Z) (d : D) : Prop := forall sec, medium d 0 sec = disk sec.

Lemma wp_waitdisk (Q : unit -> bootstate D -> Prop) s : Q tt s -> wp waitdisk Q s.
Proof.
  intros HQ. unfold waitdisk. wp_steps. destruct (ready_soon (bt_disk s)) as (j & Hj & Hr).
  destruct (poll_ready _ _ 0 j Hj Hr) as (k & -> & _). by apply wp_ret.
Qed.

Lemma wp_readsect disk dst off (Q : unit -> bootstate D -> Prop) m d : 0 <= off < 2 ^ 28 -> holds disk d ->
  (forall d', holds disk d' -> Q tt (mkBoot (st_bytes m dst (disk off)) d')) -> wp (readsect dst off) Q (mkBoot m d).
Proof.
  intros Ho Hd HQ. unfold readsect. apply wp_bind, wp_waitdisk. unfold boot_outb, set_bt_disk, set_bt_mem.
  do 14 (wp_step; cbv beta). cbn [bt_mem bt_disk]. set (d1 := outb 0x1f6 _ _).
  assert (Hr : forall q, 0x1f2 < q <= 0x1f6 -> taskfile d1 q = boot_regs off q).
  { intros q Hq. unfold d1. rewrite !outb_taskfile by (lia || apply Z.mod_pos_bound; lia). unfold boot_regs.
    repeat case_decide; subst; try done; try lia; repeat (case_match; try done); lia. }
  assert (Hn : taskfile d1 0x1f2 = 1) by (unfold d1; by rewrite !outb_taskfile by (lia || apply Z.mod_pos_bound; lia)).
  assert (Hdr : sel_drive (taskfile d1) = 0) by (rewrite <- (boot_drive off Ho); unfold sel_drive; by rewrite !Hr by lia).
  assert (Hsec : sel_sector (taskfile d1) = off) by (rewrite <- (boot_sector off Ho); unfold sel_sector; by rewrite !Hr by lia).
  assert (Hmd : forall sec, medium d1 0 sec = disk sec) by (intros sec; unfold d1; by rewrite !outb_medium by lia).
  clearbody d1. change (u8 32) with IDE_CMD_READ. apply wp_bind, wp_waitdisk. wp_steps. cbn [bt_mem bt_disk].
  rewrite read_data, Hdr, Hsec, Hmd by done. apply HQ. intros sec. by rewrite read_medium, Hmd.
Qed.

(** The bytes of the kernel file, which starts at sector 1. *)
Definition image (disk : Z -> list Z) (k : Z) : Z := u8 (nth (Z.to_nat (k mod 512)) (disk (k / 512 + 1)) 0).
Definition sectors_ok (disk : Z -> list Z) : Prop := forall sec, length (disk sec) = 512%nat.

(** Memory with [n] bytes from [pa] on replaced by those of the file from [off]. *)
Definition loaded (disk : Z -> list Z) (m m' : gmap Z Z) (pa n off : Z) : Prop :=
  forall b, ld8 m' b = if decide (pa <= b < pa + n) then image disk (off + (b - pa)) else ld8 m b.

(** The number of sectors of [count] bytes from [off] on. *)
Definition nsect (count off : Z) : Z := (count + off mod 512 + 511) / 512.

Lemma loaded_sector disk m m' pa off k : sectors_ok disk -> 0 <= k -> off mod 512 = 0 -> 0 <= off ->
  loaded disk m m' pa (512 * k) off -> loaded disk m (st_bytes m' (pa + 512 * k) (disk (off / 512 + 1 + k))) pa (512 * (k + 1)) off.
Proof.
  intros Hs Hk Ho Ho0 Hl b. rewrite ld8_st_bytes, Hs, Hl.
  destruct (decide (pa + 512 * k <= b < pa + 512 * k + Z.of_nat 512)) as [Hin|Hout].
  - rewrite decide_True by lia. unfold image.
    assert (Hm : (off + (b - pa)) mod 512 = b - (pa + 512 * k) /\ (off + (b - pa)) / 512 = off / 512 + k) by (Z.div_mod_to_equations; lia).
    destruct Hm as [-> ->]. by replace (off / 512 + k + 1) with (off / 512 + 1 + k) by lia.
  - repeat case_decide; try done; lia.
Qed.

Lemma wp_readseg disk pa count off (Q : unit -> bootstate D -> Prop) m d :
  sectors_ok disk -> holds disk d -> 0 <= off -> 0 <= count -> off mod 512 <= pa -> pa + count + 512 < 4294967296 ->
  off + count + 1024 < 512 * 2 ^ 28 ->
  (forall m' d', holds disk d' -> loaded disk m m' (pa - off mod 512) (512 * nsect count off) (off - off mod 512) ->
    Q tt (mkBoot m' d')) ->
  wp (readseg pa count off) Q (mkBoot m d).
Proof.
  intros Hs Hd Ho Hc Hpa Hend Hoff HQ. unfold readseg, SECTSIZE.
  assert (Hmod : 0 <= off mod 512 < 512) by (apply Z.mod_pos_bound; lia).
  assert (Hdiv : 512 * (off / 512) = off - off mod 512) by (Z.div_mod_to_equations; lia).
  change (512 * 2 ^ 28) with 137438953472 in Hoff.
  rewrite (u32_small (pa + count)), (u32_small (pa - off mod 512)) by lia.
  replace (pa + count - (pa - off mod 512) + 512 - 1) with (count + off mod 512 + 511) by lia. fold (nsect count off).
  assert (Hns : 0 <= nsect count off /\ 512 * nsect count off < count + off mod 512 + 512 /\ count + off mod 512 <= 512 * nsect count off)
    by (unfold nsect; Z.div_mod_to_equations; lia).
  set (p0 := pa - off mod 512). set (o0 := off - off mod 512).
  assert (Ho0 : o0 mod 512 = 0 /\ o0 / 512 = off / 512 /\ 0 <= o0) by (subst o0; Z.div_mod_to_equations; lia).
  destruct Ho0 as (Hom & Hod & Ho0). generalize dependent (nsect count off). intros n HQ Hns.
  apply (wp_iter (fun st s => exists k, 0 <= k <= n /\ st = (p0 + 512 * k, off / 512 + 1 + k) /\
      holds disk (bt_disk s) /\ loaded disk m (bt_mem s) p0 (512 * k) o0)
    (fun st => Z.to_nat (n - (st.1 - p0) / 512))).
  - intros st [m1 d1] (k & Hk & -> & Hd1 & Hl). cbn [bt_disk bt_mem] in *. unfold readseg_body.
    destruct (Z.ltb_spec (p0 + 512 * k) (pa + count)) as [Hlt|Hge]; cbn [negb].
    + assert (Hkn : k < n) by lia. apply wp_bind, (wp_readsect disk); [change (2 ^ 28) with 268435456; lia|done|].
      intros d2 Hd2. apply wp_ret. unfold SECTSIZE. rewrite !u32_small by lia. split.
      * exists (k + 1). split_and!; [lia|lia|f_equal; lia|done|]. rewrite <- Hod. by apply loaded_sector; [|lia|..].
      * cbn [fst]. replace ((p0 + 512 * k + 512 - p0) / 512) with (k + 1) by (Z.div_mod_to_equations; lia).
        replace ((p0 + 512 * k - p0) / 512) with k by (Z.div_mod_to_equations; lia). lia.
    + apply wp_ret. apply HQ; [done|]. replace k with n in Hl by (subst p0; lia). done.
  - exists 0. split_and!; [lia|lia|f_equal; lia|done|]. intros b. by rewrite decide_False by lia.
  - cbn [fst]. rewrite Z.sub_diag. change (0 / 512) with 0. lia.
Qed.

(** *** The kernel file *)

Definition image32 (disk : Z -> list Z) (k : Z) : Z :=
  image disk k + 256 * image disk (k + 1) + 65536 * image disk (k + 2) + 16777216 * image disk (k + 3).
Definition image16 (disk : Z -> list Z) (k : Z) : Z := image disk k + 256 * image disk (k + 1).

Record segment := mkSegment { sg_off : Z; sg_pa : Z; sg_filesz : Z; sg_memsz : Z }.

(** The segments that the program headers of the file describe. *)
Definition segment_at (disk : Z -> list Z) (i : nat) : segment :=
  let ph := image32 disk 28 + 32 * Z.of_nat i in
  mkSegment (image32 disk (ph + 4)) (image32 disk (ph + 12)) (image32 disk (ph + 16)) (image32 disk (ph + 20)).
Definition phnum (disk : Z -> list Z) : nat := Z.to_nat (image16 disk 44).

(** Where the loading of a segment starts: at a sector boundary of the file. *)
Definition sg_start (sg : segment) : Z := sg_pa sg - sg_off sg mod 512.

(** A segment lies above the scratch page, and inside the address space and the
    disk. *)
Definition segment_ok (sg : segment) : Prop :=
  ELF_AT + 4096 <= sg_start sg /\ sg_filesz sg <= sg_memsz sg /\ sg_pa sg + sg_memsz sg + 512 < 4294967296 /\
  sg_off sg + sg_filesz sg + 1024 < 512 * 2 ^ 28.

(** A header without contents, such as that of the stack. *)
Definition empty_segment (sg : segment) : Prop := sg_filesz sg = 0 /\ sg_memsz sg = 0 /\ sg_off sg mod 512 = 0.

(** The segments with contents come in the order of their addresses, with room for
    the sectors that they share with others in the file. *)
Record kernel_file (disk : Z -> list Z) : Prop := KernelFile {
  kf_magic : image32 disk 0 = ELF_MAGIC;
  kf_headers : image32 disk 28 + 32 * Z.of_nat (phnum disk) <= 4096;
  kf_segments i : (i < phnum disk)%nat -> empty_segment (segment_at disk i) \/ segment_ok (segment_at disk i);
  kf_order i j : (i < j < phnum disk)%nat -> empty_segment (segment_at disk i) \/ empty_segment (segment_at disk j) \/
    sg_pa (segment_at disk i) + sg_memsz (segment_at disk i) <= sg_start (segment_at disk j);
}.

Definition segment_loaded (disk : Z -> list Z) (m : gmap Z Z) (sg : segment) : Prop :=
  forall k, 0 <= k < sg_memsz sg -> ld8 m (sg_pa sg + k) = if decide (k < sg_filesz sg) then image disk (sg_off sg + k) else 0.

Definition header_loaded (disk : Z -> list Z) (m : gmap Z Z) : Prop :=
  forall b, 0 <= b < 4096 -> ld8 m (ELF_AT + b) = image disk b.

Lemma image_range disk k : 0 <= image disk k < 256.
Proof. apply Z.mod_pos_bound. lia. Qed.
Lemma image32_range disk k : 0 <= image32 disk k < 4294967296.
Proof.
  unfold image32. pose proof (image_range disk k). pose proof (image_range disk (k + 1)).
  pose proof (image_range disk (k + 2)). pose proof (image_range disk (k + 3)). lia.
Qed.

Lemma header_word disk m k : header_loaded disk m -> 0 <= k <= 4092 -> ld32 m (ELF_AT + k) = image32 disk k.
Proof.
  intros Hh Hk. unfold ld32, image32. rewrite <- !Z.add_assoc. by rewrite !Hh by lia.
Qed.

Lemma header_segment disk m i : header_loaded disk m -> kernel_file disk -> (i < phnum disk)%nat ->
  let sg := segment_at disk i in
  ph_words m (ELF_AT + image32 disk 28 + PROGHDR_SIZE * Z.of_nat i) = (sg_off sg, sg_pa sg, sg_filesz sg, sg_memsz sg).
Proof.
  intros Hh Hk Hi sg. pose proof (kf_headers _ Hk). pose proof (image32_range disk 28). unfold ph_words, PROGHDR_SIZE.
  set (ph := image32 disk 28 + 32 * Z.of_nat i).
  replace (ELF_AT + image32 disk 28 + 32 * Z.of_nat i) with (ELF_AT + ph) by (subst ph; lia). rewrite <- !Z.add_assoc.
  rewrite !(header_word disk) by (done || (subst ph; lia)). done.
Qed.

Lemma readseg_empty pa off (s : bootstate D) : 0 <= pa < 4294967296 -> off mod 512 = 0 -> readseg pa 0 off s = Ret tt s.
Proof.
  intros Hpa Ho. unfold readseg, SECTSIZE. rewrite Ho, Z.add_0_r, Z.sub_0_r, u32_small, Z.sub_diag by done.
  change (S _) with 1%nat. unfold iter, readseg_body. by rewrite Z.ltb_irrefl.
Qed.

#[local] Instance empty_segment_dec sg : Decision (empty_segment sg).
Proof. unfold empty_segment. solve_decision. Defined.

Lemma wp_load_ph disk i (Q : unit -> bootstate D -> Prop) m d :
  sectors_ok disk -> holds disk d -> kernel_file disk -> header_loaded disk m -> (i < phnum disk)%nat ->
  let sg := segment_at disk i in
  (forall m' d', holds disk d' -> header_loaded disk m' -> segment_loaded disk m' sg ->
    (forall b, empty_segment sg \/ b < sg_start sg -> ld8 m' b = ld8 m b) -> Q tt (mkBoot m' d')) ->
  wp (load_ph (ELF_AT + image32 disk 28 + PROGHDR_SIZE * Z.of_nat i)) Q (mkBoot m d).
Proof.
  intros Hs Hd Hk Hh Hi sg HQ. destruct (decide (empty_segment sg)) as [He|Hne].
  { unfold load_ph. apply wp_bind, wp_gets. cbn [bt_mem]. rewrite (header_segment disk m i Hh Hk Hi). fold sg.
    pose proof He as (Ef & Em & Eo). rewrite Ef. apply wp_bind. eapply wp_of_run; [by apply readseg_empty; [apply image32_range|]|].
    apply wp_bind, wp_gets. cbn [bt_mem]. rewrite (header_segment disk m i Hh Hk Hi). fold sg. rewrite Ef, Em. cbn [Z.ltb Z.compare].
    apply wp_ret, HQ; [done|done| |done]. intros k Hkr. lia. }
  destruct (kf_segments _ Hk i Hi) as [?|(Hlow & Hsz & Hpa & Hoff)]; [done|]. fold sg in Hlow, Hsz, Hpa, Hoff.
  assert (Hnn : 0 <= sg_off sg /\ 0 <= sg_filesz sg) by (split; apply image32_range).
  assert (Hmod : 0 <= sg_off sg mod 512 < 512) by (apply Z.mod_pos_bound; lia).
  unfold load_ph. apply wp_bind, wp_gets. cbn [bt_mem]. rewrite (header_segment disk m i Hh Hk Hi). fold sg. unfold sg_start in *.
  assert (Hat : ELF_AT = 65536) by done.
  apply wp_bind, (wp_readseg disk); [done|done|lia..|]. intros m1 d1 Hd1 Hl1.
  assert (Hh1 : header_loaded disk m1) by (intros b Hb; rewrite Hl1, decide_False by lia; by apply Hh).
  apply wp_bind, wp_gets. cbn [bt_mem]. rewrite (header_segment disk m1 i Hh1 Hk Hi). fold sg.
  assert (Hns : 0 <= sg_filesz sg + sg_off sg mod 512 <= 512 * nsect (sg_filesz sg) (sg_off sg)) by (unfold nsect; Z.div_mod_to_equations; lia).
  assert (Hdata : forall k, 0 <= k < sg_filesz sg -> ld8 m1 (sg_pa sg + k) = image disk (sg_off sg + k)).
  { intros k Hkr. rewrite Hl1, decide_True by lia. f_equal. lia. }
  rewrite u32_small by lia. destruct (Z.ltb_spec (sg_filesz sg) (sg_memsz sg)) as [Hlt|Hge].
  - unfold set_bt_mem. apply wp_modify. cbn [bt_mem bt_disk]. apply HQ; [done|..].
    + intros b Hb. rewrite ld8_stosb, decide_False by lia. by apply Hh1.
    + intros k Hkr. rewrite ld8_stosb. case_decide as Hd2; case_decide as Hd3; try lia; [done|by apply Hdata; lia].
    + intros b [?|Hb]; [done|]. rewrite ld8_stosb, decide_False, Hl1, decide_False by lia. done.
  - apply wp_ret, HQ; [done|done|..].
    + intros k Hkr. rewrite decide_True by lia. apply Hdata. lia.
    + intros b [?|Hb]; [done|]. by rewrite Hl1, decide_False by lia.
Qed.

Lemma header_phnum disk m : header_loaded disk m -> get16 (ld_bytes m ELF_AT 52) 44 = image16 disk 44.
Proof.
  intros Hh. unfold get16, get_bytes, ld_bytes, image16. cbn -[ELF_AT Z.add Z.mul].
  rewrite !Hh by lia. change (Z.of_nat 44) with 44. change (Z.of_nat 45) with 45. unfold le2z. change (44 + 1) with 45. lia.
Qed.

Lemma wp_load_all disk (Q : unit -> bootstate D -> Prop) m d :
  sectors_ok disk -> holds disk d -> kernel_file disk -> header_loaded disk m ->
  (forall m' d', header_loaded disk m' -> (forall i, (i < phnum disk)%nat -> segment_loaded disk m' (segment_at disk i)) ->
    Q tt (mkBoot m' d')) ->
  wp (for_each (seq 0 (phnum disk)) (fun i => load_ph (ELF_AT + image32 disk 28 + PROGHDR_SIZE * Z.of_nat i))) Q (mkBoot m d).
Proof.
  intros Hs Hd Hk Hh HQ.
  apply (wp_for_each_seq (fun i s => holds disk (bt_disk s) /\ header_loaded disk (bt_mem s) /\
    forall j, (j < i)%nat -> segment_loaded disk (bt_mem s) (segment_at disk j))).
  - intros i [m1 d1] Hi (Hd1 & Hh1 & Hl1). cbn [bt_mem bt_disk] in *. apply (wp_load_ph disk); [done..|].
    intros m2 d2 Hd2 Hh2 Hl2 Hkeep. refine (conj Hd2 (conj Hh2 _)). intros j Hj.
    destruct (decide (j = i)) as [->|Hne]; [done|]. intros k Hkr.
    cbn [bt_mem]. rewrite Hkeep; [apply Hl1; [lia|done]|].
    destruct (kf_order _ Hk j i ltac:(lia)) as [(_ & E & _)|[?|?]]; [lia|by left|right; lia].
  - refine (conj Hd (conj Hh _)). intros; lia.
  - intros [m' d'] (_ & Hh' & Hl'). by apply HQ.
Qed.

(** C32. The boot loader loads the kernel.  From a disk with an ELF file from
    sector 1 on, bootmain brings every segment to its physical address, with the
    bytes of the file and zeros behind them, although it reads whole sectors and
    so writes around the segments, and ends with the entry point of the file; from
    a disk without one it returns without jumping anywhere. *)
Theorem bootmain_loads_kernel (disk : Z -> list Z) (m : gmap Z Z) (d : D)
  (Hs : sectors_ok disk) (Hd : holds disk d) (Hfile : image32 disk 0 = ELF_MAGIC -> kernel_file disk) :
  exists r s', bootmain (mkBoot m d) = Ret r s' /\
    if decide (image32 disk 0 = ELF_MAGIC) then
      r = Some (image32 disk 24) /\ forall i, (i < phnum disk)%nat -> segment_loaded disk (bt_mem s') (segment_at disk i)
    else r = None.
Proof.
  apply wp_inv. unfold bootmain. apply wp_bind, (wp_readseg disk); [done|done|by vm_compute..|].
  intros m1 d1 Hd1 Hl1. change (512 * nsect 4096 0) with 4096 in Hl1.
  assert (Hh1 : header_loaded disk m1).
  { intros b Hb. rewrite Hl1, decide_True by (change (0 mod 512) with 0; lia). f_equal. change (0 mod 512) with 0. lia. }
  apply wp_bind, wp_gets. cbn [bt_mem]. rewrite <- (Z.add_0_r ELF_AT) at 1. rewrite (header_word disk) by (done || lia).
  case_decide as Hm; [|rewrite (proj2 (Z.eqb_neq _ _) Hm); by apply wp_ret].
  specialize (Hfile Hm). rewrite Hm, Z.eqb_refl. cbn [negb].
  rewrite (header_word disk), (header_phnum disk) by (done || lia). fold (phnum disk).
  apply wp_bind, (wp_load_all disk); [done..|]. intros m2 d2 Hh2 Hl2. apply wp_bind, wp_gets, wp_ret. cbn [bt_mem].
  rewrite (header_word disk) by (done || lia). done.
Qed.
End loading.

(** A kernel of one segment that starts in the middle of a sector, and a header for
    the stack. *)
Definition boot_header : list Z :=
  z2le 4 ELF_MAGIC ++ replicate 20 0 ++ z2le 4 0x10000c ++ z2le 4 52 ++ replicate 12 0 ++ z2le 2 2 ++ replicate 6 0 ++
  z2le 4 1 ++ z2le 4 600 ++ z2le 4 0 ++ z2le 4 0x100058 ++ z2le 4 3 ++ z2le 4 8 ++ replicate 8 0 ++ replicate 428 0.
Definition boot_disk (sec : Z) : list Z :=
  if sec =? 1 then boot_header else if sec =? 2 then replicate 88 1 ++ [7; 8; 9] ++ replicate 421 2 else replicate 512 0.

Lemma boot_disk_file : kernel_file boot_disk.
Proof.
  assert (En : phnum boot_disk = 2%nat) by (vm_compute; reflexivity).
  assert (Es : segment_at boot_disk 0 = mkSegment 600 0x100058 3 8) by (vm_compute; reflexivity).
  assert (Et : segment_at boot_disk 1 = mkSegment 0 0 0 0) by (vm_compute; reflexivity).
  constructor; rewrite ?En; [vm_compute; reflexivity|vm_compute; discriminate|..].
  - intros [|[|i]] Hi; [right|left; rewrite Et; split_and!; reflexivity|lia]. rewrite Es. unfold segment_ok, sg_start, ELF_AT. cbn [sg_pa sg_off sg_filesz sg_memsz].
    change (600 mod 512) with 88. change (512 * 2 ^ 28) with 137438953472. lia.
  - intros i j Hij. right; left. replace j with 1%nat by lia. rewrite Et. split_and!; reflexivity.
Defined.

Lemma bootmain_loads_kernel_witness :
  let d := mkToy (fun _ => 0) (fun _ sec => boot_disk sec) [] 0 in
  exists s', bootmain (mkBoot ∅ d) = Ret (Some 0x10000c) s' /\
    ld8 (bt_mem s') 0x100059 = 8 /\ ld8 (bt_mem s') 0x10005f = 0.
Proof.
  intros d. destruct (bootmain_loads_kernel boot_disk ∅ d) as (r & s' & E & Hr).
  - intros sec. unfold boot_disk. destruct (sec =? 1); [reflexivity|]. by destruct (sec =? 2).
  - done.
  - intros _. exact boot_disk_file.
  - assert (Em : image32 boot_disk 0 = ELF_MAGIC) by (vm_compute; reflexivity). rewrite decide_True in Hr by done.
    destruct Hr as [Hr Hl]. replace (image32 boot_disk 24) with 0x10000c in Hr by (vm_compute; reflexivity).
    rewrite Hr in E. exists s'. split; [exact E|].
    specialize (Hl 0%nat). replace (phnum boot_disk) with 2%nat in Hl by (vm_compute; reflexivity).
    replace (segment_at boot_disk 0) with (mkSegment 600 0x100058 3 8) in Hl by (vm_compute; reflexivity).
    specialize (Hl ltac:(lia)).
    pose proof (Hl 1 ltac:(cbn; lia)) as H1. pose proof (Hl 7 ltac:(cbn; lia)) as H7.
    cbn [sg_pa sg_off sg_filesz] in H1, H7. change (0x100058 + 1) with 0x100059 in H1. change (0x100058 + 7) with 0x10005f in H7.
    split; [rewrite H1|rewrite H7]; clear; vm_compute; reflexivity.
Defined.
