(* ===== verification/X86.v ===== *)
(** * The processor, as far as the assembly files use it

    swtch.S, trapasm.S, vectors.pl, usys.S, initcode.S, entry.S, entryother.S and
    bootasm.S are lists of the instructions defined here; the registers that
    x86.h's inline assembly sets are part of the state.  Segment registers carry
    the base, limit and privilege level loaded from the descriptor table, in real
    mode sixteen times the selector.  Gates, privilege levels, the stack switch
    through the task state segment and general protection faults follow the
    processor's manual; another exception is a [Crash].

    Where an instruction lies in memory is the assembler's and the linker's
    business: [Code] gives the instruction at a physical address and its
    length.  [Translation] turns linear into physical addresses: [flat] shows the current
    address space as it is, [paging] walks the page directory; the write and user
    bits of its entries are not looked at. *)

From S2P Require Import Prelude Mmu Mem Proc Devices.

Inductive reg : Type := EAX | ECX | EDX | EBX | ESP | EBP | ESI | EDI.
Inductive sreg : Type := CS | DS | ES | FS | GS | SS.
Inductive creg : Type := CR0 | CR2 | CR3 | CR4.
#[global] Instance reg_eq_dec : EqDecision reg. Proof. solve_decision. Defined.
#[global] Instance sreg_eq_dec : EqDecision sreg. Proof. solve_decision. Defined.
#[global] Instance creg_eq_dec : EqDecision creg. Proof. solve_decision. Defined.

(** A segment register: the selector and what it was loaded with. *)
Record seg := mkSeg { sg_sel : Z; sg_base : Z; sg_limit : Z; sg_dpl : Z }.

(** [c_tr] is the task register; [c_log] the accesses to device ports. *)
Record cpu := mkCpu {
  c_reg : reg -> Z;
  c_seg : sreg -> seg;
  c_cr : creg -> Z;
  c_eip : Z;
  c_eflags : Z;
  c_gdtr : Z * Z;        (* base, limit *)
  c_idtr : Z * Z;
  c_tr : seg;
  c_mem : gmap Z Z;
  c_log : list hwev;
}.

Definition upd `{EqDecision A} {B} (a : A) (b : B) (f : A -> B) : A -> B := fun x => if decide (a = x) then b else f x.

Definition set_reg (r : reg) (v : Z) (c : cpu) : cpu :=
  mkCpu (upd r v (c_reg c)) (c_seg c) (c_cr c) (c_eip c) (c_eflags c) (c_gdtr c) (c_idtr c) (c_tr c) (c_mem c) (c_log c).
Definition set_seg (s : sreg) (v : seg) (c : cpu) : cpu :=
  mkCpu (c_reg c) (upd s v (c_seg c)) (c_cr c) (c_eip c) (c_eflags c) (c_gdtr c) (c_idtr c) (c_tr c) (c_mem c) (c_log c).
Definition set_cr (r : creg) (v : Z) (c : cpu) : cpu :=
  mkCpu (c_reg c) (c_seg c) (upd r v (c_cr c)) (c_eip c) (c_eflags c) (c_gdtr c) (c_idtr c) (c_tr c) (c_mem c) (c_log c).
Definition set_eip (v : Z) (c : cpu) : cpu :=
  mkCpu (c_reg c) (c_seg c) (c_cr c) v (c_eflags c) (c_gdtr c) (c_idtr c) (c_tr c) (c_mem c) (c_log c).
Definition set_eflags (v : Z) (c : cpu) : cpu :=
  mkCpu (c_reg c) (c_seg c) (c_cr c) (c_eip c) v (c_gdtr c) (c_idtr c) (c_tr c) (c_mem c) (c_log c).
Definition set_gdtr (v : Z * Z) (c : cpu) : cpu :=
  mkCpu (c_reg c) (c_seg c) (c_cr c) (c_eip c) (c_eflags c) v (c_idtr c) (c_tr c) (c_mem c) (c_log c).
Definition set_idtr (v : Z * Z) (c : cpu) : cpu :=
  mkCpu (c_reg c) (c_seg c) (c_cr c) (c_eip c) (c_eflags c) (c_gdtr c) v (c_tr c) (c_mem c) (c_log c).
Definition set_tr (v : seg) (c : cpu) : cpu :=
  mkCpu (c_reg c) (c_seg c) (c_cr c) (c_eip c) (c_eflags c) (c_gdtr c) (c_idtr c) v (c_mem c) (c_log c).
Definition set_mem (v : gmap Z Z) (c : cpu) : cpu :=
  mkCpu (c_reg c) (c_seg c) (c_cr c) (c_eip c) (c_eflags c) (c_gdtr c) (c_idtr c) (c_tr c) v (c_log c).
Definition set_log (v : list hwev) (c : cpu) : cpu :=
  mkCpu (c_reg c) (c_seg c) (c_cr c) (c_eip c) (c_eflags c) (c_gdtr c) (c_idtr c) (c_tr c) (c_mem c) v.

Abbreviation X := (M cpu).

(** ** Instructions *)

(** [disp(base)], or [(disp)] without a base register. *)
Record addr := Disp { a_disp : Z; a_base : option reg }.

Inductive instr : Type :=
| PushR (r : reg) | PushS (s : sreg) | PushI (n : Z)
| PopR (r : reg) | PopS (s : sreg)
| Pusha | Popa
| MovRR (src dst : reg) | MovIR (n : Z) (dst : reg)
| MovMR (src : addr) (dst : reg) | MovRM (src : reg) (dst : addr)
| MovwI (n : Z) (dst : reg) | MovwRR (src dst : reg) | MovwS (src : reg) (dst : sreg)
| MovbI (n : Z) (dst : reg)
| MovCR (src : creg) (dst : reg) | MovRC (src : reg) (dst : creg)
| AddI (n : Z) (dst : reg) | OrI (n : Z) (dst : reg) | XorwRR (src dst : reg) | TestbI (n : Z) (r : reg)
| Call (a : Z) | CallM (a : addr) | RetN
| Jmp (a : Z) | JmpR (r : reg) | Jnz (a : Z) | Ljmp (sel off : Z)
| Int (n : Z) | Iret | Cli | Sti | Lgdt (a : addr)
| InbI (port : Z) | OutbI (port : Z) | Outw.    (* al from or to a port; ax to port dx *)

Class Code := code : Z -> option (instr * Z).

(** [xlate m cr a n]: the physical address of the [n] bytes at the linear
    address [a], if they are mapped and lie in one page. *)
Class Translation := xlate : gmap Z Z -> (creg -> Z) -> Z -> Z -> option Z.

(** ** Bits of the control registers and of descriptors *)

Definition CR0_PE : Z := 0x00000001.
Definition CR0_WP : Z := 0x00010000.
Definition CR0_PG : Z := 0x80000000.
Definition CR4_PSE : Z := 0x00000010.

(** The two words of a segment descriptor. *)
Definition d_base (lo hi : Z) : Z := Z.lor (Z.lor (Z.shiftr lo 16) (Z.shiftl (Z.land hi 0xff) 16)) (Z.land hi 0xff000000).
Definition d_limit (lo hi : Z) : Z :=
  let l := Z.lor (Z.land lo 0xffff) (Z.land hi 0xf0000) in
  if Z.testbit hi 23 then Z.lor (Z.shiftl l 12) 0xfff else l.
Definition d_type (hi : Z) : Z := Z.land (Z.shiftr hi 8) 0xf.
Definition d_app (hi : Z) : bool := Z.testbit hi 12.
Definition d_dpl (hi : Z) : Z := Z.land (Z.shiftr hi 13) 3.
Definition d_present (hi : Z) : bool := Z.testbit hi 15.

(** Present code that is not conforming; present writable data. *)
Definition is_code (hi : Z) : bool := d_present hi && d_app hi && Z.testbit (d_type hi) 3 && negb (Z.testbit (d_type hi) 2).
Definition is_data (hi : Z) : bool := d_present hi && d_app hi && negb (Z.testbit (d_type hi) 3) && Z.testbit (d_type hi) 1.

Definition g_offset (lo hi : Z) : Z := Z.lor (Z.land lo 0xffff) (Z.land hi 0xffff0000).
Definition g_sel (lo : Z) : Z := Z.shiftr lo 16.

Definition low16 (v new : Z) : Z := Z.lor (Z.land v 0xffff0000) (u16 new).
Definition low8 (v new : Z) : Z := Z.lor (Z.land v 0xffffff00) (u8 new).

(** Carry, parity, zero, sign and overflow after an operation with result [r]. *)
Definition bit_of (b : bool) (i : Z) : Z := if b then Z.shiftl 1 i else 0.
Definition parity (r : Z) : bool := Z.even (Z.of_nat (length (filter (fun i => Z.testbit r (Z.of_nat i) = true) (seq 0 8)))).
Definition arith_flags (fl : Z) (cf ov : bool) (w r : Z) : Z :=
  Z.lor (Z.land fl (Z.lnot 0x8C5))
    (bit_of cf 0 + bit_of (parity r) 2 + bit_of (r =? 0) 6 + bit_of (Z.testbit r (w - 1)) 7 + bit_of ov 11).

(** [flat]: linear addresses are the addresses of [c_mem]. *)
#[global] Instance flat : Translation | 10 := fun _ _ a _ => Some a.

(** [paging]: with CR0.PG set, a 4-Mbyte page of the directory if CR4.PSE is set,
    otherwise a page of a page table. *)
Definition walk (m : gmap Z Z) (cr : creg -> Z) (a : Z) : option Z :=
  let pde := ld32 m (PTE_ADDR (cr CR3) + 4 * PDX a) in
  if negb (has pde PTE_P) then None else
  if has pde 0x080 && has (cr CR4) CR4_PSE
  then Some (Z.land pde 0xffc00000 + a mod 0x400000)
  else
    let pte := ld32 m (PTE_ADDR pde + 4 * PTX a) in
    if negb (has pte PTE_P) then None else Some (PTE_ADDR pte + a mod PGSIZE).
Definition paging : Translation := fun m cr a n =>
  if negb (has (cr CR0) CR0_PG) then Some a else
  if PGSIZE <? a mod PGSIZE + n then None else walk m cr a.

Section machine.
Context {tr : Translation}.

(** ** Memory *)

Definition translate (a n : Z) : X Z :=
  c ← gets id;
  from_option "page fault" (xlate (c_mem c) (c_cr c) a n).

Definition xlin (s : sreg) (off n : Z) : X Z :=
  sg ← gets (fun c => c_seg c s);
  if off + n - 1 <=? sg_limit sg then translate (u32 (sg_base sg + off)) n else crash "segment limit".

Definition loadl (s : sreg) (off : Z) : X Z :=
  p ← xlin s off 4;
  gets (fun c => ld32 (c_mem c) p).
Definition storel (s : sreg) (off v : Z) : X unit :=
  p ← xlin s off 4;
  modify (fun c => set_mem (st32 (c_mem c) p v) c).

(** A word of a descriptor table or of the task state. *)
Definition sysload (a : Z) : X Z :=
  p ← translate a 4;
  gets (fun c => ld32 (c_mem c) p).

Definition getreg (r : reg) : X Z := gets (fun c => c_reg c r).
Definition setreg (r : reg) (v : Z) : X unit := modify (set_reg r v).

Definition push (v : Z) : X unit :=
  sp ← getreg ESP;
  storel SS (u32 (sp - 4)) v;;
  setreg ESP (u32 (sp - 4)).
Definition pop : X Z :=
  sp ← getreg ESP;
  v ← loadl SS sp;
  setreg ESP (u32 (sp + 4));;
  mret v.

(** A selector: the upper half of its word is padding. *)
Definition pop_sel : X Z := w ← pop; mret (u16 w).

(** An operand in memory: on the stack if its base is a stack register. *)
Definition a_seg (a : addr) : sreg := match a_base a with Some ESP | Some EBP => SS | _ => DS end.
Definition effective (a : addr) : X Z :=
  match a_base a with
  | None => mret (u32 (a_disp a))
  | Some r => b ← getreg r; mret (u32 (a_disp a + b))
  end.

(** ** Segments and privilege *)

Definition protected (c : cpu) : bool := has (c_cr c CR0) CR0_PE.
Definition cpl (c : cpu) : Z := if protected c then Z.land (sg_sel (c_seg c CS)) 3 else 0.
Definition iopl (c : cpu) : Z := Z.land (Z.shiftr (c_eflags c) 12) 3.

(** The descriptor that a selector of the global table names. *)
Definition gdt_entry (sel : Z) : X (Z * Z) :=
  '(base, limit) ← gets c_gdtr;
  let i := Z.shiftr (u16 sel) 3 in
  if Z.testbit sel 2 then crash "local descriptor table" else
  if negb (8 * i + 7 <=? limit) then crash "descriptor table limit" else
  lo ← sysload (u32 (base + 8 * i));
  hi ← sysload (u32 (base + 8 * i + 4));
  mret (lo, hi).

Definition as_seg (sel : Z) (d : Z * Z) : seg :=
  mkSeg (u16 sel) (d_base d.1 d.2) (d_limit d.1 d.2) (d_dpl d.2).

(** A selector of entry 0: no access goes through it. *)
Definition null_seg (sel : Z) : seg := mkSeg (u16 sel) 0 (-1) 3.

(** The stack segment for privilege level [l]. *)
Definition stack_seg (l sel : Z) : X seg :=
  d ← gdt_entry sel;
  if is_data d.2 && (d_dpl d.2 =? l) && (Z.land sel 3 =? l) then mret (as_seg sel d) else crash "stack segment".

Definition data_seg (sel : Z) : X seg :=
  l ← gets cpl;
  if Z.land (u16 sel) 0xfffc =? 0 then mret (null_seg sel) else
  d ← gdt_entry sel;
  if is_data d.2 && (Z.max l (Z.land sel 3) <=? d_dpl d.2) then mret (as_seg sel d) else crash "data segment".

Definition load_sreg (s : sreg) (sel : Z) : X unit :=
  c ← gets id;
  if negb (protected c) then modify (set_seg s (mkSeg (u16 sel) (16 * u16 sel) (sg_limit (c_seg c s)) 0)) else
  match s with
  | CS => crash "load of cs"
  | SS => g ← stack_seg (cpl c) sel; modify (set_seg SS g)
  | _ => g ← data_seg sel; modify (set_seg s g)
  end.

(** ** Interrupts *)

(** The stack of the more privileged level [l], from the task state. *)
Definition switch_stack (l : Z) : X unit :=
  tr ← gets c_tr;
  if negb (11 <=? sg_limit tr) then crash "task state" else
  esp0 ← sysload (u32 (sg_base tr + 4));
  ss0 ← sysload (u32 (sg_base tr + 8));
  g ← stack_seg l (u16 ss0);
  oss ← gets (fun c => sg_sel (c_seg c SS));
  oesp ← getreg ESP;
  modify (set_seg SS g);;
  setreg ESP esp0;;
  push oss;;
  push oesp.

(** Save the state on the stack and go through the gate [lo], [hi] to the code
    segment [d]. *)
Definition save_and_jump (lo hi : Z) (d : Z * Z) (err : option Z) : X unit :=
  fl ← gets c_eflags;
  cs ← gets (fun c => sg_sel (c_seg c CS));
  ip ← gets c_eip;
  push fl;;
  push cs;;
  push ip;;
  match err with Some e => push e | None => mret tt end;;
  modify (set_seg CS (as_seg (Z.lor (Z.land (g_sel lo) 0xfffc) (d_dpl d.2)) d));;
  modify (set_eip (g_offset lo hi));;
  if Z.testbit (d_type hi) 0 then mret tt else modify (fun c => set_eflags (Z.land (c_eflags c) (Z.lnot FL_IF)) c).

(** A present interrupt or trap gate of 32 bits. *)
Definition is_gate (hi : Z) : bool :=
  d_present hi && negb (d_app hi) && Z.testbit (d_type hi) 3 && Z.testbit (d_type hi) 2 && Z.testbit (d_type hi) 1.

Definition enter_gate (lo hi : Z) (err : option Z) : X unit :=
  d ← gdt_entry (g_sel lo);
  l ← gets cpl;
  if negb (is_gate hi && is_code d.2) || (l <? d_dpl d.2) then crash "gate" else
  (if d_dpl d.2 <? l then switch_stack (d_dpl d.2) else mret tt);;
  save_and_jump lo hi d err.

Definition idt_entry (n : Z) : X (Z * Z) :=
  '(base, limit) ← gets c_idtr;
  if negb (8 * n + 7 <=? limit) then crash "interrupt table limit" else
  lo ← sysload (u32 (base + 8 * n));
  hi ← sysload (u32 (base + 8 * n + 4));
  mret (lo, hi).

(** An interrupt of a device or an exception. *)
Definition interrupt (n : Z) (err : option Z) : X unit :=
  g ← idt_entry n;
  enter_gate g.1 g.2 err.

(** A general protection fault of the instruction at [ip]. *)
Definition protection_fault (ip err : Z) : X unit :=
  modify (set_eip ip);;
  interrupt 13 (Some err).

Definition int_n (ip n : Z) : X unit :=
  g ← idt_entry n;
  l ← gets cpl;
  if d_dpl g.2 <? l then protection_fault ip (8 * n + 2) else enter_gate g.1 g.2 None.

(** May the program access the port: by its privilege, or by the bit map of the
    task state? *)
Definition io_allowed (port : Z) : X bool :=
  c ← gets id;
  if cpl c <=? iopl c then mret true else
  w ← sysload (u32 (sg_base (c_tr c) + 100));
  let iomb := Z.shiftr w 16 in
  if sg_limit (c_tr c) <? iomb + port / 8 + 1 then mret false else
  w ← sysload (u32 (sg_base (c_tr c) + iomb + port / 8));
  mret (negb (Z.testbit w (port mod 8))).

Definition iret : X unit :=
  l ← gets cpl;
  if negb (l =? 0) then crash "iret outside the kernel" else
  ip ← pop;
  cs ← pop_sel;
  fl ← pop;
  d ← gdt_entry cs;
  let l' := Z.land cs 3 in
  if negb (is_code d.2 && (d_dpl d.2 =? l')) then crash "iret" else
  (if l' =? 0 then mret tt else
    sp ← pop;
    ss ← pop_sel;
    g ← stack_seg l' ss;
    modify (set_seg SS g);;
    setreg ESP sp;;
    for_each [DS; ES; FS; GS] (fun s =>
      modify (fun c => if sg_dpl (c_seg c s) <? l' then set_seg s (null_seg 0) c else c)));;
  modify (set_seg CS (as_seg cs d));;
  modify (set_eip ip);;
  modify (set_eflags fl).

(** ** Execution *)

Context {mach : Machine} {prog : Code}.

(** An instruction that needs privilege level [l] or less. *)
Definition privileged (ip l : Z) (m : X unit) : X unit :=
  c ← gets id;
  if cpl c <=? l then m else protection_fault ip 0.

Definition in_port (port : Z) : X Z :=
  h ← gets c_log;
  let v := u8 (port_in h port) in
  modify (fun c => set_log (c_log c ++ [InB port v]) c);;
  mret v.
Definition out_port (port v : Z) : X unit := modify (fun c => set_log (c_log c ++ [OutB port (u8 v)]) c).

Definition with_port (ip port : Z) (m : X unit) : X unit :=
  b ← io_allowed port;
  if (b : bool) then m else protection_fault ip 0.

(** The instruction at [ip]; the instruction pointer is already past it. *)
Definition exec_instr (ip : Z) (i : instr) : X unit :=
  match i with
  | PushR r => v ← getreg r; push v
  | PushS s => v ← gets (fun c => sg_sel (c_seg c s)); push v
  | PushI n => push (u32 n)
  | PopR r => v ← pop; setreg r v
  | PopS s => v ← pop_sel; load_sreg s v
  | Pusha =>
      sp ← getreg ESP;
      for_each [EAX; ECX; EDX; EBX] (fun r => v ← getreg r; push v);;
      push sp;;
      for_each [EBP; ESI; EDI] (fun r => v ← getreg r; push v)
  | Popa =>
      for_each [EDI; ESI; EBP] (fun r => v ← pop; setreg r v);;
      sp ← getreg ESP;
      setreg ESP (u32 (sp + 4));;
      for_each [EBX; EDX; ECX; EAX] (fun r => v ← pop; setreg r v)
  | MovRR src dst => v ← getreg src; setreg dst v
  | MovIR n dst => setreg dst (u32 n)
  | MovMR src dst => a ← effective src; v ← loadl (a_seg src) a; setreg dst v
  | MovRM src dst => a ← effective dst; v ← getreg src; storel (a_seg dst) a v
  | MovwI n dst => v ← getreg dst; setreg dst (low16 v n)
  | MovwRR src dst => w ← getreg src; v ← getreg dst; setreg dst (low16 v w)
  | MovwS src dst => v ← getreg src; load_sreg dst (u16 v)
  | MovbI n dst => v ← getreg dst; setreg dst (low8 v n)
  | MovCR src dst => privileged ip 0 (v ← gets (fun c => c_cr c src); setreg dst v)
  | MovRC src dst => privileged ip 0 (v ← getreg src; modify (set_cr dst v))
  | AddI n dst =>
      v ← getreg dst;
      let r := u32 (v + n) in
      setreg dst r;;
      modify (fun c => set_eflags (arith_flags (c_eflags c) (4294967296 <=? v + u32 n) (negb (s32 r =? s32 v + s32 n)) 32 r) c)
  | OrI n dst =>
      v ← getreg dst;
      let r := Z.lor v (u32 n) in
      setreg dst r;;
      modify (fun c => set_eflags (arith_flags (c_eflags c) false false 32 r) c)
  | XorwRR src dst =>
      w ← getreg src;
      v ← getreg dst;
      let r := Z.lxor (u16 v) (u16 w) in
      setreg dst (low16 v r);;
      modify (fun c => set_eflags (arith_flags (c_eflags c) false false 16 r) c)
  | TestbI n r =>
      v ← getreg r;
      modify (fun c => set_eflags (arith_flags (c_eflags c) false false 8 (Z.land (u8 v) n)) c)
  | Call a => next ← gets c_eip; push next;; modify (set_eip a)
  | CallM m => a ← effective m; t ← loadl (a_seg m) a; next ← gets c_eip; push next;; modify (set_eip t)
  | RetN => v ← pop; modify (set_eip v)
  | Jmp a => modify (set_eip a)
  | JmpR r => v ← getreg r; modify (set_eip v)
  | Jnz a => modify (fun c => if Z.testbit (c_eflags c) 6 then c else set_eip a c)
  | Ljmp sel off =>
      l ← gets cpl;
      d ← gdt_entry sel;
      if is_code d.2 && (d_dpl d.2 =? l) && (Z.land sel 3 <=? l)
      then modify (set_seg CS (as_seg (Z.lor (Z.land sel 0xfffc) l) d));; modify (set_eip off)
      else crash "far jump"
  | Int n => int_n ip n
  | Iret => iret
  | Cli => l ← gets iopl; privileged ip l (modify (fun c => set_eflags (Z.land (c_eflags c) (Z.lnot FL_IF)) c))
  | Sti => l ← gets iopl; privileged ip l (modify (fun c => set_eflags (Z.lor (c_eflags c) FL_IF) c))
  | Lgdt m =>
      privileged ip 0 (
        a ← effective m;
        w ← loadl (a_seg m) a;
        b ← loadl (a_seg m) (u32 (a + 2));
        c ← gets id;
        modify (set_gdtr (if protected c then b else Z.land b 0xffffff, u16 w)))
  | InbI port => with_port ip port (v ← in_port port; e ← getreg EAX; setreg EAX (low8 e v))
  | OutbI port => with_port ip port (e ← getreg EAX; out_port port e)
  | Outw =>
      d ← getreg EDX;
      with_port ip (u16 d) (
        e ← getreg EAX;
        out_port (u16 d) e;;
        out_port (u16 d + 1) (Z.shiftr e 8))
  end.

Definition step : X unit :=
  ip ← gets c_eip;
  cs ← gets (fun c => c_seg c CS);
  p ← translate (u32 (sg_base cs + ip)) 1;
  match code p with
  | None => crash "no instruction"
  | Some (i, n) => modify (set_eip (u32 (ip + n)));; exec_instr ip i
  end.

(** The processor gets to a state that satisfies [Q]. *)
Inductive reaches (Q : cpu -> Prop) : cpu -> Prop :=
| reaches_done c : Q c -> reaches Q c
| reaches_step c c' : step c = Ret tt c' -> reaches Q c' -> reaches Q c.


Lemma reaches_wp (Q : cpu -> Prop) c : wp step (fun _ c' => reaches Q c') c -> reaches Q c.
Proof. intros ([] & c' & Hrun & Hc)%wp_inv. by eapply reaches_step. Qed.

(** The instruction at the instruction pointer. *)
Lemma reaches_fetch p i n (Q : cpu -> Prop) c :
  xlate (c_mem c) (c_cr c) (u32 (sg_base (c_seg c CS) + c_eip c)) 1 = Some p -> code p = Some (i, n) ->
  wp (exec_instr (c_eip c) i) (fun _ c' => reaches Q c') (set_eip (u32 (c_eip c + n)) c) -> reaches Q c.
Proof.
  intros Hp Hc Hw. apply reaches_wp. unfold step, translate. wp_steps. cbn [id]. rewrite Hp. wp_steps. rewrite Hc. by wp_steps.
Qed.

Lemma reaches_trans (P Q : cpu -> Prop) c :
  reaches P c -> (forall c', P c' -> reaches Q c') -> reaches Q c.
Proof. induction 1; intros HPQ; [by apply HPQ|]. eapply reaches_step; [done|]. by apply IHreaches. Qed.

Lemma reaches_mono (P Q : cpu -> Prop) c : reaches P c -> (forall c', P c' -> Q c') -> reaches Q c.
Proof. intros HP HPQ. eapply reaches_trans; [done|]. intros. by apply reaches_done, HPQ. Qed.

(** The instructions [l] from the physical address [p] on, up to [q]. *)
Fixpoint code_at (p : Z) (l : list instr) (q : Z) : Prop :=
  match l with
  | [] => p = q
  | i :: l => exists n, code p = Some (i, n) /\ 0 <= p /\ 0 <= n /\ p + n < 4294967296 /\ code_at (p + n) l q
  end.

End machine.
