(* ===== verification/X86Exec.v ===== *)
(** * Executing instructions in flat segments

    Rules for [wp] and [reaches] when the segments in use have base 0 and cover
    the address space, as the kernel's do; [x86_instr] applies them to the next
    instruction.  The words that a sequence of pushes leaves on
    the stack are [st_words]. *)

From S2P Require Import Prelude Mmu Mem Devices X86.

(** ** Words on the stack *)

Fixpoint st_words (m : gmap Z Z) (a : Z) (ws : list Z) : gmap Z Z :=
  match ws with
  | [] => m
  | w :: ws => st32 (st_words m (a + 4) ws) a w
  end.

Lemma ld8_st_words_out m a ws b :
  ~ (a <= b < a + 4 * Z.of_nat (length ws)) -> ld8 (st_words m a ws) b = ld8 m b.
Proof.
  revert a. induction ws as [|w ws IH]; intros a Hb; simpl in *; [done|].
  rewrite ld8_st32_ne by lia. apply IH. lia.
Qed.

Lemma ld32_st_words_out m a ws b :
  b + 4 <= a \/ a + 4 * Z.of_nat (length ws) <= b -> ld32 (st_words m a ws) b = ld32 m b.
Proof. intros Hb. apply ld32_ext. intros. apply ld8_st_words_out. lia. Qed.

Lemma ld32_st_words m a ws i w :
  ws !! i = Some w -> 0 <= w < 4294967296 -> ld32 (st_words m a ws) (a + 4 * Z.of_nat i) = w.
Proof.
  revert a i. induction ws as [|v ws IH]; intros a [|i] Hi Hw; simplify_eq/=.
  - rewrite Z.add_0_r. by apply ld32_st32_eq.
  - rewrite ld32_st32_ne by lia.
    replace (a + 4 * Z.of_nat (S i)) with (a + 4 + 4 * Z.of_nat i) by lia. by apply IH.
Qed.

(** At the address of the [i]-th word, however it is written. *)
Lemma ld32_st_words_at i m a ws b w :
  b = a + 4 * Z.of_nat i -> ws !! i = Some w -> 0 <= w < 4294967296 -> ld32 (st_words m a ws) b = w.
Proof. intros ->. apply ld32_st_words. Qed.

Lemma st_words_app m a l1 l2 :
  st_words m a (l1 ++ l2) = st_words (st_words m (a + 4 * Z.of_nat (length l1)) l2) a l1.
Proof.
  revert a. induction l1 as [|w l1 IH]; intros a; cbn [app st_words length].
  - by replace (a + 4 * Z.of_nat 0) with a by lia.
  - rewrite IH. by replace (a + 4 * Z.of_nat (S (length l1))) with (a + 4 + 4 * Z.of_nat (length l1)) by lia.
Qed.

Lemma st_words_push m a ws v : st32 (st_words m a ws) (a - 4) v = st_words m (a - 4) (v :: ws).
Proof. simpl. by replace (a - 4 + 4) with a by lia. Qed.

(** ** State *)

Lemma upd_same `{EqDecision A} {B} (a : A) (b : B) f : upd a b f a = b.
Proof. unfold upd. by rewrite decide_True. Qed.
Lemma upd_other `{EqDecision A} {B} (a x : A) (b : B) f : a <> x -> upd a b f x = f x.
Proof. intros. unfold upd. by rewrite decide_False. Qed.

Ltac cpu_simpl :=
  cbn [c_reg c_seg c_cr c_eip c_eflags c_gdtr c_idtr c_tr c_mem c_log
       set_reg set_seg set_cr set_eip set_eflags set_gdtr set_idtr set_tr set_mem set_log
       sg_sel sg_base sg_limit sg_dpl a_base a_disp a_seg fst snd];
  repeat first [ rewrite upd_same | rewrite upd_other by discriminate ].

Definition flatseg (g : seg) : Prop := sg_base g = 0 /\ sg_limit g = 4294967295.

(** A register holds 32 bits. *)
Definition word (v : Z) : Prop := 0 <= v < 4294967296.

Section exec.
Context {mach : Machine} {prog : Code}.

Lemma wp_xlin s off n Q c :
  flatseg (c_seg c s) -> 0 <= off -> off + n <= 4294967296 -> 0 < n -> Q off c -> wp (xlin s off n) Q c.
Proof.
  intros [Hb Hl] H0 H1 Hn HQ. unfold xlin. wp_steps. rewrite Hl. zb. unfold translate. wp_steps.
  rewrite Hb. by rewrite u32_small by lia.
Qed.

Lemma wp_push v Q c :
  flatseg (c_seg c SS) -> 4 <= c_reg c ESP <= 4294967296 ->
  Q tt (set_reg ESP (c_reg c ESP - 4) (set_mem (st32 (c_mem c) (c_reg c ESP - 4) v) c)) -> wp (push v) Q c.
Proof.
  intros Hf Hsp HQ. unfold push, getreg, setreg, storel. wp_steps.
  rewrite u32_small by lia. apply wp_xlin; [done|lia..|]. by wp_steps.
Qed.

Lemma wp_pop Q c :
  flatseg (c_seg c SS) -> 0 <= c_reg c ESP < 4294967292 ->
  Q (ld32 (c_mem c) (c_reg c ESP)) (set_reg ESP (c_reg c ESP + 4) c) -> wp pop Q c.
Proof.
  intros Hf Hsp HQ. unfold pop, getreg, setreg, loadl. wp_steps.
  apply wp_xlin; [done|lia..|]. wp_steps. by rewrite u32_small by lia.
Qed.

Lemma wp_loadl s off Q c :
  flatseg (c_seg c s) -> 0 <= off <= 4294967292 -> Q (ld32 (c_mem c) off) c -> wp (loadl s off) Q c.
Proof. intros Hf Ho HQ. unfold loadl. wp_steps. apply wp_xlin; [done|lia..|]. by wp_steps. Qed.

Lemma wp_storel s off v Q c :
  flatseg (c_seg c s) -> 0 <= off <= 4294967292 ->
  Q tt (set_mem (st32 (c_mem c) off v) c) -> wp (storel s off v) Q c.
Proof. intros Hf Ho HQ. unfold storel. wp_steps. apply wp_xlin; [done|lia..|]. by wp_steps. Qed.

Lemma wp_sysload a Q c : Q (ld32 (c_mem c) a) c -> wp (sysload a) Q c.
Proof. intros HQ. unfold sysload, translate. by wp_steps. Qed.

Lemma wp_effective d r Q c :
  0 <= c_reg c r + d < 4294967296 -> Q (c_reg c r + d) c -> wp (effective (Disp d (Some r))) Q c.
Proof. intros Hr HQ. unfold effective, getreg. cbn [a_base a_disp]. wp_steps. rewrite Z.add_comm. by rewrite u32_small. Qed.

(** The next instruction of a list of instructions in memory, in a code segment
    with base [b], and in a flat one. *)
Lemma reaches_code_base b i l q (Q : cpu -> Prop) c :
  code_at (b + c_eip c) (i :: l) q -> sg_base (c_seg c CS) = b -> 0 <= b -> 0 <= c_eip c ->
  (forall n, 0 <= c_eip c + n -> code_at (b + (c_eip c + n)) l q ->
     wp (exec_instr (c_eip c) i) (fun _ c' => reaches Q c') (set_eip (c_eip c + n) c)) ->
  reaches Q c.
Proof.
  intros (n & Hc & H0 & Hn & Hn' & Hl) Hb Hb0 He Hw. eapply reaches_fetch; [reflexivity|rewrite Hb, u32_small by lia; exact Hc|].
  rewrite u32_small by lia. apply Hw; [lia|]. by rewrite Z.add_assoc.
Qed.

Lemma reaches_code i l q (Q : cpu -> Prop) c :
  code_at (c_eip c) (i :: l) q -> flatseg (c_seg c CS) ->
  (forall n, code_at (c_eip c + n) l q ->
     wp (exec_instr (c_eip c) i) (fun _ c' => reaches Q c') (set_eip (c_eip c + n) c)) ->
  reaches Q c.
Proof.
  intros Hc [Hb _] Hw. assert (0 <= c_eip c) by (destruct Hc as (n & _ & H0 & _); lia).
  apply (reaches_code_base 0 i l q); [done|done|lia|done|]. intros n _ Hl. by apply Hw.
Qed.

(** Code is a sequence of parts; the labels between them are determined. *)
Lemma code_at_app p l1 l2 q : code_at p (l1 ++ l2) q <-> exists r, code_at p l1 r /\ code_at r l2 q.
Proof.
  revert p. induction l1 as [|i l1 IH]; intros p; cbn [app code_at].
  - split; [by exists p|]. by intros (r & -> & H).
  - split.
    + intros (n & H1 & H2 & H3 & H4 & (r & H5 & H6)%IH). exists r. split; [|done]. by exists n.
    + intros (r & (n & H1 & H2 & H3 & H4 & H5) & H6). exists n. split_and!; try done. apply IH. by exists r.
Qed.

Lemma code_at_det p l q q' : code_at p l q -> code_at p l q' -> q = q'.
Proof.
  revert p. induction l as [|i l IH]; intros p; cbn [code_at]; [congruence|].
  intros (n & H1 & _ & _ & _ & H2) (n' & H1' & _ & _ & _ & H2'). simplify_eq. by eapply IH.
Qed.

(** Instructions of length 1. *)
Lemma code_at_units l p :
  (forall i x, l !! i = Some x -> code (p + Z.of_nat i) = Some (x, 1)) -> 0 <= p -> p + Z.of_nat (length l) < 4294967296 ->
  code_at p l (p + Z.of_nat (length l)).
Proof.
  revert p. induction l as [|x l IH]; intros p Hl H0 H1; cbn [code_at length] in *; [lia|].
  exists 1. split; [by rewrite <- (Hl 0%nat x eq_refl), Z.add_0_r|]. split_and!; [lia..|].
  replace (p + Z.of_nat (S (length l))) with (p + 1 + Z.of_nat (length l)) by lia. apply IH; [|lia..].
  intros i y Hi. rewrite <- (Hl (S i) y Hi). f_equal. lia.
Qed.
End exec.

Definition listing (base : Z) (l : list instr) (p : Z) : option (instr * Z) := (fun i => (i, 1)) <$> nthZ l (p - base).

Lemma listing_at base l i x : l !! i = Some x -> listing base l (base + Z.of_nat i) = Some (x, 1).
Proof.
  intros Hi. unfold listing, nthZ. replace (base + Z.of_nat i - base) with (Z.of_nat i) by lia. zb. by rewrite Nat2Z.id, Hi.
Qed.

(** One step of symbolic execution; [lia] and the hypotheses discharge the
    conditions on addresses and segments. *)
Ltac x86_side := cpu_simpl; first [ assumption | lia | idtac ].
Ltac x86_step :=
  lazymatch goal with
  | |- wp (push _) _ _ => apply wp_push; [x86_side|x86_side|cpu_simpl]
  | |- wp pop_sel _ _ => unfold pop_sel
  | |- wp pop _ _ => apply wp_pop; [x86_side|x86_side|cpu_simpl]
  | |- wp (loadl _ _) _ _ => apply wp_loadl; [x86_side|x86_side|cpu_simpl]
  | |- wp (storel _ _ _) _ _ => apply wp_storel; [x86_side|x86_side|cpu_simpl]
  | |- wp (sysload _) _ _ => apply wp_sysload; cpu_simpl
  | |- wp (getreg _) _ _ => apply wp_gets; cpu_simpl
  | |- wp (setreg _ (u32 ?e)) _ _ => try (rewrite (u32_small e) by lia); apply wp_modify
  | |- wp (setreg _ _) _ _ => apply wp_modify
  | |- wp (effective (Disp _ (Some _))) _ _ => apply wp_effective; [x86_side|cpu_simpl]
  | |- wp (for_each _ _) _ _ => cbn [for_each]
  | |- wp _ _ _ => wp_step
  end; cbv beta.
Ltac x86_steps := repeat x86_step.

(** The next instruction of the code at hand. *)
Ltac x86_instr :=
  lazymatch goal with
  | H : code_at ?p (_ :: _) _ |- reaches _ _ =>
      eapply reaches_code; [cpu_simpl; exact H | x86_side |
        let n := fresh "n" in clear H; intros n H; cbn [exec_instr];
        cbn [c_eip set_reg set_seg set_cr set_eip set_eflags set_gdtr set_idtr set_tr set_mem set_log] in H; cpu_simpl; x86_steps ]
  end.

(** Equal stores at addresses that [lia] shows equal. *)
Ltac mem_eq :=
  lazymatch goal with
  | |- st_words _ _ _ = st_words _ _ _ => apply f_equal3; [mem_eq|lia|reflexivity]
  | |- st32 _ _ _ = st32 _ _ _ => apply f_equal3; [mem_eq|lia|first [reflexivity|lia]]
  | |- _ => reflexivity
  end.
