(* ===== verification/Segments.v ===== *)
(** * Segment descriptors, gates and the task state (mmu.h, vm.c, trap.c, x86.h)

    The bit fields of the structs are packed the way the compiler lays them out,
    low bits first.  The C functions write the tables into the memory of the
    processor at the addresses of the kernel's variables and load the table
    registers; what the processor reads back is decoded by [d_base], [d_limit]
    and the other functions of X86.v. *)

From S2P Require Import Prelude Mmu Mem Bytes Proc Trap Devices X86 X86Exec.

(** ** Bit fields *)

(** Widths and values, low bits first; a value is cut to its width. *)
Fixpoint pack (l : list (Z * Z)) : Z :=
  match l with
  | [] => 0
  | (w, v) :: l => v mod 2 ^ w + 2 ^ w * pack l
  end.

(** mmu.h: [struct segdesc] *)
Record segdesc := mkSegdesc {
  lim_15_0 : Z;
  base_15_0 : Z;
  base_23_16 : Z;
  sd_type : Z;
  sd_s : Z;
  sd_dpl : Z;
  sd_p : Z;
  lim_19_16 : Z;
  sd_avl : Z;
  sd_rsv1 : Z;
  sd_db : Z;
  sd_g : Z;
  base_31_24 : Z;
}.
Definition segdesc_lo (d : segdesc) : Z := pack [(16, lim_15_0 d); (16, base_15_0 d)].
Definition segdesc_hi (d : segdesc) : Z :=
  pack [(8, base_23_16 d); (4, sd_type d); (1, sd_s d); (2, sd_dpl d); (1, sd_p d); (4, lim_19_16 d);
        (1, sd_avl d); (1, sd_rsv1 d); (1, sd_db d); (1, sd_g d); (8, base_31_24 d)].
Definition set_sd_s (v : Z) (d : segdesc) : segdesc :=
  mkSegdesc (lim_15_0 d) (base_15_0 d) (base_23_16 d) (sd_type d) v (sd_dpl d) (sd_p d) (lim_19_16 d) (sd_avl d)
    (sd_rsv1 d) (sd_db d) (sd_g d) (base_31_24 d).

Definition SEG (type base lim dpl : Z) : segdesc :=
  mkSegdesc (Z.land (Z.shiftr lim 12) 0xffff) (Z.land (u32 base) 0xffff)
    (Z.land (Z.shiftr (u32 base) 16) 0xff) type 1 dpl 1
    (Z.shiftr (u32 lim) 28) 0 0 1 1 (Z.shiftr (u32 base) 24).
Definition SEG16 (type base lim dpl : Z) : segdesc :=
  mkSegdesc (Z.land lim 0xffff) (Z.land (u32 base) 0xffff)
    (Z.land (Z.shiftr (u32 base) 16) 0xff) type 1 dpl 1
    (Z.shiftr (u32 lim) 16) 0 0 1 0 (Z.shiftr (u32 base) 24).

(** mmu.h: [struct gatedesc] *)
Record gatedesc := mkGatedesc {
  off_15_0 : Z;
  gd_cs : Z;
  gd_args : Z;
  gd_rsv1 : Z;
  gd_type : Z;
  gd_s : Z;
  gd_dpl : Z;
  gd_p : Z;
  off_31_16 : Z;
}.
Definition gatedesc_lo (g : gatedesc) : Z := pack [(16, off_15_0 g); (16, gd_cs g)].
Definition gatedesc_hi (g : gatedesc) : Z :=
  pack [(5, gd_args g); (3, gd_rsv1 g); (4, gd_type g); (1, gd_s g); (2, gd_dpl g); (1, gd_p g); (16, off_31_16 g)].

Definition STA_X : Z := 0x8.
Definition STA_W : Z := 0x2.
Definition STA_R : Z := 0x2.
Definition STS_T32A : Z := 0x9.
Definition STS_IG32 : Z := 0xE.
Definition STS_TG32 : Z := 0xF.

(** All fields of the gate are assigned. *)
Definition SETGATE (istrap : bool) (sel off d : Z) : gatedesc :=
  mkGatedesc (Z.land (u32 off) 0xffff) sel 0 0 (if istrap then STS_TG32 else STS_IG32) 0 d 1 (Z.shiftr (u32 off) 16).

(** asm.h: the bytes of a descriptor in an assembly file. *)
Definition SEG_NULLASM : list Z := [0; 0; 0; 0; 0; 0; 0; 0].
Definition SEG_ASM (type base lim : Z) : list Z :=
  let word w := [u8 w; u8 (w / 256)] in
  word (Z.land (Z.shiftr lim 12) 0xffff) ++ word (Z.land base 0xffff) ++
  [u8 (Z.land (Z.shiftr base 16) 0xff); u8 (Z.lor 0x90 type);
   u8 (Z.lor 0xC0 (Z.land (Z.shiftr lim 28) 0xf)); u8 (Z.land (Z.shiftr base 24) 0xff)].

(** ** Structs in memory *)

(** Offset and size of a field in a struct without gaps. *)
Fixpoint field_offset (f : string) (l : list (string * Z)) : Z :=
  match l with
  | [] => 0
  | (g, n) :: l => if decide (f = g) then 0 else n + field_offset f l
  end.
Definition sizeof (l : list (string * Z)) : Z := foldr (fun f n => f.2 + n) 0 l.

(** mmu.h: [struct taskstate] *)
Definition taskstate : list (string * Z) :=
  [("link", 4); ("esp0", 4); ("ss0", 2); ("padding1", 2); ("esp1", 4); ("ss1", 2); ("padding2", 2);
   ("esp2", 4); ("ss2", 2); ("padding3", 2); ("cr3", 4); ("eip", 4); ("eflags", 4); ("eax", 4); ("ecx", 4);
   ("edx", 4); ("ebx", 4); ("esp", 4); ("ebp", 4); ("esi", 4); ("edi", 4); ("es", 2); ("padding4", 2);
   ("cs", 2); ("padding5", 2); ("ss", 2); ("padding6", 2); ("ds", 2); ("padding7", 2); ("fs", 2);
   ("padding8", 2); ("gs", 2); ("padding9", 2); ("ldt", 2); ("padding10", 2); ("t", 2); ("iomb", 2)]%string.

(** proc.h: [struct cpu]; three bytes after [apicid] align the next field. *)
Definition NSEGS : Z := 6.
Definition struct_cpu : list (string * Z) :=
  [("apicid", 1); ("pad", 3); ("scheduler", 4); ("ts", sizeof taskstate); ("gdt", 8 * NSEGS); ("started", 4);
   ("ncli", 4); ("intena", 4); ("proc", 4)]%string.

(** ** Reading the fields back *)

Definition widths (l : list (Z * Z)) : Z := foldr (fun f n => f.1 + n) 0 l.

Lemma pack_range l : Forall (fun f => 0 <= f.1) l -> 0 <= widths l /\ 0 <= pack l < 2 ^ widths l.
Proof.
  induction 1 as [|[w v] l Hw0 Hl (Hw & H0 & H1)]; simpl in *; [lia|].
  pose proof (Z.mod_pos_bound v (2 ^ w) ltac:(lia)). rewrite Z.pow_add_r by lia. nia.
Qed.

Lemma pack_field l1 w v l2 :
  Forall (fun f => 0 <= f.1) l1 -> 0 <= w ->
  Z.land (Z.shiftr (pack (l1 ++ (w, v) :: l2)) (widths l1)) (Z.ones w) = v mod 2 ^ w.
Proof.
  intros Hl Hw. induction Hl as [|[w1 v1] l1 Hw1 Hl IH]; simpl in *.
  - rewrite Z.shiftr_0_r, Z.land_ones by lia. rewrite Z.mul_comm, Z_mod_plus_full. apply Z.mod_mod; lia.
  - pose proof (pack_range l1 Hl) as [Hw2 _]. rewrite <- Z.shiftr_shiftr by lia.
    assert (Z.shiftr (v1 mod 2 ^ w1 + 2 ^ w1 * pack (l1 ++ (w, v) :: l2)) w1 = pack (l1 ++ (w, v) :: l2)) as ->; [|done].
    rewrite Z.shiftr_div_pow2 by lia. rewrite Z.mul_comm, Z.div_add by lia.
    rewrite Z.div_small; [lia|]. apply Z.mod_pos_bound. lia.
Qed.

(** [lo] below bit [k] and [hi] from bit [k] on. *)
Lemma lor_disjoint k lo hi : 0 <= k -> 0 <= lo < 2 ^ k -> Z.lor lo (hi * 2 ^ k) = lo + hi * 2 ^ k.
Proof.
  intros Hk Hlo. assert (Z.land lo (hi * 2 ^ k) = 0) as Hz.
  { apply Z.bits_inj_0. intros n. rewrite Z.land_spec. destruct (decide (n < 0)) as [?|?]; [by rewrite Z.testbit_neg_r|].
    destruct (decide (n < k)).
    - rewrite (Z.mul_pow2_bits_low hi) by lia. by rewrite andb_false_r.
    - rewrite <- (Z.mod_small lo (2 ^ k)) by done. by rewrite Z.mod_pow2_bits_high by lia. }
  rewrite Z.add_nocarry_lxor by done. by rewrite Z.lxor_lor.
Qed.

Lemma land_ones_shift z k w : 0 <= k -> 0 <= w -> Z.land z (Z.shiftl (Z.ones w) k) = Z.land (Z.shiftr z k) (Z.ones w) * 2 ^ k.
Proof.
  intros Hk Hw. rewrite <- Z.shiftl_mul_pow2 by done. apply Z.bits_inj'. intros n Hn.
  rewrite Z.land_spec, !Z.shiftl_spec, Z.land_spec by done. destruct (decide (n < k)).
  - rewrite !(Z.testbit_neg_r _ (n - k)) by lia. by rewrite !andb_false_r.
  - rewrite Z.shiftr_spec by lia. by replace (n - k + k) with n by lia.
Qed.

Lemma testbit_field z k : 0 <= k -> Z.testbit z k = (Z.land (Z.shiftr z k) (Z.ones 1) =? 1).
Proof.
  intros Hk. rewrite Z.land_ones, Z.shiftr_div_pow2 by lia. change (2 ^ 1) with 2.
  rewrite <- Z.testbit_spec' by done. by destruct (Z.testbit z k).
Qed.

(** The [i]-th field of a packed word; [l] is the list of fields. *)
Ltac pack_tac l1 := refine (pack_field l1 _ _ _ _ _); [repeat constructor; simpl; lia|lia].

Section segdesc.
Context (d : segdesc).
Local Abbreviation lo := (segdesc_lo d).
Local Abbreviation hi := (segdesc_hi d).

Lemma segdesc_type : d_type hi = sd_type d mod 2 ^ 4.
Proof. pack_tac [(8, base_23_16 d)]. Qed.
Lemma segdesc_app : d_app hi = (sd_s d mod 2 ^ 1 =? 1).
Proof.
  unfold d_app. rewrite testbit_field by lia. f_equal. pack_tac [(8, base_23_16 d); (4, sd_type d)].
Qed.
Lemma segdesc_dpl : d_dpl hi = sd_dpl d mod 2 ^ 2.
Proof. pack_tac [(8, base_23_16 d); (4, sd_type d); (1, sd_s d)]. Qed.
Lemma segdesc_present : d_present hi = (sd_p d mod 2 ^ 1 =? 1).
Proof.
  unfold d_present. rewrite testbit_field by lia. f_equal.
  pack_tac [(8, base_23_16 d); (4, sd_type d); (1, sd_s d); (2, sd_dpl d)].
Qed.
Lemma segdesc_base : d_base lo hi = base_15_0 d mod 2 ^ 16 + base_23_16 d mod 2 ^ 8 * 2 ^ 16 + base_31_24 d mod 2 ^ 8 * 2 ^ 24.
Proof.
  unfold d_base. assert (Z.shiftr lo 16 = base_15_0 d mod 2 ^ 16) as ->.
  { rewrite Z.shiftr_div_pow2 by lia. cbn [segdesc_lo pack]. rewrite Z.add_comm, (Z.mul_comm (2 ^ 16)), Z.div_add_l by lia.
    rewrite (Z.div_small (lim_15_0 d mod _)) by (apply Z.mod_pos_bound; lia). lia. }
  assert (Z.land hi 0xff = base_23_16 d mod 2 ^ 8) as -> by (rewrite <- (Z.shiftr_0_r hi); pack_tac (@nil (Z * Z))).
  assert (Z.land hi 0xff000000 = base_31_24 d mod 2 ^ 8 * 2 ^ 24) as ->.
  { change 0xff000000 with (Z.shiftl (Z.ones 8) 24). rewrite land_ones_shift by lia. f_equal.
    pack_tac [(8, base_23_16 d); (4, sd_type d); (1, sd_s d); (2, sd_dpl d); (1, sd_p d); (4, lim_19_16 d);
        (1, sd_avl d); (1, sd_rsv1 d); (1, sd_db d); (1, sd_g d)]. }
  pose proof (Z.mod_pos_bound (base_15_0 d) (2 ^ 16)). pose proof (Z.mod_pos_bound (base_23_16 d) (2 ^ 8)).
  rewrite Z.shiftl_mul_pow2 by lia. rewrite (lor_disjoint 16) by lia. rewrite (lor_disjoint 24) by lia. done.
Qed.
Lemma segdesc_limit :
  let l := lim_15_0 d mod 2 ^ 16 + lim_19_16 d mod 2 ^ 4 * 2 ^ 16 in
  d_limit lo hi = if sd_g d mod 2 ^ 1 =? 1 then l * 2 ^ 12 + 0xfff else l.
Proof.
  intros l. unfold d_limit.
  assert (Z.land lo 0xffff = lim_15_0 d mod 2 ^ 16) as -> by (rewrite <- (Z.shiftr_0_r lo); pack_tac (@nil (Z * Z))).
  assert (Z.land hi 0xf0000 = lim_19_16 d mod 2 ^ 4 * 2 ^ 16) as ->.
  { change 0xf0000 with (Z.shiftl (Z.ones 4) 16). rewrite land_ones_shift by lia. f_equal.
    pack_tac [(8, base_23_16 d); (4, sd_type d); (1, sd_s d); (2, sd_dpl d); (1, sd_p d)]. }
  pose proof (Z.mod_pos_bound (lim_15_0 d) (2 ^ 16)). rewrite (lor_disjoint 16) by lia.
  rewrite testbit_field by lia.
  assert (Z.land (Z.shiftr hi 23) (Z.ones 1) = sd_g d mod 2 ^ 1) as ->.
  { pack_tac [(8, base_23_16 d); (4, sd_type d); (1, sd_s d); (2, sd_dpl d); (1, sd_p d); (4, lim_19_16 d);
        (1, sd_avl d); (1, sd_rsv1 d); (1, sd_db d)]. }
  destruct (_ =? 1); [|done]. rewrite Z.shiftl_mul_pow2, Z.lor_comm by lia. fold l. rewrite (lor_disjoint 12) by lia. lia.
Qed.
End segdesc.

Section gatedesc.
Context (g : gatedesc).
Local Abbreviation lo := (gatedesc_lo g).
Local Abbreviation hi := (gatedesc_hi g).

Lemma gatedesc_type : d_type hi = gd_type g mod 2 ^ 4.
Proof. pack_tac [(5, gd_args g); (3, gd_rsv1 g)]. Qed.
Lemma gatedesc_app : d_app hi = (gd_s g mod 2 ^ 1 =? 1).
Proof.
  unfold d_app. rewrite testbit_field by lia. f_equal. pack_tac [(5, gd_args g); (3, gd_rsv1 g); (4, gd_type g)].
Qed.
Lemma gatedesc_dpl : d_dpl hi = gd_dpl g mod 2 ^ 2.
Proof. pack_tac [(5, gd_args g); (3, gd_rsv1 g); (4, gd_type g); (1, gd_s g)]. Qed.
Lemma gatedesc_present : d_present hi = (gd_p g mod 2 ^ 1 =? 1).
Proof.
  unfold d_present. rewrite testbit_field by lia. f_equal.
  pack_tac [(5, gd_args g); (3, gd_rsv1 g); (4, gd_type g); (1, gd_s g); (2, gd_dpl g)].
Qed.
Lemma gatedesc_sel : g_sel lo = gd_cs g mod 2 ^ 16.
Proof.
  unfold g_sel. rewrite Z.shiftr_div_pow2 by lia. cbn [gatedesc_lo pack].
  rewrite Z.add_comm, (Z.mul_comm (2 ^ 16)), Z.div_add_l by lia.
  rewrite (Z.div_small (off_15_0 g mod _)) by (apply Z.mod_pos_bound; lia). lia.
Qed.
Lemma gatedesc_offset : g_offset lo hi = off_15_0 g mod 2 ^ 16 + off_31_16 g mod 2 ^ 16 * 2 ^ 16.
Proof.
  unfold g_offset.
  assert (Z.land lo 0xffff = off_15_0 g mod 2 ^ 16) as -> by (rewrite <- (Z.shiftr_0_r lo); pack_tac (@nil (Z * Z))).
  assert (Z.land hi 0xffff0000 = off_31_16 g mod 2 ^ 16 * 2 ^ 16) as ->.
  { change 0xffff0000 with (Z.shiftl (Z.ones 16) 16). rewrite land_ones_shift by lia. f_equal.
    pack_tac [(5, gd_args g); (3, gd_rsv1 g); (4, gd_type g); (1, gd_s g); (2, gd_dpl g); (1, gd_p g)]. }
  apply (lor_disjoint 16); [lia|]. apply Z.mod_pos_bound. lia.
Qed.
End gatedesc.

(** ** The C functions *)

Definition SEG_KCODE : Z := 1.
Definition SEG_KDATA : Z := 2.
Definition SEG_TSS : Z := 5.

Definition poke (f : gmap Z Z -> gmap Z Z) : X unit := modify (fun c => set_mem (f (c_mem c)) c).
Definition st16 (m : gmap Z Z) (a v : Z) : gmap Z Z := st8 (st8 m a v) (a + 1) (v / 256).

Definition st_segdesc (a : Z) (d : segdesc) : X unit := poke (fun m => st32 (st32 m a (segdesc_lo d)) (a + 4) (segdesc_hi d)).
Definition st_gatedesc (a : Z) (g : gatedesc) : X unit := poke (fun m => st32 (st32 m a (gatedesc_lo g)) (a + 4) (gatedesc_hi g)).

(** x86.h.  The instruction reads a limit of 16 bits and the base after it from
    the three halfwords [pd]. *)
Definition pseudo_descriptor (p size : Z) : Z * Z :=
  let pd0 := u16 (size - 1) in
  let pd1 := u16 p in
  let pd2 := u16 (Z.shiftr (u32 p) 16) in
  (pd1 + 65536 * pd2, pd0).
Definition lgdt (p size : Z) : X unit := modify (set_gdtr (pseudo_descriptor p size)).
Definition lidt (p size : Z) : X unit := modify (set_idtr (pseudo_descriptor p size)).

(** The descriptor must be of an available task state; it becomes busy. *)
Definition ltr (sel : Z) : X unit :=
  d ← gdt_entry sel;
  if negb (d_present d.2 && negb (d_app d.2) && (d_type d.2 =? STS_T32A)) then crash "ltr" else
  '(base, _) ← gets c_gdtr;
  poke (fun m => st32 m (u32 (base + 8 * Z.shiftr (u16 sel) 3 + 4)) (Z.lor d.2 0x200));;
  modify (set_tr (as_seg sel d)).

Definition cpu_field (cpu : Z) (f : string) : Z := cpu + field_offset f struct_cpu.

(** vm.c; [cpu] is the address [&cpus[cpuid()]]. *)
Definition seginit (cpu : Z) : X unit :=
  let gdt := cpu_field cpu "gdt" in
  st_segdesc (gdt + 8 * SEG_KCODE) (SEG (Z.lor STA_X STA_R) 0 0xffffffff 0);;
  st_segdesc (gdt + 8 * SEG_KDATA) (SEG STA_W 0 0xffffffff 0);;
  st_segdesc (gdt + 8 * SEG_UCODE) (SEG (Z.lor STA_X STA_R) 0 0xffffffff DPL_USER);;
  st_segdesc (gdt + 8 * SEG_UDATA) (SEG STA_W 0 0xffffffff DPL_USER);;
  lgdt gdt (8 * NSEGS).

(** The part of switchuvm between [pushcli] and [lcr3], for a process with the
    kernel stack [kstack]. *)
Definition switchuvm_tss (cpu kstack : Z) : X unit :=
  let gdt := cpu_field cpu "gdt" in
  let ts := cpu_field cpu "ts" in
  let d := SEG16 STS_T32A ts (sizeof taskstate - 1) 0 in
  st_segdesc (gdt + 8 * SEG_TSS) d;;
  st_segdesc (gdt + 8 * SEG_TSS) (set_sd_s 0 d);;
  poke (fun m => st16 m (ts + field_offset "ss0" taskstate) (Z.shiftl SEG_KDATA 3));;
  poke (fun m => st32 m (ts + field_offset "esp0" taskstate) (u32 (kstack + KSTACKSIZE)));;
  poke (fun m => st16 m (ts + field_offset "iomb" taskstate) 0xFFFF);;
  ltr (Z.shiftl SEG_TSS 3).

(** trap.c; [idt] is the address of the table, [vectors] the array of vectors.S.
    The lock that tvinit initialises as well is in the kernel's state. *)
Definition tvinit_gates (idt : Z) (vectors : Z -> Z) : X unit :=
  for_each (seq 0 256) (fun i =>
    st_gatedesc (idt + 8 * Z.of_nat i) (SETGATE false (Z.shiftl SEG_KCODE 3) (vectors (Z.of_nat i)) 0));;
  st_gatedesc (idt + 8 * T_SYSCALL) (SETGATE true (Z.shiftl SEG_KCODE 3) (vectors T_SYSCALL) DPL_USER).

Definition idtinit (idt : Z) : X unit := lidt idt (8 * 256).

(** ** What the processor reads from the tables *)

(** Two words at an address. *)
Definition desc_at (m : gmap Z Z) (a : Z) (d : Z * Z) : Prop := ld32 m a = d.1 /\ ld32 m (a + 4) = d.2.

Lemma desc_at_ext m m' a d :
  (forall b, a <= b < a + 8 -> ld8 m' b = ld8 m b) -> desc_at m a d -> desc_at m' a d.
Proof. intros H [Hl Hh]. split; [rewrite <- Hl|rewrite <- Hh]; apply ld32_ext; intros; apply H; lia. Qed.

Definition seg_words (d : segdesc) : Z * Z := (segdesc_lo d, segdesc_hi d).
Definition gate_words (g : gatedesc) : Z * Z := (gatedesc_lo g, gatedesc_hi g).

Lemma seg_words_range d : word (segdesc_lo d) /\ word (segdesc_hi d).
Proof.
  split; [destruct (pack_range [(16, lim_15_0 d); (16, base_15_0 d)])
         |destruct (pack_range [(8, base_23_16 d); (4, sd_type d); (1, sd_s d); (2, sd_dpl d); (1, sd_p d);
            (4, lim_19_16 d); (1, sd_avl d); (1, sd_rsv1 d); (1, sd_db d); (1, sd_g d); (8, base_31_24 d)])];
    solve [repeat constructor; simpl; lia|done].
Qed.

Lemma gate_words_range g : word (gatedesc_lo g) /\ word (gatedesc_hi g).
Proof.
  split; [destruct (pack_range [(16, off_15_0 g); (16, gd_cs g)])
         |destruct (pack_range [(5, gd_args g); (3, gd_rsv1 g); (4, gd_type g); (1, gd_s g); (2, gd_dpl g); (1, gd_p g);
            (16, off_31_16 g)])];
    solve [repeat constructor; simpl; lia|done].
Qed.

Lemma desc_at_st m a lo hi : word lo -> word hi -> desc_at (st32 (st32 m a lo) (a + 4) hi) a (lo, hi).
Proof. intros Hl Hh. split; simpl; [rewrite ld32_st32_ne by lia|]; by apply ld32_st32_eq. Qed.

Lemma ld8_st_desc m a lo hi b : ~ (a <= b < a + 8) -> ld8 (st32 (st32 m a lo) (a + 4) hi) b = ld8 m b.
Proof. intros Hb. by rewrite !ld8_st32_ne by lia. Qed.

(** The processor decodes a descriptor of [SEG] to the base, limit, type and
    privilege level it was made from, the limit rounded up to a whole page, and
    one of [SEG16] to the limit itself when it fits in 20 bits; both are present
    descriptors of code or data. *)
Theorem SEG_decodes (type base lim dpl sel : Z) :
  0 <= type < 16 -> 0 <= dpl < 4 -> word base -> word lim ->
  let check d limit :=
    as_seg sel (seg_words d) = mkSeg (u16 sel) base limit dpl /\
    d_type (segdesc_hi d) = type /\ d_present (segdesc_hi d) = true /\ d_app (segdesc_hi d) = true in
  check (SEG type base lim dpl) (lim - lim mod 4096 + 4095) /\
  (lim < 2 ^ 20 -> check (SEG16 type base lim dpl) lim).
Proof.
  intros Ht Hd Hb Hl check. unfold word in *. unfold check, as_seg, seg_words. cbn [fst snd].
  rewrite !segdesc_type, !segdesc_dpl, !segdesc_present, !segdesc_app, !segdesc_base, !segdesc_limit.
  cbn -[Z.modulo Z.land Z.shiftr Z.pow Z.mul Z.add]. rewrite !u32_small by done.
  change 0xffff with (Z.ones 16). change 0xff with (Z.ones 8). rewrite !Z.land_ones, !Z.shiftr_div_pow2 by lia.
  rewrite !(Z.mod_small type), !(Z.mod_small dpl) by lia.
  split; [|intros Hl']; split_and!; [f_equal| | | |f_equal| | |]; try done;
    change (2 ^ 28) with 268435456; change (2 ^ 24) with 16777216; change (2 ^ 16) with 65536;
    change (2 ^ 12) with 4096; change (2 ^ 8) with 256; change (2 ^ 4) with 16; change (1 mod 2 ^ 1 =? 1) with true;
    change (0 mod 2 ^ 1 =? 1) with false; cbv iota; Z.div_mod_to_equations; lia.
Qed.

(** The bytes of the assembly macro are the words of [SEG] for privilege level 0. *)
Lemma SEG_ASM_SEG type base lim :
  0 <= type < 16 -> word base -> word lim ->
  SEG_ASM type base lim = z2le 4 (segdesc_lo (SEG type base lim 0)) ++ z2le 4 (segdesc_hi (SEG type base lim 0)).
Proof.
  unfold word. intros Ht Hb Hl. unfold SEG_ASM, segdesc_lo, segdesc_hi, SEG.
  cbn -[Z.modulo Z.land Z.lor Z.shiftr Z.pow Z.mul Z.add Z.div u8]. rewrite !u32_small by done.
  assert (Z.lor 0x90 type = type + 0x90) as ->.
  { rewrite Z.lor_comm. change 0x90 with (9 * 2 ^ 4). apply lor_disjoint; lia. }
  change 0xffff with (Z.ones 16). change 0xff with (Z.ones 8). change 0xf with (Z.ones 4).
  rewrite !Z.land_ones, !Z.shiftr_div_pow2 by lia.
  assert (forall x, Z.lor 0xC0 (x mod 2 ^ 4) = x mod 2 ^ 4 + 0xC0) as ->.
  { intros x. rewrite Z.lor_comm. change 0xC0 with (12 * 2 ^ 4). apply lor_disjoint; [lia|]. apply Z.mod_pos_bound. lia. }
  unfold u8.
  change (2 ^ 28) with 268435456. change (2 ^ 24) with 16777216. change (2 ^ 16) with 65536.
  change (2 ^ 12) with 4096. change (2 ^ 8) with 256. change (2 ^ 4) with 16. change (2 ^ 2) with 4. change (2 ^ 1) with 2.
  change (1 mod 2) with 1. change (0 mod 2) with 0. change (0 mod 4) with 0.
  rewrite !Z.mod_mod, !(Z.mod_small type) by lia. cbv [z2le app u8].
  repeat (apply (f_equal2 cons); [Z.div_mod_to_equations; lia|]). done.
Qed.

Lemma SETGATE_decodes istrap sel off d :
  0 <= sel < 65536 -> word off -> 0 <= d < 4 ->
  let g := SETGATE istrap sel off d in
  g_sel (gatedesc_lo g) = sel /\ g_offset (gatedesc_lo g) (gatedesc_hi g) = off /\
  d_type (gatedesc_hi g) = (if istrap then STS_TG32 else STS_IG32) /\
  d_dpl (gatedesc_hi g) = d /\ d_present (gatedesc_hi g) = true /\ d_app (gatedesc_hi g) = false.
Proof.
  intros Hs Ho Hd g. unfold word in *.
  rewrite gatedesc_sel, gatedesc_offset, gatedesc_type, gatedesc_dpl, gatedesc_present, gatedesc_app.
  cbn -[Z.modulo Z.land Z.shiftr Z.pow Z.mul Z.add]. rewrite u32_small by done.
  change 0xffff with (Z.ones 16). rewrite Z.land_ones, Z.shiftr_div_pow2 by lia.
  change (2 ^ 16) with 65536. change (2 ^ 2) with 4.
  split_and!; [apply Z.mod_small; lia|Z.div_mod_to_equations; lia|by destruct istrap|apply Z.mod_small; lia|done..].
Qed.

(** ** The tables in place *)

Definition seg_table : list (Z * segdesc) :=
  [(SEG_KCODE, SEG (Z.lor STA_X STA_R) 0 0xffffffff 0);
   (SEG_KDATA, SEG STA_W 0 0xffffffff 0);
   (SEG_UCODE, SEG (Z.lor STA_X STA_R) 0 0xffffffff DPL_USER);
   (SEG_UDATA, SEG STA_W 0 0xffffffff DPL_USER)].

Definition gate_of (vectors : Z -> Z) (n : Z) : gatedesc :=
  if n =? T_SYSCALL then SETGATE true (Z.shiftl SEG_KCODE 3) (vectors n) DPL_USER
  else SETGATE false (Z.shiftl SEG_KCODE 3) (vectors n) 0.

(** The struct of a processor and the interrupt table lie apart in memory. *)
Definition layout (cpu idt : Z) : Prop :=
  0 <= cpu /\ cpu + sizeof struct_cpu < 4294967296 /\ 0 <= idt /\ idt + 2048 < 4294967296 /\
  (cpu + sizeof struct_cpu <= idt \/ idt + 2048 <= cpu).

(** The segments at [cpu] and the gates at [idt], with [vectors] behind them. *)
Record desc_tables (cpu idt : Z) (vectors : Z -> Z) (c : X86.cpu) : Prop := {
  t_layout : layout cpu idt;
  t_gdtr : c_gdtr c = (cpu_field cpu "gdt", 8 * NSEGS - 1);
  t_idtr : c_idtr c = (idt, 8 * 256 - 1);
  t_seg i d : (i, d) ∈ seg_table -> desc_at (c_mem c) (cpu_field cpu "gdt" + 8 * i) (seg_words d);
  t_gate n : 0 <= n < 256 -> desc_at (c_mem c) (idt + 8 * n) (gate_words (gate_of vectors n));
}.

(** With the task state too, [top] the stack for traps from user mode. *)
Record tables_ok (cpu idt top : Z) (vectors : Z -> Z) (c : X86.cpu) : Prop := {
  t_desc : desc_tables cpu idt vectors c;
  t_tr : sg_base (c_tr c) = cpu_field cpu "ts" /\ sg_limit (c_tr c) = sizeof taskstate - 1;
  t_esp0 : ld32 (c_mem c) (cpu_field cpu "ts" + field_offset "esp0" taskstate) = top;
  t_ss0 : u16 (ld32 (c_mem c) (cpu_field cpu "ts" + field_offset "ss0" taskstate)) = Z.shiftl SEG_KDATA 3;
  t_iomb : Z.shiftr (ld32 (c_mem c) (cpu_field cpu "ts" + field_offset "t" taskstate)) 16 = 0xFFFF;
}.

Ltac offsets :=
  unfold cpu_field, layout in *;
  change (field_offset "gdt" struct_cpu) with 112 in *; change (field_offset "ts" struct_cpu) with 8 in *;
  change (sizeof struct_cpu) with 176 in *; change (field_offset "esp0" taskstate) with 4 in *;
  change (field_offset "ss0" taskstate) with 8 in *; change (field_offset "t" taskstate) with 100 in *;
  change (field_offset "iomb" taskstate) with 102 in *; change (sizeof taskstate) with 104 in *;
  change (8 * NSEGS) with 48 in *.

Lemma seg_table_index i d : (i, d) ∈ seg_table -> 1 <= i <= 4.
Proof.
  intros Hd. repeat (apply elem_of_cons in Hd as [[= -> _]|Hd]; [unfold SEG_KCODE, SEG_KDATA, SEG_UCODE, SEG_UDATA; lia|]).
  by apply elem_of_nil in Hd.
Qed.

(** The tables depend on two areas of memory. *)
Lemma desc_tables_ext cpu idt vectors c c' :
  c_gdtr c' = c_gdtr c -> c_idtr c' = c_idtr c ->
  (forall b, cpu + 112 <= b < cpu + 152 \/ idt <= b < idt + 2048 -> ld8 (c_mem c') b = ld8 (c_mem c) b) ->
  desc_tables cpu idt vectors c -> desc_tables cpu idt vectors c'.
Proof.
  intros Hg Hi Hm [Hl Hg0 Hi0 Hs Hga]. split; offsets; try congruence.
  - intros i d Hd. eapply desc_at_ext; [|by apply Hs]. pose proof (seg_table_index i d Hd). intros. apply Hm. lia.
  - intros n Hn. eapply desc_at_ext; [|by apply Hga]. intros. apply Hm. lia.
Qed.

Lemma tables_ok_ext cpu idt top vectors c c' :
  c_gdtr c' = c_gdtr c -> c_idtr c' = c_idtr c -> c_tr c' = c_tr c ->
  (forall b, cpu <= b < cpu + sizeof struct_cpu \/ idt <= b < idt + 2048 -> ld8 (c_mem c') b = ld8 (c_mem c) b) ->
  tables_ok cpu idt top vectors c -> tables_ok cpu idt top vectors c'.
Proof.
  intros Hg Hi Ht Hm [Hd Ht0 He Hss Hio]. pose proof (t_layout _ _ _ _ Hd). offsets. split; offsets; try congruence.
  - eapply desc_tables_ext; [done..| |done]. intros. apply Hm. lia.
  - rewrite <- He. apply ld32_ext. intros. apply Hm. lia.
  - rewrite <- Hss. f_equal. apply ld32_ext. intros. apply Hm. lia.
  - rewrite <- Hio. f_equal. apply ld32_ext. intros. apply Hm. lia.
Qed.

Lemma pseudo_descriptor_eq p size : word p -> 0 < size <= 65536 -> pseudo_descriptor p size = (p, size - 1).
Proof.
  unfold word. intros Hp Hs. unfold pseudo_descriptor, u16. rewrite u32_small, Z.shiftr_div_pow2 by lia.
  change (2 ^ 16) with 65536. f_equal; Z.div_mod_to_equations; lia.
Qed.

(** seginit writes the four descriptors and nothing else. *)
Lemma wp_seginit cpu Q c :
  0 <= cpu < 4294967296 - 176 ->
  (forall c', c_gdtr c' = (cpu + 112, 47) -> c_idtr c' = c_idtr c ->
     (forall i d, (i, d) ∈ seg_table -> desc_at (c_mem c') (cpu + 112 + 8 * i) (seg_words d)) ->
     (forall b, ~ (cpu + 120 <= b < cpu + 152) -> ld8 (c_mem c') b = ld8 (c_mem c) b) -> Q tt c') ->
  wp (seginit cpu) Q c.
Proof.
  intros Hc HQ. unfold seginit, st_segdesc, poke, lgdt. offsets. wp_steps.
  rewrite pseudo_descriptor_eq by (unfold word; lia). apply HQ; cpu_simpl; [done..| |].
  - intros i d Hd. unfold SEG_KCODE, SEG_KDATA, SEG_UCODE, SEG_UDATA in *.
    repeat (apply elem_of_cons in Hd as [[= -> ->]|Hd];
      [unfold SEG_KCODE, SEG_KDATA, SEG_UCODE, SEG_UDATA;
       repeat first [ by apply desc_at_st; apply seg_words_range
                    | eapply desc_at_ext; [intros; apply ld8_st_desc; lia|] ]|]).
    by apply elem_of_nil in Hd.
  - unfold SEG_KCODE, SEG_KDATA, SEG_UCODE, SEG_UDATA in *. intros b Hb. by rewrite !ld8_st_desc by lia.
Qed.

(** tvinit writes the 256 gates and nothing else. *)
Lemma wp_tvinit_gates idt vectors Q c :
  (forall m, (forall n, 0 <= n < 256 -> desc_at m (idt + 8 * n) (gate_words (gate_of vectors n))) ->
     (forall b, ~ (idt <= b < idt + 2048) -> ld8 m b = ld8 (c_mem c) b) -> Q tt (set_mem m c)) ->
  wp (tvinit_gates idt vectors) Q c.
Proof.
  intros HQ. unfold tvinit_gates. apply wp_bind.
  apply (wp_for_each_seq (fun i s => exists m, s = set_mem m c /\
    (forall n, 0 <= n < Z.of_nat i -> desc_at m (idt + 8 * n) (gate_words (SETGATE false (Z.shiftl SEG_KCODE 3) (vectors n) 0))) /\
    (forall b, ~ (idt <= b < idt + 2048) -> ld8 m b = ld8 (c_mem c) b))).
  - intros i s Hi (m & -> & Hg & Hb). unfold st_gatedesc, poke. wp_steps. eexists. split; [reflexivity|].
    cpu_simpl. split; [|intros; rewrite ld8_st_desc by lia; by apply Hb].
    intros n Hn. destruct (decide (n = Z.of_nat i)) as [->|Hne]; [apply desc_at_st; apply gate_words_range|].
    eapply desc_at_ext; [|apply Hg; lia]. intros. apply ld8_st_desc. lia.
  - exists (c_mem c). split; [by destruct c|]. split; [lia|done].
  - intros s' (m & -> & Hg & Hb). unfold st_gatedesc, poke. wp_steps. cpu_simpl. apply HQ.
    + intros n Hn. unfold gate_of. destruct (Z.eqb_spec n T_SYSCALL) as [->|Hne]; [apply desc_at_st; apply gate_words_range|].
      eapply desc_at_ext; [|apply Hg; lia]. intros. apply ld8_st_desc. lia.
    + intros b Hb'. rewrite ld8_st_desc by (unfold T_SYSCALL; lia). by apply Hb.
Qed.

(** The descriptor of the task state. *)
Lemma tss_decodes ts :
  word ts ->
  let d := set_sd_s 0 (SEG16 STS_T32A ts 103 0) in
  as_seg 40 (seg_words d) = mkSeg 40 ts 103 0 /\
  d_type (segdesc_hi d) = STS_T32A /\ d_present (segdesc_hi d) = true /\ d_app (segdesc_hi d) = false.
Proof.
  intros Hts d. unfold word, as_seg, seg_words in *. cbn [fst snd].
  rewrite segdesc_type, segdesc_dpl, segdesc_present, segdesc_app, segdesc_base, segdesc_limit.
  cbn -[Z.modulo Z.land Z.shiftr Z.pow Z.mul Z.add]. rewrite !(u32_small ts) by done.
  change 0xffff with (Z.ones 16). change 0xff with (Z.ones 8). rewrite !Z.land_ones, !Z.shiftr_div_pow2 by lia.
  change (2 ^ 24) with 16777216; change (2 ^ 16) with 65536; change (2 ^ 8) with 256.
  split_and!; [f_equal|done..]. Z.div_mod_to_equations; lia.
Qed.

Lemma wp_gdt_entry sel d cpu Q c :
  c_gdtr c = (cpu + 112, 47) -> 0 <= cpu < 4294967296 - 176 -> 0 <= sel < 48 -> Z.testbit sel 2 = false ->
  desc_at (c_mem c) (cpu + 112 + 8 * (sel / 8)) d -> Q d c -> wp (gdt_entry sel) Q c.
Proof.
  intros Hg Hc Hs Ht [Hlo Hhi] HQ. unfold gdt_entry. wp_steps. rewrite Hg. wp_steps. rewrite Ht.
  unfold u16. rewrite (Z.mod_small sel) by lia. rewrite Z.shiftr_div_pow2 by lia. change (2 ^ 3) with 8.
  assert (0 <= sel / 8 <= 5) by (Z.div_mod_to_equations; lia). zb. cbn [negb]. rewrite !u32_small by lia.
  apply wp_bind, wp_sysload. rewrite Hlo. apply wp_bind, wp_sysload. rewrite Hhi. wp_steps. by destruct d.
Qed.

Lemma ld8_st16_ne m a v b : ~ (a <= b < a + 2) -> ld8 (st16 m a v) b = ld8 m b.
Proof. intros Hb. unfold st16. by rewrite !ld8_st8_ne by lia. Qed.

Lemma ld32_st16_ne m a v b : b + 4 <= a \/ a + 2 <= b -> ld32 (st16 m a v) b = ld32 m b.
Proof. intros Hb. apply ld32_ext. intros. apply ld8_st16_ne. lia. Qed.

Lemma ld32_st16_low m a v : 0 <= v < 65536 -> u16 (ld32 (st16 m a v) a) = v.
Proof.
  intros Hv. unfold ld32, st16, u16. rewrite !(ld8_st8_ne _ _ _ (a + 2)), !(ld8_st8_ne _ _ _ (a + 3)) by lia.
  rewrite (ld8_st8_ne _ (a + 1) _ a), !ld8_st8_eq by lia. unfold u8.
  pose proof (ld8_range m (a + 2)). pose proof (ld8_range m (a + 3)). Z.div_mod_to_equations. lia.
Qed.

Lemma ld32_st16_high m a v : 0 <= v < 65536 -> Z.shiftr (ld32 (st16 m (a + 2) v) a) 16 = v.
Proof.
  intros Hv. rewrite Z.shiftr_div_pow2 by lia. change (2 ^ 16) with 65536. unfold ld32, st16.
  replace (a + 2 + 1) with (a + 3) by lia.
  rewrite (ld8_st8_ne _ (a + 3) _ a), (ld8_st8_ne _ (a + 2) _ a), (ld8_st8_ne _ (a + 3) _ (a + 1)),
    (ld8_st8_ne _ (a + 2) _ (a + 1)), (ld8_st8_ne _ (a + 3) _ (a + 2)), !ld8_st8_eq by lia. unfold u8.
  pose proof (ld8_range m a). pose proof (ld8_range m (a + 1)). Z.div_mod_to_equations. lia.
Qed.

(** switchuvm's task state: loaded whatever the descriptor was before. *)
Lemma wp_switchuvm_tss cpu kstack Q c :
  0 <= cpu < 4294967296 - 176 -> c_gdtr c = (cpu + 112, 47) -> 0 <= kstack < 4294967296 - 4096 ->
  (forall c', c_gdtr c' = c_gdtr c -> c_idtr c' = c_idtr c -> c_tr c' = mkSeg 40 (cpu + 8) 103 0 ->
     ld32 (c_mem c') (cpu + 12) = kstack + KSTACKSIZE -> u16 (ld32 (c_mem c') (cpu + 16)) = 16 ->
     Z.shiftr (ld32 (c_mem c') (cpu + 108)) 16 = 0xFFFF ->
     (forall b, ~ (cpu + 8 <= b < cpu + 112) -> ~ (cpu + 152 <= b < cpu + 160) -> ld8 (c_mem c') b = ld8 (c_mem c) b) ->
     Q tt c') ->
  wp (switchuvm_tss cpu kstack) Q c.
Proof.
  intros Hc Hg Hk HQ. unfold switchuvm_tss, st_segdesc, poke, ltr. offsets. wp_steps. cpu_simpl.
  change (Z.shiftl SEG_TSS 3) with 40. change (104 - 1) with 103. change (Z.shiftl SEG_KDATA 3) with 16. unfold SEG_TSS, KSTACKSIZE.
  destruct (tss_decodes (cpu + 8)) as (Hseg & Hty & Hp & Ha); [unfold word; lia|].
  set (d := set_sd_s 0 (SEG16 STS_T32A (cpu + 8) 103 0)) in *.
  eapply (wp_gdt_entry 40 (seg_words d) cpu); cpu_simpl; [done|lia..|done| |].
  { eapply desc_at_ext; [|apply desc_at_st; apply seg_words_range]. change (8 * (40 / 8)) with (8 * 5).
    intros b Hb. by rewrite ld8_st16_ne, ld8_st32_ne, ld8_st16_ne by lia. }
  cbn [snd seg_words]. rewrite Hty, Hp, Ha. cbn [negb andb]. rewrite Z.eqb_refl. cbn [negb]. wp_steps. cpu_simpl. rewrite Hg. wp_steps. cpu_simpl.
  change (Z.shiftr (u16 40) 3) with 5. rewrite !u32_small by lia.
  apply HQ; cpu_simpl; [done|done|done|..].
  - rewrite ld32_st32_ne by lia. replace (cpu + 12) with (cpu + 8 + 4) by lia.
    rewrite ld32_st16_ne by lia. unfold KSTACKSIZE. apply ld32_st32_eq. lia.
  - rewrite ld32_st32_ne by lia. replace (cpu + 16) with (cpu + 8 + 8) by lia.
    rewrite ld32_st16_ne, ld32_st32_ne by lia. apply ld32_st16_low. lia.
  - rewrite ld32_st32_ne by lia. replace (cpu + 8 + 102) with (cpu + 108 + 2) by lia. apply ld32_st16_high. lia.
  - intros b Hb1 Hb2. by rewrite ld8_st32_ne, ld8_st16_ne, ld8_st32_ne, ld8_st16_ne, !ld8_st32_ne by lia.
Qed.

(** The boot code leaves the descriptors in place, whatever runs next. *)
Lemma wp_boot_tables cpu idt vectors (m : X unit) Q c :
  layout cpu idt -> (forall c', desc_tables cpu idt vectors c' -> wp m Q c') ->
  wp (seginit cpu;; tvinit_gates idt vectors;; idtinit idt;; m) Q c.
Proof.
  intros Hl HQ. pose proof Hl as Hl'. offsets. unfold idtinit, lidt.
  apply wp_bind, wp_seginit; [lia|]. intros c1 Hg1 _ Hs1 _.
  apply wp_bind, wp_tvinit_gates. intros mem Hgate Hout. wp_steps.
  rewrite pseudo_descriptor_eq by (unfold word; lia). apply HQ.
  split; offsets; [done|cpu_simpl; done|done| |done].
  intros i d Hd. eapply desc_at_ext; [|by apply Hs1]. pose proof (seg_table_index i d Hd).
  cpu_simpl. intros. apply Hout. lia.
Qed.

(** A switch to a process completes them with its stack. *)
Lemma wp_switch_tables cpu idt vectors k Q c :
  desc_tables cpu idt vectors c -> 0 <= k < 4294967296 - 4096 ->
  (forall c', tables_ok cpu idt (k + KSTACKSIZE) vectors c' -> Q tt c') -> wp (switchuvm_tss cpu k) Q c.
Proof.
  intros Hd Hk HQ. pose proof (t_gdtr _ _ _ _ Hd) as Hg. pose proof (t_layout _ _ _ _ Hd) as Hl. offsets.
  apply wp_switchuvm_tss; [lia|done|done|]. intros c' Hg' Hi' Ht He Hs Hio Hout. apply HQ. split; offsets.
  - eapply desc_tables_ext; [done|done| |done]. intros. apply Hout; lia.
  - by rewrite Ht.
  - by replace (cpu + 8 + 4) with (cpu + 12) by lia.
  - by replace (cpu + 8 + 8) with (cpu + 16) by lia.
  - by replace (cpu + 8 + 100) with (cpu + 108) by lia.
Qed.

(** ** What the tables mean *)

(** The processor finds at [a] a present segment of code or data from address 0 to
    the end of memory, of the given type, for the given privilege level. *)
Definition flat_segment (m : gmap Z Z) (a type dpl : Z) : Prop :=
  exists d, desc_at m a d /\ d_present d.2 = true /\ d_app d.2 = true /\ d_type d.2 = type /\
    forall sel, as_seg sel d = mkSeg (u16 sel) 0 0xffffffff dpl.

(** A present gate at [a] to [off] in the segment with selector [sel], which code of
    privilege level [dpl] may call with an instruction. *)
Definition gate_at (m : gmap Z Z) (a type sel off dpl : Z) : Prop :=
  exists g, desc_at m a g /\ d_present g.2 = true /\ d_app g.2 = false /\ d_type g.2 = type /\
    g_sel g.1 = sel /\ g_offset g.1 g.2 = off /\ d_dpl g.2 = dpl.

(** The numbers are those of the processor's manual: type 0xa is readable code, 2
    writable data, 0xe a gate that masks interrupts and 0xf one that does not. *)
Record tables_read (cpu idt top : Z) (vectors : Z -> Z) (c : X86.cpu) : Prop := {
  r_gdtr : c_gdtr c = (cpu_field cpu "gdt", 47);
  r_kcode : flat_segment (c_mem c) (cpu_field cpu "gdt" + 8) 0xa 0;
  r_kdata : flat_segment (c_mem c) (cpu_field cpu "gdt" + 16) 0x2 0;
  r_ucode : flat_segment (c_mem c) (cpu_field cpu "gdt" + 24) 0xa 3;
  r_udata : flat_segment (c_mem c) (cpu_field cpu "gdt" + 32) 0x2 3;
  r_idtr : c_idtr c = (idt, 2047);
  r_syscall : gate_at (c_mem c) (idt + 8 * 64) 0xf 8 (vectors 64) 3;
  r_gate n : 0 <= n < 256 -> n <> 64 -> gate_at (c_mem c) (idt + 8 * n) 0xe 8 (vectors n) 0;
  r_task : sg_base (c_tr c) = cpu_field cpu "ts" /\ sg_limit (c_tr c) = 103;
  r_stack : ld32 (c_mem c) (cpu_field cpu "ts" + 4) = top /\ u16 (ld32 (c_mem c) (cpu_field cpu "ts" + 8)) = 16;
  r_ports : Z.shiftr (ld32 (c_mem c) (cpu_field cpu "ts" + 100)) 16 = 0xFFFF;
}.

Lemma flat_segment_of m a type dpl :
  0 <= type < 16 -> 0 <= dpl < 4 -> desc_at m a (seg_words (SEG type 0 0xffffffff dpl)) -> flat_segment m a type dpl.
Proof.
  intros Ht Hd Hm. exists (seg_words (SEG type 0 0xffffffff dpl)). split; [done|].
  destruct (SEG_decodes type 0 0xffffffff dpl 0) as [(_ & ? & ? & ?) _]; [done|done|by unfold word|by unfold word|].
  split_and!; [done..|]. intros sel. destruct (SEG_decodes type 0 0xffffffff dpl sel) as [(-> & _) _]; [done|done|by unfold word|by unfold word|]. done.
Qed.

Lemma gate_at_of m a istrap off dpl :
  word off -> 0 <= dpl < 4 -> desc_at m a (gate_words (SETGATE istrap 8 off dpl)) ->
  gate_at m a (if istrap then 0xf else 0xe) 8 off dpl.
Proof.
  intros Ho Hd Hm. exists (gate_words (SETGATE istrap 8 off dpl)). split; [done|].
  destruct (SETGATE_decodes istrap 8 off dpl) as (? & ? & ? & ? & ? & ?); [lia|done|done|]. by split_and!.
Qed.

Lemma tables_ok_read cpu idt top vectors c :
  (forall n, word (vectors n)) -> tables_ok cpu idt top vectors c -> tables_read cpu idt top vectors c.
Proof.
  intros Hv [[Hl Hg Hi Hs Hga] Ht He Hss Hio]. offsets. split; offsets; try done.
  - apply flat_segment_of; [lia|lia|]. apply (Hs 1). left.
  - apply flat_segment_of; [lia|lia|]. apply (Hs 2). right; left.
  - apply flat_segment_of; [lia|lia|]. apply (Hs 3). do 2 right; left.
  - apply flat_segment_of; [lia|lia|]. apply (Hs 4). do 3 right; left.
  - apply (gate_at_of _ _ true); [done|lia|]. by apply (Hga 64).
  - intros n Hn Hne. specialize (Hga n Hn). unfold gate_of, T_SYSCALL in Hga. rewrite (proj2 (Z.eqb_neq n 64)) in Hga by done.
    apply (gate_at_of _ _ false); [done|lia|done].
Qed.

(** C8. The kernel's tables are well formed.  After seginit, tvinit and idtinit,
    and after any sequence of switches to processes, the processor decodes from
    memory: four segments of code and data that start at 0 and cover all of memory,
    two for the kernel and two for privilege level 3; for every interrupt number a
    gate to its entry in the kernel's code segment, of which only the one for
    system calls can be called by a user program, and only that one leaves
    interrupts on; and the top of the running process's kernel stack, with no port
    open to the program.  No switch fails on the task state that the last one left
    busy. *)
Theorem tables_installed (cpu idt k : Z) (vectors : Z -> Z) (ks : list Z) (c : X86.cpu) :
  layout cpu idt -> (forall n, word (vectors n)) -> Forall (fun k => 0 <= k < 4294967296 - 4096) (k :: ks) ->
  wp (seginit cpu;; tvinit_gates idt vectors;; idtinit idt;; for_each (ks ++ [k]) (switchuvm_tss cpu))
    (fun _ c' => tables_read cpu idt (k + KSTACKSIZE) vectors c' /\ tables_ok cpu idt (k + KSTACKSIZE) vectors c') c.
Proof.
  intros Hl Hv [Hk Hks]%Forall_cons. apply wp_boot_tables; [done|]. clear c. induction Hks as [|k' ks Hk' _ IH]; intros c Hd; simpl app; cbn [for_each].
  - apply wp_bind. eapply wp_switch_tables; [done|done|]. intros c' Hc'. apply wp_ret. split; [by apply tables_ok_read|done].
  - apply wp_bind. eapply wp_switch_tables; [done|done|]. intros c' Hc'. apply IH, Hc'.
Qed.

(** ** An example *)

(** A processor after power-up, with nothing set. *)
Definition blank_cpu : X86.cpu :=
  mkCpu (fun _ => 0) (fun _ => mkSeg 0 0 65535 0) (fun _ => 0) 0 2 (0, 0) (0, 0) (mkSeg 0 0 0 0) ∅ [].

Lemma tables_installed_witness :
  let vectors n := u32 (0x80106000 + 8 * n) in
  layout 0x80112800 0x80114c00 /\
  wp (seginit 0x80112800;; tvinit_gates 0x80114c00 vectors;; idtinit 0x80114c00;;
      for_each [0x8dfff000; 0x8dffe000; 0x8dfff000] (switchuvm_tss 0x80112800))
    (fun _ c' => tables_read 0x80112800 0x80114c00 0x8e000000 vectors c' /\ tables_ok 0x80112800 0x80114c00 0x8e000000 vectors c') blank_cpu.
Proof.
  intros vectors. assert (layout 0x80112800 0x80114c00) as Hl by (offsets; lia).
  split; [done|].
  apply (tables_installed 0x80112800 0x80114c00 0x8dfff000 vectors [0x8dfff000; 0x8dffe000] blank_cpu Hl).
  - intros n. apply u32_range.
  - rewrite !Forall_cons, Forall_nil. lia.
Defined.

Lemma SEG_decodes_witness :
  as_seg 0x23 (seg_words (SEG STA_W 0 0xffffffff 3)) = mkSeg 0x23 0 0xffffffff 3 /\
  as_seg 0x28 (seg_words (SEG16 STS_T32A 0x80112808 103 0)) = mkSeg 0x28 0x80112808 103 0.
Proof.
  split.
  - apply (SEG_decodes 2 0 0xffffffff 3 0x23); unfold word; lia.
  - apply (SEG_decodes 9 0x80112808 103 0 0x28); unfold word; lia.
Defined.
