(* ===== verification/Switch.v ===== *)
(** * Context switches (swtch.S) *)

From S2P Require Import Prelude Mmu Mem State Devices X86 X86Exec.

Definition swtch : list instr :=
  [ MovMR (Disp 4 (Some ESP)) EAX;
    MovMR (Disp 8 (Some ESP)) EDX;
    PushR EBP;
    PushR EBX;
    PushR ESI;
    PushR EDI;
    MovRM ESP (Disp 0 (Some EAX));
    MovRR EDX ESP;
    PopR EDI;
    PopR ESI;
    PopR EBX;
    PopR EBP;
    RetN ].

(** proc.h: the fields of [struct context] in memory. *)
Definition ld_context (m : gmap Z Z) (a : Z) : context :=
  mkCtx (ld32 m a) (ld32 m (a + 4)) (ld32 m (a + 8)) (ld32 m (a + 12)) (ld32 m (a + 16)).

Section swtch.
Context {mach : Machine} {prog : Code}.

(** The registers that a context holds. *)
Definition context_of (c : cpu) : context :=
  mkCtx (c_reg c EDI) (c_reg c ESI) (c_reg c EBX) (c_reg c EBP) (c_eip c).

(** Everything but the general registers, the instruction pointer and memory. *)
Definition same_system (c c' : cpu) : Prop :=
  c_seg c' = c_seg c /\ c_cr c' = c_cr c /\ c_eflags c' = c_eflags c /\ c_gdtr c' = c_gdtr c /\
  c_idtr c' = c_idtr c /\ c_tr c' = c_tr c /\ c_log c' = c_log c.

Lemma same_system_trans c1 c2 c3 : same_system c1 c2 -> same_system c2 c3 -> same_system c1 c3.
Proof. unfold same_system. intuition congruence. Qed.

(** Kernel code: code, data and stack in flat segments, registers of 32 bits. *)
Record kernel_code (c : cpu) : Prop := {
  kc_cs : flatseg (c_seg c CS);
  kc_ds : flatseg (c_seg c DS);
  kc_ss : flatseg (c_seg c SS);
  kc_reg r : word (c_reg c r);
}.

(** A call of swtch: the return address and the two arguments on the stack, room
    for the four registers below, and where the three areas of memory are. *)
Record swtch_call (c : cpu) (old new : Z) : Prop := {
  sc_kernel : kernel_code c;
  sc_code : exists q, code_at (c_eip c) swtch q;
  sc_old : ld32 (c_mem c) (c_reg c ESP + 4) = old;
  sc_new : ld32 (c_mem c) (c_reg c ESP + 8) = new;
  sc_room : 16 <= c_reg c ESP /\ c_reg c ESP + 12 <= 4294967296;
  sc_top : new + 20 < 4294967296 /\ old + 4 <= 4294967296;
  sc_old_apart : old + 4 <= c_reg c ESP - 16 \/ c_reg c ESP + 4 <= old;
  sc_new_apart : new + 20 <= c_reg c ESP - 16 \/ c_reg c ESP <= new;
  sc_old_new : old + 4 <= new \/ new + 20 <= old;
}.

Definition swtch_mem (c : cpu) (old : Z) : gmap Z Z :=
  st32 (st_words (c_mem c) (c_reg c ESP - 16) [c_reg c EDI; c_reg c ESI; c_reg c EBX; c_reg c EBP]) old (c_reg c ESP - 16).

Lemma swtch_runs (c : cpu) old new (Q : cpu -> Prop) :
  swtch_call c old new ->
  (forall c', c_mem c' = swtch_mem c old -> context_of c' = ld_context (swtch_mem c old) new ->
     c_reg c' ESP = new + 20 -> same_system c c' -> (forall r, word (c_reg c' r)) -> Q c') ->
  reaches Q c.
Proof.
  intros [[Hcs Hds Hss Hr] [q Hcode] Ho Hn [Hsp Hsp'] [Ht1 Ht2] _ _ _] HQ.
  pose proof (ld32_range (c_mem c) (c_reg c ESP + 4)). pose proof (ld32_range (c_mem c) (c_reg c ESP + 8)).
  unfold swtch in Hcode. do 2 x86_instr. rewrite Ho, Hn in *.
  do 11 x86_instr.
  set (m := st32 _ (old + 0) _).
  assert (m = swtch_mem c old) as Hm by (unfold m, swtch_mem; cbn [st_words]; mem_eq).
  apply reaches_done, HQ; cpu_simpl.
  - done.
  - unfold context_of, ld_context. rewrite <- Hm. cpu_simpl. rewrite <- !Z.add_assoc. done.
  - lia.
  - done.
  - intros []; cpu_simpl; try apply Hr; try apply ld32_range; unfold word; lia.
Qed.

Lemma swtch_mem_old c old new : swtch_call c old new -> ld32 (swtch_mem c old) old = c_reg c ESP - 16.
Proof. intros [[_ _ _ Hr] _ _ _ [Hsp Hsp'] _ _ _ _]. apply ld32_st32_eq. lia. Qed.

(** What lies outside the four words below the stack pointer and [*old]. *)
Lemma swtch_mem_out c old b :
  ~ (c_reg c ESP - 16 <= b < c_reg c ESP) -> ~ (old <= b < old + 4) -> ld8 (swtch_mem c old) b = ld8 (c_mem c) b.
Proof. intros H1 H2. unfold swtch_mem. rewrite ld8_st32_ne by done. apply ld8_st_words_out. simpl. lia. Qed.

Lemma swtch_mem_new c old new : swtch_call c old new -> ld_context (swtch_mem c old) new = ld_context (c_mem c) new.
Proof.
  intros [_ _ _ _ _ _ Ho Hn Hon]. unfold ld_context.
  by f_equal; apply ld32_ext; intros; apply swtch_mem_out; lia.
Qed.

Lemma swtch_mem_saved c old new :
  swtch_call c old new ->
  ld_context (swtch_mem c old) (c_reg c ESP - 16) =
  mkCtx (c_reg c EDI) (c_reg c ESI) (c_reg c EBX) (c_reg c EBP) (ld32 (c_mem c) (c_reg c ESP)).
Proof.
  intros [[_ _ _ Hr] _ _ _ [Hsp Hsp'] _ Ho _ _]. unfold ld_context, swtch_mem.
  rewrite !(ld32_st32_ne _ old) by lia. f_equal.
  - eapply (ld32_st_words_at 0); [lia|done|apply Hr].
  - eapply (ld32_st_words_at 1); [lia|done|apply Hr].
  - eapply (ld32_st_words_at 2); [lia|done|apply Hr].
  - eapply (ld32_st_words_at 3); [lia|done|apply Hr].
  - replace (c_reg c ESP - 16 + 16) with (c_reg c ESP) by lia. apply ld32_st_words_out. simpl. lia.
Qed.

(** C6. [swtch(&old, new)] continues the thread whose context lies at [new],
    with its registers and its stack, and leaves the caller's context at the
    address it stores in [*old], without touching other memory.  When a later
    call of swtch gets that address as its [new], and the five words there are
    as they were, the caller's call returns: the registers that a C function
    must preserve, the return address and the stack pointer are those of the
    call. *)
Theorem swtch_resumes (c : cpu) (old new : Z) :
  swtch_call c old new ->
  reaches (fun c' =>
    context_of c' = ld_context (c_mem c) new /\ c_reg c' ESP = new + 20 /\ same_system c c' /\
    (forall b, ~ (c_reg c ESP - 16 <= b < c_reg c ESP) -> ~ (old <= b < old + 4) -> ld8 (c_mem c') b = ld8 (c_mem c) b) /\
    let p := ld32 (c_mem c') old in
    forall c1 old1,
      swtch_call c1 old1 p -> ld_context (c_mem c1) p = ld_context (c_mem c') p ->
      reaches (fun c2 =>
        context_of c2 = mkCtx (c_reg c EDI) (c_reg c ESI) (c_reg c EBX) (c_reg c EBP) (ld32 (c_mem c) (c_reg c ESP)) /\
        c_reg c2 ESP = c_reg c ESP + 4) c1) c.
Proof.
  intros Hc. apply (swtch_runs c old new); [done|]. intros c' Hm Hctx Hsp Hsys Hw.
  rewrite Hm, (swtch_mem_old c old new), (swtch_mem_new c old new) in * by done.
  split_and!; [done..|by intros; apply swtch_mem_out|]. intros p c1 old1 H1 Hsame.
  apply (swtch_runs c1 old1 p); [done|]. intros c2 Hm2 Hctx2 Hsp2 _ _.
  rewrite (swtch_mem_new c1 old1 p), Hsame in Hctx2 by done. rewrite Hctx2.
  split; [by apply (swtch_mem_saved c old new)|unfold p in *; lia].
Qed.
End swtch.

(** ** An example *)

(** swtch at address 100, instructions of length 1; a thread with its stack at
    2000 switches to the context at 4000. *)
Definition sw_code : Code := listing 100 swtch.
Definition sw_mem : gmap Z Z := st_words (st_words ∅ 2000 [777; 3000; 4000]) 4000 [40; 41; 42; 43; 44].
Definition sw_cpu : cpu :=
  mkCpu (fun r => match r with ESP => 2000 | EDI => 1 | ESI => 2 | EBX => 3 | EBP => 4 | _ => 0 end)
    (fun _ => mkSeg 8 0 4294967295 0) (fun _ => 1) 100 2 (0, 0) (0, 0) (mkSeg 0 0 0 0) sw_mem [].
Definition no_devices : Machine := Build_Machine (fun _ _ => 0) (fun _ _ => 0).

Lemma swtch_resumes_witness :
  swtch_call (prog := sw_code) sw_cpu 3000 4000 /\
  reaches (mach := no_devices) (prog := sw_code)
    (fun c' => context_of c' = mkCtx 40 41 42 43 44 /\ c_reg c' ESP = 4020 /\ ld32 (c_mem c') 3000 < 4294967296) sw_cpu.
Proof.
  assert (swtch_call (prog := sw_code) sw_cpu 3000 4000) as Hc.
  { split.
    - split; [done..|]. intros r. unfold word. destruct r; cbn; lia.
    - exists (100 + Z.of_nat (length swtch)). apply code_at_units; [|cbn; lia..]. intros i x. apply listing_at.
    - reflexivity.
    - reflexivity.
    - cbn. lia.
    - lia.
    - cbn. lia.
    - cbn. lia.
    - lia. }
  split; [done|]. apply (reaches_mono (prog := sw_code) _ _ _ (swtch_resumes (mach := no_devices) (prog := sw_code) sw_cpu 3000 4000 Hc)).
  intros c' (H1 & H2 & _). split; [by rewrite H1|]. split; [done|apply ld32_range].
Defined.
