(* ===== verification/TrapEntry.v ===== *)
(** * From user mode into the kernel and back (vectors.pl, trapasm.S, usys.S, initcode.S)

    The entry points are lists of instructions of X86.v; the addresses of C
    functions are those of the kernel image.  The theorems follow a system call,
    an interrupt or a forbidden instruction from the user program through the
    gate, the switch of the stack and the assembly code to the call of [trap],
    and from the return of [trap] back into the user program. *)

From S2P Require Import Prelude Mmu Mem State Proc Trap Devices X86 X86Exec Segments Switch.

(** ** vectors.pl *)

(** The exceptions for which the processor pushes an error code. *)
Definition has_errcode (i : Z) : bool := (i =? 8) || ((10 <=? i) && (i <=? 14)) || (i =? 17).

Definition vector (alltraps i : Z) : list instr :=
  (if negb (has_errcode i) then [PushI 0] else []) ++ [PushI i; Jmp alltraps].

(** ** trapasm.S *)

Definition alltraps (trap : Z) : list instr :=
  [ PushS DS;
    PushS ES;
    PushS FS;
    PushS GS;
    Pusha;
    MovwI (Z.shiftl SEG_KDATA 3) EAX;
    MovwS EAX DS;
    MovwS EAX ES;
    PushR ESP;
    Call trap ].

(** What follows the call; alltraps falls through to trapret. *)
Definition after_trap : list instr := [AddI 4 ESP].

Definition trapret : list instr :=
  [ Popa;
    PopS GS;
    PopS FS;
    PopS ES;
    PopS DS;
    AddI 0x8 ESP;
    Iret ].

(** ** usys.S, with the numbers of syscall.h *)

Definition SYSCALL (num : Z) : list instr := [MovIR num EAX; Int T_SYSCALL; RetN].

Definition usys : list (string * list instr) :=
  [("fork", SYSCALL 1); ("exit", SYSCALL 2); ("wait", SYSCALL 3); ("pipe", SYSCALL 4); ("read", SYSCALL 5);
   ("write", SYSCALL 16); ("close", SYSCALL 21); ("kill", SYSCALL 6); ("exec", SYSCALL 7); ("open", SYSCALL 15);
   ("mknod", SYSCALL 17); ("unlink", SYSCALL 18); ("fstat", SYSCALL 8); ("link", SYSCALL 19); ("mkdir", SYSCALL 20);
   ("chdir", SYSCALL 9); ("dup", SYSCALL 10); ("getpid", SYSCALL 11); ("sbrk", SYSCALL 12); ("sleep", SYSCALL 13);
   ("uptime", SYSCALL 14); ("wmap", SYSCALL 22); ("wunmap", SYSCALL 23); ("va2pa", SYSCALL 24);
   ("getwmapinfo", SYSCALL 25)]%string.

(** ** initcode.S; [init] and [argv] are the addresses of its data. *)

Definition initcode_start (init argv : Z) : list instr :=
  [ PushI argv;
    PushI init;
    PushI 0;
    MovIR 7 EAX;
    Int T_SYSCALL ].
Definition initcode_exit (exit : Z) : list instr :=
  [ MovIR 2 EAX;
    Int T_SYSCALL;
    Jmp exit ].
Definition initcode_data (init : Z) : list Z := [47; 105; 110; 105; 116; 0; 0].

(** ** The trap frame in memory *)

Definition tf_words (tf : trapframe) : list Z :=
  [tf_edi tf; tf_esi tf; tf_ebp tf; tf_oesp tf; tf_ebx tf; tf_edx tf; tf_ecx tf; tf_eax tf;
   tf_gs tf; tf_fs tf; tf_es tf; tf_ds tf; tf_trapno tf; tf_err tf; tf_eip tf; tf_cs tf; tf_eflags tf; tf_esp tf; tf_ss tf].

(** x86.h: the fields of [struct trapframe]; the selectors have 16 bits. *)
Definition ld_tf (m : gmap Z Z) (a : Z) : trapframe :=
  mkTf (ld32 m a) (ld32 m (a + 4)) (ld32 m (a + 8)) (ld32 m (a + 12)) (ld32 m (a + 16)) (ld32 m (a + 20)) (ld32 m (a + 24))
    (ld32 m (a + 28)) (u16 (ld32 m (a + 32))) (u16 (ld32 m (a + 36))) (u16 (ld32 m (a + 40))) (u16 (ld32 m (a + 44)))
    (ld32 m (a + 48)) (ld32 m (a + 52)) (ld32 m (a + 56)) (u16 (ld32 m (a + 60))) (ld32 m (a + 64)) (ld32 m (a + 68))
    (u16 (ld32 m (a + 72))).

(** The sizes of the fields. *)
Definition tf_wf (tf : trapframe) : Prop :=
  Forall word (tf_words tf) /\ Forall (fun s => 0 <= s < 65536) [tf_gs tf; tf_fs tf; tf_es tf; tf_ds tf; tf_cs tf; tf_ss tf].

Lemma ld_tf_st m a tf : tf_wf tf -> ld_tf (st_words m a (tf_words tf)) a = tf.
Proof.
  intros [Hw Hs]. rewrite Forall_forall in Hw.
  assert (forall i b w, b = a + 4 * Z.of_nat i -> tf_words tf !! i = Some w -> ld32 (st_words m a (tf_words tf)) b = w) as Hl.
  { intros i b w Hb Hi. eapply (ld32_st_words_at i); [done..|]. apply Hw. by eapply list_elem_of_lookup_2. }
  assert (forall i b w, b = a + 4 * Z.of_nat i -> tf_words tf !! i = Some w -> 0 <= w < 65536 ->
    u16 (ld32 (st_words m a (tf_words tf)) b) = w) as Hl16.
  { intros i b w Hb Hi Hr. rewrite (Hl i b w) by done. by apply Z.mod_small. }
  repeat (apply Forall_cons in Hs as [? Hs]). unfold ld_tf. destruct tf. f_equal.
  - apply (Hl 0%nat); [lia|done].
  - by apply (Hl 1%nat).
  - by apply (Hl 2%nat).
  - by apply (Hl 3%nat).
  - by apply (Hl 4%nat).
  - by apply (Hl 5%nat).
  - by apply (Hl 6%nat).
  - by apply (Hl 7%nat).
  - by apply (Hl16 8%nat).
  - by apply (Hl16 9%nat).
  - by apply (Hl16 10%nat).
  - by apply (Hl16 11%nat).
  - by apply (Hl 12%nat).
  - by apply (Hl 13%nat).
  - by apply (Hl 14%nat).
  - by apply (Hl16 15%nat).
  - by apply (Hl 16%nat).
  - by apply (Hl 17%nat).
  - by apply (Hl16 18%nat).
Qed.

(** ** The segment registers *)

Definition kcs : seg := mkSeg 8 0 4294967295 0.
Definition kds : seg := mkSeg 16 0 4294967295 0.
Definition ucs : seg := mkSeg 27 0 4294967295 3.
Definition uds : seg := mkSeg 35 0 4294967295 3.

(** A data segment register of a user program: its data segment, or none. *)
Definition user_data (g : seg) : Prop := g = uds \/ exists k, 0 <= k < 4 /\ g = null_seg k.

(** What a user program can have in the registers: protected mode, user code and
    data segments, no privilege for I/O. *)
Record user_mode (c : cpu) : Prop := {
  um_prot : protected c = true;
  um_cs : c_seg c CS = ucs;
  um_ss : c_seg c SS = uds;
  um_data s : s ∈ [DS; ES; FS; GS] -> user_data (c_seg c s);
  um_reg r : word (c_reg c r);
  um_eip : word (c_eip c);
  um_eflags : word (c_eflags c);
  um_iopl : iopl c = 0;
}.

(** The kernel's: [FS] and [GS] still are the user program's. *)
Record kernel_mode (c : cpu) : Prop := {
  km_prot : protected c = true;
  km_cs : c_seg c CS = kcs;
  km_ss : c_seg c SS = kds;
}.

Lemma flat_kcs : flatseg kcs.
Proof. done. Qed.
Lemma flat_kds : flatseg kds.
Proof. done. Qed.
Lemma flat_ucs : flatseg ucs.
Proof. done. Qed.
Lemma flat_uds : flatseg uds.
Proof. done. Qed.

Section trap.
Context {mach : Machine} {prog : Code}.
Context (cpu idt : Z) (vectors : Z -> Z).

Local Abbreviation tables := (desc_tables cpu idt vectors).

Lemma wp_gdt_seg sel d (Q : Z * Z -> X86.cpu -> Prop) c :
  tables c -> (sel / 8, d) ∈ seg_table -> 0 <= sel < 48 -> Z.testbit sel 2 = false -> Q (seg_words d) c -> wp (gdt_entry sel) Q c.
Proof.
  intros [Hl Hg _ Hs _] Hd Hr Ht HQ. offsets. eapply (wp_gdt_entry sel _ cpu); [done|lia|lia|done| |done]. by apply Hs.
Qed.

Lemma elem_KCODE : (1, SEG (Z.lor STA_X STA_R) 0 0xffffffff 0) ∈ seg_table.
Proof. by left. Qed.
Lemma elem_KDATA : (2, SEG STA_W 0 0xffffffff 0) ∈ seg_table.
Proof. by right; left. Qed.
Lemma elem_UCODE : (3, SEG (Z.lor STA_X STA_R) 0 0xffffffff DPL_USER) ∈ seg_table.
Proof. by do 2 right; left. Qed.
Lemma elem_UDATA : (4, SEG STA_W 0 0xffffffff DPL_USER) ∈ seg_table.
Proof. by do 3 right; left. Qed.

Lemma wp_stack_kernel (Q : seg -> X86.cpu -> Prop) c : tables c -> Q kds c -> wp (stack_seg 0 16) Q c.
Proof. intros Ht HQ. unfold stack_seg. apply wp_bind. eapply wp_gdt_seg; [done|exact elem_KDATA|lia|done|]. apply HQ. Qed.

Lemma wp_stack_user (Q : seg -> X86.cpu -> Prop) c : tables c -> Q uds c -> wp (stack_seg 3 35) Q c.
Proof. intros Ht HQ. unfold stack_seg. apply wp_bind. eapply wp_gdt_seg; [done|exact elem_UDATA|lia|done|]. apply HQ. Qed.

Lemma cpl_kernel c : kernel_mode c -> cpl c = 0.
Proof. intros [Hp Hc _]. unfold X86.cpl. by rewrite Hp, Hc. Qed.
Lemma cpl_user c : user_mode c -> cpl c = 3.
Proof. intros [Hp Hc _]. unfold X86.cpl. by rewrite Hp, Hc. Qed.

(** A data segment that the kernel can load: its own or a user program's. *)
Definition data_ok (g : seg) : Prop := g = kds \/ user_data g.

(** The selector of such a register gives the register back. *)
Lemma wp_load_data s g (Q : unit -> X86.cpu -> Prop) c :
  tables c -> kernel_mode c -> s ∈ [DS; ES; FS; GS] -> data_ok g -> Q tt (set_seg s g c) ->
  wp (load_sreg s (sg_sel g)) Q c.
Proof.
  intros Ht Hk Hs Hg HQ. unfold load_sreg. wp_steps. cbn [id]. rewrite (km_prot _ Hk). cbn [negb].
  assert (wp (data_seg (sg_sel g)) (fun g' c' => g' = g /\ c' = c) c) as Hd.
  { unfold data_seg. wp_steps. destruct Hg as [->|[->|(k & Hk' & ->)]].
    - change (Z.land (u16 (sg_sel kds)) 0xfffc =? 0) with false. cbv iota. apply wp_bind.
      eapply wp_gdt_seg; [done|exact elem_KDATA|cbn; lia|done|]. rewrite cpl_kernel by done. done.
    - change (Z.land (u16 (sg_sel uds)) 0xfffc =? 0) with false. cbv iota. apply wp_bind.
      eapply wp_gdt_seg; [done|exact elem_UDATA|cbn; lia|done|]. rewrite cpl_kernel by done. done.
    - assert (k = 0 \/ k = 1 \/ k = 2 \/ k = 3) as [->|[->|[->| ->]]] by lia; by apply wp_ret. }
  set_unfold in Hs. destruct Hs as [->|[->|[->|[->|[]]]]]; apply wp_bind; (eapply wp_mono; [exact Hd|]);
    intros g' c' [-> ->]; by wp_steps.
Qed.

Lemma u16_low16 v n : u16 (low16 v n) = u16 n.
Proof.
  unfold low16, u16. change 65536 with (2 ^ 16). apply Z.bits_inj'. intros i Hi.
  destruct (decide (i < 16)).
  - rewrite !Z.mod_pow2_bits_low by lia. rewrite Z.lor_spec, Z.land_spec.
    change 0xffff0000 with (Z.shiftl (Z.ones 16) 16). rewrite Z.shiftl_spec, (Z.testbit_neg_r _ (i - 16)) by lia.
    rewrite andb_false_r, Z.mod_pow2_bits_low by lia. done.
  - by rewrite !Z.mod_pow2_bits_high by lia.
Qed.

(** ** From the vector to [trap] *)

(** The pushes that alltraps adds to what the vector and the processor pushed,
    from low addresses up; [sp] is the stack pointer that pusha saves. *)
Definition saved_regs (c : X86.cpu) (sp : Z) : list Z :=
  [c_reg c EDI; c_reg c ESI; c_reg c EBP; sp; c_reg c EBX; c_reg c EDX; c_reg c ECX; c_reg c EAX;
   sg_sel (c_seg c GS); sg_sel (c_seg c FS); sg_sel (c_seg c ES); sg_sel (c_seg c DS)].

(** Memory [a, b) is apart from the tables. *)
Definition apart (a b : Z) : Prop :=
  (b <= cpu \/ cpu + sizeof struct_cpu <= a) /\ (b <= idt \/ idt + 2048 <= a).

Lemma tables_apart c c' a ws :
  tables c -> apart a (a + 4 * Z.of_nat (length ws)) -> c_gdtr c' = c_gdtr c -> c_idtr c' = c_idtr c ->
  c_mem c' = st_words (c_mem c) a ws -> tables c'.
Proof.
  intros Ht [Ha1 Ha2] Hg Hi Hm. eapply desc_tables_ext; [done|done| |done]. intros b Hb. rewrite Hm.
  apply ld8_st_words_out. offsets. lia.
Qed.

(** The pushes: registers and memory afterwards. *)
Definition alltraps_pushed (sp : Z) (c c' : X86.cpu) : Prop :=
  c_mem c' = st_words (c_mem c) (sp - 48) (saved_regs c (sp - 16)) /\ c_reg c' ESP = sp - 48 /\
  c_reg c' EAX = low16 (c_reg c EAX) 16 /\ (forall r, r <> ESP -> r <> EAX -> c_reg c' r = c_reg c r) /\ same_system c c'.

Lemma alltraps_pushes l back sp (Q : X86.cpu -> Prop) c :
  kernel_mode c -> (forall r, word (c_reg c r)) ->
  code_at (c_eip c) ([PushS DS; PushS ES; PushS FS; PushS GS; Pusha; MovwI (Z.shiftl SEG_KDATA 3) EAX] ++ l) back ->
  c_reg c ESP = sp -> 56 <= sp ->
  (forall c', alltraps_pushed sp c c' -> code_at (c_eip c') l back -> reaches Q c') ->
  reaches Q c.
Proof.
  intros Hk Hr Hcode Hsp Hb HQ. pose proof (Hr ESP) as Hw. unfold word in Hw.
  assert (flatseg (c_seg c CS)) as Fc by (rewrite (km_cs _ Hk); done).
  assert (flatseg (c_seg c SS)) as Fs by (rewrite (km_ss _ Hk); done).
  cbn [app] in Hcode. do 6 x86_instr. apply HQ; [|exact Hcode]. unfold alltraps_pushed. cpu_simpl. split_and!.
  - rewrite Hsp. cbn [st_words saved_regs]. mem_eq.
  - lia.
  - reflexivity.
  - intros r H1 H2. by rewrite !upd_other by done.
  - unfold same_system. cpu_simpl. split_and!; reflexivity.
Qed.

Lemma alltraps_runs trap back sp (Q : X86.cpu -> Prop) c :
  tables c -> kernel_mode c -> (forall r, word (c_reg c r)) ->
  code_at (c_eip c) (alltraps trap) back -> c_reg c ESP = sp -> 56 <= sp ->
  apart (sp - 56) sp ->
  (forall c', c_eip c' = trap -> c_reg c' ESP = sp - 56 ->
     c_mem c' = st_words (c_mem c) (sp - 56) ([back; sp - 48] ++ saved_regs c (sp - 16)) ->
     (forall r, r <> ESP -> r <> EAX -> c_reg c' r = c_reg c r) -> c_reg c' EAX = low16 (c_reg c EAX) 16 ->
     c_seg c' DS = kds -> c_seg c' ES = kds -> (forall s, s <> DS -> s <> ES -> c_seg c' s = c_seg c s) ->
     c_cr c' = c_cr c -> c_eflags c' = c_eflags c ->
     c_gdtr c' = c_gdtr c -> c_idtr c' = c_idtr c -> c_tr c' = c_tr c -> c_log c' = c_log c -> Q c') ->
  reaches Q c.
Proof.
  intros Ht Hk Hr Hcode Hsp Hb Ha HQ. pose proof (Hr ESP) as Hw. unfold word in Hw.
  eapply (alltraps_pushes [MovwS EAX DS; MovwS EAX ES; PushR ESP; Call trap] back sp); [done|done|exact Hcode|done|done|].
  clear Hcode. intros c1 (Hm & Hsp1 & Hax1 & Hreg1 & Es & Ecr & Efl & Eg & Ei & Etr & El) Hcode.
  assert (tables c1) as Ht1.
  { eapply (tables_apart c _ (sp - 48)); [done| |done|done|exact Hm].
    unfold apart, saved_regs in *. cbn [length]. lia. }
  assert (kernel_mode c1) as Hk1.
  { split; [|rewrite Es; apply Hk..]. unfold protected. rewrite Ecr. apply Hk. }
  assert (flatseg (c_seg c1 CS)) as Fc by (rewrite (km_cs _ Hk1); done).
  assert (flatseg (c_seg c1 SS)) as Fs by (rewrite (km_ss _ Hk1); done).
  x86_instr. rewrite Hax1, u16_low16. change (u16 16) with 16.
  apply (wp_load_data DS kds); [by apply (desc_tables_ext _ _ _ c1)|split; cpu_simpl; apply Hk1|by left|by left|].
  x86_instr. rewrite Hax1, u16_low16. change (u16 16) with 16.
  apply (wp_load_data ES kds); [by apply (desc_tables_ext _ _ _ c1)|split; cpu_simpl; apply Hk1|by right; left|by left|].
  do 2 x86_instr. apply reaches_done, HQ; cpu_simpl; try assumption; try reflexivity.
  - lia.
  - simpl in Hcode. rewrite Hcode, Hm, Hsp1. cbn [app st_words]. mem_eq.
  - intros r H1 H2. rewrite !upd_other by done. by apply Hreg1.
  - intros s H1 H2. rewrite !upd_other by done. by rewrite Es.
Qed.

(** The vector of interrupt [n] adds the number, after a zero if the processor
    pushed no error code. *)
Definition vector_words (n : Z) : list Z := n :: if has_errcode n then [] else [0].

Lemma vector_runs alltraps q n sp (Q : X86.cpu -> Prop) c :
  kernel_mode c -> word (c_reg c ESP) -> 0 <= n < 256 ->
  code_at (c_eip c) (vector alltraps n) q -> c_reg c ESP = sp -> 8 <= sp ->
  let l := vector_words n in
  let sp' := sp - 4 * Z.of_nat (length l) in
  (forall c', c_eip c' = alltraps -> c_reg c' ESP = sp' -> c_mem c' = st_words (c_mem c) sp' l ->
     (forall r, r <> ESP -> c_reg c' r = c_reg c r) -> same_system c c' -> reaches Q c') ->
  reaches Q c.
Proof.
  intros Hk Hw Hn Hcode Hsp Hb l sp' HQ. unfold word in Hw.
  assert (flatseg (c_seg c CS)) as Fc by (rewrite (km_cs _ Hk); done).
  assert (flatseg (c_seg c SS)) as Fs by (rewrite (km_ss _ Hk); done).
  unfold vector in Hcode. unfold sp', l, vector_words in *. destruct (has_errcode n); cbn [negb app] in Hcode.
  - do 2 x86_instr. rewrite u32_small by lia. apply HQ; cpu_simpl; try done.
    + cbn [length]. lia.
    + cbn [length st_words]. mem_eq.
    + intros r Hr. by rewrite upd_other by done.
  - do 3 x86_instr. rewrite !u32_small by lia. apply HQ; cpu_simpl; try done.
    + cbn [length]. lia.
    + cbn [length st_words]. mem_eq.
    + intros r Hr. by rewrite !upd_other by done.
Qed.
(** ** Through a gate *)

Lemma gate_facts n :
  word (vectors n) ->
  let g := gate_words (gate_of vectors n) in
  g_sel g.1 = 8 /\ g_offset g.1 g.2 = vectors n /\ d_type g.2 = (if n =? T_SYSCALL then STS_TG32 else STS_IG32) /\
  d_dpl g.2 = (if n =? T_SYSCALL then 3 else 0) /\ d_present g.2 = true /\ d_app g.2 = false.
Proof.
  intros Hv g. unfold g, gate_words, gate_of. cbn [fst snd]. change (Z.shiftl SEG_KCODE 3) with 8.
  destruct (n =? T_SYSCALL); by apply SETGATE_decodes; unfold DPL_USER; (done || lia).
Qed.

Lemma wp_idt_entry n (Q : Z * Z -> X86.cpu -> Prop) c :
  tables c -> 0 <= n < 256 -> Q (gate_words (gate_of vectors n)) c -> wp (idt_entry n) Q c.
Proof.
  intros [Hl _ Hi _ Hg] Hn HQ. unfold idt_entry. wp_steps. rewrite Hi. wp_steps. offsets. zb. cbn [negb].
  destruct (Hg n Hn) as [Hlo Hhi]. rewrite !u32_small by lia.
  apply wp_bind, wp_sysload. rewrite Hlo. apply wp_bind, wp_sysload. rewrite Hhi. by wp_steps.
Qed.

(** What the processor pushes, from low addresses up, on the stack of a kernel
    that was interrupted, or after a switch of the stack. *)
Definition hw_words (err : option Z) (c : X86.cpu) : list Z :=
  match err with Some e => [e] | None => [] end ++ [c_eip c; sg_sel (c_seg c CS); c_eflags c].

(** A trap gate leaves the interrupt flag, the others clear it. *)
Definition entry_flags (n fl : Z) : Z := if n =? T_SYSCALL then fl else Z.land fl (Z.lnot FL_IF).

(** The state at the entry point of interrupt [n], [sp] and [ws] the stack. *)
Record entered (n sp : Z) (ws : list Z) (c c' : X86.cpu) : Prop := {
  en_eip : c_eip c' = vectors n;
  en_sp : c_reg c' ESP = sp;
  en_mem : c_mem c' = st_words (c_mem c) sp ws;
  en_reg r : r <> ESP -> c_reg c' r = c_reg c r;
  en_cs : c_seg c' CS = kcs;
  en_ss : c_seg c' SS = kds;
  en_seg s : s <> CS -> s <> SS -> c_seg c' s = c_seg c s;
  en_cr : c_cr c' = c_cr c;
  en_eflags : c_eflags c' = entry_flags n (c_eflags c);
  en_tables : c_gdtr c' = c_gdtr c /\ c_idtr c' = c_idtr c /\ c_tr c' = c_tr c /\ c_log c' = c_log c;
}.

Lemma wp_save_and_jump n err (Q : unit -> X86.cpu -> Prop) c :
  word (vectors n) -> c_seg c SS = kds ->
  let ws := hw_words err c in
  let sp := c_reg c ESP - 4 * Z.of_nat (length ws) in
  0 <= sp -> c_reg c ESP <= 4294967296 ->
  (forall c', entered n sp ws c c' -> Q tt c') ->
  let g := gate_words (gate_of vectors n) in
  wp (save_and_jump g.1 g.2 (seg_words (SEG (Z.lor STA_X STA_R) 0 0xffffffff 0)) err) Q c.
Proof.
  intros Hv Hss ws sp H0 H1 HQ g. destruct (gate_facts n Hv) as (Hsel & Hoff & Hty & _). fold g in Hsel, Hoff, Hty.
  assert (flatseg (c_seg c SS)) as Fs by (rewrite Hss; done).
  unfold save_and_jump. rewrite Hsel, Hoff, Hty.
  change (as_seg _ _) with kcs.
  assert (forall c', c_eip c' = vectors n -> c_reg c' ESP = sp -> c_mem c' = st_words (c_mem c) sp ws ->
    (forall r, r <> ESP -> c_reg c' r = c_reg c r) -> c_seg c' = upd CS kcs (c_seg c) -> c_cr c' = c_cr c ->
    c_eflags c' = c_eflags c -> c_gdtr c' = c_gdtr c -> c_idtr c' = c_idtr c -> c_tr c' = c_tr c -> c_log c' = c_log c ->
    wp (if Z.testbit (if n =? T_SYSCALL then STS_TG32 else STS_IG32) 0 then mret tt
        else modify (fun c => set_eflags (Z.land (c_eflags c) (Z.lnot FL_IF)) c)) Q c') as Hfin.
  { intros c' E1 E2 E3 E4 E5 E6 E7 E8 E9 E10 E11.
    assert (forall fl, fl = entry_flags n (c_eflags c) -> entered n sp ws c (set_eflags fl c')) as He.
    { intros fl Hfl. split; cpu_simpl; try done; rewrite ?E5; [by rewrite upd_same|by rewrite upd_other|].
      intros s Hs _. by rewrite upd_other. }
    unfold entry_flags in He. destruct (n =? T_SYSCALL); [change (Z.testbit STS_TG32 0) with true|change (Z.testbit STS_IG32 0) with false];
      cbv iota; wp_steps; apply HQ; [|by rewrite E7; apply He].
    specialize (He (c_eflags c') ltac:(done)). by destruct c'. }
  unfold sp, ws, hw_words in *.
  destruct err as [e|]; cbn [app length st_words] in *; x86_steps; apply Hfin; cpu_simpl; try reflexivity; try lia;
    try (intros r Hr; by rewrite !upd_other by done); mem_eq.
Qed.
(** An interrupt of the kernel itself. *)
Lemma wp_enter_kernel n err (Q : unit -> X86.cpu -> Prop) c :
  tables c -> kernel_mode c -> word (vectors n) ->
  let ws := hw_words err c in
  let sp := c_reg c ESP - 4 * Z.of_nat (length ws) in
  0 <= sp -> c_reg c ESP <= 4294967296 ->
  (forall c', entered n sp ws c c' -> Q tt c') ->
  let g := gate_words (gate_of vectors n) in
  wp (enter_gate g.1 g.2 err) Q c.
Proof.
  intros Ht Hk Hv ws sp H0 H1 HQ g. destruct (gate_facts n Hv) as (Hsel & _ & Hty & _ & Hp & Ha). fold g in Hsel, Hty, Hp, Ha.
  unfold enter_gate. rewrite Hsel. apply wp_bind. eapply wp_gdt_seg; [done|exact elem_KCODE|lia|done|]. wp_steps.
  rewrite cpl_kernel by done. assert (is_gate g.2 = true) as ->.
  { unfold is_gate. rewrite Hty, Hp, Ha. by destruct (n =? T_SYSCALL). }
  change (_ || _) with false. change (d_dpl _ <? 0) with false. cbv iota. wp_steps.
  apply wp_save_and_jump; [done|apply Hk|done|done|done].
Qed.

(** The switch to the stack in the task state. *)
Lemma wp_switch_stack top (Q : unit -> X86.cpu -> Prop) c :
  tables_ok cpu idt top vectors c -> 8 <= top <= 4294967296 ->
  (forall c', c_reg c' ESP = top - 8 -> c_seg c' = upd SS kds (c_seg c) ->
     c_mem c' = st_words (c_mem c) (top - 8) [c_reg c ESP; sg_sel (c_seg c SS)] ->
     (forall r, r <> ESP -> c_reg c' r = c_reg c r) -> c_eip c' = c_eip c -> c_eflags c' = c_eflags c -> c_cr c' = c_cr c ->
     c_gdtr c' = c_gdtr c -> c_idtr c' = c_idtr c -> c_tr c' = c_tr c -> c_log c' = c_log c -> Q tt c') ->
  wp (switch_stack 0) Q c.
Proof.
  intros [Hd [Htb Htl] He Hss _] Ht HQ. pose proof (t_layout _ _ _ _ Hd) as Hl. pose proof flat_kds as Fs. offsets.
  unfold switch_stack. wp_steps. rewrite Htl, Htb. change (negb (11 <=? 104 - 1)) with false. cbv iota.
  rewrite !u32_small by lia. x86_steps. rewrite He, Hss. change (Z.shiftl SEG_KDATA 3) with 16.
  apply wp_stack_kernel; [done|]. x86_steps. apply HQ; cpu_simpl; try reflexivity.
  - lia.
  - cbn [st_words]. mem_eq.
  - intros r Hr. by rewrite !upd_other by done.
Qed.

Lemma wp_enter_user top n err (Q : unit -> X86.cpu -> Prop) c :
  tables_ok cpu idt top vectors c -> user_mode c -> word (vectors n) -> 24 <= top <= 4294967296 ->
  let ws := hw_words err c ++ [c_reg c ESP; 35] in
  (forall c', entered n (top - 4 * Z.of_nat (length ws)) ws c c' -> Q tt c') ->
  let g := gate_words (gate_of vectors n) in
  wp (enter_gate g.1 g.2 err) Q c.
Proof.
  intros Ht Hu Hv Htop ws HQ g. destruct (gate_facts n Hv) as (Hsel & _ & Hty & _ & Hp & Ha). fold g in Hsel, Hty, Hp, Ha.
  unfold enter_gate. rewrite Hsel. apply wp_bind. eapply wp_gdt_seg; [apply Ht|exact elem_KCODE|lia|done|]. wp_steps.
  rewrite cpl_user by done. assert (is_gate g.2 = true) as ->.
  { unfold is_gate. rewrite Hty, Hp, Ha. by destruct (n =? T_SYSCALL). }
  change (_ || _) with false. change (d_dpl _ <? 3) with true. change (d_dpl _) with 0. cbv iota. wp_steps.
  eapply wp_switch_stack; [done|lia|]. intros c1 Esp Eseg Em Er Eip Efl Ecr Eg Ei Et El.
  assert (hw_words err c1 = hw_words err c) as Ehw by (unfold hw_words; rewrite Eip, Efl, Eseg; by rewrite upd_other).
  assert (Z.of_nat (length (hw_words err c)) <= 4) as Hlen by (destruct err; simpl; lia).
  apply wp_save_and_jump; [done|by rewrite Eseg, upd_same|rewrite Esp, Ehw; lia|lia|]. rewrite Ehw, Esp.
  intros c' [F1 F2 F3 F4 F5 F6 F7 F8 F9 (F10 & F11 & F12 & F13)]. apply HQ.
  assert (top - 8 - 4 * Z.of_nat (length (hw_words err c)) = top - 4 * Z.of_nat (length ws)) as Hs.
  { unfold ws. rewrite length_app. cbn [length]. lia. }
  rewrite Hs in *. rewrite (um_ss _ Hu) in Em. split; try done.
  - unfold ws at 2. rewrite st_words_app, F3, Em. apply f_equal3; [|done|done]. apply f_equal3; [done|lia|done].
  - intros r Hr. by rewrite F4, Er.
  - intros s H1 H2. by rewrite F7, Eseg, upd_other.
  - congruence.
  - by rewrite F9, Efl.
  - split_and!; congruence.
Qed.
(** ** To the call of [trap] *)

(** The assembly code at its addresses; [back] is where the call of [trap]
    returns to. *)
Record trap_code (alltraps_at trap_at back : Z) : Prop := {
  tc_vector n : 0 <= n < 256 -> word (vectors n) /\ exists q, code_at (vectors n) (vector alltraps_at n) q;
  tc_alltraps : code_at alltraps_at (alltraps trap_at) back;
  tc_return : exists q, code_at back (after_trap ++ trapret) q;
}.

(** The first instruction of [trap(tf)], called in state [c]'s stead. *)
Record at_trap (n trap_at back tf : Z) (ws : list Z) (c c' : X86.cpu) : Prop := {
  at_eip : c_eip c' = trap_at;
  at_sp : c_reg c' ESP = tf - 8;
  at_mem : c_mem c' = st_words (c_mem c) (tf - 8) ([back; tf] ++ ws);
  at_reg r : r <> ESP -> r <> EAX -> c_reg c' r = c_reg c r;
  at_kernel : kernel_mode c';
  at_data : c_seg c' DS = kds /\ c_seg c' ES = kds;
  at_seg : c_seg c' FS = c_seg c FS /\ c_seg c' GS = c_seg c GS;
  at_cr : c_cr c' = c_cr c;
  at_eflags : c_eflags c' = entry_flags n (c_eflags c);
  at_tables : c_gdtr c' = c_gdtr c /\ c_idtr c' = c_idtr c /\ c_tr c' = c_tr c /\ c_log c' = c_log c;
}.

Lemma entered_kernel n sp ws c c' : entered n sp ws c c' -> protected c = true -> kernel_mode c'.
Proof. intros He Hp. split; [|apply He..]. unfold protected in *. by rewrite (en_cr _ _ _ _ _ He). Qed.

Lemma entered_saved n sp ws c c' x : entered n sp ws c c' -> saved_regs c' x = saved_regs c x.
Proof.
  intros He. unfold saved_regs. rewrite !(en_reg _ _ _ _ _ He) by done. by rewrite !(en_seg _ _ _ _ _ He) by done.
Qed.

(** From the entry point of interrupt [n] to [trap]. *)
Lemma entry_runs alltraps_at trap_at back n sp ws c c' (Q : X86.cpu -> Prop) :
  trap_code alltraps_at trap_at back -> entered n sp ws c c' -> 0 <= n < 256 -> tables c -> protected c = true ->
  (forall r, word (c_reg c r)) -> 64 <= sp < 4294967296 -> apart (sp - 64) (sp + 4 * Z.of_nat (length ws)) ->
  let tf := sp - 4 * Z.of_nat (length (vector_words n)) - 48 in
  (forall c2, at_trap n trap_at back tf (saved_regs c (tf + 32) ++ vector_words n ++ ws) c c2 -> Q c2) ->
  reaches Q c'.
Proof.
  intros [Hvec Hall _] He Hn Ht Hp Hr Hsp Ha tf HQ. destruct (Hvec n Hn) as (_ & q & Hcv).
  pose proof (entered_kernel _ _ _ _ _ He Hp) as Hk. pose proof (en_sp _ _ _ _ _ He) as Esp.
  assert (4 <= 4 * Z.of_nat (length (vector_words n)) <= 8) as Hlen.
  { unfold vector_words. destruct (has_errcode n); simpl; lia. }
  eapply (vector_runs alltraps_at q n sp); [done|unfold word; lia|done|by rewrite (en_eip _ _ _ _ _ He)|done|lia|].
  intros c1 E1 E2 E3 E4 (Es & Ecr & Efl & Eg & Ei & Etr & El).
  set (sp1 := sp - 4 * Z.of_nat (length (vector_words n))) in *.
  assert (c_mem c1 = st_words (c_mem c) sp1 (vector_words n ++ ws)) as Em.
  { rewrite st_words_app, E3, (en_mem _ _ _ _ _ He). apply f_equal3; [|done|done]. apply f_equal3; [done|lia|done]. }
  destruct (en_tables _ _ _ _ _ He) as (Fg & Fi & Ftr & Fl).
  eapply (alltraps_runs trap_at back sp1).
  - eapply (tables_apart c _ sp1 (vector_words n ++ ws)); [done| |congruence|congruence|done].
    rewrite length_app, Nat2Z.inj_add. unfold apart in *. lia.
  - split; [|rewrite Es; apply Hk..]. unfold protected. rewrite Ecr. apply Hk.
  - intros r. destruct (decide (r = ESP)) as [->|]; [unfold word; lia|].
    rewrite E4, (en_reg _ _ _ _ _ He) by done. apply Hr.
  - by rewrite E1.
  - done.
  - lia.
  - unfold apart in *. lia.
  - intros c2 G1 G2 G3 G4 G5 G6 G7 G8 G9 G10 G11 G12 G13 G14. apply HQ.
    assert (saved_regs c1 (sp1 - 16) = saved_regs c (tf + 32)) as Esv.
    { rewrite <- (entered_saved _ _ _ _ _ (tf + 32) He). unfold saved_regs. rewrite Es, !E4 by done.
      unfold tf, sp1. do 3 f_equal. f_equal. lia. }
    split; try congruence.
    + unfold tf, sp1 in *. lia.
    + rewrite G3, Esv, Em, (app_assoc [back; tf]), (st_words_app (c_mem c) (tf - 8)). apply f_equal3; [|unfold tf, sp1; lia|done].
      apply f_equal3; [done| |done]. rewrite length_app. cbn [length saved_regs]. unfold tf, sp1. lia.
    + intros r H1 H2. rewrite G4, E4, (en_reg _ _ _ _ _ He) by done. done.
    + split; [unfold protected in *; rewrite G9, Ecr; apply Hk|rewrite G8, Es by done; apply Hk..].
    + done.
    + rewrite !G8, Es by done. by rewrite !(en_seg _ _ _ _ _ He) by done.
    + rewrite G9, Ecr. apply He.
    + rewrite G10, Efl. apply He.
    + split_and!; congruence.
Qed.
(** The frame that [trap] sees for a trap from user mode; [tf] is its address. *)
Definition user_frame (c : X86.cpu) (tf n err : Z) : trapframe :=
  mkTf (c_reg c EDI) (c_reg c ESI) (c_reg c EBP) (tf + 32) (c_reg c EBX) (c_reg c EDX) (c_reg c ECX) (c_reg c EAX)
    (sg_sel (c_seg c GS)) (sg_sel (c_seg c FS)) (sg_sel (c_seg c ES)) (sg_sel (c_seg c DS))
    n err (c_eip c) 27 (c_eflags c) (c_reg c ESP) 35.

Lemma user_data_sel g : user_data g -> 0 <= sg_sel g < 65536.
Proof. intros [->|(k & Hk & ->)]; simpl; [lia|]. apply Z.mod_pos_bound. lia. Qed.

Lemma user_frame_wf c tf n err :
  user_mode c -> word (tf + 32) -> 0 <= n < 256 -> word err -> tf_wf (user_frame c tf n err).
Proof.
  intros Hu Htf Hn He.
  assert (forall s, s ∈ [DS; ES; FS; GS] -> 0 <= sg_sel (c_seg c s) < 65536) as Hsel.
  { intros s Hs. by apply user_data_sel, (um_data _ Hu). }
  pose proof (um_reg _ Hu) as Hr. pose proof (um_eip _ Hu). pose proof (um_eflags _ Hu).
  pose proof (Hsel DS ltac:(set_solver)). pose proof (Hsel ES ltac:(set_solver)).
  pose proof (Hsel FS ltac:(set_solver)). pose proof (Hsel GS ltac:(set_solver)).
  split; unfold tf_words; cbn [user_frame tf_edi tf_esi tf_ebp tf_oesp tf_ebx tf_edx tf_ecx tf_eax tf_gs tf_fs tf_es tf_ds tf_trapno
    tf_err tf_eip tf_cs tf_eflags tf_esp tf_ss]; rewrite !Forall_cons, Forall_nil; split_and?; try apply Hr; try done; unfold word in *; lia.
Qed.

(** The error code the processor pushes for interrupt [n], and the one in the
    frame. *)
Definition err_ok (n : Z) (err : option Z) (e : Z) : Prop :=
  if has_errcode n then err = Some e else err = None /\ e = 0.

Lemma user_frame_words c tf n err e :
  user_mode c -> err_ok n err e ->
  saved_regs c (tf + 32) ++ vector_words n ++ hw_words err c ++ [c_reg c ESP; 35] = tf_words (user_frame c tf n e).
Proof.
  intros Hu He. unfold err_ok in He. unfold vector_words, hw_words. rewrite (um_cs _ Hu).
  destruct (has_errcode n); [by subst|]. by destruct He as [-> ->].
Qed.

(** A trap from user mode: the kernel's stack gets the frame, and [trap] is called
    with its address. *)
Lemma user_trap alltraps_at trap_at back top n err e (Q : X86.cpu -> Prop) c :
  trap_code alltraps_at trap_at back -> tables_ok cpu idt top vectors c -> user_mode c -> 0 <= n < 256 -> err_ok n err e ->
  88 <= top < 4294967296 -> apart (top - 88) top ->
  (forall c', at_trap n trap_at back (top - 76) (tf_words (user_frame c (top - 76) n e)) c c' -> Q c') ->
  let g := gate_words (gate_of vectors n) in
  wp (enter_gate g.1 g.2 err) (fun _ c' => reaches Q c') c.
Proof.
  intros Hc Ht Hu Hn He Htop Ha HQ g. destruct (tc_vector _ _ _ Hc n Hn) as [Hv _].
  apply (wp_enter_user top n err); [done|done|done|lia|]. intros c1 H1.
  set (ws := hw_words err c ++ [c_reg c ESP; 35]) in *.
  assert (4 * Z.of_nat (length ws) + 4 * Z.of_nat (length (vector_words n)) = 28 /\
          20 <= 4 * Z.of_nat (length ws) <= 24) as [Hl1 Hl2].
  { unfold ws, hw_words, vector_words, err_ok in *. destruct (has_errcode n); [subst|destruct He as [-> ->]]; simpl; lia. }
  eapply (entry_runs alltraps_at trap_at back n _ ws); [done|done|done|apply Ht|apply Hu|apply Hu|lia|unfold apart in *; lia|].
  replace (top - 4 * Z.of_nat (length ws) - 4 * Z.of_nat (length (vector_words n)) - 48) with (top - 76) by lia.
  unfold ws. rewrite (user_frame_words c (top - 76) n err e) by done. done.
Qed.
(** ** The way back *)

(** The registers of the frame, with the data segments [gs], [fs], [es], [ds]. *)
Record restored (f : trapframe) (gs fs es ds : seg) (c c' : X86.cpu) : Prop := {
  rs_edi : c_reg c' EDI = tf_edi f;
  rs_esi : c_reg c' ESI = tf_esi f;
  rs_ebp : c_reg c' EBP = tf_ebp f;
  rs_ebx : c_reg c' EBX = tf_ebx f;
  rs_edx : c_reg c' EDX = tf_edx f;
  rs_ecx : c_reg c' ECX = tf_ecx f;
  rs_eax : c_reg c' EAX = tf_eax f;
  rs_gs : c_seg c' GS = gs;
  rs_fs : c_seg c' FS = fs;
  rs_es : c_seg c' ES = es;
  rs_ds : c_seg c' DS = ds;
  rs_mem : c_mem c' = c_mem c;
  rs_cr : c_cr c' = c_cr c;
  rs_tables : c_gdtr c' = c_gdtr c /\ c_idtr c' = c_idtr c /\ c_tr c' = c_tr c /\ c_log c' = c_log c;
}.

(** The tables and the mode stay when a data segment or a register changes. *)
Lemma keeps_mode c c' :
  c_gdtr c' = c_gdtr c -> c_idtr c' = c_idtr c -> c_mem c' = c_mem c -> c_cr c' = c_cr c ->
  c_seg c' CS = c_seg c CS -> c_seg c' SS = c_seg c SS -> tables c -> kernel_mode c -> tables c' /\ kernel_mode c'.
Proof.
  intros E1 E2 E3 E4 E5 E6 Ht Hk. split; [by apply (desc_tables_ext _ _ _ c); rewrite ?E3|].
  split; [unfold protected; rewrite E4|rewrite E5|rewrite E6]; apply Hk.
Qed.

(** Pop a data segment register. *)
Lemma pop_sreg_runs s g l q (Q : X86.cpu -> Prop) c :
  tables c -> kernel_mode c -> code_at (c_eip c) (PopS s :: l) q -> s ∈ [DS; ES; FS; GS] -> data_ok g ->
  u16 (ld32 (c_mem c) (c_reg c ESP)) = sg_sel g -> 0 <= c_reg c ESP < 4294967292 ->
  (forall c', code_at (c_eip c') l q -> tables c' -> kernel_mode c' ->
     c_reg c' = upd ESP (c_reg c ESP + 4) (c_reg c) -> c_seg c' = upd s g (c_seg c) -> c_mem c' = c_mem c ->
     c_cr c' = c_cr c -> c_gdtr c' = c_gdtr c -> c_idtr c' = c_idtr c -> c_tr c' = c_tr c -> c_log c' = c_log c ->
     reaches Q c') ->
  reaches Q c.
Proof.
  intros Ht Hk Hcode Hs Hg Hw Hsp HQ.
  assert (flatseg (c_seg c CS)) as Fc by (rewrite (km_cs _ Hk); done).
  assert (flatseg (c_seg c SS)) as Fs by (rewrite (km_ss _ Hk); done).
  x86_instr. rewrite Hw.
  assert (s <> CS /\ s <> SS) as [H1 H2] by (set_unfold in Hs; naive_solver).
  set (c1 := set_reg _ _ _). destruct (keeps_mode c c1) as [Ht1 Hk1]; [reflexivity..|done|done|].
  apply wp_load_data; [done..|]. destruct (keeps_mode c1 (set_seg s g c1)) as [Ht2 Hk2]; [reflexivity..| | |done|done|].
  - cpu_simpl. by rewrite upd_other.
  - cpu_simpl. by rewrite upd_other.
  - apply HQ; try done.
Qed.

Lemma popa_runs l q tf (Q : X86.cpu -> Prop) c :
  kernel_mode c -> code_at (c_eip c) (Popa :: l) q -> c_reg c ESP = tf -> 0 <= tf -> tf + 76 < 4294967296 ->
  let f := ld_tf (c_mem c) tf in
  (forall c', code_at (c_eip c') l q -> c_reg c' ESP = tf + 32 -> same_system c c' -> c_mem c' = c_mem c ->
     c_reg c' EDI = tf_edi f -> c_reg c' ESI = tf_esi f -> c_reg c' EBP = tf_ebp f -> c_reg c' EBX = tf_ebx f ->
     c_reg c' EDX = tf_edx f -> c_reg c' ECX = tf_ecx f -> c_reg c' EAX = tf_eax f -> reaches Q c') ->
  reaches Q c.
Proof.
  intros Hk Hcode Hsp H0 H1 f HQ.
  assert (flatseg (c_seg c CS)) as Fc by (rewrite (km_cs _ Hk); done).
  assert (flatseg (c_seg c SS)) as Fs by (rewrite (km_ss _ Hk); done).
  x86_instr. apply HQ; [exact Hcode|cpu_simpl; lia|unfold same_system; cpu_simpl; split_and!; reflexivity|reflexivity|..]; cpu_simpl;
    unfold f, ld_tf; cbn [tf_edi tf_esi tf_ebp tf_ebx tf_edx tf_ecx tf_eax]; rewrite Hsp, <- ?Z.add_assoc; reflexivity.
Qed.
Lemma trapret_pops l q tf gs fs es ds (Q : X86.cpu -> Prop) c :
  tables c -> kernel_mode c -> code_at (c_eip c) ([Popa; PopS GS; PopS FS; PopS ES; PopS DS; AddI 0x8 ESP] ++ l) q ->
  c_reg c ESP = tf -> 0 <= tf -> tf + 76 < 4294967296 ->
  let f := ld_tf (c_mem c) tf in
  data_ok gs -> data_ok fs -> data_ok es -> data_ok ds ->
  tf_gs f = sg_sel gs -> tf_fs f = sg_sel fs -> tf_es f = sg_sel es -> tf_ds f = sg_sel ds ->
  (forall c', code_at (c_eip c') l q -> restored f gs fs es ds c c' -> c_reg c' ESP = tf + 56 ->
     c_seg c' CS = kcs -> c_seg c' SS = kds -> reaches Q c') ->
  reaches Q c.
Proof.
  intros Ht Hk Hcode Hsp H0 H1 f Dg Df De Dd Eg Ef Ee Ed HQ. cbn [app] in Hcode.
  eapply (popa_runs _ q tf); [done|exact Hcode|done|done|done|]. clear Hcode.
  intros c1 Hcode Hsp1 (Es & Ecr & _ & E3 & E4 & E5 & E6) Em R1 R2 R3 R4 R5 R6 R7.
  destruct (keeps_mode c c1) as [Ht1 Hk1]; [congruence..|done|done|].
  assert (forall c' k s, c_mem c' = c_mem c -> c_reg c' ESP = tf + k ->
    u16 (ld32 (c_mem c) (tf + k)) = s -> u16 (ld32 (c_mem c') (c_reg c' ESP)) = s) as Hld by (intros c' k s -> ->; done).
  eapply (pop_sreg_runs GS gs _ q); [done|done|exact Hcode|set_solver|done|by apply (Hld _ 32)|lia|]. clear Hcode.
  intros c2 Hcode Ht2 Hk2 Er2 Es2 Em2 Ecr2 Eg2 Ei2 Et2 El2.
  assert (c_reg c2 ESP = tf + 36) as Hsp2 by (rewrite Er2, upd_same; lia).
  eapply (pop_sreg_runs FS fs _ q); [done|done|exact Hcode|set_solver|done|apply (Hld _ 36); [congruence|done|exact Ef]|lia|]. clear Hcode.
  intros c3 Hcode Ht3 Hk3 Er3 Es3 Em3 Ecr3 Eg3 Ei3 Et3 El3.
  assert (c_reg c3 ESP = tf + 40) as Hsp3 by (rewrite Er3, upd_same; lia).
  eapply (pop_sreg_runs ES es _ q); [done|done|exact Hcode|set_solver|done|apply (Hld _ 40); [congruence|done|exact Ee]|lia|]. clear Hcode.
  intros c4 Hcode Ht4 Hk4 Er4 Es4 Em4 Ecr4 Eg4 Ei4 Et4 El4.
  assert (c_reg c4 ESP = tf + 44) as Hsp4 by (rewrite Er4, upd_same; lia).
  eapply (pop_sreg_runs DS ds _ q); [done|done|exact Hcode|set_solver|done|apply (Hld _ 44); [congruence|done|exact Ed]|lia|]. clear Hcode.
  intros c5 Hcode Ht5 Hk5 Er5 Es5 Em5 Ecr5 Eg5 Ei5 Et5 El5.
  assert (c_reg c5 ESP = tf + 48) as Hsp5 by (rewrite Er5, upd_same; lia).
  assert (flatseg (c_seg c5 CS)) as Fc by (rewrite (km_cs _ Hk5); done).
  x86_instr. apply HQ; [exact Hcode| |cpu_simpl; lia|cpu_simpl; apply Hk5..].
  assert (forall r, r <> ESP -> c_reg c5 r = c_reg c1 r) as Hr.
  { intros r Hr. by rewrite Er5, upd_other, Er4, upd_other, Er3, upd_other, Er2, upd_other by done. }
  split; cpu_simpl.
  1-7: by rewrite Hr by done.
  - by rewrite Es5, upd_other, Es4, upd_other, Es3, upd_other, Es2, upd_same by done.
  - by rewrite Es5, upd_other, Es4, upd_other, Es3, upd_same by done.
  - by rewrite Es5, upd_other, Es4, upd_same by done.
  - by rewrite Es5, upd_same by done.
  - congruence.
  - congruence.
  - split_and!; congruence.
Qed.
Lemma user_data_dpl g : user_data g -> sg_dpl g = 3.
Proof. by intros [->|(k & _ & ->)]. Qed.

(** iret to the user program of a frame at [sp - 56]. *)
Lemma iret_user f (Q : unit -> X86.cpu -> Prop) c tf :
  tables c -> kernel_mode c -> f = ld_tf (c_mem c) tf -> c_reg c ESP = tf + 56 -> 0 <= tf -> tf + 76 < 4294967296 ->
  tf_cs f = 27 -> tf_ss f = 35 -> (forall s, s ∈ [DS; ES; FS; GS] -> user_data (c_seg c s)) ->
  (forall c', c_eip c' = tf_eip f -> c_eflags c' = tf_eflags f -> c_reg c' ESP = tf_esp f ->
     (forall r, r <> ESP -> c_reg c' r = c_reg c r) -> c_seg c' CS = ucs -> c_seg c' SS = uds -> (forall s, s ∈ [DS; ES; FS; GS] -> c_seg c' s = c_seg c s) ->
     c_mem c' = c_mem c -> c_cr c' = c_cr c ->
     c_gdtr c' = c_gdtr c /\ c_idtr c' = c_idtr c /\ c_tr c' = c_tr c /\ c_log c' = c_log c -> Q tt c') ->
  wp iret Q c.
Proof.
  intros Ht Hk Hf Hsp H0 H1 Hcs Hss Hd HQ. unfold iret. wp_steps. rewrite cpl_kernel by done. cbn [Z.eqb negb].
  assert (flatseg (c_seg c SS)) as Fs by (rewrite (km_ss _ Hk); done).
  assert (u16 (ld32 (c_mem c) (c_reg c ESP + 4)) = 27) as Ecs.
  { rewrite <- Hcs, Hf. unfold ld_tf; cbn [tf_cs]. rewrite Hsp. do 2 f_equal. lia. }
  assert (u16 (ld32 (c_mem c) (c_reg c ESP + 4 + 4 + 4 + 4)) = 35) as Ess.
  { rewrite <- Hss, Hf. unfold ld_tf; cbn [tf_ss]. rewrite Hsp. do 2 f_equal. lia. }
  x86_steps. rewrite Ecs. set (c1 := set_reg _ _ _).
  destruct (keeps_mode c c1) as [Ht1 Hk1]; [reflexivity..|done|done|].
  eapply (wp_gdt_seg 27); [done|exact elem_UCODE|lia|done|]. change (negb _) with false. change (Z.land 27 3) with 3.
  change (3 =? 0) with false. cbv iota. unfold c1. x86_steps. rewrite Ess. set (c2 := set_reg _ _ _).
  destruct (keeps_mode c c2) as [Ht2 _]; [reflexivity..|done|done|].
  apply wp_stack_user; [done|]. unfold c2. change (as_seg 27 _) with ucs.
  assert (forall s, s ∈ [DS; ES; FS; GS] -> (sg_dpl (c_seg c s) <? 3) = false) as Hdpl.
  { intros s Hs. by rewrite user_data_dpl by (by apply Hd). }
  cbn [for_each]. x86_steps. cpu_simpl.
  do 4 (rewrite Hdpl by set_solver; cpu_simpl).
  apply HQ; cpu_simpl; try reflexivity.
  - rewrite Hf. unfold ld_tf; cbn [tf_eip]. by rewrite Hsp.
  - rewrite Hf. unfold ld_tf; cbn [tf_eflags]. rewrite Hsp. f_equal. lia.
  - rewrite Hf. unfold ld_tf; cbn [tf_esp]. rewrite Hsp. f_equal. lia.
  - intros r Hr. by rewrite !upd_other by done.
  - intros s Hs. set_unfold in Hs. rewrite !upd_other; naive_solver.
  - done.
Qed.
(** iret to kernel code that was interrupted. *)
Lemma iret_kernel f (Q : unit -> X86.cpu -> Prop) c tf :
  tables c -> kernel_mode c -> f = ld_tf (c_mem c) tf -> c_reg c ESP = tf + 56 -> 0 <= tf -> tf + 76 < 4294967296 ->
  tf_cs f = 8 ->
  (forall c', c_eip c' = tf_eip f -> c_eflags c' = tf_eflags f -> c_reg c' ESP = tf + 68 ->
     (forall r, r <> ESP -> c_reg c' r = c_reg c r) -> c_seg c' = upd CS kcs (c_seg c) -> c_mem c' = c_mem c -> c_cr c' = c_cr c ->
     c_gdtr c' = c_gdtr c /\ c_idtr c' = c_idtr c /\ c_tr c' = c_tr c /\ c_log c' = c_log c -> Q tt c') ->
  wp iret Q c.
Proof.
  intros Ht Hk Hf Hsp H0 H1 Hcs HQ. unfold iret. wp_steps. rewrite cpl_kernel by done. cbn [Z.eqb negb].
  assert (flatseg (c_seg c SS)) as Fs by (rewrite (km_ss _ Hk); done).
  assert (u16 (ld32 (c_mem c) (c_reg c ESP + 4)) = 8) as Ecs.
  { rewrite <- Hcs, Hf. unfold ld_tf; cbn [tf_cs]. rewrite Hsp. do 2 f_equal. lia. }
  x86_steps. rewrite Ecs. set (c1 := set_reg _ _ _).
  destruct (keeps_mode c c1) as [Ht1 Hk1]; [reflexivity..|done|done|].
  eapply (wp_gdt_seg 8); [done|exact elem_KCODE|lia|done|]. change (negb _) with false. change (Z.land 8 3) with 0.
  change (0 =? 0) with true. cbv iota. unfold c1. x86_steps. change (as_seg 8 _) with kcs.
  apply HQ; cpu_simpl; try reflexivity.
  - rewrite Hf. unfold ld_tf; cbn [tf_eip]. by rewrite Hsp.
  - rewrite Hf. unfold ld_tf; cbn [tf_eflags]. rewrite Hsp. f_equal. lia.
  - lia.
  - intros r Hr. by rewrite !upd_other by done.
  - done.
Qed.

(** A user program with the registers of frame [f]. *)
Definition user_regs (f : trapframe) (gs fs es ds : seg) (c c' : X86.cpu) : Prop :=
  restored f gs fs es ds c c' /\ c_reg c' ESP = tf_esp f /\ c_eip c' = tf_eip f /\ c_eflags c' = tf_eflags f /\
  c_seg c' CS = ucs /\ c_seg c' SS = uds.

Lemma user_regs_ext f gs fs es ds c c2 c' :
  c_mem c2 = c_mem c -> c_cr c2 = c_cr c -> c_gdtr c2 = c_gdtr c -> c_idtr c2 = c_idtr c -> c_tr c2 = c_tr c -> c_log c2 = c_log c ->
  user_regs f gs fs es ds c c' -> user_regs f gs fs es ds c2 c'.
Proof.
  intros E1 E2 E3 E4 E5 E6 [[R1 R2 R3 R4 R5 R6 R7 R8 R9 R10 R11 R12 R13 (R14 & R15 & R16 & R17)] H]. split; [|done].
  split; try done; repeat split; congruence.
Qed.

(** trapret with a frame of a user program at the stack pointer. *)
Lemma trapret_user q tf gs fs es ds (Q : X86.cpu -> Prop) c :
  tables c -> kernel_mode c -> code_at (c_eip c) trapret q -> c_reg c ESP = tf -> 0 <= tf -> tf + 76 < 4294967296 ->
  let f := ld_tf (c_mem c) tf in
  user_data gs -> user_data fs -> user_data es -> user_data ds ->
  tf_gs f = sg_sel gs -> tf_fs f = sg_sel fs -> tf_es f = sg_sel es -> tf_ds f = sg_sel ds -> tf_cs f = 27 -> tf_ss f = 35 ->
  (forall c', user_regs f gs fs es ds c c' -> Q c') ->
  reaches Q c.
Proof.
  intros Ht Hk Hcode Hsp H0 H1 f Dg Df De Dd Eg Ef Ee Ed Ecs Ess HQ.
  eapply (trapret_pops [Iret] q tf gs fs es ds); [done|done|exact Hcode|done|done|done|by right..|done|done|done|done|].
  clear Hcode. intros c1 Hcode Hr Hsp1 Hc1 Hs1. destruct Hr as [R1 R2 R3 R4 R5 R6 R7 R8 R9 R10 R11 R12 R13 (R14 & R15 & R16 & R17)].
  destruct (keeps_mode c c1) as [Ht1 Hk1]; [done..|by rewrite Hc1, (km_cs _ Hk)|by rewrite Hs1, (km_ss _ Hk)|done|done|].
  assert (flatseg (c_seg c1 CS)) as Fc by (rewrite Hc1; done).
  x86_instr. set (c2 := set_eip _ _). destruct (keeps_mode c1 c2) as [Ht2 Hk2]; [reflexivity..|done|done|].
  apply (iret_user f _ c2 tf); try done.
  - unfold f, c2. cpu_simpl. by rewrite R12.
  - intros s Hs. set_unfold in Hs. unfold c2. cpu_simpl. destruct Hs as [->|[->|[->|[->|[]]]]]; congruence.
  - unfold c2. cpu_simpl. intros c' I1 I2 I3 I4 I5 I6 I7 I8 I9 (I10 & I11 & I12 & I13). apply reaches_done, HQ.
    split; [|done]. split.
    1-7: by rewrite I4.
    1-4: by rewrite I7 by set_solver.
    all: repeat split; congruence.
Qed.
End trap.
