(* ===== verification/TrapPath.v ===== *)
(** * System calls, interrupts and forbidden instructions from end to end

    The theorems put together the tables of Segments.v, the processor of X86.v and
    the assembly code of TrapEntry.v and Switch.v.  [trap] and [forkret] are C
    functions: what they do to the frame and that they return is a hypothesis
    about the state in which they return. *)

From S2P Require Import Prelude Mmu Mem State Proc Trap Devices X86 X86Exec Segments Switch TrapEntry.

Section path.
Context {mach : Machine} {prog : Code}.
Context (cpu idt : Z) (vectors : Z -> Z).
Context (alltraps_at trap_at back top : Z).

(** The code in place, the tables set up, and the kernel's stack below [top] apart
    from the tables. *)
Record ready (c : X86.cpu) : Prop := {
  rd_code : trap_code vectors alltraps_at trap_at back;
  rd_tables : tables_ok cpu idt top vectors c;
  rd_top : 88 <= top < 4294967296;
  rd_apart : apart cpu idt (top - 88) top;
}.

Local Abbreviation tf := (top - 76).

Lemma ready_ext c c' :
  c_gdtr c' = c_gdtr c -> c_idtr c' = c_idtr c -> c_tr c' = c_tr c -> c_mem c' = c_mem c -> ready c -> ready c'.
Proof.
  intros E1 E2 E3 E4 [H1 H2 H3 H4]. split; try done. eapply tables_ok_ext; [done..| |done]. intros. by rewrite E4.
Qed.

Lemma ready_tables c : ready c -> desc_tables cpu idt vectors c.
Proof. intros H. apply H. Qed.

(** At the first instruction of [trap], called with the address of frame [f]; the
    rest of memory is that of [c]. *)
Record trap_called (f : trapframe) (c c1 : X86.cpu) : Prop := {
  cl_eip : c_eip c1 = trap_at;
  cl_return : ld32 (c_mem c1) (c_reg c1 ESP) = back;
  cl_arg : ld32 (c_mem c1) (c_reg c1 ESP + 4) = tf;
  cl_sp : c_reg c1 ESP = tf - 8;
  cl_frame : ld_tf (c_mem c1) tf = f;
  cl_kernel : kernel_mode c1;
  cl_data : c_seg c1 DS = kds /\ c_seg c1 ES = kds;
  cl_mem b : ~ (tf - 8 <= b < top) -> ld8 (c_mem c1) b = ld8 (c_mem c) b;
  cl_ready : ready c1;
  cl_system : c_cr c1 = c_cr c /\ c_log c1 = c_log c;
}.

(** [trap] returned, with frame [f] where it found one. *)
Record trap_returned (f : trapframe) (c2 : X86.cpu) : Prop := {
  rt_eip : c_eip c2 = back;
  rt_sp : c_reg c2 ESP = tf - 4;
  rt_frame : ld_tf (c_mem c2) tf = f;
  rt_kernel : kernel_mode c2;
  rt_ready : ready c2;
}.

Lemma word_back : trap_code vectors alltraps_at trap_at back -> word back.
Proof. intros Hc. destruct (tc_return _ _ _ _ Hc) as (q & n & _ & H0 & Hn & H1 & _). unfold word. lia. Qed.

Lemma at_trap_called n err c c' :
  ready c -> user_mode c -> 0 <= n < 256 -> word err ->
  at_trap n trap_at back tf (tf_words (user_frame c tf n err)) c c' -> trap_called (user_frame c tf n err) c c'.
Proof.
  intros Hr Hu Hn He [A1 A2 A3 A4 A5 A6 A7 A8 A9 (A10 & A11 & A12 & A13)]. pose proof (rd_top _ Hr) as Ht.
  pose proof (word_back (rd_code _ Hr)) as Hb. unfold word in Hb.
  assert (c_mem c' = st_words (st_words (c_mem c) tf (tf_words (user_frame c tf n err))) (tf - 8) [back; tf]) as Em.
  { rewrite A3, st_words_app. apply f_equal3; [|done|done]. apply f_equal3; [done|cbn [length]; lia|done]. }
  assert (forall b, ~ (tf - 8 <= b < top) -> ld8 (c_mem c') b = ld8 (c_mem c) b) as Hout.
  { intros b Hb'. rewrite A3. apply ld8_st_words_out. rewrite length_app. cbn [length tf_words]. lia. }
  split; try done.
  - rewrite Em, A2. by apply (ld32_st_words_at 0); [lia|done|lia].
  - rewrite Em, A2. by apply (ld32_st_words_at 1); [lia|done|lia].
  - rewrite <- (ld_tf_st (c_mem c) tf (user_frame c tf n err)) by (apply user_frame_wf; unfold word in *; (done || lia)).
    unfold ld_tf. rewrite Em.
    by rewrite !(ld32_st_words_out (st_words (c_mem c) tf (tf_words (user_frame c tf n err)))) by (cbn [length]; lia).
  - split; [apply Hr| |apply Hr..]. destruct (rd_apart _ Hr) as [Ha1 Ha2].
    eapply tables_ok_ext; [done..| |apply Hr]. intros. apply Hout. lia.
Qed.

(** The return of [trap] with a frame of a user program. *)
Lemma trap_returns_user f gs fs es ds (Q : X86.cpu -> Prop) c2 :
  trap_returned f c2 -> user_data gs -> user_data fs -> user_data es -> user_data ds ->
  tf_gs f = sg_sel gs -> tf_fs f = sg_sel fs -> tf_es f = sg_sel es -> tf_ds f = sg_sel ds -> tf_cs f = 27 -> tf_ss f = 35 ->
  (forall c3, user_regs f gs fs es ds c2 c3 -> reaches Q c3) -> reaches Q c2.
Proof.
  intros [R1 R2 R3 R4 R5] Dg Df De Dd Eg Ef Ee Ed Ecs Ess HQ. destruct (tc_return _ _ _ _ (rd_code _ R5)) as (q & Hcode).
  pose proof (rd_top _ R5) as Ht. assert (flatseg (c_seg c2 CS)) as Fc by (rewrite (km_cs _ R4); done).
  rewrite <- R1 in Hcode. cbn [after_trap app] in Hcode. x86_instr. set (c3 := set_eflags _ _).
  assert (c_reg c3 ESP = tf) as Hsp by (unfold c3; cpu_simpl; lia).
  destruct (keeps_mode cpu idt vectors c2 c3) as [Ht3 Hk3]; [reflexivity..|apply ready_tables, R5|done|].
  eapply reaches_trans; [|exact HQ].
  eapply (trapret_user cpu idt vectors q tf gs fs es ds _ c3); try exact Hcode; try done; try lia; try by rewrite <- R3 in *.
  change (c_mem c3) with (c_mem c2). rewrite R3. intros c'. by apply user_regs_ext.
Qed.
(** ** System calls *)

Lemma user_mode_set_reg c r v : user_mode c -> word v -> user_mode (set_reg r v c).
Proof.
  intros [U1 U2 U3 U4 U5 U6 U7 U8] Hv. split; try done. intros x. cpu_simpl. unfold upd. case_decide; [done|apply U5].
Qed.
Lemma user_mode_set_eip c v : user_mode c -> word v -> user_mode (set_eip v c).
Proof. intros [U1 U2 U3 U4 U5 U6 U7 U8] Hv. by split. Qed.

Lemma code_at_word i l p q : code_at p (i :: l) q -> word p.
Proof. intros (n & _ & H0 & Hn & H1 & _). unfold word. lia. Qed.

(** Through gate [n], from a user program that may use it. *)
Lemma user_gate n err e (Q : X86.cpu -> Prop) c :
  ready c -> user_mode c -> 0 <= n < 256 -> err_ok n err e -> word e ->
  (forall c1, trap_called (user_frame c tf n e) c c1 -> c_eflags c1 = entry_flags n (c_eflags c) -> Q c1) ->
  let g := gate_words (gate_of vectors n) in
  wp (enter_gate g.1 g.2 err) (fun _ c' => reaches Q c') c.
Proof.
  intros Hr Hu Hn He Hw HQ. apply (user_trap cpu idt vectors alltraps_at trap_at back top n err e); try apply Hr; try done.
  intros c' Hat. apply HQ; [by apply at_trap_called|apply Hat].
Qed.

(** The program [c] goes on, with [r] in [eax], after [trap] returned with its frame. *)
Lemma user_resumes c n e r (Q : X86.cpu -> Prop) c2 :
  user_mode c -> trap_returned (set_tf_eax r (user_frame c tf n e)) c2 ->
  (forall c3, c_eip c3 = c_eip c -> c_eflags c3 = c_eflags c -> c_reg c3 EAX = r ->
     (forall x, x <> EAX -> c_reg c3 x = c_reg c x) -> (forall s, c_seg c3 s = c_seg c s) -> c_mem c3 = c_mem c2 -> reaches Q c3) ->
  reaches Q c2.
Proof.
  intros Hu Hret HQ.
  apply (trap_returns_user _ (c_seg c GS) (c_seg c FS) (c_seg c ES) (c_seg c DS) Q c2 Hret);
    try (apply (um_data _ Hu); set_solver); try reflexivity.
  intros c3 [[R1 R2 R3 R4 R5 R6 R7 R8 R9 R10 R11 R12 R13 R14] (U1 & U2 & U3 & U4 & U5)]. apply HQ; try done.
  - intros [] Hx; done.
  - intros []; rewrite ?U4, ?U5, ?(um_cs _ Hu), ?(um_ss _ Hu); done.
Qed.

(** C3. A system call from end to end.  The stub of usys.S in a user program gets
    to [trap] on the process's kernel stack, with a frame that holds the number
    and all registers of the program and with interrupts as they were.  When [trap]
    returns with [r] in the frame's [eax], the stub returns [r] to its caller with
    every other register, the segments and the flags as at the call. *)
Theorem syscall_roundtrip (num q : Z) (c : X86.cpu) :
  ready c -> user_mode c -> code_at (c_eip c) (SYSCALL num) q -> word num -> c_reg c ESP + 4 < 4294967296 ->
  reaches (fun c1 => exists ip,
    let f := user_frame (set_reg EAX num (set_eip ip c)) tf T_SYSCALL 0 in
    trap_called f c c1 /\ c_eflags c1 = c_eflags c /\
    forall c2 r,
      trap_returned (set_tf_eax r f) c2 -> ld32 (c_mem c2) (c_reg c ESP) = ld32 (c_mem c) (c_reg c ESP) ->
      reaches (fun c3 =>
        c_eip c3 = ld32 (c_mem c) (c_reg c ESP) /\ c_reg c3 ESP = c_reg c ESP + 4 /\ c_reg c3 EAX = r /\
        (forall x, x <> EAX -> x <> ESP -> c_reg c3 x = c_reg c x) /\ (forall s, c_seg c3 s = c_seg c s) /\
        c_eflags c3 = c_eflags c) c2) c.
Proof.
  intros Hr Hu Hcode Hnum Hsp. pose proof (um_reg _ Hu ESP) as Hw. unfold word in Hw.
  assert (flatseg (c_seg c CS)) as Fc by (rewrite (um_cs _ Hu); done).
  unfold SYSCALL in Hcode. x86_instr. rewrite u32_small by done.
  pose proof (code_at_word _ _ _ _ Hcode) as Hip1.
  set (c0 := set_reg _ _ _). x86_instr. set (c1 := set_eip _ c0).
  assert (user_mode c1) as Hu1.
  { apply user_mode_set_eip; [|by eapply code_at_word]. apply user_mode_set_reg; [|done].
    by apply (user_mode_set_eip c). }
  assert (ready c1) as Hr1 by (by apply (ready_ext c)).
  unfold int_n. apply wp_bind. apply (wp_idt_entry cpu idt vectors); [by apply ready_tables|done|]. wp_steps.
  rewrite cpl_user by done. destruct (gate_facts vectors T_SYSCALL) as (_ & _ & _ & -> & _).
  { by apply (tc_vector _ _ _ _ (rd_code _ Hr)). }
  change (_ <? 3) with false. cbv iota.
  apply (user_gate T_SYSCALL None 0); [done..|]. intros c2 Hcall Hfl. exists (c_eip c0 + n0).
  split; [by destruct Hcall; split|]. split; [done|]. intros c3 r Hret Hm.
  apply (user_resumes c1 T_SYSCALL 0 r); [done|exact Hret|]. intros c4 E1 E2 E3 E4 E5 E6.
  assert (flatseg (c_seg c4 CS)) as Fc4 by (rewrite E5; exact Fc).
  assert (flatseg (c_seg c4 SS)) as Fs4 by (rewrite E5; unfold c1, c0; cpu_simpl; rewrite (um_ss _ Hu); done).
  assert (c_reg c4 ESP = c_reg c ESP) as Esp by (rewrite E4 by done; done).
  change (c_eip c0 + n0) with (c_eip c1) in Hcode. rewrite <- E1 in Hcode. x86_instr.
  apply reaches_done. cpu_simpl. rewrite E6, Esp. split_and!; try done.
  intros x H1 H2. rewrite upd_other, E4 by done. unfold c1, c0. cpu_simpl. by rewrite upd_other by done.
Qed.
(** ** Instructions that a user program may not execute *)

(** The error code of the fault: the gates other than the one of system calls, the
    interrupt flag, ports, control registers and the descriptor table. *)
Definition forbidden (i : instr) : option Z :=
  match i with
  | Int n => if (0 <=? n) && (n <? 256) && negb (n =? T_SYSCALL) then Some (8 * n + 2) else None
  | Cli | Sti | MovCR _ _ | MovRC _ _ | Lgdt _ | Outw => Some 0
  | InbI port | OutbI port => if 0 <=? port then Some 0 else None
  | _ => None
  end.

Lemma user_no_io port c (Q : bool -> X86.cpu -> Prop) :
  ready c -> cpl c = 3 -> iopl c = 0 -> 0 <= port -> Q false c -> wp (io_allowed port) Q c.
Proof.
  intros Hr Hcpl Hiopl Hp HQ. unfold io_allowed. wp_steps. cbn [id]. rewrite Hcpl, Hiopl.
  change (3 <=? 0) with false. cbv iota. destruct (rd_tables _ Hr) as [Hd [Hb Hl] _ _ Hio].
  pose proof (t_layout _ _ _ _ Hd) as Hlay. rewrite Hb, Hl. offsets. rewrite u32_small by lia.
  apply wp_bind, wp_sysload. rewrite Hio. pose proof (Z.div_pos port 8 Hp). zb. by wp_steps.
Qed.

Lemma user_fault ip e (Q : X86.cpu -> Prop) c :
  ready c -> user_mode (set_eip ip c) -> word e ->
  (forall c1, trap_called (user_frame (set_eip ip c) tf 13 e) c c1 ->
     c_eflags c1 = Z.land (c_eflags c) (Z.lnot FL_IF) -> Q c1) ->
  wp (protection_fault ip e) (fun _ c' => reaches Q c') c.
Proof.
  intros Hr Hu He HQ. unfold protection_fault, interrupt. apply wp_bind, wp_modify, wp_bind.
  set (c0 := set_eip ip c). assert (ready c0) as Hr0 by (by apply (ready_ext c)).
  apply (wp_idt_entry cpu idt vectors); [by apply ready_tables|done|].
  apply (user_gate 13 (Some e) e); [done|done|done|done|done|].
  intros c1 Hcall Hfl. apply HQ; [by destruct Hcall; split|done].
Qed.

(** The instruction at [c] did nothing but fault: [trap] is called with the error
    code [e], the address of the instruction and the registers in the frame. *)
Definition refused (e : Z) (c c1 : X86.cpu) : Prop :=
  trap_called (user_frame c tf 13 e) c c1 /\ c_eflags c1 = Z.land (c_eflags c) (Z.lnot FL_IF) /\
  c_cr c1 = c_cr c /\ c_log c1 = c_log c.

Lemma fault_refused n e c :
  ready c -> user_mode c -> word e ->
  wp (protection_fault (c_eip c) e) (fun _ => reaches (refused e c)) (set_eip n c).
Proof.
  intros Hr Hu He. apply user_fault; [by apply (ready_ext c)|by destruct c|done|]. intros c1 Hcall Hfl.
  split; [|split; [done|apply Hcall]]. destruct Hcall. by split.
Qed.

Lemma privileged_refused n m l c :
  ready c -> user_mode c -> l < 3 ->
  wp (privileged (c_eip c) l m) (fun _ => reaches (refused 0 c)) (set_eip n c).
Proof.
  intros Hr Hu Hl. unfold privileged. wp_steps. cbn [id].
  assert (cpl (set_eip n c) = 3) as -> by (by apply (cpl_user c)). zb. by apply fault_refused.
Qed.

Lemma port_refused n port m c :
  ready c -> user_mode c -> 0 <= port ->
  wp (with_port (c_eip c) port m) (fun _ => reaches (refused 0 c)) (set_eip n c).
Proof.
  intros Hr Hu Hp. unfold with_port. apply wp_bind.
  apply user_no_io; [by apply (ready_ext c)|by apply (cpl_user c)|apply (um_iopl _ Hu)|done|]. by apply fault_refused.
Qed.

(** C4. A user program cannot get around the system-call gate.  Calling another gate,
    masking interrupts, accessing a port, a control register or the descriptor
    table is a general protection fault: the instruction does nothing, and the
    kernel gets to [trap] with the fault, its error code, the address of the
    instruction and the program's registers in the frame, interrupts off. *)
Theorem user_cannot_bypass (i : instr) (e : Z) (l : list instr) (q : Z) (c : X86.cpu) :
  ready c -> user_mode c -> code_at (c_eip c) (i :: l) q -> forbidden i = Some e ->
  reaches (refused e c) c.
Proof.
  intros Hr Hu Hcode Hi. assert (flatseg (c_seg c CS)) as Fc by (rewrite (um_cs _ Hu); done).
  eapply reaches_code; [exact Hcode|done|]. intros n _. pose proof (um_iopl _ Hu) as Hio.
  destruct i; simpl in Hi; try discriminate Hi; cbn [exec_instr].
  1, 2, 6: injection Hi as <-; by apply privileged_refused.
  - destruct (Z.leb_spec 0 n0); [|done]. destruct (Z.ltb_spec n0 256); [|done]. destruct (Z.eqb_spec n0 T_SYSCALL) as [|Hne]; [done|].
    injection Hi as <-. unfold int_n. apply wp_bind.
    apply (wp_idt_entry cpu idt vectors); [by apply ready_tables, (ready_ext c)|done|]. wp_steps.
    assert (cpl (set_eip (c_eip c + n) c) = 3) as -> by (by apply (cpl_user c)).
    destruct (gate_facts vectors n0) as (_ & _ & _ & -> & _); [by apply (tc_vector _ _ _ _ (rd_code _ Hr))|].
    rewrite (proj2 (Z.eqb_neq _ _)) by done. change (0 <? 3) with true. cbv iota. apply fault_refused; [done|done|unfold word; lia].
  - injection Hi as <-. wp_steps. apply privileged_refused; [done|done|]. change (iopl c < 3). lia.
  - injection Hi as <-. wp_steps. apply privileged_refused; [done|done|]. change (iopl c < 3). lia.
  - destruct (Z.leb_spec 0 port); [|done]. injection Hi as <-. by apply port_refused.
  - destruct (Z.leb_spec 0 port); [|done]. injection Hi as <-. by apply port_refused.
  - injection Hi as <-. unfold getreg. wp_steps. apply port_refused; [done|done|]. apply Z.mod_pos_bound. lia.
Qed.
(** ** Interrupts of the kernel *)

(** The frame of a trap in the kernel has no [esp] and [ss]. *)
Definition kernel_frame (c : X86.cpu) (n : Z) : list Z :=
  saved_regs c (c_reg c ESP - 36) ++ [n; 0; c_eip c; 8; c_eflags c].

Record kernel_thread (c : X86.cpu) : Prop := {
  kt_mode : kernel_mode c;
  kt_data s : s ∈ [DS; ES; FS; GS] -> data_ok (c_seg c s);
  kt_reg r : word (c_reg c r);
  kt_eip : word (c_eip c);
  kt_eflags : word (c_eflags c);
}.

Lemma data_ok_sel g : data_ok g -> 0 <= sg_sel g < 65536.
Proof. intros [->|?]; [done|by apply user_data_sel]. Qed.

Lemma kernel_frame_words c n : kernel_thread c -> 0 <= n < 256 -> 36 <= c_reg c ESP -> Forall word (kernel_frame c n).
Proof.
  intros Hk Hn Hsp. assert (forall s, s ∈ [DS; ES; FS; GS] -> word (sg_sel (c_seg c s))) as Hs.
  { intros s Hs. pose proof (data_ok_sel _ (kt_data _ Hk s Hs)). unfold word. lia. }
  pose proof (kt_reg _ Hk) as Hr. pose proof (Hr ESP) as Hw. pose proof (kt_eip _ Hk). pose proof (kt_eflags _ Hk).
  unfold kernel_frame, saved_regs. cbn [app]. rewrite !Forall_cons, Forall_nil.
  split_and!; try apply Hr; try (apply Hs; set_solver); try done; unfold word in *; lia.
Qed.

(** The words of the frame at [tf] give the registers back. *)
Lemma kernel_returns c n q tf (Q : X86.cpu -> Prop) c2 :
  kernel_thread c -> c_reg c ESP = tf + 68 -> 0 <= tf -> tf + 76 < 4294967296 ->
  desc_tables cpu idt vectors c2 -> kernel_mode c2 -> code_at (c_eip c2) trapret q -> c_reg c2 ESP = tf ->
  (forall i w, kernel_frame c n !! i = Some w -> ld32 (c_mem c2) (tf + 4 * Z.of_nat i) = w) ->
  (forall c3, c_eip c3 = c_eip c -> c_eflags c3 = c_eflags c -> (forall r, c_reg c3 r = c_reg c r) ->
     (forall s, c_seg c3 s = c_seg c s) -> c_mem c3 = c_mem c2 -> reaches Q c3) ->
  reaches Q c2.
Proof.
  intros Hk Hsp H0 H1 Ht Hm Hcode Hsp2 Hw HQ.
  assert (forall s i, s ∈ [DS; ES; FS; GS] -> kernel_frame c n !! i = Some (sg_sel (c_seg c s)) ->
    u16 (ld32 (c_mem c2) (tf + 4 * Z.of_nat i)) = sg_sel (c_seg c s)) as Hsel.
  { intros s i Hs Hi. rewrite (Hw i _ Hi). apply Z.mod_small. by apply data_ok_sel, (kt_data _ Hk). }
  eapply (trapret_pops cpu idt vectors [Iret] q tf (c_seg c GS) (c_seg c FS) (c_seg c ES) (c_seg c DS));
    [done|done|exact Hcode|done|done|done|try (apply (kt_data _ Hk); set_solver)..|].
  { by apply (Hsel GS 8%nat); [set_solver|]. }
  { by apply (Hsel FS 9%nat); [set_solver|]. }
  { by apply (Hsel ES 10%nat); [set_solver|]. }
  { by apply (Hsel DS 11%nat); [set_solver|]. }
  clear Hcode. intros c3 Hcode [R1 R2 R3 R4 R5 R6 R7 R8 R9 R10 R11 R12 R13 (R14 & R15 & R16 & R17)] Hsp3 Hc3 Hs3.
  destruct (keeps_mode cpu idt vectors c2 c3) as [Ht3 Hm3]; [done..|by rewrite Hc3, (km_cs _ Hm)|by rewrite Hs3, (km_ss _ Hm)|done|done|].
  assert (flatseg (c_seg c3 CS)) as Fc by (rewrite Hc3; done).
  x86_instr. set (c4 := set_eip _ _). destruct (keeps_mode cpu idt vectors c3 c4) as [Ht4 Hm4]; [reflexivity..|done|done|].
  apply (iret_kernel cpu idt vectors (ld_tf (c_mem c2) tf) _ c4 tf); try done.
  { unfold c4. cpu_simpl. by rewrite R12. }
  { unfold ld_tf. cbn [tf_cs]. change 60 with (4 * Z.of_nat 15). by rewrite (Hw 15%nat 8) by done. }
  intros c5 I1 I2 I3 I4 I5 I6 I7 I8. apply HQ.
  - rewrite I1. by apply (Hw 14%nat).
  - rewrite I2. by apply (Hw 16%nat).
  - intros r. destruct (decide (r = ESP)) as [->|Hr]; [by rewrite I3, Hsp|]. rewrite I4 by done. unfold c4. cpu_simpl.
    destruct r; [rewrite R7|rewrite R6|rewrite R5|rewrite R4|done|rewrite R3|rewrite R2|rewrite R1].
    + by apply (Hw 7%nat).
    + by apply (Hw 6%nat).
    + by apply (Hw 5%nat).
    + by apply (Hw 4%nat).
    + by apply (Hw 2%nat).
    + by apply (Hw 1%nat).
    + cbn. replace tf with (tf + 4 * Z.of_nat 0) by lia. by apply (Hw 0%nat).
  - intros s. rewrite I5. unfold c4. cpu_simpl. destruct s; cpu_simpl; try done.
    + by rewrite (km_cs _ (kt_mode _ Hk)).
    + by rewrite Hs3, (km_ss _ (kt_mode _ Hk)).
  - rewrite I6. unfold c4. cpu_simpl. done.
Qed.
(** C5. A device interrupt is invisible to the kernel code it interrupts.  The
    processor and the assembly code call [trap] on the same stack, with the number
    in the frame and interrupts off, and write below the stack pointer only.  When
    [trap] returns and left the frame alone, the interrupted code goes on with all
    its registers, segments and flags. *)
Theorem kernel_interrupt_transparent (n : Z) (c : X86.cpu) :
  trap_code vectors alltraps_at trap_at back -> desc_tables cpu idt vectors c -> kernel_thread c ->
  0 <= n < 256 -> has_errcode n = false -> n <> T_SYSCALL ->
  76 <= c_reg c ESP -> c_reg c ESP + 8 < 4294967296 -> apart cpu idt (c_reg c ESP - 76) (c_reg c ESP) ->
  let tf := c_reg c ESP - 68 in
  wp (interrupt n None) (fun _ => reaches (fun c1 =>
    c_eip c1 = trap_at /\ ld32 (c_mem c1) (c_reg c1 ESP + 4) = tf /\ tf_trapno (ld_tf (c_mem c1) tf) = n /\
    kernel_mode c1 /\ c_eflags c1 = Z.land (c_eflags c) (Z.lnot FL_IF) /\
    (forall b, ~ (tf - 8 <= b < c_reg c ESP) -> ld8 (c_mem c1) b = ld8 (c_mem c) b) /\
    forall c2,
      c_eip c2 = back -> c_reg c2 ESP = tf - 4 -> kernel_mode c2 -> desc_tables cpu idt vectors c2 ->
      (forall b, tf <= b < c_reg c ESP -> ld8 (c_mem c2) b = ld8 (c_mem c1) b) ->
      reaches (fun c3 =>
        c_eip c3 = c_eip c /\ c_eflags c3 = c_eflags c /\ (forall r, c_reg c3 r = c_reg c r) /\
        (forall s, c_seg c3 s = c_seg c s) /\ c_mem c3 = c_mem c2) c2)) c.
Proof.
  intros Hc Ht Hk Hn He Hns Hsp Hsp' Ha tf. destruct (tc_vector _ _ _ _ Hc n Hn) as [Hv _].
  unfold interrupt. apply wp_bind. apply (wp_idt_entry cpu idt vectors); [done|done|].
  apply wp_enter_kernel with cpu idt; [done|apply Hk|done|cbn [hw_words app length]; lia|lia|]. cbn [hw_words app length].
  replace (4 * Z.of_nat 3) with 12 by lia. intros c0 Hen.
  eapply (entry_runs cpu idt vectors alltraps_at trap_at back n); [done|exact Hen|done|done|apply Hk|apply Hk|lia|unfold apart in *; cbn [length]; lia|].
  assert (Z.of_nat (length (vector_words n)) = 2) as -> by (unfold vector_words; by rewrite He).
  replace (c_reg c ESP - 12 - 4 * 2 - 48) with tf by (unfold tf; lia).
  assert (saved_regs c (tf + 32) ++ vector_words n ++ [c_eip c; sg_sel (c_seg c CS); c_eflags c] = kernel_frame c n) as ->.
  { unfold vector_words, kernel_frame. rewrite He, (km_cs _ (kt_mode _ Hk)). replace (tf + 32) with (c_reg c ESP - 36) by (unfold tf; lia). done. }
  intros c1 [A1 A2 A3 A4 A5 A6 A7 A8 A9 A10].
  pose proof (kernel_frame_words c n Hk Hn ltac:(lia)) as Hwords. rewrite Forall_forall in Hwords.
  assert (forall i w, kernel_frame c n !! i = Some w -> ld32 (c_mem c1) (tf + 4 * Z.of_nat i) = w) as Hw.
  { intros i w Hi. rewrite A3. apply (ld32_st_words_at (S (S i))); [lia|done|]. apply Hwords. by eapply list_elem_of_lookup_2. }
  split_and!; try done.
  - rewrite A3, A2. by apply (ld32_st_words_at 1); [lia|done|unfold tf; lia].
  - by apply (Hw 12%nat).
  - rewrite A9. unfold entry_flags. by rewrite (proj2 (Z.eqb_neq _ _)).
  - intros b Hb. rewrite A3. apply ld8_st_words_out. cbn. unfold tf in *. lia.
  - intros c2 B1 B2 B3 B4 B5. destruct (tc_return _ _ _ _ Hc) as (q & Hcode). rewrite <- B1 in Hcode. cbn [after_trap app] in Hcode.
    assert (flatseg (c_seg c2 CS)) as Fc by (rewrite (km_cs _ B3); done).
    assert (0 <= tf) by (unfold tf; lia). assert (tf < 4294967296 - 76) by (unfold tf; lia).
    x86_instr. set (c3 := set_eflags _ _).
    destruct (keeps_mode cpu idt vectors c2 c3) as [Ht3 Hk3]; [reflexivity..|done|done|].
    apply (kernel_returns c n q tf _ c3); try done; try (unfold tf; lia).
    + unfold c3. cpu_simpl. lia.
    + intros i w Hi. rewrite <- (Hw i w Hi). apply ld32_ext. intros b Hb. apply B5.
      apply lookup_lt_Some in Hi. cbn in Hi. unfold tf in *. lia.
    + intros c4 E1 E2 E3 E4 E5. by apply reaches_done.
Qed.
(** ** The first run of a process *)

(** proc.c, allocproc: below the room for the trap frame lie the address of trapret,
    where forkret returns to, and a context that starts at forkret. *)
Definition allocproc_stack (kstack trapret_at forkret_at : Z) (m : gmap Z Z) : gmap Z Z * Z * Z :=
  let sp := kstack + KSTACKSIZE in
  let sp := sp - 76 in
  let tf := sp in
  let sp := sp - 4 in
  let m := st32 m sp trapret_at in
  let sp := sp - 20 in
  let m := memset_mem m sp sp 0 20 in
  let m := st32 m (sp + 16) forkret_at in
  (m, tf, sp).

(** The frame that userinit or fork writes. *)
Definition st_tf (m : gmap Z Z) (a : Z) (f : trapframe) : gmap Z Z := st_words m a (tf_words f).

Lemma allocproc_stack_words kstack trapret_at forkret_at m f :
  word trapret_at -> word forkret_at -> tf_wf f ->
  let '(m', tf, ctx) := allocproc_stack kstack trapret_at forkret_at m in
  let m2 := st_tf m' tf f in
  ld_context m2 ctx = mkCtx 0 0 0 0 forkret_at /\ ld32 m2 (ctx + 20) = trapret_at /\ ld_tf m2 tf = f /\
  tf = kstack + 4020 /\ ctx = kstack + 3996.
Proof.
  intros Ht Hf Hwf. unfold allocproc_stack, KSTACKSIZE, st_tf. set (m1 := st32 m _ _). set (ctx := _ - 20).
  assert (forall b, ctx <= b < ctx + 20 -> ld8 (memset_mem m1 ctx ctx 0 20) b = 0) as Hz.
  { intros b Hb. rewrite ld8_memset by lia. by rewrite decide_True. }
  assert (forall b, ctx <= b -> b + 4 <= ctx + 16 -> ld32 (memset_mem m1 ctx ctx 0 20) b = 0) as Hz32.
  { intros b H0 H1. unfold ld32. by rewrite !Hz by lia. }
  split_and!; try (unfold ctx; lia); [| |by apply ld_tf_st].
  - unfold ld_context. rewrite !ld32_st_words_out by (unfold ctx; cbn [length tf_words]; lia).
    rewrite !(ld32_st32_ne _ (ctx + 16)) by lia. rewrite !Hz32 by lia. f_equal. by apply ld32_st32_eq.
  - rewrite ld32_st_words_out by (unfold ctx; cbn [length tf_words]; lia). rewrite ld32_st32_ne by lia.
    rewrite (ld32_ext m1) by (intros b Hb; rewrite ld8_memset by lia; rewrite decide_False by lia; done).
    unfold m1. replace (ctx + 20) with (kstack + 4096 - 76 - 4) by (unfold ctx; lia). by apply ld32_st32_eq.
Qed.

(** C7. A new process starts in user mode.  The scheduler's switch to the context
    that allocproc laid out gets to forkret, with the address of trapret as its
    return address.  When forkret has returned there, trapret loads every register
    of the frame that userinit or fork wrote: the process runs its program at the
    frame's [eip], on its own stack, in the user segments. *)
Theorem new_process_starts (c : X86.cpu) (old kstack trapret_at forkret_at q : Z) (m0 : gmap Z Z) (f : trapframe) (gs fs es ds : seg) :
  let '(m, tf, ctx) := allocproc_stack kstack trapret_at forkret_at m0 in
  c_mem c = st_tf m tf f -> swtch_call c old ctx -> 0 <= kstack < 4294967296 - 4096 ->
  (old + 4 <= ctx \/ kstack + KSTACKSIZE <= old) ->
  (c_reg c ESP <= ctx \/ kstack + KSTACKSIZE <= c_reg c ESP - 16) ->
  word trapret_at -> word forkret_at -> code_at trapret_at trapret q -> tf_wf f ->
  user_data gs -> user_data fs -> user_data es -> user_data ds ->
  tf_gs f = sg_sel gs -> tf_fs f = sg_sel fs -> tf_es f = sg_sel es -> tf_ds f = sg_sel ds -> tf_cs f = 27 -> tf_ss f = 35 ->
  reaches (fun c1 =>
    c_eip c1 = forkret_at /\ ld32 (c_mem c1) (c_reg c1 ESP) = trapret_at /\ ld_tf (c_mem c1) (c_reg c1 ESP + 4) = f /\
    forall c2,
      c_eip c2 = trapret_at -> c_reg c2 ESP = c_reg c1 ESP + 4 -> kernel_mode c2 -> desc_tables cpu idt vectors c2 ->
      ld_tf (c_mem c2) (c_reg c2 ESP) = f ->
      reaches (user_regs f gs fs es ds c2) c2) c.
Proof.
  pose proof (allocproc_stack_words kstack trapret_at forkret_at m0 f) as Hwords.
  destruct (allocproc_stack kstack trapret_at forkret_at m0) as [[m tf] ctx]. cbv zeta in Hwords.
  intros Hm Hcall Hk Hold Hsp Ht Hf Hcode Hwf Dg Df De Dd Eg Ef Ee Ed Ecs Ess.
  destruct Hwords as (Wctx & Wret & Wtf & -> & ->); [done..|]. unfold KSTACKSIZE in *.
  assert (forall b, kstack + 3996 <= b < kstack + 4096 -> ld8 (swtch_mem c old) b = ld8 (st_tf m (kstack + 4020) f) b) as Hsame.
  { intros b Hb. rewrite swtch_mem_out by lia. by rewrite Hm. }
  apply (swtch_runs c old (kstack + 3996)); [done|]. intros c1 Em Ectx Esp Hsys _.
  assert (ld_context (swtch_mem c old) (kstack + 3996) = mkCtx 0 0 0 0 forkret_at) as Ec.
  { rewrite <- Wctx. unfold ld_context. f_equal; apply ld32_ext; intros; apply Hsame; lia. }
  assert (ld_tf (c_mem c1) (kstack + 4020) = f) as Etf.
  { rewrite <- Wtf, Em. unfold ld_tf. f_equal; first [apply f_equal|idtac]; apply ld32_ext; intros; apply Hsame; lia. }
  rewrite Esp. split_and!.
  - by rewrite Ec in Ectx; injection Ectx.
  - rewrite <- Wret, Em. apply ld32_ext. intros. apply Hsame. lia.
  - by replace (kstack + 3996 + 20 + 4) with (kstack + 4020) by lia.
  - intros c2 B1 B2 B3 B4 B5. rewrite <- B1 in Hcode. pose proof B5 as B5'. rewrite B2 in B5'.
    eapply (trapret_user cpu idt vectors q (c_reg c2 ESP) gs fs es ds); try done; try lia; try by rewrite B5.
Qed.
End path.

(** ** An example *)

(** The kernel's code at chosen addresses, instructions of length 1, and a user
    program at 0x1000. *)
Module Sample.
Definition cpu0 : Z := 0x80112800.
Definition idt0 : Z := 0x80114c00.
Definition vec (n : Z) : Z := 0x80106000 + 8 * n.
Definition alltraps0 : Z := 0x80107000.
Definition trap0 : Z := 0x80107400.
Definition back0 : Z := alltraps0 + 10.
Definition swtch0 : Z := 0x80108000.
Definition kstack0 : Z := 0x8dfff000.
Definition top0 : Z := 0x8e000000.

Definition kcode (user : list instr) : Code := fun p =>
  if (0x80106000 <=? p) && (p <? 0x80106800)
  then listing (vec ((p - 0x80106000) / 8)) (vector alltraps0 ((p - 0x80106000) / 8)) p
  else if (alltraps0 <=? p) && (p <? trap0) then listing alltraps0 (alltraps trap0 ++ after_trap ++ trapret) p
  else if swtch0 <=? p then listing swtch0 swtch p
  else listing 0x1000 user p.

(** The state that the boot code and a switch to a process leave. *)
Definition installed : X86.cpu :=
  match (seginit cpu0;; tvinit_gates idt0 vec;; idtinit idt0;; switchuvm_tss cpu0 kstack0) blank_cpu with
  | Ret _ c => c
  | _ => blank_cpu
  end.

Lemma installed_ok : tables_ok cpu0 idt0 top0 vec installed.
Proof.
  assert (wp (seginit cpu0;; tvinit_gates idt0 vec;; idtinit idt0;; switchuvm_tss cpu0 kstack0)
    (fun _ c => tables_ok cpu0 idt0 top0 vec c) blank_cpu) as H.
  { apply wp_boot_tables; [unfold cpu0, idt0; offsets; lia|]. intros c Hc. eapply wp_switch_tables; [done|unfold kstack0; lia|done]. }
  apply wp_inv in H as (a & c & Hrun & Hc). unfold installed. rewrite Hrun. exact Hc.
Qed.

Definition user_segs (s : sreg) : seg := match s with CS => ucs | SS | DS | ES => uds | FS | GS => null_seg 0 end.

Lemma apart0 a b : top0 - 0x1000 <= a -> b <= top0 -> apart cpu0 idt0 a b.
Proof. unfold apart, cpu0, idt0, top0. offsets. lia. Qed.

Lemma kcode_vector user n :
  0 <= n < 256 -> word (vec n) /\ exists q, code_at (prog := kcode user) (vec n) (vector alltraps0 n) q.
Proof.
  intros Hn. split; [unfold word, vec; lia|].
  assert (length (vector alltraps0 n) <= 3)%nat as Hlen by (unfold vector; destruct (has_errcode n); simpl; lia).
  eexists. apply code_at_units; [|unfold vec; lia..]. intros i x Hi. pose proof (lookup_lt_Some _ _ _ Hi).
  assert ((vec n + Z.of_nat i - 0x80106000) / 8 = n) as Hp.
  { unfold vec. symmetry. apply Z.div_unique with (Z.of_nat i); lia. }
  assert (0x80106000 <= vec n + Z.of_nat i < 0x80106800) by (unfold vec; lia).
  unfold code, kcode. rewrite Hp. zb. cbn [andb]. by apply listing_at.
Qed.

Lemma kcode_alltraps user i x :
  (alltraps trap0 ++ after_trap ++ trapret) !! i = Some x -> kcode user (alltraps0 + Z.of_nat i) = Some (x, 1).
Proof.
  intros Hi. pose proof (lookup_lt_Some _ _ _ Hi) as Hlt. cbn in Hlt. unfold kcode, trap0, alltraps0. zb. cbn [andb]. by apply listing_at.
Qed.

Lemma kcode_ok user : trap_code (prog := kcode user) vec alltraps0 trap0 back0.
Proof.
  split.
  - apply kcode_vector.
  - apply code_at_units; [|cbn; unfold alltraps0; lia..]. intros i x Hi. apply kcode_alltraps. by apply lookup_app_l_Some.
  - eexists. apply code_at_units; [|cbn; unfold back0, alltraps0; lia..]. intros i x Hi. unfold code, back0.
    rewrite <- (kcode_alltraps user (10 + i) x) by done. f_equal. lia.
Qed.

Lemma user_code user : (length user < 100)%nat -> code_at (prog := kcode user) 0x1000 user (0x1000 + Z.of_nat (length user)).
Proof.
  intros Hlen. apply code_at_units; [|lia..]. intros i x Hi. pose proof (lookup_lt_Some _ _ _ Hi).
  unfold code, kcode, swtch0, alltraps0. zb. cbn [andb]. by apply listing_at.
Qed.

Section registers.
Context (inst : X86.cpu) (Hinst : tables_ok cpu0 idt0 top0 vec inst).

(** The same memory and table registers with other registers. *)
Definition with_regs (R : reg -> Z) (S : sreg -> seg) (ip fl : Z) : X86.cpu :=
  mkCpu R S (fun _ => 1) ip fl (c_gdtr inst) (c_idtr inst) (c_tr inst) (c_mem inst) [].

Lemma with_regs_ok R S ip fl : tables_ok cpu0 idt0 top0 vec (with_regs R S ip fl).
Proof. by apply (tables_ok_ext cpu0 idt0 top0 vec inst). Qed.

Definition user_cpu : X86.cpu :=
  with_regs (fun r => match r with ESP => 0x2ff0 | EAX => 7 | EBX => 8 | _ => 0 end) user_segs 0x1000 0x202.

Lemma user_cpu_mode : user_mode user_cpu.
Proof.
  split; try done.
  - intros s Hs. set_unfold in Hs. destruct Hs as [->|[->|[->|[->|[]]]]]; [by left|by left|right; by exists 0..].
  - intros []; unfold word; cbn; lia.
Qed.

Lemma ready0 user R S ip fl : ready (prog := kcode user) cpu0 idt0 vec alltraps0 trap0 back0 top0 (with_regs R S ip fl).
Proof. split; [apply kcode_ok|apply with_regs_ok|unfold top0; lia|apply apart0; lia]. Qed.

Definition kernel_segs (s : sreg) : seg := match s with CS => kcs | FS | GS => null_seg 0 | _ => kds end.
Definition kernel_cpu : X86.cpu :=
  with_regs (fun r => match r with ESP => 0x8dfffe00 | EAX => 7 | EBX => 8 | _ => 0 end) kernel_segs 0x80103000 0x202.

Lemma kernel_cpu_thread : kernel_thread kernel_cpu.
Proof.
  split; try done.
  - intros s Hs. set_unfold in Hs. destruct Hs as [->|[->|[->|[->|[]]]]]; [by left|by left|right; right; by exists 0..].
  - intros []; unfold word; cbn; lia.
Qed.
End registers.

(** A new process with the kernel stack [kstack0], and the scheduler about to switch
    to it: its stack is at 0x80120000, [old] at 0x80121000. *)
Definition trapret0 : Z := back0 + 1.
Definition forkret0 : Z := 0x80103800.
Definition stack_mem : gmap Z Z := st_words ∅ 0x80120000 [0x80103900; 0x80121000; kstack0 + 3996].
Definition start_mem : gmap Z Z :=
  let '(m, tf, _) := allocproc_stack kstack0 trapret0 forkret0 stack_mem in
  st_tf m tf init_tf.
Definition scheduler_cpu : X86.cpu :=
  mkCpu (fun r => match r with ESP => 0x80120000 | _ => 5 end) kernel_segs (fun _ => 1) swtch0 0x2 (0, 0) (0, 0) (mkSeg 0 0 0 0) start_mem [].

Lemma kcode_trapret user : code_at (prog := kcode user) trapret0 trapret (trapret0 + 7).
Proof.
  apply (code_at_units (prog := kcode user) trapret); [|cbn; unfold trapret0, back0, alltraps0; lia..]. intros i x Hi. unfold code, trapret0, back0.
  rewrite <- (kcode_alltraps user (11 + i) x) by done. f_equal. lia.
Qed.

Lemma init_tf_wf : tf_wf init_tf.
Proof.
  split; [change (tf_words init_tf) with [0; 0; 0; 0; 0; 0; 0; 0; 0; 0; 35; 35; 0; 0; 0; 27; 0x200; 4096; 35]
         |change (Forall (fun s => 0 <= s < 65536) [0; 0; 35; 35; 27; 35])];
    rewrite !Forall_cons, Forall_nil; unfold word; lia.
Qed.

Lemma scheduler_calls : swtch_call (prog := kcode []) scheduler_cpu 0x80121000 (kstack0 + 3996).
Proof.
  split.
  - split; [done..|]. intros []; unfold word; cbn; lia.
  - exists (swtch0 + Z.of_nat (length swtch)). apply code_at_units; [|cbn; unfold swtch0; lia..]. intros i x Hi.
    pose proof (lookup_lt_Some _ _ _ Hi) as Hlt. cbn in Hlt. cbn [c_eip scheduler_cpu].
    unfold code, kcode, swtch0, alltraps0, trap0. zb. cbn [andb]. by apply listing_at.
  - vm_compute. reflexivity.
  - vm_compute. reflexivity.
  - cbn. lia.
  - unfold kstack0. lia.
  - cbn. lia.
  - unfold kstack0. cbn. lia.
  - unfold kstack0. lia.
Qed.
End Sample.

Lemma syscall_roundtrip_witness :
  user_mode (Sample.user_cpu Sample.installed) /\
  reaches (mach := no_devices) (prog := Sample.kcode (SYSCALL 11))
    (fun c1 => c_eip c1 = Sample.trap0 /\ tf_eax (ld_tf (c_mem c1) (Sample.top0 - 76)) = 11 /\
               tf_trapno (ld_tf (c_mem c1) (Sample.top0 - 76)) = T_SYSCALL) (Sample.user_cpu Sample.installed).
Proof.
  generalize Sample.installed Sample.installed_ok. intros inst Hinst. split; [apply Sample.user_cpu_mode|].
  pose proof (syscall_roundtrip (mach := no_devices) (prog := Sample.kcode (SYSCALL 11)) Sample.cpu0 Sample.idt0 Sample.vec
    Sample.alltraps0 Sample.trap0 Sample.back0 Sample.top0 11 _ (Sample.user_cpu inst) (Sample.ready0 inst Hinst _ _ _ _ _)
    (Sample.user_cpu_mode inst) (Sample.user_code (SYSCALL 11) ltac:(cbn; lia)) ltac:(unfold word; lia) ltac:(cbn; lia)) as H.
  eapply reaches_mono; [exact H|]. intros c1 (ip & Hc & _ & _). split; [apply Hc|]. by rewrite (cl_frame _ _ _ _ _ _ _ _ _ _ Hc).
Defined.

Lemma user_cannot_bypass_witness :
  forbidden (Int 32) = Some 258 /\
  reaches (mach := no_devices) (prog := Sample.kcode [Int 32])
    (fun c1 => c_eip c1 = Sample.trap0 /\ tf_trapno (ld_tf (c_mem c1) (Sample.top0 - 76)) = 13 /\
               tf_eip (ld_tf (c_mem c1) (Sample.top0 - 76)) = 0x1000) (Sample.user_cpu Sample.installed).
Proof.
  generalize Sample.installed Sample.installed_ok. intros inst Hinst. split; [reflexivity|].
  pose proof (user_cannot_bypass (mach := no_devices) (prog := Sample.kcode [Int 32]) Sample.cpu0 Sample.idt0 Sample.vec
    Sample.alltraps0 Sample.trap0 Sample.back0 Sample.top0 (Int 32) 258 [] _ (Sample.user_cpu inst) (Sample.ready0 inst Hinst _ _ _ _ _)
    (Sample.user_cpu_mode inst) (Sample.user_code [Int 32] ltac:(cbn; lia)) eq_refl) as H.
  eapply reaches_mono; [exact H|]. intros c1 (Hc & _). split; [apply Hc|]. by rewrite (cl_frame _ _ _ _ _ _ _ _ _ _ Hc).
Defined.

Lemma kernel_interrupt_transparent_witness :
  kernel_thread (Sample.kernel_cpu Sample.installed) /\
  wp (interrupt 32 None) (fun _ => reaches (mach := no_devices) (prog := Sample.kcode [])
    (fun c1 => c_eip c1 = Sample.trap0 /\ tf_trapno (ld_tf (c_mem c1) (0x8dfffe00 - 68)) = 32)) (Sample.kernel_cpu Sample.installed).
Proof.
  generalize Sample.installed Sample.installed_ok. intros inst Hinst. split; [apply Sample.kernel_cpu_thread|].
  pose proof (kernel_interrupt_transparent (mach := no_devices) (prog := Sample.kcode []) Sample.cpu0 Sample.idt0 Sample.vec
    Sample.alltraps0 Sample.trap0 Sample.back0 32 (Sample.kernel_cpu inst) (Sample.kcode_ok [])
    (t_desc _ _ _ _ _ (Sample.with_regs_ok inst Hinst _ _ _ _)) (Sample.kernel_cpu_thread inst) ltac:(lia) eq_refl ltac:(discriminate)
    ltac:(cbn; lia) ltac:(cbn; lia) ltac:(apply Sample.apart0; cbn; unfold Sample.top0; lia)) as H.
  eapply wp_mono; [exact H|]. intros u c0 H0. eapply reaches_mono; [exact H0|]. intros c1 (H1 & _ & H2 & _). by split.
Defined.

Lemma new_process_starts_witness :
  swtch_call (prog := Sample.kcode []) Sample.scheduler_cpu 0x80121000 (Sample.kstack0 + 3996) /\
  reaches (mach := no_devices) (prog := Sample.kcode [])
    (fun c1 => c_eip c1 = Sample.forkret0 /\ ld_tf (c_mem c1) (c_reg c1 ESP + 4) = init_tf) Sample.scheduler_cpu.
Proof.
  split; [apply Sample.scheduler_calls|].
  pose proof (new_process_starts (mach := no_devices) (prog := Sample.kcode []) Sample.cpu0 Sample.idt0 Sample.vec
    Sample.scheduler_cpu 0x80121000 Sample.kstack0 Sample.trapret0 Sample.forkret0 (Sample.trapret0 + 7) Sample.stack_mem init_tf
    (null_seg 0) (null_seg 0) uds uds) as H.
  unfold allocproc_stack in H. cbv beta iota zeta in H.
  eapply reaches_mono; [apply (H eq_refl Sample.scheduler_calls)|].
  - unfold Sample.kstack0. lia.
  - left. unfold Sample.kstack0, KSTACKSIZE. lia.
  - left. unfold Sample.kstack0, KSTACKSIZE. cbn [c_reg Sample.scheduler_cpu]. lia.
  - unfold word, Sample.trapret0, Sample.back0, Sample.alltraps0. lia.
  - unfold word, Sample.forkret0. lia.
  - apply Sample.kcode_trapret.
  - apply Sample.init_tf_wf.
  - right. by exists 0.
  - right. by exists 0.
  - by left.
  - by left.
  - reflexivity.
  - reflexivity.
  - reflexivity.
  - reflexivity.
  - reflexivity.
  - reflexivity.
  - intros c1 (H1 & _ & H2 & _). by split.
Defined.
