(* ===== verification/BootAsm.v ===== *)
(** * Starting a processor (bootasm.S, entry.S, entryother.S)

    bootasm.S starts in real mode and ends with the call of bootmain (Boot.v);
    entry.S turns paging on and jumps to main; entryother.S does both for the other
    processors.  The labels of a file are arguments of its code. *)

From S2P Require Import Prelude Mmu Mem Bytes Proc Devices X86 X86Exec Segments Switch TrapEntry Boot DevicesSpec.

(** ** bootasm.S *)

(** Wait until the keyboard controller is not busy. *)
Definition seta20 (label : Z) : list instr := [InbI 0x64; TestbI 0x2 EAX; Jnz label].

Definition bootasm_segs : list instr :=
  [Cli; XorwRR EAX EAX; MovwS EAX DS; MovwS EAX ES; MovwS EAX SS].

(** To protected mode through the descriptor table at [gdtdesc]. *)
Definition enter_protected (gdtdesc start32 : Z) : list instr :=
  [ Lgdt (Disp gdtdesc None);
    MovCR CR0 EAX;
    OrI CR0_PE EAX;
    MovRC EAX CR0;
    Ljmp (Z.shiftl SEG_KCODE 3) start32 ].

Definition bootasm (seta20_1 seta20_2 gdtdesc start32 : Z) : list instr :=
  bootasm_segs ++
  seta20 seta20_1 ++ [MovbI 0xd1 EAX; OutbI 0x64] ++
  seta20 seta20_2 ++ [MovbI 0xdf EAX; OutbI 0x60] ++
  enter_protected gdtdesc start32.

(** The data segment registers in protected mode. *)
Definition load_segs : list instr :=
  [ MovwI (Z.shiftl SEG_KDATA 3) EAX;
    MovwS EAX DS;
    MovwS EAX ES;
    MovwS EAX SS;
    MovwI 0 EAX;
    MovwS EAX FS;
    MovwS EAX GS ].

(** If the called function returns: a breakpoint of the emulator, and a loop. *)
Definition spin_forever (spin : Z) : list instr :=
  [MovwI 0x8a00 EAX; MovwRR EAX EDX; Outw; MovwI 0x8ae0 EAX; Outw; Jmp spin].

Definition bootasm32 (start bootmain spin : Z) : list instr :=
  load_segs ++ [MovIR start ESP; Call bootmain] ++ spin_forever spin.

(** The bootstrap descriptor table and the operand of lgdt after it. *)
Definition boot_gdt : list Z :=
  SEG_NULLASM ++ SEG_ASM (Z.lor STA_X STA_R) 0x0 0xffffffff ++ SEG_ASM STA_W 0x0 0xffffffff.
Definition gdtdesc_bytes (gdt : Z) : list Z := z2le 2 (Z.of_nat (length boot_gdt) - 1) ++ z2le 4 gdt.

(** ** entry.S *)

(** Turn on page size extension; set the page directory from eax and turn on paging. *)
Definition entry_pse : list instr := [MovCR CR4 EAX; OrI CR4_PSE EAX; MovRC EAX CR4].
Definition entry_pg (bits : Z) : list instr := [MovRC EAX CR3; MovCR CR0 EAX; OrI bits EAX; MovRC EAX CR0].

Definition entry_asm (entrypgdir_at stack main : Z) : list instr :=
  entry_pse ++
  [MovIR (V2P entrypgdir_at) EAX] ++
  entry_pg (Z.lor CR0_PG CR0_WP) ++
  [ MovIR (stack + KSTACKSIZE) ESP;
    MovIR main EAX;
    JmpR EAX ].

(** ** entryother.S *)

Definition entryother (gdtdesc start32 : Z) : list instr := bootasm_segs ++ enter_protected gdtdesc start32.

Definition entryother32 (start spin : Z) : list instr :=
  load_segs ++
  entry_pse ++
  [MovMR (Disp (start - 12) None) EAX] ++
  entry_pg (Z.lor (Z.lor CR0_PE CR0_PG) CR0_WP) ++
  [ MovMR (Disp (start - 4) None) ESP;
    CallM (Disp (start - 8) None) ] ++
  spin_forever spin.

(** ** Flags *)

Lemma arith_flags_if fl cf ov w r : Z.testbit (arith_flags fl cf ov w r) 9 = Z.testbit fl 9.
Proof.
  unfold arith_flags. rewrite Z.lor_spec, Z.land_spec. change (Z.testbit (Z.lnot 0x8C5) 9) with true. rewrite andb_true_r.
  destruct cf, (parity r), (r =? 0), (Z.testbit r (w - 1)), ov; apply orb_false_r.
Qed.

Lemma arith_flags_zf fl cf ov w r : Z.testbit (arith_flags fl cf ov w r) 6 = (r =? 0).
Proof.
  unfold arith_flags. rewrite Z.lor_spec, Z.land_spec. change (Z.testbit (Z.lnot 0x8C5) 6) with false. rewrite andb_false_r.
  destruct cf, (parity r), (r =? 0), (Z.testbit r (w - 1)), ov; reflexivity.
Qed.

Section boot.
Context {mach : Machine} {prog : Code}.
#[local] Existing Instance paging | 0.

(** Paging is off: linear addresses are physical ones. *)
Definition direct (c : cpu) : Prop := has (c_cr c CR0) CR0_PG = false.

Lemma boot_code b i l q (Q : cpu -> Prop) c :
  code_at (b + c_eip c) (i :: l) q -> sg_base (c_seg c CS) = b -> 0 <= b -> 0 <= c_eip c -> direct c ->
  (forall n, 0 <= c_eip c + n -> code_at (b + (c_eip c + n)) l q ->
     wp (exec_instr (c_eip c) i) (fun _ c' => reaches Q c') (set_eip (c_eip c + n) c)) ->
  reaches Q c.
Proof.
  intros (n & Hc & H0 & Hn & Hn' & Hl) Hb Hb0 He Hd Hw.
  eapply reaches_fetch; [unfold xlate, paging; rewrite Hd; cbn [negb]; reflexivity|rewrite Hb, u32_small by lia; exact Hc|].
  rewrite u32_small by lia. apply Hw; [lia|]. by rewrite Z.add_assoc.
Qed.

Lemma wp_loadl_direct s off Q c :
  direct c -> sg_base (c_seg c s) = 0 -> off + 3 <= sg_limit (c_seg c s) -> 0 <= off < 4294967296 ->
  Q (ld32 (c_mem c) off) c -> wp (loadl s off) Q c.
Proof.
  intros Hd Hb Hl Ho HQ. unfold loadl, xlin. wp_steps. zb. unfold translate. wp_steps. cbn [id].
  unfold xlate, paging. rewrite Hd, Hb. cbn [negb]. rewrite u32_small by lia. by wp_steps.
Qed.

Lemma wp_sysload_direct a Q c : direct c -> Q (ld32 (c_mem c) a) c -> wp (sysload a) Q c.
Proof.
  intros Hd HQ. unfold sysload, translate. wp_steps. cbn [id]. unfold xlate, paging. rewrite Hd. cbn [negb]. by wp_steps.
Qed.

(** What stays the same until the descriptor table is loaded. *)
Record boot_keeps (c c' : cpu) : Prop := {
  bk_cr : c_cr c' = c_cr c;
  bk_mem : c_mem c' = c_mem c;
  bk_cs : c_seg c' CS = c_seg c CS;
  bk_tables : c_idtr c' = c_idtr c /\ c_tr c' = c_tr c;
}.

Lemma boot_keeps_trans c1 c2 c3 : boot_keeps c1 c2 -> boot_keeps c2 c3 -> boot_keeps c1 c3.
Proof. intros [] []. split; try congruence. split; naive_solver congruence. Qed.

Lemma cpl_real c : protected c = false -> cpl c = 0.
Proof. intros Hp. unfold X86.cpl. by rewrite Hp. Qed.

Lemma iopl_nonneg c : 0 <= iopl c.
Proof. apply Z.land_nonneg. by right. Qed.

(** The next instruction, in the code segment with base [b]. *)
Ltac boot_instr :=
  lazymatch goal with
  | H : code_at (?b + _) (_ :: _) _ |- reaches _ _ =>
      eapply (boot_code b); [cpu_simpl; exact H|cpu_simpl; first [assumption|reflexivity]|lia|cpu_simpl; first [assumption|lia]|cpu_simpl; assumption|];
      clear H; let n := fresh "n" in let Hn := fresh "Hn" in intros n Hn H; cpu_simpl;
      cbn [c_eip set_reg set_seg set_cr set_eip set_eflags set_gdtr set_idtr set_tr set_mem set_log] in H, Hn;
      cbn [exec_instr]; unfold getreg, setreg; wp_steps; cpu_simpl
  end.

(** Interrupts off and the data segments at 0. *)
Lemma load_real s v Q c :
  protected c = false -> Q tt (set_seg s (mkSeg (u16 v) (16 * u16 v) (sg_limit (c_seg c s)) 0) c) -> wp (load_sreg s v) Q c.
Proof. intros Hp HQ. unfold load_sreg. wp_steps. cbn [id]. rewrite Hp. cbn [negb]. by wp_steps. Qed.

Lemma boot_segs_run l q b (Q : cpu -> Prop) c :
  code_at (b + c_eip c) (bootasm_segs ++ l) q -> sg_base (c_seg c CS) = b -> 0 <= b -> 0 <= c_eip c ->
  direct c -> protected c = false ->
  (forall c', 0 <= c_eip c' -> code_at (b + c_eip c') l q -> boot_keeps c c' -> Z.testbit (c_eflags c') 9 = false ->
     (forall s, s ∈ [DS; ES; SS] -> c_seg c' s = mkSeg 0 0 (sg_limit (c_seg c s)) 0) -> c_log c' = c_log c -> reaches Q c') ->
  reaches Q c.
Proof.
  intros Hcode Hb Hb0 He Hd Hp HQ. unfold bootasm_segs in Hcode. cbn [app] in Hcode.
  boot_instr. unfold privileged. wp_steps. cbn [id].
  pose proof (iopl_nonneg (set_eip (c_eip c + n) c)). rewrite cpl_real by done. zb. wp_steps. cpu_simpl.
  boot_instr. boot_instr. rewrite Z.lxor_nilpotent, u16_low16. change (u16 0) with 0.
  apply load_real; [done|]. cpu_simpl.
  boot_instr. rewrite u16_low16. change (u16 0) with 0.
  apply load_real; [done|]. cpu_simpl.
  boot_instr. rewrite u16_low16. change (u16 0) with 0.
  apply load_real; [done|]. cpu_simpl.
  apply HQ; cpu_simpl; [lia|exact Hcode|done| | |done].
  - rewrite arith_flags_if, Z.land_spec. change (Z.testbit (Z.lnot FL_IF) 9) with false. apply andb_false_r.
  - intros s Hs. set_unfold in Hs. destruct Hs as [->|[->|[->|[]]]]; cpu_simpl; done.
Qed.
(** The descriptor table of bootasm.S and of entryother.S in memory. *)
Record boot_tables (gdt : Z) (m : gmap Z Z) : Prop := {
  bt_code : desc_at m (gdt + 8) (seg_words (SEG (Z.lor STA_X STA_R) 0 0xffffffff 0));
  bt_data : desc_at m (gdt + 16) (seg_words (SEG STA_W 0 0xffffffff 0));
  bt_limit : u16 (ld32 m (gdt + 24)) = 23;
  bt_base : ld32 m (gdt + 26) = gdt;
}.

Lemma wp_boot_gdt gdt sel d (Q : Z * Z -> cpu -> Prop) c :
  direct c -> c_gdtr c = (gdt, 23) -> 0 <= gdt < 65536 -> 0 <= sel < 24 -> Z.testbit sel 2 = false ->
  desc_at (c_mem c) (gdt + 8 * (sel / 8)) d -> Q d c -> wp (gdt_entry sel) Q c.
Proof.
  intros Hd Hg Hr Hs Ht [Hlo Hhi] HQ. unfold gdt_entry. wp_steps. rewrite Hg. wp_steps. rewrite Ht.
  unfold u16. rewrite (Z.mod_small sel) by lia. rewrite Z.shiftr_div_pow2 by lia. change (2 ^ 3) with 8.
  assert (0 <= sel / 8 <= 2) by (Z.div_mod_to_equations; lia). zb. cbn [negb]. rewrite !u32_small by lia.
  apply wp_bind, wp_sysload_direct; [done|]. rewrite Hlo. apply wp_bind, wp_sysload_direct; [done|]. rewrite Hhi. wp_steps. by destruct d.
Qed.

(** To 32-bit code. *)
Lemma enter_protected_run gdt start32 l q b (Q : cpu -> Prop) c :
  code_at (b + c_eip c) (enter_protected (gdt + 24) start32 ++ l) q -> sg_base (c_seg c CS) = b -> 0 <= b -> 0 <= c_eip c ->
  direct c -> protected c = false -> Z.land (sg_sel (c_seg c CS)) 3 = 0 ->
  sg_base (c_seg c DS) = 0 -> 65535 <= sg_limit (c_seg c DS) -> 0 <= gdt -> gdt + 32 < 65536 -> boot_tables gdt (c_mem c) ->
  (forall c', c_eip c' = start32 -> c_mem c' = c_mem c -> c_gdtr c' = (gdt, 23) -> c_seg c' = upd CS kcs (c_seg c) ->
     direct c' -> protected c' = true -> Z.testbit (c_eflags c') 9 = Z.testbit (c_eflags c) 9 -> c_log c' = c_log c -> reaches Q c') ->
  reaches Q c.
Proof.
  intros Hcode Hb Hb0 He Hd Hp Hsel Hds Hdl Hg0 Hg1 [Bc Bd Bl Bb] HQ. unfold enter_protected in Hcode. cbn [app] in Hcode.
  boot_instr. unfold privileged, effective. cbn [a_base a_disp]. wp_steps. cbn [id]. rewrite cpl_real by done. cbn [Z.leb Z.compare]. wp_steps.
  rewrite u32_small by lia. apply wp_loadl_direct; [done|done|cpu_simpl; lia|lia|]. wp_steps. rewrite u32_small by lia.
  apply wp_loadl_direct; [done|done|cpu_simpl; lia|lia|]. wp_steps. cbn [id]. cpu_simpl.
  replace (gdt + 24 + 2) with (gdt + 26) by lia. rewrite Bl, Bb.
  assert (protected (set_eip (c_eip c + n) c) = false) as -> by done.
  assert (Z.land gdt 0xffffff = gdt) as ->.
  { change 0xffffff with (Z.ones 24). rewrite Z.land_ones by lia. apply Z.mod_small. lia. }
  boot_instr. unfold privileged. wp_steps. cbn [id]. rewrite cpl_real by done. cbn [Z.leb Z.compare]. wp_steps. cpu_simpl.
  boot_instr. change (u32 CR0_PE) with CR0_PE.
  boot_instr. unfold privileged. wp_steps. cbn [id]. rewrite cpl_real by done. cbn [Z.leb Z.compare]. wp_steps. cpu_simpl.
  set (c1 := set_cr _ _ _).
  assert (direct c1) as Hd1 by (unfold direct, c1; cpu_simpl; rewrite has_lor, Hd; done).
  assert (protected c1 = true) as Hp1 by (unfold protected, c1; cpu_simpl; rewrite has_lor; apply orb_true_r).
  assert (cpl c1 = 0) as Hcpl by (unfold X86.cpl; by rewrite Hp1).
  eapply (boot_code b); [exact Hcode|done|done|done|done|]. clear Hcode. intros n3 Hn3 _. cbn [exec_instr]. wp_steps.
  assert (cpl (set_eip (c_eip c1 + n3) c1) = 0) as -> by exact Hcpl.
  change (Z.shiftl SEG_KCODE 3) with 8. eapply (wp_boot_gdt gdt 8); [exact Hd1|done|lia|lia|done|exact Bc|].
  change (_ && _) with true. cbv iota. wp_steps. change (as_seg _ _) with kcs. apply HQ; cpu_simpl; try done.
  unfold c1. cpu_simpl. by rewrite arith_flags_if.
Qed.
(** Flat data segments, from the same table. *)
Record boot32 (gdt : Z) (c : cpu) : Prop := {
  b3_direct : direct c;
  b3_prot : protected c = true;
  b3_cs : c_seg c CS = kcs;
  b3_gdtr : c_gdtr c = (gdt, 23);
  b3_tables : boot_tables gdt (c_mem c);
}.

Lemma load_boot_data gdt s Q c :
  boot32 gdt c -> 0 <= gdt < 65536 -> s ∈ [DS; ES; SS] -> Q tt (set_seg s kds c) -> wp (load_sreg s 16) Q c.
Proof.
  intros [Hd Hp Hc Hg [_ Hb _ _]] Hr Hs HQ. unfold load_sreg. wp_steps. cbn [id]. rewrite Hp. cbn [negb].
  assert (cpl c = 0) as Hcpl by (unfold X86.cpl; by rewrite Hp, Hc).
  assert (wp (data_seg 16) (fun g c' => g = kds /\ c' = c) c) as Hdat.
  { unfold data_seg. wp_steps. change (Z.land (u16 16) 0xfffc =? 0) with false. cbv iota. apply wp_bind.
    eapply (wp_boot_gdt gdt 16); [done|done|done|lia|done|exact Hb|]. rewrite Hcpl. done. }
  assert (wp (stack_seg 0 16) (fun g c' => g = kds /\ c' = c) c) as Hstk.
  { unfold stack_seg. apply wp_bind. eapply (wp_boot_gdt gdt 16); [done|done|done|lia|done|exact Hb|]. done. }
  rewrite Hcpl. set_unfold in Hs. destruct Hs as [->|[->|[->|[]]]]; apply wp_bind; (eapply wp_mono; [first [exact Hdat|exact Hstk]|]);
    intros g' c' [-> ->]; by wp_steps.
Qed.

Lemma load_boot_null s Q c :
  protected c = true -> s ∈ [FS; GS] -> Q tt (set_seg s (null_seg 0) c) -> wp (load_sreg s 0) Q c.
Proof.
  intros Hp Hs HQ. unfold load_sreg. wp_steps. cbn [id]. rewrite Hp. cbn [negb].
  set_unfold in Hs. destruct Hs as [->|[->|[]]]; unfold data_seg; wp_steps; change (Z.land (u16 0) 0xfffc =? 0) with true;
    cbv iota; by wp_steps.
Qed.

Lemma boot32_ext gdt c c' :
  boot32 gdt c -> c_cr c' = c_cr c -> c_seg c' CS = c_seg c CS -> c_gdtr c' = c_gdtr c -> c_mem c' = c_mem c -> boot32 gdt c'.
Proof.
  intros [Hd Hp Hc Hg Ht] E1 E2 E3 E4. split; unfold direct, protected in *; congruence.
Qed.

Lemma load_segs_run gdt l q (Q : cpu -> Prop) c :
  code_at (c_eip c) (load_segs ++ l) q -> 0 <= c_eip c -> boot32 gdt c -> 0 <= gdt < 65536 ->
  (forall c', 0 <= c_eip c' -> code_at (c_eip c') l q -> boot32 gdt c' -> c_mem c' = c_mem c -> c_log c' = c_log c -> c_eflags c' = c_eflags c ->
     c_cr c' = c_cr c -> c_seg c' DS = kds -> c_seg c' ES = kds -> c_seg c' SS = kds -> c_seg c' FS = null_seg 0 -> c_seg c' GS = null_seg 0 -> reaches Q c') ->
  reaches Q c.
Proof.
  intros Hcode He Hb Hr HQ. pose proof (b3_direct _ _ Hb) as Hd.
  assert (sg_base (c_seg c CS) = 0) as Hcs by (by rewrite (b3_cs _ _ Hb)).
  unfold load_segs in Hcode. cbn [app] in Hcode. change (c_eip c) with (0 + c_eip c) in Hcode.
  boot_instr.
  boot_instr. rewrite u16_low16. change (u16 (Z.shiftl SEG_KDATA 3)) with 16.
  apply (load_boot_data gdt); [by apply (boot32_ext gdt c)|done|set_solver|].
  boot_instr. rewrite u16_low16. change (u16 (Z.shiftl SEG_KDATA 3)) with 16.
  apply (load_boot_data gdt); [by apply (boot32_ext gdt c)|done|set_solver|].
  boot_instr. rewrite u16_low16. change (u16 (Z.shiftl SEG_KDATA 3)) with 16.
  apply (load_boot_data gdt); [by apply (boot32_ext gdt c)|done|set_solver|].
  boot_instr.
  boot_instr. rewrite u16_low16. change (u16 0) with 0. apply load_boot_null; [apply Hb|set_solver|].
  boot_instr. rewrite u16_low16. change (u16 0) with 0. apply load_boot_null; [apply Hb|set_solver|].
  apply HQ; cpu_simpl; try done. by apply (boot32_ext gdt c).
Qed.
(** The keyboard controller gets ready for a command after some reads of its
    status. *)
Inductive kbd_ready : list hwev -> Prop :=
| kbd_now h : Z.testbit (port_in h 0x64) 1 = false -> kbd_ready h
| kbd_later h : kbd_ready (h ++ [InB 0x64 (u8 (port_in h 0x64))]) -> kbd_ready h.

(** Reads of the status, the last one without the busy bit. *)
Definition polled (h h' : list hwev) : Prop :=
  exists vs v, h' = h ++ map (InB 0x64) (vs ++ [v]) /\ Z.testbit v 1 = false.

Lemma u8_low8 v n : u8 (low8 v n) = u8 n.
Proof.
  unfold low8, u8. change 256 with (2 ^ 8). apply Z.bits_inj'. intros i Hi.
  destruct (decide (i < 8)).
  - rewrite !Z.mod_pow2_bits_low by lia. rewrite Z.lor_spec, Z.land_spec.
    change 0xffffff00 with (Z.shiftl (Z.ones 24) 8). rewrite Z.shiftl_spec, (Z.testbit_neg_r _ (i - 8)) by lia.
    rewrite andb_false_r, Z.mod_pow2_bits_low by lia. done.
  - by rewrite !Z.mod_pow2_bits_high by lia.
Qed.

(** One turn of the loop. *)
Lemma seta20_pass label l q (Q : cpu -> Prop) c :
  code_at (c_eip c) (seta20 label ++ l) q -> 0 <= c_eip c -> direct c -> protected c = false -> sg_base (c_seg c CS) = 0 ->
  let v := u8 (port_in (c_log c) 0x64) in
  (forall c', (if Z.testbit v 1 then c_eip c' = label else 0 <= c_eip c' /\ code_at (c_eip c') l q) ->
     boot_keeps c c' -> c_seg c' = c_seg c -> Z.testbit (c_eflags c') 9 = Z.testbit (c_eflags c) 9 ->
     c_log c' = c_log c ++ [InB 0x64 v] -> reaches Q c') ->
  reaches Q c.
Proof.
  intros Hcode He Hd Hp Hcs v HQ. unfold seta20 in Hcode. cbn [app] in Hcode. change (c_eip c) with (0 + c_eip c) in Hcode.
  boot_instr. unfold with_port, io_allowed. wp_steps. cbn [id]. pose proof (iopl_nonneg (set_eip (c_eip c + n) c)).
  rewrite cpl_real by done. zb. wp_steps. unfold in_port, getreg, setreg. wp_steps. cpu_simpl. fold v.
  assert (u8 v = v) as Hv8 by (apply Z.mod_small, Z.mod_pos_bound; lia).
  boot_instr. rewrite u8_low8, Hv8.
  boot_instr. rewrite arith_flags_zf. unfold v at 1. change 2 with (2 ^ 1) at 1. rewrite u8_bit by lia.
  assert (Z.testbit (port_in (c_log c) 0x64) 1 = Z.testbit v 1) as ->.
  { unfold v, u8. change 256 with (2 ^ 8). by rewrite Z.mod_pow2_bits_low by lia. }
  destruct (Z.testbit v 1) eqn:Hv; cbn [negb]; apply HQ; rewrite ?Hv; cpu_simpl; try done; apply arith_flags_if.
Qed.

Lemma seta20_run label l q (Q : cpu -> Prop) h :
  kbd_ready h ->
  forall c, c_log c = h -> code_at label (seta20 label ++ l) q -> c_eip c = label -> 0 <= label -> direct c -> protected c = false ->
  sg_base (c_seg c CS) = 0 ->
  (forall c', 0 <= c_eip c' -> code_at (c_eip c') l q -> boot_keeps c c' -> c_seg c' = c_seg c ->
     Z.testbit (c_eflags c') 9 = Z.testbit (c_eflags c) 9 -> polled h (c_log c') -> reaches Q c') ->
  reaches Q c.
Proof.
  assert (forall g, Z.testbit (u8 (port_in g 0x64)) 1 = Z.testbit (port_in g 0x64) 1) as Hbit.
  { intros g. unfold u8. change 256 with (2 ^ 8). by rewrite Z.mod_pow2_bits_low by lia. }
  induction 1 as [h Hnow|h Hlater IH]; intros c Hlog Hcode Heip He Hd Hp Hcs HQ;
    (apply (seta20_pass label l q); [by rewrite Heip|by rewrite Heip|done|done|done|]); rewrite Hlog, Hbit.
  - rewrite Hnow. intros c' [H1 H2] H3 H4 H5 H6. apply HQ; try done.
    exists [], (u8 (port_in h 0x64)). split; [done|by rewrite Hbit].
  - destruct (Z.testbit (port_in h 0x64) 1) eqn:Hb.
    + intros c' H1 H3 H4 H5 H6. destruct H3 as [K1 K2 K3 K4]. apply (IH c'); try done.
      * unfold direct. by rewrite K1.
      * unfold protected. by rewrite K1.
      * by rewrite H4.
      * intros c2 G1 G2 G3 G4 G5 (vs & v & G6 & G7). apply HQ; try done; try congruence.
        -- by eapply boot_keeps_trans.
        -- exists (u8 (port_in h 0x64) :: vs), v. split; [|done]. rewrite G6, <- app_assoc. done.
    + intros c' [H1 H2] H3 H4 H5 H6. apply HQ; try done.
      exists [], (u8 (port_in h 0x64)). split; [done|by rewrite Hbit].
Qed.
Lemma out_run v port l q (Q : cpu -> Prop) c :
  code_at (c_eip c) ([MovbI v EAX; OutbI port] ++ l) q -> 0 <= c_eip c -> direct c -> protected c = false -> sg_base (c_seg c CS) = 0 ->
  (forall c', 0 <= c_eip c' -> code_at (c_eip c') l q -> boot_keeps c c' -> c_seg c' = c_seg c -> c_eflags c' = c_eflags c ->
     c_log c' = c_log c ++ [OutB port (u8 v)] -> reaches Q c') ->
  reaches Q c.
Proof.
  intros Hcode He Hd Hp Hcs HQ. cbn [app] in Hcode. change (c_eip c) with (0 + c_eip c) in Hcode.
  boot_instr. boot_instr. unfold with_port, io_allowed. wp_steps. cbn [id].
  match goal with |- context [iopl ?x] => pose proof (iopl_nonneg x) end.
  rewrite cpl_real by done. zb. wp_steps. unfold getreg, out_port. wp_steps. cpu_simpl.
  apply HQ; cpu_simpl; try done. by rewrite u8_low8.
Qed.

Lemma keeps_real c c' :
  boot_keeps c c' -> direct c -> protected c = false -> direct c' /\ protected c' = false.
Proof. intros [K1 _ _ _] Hd Hp. unfold direct, protected in *. by rewrite K1. Qed.

(** The bytes of the table give its descriptors. *)
Lemma boot_tables_image gdt m :
  ld_bytes m gdt 30 = boot_gdt ++ gdtdesc_bytes gdt -> 0 <= gdt < 65536 -> boot_tables gdt m.
Proof.
  intros Hm Hr. assert (forall k v, (boot_gdt ++ gdtdesc_bytes gdt) !! k = Some v -> ld8 m (gdt + Z.of_nat k) = v) as Hb.
  { intros k v. rewrite <- Hm. unfold ld_bytes. rewrite list_lookup_fmap. intros (i & [-> _]%lookup_seq & ->)%fmap_Some. done. }
  assert (forall k v0 v1 v2 v3, (boot_gdt ++ gdtdesc_bytes gdt) !! k = Some v0 -> (boot_gdt ++ gdtdesc_bytes gdt) !! S k = Some v1 ->
    (boot_gdt ++ gdtdesc_bytes gdt) !! S (S k) = Some v2 -> (boot_gdt ++ gdtdesc_bytes gdt) !! S (S (S k)) = Some v3 ->
    ld32 m (gdt + Z.of_nat k) = v0 + 256 * v1 + 65536 * v2 + 16777216 * v3) as Hw.
  { intros k v0 v1 v2 v3 H0%Hb H1%Hb H2%Hb H3%Hb. unfold ld32.
    replace (gdt + Z.of_nat k + 1) with (gdt + Z.of_nat (S k)) by lia. replace (gdt + Z.of_nat k + 2) with (gdt + Z.of_nat (S (S k))) by lia.
    replace (gdt + Z.of_nat k + 3) with (gdt + Z.of_nat (S (S (S k)))) by lia. congruence. }
  split.
  - split; [exact (Hw 8%nat 0xff 0xff 0 0 eq_refl eq_refl eq_refl eq_refl)|].
    replace (gdt + 8 + 4) with (gdt + 12) by lia. exact (Hw 12%nat 0 0x9a 0xcf 0 eq_refl eq_refl eq_refl eq_refl).
  - split; [exact (Hw 16%nat 0xff 0xff 0 0 eq_refl eq_refl eq_refl eq_refl)|].
    replace (gdt + 16 + 4) with (gdt + 20) by lia. exact (Hw 20%nat 0 0x92 0xcf 0 eq_refl eq_refl eq_refl eq_refl).
  - pose proof (Hw 24%nat 23 0 _ _ eq_refl eq_refl eq_refl eq_refl) as H. change (Z.of_nat 24) with 24 in H. rewrite H. unfold u16, u8.
    Z.div_mod_to_equations. lia.
  - pose proof (Hw 26%nat _ _ _ _ eq_refl eq_refl eq_refl eq_refl) as H. change (Z.of_nat 26) with 26 in H. rewrite H. unfold u8.
    Z.div_mod_to_equations. lia.
Qed.

(** The call in flat segments, with paging off. *)
Lemma wp_push_direct v Q c :
  direct c -> flatseg (c_seg c SS) -> 4 <= c_reg c ESP < 4294967296 ->
  Q tt (set_reg ESP (c_reg c ESP - 4) (set_mem (st32 (c_mem c) (c_reg c ESP - 4) v) c)) -> wp (push v) Q c.
Proof.
  intros Hd [Hb Hl] Hsp HQ. unfold push, getreg, setreg, storel, xlin. wp_steps. rewrite u32_small by lia. rewrite Hl, Hb. zb.
  unfold translate. wp_steps. cbn [id]. unfold xlate, paging. rewrite Hd. cbn [negb]. rewrite u32_small by lia. by wp_steps.
Qed.

(** A store below the table leaves it. *)
Lemma boot_tables_st32 gdt m a v : boot_tables gdt m -> a + 4 <= gdt -> boot_tables gdt (st32 m a v).
Proof.
  intros [[Hc1 Hc2] [Hd1 Hd2] Hl Hb] Ha. split; [split|split|..]; rewrite ld32_st32_ne by lia; done.
Qed.

Lemma call_boot_run gdt start f l q (Q : cpu -> Prop) c :
  code_at (c_eip c) ([MovIR start ESP; Call f] ++ l) q -> 0 <= c_eip c -> boot32 gdt c -> c_seg c SS = kds -> 4 <= start <= gdt -> gdt < 65536 ->
  (forall c' ret, c_eip c' = f -> boot32 gdt c' -> c_seg c' = c_seg c -> c_eflags c' = c_eflags c -> c_log c' = c_log c ->
     c_reg c' ESP = start - 4 -> c_mem c' = st32 (c_mem c) (start - 4) ret -> reaches Q c') ->
  reaches Q c.
Proof.
  intros Hcode He [Hd Hp Hc Hg Ht] Hss Hst Hr HQ. cbn [app] in Hcode. change (c_eip c) with (0 + c_eip c) in Hcode.
  assert (sg_base (c_seg c CS) = 0) as Hcs by (by rewrite Hc).
  boot_instr. rewrite u32_small by lia. boot_instr.
  apply wp_push_direct; [done|cpu_simpl; by rewrite Hss|cpu_simpl; lia|]. wp_steps. cpu_simpl.
  eapply HQ; cpu_simpl; try done. split; try done. cpu_simpl. apply boot_tables_st32; [done|lia].
Qed.

(** ** From the BIOS to bootmain *)

(** The code and the table of bootasm.S as the assembler lays them out from
    [start] on: the labels are where the parts end. *)
Record bootasm_loaded (start a1 a2 gdt start32 bootmain spin : Z) (m : gmap Z Z) : Prop := {
  bl_code : code_at start (bootasm a1 a2 (gdt + 24) start32) start32;
  bl_a1 : code_at start bootasm_segs a1;
  bl_a2 : code_at a1 (seta20 a1 ++ [MovbI 0xd1 EAX; OutbI 0x64]) a2;
  bl_start32 : exists q, code_at start32 (bootasm32 start bootmain spin) q;
  bl_gdt : ld_bytes m gdt 30 = boot_gdt ++ gdtdesc_bytes gdt;
  bl_range : 4 <= start <= gdt /\ gdt + 32 < 65536;
}.

(** How the BIOS starts the code at [start]: in real mode. *)
Record bios_state (start : Z) (c : cpu) : Prop := {
  bs_eip : c_eip c = start;
  bs_direct : direct c;
  bs_real : protected c = false;
  bs_cs : sg_sel (c_seg c CS) = 0 /\ sg_base (c_seg c CS) = 0;
  bs_limit s : s ∈ [DS; ES; SS] -> 65535 <= sg_limit (c_seg c s);
}.

(** What the two commands to the keyboard controller leave in the log. *)
Definition a20_enabled (h h' : list hwev) : Prop :=
  exists h1 h2, polled h h1 /\ polled (h1 ++ [OutB 0x64 0xd1]) h2 /\ h' = h2 ++ [OutB 0x60 0xdf].

(** The part of the code in real mode. *)
Lemma a20_run start a1 a2 gdt start32 bootmain spin (Q : cpu -> Prop) c :
  (forall h, kbd_ready h) -> bootasm_loaded start a1 a2 gdt start32 bootmain spin (c_mem c) -> bios_state start c ->
  (forall c', 0 <= c_eip c' -> code_at (c_eip c') (enter_protected (gdt + 24) start32) start32 -> boot_keeps c c' ->
     c_seg c' DS = mkSeg 0 0 (sg_limit (c_seg c DS)) 0 -> Z.testbit (c_eflags c') 9 = false -> a20_enabled (c_log c) (c_log c') -> reaches Q c') ->
  reaches Q c.
Proof.
  intros Hkbd [Hcode Ha1 Ha2 _ _ (Hst & Hg1)] [Heip Hd Hp [Hsel Hbase] Hlim] HQ.
  unfold bootasm in Hcode. apply code_at_app in Hcode as (x1 & Hx1 & Hcode).
  rewrite <- (code_at_det _ _ _ _ Ha1 Hx1) in Hcode. clear Hx1 x1.
  rewrite app_assoc in Hcode. apply code_at_app in Hcode as (x2 & Hx2 & Hcode).
  rewrite <- (code_at_det _ _ _ _ Ha2 Hx2) in Hcode. clear Hx2 x2.
  apply (boot_segs_run [] a1 0); [by rewrite app_nil_r, Heip|done|done|lia|done|done|].
  intros c1 He1 Hc1 K1 Hif1 Hs1 Hl1. cbn in Hc1. destruct (keeps_real _ _ K1 Hd Hp) as [Hd1 Hp1].
  assert (sg_base (c_seg c1 CS) = 0) as Hb1 by (by rewrite (bk_cs _ _ K1)).
  apply (seta20_run a1 [MovbI 0xd1 EAX; OutbI 0x64] a2 _ (c_log c1) (Hkbd _)); try done; [lia|].
  intros c2 He2 Hc2 K2 Hs2 Hif2 Hl2. destruct (keeps_real _ _ K2 Hd1 Hp1) as [Hd2 Hp2].
  apply (out_run 0xd1 0x64 [] a2); [done..|by rewrite Hs2|].
  intros c3 He3 Hc3 K3 Hs3 Hf3 Hl3. cbn in Hc3. destruct (keeps_real _ _ K3 Hd2 Hp2) as [Hd3 Hp3].
  apply (seta20_run a2 ([MovbI 0xdf EAX; OutbI 0x60] ++ enter_protected (gdt + 24) start32) start32 _ (c_log c3) (Hkbd _));
    try done; [lia|by rewrite Hs3, Hs2|].
  intros c4 He4 Hc4 K4 Hs4 Hif4 Hl4. destruct (keeps_real _ _ K4 Hd3 Hp3) as [Hd4 Hp4].
  apply (out_run 0xdf 0x60 (enter_protected (gdt + 24) start32) start32); [done..|by rewrite Hs4, Hs3, Hs2|].
  intros c5 He5 Hc5 K5 Hs5 Hf5 Hl5. apply HQ; [exact He5|exact Hc5| | | |].
  - eapply boot_keeps_trans, boot_keeps_trans, boot_keeps_trans, boot_keeps_trans; eassumption.
  - rewrite Hs5, Hs4, Hs3, Hs2. apply Hs1. set_solver.
  - rewrite Hf5, Hif4, Hf3, Hif2. exact Hif1.
  - rewrite Hl1 in Hl2. rewrite Hl3 in Hl4. exists (c_log c2), (c_log c4). by split_and!.
Qed.

(** C10. The boot sector reaches bootmain.  From the state in which the BIOS starts
    it, the code switches interrupts off, enables the address line A20 with the two
    commands to the keyboard controller, each after a read that shows it ready, and
    calls bootmain in protected mode, with flat code, data and stack segments,
    paging off, and the stack below the code; memory is as it was but for the
    return address. *)
Theorem bootasm_enters_bootmain (start a1 a2 gdt start32 bootmain spin : Z) (c : cpu) :
  (forall h, kbd_ready h) -> bootasm_loaded start a1 a2 gdt start32 bootmain spin (c_mem c) -> bios_state start c ->
  reaches (fun c' =>
    c_eip c' = bootmain /\ boot32 gdt c' /\ c_seg c' DS = kds /\ c_seg c' ES = kds /\ c_seg c' SS = kds /\
    c_seg c' FS = null_seg 0 /\ c_seg c' GS = null_seg 0 /\ Z.testbit (c_eflags c') 9 = false /\
    c_reg c' ESP = start - 4 /\ (exists ret, c_mem c' = st32 (c_mem c) (start - 4) ret) /\
    a20_enabled (c_log c) (c_log c')) c.
Proof.
  intros Hkbd Hl Hs. pose proof Hl as [_ _ _ (q & H32) Hgdt (Hst & Hg1)]. pose proof Hs as [_ Hd Hp [Hsel Hbase] Hlim].
  pose proof (boot_tables_image gdt (c_mem c) Hgdt ltac:(lia)) as Ht.
  eapply a20_run; [exact Hkbd|exact Hl|exact Hs|]. clear Hl Hs.
  intros c5 He5 Hc5 K Hds Hf5 Hlog5. destruct (keeps_real _ _ K Hd Hp) as [Hd5 Hp5]. destruct K as [_ Km Kc _].
  apply (enter_protected_run gdt start32 [] start32 0);
    [by rewrite app_nil_r|by rewrite Kc|lia|exact He5|exact Hd5|exact Hp5|by rewrite Kc, Hsel|by rewrite Hds| |lia|lia|by rewrite Km|].
  { rewrite Hds. apply Hlim. set_solver. }
  intros c6 He6 Hm6 Hg6 Hs6 Hd6 Hp6 Hf6 Hl6.
  assert (0 <= c_eip c6) as Hpos.
  { rewrite He6. unfold bootasm32 in H32. destruct H32 as (n & _ & H0 & _). exact H0. }
  apply (load_segs_run gdt ([MovIR start ESP; Call bootmain] ++ spin_forever spin) q); [by rewrite He6|exact Hpos| |lia|].
  { split; [exact Hd6|exact Hp6|by rewrite Hs6|exact Hg6|by rewrite Hm6, Km]. }
  intros c7 He7 Hc7 Hb7 Hm7 Hl7 Hf7 _ D7 E7 S7 F7 G7.
  apply (call_boot_run gdt start bootmain (spin_forever spin) q); [exact Hc7|exact He7|exact Hb7|exact S7|lia|lia|].
  intros c8 ret He8 Hb8 Hs8 Hf8 Hl8 Hsp Hm8. apply reaches_done. rewrite Hs8, Hf8, Hf7, Hf6, Hl8, Hl7, Hl6, Hm8, Hm7, Hm6, Km.
  split_and!; [exact He8|exact Hb8|exact D7|exact E7|exact S7|exact F7|exact G7|exact Hf5|exact Hsp|by exists ret|exact Hlog5].
Qed.

(** ** The boot page table *)

(** Paging through [entrypgdir] at the physical address [dir]. *)
Record early_paging (dir : Z) (c : cpu) : Prop := {
  ep_pg : has (c_cr c CR0) CR0_PG = true;
  ep_pse : has (c_cr c CR4) CR4_PSE = true;
  ep_cr3 : c_cr c CR3 = dir;
  ep_table i : 0 <= i < 1024 -> ld32 (c_mem c) (dir + 4 * i) = entrypgdir i;
  ep_align : 0 <= dir < 0x400000 /\ dir mod 4096 = 0;
}.

(** The first 4 Mbytes, at 0 and at KERNBASE. *)
Definition early_mapped (a : Z) : Prop := 0 <= a < 0x400000 \/ KERNBASE <= a < KERNBASE + 0x400000.

Lemma early_xlate dir a n c :
  early_paging dir c -> early_mapped a -> a mod 4096 + n <= 4096 -> xlate (c_mem c) (c_cr c) a n = Some (a mod 0x400000).
Proof.
  intros [Hpg Hpse Hcr Ht [Hr Hm]] Ha Hp. unfold xlate, paging. rewrite Hpg. cbn [negb]. change PGSIZE with 4096. zb.
  unfold walk. rewrite Hcr, PTE_ADDR_spec, u32_small, Hm, Z.sub_0_r by lia.
  unfold early_mapped in Ha. change KERNBASE with 0x80000000 in Ha.
  assert (ld32 (c_mem c) (dir + 4 * PDX a) = 0x83) as ->.
  { rewrite Ht by apply PDX_range. rewrite PDX_spec, u32_small by lia.
    assert (a / 4194304 = 0 \/ a / 4194304 = 512) as [->| ->] by (Z.div_mod_to_equations; lia); done. }
  rewrite Hpse. done.
Qed.

Lemma code_at_le p l q : code_at p l q -> p <= q.
Proof. revert p. induction l as [|i l IH]; intros p; cbn [code_at]; [lia|]. intros (n & _ & _ & Hn & _ & H%IH). lia. Qed.

(** The next instruction of code in the first 4 Mbytes, executed at its physical
    address. *)
Lemma early_code dir i l q (Q : cpu -> Prop) c :
  code_at (c_eip c) (i :: l) q -> q < 0x400000 -> sg_base (c_seg c CS) = 0 -> early_paging dir c ->
  (forall n, code_at (c_eip c + n) l q -> wp (exec_instr (c_eip c) i) (fun _ c' => reaches Q c') (set_eip (c_eip c + n) c)) ->
  reaches Q c.
Proof.
  intros Hcode Hq Hb He Hw. pose proof (code_at_le _ _ _ Hcode). destruct Hcode as (n & Hc & H0 & Hn & Hn' & Hl).
  eapply reaches_fetch; [rewrite Hb, u32_small by lia; apply (early_xlate dir); [done|left; lia|Z.div_mod_to_equations; lia]|..].
  - rewrite Z.add_0_l, Z.mod_small by lia. exact Hc.
  - rewrite u32_small by lia. by apply Hw.
Qed.

(** ** entry.S *)

(** What the two parts leave as it is. *)
Record entry_keeps (c c' : cpu) : Prop := {
  ek_seg : c_seg c' = c_seg c;
  ek_mem : c_mem c' = c_mem c;
  ek_log : c_log c' = c_log c;
  ek_gdtr : c_gdtr c' = c_gdtr c;
  ek_if : Z.testbit (c_eflags c') 9 = Z.testbit (c_eflags c) 9;
  ek_prot : protected c' = true;
}.

Lemma entry_keeps_trans c1 c2 c3 : entry_keeps c1 c2 -> entry_keeps c2 c3 -> entry_keeps c1 c3.
Proof. intros [] []. split; congruence. Qed.

Lemma entry_pse_run l q (Q : cpu -> Prop) c :
  code_at (c_eip c) (entry_pse ++ l) q -> 0 <= c_eip c -> direct c -> protected c = true -> c_seg c CS = kcs ->
  (forall c', 0 <= c_eip c' -> code_at (c_eip c') l q -> direct c' -> has (c_cr c' CR4) CR4_PSE = true -> entry_keeps c c' -> reaches Q c') ->
  reaches Q c.
Proof.
  intros Hcode He Hd Hp Hcs HQ. unfold entry_pse in Hcode. cbn [app] in Hcode. change (c_eip c) with (0 + c_eip c) in Hcode.
  assert (cpl c = 0) as Hcpl by (unfold X86.cpl; by rewrite Hp, Hcs).
  assert (sg_base (c_seg c CS) = 0) as Hb by (by rewrite Hcs).
  boot_instr. unfold privileged. wp_steps. cbn [id]. change (cpl _) with (cpl c). rewrite Hcpl. cbn [Z.leb Z.compare]. wp_steps. cpu_simpl.
  boot_instr. change (u32 CR4_PSE) with CR4_PSE.
  boot_instr. unfold privileged. wp_steps. cbn [id]. change (cpl _) with (cpl c). rewrite Hcpl. cbn [Z.leb Z.compare]. wp_steps. cpu_simpl.
  apply HQ; cpu_simpl; [done|done|done|rewrite has_lor; apply orb_true_r|split; cpu_simpl; try done; apply arith_flags_if].
Qed.

(** Paging goes on while the code runs at physical addresses. *)
Lemma entry_pg_run dir bits l q (Q : cpu -> Prop) c :
  code_at (c_eip c) (entry_pg bits ++ l) q -> 0 <= c_eip c -> direct c -> protected c = true -> c_seg c CS = kcs ->
  has (u32 bits) CR0_PG = true -> has (u32 bits) CR0_WP = true ->
  c_reg c EAX = dir -> has (c_cr c CR4) CR4_PSE = true -> (forall i, 0 <= i < 1024 -> ld32 (c_mem c) (dir + 4 * i) = entrypgdir i) ->
  0 <= dir < 0x400000 /\ dir mod 4096 = 0 ->
  (forall c', code_at (c_eip c') l q -> early_paging dir c' -> has (c_cr c' CR0) CR0_WP = true -> entry_keeps c c' -> reaches Q c') ->
  reaches Q c.
Proof.
  intros Hcode He Hd Hp Hcs Hpg Hwp Hax Hpse Ht Hdir HQ. unfold entry_pg in Hcode. cbn [app] in Hcode. change (c_eip c) with (0 + c_eip c) in Hcode.
  assert (cpl c = 0) as Hcpl by (unfold X86.cpl; by rewrite Hp, Hcs).
  assert (sg_base (c_seg c CS) = 0) as Hb by (by rewrite Hcs).
  boot_instr. unfold privileged. wp_steps. cbn [id]. change (cpl _) with (cpl c). rewrite Hcpl. cbn [Z.leb Z.compare]. wp_steps. cpu_simpl.
  boot_instr. unfold privileged. wp_steps. cbn [id]. change (cpl _) with (cpl c). rewrite Hcpl. cbn [Z.leb Z.compare]. wp_steps. cpu_simpl.
  boot_instr.
  boot_instr. unfold privileged. wp_steps. cbn [id]. change (cpl _) with (cpl c). rewrite Hcpl. cbn [Z.leb Z.compare]. wp_steps. cpu_simpl.
  apply HQ; cpu_simpl; [done| |rewrite has_lor, Hwp; apply orb_true_r|].
  - split; cpu_simpl; try done. rewrite has_lor, Hpg. apply orb_true_r.
  - split; cpu_simpl; try done; [apply arith_flags_if|]. unfold protected. cpu_simpl. rewrite has_lor. unfold protected in Hp. by rewrite Hp.
Qed.

Ltac early_instr dir :=
  lazymatch goal with
  | H : code_at ?p (_ :: _) _ |- reaches _ _ =>
      eapply (early_code dir); [cpu_simpl; exact H|assumption|cpu_simpl; assumption| |
        let n := fresh "n" in clear H; intros n H; cbn [exec_instr];
        cbn [c_eip set_reg set_seg set_cr set_eip set_eflags set_gdtr set_idtr set_tr set_mem set_log] in H; cpu_simpl; unfold getreg, setreg; wp_steps; cpu_simpl ]
  end.

Lemma early_paging_ext dir c c' : early_paging dir c -> c_cr c' = c_cr c -> c_mem c' = c_mem c -> early_paging dir c'.
Proof. intros [H1 H2 H3 H4 H5] Ec Em. split; rewrite ?Ec, ?Em; done. Qed.

(** C11. entry.S gets to main.  Started with paging off and flat segments at its
    physical address, the code turns paging on with entrypgdir and keeps
    running: the table maps the first 4 Mbytes where they are and at KERNBASE, so
    the instructions after the change of cr0 are found, and the jump to main's
    address above KERNBASE finds main's code. *)
Theorem entry_reaches_main (entry entrypgdir_at stack main q : Z) (c : cpu) :
  code_at entry (entry_asm entrypgdir_at stack main) q -> q < 0x400000 ->
  c_eip c = entry -> direct c -> protected c = true -> c_seg c CS = kcs ->
  (forall i, 0 <= i < 1024 -> ld32 (c_mem c) (V2P entrypgdir_at + 4 * i) = entrypgdir i) ->
  0 <= V2P entrypgdir_at < 0x400000 /\ V2P entrypgdir_at mod 4096 = 0 ->
  early_mapped main -> early_mapped (stack + KSTACKSIZE) ->
  reaches (fun c' =>
    c_eip c' = main /\ c_reg c' ESP = stack + KSTACKSIZE /\ entry_keeps c c' /\ early_paging (V2P entrypgdir_at) c' /\
    has (c_cr c' CR0) CR0_WP = true /\
    forall a n, early_mapped a -> a mod 4096 + n <= 4096 -> xlate (c_mem c') (c_cr c') a n = Some (a mod 0x400000)) c.
Proof.
  intros Hcode Hq Heip Hd Hp Hcs Ht Hdir Hmain Hstk. unfold entry_asm in Hcode.
  assert (0 <= entry) as He by (destruct Hcode as (n & _ & H0 & _); exact H0).
  eapply entry_pse_run; [rewrite Heip; exact Hcode|by rewrite Heip|exact Hd|exact Hp|exact Hcs|]. clear Hcode.
  intros c1 He1 Hcode Hd1 Hpse1 K1. pose proof K1 as [Hs1 Hm1 _ _ _ Hp1]. cbn [app] in Hcode. change (c_eip c1) with (0 + c_eip c1) in Hcode.
  assert (sg_base (c_seg c1 CS) = 0) as Hb1 by (by rewrite Hs1, Hcs).
  boot_instr. rewrite (u32_small (V2P _)) by lia.
  eapply (entry_pg_run (V2P entrypgdir_at)); [exact Hcode|exact Hn|done|exact Hp1|cpu_simpl; by rewrite Hs1|done|done|done|done|cpu_simpl; by rewrite Hm1|done|].
  clear Hcode. cpu_simpl. intros c2 Hcode Ep2 Hwp2 K2. pose proof K2 as [Hs2 Hm2 _ _ _ Hp2]. 
  assert (sg_base (c_seg c2 CS) = 0) as Hb2 by (by rewrite Hs2).
  unfold early_mapped in Hmain, Hstk. change KERNBASE with 0x80000000 in Hmain, Hstk.
  early_instr (V2P entrypgdir_at); [exact Ep2|]. rewrite (u32_small (stack + _)) by lia.
  early_instr (V2P entrypgdir_at); [by apply (early_paging_ext _ c2)|]. rewrite (u32_small main) by lia.
  early_instr (V2P entrypgdir_at); [by apply (early_paging_ext _ c2)|].
  apply reaches_done. cpu_simpl. split_and!; [done|done| |by apply (early_paging_ext _ c2)|exact Hwp2|].
  - eapply entry_keeps_trans; [exact K1|]. destruct K2. split; done.
  - intros a k Ha Hk. by apply (early_xlate (V2P entrypgdir_at) a k c2).
Qed.

(** ** entryother.S *)

Lemma wp_loadl_early dir s off Q c :
  early_paging dir c -> flatseg (c_seg c s) -> 0 <= off < 0x400000 -> off mod 4096 <= 4092 ->
  Q (ld32 (c_mem c) off) c -> wp (loadl s off) Q c.
Proof.
  intros He [Hb Hl] Ho Hp HQ. unfold loadl, xlin. wp_steps. rewrite Hl. zb. unfold translate. wp_steps. cbn [id].
  rewrite Hb, Z.add_0_l, u32_small by lia.
  rewrite (early_xlate dir) by (first [exact He|left; lia|lia]). wp_steps. by rewrite Z.mod_small by lia.
Qed.

Lemma wp_push_early dir v Q c :
  early_paging dir c -> flatseg (c_seg c SS) -> KERNBASE <= c_reg c ESP - 4 < KERNBASE + 0x400000 -> (c_reg c ESP - 4) mod 4096 <= 4092 ->
  Q tt (set_reg ESP (c_reg c ESP - 4) (set_mem (st32 (c_mem c) (c_reg c ESP - 4 - KERNBASE) v) c)) -> wp (push v) Q c.
Proof.
  intros He [Hb Hl] Hsp Hp HQ. unfold push, getreg, setreg, storel, xlin. change KERNBASE with 0x80000000 in *. wp_steps.
  rewrite u32_small by lia. rewrite Hl, Hb. zb. unfold translate. wp_steps. cbn [id].
  rewrite Z.add_0_l, u32_small by lia.
  rewrite (early_xlate dir) by (first [exact He|right; change KERNBASE with 0x80000000; lia|lia]). wp_steps.
  assert ((c_reg c ESP - 4) mod 0x400000 = c_reg c ESP - 4 - 0x80000000) as -> by (Z.div_mod_to_equations; lia). done.
Qed.

(** The code, the descriptor table and the arguments that startothers puts below
    the code. *)
Record entryother_loaded (start gdt start32 spin stack mpenter dir : Z) (m : gmap Z Z) : Prop := {
  eo_code : code_at start (entryother (gdt + 24) start32) start32;
  eo_code32 : exists q, code_at start32 (entryother32 start spin) q /\ q < 65536;
  eo_gdt : ld_bytes m gdt 30 = boot_gdt ++ gdtdesc_bytes gdt;
  eo_stack : ld32 m (start - 4) = stack;
  eo_entry : ld32 m (start - 8) = mpenter;
  eo_pgdir : ld32 m (start - 12) = dir;
  eo_table i : 0 <= i < 1024 -> ld32 m (dir + 4 * i) = entrypgdir i;
  eo_dir : 0 <= dir < 0x400000 /\ dir mod 4096 = 0;
  eo_range : 4096 <= start /\ start mod 4096 = 0 /\ 0 <= gdt /\ gdt + 32 < 65536 /\ start < 65536;
}.

(** How a processor starts after a STARTUP interrupt for the page at [start]. *)
Record startup_state (start : Z) (c : cpu) : Prop := {
  ss_eip : c_eip c = 0;
  ss_direct : direct c;
  ss_real : protected c = false;
  ss_cs : sg_sel (c_seg c CS) = start / 16 /\ sg_base (c_seg c CS) = start;
  ss_limit s : s ∈ [DS; ES; SS] -> 65535 <= sg_limit (c_seg c s);
}.

(** The 32-bit part after the segment registers are loaded. *)
Lemma entryother_paged_run start spin stack mpenter dir q (Q : cpu -> Prop) c :
  code_at (c_eip c) (entry_pse ++ [MovMR (Disp (start - 12) None) EAX] ++ entry_pg (Z.lor (Z.lor CR0_PE CR0_PG) CR0_WP) ++
    [MovMR (Disp (start - 4) None) ESP; CallM (Disp (start - 8) None)] ++ spin_forever spin) q -> q < 65536 -> 0 <= c_eip c ->
  direct c -> protected c = true -> c_seg c CS = kcs -> c_seg c DS = kds -> c_seg c SS = kds ->
  4096 <= start < 65536 -> start mod 4096 = 0 ->
  ld32 (c_mem c) (start - 4) = stack + KSTACKSIZE -> ld32 (c_mem c) (start - 8) = mpenter -> ld32 (c_mem c) (start - 12) = dir ->
  (forall i, 0 <= i < 1024 -> ld32 (c_mem c) (dir + 4 * i) = entrypgdir i) -> 0 <= dir < 0x400000 /\ dir mod 4096 = 0 ->
  KERNBASE <= stack < KERNBASE + 0x400000 -> stack mod 4096 = 0 -> stack - KERNBASE <> dir ->
  (forall c' ret, c_eip c' = mpenter -> c_reg c' ESP = stack + KSTACKSIZE - 4 -> early_paging dir c' -> protected c' = true ->
     has (c_cr c' CR0) CR0_WP = true -> Z.testbit (c_eflags c') 9 = Z.testbit (c_eflags c) 9 -> c_seg c' = c_seg c ->
     c_mem c' = st32 (c_mem c) (stack - KERNBASE + KSTACKSIZE - 4) ret -> c_log c' = c_log c -> reaches Q c') ->
  reaches Q c.
Proof.
  intros Hcode Hq He Hd Hp Hcs Hds Hss Hr Hra Hstk Hent Hpg Ht Hdir Hsr Hsa Hsd HQ. change KSTACKSIZE with 4096 in *.
  assert (stack + 4096 <= KERNBASE + 0x400000) as Htop by (change KERNBASE with 0x80000000 in *; Z.div_mod_to_equations; lia).
  eapply entry_pse_run; [exact Hcode|exact He|exact Hd|exact Hp|exact Hcs|]. clear Hcode.
  intros c1 He1 Hcode Hd1 Hpse1 K1. pose proof K1 as [Hs1 Hm1 Hl1 _ Hf1 Hp1]. cbn [app] in Hcode. change (c_eip c1) with (0 + c_eip c1) in Hcode.
  assert (sg_base (c_seg c1 CS) = 0) as Hb1 by (by rewrite Hs1, Hcs).
  boot_instr. unfold effective. cbn [a_base a_disp]. wp_steps. rewrite u32_small by lia.
  apply wp_loadl_direct; [done|cpu_simpl; by rewrite Hs1, Hds|cpu_simpl; rewrite Hs1, Hds; cbn; lia|lia|]. wp_steps. cpu_simpl. rewrite Hm1, Hpg.
  eapply (entry_pg_run dir); [exact Hcode|exact Hn|done|exact Hp1|cpu_simpl; by rewrite Hs1|done|done|done|done|cpu_simpl; by rewrite Hm1|done|].
  clear Hcode. intros c2 Hcode Ep2 Hwp2 [Hs2 Hm2 Hl2 _ Hf2 Hp2]. cbn [c_seg c_mem c_log c_eflags set_reg set_eip] in Hs2, Hm2, Hl2, Hf2.
  assert (sg_base (c_seg c2 CS) = 0) as Hb2 by (by rewrite Hs2). assert (q < 0x400000) as Hq' by lia.
  assert (flatseg kds) as Hflat by done.
  early_instr dir; [exact Ep2|]. unfold effective. cbn [a_base a_disp]. wp_steps. rewrite u32_small by lia.
  apply (wp_loadl_early dir); [by apply (early_paging_ext _ c2)|cpu_simpl; by rewrite Hs2, Hs1, Hds|lia|Z.div_mod_to_equations; lia|].
  wp_steps. cpu_simpl. rewrite Hm2, Hm1, Hstk.
  early_instr dir; [by apply (early_paging_ext _ c2)|]. unfold effective. cbn [a_base a_disp]. wp_steps. rewrite u32_small by lia.
  apply (wp_loadl_early dir); [by apply (early_paging_ext _ c2)|cpu_simpl; by rewrite Hs2, Hs1, Hds|lia|Z.div_mod_to_equations; lia|].
  wp_steps. cpu_simpl. rewrite Hm2, Hm1, Hent.
  apply (wp_push_early dir); [by apply (early_paging_ext _ c2)|cpu_simpl; by rewrite Hs2, Hs1, Hss|cpu_simpl; lia|cpu_simpl; Z.div_mod_to_equations; lia|].
  wp_steps. cpu_simpl. rewrite Hm2, Hm1.
  eapply HQ; cpu_simpl; [done|lia| |exact Hp2|exact Hwp2|by rewrite Hf2|by rewrite Hs2|f_equal; lia|by rewrite Hl2].
  destruct Ep2 as [E1 E2 E3 _ E5]. split; cpu_simpl; try done. intros i Hi. rewrite ld32_st32_ne, Ht; try done.
  change KERNBASE with 0x80000000 in *. Z.div_mod_to_equations; lia.
Qed.

(** The processor entered mpenter on the stack [stack]. *)
Definition ap_entered (stack mpenter dir : Z) (c c' : cpu) : Prop :=
  c_eip c' = mpenter /\ c_reg c' ESP = stack + KSTACKSIZE - 4 /\ early_paging dir c' /\ protected c' = true /\
  has (c_cr c' CR0) CR0_WP = true /\ Z.testbit (c_eflags c') 9 = false /\
  c_seg c' CS = kcs /\ c_seg c' DS = kds /\ c_seg c' ES = kds /\ c_seg c' SS = kds /\
  (exists ret, c_mem c' = st32 (c_mem c) (V2P stack + KSTACKSIZE - 4) ret) /\ c_log c' = c_log c.

(** A processor that receives the STARTUP interrupt runs the code in real mode,
    changes to protected mode, turns paging on with the page directory that
    startothers left and calls mpenter above KERNBASE, with interrupts off, on the
    stack that startothers allocated, if that stack lies in the first 4 Mbytes. *)
Lemma entryother_reaches_mpenter (start gdt start32 spin stack mpenter dir : Z) (c : cpu) :
  entryother_loaded start gdt start32 spin (stack + KSTACKSIZE) mpenter dir (c_mem c) -> startup_state start c ->
  KERNBASE <= stack < KERNBASE + 0x400000 -> stack mod 4096 = 0 -> V2P stack <> dir ->
  reaches (ap_entered stack mpenter dir c) c.
Proof.
  intros [Hcode (q & H32 & Hq) Hgdt Hstk Hent Hpg Ht Hdir Hr] [Heip Hd Hp [Hsel Hbase] Hlim] Hsr Hsa Hsd.
  pose proof (boot_tables_image gdt (c_mem c) Hgdt ltac:(lia)) as Htab. unfold entryother in Hcode.
  eapply boot_segs_run; [rewrite Heip, Z.add_0_r; exact Hcode|exact Hbase|lia|lia|exact Hd|exact Hp|]. clear Hcode.
  intros c1 He1 Hcode K1 Hif1 Hs1 Hl1. destruct (keeps_real _ _ K1 Hd Hp) as [Hd1 Hp1]. destruct K1 as [_ Km Kc _].
  apply (enter_protected_run gdt start32 [] start32 start);
    [by rewrite app_nil_r|by rewrite Kc|lia|exact He1|exact Hd1|exact Hp1| |rewrite Hs1; [done|set_solver]| |lia|lia|by rewrite Km|].
  { rewrite Kc, Hsel. change 3 with (Z.ones 2). rewrite Z.land_ones by lia. Z.div_mod_to_equations. lia. }
  { rewrite Hs1 by set_solver. apply Hlim. set_solver. }
  intros c2 He2 Hm2 Hg2 Hs2 Hd2 Hp2 Hf2 Hl2.
  assert (0 <= c_eip c2) as Hpos by (rewrite He2; destruct H32 as (n & _ & H0 & _); exact H0).
  unfold entryother32 in H32. eapply (load_segs_run gdt); [rewrite He2; exact H32|exact Hpos| |lia|].
  { split; [exact Hd2|exact Hp2|by rewrite Hs2|exact Hg2|by rewrite Hm2, Km]. }
  intros c3 He3 Hc3 [Hd3 Hp3 Hcs3 Hg3 _] Hm3 Hl3 Hf3 _ D3 E3 S3 _ _.
  unfold ap_entered. rewrite V2P_spec in * by (change KERNBASE with 0x80000000 in *; lia).
  eapply entryother_paged_run; [exact Hc3|exact Hq|exact He3|exact Hd3|exact Hp3|exact Hcs3|exact D3|exact S3|lia|lia|..];
    [by rewrite Hm3, Hm2, Km..|exact Hdir|exact Hsr|exact Hsa|exact Hsd|].
  intros c4 ret Q1 Q2 Q3 Q4 Q5 Q6 Q7 Q8 Q9. apply reaches_done. rewrite Q6, Hf3, Hf2, Q7, Q8, Hm3, Hm2, Km, Q9, Hl3, Hl2, Hl1.
  split_and!; [exact Q1|exact Q2|exact Q3|exact Q4|exact Q5|exact Hif1|exact Hcs3|exact D3|exact E3|exact S3|by exists ret|done].
Qed.
End boot.

(** ** Witnesses *)

(** Concrete code, one instruction after the other. *)
Ltac code_steps := cbn [code_at app]; repeat (exists 1; split_and!; [reflexivity|lia|lia|lia|]); first [reflexivity|lia].

Module BootSample.
Definition start : Z := 0x7c00.
Definition gdt : Z := start + 36.
Definition start32 : Z := start + 20.
Definition sector : Code :=
  listing start (bootasm (start + 5) (start + 10) (gdt + 24) start32 ++ bootasm32 start 0x7d00 (start + 34)).
Definition boot_cpu : cpu := set_eip start (set_mem (st_bytes ∅ gdt (boot_gdt ++ gdtdesc_bytes gdt)) blank_cpu).

Lemma loaded : bootasm_loaded (prog := sector) start (start + 5) (start + 10) gdt start32 0x7d00 (start + 34) (c_mem boot_cpu).
Proof.
  split; unfold start32, start.
  - unfold bootasm, bootasm_segs, seta20, enter_protected. code_steps.
  - unfold bootasm_segs. code_steps.
  - unfold seta20. code_steps.
  - eexists. unfold bootasm32, load_segs, spin_forever. code_steps.
  - vm_compute. reflexivity.
  - unfold gdt, start. lia.
Qed.

(** The kernel's entry at 1 Mbyte, entrypgdir at 2 Mbytes. *)
Definition entry_code : Code := listing 0x10000c (entry_asm 0x80200000 0x80210000 0x80103000).
Definition entry_mem : gmap Z Z := st32 (st32 ∅ 0x200000 0x83) 0x200800 0x83.
Definition flat_segs (s : sreg) : seg := match s with CS => kcs | DS | ES | SS => kds | FS | GS => null_seg 0 end.
Definition entry_cpu : cpu :=
  mkCpu (fun _ => 0) flat_segs (upd CR0 CR0_PE (fun _ => 0)) 0x10000c 2 (gdt, 23) (0, 0) (mkSeg 0 0 0 0) entry_mem [].

Lemma entry_table i : 0 <= i < 1024 -> ld32 entry_mem (0x200000 + 4 * i) = entrypgdir i.
Proof.
  intros Hi. unfold entry_mem, entrypgdir. change (Z.shiftr KERNBASE PDXSHIFT) with 512. zcase.
  - subst. rewrite ld32_st32_ne by lia. by apply ld32_st32_eq.
  - zcase.
    + subst. by apply ld32_st32_eq.
    + rewrite !ld32_st32_ne by lia. reflexivity.
Qed.
End BootSample.

Lemma bootasm_enters_bootmain_witness :
  let c := BootSample.boot_cpu in
  reaches (tr := paging) (mach := no_devices) (prog := BootSample.sector) (fun c' =>
    c_eip c' = 0x7d00 /\ c_reg c' ESP = 0x7bfc /\ protected c' = true /\ c_seg c' SS = kds /\ a20_enabled [] (c_log c')) c.
Proof.
  intros c. eapply reaches_mono.
  - apply (bootasm_enters_bootmain (mach := no_devices) (prog := BootSample.sector) BootSample.start (BootSample.start + 5) (BootSample.start + 10)
      BootSample.gdt BootSample.start32 0x7d00 (BootSample.start + 34) c).
    + intros h. apply kbd_now. reflexivity.
    + exact BootSample.loaded.
    + split; [reflexivity|reflexivity|reflexivity|split; reflexivity|]. intros s _. cbn. lia.
  - intros c' (H1 & [_ H2 _ _ _] & _ & _ & H3 & _ & _ & _ & H4 & _ & H5). split_and!; [exact H1|exact H4|exact H2|exact H3|exact H5].
Defined.

Lemma entry_reaches_main_witness :
  reaches (tr := paging) (mach := no_devices) (prog := BootSample.entry_code) (fun c' =>
    c_eip c' = 0x80103000 /\ c_reg c' ESP = 0x80211000 /\ has (c_cr c' CR0) CR0_PG = true) BootSample.entry_cpu.
Proof.
  eapply reaches_mono.
  - apply (entry_reaches_main (mach := no_devices) (prog := BootSample.entry_code) 0x10000c 0x80200000 0x80210000 0x80103000 (0x10000c + 11) BootSample.entry_cpu).
    + unfold entry_asm, entry_pse, entry_pg. code_steps.
    + lia.
    + reflexivity.
    + reflexivity.
    + reflexivity.
    + reflexivity.
    + exact BootSample.entry_table.
    + vm_compute. split; [split; [discriminate|reflexivity]|reflexivity].
    + right. unfold KERNBASE. lia.
    + right. unfold KERNBASE, KSTACKSIZE. lia.
  - intros c' (H1 & H2 & _ & [H3 _ _ _ _] & _). split_and!; [exact H1|exact H2|exact H3].
Defined.
