(* ===== verification/StartOthers.v ===== *)
(** * Starting the other processors (main.c, proc.c)

    startothers copies entryother.S to 0x7000, gives each processor a stack from
    the page allocator and starts it with an interrupt.  The kernel and the
    devices are separate parts of the state here; what another processor writes,
    [cpus[i].started], is read like a device register. *)

From S2P Require Import Prelude Mmu Mem State Kernel Kalloc Proc WmapFault Devices DevicesSpec X86 X86Exec Segments Switch TrapEntry Boot BootAsm.

(** ** The processor's own number (proc.c) *)

Section machine.
Context {mach : Machine}.

(** The entry of [cpus] with the given id, from the [i]th on. *)
Fixpoint find_cpu (apicid : Z) (l : list Z) (i : nat) : option nat :=
  match l with
  | [] => None
  | a :: l => if a =? apicid then Some i else find_cpu apicid l (S i)
  end.

(** [mycpu() - cpus]; [eflags] is what readeflags gives. *)
Definition cpuid (eflags : Z) : HW nat :=
  if has eflags FL_IF then panic "mycpu called with interrupts enabled\n" else
  apicid ← lapicid;
  l ← gets hw_cpus;
  match find_cpu apicid l 0 with
  | None => panic "unknown apicid\n"
  | Some i => mret i
  end.

(** [while(c->started == 0)], at most [polls] times. *)
Definition wait_started (polls : nat) (started : Z) : HW unit :=
  iter polls (fun _ : unit =>
    v ← loadw started;
    mret (if v =? 0 then inl tt else inr tt)) tt.
End machine.

(** ** startothers (main.c) *)

(** [so_aps]: the processors that were sent the interrupt, each with memory as
    it was then. *)
Record sostate := mkSo { so_k : kstate; so_hw : hwstate; so_aps : list (Z * gmap Z Z) }.

Abbreviation SO := (M sostate).

Definition kernel {A} : K A -> SO A := lift so_k (fun k s => mkSo k (so_hw s) (so_aps s)).
Definition device {A} : HW A -> SO A := lift so_hw (fun h s => mkSo (so_k s) h (so_aps s)).

Section startothers.
Context `{KernelImage} {mach : Machine}.

(** Addresses that the linker chooses. *)
Context (entryother_start entryother_size mpenter entrypgdir_at cpus : Z).

(** The interrupt that starts processor [apicid] at [addr]. *)
Definition startap (apicid addr : Z) : SO unit :=
  device (lapicstartap apicid addr);;
  modify (fun s => mkSo (so_k s) (so_hw s) (so_aps s ++ [(apicid, k_mem (so_k s))])).

Definition ENTRYOTHER : Z := 0x7000.

(** One turn of the loop, for [cpus[i]]. *)
Definition startother (eflags : Z) (polls : nat) (i : nat) : SO unit :=
  let code := P2V ENTRYOTHER in
  me ← device (cpuid eflags);
  if bool_decide (i = me) then mret tt else
  stack ← kernel kalloc;
  kernel (kstore32 (code - 4) (u32 (stack + KSTACKSIZE)));;
  kernel (kstore32 (code - 8) mpenter);;
  kernel (kstore32 (code - 12) (V2P entrypgdir_at));;
  l ← gets (fun s => hw_cpus (so_hw s));
  apicid ← from_option "no such processor" (l !! i);
  startap apicid (V2P code);;
  device (wait_started polls (cpu_field (cpus + sizeof struct_cpu * Z.of_nat i) "started")).

Definition startothers (eflags : Z) (polls : nat) : SO unit :=
  kernel (memmove (P2V ENTRYOTHER) entryother_start entryother_size);;
  n ← gets (fun s => length (hw_cpus (so_hw s)));
  for_each (seq 0 n) (startother eflags polls).

(** ** Rules *)

Lemma wp_kernel {A} (m : K A) Q s :
  wp m (fun a k => Q a (mkSo k (so_hw s) (so_aps s))) (so_k s) -> wp (kernel m) Q s.
Proof. intros Hm. by apply wp_lift. Qed.
Lemma wp_device {A} (m : HW A) Q s :
  wp m (fun a h => Q a (mkSo (so_k s) h (so_aps s))) (so_hw s) -> wp (device m) Q s.
Proof. intros Hm. by apply wp_lift. Qed.

Lemma wp_loadw a Q h : Q (u32 (mmio_in (hw_log h) a)) (add_log (LoadW a (u32 (mmio_in (hw_log h) a))) h) -> wp (loadw a) Q h.
Proof. intros HQ. unfold loadw. by wp_steps. Qed.

(** The accesses change nothing but the log. *)
Definition same_vars (h h' : hwstate) : Prop := hw_cpus h' = hw_cpus h /\ hw_lapic h' = hw_lapic h.

Lemma wp_lapicw_vars index v (Q : unit -> hwstate -> Prop) h :
  (forall h', same_vars h h' -> Q tt h') -> wp (lapicw index v) Q h.
Proof. intros HQ. unfold lapicw, lapic_load, storew. wp_steps. apply wp_loadw. wp_steps. by apply HQ. Qed.

Lemma wp_lapicstartap apicid addr (Q : unit -> hwstate -> Prop) h :
  (forall h', same_vars h h' -> Q tt h') -> wp (lapicstartap apicid addr) Q h.
Proof.
  intros HQ. unfold lapicstartap, outb. cbn [seq for_each]. wp_steps.
  repeat (apply wp_lapicw_vars; intros ? [? ?]; cbn in *; wp_steps). apply HQ. split; congruence.
Qed.

Lemma wp_cpuid eflags id me (Q : nat -> hwstate -> Prop) h :
  has eflags FL_IF = false -> hw_lapic h <> 0 -> (forall l, Z.shiftr (u32 (mmio_in l (hw_lapic h + 4 * ID))) 24 = id) ->
  find_cpu id (hw_cpus h) 0 = Some me -> (forall h', same_vars h h' -> Q me h') -> wp (cpuid eflags) Q h.
Proof.
  intros Hf Hl Hid Hme HQ. unfold cpuid, lapicid, lapic_load. rewrite Hf. wp_steps. zb. wp_steps. apply wp_loadw. wp_steps.
  rewrite Hid. cbn. rewrite Hme. wp_steps. by apply HQ.
Qed.

(** The processor sets [started] before the [n]th read. *)
Fixpoint sets_started (n : nat) (a : Z) (l : list hwev) : Prop :=
  match n with
  | O => False
  | S n => let v := u32 (mmio_in l a) in v <> 0 \/ sets_started n a (l ++ [LoadW a v])
  end.

Lemma wp_wait_started polls a (Q : unit -> hwstate -> Prop) h :
  sets_started polls a (hw_log h) -> (forall h', same_vars h h' -> Q tt h') -> wp (wait_started polls a) Q h.
Proof.
  intros Hs HQ. unfold wait_started. revert h Hs HQ. induction polls as [|polls IH]; intros h Hs HQ; [done|]. unfold iter; fold (@iter hwstate unit unit). cbv beta. wp_steps.
  apply wp_loadw. wp_steps. zcase.
  - apply IH; [destruct Hs as [Hs|Hs]; [done|exact Hs]|]. intros h' Hv. apply HQ, Hv.
  - wp_steps. by apply HQ.
Qed.

Lemma delete_take_S {A} (l : list A) me i a :
  l !! i = Some a -> delete me (take (S i) l) = delete me (take i l) ++ (if decide (i = me) then [] else [a]).
Proof.
  revert me i. induction l as [|x l IH]; intros [|me] [|i] Hi; simplify_eq/=; try done.
  - by apply take_S_r.
  - change (delete (S me) (x :: take (S i) l)) with (x :: delete me (take (S i) l)). rewrite (IH me i Hi).
    destruct (decide (i = me)), (decide (S i = S me)); (done || lia).
Qed.

Lemma find_cpu_lookup id l i j : find_cpu id l i = Some j -> (i <= j)%nat /\ l !! (j - i)%nat = Some id.
Proof.
  revert i. induction l as [|a l IH]; intros i; [done|]. cbn [find_cpu]. zcase.
  - intros [= ->]. subst. by rewrite Nat.sub_diag.
  - intros [? ?]%IH. split; [lia|]. by replace (j - i)%nat with (S (j - S i)) by lia.
Qed.

(** ** The arguments *)

(** Memory after the arguments for the stack [stack] are written. *)
Definition ap_args (m : gmap Z Z) (stack : Z) : gmap Z Z :=
  st32 (st32 (st32 m (ENTRYOTHER - 4) (stack + KSTACKSIZE)) (ENTRYOTHER - 8) mpenter) (ENTRYOTHER - 12) (V2P entrypgdir_at).

Definition below_code (m m' : gmap Z Z) : Prop := forall a, ~ (ENTRYOTHER - 12 <= a < ENTRYOTHER) -> ld8 m' a = ld8 m a.

Lemma ap_args_below m m' stack : below_code m m' -> below_code m (ap_args m' stack).
Proof.
  intros Hm a Ha. unfold ap_args. unfold ENTRYOTHER in *. rewrite !ld8_st32_ne by lia. by apply Hm.
Qed.

(** The free pages are above the first Mbyte. *)
Lemma kmem_wf_low k m fl :
  kmem_wf k fl -> (forall a, 0x100000 <= a -> ld8 m a = ld8 (k_mem k) a) -> kmem_wf (set_k_mem m k) fl.
Proof.
  intros (Hc & Hp & Hn) Hm. split; [|done]. cbn. eapply chain_ext; [|done]. eapply Forall_impl; [exact Hp|].
  intros v [_ Hv]. apply ld32_ext. intros b Hb. apply Hm. pose proof k_data_range.
  unfold KERNLINK, EXTMEM, KERNBASE in *. lia.
Qed.

(** ** The loop *)

Context {prog : Code}.
#[local] Existing Instance paging | 0.

(** What the build provides: the code at the place it is copied to, its
    descriptor table at [gdt] in the image, and entrypgdir, all in the kernel's
    image below [k_end]. *)
Record build_ok (gdt start32 spin : Z) (m : gmap Z Z) : Prop := {
  bo_code : code_at ENTRYOTHER (entryother (gdt + 24) start32) start32;
  bo_code32 : exists q, code_at start32 (entryother32 ENTRYOTHER spin) q /\ q < 65536;
  bo_image : KERNLINK <= entryother_start /\ entryother_start + entryother_size <= k_end;
  bo_size : gdt + 30 <= ENTRYOTHER + entryother_size /\ ENTRYOTHER <= gdt /\ entryother_size <= 4096;
  bo_gdt : ld_bytes m (V2P entryother_start + (gdt - ENTRYOTHER)) 30 = boot_gdt ++ gdtdesc_bytes gdt;
  bo_mpenter : 0 <= mpenter < 4294967296;
  bo_dir : KERNLINK <= entrypgdir_at /\ entrypgdir_at + 4096 <= k_end /\ entrypgdir_at mod 4096 = 0;
  bo_table i : 0 <= i < 1024 -> ld32 m (V2P entrypgdir_at + 4 * i) = entrypgdir i;
}.

(** Memory once the code is copied. *)
Record code_copied (gdt : Z) (m : gmap Z Z) : Prop := {
  cc_gdt : ld_bytes m gdt 30 = boot_gdt ++ gdtdesc_bytes gdt;
  cc_table i : 0 <= i < 1024 -> ld32 m (V2P entrypgdir_at + 4 * i) = entrypgdir i;
}.

Lemma ld_bytes_ext m m' a n : (forall b, a <= b < a + Z.of_nat n -> ld8 m' b = ld8 m b) -> ld_bytes m' a n = ld_bytes m a n.
Proof. intros Hm. unfold ld_bytes. apply map_ext_in. intros i [_ Hi]%in_seq. apply Hm. lia. Qed.

Lemma code_copied_below gdt start32 spin m0 m m' :
  build_ok gdt start32 spin m0 -> code_copied gdt m -> below_code m m' -> code_copied gdt m'.
Proof.
  intros B [Hg Ht] Hm. destruct B as [_ _ _ Hs _ _ Hd _]. pose proof k_end_range. split.
  - rewrite <- Hg. apply ld_bytes_ext. intros b Hb. apply Hm. unfold ENTRYOTHER in *. lia.
  - intros i Hi. rewrite <- Ht by done. apply ld32_ext. intros b Hb. apply Hm. rewrite V2P_spec in Hb by (unfold KERNLINK, EXTMEM, KERNBASE in *; lia).
    unfold KERNLINK, EXTMEM, KERNBASE, ENTRYOTHER in *. lia.
Qed.

Lemma copy_code gdt start32 spin m :
  build_ok gdt start32 spin m -> code_copied gdt (memmove_mem m ENTRYOTHER (V2P entryother_start) entryother_size).
Proof.
  intros [_ _ Hi Hs Hg _ Hd Ht]. pose proof k_end_range. unfold KERNLINK, EXTMEM, KERNBASE, ENTRYOTHER in *. split.
  - rewrite <- Hg. unfold ld_bytes. apply map_ext_in. intros i [_ Hlt]%in_seq. rewrite ld8_memmove by lia.
    rewrite decide_True by lia. f_equal. lia.
  - intros i Hlt. rewrite <- Ht by done. apply ld32_ext. intros b Hb. rewrite V2P_spec in Hb by (unfold KERNBASE; lia). unfold KERNBASE in *.
    rewrite ld8_memmove, decide_False by lia. done.
Qed.

(** A processor started with these arguments. *)
Lemma ap_runs gdt start32 spin m0 m stack c :
  build_ok gdt start32 spin m0 -> code_copied gdt m -> page_ok stack -> stack < KERNBASE + 0x400000 ->
  c_mem c = ap_args m stack -> startup_state ENTRYOTHER c ->
  reaches (ap_entered stack mpenter (V2P entrypgdir_at) c) c.
Proof.
  intros B Hc [Hsa Hsr] Htop Hm Hs. pose proof k_data_range. pose proof k_end_range.
  assert (code_copied gdt (ap_args m stack)) as [Hg Ht] by (eapply code_copied_below; [done..|by apply ap_args_below]).
  destruct B as [B1 B2 _ B4 _ B6 B7 _]. unfold KERNLINK, EXTMEM in *. change KERNBASE with 0x80000000 in *.
  assert (0 <= V2P entrypgdir_at < 0x400000 /\ V2P entrypgdir_at mod 4096 = 0 /\ V2P stack <> V2P entrypgdir_at) as (Hd1 & Hd2 & Hd3).
  { rewrite !V2P_spec by (unfold KERNBASE; lia). unfold KERNBASE. Z.div_mod_to_equations. lia. }
  apply (entryother_reaches_mpenter ENTRYOTHER gdt start32 spin); [|done|change KERNBASE with 0x80000000; lia|done|exact Hd3].
  rewrite Hm. unfold ap_args, KSTACKSIZE, ENTRYOTHER in *. split; try done.
  - rewrite !ld32_st32_ne by lia. apply ld32_st32_eq. lia.
  - rewrite ld32_st32_ne by lia. by apply ld32_st32_eq.
  - apply ld32_st32_eq. lia.
  - split_and!; (reflexivity || lia).
Qed.

Section loop.
Context (eflags id lapic : Z) (me polls : nat) (ids fl : list Z) (gdt start32 spin : Z) (k0 : kstate).
Hypothesis interrupts_off : has eflags FL_IF = false.
Hypothesis lapic_there : lapic <> 0.
Hypothesis lapic_id : forall l, Z.shiftr (u32 (mmio_in l (lapic + 4 * ID))) 24 = id.
Hypothesis me_found : find_cpu id ids 0 = Some me.
Hypothesis built : build_ok gdt start32 spin (k_mem k0).
Hypothesis unlocked : LK_kmem ∉ k_locks k0.
Hypothesis low_pages : forall v, v ∈ fl -> v < KERNBASE + 0x400000.
Hypothesis enough_pages : (length ids <= length fl + 1)%nat.
Hypothesis aps_start : forall i l, sets_started polls (cpu_field (cpus + sizeof struct_cpu * Z.of_nat i) "started") l.

(** A started processor runs on its own stack. *)
Definition ap_ok (ap : Z * gmap Z Z) (stack : Z) : Prop :=
  forall c, c_mem c = ap.2 -> startup_state ENTRYOTHER c -> reaches (ap_entered stack mpenter (V2P entrypgdir_at) c) c.

(** The kernel's variables are as they were, and memory from 1 Mbyte on. *)
Record kernel_kept (k k' : kstate) : Prop := {
  kk_core : core k' = core k;
  kk_locks : k_locks k' = k_locks k;
  kk_mem a : 0x100000 <= a -> ld8 (k_mem k') a = ld8 (k_mem k) a;
}.

(** Before processor [i]. *)
Definition so_inv (i : nat) (s : sostate) : Prop :=
  exists stacks rest, fl = stacks ++ rest /\ kmem_wf (so_k s) rest /\ kernel_kept k0 (so_k s) /\
    hw_cpus (so_hw s) = ids /\ hw_lapic (so_hw s) = lapic /\ code_copied gdt (k_mem (so_k s)) /\
    map fst (so_aps s) = delete me (take i ids) /\ Forall2 ap_ok (so_aps s) stacks.

Lemma startother_step i s :
  (i < length ids)%nat -> so_inv i s -> wp (startother eflags polls i) (fun _ s' => so_inv (S i) s') s.
Proof.
  intros Hi (stacks & rest & Hfl & Hwf & Hkept & Hcpus & Hlap & Hcc & Hids & Haps).
  destruct (lookup_lt_is_Some_2 ids i Hi) as [a Ha].
  unfold startother. change (P2V ENTRYOTHER) with (KERNBASE + ENTRYOTHER). wp_steps. apply wp_device.
  apply (wp_cpuid eflags id me); [done|by rewrite Hlap|by rewrite Hlap|by rewrite Hcpus|]. intros h1 [Hv1 Hv2].
  rewrite Hcpus in Hv1. rewrite Hlap in Hv2. case_bool_decide as Hme.
  { wp_steps. exists stacks, rest. cbn. split_and!; try done. rewrite (delete_take_S _ _ _ _ Ha), decide_True, app_nil_r by done. done. }
  assert (exists v rest', rest = v :: rest') as (v & rest' & ->).
  { destruct rest as [|v rest']; [|by eauto]. exfalso. rewrite app_nil_r in Hfl. subst fl.
    pose proof (Forall2_length _ _ _ Haps) as Hlen. apply (f_equal length) in Hids. rewrite length_map in Hids.
    rewrite <- Hlen, Hids in enough_pages. apply find_cpu_lookup in me_found as [_ Hmel%lookup_lt_Some]. clear - Hmel Hme Hi enough_pages.
    destruct (decide (me < i)%nat).
    - rewrite length_delete in enough_pages by (apply lookup_lt_is_Some_2; rewrite length_take; lia). rewrite length_take in enough_pages. lia.
    - rewrite delete_take_drop, length_app, length_take, length_drop, length_take in enough_pages. lia. }
  wp_steps. apply wp_kernel. cbn [so_k so_hw so_aps]. apply (wp_kalloc (v :: rest')); [done|by rewrite (kk_locks _ _ Hkept)|]. intros r Hv0 Hv _ Hwf'. cbn [so_k so_hw so_aps].
  assert (v < KERNBASE + 0x400000) as Hlow by (apply low_pages; rewrite Hfl; set_solver).
  pose proof (page_ok_kptr _ Hv) as Hvr. unfold KERNBASE, PHYSTOP in Hvr, Hlow.
  wp_steps. apply wp_kernel, wp_kstore32; [unfold KERNBASE, ENTRYOTHER, PHYSTOP; lia|].
  wp_steps. apply wp_kernel, wp_kstore32; [unfold KERNBASE, ENTRYOTHER, PHYSTOP; lia|].
  wp_steps. apply wp_kernel, wp_kstore32; [unfold KERNBASE, ENTRYOTHER, PHYSTOP; lia|].
  cbn [so_k so_hw so_aps k_mem set_k_mem set_k_freelist]. rewrite (u32_small (v + _)) by (unfold KSTACKSIZE; lia).
  replace (KERNBASE + ENTRYOTHER - 4 - KERNBASE) with (ENTRYOTHER - 4) by lia.
  replace (KERNBASE + ENTRYOTHER - 8 - KERNBASE) with (ENTRYOTHER - 8) by lia.
  replace (KERNBASE + ENTRYOTHER - 12 - KERNBASE) with (ENTRYOTHER - 12) by lia. fold (ap_args (k_mem (so_k s)) v).
  set (m := ap_args _ v). wp_steps. cbn [so_hw]. rewrite Hv1, Ha. wp_steps. unfold startap. wp_steps.
  apply wp_device, wp_lapicstartap. intros h2 [Hw1 Hw2]. wp_steps. cbn [so_k so_hw so_aps].
  apply wp_device, wp_wait_started; [apply aps_start|]. intros h3 [Hx1 Hx2]. cbn [so_k so_hw so_aps].
  assert (below_code (k_mem (so_k s)) m) as Hb by (by apply ap_args_below).
  exists (stacks ++ [v]), rest'. cbn in *. split_and!; [by rewrite <- app_assoc| | |congruence|congruence| | |].
  - apply (kmem_wf_low (set_k_freelist r (so_k s)) m rest' Hwf'). intros x Hx. apply Hb. unfold ENTRYOTHER. lia.
  - destruct Hkept as [K1 K2 K3]. split; [exact K1|exact K2|]. intros x Hx. rewrite <- K3 by done. apply Hb. unfold ENTRYOTHER. lia.
  - by eapply code_copied_below.
  - rewrite map_app, Hids, (delete_take_S _ _ _ _ Ha), decide_False by done. done.
  - apply Forall2_app; [done|]. constructor; [|constructor]. intros c Hc Hs. by eapply ap_runs.
Qed.
End loop.

Lemma wp_startothers eflags id me polls fl gdt start32 spin s :
  let ids := hw_cpus (so_hw s) in
  let lapic := hw_lapic (so_hw s) in
  has eflags FL_IF = false -> lapic <> 0 -> (forall l, Z.shiftr (u32 (mmio_in l (lapic + 4 * ID))) 24 = id) ->
  find_cpu id ids 0 = Some me -> build_ok gdt start32 spin (k_mem (so_k s)) ->
  kmem_wf (so_k s) fl -> LK_kmem ∉ k_locks (so_k s) -> so_aps s = [] ->
  (forall v, v ∈ fl -> v < KERNBASE + 0x400000) -> (length ids <= length fl + 1)%nat ->
  (forall i l, sets_started polls (cpu_field (cpus + sizeof struct_cpu * Z.of_nat i) "started") l) ->
  wp (startothers eflags polls) (fun _ s' => so_inv lapic me ids fl gdt (so_k s) (length ids) s') s.
Proof.
  intros ids lapic Hif Hlap Hid Hme B Hwf Hlk Haps Hlow Hen Hst.
  pose proof B as [_ _ Hi Hs _ _ _ _]. pose proof k_end_range. unfold startothers.
  wp_steps. apply wp_kernel, wp_memmove; [unfold KERNBASE, PHYSTOP; change (P2V ENTRYOTHER) with 0x80007000; lia| |].
  { unfold KERNLINK, EXTMEM, KERNBASE, PHYSTOP, ENTRYOTHER in *. lia. }
  change (P2V ENTRYOTHER - KERNBASE) with ENTRYOTHER.
  rewrite <- (V2P_spec entryother_start) by (unfold KERNLINK, EXTMEM, KERNBASE, ENTRYOTHER in *; lia).
  assert (forall a, 0x100000 <= a -> ld8 (memmove_mem (k_mem (so_k s)) ENTRYOTHER (V2P entryother_start) entryother_size) a = ld8 (k_mem (so_k s)) a) as Hmem.
  { intros a Ha. unfold ENTRYOTHER in *. rewrite ld8_memmove, decide_False by lia. done. }
  wp_steps. cbn [so_hw]. apply (wp_for_each_seq (so_inv lapic me ids fl gdt (so_k s))); [|exists [], fl|done].
  - intros i t Hlt Hinv. by eapply (startother_step eflags id lapic me polls ids fl gdt start32 spin).
  - cbn. rewrite Haps, take_0. split_and!; try done; [by apply kmem_wf_low|by eapply copy_code].
Qed.

End startothers.

(** ** Witness *)

Module StartSample.
#[local] Existing Instance sample_image.
Definition gdt : Z := 0x7000 + 40.
Definition start32 : Z := 0x7000 + 10.
Definition ap_code : Code := listing 0x7000 (entryother (gdt + 24) start32 ++ entryother32 0x7000 (0x7000 + 32)).

(** Every processor is up when startothers looks; the one that runs has id 0. *)
Definition smp : Machine := Build_Machine (fun _ _ => 0) (fun _ a => if a =? 0xfee00000 + 4 * ID then 0 else 1).

(** The image at 0x80100000, entrypgdir at 0x80101000, free pages at 0x80200000
    and 0x80201000. *)
Definition mem : gmap Z Z :=
  st32 (st32 (st32 (st_bytes ∅ (0x100000 + 40) (boot_gdt ++ gdtdesc_bytes gdt)) 0x101000 0x83) 0x101800 0x83) 0x200000 0x80201000.
Definition s0 : sostate :=
  mkSo (set_k_freelist 0x80200000 (set_k_mem mem zero_kstate)) (mkHw [] false 0xfee00000 0 [1; 0; 2]) [].

Lemma table i : 0 <= i < 1024 -> ld32 mem (V2P 0x80101000 + 4 * i) = entrypgdir i.
Proof.
  intros Hi. change (V2P 0x80101000) with 0x101000. unfold mem, entrypgdir. change (Z.shiftr KERNBASE PDXSHIFT) with 512. zcase.
  - subst. rewrite !ld32_st32_ne by lia. by apply ld32_st32_eq.
  - zcase.
    + subst. rewrite ld32_st32_ne by lia. by apply ld32_st32_eq.
    + rewrite !ld32_st32_ne by lia. transitivity (ld32 ∅ (0x101000 + 4 * i)); [|reflexivity]. apply ld32_ext.
      intros b Hb. rewrite ld8_st_bytes. rewrite decide_False; [done|]. change (length _) with 30%nat. lia.
Qed.

Lemma built : build_ok (prog := ap_code) 0x80100000 70 0x80103000 0x80101000 gdt start32 (0x7000 + 32) mem.
Proof.
  split; unfold ENTRYOTHER, start32, gdt.
  - unfold entryother, bootasm_segs, enter_protected. code_steps.
  - exists (0x7000 + 33). split; [|lia]. unfold entryother32, load_segs, entry_pse, entry_pg, spin_forever. code_steps.
  - unfold KERNLINK, KERNBASE, EXTMEM. cbn. lia.
  - lia.
  - vm_compute. reflexivity.
  - lia.
  - unfold KERNLINK, KERNBASE, EXTMEM. cbn. split_and!; (reflexivity || lia).
  - exact table.
Qed.

Lemma free_pages : kmem_wf (so_k s0) [0x80200000; 0x80201000].
Proof.
  split_and!; [vm_compute; split_and!; reflexivity|repeat constructor; vm_compute; (reflexivity || discriminate)|].
  repeat constructor; set_solver.
Qed.
End StartSample.

