(* ===== verification/Backtrace.v ===== *)
(** * panic and the call stack it prints (console.c, spinlock.c)

    In the other files a panic is an outcome; here is what the function prints
    before it stops.  The frames on the kernel stack are linked through the saved
    frame pointers in page memory. *)

From S2P Require Import Prelude Mmu Mem State Kernel Cprintf Proc.

(** The loop of getcallerpcs from frame [ebp] on, with [n] entries to fill. *)
Fixpoint callerpcs (n : nat) (ebp : Z) : K (list Z) :=
  match n with
  | O => mret []
  | S n' =>
      if (ebp =? 0) || (ebp <? KERNBASE) || (ebp =? 0xffffffff) then mret (replicate n 0) else
      pc ← kload32 (u32 (ebp + 4));
      next ← kload32 ebp;
      pcs ← callerpcs n' next;
      mret (pc :: pcs)
  end.

(** [v] is the address of the caller's first argument. *)
Definition getcallerpcs (v : Z) : K (list Z) := callerpcs 10 (u32 (v - 8)).

(** What a processor sees: the kernel's state, shared with the others, and its
    own flags. *)
Record onecpu := mkOne { oc_k : kstate; oc_eflags : Z }.

Abbreviation P := (M onecpu).

Definition shared {A} : K A -> P A := lift oc_k (fun k s => mkOne k (oc_eflags s)).

Definition cli : P unit := modify (fun s => mkOne (oc_k s) (Z.land (oc_eflags s) (Z.lnot FL_IF))).

(** panic up to the endless loop; [id] is what lapicid returns, [v] the address of
    its argument. *)
Definition panic_report (id : Z) (msg : list Z) (v : Z) : P unit :=
  cli;;
  shared (modify (set_k_cons_locking 0));;
  shared (cprintf (bytes_of_string "lapicid %d: panic: ") [ArgInt id]);;
  shared (cprintf msg []);;
  shared (cprintf [10] []);;
  pcs ← shared (getcallerpcs v);
  for_each pcs (fun pc => shared (cprintf (bytes_of_string " %p") [ArgInt pc]));;
  shared (modify (set_k_panicked 1)).

(** The frames from [ebp] on, with their return addresses. *)
Fixpoint stack_frames (m : gmap Z Z) (ebp : Z) (rets : list Z) : Prop :=
  match rets with
  | [] => 0 <= ebp < KERNBASE \/ ebp = 0xffffffff
  | r :: rets =>
      KERNBASE <= ebp < KERNBASE + PHYSTOP - 4 /\ ld32 m (ebp + 4 - KERNBASE) = r /\
      stack_frames m (ld32 m (ebp - KERNBASE)) rets
  end.

Definition pad10 (n : nat) (rets : list Z) : list Z := take n rets ++ replicate (n - length rets) 0.

Lemma callerpcs_run n ebp rets s :
  stack_frames (k_mem s) ebp rets -> callerpcs n ebp s = Ret (pad10 n rets) s.
Proof.
  intros Hf. apply run_of_wp. revert ebp rets Hf. induction n as [|n IH]; intros ebp rets Hf; cbn [callerpcs].
  - wp_steps. by destruct rets.
  - destruct rets as [|r rets]; cbn [stack_frames] in Hf.
    + replace ((ebp =? 0) || (ebp <? KERNBASE) || (ebp =? 0xffffffff)) with true; [by wp_steps|].
      symmetry. destruct Hf as [Hf| ->]; [|done]. zb. by rewrite orb_true_r.
    + destruct Hf as (He & Hr & Hf). unfold KERNBASE, PHYSTOP in *. zb. cbn [orb]. kstep. rewrite u32_small by lia.
      kstep; [unfold KERNBASE, PHYSTOP; lia|]. kstep. kstep; [unfold KERNBASE, PHYSTOP; lia|]. kstep. unfold KERNBASE.
      eapply wp_mono; [by apply IH|]. cbn. intros pcs t [-> ->]. unfold pad10. by rewrite Hr.
Qed.

(** ** Output *)

Definition sent (xs : list Z) : list Z := concat (cons_bytes <$> xs).

Lemma sent_app xs ys : sent (xs ++ ys) = sent xs ++ sent ys.
Proof. unfold sent. by rewrite fmap_app, concat_app. Qed.

Definition put (xs : list Z) (s : kstate) : kstate := set_k_out (k_out s ++ sent xs) s.

Lemma put_put xs ys s : put ys (put xs s) = put (xs ++ ys) s.
Proof. unfold put. cbn. by rewrite sent_app, app_assoc. Qed.

Lemma vcprintf_prefix p fmt args s :
  Forall (fun c => c <> 37) p -> k_panicked s = 0 -> vcprintf (p ++ fmt) args s = vcprintf fmt args (put p s).
Proof.
  intros Hp. revert s. induction Hp as [|c p Hc Hp IH]; intros s Hn.
  - unfold put. cbn. rewrite app_nil_r. by destruct s.
  - cbn [app vcprintf]. zb. cbn [negb]. erewrite bind_run by (by apply consputc_run). rewrite IH by done. f_equal.
    transitivity (put p (put [c] s)); [|by rewrite put_put]. f_equal. unfold put, sent. cbn. by rewrite app_nil_r.
Qed.

Definition is_plain (x : list Z) : bool := forallb (fun c => negb (c =? 37)) x.

Lemma is_plain_spec x : is_plain x = true -> Forall (fun c => c <> 37) x.
Proof.
  intros Hp. apply Forall_forall. intros c Hc%list_elem_of_In. apply (proj1 (forallb_forall _ _) Hp) in Hc.
  by apply negb_true_iff, Z.eqb_neq in Hc.
Qed.

(** A format with one number, without the lock. *)
Lemma cprintf_number p c q x (base : Z) (sign : bool) s :
  is_plain p = true -> is_plain q = true -> k_cons_locking s = 0 -> k_panicked s = 0 ->
  (c, base, sign) ∈ [(100, 10, true); (112, 16, false)] ->
  cprintf (p ++ 37 :: c :: q) [ArgInt x] s = Ret tt (put (p ++ int_bytes (s32 x) base sign ++ q) s).
Proof.
  intros Hp%is_plain_spec Hq%is_plain_spec Hl Hn Hc. apply run_of_wp. unfold cprintf. wp_steps. rewrite Hl. cbn [Z.eqb]. wp_steps.
  unfold wp. rewrite vcprintf_prefix by done.
  set_unfold in Hc. destruct Hc as [[= -> -> ->]|[[= -> -> ->]|[]]]; cbn [vcprintf Z.eqb Pos.eqb negb orb arg_int tail];
    unfold printint; do 2 (erewrite bind_run; [|first [reflexivity|by apply for_each_consputc_run]]);
    change (set_k_out (k_out ?t ++ concat (cons_bytes <$> ?l)) ?t) with (put l t);
    (rewrite vcprintf_plain by done); change (set_k_out (k_out ?t ++ concat (cons_bytes <$> ?l)) ?t) with (put l t);
    rewrite !put_put; done.
Qed.

(** What panic prints. *)
Definition report (id : Z) (msg rets : list Z) : list Z :=
  bytes_of_string "lapicid " ++ int_bytes (s32 id) 10 true ++ bytes_of_string ": panic: " ++ msg ++ [10] ++
  concat ((fun pc => 32 :: int_bytes (s32 pc) 16 false) <$> pad10 10 rets).

Lemma shared_run {A} (m : K A) a k s : m (oc_k s) = Ret a k -> shared m s = Ret a (mkOne k (oc_eflags s)).
Proof. intros Hm. unfold shared, lift. by rewrite Hm. Qed.

Lemma print_pcs pcs s :
  k_cons_locking (oc_k s) = 0 -> k_panicked (oc_k s) = 0 ->
  for_each pcs (fun pc => shared (cprintf (bytes_of_string " %p") [ArgInt pc])) s =
    Ret tt (mkOne (put (concat ((fun pc => 32 :: int_bytes (s32 pc) 16 false) <$> pcs)) (oc_k s)) (oc_eflags s)).
Proof.
  revert s. induction pcs as [|pc pcs IH]; intros [k fl] Hl Hn; cbn [for_each].
  - unfold put. cbn. rewrite app_nil_r. by destruct k.
  - erewrite bind_run; [|apply shared_run, (cprintf_number [32] 112 [] pc 16 false k); [done..|set_solver]].
    rewrite IH by done. cbn [oc_k oc_eflags]. rewrite put_put. cbn. by rewrite app_nil_r.
Qed.

Lemma cprintf_plain x s : is_plain x = true -> k_cons_locking s = 0 -> k_panicked s = 0 -> cprintf x [] s = Ret tt (put x s).
Proof.
  intros Hx%is_plain_spec Hl Hn. apply run_of_wp. unfold cprintf. wp_steps. rewrite Hl. cbn [Z.eqb]. wp_steps.
  eapply wp_of_run; [by apply vcprintf_plain|]. by wp_steps.
Qed.

(** Nothing is printed after a panic. *)
Lemma cprintf_frozen c fmt args s : c <> 37 -> k_cons_locking s = 0 -> k_panicked s <> 0 -> cprintf (c :: fmt) args s = Diverge.
Proof.
  intros Hc Hl Hn. unfold cprintf. erewrite bind_run by reflexivity. rewrite Hl. cbn [Z.eqb]. erewrite bind_run by reflexivity.
  cbn [vcprintf]. zb. cbn [negb]. unfold mbind, M_bind. by rewrite consputc_frozen.
Qed.

(** The state when panic goes into its endless loop. *)
Definition panicked_state (id : Z) (msg rets : list Z) (s : onecpu) : onecpu :=
  mkOne (set_k_panicked 1 (put (report id msg rets) (set_k_cons_locking 0 (oc_k s)))) (Z.land (oc_eflags s) (Z.lnot FL_IF)).

(** C13. A panic is reported once.  Whatever locks the processor holds, the
    console's included, the first panic prints the number of the processor, the
    message and the return addresses of the ten innermost calls, zeros in place of
    calls that are not there, without waiting for a lock; it then has interrupts
    off on its processor and the flag panicked set, and nothing else is changed but
    the output and the console's locking flag.  From then on a processor that
    prints anything stops at the first character, and so does a second panic,
    before it prints. *)
Theorem panic_reports (id v : Z) (msg rets : list Z) (s : onecpu) :
  is_plain msg = true -> 8 <= v < 4294967296 -> stack_frames (k_mem (oc_k s)) (v - 8) rets ->
  (k_panicked (oc_k s) = 0 ->
     panic_report id msg v s = Ret tt (panicked_state id msg rets s) /\
     has (oc_eflags (panicked_state id msg rets s)) FL_IF = false /\
     (forall c fmt args, c <> 37 -> cprintf (c :: fmt) args (oc_k (panicked_state id msg rets s)) = Diverge)) /\
  (k_panicked (oc_k s) <> 0 -> panic_report id msg v s = Diverge).
Proof.
  intros Hm Hv Hf. destruct s as [k fl]. cbn [oc_k oc_eflags] in *. set (k0 := set_k_cons_locking 0 k). split; intros Hn.
  - split_and!.
    + unfold panic_report, cli. erewrite bind_run by reflexivity. cbn [oc_k oc_eflags]. erewrite bind_run by (by apply shared_run).
      erewrite bind_run; [|apply shared_run, (cprintf_number (bytes_of_string "lapicid ") 100 (bytes_of_string ": panic: ") id 10 true k0); [done..|set_solver]].
      erewrite bind_run; [|by apply shared_run, cprintf_plain]. erewrite bind_run; [|by apply shared_run, cprintf_plain].
      unfold getcallerpcs. rewrite u32_small by lia. erewrite bind_run; [|by apply shared_run, (callerpcs_run _ _ rets)].
      erewrite bind_run; [|by apply print_pcs]. cbn [oc_k oc_eflags]. rewrite !put_put. unfold panicked_state, report. by rewrite <- !app_assoc.
    + unfold has, panicked_state. cbn [oc_eflags]. rewrite <- Z.land_assoc. by change (Z.land (Z.lnot FL_IF) FL_IF) with 0; rewrite Z.land_0_r.
    + intros c fmt args Hc. by apply cprintf_frozen.
  - unfold panic_report, cli. erewrite bind_run by reflexivity. cbn [oc_k oc_eflags]. erewrite bind_run by (by apply shared_run).
    unfold mbind, M_bind, shared at 1, lift. cbn [oc_k]. change (bytes_of_string "lapicid %d: panic: ") with (108 :: tail (bytes_of_string "lapicid %d: panic: ")).
    by rewrite cprintf_frozen.
Qed.

(** Two frames, of the panicking function and its caller, with the console's
    lock held. *)
Lemma panic_reports_witness :
  let m := st32 (st32 (st32 (st32 ∅ 0x200000 0x80200020) 0x200004 0x80101234) 0x200020 0) 0x200024 0x80105678 in
  let s := mkOne (set_k_mem m (set_k_locks [LK_cons] zero_kstate)) 0x202 in
  panic_report 0 (bytes_of_string "acquire") 0x80200008 s =
    Ret tt (mkOne (set_k_panicked 1 (put (bytes_of_string "lapicid 0: panic: acquire" ++ [10] ++ bytes_of_string " 80101234 80105678 0 0 0 0 0 0 0 0")
      (set_k_cons_locking 0 (oc_k s)))) 2).
Proof.
  intros m s. destruct (panic_reports 0 0x80200008 (bytes_of_string "acquire") [0x80101234; 0x80105678] s) as [H0 _].
  - reflexivity.
  - lia.
  - vm_compute. repeat first [split|reflexivity|discriminate|left].
  - destruct H0 as [-> _]; reflexivity.
Defined.
