(* ===== verification/FirstProc.v ===== *)
(** * The first process (proc.c, vm.c)

    userinit takes the first free entry of the process table and gives it a
    kernel stack, an address space with initcode in its first page, and the root
    directory. *)

From S2P Require Import Prelude Mmu Mem State Kernel Cprintf Kalloc Vm VmAlloc VmFork WmapUnmap WmapFault Sleeplock Bio BioCache FsInode FsFile Proc.

Section first.
Context `{KernelImage}.

(** ** inituvm *)

(** The page [w] holds the program [init], with zeros behind it. *)
Definition page_holds (m : gmap Z Z) (w : Z) (init : list Z) : Prop :=
  forall i, 0 <= i < 4096 -> ld8 m (w - KERNBASE + i) = u8 (nth (Z.to_nat i) init 0).

(** State [s'] after page 0 of the directory [d] got the page [w] with [init]. *)
Record init_loaded (d : Z) (s : kstate) (fl : list Z) (w : Z) (init : list Z) (s' : kstate) (fl' : list Z) : Prop := {
  il_inv : vm_inv d s' fl';
  il_pte : forall va, pte_of (k_mem s') d va = if decide (vpn va = 0) then user_pte w else pte_of (k_mem s) d va;
  il_page : page_ok w /\ (w ∈ fl) /\ (w ∉ fl') /\ ~ uses (k_mem s') d (w - KERNBASE);
  il_image : page_holds (k_mem s') w init;
  il_mem : forall a, ~ uses (k_mem s) d (frame_of a) -> frame_of a + KERNBASE ∉ fl -> ld8 (k_mem s') a = ld8 (k_mem s) a;
  il_uses : forall f, uses (k_mem s') d f -> uses (k_mem s) d f \/ f + KERNBASE ∈ fl;
  il_sub : forall v, v ∈ fl' -> v ∈ fl;
  il_cow : k_cow s' = <[PPN (w - KERNBASE) := 1]> (k_cow s);
  il_rest : exists m f c, s' = set_k_cow c (set_k_mem m (set_k_freelist f s));
}.

Lemma wp_inituvm d fl init (Q : unit -> kstate -> Prop) s :
  vm_inv d s fl -> LK_cow ∉ k_locks s -> (2 <= length fl)%nat -> Z.of_nat (length init) < 4096 ->
  has (pte_of (k_mem s) d 0) PTE_P = false ->
  (forall w s' fl', init_loaded d s fl w init s' fl' -> Q tt s') ->
  wp (inituvm (d + KERNBASE) init (Z.of_nat (length init))) Q s.
Proof.
  intros Hinv Hlc Hlen Hsz Habs HQ. destruct fl as [|w fl]; [cbn in Hlen; lia|].
  unfold inituvm, PGSIZE. zb. kstep. eapply wp_kalloc; [apply Hinv|apply Hinv|]. intros r Hz Hw Hn Hkm.
  destruct (page_ok_frame w Hw) as [(Ha & Hlo & Hhi) _]. pose proof (page_ok_kptr w Hw) as Hkp.
  kstep. kstep; [lia|]. fold PGSIZE. fold (taken s w r).
  destruct (vm_inv_taken _ _ _ _ _ Hinv Hkm) as (Hinv2 & Hnu & Hpte2 & _).
  rewrite V2P_spec by (unfold KERNBASE, PHYSTOP in *; lia). kstep. change 0 with (4096 * 0) at 1.
  eapply wp_mono; [eapply (wp_frame core); [apply mappages_core|];
    apply (wp_map_page d fl 0 (w - KERNBASE) (Z.lor PTE_W PTE_U)
      (fun _ s3 => exists fl3, pt_ext d (taken s w r) fl s3 fl3 /\
        forall va, pte_of (k_mem s3) d va = if decide (vpn va = 0) then user_pte w else pte_of (k_mem s) d va))|];
    [exact Hinv2|lia|exact Ha|unfold PHYSTOP in *; lia|done|by rewrite Hpte2| | |].
  { intros s3 fl3 Hext Hpte _. exists fl3. split; [done|]. intros va. rewrite Hpte, Hpte2. done. }
  { intros s3 _ _ ->. cbn in Hlen. lia. }
  intros r3 s3 [(fl3 & Hext & Hpte) Hcore].
  destruct (step_facts d s s3 w r fl fl3 Hinv Hkm Hext) as (_ & _ & Hsub & HU).
  assert (~ uses (k_mem s3) d (w - KERNBASE)) as Hnu3.
  { intros [Hx|Hx]%HU; [|rewrite Z.sub_add in Hx; done]. apply (vi_sep _ _ _ Hinv) in Hx. apply Hx. rewrite Z.sub_add. left. }
  rewrite Nat2Z.id, firstn_all. kstep. unfold kstore_bytes. rewrite is_kptr_true by lia. kstep. rewrite V2P_spec by (unfold KERNBASE, PHYSTOP in *; lia).
  set (s4 := set_k_mem _ s3).
  assert (forall a, frame_of a <> w - KERNBASE -> ld8 (k_mem s4) a = ld8 (k_mem s3) a) as Hm4.
  { intros a Hf. unfold s4. cbn [k_mem set_k_mem]. rewrite ld8_st_bytes, decide_False; [done|]. intros Hr. apply Hf, frame_of_spec; [done|lia]. }
  eapply wp_of_run; [apply set_count_run; unfold s4; cbn [k_locks set_k_mem]; by rewrite (pe_locks _ _ _ _ _ Hext)|].
  assert (vm_inv d s4 fl3) as Hinv4.
  { eapply vm_inv_change; [apply Hext|done|done|..].
    - intros a Hu. apply Hm4. congruence.
    - intros a v Hv E. apply Hm4. rewrite E. intros E2. apply Hn, Hsub. by replace w with v by lia. }
  apply (HQ w _ fl3). clear HQ. change (u8 1) with 1.
  assert (forall a, uses (k_mem s3) d (frame_of a) -> ld8 (k_mem s4) a = ld8 (k_mem s3) a) as Hm4' by (intros a Hu; apply Hm4; congruence).
  destruct (same_tables _ _ _ (vi_dir _ _ _ (pe_inv _ _ _ _ _ Hext)) Hm4') as (Hp4 & _ & HU4).
  destruct (core_mem_only s s3 Hcore (pe_locks _ _ _ _ _ Hext)) as (m & f & Es3).
  split; cbn [k_mem k_cow set_k_cow].
  - eapply vm_inv_irrel; [exact Hinv4|done..].
  - intros va. by rewrite Hp4, Hpte.
  - split_and!; [done|left|by intros ?%Hsub|by rewrite HU4].
  - intros i Hi. unfold s4. cbn [k_mem set_k_mem]. rewrite ld8_st_bytes. case_decide as Hin; [do 2 f_equal; lia|].
    rewrite nth_overflow by lia. rewrite (pe_mem _ _ _ _ _ Hext) by (by rewrite (frame_of_spec (w - KERNBASE)) by (done || lia)).
    by apply (taken_mem s w r Hw).
  - intros a Hu Hfl. rewrite Hm4 by (intros E; apply Hfl; rewrite E, Z.sub_add; left). by eapply (step_mem d s s3 w r fl fl3).
  - intros g [Hg|Hg]%HU4%HU; [by left|right; by right].
  - intros v Hv. right. by apply Hsub.
  - unfold s4. rewrite Es3. done.
  - unfold s4. rewrite Es3. by exists (st_bytes m (w - KERNBASE) init), f, (<[PPN (w - KERNBASE) := 1]> (k_cow s)).
Qed.

(** ** allocproc *)

Definition embryo (pid ks : Z) (pr : proc) : proc :=
  clear_wmap (set_p_context (mkCtx 0 0 0 0 forkret_va) (set_p_kstack ks (set_p_pid pid (set_p_state EMBRYO pr)))).

Lemma wp_allocproc i ks fl (Q : option nat -> kstate -> Prop) s :
  kmem_wf s (ks :: fl) -> k_locks s = [] -> find_proc is_unused (k_procs s) 0 = Some i ->
  (forall r, kmem_wf (set_k_freelist r s) fl -> page_ok ks ->
     Q (Some i) (set_k_freelist r (set_k_nextpid (s32 (k_nextpid s + 1)) (set_k_procs (alter (embryo (k_nextpid s) ks) i (k_procs s)) s)))) ->
  wp allocproc Q s.
Proof.
  intros Hkm Hl Hf HQ. unfold allocproc. kstep. kstep; [rewrite Hl; by apply not_elem_of_nil|]. kstep. kstep.
  cbn [k_procs set_k_locks]. rewrite Hf. kstep. kstep. kstep. kstep. kstep. kstep. kstep. kstep; [rewrite Hl; by apply not_elem_of_nil|].
  kstep. cbn [k_locks k_nextpid k_procs set_k_locks set_k_nextpid set_k_procs].
  eapply (wp_kalloc (ks :: fl)); [exact Hkm|cbn; rewrite Hl; by apply not_elem_of_nil|].
  intros r Hz Hks Hn Hkm'. do 2 kstep. zb. kstep. kstep. kstep. kstep. kstep.
  specialize (HQ r Hkm' Hks). cbn in HQ |- *. rewrite !list_alter_alter_eq. by destruct s.
Qed.

(** ** The root directory *)

Definition root_inode (ip : inode) : inode := set_i_dev ROOTDEV (set_i_inum ROOTINO (set_i_ref 1 (set_i_valid 0 ip))).

Lemma wp_iget_root j (Q : nat -> kstate -> Prop) s :
  k_locks s = [] -> iget_scan (k_icache s) 0 ROOTDEV ROOTINO None = inr (Some j) ->
  Q j (set_k_icache (alter root_inode j (k_icache s)) s) -> wp (iget ROOTDEV ROOTINO) Q s.
Proof.
  intros Hl Hs HQ. unfold iget. kstep. kstep; [rewrite Hl; by apply not_elem_of_nil|]. kstep. kstep. cbn [k_icache set_k_locks]. rewrite Hs.
  unfold modino. do 3 kstep. kstep; [rewrite Hl; by apply not_elem_of_nil|]. kstep. cbn. by destruct s.
Qed.

Lemma wp_namei_root j (Q : option nat -> kstate -> Prop) s :
  k_locks s = [] -> iget_scan (k_icache s) 0 ROOTDEV ROOTINO None = inr (Some j) ->
  Q (Some j) (set_k_icache (alter root_inode j (k_icache s)) s) -> wp (namei [47]) Q s.
Proof.
  intros Hl Hs HQ. unfold namei, namex. change (byte_at [47] =? 47) with true. cbv iota. do 2 kstep. apply (wp_iget_root j); [done..|].
  unfold iter. cbn [length namex_body]. change (skipelem [47]) with (@None (list Z * list Z)). cbv iota. do 4 kstep. exact HQ.
Qed.

(** ** userinit *)

(** The entry of the process table that userinit leaves. *)
Definition first_proc (pid ks pgdir : Z) (cwd : nat) (pr : proc) : proc :=
  set_p_state RUNNABLE (set_p_cwd (Some cwd) (put_name (safestrcpy (bytes_of_string "initcode") 16)
    (set_p_sz PGSIZE (set_p_tf init_tf (set_p_pgdir pgdir (embryo pid ks pr)))))).

(** The rest of the state. *)
Definition other_vars (k : kstate) : kstate :=
  set_k_locks [] (set_k_mem ∅ (set_k_freelist 0 (set_k_cow ∅ (set_k_procs [] (set_k_nextpid 0 (set_k_initproc None (set_k_icache [] k))))))).

(** [s'] has one process more than [s]: entry [i], with its kernel stack at [ks],
    its page directory in frame [d], initcode in the page [w], and the inode [j]. *)
Record first_process (s : kstate) (fl : list Z) (i j : nat) (pr : proc) (ks d w : Z) (s' : kstate) (fl' : list Z) : Prop := {
  fp_procs : k_procs s' = <[i := first_proc (k_nextpid s) ks (d + KERNBASE) j pr]> (k_procs s);
  fp_init : k_initproc s' = Some i;
  fp_icache : k_icache s' = alter root_inode j (k_icache s);
  fp_user : forall va, vpn va < 524288 -> pte_of (k_mem s') d va = if decide (vpn va = 0) then user_pte w else 0;
  fp_kernel : forall va, 524288 <= vpn va -> pte_of (k_mem s') d va = kmap_pte (rev kmap) va;
  fp_image : page_holds (k_mem s') w initcode;
  fp_inv : vm_inv d s' fl';
  fp_pages : page_ok ks /\ page_ok w /\ (ks ∈ fl) /\ (w ∈ fl) /\ (ks ∉ w :: fl') /\ (w ∉ fl') /\ ~ uses (k_mem s') d (w - KERNBASE) /\
    ~ uses (k_mem s') d (ks - KERNBASE);
  fp_cow : k_cow s' = <[PPN (w - KERNBASE) := 1]> (k_cow s);
  fp_mem : forall a, frame_of a + KERNBASE ∉ fl -> ld8 (k_mem s') a = ld8 (k_mem s) a;
  fp_rest : other_vars s' = other_vars s;
  fp_locks : k_locks s' = [];
}.

(** The variables that setupkvm does not write. *)
Definition kvm_core (s : kstate) : kstate := set_k_cow ∅ (core s).

Lemma setupkvm_core : Frame kvm_core setupkvm.
Proof.
  assert (forall ks d, Frame kvm_core (setupkvm_loop d ks)) as Hloop by (induction ks as [|[[[] ] ] ks IH]; intros d; cbn [setupkvm_loop]; frame_solve).
  frame_solve.
Qed.

Lemma kvm_core_mem_only s s' : kvm_core s' = kvm_core s -> k_locks s' = k_locks s -> k_cow s' = k_cow s -> mem_only s s'.
Proof.
  intros Hc Hl Hw. apply core_mem_only; [|done]. unfold kvm_core in Hc.
  transitivity (set_k_cow (k_cow s') (set_k_cow ∅ (core s'))); [by destruct s'|]. rewrite Hc, Hw. by destruct s.
Qed.

(** With enough pages, setupkvm makes a directory, and leaves the other pages. *)
Lemma wp_setupkvm_enough s fl n (Q : Z -> kstate -> Prop) :
  kmem_wf s fl -> k_locks s = [] -> (forall v, v ∈ fl -> count_at (k_cow s) (v - KERNBASE) = 0) ->
  0 < n -> KVM_PAGES + n <= Z.of_nat (length fl) ->
  (forall d s' fl', kmapped s fl d (rev kmap) s' fl' -> mem_only s s' -> n <= Z.of_nat (length fl') -> Q (d + KERNBASE) s') ->
  wp setupkvm Q s.
Proof.
  intros Hkm Hl Hc Hn Hlen HQ.
  eapply wp_mono; [eapply (wp_frame kvm_core); [apply setupkvm_core|];
    apply (wp_setupkvm_count s fl (fun v s2 => exists d fl2, v = d + KERNBASE /\ kmapped s fl d (rev kmap) s2 fl2 /\ n <= Z.of_nat (length fl2)));
    [done|rewrite Hl; apply not_elem_of_nil..|done|intros; lia|intros d s' fl' Hd Hl'; exists d, fl'; split_and!; [done..|lia]]|].
  intros v s' [(d & fl' & -> & Hd & Hl') Hcore]. apply (HQ d s' fl'); [done| |done].
  apply kvm_core_mem_only; [done|apply Hd..].
Qed.

(** The last part of userinit. *)
Definition filled (j : nat) (pr : proc) : proc :=
  set_p_state RUNNABLE (set_p_cwd (Some j) (put_name (safestrcpy (bytes_of_string "initcode") 16) (set_p_sz PGSIZE (set_p_tf init_tf pr)))).

Definition fill (p j : nat) (s : kstate) : kstate :=
  set_k_procs (alter (filled j) p (k_procs s)) (set_k_icache (alter root_inode j (k_icache s)) s).

Lemma wp_fill p j (Q : unit -> kstate -> Prop) s :
  k_locks s = [] -> iget_scan (k_icache s) 0 ROOTDEV ROOTINO None = inr (Some j) -> Q tt (fill p j s) ->
  wp (modproc p (fun pr => set_p_sz PGSIZE (set_p_tf init_tf pr));;
      modproc p (put_name (safestrcpy (bytes_of_string "initcode") 16));;
      cwd ← namei [47];
      modproc p (set_p_cwd cwd);;
      acquire LK_ptable;;
      modproc p (set_p_state RUNNABLE);;
      release LK_ptable) Q s.
Proof.
  intros Hl Hs HQ. do 5 kstep. apply (wp_namei_root j); [done..|]. do 3 kstep. kstep; [cbn; rewrite Hl; by apply not_elem_of_nil|].
  do 2 kstep. kstep; [cbn; rewrite Hl; by apply not_elem_of_nil|].
  match goal with |- Q tt ?t => replace t with (fill p j s); [done|] end.
  unfold fill. cbn. rewrite !list_alter_alter_eq. by destruct s.
Qed.

(** The states between the steps of userinit: with the embryo, and with its
    page directory. *)
Definition with_embryo (s : kstate) (i : nat) (ks r : Z) : kstate :=
  set_k_initproc (Some i) (set_k_freelist r (set_k_nextpid (s32 (k_nextpid s + 1))
    (set_k_procs (alter (embryo (k_nextpid s) ks) i (k_procs s)) s))).

Definition with_pgdir (i : nat) (d : Z) (s : kstate) : kstate :=
  set_k_procs (alter (set_p_pgdir (d + KERNBASE)) i (k_procs s)) s.

Lemma first_process_built s i j pr ks r fl d s2 fl2 w s4 fl4 :
  kmem_wf s (ks :: fl) -> k_locks s = [] -> k_procs s !! i = Some pr ->
  kmapped (with_embryo s i ks r) fl d (rev kmap) s2 fl2 -> mem_only (with_embryo s i ks r) s2 ->
  init_loaded d (with_pgdir i d s2) fl2 w initcode s4 fl4 ->
  first_process s (ks :: fl) i j pr ks d w (fill i j s4) fl4.
Proof.
  intros (_ & Hok & Hnd) Hl Hpr Hd (m & f & Es2) Hil.
  apply Forall_cons_1 in Hok as [Hks _]. apply NoDup_cons in Hnd as [Hnks _].
  destruct (il_rest _ _ _ _ _ _ _ Hil) as (m4 & f4 & c4 & Es4).
  destruct (nd_used _ _ _ _ (km_new _ _ _ _ _ _ Hd)) as (used & Efl & Hused).
  destruct (il_page _ _ _ _ _ _ _ Hil) as (Hw & Hw2 & Hw4 & Hnu).
  assert (forall v, v ∈ fl2 -> v ∈ fl) as Hsub by (intros v Hv; rewrite Efl; apply elem_of_app; by right).
  assert (forall g, uses (k_mem s2) d g -> g + KERNBASE ∈ fl) as Huses.
  { intros g Hg%Hused. rewrite Efl. apply elem_of_app. by left. }
  split; cbn [fill k_mem k_cow k_locks k_procs k_initproc k_icache set_k_procs set_k_icache].
  - rewrite Es4. cbn. rewrite Es2. cbn. rewrite !list_alter_alter_eq. by apply alter_is_insert.
  - by rewrite Es4, Es2.
  - by rewrite Es4, Es2.
  - intros va Hva. rewrite (il_pte _ _ _ _ _ _ _ Hil). case_decide; [done|]. cbn. by rewrite (km_pte _ _ _ _ _ _ Hd), kmap_user.
  - intros va Hva. rewrite (il_pte _ _ _ _ _ _ _ Hil), decide_False by lia. apply (km_pte _ _ _ _ _ _ Hd).
  - apply Hil.
  - eapply vm_inv_irrel; [apply Hil|done..].
  - split_and!; [done|done|left|right; auto| |done|done|].
    + intros [->|Hx]%elem_of_cons; [auto|]. apply Hnks, Hsub. by apply (il_sub _ _ _ _ _ _ _ Hil).
    + intros [Hx|Hx]%(il_uses _ _ _ _ _ _ _ Hil); [apply Huses in Hx|apply Hsub in Hx]; by rewrite Z.sub_add in Hx.
  - rewrite (il_cow _ _ _ _ _ _ _ Hil). cbn. by rewrite Es2.
  - intros a Ha. rewrite (il_mem _ _ _ _ _ _ _ Hil).
    + cbn. rewrite (km_mem _ _ _ _ _ _ Hd); [done|]. intros Hx. apply Ha. by right.
    + cbn. intros Hu%Huses. apply Ha. by right.
    + intros Hx. apply Ha. right. by apply Hsub.
  - rewrite Es4, Es2. by destruct s.
  - by rewrite Es4, Es2.
Qed.

(** What userinit starts from: the allocator has the pages, no lock is held, no
    free page is counted, and there is a free process entry and a free inode. *)
Record userinit_pre (s : kstate) (fl : list Z) (i j : nat) (pr : proc) : Prop := {
  up_kmem : kmem_wf s fl;
  up_locks : k_locks s = [];
  up_counts : forall v, v ∈ fl -> count_at (k_cow s) (v - KERNBASE) = 0;
  up_pages : KVM_PAGES + 3 < Z.of_nat (length fl);
  up_unused : find_proc is_unused (k_procs s) 0 = Some i;
  up_proc : k_procs s !! i = Some pr;
  up_inode : iget_scan (k_icache s) 0 ROOTDEV ROOTINO None = inr (Some j);
}.

(** With 71 free pages userinit returns, and it needs no disk. *)
Lemma wp_userinit s fl i j pr (Q : unit -> kstate -> Prop) :
  userinit_pre s fl i j pr ->
  (forall ks d w s' fl', first_process s fl i j pr ks d w s' fl' -> Q tt s') -> wp userinit Q s.
Proof.
  intros [Hkm Hl Hc Hlen Hf Hpr Hino] HQ. destruct fl as [|ks fl]; [cbn in Hlen; unfold KVM_PAGES in Hlen; lia|].
  unfold userinit. kstep. apply (wp_allocproc i ks fl); [done..|]. intros r Hkm1 Hks. do 3 kstep.
  fold (with_embryo s i ks r). do 2 kstep.
  apply (wp_setupkvm_enough (with_embryo s i ks r) fl 2); [exact Hkm1|done|intros v Hv; apply Hc; by right|done|cbn [length] in Hlen; lia|].
  intros d s2 fl2 Hd Hmo Hlen2. pose proof (nd_inv _ _ _ _ (km_new _ _ _ _ _ _ Hd)) as Hinv2. do 2 kstep. fold (with_pgdir i d s2).
  destruct (vi_dir _ _ _ Hinv2) as [(_ & ? & _) _].
  rewrite (proj2 (Z.eqb_neq (d + KERNBASE) 0)) by (unfold KERNBASE; lia). kstep.
  apply (wp_inituvm d fl2); [by eapply vm_inv_irrel| |lia|exact initcode_size| |].
  { cbn. rewrite (km_locks _ _ _ _ _ _ Hd). cbn. rewrite Hl. apply not_elem_of_nil. }
  { cbn. by rewrite (km_pte _ _ _ _ _ _ Hd), kmap_user. }
  intros w s4 fl4 Hil. destruct (il_rest _ _ _ _ _ _ _ Hil) as (m4 & f4 & c4 & Es4). destruct (Hmo) as (m & f & Es2).
  apply (wp_fill i j); [by rewrite Es4, Es2..|]. apply (HQ ks d w _ fl4).
  by eapply first_process_built.
Qed.
End first.
