(* ===== verification/Startup.v ===== *)
(** * Memory from the start of main to the first process (main.c)

    main gives the allocator the first 4 Mbytes, builds the kernel's page
    directory from them, starts the other processors on stacks from them, and only
    then frees the rest of memory and creates the first process.  The steps are
    put together here: none of them runs out of pages, and the kernel's directory
    stays as it was built. *)

From S2P Require Import Prelude Mmu Mem State Kernel Kalloc Vm VmAlloc VmFork WmapUnmap WmapFault FsInode Proc Devices Mp StartOthers FirstProc.

Section startup.
Context `{KernelImage}.

(** ** Counting pages *)

Lemma pages_at_least lo n fl :
  lo mod 4096 = 0 -> (forall v, v mod 4096 = 0 -> lo <= v < lo + 4096 * Z.of_nat n -> v ∈ fl) -> (n <= length fl)%nat.
Proof.
  intros Ha Hin. assert (page_range lo n ⊆+ fl) as Hl%submseteq_length.
  { apply NoDup_submseteq; [apply NoDup_fmap_2_strong; [intros; lia|apply NoDup_seq]|].
    intros v (i & Hi & ->)%elem_of_page_range. apply Hin; [|lia]. Z.div_mod_to_equations. lia. }
  unfold page_range in Hl. by rewrite length_map, length_seq in Hl.
Qed.

(** ** kinit1 and kvmalloc *)

Definition boot_vars (s : kstate) : kstate := set_k_use_lock 0 (kvm_core s).

Lemma kinit1_vars lo hi : Frame boot_vars (kinit1 lo hi).
Proof. frame_solve. Qed.
Lemma kinit2_vars lo hi : Frame boot_vars (kinit2 lo hi).
Proof. frame_solve. Qed.

(** The kernel's directory is at [d], and [fl] are the free pages. *)
Record kvm_built (s : kstate) (d : Z) (s1 : kstate) (fl : list Z) : Prop := {
  kb_inv : vm_inv d s1 fl;
  kb_low : forall v, v ∈ fl -> v < KERNBASE + 0x400000;
  kb_tables : forall f, uses (k_mem s1) d f -> 0x100000 <= f < 0x400000;
  kb_pages : NCPU <= Z.of_nat (length fl);
  kb_pte : forall va, pte_of (k_mem s1) d va = kmap_pte (rev kmap) va;
  kb_loaded : k_kpgdir s1 = d + KERNBASE /\ k_cr3 s1 = d;
  kb_cow : k_cow s1 = ∅;
  kb_locks : k_locks s1 = [];
  kb_rest : set_k_kpgdir 0 (set_k_cr3 0 (boot_vars s1)) = set_k_kpgdir 0 (set_k_cr3 0 (boot_vars s));
}.

Lemma wp_kinit1 s (Q : unit -> kstate -> Prop) :
  k_locks s = [] -> k_freelist s = 0 ->
  (forall s1 fl, kmem_wf s1 fl -> (forall v, v ∈ fl <-> v mod 4096 = 0 /\ k_end <= v < KERNBASE + 0x400000) ->
     k_cow s1 = ∅ -> k_locks s1 = [] -> boot_vars s1 = boot_vars s -> Q tt s1) ->
  wp (kinit1 k_end (P2V (4 * 1024 * 1024))) Q s.
Proof.
  intros Hl Hf HQ. pose proof k_end_range.
  eapply wp_mono; [eapply (wp_frame boot_vars); [apply kinit1_vars|]|].
  - unfold kinit1, init_cow, initlock. change (P2V (4 * 1024 * 1024)) with (KERNBASE + 0x400000). wp_steps. rewrite Hl.
    apply (wp_freerange_from _ _ []); [by apply kmem_wf_nil|by apply not_elem_of_nil|lia|done|unfold PHYSTOP; lia|by intros v ?%not_elem_of_nil|].
    intros s1 fl Hkm Hl1 Hc1 Hin _.
    refine (_ : (fun _ t => exists fl, kmem_wf t fl /\ k_locks t = [] /\ k_cow t = ∅ /\
      forall v, v ∈ fl <-> v mod 4096 = 0 /\ k_end <= v < KERNBASE + 0x400000) tt s1).
    exists fl. split_and!; [done..|]. intros v. rewrite Hin. split; [by intros [?%not_elem_of_nil|?]|by right].
  - intros [] s1 [(fl & ? & ? & ? & ?) ?]. by apply (HQ s1 fl).
Qed.

(** Room for the kernel's page tables and for the other processors' stacks
    between the end of the kernel and 4 Mbytes. *)
Definition room_below_4mb : Prop := k_end + 4096 * (KVM_PAGES + NCPU + 1) <= KERNBASE + 0x400000.

Lemma room_pages fl :
  room_below_4mb -> (forall v, v ∈ fl <-> v mod 4096 = 0 /\ k_end <= v < KERNBASE + 0x400000) -> KVM_PAGES + NCPU <= Z.of_nat (length fl).
Proof.
  intros Hr Hin. unfold room_below_4mb, KVM_PAGES, NCPU in *.
  pose proof (pages_at_least ((k_end + 4095) / 4096 * 4096) 75 fl) as Hl. cbn in Hl |- *. enough (75 <= length fl)%nat by lia. apply Hl.
  - apply Z_mod_mult.
  - intros v Hv Hlt. apply Hin. Z.div_mod_to_equations. lia.
Qed.

Lemma wp_kvmalloc s fl (Q : unit -> kstate -> Prop) :
  kmem_wf s fl -> (forall v, v ∈ fl -> v < KERNBASE + 0x400000) -> KVM_PAGES + NCPU <= Z.of_nat (length fl) ->
  k_locks s = [] -> k_cow s = ∅ -> (forall d s1 fl1, kvm_built s d s1 fl1 -> Q tt s1) -> wp kvmalloc Q s.
Proof.
  intros Hkm Hlow Hlen Hl Hc HQ. unfold kvmalloc. kstep.
  apply (wp_setupkvm_enough s fl NCPU); [done|done|by rewrite Hc|done|done|].
  intros d s1 fl1 Hd (m & f & Es1) Hlen1. unfold switchkvm. do 4 kstep.
  pose proof (km_new _ _ _ _ _ _ Hd) as Hn. destruct (vi_dir _ _ _ (nd_inv _ _ _ _ Hn)) as [(_ & ? & ?) _ _].
  destruct (nd_used _ _ _ _ Hn) as (used & Efl & Hused).
  apply (HQ d _ fl1). split; cbn.
  - eapply vm_inv_irrel; [apply Hn|done..].
  - intros v Hv. apply Hlow. rewrite Efl. apply elem_of_app. by right.
  - intros g Hg%Hused. assert (g + KERNBASE ∈ fl) as Hg2 by (rewrite Efl; apply elem_of_app; by left).
    apply Hlow in Hg2 as Hg3. pose proof (nd_ok _ _ _ _ Hn) as Hok. rewrite Forall_forall in Hok. destruct (Hok _ Hg2) as [_ ?].
    pose proof k_data_range. unfold KERNLINK, EXTMEM in *. lia.
  - done.
  - apply Hd.
  - split; [done|]. rewrite V2P_spec by (unfold KERNBASE, PHYSTOP in *; lia). lia.
  - by rewrite (km_cow _ _ _ _ _ _ Hd).
  - by rewrite (km_locks _ _ _ _ _ _ Hd).
  - by rewrite Es1.
Qed.

(** ** Between kvmalloc and kinit2 *)

(** What the calls in between may do to the kernel's memory: take pages, write
    outside the page tables and the free pages. *)
Record between (d : Z) (s1 : kstate) (fl : list Z) (s2 : kstate) : Prop := {
  bt_kmem : exists stacks rest, fl = stacks ++ rest /\ kmem_wf s2 rest;
  bt_tables : forall a, uses (k_mem s1) d (frame_of a) -> ld8 (k_mem s2) a = ld8 (k_mem s1) a;
  bt_cow : k_cow s2 = k_cow s1;
  bt_locks : k_locks s2 = k_locks s1;
  bt_kpgdir : k_kpgdir s2 = k_kpgdir s1;
  bt_procs : k_procs s2 = k_procs s1;
  bt_icache : k_icache s2 = k_icache s1;
}.

(** startothers does nothing else. *)
Lemma startothers_between d s s1 fl stacks rest s2 :
  kvm_built s d s1 fl -> fl = stacks ++ rest -> kmem_wf s2 rest -> kernel_kept s1 s2 -> between d s1 fl s2.
Proof.
  intros B Hfl Hkm [Hc Hl Hm].
  destruct (core_mem_only _ _ Hc Hl) as (m & f & E). split; try by rewrite E.
  - by exists stacks, rest.
  - intros a Hu%(kb_tables _ _ _ _ B). apply Hm. unfold frame_of in Hu. Z.div_mod_to_equations. lia.
Qed.

(** ** kinit2 *)

(** The state in which main calls userinit. *)
Record all_freed (d : Z) (s2 s3 : kstate) (fl : list Z) : Prop := {
  af_kmem : kmem_wf s3 fl;
  af_pages : forall v, v mod 4096 = 0 -> KERNBASE + 0x400000 <= v < KERNBASE + PHYSTOP -> v ∈ fl;
  af_sep : forall f, uses (k_mem s2) d f -> f + KERNBASE ∉ fl;
  af_tables : forall a, uses (k_mem s2) d (frame_of a) -> ld8 (k_mem s3) a = ld8 (k_mem s2) a;
  af_cow : k_cow s3 = k_cow s2;
  af_locks : k_locks s3 = k_locks s2;
  af_vars : boot_vars s3 = boot_vars s2;
}.

Lemma wp_kinit2 s d s1 fl s2 (Q : unit -> kstate -> Prop) :
  kvm_built s d s1 fl -> between d s1 fl s2 -> (forall s3 fl3, all_freed d s2 s3 fl3 -> Q tt s3) ->
  wp (kinit2 (P2V (4 * 1024 * 1024)) (P2V PHYSTOP)) Q s2.
Proof.
  intros B [(stacks & rest & Efl & Hkm) Ht Hc Hl _ _ _] HQ. pose proof k_end_range.
  destruct (same_tables _ _ _ (vi_dir _ _ _ (kb_inv _ _ _ _ B)) Ht) as (_ & _ & HU).
  assert (forall v, v ∈ rest -> v ∈ fl) as Hsub by (intros v Hv; rewrite Efl; apply elem_of_app; by right).
  eapply wp_mono; [eapply (wp_frame boot_vars); [apply kinit2_vars|]|].
  - unfold kinit2. change (P2V (4 * 1024 * 1024)) with (KERNBASE + 0x400000). change (P2V PHYSTOP) with (KERNBASE + PHYSTOP). wp_steps.
    apply (wp_freerange_from _ _ rest); [done|rewrite Hl, (kb_locks _ _ _ _ B); apply not_elem_of_nil|unfold PHYSTOP; lia|done|lia| |].
    { intros v Hv. by apply (kb_low _ _ _ _ B), Hsub. }
    intros s3 fl3 Hkm3 Hl3 Hc3 Hin Hmk. wp_steps.
    refine (_ : (fun _ t => boot_vars t = boot_vars s2 -> exists fl3, all_freed d s2 t fl3) tt _). intros Hv. exists fl3. split; try done.
    + intros v Hv1 Hv2. apply Hin. by right.
    + intros g Hg%HU. rewrite Hin. intros [Hx|Hx]; [by apply Hsub, (vi_sep _ _ _ (kb_inv _ _ _ _ B) g Hg) in Hx|].
      apply (kb_tables _ _ _ _ B) in Hg. lia.
    + intros a Hg%HU%(kb_tables _ _ _ _ B). apply Hmk. left. unfold frame_of in Hg. Z.div_mod_to_equations. lia.
  - intros [] s3 [Hx Hv]. destruct (Hx Hv) as [fl3 ?]. by apply (HQ s3 fl3).
Qed.

(** ** The first process *)

Lemma userinit_ready s d s1 fl s2 s3 fl3 i j pr :
  kvm_built s d s1 fl -> between d s1 fl s2 -> all_freed d s2 s3 fl3 ->
  find_proc is_unused (k_procs s) 0 = Some i -> k_procs s !! i = Some pr ->
  iget_scan (k_icache s) 0 ROOTDEV ROOTINO None = inr (Some j) -> userinit_pre s3 fl3 i j pr.
Proof.
  intros B T A Hf Hpr Hino.
  assert (k_procs s3 = k_procs s /\ k_icache s3 = k_icache s) as [Ep Ei].
  { change (k_procs s3) with (k_procs (boot_vars s3)). change (k_icache s3) with (k_icache (boot_vars s3)).
    rewrite (af_vars _ _ _ _ A). cbn. rewrite (bt_procs _ _ _ _ T), (bt_icache _ _ _ _ T).
    pose proof (kb_rest _ _ _ _ B) as Hr. by split; [apply (f_equal k_procs) in Hr|apply (f_equal k_icache) in Hr]. }
  split; rewrite ?Ep, ?Ei; try done.
  - apply A.
  - by rewrite (af_locks _ _ _ _ A), (bt_locks _ _ _ _ T), (kb_locks _ _ _ _ B).
  - intros v _. by rewrite (af_cow _ _ _ _ A), (bt_cow _ _ _ _ T), (kb_cow _ _ _ _ B).
  - enough (71 <= length fl3)%nat by (unfold KVM_PAGES; lia). apply (pages_at_least (KERNBASE + 0x400000)); [done|].
    intros v Hv Hlt. apply (af_pages _ _ _ _ A); [done|unfold PHYSTOP; lia].
Qed.

(** The kernel's directory from kvmalloc on. *)
Lemma kernel_dir_kept s d s1 fl s2 s3 fl3 i j pr ks pd w s4 fl4 :
  kvm_built s d s1 fl -> between d s1 fl s2 -> all_freed d s2 s3 fl3 -> first_process s3 fl3 i j pr ks pd w s4 fl4 ->
  k_kpgdir s4 = d + KERNBASE /\ forall va, pte_of (k_mem s4) d va = kmap_pte (rev kmap) va.
Proof.
  intros B T A P. split.
  - pose proof (f_equal k_kpgdir (fp_rest _ _ _ _ _ _ _ _ _ _ P)) as E4. pose proof (f_equal k_kpgdir (af_vars _ _ _ _ A)) as E3. cbn in E3, E4.
    rewrite E4, E3, (bt_kpgdir _ _ _ _ T). exact (proj1 (kb_loaded _ _ _ _ B)).
  - pose proof (vi_dir _ _ _ (kb_inv _ _ _ _ B)) as Hwf.
    destruct (same_tables _ _ _ Hwf (bt_tables _ _ _ _ T)) as (_ & _ & HU).
    destruct (same_tables (k_mem s1) (k_mem s4) d Hwf) as (Hp & _).
    + intros a Hu. rewrite (fp_mem _ _ _ _ _ _ _ _ _ _ P) by (apply (af_sep _ _ _ _ A); by apply HU).
      rewrite (af_tables _ _ _ _ A) by (by apply HU). by apply (bt_tables _ _ _ _ T).
    + intros va. rewrite Hp. apply (kb_pte _ _ _ _ B).
Qed.

(** C12. The start of the system.  From memory without free pages, main's calls of
    kinit1 and kvmalloc return, with the processor on a page directory that has
    exactly the kernel's mappings, and with a page below 4 Mbytes for the stack of
    every other processor.  If the calls up to kinit2 only take pages and write
    outside the page tables, the free pages and the tables of processes and inodes,
    as startothers does, kinit2 and userinit return as well.  Entry [i] of the
    process table is then a runnable process with a kernel stack of its own, the
    root directory and one page of user memory, which holds initcode and is counted
    once; no lock is held, and the kernel's directory is as it was. *)
Theorem startup_creates_init s i j pr :
  k_locks s = [] -> k_freelist s = 0 -> room_below_4mb ->
  find_proc is_unused (k_procs s) 0 = Some i -> k_procs s !! i = Some pr ->
  iget_scan (k_icache s) 0 ROOTDEV ROOTINO None = inr (Some j) ->
  exists s1 d fl, (kinit1 k_end (P2V (4 * 1024 * 1024));; kvmalloc) s = Ret tt s1 /\ kvm_built s d s1 fl /\
    forall s2, between d s1 fl s2 ->
      exists s3 s4 fl3 fl4 ks pd w,
        kinit2 (P2V (4 * 1024 * 1024)) (P2V PHYSTOP) s2 = Ret tt s3 /\ userinit s3 = Ret tt s4 /\
        first_process s3 fl3 i j pr ks pd w s4 fl4 /\
        k_kpgdir s4 = d + KERNBASE /\ forall va, pte_of (k_mem s4) d va = kmap_pte (rev kmap) va.
Proof.
  intros Hl Hf Hroom Hun Hpr Hino.
  enough (wp (kinit1 k_end (P2V (4 * 1024 * 1024));; kvmalloc) (fun _ s1 => exists d fl, kvm_built s d s1 fl) s)
    as ([] & s1 & Hrun1 & d & fl & B)%wp_inv.
  2: { kstep. apply wp_kinit1; [done..|]. intros s1 fl Hkm Hin Hc Hl1 Hv. apply (wp_kvmalloc s1 fl); [done|intros v [_ [_ ?]]%Hin; done|by apply room_pages|done|done|].
    intros d s2 fl2 [B1 B2 B3 B4 B5 B6 B7 B8 B9]. exists d, fl2. split; try done. by rewrite B9, Hv. }
  exists s1, d, fl. split_and!; [done..|]. intros s2 T.
  enough (wp (kinit2 (P2V (4 * 1024 * 1024)) (P2V PHYSTOP)) (fun _ s3 => exists fl3, all_freed d s2 s3 fl3) s2) as ([] & s3 & Hrun3 & fl3 & A)%wp_inv.
  2: { apply (wp_kinit2 s d s1 fl); [done..|]. intros s3 fl3 A. by exists fl3. }
  enough (wp userinit (fun _ s4 => exists ks pd w fl4, first_process s3 fl3 i j pr ks pd w s4 fl4) s3) as ([] & s4 & Hrun4 & ks & pd & w & fl4 & P)%wp_inv.
  2: { apply (wp_userinit s3 fl3 i j pr); [by eapply userinit_ready|]. intros ks pd w s4 fl4 P. by exists ks, pd, w, fl4. }
  exists s3, s4, fl3, fl4, ks, pd, w. split_and!; [done..| |].
  - eapply kernel_dir_kept; done.
  - eapply kernel_dir_kept; done.
Qed.
End startup.

(** ** Witness *)

Lemma startup_creates_init_witness :
  let K := sample_image in
  exists s1 d fl, (kinit1 k_end (P2V (4 * 1024 * 1024));; kvmalloc) zero_kstate = Ret tt s1 /\ kvm_built zero_kstate d s1 fl /\
    forall s2, between d s1 fl s2 ->
      exists s3 s4 fl3 fl4 ks pd w,
        kinit2 (P2V (4 * 1024 * 1024)) (P2V PHYSTOP) s2 = Ret tt s3 /\ userinit s3 = Ret tt s4 /\
        first_process s3 fl3 0 0 zero_proc ks pd w s4 fl4 /\
        k_kpgdir s4 = d + KERNBASE /\ forall va, pte_of (k_mem s4) d va = kmap_pte (rev kmap) va.
Proof.
  intros K. apply (startup_creates_init zero_kstate 0 0 zero_proc); try reflexivity.
  unfold room_below_4mb, KVM_PAGES, NCPU, KERNBASE. cbn. lia.
Defined.
